(* ===== verification/_CoqProject ===== *)
-Q . S2P
Prelude.v
Wire.v
Transport.v
Driver.v
SplitQueue.v
ControlQueue.v
CursorQueue.v
Pci.v
Bars.v
QueueSetup.v
Resources.v
Tracking.v
Display.v
Bringup.v
Accounts.v
Boot.v
Probes.v
Modes.v
Vga.v
VgaLife.v
Accel.v
AccelLife.v
AccelSpec.v
Accel2D.v
Client3D.v
ClientSpec.v
CGLContext.v
GLTranslator.v
GLSpec.v
Framebuffer.v
Screens.v
UserClient.v
Wiring.v
Typing.v
CommandBuffer.v
IOSurfaces.v
IOSurfaceOps.v
IOSurfaceLife.v
IOSurfaceSafe.v
IOSurfaceSpec.v
IOSurfacePixels.v
IOSurfaceUpkeep.v
IOSurfaceProps.v
IOSurfaceGpu.v
