(* ===== verification/Prelude.v ===== *)
(** * The virtio-gpu driver of VMQemuVGA, modelled and verified

    ** The program

    VMQemuVGA is a macOS kernel extension that drives QEMU's display devices.
    Its working path is the virtio-gpu driver: [VMVirtIOGPU]
    (src/FB/VMVirtIOGPU.cpp, VMVirtIOGPU.h) finds the device's registers
    through PCI, sets up two virtqueues, submits commands of the virtio-gpu
    protocol (src/FB/virtio_gpu.h) on them and keeps a pool of host resources;
    [VMVirtIOFramebuffer] (src/FB/VMVirtIOFramebuffer.cpp) shows one of them
    as the screen; [VMVirtIOGPUUserClient] (VMVirtIOGPU.cpp) exposes the rest
    to user space. The development follows this path from the ring to the
    screen and the user client. A second path, without a queue, serves QEMU's
    VGA and QXL cards: [VMQemuVGA] (VMQemuVGA.cpp) over the register driver
    [QemuVGADevice] (QemuVGADevice.cpp). Over both sits the 3D service,
    [VMQemuVGAAccelerator], with its own user client. Beside it stands the
    manager of surfaces that clients share, [VMIOSurfaceManager]. It is a
    shallow embedding: one definition per method, with the method's name.

    ** The files

    - [Prelude]: C integers (the [u8 .. u64] reductions), IOKit status codes,
      the state monad [M] with [hoare], [preserves] and [keeps] triples, their
      automation ([keeps_tac], the hint database [keeps]), little-endian
      bytes and packed fields, locks.
    - [Wire]: the command structs of virtio_gpu.h as [gpu_cmd], their bytes
      ([encode]) and a parser ([decode]) as the reference.
    - [Transport]: the interface between the driver's operations and the
      queue. [Transport T] is [submitCommand] as its callers see it,
      [TransportOk] the promises they use, [Host] a host that executes what it
      acknowledges. [scripted] and [host_machine] are concrete ones, used by
      the witnesses.
    - [Driver]: the fields of [VMVirtIOGPU] its operations share ([gpu]), the
      kernel memory they use ([mem]: allocations, prepares, references and
      mappings are counted), the world of a method ([world T], with the
      transport's state) and the lock triples ([lock_tac]).
    - [SplitQueue]: the virtqueue of VMVirtIOGPU.h's ring structs: descriptor
      free list, chains, layout, doorbell.
    - [ControlQueue]: [submitCommand], step by step; [cq_transport] shows that
      it implements [Transport] with [TransportOk].
    - [CursorQueue]: [submitCursorCommand], [updateCursor], [moveCursor].
    - [Pci], [Bars]: the capability walks, [mapBarByNumber],
      [readCommonConfig], the device configuration of [initVirtIOGPU].
    - [QueueSetup]: [negotiateFeatures], [setupControlVirtQueue],
      [setupCursorQueue], [teardownControlVirtQueue] as traces of register
      accesses.
    - [Bringup]: [initVirtIOGPU] and what it calls once the queue is there
      (queue buffers, notify region, 3D features), [getVRAMRange] and
      [cleanupVirtIOGPU], over the hardware side of [QueueSetup] and the world
      of [Driver]; [Boot] holds its theorems.
    - [Resources]: the pool of 64 resources and the operations on it.
    - [Display]: contexts, scanouts, transfers, feature queries, WebGL set-up.
    - [UserClient]: [VMVirtIOGPUUserClient], every selector of
      [externalMethod]; [Wiring] and [Typing] hold two of its invariants.
    - [Tracking]: a resource stays in the pool and on the host whatever is
      done to others. [Accounts]: the balance of kernel memory, the triples
      [bal] that follow it and the tactic [account_tac].
    - [Probes]: the two transport self-tests of the device,
      [probeCursorTransport] and [probeTransport3D], with the virgl commands
      of src/FB/virgl_protocol.h they send and the colour rounding they check.
    - [Modes]: the mode table of src/FB/VMVirtIOFramebuffer.cpp, its filter,
      and the answers about modes, connections and interrupts.
    - [Framebuffer]: [VMVirtIOFramebuffer] (same file) over the device: buffer,
      resource, mode changes, [enableController], refresh timer, and its
      invariant; [Screens] holds its theorems.
    - [Vga]: the Bochs registers ([QemuVGADevice]), the mode list of
      src/FB/modes.cpp and [VMQemuVGA]'s modes, custom mode and screen;
      [VgaLife] holds its theorems.
    - [Accel]: the 3D service user space opens, [VMQemuVGAAccelerator]
      (src/FB/VMQemuVGAAccelerator.cpp), over the device of [Display]: its
      pools of contexts and surfaces, framebuffers, presentation, the texture
      collection, [init], [stop] and [free]. [AccelLife] runs every operation
      symbolically against the invariant and the memory account, [AccelSpec]
      holds the theorems. [Accel2D]: its copies and fills of rectangles, over
      one memory of bytes, and the conversion of clock ticks.
    - [Client3D]: any number of [VMQemuVGA3DUserClient]s
      (VMQemuVGA3DUserClient.cpp) over one accelerator, with the dispatch
      table and [newUserClient]; [ClientSpec] holds the theorems.
    - [CGLContext]: [VMCGLContext] (src/FB/VMCGLContext.cpp), the OpenGL user
      client over the accelerator, with its dispatch table and its theorems.
    - [GLTranslator]: [VMOpenGLTranslator] (src/FB/VMOpenGLTranslator.cpp),
      which turns OpenGL calls into streams of virgl commands: batches of
      vertices, matrices, state, submission; [GLSpec] holds the theorems.
    - [IOSurfaces], [IOSurfaceOps]: [VMIOSurfaceManager]
      (src/FB/VMIOSurfaceManager.cpp, VMIOSurfaceManager_Helpers.cpp) over a
      kernel memory of its own, with live objects, their reference counts,
      buffers and their bytes: the lookup cache, ids, creation, destruction
      and [free]; then locks, pixels, clients, shares, eviction, compaction,
      checks and pools. [IOSurfaceLife] holds the invariant ([minv] of the
      tables, [dinv] of the cache) and runs creation and destruction against
      it, [IOSurfaceSafe] every other operation; [IOSurfaceSpec] sessions and
      their theorems, [IOSurfacePixels] what is written pixel by pixel,
      [IOSurfaceUpkeep] sorting and compaction. [IOSurfaceProps]:
      [getSurfaceDescriptor] and its cache. [IOSurfaceGpu]: the records of
      bindings, textures and GPU resources, video surfaces and their decoders.
    - [CommandBuffer]: [VMCommandBuffer] and its pool
      (src/FB/VMCommandBuffer.cpp) over reference-counted objects.

    ** How state and effects are modelled

    An object's members are the fields of a record; a method is a function in
    [M], so "the method returns" is totality, and a triple is total
    correctness. A pointer member that is only tested for null is a boolean or
    an option. Integers are [Z] with the reduction of the C type written where
    the code computes; bytes are [list Z]. Status codes are [IOReturn];
    [kIOReturnOther] is a code an IOKit call hands back.

    What is not under src/ is a parameter. [OSArray] and [OSDictionary] are lists and
    finite maps that retain what they hold, as documented. The device: in [ControlQueue] and
    [CursorQueue] a function [env] that may rewrite the shared memory at each
    look of the driver, over which the theorems quantify; in [QueueSetup] and
    [Pci] the registers, as functions of the writes so far. The kernel: the
    answers of allocations, mappings and [getPhysicalSegment] are lists in the
    state. From [Resources] on, the queue is any [Transport]; where a theorem
    needs the host to have executed what it acknowledged, its hypothesis is
    the class [Host], and [host_machine] is an instance. Completion is
    polled, and [submitCommand] and [submitCursorCommand] hold their queue's
    lock throughout, so submissions do not overlap; above them a method is one
    step, and interleavings are those of whole method calls, in any order.

    ** What the theorems show

    - The queue: every submission returns with the free list, the lock and the
      configuration as they were ([submitCommand_settles],
      [submitCursorCommand_settles]); when it times out exactly
      ([submitCommand_timeout_iff]); with a prompt device it refines a remote
      procedure call ([control_queue_refines_rpc]); where its promise ends
      ([late_completion_accepted]) and what it loses ([submitCommand_temp]).
    - Set-up: layout, register order, feature bits, released memory on every
      path, capability walks, mapping cache.
    - The bring-up: references to mappings and to queue buffers
      ([bringup_references], [queue_buffers_accounted]), the doorbell inside
      its mapping ([notify_region_bounds]), reset before any other register
      write ([initVirtIOGPU_resets]), limits whatever the device says
      ([initVirtIOGPU_limits]), the search for video memory
      ([getVRAMRange_spec]).
    - The pool: soundness over any sequence of operations
      ([driver_pool_sound]), each operation's effect and frame, lock
      discipline ([driver_unlocks]), balanced memory.
    - Commands: round trip of every command ([decode_encode]); scatter lists
      that cover the memory; [client_commands_typed].
    - The user client: bounds of its arguments, its table as a finite map,
      wired memory accounted for over any session ([user_memory_accounted]).
    - The framebuffer: from [start] on, over any operations and refusals of
      the host, its resource has the size of the current mode, in the buffer
      chosen at the start ([framebuffer_life], [setDisplayMode_spec],
      [try_ceilings_spec]); [enableController] returns; how often the
      screen is sent ([refresh_throttle]); the modes offered are those that
      fit ([filter_modes_spec], [advertised_modes_described]).
    - The VGA and QXL framebuffer: the invariant of its mode list and registers
      over any calls ([vga_life]), the custom mode and back
      ([custom_mode_round]), a mode change ([vga_setDisplayMode_spec]), what
      another host's screen keeps ([switched_screen_frozen]) and what a custom
      mode may ask for ([custom_mode_exceeds_vram]).
    - The accelerator, on a framebuffer that has a device
      ([deviceless_service_panics] without): its invariant over any session, from
      [init] on ([accelerator_sound]); the memory it gives back at the end of its life
      ([accelerator_returns_memory]) and the host resources it does not
      ([teardown_keeps_host_resources]); a surface made and destroyed
      ([surface_roundtrip]), framebuffers ([createFramebuffer_spec]), what a
      collection keeps ([collect_spec]); when a surface is shown within its
      buffer and video memory ([present_in_bounds]) and when not
      ([present_out_of_bounds]). A copy between rectangles copies every pixel
      and nothing else ([blitSurfaceAccelerated_copies]), except downwards
      ([scroll_down_repeats]); a fill paints ([fillSurfaceAccelerated_paints]).
    - The CGL client: over its methods, a client that says it has a context has
      one of its own ([cgl_context_owned]), but no call of user space makes one
      ([cgl_never_opens]), and shared memory stays wired
      ([shared_memory_stays_wired]).
    - The translator: between [glBegin] and [glEnd] the host is sent the
      caller's vertices in batches ([immediate_mode_batches]); every stream
      that reaches the host, up to 65536 dwords, is one command whose header
      announces its payload ([every_stream_framed]; [upload_framing] says which
      uploads are longer); what a batch leaves with the host
      ([drawn_buffers_stay]) and the life of the object ([init_then_free]).
    - The 3D clients: none touches another's context or any surface
      ([clients_isolated]); what they cannot do
      ([user_submission_never_sent], [create_surface_answers_caller]).
    - The surfaces: over any session that uses no id destroyed since the last
      flush of the lookup cache and no rectangle whose corners exceed 32 bits, no
      dangling pointer is read, no byte outside a buffer is touched, tables, objects, buffers and the memory account agree
      ([surfaces_sound]), and the cached lookup is the table's
      ([findSurface_refines_map]); creation is all or nothing
      ([createSurface_all_or_nothing]), a fill paints its rectangle
      ([fillSurfaceRegion_paints]), a conversion has an inverse
      ([conversion_round_trip]), the descriptor cache is transparent while no
      surface changes ([property_cache_transparent]). What goes wrong outside:
      [destroyed_id_dangles], [wrapped_region_faults], [shares_survive_recycling],
      [compactSurfaceMemory_frees_nothing], [free_leaks_buffers],
      [converted_descriptor_stale]. A texture made from a surface serves every
      surface of its shape ([texture_round_trip]); the records agree in mixed
      sessions ([gpu_records_sound]), their structs leak
      ([gpu_records_leak]), and no video surface can be made
      ([createVideoSurface_never_succeeds]; [decoder_round_trip]).
    - The pool of command buffers refines a bounded first-in first-out queue
      ([fifo_step]) and hands out buffers that are as new, whatever their last
      holder left in them ([command_pool_sound]); recording a command overruns
      its struct ([recording_overruns]).
    - The self-tests: the 3D one leaves no trace in the driver on any path, and
      none on a host that destroys what it is asked to, and passes
      exactly when both clears are read back ([probeTransport3D_traceless],
      [probeTransport3D_pass]); what it takes for a pass
      ([probeTransport3D_silent_host]); what the cursor one leaves
      ([probeCursorTransport_leftover]).
    - Behaviours the code does not mean to have are theorems too
      ([executeCommands_stale_header], [resourceUnref_breaks_pool],
      [createResource3D_leaks], ...).

    ** Bounds and fuel

    [poll] runs the source's 150 iterations, each one look. The cursor queue's wait is bounded by a clock; its fuel is any
    number at which the clock has expired. The capability walks use 189 steps,
    which suffice for every list that ends, since it visits no pointer twice
    and pointers lie in 0x40 .. 0xfb ([findVirtIOCapability_first]); lists that do not end are the
    subject of [cap_walks_diverge]. Rings have at most 256 entries, pools 64
    slots, scatter walks end with their list. The accelerator's sessions have
    fewer than 2^28 operations (and [running n] leaves room for [n] more), so
    that its 32-bit ids and doubled capacities do not wrap; its sweeps run over
    the slots of a pool. The surface manager's sessions have fewer than 2^28
    operations too: [minv n] leaves room for [n] more counts, and an operation
    takes at most three; its sorts and sweeps run over lists. A batch of the
    translator has at most 10000 vertices of 12 floats, and a command's length
    is a field of 16 bits.

    ** Not modelled

    Logging, hex dumps, counters nothing reads, property publishing; the
    order of [start] around the modelled operations, timer creation, [newUserClient], AGDC and power state of the
    framebuffer; the accelerator's render passes, draws and clears, which fill
    command structs that nothing reads back, and [start]'s managers and
    properties; the surface manager's snapshots and
    benchmarks, and its methods that write through an object taken for a struct
    of another layout; the shader, texture and API-bridge managers, which
    simulate their backends and are off the working path;
    [VMQemuVGA]'s probe, power states, scan for a VirtIO device and canvas;
    the vendored IOGraphics sources; user-space tools. *)
From stdpp Require Export base numbers list gmap.
From Stdlib Require Export ZArith Lia.
#[global] Open Scope Z_scope.
#[export] Set Warnings "-clear-no-such-hyp".

(** * Machine integers

    The driver's integers are unsigned C types; an arithmetic result is
    reduced at the width of the type that holds it. *)
Definition u8 (z : Z) : Z := z mod 2 ^ 8.
Definition u16 (z : Z) : Z := z mod 2 ^ 16.
Definition u32 (z : Z) : Z := z mod 2 ^ 32.
Definition u64 (z : Z) : Z := z mod 2 ^ 64.

Lemma u16_range z : 0 <= u16 z < 65536.
Proof. apply Z.mod_pos_bound. lia. Qed.
Lemma u32_range z : 0 <= u32 z < 4294967296.
Proof. apply Z.mod_pos_bound. lia. Qed.
Lemma u64_range z : 0 <= u64 z < 18446744073709551616.
Proof. apply Z.mod_pos_bound. lia. Qed.
Lemma u16_small z : 0 <= z < 65536 -> u16 z = z.
Proof. intros. by apply Z.mod_small. Qed.
Lemma u32_small z : 0 <= z < 4294967296 -> u32 z = z.
Proof. intros. by apply Z.mod_small. Qed.
Lemma u64_small z : 0 <= z < 18446744073709551616 -> u64 z = z.
Proof. intros. by apply Z.mod_small. Qed.

(** * IOKit return codes

    The codes the driver itself returns, and [kIOReturnOther] for a code an
    IOKit call (such as [prepare]) hands back. *)
Inductive IOReturn :=
| kIOReturnSuccess
| kIOReturnError
| kIOReturnNoMemory
| kIOReturnNoResources
| kIOReturnBadArgument
| kIOReturnUnsupported
| kIOReturnVMError
| kIOReturnBusy
| kIOReturnTimeout
| kIOReturnNotReady
| kIOReturnNoSpace
| kIOReturnNotPermitted
| kIOReturnNotFound
| kIOReturnNotOpen
| kIOReturnInternalError
| kIOReturnIOError
| kIOReturnOther (code : Z).

#[global] Instance IOReturn_eq_dec : EqDecision IOReturn.
Proof. solve_decision. Defined.

Definition is_success (r : IOReturn) : bool := bool_decide (r = kIOReturnSuccess).

Lemma is_success_true r : is_success r = true <-> r = kIOReturnSuccess.
Proof. apply bool_decide_eq_true. Qed.
Lemma is_success_false r : is_success r = false <-> r <> kIOReturnSuccess.
Proof. apply bool_decide_eq_false. Qed.

(** * A state monad for the driver's methods *)
Definition M (S A : Type) : Type := S -> A * S.
Definition ret {S A} (a : A) : M S A := fun s => (a, s).
Definition bind {S A B} (m : M S A) (k : A -> M S B) : M S B :=
  fun s => let '(a, s') := m s in k a s'.
Definition gets {S A} (f : S -> A) : M S A := fun s => (f s, s).
Definition modify {S} (f : S -> S) : M S unit := fun s => (tt, f s).

Declare Scope drv_scope.
Delimit Scope drv_scope with drv.
Notation "'let!' x ':=' m 'in' k" := (bind m (fun x => k))
  (at level 10, x pattern, m at level 100, k at level 200) : drv_scope.
Notation "m ;;; k" := (bind m (fun _ => k))
  (at level 100, k at level 200, right associativity) : drv_scope.
#[global] Open Scope drv_scope.

(** Partial correctness triples; every method here is a total function, so a
    triple is also total correctness. *)
Definition hoare {S A} (P : S -> Prop) (m : M S A) (Q : A -> S -> Prop) : Prop :=
  forall s, P s -> Q (m s).1 (m s).2.

Create HintDb drv.

Lemma hoare_ret {S A} (Q : A -> S -> Prop) (a : A) : hoare (Q a) (ret a) Q.
Proof. by intros s H. Qed.
Lemma hoare_gets {S A} (f : S -> A) (Q : A -> S -> Prop) :
  hoare (fun s => Q (f s) s) (gets f) Q.
Proof. by intros s H. Qed.
Lemma hoare_modify {S} (f : S -> S) (Q : unit -> S -> Prop) :
  hoare (fun s => Q tt (f s)) (modify f) Q.
Proof. by intros s H. Qed.
Lemma hoare_bind {S A B} (P : S -> Prop) (m : M S A) (k : A -> M S B)
    (R : A -> S -> Prop) (Q : B -> S -> Prop) :
  hoare P m R -> (forall a, hoare (R a) (k a) Q) -> hoare P (bind m k) Q.
Proof.
  intros Hm Hk s HP. unfold bind. specialize (Hm s HP).
  destruct (m s) as [a s']. by apply (Hk a s').
Qed.
Lemma hoare_weaken {S A} (P P' : S -> Prop) (m : M S A) (Q Q' : A -> S -> Prop) :
  hoare P' m Q' -> (forall s, P s -> P' s) -> (forall a s, Q' a s -> Q a s) -> hoare P m Q.
Proof. intros H HP HQ s Hs. by apply HQ, H, HP. Qed.

(** An invariant of a method: it holds after if it held before. *)
Definition preserves {S A} (I : S -> Prop) (m : M S A) : Prop :=
  hoare I m (fun _ => I).

Lemma preserves_ret {S A} (I : S -> Prop) (a : A) : preserves I (ret a).
Proof. by intros s H. Qed.
Lemma preserves_gets {S A} (I : S -> Prop) (f : S -> A) : preserves I (gets f).
Proof. by intros s H. Qed.
Lemma preserves_modify {S} (I : S -> Prop) (f : S -> S) :
  (forall s, I s -> I (f s)) -> preserves I (modify f).
Proof. intros H s Hs. by apply H. Qed.
Lemma preserves_bind {S A B} (I : S -> Prop) (m : M S A) (k : A -> M S B) :
  preserves I m -> (forall a, preserves I (k a)) -> preserves I (bind m k).
Proof. intros Hm Hk. by eapply hoare_bind. Qed.
Lemma preserves_if {S A} (I : S -> Prop) (b : bool) (m1 m2 : M S A) :
  preserves I m1 -> preserves I m2 -> preserves I (if b then m1 else m2).
Proof. by destruct b. Qed.

(** Programs that are equal at every state. *)
Lemma bind_bind {S A B C} (m : M S A) (k : A -> M S B) (k' : B -> M S C) w :
  bind (bind m k) k' w = bind m (fun x => bind (k x) k') w.
Proof. unfold bind. by destruct (m w). Qed.
Lemma hoare_ext {S A} (m m' : M S A) P Q : (forall w, m w = m' w) -> hoare P m' Q -> hoare P m Q.
Proof. intros Hm Hh w Hw. rewrite Hm. by apply Hh. Qed.
Lemma hoare_bind_ext {S A B} (m : M S A) (g f : A -> M S B) P Q :
  (forall x w, f x w = g x w) -> hoare P (bind m g) Q -> hoare P (bind m f) Q.
Proof.
  intros Hfg Hh w Hw. specialize (Hh w Hw). unfold bind in *. destruct (m w) as [x w']. by rewrite Hfg.
Qed.

#[export] Hint Resolve preserves_ret preserves_gets preserves_bind preserves_if : drv.

(** Methods that keep a part [p] of the state, whatever it is. *)
Definition keeps {S V A} (p : S -> V) (m : M S A) : Prop :=
  forall v, preserves (fun s => p s = v) m.

Section keeps.
Context {S V : Type} (p : S -> V).
Lemma keeps_ret {A} (a : A) : keeps p (ret a).
Proof. intros v. apply preserves_ret. Qed.
Lemma keeps_gets {A} (f : S -> A) : keeps p (gets f).
Proof. intros v. apply preserves_gets. Qed.
Lemma keeps_bind {A B} (m : M S A) (k : A -> M S B) :
  keeps p m -> (forall a, keeps p (k a)) -> keeps p (bind m k).
Proof. intros Hm Hk v. apply preserves_bind; [apply Hm|]. intros a. apply Hk. Qed.
Lemma keeps_modify f : (forall s, p (f s) = p s) -> keeps p (modify f).
Proof. intros H v. apply preserves_modify. intros s <-. apply H. Qed.
Lemma keeps_eq {A} (m : M S A) s : keeps p m -> p (m s).2 = p s.
Proof. intros H. by apply (H (p s) s). Qed.
Lemma keeps_preserves {A} (P : V -> Prop) (m : M S A) :
  keeps p m -> preserves (fun s => P (p s)) m.
Proof. intros H s HP. by rewrite (keeps_eq m s H). Qed.
End keeps.

Create HintDb keeps.
#[export] Hint Resolve keeps_ret keeps_gets : keeps.
(** Case analysis on a discriminee of the goal. *)
Ltac goal_case :=
  match goal with
  | |- context [match ?x with _ => _ end] => is_var x; destruct x
  | |- context [match ?x with _ => _ end] => destruct x eqn:?
  end.
Ltac keeps_tac :=
  repeat first [ solve [auto with keeps] | apply keeps_bind; [|intros ?] | goal_case ].

(** * Searching a list
    The index of the first element a test accepts. *)
Fixpoint index_of {A} (f : A -> bool) (l : list A) : option nat :=
  match l with
  | [] => None
  | x :: l' => if f x then Some 0%nat else S <$> index_of f l'
  end.

Lemma index_of_Some {A} (f : A -> bool) l i :
  index_of f l = Some i -> exists x, l !! i = Some x /\ f x = true
    /\ forall j y, (j < i)%nat -> l !! j = Some y -> f y = false.
Proof.
  revert i. induction l as [|x l IH]; intros i; cbn; [done|].
  destruct (f x) eqn:E.
  - intros [= <-]. exists x. split_and!; [done|done|lia].
  - destruct (index_of f l) as [k|]; [|done]. cbn. intros [= <-].
    destruct (IH k eq_refl) as (y & H1 & H2 & H3). exists y. split_and!; [done|done|].
    intros [|j] z Hj Hz; [by simplify_eq/=|]. apply (H3 j); [lia|done].
Qed.

Lemma index_of_None {A} (f : A -> bool) l :
  index_of f l = None <-> forall i x, l !! i = Some x -> f x = false.
Proof.
  induction l as [|x l IH]; cbn; [done|]. destruct (f x) eqn:E.
  - split; [done|]. intros H. specialize (H 0%nat x eq_refl). congruence.
  - destruct (index_of f l); cbn.
    + split; [done|]. intros H. exfalso. enough (Some n = None) by done.
      apply IH. intros i y Hy. by apply (H (S i)).
    + split; [|done]. intros _ [|i] y Hy; [by simplify_eq/=|]. by apply (proj1 IH eq_refl i).
Qed.

(** * Little-endian bytes *)
Fixpoint le_bytes (n : nat) (z : Z) : list Z :=
  match n with
  | O => []
  | S n' => z mod 256 :: le_bytes n' (z / 256)
  end.

Fixpoint le_val (bs : list Z) : Z :=
  match bs with
  | [] => 0
  | b :: bs' => b + 256 * le_val bs'
  end.

Lemma length_le_bytes n z : length (le_bytes n z) = n.
Proof. revert z. induction n; intros; cbn; auto. Qed.

Lemma le_val_le_bytes n z : 0 <= z < 256 ^ Z.of_nat n -> le_val (le_bytes n z) = z.
Proof.
  revert z. induction n as [|n IH]; intros z Hz; cbn [le_bytes le_val].
  - simpl in Hz. lia.
  - rewrite Nat2Z.inj_succ, Z.pow_succ_r in Hz by lia.
    rewrite IH; [pose proof (Z_div_mod_eq_full z 256); lia|].
    split; [apply Z.div_pos; lia | apply Z.div_lt_upper_bound; lia].
Qed.

(** A struct on the wire: fields of given byte widths, in order, unpadded. *)
Definition field : Type := nat * Z.
Fixpoint enc_fields (fs : list field) : list Z :=
  match fs with
  | [] => []
  | (w, v) :: fs' => le_bytes w v ++ enc_fields fs'
  end.
Fixpoint dec_fields (ws : list nat) (bs : list Z) : option (list Z * list Z) :=
  match ws with
  | [] => Some ([], bs)
  | w :: ws' =>
      if decide (w <= length bs)%nat then
        match dec_fields ws' (drop w bs) with
        | Some (vs, rest) => Some (le_val (take w bs) :: vs, rest)
        | None => None
        end
      else None
  end.
Definition field_ok (f : field) : Prop := 0 <= f.2 < 256 ^ Z.of_nat f.1.
Definition fields_size (fs : list field) : nat := sum_list (fs.*1).

Lemma length_enc_fields fs : length (enc_fields fs) = fields_size fs.
Proof.
  unfold fields_size. induction fs as [|[w v] fs IH]; [done|].
  cbn. rewrite length_app, length_le_bytes, IH. done.
Qed.

Lemma enc_fields_app fs1 fs2 : enc_fields (fs1 ++ fs2) = enc_fields fs1 ++ enc_fields fs2.
Proof.
  induction fs1 as [|[w v] fs1 IH]; [done|]. cbn. by rewrite IH, app_assoc.
Qed.

Lemma dec_enc_fields fs rest :
  Forall field_ok fs -> dec_fields (fs.*1) (enc_fields fs ++ rest) = Some (fs.*2, rest).
Proof.
  induction fs as [|[w v] fs IH]; intros Hok; [done|].
  inversion Hok as [|? ? Hf Hfs]; subst. rewrite !fmap_cons. cbn [dec_fields enc_fields fst snd].
  assert (Hl : length (le_bytes w v) = w) by apply length_le_bytes.
  rewrite <- app_assoc.
  rewrite decide_True by (rewrite length_app; lia).
  rewrite drop_app_length' by done. rewrite take_app_length' by done.
  rewrite (IH Hfs). rewrite le_val_le_bytes by exact Hf. done.
Qed.

(** * Kernel locks

    An [IOLock]: locking a held lock deadlocks the thread. *)
Inductive lock_state := Unlocked | Locked | Deadlocked.

Definition lock_acquire (l : lock_state) : lock_state :=
  match l with Unlocked => Locked | Locked | Deadlocked => Deadlocked end.
Definition lock_release (l : lock_state) : lock_state :=
  match l with Locked => Unlocked | Unlocked => Unlocked | Deadlocked => Deadlocked end.
