(* ===== verification/Wire.v ===== *)
(** The virtio-gpu wire protocol of [FB/virtio_gpu.h]: the command structs the
    driver builds, as records with the header's field order and widths; their
    bytes ([encode]); a reference parser for them ([decode]); and the round
    trip and the struct sizes that the header's compile-time guards assert. *)
From S2P Require Import Prelude.

(** * Command, response and format codes *)
Definition VIRTIO_GPU_CMD_RESOURCE_CREATE_2D : Z := 0x101.
Definition VIRTIO_GPU_CMD_RESOURCE_UNREF : Z := 0x102.
Definition VIRTIO_GPU_CMD_SET_SCANOUT : Z := 0x103.
Definition VIRTIO_GPU_CMD_RESOURCE_FLUSH : Z := 0x104.
Definition VIRTIO_GPU_CMD_TRANSFER_TO_HOST_2D : Z := 0x105.
Definition VIRTIO_GPU_CMD_RESOURCE_ATTACH_BACKING : Z := 0x106.
Definition VIRTIO_GPU_CMD_RESOURCE_DETACH_BACKING : Z := 0x107.
Definition VIRTIO_GPU_CMD_GET_CAPSET_INFO : Z := 0x108.
Definition VIRTIO_GPU_CMD_GET_CAPSET : Z := 0x109.
Definition VIRTIO_GPU_CMD_CTX_CREATE : Z := 0x200.
Definition VIRTIO_GPU_CMD_CTX_DESTROY : Z := 0x201.
Definition VIRTIO_GPU_CMD_CTX_ATTACH_RESOURCE : Z := 0x202.
Definition VIRTIO_GPU_CMD_CTX_DETACH_RESOURCE : Z := 0x203.
Definition VIRTIO_GPU_CMD_RESOURCE_CREATE_3D : Z := 0x204.
Definition VIRTIO_GPU_CMD_TRANSFER_TO_HOST_3D : Z := 0x205.
Definition VIRTIO_GPU_CMD_TRANSFER_FROM_HOST_3D : Z := 0x206.
Definition VIRTIO_GPU_CMD_SUBMIT_3D : Z := 0x207.
Definition VIRTIO_GPU_CMD_UPDATE_CURSOR : Z := 0x300.
Definition VIRTIO_GPU_CMD_MOVE_CURSOR : Z := 0x301.
Definition VIRTIO_GPU_RESP_OK_NODATA : Z := 0x1100.
Definition VIRTIO_GPU_RESP_ERR_UNSPEC : Z := 0x1200.

Definition VIRTIO_GPU_FORMAT_B8G8R8A8_UNORM : Z := 1.
Definition VIRTIO_GPU_FORMAT_B8G8R8X8_UNORM : Z := 2.
Definition VIRTIO_GPU_FORMAT_D24_UNORM_S8_UINT : Z := 49.
Definition VIRTIO_GPU_RESOURCE_TARGET_2D : Z := 1.
Definition VIRTIO_GPU_FLAG_FENCE : Z := Z.shiftl 1 0.
Definition VIRTIO_GPU_FLAG_INFO_RING_IDX : Z := Z.shiftl 1 1.

(** * The structs *)
Record virtio_gpu_ctrl_hdr := mk_hdr {
  hdr_type : Z;
  hdr_flags : Z;
  hdr_fence_id : Z;
  hdr_ctx_id : Z;
  hdr_ring_idx : Z;
  hdr_padding : Z (* the three padding bytes, little-endian *)
}.

Record virtio_gpu_rect := mk_rect {
  rect_x : Z; rect_y : Z; rect_width : Z; rect_height : Z
}.

Record virtio_gpu_box := mk_box {
  box_x : Z; box_y : Z; box_z : Z; box_w : Z; box_h : Z; box_d : Z
}.

Record virtio_gpu_resource_create_2d := mk_create_2d {
  c2d_resource_id : Z; c2d_format : Z; c2d_width : Z; c2d_height : Z
}.

Record virtio_gpu_resource_create_3d := mk_create_3d {
  c3d_resource_id : Z; c3d_target : Z; c3d_format : Z; c3d_bind : Z;
  c3d_width : Z; c3d_height : Z; c3d_depth : Z; c3d_array_size : Z;
  c3d_last_level : Z; c3d_nr_samples : Z; c3d_flags : Z; c3d_padding : Z
}.

Record virtio_gpu_mem_entry := mk_mem_entry {
  me_addr : Z; me_length : Z; me_padding : Z
}.

Record virtio_gpu_transfer_to_host_3d := mk_transfer_3d {
  t3d_box : virtio_gpu_box; t3d_offset : Z; t3d_resource_id : Z;
  t3d_level : Z; t3d_stride : Z; t3d_layer_stride : Z
}.

Record virtio_gpu_cursor_pos := mk_cursor_pos {
  cp_scanout_id : Z; cp_x : Z; cp_y : Z; cp_padding : Z
}.

(** The commands the driver sends: the header, then the struct's own fields.
    [CmdHdr] is a bare header, as [flushCommands] sends one. *)
Inductive gpu_cmd :=
| CmdHdr (h : virtio_gpu_ctrl_hdr)
| CmdCreate2D (h : virtio_gpu_ctrl_hdr) (b : virtio_gpu_resource_create_2d)
| CmdCreate3D (h : virtio_gpu_ctrl_hdr) (b : virtio_gpu_resource_create_3d)
| CmdUnref (h : virtio_gpu_ctrl_hdr) (resource_id padding : Z)
| CmdSetScanout (h : virtio_gpu_ctrl_hdr) (r : virtio_gpu_rect) (scanout_id resource_id : Z)
| CmdFlush (h : virtio_gpu_ctrl_hdr) (r : virtio_gpu_rect) (resource_id padding : Z)
| CmdTransfer2D (h : virtio_gpu_ctrl_hdr) (r : virtio_gpu_rect) (offset resource_id padding : Z)
| CmdTransfer3D (h : virtio_gpu_ctrl_hdr) (b : virtio_gpu_transfer_to_host_3d)
| CmdAttach (h : virtio_gpu_ctrl_hdr) (resource_id nr_entries : Z)
    (entries : list virtio_gpu_mem_entry)
| CmdDetach (h : virtio_gpu_ctrl_hdr) (resource_id padding : Z)
| CmdCtxCreate (h : virtio_gpu_ctrl_hdr) (nlen context_init : Z) (debug_name : list Z)
| CmdCtxDestroy (h : virtio_gpu_ctrl_hdr)
| CmdCtxResource (h : virtio_gpu_ctrl_hdr) (resource_id padding : Z)
| CmdSubmit (h : virtio_gpu_ctrl_hdr) (size padding : Z) (data : list Z)
| CmdGetCapsetInfo (h : virtio_gpu_ctrl_hdr) (capset_index padding : Z)
| CmdGetCapset (h : virtio_gpu_ctrl_hdr) (capset_id capset_version : Z)
| CmdCursor (h : virtio_gpu_ctrl_hdr) (pos : virtio_gpu_cursor_pos)
    (resource_id hot_x hot_y padding : Z).

Definition cmd_hdr (c : gpu_cmd) : virtio_gpu_ctrl_hdr :=
  match c with
  | CmdHdr h | CmdCreate2D h _ | CmdCreate3D h _ | CmdUnref h _ _
  | CmdSetScanout h _ _ _ | CmdFlush h _ _ _ | CmdTransfer2D h _ _ _ _
  | CmdTransfer3D h _ | CmdAttach h _ _ _ | CmdDetach h _ _
  | CmdCtxCreate h _ _ _ | CmdCtxDestroy h | CmdCtxResource h _ _
  | CmdSubmit h _ _ _ | CmdGetCapsetInfo h _ _ | CmdGetCapset h _ _
  | CmdCursor h _ _ _ _ _ => h
  end.

(** * The bytes of a command *)
Definition hdr_fields (h : virtio_gpu_ctrl_hdr) : list field :=
  [(4%nat, hdr_type h); (4%nat, hdr_flags h); (8%nat, hdr_fence_id h);
   (4%nat, hdr_ctx_id h); (1%nat, hdr_ring_idx h); (3%nat, hdr_padding h)].

Definition rect_fields (r : virtio_gpu_rect) : list field :=
  [(4%nat, rect_x r); (4%nat, rect_y r); (4%nat, rect_width r); (4%nat, rect_height r)].

Definition box_fields (b : virtio_gpu_box) : list field :=
  [(4%nat, box_x b); (4%nat, box_y b); (4%nat, box_z b);
   (4%nat, box_w b); (4%nat, box_h b); (4%nat, box_d b)].

Definition mem_entry_fields (e : virtio_gpu_mem_entry) : list field :=
  [(8%nat, me_addr e); (4%nat, me_length e); (4%nat, me_padding e)].

Definition create_3d_fields (b : virtio_gpu_resource_create_3d) : list field :=
  [(4%nat, c3d_resource_id b); (4%nat, c3d_target b); (4%nat, c3d_format b);
   (4%nat, c3d_bind b); (4%nat, c3d_width b); (4%nat, c3d_height b);
   (4%nat, c3d_depth b); (4%nat, c3d_array_size b); (4%nat, c3d_last_level b);
   (4%nat, c3d_nr_samples b); (4%nat, c3d_flags b); (4%nat, c3d_padding b)].

Definition body_fields (c : gpu_cmd) : list field :=
  match c with
  | CmdHdr _ | CmdCtxDestroy _ => []
  | CmdCreate2D _ b => [(4%nat, c2d_resource_id b); (4%nat, c2d_format b);
                        (4%nat, c2d_width b); (4%nat, c2d_height b)]
  | CmdCreate3D _ b => create_3d_fields b
  | CmdUnref _ id p | CmdDetach _ id p | CmdCtxResource _ id p => [(4%nat, id); (4%nat, p)]
  | CmdSetScanout _ r sid id => rect_fields r ++ [(4%nat, sid); (4%nat, id)]
  | CmdFlush _ r id p => rect_fields r ++ [(4%nat, id); (4%nat, p)]
  | CmdTransfer2D _ r off id p => rect_fields r ++ [(8%nat, off); (4%nat, id); (4%nat, p)]
  | CmdTransfer3D _ b => box_fields (t3d_box b) ++
      [(8%nat, t3d_offset b); (4%nat, t3d_resource_id b); (4%nat, t3d_level b);
       (4%nat, t3d_stride b); (4%nat, t3d_layer_stride b)]
  | CmdAttach _ id n _ => [(4%nat, id); (4%nat, n)]
  | CmdCtxCreate _ n ci _ => [(4%nat, n); (4%nat, ci)]
  | CmdSubmit _ sz p _ => [(4%nat, sz); (4%nat, p)]
  | CmdGetCapsetInfo _ i p => [(4%nat, i); (4%nat, p)]
  | CmdGetCapset _ i v => [(4%nat, i); (4%nat, v)]
  | CmdCursor _ p id hx hy pad =>
      [(4%nat, cp_scanout_id p); (4%nat, cp_x p); (4%nat, cp_y p); (4%nat, cp_padding p);
       (4%nat, id); (4%nat, hx); (4%nat, hy); (4%nat, pad)]
  end.

Definition cmd_fields (c : gpu_cmd) : list field := hdr_fields (cmd_hdr c) ++ body_fields c.

(** What follows the struct in the buffer: the scatter list, the debug name's
    64 characters, or the 3D command stream. *)
Definition cmd_tail (c : gpu_cmd) : list Z :=
  match c with
  | CmdAttach _ _ _ es => enc_fields (es ≫= mem_entry_fields)
  | CmdCtxCreate _ _ _ name => name
  | CmdSubmit _ _ _ data => data
  | _ => []
  end.

Definition encode (c : gpu_cmd) : list Z := enc_fields (cmd_fields c) ++ cmd_tail c.

(** [sizeof] of the struct a command is built in. *)
Definition cmd_sizeof (c : gpu_cmd) : nat :=
  match c with
  | CmdHdr _ | CmdCtxDestroy _ => 24
  | CmdUnref _ _ _ | CmdDetach _ _ _ | CmdCtxResource _ _ _ | CmdAttach _ _ _ _
  | CmdSubmit _ _ _ _ | CmdGetCapsetInfo _ _ _ | CmdGetCapset _ _ _ => 32
  | CmdCreate2D _ _ => 40
  | CmdSetScanout _ _ _ _ | CmdFlush _ _ _ _ => 48
  | CmdTransfer2D _ _ _ _ _ | CmdCursor _ _ _ _ _ _ => 56
  | CmdCreate3D _ _ | CmdTransfer3D _ _ => 72
  | CmdCtxCreate _ _ _ _ => 96
  end.

(** * The reference parser *)
Definition hdr_widths : list nat := [4; 4; 8; 4; 1; 3]%nat.
Definition w4 (n : nat) : list nat := replicate n 4%nat.

(** Struct widths after the header, by command type; [None]: not a command
    of the driver. *)
Definition body_widths (ty : Z) : option (list nat) :=
  match ty with
  | 0x101 => Some (w4 4)
  | 0x102 | 0x106 | 0x107 | 0x108 | 0x109 => Some (w4 2)
  | 0x103 | 0x104 => Some (w4 6)
  | 0x105 => Some (w4 4 ++ [8; 4; 4])%nat
  | 0x200 | 0x202 | 0x203 | 0x207 => Some (w4 2)
  | 0x201 => Some []
  | 0x204 => Some (w4 12)
  | 0x205 | 0x206 => Some (w4 6 ++ [8; 4; 4; 4; 4])%nat
  | 0x300 | 0x301 => Some (w4 8)
  | _ => None
  end.

Fixpoint dec_entries (n : nat) (bs : list Z) : option (list virtio_gpu_mem_entry) :=
  match n with
  | O => match bs with [] => Some [] | _ => None end
  | S n' =>
      match dec_fields [8; 4; 4]%nat bs with
      | Some ([a; l; p], rest) => cons (mk_mem_entry a l p) <$> dec_entries n' rest
      | _ => None
      end
  end.

Definition build (h : virtio_gpu_ctrl_hdr) (vs : list Z) (rest : list Z) : option gpu_cmd :=
  let exact (c : gpu_cmd) := match rest with [] => Some c | _ => None end in
  match hdr_type h, vs with
  | 0x101, [a; b; c; d] => exact (CmdCreate2D h (mk_create_2d a b c d))
  | 0x102, [id; p] => exact (CmdUnref h id p)
  | 0x103, [x; y; w; ht; s; id] => exact (CmdSetScanout h (mk_rect x y w ht) s id)
  | 0x104, [x; y; w; ht; id; p] => exact (CmdFlush h (mk_rect x y w ht) id p)
  | 0x105, [x; y; w; ht; off; id; p] => exact (CmdTransfer2D h (mk_rect x y w ht) off id p)
  | 0x106, [id; n] => CmdAttach h id n <$> dec_entries (Z.to_nat n) rest
  | 0x107, [id; p] => exact (CmdDetach h id p)
  | 0x108, [i; p] => exact (CmdGetCapsetInfo h i p)
  | 0x109, [i; v] => exact (CmdGetCapset h i v)
  | 0x200, [n; ci] =>
      if decide (length rest = 64%nat) then Some (CmdCtxCreate h n ci rest) else None
  | 0x201, [] => exact (CmdCtxDestroy h)
  | 0x202, [id; p] | 0x203, [id; p] => exact (CmdCtxResource h id p)
  | 0x204, [a; b; c; d; e; f; g; i; j; k; l; m] =>
      exact (CmdCreate3D h (mk_create_3d a b c d e f g i j k l m))
  | 0x205, [x; y; z; w; ht; d; off; id; lv; st; ls]
  | 0x206, [x; y; z; w; ht; d; off; id; lv; st; ls] =>
      exact (CmdTransfer3D h (mk_transfer_3d (mk_box x y z w ht d) off id lv st ls))
  | 0x207, [sz; p] =>
      if decide (Z.of_nat (length rest) = sz) then Some (CmdSubmit h sz p rest) else None
  | 0x300, [s; x; y; pp; id; hx; hy; p] | 0x301, [s; x; y; pp; id; hx; hy; p] =>
      exact (CmdCursor h (mk_cursor_pos s x y pp) id hx hy p)
  | _, _ => None
  end.

Definition decode (bs : list Z) : option gpu_cmd :=
  match dec_fields hdr_widths bs with
  | Some ([t; f; fe; c; r; p], rest) =>
      match body_widths t with
      | Some ws =>
          match dec_fields ws rest with
          | Some (vs, rest') => build (mk_hdr t f fe c r p) vs rest'
          | None => None
          end
      | None => None
      end
  | _ => None
  end.

(** A command whose header carries the type of its struct, with counts that
    describe its tail. *)
Definition type_matches (c : gpu_cmd) : Prop :=
  let t := hdr_type (cmd_hdr c) in
  match c with
  | CmdHdr _ => False
  | CmdCreate2D _ _ => t = 0x101
  | CmdUnref _ _ _ => t = 0x102
  | CmdSetScanout _ _ _ _ => t = 0x103
  | CmdFlush _ _ _ _ => t = 0x104
  | CmdTransfer2D _ _ _ _ _ => t = 0x105
  | CmdAttach _ _ n es => t = 0x106 /\ n = Z.of_nat (length es)
                          /\ Forall field_ok (es ≫= mem_entry_fields)
  | CmdDetach _ _ _ => t = 0x107
  | CmdGetCapsetInfo _ _ _ => t = 0x108
  | CmdGetCapset _ _ _ => t = 0x109
  | CmdCtxCreate _ _ _ name => t = 0x200 /\ length name = 64%nat
  | CmdCtxDestroy _ => t = 0x201
  | CmdCtxResource _ _ _ => t = 0x202 \/ t = 0x203
  | CmdCreate3D _ _ => t = 0x204
  | CmdTransfer3D _ _ => t = 0x205 \/ t = 0x206
  | CmdSubmit _ sz _ data => t = 0x207 /\ Z.of_nat (length data) = sz
  | CmdCursor _ _ _ _ _ _ => t = 0x300 \/ t = 0x301
  end.

Definition cmd_ok (c : gpu_cmd) : Prop :=
  Forall field_ok (cmd_fields c) /\ type_matches c.

Lemma dec_entries_enc es :
  Forall field_ok (es ≫= mem_entry_fields) ->
  dec_entries (length es) (enc_fields (es ≫= mem_entry_fields)) = Some es.
Proof.
  induction es as [|[a l p] es IH]; intros Hok; [done|].
  rewrite bind_cons in Hok |- *. apply Forall_app in Hok as [He Hes].
  rewrite enc_fields_app. cbn [length dec_entries].
  rewrite (dec_enc_fields (mem_entry_fields (mk_mem_entry a l p)) _ He :
    dec_fields [8; 4; 4]%nat _ = _).
  cbn. by rewrite IH.
Qed.

(** Parsing the struct's own fields, once the header is read. *)
Lemma decode_body c :
  Forall field_ok (body_fields c) -> type_matches c ->
  exists ws, body_widths (hdr_type (cmd_hdr c)) = Some ws /\
    dec_fields ws (enc_fields (body_fields c) ++ cmd_tail c)
      = Some ((body_fields c).*2, cmd_tail c).
Proof.
  intros Hb Ht. exists ((body_fields c).*1).
  split; [|by apply dec_enc_fields].
  destruct c; cbn in Ht |- *; destruct_and?; destruct_or?;
    try done; by match goal with H : hdr_type _ = _ |- _ => rewrite H end.
Qed.

Lemma build_body c :
  type_matches c -> build (cmd_hdr c) (body_fields c).*2 (cmd_tail c) = Some c.
Proof.
  intros Ht. destruct c; cbn [type_matches cmd_hdr] in Ht; destruct_and?; destruct_or?;
    try done; unfold build; cbn [cmd_hdr];
    match goal with H : hdr_type _ = _ |- _ => rewrite H end;
    repeat match goal with
    | b : virtio_gpu_resource_create_2d |- _ => destruct b
    | b : virtio_gpu_resource_create_3d |- _ => destruct b
    | b : virtio_gpu_transfer_to_host_3d |- _ => destruct b
    | b : virtio_gpu_box |- _ => destruct b
    | b : virtio_gpu_rect |- _ => destruct b
    | b : virtio_gpu_cursor_pos |- _ => destruct b
    end; cbn; try done.
  - subst. rewrite Nat2Z.id, dec_entries_enc by done. done.
  - by rewrite decide_True.
  - by rewrite decide_True.
Qed.

Lemma decode_encode_lemma (c : gpu_cmd) : cmd_ok c -> decode (encode c) = Some c.
Proof.
  intros [Hf Ht]. unfold encode, cmd_fields in *. apply Forall_app in Hf as [Hh Hb].
  rewrite enc_fields_app, <- app_assoc. unfold decode.
  rewrite (dec_enc_fields (hdr_fields (cmd_hdr c)) _ Hh : dec_fields hdr_widths _ = _).
  destruct (decode_body c Hb Ht) as (ws & Hws & Hdec).
  cbn [hdr_fields fmap list_fmap snd]. rewrite Hws, Hdec.
  rewrite <- (build_body c Ht). by destruct (cmd_hdr c).
Qed.

(** C5: parsing the bytes of a command gives the command back, for every
    command the driver builds with its own type code and in-range fields. *)
Theorem decode_encode (c : gpu_cmd) : cmd_ok c -> decode (encode c) = Some c.
Proof. apply decode_encode_lemma. Qed.

(** A concrete command for the witnesses: a 4x3 BGRA resource with id 7. *)
Definition hdr_of (ty : Z) : virtio_gpu_ctrl_hdr := mk_hdr ty 0 0 0 0 0.

Lemma decode_encode_witness :
  decode (encode (CmdCreate2D (hdr_of 0x101) (mk_create_2d 7 1 4 3)))
  = Some (CmdCreate2D (hdr_of 0x101) (mk_create_2d 7 1 4 3)).
Proof.
  apply decode_encode. split; [|reflexivity].
  repeat constructor; cbn; lia.
Defined.

(** Every command occupies its struct's [sizeof] plus its tail: sixteen
    bytes per scatter-list entry, one per 3D command byte; these are the sizes
    that the header's negative-array typedefs assert. *)
Theorem encode_length (c : gpu_cmd) :
  length (encode c) =
  match c with
  | CmdAttach _ _ _ es => (cmd_sizeof c + 16 * length es)%nat
  | CmdSubmit _ _ _ data => (cmd_sizeof c + length data)%nat
  | CmdCtxCreate _ _ _ name => (cmd_sizeof c - 64 + length name)%nat
  | _ => cmd_sizeof c
  end.
Proof.
  unfold encode. rewrite length_app, length_enc_fields.
  destruct c; cbn; try lia.
  rewrite length_enc_fields. unfold fields_size.
  induction entries as [|e es IH]; cbn in *; lia.
Qed.
