(* ===== verification/Transport.v ===== *)
(** The interface between the driver's operations and the command queue:
    [Transport] is what [VMVirtIOGPU::submitCommand] offers the code that
    calls it, [TransportOk] what it promises. [ControlQueue] implements the
    real one; the scripted transport here answers from a list of response types
    and records the commands, for the witnesses. *)
From S2P Require Import Prelude Wire.

(** The response header's [type], its first four bytes. *)
Definition resp_type (resp : list Z) : Z := le_val (take 4 resp).

(** Step 12 of [submitCommand]: the status for a response type. *)
Definition response_status (ty : Z) : IOReturn :=
  if (0x1100 <=? ty) && (ty <? 0x1200) then kIOReturnSuccess
  else if 0x1200 <=? ty then kIOReturnError
  else kIOReturnError.

(** [submit_cmd c n t]: submit [c] with a zeroed response buffer of [n]
    bytes; the status, the buffer afterwards, and the new queue state. *)
Class Transport (T : Type) :=
  submit_cmd : gpu_cmd -> nat -> T -> (IOReturn * list Z) * T.

Class TransportOk (T : Type) `{Transport T} : Prop := {
  submit_length : forall c n t, length (submit_cmd c n t).1.2 = n;
  submit_status : forall c n t,
    (24 <= n)%nat -> (submit_cmd c n t).1.1 = kIOReturnSuccess ->
    0x1100 <= resp_type (submit_cmd c n t).1.2 < 0x1200
}.

Lemma response_status_success ty :
  response_status ty = kIOReturnSuccess <-> 0x1100 <= ty < 0x1200.
Proof. unfold response_status. repeat case_match; split; try done; lia. Qed.

(** * A scripted transport *)
Record scripted := mk_scripted { script : list Z; sent : list gpu_cmd }.

(** A response of [n] bytes that starts with the type [ty]. *)
Definition resp_of (ty : Z) (n : nat) : list Z :=
  take n (le_bytes 4 ty ++ replicate (n - 4) 0).

#[export] Instance scripted_transport : Transport scripted := fun c n t =>
  match script t with
  | [] => ((kIOReturnTimeout, replicate n 0), mk_scripted [] (sent t ++ [c]))
  | ty :: s => ((response_status (u32 ty), resp_of (u32 ty) n), mk_scripted s (sent t ++ [c]))
  end.

Lemma length_resp_of ty n : length (resp_of ty n) = n.
Proof. unfold resp_of. rewrite length_take, length_app, length_le_bytes, length_replicate. lia. Qed.

Lemma resp_type_resp_of ty n :
  (4 <= n)%nat -> 0 <= ty < 2 ^ 32 -> resp_type (resp_of ty n) = ty.
Proof.
  intros Hn Hty. unfold resp_type, resp_of. rewrite take_take.
  rewrite Nat.min_l by lia.
  rewrite take_app_length' by (by rewrite length_le_bytes).
  apply le_val_le_bytes. cbn; lia.
Qed.

#[export] Instance scripted_transport_ok : TransportOk scripted.
Proof.
  split; intros c n t; unfold submit_cmd, scripted_transport; destruct (script t) as [|ty s].
  - apply length_replicate.
  - apply length_resp_of.
  - done.
  - cbn [fst snd]. intros Hn Hs. rewrite resp_type_resp_of; [|lia|apply u32_range].
    by apply response_status_success.
Qed.

(** * A host that keeps its word

    [cmd_effect c ids]: the resource ids the host knows after it executed [c].
    A conforming host executes a command when it answers success and leaves
    its resources alone when it does not, and it acknowledges creations and
    destructions with [VIRTIO_GPU_RESP_OK_NODATA] (virtio-gpu specification,
    section on device operation). *)
Definition cmd_effect (c : gpu_cmd) (ids : gset Z) : gset Z :=
  match c with
  | CmdCreate2D _ b => {[ c2d_resource_id b ]} ∪ ids
  | CmdCreate3D _ b => {[ c3d_resource_id b ]} ∪ ids
  | CmdUnref _ id _ => ids ∖ {[ id ]}
  | _ => ids
  end.

Class Host (T : Type) `{Transport T} := {
  host_ids : T -> gset Z;
  host_submit : forall c n t, (24 <= n)%nat ->
    let '((r, resp), t') := submit_cmd c n t in
    host_ids t' = (if is_success r then cmd_effect c (host_ids t) else host_ids t)
    /\ (r = kIOReturnSuccess -> resp_type resp = VIRTIO_GPU_RESP_OK_NODATA)
}.

(** A concrete one: it refuses the commands whose turn in [hm_refuse] is true. *)
Record host_machine := mk_host { hm_ids : gset Z; hm_refuse : list bool; hm_sent : list gpu_cmd }.

#[export] Instance host_transport : Transport host_machine := fun c n t =>
  match hm_refuse t with
  | true :: l =>
      ((kIOReturnError, resp_of VIRTIO_GPU_RESP_ERR_UNSPEC n), mk_host (hm_ids t) l (hm_sent t ++ [c]))
  | _ =>
      ((kIOReturnSuccess, resp_of VIRTIO_GPU_RESP_OK_NODATA n),
       mk_host (cmd_effect c (hm_ids t)) (tail (hm_refuse t)) (hm_sent t ++ [c]))
  end.

#[export] Instance host_transport_ok : TransportOk host_machine.
Proof.
  split; intros c n t; unfold submit_cmd, host_transport; destruct (hm_refuse t) as [|[] l];
    try apply length_resp_of; cbn [fst snd]; try done;
    intros Hn _; rewrite resp_type_resp_of by (lia || done); done.
Qed.

#[export] Instance host_machine_host : Host host_machine.
Proof.
  refine {| host_ids := hm_ids |}. intros c n t Hn. unfold submit_cmd, host_transport.
  destruct (hm_refuse t) as [|[] l]; cbn [is_success]; split; try done; intros _;
    (rewrite resp_type_resp_of; [done|lia|done]).
Defined.
