(* ===== verification/Driver.v ===== *)
(** The state of [VMVirtIOGPU] (FB/VMVirtIOGPU.h) that its operations share,
    the memory services of the kernel they use, and the monad they run in.

    Kernel memory is a parameter: what an allocation or [IOMalloc] answers,
    which bytes fresh memory holds and which physical segments a descriptor
    has come from lists in the state ([m_allocs], [m_mallocs], [md_segs]);
    the model counts what the driver owes: outstanding heap bytes, prepares
    and references per descriptor, and mappings. *)
From S2P Require Import Prelude Wire Transport.

(** * Kernel objects *)

(** An [IOMemoryDescriptor]: its identity, its length, what [prepare] returns,
    and the (address, length) answers of successive [getPhysicalSegment]
    calls, each at the offset where the previous segment ended; after the
    list the call answers address 0. *)
Record mdesc := mk_mdesc {
  md_id : Z;
  md_length : Z;
  md_prepare : IOReturn;
  md_segs : list (Z * Z)
}.

Record mem := mk_mem {
  m_allocs : list (option mdesc);
  m_mallocs : list (option (list Z));
  m_heap : Z;
  m_prep : gmap Z Z;
  m_refs : gmap Z Z;
  m_maps : Z
}.

Definition set_m_allocs (v : list (option mdesc)) (m : mem) : mem :=
  mk_mem v (m_mallocs m) (m_heap m) (m_prep m) (m_refs m) (m_maps m).
Definition set_m_mallocs (v : list (option (list Z))) (m : mem) : mem :=
  mk_mem (m_allocs m) v (m_heap m) (m_prep m) (m_refs m) (m_maps m).
Definition set_m_heap (v : Z) (m : mem) : mem :=
  mk_mem (m_allocs m) (m_mallocs m) v (m_prep m) (m_refs m) (m_maps m).
Definition set_m_prep (v : gmap Z Z) (m : mem) : mem :=
  mk_mem (m_allocs m) (m_mallocs m) (m_heap m) v (m_refs m) (m_maps m).
Definition set_m_refs (v : gmap Z Z) (m : mem) : mem :=
  mk_mem (m_allocs m) (m_mallocs m) (m_heap m) (m_prep m) v (m_maps m).
Definition set_m_maps (v : Z) (m : mem) : mem :=
  mk_mem (m_allocs m) (m_mallocs m) (m_heap m) (m_prep m) (m_refs m) v.
Definition bump (d : Z) (id : Z) (m : gmap Z Z) : gmap Z Z :=
  <[id := default 0 (m !! id) + d]> m.
Definition count (id : Z) (m : gmap Z Z) : Z := default 0 (m !! id).

Lemma count_bump_eq d id m : count id (bump d id m) = count id m + d.
Proof. unfold count, bump. by rewrite lookup_insert_eq. Qed.
Lemma count_bump_ne d id id' m : id <> id' -> count id' (bump d id m) = count id' m.
Proof. intros. unfold count, bump. by rewrite lookup_insert_ne. Qed.

(** * The device object *)
Record gpu_resource := mk_resource {
  r_resource_id : Z;
  r_width : Z;
  r_height : Z;
  r_format : Z;
  r_backing_memory : option Z; (* the descriptor's identity *)
  r_is_3d : bool;
  r_in_use : bool
}.

Record gpu := mk_gpu {
  g_pci_device : bool;
  g_control_queue : bool;
  g_max_scanouts : Z;
  g_num_capsets : Z;
  g_fence_id : Z;
  g_is_mock_device : bool;
  g_pool : list gpu_resource;
  g_resource_count : Z;
  g_next_resource_id : Z;
  g_next_user_resource_id : Z;
  g_display_resource_id : Z;
  g_contexts : list Z;
  g_next_context_id : Z;
  g_framebuffer : option bool;
  g_resource_lock : lock_state;
  g_context_lock : lock_state
}.

Definition set_g_pci_device (v : bool) (g : gpu) : gpu :=
  mk_gpu v (g_control_queue g) (g_max_scanouts g) (g_num_capsets g) (g_fence_id g) (g_is_mock_device g) (g_pool g) (g_resource_count g) (g_next_resource_id g) (g_next_user_resource_id g) (g_display_resource_id g) (g_contexts g) (g_next_context_id g) (g_framebuffer g) (g_resource_lock g) (g_context_lock g).
Definition set_g_control_queue (v : bool) (g : gpu) : gpu :=
  mk_gpu (g_pci_device g) v (g_max_scanouts g) (g_num_capsets g) (g_fence_id g) (g_is_mock_device g) (g_pool g) (g_resource_count g) (g_next_resource_id g) (g_next_user_resource_id g) (g_display_resource_id g) (g_contexts g) (g_next_context_id g) (g_framebuffer g) (g_resource_lock g) (g_context_lock g).
Definition set_g_max_scanouts (v : Z) (g : gpu) : gpu :=
  mk_gpu (g_pci_device g) (g_control_queue g) v (g_num_capsets g) (g_fence_id g) (g_is_mock_device g) (g_pool g) (g_resource_count g) (g_next_resource_id g) (g_next_user_resource_id g) (g_display_resource_id g) (g_contexts g) (g_next_context_id g) (g_framebuffer g) (g_resource_lock g) (g_context_lock g).
Definition set_g_num_capsets (v : Z) (g : gpu) : gpu :=
  mk_gpu (g_pci_device g) (g_control_queue g) (g_max_scanouts g) v (g_fence_id g) (g_is_mock_device g) (g_pool g) (g_resource_count g) (g_next_resource_id g) (g_next_user_resource_id g) (g_display_resource_id g) (g_contexts g) (g_next_context_id g) (g_framebuffer g) (g_resource_lock g) (g_context_lock g).
Definition set_g_fence_id (v : Z) (g : gpu) : gpu :=
  mk_gpu (g_pci_device g) (g_control_queue g) (g_max_scanouts g) (g_num_capsets g) v (g_is_mock_device g) (g_pool g) (g_resource_count g) (g_next_resource_id g) (g_next_user_resource_id g) (g_display_resource_id g) (g_contexts g) (g_next_context_id g) (g_framebuffer g) (g_resource_lock g) (g_context_lock g).
Definition set_g_is_mock_device (v : bool) (g : gpu) : gpu :=
  mk_gpu (g_pci_device g) (g_control_queue g) (g_max_scanouts g) (g_num_capsets g) (g_fence_id g) v (g_pool g) (g_resource_count g) (g_next_resource_id g) (g_next_user_resource_id g) (g_display_resource_id g) (g_contexts g) (g_next_context_id g) (g_framebuffer g) (g_resource_lock g) (g_context_lock g).
Definition set_g_pool (v : list gpu_resource) (g : gpu) : gpu :=
  mk_gpu (g_pci_device g) (g_control_queue g) (g_max_scanouts g) (g_num_capsets g) (g_fence_id g) (g_is_mock_device g) v (g_resource_count g) (g_next_resource_id g) (g_next_user_resource_id g) (g_display_resource_id g) (g_contexts g) (g_next_context_id g) (g_framebuffer g) (g_resource_lock g) (g_context_lock g).
Definition set_g_resource_count (v : Z) (g : gpu) : gpu :=
  mk_gpu (g_pci_device g) (g_control_queue g) (g_max_scanouts g) (g_num_capsets g) (g_fence_id g) (g_is_mock_device g) (g_pool g) v (g_next_resource_id g) (g_next_user_resource_id g) (g_display_resource_id g) (g_contexts g) (g_next_context_id g) (g_framebuffer g) (g_resource_lock g) (g_context_lock g).
Definition set_g_next_resource_id (v : Z) (g : gpu) : gpu :=
  mk_gpu (g_pci_device g) (g_control_queue g) (g_max_scanouts g) (g_num_capsets g) (g_fence_id g) (g_is_mock_device g) (g_pool g) (g_resource_count g) v (g_next_user_resource_id g) (g_display_resource_id g) (g_contexts g) (g_next_context_id g) (g_framebuffer g) (g_resource_lock g) (g_context_lock g).
Definition set_g_next_user_resource_id (v : Z) (g : gpu) : gpu :=
  mk_gpu (g_pci_device g) (g_control_queue g) (g_max_scanouts g) (g_num_capsets g) (g_fence_id g) (g_is_mock_device g) (g_pool g) (g_resource_count g) (g_next_resource_id g) v (g_display_resource_id g) (g_contexts g) (g_next_context_id g) (g_framebuffer g) (g_resource_lock g) (g_context_lock g).
Definition set_g_display_resource_id (v : Z) (g : gpu) : gpu :=
  mk_gpu (g_pci_device g) (g_control_queue g) (g_max_scanouts g) (g_num_capsets g) (g_fence_id g) (g_is_mock_device g) (g_pool g) (g_resource_count g) (g_next_resource_id g) (g_next_user_resource_id g) v (g_contexts g) (g_next_context_id g) (g_framebuffer g) (g_resource_lock g) (g_context_lock g).
Definition set_g_contexts (v : list Z) (g : gpu) : gpu :=
  mk_gpu (g_pci_device g) (g_control_queue g) (g_max_scanouts g) (g_num_capsets g) (g_fence_id g) (g_is_mock_device g) (g_pool g) (g_resource_count g) (g_next_resource_id g) (g_next_user_resource_id g) (g_display_resource_id g) v (g_next_context_id g) (g_framebuffer g) (g_resource_lock g) (g_context_lock g).
Definition set_g_next_context_id (v : Z) (g : gpu) : gpu :=
  mk_gpu (g_pci_device g) (g_control_queue g) (g_max_scanouts g) (g_num_capsets g) (g_fence_id g) (g_is_mock_device g) (g_pool g) (g_resource_count g) (g_next_resource_id g) (g_next_user_resource_id g) (g_display_resource_id g) (g_contexts g) v (g_framebuffer g) (g_resource_lock g) (g_context_lock g).
Definition set_g_framebuffer (v : option bool) (g : gpu) : gpu :=
  mk_gpu (g_pci_device g) (g_control_queue g) (g_max_scanouts g) (g_num_capsets g) (g_fence_id g) (g_is_mock_device g) (g_pool g) (g_resource_count g) (g_next_resource_id g) (g_next_user_resource_id g) (g_display_resource_id g) (g_contexts g) (g_next_context_id g) v (g_resource_lock g) (g_context_lock g).
Definition set_g_resource_lock (v : lock_state) (g : gpu) : gpu :=
  mk_gpu (g_pci_device g) (g_control_queue g) (g_max_scanouts g) (g_num_capsets g) (g_fence_id g) (g_is_mock_device g) (g_pool g) (g_resource_count g) (g_next_resource_id g) (g_next_user_resource_id g) (g_display_resource_id g) (g_contexts g) (g_next_context_id g) (g_framebuffer g) v (g_context_lock g).
Definition set_g_context_lock (v : lock_state) (g : gpu) : gpu :=
  mk_gpu (g_pci_device g) (g_control_queue g) (g_max_scanouts g) (g_num_capsets g) (g_fence_id g) (g_is_mock_device g) (g_pool g) (g_resource_count g) (g_next_resource_id g) (g_next_user_resource_id g) (g_display_resource_id g) (g_contexts g) (g_next_context_id g) (g_framebuffer g) (g_resource_lock g) v.
(** * The world a method runs in *)
Record world (T : Type) := mk_world { w_gpu : gpu; w_mem : mem; w_tr : T }.
Arguments mk_world {T}.
Arguments w_gpu {T}.
Arguments w_mem {T}.
Arguments w_tr {T}.

Section monad.
Context {T : Type} `{Transport T}.

Definition get_gpu {A} (f : gpu -> A) : M (world T) A := gets (fun w => f (w_gpu w)).
Definition upd_gpu (f : gpu -> gpu) : M (world T) unit :=
  modify (fun w => mk_world (f (w_gpu w)) (w_mem w) (w_tr w)).
Definition upd_mem (f : mem -> mem) : M (world T) unit :=
  modify (fun w => mk_world (w_gpu w) (f (w_mem w)) (w_tr w)).

Definition submit (c : gpu_cmd) (n : nat) : M (world T) (IOReturn * list Z) :=
  fun w => let '(r, t) := submit_cmd c n (w_tr w) in (r, mk_world (w_gpu w) (w_mem w) t).

(** ** Kernel memory services *)
Definition heap_add (n : Z) : M (world T) unit := upd_mem (fun m => set_m_heap (m_heap m + n) m).

(** [IOMalloc]: the bytes the fresh block happens to hold, or [None]. *)
Definition IOMalloc (n : Z) : M (world T) (option (list Z)) :=
  fun w =>
    match m_mallocs (w_mem w) with
    | Some g :: l =>
        (Some g, mk_world (w_gpu w)
                   (set_m_heap (m_heap (w_mem w) + n) (set_m_mallocs l (w_mem w))) (w_tr w))
    | None :: l => (None, mk_world (w_gpu w) (set_m_mallocs l (w_mem w)) (w_tr w))
    | [] => (None, w)
    end.
Definition IOFree (n : Z) : M (world T) unit := heap_add (- n).

Definition retain (id : Z) : M (world T) unit := upd_mem (fun m => set_m_refs (bump 1 id (m_refs m)) m).
Definition release (id : Z) : M (world T) unit := upd_mem (fun m => set_m_refs (bump (-1) id (m_refs m)) m).
Definition complete (id : Z) : M (world T) unit := upd_mem (fun m => set_m_prep (bump (-1) id (m_prep m)) m).
Definition prepare (d : mdesc) : M (world T) IOReturn :=
  (if is_success (md_prepare d)
   then upd_mem (fun m => set_m_prep (bump 1 (md_id d) (m_prep m)) m)
   else ret tt) ;;; ret (md_prepare d).

(** A descriptor constructor ([withCapacity], [withAddressRange],
    [withBytes]) asked for [n] bytes: a fresh object with one reference, or
    [None]. *)
Definition new_descriptor (n : Z) : M (world T) (option mdesc) :=
  fun w =>
    match m_allocs (w_mem w) with
    | Some d :: l =>
        (Some (mk_mdesc (md_id d) n (md_prepare d) (md_segs d)),
         mk_world (w_gpu w)
           (set_m_refs (bump 1 (md_id d) (m_refs (w_mem w))) (set_m_allocs l (w_mem w))) (w_tr w))
    | None :: l => (None, mk_world (w_gpu w) (set_m_allocs l (w_mem w)) (w_tr w))
    | [] => (None, w)
    end.

(** ** Locks *)
Definition lock_resources : M (world T) unit :=
  upd_gpu (fun g => set_g_resource_lock (lock_acquire (g_resource_lock g)) g).
Definition unlock_resources : M (world T) unit :=
  upd_gpu (fun g => set_g_resource_lock (lock_release (g_resource_lock g)) g).
Definition lock_contexts : M (world T) unit :=
  upd_gpu (fun g => set_g_context_lock (lock_acquire (g_context_lock g)) g).
Definition unlock_contexts : M (world T) unit :=
  upd_gpu (fun g => set_g_context_lock (lock_release (g_context_lock g)) g).
End monad.

(** The byte at [i] of a fresh heap block. *)
Definition garb (g : list Z) (i : nat) : Z := nth i g 0 mod 256.
Definition garb32 (g : list Z) (i : nat) : Z :=
  le_val [garb g i; garb g (i + 1); garb g (i + 2); garb g (i + 3)].
Definition garb64 (g : list Z) (i : nat) : Z := garb32 g i + 2 ^ 32 * garb32 g (i + 4).
Definition garb24 (g : list Z) (i : nat) : Z :=
  le_val [garb g i; garb g (i + 1); garb g (i + 2)].

Lemma garb_range g i : 0 <= garb g i < 256.
Proof. apply Z.mod_pos_bound. lia. Qed.
Lemma garb24_range g i : 0 <= garb24 g i < 2 ^ 24.
Proof.
  unfold garb24. cbn [le_val].
  pose proof (garb_range g i). pose proof (garb_range g (i + 1)). pose proof (garb_range g (i + 2)).
  lia.
Qed.
Lemma garb32_range g i : 0 <= garb32 g i < 2 ^ 32.
Proof.
  unfold garb32. cbn [le_val].
  pose proof (garb_range g i). pose proof (garb_range g (i + 1)). pose proof (garb_range g (i + 2)).
  pose proof (garb_range g (i + 3)). lia.
Qed.
Lemma garb64_range g i : 0 <= garb64 g i < 2 ^ 64.
Proof.
  unfold garb64. pose proof (garb32_range g i). pose proof (garb32_range g (i + 4)). lia.
Qed.

(** * What the primitives leave alone *)
Section frames.
Context {T : Type} `{Transport T}.

(** A projection of the device object is kept by everything but [upd_gpu];
    one of the memory state by everything but the memory services. *)
Lemma gpu_submit {V} (p : gpu -> V) c n : keeps (fun w : world T => p (w_gpu w)) (submit c n).
Proof. intros v w Hw. unfold submit. by destruct (submit_cmd c n (w_tr w)). Qed.
Lemma mem_submit {V} (p : mem -> V) c n : keeps (fun w : world T => p (w_mem w)) (submit c n).
Proof. intros v w Hw. unfold submit. by destruct (submit_cmd c n (w_tr w)). Qed.
Lemma gpu_upd_mem {V} (p : gpu -> V) f : keeps (fun w : world T => p (w_gpu w)) (upd_mem f).
Proof. by apply keeps_modify. Qed.
Lemma mem_upd_gpu {V} (p : mem -> V) f : keeps (fun w : world T => p (w_mem w)) (upd_gpu f).
Proof. by apply keeps_modify. Qed.
Lemma tr_upd_mem f : keeps (fun w : world T => w_tr w) (upd_mem f).
Proof. by apply keeps_modify. Qed.
Lemma tr_upd_gpu f : keeps (fun w : world T => w_tr w) (upd_gpu f).
Proof. by apply keeps_modify. Qed.
Lemma gpu_upd_gpu {V} (p : gpu -> V) f :
  (forall g, p (f g) = p g) -> keeps (fun w : world T => p (w_gpu w)) (upd_gpu f).
Proof. intros Hf. apply keeps_modify. intros w. apply Hf. Qed.
Lemma mem_upd_mem {V} (p : mem -> V) f :
  (forall g, p (f g) = p g) -> keeps (fun w : world T => p (w_mem w)) (upd_mem f).
Proof. intros Hf. apply keeps_modify. intros w. apply Hf. Qed.
Lemma gpu_IOMalloc {V} (p : gpu -> V) n : keeps (fun w : world T => p (w_gpu w)) (IOMalloc n).
Proof. intros v w Hw. unfold IOMalloc. by destruct (m_mallocs (w_mem w)) as [|[?|] ?]. Qed.
Lemma gpu_new_descriptor {V} (p : gpu -> V) n : keeps (fun w : world T => p (w_gpu w)) (new_descriptor n).
Proof. intros v w Hw. unfold new_descriptor. by destruct (m_allocs (w_mem w)) as [|[?|] ?]. Qed.
Lemma tr_IOMalloc n : keeps (fun w : world T => w_tr w) (IOMalloc n).
Proof. intros v w Hw. unfold IOMalloc. by destruct (m_mallocs (w_mem w)) as [|[?|] ?]. Qed.
Lemma tr_new_descriptor n : keeps (fun w : world T => w_tr w) (new_descriptor n).
Proof. intros v w Hw. unfold new_descriptor. by destruct (m_allocs (w_mem w)) as [|[?|] ?]. Qed.
Lemma keeps_get_gpu {V A} (p : world T -> V) (f : gpu -> A) : keeps p (get_gpu f).
Proof. apply keeps_gets. Qed.
End frames.
#[export] Hint Resolve gpu_submit mem_submit gpu_upd_mem mem_upd_gpu tr_upd_mem tr_upd_gpu
  gpu_IOMalloc gpu_new_descriptor tr_IOMalloc tr_new_descriptor keeps_get_gpu : keeps.
#[export] Hint Extern 3 (keeps _ (upd_gpu _)) => apply gpu_upd_gpu; reflexivity : keeps.
#[export] Hint Extern 4 (keeps _ (upd_gpu _)) => apply gpu_upd_gpu; intros ?; goal_case; reflexivity : keeps.
#[export] Hint Extern 3 (keeps _ (upd_mem _)) => apply mem_upd_mem; reflexivity : keeps.
#[export] Hint Extern 1 (keeps _ (retain _)) => unfold retain : keeps.
#[export] Hint Extern 1 (keeps _ (release _)) => unfold release : keeps.
#[export] Hint Extern 1 (keeps _ (complete _)) => unfold complete : keeps.
#[export] Hint Extern 1 (keeps _ (IOFree _)) => unfold IOFree, heap_add : keeps.
#[export] Hint Extern 1 (keeps _ (prepare _)) => unfold prepare; keeps_tac : keeps.

(** * Lock discipline
    The pair of locks, and the specification of a method that takes and
    releases them: from unlocked to unlocked. *)
Definition locks (g : gpu) : lock_state * lock_state := (g_resource_lock g, g_context_lock g).

Section locks.
Context {T : Type} `{Transport T}.
Definition at_locks (l : lock_state * lock_state) (w : world T) : Prop := locks (w_gpu w) = l.
Definition lock_safe {A} (m : M (world T) A) : Prop :=
  hoare (at_locks (Unlocked, Unlocked)) m (fun _ => at_locks (Unlocked, Unlocked)).

Lemma hoare_lock_resources c :
  hoare (at_locks (Unlocked, c)) lock_resources (fun _ => at_locks (Locked, c)).
Proof. intros w Hw. unfold at_locks, locks in *. cbn. injection Hw as E1 E2. by rewrite ?E1, ?E2. Qed.
Lemma hoare_unlock_resources c :
  hoare (at_locks (Locked, c)) unlock_resources (fun _ => at_locks (Unlocked, c)).
Proof. intros w Hw. unfold at_locks, locks in *. cbn. injection Hw as E1 E2. by rewrite ?E1, ?E2. Qed.
Lemma hoare_lock_contexts c :
  hoare (at_locks (c, Unlocked)) lock_contexts (fun _ => at_locks (c, Locked)).
Proof. intros w Hw. unfold at_locks, locks in *. cbn. injection Hw as E1 E2. by rewrite ?E1, ?E2. Qed.
Lemma hoare_unlock_contexts c :
  hoare (at_locks (c, Locked)) unlock_contexts (fun _ => at_locks (c, Unlocked)).
Proof. intros w Hw. unfold at_locks, locks in *. cbn. injection Hw as E1 E2. by rewrite ?E1, ?E2. Qed.
Lemma hoare_ret_locks {A} (a : A) l : hoare (at_locks l) (ret a) (fun _ => at_locks l).
Proof. by intros w Hw. Qed.
Lemma hoare_keeps_locks {A} (m : M (world T) A) l :
  keeps (fun w => locks (w_gpu w)) m -> hoare (at_locks l) m (fun _ => at_locks l).
Proof. intros Hm. exact (Hm l). Qed.
Lemma lock_safe_bind {A B} (m : M (world T) A) (k : A -> M (world T) B) :
  lock_safe m -> (forall a, lock_safe (k a)) -> lock_safe (bind m k).
Proof. intros Hm Hk. by eapply hoare_bind. Qed.
End locks.

(** Walk a method, following the locks. *)
Ltac lock_tac :=
  unfold lock_safe;
  repeat first
    [ apply hoare_ret_locks
    | eapply hoare_bind; [apply hoare_lock_resources|intros ?]
    | eapply hoare_bind; [apply hoare_unlock_resources|intros ?]
    | eapply hoare_bind; [apply hoare_lock_contexts|intros ?]
    | eapply hoare_bind; [apply hoare_unlock_contexts|intros ?]
    | eapply hoare_bind; [solve [apply hoare_keeps_locks; keeps_tac]|intros ?]
    | goal_case
    | solve [apply hoare_unlock_resources] | solve [apply hoare_unlock_contexts]
    | solve [apply hoare_keeps_locks; keeps_tac] ].
