(* ===== verification/SplitQueue.v ===== *)
(** The split virtqueue both of the device's queues use: the descriptor free
    list, the memory the driver shares with the device, the layout of the
    rings in one allocation, and the doorbell ([VMVirtIOGPU.h], the [VRing]
    structs; [setupControlVirtQueue], [vringFreeDepth]). The queues themselves
    are in [ControlQueue.v] and [CursorQueue.v]. *)
From S2P Require Import Prelude.

(** * The descriptor free list

    [m_vq_free_head] and [m_vq_free_next]: a list threaded through an array,
    ended by [(uint16_t)-1]. An index outside the array is undefined behaviour
    in the source; [chain] below rules it out. *)
Definition NIL : Z := 65535.

Record freelist := mk_fl { fl_head : Z; fl_next : list Z }.

Definition fl_at (f : freelist) (d : Z) : Z := default NIL (fl_next f !! Z.to_nat d).

Definition fl_pop (f : freelist) : option (Z * freelist) :=
  if fl_head f =? NIL then None
  else Some (fl_head f, mk_fl (fl_at f (fl_head f)) (fl_next f)).

Definition fl_push (d : Z) (f : freelist) : freelist :=
  mk_fl d (<[Z.to_nat d := fl_head f]> (fl_next f)).

(** Step "initialize descriptor free-list" of the two set-up functions. *)
Definition fl_init (n : Z) : freelist :=
  mk_fl 0 ((fun i => if Z.of_nat i + 1 <? n then Z.of_nat i + 1 else NIL)
             <$> seq 0 (Z.to_nat n)).

(** [chain next h l]: from head [h] the list holds the descriptors [l]. *)
Inductive chain (next : list Z) : Z -> list Z -> Prop :=
| chain_nil : chain next NIL []
| chain_cons d d' l :
    0 <= d < NIL -> next !! Z.to_nat d = Some d' -> chain next d' l ->
    chain next d (d :: l).

Definition fl_ok (n : Z) (f : freelist) (l : list Z) : Prop :=
  0 <= n <= 256 /\ Z.of_nat (length (fl_next f)) = n /\
  chain (fl_next f) (fl_head f) l /\ NoDup l.

(** [vringFreeDepth]: the walk with its three loop conditions. *)
Fixpoint free_depth_loop (fuel : nat) (f : freelist) (size i depth : Z) : option Z :=
  match fuel with
  | O => None
  | S k =>
      if negb (i =? NIL) && (i <? size) && (depth <=? size)
      then free_depth_loop k f size (fl_at f i) (u16 (depth + 1))
      else Some depth
  end.

Definition vringFreeDepth (mapped : bool) (size : Z) (f : freelist) : option Z :=
  if negb mapped || (size =? 0) then Some 0
  else free_depth_loop (Z.to_nat size + 3) f size (fl_head f) 0.

(** * The memory shared with the device *)
Definition VRING_DESC_F_NEXT : Z := 1.
Definition VRING_DESC_F_WRITE : Z := 2.

Record VRingDesc := mk_desc { d_addr : Z; d_len : Z; d_flags : Z; d_next : Z }.

(** The descriptor table, the two rings, and the bytes of the command,
    temporary command and response buffers. *)
Record shared := mk_shared {
  sh_desc : list VRingDesc;
  sh_avail_ring : list Z;
  sh_avail_idx : Z;
  sh_used_ring : list (Z * Z);
  sh_used_idx : Z;
  sh_cmd : list Z;
  sh_temp : list Z;
  sh_resp : list Z
}.

Definition set_sh_desc (v : list VRingDesc) (x : shared) : shared :=
  mk_shared v (sh_avail_ring x) (sh_avail_idx x) (sh_used_ring x) (sh_used_idx x) (sh_cmd x) (sh_temp x) (sh_resp x).
Definition set_sh_avail_ring (v : list Z) (x : shared) : shared :=
  mk_shared (sh_desc x) v (sh_avail_idx x) (sh_used_ring x) (sh_used_idx x) (sh_cmd x) (sh_temp x) (sh_resp x).
Definition set_sh_avail_idx (v : Z) (x : shared) : shared :=
  mk_shared (sh_desc x) (sh_avail_ring x) v (sh_used_ring x) (sh_used_idx x) (sh_cmd x) (sh_temp x) (sh_resp x).
Definition set_sh_used_ring (v : list (Z * Z)) (x : shared) : shared :=
  mk_shared (sh_desc x) (sh_avail_ring x) (sh_avail_idx x) v (sh_used_idx x) (sh_cmd x) (sh_temp x) (sh_resp x).
Definition set_sh_used_idx (v : Z) (x : shared) : shared :=
  mk_shared (sh_desc x) (sh_avail_ring x) (sh_avail_idx x) (sh_used_ring x) v (sh_cmd x) (sh_temp x) (sh_resp x).
Definition set_sh_cmd (v : list Z) (x : shared) : shared :=
  mk_shared (sh_desc x) (sh_avail_ring x) (sh_avail_idx x) (sh_used_ring x) (sh_used_idx x) v (sh_temp x) (sh_resp x).
Definition set_sh_temp (v : list Z) (x : shared) : shared :=
  mk_shared (sh_desc x) (sh_avail_ring x) (sh_avail_idx x) (sh_used_ring x) (sh_used_idx x) (sh_cmd x) v (sh_resp x).
Definition set_sh_resp (v : list Z) (x : shared) : shared :=
  mk_shared (sh_desc x) (sh_avail_ring x) (sh_avail_idx x) (sh_used_ring x) (sh_used_idx x) (sh_cmd x) (sh_temp x) v.

(** [memcpy] of [bs] to the start of a buffer of [length old] bytes. *)
Definition overwrite (bs old : list Z) : list Z := bs ++ drop (length bs) old.

(** Filling a chain of one readable and one writable descriptor. *)
Definition fill_descriptors (cd cmd_phys cmd_size rd resp_phys resp_len : Z)
    (sh : shared) : shared :=
  set_sh_desc
    (<[Z.to_nat rd := mk_desc resp_phys resp_len VRING_DESC_F_WRITE 0]>
      (<[Z.to_nat cd := mk_desc cmd_phys (u32 cmd_size) VRING_DESC_F_NEXT rd]> (sh_desc sh))) sh.

(** The avail ring: the slot, then the index. *)
Definition publish (size avail_idx cd : Z) (sh : shared) : shared :=
  set_sh_avail_idx (u16 (avail_idx + 1))
    (set_sh_avail_ring (<[Z.to_nat (avail_idx mod size) := cd]> (sh_avail_ring sh)) sh).

(** * The doorbell *)
Record notify := mk_notify {
  n_base : bool;             (* m_notify_base *)
  n_map : bool;              (* m_notify_map *)
  n_cap_offset : Z;
  n_off_multiplier : Z
}.

(** The offset from the BAR's address that [notify_addr] has, when the queue
    can be notified: the product has 32 bits, and both numbers are added to a
    pointer. *)
Definition notify_addr (n : notify) (queue_off : Z) : option Z :=
  if n_base n && (0 <? n_off_multiplier n)
  then Some (n_cap_offset n + u32 (queue_off * n_off_multiplier n))
  else if n_map n
  then Some (n_cap_offset n + u32 (queue_off * n_off_multiplier n))
  else None.

(** * Ring layout in one allocation *)
Fixpoint pow2_loop (fuel : nat) (pow2 qsize : Z) : Z :=
  match fuel with
  | O => pow2
  | S k => if pow2 * 2 <=? qsize then pow2_loop k (pow2 * 2) qsize else pow2
  end.

(** Clamp to [limit], then round down to a power of two; at most eight
    doublings reach 256. *)
Definition clamp_pow2 (limit qsize : Z) : Z :=
  pow2_loop 16 1 (if limit <? qsize then limit else qsize).

(** [(x + (a - 1)) & ~(a - 1)] on [uint32_t]. *)
Definition align_up (a x : Z) : Z := Z.land (u32 (x + (a - 1))) (Z.lxor 0xFFFFFFFF (a - 1)).

Record layout := mk_layout { l_avail_offset : Z; l_used_offset : Z; l_total_size : Z }.

Definition desc_size (qsize : Z) : Z := qsize * 16.
Definition avail_size (qsize : Z) : Z := 4 + 2 * qsize + 2.
Definition used_size (qsize : Z) : Z := 4 + 8 * qsize + 2.

Definition vring_layout (qsize : Z) : layout :=
  let avail_offset := align_up 2 (desc_size qsize) in
  let used_offset := align_up 4 (avail_offset + avail_size qsize) in
  mk_layout avail_offset used_offset (align_up 4096 (used_offset + used_size qsize)).

(** * Free-list lemmas *)
Lemma chain_inv next d l :
  chain next d l -> d <> NIL ->
  exists d' l', l = d :: l' /\ 0 <= d < NIL /\ next !! Z.to_nat d = Some d' /\ chain next d' l'.
Proof. intros H Hd. inversion H; subst; [done|]. by eexists _, _. Qed.

Lemma chain_in_range next d l x : chain next d l -> x ∈ l -> 0 <= x < Z.of_nat (length next).
Proof.
  induction 1 as [|d d' l Hd Hl Hc IH]; intros Hx; [by apply elem_of_nil in Hx|].
  apply elem_of_cons in Hx as [->|Hx]; [|by apply IH].
  apply lookup_lt_Some in Hl. lia.
Qed.

(** Popping a descriptor and pushing it back restores head and array. *)
Lemma fl_push_pop f d f' :
  fl_pop f = Some (d, f') -> (Z.to_nat d < length (fl_next f))%nat -> fl_push d f' = f.
Proof.
  unfold fl_pop, fl_push. case_match; [done|]. intros [= <- <-] Hl. cbn.
  destruct f as [h nx]; cbn in *. f_equal.
  apply list_insert_id. unfold fl_at. cbn.
  destruct (nx !! Z.to_nat h) eqn:E; [done|]. apply lookup_ge_None in E. lia.
Qed.

Lemma fl_pop_ok n f l :
  fl_ok n f l ->
  match fl_pop f with
  | None => l = []
  | Some (d, f') => exists l', l = d :: l' /\ fl_ok n f' l' /\ 0 <= d < n
                               /\ fl_push d f' = f
  end.
Proof.
  intros (Hn & Hlen & Hc & Hnd). destruct (fl_pop f) as [[d f']|] eqn:Hp.
  - pose proof Hp as Hp'. unfold fl_pop in Hp. case_match; [done|].
    injection Hp as <- <-. apply Z.eqb_neq in H.
    destruct (chain_inv _ _ _ Hc H) as (d' & l' & -> & Hr & Hlk & Hc').
    assert (Hlt := lookup_lt_Some _ _ _ Hlk).
    exists l'. repeat split; cbn; try lia; [| by inversion Hnd|].
    + unfold fl_at. by rewrite Hlk.
    + eapply fl_push_pop; [exact Hp'|lia].
  - unfold fl_pop in Hp. case_match; [|done]. apply Z.eqb_eq in H. rewrite H in Hc.
    inversion Hc; [done|]. unfold NIL in *. lia.
Qed.

(** The initial free list holds every descriptor, in order. *)
Definition zseq (a n : nat) : list Z := Z.of_nat <$> seq a n.

Lemma fl_init_lookup n i :
  (i < Z.to_nat n)%nat ->
  fl_next (fl_init n) !! i = Some (if Z.of_nat i + 1 <? n then Z.of_nat i + 1 else NIL).
Proof.
  intros Hi. cbn. rewrite list_lookup_fmap, lookup_seq_lt by done. done.
Qed.

Lemma fl_init_chain n k i :
  0 < n <= 256 -> (i + S k = Z.to_nat n)%nat ->
  chain (fl_next (fl_init n)) (Z.of_nat i) (zseq i (S k)).
Proof.
  intros Hn. revert i. induction k as [|k IH]; intros i Hi.
  - apply chain_cons with NIL; [unfold NIL; lia| |constructor].
    rewrite Nat2Z.id, fl_init_lookup by lia. by rewrite (proj2 (Z.ltb_ge _ _)) by lia.
  - cbn [zseq seq fmap list_fmap]. apply chain_cons with (Z.of_nat (S i)); [unfold NIL; lia| |].
    + rewrite Nat2Z.id, fl_init_lookup by lia.
      rewrite (proj2 (Z.ltb_lt _ _)) by lia. f_equal. lia.
    + apply IH. lia.
Qed.

Lemma NoDup_zseq a n : NoDup (zseq a n).
Proof. apply NoDup_fmap_2; [intros x y; lia|apply NoDup_seq]. Qed.

Lemma fl_init_ok n : 0 < n <= 256 -> fl_ok n (fl_init n) (zseq 0 (Z.to_nat n)).
Proof.
  intros Hn. split_and!; [lia|lia| | |apply NoDup_zseq].
  - cbn. rewrite length_fmap, length_seq. lia.
  - destruct (Z.to_nat n) as [|k] eqn:E; [lia|]. apply (fl_init_chain n k 0); lia.
Qed.

(** * The depth walk *)
Lemma free_depth_loop_chain f size l fuel i depth :
  chain (fl_next f) i l -> Z.of_nat (length (fl_next f)) = size -> 0 <= size <= 256 ->
  0 <= depth -> depth + Z.of_nat (length l) <= size -> (length l < fuel)%nat ->
  free_depth_loop fuel f size i depth = Some (depth + Z.of_nat (length l)).
Proof.
  intros Hc Hlen Hsz. revert fuel depth.
  induction Hc as [|d d' l Hd Hl Hc IH]; intros fuel depth H0 Hle Hf;
    (destruct fuel as [|k]; [cbn in Hf; lia|]); cbn [free_depth_loop].
  - rewrite Z.eqb_refl. cbn. f_equal. lia.
  - pose proof (lookup_lt_Some _ _ _ Hl). cbn [length] in *.
    rewrite (proj2 (Z.eqb_neq _ _)), (proj2 (Z.ltb_lt _ _)), (proj2 (Z.leb_le _ _)) by lia.
    cbn [negb andb]. unfold fl_at. rewrite Hl. cbn [default].
    rewrite u16_small by lia. change (from_option id NIL (Some d')) with d'.
    rewrite IH by lia. f_equal. lia.
Qed.

(** Whatever the array holds, the walk ends, within [size + 1] steps. *)
Lemma free_depth_loop_total f size fuel i depth :
  0 <= size <= 65534 -> 0 <= depth <= size + 1 -> (Z.to_nat (size + 1 - depth) < fuel)%nat ->
  exists r, free_depth_loop fuel f size i depth = Some r /\ depth <= r <= size + 1.
Proof.
  intros Hs. revert i depth. induction fuel as [|k IH]; intros i depth Hd Hf; [lia|].
  cbn [free_depth_loop]. destruct (_ && _ && _) eqn:E; [|eexists; split; [done|lia]].
  apply andb_true_iff in E as [_ E]. apply Z.leb_le in E.
  destruct (IH (fl_at f i) (u16 (depth + 1))) as (r & Hr & Hb).
  - rewrite u16_small by lia. lia.
  - rewrite u16_small by lia. lia.
  - rewrite u16_small in Hb by lia. exists r. split; [done|lia].
Qed.

(** * Layout lemmas *)
Lemma pow2_loop_spec fuel p k q :
  0 <= k -> p = 2 ^ k -> p <= q < p * 2 ^ Z.of_nat fuel ->
  exists j, 0 <= j /\ pow2_loop fuel p q = 2 ^ j /\ 2 ^ j <= q < 2 * 2 ^ j.
Proof.
  revert p k. induction fuel as [|n IH]; intros p k Hk Hp Hq; [cbn in Hq; lia|].
  cbn [pow2_loop]. destruct (Z.leb_spec (p * 2) q).
  - apply (IH _ (k + 1)); [lia| |].
    + rewrite Z.pow_add_r by lia. lia.
    + rewrite Nat2Z.inj_succ, Z.pow_succ_r in Hq by lia. lia.
  - exists k. subst. split_and!; lia || done.
Qed.

(** A clamped size is one of nine powers of two. *)
Lemma clamp_pow2_spec limit qsize :
  1 <= limit <= 256 -> 1 <= qsize ->
  exists j, 0 <= j <= 8 /\ clamp_pow2 limit qsize = 2 ^ j /\ 2 ^ j <= Z.min limit qsize < 2 * 2 ^ j.
Proof.
  intros Hl Hq. unfold clamp_pow2.
  assert (Hm : (if limit <? qsize then limit else qsize) = Z.min limit qsize)
    by (destruct (Z.ltb_spec limit qsize); lia).
  rewrite Hm.
  destruct (pow2_loop_spec 16 1 0 (Z.min limit qsize)) as (j & Hj & -> & Hb); [lia|done| |].
  { change (2 ^ Z.of_nat 16) with 65536. lia. }
  exists j. split_and!; [lia| |done|lia|lia].
  destruct (Z.le_gt_cases j 8) as [|Hgt]; [done|].
  assert (2 ^ 9 <= 2 ^ j) by (apply Z.pow_le_mono_r; lia). change (2 ^ 9) with 512 in *. lia.
Qed.

Lemma pow2_cases j :
  0 <= j <= 8 ->
  2 ^ j = 1 \/ 2 ^ j = 2 \/ 2 ^ j = 4 \/ 2 ^ j = 8 \/ 2 ^ j = 16 \/ 2 ^ j = 32
  \/ 2 ^ j = 64 \/ 2 ^ j = 128 \/ 2 ^ j = 256.
Proof.
  intros H. assert (j = 0 \/ j = 1 \/ j = 2 \/ j = 3 \/ j = 4 \/ j = 5 \/ j = 6 \/ j = 7 \/ j = 8)
    by lia. destruct_or?; subst; cbn; lia.
Qed.

(** C34: for every queue size a device can offer, the clamped size is a power
    of two that divides the 65536 ring indices, and the descriptor table, the
    avail ring and the used ring lie in the allocation in this order, aligned
    at 16, 2 and 4 bytes, without overlap, and end inside its page-rounded
    size of one or two pages. *)
Theorem vring_layout_wf limit qsize :
  1 <= limit <= 256 -> 1 <= qsize <= 65535 ->
  let n := clamp_pow2 limit qsize in
  let l := vring_layout n in
  (1 <= n <= limit /\ n <= qsize /\ 65536 mod n = 0) /\
  (desc_size n <= l_avail_offset l /\ l_avail_offset l mod 2 = 0) /\
  (l_avail_offset l + avail_size n <= l_used_offset l /\ l_used_offset l mod 4 = 0) /\
  (l_used_offset l + used_size n <= l_total_size l /\ l_total_size l mod 4096 = 0
   /\ l_total_size l <= 8192).
Proof.
  intros Hl Hq n l. destruct (clamp_pow2_spec limit qsize) as (j & Hj & En & Hb); [lia|lia|].
  assert (En' : n = 2 ^ j) by exact En.
  split; [split_and!; [| lia | lia |]|].
  - assert (0 < 2 ^ j) by (apply Z.pow_pos_nonneg; lia). lia.
  - rewrite En'. destruct (pow2_cases j Hj) as [E|E]; destruct_or?;
      match goal with H : 2 ^ j = _ |- _ => rewrite H end; reflexivity.
  - subst l. rewrite En'. clear -Hj.
    destruct (pow2_cases j Hj) as [E|E]; destruct_or?;
      match goal with H : 2 ^ j = _ |- _ => rewrite H end; vm_compute; intuition discriminate.
Qed.

Lemma vring_layout_wf_witness :
  l_total_size (vring_layout (clamp_pow2 256 1024)) <= 8192.
Proof. apply (vring_layout_wf 256 1024); lia. Defined.

(** The depth walk returns the length of a well-formed free list, and
    ends within [size + 1] steps whatever the array holds. *)
Theorem vringFreeDepth_spec (size : Z) (f : freelist) :
  0 < size <= 256 ->
  (exists r, vringFreeDepth true size f = Some r /\ 0 <= r <= size + 1) /\
  (forall l, fl_ok size f l -> vringFreeDepth true size f = Some (Z.of_nat (length l))).
Proof.
  intros Hs. unfold vringFreeDepth. rewrite (proj2 (Z.eqb_neq size 0)) by lia. cbn [negb orb].
  split.
  - apply free_depth_loop_total; lia.
  - intros l (_ & Hlen & Hc & Hnd).
    assert (Hle : (length l <= length (fl_next f))%nat).
    { assert (Hsub : l ⊆+ zseq 0 (length (fl_next f))).
      { apply NoDup_submseteq; [done|]. intros x Hx.
        pose proof (chain_in_range _ _ _ _ Hc Hx). unfold zseq.
        apply list_elem_of_fmap. exists (Z.to_nat x). rewrite elem_of_seq. lia. }
      apply submseteq_length in Hsub. unfold zseq in Hsub.
      by rewrite length_fmap, length_seq in Hsub. }
    rewrite (free_depth_loop_chain f size l) by (done || lia). done.
Qed.

Lemma vringFreeDepth_spec_witness :
  vringFreeDepth true 4 (fl_init 4) = Some 4.
Proof.
  apply (proj2 (vringFreeDepth_spec 4 (fl_init 4) ltac:(lia)) [0; 1; 2; 3]).
  apply (fl_init_ok 4). lia.
Defined.
