(* ===== verification/ControlQueue.v ===== *)
(** The control queue: [VMVirtIOGPU::submitCommand] of [FB/VMVirtIOGPU.cpp],
    with the device as an environment that may change the shared memory at
    every point where the driver looks at it.

    [env t sh] is the shared memory the driver finds at its [t]-th look, after
    the device had its way with [sh]: one look before the drain, one per poll
    iteration, one when the response is read. The theorems quantify over every
    [env], so they hold for every device, late, silent or malicious. *)
From S2P Require Import Prelude Wire Transport SplitQueue.

(** * The queue's state *)
Record cq := mk_cq {
  cq_initialized : bool;
  cq_mapped : bool;
  cq_size : Z;
  cq_free : freelist;
  cq_last_used : Z;
  cq_avail_idx : Z;
  cq_lock : lock_state;
  cq_cmd_phys : Z;
  cq_resp_phys : Z;
  cq_submit_count : Z;
  cq_notify_count : Z;
  cq_notify : notify;
  cq_notify_offset : Z;
  cq_doorbell : list (Z * Z);
  cq_temp_allocs : list (option Z);
  cq_temp_live : Z;
  cq_sh : shared;
  cq_time : nat
}.

Definition set_cq_initialized (v : bool) (x : cq) : cq :=
  mk_cq v (cq_mapped x) (cq_size x) (cq_free x) (cq_last_used x) (cq_avail_idx x) (cq_lock x) (cq_cmd_phys x) (cq_resp_phys x) (cq_submit_count x) (cq_notify_count x) (cq_notify x) (cq_notify_offset x) (cq_doorbell x) (cq_temp_allocs x) (cq_temp_live x) (cq_sh x) (cq_time x).
Definition set_cq_mapped (v : bool) (x : cq) : cq :=
  mk_cq (cq_initialized x) v (cq_size x) (cq_free x) (cq_last_used x) (cq_avail_idx x) (cq_lock x) (cq_cmd_phys x) (cq_resp_phys x) (cq_submit_count x) (cq_notify_count x) (cq_notify x) (cq_notify_offset x) (cq_doorbell x) (cq_temp_allocs x) (cq_temp_live x) (cq_sh x) (cq_time x).
Definition set_cq_size (v : Z) (x : cq) : cq :=
  mk_cq (cq_initialized x) (cq_mapped x) v (cq_free x) (cq_last_used x) (cq_avail_idx x) (cq_lock x) (cq_cmd_phys x) (cq_resp_phys x) (cq_submit_count x) (cq_notify_count x) (cq_notify x) (cq_notify_offset x) (cq_doorbell x) (cq_temp_allocs x) (cq_temp_live x) (cq_sh x) (cq_time x).
Definition set_cq_free (v : freelist) (x : cq) : cq :=
  mk_cq (cq_initialized x) (cq_mapped x) (cq_size x) v (cq_last_used x) (cq_avail_idx x) (cq_lock x) (cq_cmd_phys x) (cq_resp_phys x) (cq_submit_count x) (cq_notify_count x) (cq_notify x) (cq_notify_offset x) (cq_doorbell x) (cq_temp_allocs x) (cq_temp_live x) (cq_sh x) (cq_time x).
Definition set_cq_last_used (v : Z) (x : cq) : cq :=
  mk_cq (cq_initialized x) (cq_mapped x) (cq_size x) (cq_free x) v (cq_avail_idx x) (cq_lock x) (cq_cmd_phys x) (cq_resp_phys x) (cq_submit_count x) (cq_notify_count x) (cq_notify x) (cq_notify_offset x) (cq_doorbell x) (cq_temp_allocs x) (cq_temp_live x) (cq_sh x) (cq_time x).
Definition set_cq_avail_idx (v : Z) (x : cq) : cq :=
  mk_cq (cq_initialized x) (cq_mapped x) (cq_size x) (cq_free x) (cq_last_used x) v (cq_lock x) (cq_cmd_phys x) (cq_resp_phys x) (cq_submit_count x) (cq_notify_count x) (cq_notify x) (cq_notify_offset x) (cq_doorbell x) (cq_temp_allocs x) (cq_temp_live x) (cq_sh x) (cq_time x).
Definition set_cq_lock (v : lock_state) (x : cq) : cq :=
  mk_cq (cq_initialized x) (cq_mapped x) (cq_size x) (cq_free x) (cq_last_used x) (cq_avail_idx x) v (cq_cmd_phys x) (cq_resp_phys x) (cq_submit_count x) (cq_notify_count x) (cq_notify x) (cq_notify_offset x) (cq_doorbell x) (cq_temp_allocs x) (cq_temp_live x) (cq_sh x) (cq_time x).
Definition set_cq_cmd_phys (v : Z) (x : cq) : cq :=
  mk_cq (cq_initialized x) (cq_mapped x) (cq_size x) (cq_free x) (cq_last_used x) (cq_avail_idx x) (cq_lock x) v (cq_resp_phys x) (cq_submit_count x) (cq_notify_count x) (cq_notify x) (cq_notify_offset x) (cq_doorbell x) (cq_temp_allocs x) (cq_temp_live x) (cq_sh x) (cq_time x).
Definition set_cq_resp_phys (v : Z) (x : cq) : cq :=
  mk_cq (cq_initialized x) (cq_mapped x) (cq_size x) (cq_free x) (cq_last_used x) (cq_avail_idx x) (cq_lock x) (cq_cmd_phys x) v (cq_submit_count x) (cq_notify_count x) (cq_notify x) (cq_notify_offset x) (cq_doorbell x) (cq_temp_allocs x) (cq_temp_live x) (cq_sh x) (cq_time x).
Definition set_cq_submit_count (v : Z) (x : cq) : cq :=
  mk_cq (cq_initialized x) (cq_mapped x) (cq_size x) (cq_free x) (cq_last_used x) (cq_avail_idx x) (cq_lock x) (cq_cmd_phys x) (cq_resp_phys x) v (cq_notify_count x) (cq_notify x) (cq_notify_offset x) (cq_doorbell x) (cq_temp_allocs x) (cq_temp_live x) (cq_sh x) (cq_time x).
Definition set_cq_notify_count (v : Z) (x : cq) : cq :=
  mk_cq (cq_initialized x) (cq_mapped x) (cq_size x) (cq_free x) (cq_last_used x) (cq_avail_idx x) (cq_lock x) (cq_cmd_phys x) (cq_resp_phys x) (cq_submit_count x) v (cq_notify x) (cq_notify_offset x) (cq_doorbell x) (cq_temp_allocs x) (cq_temp_live x) (cq_sh x) (cq_time x).
Definition set_cq_notify (v : notify) (x : cq) : cq :=
  mk_cq (cq_initialized x) (cq_mapped x) (cq_size x) (cq_free x) (cq_last_used x) (cq_avail_idx x) (cq_lock x) (cq_cmd_phys x) (cq_resp_phys x) (cq_submit_count x) (cq_notify_count x) v (cq_notify_offset x) (cq_doorbell x) (cq_temp_allocs x) (cq_temp_live x) (cq_sh x) (cq_time x).
Definition set_cq_notify_offset (v : Z) (x : cq) : cq :=
  mk_cq (cq_initialized x) (cq_mapped x) (cq_size x) (cq_free x) (cq_last_used x) (cq_avail_idx x) (cq_lock x) (cq_cmd_phys x) (cq_resp_phys x) (cq_submit_count x) (cq_notify_count x) (cq_notify x) v (cq_doorbell x) (cq_temp_allocs x) (cq_temp_live x) (cq_sh x) (cq_time x).
Definition set_cq_doorbell (v : list (Z * Z)) (x : cq) : cq :=
  mk_cq (cq_initialized x) (cq_mapped x) (cq_size x) (cq_free x) (cq_last_used x) (cq_avail_idx x) (cq_lock x) (cq_cmd_phys x) (cq_resp_phys x) (cq_submit_count x) (cq_notify_count x) (cq_notify x) (cq_notify_offset x) v (cq_temp_allocs x) (cq_temp_live x) (cq_sh x) (cq_time x).
Definition set_cq_temp_allocs (v : list (option Z)) (x : cq) : cq :=
  mk_cq (cq_initialized x) (cq_mapped x) (cq_size x) (cq_free x) (cq_last_used x) (cq_avail_idx x) (cq_lock x) (cq_cmd_phys x) (cq_resp_phys x) (cq_submit_count x) (cq_notify_count x) (cq_notify x) (cq_notify_offset x) (cq_doorbell x) v (cq_temp_live x) (cq_sh x) (cq_time x).
Definition set_cq_temp_live (v : Z) (x : cq) : cq :=
  mk_cq (cq_initialized x) (cq_mapped x) (cq_size x) (cq_free x) (cq_last_used x) (cq_avail_idx x) (cq_lock x) (cq_cmd_phys x) (cq_resp_phys x) (cq_submit_count x) (cq_notify_count x) (cq_notify x) (cq_notify_offset x) (cq_doorbell x) (cq_temp_allocs x) v (cq_sh x) (cq_time x).
Definition set_cq_sh (v : shared) (x : cq) : cq :=
  mk_cq (cq_initialized x) (cq_mapped x) (cq_size x) (cq_free x) (cq_last_used x) (cq_avail_idx x) (cq_lock x) (cq_cmd_phys x) (cq_resp_phys x) (cq_submit_count x) (cq_notify_count x) (cq_notify x) (cq_notify_offset x) (cq_doorbell x) (cq_temp_allocs x) (cq_temp_live x) v (cq_time x).
Definition set_cq_time (v : nat) (x : cq) : cq :=
  mk_cq (cq_initialized x) (cq_mapped x) (cq_size x) (cq_free x) (cq_last_used x) (cq_avail_idx x) (cq_lock x) (cq_cmd_phys x) (cq_resp_phys x) (cq_submit_count x) (cq_notify_count x) (cq_notify x) (cq_notify_offset x) (cq_doorbell x) (cq_temp_allocs x) (cq_temp_live x) (cq_sh x) v.

Definition CMD_BUF_SIZE : Z := 4096.
Definition VIRTIO_GPU_RESP_BUF_SIZE : Z := 4096.
Definition POLL_ITERATIONS : nat := 150.

(** Steps that do not look at the shared memory. *)
Definition lock_vq : M cq unit := modify (fun q => set_cq_lock (lock_acquire (cq_lock q)) q).
Definition unlock_vq : M cq unit := modify (fun q => set_cq_lock (lock_release (cq_lock q)) q).

(** [m_vq_free_head = m_vq_free_next[d]], or no descriptor. *)
Definition pop_desc : M cq (option Z) :=
  fun q => match fl_pop (cq_free q) with
           | None => (None, q)
           | Some (d, f) => (Some d, set_cq_free f q)
           end.
Definition push_desc (d : Z) : M cq unit := modify (fun q => set_cq_free (fl_push d (cq_free q)) q).

(** The four assignments that end every path after the pops. *)
Definition return_descriptors (rd cd : Z) : M cq unit := push_desc rd ;;; push_desc cd.

(** Step 2: the command's buffer. [Some phys]: the buffer's address (0 when
    [getPhysicalSegment] fails); [None]: no temporary buffer. *)
Definition stage_command (cmd : list Z) : M cq (option Z) :=
  fun q =>
    if Z.of_nat (length cmd) <=? CMD_BUF_SIZE
    then (Some (cq_cmd_phys q),
          set_cq_sh (set_sh_cmd (overwrite cmd (sh_cmd (cq_sh q))) (cq_sh q)) q)
    else match cq_temp_allocs q with
         | Some phys :: l =>
             (Some phys, set_cq_temp_live (cq_temp_live q + 1)
                (set_cq_temp_allocs l (set_cq_sh (set_sh_temp cmd (cq_sh q)) q)))
         | None :: l => (None, set_cq_temp_allocs l q)
         | [] => (None, q)
         end.

Definition is_temp (cmd : list Z) : bool := negb (Z.of_nat (length cmd) <=? CMD_BUF_SIZE).

(** [if (temp_cmd_buf) { complete(); release(); }] *)
Definition free_temp (cmd : list Z) : M cq unit :=
  modify (fun q => if is_temp cmd then set_cq_temp_live (cq_temp_live q - 1) q else q).

(** Steps 3 to 5. *)
Definition publish_command (cd cmd_phys cmd_size rd resp_phys resp_size : Z) : M cq unit :=
  modify (fun q =>
    let resp_len := if resp_size <? VIRTIO_GPU_RESP_BUF_SIZE
                    then resp_size else VIRTIO_GPU_RESP_BUF_SIZE in
    let sh := fill_descriptors cd cmd_phys cmd_size rd resp_phys resp_len (cq_sh q) in
    set_cq_avail_idx (u16 (cq_avail_idx q + 1))
      (set_cq_sh (publish (cq_size q) (cq_avail_idx q) cd sh) q)).

(** Step 6: ring the doorbell with the queue's index; [false]: no mapping. *)
Definition notify_device : M cq bool :=
  fun q =>
    let q := set_cq_notify_count (u32 (cq_notify_count q + 1)) q in
    match notify_addr (cq_notify q) (cq_notify_offset q) with
    | Some a => (true, set_cq_doorbell (cq_doorbell q ++ [(a, 0)]) q)
    | None => (false, q)
    end.

(** Step 9: [memcpy] of the response buffer into the caller's. *)
Definition copy_response (resp : list Z) (resp_size : Z) (buf : list Z) : list Z :=
  if 0 <? resp_size then
    overwrite (take (Z.to_nat (Z.min resp_size VIRTIO_GPU_RESP_BUF_SIZE)) buf) resp
  else resp.

(** Step 12. *)
Definition submit_status (resp : option (list Z)) : IOReturn :=
  match resp with
  | None => kIOReturnSuccess
  | Some r => response_status (resp_type r)
  end.

Section control.
Context (env : nat -> shared -> shared).

(** The driver looks at the shared memory. *)
Definition observe : M cq unit :=
  modify (fun q => set_cq_time (S (cq_time q)) (set_cq_sh (env (cq_time q) (cq_sh q)) q)).

(** Discard what the device completed since the last command. *)
Definition drain : M cq unit :=
  observe ;;; modify (fun q => set_cq_last_used (sh_used_idx (cq_sh q)) q).

(** Step 7: [None] when the used index did not move in [n] iterations. *)
Fixpoint poll (n i : nat) : M cq (option nat) :=
  match n with
  | O => ret None
  | S n' =>
      observe ;;;
      let! q := gets (fun q => q) in
      if negb (sh_used_idx (cq_sh q) =? cq_last_used q) then ret (Some i)
      else poll n' (S i)
  end.

(** Steps 8 to 12, once the used index moved. *)
Definition take_response (cmd : list Z) (resp : option (list Z)) (resp_size rd cd : Z)
  : M cq (IOReturn * option (list Z)) :=
  observe ;;;
  modify (fun q => set_cq_last_used (u16 (cq_last_used q + 1)) q) ;;;
  let! buf := gets (fun q => sh_resp (cq_sh q)) in
  let resp' := (fun r => copy_response r resp_size buf) <$> resp in
  return_descriptors rd cd ;;;
  unlock_vq ;;;
  free_temp cmd ;;;
  ret (submit_status resp', resp').

Definition submit_popped (cmd : list Z) (resp : option (list Z)) (resp_size cd rd : Z)
  : M cq (IOReturn * option (list Z)) :=
  let fail (r : IOReturn) := return_descriptors rd cd ;;; unlock_vq ;;; ret (r, resp) in
  let! staged := stage_command cmd in
  match staged with
  | None => fail kIOReturnNoMemory
  | Some cmd_phys =>
      if cmd_phys =? 0 then free_temp cmd ;;; fail kIOReturnNoMemory
      else
        let! resp_phys := gets cq_resp_phys in
        if resp_phys =? 0 then fail kIOReturnNoMemory
        else
          publish_command cd cmd_phys (Z.of_nat (length cmd)) rd resp_phys resp_size ;;;
          let! notified := notify_device in
          if negb notified then fail kIOReturnNotReady
          else
            let! polled := poll POLL_ITERATIONS 0 in
            match polled with
            | None => fail kIOReturnTimeout
            | Some _ => take_response cmd resp resp_size rd cd
            end
  end.

Definition submit_locked (cmd : list Z) (resp : option (list Z)) (resp_size : Z)
  : M cq (IOReturn * option (list Z)) :=
  drain ;;;
  let! p1 := pop_desc in
  match p1 with
  | None => unlock_vq ;;; ret (kIOReturnNoResources, resp)
  | Some cd =>
      let! p2 := pop_desc in
      match p2 with
      | None => push_desc cd ;;; unlock_vq ;;; ret (kIOReturnNoResources, resp)
      | Some rd => submit_popped cmd resp resp_size cd rd
      end
  end.

(** [submitCommand(cmd, cmd_size, resp, resp_size)]: [cmd_size] is the
    length of [cmd]; a null pointer is [None]. Answers the status and the
    caller's response buffer afterwards. *)
Definition submitCommand (cmd : option (list Z)) (resp : option (list Z)) (resp_size : Z)
  : M cq (IOReturn * option (list Z)) :=
  match cmd with
  | None => ret (kIOReturnBadArgument, resp)
  | Some c =>
      if Z.of_nat (length c) <? 24 then ret (kIOReturnBadArgument, resp)
      else
        let! ready := gets (fun q => cq_initialized q && cq_mapped q) in
        if negb ready then ret (kIOReturnNotReady, resp)
        else
          modify (fun q => set_cq_submit_count (u32 (cq_submit_count q + 1)) q) ;;;
          lock_vq ;;;
          submit_locked c resp resp_size
  end.
End control.

(** * What each step leaves alone *)
Section frame.
Context (env : nat -> shared -> shared).

(** Polling changes nothing but the shared memory and the clock. *)
Lemma poll_frame n i q :
  exists sh t, (poll env n i q).2 = set_cq_time t (set_cq_sh sh q)
    /\ (cq_time q <= t <= cq_time q + n)%nat.
Proof.
  revert i q. induction n as [|n IH]; intros i q.
  - exists (cq_sh q), (cq_time q). split; [by destruct q|lia].
  - cbn -[Z.eqb]. unfold bind, observe, modify, gets. cbn -[Z.eqb].
    case_match; [by eexists _, _; split; [done|cbn; lia]|].
    destruct (IH (S i) (set_cq_time (S (cq_time q)) (set_cq_sh (env (cq_time q) (cq_sh q)) q)))
      as (sh & t & -> & Ht).
    exists sh, t. split; [done|cbn in Ht; lia].
Qed.

Lemma poll_frame_eq n i q :
  let q' := (poll env n i q).2 in q' = set_cq_time (cq_time q') (set_cq_sh (cq_sh q') q).
Proof. destruct (poll_frame n i q) as (sh & t & E & _). cbn. by rewrite E. Qed.

Lemma poll_hit n i q :
  sh_used_idx (env (cq_time q) (cq_sh q)) <> cq_last_used q ->
  poll env (S n) i q
  = (Some i, set_cq_time (S (cq_time q)) (set_cq_sh (env (cq_time q) (cq_sh q)) q)).
Proof.
  intros H. cbn -[Z.eqb]. unfold bind, observe, modify, gets. cbn -[Z.eqb].
  by rewrite (proj2 (Z.eqb_neq _ _)) by done.
Qed.

(** The shared memory at the [k]-th look of a poll that starts at time [t]. *)
Fixpoint looks (t : nat) (sh : shared) (k : nat) : shared :=
  match k with O => sh | S k' => looks (S t) (env t sh) k' end.

Lemma poll_none_iff n i q :
  (poll env n i q).1 = None <->
  forall k, (k < n)%nat ->
    sh_used_idx (looks (cq_time q) (cq_sh q) (S k)) = cq_last_used q.
Proof.
  revert i q. induction n as [|n IH]; intros i q; [by split; [lia|]|].
  cbn -[Z.eqb looks]. unfold bind, observe, modify, gets. cbn -[Z.eqb looks].
  destruct (Z.eqb_spec (sh_used_idx (env (cq_time q) (cq_sh q))) (cq_last_used q)) as [E|E];
    cbn [negb].
  - rewrite IH. cbn [cq_time cq_sh set_cq_time set_cq_sh cq_last_used]. split; intros H k Hk.
    + destruct k as [|k]; [done|]. apply (H k). lia.
    + apply (H (S k)). lia.
  - split; [done|]. intros H. exfalso. by apply E, (H 0%nat); lia.
Qed.
End frame.

(** Run the straight-line steps of a goal. *)
Ltac run_cq :=
  unfold bind, ret, modify, gets, return_descriptors, push_desc, pop_desc, lock_vq, unlock_vq,
    free_temp, publish_command, notify_device, take_response, drain, observe in *; cbn -[Z.eqb poll] in *.

(** What a submission owes: the free list, the lock and the queue's
    configuration are as found, and time is bounded. *)
Record settled (q0 q : cq) : Prop := mk_settled {
  st_free : cq_free q = cq_free q0;
  st_lock : cq_lock q = Unlocked;
  st_size : cq_size q = cq_size q0;
  st_init : cq_initialized q = cq_initialized q0;
  st_mapped : cq_mapped q = cq_mapped q0;
  st_notify : cq_notify q = cq_notify q0;
  st_offset : cq_notify_offset q = cq_notify_offset q0;
  st_cmd_phys : cq_cmd_phys q = cq_cmd_phys q0;
  st_resp_phys : cq_resp_phys q = cq_resp_phys q0;
  st_time : (cq_time q <= cq_time q0 + 152)%nat
}.

Section settle.
Context (env : nat -> shared -> shared).

(** The part of [settled] that holds once the descriptors are popped. *)
Lemma submit_popped_settled cmd resp rs cd rd q :
  cq_lock q = Locked ->
  settled (set_cq_lock Unlocked (set_cq_free (fl_push cd (fl_push rd (cq_free q))) q))
          (submit_popped env cmd resp rs cd rd q).2
  /\ (cq_time (submit_popped env cmd resp rs cd rd q).2 <= cq_time q + 151)%nat.
Proof.
  intros Hl. unfold submit_popped, stage_command. run_cq.
  repeat (case_match; run_cq; simplify_eq);
    try (split; [constructor; cbn; rewrite ?Hl; done || lia|cbn; lia]).
  all: match goal with H : poll env ?n ?i ?q0 = _ |- _ =>
         let F := fresh in pose proof (poll_frame env n i q0) as F; rewrite H in F;
         destruct F as (sh & t & E & Ht) end;
       cbn in E, Ht; unfold POLL_ITERATIONS in *; subst;
       split; [constructor; cbn; rewrite ?Hl; done || lia|cbn; lia].
Qed.

Lemma submit_locked_settled cmd resp rs q l :
  fl_ok (cq_size q) (cq_free q) l -> cq_lock q = Locked ->
  settled (set_cq_lock Unlocked q) (submit_locked env cmd resp rs q).2.
Proof.
  intros Hf Hl. unfold submit_locked. run_cq.
  pose proof (fl_pop_ok _ _ _ Hf) as Hp.
  destruct (fl_pop (cq_free q)) as [[cd f1]|] eqn:E1; cbn.
  2: { constructor; cbn; rewrite ?Hl; done || lia. }
  destruct Hp as (l1 & -> & Hf1 & Hr1 & Hb1).
  pose proof (fl_pop_ok _ _ _ Hf1) as Hp. 
  destruct (fl_pop f1) as [[rd f2]|] eqn:E2; cbn.
  2: { constructor; cbn; rewrite ?Hl; done || lia. }
  destruct Hp as (l2 & -> & Hf2 & Hr2 & Hb2).
  match goal with |- settled _ (submit_popped _ _ _ _ _ _ ?q2).2 =>
    destruct (submit_popped_settled cmd resp rs cd rd q2 Hl) as [[] Ht] end.
  cbn in *. rewrite Hb2, Hb1 in *. constructor; cbn; done || lia.
Qed.
End settle.

(** * Submission, for every device *)
(** A queue between submissions: the lock is free and the free list sound. *)
Definition idle (q : cq) : Prop :=
  cq_lock q = Unlocked /\ exists l, fl_ok (cq_size q) (cq_free q) l.

Lemma submitCommand_cases env cmd resp rs q :
  (exists e, submitCommand env cmd resp rs q = ((e, resp), q)
             /\ (e = kIOReturnBadArgument \/ e = kIOReturnNotReady))
  \/ exists c, cmd = Some c /\ 24 <= Z.of_nat (length c) /\
      cq_initialized q && cq_mapped q = true /\
      submitCommand env cmd resp rs q
      = submit_locked env c resp rs
          (set_cq_lock (lock_acquire (cq_lock q))
             (set_cq_submit_count (u32 (cq_submit_count q + 1)) q)).
Proof.
  unfold submitCommand. destruct cmd as [c|]; [|left; eexists; split; [done|auto]].
  destruct (Z.ltb_spec (Z.of_nat (length c)) 24) as [E|E];
    [left; eexists; split; [done|auto]|].
  unfold bind, gets. destruct (cq_initialized q && cq_mapped q) eqn:R; cbn;
    [|left; eexists; split; [done|auto]].
  right. exists c. by run_cq.
Qed.

(** C1: whatever the device does, and whatever path the submission takes
    (bad arguments, exhausted descriptors, failed allocations, no doorbell,
    timeout, success or device error), [submitCommand] leaves the descriptor
    free list exactly as it found it, releases the lock, keeps the queue's
    configuration, and looks at the shared memory at most 152 times. *)
Theorem submitCommand_settles (env : nat -> shared -> shared) cmd resp rs q :
  idle q -> settled q (submitCommand env cmd resp rs q).2.
Proof.
  intros [Hl [l Hf]].
  destruct (submitCommand_cases env cmd resp rs q) as [(e & -> & _)|(c & -> & _ & _ & ->)].
  { constructor; cbn; done || lia. }
  rewrite Hl. cbn [lock_acquire].
  destruct (submit_locked_settled env c resp rs
    (set_cq_lock Locked (set_cq_submit_count (u32 (cq_submit_count q + 1)) q)) l Hf eq_refl) as [].
  by constructor.
Qed.

Lemma settled_idle q q' : idle q -> settled q q' -> idle q'.
Proof. intros [_ [l Hf]] []. split; [done|]. exists l. congruence. Qed.

(** The answer: the statuses, and the caller's buffer keeps its length. *)
Lemma length_copy_response r rs buf :
  Z.of_nat (length r) = rs -> length (copy_response r rs buf) = length r.
Proof.
  intros Hr. unfold copy_response, overwrite. case_match; [|done].
  rewrite length_app, length_drop, length_take. lia.
Qed.

Definition answer_ok (resp : list Z) (r : IOReturn * option (list Z)) : Prop :=
  exists b, r.2 = Some b /\ length b = length resp
    /\ (r.1 = kIOReturnSuccess -> 0x1100 <= resp_type b < 0x1200).

Lemma submit_popped_answer env cmd resp rs cd rd q :
  Z.of_nat (length resp) = rs ->
  answer_ok resp (submit_popped env cmd (Some resp) rs cd rd q).1.
Proof.
  intros Hr. unfold submit_popped, stage_command. run_cq.
  repeat (case_match; run_cq; simplify_eq);
    try (eexists; split_and!; [done|done|done]).
  all: eexists; split_and!; [done| |].
  all: try (by apply length_copy_response).
  all: cbn; intros ?; by apply response_status_success.
Qed.

Lemma submitCommand_answer env cmd resp rs q :
  Z.of_nat (length resp) = rs ->
  answer_ok resp (submitCommand env cmd (Some resp) rs q).1.
Proof.
  intros Hr.
  destruct (submitCommand_cases env cmd (Some resp) rs q)
    as [(e & -> & [-> | ->])|(c & -> & _ & _ & ->)];
    try (eexists; split_and!; [done|done|done]).
  unfold submit_locked. run_cq.
  repeat case_match; simplify_eq; cbn; try (eexists; split_and!; [done|done|done]).
  all: match goal with H : submit_popped _ _ _ _ _ _ _ = _ |- _ =>
      idtac end || by apply submit_popped_answer.
Qed.

(** ** The queue is a transport

    Every client theorem stated over [Transport] holds over this queue. *)
Section transport.
Context (env : nat -> shared -> shared).

#[export] Instance cq_transport : Transport cq := fun c n q =>
  let '((r, b), q') := submitCommand env (Some (encode c)) (Some (replicate n 0)) (Z.of_nat n) q in
  ((r, default [] b), q').

#[export] Instance cq_transport_ok : TransportOk cq.
Proof.
  split; intros c n q; unfold submit_cmd, cq_transport;
    pose proof (submitCommand_answer env (Some (encode c)) (replicate n 0) (Z.of_nat n) q) as H;
    rewrite length_replicate in H; specialize (H eq_refl);
    destruct (submitCommand _ _ _ _ _) as [[r b] q']; destruct H as (b' & Hb & Hl & Hs);
    cbn in *; subst; cbn; rewrite length_replicate in Hl; auto.
Qed.
End transport.

(** * Temporary buffers *)
Lemma submit_popped_temp env cmd resp rs cd rd q :
  let '((r, _), q') := submit_popped env cmd resp rs cd rd q in
  cq_temp_live q' =
    cq_temp_live q +
    (if is_temp cmd then
       match r with
       | kIOReturnTimeout | kIOReturnNotReady => 1
       | kIOReturnNoMemory =>
           match cq_temp_allocs q with
           | Some p :: _ => if p =? 0 then 0 else 1
           | _ => 0
           end
       | _ => 0
       end
     else 0).
Proof.
  assert (T : is_temp cmd = negb (Z.of_nat (length cmd) <=? CMD_BUF_SIZE)) by done.
  unfold submit_popped, stage_command. run_cq. rewrite T.
  destruct (_ <=? CMD_BUF_SIZE); cbn -[Z.eqb poll];
    [|destruct (cq_temp_allocs q) as [|[p|] a]; cbn -[Z.eqb poll]; [lia| |lia]];
    (destruct (_ =? 0); cbn -[Z.eqb poll]; [lia|]);
    (destruct (cq_resp_phys q =? 0); cbn -[Z.eqb poll]; [lia|]);
    (destruct (notify_addr _ _); cbn -[Z.eqb poll]; [|lia]);
    match goal with |- context [poll ?env ?n ?i ?q0] =>
      pose proof (f_equal cq_temp_live (poll_frame_eq env n i q0)) as F;
      destruct (poll env n i q0) as [[k|] q'];
      cbn in F; cbn; rewrite ?T; cbn; rewrite ?F; cbn
    end; try lia.
  all: unfold submit_status, response_status; repeat case_match; simplify_eq; cbn; rewrite ?F; lia.
Qed.

(** * A prompt device

    A device that serves one available command per look: it follows the
    chain of two descriptors at the avail ring's oldest unserved slot, hands
    the command's bytes to [host], writes the reply to the response buffer
    and completes the chain. *)
Section prompt.
Context (host : list Z -> list Z) (size cmd_phys : Z).

Definition serve (sh : shared) : shared :=
  if sh_used_idx sh =? sh_avail_idx sh then sh
  else
    let slot := Z.to_nat (sh_used_idx sh mod size) in
    match sh_avail_ring sh !! slot with
    | None => sh
    | Some cd =>
        match sh_desc sh !! Z.to_nat cd with
        | None => sh
        | Some d =>
            match sh_desc sh !! Z.to_nat (d_next d) with
            | None => sh
            | Some r =>
                let buf := if d_addr d =? cmd_phys then sh_cmd sh else sh_temp sh in
                let reply := take (Z.to_nat (d_len r)) (host (take (Z.to_nat (d_len d)) buf)) in
                set_sh_used_idx (u16 (sh_used_idx sh + 1))
                  (set_sh_used_ring
                     (<[slot := (cd, Z.of_nat (length reply))]> (sh_used_ring sh))
                     (set_sh_resp (overwrite reply (sh_resp sh)) sh))
            end
        end
    end.
End prompt.

(** The specification the queue implements with such a device: a call to
    [host]. The state is the response buffer, whose bytes beyond a short reply
    are those of earlier replies. *)
Definition rpc (host : list Z -> list Z) (c resp buf : list Z)
  : (IOReturn * option (list Z)) * list Z :=
  let rs := Z.of_nat (length resp) in
  let buf' := overwrite (take (Z.to_nat (Z.min rs VIRTIO_GPU_RESP_BUF_SIZE)) (host c)) buf in
  let resp' := Some (copy_response resp rs buf') in
  ((submit_status resp', resp'), buf').

(** All commands answered, and room for one more. *)
Record quiescent (q : cq) : Prop := mk_quiescent {
  qs_ready : cq_initialized q && cq_mapped q = true;
  qs_lock : cq_lock q = Unlocked;
  qs_free : exists cd rd l, fl_ok (cq_size q) (cq_free q) (cd :: rd :: l);
  qs_idx : 0 <= cq_avail_idx q < 65536;
  qs_avail : sh_avail_idx (cq_sh q) = cq_avail_idx q;
  qs_used : sh_used_idx (cq_sh q) = cq_avail_idx q;
  qs_desc : Z.of_nat (length (sh_desc (cq_sh q))) = cq_size q;
  qs_ring : Z.of_nat (length (sh_avail_ring (cq_sh q))) = cq_size q;
  qs_notify : notify_addr (cq_notify q) (cq_notify_offset q) <> None;
  qs_cmd_phys : cq_cmd_phys q <> 0;
  qs_resp_phys : cq_resp_phys q <> 0
}.

Lemma u16_succ_ne a : 0 <= a < 65536 -> u16 (a + 1) <> a.
Proof.
  intros Ha. unfold u16. change (2 ^ 16) with 65536.
  pose proof (Z_div_mod_eq_full (a + 1) 65536). lia.
Qed.

Lemma take_overwrite c buf : take (length c) (overwrite c buf) = c.
Proof. unfold overwrite. by rewrite take_app_length. Qed.

Lemma serve_idle host size phys sh :
  sh_used_idx sh = sh_avail_idx sh -> serve host size phys sh = sh.
Proof. intros E. unfold serve. by rewrite E, Z.eqb_refl. Qed.

(** Serving the chain that [publish_command] makes visible. *)
Lemma serve_published host size phys sh a cd rd c resp_phys resp_len :
  0 <= a < 65536 -> 0 < size -> sh_used_idx sh = a ->
  Z.of_nat (length (sh_desc sh)) = size -> Z.of_nat (length (sh_avail_ring sh)) = size ->
  0 <= cd < size -> 0 <= rd < size -> cd <> rd ->
  Z.of_nat (length c) <= CMD_BUF_SIZE -> take (length c) (sh_cmd sh) = c ->
  0 <= resp_len ->
  let sh1 := publish size a cd
    (fill_descriptors cd phys (Z.of_nat (length c)) rd resp_phys resp_len sh) in
  let reply := take (Z.to_nat resp_len) (host c) in
  serve host size phys sh1 =
    set_sh_used_idx (u16 (a + 1))
      (set_sh_used_ring
         (<[Z.to_nat (a mod size) := (cd, Z.of_nat (length reply))]> (sh_used_ring sh))
         (set_sh_resp (overwrite reply (sh_resp sh)) sh1)).
Proof.
  intros Ha Hs Hu Hd Hr Hcd Hrd Hne Hc Hcmd Hrl sh1 reply.
  assert (Hm : 0 <= a mod size < size) by (apply Z.mod_pos_bound; lia).
  unfold serve. cbn [sh1 publish fill_descriptors set_sh_avail_idx set_sh_avail_ring set_sh_desc
    sh_used_idx sh_avail_idx sh_avail_ring sh_desc sh_cmd sh_used_ring sh_resp].
  rewrite Hu.
  destruct (Z.eqb_spec a (u16 (a + 1))) as [E|_].
  { exfalso. by apply (u16_succ_ne a). }
  rewrite list_lookup_insert_eq by lia.
  rewrite list_lookup_insert_ne by lia. rewrite list_lookup_insert_eq by lia.
  cbn [d_next d_addr d_len]. rewrite list_lookup_insert_eq by (rewrite length_insert; lia).
  cbn [d_next d_addr d_len]. rewrite Z.eqb_refl.
  unfold CMD_BUF_SIZE in Hc. rewrite u32_small by lia.
  rewrite Nat2Z.id, Hcmd. done.
Qed.

Lemma submitCommand_ready env c resp rs q :
  cq_initialized q && cq_mapped q = true -> 24 <= Z.of_nat (length c) ->
  submitCommand env (Some c) resp rs q
  = submit_locked env c resp rs
      (set_cq_lock (lock_acquire (cq_lock q))
         (set_cq_submit_count (u32 (cq_submit_count q + 1)) q)).
Proof.
  intros Hr Hc. unfold submitCommand. rewrite (proj2 (Z.ltb_ge _ _)) by lia.
  unfold bind, gets. rewrite Hr. done.
Qed.

(** The state after the drain and the two pops of a submission. *)
Definition popped (env : nat -> shared -> shared) (f : freelist) (q : cq) : cq :=
  let sh := env (cq_time q) (cq_sh q) in
  set_cq_free f (set_cq_last_used (sh_used_idx sh) (set_cq_time (S (cq_time q)) (set_cq_sh sh
    (set_cq_lock Locked (set_cq_submit_count (u32 (cq_submit_count q + 1)) q))))).

Lemma submitCommand_popped env c resp rs q cd rd l :
  cq_initialized q && cq_mapped q = true -> cq_lock q = Unlocked ->
  24 <= Z.of_nat (length c) -> fl_ok (cq_size q) (cq_free q) (cd :: rd :: l) ->
  exists f, fl_push cd (fl_push rd f) = cq_free q
    /\ 0 <= cd < cq_size q /\ 0 <= rd < cq_size q /\ cd <> rd
    /\ submitCommand env (Some c) resp rs q
       = submit_popped env c resp rs cd rd (popped env f q).
Proof.
  intros Hr Hl Hc Hf. rewrite submitCommand_ready by done. rewrite Hl. cbn [lock_acquire].
  pose proof (fl_pop_ok _ _ _ Hf) as Hp.
  destruct (fl_pop (cq_free q)) as [[d1 f1]|] eqn:E1; [|done].
  destruct Hp as (l1 & [= <- <-] & Hf1 & Hr1 & Hb1).
  pose proof (fl_pop_ok _ _ _ Hf1) as Hp.
  destruct (fl_pop f1) as [[d2 f2]|] eqn:E2; [|done].
  destruct Hp as (l2 & [= <- <-] & Hf2 & Hr2 & Hb2).
  exists f2. destruct Hf as (_ & _ & _ & Hnd).
  split_and!; [congruence|lia|lia|lia|lia| |].
  - inversion Hnd as [|? ? Hni _]; subst. intros ->. apply Hni. constructor.
  - unfold submit_locked. run_cq. rewrite E1. cbn. rewrite E2. done.
Qed.

(** A temporary buffer, allocated for a command longer than 4096 bytes,
    is released when the device answers, and is lost on a timeout, when there
    is no doorbell, and when the response buffer has no address; a command
    that fits the static buffer never changes the count. *)
Theorem submitCommand_temp env c resp rs q cd rd l :
  cq_initialized q && cq_mapped q = true -> cq_lock q = Unlocked ->
  24 <= Z.of_nat (length c) -> fl_ok (cq_size q) (cq_free q) (cd :: rd :: l) ->
  let '((r, _), q') := submitCommand env (Some c) resp rs q in
  cq_temp_live q' =
    cq_temp_live q +
    (if is_temp c then
       match r with
       | kIOReturnTimeout | kIOReturnNotReady => 1
       | kIOReturnNoMemory =>
           match cq_temp_allocs q with
           | Some p :: _ => if p =? 0 then 0 else 1
           | _ => 0
           end
       | _ => 0
       end
     else 0).
Proof.
  intros Hr Hl Hc Hf.
  destruct (submitCommand_popped env c resp rs q cd rd l Hr Hl Hc Hf)
    as (f & _ & _ & _ & _ & ->).
  exact (submit_popped_temp env c resp rs cd rd (popped env f q)).
Qed.

(** The state in which the driver starts to poll for a command that fits the
    static buffer. *)
Definition armed (c : list Z) (rs cd rd a : Z) (q : cq) : cq :=
  let sh := set_sh_cmd (overwrite c (sh_cmd (cq_sh q))) (cq_sh q) in
  let rl := if rs <? VIRTIO_GPU_RESP_BUF_SIZE then rs else VIRTIO_GPU_RESP_BUF_SIZE in
  let sh1 := publish (cq_size q) (cq_avail_idx q) cd
    (fill_descriptors cd (cq_cmd_phys q) (Z.of_nat (length c)) rd (cq_resp_phys q) rl sh) in
  set_cq_doorbell (cq_doorbell q ++ [(a, 0)])
    (set_cq_notify_count (u32 (cq_notify_count q + 1))
       (set_cq_avail_idx (u16 (cq_avail_idx q + 1)) (set_cq_sh sh1 q))).

Lemma submit_popped_armed env c resp rs cd rd a q :
  Z.of_nat (length c) <= CMD_BUF_SIZE -> cq_cmd_phys q <> 0 -> cq_resp_phys q <> 0 ->
  notify_addr (cq_notify q) (cq_notify_offset q) = Some a ->
  submit_popped env c resp rs cd rd q =
    bind (poll env POLL_ITERATIONS 0) (fun polled =>
      match polled with
      | None => return_descriptors rd cd ;;; unlock_vq ;;; ret (kIOReturnTimeout, resp)
      | Some _ => take_response env c resp rs rd cd
      end) (armed c rs cd rd a q).
Proof.
  intros Hc Hcp Hrp Ha. unfold submit_popped, stage_command, bind at 1.
  rewrite (proj2 (Z.leb_le _ _)) by done. unfold gets, bind at 1.
  rewrite (proj2 (Z.eqb_neq (cq_cmd_phys q) 0)) by done.
  unfold bind at 1. cbn -[Z.eqb poll]. rewrite (proj2 (Z.eqb_neq (cq_resp_phys q) 0)) by done.
  unfold bind at 1. unfold publish_command, modify.
  unfold bind at 1. unfold notify_device.
  cbn [cq_notify cq_notify_offset set_cq_sh set_cq_avail_idx set_cq_notify_count].
  rewrite Ha. reflexivity.
Qed.

(** Steps 8 to 12 for a command in the static buffer. *)
Lemma take_response_fit env c resp rs rd cd q :
  Z.of_nat (length c) <= CMD_BUF_SIZE -> cq_lock q = Locked ->
  let sh := env (cq_time q) (cq_sh q) in
  let resp' := (fun r => copy_response r rs (sh_resp sh)) <$> resp in
  take_response env c resp rs rd cd q =
    ((submit_status resp', resp'),
     set_cq_lock Unlocked (set_cq_free (fl_push cd (fl_push rd (cq_free q)))
       (set_cq_last_used (u16 (cq_last_used q + 1))
         (set_cq_time (S (cq_time q)) (set_cq_sh sh q))))).
Proof.
  intros Hc Hl sh resp'. run_cq.
  assert (Ht : is_temp c = false)
    by (unfold is_temp; rewrite (proj2 (Z.leb_le _ _)) by done; done).
  by rewrite Ht, Hl.
Qed.

(** One submission to a prompt device is one call of [rpc]. *)
Lemma submitCommand_rpc host c resp q :
  quiescent q -> 24 <= Z.of_nat (length c) <= CMD_BUF_SIZE ->
  let env (_ : nat) := serve host (cq_size q) (cq_cmd_phys q) in
  let '(r, q') := submitCommand env (Some c) (Some resp) (Z.of_nat (length resp)) q in
  (r, sh_resp (cq_sh q')) = rpc host c resp (sh_resp (cq_sh q))
  /\ quiescent q' /\ cq_size q' = cq_size q /\ cq_cmd_phys q' = cq_cmd_phys q.
Proof.
  intros [Hrd Hlk (cd & rd & l & Hf) Hi Hav Hus Hde Hri Hno Hcp Hrp] Hc env.
  destruct (notify_addr (cq_notify q) (cq_notify_offset q)) as [a|] eqn:Ea; [|done].
  destruct (submitCommand_popped env c (Some resp) (Z.of_nat (length resp)) q cd rd l)
    as (f & Hpush & Hcd & Hrdr & Hne & ->); [done|done|lia|done|].
  unfold popped. unfold env at 2 3. rewrite serve_idle by congruence.
  set (rs := Z.of_nat (length resp)).
  match goal with |- context [submit_popped _ _ _ _ _ _ ?q0] => set (q1 := q0) end.
  rewrite (submit_popped_armed env c (Some resp) rs cd rd a q1) by (done || lia).
  set (qp := armed c rs cd rd a q1).
  set (rl := if rs <? VIRTIO_GPU_RESP_BUF_SIZE then rs else VIRTIO_GPU_RESP_BUF_SIZE).
  assert (Hrl : rl = Z.min rs VIRTIO_GPU_RESP_BUF_SIZE)
    by (subst rl; destruct (Z.ltb_spec rs VIRTIO_GPU_RESP_BUF_SIZE); lia).
  set (reply := take (Z.to_nat rl) (host c)).
  set (sh0 := set_sh_cmd (overwrite c (sh_cmd (cq_sh q))) (cq_sh q)).
  assert (Hs : forall t, env t (cq_sh qp) =
    set_sh_used_idx (u16 (cq_avail_idx q + 1))
      (set_sh_used_ring
         (<[Z.to_nat (cq_avail_idx q mod cq_size q) := (cd, Z.of_nat (length reply))]>
            (sh_used_ring sh0))
         (set_sh_resp (overwrite reply (sh_resp sh0)) (cq_sh qp)))).
  { intros t. apply serve_published; try done; try lia.
    - apply take_overwrite.
    - subst rl. unfold VIRTIO_GPU_RESP_BUF_SIZE in *. lia. }
  unfold bind, POLL_ITERATIONS. rewrite (poll_hit env 149 0 qp).
  2: { rewrite Hs. cbn. rewrite Hus. apply u16_succ_ne. lia. }
  rewrite take_response_fit by (done || lia).
  cbn [cq_sh set_cq_sh set_cq_time cq_time]. rewrite Hs. unfold env.
  rewrite serve_idle by done. cbn -[copy_response].
  split_and!; [|constructor; cbn|done|done]; try done.
  - unfold rpc. cbn -[copy_response]. unfold reply. by rewrite Hrl.
  - rewrite Hpush. by exists cd, rd, l.
  - apply u16_range.
  - by rewrite !length_insert.
  - by rewrite length_insert.
  - by rewrite Ea.
Qed.

Fixpoint submit_all (env : nat -> shared -> shared) (cs : list (list Z * list Z))
  : M cq (list (IOReturn * option (list Z))) :=
  match cs with
  | [] => ret []
  | (c, resp) :: cs' =>
      let! r := submitCommand env (Some c) (Some resp) (Z.of_nat (length resp)) in
      let! rs := submit_all env cs' in
      ret (r :: rs)
  end.

Fixpoint rpc_all (host : list Z -> list Z) (cs : list (list Z * list Z)) (buf : list Z)
  : list (IOReturn * option (list Z)) :=
  match cs with
  | [] => []
  | (c, resp) :: cs' => let '(r, buf') := rpc host c resp buf in r :: rpc_all host cs' buf'
  end.

Definition fits (cr : list Z * list Z) : Prop := 24 <= Z.of_nat (length cr.1) <= CMD_BUF_SIZE.

(** C2: with a device that serves the avail ring promptly, any sequence of
    submissions of commands that fit the static buffer refines a sequence of
    remote procedure calls: each command's bytes reach the device through the
    descriptor chain, and each caller gets the status and the bytes of the
    reply to its own command; the ring indices wrap at 65536. *)
Theorem control_queue_refines_rpc host cs q :
  quiescent q -> Forall fits cs ->
  (submit_all (fun _ => serve host (cq_size q) (cq_cmd_phys q)) cs q).1
  = rpc_all host cs (sh_resp (cq_sh q)).
Proof.
  intros Hq Hcs. remember (cq_size q) as size eqn:Hs. remember (cq_cmd_phys q) as phys eqn:Hp.
  revert q Hq Hs Hp. induction Hcs as [|[c resp] cs Hc _ IH]; intros q Hq -> ->; [done|].
  cbn [submit_all rpc_all]. unfold bind.
  pose proof (submitCommand_rpc host c resp q Hq Hc) as H. cbn zeta in H.
  destruct (submitCommand _ _ _ _ q) as [r q']. destruct H as (Hr & Hq' & Hs & Hp).
  specialize (IH q' Hq' (eq_sym Hs) (eq_sym Hp)).
  destruct (submit_all _ cs q') as [rs q'']. cbn [fst] in IH. rewrite IH.
  by rewrite <- Hr.
Qed.

(** A queue of two descriptors, for the witnesses. *)
Definition small_queue : cq :=
  mk_cq true true 2 (fl_init 2) 65535 65535 Unlocked 0x1000 0x2000 0 0
    (mk_notify true true 0x3000 4) 0 [] [] 0
    (mk_shared (replicate 2 (mk_desc 0 0 0 0)) [0; 0] 65535 [(0, 0); (0, 0)] 65535
       (replicate 32 0) [] (replicate 24 0)) 0.

Lemma fl_init_2_ok : fl_ok 2 (fl_init 2) [0; 1].
Proof. apply (fl_init_ok 2). lia. Qed.

Lemma small_queue_quiescent : quiescent small_queue.
Proof.
  constructor; try done.
  exists 0, 1, []. apply fl_init_2_ok.
Qed.

(** A host that answers every command with a bare OK header. *)
Definition ok_host (_ : list Z) : list Z := encode (CmdHdr (hdr_of VIRTIO_GPU_RESP_OK_NODATA)).

Lemma control_queue_refines_rpc_witness :
  (submit_all (fun _ => serve ok_host 2 0x1000)
     (replicate 3 (encode (CmdCtxDestroy (hdr_of 0x201)), replicate 24 0)) small_queue).1
  = replicate 3 (kIOReturnSuccess, Some (ok_host [])).
Proof.
  rewrite (control_queue_refines_rpc ok_host _ small_queue small_queue_quiescent).
  - vm_compute. reflexivity.
  - apply Forall_replicate. split; vm_compute; discriminate.
Defined.

Lemma submitCommand_settles_witness :
  settled small_queue (submitCommand (fun _ sh => sh) (Some (replicate 5000 0)) None 0 small_queue).2.
Proof.
  apply submitCommand_settles. split; [reflexivity|].
  exists [0; 1]. apply fl_init_2_ok.
Defined.

(** A submission that rings the doorbell times out exactly when the used
    index stays where the drain found it for 150 looks; otherwise its status
    is that of the response buffer at the look after the poll. *)
Theorem submitCommand_timeout_iff env c resp rs q cd rd l a :
  cq_initialized q && cq_mapped q = true -> cq_lock q = Unlocked ->
  fl_ok (cq_size q) (cq_free q) (cd :: rd :: l) ->
  24 <= Z.of_nat (length c) <= CMD_BUF_SIZE -> cq_cmd_phys q <> 0 -> cq_resp_phys q <> 0 ->
  notify_addr (cq_notify q) (cq_notify_offset q) = Some a ->
  let drained := env (cq_time q) (cq_sh q) in
  let sh0 := set_sh_cmd (overwrite c (sh_cmd drained)) drained in
  let rl := if rs <? VIRTIO_GPU_RESP_BUF_SIZE then rs else VIRTIO_GPU_RESP_BUF_SIZE in
  let sh := publish (cq_size q) (cq_avail_idx q) cd
    (fill_descriptors cd (cq_cmd_phys q) (Z.of_nat (length c)) rd (cq_resp_phys q) rl sh0) in
  (submitCommand env (Some c) resp rs q).1.1 = kIOReturnTimeout <->
  forall k, (k < 150)%nat ->
    sh_used_idx (looks env (S (cq_time q)) sh (S k)) = sh_used_idx drained.
Proof.
  intros Hr Hl Hf Hc Hcp Hrp Ha drained sh0 rl sh.
  destruct (submitCommand_popped env c resp rs q cd rd l)
    as (f & _ & _ & _ & _ & ->); [done|done|lia|done|].
  rewrite (submit_popped_armed env c resp rs cd rd a) by (done || lia).
  change 150%nat with POLL_ITERATIONS.
  etransitivity; [|exact (poll_none_iff env POLL_ITERATIONS 0 (armed c rs cd rd a (popped env f q)))].
  unfold bind at 1. pose proof (poll_frame_eq env POLL_ITERATIONS 0
    (armed c rs cd rd a (popped env f q))) as F.
  destruct (poll _ _ _ _) as [[k|] q']; cbn [fst snd] in *; [|done].
  split; [|done]. cbn zeta in F.
  rewrite take_response_fit; [|lia|by rewrite F].
  cbn [fst]. unfold submit_status, response_status. intros H. repeat case_match; done.
Qed.

Lemma submitCommand_timeout_iff_witness :
  (submitCommand (fun _ sh => sh) (Some (replicate 24 0)) None 0 small_queue).1.1 = kIOReturnTimeout.
Proof.
  apply (submitCommand_timeout_iff (fun _ sh => sh) (replicate 24 0) None 0 small_queue 0 1 [] 0x3000);
    try done; [apply fl_init_2_ok|].
  intros k _. cbn -[small_queue].
  assert (E : forall k t sh, looks (fun _ sh => sh) t sh k = sh) by
    (clear; intros k; induction k as [|k IH]; intros t sh; [done|apply IH]).
  rewrite E. reflexivity.
Defined.

Lemma submit_popped_no_address env c resp rs cd rd q p l :
  is_temp c = true -> cq_temp_allocs q = Some p :: l -> p <> 0 -> cq_resp_phys q = 0 ->
  (submit_popped env c resp rs cd rd q).1.1 = kIOReturnNoMemory.
Proof.
  unfold is_temp. intros Ht Ha Hp Hr. apply negb_true_iff in Ht.
  unfold submit_popped, stage_command. run_cq. rewrite Ht, Ha. cbn -[Z.eqb].
  rewrite (proj2 (Z.eqb_neq p 0) Hp). cbn -[Z.eqb]. by rewrite Hr.
Qed.

Lemma submitCommand_temp_witness :
  let q := set_cq_resp_phys 0 (set_cq_temp_allocs [Some 0x4000] small_queue) in
  cq_temp_live (submitCommand (fun _ sh => sh) (Some (replicate 5000 0)) None 0 q).2 = 1.
Proof.
  intros q. assert (Hl : Z.of_nat (length (replicate 5000 0)) = 5000) by (by rewrite length_replicate).
  assert (Ht : is_temp (replicate 5000 0) = true) by (unfold is_temp; by rewrite Hl).
  revert Hl Ht. generalize (replicate 5000 0). intros c Hl Ht.
  pose proof (submitCommand_temp (fun _ sh => sh) c None 0 q 0 1 []
    eq_refl eq_refl ltac:(lia) fl_init_2_ok) as H.
  destruct (submitCommand_popped (fun _ sh => sh) c None 0 q 0 1 []
    eq_refl eq_refl ltac:(lia) fl_init_2_ok) as (f & _ & _ & _ & _ & E).
  pose proof (submit_popped_no_address (fun _ sh => sh) c None 0 0 1 (popped (fun _ sh => sh) f q)
    0x4000 [] Ht eq_refl ltac:(lia) eq_refl) as Hr.
  rewrite <- E in Hr. clear E.
  destruct (submitCommand (fun _ sh => sh) (Some c) None 0 q) as [[r o] q'].
  cbn [fst snd] in Hr |- *. rewrite H, Hr, Ht. reflexivity.
Defined.

(** ** A late completion *)
(** A device that is silent, except that at look [when] it completes the chain
    of descriptor 0 with the reply [reply]. *)
Definition late_device (when : nat) (reply : list Z) (t : nat) (sh : shared) : shared :=
  if Nat.eqb t when then
    set_sh_used_idx (u16 (sh_used_idx sh + 1)) (set_sh_resp (overwrite reply (sh_resp sh)) sh)
  else sh.

(** The drain does not protect a command from its predecessor: when a
    command times out and the device completes it after the next command was
    published, the next command returns at once with the predecessor's reply
    and success, though the device has not looked at it. *)
Theorem late_completion_accepted :
  let env := late_device 152 (ok_host []) in
  let create := encode (CmdCreate2D (hdr_of 0x101) (mk_create_2d 7 1 4 3)) in
  let scanout := encode (CmdSetScanout (hdr_of 0x103) (mk_rect 0 0 4 3) 0 7) in
  let '(r1, q1) := submitCommand env (Some create) (Some (replicate 24 0)) 24 small_queue in
  let '(r2, q2) := submitCommand env (Some scanout) (Some (replicate 24 0)) 24 q1 in
  r1.1 = kIOReturnTimeout /\ r2 = (kIOReturnSuccess, Some (ok_host []))
  /\ u16 (cq_avail_idx q2 - cq_last_used q2) = 1.
Proof. vm_compute. split_and!; reflexivity. Qed.
