(* ===== verification/CursorQueue.v ===== *)
(** The cursor queue: [submitCursorCommand] of [FB/VMVirtIOGPU.cpp] and its two
    callers [updateCursor] and [moveCursor]. It has its own ring and lock; it
    differs from the control queue: no drain, no check of the command's size
    against the 128-byte buffer, no look at the reply's type, a wait until a
    deadline, and, without a doorbell, the same wait.

    [env] is the device, as in [ControlQueue.v]; [expired t] says whether the
    clock has reached the deadline when the loop reads it after look [t]. *)
From S2P Require Import Prelude Wire Transport SplitQueue ControlQueue.

Record curq := mk_curq {
  cu_initialized : bool;
  cu_mapped : bool;
  cu_size : Z;
  cu_free : freelist;
  cu_last_used : Z;
  cu_avail_idx : Z;
  cu_lock : lock_state;
  cu_cmd_phys : Z;
  cu_resp_phys : Z;
  cu_notify : notify;
  cu_notify_offset : Z;
  cu_doorbell : list (Z * Z);
  cu_overflow : bool;
  cu_sh : shared;
  cu_time : nat
}.

Definition set_cu_initialized (v : bool) (x : curq) : curq :=
  mk_curq v (cu_mapped x) (cu_size x) (cu_free x) (cu_last_used x) (cu_avail_idx x) (cu_lock x) (cu_cmd_phys x) (cu_resp_phys x) (cu_notify x) (cu_notify_offset x) (cu_doorbell x) (cu_overflow x) (cu_sh x) (cu_time x).
Definition set_cu_mapped (v : bool) (x : curq) : curq :=
  mk_curq (cu_initialized x) v (cu_size x) (cu_free x) (cu_last_used x) (cu_avail_idx x) (cu_lock x) (cu_cmd_phys x) (cu_resp_phys x) (cu_notify x) (cu_notify_offset x) (cu_doorbell x) (cu_overflow x) (cu_sh x) (cu_time x).
Definition set_cu_size (v : Z) (x : curq) : curq :=
  mk_curq (cu_initialized x) (cu_mapped x) v (cu_free x) (cu_last_used x) (cu_avail_idx x) (cu_lock x) (cu_cmd_phys x) (cu_resp_phys x) (cu_notify x) (cu_notify_offset x) (cu_doorbell x) (cu_overflow x) (cu_sh x) (cu_time x).
Definition set_cu_free (v : freelist) (x : curq) : curq :=
  mk_curq (cu_initialized x) (cu_mapped x) (cu_size x) v (cu_last_used x) (cu_avail_idx x) (cu_lock x) (cu_cmd_phys x) (cu_resp_phys x) (cu_notify x) (cu_notify_offset x) (cu_doorbell x) (cu_overflow x) (cu_sh x) (cu_time x).
Definition set_cu_last_used (v : Z) (x : curq) : curq :=
  mk_curq (cu_initialized x) (cu_mapped x) (cu_size x) (cu_free x) v (cu_avail_idx x) (cu_lock x) (cu_cmd_phys x) (cu_resp_phys x) (cu_notify x) (cu_notify_offset x) (cu_doorbell x) (cu_overflow x) (cu_sh x) (cu_time x).
Definition set_cu_avail_idx (v : Z) (x : curq) : curq :=
  mk_curq (cu_initialized x) (cu_mapped x) (cu_size x) (cu_free x) (cu_last_used x) v (cu_lock x) (cu_cmd_phys x) (cu_resp_phys x) (cu_notify x) (cu_notify_offset x) (cu_doorbell x) (cu_overflow x) (cu_sh x) (cu_time x).
Definition set_cu_lock (v : lock_state) (x : curq) : curq :=
  mk_curq (cu_initialized x) (cu_mapped x) (cu_size x) (cu_free x) (cu_last_used x) (cu_avail_idx x) v (cu_cmd_phys x) (cu_resp_phys x) (cu_notify x) (cu_notify_offset x) (cu_doorbell x) (cu_overflow x) (cu_sh x) (cu_time x).
Definition set_cu_cmd_phys (v : Z) (x : curq) : curq :=
  mk_curq (cu_initialized x) (cu_mapped x) (cu_size x) (cu_free x) (cu_last_used x) (cu_avail_idx x) (cu_lock x) v (cu_resp_phys x) (cu_notify x) (cu_notify_offset x) (cu_doorbell x) (cu_overflow x) (cu_sh x) (cu_time x).
Definition set_cu_resp_phys (v : Z) (x : curq) : curq :=
  mk_curq (cu_initialized x) (cu_mapped x) (cu_size x) (cu_free x) (cu_last_used x) (cu_avail_idx x) (cu_lock x) (cu_cmd_phys x) v (cu_notify x) (cu_notify_offset x) (cu_doorbell x) (cu_overflow x) (cu_sh x) (cu_time x).
Definition set_cu_notify (v : notify) (x : curq) : curq :=
  mk_curq (cu_initialized x) (cu_mapped x) (cu_size x) (cu_free x) (cu_last_used x) (cu_avail_idx x) (cu_lock x) (cu_cmd_phys x) (cu_resp_phys x) v (cu_notify_offset x) (cu_doorbell x) (cu_overflow x) (cu_sh x) (cu_time x).
Definition set_cu_notify_offset (v : Z) (x : curq) : curq :=
  mk_curq (cu_initialized x) (cu_mapped x) (cu_size x) (cu_free x) (cu_last_used x) (cu_avail_idx x) (cu_lock x) (cu_cmd_phys x) (cu_resp_phys x) (cu_notify x) v (cu_doorbell x) (cu_overflow x) (cu_sh x) (cu_time x).
Definition set_cu_doorbell (v : list (Z * Z)) (x : curq) : curq :=
  mk_curq (cu_initialized x) (cu_mapped x) (cu_size x) (cu_free x) (cu_last_used x) (cu_avail_idx x) (cu_lock x) (cu_cmd_phys x) (cu_resp_phys x) (cu_notify x) (cu_notify_offset x) v (cu_overflow x) (cu_sh x) (cu_time x).
Definition set_cu_overflow (v : bool) (x : curq) : curq :=
  mk_curq (cu_initialized x) (cu_mapped x) (cu_size x) (cu_free x) (cu_last_used x) (cu_avail_idx x) (cu_lock x) (cu_cmd_phys x) (cu_resp_phys x) (cu_notify x) (cu_notify_offset x) (cu_doorbell x) v (cu_sh x) (cu_time x).
Definition set_cu_sh (v : shared) (x : curq) : curq :=
  mk_curq (cu_initialized x) (cu_mapped x) (cu_size x) (cu_free x) (cu_last_used x) (cu_avail_idx x) (cu_lock x) (cu_cmd_phys x) (cu_resp_phys x) (cu_notify x) (cu_notify_offset x) (cu_doorbell x) (cu_overflow x) v (cu_time x).
Definition set_cu_time (v : nat) (x : curq) : curq :=
  mk_curq (cu_initialized x) (cu_mapped x) (cu_size x) (cu_free x) (cu_last_used x) (cu_avail_idx x) (cu_lock x) (cu_cmd_phys x) (cu_resp_phys x) (cu_notify x) (cu_notify_offset x) (cu_doorbell x) (cu_overflow x) (cu_sh x) v.

Definition CURSOR_CMD_BUF_SIZE : Z := 128.
Definition CURSOR_RESP_BUF_SIZE : Z := 64.

Definition cu_lock_vq : M curq unit := modify (fun q => set_cu_lock (lock_acquire (cu_lock q)) q).
Definition cu_unlock_vq : M curq unit := modify (fun q => set_cu_lock (lock_release (cu_lock q)) q).
Definition cu_pop_desc : M curq (option Z) :=
  fun q => match fl_pop (cu_free q) with
           | None => (None, q)
           | Some (d, f) => (Some d, set_cu_free f q)
           end.
Definition cu_push_desc (d : Z) : M curq unit := modify (fun q => set_cu_free (fl_push d (cu_free q)) q).

(** The [memcpy] into the command buffer; [cu_overflow] records a copy that
    ran past its end. *)
Definition cu_stage_command (cmd : list Z) : M curq unit :=
  modify (fun q =>
    set_cu_overflow (cu_overflow q || negb (Z.of_nat (length cmd) <=? CURSOR_CMD_BUF_SIZE))
      (set_cu_sh (set_sh_cmd (overwrite cmd (sh_cmd (cu_sh q))) (cu_sh q)) q)).

Definition cu_publish_command (cd cmd_size rd resp_size : Z) : M curq unit :=
  modify (fun q =>
    let resp_len := if resp_size <? CURSOR_RESP_BUF_SIZE then resp_size else CURSOR_RESP_BUF_SIZE in
    let sh := fill_descriptors cd (cu_cmd_phys q) cmd_size rd (cu_resp_phys q) resp_len (cu_sh q) in
    set_cu_avail_idx (u16 (cu_avail_idx q + 1))
      (set_cu_sh (publish (cu_size q) (cu_avail_idx q) cd sh) q)).

(** The doorbell gets the queue's index, 1; without one the code only logs. *)
Definition cu_notify_device : M curq unit :=
  modify (fun q =>
    match notify_addr (cu_notify q) (cu_notify_offset q) with
    | Some a => set_cu_doorbell (cu_doorbell q ++ [(a, 1)]) q
    | None => q
    end).

Definition cu_copy_response (resp : list Z) (resp_size : Z) (buf : list Z) : list Z :=
  if 0 <? resp_size then
    overwrite (take (Z.to_nat (if resp_size <? CURSOR_RESP_BUF_SIZE then resp_size
                               else CURSOR_RESP_BUF_SIZE)) buf) resp
  else resp.

Section cursor.
Context (env : nat -> shared -> shared) (expired : nat -> bool).

Definition cu_observe : M curq unit :=
  modify (fun q => set_cu_time (S (cu_time q)) (set_cu_sh (env (cu_time q) (cu_sh q)) q)).

(** The wait; the outer [None]: still waiting when the fuel is spent. *)
Fixpoint cu_wait (fuel : nat) : M curq (option IOReturn) :=
  match fuel with
  | O => ret None
  | S k =>
      cu_observe ;;;
      let! q := gets (fun q => q) in
      if negb (sh_used_idx (cu_sh q) =? cu_last_used q) then ret (Some kIOReturnSuccess)
      else if expired (cu_time q) then ret (Some kIOReturnTimeout)
      else cu_wait k
  end.

Definition submitCursorCommand (fuel : nat) (cmd : list Z) (resp : option (list Z)) (resp_size : Z)
  : M curq (option (IOReturn * option (list Z))) :=
  let! ready := gets (fun q => cu_initialized q && cu_mapped q) in
  if negb ready then ret (Some (kIOReturnNotReady, resp))
  else
    cu_lock_vq ;;;
    let! p1 := cu_pop_desc in
    match p1 with
    | None => cu_unlock_vq ;;; ret (Some (kIOReturnNoResources, resp))
    | Some cd =>
        let! p2 := cu_pop_desc in
        match p2 with
        | None => cu_push_desc cd ;;; cu_unlock_vq ;;; ret (Some (kIOReturnNoResources, resp))
        | Some rd =>
            cu_stage_command cmd ;;;
            cu_publish_command cd (Z.of_nat (length cmd)) rd resp_size ;;;
            cu_notify_device ;;;
            let! w := cu_wait fuel in
            match w with
            | None => ret None
            | Some r =>
                let! resp' :=
                  (if is_success r then
                     cu_observe ;;;
                     let! buf := gets (fun q => sh_resp (cu_sh q)) in
                     modify (fun q => set_cu_last_used (u16 (cu_last_used q + 1)) q) ;;;
                     ret ((fun b => cu_copy_response b resp_size buf) <$> resp)
                   else ret resp) in
                cu_push_desc rd ;;; cu_push_desc cd ;;;
                cu_unlock_vq ;;;
                ret (Some (r, resp'))
            end
        end
    end.

Definition updateCursor (fuel : nat) (resource_id hot_x hot_y scanout_id x y : Z)
  : M curq (option IOReturn) :=
  let! init := gets cu_initialized in
  if negb init then ret (Some kIOReturnNotReady)
  else
    let cmd := CmdCursor (hdr_of VIRTIO_GPU_CMD_UPDATE_CURSOR) (mk_cursor_pos scanout_id x y 0)
                 resource_id hot_x hot_y 0 in
    let! r := submitCursorCommand fuel (encode cmd) (Some (replicate 24 0)) 24 in
    ret (fst <$> r).

Definition moveCursor (fuel : nat) (scanout_id x y : Z) : M curq (option IOReturn) :=
  let! init := gets cu_initialized in
  if negb init then ret (Some kIOReturnNotReady)
  else
    let cmd := CmdCursor (hdr_of VIRTIO_GPU_CMD_MOVE_CURSOR) (mk_cursor_pos scanout_id x y 0) 0 0 0 0 in
    let! r := submitCursorCommand fuel (encode cmd) (Some (replicate 24 0)) 24 in
    ret (fst <$> r).

(** ** The wait *)
Lemma cu_wait_frame fuel q :
  let q' := (cu_wait fuel q).2 in
  q' = set_cu_time (cu_time q') (set_cu_sh (cu_sh q') q).
Proof.
  revert q. induction fuel as [|k IH]; intros q; [by destruct q|].
  cbn -[Z.eqb]. unfold bind, cu_observe, modify, gets. cbn -[Z.eqb].
  repeat case_match; try done.
  specialize (IH (set_cu_time (S (cu_time q)) (set_cu_sh (env (cu_time q) (cu_sh q)) q))).
  cbn in IH. rewrite IH at 1. done.
Qed.

(** The wait ends when the clock reaches the deadline. *)
Lemma cu_wait_ends fuel n q :
  expired (S (cu_time q + n)) = true -> (n < fuel)%nat ->
  exists r, (cu_wait fuel q).1 = Some r
    /\ (r = kIOReturnSuccess \/ r = kIOReturnTimeout)
    /\ (cu_time q < cu_time (cu_wait fuel q).2 <= S (cu_time q + n))%nat.
Proof.
  revert n q. induction fuel as [|k IH]; intros n q He Hn; [lia|].
  cbn -[Z.eqb]. unfold bind, cu_observe, modify, gets. cbn -[Z.eqb].
  case_match; [eexists; split_and!; [done|auto|cbn; lia|cbn; lia]|].
  case_match eqn:E; [eexists; split_and!; [done|auto|cbn; lia|cbn; lia]|].
  destruct n as [|n]; [by rewrite Nat.add_0_r in He; congruence|].
  destruct (IH n (set_cu_time (S (cu_time q)) (set_cu_sh (env (cu_time q) (cu_sh q)) q)))
    as (r & H1 & H2 & H3); [cbn; by rewrite <- Nat.add_succ_r|lia|].
  exists r. split_and!; try done; cbn in H3; lia.
Qed.
End cursor.

Definition cu_idle (q : curq) : Prop :=
  cu_lock q = Unlocked /\ exists l, fl_ok (cu_size q) (cu_free q) l.

(** The clock reaches the deadline at some look after [t], within [fuel]. *)
Definition deadline_in (expired : nat -> bool) (t fuel : nat) : Prop :=
  exists n, (n < fuel)%nat /\ expired (S (t + n)) = true.

(** What the whole call leaves behind. *)
Definition cu_settled (cmd : list Z) (q q' : curq) : Prop :=
  cu_free q' = cu_free q /\ cu_lock q' = Unlocked /\ cu_size q' = cu_size q /\
  cu_initialized q' = cu_initialized q /\
  (Z.of_nat (length cmd) <= CURSOR_CMD_BUF_SIZE -> cu_overflow q' = cu_overflow q).

Ltac run_cu :=
  unfold bind, ret, modify, gets, cu_pop_desc, cu_push_desc, cu_lock_vq, cu_unlock_vq,
    cu_stage_command, cu_publish_command, cu_notify_device, cu_observe in *; cbn -[Z.eqb cu_wait] in *.

Lemma submitCursorCommand_settles_aux env expired fuel cmd resp rs q :
  cu_idle q -> deadline_in expired (cu_time q) fuel ->
  exists r, (submitCursorCommand env expired fuel cmd resp rs q).1 = Some r
    /\ cu_settled cmd q (submitCursorCommand env expired fuel cmd resp rs q).2.
Proof.
  intros [Hl [l Hf]] (n & Hn & He). unfold submitCursorCommand. run_cu.
  destruct (cu_initialized q && cu_mapped q); cbn; [|eexists; split; [done|by split_and!]].
  rewrite Hl. cbn. pose proof (fl_pop_ok _ _ _ Hf) as Hp.
  destruct (fl_pop (cu_free q)) as [[cd f1]|] eqn:E1; cbn;
    [|eexists; split; [done|by split_and!]].
  destruct Hp as (l1 & -> & Hf1 & Hr1 & Hb1).
  pose proof (fl_pop_ok _ _ _ Hf1) as Hp.
  destruct (fl_pop f1) as [[rd f2]|] eqn:E2; cbn;
    [|eexists; split; [done|by split_and!]].
  destruct Hp as (l2 & -> & Hf2 & Hr2 & Hb2).
  match goal with |- context [cu_wait env expired fuel ?q0] =>
    assert (Ht : cu_time q0 = cu_time q) by (cbn; by case_match);
    assert (Hq : cu_free q0 = f2 /\ cu_lock q0 = Locked /\ cu_size q0 = cu_size q /\
              cu_initialized q0 = cu_initialized q /\
              cu_overflow q0 = cu_overflow q || negb (Z.of_nat (length cmd) <=? CURSOR_CMD_BUF_SIZE))
      by (cbn; by case_match);
    pose proof (cu_wait_frame env expired fuel q0) as F;
    destruct (cu_wait_ends env expired fuel n q0) as (r & Hr & Hrs & _); [by rewrite Ht|done|];
    destruct (cu_wait env expired fuel q0) as [o q1]; generalize dependent q0
  end.
  cbn [fst snd]. intros q0 Ht (H1 & H2 & H3 & H4 & H5) F. cbn in F.
  cbn in Hr. subst o. rewrite F. clear F.
  assert (Hov : Z.of_nat (length cmd) <= CURSOR_CMD_BUF_SIZE ->
    cu_overflow q || negb (Z.of_nat (length cmd) <=? CURSOR_CMD_BUF_SIZE) = cu_overflow q).
  { intros Hle. rewrite (proj2 (Z.leb_le _ _)) by done. apply orb_false_r. }
  destruct Hrs as [-> | ->];
    [change (is_success kIOReturnSuccess) with true|change (is_success kIOReturnTimeout) with false];
    cbn; eexists; (split; [done|]);
    unfold cu_settled; cbn; rewrite H1, H2, H3, H4, H5, Hb2, Hb1; by split_and!.
Qed.

(** C35: once the clock reaches the deadline, every submission on the cursor
    queue returns, for every device, with the free list and the lock as they
    were found; a command of at most 128 bytes stays inside the buffer. *)
Theorem submitCursorCommand_settles env expired fuel cmd resp rs q :
  cu_idle q -> deadline_in expired (cu_time q) fuel ->
  exists r, (submitCursorCommand env expired fuel cmd resp rs q).1 = Some r
    /\ cu_settled cmd q (submitCursorCommand env expired fuel cmd resp rs q).2.
Proof. apply submitCursorCommand_settles_aux. Qed.

Lemma cursor_cmd_length h p id hx hy pad : length (encode (CmdCursor h p id hx hy pad)) = 56%nat.
Proof. unfold encode. rewrite length_app, length_enc_fields. done. Qed.

(** Both callers send 56 bytes, so neither ever writes past the 128-byte
    command buffer, and both give the queue back as they found it. *)
Theorem cursor_callers_in_bounds env expired fuel q id hx hy sid x y :
  cu_idle q -> deadline_in expired (cu_time q) fuel -> cu_overflow q = false ->
  let u := updateCursor env expired fuel id hx hy sid x y q in
  let m := moveCursor env expired fuel sid x y q in
  is_Some u.1 /\ is_Some m.1 /\ cu_overflow u.2 = false /\ cu_overflow m.2 = false
  /\ cu_free u.2 = cu_free q /\ cu_free m.2 = cu_free q.
Proof.
  intros Hi Hd Ho u m. subst u m. unfold updateCursor, moveCursor, bind, gets.
  destruct (cu_initialized q); cbn [negb]; [|cbn; by split_and!].
  assert (H : forall c, length (encode c) = 56%nat ->
    exists r q', submitCursorCommand env expired fuel (encode c) (Some (replicate 24 0)) 24 q = (Some r, q')
      /\ cu_overflow q' = false /\ cu_free q' = cu_free q).
  { intros c Hc.
    destruct (submitCursorCommand_settles_aux env expired fuel (encode c) (Some (replicate 24 0)) 24 q Hi Hd)
      as (r & Hr & Hs).
    destruct (submitCursorCommand _ _ _ _ _ _ q) as [o q']. cbn [fst snd] in *. subst o.
    exists r, q'. destruct Hs as (H1 & _ & _ & _ & H5). split_and!; [done| |done].
    rewrite H5; [done|]. rewrite Hc. unfold CURSOR_CMD_BUF_SIZE. lia. }
  match goal with |- context [submitCursorCommand _ _ _ (encode ?c1) _ _ q] =>
    destruct (H c1 (cursor_cmd_length _ _ _ _ _ _)) as (r1 & q1 & -> & ? & ?) end.
  match goal with |- context [submitCursorCommand _ _ _ (encode ?c2) _ _ q] =>
    destruct (H c2 (cursor_cmd_length _ _ _ _ _ _)) as (r2 & q2 & -> & ? & ?) end.
  cbn. by split_and!.
Qed.

Definition small_cursor_queue : curq :=
  mk_curq true true 2 (fl_init 2) 0 0 Unlocked 0x5000 0x6000 (mk_notify true true 0x3000 4) 1 [] false
    (mk_shared (replicate 2 (mk_desc 0 0 0 0)) [0; 0] 0 [(0, 0); (0, 0)] 0
       (replicate 128 0) [] (replicate 64 0)) 0.

Lemma small_cursor_queue_idle : cu_idle small_cursor_queue.
Proof. split; [done|]. exists [0; 1]. apply (fl_init_ok 2). lia. Qed.

(** A deadline at every fifth look of the clock. *)
Definition fifth (t : nat) : bool := Nat.eqb (Nat.modulo t 5) 0.

Lemma submitCursorCommand_settles_witness :
  exists r, (submitCursorCommand (fun _ sh => sh) fifth 5 (replicate 56 0) None 0 small_cursor_queue).1 = Some r
    /\ cu_settled (replicate 56 0) small_cursor_queue
         (submitCursorCommand (fun _ sh => sh) fifth 5 (replicate 56 0) None 0 small_cursor_queue).2.
Proof.
  apply submitCursorCommand_settles; [apply small_cursor_queue_idle|].
  exists 4%nat. split; [lia|reflexivity].
Defined.

Lemma cursor_callers_in_bounds_witness :
  cu_overflow (updateCursor (fun _ sh => sh) fifth 5 7 0 0 0 10 10 small_cursor_queue).2 = false.
Proof.
  apply (cursor_callers_in_bounds (fun _ sh => sh) fifth 5 small_cursor_queue 7 0 0 0 10 10);
    [apply small_cursor_queue_idle| |reflexivity].
  exists 4%nat. split; [lia|reflexivity].
Defined.

(** A device that answers each command only at the look [when]. *)
Definition answers_at (whens : list nat) (t : nat) (sh : shared) : shared :=
  if bool_decide (t ∈ whens) then set_sh_used_idx (u16 (sh_used_idx sh + 1)) sh else sh.

(** Without a drain one late answer shifts all later ones: the first move
    times out after five looks, its answer arrives at look 5, and from then on
    every move returns with success at its first look, before the device has
    seen it, with the used index always one ahead. *)
Theorem cursor_stale_completion_shifts :
  let env := answers_at [5; 8; 10]%nat in
  let '(r1, q1) := moveCursor env fifth 10 0 1 1 small_cursor_queue in
  let '(r2, q2) := moveCursor env fifth 10 0 2 2 q1 in
  let '(r3, q3) := moveCursor env fifth 10 0 3 3 q2 in
  r1 = Some kIOReturnTimeout /\ r2 = Some kIOReturnSuccess /\ r3 = Some kIOReturnSuccess
  /\ cu_avail_idx q3 = 3 /\ sh_used_idx (cu_sh q3) = 2 /\ cu_last_used q3 = 2.
Proof. vm_compute. split_and!; reflexivity. Qed.
