(* ===== verification/Pci.v ===== *)
(** Finding the device's registers: the walk of the PCI capability list
    ([findVirtIOCapability], [readNotifyConfig]), the translation of BAR
    numbers to mappings with its cache ([mapBarByNumber]), the mapping of the
    common configuration ([readCommonConfig]) and the validation of the
    device configuration in [initVirtIOGPU] (FB/VMVirtIOGPU.cpp).

    PCI configuration space and IOKit's device memory are parameters: the
    functions [configRead8] and [configRead32], and what
    [mapDeviceMemoryWithIndex] and [getDeviceMemoryWithIndex] answer. *)
From S2P Require Import Prelude.

Definition VIRTIO_PCI_CAP_COMMON_CFG : Z := 1.
Definition VIRTIO_PCI_CAP_NOTIFY_CFG : Z := 2.
Definition VIRTIO_PCI_CAP_ISR_CFG : Z := 3.
Definition VIRTIO_PCI_CAP_DEVICE_CFG : Z := 4.

(** What a capability says: BAR, offset, length. *)
Record cap := mk_cap { cap_bar : Z; cap_offset : Z; cap_length : Z }.

(** The outcome of a walk given fuel: [Walking] means it has not ended yet. *)
Inductive walk (A : Type) := Found (a : A) | ListEnd | Walking.
Arguments Found {A}.
Arguments ListEnd {A}.
Arguments Walking {A}.

Definition in_list (p : Z) : bool := (0x40 <=? p) && (p <? 0xfc).

Section caps.
Context (configRead8 configRead32 : Z -> Z).

(** Is the capability at [p] a vendor one of type [cfg_type]? *)
Definition cap_matches (cfg_type p : Z) : bool :=
  (configRead8 p =? 0x09) && (configRead8 (p + 3) =? cfg_type).

Definition read_cap (p : Z) : cap :=
  mk_cap (configRead8 (p + 4)) (configRead32 (p + 8)) (configRead32 (p + 12)).

(** The loop of [findVirtIOCapability]. *)
Fixpoint find_walk (fuel : nat) (cfg_type p : Z) : walk cap :=
  match fuel with
  | O => Walking
  | S k =>
      if in_list p then
        let next := configRead8 (p + 1) in
        if cap_matches cfg_type p then Found (read_cap p)
        else if (next =? 0) || (next =? p) then ListEnd
        else find_walk k cfg_type next
      else ListEnd
  end.

(** "TRY 2": the values observed on one machine. *)
Definition fallback_cap (cfg_type : Z) : option cap :=
  if cfg_type =? VIRTIO_PCI_CAP_COMMON_CFG then Some (mk_cap 2 0x1000 0x800)
  else if cfg_type =? VIRTIO_PCI_CAP_ISR_CFG then Some (mk_cap 2 0x1800 0x800)
  else if cfg_type =? VIRTIO_PCI_CAP_DEVICE_CFG then Some (mk_cap 2 0x2000 0x1000)
  else if cfg_type =? VIRTIO_PCI_CAP_NOTIFY_CFG then Some (mk_cap 2 0x3000 0x1000)
  else None.

(** [findVirtIOCapability]: [None] while the walk runs; [Some None] is the
    return value [false]. *)
Definition findVirtIOCapability (fuel : nat) (pci_device : bool) (cfg_type : Z)
  : option (option cap) :=
  if negb pci_device then Some None
  else match find_walk fuel cfg_type (configRead8 0x34) with
       | Walking => None
       | Found c => Some (Some c)
       | ListEnd => Some (fallback_cap cfg_type)
       end.

(** The second walk, in [readNotifyConfig]: it lacks the test for a
    capability that points to itself. *)
Fixpoint mult_walk (fuel : nat) (p : Z) : walk Z :=
  match fuel with
  | O => Walking
  | S k =>
      if in_list p then
        if cap_matches VIRTIO_PCI_CAP_NOTIFY_CFG p then Found (configRead32 (p + 16))
        else mult_walk k (configRead8 (p + 1))
      else ListEnd
  end.

(** [readNotifyConfig]: BAR, offset and multiplier (0 when no notify
    capability was walked over). *)
Definition readNotifyConfig (fuel : nat) (pci_device : bool) : option (option (Z * Z * Z)) :=
  if negb pci_device then Some None
  else match findVirtIOCapability fuel pci_device VIRTIO_PCI_CAP_NOTIFY_CFG with
       | None => None
       | Some None => Some None
       | Some (Some c) =>
           match mult_walk fuel (configRead8 0x34) with
           | Walking => None
           | Found m => Some (Some (cap_bar c, cap_offset c, m))
           | ListEnd => Some (Some (cap_bar c, cap_offset c, 0))
           end
       end.

(** The capability list from [p], when it ends: the pointers in order. *)
Inductive cap_list : Z -> list Z -> Prop :=
  | cap_list_out p : in_list p = false -> cap_list p []
  | cap_list_cons p l :
    in_list p = true -> cap_list (configRead8 (p + 1)) l -> cap_list p (p :: l).

Lemma in_list_0 : in_list 0 = false.
Proof. done. Qed.

Lemma cap_list_not_self p l : cap_list p l -> in_list p = true -> configRead8 (p + 1) <> p.
Proof.
  intros H. induction H as [|p l Hp Hl IH]; [congruence|].
  intros _ E. rewrite E in Hl, IH. by apply IH.
Qed.

Lemma find_walk_list ty p l :
  cap_list p l ->
  find_walk (S (length l)) ty p =
  match filter (fun x => cap_matches ty x) l with
  | x :: _ => Found (read_cap x)
  | [] => ListEnd
  end.
Proof.
  induction 1 as [p Hp|p l Hp Hl IH]; [cbn; by rewrite Hp|].
  assert (Hns := cap_list_not_self _ _ (cap_list_cons _ _ Hp Hl) Hp).
  cbn [length]. remember (S (length l)) as fuel. cbn [find_walk].
  rewrite Hp, filter_cons. destruct (cap_matches ty p) eqn:E.
  - rewrite decide_True by done. done.
  - rewrite decide_False by (by intros []).
    destruct (Z.eqb_spec (configRead8 (p + 1)) 0) as [E0|E0]; cbn [orb].
    + rewrite E0 in Hl. inversion Hl; subst; [reflexivity|]. pose proof in_list_0; congruence.
    + rewrite (proj2 (Z.eqb_neq _ _)) by done. subst fuel. exact IH.
Qed.

Lemma mult_walk_list p l :
  cap_list p l ->
  mult_walk (S (length l)) p =
  match filter (fun x => cap_matches VIRTIO_PCI_CAP_NOTIFY_CFG x) l with
  | x :: _ => Found (configRead32 (x + 16))
  | [] => ListEnd
  end.
Proof.
  induction 1 as [p Hp|p l Hp Hl IH]; [cbn; by rewrite Hp|].
  cbn [length]. remember (S (length l)) as fuel. cbn [mult_walk].
  rewrite Hp, filter_cons. destruct (cap_matches _ p) eqn:E.
  - rewrite decide_True by done. done.
  - rewrite decide_False by (by intros []). by subst.
Qed.

(** More fuel does not change a walk that has ended. *)
Lemma find_walk_mono ty n m p r :
  find_walk n ty p = r -> r <> Walking -> (n <= m)%nat -> find_walk m ty p = r.
Proof.
  revert m p. induction n as [|n IH]; intros m p Hr Hnw Hm; [by subst|].
  destruct m as [|m]; [lia|]. cbn [find_walk] in *.
  repeat case_match; try done. apply IH; [done|done|lia].
Qed.

Lemma mult_walk_mono n m p r :
  mult_walk n p = r -> r <> Walking -> (n <= m)%nat -> mult_walk m p = r.
Proof.
  revert m p. induction n as [|n IH]; intros m p Hr Hnw Hm; [by subst|].
  destruct m as [|m]; [lia|]. cbn [mult_walk] in *.
  repeat case_match; try done. apply IH; [done|done|lia].
Qed.

(** A list that ends has no pointer twice, so at most 188 entries. *)
Lemma cap_list_det p l1 : cap_list p l1 -> forall l2, cap_list p l2 -> l1 = l2.
Proof.
  induction 1 as [p Hp|p l Hp Hl IH]; intros l2 H2; inversion H2; subst; try congruence.
  f_equal. by apply IH.
Qed.

Lemma cap_list_suffix p l x : cap_list p l -> x ∈ l -> exists l', cap_list x (x :: l') /\ (length l' < length l)%nat.
Proof.
  induction 1 as [|p l Hp Hl IH]; intros Hx; [by apply elem_of_nil in Hx|].
  apply elem_of_cons in Hx as [->|Hx].
  - exists l. split; [by constructor|cbn; lia].
  - destruct (IH Hx) as (l' & H1 & H2). exists l'. split; [done|cbn; lia].
Qed.

Lemma cap_list_NoDup p l : cap_list p l -> NoDup l.
Proof.
  induction 1 as [|p l Hp Hl IH]; [constructor|]. constructor; [|done].
  intros Hin. destruct (cap_list_suffix _ _ _ Hl Hin) as (l' & H1 & H2).
  pose proof (cap_list_det _ _ (cap_list_cons _ _ Hp Hl) _ H1) as [= ->]. lia.
Qed.

Lemma cap_list_length p l : cap_list p l -> (length l <= 188)%nat.
Proof.
  intros H. assert (Hsub : l ⊆+ (fun n => Z.of_nat n + 64) <$> seq 0 188).
  { apply NoDup_submseteq; [by eapply cap_list_NoDup|].
    assert (Ha : Forall (fun x => in_list x = true) l) by (by induction H; constructor).
    intros x Hx. rewrite Forall_forall in Ha. specialize (Ha x Hx).
    apply andb_true_iff in Ha as [Ha Hb]. apply Z.leb_le in Ha. apply Z.ltb_lt in Hb.
    apply list_elem_of_fmap. exists (Z.to_nat (x - 64)). rewrite elem_of_seq. lia. }
  apply submseteq_length in Hsub. by rewrite length_fmap, length_seq in Hsub.
Qed.
End caps.

(** C40: on a capability list that ends, [findVirtIOCapability] returns within
    189 steps, with the first capability of the requested type in list order
    and, when there is none, with the built-in table. *)
Theorem findVirtIOCapability_first configRead8 configRead32 ty l :
  cap_list configRead8 (configRead8 0x34) l ->
  findVirtIOCapability configRead8 configRead32 189 true ty =
  Some (match filter (fun x => cap_matches configRead8 ty x) l with
        | x :: _ => Some (read_cap configRead8 configRead32 x)
        | [] => fallback_cap ty
        end).
Proof.
  intros H. unfold findVirtIOCapability. cbn [negb].
  pose proof (cap_list_length _ _ _ H).
  erewrite find_walk_mono; [|by apply find_walk_list|by case_match|lia].
  by destruct (filter _ l).
Qed.

(** [readNotifyConfig] takes the BAR, the offset and the multiplier from
    one and the same capability, the first notify capability of the list. *)
Theorem readNotifyConfig_same_cap configRead8 configRead32 l x l' :
  cap_list configRead8 (configRead8 0x34) l ->
  filter (fun x => cap_matches configRead8 VIRTIO_PCI_CAP_NOTIFY_CFG x) l = x :: l' ->
  readNotifyConfig configRead8 configRead32 189 true =
  Some (Some (configRead8 (x + 4), configRead32 (x + 8), configRead32 (x + 16))).
Proof.
  intros H Hx. unfold readNotifyConfig, findVirtIOCapability. cbn [negb].
  pose proof (cap_list_length _ _ _ H).
  erewrite find_walk_mono; [|by apply find_walk_list|by rewrite Hx|lia]. rewrite Hx.
  erewrite mult_walk_mono; [|by apply mult_walk_list|by rewrite Hx|lia]. by rewrite Hx.
Qed.

(** Neither walk ends on every configuration space: the first never
    leaves a cycle of two capabilities, the second not even a capability that
    points to itself, when none on the cycle has the requested type. *)
Theorem cap_walks_diverge configRead8 configRead32 ty a b :
  in_list a = true -> in_list b = true -> a <> b ->
  configRead8 (a + 1) = b -> configRead8 (b + 1) = a ->
  cap_matches configRead8 ty a = false -> cap_matches configRead8 ty b = false ->
  (forall fuel, find_walk configRead8 configRead32 fuel ty a = Walking) /\
  (forall c fuel, in_list c = true -> configRead8 (c + 1) = c ->
     cap_matches configRead8 VIRTIO_PCI_CAP_NOTIFY_CFG c = false ->
     mult_walk configRead8 configRead32 fuel c = Walking).
Proof.
  intros Ha Hb Hne Hab Hba Hma Hmb. split.
  - assert (H0 : a <> 0 /\ b <> 0) by (split; intros ->; pose proof in_list_0; congruence).
    intros fuel. assert (H : find_walk configRead8 configRead32 fuel ty a = Walking /\
      find_walk configRead8 configRead32 fuel ty b = Walking); [|apply H].
    induction fuel as [|k [IHa IHb]]; [done|]. cbn [find_walk].
    rewrite Ha, Hb, Hma, Hmb, Hab, Hba.
    rewrite !(proj2 (Z.eqb_neq _ _)) by (done || tauto). done.
  - intros c fuel Hc Hcc Hm. induction fuel as [|k IH]; [done|]. cbn [mult_walk].
    by rewrite Hc, Hm, Hcc.
Qed.

(** A configuration space with vendor capabilities at 0x40 (common) and 0x60
    (notify, multiplier 4), and one where 0x40 and 0x50 point to each other. *)
Definition two_caps (p : Z) : Z :=
  match p with
  | 0x34 => 0x40
  | 0x40 => 0x09 | 0x41 => 0x60 | 0x43 => 1 | 0x44 => 2
  | 0x60 => 0x09 | 0x61 => 0 | 0x63 => 2 | 0x64 => 4
  | _ => 0
  end.
Definition two_caps32 (p : Z) : Z :=
  match p with 0x48 => 0x1000 | 0x4c => 0x800 | 0x68 => 0x3000 | 0x6c => 0x1000 | 0x70 => 4 | _ => 0 end.
Definition cyclic_caps (p : Z) : Z :=
  match p with 0x34 => 0x40 | 0x41 => 0x50 | 0x51 => 0x40 | 0x61 => 0x60 | _ => 0 end.

Lemma two_caps_list : cap_list two_caps (two_caps 0x34) [0x40; 0x60].
Proof.
  apply cap_list_cons; [done|]. apply cap_list_cons; [done|]. by apply cap_list_out.
Qed.

Lemma findVirtIOCapability_first_witness :
  findVirtIOCapability two_caps two_caps32 189 true VIRTIO_PCI_CAP_NOTIFY_CFG
  = Some (Some (mk_cap 4 0x3000 0x1000)).
Proof.
  rewrite (findVirtIOCapability_first two_caps two_caps32 _ _ two_caps_list).
  vm_compute. reflexivity.
Defined.

Lemma readNotifyConfig_same_cap_witness :
  readNotifyConfig two_caps two_caps32 189 true = Some (Some (4, 0x3000, 4)).
Proof.
  apply (readNotifyConfig_same_cap two_caps two_caps32 [0x40; 0x60] 0x60 [] two_caps_list).
  vm_compute. reflexivity.
Defined.

Lemma cap_walks_diverge_witness :
  find_walk cyclic_caps two_caps32 1000 VIRTIO_PCI_CAP_NOTIFY_CFG 0x40 = Walking.
Proof.
  apply (cap_walks_diverge cyclic_caps two_caps32 VIRTIO_PCI_CAP_NOTIFY_CFG 0x40 0x50);
    reflexivity || discriminate.
Defined.
