(* ===== verification/Bars.v ===== *)
(** BAR mappings and the device configuration: [mapBarByNumber] with its
    cache, [readCommonConfig], and the part of [initVirtIOGPU] that reads and
    validates [virtio_gpu_config] (FB/VMVirtIOGPU.cpp). IOKit's answers are
    parameters; the references the driver takes and drops are counted. *)
From S2P Require Import Prelude Pci.

(** An [IOMemoryMap]: identity, physical address, length. *)
Record mapping := mk_mapping { map_id : Z; map_phys : Z; map_length : Z }.

#[export] Instance mapping_eq_dec : EqDecision mapping.
Proof. solve_decision. Defined.

Record bars := mk_bars {
  b_maps : list (option mapping);   (* m_bar_maps[6] *)
  b_refs : gmap Z Z                 (* references held, per mapping *)
}.

Definition refs (id : Z) (b : bars) : Z := default 0 (b_refs b !! id).
Definition add_ref (d : Z) (m : mapping) (b : bars) : bars :=
  mk_bars (b_maps b) (<[map_id m := refs (map_id m) b + d]> (b_refs b)).

Lemma refs_add_ref d m b id :
  refs id (add_ref d m b) = refs id b + (if decide (id = map_id m) then d else 0).
Proof.
  unfold refs at 1, add_ref. cbn. case_decide as E.
  - subst. by rewrite lookup_insert_eq.
  - rewrite lookup_insert_ne by done. unfold refs. lia.
Qed.

Section bars.
Context (configRead8 configRead32 : Z -> Z).
Context (mapDeviceMemoryWithIndex : Z -> option mapping).
Context (getDeviceMemoryWithIndex : Z -> option Z).

(** [mapDeviceMemoryWithIndex] hands back a reference. *)
Definition map_index (i : Z) : M bars (option mapping) :=
  match mapDeviceMemoryWithIndex i with
  | Some m => modify (add_ref 1 m) ;;; ret (Some m)
  | None => ret None
  end.
Definition release_map (m : mapping) : M bars unit := modify (add_ref (-1) m).
Definition retain_map (m : mapping) : M bars unit := modify (add_ref 1 m).

(** ** mapBarByNumber *)
(** The physical address a BAR register decodes to; [None] where the code
    gives up: absent, I/O, or zero. *)
Definition bar_phys (bar : Z) : option Z :=
  let bar_offset := 0x10 + bar * 4 in
  let bar_low := configRead32 bar_offset in
  if (bar_low =? 0) || (bar_low =? 0xFFFFFFFF) then None
  else if Z.testbit bar_low 0 then None
  else
    let pci_phys :=
      if Z.land bar_low 0x6 =? 0x4
      then Z.lor (Z.shiftl (configRead32 (bar_offset + 4)) 32) (Z.land bar_low 0xFFFFFFF0)
      else Z.land bar_low 0xFFFFFFF0 in
    if pci_phys =? 0 then None else Some pci_phys.

(** The loop over IOKit indices 0 to 5 that keeps the reference of the first
    mapping at [phys]. *)
Fixpoint find_index (n : nat) (i phys : Z) : M bars (option (Z * mapping)) :=
  match n with
  | O => ret None
  | S k =>
      let! m := map_index i in
      match m with
      | None => find_index k (i + 1) phys
      | Some m =>
          if map_phys m =? phys then ret (Some (i, m))
          else release_map m ;;; find_index k (i + 1) phys
      end
  end.

(** [mapBarByNumber(bar, out_iokit_index)]: the mapping and the index
    written to [*out_iokit_index], when [want_index]. *)
Definition mapBarByNumber (pci_device want_index : bool) (bar : Z)
  : M bars (option mapping * option Z) :=
  if negb pci_device || (6 <=? bar) then ret (None, None)
  else
    let! cached := gets (fun b => b_maps b !! Z.to_nat bar) in
    match cached with
    | Some (Some m) =>
        let! idx :=
          (if want_index then
             let! f := find_index 6 0 (map_phys m) in
             match f with
             | Some (i, t) => release_map t ;;; ret (Some i)
             | None => ret None
             end
           else ret None) in
        retain_map m ;;; ret (Some m, idx)
    | _ =>
        match bar_phys bar with
        | None => ret (None, None)
        | Some phys =>
            let! f := find_index 6 0 phys in
            match f with
            | None => ret (None, None)
            | Some (i, m) =>
                modify (fun b => mk_bars (<[Z.to_nat bar := Some m]> (b_maps b)) (b_refs b)) ;;;
                retain_map m ;;;
                ret (Some m, if want_index then Some i else None)
            end
        end
    end.

(** ** readCommonConfig *)
(** The expected address there: the mask, but none of the other tests. *)
Definition common_bar_phys (bar_idx : Z) : Z :=
  let bar_reg := configRead32 (0x10 + bar_idx * 4) in
  if Z.testbit bar_reg 2
  then Z.lor (Z.shiftl (configRead32 (0x10 + (bar_idx + 1) * 4)) 32) (Z.land bar_reg 0xFFFFFFF0)
  else Z.land bar_reg 0xFFFFFFF0.

Fixpoint match_memory (n : nat) (i bar_idx : Z) : M bars (option mapping) :=
  match n with
  | O => ret None
  | S k =>
      match getDeviceMemoryWithIndex i with
      | None => ret None
      | Some phys =>
          if Z.land phys 0xFFFFFFF0 =? Z.land (common_bar_phys bar_idx) 0xFFFFFFF0
          then map_index i
          else match_memory k (i + 1) bar_idx
      end
  end.

(** [readCommonConfig]: BAR, offset and mapping. [None]: the capability walk
    has not ended. *)
Definition readCommonConfig (fuel : nat) (pci_device : bool)
  : M bars (option (option (Z * Z * mapping))) :=
  if negb pci_device then ret (Some None)
  else match findVirtIOCapability configRead8 configRead32 fuel pci_device VIRTIO_PCI_CAP_COMMON_CFG with
       | None => ret None
       | Some None => ret (Some None)
       | Some (Some c) =>
           let! m0 := match_memory 6 0 (cap_bar c) in
           let! m1 := (match m0 with
                       | Some m => ret (Some m)
                       | None => map_index (cap_bar c)
                       end) in
           let! m2 := (match m1 with
                       | Some m => ret (Some m)
                       | None => if cap_bar c =? 4 then map_index 1 else ret None
                       end) in
           match m2 with
           | None => ret (Some None)
           | Some m =>
               if map_length m <? u32 (cap_offset c + 0x38)
               then release_map m ;;; ret (Some None)
               else ret (Some (Some (cap_bar c, cap_offset c, m)))
           end
       end.

(** ** References *)
(** The references after a step that hands [d] of them on [m] to its
    caller. *)
Definition gained (o : option mapping) (d : Z) (b b' : bars) : Prop :=
  forall id, refs id b' = refs id b +
    match o with Some m => if decide (id = map_id m) then d else 0 | None => 0 end.

Lemma map_index_spec i b :
  let '(o, b') := map_index i b in
  o = mapDeviceMemoryWithIndex i /\ b_maps b' = b_maps b /\ gained o 1 b b'.
Proof.
  unfold map_index. destruct (mapDeviceMemoryWithIndex i) as [m|]; cbn; split_and!; try done.
  - intros id. by rewrite refs_add_ref.
  - intros id. lia.
Qed.

Lemma find_index_spec n i phys b :
  let '(o, b') := find_index n i phys b in
  b_maps b' = b_maps b /\ gained (snd <$> o) 1 b b' /\
  match o with
  | Some (j, m) => mapDeviceMemoryWithIndex j = Some m /\ map_phys m = phys /\ i <= j < i + Z.of_nat n
  | None => forall j m, i <= j < i + Z.of_nat n -> mapDeviceMemoryWithIndex j = Some m -> map_phys m <> phys
  end.
Proof.
  revert i b. induction n as [|n IH]; intros i b; cbn.
  { split_and!; [done|intros id; cbn; lia|intros; lia]. }
  unfold bind. pose proof (map_index_spec i b) as H.
  destruct (map_index i b) as [[m|] b1]; destruct H as (Hm & Hb & Hg).
  - destruct (Z.eqb_spec (map_phys m) phys) as [E|E].
    + split_and!; try done; lia.
    + cbn. pose proof (IH (i + 1) (add_ref (-1) m b1)) as H1.
      destruct (find_index n (i + 1) phys (add_ref (-1) m b1)) as [o b2].
      destruct H1 as (H1 & H2 & H3). split_and!; [by rewrite H1| |].
      * intros id. rewrite H2, refs_add_ref, Hg. repeat case_match; lia.
      * destruct o as [[j m']|]; [split_and!; try apply H3; lia|].
        intros j m' Hj Hjm. destruct (decide (i = j)) as [->|]; [congruence|].
        apply (H3 j); [lia|done].
  - pose proof (IH (i + 1) b1) as H1.
    destruct (find_index n (i + 1) phys b1) as [o b2].
    destruct H1 as (H1 & H2 & H3). split_and!; [by rewrite H1| |].
    + intros id. rewrite H2, Hg. lia.
    + destruct o as [[j m']|]; [split_and!; try apply H3; lia|].
      intros j m' Hj Hjm. destruct (decide (i = j)) as [->|]; [congruence|].
      apply (H3 j); [lia|done].
Qed.

(** The cache holds mappings of the BARs they are filed under. *)
Definition cache_ok (b : bars) : Prop :=
  length (b_maps b) = 6%nat /\
  forall bar m, b_maps b !! bar = Some (Some m) -> bar_phys (Z.of_nat bar) = Some (map_phys m).
End bars.

Lemma cache_ok_maps configRead32 b b' :
  b_maps b' = b_maps b -> cache_ok configRead32 b -> cache_ok configRead32 b'.
Proof. intros E [H1 H2]. split; rewrite E; done. Qed.

Lemma mapBarByNumber_gains configRead32 mapDev want bar b :
  cache_ok configRead32 b -> 0 <= bar ->
  let '((o, _), b') := mapBarByNumber configRead32 mapDev true want bar b in
  cache_ok configRead32 b' /\
  match o with
  | Some m =>
      bar_phys configRead32 bar = Some (map_phys m)
      /\ b_maps b' !! Z.to_nat bar = Some (Some m)
      /\ gained (Some m) (if decide (b_maps b !! Z.to_nat bar = Some (Some m)) then 1 else 2) b b'
  | None => b_maps b' = b_maps b /\ gained None 0 b b'
  end.
Proof.
  intros [Hlen Hc] Hbar. unfold mapBarByNumber. cbn [negb orb].
  destruct (Z.leb_spec 6 bar) as [H6|H6].
  { cbn. split_and!; try done. intros id; cbn; lia. }
  unfold bind at 1, gets at 1. destruct (b_maps b !! Z.to_nat bar) as [[m|]|] eqn:E.
  - pose proof (Hc _ _ E) as Hp. rewrite Z2Nat.id in Hp by done.
    destruct want; unfold bind; cbn -[find_index].
    + pose proof (find_index_spec mapDev 6 0 (map_phys m) b) as H.
      destruct (find_index mapDev 6 0 (map_phys m) b) as [[[j t]|] b1]; cbn in H |- *;
        destruct H as (Hb & Hg & _); (split; [by apply (cache_ok_maps _ b)|]);
        rewrite decide_True by done; (split_and!; [done|cbn; by rewrite Hb|]); intros id; cbn;
        rewrite !refs_add_ref, Hg; cbn; repeat case_decide; lia.
    + split; [done|]. rewrite decide_True by done. split_and!; try done.
      intros id. by rewrite refs_add_ref.
  - destruct (bar_phys configRead32 bar) as [phys|] eqn:Ep;
      [|by cbn; split_and!; try done; intros id; cbn; lia].
    unfold bind. pose proof (find_index_spec mapDev 6 0 phys b) as H.
    destruct (find_index mapDev 6 0 phys b) as [[[j m]|] b1]; destruct H as (Hb & Hg & Hm); cbn.
    2: { split; [by apply (cache_ok_maps _ b)|]. split; [done|].
         intros id. rewrite Hg. cbn. lia. }
    destruct Hm as (_ & Hm & _). rewrite Hb. split; [split; cbn|split_and!].
    + by rewrite length_insert.
    + intros bar' m' Hl. apply list_lookup_insert_Some in Hl as [(<- & [= <-] & _)|(_ & Hl)].
      * rewrite Z2Nat.id by done. by rewrite Ep, Hm.
      * by apply Hc.
    + by rewrite Hm.
    + rewrite list_lookup_insert_eq by lia. done.
    + rewrite decide_False by done. intros id. rewrite refs_add_ref.
      unfold refs at 1. cbn. change (default 0 (b_refs b1 !! id)) with (refs id b1).
      rewrite Hg. cbn. repeat case_decide; lia.
  - apply lookup_ge_None in E. lia.
Qed.

(** [mapBarByNumber] keeps its cache sound; a mapping it returns is at
    the physical address of the requested BAR, is afterwards the cached one,
    and costs one reference for the caller plus, on a miss, one for the cache,
    every other probed mapping being released; when it fails nothing changes. *)
Theorem mapBarByNumber_sound configRead32 mapDev want bar b :
  cache_ok configRead32 b -> 0 <= bar ->
  let '((o, _), b') := mapBarByNumber configRead32 mapDev true want bar b in
  cache_ok configRead32 b' /\
  match o with
  | Some m =>
      bar_phys configRead32 bar = Some (map_phys m)
      /\ b_maps b' !! Z.to_nat bar = Some (Some m)
      /\ gained (Some m) (if decide (b_maps b !! Z.to_nat bar = Some (Some m)) then 1 else 2) b b'
  | None => b_maps b' = b_maps b /\ gained None 0 b b'
  end.
Proof. apply mapBarByNumber_gains. Qed.

Lemma readCommonConfig_gains r8 configRead32 mapDev getDev fuel b :
  let '(o, b') := readCommonConfig r8 configRead32 mapDev getDev fuel true b in
  b_maps b' = b_maps b /\
  match o with
  | Some (Some (_, off, m)) =>
      gained (Some m) 1 b b'
      /\ (0 <= off < 2 ^ 32 - 0x38 -> off + 0x38 <= map_length m)
  | _ => gained None 0 b b'
  end.
Proof.
  assert (Hmm : forall n i idx b0, let '(o, b1) := match_memory configRead32 mapDev getDev n i idx b0 in
    b_maps b1 = b_maps b0 /\ gained o 1 b0 b1).
  { induction n as [|n IH]; intros i idx b0; cbn; [split; [done|intros id; cbn; lia]|].
    destruct (getDev i) as [phys|]; [|split; [done|intros id; cbn; lia]].
    destruct (_ =? _); [|apply IH].
    pose proof (map_index_spec mapDev i b0) as H. destruct (map_index mapDev i b0). tauto. }
  unfold readCommonConfig. cbn [negb].
  destruct (findVirtIOCapability _ _ _ _ _) as [[c|]|];
    try (split; [done|intros id; cbn; lia]).
  unfold bind. specialize (Hmm 6%nat 0 (cap_bar c) b).
  destruct (match_memory _ _ _ 6 0 (cap_bar c) b) as [m0 b0]. destruct Hmm as [Hb0 Hg0].
  assert (H1 : forall (o1 : option mapping) (k : M bars (option mapping)) b1,
    b_maps b1 = b_maps b -> gained o1 1 b b1 ->
    (forall b2, let '(o, b3) := k b2 in b_maps b3 = b_maps b2 /\ gained o 1 b2 b3) ->
    let '(o, b') := (match o1 with Some m => ret (Some m) | None => k end) b1 in
    b_maps b' = b_maps b /\ gained o 1 b b').
  { intros [m|] k b1 Hb Hg Hk; [done|]. specialize (Hk b1). destruct (k b1) as [o b3].
    destruct Hk as [Hb3 Hg3]. split; [congruence|]. intros id. rewrite Hg3, Hg. cbn. lia. }
  assert (Hi : forall i b2, let '(o, b3) := map_index mapDev i b2 in
    b_maps b3 = b_maps b2 /\ gained o 1 b2 b3).
  { intros i b2. pose proof (map_index_spec mapDev i b2) as H.
    destruct (map_index mapDev i b2). tauto. }
  pose proof (H1 m0 (map_index mapDev (cap_bar c)) b0 Hb0 Hg0 (Hi _)) as H2.
  destruct (match m0 with Some m => ret (Some m) | None => _ end b0) as [m1 b1].
  destruct H2 as [Hb1 Hg1].
  pose proof (H1 m1 (if cap_bar c =? 4 then map_index mapDev 1 else ret None) b1 Hb1 Hg1) as H2.
  destruct (match m1 with Some m => ret (Some m) | None => _ end b1) as [m2 b2].
  destruct H2 as [Hb2 Hg2].
  { intros b3. destruct (_ =? 4); [apply Hi|split; [done|intros id; cbn; lia]]. }
  destruct m2 as [m|]; [|by split; [|intros id; rewrite Hg2; cbn; lia]].
  destruct (Z.ltb_spec (map_length m) (u32 (cap_offset c + 0x38))) as [E|E]; cbn.
  - split; [done|]. intros id. rewrite refs_add_ref, Hg2. cbn. case_decide; lia.
  - split_and!; [done|done|]. intros Ho. rewrite u32_small in E by lia. lia.
Qed.

(** [readCommonConfig] keeps exactly one reference on the mapping it
    returns and none when it fails; unless the capability's offset is within
    0x38 of 2^32, the 0x38 bytes of registers lie inside the mapping. *)
Theorem readCommonConfig_sound r8 configRead32 mapDev getDev fuel b :
  let '(o, b') := readCommonConfig r8 configRead32 mapDev getDev fuel true b in
  b_maps b' = b_maps b /\
  match o with
  | Some (Some (_, off, m)) =>
      gained (Some m) 1 b b'
      /\ (0 <= off < 2 ^ 32 - 0x38 -> off + 0x38 <= map_length m)
  | _ => gained None 0 b b'
  end.
Proof. apply readCommonConfig_gains. Qed.

(** ** The device configuration *)
(** [initVirtIOGPU] up to the queues: what it learns from [virtio_gpu_config].
    The inputs are the outcomes of the calls, in order: the capability, the
    mapped BAR with whether its virtual address is non-null, the fallback
    mapping by physical address with the values it shows ([None] when any of
    its four steps fails), and the values of the mapped config. *)
Record config_env := mk_config_env {
  ce_cap : option cap;
  ce_map : option (bool * Z);              (* base non-null, length *)
  ce_by_phys : option (Z * Z);             (* num_scanouts, num_capsets *)
  ce_hw : Z * Z
}.

Definition SIZEOF_VIRTIO_GPU_CONFIG : Z := 16.

(** The pair [(m_max_scanouts, m_num_capsets)]. *)
Definition init_config (e : config_env) : Z * Z :=
  match ce_cap e with
  | None => (1, 2)
  | Some c =>
      match ce_map e with
      | None => (1, 0)
      | Some (false, _) => (1, 0)
      | Some (true, size) =>
          if size <? cap_offset c + SIZEOF_VIRTIO_GPU_CONFIG then
            match ce_by_phys e with
            | Some (num_scanouts, num_capsets) =>
                if (0 <? num_scanouts) && (num_scanouts <=? 16) && (num_capsets <=? 64)
                then (num_scanouts, num_capsets) else (1, 0)
            | None => (1, 0)
            end
          else
            let '(hw_scanouts, hw_capsets) := ce_hw e in
            let max_scanouts :=
              if (1 <=? hw_scanouts) && (hw_scanouts <=? 16) then hw_scanouts else 1 in
            let num_capsets := if hw_capsets <=? 16 then hw_capsets else 0 in
            if (max_scanouts =? 1) && (num_capsets =? 0)
            then (max_scanouts, 2) else (max_scanouts, num_capsets)
      end
  end.

(** Whatever the registers hold, the driver works with 1 to 16 scanouts
    and at most 64 capsets; valid values read through the mapping are taken
    as they are, except that one scanout without capsets counts as
    uninitialised and gets two capsets. *)
Theorem init_config_bounds e :
  0 <= (ce_hw e).2 -> (forall s k, ce_by_phys e = Some (s, k) -> 0 <= k) ->
  let '(s, k) := init_config e in
  (1 <= s <= 16 /\ 0 <= k <= 64) /\
  (forall c size, ce_cap e = Some c -> ce_map e = Some (true, size) ->
     cap_offset c + SIZEOF_VIRTIO_GPU_CONFIG <= size ->
     1 <= (ce_hw e).1 <= 16 -> (ce_hw e).2 <= 16 ->
     (s, k) = (if decide (ce_hw e = (1, 0)) then (1, 2) else ce_hw e)).
Proof.
  destruct e as [oc om op [hs hk]]. unfold init_config. cbn. intros Hk Hp.
  destruct oc as [c|]; [|split; [lia|done]].
  destruct om as [[[|] size]|]; [|split; [lia|done]|split; [lia|done]].
  destruct (Z.ltb_spec size (cap_offset c + SIZEOF_VIRTIO_GPU_CONFIG)) as [E|E].
  - destruct op as [[s k]|]; [|split; [lia|intros ? ? [= <-] [= <-]; lia]].
    specialize (Hp s k eq_refl).
    destruct (Z.ltb_spec 0 s), (Z.leb_spec s 16), (Z.leb_spec k 64); cbn;
      (split; [lia|intros ? ? [= <-] [= <-]; lia]).
  - destruct (Z.leb_spec 1 hs), (Z.leb_spec hs 16), (Z.leb_spec hk 16); cbn;
      repeat match goal with |- context [?a =? ?b] => destruct (Z.eqb_spec a b) end; cbn;
      (split; [lia|intros ? ? [= <-] [= <-]; intros]); try lia;
      case_decide; simplify_eq; done.
Qed.

Definition one_map (i : Z) : option mapping :=
  if i =? 1 then Some (mk_mapping 7 0xFE000000 0x4000) else None.
Definition bar4_regs (p : Z) : Z := if p =? 0x20 then 0xFE000004 else 0.

Lemma mapBarByNumber_sound_witness :
  bar_phys bar4_regs 4 = Some 0xFE000000.
Proof.
  assert (Hc : cache_ok bar4_regs (mk_bars (replicate 6 None) ∅)).
  { split; [done|]. intros bar m H. by apply lookup_replicate in H as [? _]. }
  destruct (mapBarByNumber_sound bar4_regs one_map true 4 _ Hc) as [_ [H _]]; [done|].
  exact H.
Defined.

Lemma init_config_bounds_witness :
  let '(s, _) := init_config (mk_config_env (Some (mk_cap 4 0x2000 0x1000)) (Some (true, 0x4000))
    None (999, 3)) in 1 <= s <= 16.
Proof.
  apply (init_config_bounds (mk_config_env (Some (mk_cap 4 0x2000 0x1000)) (Some (true, 0x4000))
    None (999, 3))); cbn; [lia|done].
Defined.
