(* ===== verification/QueueSetup.v ===== *)
(** Bringing the queues up and down: [negotiateFeatures],
    [setupControlVirtQueue], [setupCursorQueue] and [teardownControlVirtQueue]
    of [FB/VMVirtIOGPU.cpp]. The device's common configuration registers are a
    parameter [dev]: what a register shows, given everything the driver wrote
    before. The state keeps that trace; it is what the theorems about order
    and about released memory speak of. *)
From S2P Require Import Prelude SplitQueue ControlQueue CursorQueue Pci Bars.

(** * Registers and the trace *)
Definition VIRTIO_COMMON_DF_SELECT : Z := 0x00.
Definition VIRTIO_COMMON_DF : Z := 0x04.
Definition VIRTIO_COMMON_TF_SELECT : Z := 0x08.
Definition VIRTIO_COMMON_TF : Z := 0x0C.
Definition VIRTIO_COMMON_DEVICE_STATUS : Z := 0x14.
Definition VIRTIO_COMMON_Q_SELECT : Z := 0x16.
Definition VIRTIO_COMMON_Q_SIZE : Z := 0x18.
Definition VIRTIO_COMMON_Q_ENABLE : Z := 0x1C.
Definition VIRTIO_COMMON_Q_NOTIFY_OFF : Z := 0x1E.
Definition VIRTIO_COMMON_Q_DESC_LOW : Z := 0x20.
Definition VIRTIO_COMMON_Q_DESC_HIGH : Z := 0x24.
Definition VIRTIO_COMMON_Q_AVAIL_LOW : Z := 0x28.
Definition VIRTIO_COMMON_Q_AVAIL_HIGH : Z := 0x2C.
Definition VIRTIO_COMMON_Q_USED_LOW : Z := 0x30.
Definition VIRTIO_COMMON_Q_USED_HIGH : Z := 0x34.
Definition VIRTIO_STATUS_ACKNOWLEDGE : Z := 1.
Definition VIRTIO_STATUS_DRIVER : Z := 2.
Definition VIRTIO_STATUS_DRIVER_OK : Z := 4.
Definition VIRTIO_STATUS_FEATURES_OK : Z := 8.

Inductive buf := VringMem | CmdBuf | RespBuf | FreeList
               | CursorVring | CursorCmdBuf | CursorRespBuf | CursorFreeList.
#[export] Instance buf_eq_dec : EqDecision buf.
Proof. solve_decision. Defined.

Inductive ev :=
| Wr (bits off val : Z)
| Sleep (ms : Z)
| Alloc (b : buf)
| Prepare (b : buf)
| Complete (b : buf)
| Release (b : buf).
#[export] Instance ev_eq_dec : EqDecision ev.
Proof. solve_decision. Defined.

Record hw := mk_hw {
  h_trace : list ev;
  h_allocs : list (option Z);
  h_bars : bars;
  h_common_map : option mapping;
  h_notify_map : option mapping;
  h_common_cfg : bool;
  h_vring_mem : bool;
  h_free_next : bool;
  h_cmd_buf : bool;
  h_resp_buf : bool;
  h_cq : cq;
  h_cur : curq
}.

Definition set_h_trace (v : list ev) (x : hw) : hw :=
  mk_hw v (h_allocs x) (h_bars x) (h_common_map x) (h_notify_map x) (h_common_cfg x) (h_vring_mem x) (h_free_next x) (h_cmd_buf x) (h_resp_buf x) (h_cq x) (h_cur x).
Definition set_h_allocs (v : list (option Z)) (x : hw) : hw :=
  mk_hw (h_trace x) v (h_bars x) (h_common_map x) (h_notify_map x) (h_common_cfg x) (h_vring_mem x) (h_free_next x) (h_cmd_buf x) (h_resp_buf x) (h_cq x) (h_cur x).
Definition set_h_bars (v : bars) (x : hw) : hw :=
  mk_hw (h_trace x) (h_allocs x) v (h_common_map x) (h_notify_map x) (h_common_cfg x) (h_vring_mem x) (h_free_next x) (h_cmd_buf x) (h_resp_buf x) (h_cq x) (h_cur x).
Definition set_h_common_map (v : option mapping) (x : hw) : hw :=
  mk_hw (h_trace x) (h_allocs x) (h_bars x) v (h_notify_map x) (h_common_cfg x) (h_vring_mem x) (h_free_next x) (h_cmd_buf x) (h_resp_buf x) (h_cq x) (h_cur x).
Definition set_h_notify_map (v : option mapping) (x : hw) : hw :=
  mk_hw (h_trace x) (h_allocs x) (h_bars x) (h_common_map x) v (h_common_cfg x) (h_vring_mem x) (h_free_next x) (h_cmd_buf x) (h_resp_buf x) (h_cq x) (h_cur x).
Definition set_h_common_cfg (v : bool) (x : hw) : hw :=
  mk_hw (h_trace x) (h_allocs x) (h_bars x) (h_common_map x) (h_notify_map x) v (h_vring_mem x) (h_free_next x) (h_cmd_buf x) (h_resp_buf x) (h_cq x) (h_cur x).
Definition set_h_vring_mem (v : bool) (x : hw) : hw :=
  mk_hw (h_trace x) (h_allocs x) (h_bars x) (h_common_map x) (h_notify_map x) (h_common_cfg x) v (h_free_next x) (h_cmd_buf x) (h_resp_buf x) (h_cq x) (h_cur x).
Definition set_h_free_next (v : bool) (x : hw) : hw :=
  mk_hw (h_trace x) (h_allocs x) (h_bars x) (h_common_map x) (h_notify_map x) (h_common_cfg x) (h_vring_mem x) v (h_cmd_buf x) (h_resp_buf x) (h_cq x) (h_cur x).
Definition set_h_cmd_buf (v : bool) (x : hw) : hw :=
  mk_hw (h_trace x) (h_allocs x) (h_bars x) (h_common_map x) (h_notify_map x) (h_common_cfg x) (h_vring_mem x) (h_free_next x) v (h_resp_buf x) (h_cq x) (h_cur x).
Definition set_h_resp_buf (v : bool) (x : hw) : hw :=
  mk_hw (h_trace x) (h_allocs x) (h_bars x) (h_common_map x) (h_notify_map x) (h_common_cfg x) (h_vring_mem x) (h_free_next x) (h_cmd_buf x) v (h_cq x) (h_cur x).
Definition set_h_cq (v : cq) (x : hw) : hw :=
  mk_hw (h_trace x) (h_allocs x) (h_bars x) (h_common_map x) (h_notify_map x) (h_common_cfg x) (h_vring_mem x) (h_free_next x) (h_cmd_buf x) (h_resp_buf x) v (h_cur x).
Definition set_h_cur (v : curq) (x : hw) : hw :=
  mk_hw (h_trace x) (h_allocs x) (h_bars x) (h_common_map x) (h_notify_map x) (h_common_cfg x) (h_vring_mem x) (h_free_next x) (h_cmd_buf x) (h_resp_buf x) (h_cq x) v.

Definition emit (e : ev) : M hw unit := modify (fun h => set_h_trace (h_trace h ++ [e]) h).
Definition upd_cq (f : cq -> cq) : M hw unit := modify (fun h => set_h_cq (f (h_cq h)) h).
Definition upd_cur (f : curq -> curq) : M hw unit := modify (fun h => set_h_cur (f (h_cur h)) h).
Definition on_bars {A} (m : M bars A) : M hw A :=
  fun h => let '(a, b) := m (h_bars h) in (a, set_h_bars b h).

(** An allocation: its physical address (0: no segment), or [None]. *)
Definition alloc (b : buf) : M hw (option Z) :=
  fun h => match h_allocs h with
           | Some p :: l => (Some p, set_h_trace (h_trace h ++ [Alloc b]) (set_h_allocs l h))
           | None :: l => (None, set_h_allocs l h)
           | [] => (None, h)
           end.

(** A zeroed ring of [n] entries. *)
Definition fresh_shared (n : Z) (cmd_size resp_size : nat) : shared :=
  mk_shared (replicate (Z.to_nat n) (mk_desc 0 0 0 0)) (replicate (Z.to_nat n) 0) 0
    (replicate (Z.to_nat n) (0, 0)) 0 (replicate cmd_size 0) [] (replicate resp_size 0).

Section setup.
Context (dev : list ev -> Z -> Z -> Z).
Context (configRead8 configRead32 : Z -> Z).
Context (mapDev : Z -> option mapping) (getDev : Z -> option Z).

Definition rd (bits off : Z) : M hw Z :=
  gets (fun h => dev (h_trace h) bits off mod 2 ^ bits).

(** ** negotiateFeatures *)
Definition negotiateFeatures : M hw bool :=
  let! mapped := gets h_common_cfg in
  if negb mapped then ret false
  else
    emit (Wr 32 VIRTIO_COMMON_DF_SELECT 0) ;;;
    let! dev_feat0 := rd 32 VIRTIO_COMMON_DF in
    emit (Wr 32 VIRTIO_COMMON_DF_SELECT 1) ;;;
    let! dev_feat1 := rd 32 VIRTIO_COMMON_DF in
    let drv_feat0 := if Z.testbit dev_feat0 0 then 1 else 0 in
    let drv_feat1 := if Z.testbit dev_feat1 0 then 1 else 0 in
    emit (Wr 32 VIRTIO_COMMON_TF_SELECT 0) ;;;
    emit (Wr 32 VIRTIO_COMMON_TF drv_feat0) ;;;
    emit (Wr 32 VIRTIO_COMMON_TF_SELECT 1) ;;;
    emit (Wr 32 VIRTIO_COMMON_TF drv_feat1) ;;;
    let! status := rd 8 VIRTIO_COMMON_DEVICE_STATUS in
    emit (Wr 8 VIRTIO_COMMON_DEVICE_STATUS (Z.lor status VIRTIO_STATUS_FEATURES_OK)) ;;;
    emit (Sleep 1) ;;;
    let! status := rd 8 VIRTIO_COMMON_DEVICE_STATUS in
    ret (Z.testbit status 3).

(** The six address registers. *)
Definition write_addresses (phys : Z) (l : layout) : M hw unit :=
  let desc_phys := phys in
  let avail_phys := phys + l_avail_offset l in
  let used_phys := phys + l_used_offset l in
  emit (Wr 32 VIRTIO_COMMON_Q_DESC_LOW (u32 desc_phys)) ;;;
  emit (Wr 32 VIRTIO_COMMON_Q_DESC_HIGH (u32 (Z.shiftr desc_phys 32))) ;;;
  emit (Wr 32 VIRTIO_COMMON_Q_AVAIL_LOW (u32 avail_phys)) ;;;
  emit (Wr 32 VIRTIO_COMMON_Q_AVAIL_HIGH (u32 (Z.shiftr avail_phys 32))) ;;;
  emit (Wr 32 VIRTIO_COMMON_Q_USED_LOW (u32 used_phys)) ;;;
  emit (Wr 32 VIRTIO_COMMON_Q_USED_HIGH (u32 (Z.shiftr used_phys 32))).

(** ** setupCursorQueue *)
Definition setupCursorQueue : M hw bool :=
  emit (Wr 16 VIRTIO_COMMON_Q_SELECT 1) ;;;
  let! offered := rd 16 VIRTIO_COMMON_Q_SIZE in
  if offered =? 0 then ret false
  else
    let qsize := clamp_pow2 16 offered in
    emit (Wr 16 VIRTIO_COMMON_Q_SIZE qsize) ;;;
    let! off := rd 16 VIRTIO_COMMON_Q_NOTIFY_OFF in
    upd_cur (set_cu_notify_offset off) ;;;
    let l := vring_layout qsize in
    let! vring := alloc CursorVring in
    match vring with
    | None => ret false
    | Some phys =>
        emit (Prepare CursorVring) ;;;
        upd_cur (fun q => set_cu_mapped true (set_cu_size qsize (set_cu_last_used 0
                  (set_cu_avail_idx 0 (set_cu_sh (fresh_shared qsize 128 64) q))))) ;;;
        let! free_next := alloc CursorFreeList in
        match free_next with
        | None =>
            emit (Complete CursorVring) ;;; emit (Release CursorVring) ;;; ret false
        | Some _ =>
            upd_cur (set_cu_free (fl_init qsize)) ;;;
            let! cmd_buf := alloc CursorCmdBuf in
            let! resp_buf := alloc CursorRespBuf in
            match cmd_buf, resp_buf with
            | Some cmd_phys, Some resp_phys =>
                emit (Prepare CursorCmdBuf) ;;; emit (Prepare CursorRespBuf) ;;;
                upd_cur (fun q => set_cu_cmd_phys cmd_phys (set_cu_resp_phys resp_phys q)) ;;;
                write_addresses phys l ;;;
                emit (Wr 16 VIRTIO_COMMON_Q_ENABLE 1) ;;;
                emit (Sleep 1) ;;;
                emit (Wr 16 VIRTIO_COMMON_Q_SELECT 1) ;;;
                upd_cur (set_cu_initialized true) ;;;
                ret true
            | _, _ => ret false
            end
        end
    end.

(** ** setupControlVirtQueue *)
(** Step 2: the notify region; its BAR number is used as an IOKit index.
    [false]: the capability walk has not ended. *)
Definition setup_notify (fuel : nat) : M hw bool :=
  match readNotifyConfig configRead8 configRead32 fuel true with
  | Some (Some (notify_bar, notify_off, notify_mult)) =>
      upd_cq (fun q => set_cq_notify
        (mk_notify (n_base (cq_notify q)) (n_map (cq_notify q)) notify_off notify_mult) q) ;;;
      let! m := gets h_notify_map in
      let! m := (match m with
                 | Some m => ret (Some m)
                 | None => on_bars (map_index mapDev notify_bar)
                 end) in
      modify (set_h_notify_map m) ;;;
      (match m with
       | Some _ => upd_cq (fun q => set_cq_notify
           (mk_notify true true (n_cap_offset (cq_notify q)) (n_off_multiplier (cq_notify q))) q)
       | None => ret tt
       end) ;;;
      ret true
  | Some None => ret true
  | None => ret false
  end.

(** Steps 7 and 8: the ring in memory; [None] on failure. *)
Definition setup_ring (qsize : Z) : M hw (option Z) :=
  let! vring := alloc VringMem in
  match vring with
  | None => ret None
  | Some phys =>
      modify (set_h_vring_mem true) ;;;
      emit (Prepare VringMem) ;;;
      upd_cq (fun q => set_cq_mapped true (set_cq_size qsize (set_cq_last_used 0
               (set_cq_avail_idx 0 (set_cq_sh (fresh_shared qsize 4096 4096) q))))) ;;;
      let! free_next := alloc FreeList in
      match free_next with
      | None =>
          emit (Release VringMem) ;;; modify (set_h_vring_mem false) ;;; ret None
      | Some _ =>
          modify (set_h_free_next true) ;;;
          upd_cq (set_cq_free (fl_init qsize)) ;;;
          ret (Some phys)
      end
  end.

(** Step 12 and the end. *)
Definition setup_buffers (q_notify_off : Z) : M hw bool :=
  let! cmd_buf := alloc CmdBuf in
  modify (set_h_cmd_buf (bool_decide (is_Some cmd_buf))) ;;;
  let! resp_buf := alloc RespBuf in
  modify (set_h_resp_buf (bool_decide (is_Some resp_buf))) ;;;
  match cmd_buf, resp_buf with
  | Some cmd_phys, Some resp_phys =>
      emit (Prepare CmdBuf) ;;; emit (Prepare RespBuf) ;;;
      upd_cq (fun q => set_cq_cmd_phys cmd_phys (set_cq_resp_phys resp_phys
        (set_cq_notify_offset q_notify_off (set_cq_initialized true q)))) ;;;
      ret true
  | _, _ => ret false
  end.

(** Steps 3 to 12, on mapped registers. *)
Definition setup_mapped : M hw bool :=
  emit (Wr 8 VIRTIO_COMMON_DEVICE_STATUS 0) ;;;
  emit (Sleep 10) ;;;
  emit (Wr 8 VIRTIO_COMMON_DEVICE_STATUS VIRTIO_STATUS_ACKNOWLEDGE) ;;;
  emit (Wr 8 VIRTIO_COMMON_DEVICE_STATUS
          (Z.lor VIRTIO_STATUS_ACKNOWLEDGE VIRTIO_STATUS_DRIVER)) ;;;
  negotiateFeatures ;;;
  emit (Wr 16 VIRTIO_COMMON_Q_SELECT 0) ;;;
  let! offered := rd 16 VIRTIO_COMMON_Q_SIZE in
  if offered =? 0 then ret false
  else
    let qsize := clamp_pow2 256 offered in
    emit (Wr 16 VIRTIO_COMMON_Q_SIZE qsize) ;;;
    let! q_notify_off := rd 16 VIRTIO_COMMON_Q_NOTIFY_OFF in
    let! ring := setup_ring qsize in
    match ring with
    | None => ret false
    | Some phys =>
        write_addresses phys (vring_layout qsize) ;;;
        emit (Wr 16 VIRTIO_COMMON_Q_ENABLE 1) ;;;
        emit (Sleep 1) ;;;
        setupCursorQueue ;;;
        let! status := rd 8 VIRTIO_COMMON_DEVICE_STATUS in
        emit (Wr 8 VIRTIO_COMMON_DEVICE_STATUS (Z.lor status VIRTIO_STATUS_DRIVER_OK)) ;;;
        setup_buffers q_notify_off
    end.

(** [None]: a capability walk has not ended. *)
Definition setupControlVirtQueue (fuel : nat) (pci_device : bool) : M hw (option bool) :=
  if negb pci_device then ret (Some false)
  else
    let! common := on_bars (readCommonConfig configRead8 configRead32 mapDev getDev fuel true) in
    match common with
    | Some (Some (_, _, m)) =>
        modify (fun h => set_h_common_cfg true (set_h_common_map (Some m) h)) ;;;
        let! ended := setup_notify fuel in
        if negb ended then ret None
        else let! ok := setup_mapped in ret (Some ok)
    | Some None => ret (Some false)
    | None => ret None
    end.

(** ** teardownControlVirtQueue *)
Definition drop_buf (present : hw -> bool) (clear : hw -> hw) (b : buf) (complete : bool) : M hw unit :=
  let! p := gets present in
  if p then (if complete then emit (Complete b) else ret tt) ;;; emit (Release b) ;;; modify clear
  else ret tt.

Definition teardownControlVirtQueue : M hw unit :=
  let! live := gets (fun h => cq_initialized (h_cq h) && h_common_cfg h) in
  (if live then emit (Wr 16 VIRTIO_COMMON_Q_SELECT 0) ;;; emit (Wr 16 VIRTIO_COMMON_Q_ENABLE 0)
   else ret tt) ;;;
  upd_cq (set_cq_initialized false) ;;;
  drop_buf h_cmd_buf (set_h_cmd_buf false) CmdBuf true ;;;
  drop_buf h_resp_buf (set_h_resp_buf false) RespBuf true ;;;
  drop_buf h_free_next (set_h_free_next false) FreeList false ;;;
  drop_buf h_vring_mem (set_h_vring_mem false) VringMem true ;;;
  upd_cq (fun q => set_cq_mapped false (set_cq_size 0 q)) ;;;
  let! m := gets h_common_map in
  (match m with
   | Some m => on_bars (release_map m) ;;; modify (set_h_common_map None)
   | None => ret tt
   end) ;;;
  modify (set_h_common_cfg false).
End setup.

(** * Feature negotiation *)
Definition bit0 (z : Z) : Z := if Z.testbit z 0 then 1 else 0.

(** The driver accepts VIRGL and VERSION_1 exactly when they are offered
    and nothing else, selects each feature word before it reads or writes it,
    keeps the status bits, and answers whether the device kept FEATURES_OK. *)
Theorem negotiateFeatures_spec dev h :
  h_common_cfg h = true ->
  let t0 := h_trace h in
  let t1 := t0 ++ [Wr 32 VIRTIO_COMMON_DF_SELECT 0] in
  let t2 := t1 ++ [Wr 32 VIRTIO_COMMON_DF_SELECT 1] in
  let f0 := bit0 (u32 (dev t1 32 VIRTIO_COMMON_DF)) in
  let f1 := bit0 (u32 (dev t2 32 VIRTIO_COMMON_DF)) in
  let t3 := t2 ++ [Wr 32 VIRTIO_COMMON_TF_SELECT 0; Wr 32 VIRTIO_COMMON_TF f0;
                   Wr 32 VIRTIO_COMMON_TF_SELECT 1; Wr 32 VIRTIO_COMMON_TF f1] in
  let status := u8 (dev t3 8 VIRTIO_COMMON_DEVICE_STATUS) in
  let t4 := t3 ++ [Wr 8 VIRTIO_COMMON_DEVICE_STATUS (Z.lor status VIRTIO_STATUS_FEATURES_OK); Sleep 1] in
  negotiateFeatures dev h =
    (Z.testbit (u8 (dev t4 8 VIRTIO_COMMON_DEVICE_STATUS)) 3, set_h_trace t4 h).
Proof.
  intros Hc t0 t1 t2 f0 f1 t3 status t4.
  unfold negotiateFeatures, bind, gets, emit, modify, rd. rewrite Hc. cbn [negb].
  destruct h. cbn in * |-. subst t0 t1 t2 f0 f1 t3 status t4.
  cbn [h_trace set_h_trace]. unfold set_h_trace. cbn.
  unfold bit0, u32, u8. rewrite <- !app_assoc. cbn [app].
  reflexivity.
Qed.

(** * What is owned *)
(** The control queue's part of the state: which buffers it holds, and the
    events that concern them. *)
Definition ctl_buf (b : buf) : bool :=
  match b with VringMem | CmdBuf | RespBuf | FreeList => true | _ => false end.
Definition ctl_ev (e : ev) : bool :=
  match e with
  | Alloc b | Release b => ctl_buf b
  | _ => false
  end.

Record view := mk_view {
  v_vring : bool; v_free : bool; v_cmd : bool; v_resp : bool; v_evs : list ev
}.
Definition view_of (h : hw) : view :=
  mk_view (h_vring_mem h) (h_free_next h) (h_cmd_buf h) (h_resp_buf h)
    (filter (fun e => ctl_ev e) (h_trace h)).

Lemma keeps_rd {V} (p : hw -> V) dev bits off : keeps p (rd dev bits off).
Proof. apply keeps_gets. Qed.

Abbreviation neutral := (keeps view_of).

Lemma neutral_emit e : ctl_ev e = false -> neutral (emit e).
Proof.
  intros He. apply keeps_modify. intros h. unfold view_of. cbn.
  rewrite filter_app, filter_cons_False by (by rewrite He; intros []).
  by rewrite filter_nil, app_nil_r.
Qed.
Lemma neutral_upd_cq f : neutral (upd_cq f).
Proof. by apply keeps_modify. Qed.
Lemma neutral_upd_cur f : neutral (upd_cur f).
Proof. by apply keeps_modify. Qed.
Lemma neutral_on_bars {A} (m : M bars A) : neutral (on_bars m).
Proof. intros v h Hv. unfold on_bars. by destruct (m (h_bars h)). Qed.
Lemma neutral_alloc b : ctl_buf b = false -> neutral (alloc b).
Proof.
  intros Hb v h Hv. unfold alloc. destruct (h_allocs h) as [|[p|] l]; [done| |done].
  cbn. rewrite <- Hv. unfold view_of. cbn.
  rewrite filter_app, filter_cons_False by (cbn; rewrite Hb; intros []).
  by rewrite filter_nil, app_nil_r.
Qed.
(** The control queue is kept by everything but [upd_cq]. *)
Lemma cq_emit e : keeps h_cq (emit e).
Proof. by apply keeps_modify. Qed.
Lemma cq_upd_cur f : keeps h_cq (upd_cur f).
Proof. by apply keeps_modify. Qed.
Lemma cq_alloc b : keeps h_cq (alloc b).
Proof. intros v h Hv. unfold alloc. by destruct (h_allocs h) as [|[p|] l]. Qed.

#[export] Hint Resolve keeps_rd neutral_upd_cq neutral_upd_cur neutral_on_bars
  cq_emit cq_upd_cur cq_alloc : keeps.
#[export] Hint Extern 1 (keeps _ (emit _)) => apply neutral_emit; reflexivity : keeps.
#[export] Hint Extern 1 (keeps _ (alloc _)) => apply neutral_alloc; reflexivity : keeps.
#[export] Hint Extern 2 (keeps _ (modify _)) => apply keeps_modify; reflexivity : keeps.

Lemma neutral_negotiateFeatures dev : neutral (negotiateFeatures dev).
Proof. unfold negotiateFeatures. keeps_tac. Qed.
Lemma neutral_write_addresses phys l : neutral (write_addresses phys l).
Proof. unfold write_addresses. keeps_tac. Qed.
Lemma neutral_setupCursorQueue dev : neutral (setupCursorQueue dev).
Proof. unfold setupCursorQueue. keeps_tac. all: apply neutral_write_addresses. Qed.
Lemma neutral_setup_notify r8 r32 mapDev fuel : neutral (setup_notify r8 r32 mapDev fuel).
Proof. unfold setup_notify. keeps_tac. Qed.
Lemma cq_negotiateFeatures dev : keeps h_cq (negotiateFeatures dev).
Proof. unfold negotiateFeatures. keeps_tac. Qed.
Lemma cq_write_addresses phys l : keeps h_cq (write_addresses phys l).
Proof. unfold write_addresses. keeps_tac. Qed.
Lemma cq_setupCursorQueue dev : keeps h_cq (setupCursorQueue dev).
Proof. unfold setupCursorQueue. keeps_tac. all: apply cq_write_addresses. Qed.
#[export] Hint Resolve neutral_negotiateFeatures neutral_write_addresses neutral_setupCursorQueue
  neutral_setup_notify cq_negotiateFeatures cq_write_addresses cq_setupCursorQueue : keeps.

(** * Every buffer is released *)
Definition owed (b : buf) (t : list ev) : Z :=
  Z.of_nat (length (filter (fun e => e = Alloc b) t))
  - Z.of_nat (length (filter (fun e => e = Release b) t)).

Lemma owed_app b t1 t2 : owed b (t1 ++ t2) = owed b t1 + owed b t2.
Proof. unfold owed. rewrite !filter_app, !length_app. lia. Qed.

Definition held (b : buf) (v : view) : bool :=
  match b with
  | VringMem => v_vring v | FreeList => v_free v | CmdBuf => v_cmd v | RespBuf => v_resp v
  | _ => false
  end.

(** The trace owes a release for exactly the buffers the state holds. *)
Definition balanced (h : hw) : Prop :=
  forall b, ctl_buf b = true ->
    owed b (v_evs (view_of h)) = if held b (view_of h) then 1 else 0.

(** [balanced] depends on the view only, so neutral methods keep it. *)
Lemma neutral_keeps {A} (P : view -> Prop) (m : M hw A) :
  neutral m -> preserves (fun h => P (view_of h)) m.
Proof. intros H h HP. by rewrite (keeps_eq view_of m h H). Qed.

Lemma view_evs_app e t : filter (fun e => ctl_ev e) (t ++ [e])
  = filter (fun e => ctl_ev e) t ++ (if ctl_ev e then [e] else []).
Proof.
  rewrite filter_app. f_equal. destruct (ctl_ev e) eqn:E.
  - by rewrite filter_cons_True by (by rewrite E).
  - by rewrite filter_cons_False by (by rewrite E; intros []).
Qed.

Definition empty_handed (h : hw) : Prop :=
  balanced h /\ v_vring (view_of h) = false /\ v_free (view_of h) = false
  /\ v_cmd (view_of h) = false /\ v_resp (view_of h) = false.

Ltac balance :=
  unfold balanced, view_of in *; cbn in *; rewrite ?view_evs_app; cbn;
  rewrite ?filter_app, ?app_nil_r in *;
  let b := fresh in let Hb := fresh in
  intros b Hb; rewrite ?owed_app; destruct b; cbn in Hb; try discriminate; clear Hb;
  repeat match goal with
  | H : forall b, ctl_buf b = true -> _ |- context [owed ?b _] => rewrite (H b eq_refl); cbn
  end; repeat match goal with H : _ = _ :> bool |- _ => rewrite ?H; clear H end;
  repeat match goal with |- context [if ?x then _ else _] => destruct x end; reflexivity.

Lemma setup_ring_balanced qsize :
  hoare empty_handed (setup_ring qsize)
    (fun _ h => balanced h /\ v_cmd (view_of h) = false /\ v_resp (view_of h) = false).
Proof.
  intros h (Hb & Hv & Hf & Hc & Hr).
  unfold setup_ring, bind, alloc, modify, emit, upd_cq, ret.
  destruct (h_allocs h) as [|[p|] [|[p'|] l]]; cbn; split_and!; try done; balance.
Qed.

Lemma setup_buffers_balanced off :
  hoare (fun h => balanced h /\ v_cmd (view_of h) = false /\ v_resp (view_of h) = false)
    (setup_buffers off) (fun _ => balanced).
Proof.
  intros h (Hb & Hc & Hr).
  unfold setup_buffers, bind, alloc, modify, emit, upd_cq, ret.
  destruct (h_allocs h) as [|[p|] [|[p'|] l]] eqn:E; cbn; rewrite ?E; cbn; balance.
Qed.

(** Dropping a buffer, on views. *)
Definition clear_held (b : buf) (v : view) : view :=
  let off b' x := if decide (b = b') then false else x in
  mk_view (off VringMem (v_vring v)) (off FreeList (v_free v)) (off CmdBuf (v_cmd v))
    (off RespBuf (v_resp v)) (v_evs v ++ [Release b]).
Definition drop_view (b : buf) (v : view) : view := if held b v then clear_held b v else v.

Lemma drop_buf_view present clear b complete h :
  ctl_buf b = true -> (forall h, present h = held b (view_of h)) ->
  (forall h t, view_of (clear (set_h_trace (t ++ [Release b]) h))
     = clear_held b (mk_view (h_vring_mem h) (h_free_next h) (h_cmd_buf h) (h_resp_buf h)
                       (filter (fun e => ctl_ev e) t))) ->
  view_of (drop_buf present clear b complete h).2 = drop_view b (view_of h).
Proof.
  intros Hb Hp Hc. unfold drop_buf, bind, gets. rewrite Hp. unfold drop_view.
  destruct (held b (view_of h)); [|done].
  destruct complete; cbn; [|by rewrite (Hc h (h_trace h))].
  rewrite (Hc (set_h_trace (h_trace h ++ [Complete b]) h)). cbn.
  unfold view_of. rewrite view_evs_app. cbn. by rewrite app_nil_r.
Qed.

Lemma drop_view_balanced b v :
  ctl_buf b = true ->
  (forall b', ctl_buf b' = true -> owed b' (v_evs v) = if held b' v then 1 else 0) ->
  forall b', ctl_buf b' = true ->
    owed b' (v_evs (drop_view b v)) = if held b' (drop_view b v) then 1 else 0.
Proof.
  intros Hb H b' Hb'. specialize (H b' Hb'). unfold drop_view.
  destruct (held b v) eqn:E; [|done]. cbn. rewrite owed_app, H.
  destruct b, b'; cbn in *; try discriminate; rewrite ?E; try reflexivity;
    match goal with |- context [if ?x then _ else _] => destruct x end; reflexivity.
Qed.

Lemma view_bind {A B} (m : M hw A) (k : A -> M hw B) h v r :
  view_of (m h).2 = v -> (forall a h1, view_of h1 = v -> view_of (k a h1).2 = r) ->
  view_of (bind m k h).2 = r.
Proof. intros Hm Hk. unfold bind. destruct (m h) as [a h1]. by apply Hk. Qed.

Lemma teardown_view h :
  view_of (teardownControlVirtQueue h).2
  = drop_view VringMem (drop_view FreeList (drop_view RespBuf (drop_view CmdBuf (view_of h)))).
Proof.
  unfold teardownControlVirtQueue.
  eapply view_bind; [apply keeps_eq; keeps_tac|intros live h1 <-].
  eapply view_bind; [apply keeps_eq; destruct live; keeps_tac|intros _ h2 <-].
  eapply view_bind; [apply keeps_eq; keeps_tac|intros _ h3 <-].
  eapply view_bind; [by apply drop_buf_view; intros; unfold view_of; cbn; rewrite ?view_evs_app|
                     intros _ h4 <-].
  eapply view_bind; [by apply drop_buf_view; intros; unfold view_of; cbn; rewrite ?view_evs_app|
                     intros _ h5 <-].
  eapply view_bind; [by apply drop_buf_view; intros; unfold view_of; cbn; rewrite ?view_evs_app|
                     intros _ h6 <-].
  eapply view_bind; [by apply drop_buf_view; intros; unfold view_of; cbn; rewrite ?view_evs_app|
                     intros _ h7 <-].
  apply keeps_eq. keeps_tac.
Qed.

Lemma setup_mapped_balanced dev :
  hoare empty_handed (setup_mapped dev) (fun _ => balanced).
Proof.
  assert (Hn : forall A (m : M hw A), neutral m -> preserves empty_handed m).
  { intros A m Hm. exact (neutral_keeps (fun v =>
      (forall b, ctl_buf b = true -> owed b (v_evs v) = if held b v then 1 else 0) /\
      v_vring v = false /\ v_free v = false /\ v_cmd v = false /\ v_resp v = false) m Hm). }
  assert (Hb : forall A (m : M hw A), neutral m -> preserves (fun h =>
    balanced h /\ v_cmd (view_of h) = false /\ v_resp (view_of h) = false) m).
  { intros A m Hm. exact (neutral_keeps (fun v =>
      (forall b, ctl_buf b = true -> owed b (v_evs v) = if held b v then 1 else 0) /\
      v_cmd v = false /\ v_resp v = false) m Hm). }
  unfold setup_mapped.
  repeat (eapply hoare_bind; [apply Hn; solve [auto with keeps]|intros ?]).
  case_match; [by intros h [? _]|].
  do 2 (eapply hoare_bind; [apply Hn; solve [auto with keeps]|intros ?]).
  eapply hoare_bind; [apply setup_ring_balanced|intros [phys|]; [|by intros h [? _]]].
  repeat (eapply hoare_bind; [apply Hb; solve [auto with keeps]|intros ?]).
  apply setup_buffers_balanced.
Qed.

(** On every path through the set-up, successful or not, the teardown
    that follows releases each of the control queue's four allocations
    exactly once, and leaves none behind. *)
Theorem setup_teardown_releases dev r8 r32 mapDev getDev fuel pci h b :
  empty_handed h -> ctl_buf b = true ->
  let h' := ((setupControlVirtQueue dev r8 r32 mapDev getDev fuel pci ;;;
              teardownControlVirtQueue) h).2 in
  owed b (v_evs (view_of h')) = 0 /\ held b (view_of h') = false.
Proof.
  intros He Hb h'.
  assert (Hbal : balanced (setupControlVirtQueue dev r8 r32 mapDev getDev fuel pci h).2).
  { apply (hoare_weaken empty_handed empty_handed _ (fun _ => balanced) (fun _ => balanced)); try done.
    assert (Hn : forall A (m : M hw A), neutral m -> preserves empty_handed m).
    { intros A m Hm. exact (neutral_keeps (fun v =>
        (forall b, ctl_buf b = true -> owed b (v_evs v) = if held b v then 1 else 0) /\
        v_vring v = false /\ v_free v = false /\ v_cmd v = false /\ v_resp v = false) m Hm). }
    unfold setupControlVirtQueue. destruct pci; cbn [negb]; [|by intros s [? _]].
    eapply hoare_bind; [apply Hn; auto with keeps|].
    intros [[[[bar off] m]|]|]; try by intros s [? _].
    eapply hoare_bind; [apply Hn; auto with keeps|intros ?].
    eapply hoare_bind; [apply Hn; auto with keeps|intros [|]; [|by intros s [? _]]]. cbn [negb].
    eapply hoare_bind; [apply setup_mapped_balanced|]. intros ok s Hs. exact Hs. }
  subst h'. unfold bind.
  destruct (setupControlVirtQueue dev r8 r32 mapDev getDev fuel pci h) as [o h1]. cbn [snd] in Hbal.
  rewrite teardown_view.
  assert (Hd : forall b', ctl_buf b' = true -> held b' (drop_view VringMem (drop_view FreeList
    (drop_view RespBuf (drop_view CmdBuf (view_of h1))))) = false).
  { intros b' Hb'. destruct (view_of h1) as [[] [] [] [] t]; by destruct b'. }
  split; [|by apply Hd].
  rewrite drop_view_balanced; [by rewrite Hd|done| |done].
  do 2 (apply drop_view_balanced; [done|]). apply drop_view_balanced; [done|exact Hbal].
Qed.

(** * A queue that came up is ready *)
(** The trace only grows. *)
Definition grows {A} (m : M hw A) : Prop := forall h, exists t, h_trace (m h).2 = h_trace h ++ t.

Lemma grows_ret {A} (a : A) : grows (ret a).
Proof. intros h. exists []. by rewrite app_nil_r. Qed.
Lemma grows_gets {A} (f : hw -> A) : grows (gets f).
Proof. intros h. exists []. by rewrite app_nil_r. Qed.
Lemma grows_emit e : grows (emit e).
Proof. intros h. by exists [e]. Qed.
Lemma grows_upd_cur f : grows (upd_cur f).
Proof. intros h. exists []. by rewrite app_nil_r. Qed.
Lemma grows_alloc b : grows (alloc b).
Proof.
  intros h. unfold alloc. destruct (h_allocs h) as [|[p|] l];
    [exists []; by rewrite app_nil_r|by exists [Alloc b]|exists []; by rewrite app_nil_r].
Qed.
Lemma grows_bind {A B} (m : M hw A) (k : A -> M hw B) :
  grows m -> (forall a, grows (k a)) -> grows (bind m k).
Proof.
  intros Hm Hk h. unfold bind. destruct (Hm h) as [t Ht]. destruct (m h) as [a h1]. cbn [snd] in Ht.
  destruct (Hk a h1) as [t' Ht']. exists (t ++ t'). rewrite Ht', Ht. by rewrite app_assoc.
Qed.
#[export] Hint Resolve grows_ret grows_gets grows_emit grows_upd_cur grows_alloc : keeps.
Lemma grows_setupCursorQueue dev : grows (setupCursorQueue dev).
Proof.
  unfold setupCursorQueue, write_addresses, rd.
  repeat first [apply grows_bind; [|intros ?] | case_match | solve [auto with keeps]].
Qed.

(** The registers that tell the device where the ring is. *)
Definition address_writes (phys : Z) (l : layout) : list ev :=
  [Wr 32 VIRTIO_COMMON_Q_DESC_LOW (u32 phys);
   Wr 32 VIRTIO_COMMON_Q_DESC_HIGH (u32 (Z.shiftr phys 32));
   Wr 32 VIRTIO_COMMON_Q_AVAIL_LOW (u32 (phys + l_avail_offset l));
   Wr 32 VIRTIO_COMMON_Q_AVAIL_HIGH (u32 (Z.shiftr (phys + l_avail_offset l) 32));
   Wr 32 VIRTIO_COMMON_Q_USED_LOW (u32 (phys + l_used_offset l));
   Wr 32 VIRTIO_COMMON_Q_USED_HIGH (u32 (Z.shiftr (phys + l_used_offset l) 32))].

Lemma write_addresses_trace phys l h :
  write_addresses phys l h = (tt, set_h_trace (h_trace h ++ address_writes phys l) h).
Proof.
  unfold write_addresses, bind, emit, modify, address_writes. destruct h. cbn.
  unfold set_h_trace. cbn. by rewrite <- !app_assoc.
Qed.

Definition ring_ready (n : Z) (q : cq) : Prop :=
  cq_mapped q = true /\ cq_size q = n /\ cq_free q = fl_init n
  /\ cq_avail_idx q = 0 /\ cq_last_used q = 0 /\ cq_sh q = fresh_shared n 4096 4096.

Lemma setup_ring_ready n h phys h' :
  setup_ring n h = (Some phys, h') -> ring_ready n (h_cq h') /\ cq_lock (h_cq h') = cq_lock (h_cq h).
Proof.
  unfold setup_ring, bind, alloc, modify, emit, upd_cq, ret.
  destruct (h_allocs h) as [|[p|] [|[p'|] l]]; cbn; intros [= <- <-]; cbn; by split_and!.
Qed.

Lemma setup_buffers_ready off h h' :
  setup_buffers off h = (true, h') ->
  (exists cp rp, h_cq h' = set_cq_cmd_phys cp (set_cq_resp_phys rp
     (set_cq_notify_offset off (set_cq_initialized true (h_cq h)))))
  /\ h_trace h' = h_trace h ++ [Alloc CmdBuf; Alloc RespBuf; Prepare CmdBuf; Prepare RespBuf].
Proof.
  unfold setup_buffers, bind, alloc, modify, emit, upd_cq, ret.
  destruct (h_allocs h) as [|[p|] [|[p'|] l]] eqn:E; cbn; rewrite ?E; cbn; try discriminate.
  intros [= <-]. cbn. split; [by eexists _, _|]. by rewrite <- !app_assoc.
Qed.

Lemma setup_mapped_ready dev h h' :
  setup_mapped dev h = (true, h') -> cq_lock (h_cq h) = Unlocked ->
  exists n phys pre mid status,
    (1 <= n <= 256 /\ 65536 mod n = 0) /\ ring_ready n (h_cq h')
    /\ cq_initialized (h_cq h') = true /\ cq_lock (h_cq h') = Unlocked
    /\ h_trace h' = pre ++ address_writes phys (vring_layout n) ++ [Wr 16 VIRTIO_COMMON_Q_ENABLE 1]
         ++ mid ++ [Wr 8 VIRTIO_COMMON_DEVICE_STATUS (Z.lor status VIRTIO_STATUS_DRIVER_OK)]
         ++ [Alloc CmdBuf; Alloc RespBuf; Prepare CmdBuf; Prepare RespBuf].
Proof.
  intros H Hl. unfold setup_mapped in H.
  assert (Hstep : forall A B (m : M hw A) (k : A -> M hw B) s r, bind m k s = r ->
    keeps h_cq m -> exists a s1, k a s1 = r /\ h_cq s1 = h_cq s).
  { intros A B m k s r Hb Hm. unfold bind in Hb. pose proof (keeps_eq h_cq m s Hm).
    destruct (m s) as [a s1]. by exists a, s1. }
  assert (Hstep2 : forall A B (m : M hw A) (k : A -> M hw B) s r, bind m k s = r ->
    keeps h_cq m -> grows m -> exists a s1 t, k a s1 = r /\ h_cq s1 = h_cq s /\ h_trace s1 = h_trace s ++ t).
  { intros A B m k s r Hb Hm Hg. unfold bind in Hb. pose proof (keeps_eq h_cq m s Hm).
    destruct (Hg s) as [t Ht]. destruct (m s) as [a s1]. by exists a, s1, t. }
  do 6 (apply Hstep in H as (? & ? & H & ?); [|auto with keeps]).
  match type of H with bind _ ?k ?s0 = _ =>
    change (k (dev (h_trace s0) 16 VIRTIO_COMMON_Q_SIZE mod 2 ^ 16) s0 = (true, h')) in H;
    set (offered := dev (h_trace s0) 16 VIRTIO_COMMON_Q_SIZE mod 2 ^ 16) in H
  end.
  assert (Ho : 0 <= offered < 65536) by (apply Z.mod_pos_bound; lia). clearbody offered.
  cbn beta in H. destruct (Z.eqb_spec offered 0) as [|Hne]; [by inversion H|].
  destruct (clamp_pow2_spec 256 offered) as (j & Hj & En & Hb); [lia|lia|].
  set (n := clamp_pow2 256 offered) in *.
  do 2 (apply Hstep in H as (? & ? & H & ?); [|auto with keeps]).
  unfold bind at 1 in H.
  destruct (setup_ring n _) as [[phys|] s2] eqn:Er; [|by inversion H].
  apply setup_ring_ready in Er as [Hr Hlk].
  unfold bind at 1 in H. rewrite write_addresses_trace in H.
  unfold bind at 1, emit at 1, modify at 1 in H.
  apply Hstep2 in H as (? & s3 & t1 & H & C1 & T1); [|auto with keeps|auto with keeps].
  apply Hstep2 in H as (? & s4 & t2 & H & C2 & T2); [|auto with keeps|apply grows_setupCursorQueue].
  match type of H with bind _ ?k ?s0 = _ =>
    change (k (dev (h_trace s0) 8 VIRTIO_COMMON_DEVICE_STATUS mod 2 ^ 8) s0 = (true, h')) in H;
    set (status := dev (h_trace s0) 8 VIRTIO_COMMON_DEVICE_STATUS mod 2 ^ 8) in H
  end.
  cbn beta in H. unfold bind at 1, emit at 1, modify at 1 in H.
  apply setup_buffers_ready in H as [(cp & rp & Hq) Ht].
  exists n, phys, (h_trace s2), (t1 ++ t2), status.
  cbn in C1, T1, Ht, Hq. destruct Hr as (R1 & R2 & R3 & R4 & R5 & R6).
  assert (Eq : h_cq s4 = h_cq s2) by congruence. rewrite Hq, Eq.
  split; [|split; [|split; [done|split]]].
  - rewrite En. assert (0 < 2 ^ j) by (apply Z.pow_pos_nonneg; lia). split; [lia|].
    destruct (pow2_cases j Hj) as [E|E]; destruct_or?;
      match goal with H : 2 ^ j = _ |- _ => rewrite H end; reflexivity.
  - by split_and!.
  - cbn. congruence.
  - rewrite Ht. cbn. rewrite T2, T1. cbn. by rewrite <- !app_assoc.
Qed.

(** When [setupControlVirtQueue] succeeds, the queue has a power-of-two
    size of at most 256, all descriptors free in order, zeroed rings and
    indices, and a free lock; the device got the addresses of the layout for
    exactly that size before the queue was enabled, and DRIVER_OK after, with
    no register written since. *)
Theorem setupControlVirtQueue_ready dev r8 r32 mapDev getDev fuel pci h h' :
  setupControlVirtQueue dev r8 r32 mapDev getDev fuel pci h = (Some true, h') ->
  cq_lock (h_cq h) = Unlocked ->
  exists n phys pre mid status,
    (1 <= n <= 256 /\ 65536 mod n = 0) /\ ring_ready n (h_cq h')
    /\ cq_initialized (h_cq h') = true /\ idle (h_cq h')
    /\ h_trace h' = pre ++ address_writes phys (vring_layout n) ++ [Wr 16 VIRTIO_COMMON_Q_ENABLE 1]
         ++ mid ++ [Wr 8 VIRTIO_COMMON_DEVICE_STATUS (Z.lor status VIRTIO_STATUS_DRIVER_OK)]
         ++ [Alloc CmdBuf; Alloc RespBuf; Prepare CmdBuf; Prepare RespBuf].
Proof.
  intros H Hl. unfold setupControlVirtQueue in H. destruct pci; cbn [negb] in H; [|done].
  unfold bind at 1 in H. unfold on_bars in H.
  destruct (readCommonConfig _ _ _ _ _ _ _) as [[[[[bar off] m]|]|] b]; try by inversion H.
  unfold bind at 1, modify at 1 in H. unfold bind at 1 in H.
  assert (Hn : forall s, cq_lock (h_cq (setup_notify r8 r32 mapDev fuel s).2) = cq_lock (h_cq s)).
  { intros s. unfold setup_notify, bind, gets, upd_cq, modify, on_bars, ret.
    destruct (readNotifyConfig _ _ _ _) as [[[[nb no] nm]|]|]; try done. cbn.
    destruct (h_notify_map s); cbn; [done|]. destruct (map_index mapDev nb (h_bars s)) as [[m'|] b'];
      reflexivity. }
  destruct (setup_notify _ _ _ _ _) as [u s] eqn:Es.
  destruct u; cbn [negb] in H; [|done]. unfold bind in H.
  destruct (setup_mapped dev s) as [ok s'] eqn:Em. unfold ret in H. injection H as -> ->. rename Em into H.
  apply setup_mapped_ready in H.
  2: { pose proof (Hn (set_h_common_cfg true (set_h_common_map (Some m) (set_h_bars b h)))) as E.
       rewrite Es in E. cbn in E. congruence. }
  destruct H as (n & phys & pre & mid & status & Hn1 & Hr & Hi & Hlk & Ht).
  exists n, phys, pre, mid, status.
  split; [done|]. split; [done|]. split; [done|]. split; [|done].
  split; [done|]. destruct Hr as (_ & E2 & E3 & _).
  exists (zseq 0 (Z.to_nat n)). rewrite E2, E3. apply fl_init_ok. lia.
Qed.

(** A device with queues of 64 and 64 entries, for the witnesses. *)
Definition demo_dev (t : list ev) (bits off : Z) : Z :=
  if off =? VIRTIO_COMMON_Q_SIZE then 64
  else if off =? VIRTIO_COMMON_DF then 3
  else if off =? VIRTIO_COMMON_DEVICE_STATUS then 11 else 0.
Definition demo_map (i : Z) : option mapping :=
  if i =? 2 then Some (mk_mapping 9 0xFE000000 0x4000) else None.
Definition demo_hw : hw :=
  mk_hw [] (Some <$> [0x10000; 1; 0x20000; 1; 0x30000; 0x31000; 0x40000; 0x41000])
    (mk_bars (replicate 6 None) ∅) None None false false false false false
    (set_cq_initialized false (set_cq_mapped false small_queue)) small_cursor_queue.

Lemma demo_hw_empty : empty_handed demo_hw.
Proof. split; [|by split_and!]. intros b Hb. by destruct b. Qed.

Lemma negotiateFeatures_spec_witness :
  (negotiateFeatures demo_dev (set_h_common_cfg true demo_hw)).1 = true.
Proof.
  pose proof (negotiateFeatures_spec demo_dev (set_h_common_cfg true demo_hw) eq_refl) as H.
  cbn zeta in H. rewrite H. vm_compute. reflexivity.
Defined.

Lemma setup_teardown_releases_witness :
  owed CmdBuf (v_evs (view_of ((setupControlVirtQueue demo_dev two_caps two_caps32 demo_map
    (fun _ => None) 189 true ;;; teardownControlVirtQueue) demo_hw).2)) = 0.
Proof.
  apply (setup_teardown_releases demo_dev two_caps two_caps32 demo_map (fun _ => None) 189 true
    demo_hw CmdBuf demo_hw_empty eq_refl).
Defined.

Lemma setupControlVirtQueue_ready_witness :
  idle (h_cq (setupControlVirtQueue demo_dev two_caps two_caps32 demo_map (fun _ => None) 189 true
    demo_hw).2).
Proof.
  destruct (setupControlVirtQueue_ready demo_dev two_caps two_caps32 demo_map (fun _ => None) 189 true
    demo_hw (setupControlVirtQueue demo_dev two_caps two_caps32 demo_map (fun _ => None) 189 true
    demo_hw).2) as (n & phys & pre & mid & st & H).
  - vm_compute. reflexivity.
  - reflexivity.
  - apply H.
Defined.
