(* ===== verification/Resources.v ===== *)
(** The resource pool: [findResource], [createResource2D],
    [createResource3D], [allocateResource3D], [deallocateResource],
    [attachBacking], [mapGuestMemory], [allocateGPUMemory] and
    [probeResourceTracking] of [FB/VMVirtIOGPU.cpp], over any transport. *)
From S2P Require Import Prelude Wire Transport Driver.

(** * The pool
    Sixty-four slots; [resource_id = 0] marks a free one. *)
Definition POOL_SIZE : nat := 64.
Definition SIZEOF_GPU_RESOURCE : Z := 32.
Definition free_slot : gpu_resource := mk_resource 0 0 0 0 None false false.

Definition findResource (resource_id : Z) (pool : list gpu_resource) : option nat :=
  index_of (fun r => negb (r_resource_id r =? 0) && (r_resource_id r =? resource_id)) pool.

(** The first free slot. *)
Definition find_free (pool : list gpu_resource) : option nat :=
  index_of (fun r => r_resource_id r =? 0) pool.

(** Store in slot [i], keeping the high-water mark. *)
Definition store_slot (i : nat) (r : gpu_resource) (g : gpu) : gpu :=
  set_g_resource_count (if g_resource_count g <=? Z.of_nat i then Z.of_nat i + 1 else g_resource_count g)
    (set_g_pool (<[i := r]> (g_pool g)) g).

(** * Scatter lists
    The loop over [getPhysicalSegment]: it ends at address 0, and after a
    segment of length 0, which it has counted. *)
Fixpoint walk_segs (segs : list (Z * Z)) : list (Z * Z) :=
  match segs with
  | [] => []
  | (a, l) :: segs' =>
      if a =? 0 then []
      else if l =? 0 then [(a, l)]
      else (a, l) :: walk_segs segs'
  end.

Definition total_length (segs : list (Z * Z)) : Z := u64 (foldr Z.add 0 (segs.*2)).

Definition seg_entry (s : Z * Z) : virtio_gpu_mem_entry := mk_mem_entry s.1 (u32 s.2) 0.

Section resources.
Context {T : Type} `{Transport T}.
Abbreviation W := (world T).

(** ** attachBacking *)
(** The command is built in a fresh heap block whose ring index and padding
    bytes the code does not write. *)
Definition attachBacking (resource_id : Z) (backing : option mdesc) : M W IOReturn :=
  let! ready := get_gpu (fun g => g_pci_device g && g_control_queue g) in
  if negb ready then ret kIOReturnNotReady
  else match backing with
  | None => ret kIOReturnBadArgument
  | Some d =>
      let! prepare_ret := prepare d in
      if negb (is_success prepare_ret) then ret prepare_ret
      else
        let segs := walk_segs (md_segs d) in
        let nr_entries := u32 (Z.of_nat (length segs)) in
        if (nr_entries =? 0) || (total_length segs =? 0)
        then complete (md_id d) ;;; ret kIOReturnNoMemory
        else
          let size := 32 + 16 * nr_entries in
          let! block := IOMalloc size in
          match block with
          | None => complete (md_id d) ;;; ret kIOReturnNoMemory
          | Some g =>
              let cmd := CmdAttach
                (mk_hdr VIRTIO_GPU_CMD_RESOURCE_ATTACH_BACKING 0 0 0 (garb g 20) (garb24 g 21))
                resource_id nr_entries (seg_entry <$> take (Z.to_nat nr_entries) segs) in
              let! r := submit cmd 24 in
              IOFree size ;;;
              complete (md_id d) ;;;
              ret r.1
          end
  end.

(** ** createResource2D *)
Definition createResource2D (resource_id format width height : Z) (backing : option mdesc)
  : M W IOReturn :=
  lock_resources ;;;
  let! pool := get_gpu g_pool in
  match findResource resource_id pool with
  | Some _ => unlock_resources ;;; ret kIOReturnBadArgument
  | None =>
      let resource_size := u32 (u32 (width * height) * 4) in
      let! r := submit (CmdCreate2D (hdr_of VIRTIO_GPU_CMD_RESOURCE_CREATE_2D)
                          (mk_create_2d resource_id format width height)) 24 in
      if negb (is_success r.1) || negb (resp_type r.2 =? VIRTIO_GPU_RESP_OK_NODATA)
      then unlock_resources ;;; ret r.1
      else
        let driver_owns := match backing with None => true | Some _ => false end in
        let! to_attach := (match backing with
                           | Some d => ret (Some d)
                           | None => new_descriptor resource_size
                           end) in
        match to_attach with
        | None => unlock_resources ;;; ret kIOReturnNoMemory
        | Some d =>
            let! attach_ret := attachBacking resource_id (Some d) in
            if negb (is_success attach_ret) then
              (if driver_owns then complete (md_id d) ;;; release (md_id d) else ret tt) ;;;
              unlock_resources ;;; ret attach_ret
            else
              let! pool := get_gpu g_pool in
              match find_free pool with
              | None =>
                  submit (CmdUnref (hdr_of VIRTIO_GPU_CMD_RESOURCE_UNREF) resource_id 0) 24 ;;;
                  (if driver_owns then release (md_id d) else ret tt) ;;;
                  unlock_resources ;;; ret kIOReturnNoSpace
              | Some i =>
                  upd_gpu (store_slot i (mk_resource resource_id width height format
                    (if driver_owns then Some (md_id d) else None) false true)) ;;;
                  unlock_resources ;;; ret kIOReturnSuccess
              end
        end
  end.

(** ** createResource3D *)
Definition createResource3D (resource_id target format bind width height depth : Z)
  : M W IOReturn :=
  let! capsets := get_gpu g_num_capsets in
  if negb (0 <? capsets) then ret kIOReturnUnsupported
  else
    lock_resources ;;;
    let! pool := get_gpu g_pool in
    match findResource resource_id pool with
    | Some _ => unlock_resources ;;; ret kIOReturnBadArgument
    | None =>
        let! r := submit (CmdCreate3D (hdr_of VIRTIO_GPU_CMD_RESOURCE_CREATE_3D)
                    (mk_create_3d resource_id target format bind width height depth 1 0 0 0 0)) 24 in
        (if is_success r.1 && (resp_type r.2 =? VIRTIO_GPU_RESP_OK_NODATA) then
           let! block := IOMalloc SIZEOF_GPU_RESOURCE in
           match block with
           | None => ret tt
           | Some _ =>
               let! pool := get_gpu g_pool in
               match find_free pool with
               | None => ret tt
               | Some i => upd_gpu (store_slot i
                             (mk_resource resource_id width height format None true true))
               end
           end
         else ret tt) ;;;
        unlock_resources ;;;
        ret r.1
    end.

(** ** allocateResource3D: the status and the id it wrote *)
Definition next_resource_id : M W Z :=
  upd_gpu (fun g => set_g_next_resource_id (u32 (g_next_resource_id g + 1)) g) ;;;
  get_gpu g_next_resource_id.

Definition allocateResource3D (target format width height depth : Z) : M W (IOReturn * Z) :=
  let! id := next_resource_id in
  let! r := createResource3D id target format 0 width height depth in
  ret (r, id).

(** ** deallocateResource *)
Definition deallocateResource (resource_id : Z) : M W IOReturn :=
  lock_resources ;;;
  let! r := submit (CmdUnref (hdr_of VIRTIO_GPU_CMD_RESOURCE_UNREF) resource_id 0) 24 in
  (if is_success r.1 then
     let! pool := get_gpu g_pool in
     match index_of (fun s => r_resource_id s =? resource_id) pool with
     | None => ret tt
     | Some i =>
         match pool !! i with
         | None => ret tt
         | Some s =>
             (match r_backing_memory s with Some d => release d | None => ret tt end) ;;;
             upd_gpu (fun g => set_g_pool
               (<[i := mk_resource 0 (r_width s) (r_height s) (r_format s) None (r_is_3d s) false]>
                  (g_pool g)) g)
         end
     end
   else ret tt) ;;;
  unlock_resources ;;;
  ret r.1.

(** ** mapGuestMemory: the status and the address it wrote *)
Definition mapGuestMemory (guest_memory : option mdesc) : M W (IOReturn * Z) :=
  match guest_memory with
  | None => ret (kIOReturnBadArgument, 0)
  | Some d =>
      if md_length d =? 0 then ret (kIOReturnBadArgument, 0)
      else
        let! prepare_ret := prepare d in
        if negb (is_success prepare_ret) then ret (prepare_ret, 0)
        else
          let '(phys_addr, phys_length) := default (0, 0) (head (md_segs d)) in
          if (phys_addr =? 0) || (phys_length =? 0)
          then complete (md_id d) ;;; ret (kIOReturnNoMemory, 0)
          else
            let! id := next_resource_id in
            let! r := submit (CmdAttach (hdr_of VIRTIO_GPU_CMD_RESOURCE_ATTACH_BACKING) id 1 []) 24 in
            if negb (is_success r.1) then complete (md_id d) ;;; ret (r.1, 0)
            else
              lock_resources ;;;
              let! block := IOMalloc SIZEOF_GPU_RESOURCE in
              match block with
              | None =>
                  complete (md_id d) ;;; unlock_resources ;;; ret (kIOReturnNoMemory, 0)
              | Some b =>
                  retain (md_id d) ;;;
                  upd_gpu (fun g =>
                    if g_resource_count g <? 64 then
                      set_g_resource_count (g_resource_count g + 1)
                        (set_g_pool (<[Z.to_nat (g_resource_count g) :=
                           mk_resource id 0 0 0 (Some (md_id d)) (negb (garb b 24 =? 0)) true]>
                           (g_pool g)) g)
                    else g) ;;;
                  unlock_resources ;;;
                  ret (kIOReturnSuccess, phys_addr)
              end
  end.

Definition allocateGPUMemory (size : Z) : M W (IOReturn * option mdesc) :=
  let! d := new_descriptor size in
  ret (match d with Some _ => kIOReturnSuccess | None => kIOReturnNoMemory end, d).

(** ** probeResourceTracking *)
Inductive probe_result :=
  | ProbePass | ProbeFailA (r : IOReturn) | ProbeFailB (r : IOReturn)
  | ProbeFailC (r : IOReturn) | ProbeFailD.

Definition PROBE_ID : Z := 0xFFFE.

Definition probeResourceTracking : M W probe_result :=
  let! create1 := createResource2D PROBE_ID 1 1 1 None in
  if negb (is_success create1) then ret (ProbeFailA create1)
  else
    let! create2 := createResource2D PROBE_ID 1 1 1 None in
    if negb (bool_decide (create2 = kIOReturnBadArgument))
    then deallocateResource PROBE_ID ;;; ret (ProbeFailB create2)
    else
      let! destroy_ret := deallocateResource PROBE_ID in
      if negb (is_success destroy_ret) then ret (ProbeFailC destroy_ret)
      else
        lock_resources ;;;
        let! pool := get_gpu g_pool in
        unlock_resources ;;;
        match findResource PROBE_ID pool with
        | Some _ => ret ProbeFailD
        | None => ret ProbePass
        end.
End resources.

(** * Locks *)
Section lock_lemmas.
Context {T : Type} `{Transport T}.

Lemma attachBacking_keeps {V} (p : gpu -> V) id d :
  keeps (fun w : world T => p (w_gpu w)) (attachBacking id d).
Proof. unfold attachBacking. keeps_tac. Qed.
#[local] Hint Resolve attachBacking_keeps : keeps.

Lemma createResource2D_locks id f w h b : lock_safe (T := T) (createResource2D id f w h b).
Proof. unfold createResource2D. lock_tac. Qed.
Lemma createResource3D_locks id t f b w h d : lock_safe (T := T) (createResource3D id t f b w h d).
Proof. unfold createResource3D. lock_tac. Qed.
Lemma deallocateResource_locks id : lock_safe (T := T) (deallocateResource id).
Proof. unfold deallocateResource. lock_tac. Qed.
Lemma mapGuestMemory_locks d : lock_safe (T := T) (mapGuestMemory d).
Proof. unfold mapGuestMemory, next_resource_id. lock_tac. Qed.
End lock_lemmas.
#[export] Hint Resolve attachBacking_keeps : keeps.

(** * Pool lemmas *)
Definition live_at (pool : list gpu_resource) (i : nat) (id : Z) : Prop :=
  id <> 0 /\ r_resource_id <$> pool !! i = Some id.

Lemma findResource_Some id pool i : findResource id pool = Some i -> live_at pool i id.
Proof.
  intros H. apply index_of_Some in H as (r & Hr & Hf & _).
  apply andb_true_iff in Hf as [H1 H2]. apply negb_true_iff, Z.eqb_neq in H1.
  apply Z.eqb_eq in H2. split; [congruence|]. rewrite Hr. cbn. by rewrite H2.
Qed.

Lemma findResource_None id pool : findResource id pool = None -> forall i, ~ live_at pool i id.
Proof.
  intros H i [Hne Hi]. apply fmap_Some in Hi as (r & Hr & ->).
  apply (proj1 (index_of_None _ _) H) in Hr. apply andb_false_iff in Hr as [Hr|Hr].
  - by apply negb_false_iff, Z.eqb_eq in Hr.
  - by apply Z.eqb_neq in Hr.
Qed.

(** The part of the state the pool's invariant speaks of: the slots, the
    high-water mark, and the resources the host knows. *)
Record rview := mk_rv { rv_pool : list gpu_resource; rv_count : Z; rv_host : gset Z }.

(** Sixty-four slots; live slots are below the high-water mark, carry
    distinct ids, and the host knows them. *)
Record pool_inv (v : rview) : Prop := {
  pi_length : length (rv_pool v) = POOL_SIZE;
  pi_count : 0 <= rv_count v <= Z.of_nat POOL_SIZE;
  pi_water : forall i id, live_at (rv_pool v) i id -> Z.of_nat i < rv_count v;
  pi_unique : forall i j id, live_at (rv_pool v) i id -> live_at (rv_pool v) j id -> i = j;
  pi_host : forall i id, live_at (rv_pool v) i id -> id ∈ rv_host v
}.

Definition store_view (i : nat) (r : gpu_resource) (v : rview) : rview :=
  mk_rv (<[i := r]> (rv_pool v))
    (if rv_count v <=? Z.of_nat i then Z.of_nat i + 1 else rv_count v) (rv_host v).
Definition set_host (h : gset Z) (v : rview) : rview := mk_rv (rv_pool v) (rv_count v) h.

Lemma live_at_insert pool i j r id :
  (i < length pool)%nat ->
  live_at (<[i := r]> pool) j id <->
  (j = i /\ id = r_resource_id r /\ id <> 0) \/ (j <> i /\ live_at pool j id).
Proof.
  intros Hi. unfold live_at. destruct (decide (j = i)) as [->|Hne].
  - rewrite list_lookup_insert_eq by done. cbn. intuition congruence.
  - rewrite list_lookup_insert_ne by done. intuition congruence.
Qed.

Lemma store_view_inv i r v :
  pool_inv v -> find_free (rv_pool v) = Some i -> r_resource_id r ∈ rv_host v ->
  findResource (r_resource_id r) (rv_pool v) = None -> pool_inv (store_view i r v).
Proof.
  intros [H1 H2 H3 H4 H5] Hi Hh Hn.
  apply index_of_Some in Hi as (x & Hx & _ & _). apply lookup_lt_Some in Hx.
  pose proof (findResource_None _ _ Hn) as Hn'. unfold POOL_SIZE in *.
  assert (Hc : rv_count (store_view i r v) = Z.max (rv_count v) (Z.of_nat i + 1)).
  { cbn. destruct (Z.leb_spec (rv_count v) (Z.of_nat i)); lia. }
  constructor; rewrite ?Hc; cbn.
  - by rewrite length_insert.
  - unfold POOL_SIZE. lia.
  - intros j id Hj. apply live_at_insert in Hj; [|done].
    destruct Hj as [(-> & _)|(_ & Hj)]; [lia|]. specialize (H3 j id Hj). lia.
  - intros j k id Hj Hk. apply live_at_insert in Hj; [|done]. apply live_at_insert in Hk; [|done].
    destruct Hj as [(-> & -> & ?)|(? & Hj)], Hk as [(-> & E & ?)|(? & Hk)]; [done| | |].
    + by destruct (Hn' k).
    + subst id. by destruct (Hn' j).
    + by apply (H4 j k id).
  - intros j id Hj. apply live_at_insert in Hj; [|done].
    destruct Hj as [(-> & -> & ?)|(? & Hj)]; [done|]. by apply (H5 j).
Qed.

(** Emptying slot [i] while the host forgets its id. *)
Lemma clear_view_inv i r v :
  pool_inv v -> r_resource_id r = 0 -> (i < length (rv_pool v))%nat ->
  pool_inv (mk_rv (<[i := r]> (rv_pool v)) (rv_count v)
    (rv_host v ∖ {[ default 0 (r_resource_id <$> rv_pool v !! i) ]})).
Proof.
  intros [H1 H2 H3 H4 H5] Hr Hi.
  constructor; cbn; [by rewrite length_insert|done| | |].
  - intros j id Hj. apply live_at_insert in Hj; [|done].
    destruct Hj as [(-> & -> & ?)|(_ & Hj)]; [done|]. by apply (H3 j id).
  - intros j k id Hj Hk. apply live_at_insert in Hj; [|done]. apply live_at_insert in Hk; [|done].
    destruct Hj as [(_ & -> & ?)|(? & Hj)]; [done|].
    destruct Hk as [(_ & -> & ?)|(? & Hk)]; [done|]. by apply (H4 j k id).
  - intros j id Hj. apply live_at_insert in Hj; [|done].
    destruct Hj as [(-> & -> & ?)|(Hne & Hj)]; [done|].
    apply elem_of_difference. split; [by apply (H5 j)|].
    rewrite elem_of_singleton. intros ->. apply Hne.
    destruct (rv_pool v !! i) as [s|] eqn:E; [|by apply lookup_ge_None in E; lia].
    cbn in Hj. apply (H4 _ _ _ Hj). destruct Hj as [Hj _]. split; [done|]. by rewrite E.
Qed.

(** An id the pool does not track may leave or enter the host freely. *)
Lemma set_host_inv h v id :
  pool_inv v -> findResource id (rv_pool v) = None -> rv_host v ∖ {[ id ]} ⊆ h ->
  pool_inv (set_host h v).
Proof.
  intros [H1 H2 H3 H4 H5] Hn Hs. constructor; try done. cbn. intros i id' Hi.
  apply Hs, elem_of_difference. split; [by apply (H5 i)|].
  rewrite elem_of_singleton. intros ->. by apply (findResource_None _ _ Hn i).
Qed.

(** * The operations over a conforming host *)
(** What creating a resource [id] can do to the pool and the host; only a 3D
    creation ([d3]) can succeed without being tracked. *)
Inductive create_outcome (d3 : bool) (id : Z) (P : gpu_resource -> Prop) (v : rview) : IOReturn -> rview -> Prop :=
| co_refused r : r <> kIOReturnSuccess -> create_outcome d3 id P v r v
| co_untracked r h :
    d3 = true \/ r <> kIOReturnSuccess ->
    findResource id (rv_pool v) = None -> rv_host v ∖ {[ id ]} ⊆ h -> h ⊆ {[ id ]} ∪ rv_host v ->
    create_outcome d3 id P v r (set_host h v)
| co_stored i slot :
    findResource id (rv_pool v) = None -> find_free (rv_pool v) = Some i ->
    r_resource_id slot = id -> P slot ->
    create_outcome d3 id P v kIOReturnSuccess
      (store_view i slot (set_host ({[ id ]} ∪ rv_host v) v)).

Lemma create_outcome_inv d3 id P v r v' :
  pool_inv v -> create_outcome d3 id P v r v' -> pool_inv v'.
Proof.
  intros Hv [r' Hr|r' h Hr Hn Hs Hs'|i slot Hn Hi Hid Hp]; [done|by eapply set_host_inv|].
  apply store_view_inv; [|done| |by rewrite Hid].
  - eapply set_host_inv; [done|exact Hn|cbn; set_solver].
  - rewrite Hid. cbn. set_solver.
Qed.

Section host.
Context {T : Type} `{Host T}.

Definition rv (w : world T) : rview :=
  mk_rv (g_pool (w_gpu w)) (g_resource_count (w_gpu w)) (host_ids (w_tr w)).

Lemma rv_submit c n v :
  (24 <= n)%nat -> hoare (fun w => rv w = v) (submit c n) (fun r w =>
    rv w = set_host (if is_success r.1 then cmd_effect c (rv_host v) else rv_host v) v
    /\ (r.1 = kIOReturnSuccess -> resp_type r.2 = VIRTIO_GPU_RESP_OK_NODATA)).
Proof.
  intros Hn w <-. unfold submit. pose proof (host_submit c n (w_tr w) Hn) as Hs.
  destruct (submit_cmd c n (w_tr w)) as [[r resp] t]. unfold rv. cbn.
  destruct Hs as [-> Hr]. done.
Qed.
Lemma rv_upd_mem f : keeps rv (upd_mem f).
Proof. by apply keeps_modify. Qed.
Lemma rv_upd_gpu f :
  (forall g, g_pool (f g) = g_pool g) -> (forall g, g_resource_count (f g) = g_resource_count g) ->
  keeps rv (upd_gpu f).
Proof. intros H1 H2. apply keeps_modify. intros w. unfold rv. cbn. by rewrite H1, H2. Qed.
Lemma rv_submit_neutral c n :
  (forall h, cmd_effect c h = h) -> (24 <= n)%nat -> keeps rv (submit c n).
Proof.
  intros Hc Hn v w Hw. destruct (rv_submit c n v Hn w Hw) as [-> _]. rewrite Hc.
  case_match; by destruct v.
Qed.
Lemma rv_IOMalloc n : keeps rv (IOMalloc n).
Proof. intros v w Hw. unfold IOMalloc. by destruct (m_mallocs (w_mem w)) as [|[?|] ?]. Qed.
Lemma rv_new_descriptor n : keeps rv (new_descriptor n).
Proof. intros v w Hw. unfold new_descriptor. by destruct (m_allocs (w_mem w)) as [|[?|] ?]. Qed.
#[local] Hint Resolve rv_upd_mem rv_IOMalloc rv_new_descriptor : keeps.
#[local] Hint Extern 1 (keeps rv (upd_gpu _)) => apply rv_upd_gpu; reflexivity : keeps.
#[local] Hint Extern 1 (keeps rv (submit _ _)) => apply rv_submit_neutral; [reflexivity|lia] : keeps.

Lemma rv_attachBacking id d : keeps rv (attachBacking id d).
Proof. unfold attachBacking. keeps_tac. Qed.
Lemma rv_lock_resources : keeps rv lock_resources.
Proof. unfold lock_resources. keeps_tac. Qed.
Lemma rv_unlock_resources : keeps rv unlock_resources.
Proof. unfold unlock_resources. keeps_tac. Qed.
#[local] Hint Resolve rv_attachBacking rv_lock_resources rv_unlock_resources : keeps.

(** Step over a method that keeps [rv]. *)
Lemma hoare_rv {A B} (m : M (world T) A) (k : A -> M (world T) B) v Q :
  keeps rv m -> (forall a, hoare (fun w => rv w = v) (k a) Q) ->
  hoare (fun w => rv w = v) (bind m k) Q.
Proof. intros Hm Hk. eapply hoare_bind; [apply Hm|]. intros a. apply Hk. Qed.
Lemma hoare_rv_pool {B} (k : list gpu_resource -> M (world T) B) v Q :
  hoare (fun w => rv w = v) (k (rv_pool v)) Q ->
  hoare (fun w => rv w = v) (bind (get_gpu g_pool) k) Q.
Proof. intros Hk w <-. by apply Hk. Qed.
Lemma hoare_rv_ret {A} (a : A) v (Q : A -> rview -> Prop) :
  Q a v -> hoare (fun w => rv w = v) (ret a) (fun a w => Q a (rv w)).
Proof. by intros HQ w <-. Qed.
Lemma hoare_rv_submit {B} c (k : IOReturn * list Z -> M (world T) B) v Q :
  (forall resp, resp_type resp = VIRTIO_GPU_RESP_OK_NODATA ->
     hoare (fun w => rv w = set_host (cmd_effect c (rv_host v)) v) (k (kIOReturnSuccess, resp)) Q) ->
  (forall r resp, r <> kIOReturnSuccess -> hoare (fun w => rv w = v) (k (r, resp)) Q) ->
  hoare (fun w => rv w = v) (bind (submit c 24) k) Q.
Proof.
  intros Hs Hf. eapply hoare_bind; [by apply rv_submit|]. intros [r resp] w [Hw Hr]. cbn in Hw, Hr.
  destruct (is_success r) eqn:E.
  - apply is_success_true in E. subst. by apply (Hs resp (Hr eq_refl)).
  - apply is_success_false in E. apply (Hf r resp E). rewrite Hw. by destruct v.
Qed.
Lemma hoare_rv_store {B} i r (k : unit -> M (world T) B) v Q :
  hoare (fun w => rv w = store_view i r v) (k tt) Q ->
  hoare (fun w => rv w = v) (bind (upd_gpu (store_slot i r)) k) Q.
Proof. intros Hk w <-. by apply Hk. Qed.

Lemma rv_store i r w : rv (upd_gpu (store_slot i r) w).2 = store_view i r (rv w).
Proof. done. Qed.
Lemma rv_set_slot i r w :
  rv (upd_gpu (fun g => set_g_pool (<[i := r]> (g_pool g)) g) w).2
  = mk_rv (<[i := r]> (rv_pool (rv w))) (rv_count (rv w)) (rv_host (rv w)).
Proof. done. Qed.

Ltac rv_tac :=
  repeat first
    [ apply hoare_rv_pool
    | apply hoare_rv; [solve [keeps_tac]|intros ?]
    | apply hoare_rv_store ].

Definition slot_2d (format width height : Z) (owned : bool) (s : gpu_resource) : Prop :=
  r_width s = width /\ r_height s = height /\ r_format s = format /\ r_is_3d s = false
  /\ r_in_use s = true /\ (is_Some (r_backing_memory s) <-> owned = true).

Lemma createResource2D_outcome id f w h b v :
  hoare (fun w => rv w = v) (createResource2D id f w h b) (fun r w' =>
    create_outcome false id (slot_2d f w h (bool_decide (b = None))) v r (rv w')).
Proof.
  unfold createResource2D. rv_tac.
  destruct (findResource id (rv_pool v)) as [i|] eqn:Hn.
  { rv_tac. apply hoare_rv_ret. by constructor. }
  apply hoare_rv_submit; [intros resp Hr|intros r resp Hr].
  2: { apply is_success_false in Hr. cbn [fst]. rewrite Hr. cbn [negb orb]. rv_tac.
       apply hoare_rv_ret. apply is_success_false in Hr. by constructor. }
  cbn [fst snd]. rewrite Hr, Z.eqb_refl. cbn [negb orb].
  change (negb (is_success kIOReturnSuccess)) with false. cbn [orb].
  set (v1 := set_host (cmd_effect _ _) v).
  assert (Hu : forall r, r <> kIOReturnSuccess ->
    create_outcome false id (slot_2d f w h (bool_decide (b = None))) v r v1).
  { intros r Hne. apply co_untracked; [by right|done|cbn; set_solver|cbn; set_solver]. }
  destruct b as [d|]; rv_tac;
    (match goal with |- context [match ?o with None => _ | Some _ => _ end] =>
       destruct o as [d'|]; [|rv_tac; apply hoare_rv_ret; by apply Hu] end);
    rv_tac;
    (match goal with |- context [is_success ?a] => destruct (is_success a) eqn:Ea; cbn [negb] end;
       [|rv_tac; apply hoare_rv_ret; apply Hu; by apply is_success_false]);
    rv_tac; destruct (find_free (rv_pool v1)) as [i|] eqn:Hi; rv_tac;
    (apply hoare_rv_submit; intros; rv_tac; apply hoare_rv_ret;
       (apply (co_untracked false id _ v); [by right|exact Hn|cbn; set_solver|cbn; set_solver]))
    || (apply hoare_rv_ret; apply (co_stored false id _ v i); [done|done|done|];
        unfold slot_2d; cbn; split_and!; try done; by split; try intros []).
Qed.

Lemma createResource3D_outcome id t f b w h d v :
  hoare (fun w => rv w = v) (createResource3D id t f b w h d) (fun r w' =>
    create_outcome true id (fun s => r_is_3d s = true /\ r_backing_memory s = None) v r (rv w')).
Proof.
  unfold createResource3D. rv_tac. goal_case; [apply hoare_rv_ret; by constructor|].
  rv_tac. destruct (findResource id (rv_pool v)) as [i|] eqn:Hn.
  { rv_tac. apply hoare_rv_ret. by constructor. }
  apply hoare_rv_submit; [intros resp Hr|intros r resp Hr].
  2: { apply is_success_false in Hr. cbn [fst]. rewrite Hr. cbn [andb]. rv_tac.
       apply hoare_rv_ret. apply is_success_false in Hr. by constructor. }
  cbn [fst snd]. rewrite Hr, Z.eqb_refl. change (is_success kIOReturnSuccess) with true. cbn [andb].
  set (v1 := set_host (cmd_effect _ _) v).
  eapply (hoare_bind _ _ _ (fun _ w' => create_outcome true id
    (fun s => r_is_3d s = true /\ r_backing_memory s = None) v kIOReturnSuccess (rv w'))).
  - rv_tac.
    match goal with |- context [match ?o with None => _ | Some _ => _ end] =>
      destruct o as [blk|] end.
    + rv_tac. destruct (find_free (rv_pool v1)) as [i|] eqn:Hi.
      * intros w0 Hw0. cbn beta. rewrite rv_store, Hw0. by apply (co_stored true id _ v i).
      * intros w0 Hw0. cbn [ret snd]. rewrite Hw0. apply (co_untracked true id _ v); [by left|exact Hn|cbn; set_solver|cbn; set_solver].
    + intros w0 Hw0. cbn [ret snd]. rewrite Hw0. apply (co_untracked true id _ v); [by left|exact Hn|cbn; set_solver|cbn; set_solver].
  - intros _. eapply hoare_bind; [|intros ?].
    + apply (keeps_preserves rv (fun v' => create_outcome true id _ v kIOReturnSuccess v')). keeps_tac.
    + by intros w0 Hw.
Qed.

(** What destroying a resource does: a refused command changes nothing; an
    accepted one empties the slot that tracked the id, if any. *)
Inductive destroy_outcome (id : Z) (v : rview) : IOReturn -> rview -> Prop :=
  | do_refused r : r <> kIOReturnSuccess -> destroy_outcome id v r v
  | do_unknown :
    index_of (fun s => r_resource_id s =? id) (rv_pool v) = None ->
    destroy_outcome id v kIOReturnSuccess (set_host (rv_host v ∖ {[ id ]}) v)
  | do_cleared i s s' :
    index_of (fun s => r_resource_id s =? id) (rv_pool v) = Some i ->
    rv_pool v !! i = Some s -> r_resource_id s = id ->
    r_resource_id s' = 0 -> r_backing_memory s' = None ->
    destroy_outcome id v kIOReturnSuccess
      (mk_rv (<[i := s']> (rv_pool v)) (rv_count v) (rv_host v ∖ {[ id ]})).

Lemma deallocateResource_outcome id v :
  hoare (fun w => rv w = v) (deallocateResource id) (fun r w' => destroy_outcome id v r (rv w')).
Proof.
  unfold deallocateResource. rv_tac.
  apply hoare_rv_submit; [intros resp Hr|intros r resp Hr]; cbn [fst].
  2: { apply is_success_false in Hr. rewrite Hr. rv_tac.
       apply hoare_rv_ret. apply is_success_false in Hr. by constructor. }
  change (is_success kIOReturnSuccess) with true. cbn iota.
  set (v1 := set_host (cmd_effect _ _) v).
  eapply (hoare_bind _ _ _ (fun _ w' => destroy_outcome id v kIOReturnSuccess (rv w'))).
  - rv_tac.
    destruct (index_of (fun s => r_resource_id s =? id) (rv_pool v1)) as [i|] eqn:Hi;
      [|intros w0 Hw0; cbn [ret snd]; rewrite Hw0; by apply do_unknown].
    destruct (index_of_Some _ _ _ Hi) as (s & Hs & Hid & _). apply Z.eqb_eq in Hid. rewrite Hs.
    apply hoare_rv; [keeps_tac|]. intros _. intros w0 Hw0. cbn beta.
    rewrite rv_set_slot, Hw0. by apply (do_cleared id v i s).
  - intros _. eapply hoare_bind; [|intros ?].
    + apply (keeps_preserves rv (fun v' => destroy_outcome id v kIOReturnSuccess v')). keeps_tac.
    + by intros w0 Hw.
Qed.

Lemma destroy_outcome_inv id v r v' :
  pool_inv v -> destroy_outcome id v r v' -> pool_inv v'.
Proof.
  intros Hv [r' Hr|Hi|i s s' Hi Hs Hid Hid' Hb]; [done| |].
  - destruct (decide (id = 0)) as [->|Hne].
    + destruct Hv as [H1 H2 H3 H4 H5]. constructor; try done. cbn. intros i id' Hl.
      pose proof (H5 i id' Hl). destruct Hl as [Hl _]. set_solver.
    + apply (set_host_inv _ v id); [done| |set_solver].
      apply index_of_None. intros i x Hx. apply (proj1 (index_of_None _ _) Hi) in Hx.
      by rewrite Hx, andb_false_r.
  - pose proof (clear_view_inv i s' v Hv Hid') as Hc. rewrite Hs in Hc. cbn in Hc.
    rewrite Hid in Hc. apply Hc. by apply lookup_lt_Some in Hs.
Qed.

(** ** The operations as one type *)
Inductive res_op :=
  | OpCreate2D (id format width height : Z) (backing : option mdesc)
  | OpCreate3D (id target format bind width height depth : Z)
  | OpAllocate3D (target format width height depth : Z)
  | OpAttach (id : Z) (backing : option mdesc)
  | OpDeallocate (id : Z)
  | OpProbe.

Definition do_op (o : res_op) : M (world T) unit :=
  match o with
  | OpCreate2D id f w h b => createResource2D id f w h b ;;; ret tt
  | OpCreate3D id t f b w h d => createResource3D id t f b w h d ;;; ret tt
  | OpAllocate3D t f w h d => allocateResource3D t f w h d ;;; ret tt
  | OpAttach id b => attachBacking id b ;;; ret tt
  | OpDeallocate id => deallocateResource id ;;; ret tt
  | OpProbe => probeResourceTracking ;;; ret tt
  end.

Definition pool_sound (w : world T) : Prop := pool_inv (rv w).

Lemma sound_keeps {A} (m : M (world T) A) : keeps rv m -> preserves pool_sound m.
Proof. intros Hm. exact (keeps_preserves rv pool_inv m Hm). Qed.
Lemma sound_create2D id f w h b : preserves pool_sound (createResource2D id f w h b).
Proof.
  intros w0 Hw. eapply create_outcome_inv; [exact Hw|].
  by apply (createResource2D_outcome id f w h b (rv w0)).
Qed.
Lemma sound_create3D id t f b w h d : preserves pool_sound (createResource3D id t f b w h d).
Proof.
  intros w0 Hw. eapply create_outcome_inv; [exact Hw|].
  by apply (createResource3D_outcome id t f b w h d (rv w0)).
Qed.
Lemma sound_deallocate id : preserves pool_sound (deallocateResource id).
Proof.
  intros w0 Hw. eapply destroy_outcome_inv; [exact Hw|].
  by apply (deallocateResource_outcome id (rv w0)).
Qed.
#[local] Hint Resolve sound_create2D sound_create3D sound_deallocate : drv.

Lemma sound_op o : preserves pool_sound (do_op o).
Proof.
  destruct o; cbn [do_op];
    unfold allocateResource3D, next_resource_id, probeResourceTracking;
    repeat first
      [ solve [auto with drv] | solve [apply sound_keeps; keeps_tac]
      | apply preserves_bind; [|intros ?] | goal_case ].
Qed.

End host.
#[export] Hint Resolve rv_upd_mem rv_IOMalloc rv_new_descriptor rv_attachBacking
  rv_lock_resources rv_unlock_resources : keeps.
#[export] Hint Extern 1 (keeps rv (upd_gpu _)) => apply rv_upd_gpu; reflexivity : keeps.
#[export] Hint Extern 1 (keeps rv (submit _ _)) =>
  apply rv_submit_neutral; [reflexivity|lia] : keeps.

(** * Lookup after the operations *)
Lemma findResource_live v i id :
  pool_inv v -> findResource id (rv_pool v) = Some i <-> live_at (rv_pool v) i id.
Proof.
  intros Hv. split; [apply findResource_Some|]. intros Hl.
  destruct (findResource id (rv_pool v)) as [j|] eqn:E.
  - f_equal. apply (pi_unique v Hv j i id); [by apply findResource_Some|done].
  - by destruct (findResource_None _ _ E i).
Qed.

Lemma findResource_ext v v' id :
  pool_inv v -> pool_inv v' -> (forall i, live_at (rv_pool v) i id <-> live_at (rv_pool v') i id) ->
  findResource id (rv_pool v') = findResource id (rv_pool v).
Proof.
  intros Hv Hv' H. destruct (findResource id (rv_pool v)) as [i|] eqn:E.
  - apply findResource_live; [done|]. apply H. by apply findResource_live.
  - destruct (findResource id (rv_pool v')) as [i|] eqn:E'; [|done].
    apply findResource_live in E'; [|done]. apply H in E'.
    by destruct (findResource_None _ _ E i).
Qed.

Lemma find_free_dead pool i id : find_free pool = Some i -> ~ live_at pool i id.
Proof.
  intros Hi [Hne Hl]. apply index_of_Some in Hi as (r & Hr & Hf & _).
  apply Z.eqb_eq in Hf. rewrite Hr in Hl. cbn in Hl. congruence.
Qed.

Lemma find_free_lt pool i : find_free pool = Some i -> (i < length pool)%nat.
Proof. intros Hi. apply index_of_Some in Hi as (r & Hr & _). by apply lookup_lt_Some in Hr. Qed.

(** A tracked creation is found by its id, in its slot, and the host has it. *)
Lemma create_outcome_success id P v v' :
  pool_inv v -> id <> 0 -> create_outcome false id P v kIOReturnSuccess v' ->
  exists i s, findResource id (rv_pool v') = Some i /\ rv_pool v' !! i = Some s
    /\ P s /\ id ∈ rv_host v'.
Proof.
  intros Hv Hid Ho. pose proof (create_outcome_inv _ _ _ _ _ _ Hv Ho) as Hv'.
  remember kIOReturnSuccess as r eqn:Er.
  destruct Ho as [r' Hr'|r' h [?|Hr'] Hn' Hsub Hsub'|i slot Hn' Hi Hid' Hp]; [done|done|done|].
  exists i, slot. pose proof (find_free_lt _ _ Hi) as Hlt. split_and!.
  - apply findResource_live; [done|]. cbn. apply live_at_insert; [done|]. left. by rewrite Hid'.
  - cbn. by apply list_lookup_insert_eq.
  - done.
  - cbn. set_solver.
Qed.

(** A creation leaves the live slots alone. *)
Lemma create_outcome_slot d3 id P v r v' i id' :
  create_outcome d3 id P v r v' -> live_at (rv_pool v) i id' -> rv_pool v' !! i = rv_pool v !! i.
Proof.
  intros [r' Hr'|r' h Hr' Hn' Hsub Hsub'|j slot Hn' Hj Hid' Hp] Hl; [done|done|].
  cbn. apply list_lookup_insert_ne. intros ->. by apply (find_free_dead _ _ id' Hj).
Qed.

(** Other ids are looked up as before. *)
Lemma create_outcome_other d3 id P v r v' id' :
  pool_inv v -> create_outcome d3 id P v r v' -> id' <> id ->
  findResource id' (rv_pool v') = findResource id' (rv_pool v).
Proof.
  intros Hv Ho Hne. pose proof (create_outcome_inv _ _ _ _ _ _ Hv Ho) as Hv'.
  destruct Ho as [r' Hr|r' h Hr Hn Hs Hs'|i slot Hn Hi Hid Hp]; [done|done|].
  apply findResource_ext; [done|done|]. intros j. cbn.
  rewrite live_at_insert by by apply find_free_lt.
  split.
  - intros Hl. right. split; [|done]. intros ->. by eapply find_free_dead.
  - intros [(-> & -> & _)|(_ & Hl)]; [congruence|done].
Qed.

Lemma destroy_outcome_other id v r v' id' :
  pool_inv v -> destroy_outcome id v r v' -> id' <> id ->
  findResource id' (rv_pool v') = findResource id' (rv_pool v).
Proof.
  intros Hv Ho Hne. pose proof (destroy_outcome_inv _ _ _ _ Hv Ho) as Hv'.
  destruct Ho as [r' Hr|Hi|i s s' Hi Hs Hid Hid' Hb]; [done|done|].
  apply findResource_ext; [done|done|]. intros j. cbn.
  rewrite live_at_insert by by apply lookup_lt_Some in Hs.
  split.
  - intros Hl. right. split; [|done]. intros ->. destruct Hl as [_ Hl].
    rewrite Hs in Hl. cbn in Hl. congruence.
  - intros [(-> & E & Hc)|(_ & Hl)]; [|done]. by rewrite Hid' in E.
Qed.

(** A destruction that is answered with success leaves the id unknown. *)
Lemma untracked_destroyed id v v' :
  pool_inv v -> destroy_outcome id v kIOReturnSuccess v' ->
  findResource id (rv_pool v') = None /\ id ∉ rv_host v'.
Proof.
  intros Hv Ho. remember kIOReturnSuccess as r eqn:Er. destruct Ho as [r' Hr|Hn|i s s' Hi Hs Hid Hid' Hb]; [done|..].
  - split; [|cbn; set_solver]. apply index_of_None. intros i x Hx.
    apply (proj1 (index_of_None _ _) Hn) in Hx. by rewrite Hx, andb_false_r.
  - split; [|cbn; set_solver]. cbn. apply index_of_None. intros j x Hx. apply andb_false_iff.
    destruct (Z.eqb_spec (r_resource_id x) 0) as [E|E]; [by left|]. right. apply Z.eqb_neq. intros Ex.
    apply list_lookup_insert_Some in Hx as [(<- & <- & _)|(Hne & Hx)]; [congruence|].
    apply Hne. apply (pi_unique _ Hv i j id); (split; [congruence|]); [by rewrite Hs; cbn; congruence|by rewrite Hx; cbn; congruence].
Qed.

(** C6: a duplicate id is rejected before anything is sent; a creation that
    succeeds is found by its id, in a slot with the requested attributes that
    owns its backing exactly when the driver allocated it, and the host has
    the resource; no other id is affected, whatever the outcome. *)
Theorem createResource2D_correct T `{Host T} id f wd ht b (w : world T) :
  pool_sound w -> id <> 0 ->
  let '(r, w') := createResource2D id f wd ht b w in
  (findResource id (g_pool (w_gpu w)) <> None -> r = kIOReturnBadArgument /\ w_tr w' = w_tr w) /\
  (r = kIOReturnSuccess ->
     exists i s, findResource id (g_pool (w_gpu w')) = Some i /\ g_pool (w_gpu w') !! i = Some s
        /\ slot_2d f wd ht (bool_decide (b = None)) s /\ id ∈ host_ids (w_tr w')) /\
  (forall id', id' <> id ->
     findResource id' (g_pool (w_gpu w')) = findResource id' (g_pool (w_gpu w))).
Proof.
  intros Hs Hid. pose proof (createResource2D_outcome id f wd ht b (rv w) w eq_refl) as Ho.
  assert (Hdup : findResource id (g_pool (w_gpu w)) <> None ->
    createResource2D id f wd ht b w = (kIOReturnBadArgument,
      (unlock_resources (lock_resources w).2).2)).
  { intros Hd. unfold createResource2D, bind, get_gpu, gets. cbn -[findResource].
    destruct (findResource id (g_pool (w_gpu w))); [done|]. by destruct Hd. }
  destruct (createResource2D id f wd ht b w) as [r w'] eqn:E. cbn [fst snd] in Ho.
  split; [|split].
  - intros Hd. specialize (Hdup Hd). simplify_eq. done.
  - intros ->. exact (create_outcome_success id _ (rv w) (rv w') Hs Hid Ho).
  - intros id' Hne. by apply (create_outcome_other _ id _ (rv w) r (rv w') id' Hs Ho).
Qed.

(** [deallocateResource] submits one command, the unref of the id, and answers
    its status. *)
Lemma deallocateResource_asks {T} `{Transport T} id (w : world T) :
  let '(r, t) := submit_cmd (CmdUnref (hdr_of VIRTIO_GPU_CMD_RESOURCE_UNREF) id 0) 24 (w_tr w) in
  (deallocateResource id w).1 = r.1 /\ w_tr (deallocateResource id w).2 = t.
Proof.
  unfold deallocateResource, bind, submit, ret. cbn [w_tr lock_resources upd_gpu modify].
  cbn -[submit_cmd hdr_of]. destruct (submit_cmd _ 24 (w_tr w)) as [[r resp] t]. cbn -[index_of].
  destruct (is_success r); [|done]. cbn -[index_of].
  destruct (index_of _ (g_pool (w_gpu w))) as [i|]; cbn; [|done]. destruct (g_pool (w_gpu w) !! i) as [s|]; cbn; [|done].
  by destruct (r_backing_memory s).
Qed.

(** C8: [deallocateResource] always asks the host: it submits exactly one
    command, the unref of the id, and answers its status. When the host agrees,
    the id is no longer found and the host no longer has it; otherwise nothing
    changes; no other id is affected. The pool is sound before, and the host is any
    that executes what it acknowledges. *)
Theorem deallocateResource_correct T `{Host T} id (w : world T) :
  pool_sound w ->
  let '(r, w') := deallocateResource id w in
  (let '(a, t) := submit_cmd (CmdUnref (hdr_of VIRTIO_GPU_CMD_RESOURCE_UNREF) id 0) 24 (w_tr w) in
   r = a.1 /\ w_tr w' = t) /\
  (r = kIOReturnSuccess ->
     findResource id (g_pool (w_gpu w')) = None /\ id ∉ host_ids (w_tr w')) /\
  (r <> kIOReturnSuccess -> rv w' = rv w) /\
  (forall id', id' <> id ->
     findResource id' (g_pool (w_gpu w')) = findResource id' (g_pool (w_gpu w))).
Proof.
  intros Hs. pose proof (deallocateResource_outcome id (rv w) w eq_refl) as Ho.
  pose proof (deallocateResource_asks id w) as Hq.
  destruct (deallocateResource id w) as [r w']. cbn [fst snd] in Ho, Hq.
  split_and!; [exact Hq| | |].
  - intros ->. exact (untracked_destroyed id (rv w) (rv w') Hs Ho).
  - by destruct Ho.
  - intros id' Hne. by apply (destroy_outcome_other id (rv w) r (rv w') id' Hs Ho).
Qed.

Lemma lock_safe_keeps {T} {A} (m : M (world T) A) :
  keeps (fun w => locks (w_gpu w)) m -> lock_safe m.
Proof. intros Hm. by apply hoare_keeps_locks. Qed.

Lemma probeResourceTracking_locks {T} `{Transport T} : lock_safe (T := T) probeResourceTracking.
Proof.
  unfold probeResourceTracking.
  apply lock_safe_bind; [apply createResource2D_locks|intros r1].
  goal_case; [lock_tac|].
  apply lock_safe_bind; [apply createResource2D_locks|intros r2].
  goal_case; (apply lock_safe_bind; [apply deallocateResource_locks|intros r3]); lock_tac.
Qed.

Lemma do_op_locks {T} `{Transport T} o : lock_safe (T := T) (do_op o).
Proof.
  destruct o; cbn [do_op]; (apply lock_safe_bind; [|intros ?; by apply lock_safe_keeps, keeps_ret]).
  - apply createResource2D_locks.
  - apply createResource3D_locks.
  - unfold allocateResource3D, next_resource_id.
    apply lock_safe_bind; [apply lock_safe_keeps; keeps_tac|intros ?].
    apply lock_safe_bind; [apply createResource3D_locks|intros ?]. by apply lock_safe_keeps, keeps_ret.
  - apply lock_safe_keeps. keeps_tac.
  - apply deallocateResource_locks.
  - apply probeResourceTracking_locks.
Qed.

(** * Memory *)
(** What a method leaves to the memory system: heap bytes, and the prepares
    and references of each descriptor. *)
Definition mem_of {T} (w : world T) (id : Z) : Z * Z * Z :=
  (m_heap (w_mem w), count id (m_prep (w_mem w)), count id (m_refs (w_mem w))).

Lemma count_bump d id id' m :
  count id' (bump d id m) = count id' m + (if decide (id' = id) then d else 0).
Proof. case_decide; [subst; by rewrite count_bump_eq|rewrite count_bump_ne by done; lia]. Qed.

Lemma mem_submit_eq {T} `{Transport T} c n (w : world T) : w_mem (submit c n w).2 = w_mem w.
Proof. exact (keeps_eq (fun w => w_mem w) _ w (mem_submit (fun m => m) c n)). Qed.

(** [attachBacking] frees its command block and completes every prepare
    it made, on every path and over every transport. *)
Theorem attachBacking_balanced T `{Transport T} res d (w : world T) id :
  mem_of (attachBacking res d w).2 id = mem_of w id.
Proof.
  unfold attachBacking, bind, get_gpu, gets.
  destruct (negb _); [done|]. destruct d as [d|]; [|done].
  unfold prepare at 1, bind. destruct (is_success (md_prepare d)) eqn:Ep.
  2: { cbn. by rewrite Ep. }
  cbn -[walk_segs]. rewrite Ep. cbn -[walk_segs].
  destruct (_ || _).
  { unfold mem_of. cbn. rewrite !count_bump. repeat f_equal. case_decide; lia. }
  unfold IOMalloc. cbn -[walk_segs].
  destruct (m_mallocs (w_mem w)) as [|[g|] l]; cbn -[walk_segs].
  1,3: unfold mem_of; cbn; rewrite !count_bump; repeat f_equal; case_decide; lia.
  match goal with |- context [submit ?c ?n ?w0] =>
    pose proof (mem_submit_eq c n w0) as Hm; destruct (submit c n w0) as [r w1] end.
  cbn -[walk_segs] in Hm |- *. unfold mem_of. cbn -[walk_segs]. rewrite Hm.
  cbn -[walk_segs]. rewrite !count_bump. repeat f_equal; [lia|case_decide; lia].
Qed.

(** A scatter list whose addresses and lengths fit their fields. *)
Definition segs_fit (segs : list (Z * Z)) : Prop :=
  Forall (fun s => 0 <= s.1 < 2 ^ 64 /\ 0 <= s.2 < 2 ^ 32) segs.

Lemma attach_entries_exact segs :
  segs_fit segs -> (fun e => (me_addr e, me_length e)) <$> (seg_entry <$> segs) = segs.
Proof.
  induction 1 as [|[a n] segs [_ Hs] _ IH]; [done|]. cbn in *. by rewrite u32_small, IH by lia.
Qed.

Lemma attach_decodes g res segs :
  0 <= res < 2 ^ 32 -> Z.of_nat (length segs) < 2 ^ 32 -> segs_fit segs ->
  let c := CmdAttach (mk_hdr VIRTIO_GPU_CMD_RESOURCE_ATTACH_BACKING 0 0 0 (garb g 20) (garb24 g 21))
             res (Z.of_nat (length segs)) (seg_entry <$> segs) in
  decode (encode c) = Some c.
Proof.
  intros Hres Hn Hsegs. apply decode_encode_lemma. split.
  - unfold cmd_fields. apply Forall_app. split.
    + repeat (apply Forall_cons; split); try apply Forall_nil;
        first [apply garb_range | apply garb24_range | by split].
    + repeat (apply Forall_cons; split); try apply Forall_nil; unfold field_ok; cbn; lia.
  - cbn. rewrite length_fmap. split_and!; [done|done|].
    clear -Hsegs. induction Hsegs as [|[a n] segs [Ha Hs] _ IH]; [done|].
    cbn [fmap list_fmap mbind list_bind]. apply Forall_app. split; [|exact IH].
    repeat (apply Forall_cons; split); try apply Forall_nil; unfold field_ok; cbn in *; try lia.
    pose proof (u32_range n). lia.
Qed.

(** The scatter list describes exactly the segments of the backing: as
    many entries as segments, in order, with their addresses and lengths, and
    the whole command is one [decode] reads back. *)
Theorem attachBacking_command T `{Transport T} res d (w : world T) g l :
  g_pci_device (w_gpu w) = true -> g_control_queue (w_gpu w) = true ->
  md_prepare d = kIOReturnSuccess -> m_mallocs (w_mem w) = Some g :: l ->
  let segs := walk_segs (md_segs d) in
  0 < Z.of_nat (length segs) < 2 ^ 32 -> 0 < total_length segs -> 0 <= res < 2 ^ 32 ->
  Forall (fun s => 0 <= s.1 < 2 ^ 64 /\ 0 <= s.2 < 2 ^ 32) segs ->
  exists h, let c := CmdAttach h res (Z.of_nat (length segs)) (seg_entry <$> segs) in
    (fun e => (me_addr e, me_length e)) <$> (seg_entry <$> segs) = segs
    /\ decode (encode c) = Some c
    /\ w_tr (attachBacking res (Some d) w).2 = (submit_cmd c 24 (w_tr w)).2
    /\ (attachBacking res (Some d) w).1 = (submit_cmd c 24 (w_tr w)).1.1.
Proof.
  intros Hp Hq Hprep Hm segs Hn Htl Hres Hsegs.
  exists (mk_hdr VIRTIO_GPU_CMD_RESOURCE_ATTACH_BACKING 0 0 0 (garb g 20) (garb24 g 21)). cbn zeta.
  split; [by apply attach_entries_exact|split; [by apply attach_decodes; [done|lia|]|]].
  unfold attachBacking, bind, get_gpu, gets. rewrite Hp, Hq. cbn [negb andb].
  unfold prepare, bind. rewrite Hprep. change (is_success kIOReturnSuccess) with true.
  cbn -[walk_segs]. fold segs. rewrite u32_small by lia.
  rewrite (proj2 (Z.eqb_neq (Z.of_nat (length segs)) 0)) by lia.
  rewrite (proj2 (Z.eqb_neq (total_length segs) 0)) by lia. cbn [orb].
  unfold IOMalloc. cbn -[walk_segs]. change (is_success kIOReturnSuccess) with true. cbn -[walk_segs]. rewrite Hm. cbn -[walk_segs].
  rewrite Nat2Z.id, take_ge by done. unfold submit. cbn -[walk_segs].
  by destruct (submit_cmd _ 24 (w_tr w)) as [[r resp] t].
Qed.

(** * The probe, and guest memory *)
(** Over a conforming host the probe's own assertions hold: once its
    first creation succeeded, the duplicate is rejected, and after a
    successful destruction the id is not found; phases B and D cannot fail. *)
Theorem probeResourceTracking_asserts T `{Host T} (w : world T) :
  pool_sound w ->
  match (probeResourceTracking w).1 with
  | ProbePass | ProbeFailA _ | ProbeFailC _ => True
  | ProbeFailB _ | ProbeFailD => False
  end.
Proof.
  intros Hs. unfold probeResourceTracking, bind at 1.
  pose proof (createResource2D_outcome PROBE_ID 1 1 1 None (rv w) w eq_refl) as Ho.
  destruct (createResource2D PROBE_ID 1 1 1 None w) as [r1 w1]. cbn [fst snd] in Ho.
  destruct (is_success r1) eqn:E1; cbn [negb]; [|done]. apply is_success_true in E1. subst r1.
  pose proof (create_outcome_inv _ _ _ _ _ _ Hs Ho) as Hs1.
  assert (Hf : exists i, findResource PROBE_ID (g_pool (w_gpu w1)) = Some i).
  { remember (rv w1) as v1 eqn:Ev. remember kIOReturnSuccess as r1 eqn:Er.
    destruct Ho as [r' Hr'|r' h [?|Hr'] Hn' Hsub Hsub'|i slot Hn' Hi Hid' Hp]; [done|done|done|].
    exists i. rewrite Ev in Hs1. apply (findResource_live _ _ _ Hs1). rewrite <- Ev. cbn.
    apply live_at_insert; [by apply find_free_lt|]. left. by rewrite Hid'. }
  destruct Hf as [i Hf]. unfold bind at 1.
  assert (Hdup : createResource2D PROBE_ID 1 1 1 None w1 =
    (kIOReturnBadArgument, (unlock_resources (lock_resources w1).2).2)).
  { unfold createResource2D, bind, get_gpu, gets. cbn -[findResource]. by rewrite Hf. }
  rewrite Hdup, bool_decide_eq_true_2 by done. cbn [negb].
  set (w2 := (unlock_resources (lock_resources w1).2).2).
  assert (Hs2 : pool_inv (rv w2)) by exact Hs1.
  unfold bind at 1.
  pose proof (deallocateResource_outcome PROBE_ID (rv w2) w2 eq_refl) as Hd.
  destruct (deallocateResource PROBE_ID w2) as [r3 w3]. cbn [fst snd] in Hd.
  destruct (is_success r3) eqn:E3; cbn [negb]; [|done]. apply is_success_true in E3. subst r3.
  pose proof (proj1 (untracked_destroyed PROBE_ID (rv w2) (rv w3) Hs2 Hd)) as Hn.
  cbn -[findResource] in Hn |- *. by rewrite Hn.
Qed.

Definition pool_view (g : gpu) : list gpu_resource * Z := (g_pool g, g_resource_count g).

(** [mapGuestMemory] never writes over a live slot of a sound pool. *)
Theorem mapGuestMemory_keeps_live T `{Host T} d (w : world T) i id :
  pool_sound w -> live_at (g_pool (w_gpu w)) i id ->
  g_pool (w_gpu (mapGuestMemory d w).2) !! i = g_pool (w_gpu w) !! i.
Proof.
  intros Hs Hl. pose proof (pi_water _ Hs i id Hl) as Hi. cbn in Hi.
  assert (Hh : hoare (fun w' => g_pool (w_gpu w') = g_pool (w_gpu w) /\
      g_resource_count (w_gpu w') = g_resource_count (w_gpu w)) (mapGuestMemory d)
    (fun _ w' => g_pool (w_gpu w') !! i = g_pool (w_gpu w) !! i)).
  { set (P := fun w' => g_pool (w_gpu w') = _ /\ _).
    assert (Hk : forall A (m : M (world T) A),
      keeps (fun w => pool_view (w_gpu w)) m -> preserves P m).
    { intros A m Hm. exact (keeps_preserves _ (fun pc => pc.1 = g_pool (w_gpu w) /\
        pc.2 = g_resource_count (w_gpu w)) m Hm). }
    assert (Hr : forall A (a : A), hoare P (ret a) (fun _ w' => g_pool (w_gpu w') !! i = g_pool (w_gpu w) !! i)).
    { intros A a w' [Hw _]. cbn. by rewrite Hw. }
    unfold mapGuestMemory, next_resource_id.
    repeat first
      [ apply Hr | goal_case
      | eapply hoare_bind; [solve [apply Hk; unfold lock_resources, unlock_resources; keeps_tac]
                           |intros ?] ].
    intros w' [Hp Hc]. cbn. rewrite Hc. case_match; cbn; rewrite Hp; [|done].
    apply list_lookup_insert_ne. lia. }
  by apply Hh.
Qed.

(** * Concrete worlds *)
Definition demo_desc (id : Z) : mdesc := mk_mdesc id 4096 kIOReturnSuccess [(0x8000, 4096)].
Definition empty_pool : list gpu_resource := replicate POOL_SIZE free_slot.
Definition demo_gpu : gpu :=
  mk_gpu true true 1 2 0 false empty_pool 0 1 0x100 0 [] 1 None Unlocked Unlocked.
Definition demo_mem : mem :=
  mk_mem (Some <$> [demo_desc 1; demo_desc 2]) (replicate 8 (Some [])) 0 ∅ ∅ 0.
Definition demo_world (refuse : list bool) : world host_machine :=
  mk_world demo_gpu demo_mem (mk_host ∅ refuse []).

Lemma empty_pool_dead i id : ~ live_at empty_pool i id.
Proof.
  intros [Hne Hl]. apply fmap_Some in Hl as (r & Hr & ->).
  apply lookup_replicate in Hr as [-> _]. done.
Qed.

Lemma demo_world_sound refuse : pool_sound (demo_world refuse).
Proof.
  constructor; cbn.
  - done.
  - unfold POOL_SIZE. lia.
  - intros i id Hl. by destruct (empty_pool_dead i id).
  - intros i j id Hl. by destruct (empty_pool_dead i id).
  - intros i id Hl. by destruct (empty_pool_dead i id).
Qed.

Lemma createResource2D_correct_witness :
  exists i s, findResource 5 (g_pool (w_gpu (createResource2D 5 1 4 3 None (demo_world [])).2)) = Some i
    /\ g_pool (w_gpu (createResource2D 5 1 4 3 None (demo_world [])).2) !! i = Some s
    /\ slot_2d 1 4 3 true s.
Proof.
  pose proof (createResource2D_correct host_machine 5 1 4 3 None (demo_world []) (demo_world_sound [])
    ltac:(discriminate)) as H.
  destruct (createResource2D 5 1 4 3 None (demo_world [])) as [r w'] eqn:E.
  destruct H as (_ & H & _). destruct (H ltac:(vm_compute in E; congruence)) as (i & s & H1 & H2 & H3 & _).
  exists i, s. split; [exact H1|split; [exact H2|exact H3]].
Defined.

Lemma deallocateResource_correct_witness :
  let w := (createResource2D 5 1 4 3 None (demo_world [])).2 in
  findResource 5 (g_pool (w_gpu (deallocateResource 5 w).2)) = None.
Proof.
  intros w.
  pose proof (deallocateResource_correct host_machine 5 w
    (sound_create2D 5 1 4 3 None _ (demo_world_sound []))) as H.
  destruct (deallocateResource 5 w) as [r w'] eqn:E.
  destruct H as (_ & H & _). apply H. vm_compute in E. congruence.
Defined.

Lemma attachBacking_command_witness :
  exists h, let c := CmdAttach h 5 1 [mk_mem_entry 0x8000 4096 0] in
    decode (encode c) = Some c /\ hm_sent (w_tr (attachBacking 5 (Some (demo_desc 1)) (demo_world [])).2) = [c].
Proof.
  assert (Hseg : Forall (fun s => 0 <= s.1 < 2 ^ 64 /\ 0 <= s.2 < 2 ^ 32)
    (walk_segs (md_segs (demo_desc 1)))).
  { change (walk_segs (md_segs (demo_desc 1))) with [(0x8000, 4096)].
    apply Forall_cons; split; [cbn; lia|apply Forall_nil; exact I]. }
  destruct (attachBacking_command host_machine 5 (demo_desc 1) (demo_world []) [] (replicate 7 (Some []))
    eq_refl eq_refl eq_refl eq_refl ltac:(split; reflexivity) ltac:(reflexivity) ltac:(lia) Hseg)
    as (h & _ & H2 & H3 & _).
  exists h. split; [exact H2|]. rewrite H3. reflexivity.
Defined.

Lemma probeResourceTracking_asserts_witness :
  match (probeResourceTracking (demo_world [false; false; true])).1 with
  | ProbeFailC r => r = kIOReturnError
  | _ => False
  end.
Proof.
  pose proof (probeResourceTracking_asserts host_machine (demo_world [false; false; true])
    (demo_world_sound _)) as H.
  vm_compute in H |- *. destruct H. reflexivity.
Defined.

Lemma mapGuestMemory_keeps_live_witness :
  let w := (createResource2D 5 1 4 3 None (demo_world [])).2 in
  g_pool (w_gpu (mapGuestMemory (Some (demo_desc 2)) w).2) !! 0%nat = g_pool (w_gpu w) !! 0%nat.
Proof.
  intros w. apply (mapGuestMemory_keeps_live host_machine (Some (demo_desc 2)) w 0 5).
  - exact (sound_create2D 5 1 4 3 None _ (demo_world_sound [])).
  - split; [discriminate|]. vm_compute. reflexivity.
Defined.

(** ** What the code does that it does not mean to *)
(** When the host refuses the backing of a resource whose memory the
    driver allocated, the descriptor is completed once more than it was
    prepared, and the host keeps a resource the pool does not track. *)
Theorem createResource2D_failed_attach :
  let '(r, w') := createResource2D 5 1 4 3 None (demo_world [false; true]) in
  r = kIOReturnError /\ count 1 (m_prep (w_mem w')) = -1 /\ count 1 (m_refs (w_mem w')) = 0
  /\ findResource 5 (g_pool (w_gpu w')) = None /\ 5 ∈ host_ids (w_tr w').
Proof. vm_compute. split_and!; reflexivity. Qed.

(** [mapGuestMemory] reports success for an attachment the host cannot
    have made: the resource id was never created there, the command announces
    one entry and carries none, and the memory stays prepared when the
    resource is later destroyed. *)
Theorem mapGuestMemory_attaches_nothing :
  let '((r, addr), w1) := mapGuestMemory (Some (demo_desc 2)) (demo_world []) in
  let '(r2, w2) := deallocateResource 2 w1 in
  r = kIOReturnSuccess /\ addr = 0x8000
  /\ findResource 2 (g_pool (w_gpu w1)) = Some 0%nat /\ host_ids (w_tr w1) = ∅
  /\ (decode ∘ encode <$> hm_sent (w_tr w1)) = [None]
  /\ r2 = kIOReturnSuccess /\ count 2 (m_prep (w_mem w2)) = 1.
Proof. vm_compute. split_and!; reflexivity. Qed.

(** [createResource3D] never returns the 32 bytes it allocates to fill a
    pool slot. *)
Theorem createResource3D_leaks :
  let '(r1, w1) := createResource3D 5 2 1 0 4 4 1 (demo_world []) in
  let '(r2, w2) := deallocateResource 5 w1 in
  r1 = kIOReturnSuccess /\ r2 = kIOReturnSuccess
  /\ m_heap (w_mem w2) = m_heap (w_mem (demo_world [])) + SIZEOF_GPU_RESOURCE.
Proof. vm_compute. split_and!; reflexivity. Qed.
