(* ===== verification/Tracking.v ===== *)
(** Following one resource: [tracked id P] says that the pool finds [id], in a
    slot with the property [P], and that the host has it; the operations of
    [Resources.v] on other ids leave it so. *)
From S2P Require Import Prelude Wire Transport Driver Resources.

Definition tracked (id : Z) (P : gpu_resource -> Prop) (v : rview) : Prop :=
  exists i s, findResource id (rv_pool v) = Some i /\ rv_pool v !! i = Some s /\ P s /\ id ∈ rv_host v.

Lemma tracked_impl id (P Q : gpu_resource -> Prop) v :
  (forall s, P s -> Q s) -> tracked id P v -> tracked id Q v.
Proof. intros HPQ (i & s & H1 & H2 & H3 & H4). exists i, s. split_and!; auto. Qed.

Lemma tracked_created id P v v' :
  pool_inv v -> id <> 0 -> create_outcome false id P v kIOReturnSuccess v' -> tracked id P v'.
Proof. intros Hv Hid Ho. exact (create_outcome_success id P v v' Hv Hid Ho). Qed.

Lemma tracked_create_other d3 id P v r v' id' Q :
  pool_inv v -> create_outcome d3 id P v r v' -> id' <> id -> tracked id' Q v -> tracked id' Q v'.
Proof.
  intros Hv Ho Hne (i & s & Hf & Hi & HQ & Hh). exists i, s. split_and!.
  - rewrite <- Hf. by apply (create_outcome_other _ _ _ _ _ _ _ Hv Ho).
  - rewrite <- Hi. apply (create_outcome_slot _ _ _ _ _ _ i id' Ho). by apply findResource_Some in Hf.
  - done.
  - destruct Ho as [r' Hr'|r' h Hr' Hn' Hsub Hsub'|j slot Hn' Hj Hid' Hp]; cbn; [done| |set_solver].
    apply Hsub, elem_of_difference. split; [done|]. by rewrite elem_of_singleton.
Qed.

Lemma tracked_destroy_other id v r v' id' Q :
  pool_inv v -> destroy_outcome id v r v' -> id' <> id -> tracked id' Q v -> tracked id' Q v'.
Proof.
  intros Hv Ho Hne (i & s & Hf & Hi & HQ & Hh). exists i, s. split_and!.
  - rewrite <- Hf. by apply (destroy_outcome_other _ _ _ _ _ Hv Ho).
  - rewrite <- Hi. destruct Ho as [r' Hr|Hn|j s0 s' Hj Hs Hid Hid' Hb]; [done|done|].
    cbn. apply list_lookup_insert_ne. intros ->. rewrite Hs in Hi. injection Hi as ->.
    apply findResource_Some in Hf as [_ Hl]. rewrite Hs in Hl. cbn in Hl. congruence.
  - done.
  - destruct Ho; cbn; [done|set_solver|set_solver].
Qed.

Section tracking.
Context {T : Type} `{Host T}.

Definition tracks (id : Z) (P : gpu_resource -> Prop) (w : world T) : Prop := tracked id P (rv w).

Lemma tracks_keeps {A} id P (m : M (world T) A) w : keeps rv m -> tracks id P w -> tracks id P (m w).2.
Proof. intros Hm Hw. unfold tracks. by rewrite (keeps_eq rv m w Hm). Qed.

Lemma tracks_create2D id P id' f wd ht b w :
  pool_sound w -> id <> id' -> tracks id P w -> tracks id P (createResource2D id' f wd ht b w).2.
Proof.
  intros Hs Hne Hw. pose proof (createResource2D_outcome id' f wd ht b (rv w) w eq_refl) as Ho.
  exact (tracked_create_other _ _ _ _ _ _ id P Hs Ho Hne Hw).
Qed.
Lemma tracks_create3D id P id' t f b wd ht d w :
  pool_sound w -> id <> id' -> tracks id P w -> tracks id P (createResource3D id' t f b wd ht d w).2.
Proof.
  intros Hs Hne Hw. pose proof (createResource3D_outcome id' t f b wd ht d (rv w) w eq_refl) as Ho.
  exact (tracked_create_other _ _ _ _ _ _ id P Hs Ho Hne Hw).
Qed.
Lemma tracks_deallocate id P id' w :
  pool_sound w -> id <> id' -> tracks id P w -> tracks id P (deallocateResource id' w).2.
Proof.
  intros Hs Hne Hw. pose proof (deallocateResource_outcome id' (rv w) w eq_refl) as Ho.
  exact (tracked_destroy_other _ _ _ _ id P Hs Ho Hne Hw).
Qed.
Lemma tracks_created id f wd ht b w :
  pool_sound w -> id <> 0 -> (createResource2D id f wd ht b w).1 = kIOReturnSuccess ->
  tracks id (slot_2d f wd ht (bool_decide (b = None))) (createResource2D id f wd ht b w).2.
Proof.
  intros Hs Hid Hr. pose proof (createResource2D_outcome id f wd ht b (rv w) w eq_refl) as Ho.
  rewrite Hr in Ho. exact (tracked_created _ _ _ _ Hs Hid Ho).
Qed.
End tracking.
