(* ===== verification/Display.v ===== *)
(** Contexts, display and transfers: the operations of [VMVirtIOGPU] between
    the resource pool and the framebuffer or the user client
    ([FB/VMVirtIOGPU.cpp]). Each builds one command or a short sequence of
    them; they differ in what they check before they send, and in how they
    fill the header. *)
From S2P Require Import Prelude Wire Transport Driver Resources Tracking.

Definition VIRGL_TARGET_2D : Z := 2.
Definition VIRGL_BIND_DEPTH_STENCIL : Z := Z.shiftl 1 0.
Definition VIRGL_BIND_RENDER_TARGET : Z := Z.shiftl 1 1.
Definition VIRTIO_GPU_FEATURE_VIRGL : Z := Z.shiftl 1 0.
Definition VIRTIO_GPU_FEATURE_RESOURCE_BLOB : Z := Z.shiftl 1 3.
Definition VIRTIO_GPU_FEATURE_CONTEXT_INIT : Z := Z.shiftl 1 4.
Definition VIRTIO_GPU_FEATURE_3D : Z := VIRTIO_GPU_FEATURE_VIRGL.

(** * Decimal text
    The ["%d"] of [snprintf]: the characters of a 32-bit value read as signed. *)
Fixpoint digits (fuel : nat) (n : Z) (acc : list Z) : list Z :=
  match fuel with
  | O => acc
  | S k => let acc' := (48 + n mod 10) :: acc in
           if n / 10 =? 0 then acc' else digits k (n / 10) acc'
  end.
Definition show_int32 (n : Z) : list Z :=
  if n <? 2 ^ 31 then digits 10 n [] else 45 :: digits 10 (2 ^ 32 - n) [].

(** ["macOS_3D_ctx_"] *)
Definition ctx_prefix : list Z := [109; 97; 99; 79; 83; 95; 51; 68; 95; 99; 116; 120; 95].
Definition pad_name (s : list Z) : list Z := s ++ replicate (64 - length s) 0.

(** An [IOMemoryDescriptor] of 3D commands: whether it maps, whether the
    mapping has an address, and its bytes. *)
Record cmd_desc := mk_cmd_desc { cd_maps : bool; cd_address : bool; cd_data : list Z }.

Section display.
Context {T : Type} `{Transport T}.
Abbreviation W := (world T).

Definition supports3D : M W bool := get_gpu (fun g => 0 <? g_num_capsets g).
Definition ready : M W bool := get_gpu (fun g => g_pci_device g && g_control_queue g).

(** ** Headers *)
Definition initializeCommandHeader (cmd_type ctx_id : Z) (use_fence : bool)
  : M W virtio_gpu_ctrl_hdr :=
  let! fence_id :=
    (if use_fence then
       upd_gpu (fun g => set_g_fence_id (u64 (g_fence_id g + 1)) g) ;;; get_gpu g_fence_id
     else ret 0) in
  let flags := if use_fence then Z.lor VIRTIO_GPU_FLAG_INFO_RING_IDX VIRTIO_GPU_FLAG_FENCE
               else VIRTIO_GPU_FLAG_INFO_RING_IDX in
  let ring_idx := if (cmd_type =? VIRTIO_GPU_CMD_UPDATE_CURSOR)
                     || (cmd_type =? VIRTIO_GPU_CMD_MOVE_CURSOR) then 1 else 0 in
  ret (mk_hdr cmd_type flags fence_id ctx_id ring_idx 0).

(** ** 3D contexts: the status and the id written to the caller *)
Definition createRenderContext : M W (IOReturn * Z) :=
  let! three_d := supports3D in
  if negb three_d then ret (kIOReturnBadArgument, 0)
  else
    lock_contexts ;;;
    upd_gpu (fun g => set_g_next_context_id (u32 (g_next_context_id g + 1)) g) ;;;
    let! context_id := get_gpu g_next_context_id in
    let! hdr := initializeCommandHeader VIRTIO_GPU_CMD_CTX_CREATE context_id false in
    let name := ctx_prefix ++ show_int32 context_id in
    let! r := submit (CmdCtxCreate hdr (Z.of_nat (length name)) 0 (pad_name name)) 24 in
    unlock_contexts ;;;
    ret (r.1, context_id).

Definition create3DContext : M W (IOReturn * Z) := createRenderContext.

Definition destroy3DContext (context_id : Z) : M W IOReturn :=
  let! three_d := supports3D in
  if negb three_d then ret kIOReturnBadArgument
  else if context_id =? 0 then ret kIOReturnBadArgument
  else
    lock_contexts ;;;
    let! hdr := initializeCommandHeader VIRTIO_GPU_CMD_CTX_DESTROY context_id false in
    let! r := submit (CmdCtxDestroy hdr) 24 in
    unlock_contexts ;;;
    ret r.1.

(** An entry of the table of contexts is reduced to its id: nothing creates
    entries, and nothing else of one is read. *)
Definition findContext (context_id : Z) (contexts : list Z) : option nat :=
  index_of (fun c => c =? context_id) contexts.

Definition destroyRenderContext (context_id : Z) : M W IOReturn :=
  let! three_d := supports3D in
  if negb three_d then ret kIOReturnUnsupported
  else
    lock_contexts ;;;
    let! contexts := get_gpu g_contexts in
    match findContext context_id contexts with
    | None => unlock_contexts ;;; ret kIOReturnNotFound
    | Some _ =>
        let! r := submit (CmdCtxDestroy
          (mk_hdr VIRTIO_GPU_CMD_CTX_DESTROY 0 0 context_id 0 0)) 24 in
        (if is_success r.1 then
           upd_gpu (fun g => set_g_contexts
             (match findContext context_id (g_contexts g) with
              | Some i => take i (g_contexts g) ++ drop (S i) (g_contexts g)
              | None => g_contexts g
              end) g)
         else ret tt) ;;;
        unlock_contexts ;;;
        ret r.1
    end.

(** ** executeCommands
    The command is built in a heap block of which the code writes the type,
    the context, the size and the data, and nothing else. *)
Definition map_add (n : Z) : M W unit := upd_mem (fun m => set_m_maps (m_maps m + n) m).

Definition executeCommands (context_id : Z) (commands : option cmd_desc) : M W IOReturn :=
  let! three_d := supports3D in
  match commands with
  | None => ret kIOReturnBadArgument
  | Some d =>
      if negb three_d then ret kIOReturnBadArgument
      else
        lock_contexts ;;;
        if negb (cd_maps d) then unlock_contexts ;;; ret kIOReturnVMError
        else
          map_add 1 ;;;
          let command_size := Z.of_nat (length (cd_data d)) in
          if negb (cd_address d) || (command_size =? 0) then
            map_add (-1) ;;; unlock_contexts ;;; ret kIOReturnBadArgument
          else
            let total_size := 32 + command_size in
            let! block := IOMalloc total_size in
            match block with
            | None => map_add (-1) ;;; unlock_contexts ;;; ret kIOReturnNoMemory
            | Some g =>
                let hdr := mk_hdr VIRTIO_GPU_CMD_SUBMIT_3D (garb32 g 4) (garb64 g 8) context_id
                             (garb g 20) (garb24 g 21) in
                let! r := submit (CmdSubmit hdr (u32 command_size) (garb32 g 28) (cd_data d)) 24 in
                IOFree total_size ;;;
                map_add (-1) ;;;
                unlock_contexts ;;;
                ret r.1
            end
  end.

(** ** Scanouts *)
Definition set_scanout_cmd (scanout_id resource_id x y width height : Z) : gpu_cmd :=
  CmdSetScanout (hdr_of VIRTIO_GPU_CMD_SET_SCANOUT) (mk_rect x y width height) scanout_id resource_id.

Definition setupScanout (scanout_id width height : Z) : M W IOReturn :=
  let! max := get_gpu g_max_scanouts in
  if max <=? scanout_id then ret kIOReturnBadArgument
  else
    let! id := next_resource_id in
    let! r := createResource2D id VIRTIO_GPU_FORMAT_B8G8R8A8_UNORM width height None in
    if negb (is_success r) then ret r
    else
      let! s := submit (set_scanout_cmd scanout_id id 0 0 width height) 24 in
      ret s.1.

Definition setupDisplayResource (width height depth : Z) : M W IOReturn :=
  let! ok := ready in
  if negb ok then ret kIOReturnNotReady
  else
    let! id := next_resource_id in
    let! r := createResource2D id VIRTIO_GPU_FORMAT_B8G8R8A8_UNORM width height None in
    if negb (is_success r) then ret r
    else
      upd_gpu (set_g_display_resource_id id) ;;;
      (if (1920 <=? width) && (1080 <=? height) then
         let! secondary := next_resource_id in
         createResource2D secondary VIRTIO_GPU_FORMAT_B8G8R8A8_UNORM (width / 2) height None ;;;
         ret tt
       else ret tt) ;;;
      ret kIOReturnSuccess.

(** [property]: the registry's "secondary-display-resource-id", if set. *)
Definition enableScanout (property : option Z) (scanout_id width height : Z) : M W IOReturn :=
  let! ok := ready in
  if negb ok then ret kIOReturnNotReady
  else
    let! display := get_gpu g_display_resource_id in
    if display =? 0 then ret kIOReturnNotReady
    else
      let id := if scanout_id =? 1 then default display property else display in
      let! s := submit (set_scanout_cmd scanout_id id 0 0 width height) 24 in
      ret s.1.

(** [g_framebuffer]: the framebuffer's [m_scanout_taken_over_by_3d], when
    there is one. *)
Definition setScanoutTakenOverBy3D (taken : bool) : M W unit :=
  upd_gpu (fun g => set_g_framebuffer ((fun _ => taken) <$> g_framebuffer g) g).

Definition setscanout (scanout_id resource_id x y width height : Z) : M W IOReturn :=
  let! ok := ready in
  if negb ok then ret kIOReturnNotReady
  else
    let! s := submit (set_scanout_cmd scanout_id resource_id x y width height) 24 in
    if negb (is_success s.1) then ret s.1
    else
      setScanoutTakenOverBy3D (negb (resource_id =? 1) && negb (resource_id =? 0)) ;;;
      ret kIOReturnSuccess.

Definition setFramebuffer (framebuffer : option bool) : M W unit :=
  upd_gpu (set_g_framebuffer framebuffer).

(** ** Transfers and flushes *)
Definition transfer_2d_cmd (resource_id offset x y width height : Z) : gpu_cmd :=
  CmdTransfer2D (hdr_of VIRTIO_GPU_CMD_TRANSFER_TO_HOST_2D) (mk_rect x y width height)
    offset resource_id 0.
Definition flush_cmd (resource_id x y width height : Z) : gpu_cmd :=
  CmdFlush (hdr_of VIRTIO_GPU_CMD_RESOURCE_FLUSH) (mk_rect x y width height) resource_id 0.
Definition transfer_3d_cmd (ty resource_id level x y z width height depth ctx_id : Z) : gpu_cmd :=
  CmdTransfer3D (mk_hdr ty 0 0 ctx_id 0 0)
    (mk_transfer_3d (mk_box x y z width height depth) 0 resource_id level 0 0).

Definition transferToHost2D (resource_id offset x y width height : Z) : M W IOReturn :=
  let! ok := ready in
  if negb ok then ret kIOReturnNotReady
  else let! r := submit (transfer_2d_cmd resource_id offset x y width height) 24 in ret r.1.

Definition transferToHost3D (resource_id level x y z width height depth ctx_id : Z) : M W IOReturn :=
  let! ok := ready in
  if negb ok then ret kIOReturnNotReady
  else let! r := submit (transfer_3d_cmd VIRTIO_GPU_CMD_TRANSFER_TO_HOST_3D resource_id level
                           x y z width height depth ctx_id) 24 in ret r.1.

Definition transferFromHost3D (resource_id level x y z width height depth ctx_id : Z) : M W IOReturn :=
  let! ok := ready in
  if negb ok then ret kIOReturnNotReady
  else let! r := submit (transfer_3d_cmd VIRTIO_GPU_CMD_TRANSFER_FROM_HOST_3D resource_id level
                           x y z width height depth ctx_id) 24 in ret r.1.

Definition flushResource (resource_id x y width height : Z) : M W IOReturn :=
  let! ok := ready in
  if negb ok then ret kIOReturnNotReady
  else let! r := submit (flush_cmd resource_id x y width height) 24 in ret r.1.

Definition updateDisplay (scanout_id resource_id x y width height : Z) : M W IOReturn :=
  let! max := get_gpu g_max_scanouts in
  if max <=? scanout_id then ret kIOReturnBadArgument
  else
    lock_resources ;;;
    let! pool := get_gpu g_pool in
    match findResource resource_id pool with
    | None => unlock_resources ;;; ret kIOReturnNotFound
    | Some _ =>
        unlock_resources ;;;
        if (width =? 0) || (height =? 0) then ret kIOReturnBadArgument
        else
          let! t := submit (transfer_2d_cmd resource_id 0 x y width height) 24 in
          if negb (is_success t.1) then ret t.1
          else
            let! f := submit (flush_cmd resource_id x y width height) 24 in
            ret f.1
    end.

(** ** The accelerator's helpers *)
Definition setMockMode (enabled : bool) : M W unit := upd_gpu (set_g_is_mock_device enabled).
Definition blitRect : M W IOReturn := ret kIOReturnUnsupported.
Definition fillRect : M W IOReturn := ret kIOReturnUnsupported.

Definition flushCommands : M W IOReturn :=
  let! mock := get_gpu g_is_mock_device in
  if mock then ret kIOReturnSuccess
  else let! r := submit (CmdHdr (hdr_of VIRTIO_GPU_CMD_CTX_DETACH_RESOURCE)) 24 in ret r.1.

Definition waitForIdle : M W IOReturn :=
  let! mock := get_gpu g_is_mock_device in
  if mock then ret kIOReturnSuccess
  else
    upd_gpu (fun g => set_g_fence_id (u64 (g_fence_id g + 1)) g) ;;;
    let! fence := get_gpu g_fence_id in
    let! r := submit (CmdSubmit (mk_hdr VIRTIO_GPU_CMD_SUBMIT_3D VIRTIO_GPU_FLAG_FENCE fence 0 0 0) 0 0 []) 24 in
    ret r.1.

(** ** Features *)
Definition has_flag (flags f : Z) : bool := negb (Z.land flags f =? 0).

Definition supportsFeature (feature_flags : Z) : M W bool :=
  let! three_d := supports3D in
  let s3d := has_flag feature_flags VIRTIO_GPU_FEATURE_3D in
  let virgl := has_flag feature_flags VIRTIO_GPU_FEATURE_VIRGL in
  let blob := has_flag feature_flags VIRTIO_GPU_FEATURE_RESOURCE_BLOB in
  let init := has_flag feature_flags VIRTIO_GPU_FEATURE_CONTEXT_INIT in
  let result := false in
  let result := if s3d then result || three_d else result in
  let result := if virgl then result || three_d else result in
  let result := if blob then result || three_d else result in
  let result := if init then result || three_d else result in
  let any := has_flag feature_flags
    (Z.lor (Z.lor (Z.lor VIRTIO_GPU_FEATURE_3D VIRTIO_GPU_FEATURE_VIRGL)
       VIRTIO_GPU_FEATURE_RESOURCE_BLOB) VIRTIO_GPU_FEATURE_CONTEXT_INIT) in
  ret (if any && negb s3d && negb virgl && negb blob && negb init then three_d else result).

Definition enableFeature (feature_flags : Z) : M W IOReturn :=
  let! pci := get_gpu g_pci_device in
  if negb pci then ret kIOReturnNotReady
  else if feature_flags =? VIRTIO_GPU_FEATURE_3D then
    let! three_d := supports3D in
    ret (if three_d then kIOReturnSuccess else kIOReturnUnsupported)
  else ret kIOReturnSuccess.

(** The loop of [enableVirgl] over the device's capability sets. *)
Definition capset_field (resp : list Z) (i : nat) : Z := le_val (take 4 (drop i resp)).

Fixpoint query_capsets (n : nat) (capset_index : Z) : M W unit :=
  match n with
  | O => ret tt
  | S k =>
      let! info := submit (CmdGetCapsetInfo (hdr_of VIRTIO_GPU_CMD_GET_CAPSET_INFO) capset_index 0) 40 in
      (if is_success info.1 then
         let max_size := capset_field info.2 32 in
         if (0 <? max_size) && (max_size <? 65536) then
           let size := 24 + max_size in
           let! block := IOMalloc size in
           match block with
           | None => ret tt
           | Some _ =>
               submit (CmdGetCapset (hdr_of VIRTIO_GPU_CMD_GET_CAPSET)
                 (capset_field info.2 24) (capset_field info.2 28)) (Z.to_nat size) ;;;
               IOFree size
           end
         else ret tt
       else ret tt) ;;;
      query_capsets k (capset_index + 1)
  end.

Definition enableVirgl : M W unit :=
  let! pci := get_gpu g_pci_device in
  if negb pci then ret tt
  else
    let! three_d := supports3D in
    if negb three_d then ret tt
    else
      let! r := enableFeature VIRTIO_GPU_FEATURE_VIRGL in
      if negb (is_success r) then ret tt
      else
        let! n := get_gpu g_num_capsets in
        query_capsets (Z.to_nat n) 0.

Definition enableResourceBlob : M W bool :=
  let! pci := get_gpu g_pci_device in
  if negb pci then ret false
  else
    let! ok := supportsFeature VIRTIO_GPU_FEATURE_RESOURCE_BLOB in
    if negb ok then ret false
    else let! r := enableFeature VIRTIO_GPU_FEATURE_RESOURCE_BLOB in ret (is_success r).

(** [initializeWebGLAcceleration]: the context, canvas and depth ids it
    ends with, 0 where a step failed. *)
Definition initializeWebGLAcceleration : M W (option (Z * Z * Z)) :=
  let! pci := get_gpu g_pci_device in
  if negb pci then ret None
  else
    let! three_d := supports3D in
    if negb three_d then ret None
    else
      let! c := createRenderContext in
      if negb (is_success c.1) || (c.2 =? 0) then ret None
      else
        allocateGPUMemory (256 * 1024 * 1024) ;;;
        let! id1 := next_resource_id in
        let! r1 := createResource3D id1 VIRGL_TARGET_2D VIRTIO_GPU_FORMAT_B8G8R8X8_UNORM
                     VIRGL_BIND_RENDER_TARGET 1280 720 1 in
        let! canvas := (if is_success r1 then get_gpu g_next_resource_id else ret 0) in
        let! id2 := next_resource_id in
        let! r2 := createResource3D id2 VIRGL_TARGET_2D VIRTIO_GPU_FORMAT_D24_UNORM_S8_UINT
                     VIRGL_BIND_DEPTH_STENCIL 1280 720 1 in
        let! depth := (if is_success r2 then get_gpu g_next_resource_id else ret 0) in
        ret (Some (c.2, canvas, depth)).
End display.

(** * The driver's operations as one type
    What clients call in any order: the resource operations, and the ones
    above. [do_display] answers the id of a context it tried to create. *)
Inductive display_op :=
| OpRes (o : res_op)
| OpMapGuest (guest_memory : option mdesc)
| OpCreateContext
| OpDestroy3D (context_id : Z)
| OpDestroyRender (context_id : Z)
| OpExecute (context_id : Z) (commands : option cmd_desc)
| OpSetupScanout (scanout_id width height : Z)
| OpSetupDisplay (width height depth : Z)
| OpEnableScanout (property : option Z) (scanout_id width height : Z)
| OpSetscanout (scanout_id resource_id x y width height : Z)
| OpSetFramebuffer (framebuffer : option bool)
| OpTransferTo2D (resource_id offset x y width height : Z)
| OpTransferTo3D (resource_id level x y z width height depth ctx_id : Z)
| OpTransferFrom3D (resource_id level x y z width height depth ctx_id : Z)
| OpFlush (resource_id x y width height : Z)
| OpUpdate (scanout_id resource_id x y width height : Z)
| OpFlushCommands
| OpWaitForIdle
| OpEnableVirgl
| OpWebGL.

Section ops.
Context {T : Type} `{Transport T}.
Abbreviation W := (world T).

Definition quiet {A} (m : M W A) : M W (option Z) := m ;;; ret None.

Definition do_display (o : display_op) : M W (option Z) :=
  match o with
  | OpRes o => quiet (do_op o)
  | OpMapGuest d => quiet (mapGuestMemory d)
  | OpCreateContext => let! c := create3DContext in
                       ret (if is_success c.1 then Some c.2 else None)
  | OpDestroy3D id => quiet (destroy3DContext id)
  | OpDestroyRender id => quiet (destroyRenderContext id)
  | OpExecute id d => quiet (executeCommands id d)
  | OpSetupScanout s w h => quiet (setupScanout s w h)
  | OpSetupDisplay w h d => quiet (setupDisplayResource w h d)
  | OpEnableScanout p s w h => quiet (enableScanout p s w h)
  | OpSetscanout s r x y w h => quiet (setscanout s r x y w h)
  | OpSetFramebuffer f => quiet (setFramebuffer f)
  | OpTransferTo2D r o x y w h => quiet (transferToHost2D r o x y w h)
  | OpTransferTo3D r l x y z w h d c => quiet (transferToHost3D r l x y z w h d c)
  | OpTransferFrom3D r l x y z w h d c => quiet (transferFromHost3D r l x y z w h d c)
  | OpFlush r x y w h => quiet (flushResource r x y w h)
  | OpUpdate s r x y w h => quiet (updateDisplay s r x y w h)
  | OpFlushCommands => quiet flushCommands
  | OpWaitForIdle => quiet waitForIdle
  | OpEnableVirgl => quiet enableVirgl
  | OpWebGL => let! c := initializeWebGLAcceleration in ret (option_map (fun t => t.1.1) c)
  end.

(** The ids of the contexts created, in order. *)
Fixpoint run_display (os : list display_op) : M W (list Z) :=
  match os with
  | [] => ret []
  | o :: os' =>
      let! c := do_display o in
      let! cs := run_display os' in
      ret (match c with Some id => id :: cs | None => cs end)
  end.

Lemma preserves_run (I : W -> Prop) os :
  (forall o, preserves I (do_display o)) -> preserves I (run_display os).
Proof.
  intros Ho. induction os as [|o os IH]; [apply preserves_ret|].
  apply preserves_bind; [apply Ho|intros ?].
  apply preserves_bind; [exact IH|intros ?]. apply preserves_ret.
Qed.

(** ** Locks *)
Lemma query_capsets_gpu {V} (p : gpu -> V) n i :
  keeps (fun w : W => p (w_gpu w)) (query_capsets n i).
Proof. revert i. induction n as [|n IH]; intros i; cbn [query_capsets]; keeps_tac; apply IH. Qed.
End ops.
#[export] Hint Resolve query_capsets_gpu : keeps.

Create HintDb locks.
#[export] Hint Resolve createResource2D_locks createResource3D_locks mapGuestMemory_locks
  do_op_locks : locks.
(** For methods that take no lock themselves but call ones that do. *)
Ltac safe_tac :=
  repeat first
    [ solve [auto with locks] | solve [apply lock_safe_keeps; keeps_tac]
    | apply lock_safe_bind; [|intros ?]
    | goal_case ].

Section locks.
Context {T : Type} `{Transport T}.

Lemma createRenderContext_locks : lock_safe (T := T) createRenderContext.
Proof. unfold createRenderContext, initializeCommandHeader, supports3D. lock_tac. Qed.
Lemma destroy3DContext_locks id : lock_safe (T := T) (destroy3DContext id).
Proof. unfold destroy3DContext, initializeCommandHeader, supports3D. lock_tac. Qed.
Lemma destroyRenderContext_locks id : lock_safe (T := T) (destroyRenderContext id).
Proof. unfold destroyRenderContext, supports3D. lock_tac. Qed.
Lemma executeCommands_locks id d : lock_safe (T := T) (executeCommands id d).
Proof. unfold executeCommands, supports3D, map_add. lock_tac. Qed.
Lemma updateDisplay_locks s r x y w h : lock_safe (T := T) (updateDisplay s r x y w h).
Proof. unfold updateDisplay. lock_tac. Qed.
#[local] Hint Resolve createRenderContext_locks destroy3DContext_locks destroyRenderContext_locks
  executeCommands_locks updateDisplay_locks : locks.

Lemma do_display_locks o : lock_safe (T := T) (do_display o).
Proof.
  destruct o; cbn [do_display]; unfold quiet, create3DContext, setupScanout, setupDisplayResource,
    enableScanout, setscanout, setFramebuffer, setScanoutTakenOverBy3D, transferToHost2D,
    transferToHost3D, transferFromHost3D, flushResource, flushCommands, waitForIdle, enableVirgl,
    enableFeature, initializeWebGLAcceleration, allocateGPUMemory, next_resource_id, ready, supports3D.
  all: safe_tac.
Qed.
End locks.

(** C10: the driver's two locks: every sequence of operations that starts with
    both free ends with both free, on every path (rejections, refused
    commands, failed allocations) and over every transport, and no thread
    takes a lock it holds. *)
Theorem driver_unlocks T `{Transport T} (os : list display_op) (w : world T) :
  locks (w_gpu w) = (Unlocked, Unlocked) -> locks (w_gpu (run_display os w).2) = (Unlocked, Unlocked).
Proof. apply (preserves_run (fun w => locks (w_gpu w) = (Unlocked, Unlocked))). apply do_display_locks. Qed.

(** * The pool *)
Section sound.
Context {T : Type} `{Host T}.
Abbreviation W := (world T).

Lemma rv_query_capsets n i : keeps (rv (T := T)) (query_capsets n i).
Proof.
  revert i. induction n as [|n IH]; intros i; cbn [query_capsets]; [keeps_tac|].
  apply keeps_bind; [keeps_tac|intros [r resp]]. apply keeps_bind; [|intros ?; apply IH].
  cbn [fst snd]. destruct (is_success r); [|keeps_tac].
  destruct (Z.ltb_spec 0 (capset_field resp 32)); cbn [andb]; [|keeps_tac].
  goal_case; [|keeps_tac]. apply keeps_bind; [keeps_tac|intros [b|]]; [|keeps_tac].
  apply keeps_bind; [apply rv_submit_neutral; [reflexivity|lia]|intros ?]. keeps_tac.
Qed.
#[local] Hint Resolve rv_query_capsets : keeps.
#[local] Hint Resolve sound_create2D sound_create3D sound_op : drv.
#[local] Hint Extern 1 (keeps rv lock_contexts) => unfold lock_contexts : keeps.
#[local] Hint Extern 1 (keeps rv unlock_contexts) => unfold unlock_contexts : keeps.

Lemma sound_display o :
  (match o with OpMapGuest _ => false | _ => true end) = true -> preserves pool_sound (do_display (T := T) o).
Proof.
  intros Ho. destruct o; try done; cbn [do_display]; unfold quiet, create3DContext,
    initializeWebGLAcceleration, createRenderContext,
    destroy3DContext, destroyRenderContext, executeCommands, updateDisplay, initializeCommandHeader,
    setupScanout, setupDisplayResource, enableScanout, setscanout, setFramebuffer,
    setScanoutTakenOverBy3D, transferToHost2D, transferToHost3D, transferFromHost3D, flushResource,
    flushCommands, waitForIdle, enableVirgl, enableFeature,
    allocateGPUMemory, next_resource_id, ready, supports3D, lock_contexts, unlock_contexts, map_add;
  repeat first
    [ solve [auto with drv] | solve [apply sound_keeps; keeps_tac]
    | apply preserves_bind; [|intros ?] | goal_case ].
Qed.

Lemma sound_run os :
  forallb (fun o => match o with OpMapGuest _ => false | _ => true end) os = true ->
  preserves pool_sound (run_display (T := T) os).
Proof.
  induction os as [|o os IH]; cbn; intros Ho; [apply preserves_ret|].
  apply andb_true_iff in Ho as [Ho Hos].
  apply preserves_bind; [by apply sound_display|intros ?].
  apply preserves_bind; [by apply IH|intros ?]. apply preserves_ret.
Qed.
End sound.

(** C3: over a conforming host, any sequence of the driver's operations other
    than [mapGuestMemory] (which tracks resources the host does not have)
    keeps the pool sound: live slots below the high-water mark, ids unique,
    every tracked id known to the host. *)
Theorem driver_pool_sound T `{Host T} (os : list display_op) (w : world T) :
  forallb (fun o => match o with OpMapGuest _ => false | _ => true end) os = true ->
  pool_sound w -> pool_sound (run_display os w).2.
Proof. intros Ho. by apply sound_run. Qed.

(** * Contexts *)
(** The tracked contexts, and the last id given out. *)
Definition ctx_view (g : gpu) : list Z * Z := (g_contexts g, g_next_context_id g).

Section contexts.
Context {T : Type} `{Transport T}.
Abbreviation W := (world T).
Definition ctx_of (w : W) : list Z * Z := ctx_view (w_gpu w).

Lemma createResource2D_ctx id f w h b : keeps ctx_of (createResource2D id f w h b).
Proof. unfold ctx_of, createResource2D, lock_resources, unlock_resources. keeps_tac. Qed.
Lemma createResource3D_ctx id t f b w h d : keeps ctx_of (createResource3D id t f b w h d).
Proof. unfold ctx_of, createResource3D, lock_resources, unlock_resources. keeps_tac. Qed.
Lemma deallocateResource_ctx id : keeps ctx_of (deallocateResource id).
Proof. unfold ctx_of, deallocateResource, lock_resources, unlock_resources. keeps_tac. Qed.
#[local] Hint Resolve createResource2D_ctx createResource3D_ctx deallocateResource_ctx : keeps.
Lemma do_op_ctx o : keeps ctx_of (do_op o).
Proof.
  destruct o; cbn [do_op]; unfold allocateResource3D, next_resource_id, probeResourceTracking,
    lock_resources, unlock_resources; unfold ctx_of; keeps_tac; fold ctx_of; auto with keeps.
Qed.

(** What an operation that starts with nothing tracked leaves: nothing
    tracked, and the next id it may have handed out. *)
Definition ctx_post (n : Z) (c : option Z) (w : W) : Prop :=
  (ctx_of w = ([], n) /\ c = None)
  \/ (ctx_of w = ([], u32 (n + 1)) /\ (c = None \/ c = Some (u32 (n + 1)))).

Lemma keeps_ctx_post {A} (m : M W A) n :
  keeps ctx_of m -> hoare (fun w => ctx_of w = ([], n)) (quiet m) (ctx_post n).
Proof.
  intros Hm. eapply hoare_bind; [apply Hm|]. intros _ w Hw. by left.
Qed.

Lemma createRenderContext_ctx n :
  hoare (fun w => ctx_of w = ([], n)) createRenderContext (fun c w =>
    (ctx_of w = ([], n) /\ c = (kIOReturnBadArgument, 0))
    \/ (ctx_of w = ([], u32 (n + 1)) /\ c.2 = u32 (n + 1))).
Proof.
  intros w Hw. injection Hw as Hc Hn.
  unfold createRenderContext, supports3D, initializeCommandHeader, lock_contexts, unlock_contexts,
    bind, upd_gpu, modify, get_gpu, gets, ret, submit. cbn [fst snd w_gpu w_mem w_tr].
  destruct (0 <? g_num_capsets (w_gpu w)); cbn [negb fst snd w_gpu w_mem w_tr];
    [right|left; split; [by unfold ctx_of, ctx_view; rewrite Hc, Hn|done]].
  match goal with |- context [submit_cmd ?c ?k ?t] => destruct (submit_cmd c k t) as [r t'] end.
  unfold ctx_of, ctx_view. cbn. by rewrite Hc, Hn.
Qed.

Lemma destroyRenderContext_untracked id (w : W) :
  g_contexts (w_gpu w) = [] ->
  let '(r, w') := destroyRenderContext id w in
  (r = kIOReturnUnsupported \/ r = kIOReturnNotFound) /\ w_tr w' = w_tr w /\ ctx_of w' = ctx_of w.
Proof.
  intros Hc. unfold destroyRenderContext, supports3D, lock_contexts, unlock_contexts,
    bind, upd_gpu, modify, get_gpu, gets, ret. cbn [fst snd w_gpu w_mem w_tr].
  destruct (0 <? g_num_capsets (w_gpu w)); cbn; rewrite ?Hc; cbn; (split; [by auto|done]).
Qed.

Lemma initializeWebGLAcceleration_ctx n :
  hoare (fun w => ctx_of w = ([], n)) initializeWebGLAcceleration (fun c w =>
    ctx_post n (option_map (fun t => t.1.1) c) w).
Proof.
  unfold initializeWebGLAcceleration, allocateGPUMemory, next_resource_id, supports3D.
  assert (Hk : forall A B (m : M W A) (k : A -> M W B) v Q, keeps ctx_of m ->
    (forall a, hoare (fun w => ctx_of w = v) (k a) Q) -> hoare (fun w => ctx_of w = v) (bind m k) Q).
  { intros A B m k v Q Hm Hk. eapply hoare_bind; [apply Hm|intros a; apply Hk]. }
  assert (Hl : hoare (fun w => ctx_of w = ([], n)) (ret None) (fun c w =>
    ctx_post n (option_map (fun t : Z * Z * Z => t.1.1) c) w)) by (intros w Hw; by left).
  apply Hk; [keeps_tac|intros pci]. destruct (negb pci); [done|].
  apply Hk; [keeps_tac|intros td]. destruct (negb td); [done|].
  eapply hoare_bind; [apply createRenderContext_ctx|intros [r id]]. cbn [fst snd].
  intros w [[Hw [= -> ->]]|[Hw ->]]; [by left|].
  match goal with |- context [(if ?b then ret None else ?m) w] =>
    enough (Hh : hoare (fun w => ctx_of w = ([], u32 (n + 1))) (if b then ret None else m)
      (fun c w => ctx_post n (option_map (fun t => t.1.1) c) w)) by exact (Hh w Hw) end.
  clear w Hw. destruct (_ || _); [intros w Hw; right; by auto|].
  repeat (apply Hk; [unfold ctx_of; keeps_tac; fold ctx_of; auto with keeps|intros ?]).
  intros w Hw. right. by auto.
Qed.

Lemma do_display_ctx o n :
  hoare (fun w => ctx_of w = ([], n)) (do_display o) (ctx_post n).
Proof.
  destruct o; cbn [do_display]; try (apply keeps_ctx_post;
    unfold destroy3DContext, executeCommands, updateDisplay, initializeCommandHeader,
    setupScanout, setupDisplayResource, enableScanout, setscanout, setFramebuffer,
    setScanoutTakenOverBy3D, transferToHost2D, transferToHost3D, transferFromHost3D, flushResource,
    flushCommands, waitForIdle, enableVirgl, enableFeature, mapGuestMemory,
    allocateGPUMemory, next_resource_id, ready, supports3D, lock_contexts, unlock_contexts,
    lock_resources, unlock_resources, map_add; unfold ctx_of; keeps_tac; fold ctx_of;
    auto using do_op_ctx, createResource2D_ctx with keeps; fail).
  - eapply hoare_bind; [apply createRenderContext_ctx|intros [r id]].
    intros w [[Hw [= -> ->]]|[Hw Hi]]; cbn; [by left|]. cbn in Hi. subst id.
    right. destruct (is_success r); by auto.
  - intros w Hw. left. unfold quiet, bind.
    pose proof (destroyRenderContext_untracked context_id w ltac:(by injection Hw)) as Hd.
    destruct (destroyRenderContext context_id w) as [r w']. cbn. destruct Hd as (_ & _ & ->). done.
  - eapply hoare_bind; [apply initializeWebGLAcceleration_ctx|intros c]. by intros w Hw.
Qed.

Lemma run_display_ctx os (w : W) n :
  ctx_of w = ([], n) -> 0 <= n -> n + Z.of_nat (length os) < 2 ^ 32 ->
  let '(ids, w') := run_display os w in
  exists n', ctx_of w' = ([], n') /\ n <= n' <= n + Z.of_nat (length os)
    /\ NoDup ids /\ Forall (fun id => n < id <= n') ids.
Proof.
  revert w n. induction os as [|o os IH]; intros w n Hw Hn Hl; cbn [length run_display] in *.
  - exists n. split_and!; [done|lia|lia|constructor|constructor].
  - unfold bind. pose proof (do_display_ctx o n w Hw) as Ho.
    destruct (do_display o w) as [c w1]. cbn [fst snd] in Ho.
    assert (Hs : exists n1, ctx_of w1 = ([], n1) /\ n <= n1 <= n + 1 /\
      (c = None \/ c = Some n1 /\ n < n1)).
    { destruct Ho as [[H1 ->]|[H1 Hc]]; [exists n; split_and!; [done|lia|lia|by left]|].
      rewrite u32_small in H1, Hc by lia. exists (n + 1). split_and!; [done|lia|lia|].
      destruct Hc; [by left|right; split; [done|lia]]. }
    destruct Hs as (n1 & H1 & Hn1 & Hc).
    specialize (IH w1 n1 H1 ltac:(lia) ltac:(lia)). destruct (run_display os w1) as [ids w2].
    destruct IH as (n2 & H2 & Hn2 & Hd & Hf). exists n2. split_and!; [done|lia|lia|..].
    + destruct Hc as [->|[-> _]]; [done|]. cbn. apply NoDup_cons. split; [|done].
      intros Hin. pose proof (proj1 (Forall_forall _ _) Hf _ Hin) as Hb. cbn in Hb. lia.
    + assert (Hf' : Forall (fun id => n < id <= n2) ids).
      { eapply Forall_impl; [exact Hf|]. cbn. intros; lia. }
      destruct Hc as [->|[-> Hlt]]; [done|]. cbn. constructor; [lia|done].
Qed.
End contexts.

(** Context ids: in any sequence of operations no id is given out twice,
    none is 0, all are above the ids given out before, and nothing is ever
    entered in the table of contexts, so that afterwards
    [destroyRenderContext] rejects every id without sending a command. *)
Theorem contexts_fresh_untracked T `{Transport T} (os : list display_op) (w : world T) :
  g_contexts (w_gpu w) = [] -> 0 <= g_next_context_id (w_gpu w) ->
  g_next_context_id (w_gpu w) + Z.of_nat (length os) < 2 ^ 32 ->
  let '(ids, w') := run_display os w in
  NoDup ids /\ Forall (fun id => g_next_context_id (w_gpu w) < id < 2 ^ 32) ids
  /\ forall id, let '(r, w'') := destroyRenderContext id w' in
       (r = kIOReturnUnsupported \/ r = kIOReturnNotFound) /\ w_tr w'' = w_tr w'.
Proof.
  intros Hc Hn Hl.
  pose proof (run_display_ctx os w (g_next_context_id (w_gpu w))
    ltac:(unfold ctx_of, ctx_view; by rewrite Hc) Hn Hl) as Hr.
  destruct (run_display os w) as [ids w']. destruct Hr as (n' & Hw' & Hn' & Hd & Hf).
  split_and!; [done| |].
  - eapply Forall_impl; [exact Hf|]. cbn. intros; lia.
  - intros id. pose proof (destroyRenderContext_untracked id w' ltac:(by injection Hw')) as Hx.
    destruct (destroyRenderContext id w') as [r w'']. by destruct Hx as (? & ? & _).
Qed.

(** * executeCommands *)
(** Whether a submission reaches the host: 3D, a mapping with an address, some
    bytes, and a heap block to build the command in. *)
Definition submittable {T} (w : world T) (d : cmd_desc) : bool :=
  (0 <? g_num_capsets (w_gpu w)) && cd_maps d && cd_address d && negb (Z.of_nat (length (cd_data d)) =? 0)
  && (match m_mallocs (w_mem w) with Some _ :: _ => true | _ => false end).

(** [executeCommands] hands the host exactly one command, which carries
    the caller's bytes and context and reads back as itself, when the caller's
    memory can be mapped, is not empty and there is memory for the command;
    otherwise it fails and the host hears nothing. Either way the mapping and
    the heap block are given back. *)
Theorem executeCommands_spec T `{Transport T} ctx d (w : world T) :
  0 <= ctx < 2 ^ 32 -> Z.of_nat (length (cd_data d)) < 2 ^ 32 ->
  let '(r, w') := executeCommands ctx (Some d) w in
  (forall id, mem_of w' id = mem_of w id) /\ m_maps (w_mem w') = m_maps (w_mem w) /\
  if submittable w d then
    exists h pad, let c := CmdSubmit h (Z.of_nat (length (cd_data d))) pad (cd_data d) in
      hdr_ctx_id h = ctx /\ decode (encode c) = Some c
      /\ w_tr w' = (submit_cmd c 24 (w_tr w)).2 /\ r = (submit_cmd c 24 (w_tr w)).1.1
  else r <> kIOReturnSuccess /\ w_tr w' = w_tr w.
Proof.
  intros Hctx Hlen. unfold executeCommands, submittable, supports3D, map_add, IOMalloc, bind, get_gpu, gets.
  destruct (0 <? g_num_capsets (w_gpu w)); cbn [negb andb].
  2: { cbn. done. }
  unfold lock_contexts, unlock_contexts, upd_gpu, upd_mem, modify, ret, IOFree, heap_add.
  cbn [fst snd w_gpu w_mem w_tr m_maps m_mallocs set_m_maps].
  destruct (cd_maps d); cbn [negb andb]; [|cbn; done].
  destruct (cd_address d); cbn [negb andb orb];
    [|cbn; split; [done|split; [lia|done]]].
  destruct (Z.eqb_spec (Z.of_nat (length (cd_data d))) 0) as [E|E]; cbn [negb andb];
    [cbn; split; [done|split; [lia|done]]|].
  cbn -[garb garb24 garb32 garb64 Z.of_nat u32 decode encode mem_of].
  destruct (m_mallocs (w_mem w)) as [|[g|] l]; [cbn; split; [done|split; [lia|done]]| |cbn; split; [done|split; [lia|done]]].
  unfold upd_mem, modify, submit.
  cbn -[garb garb24 garb32 garb64 Z.of_nat u32 decode encode mem_of].
  rewrite u32_small by lia.
  set (h := mk_hdr VIRTIO_GPU_CMD_SUBMIT_3D _ _ ctx _ _).
  set (c := CmdSubmit _ _ _ _). destruct (submit_cmd c 24 (w_tr w)) as [[r resp] t] eqn:Es.
  split; [|split].
  - intros id. unfold mem_of. cbn. repeat f_equal. lia.
  - cbn. lia.
  - exists h, (garb32 g 28). cbn zeta. fold c. rewrite Es. split_and!; [done| |done|done].
    apply decode_encode_lemma. split; [|by cbn].
    unfold cmd_fields, c, h. cbn -[garb garb24 garb32 garb64 Z.of_nat].
    repeat (apply Forall_cons; split); try apply Forall_nil; unfold field_ok; cbn -[garb garb24 garb32 garb64 Z.of_nat];
      first [by split | lia | apply garb_range | apply garb24_range | apply garb32_range | apply garb64_range].
Qed.

Lemma garb32_le_bytes z pre post :
  0 <= z < 2 ^ 32 -> garb32 (pre ++ le_bytes 4 z ++ post) (length pre) = z.
Proof.
  intros Hz. rewrite <- (le_val_le_bytes 4 z) at 2 by (cbn; lia).
  unfold garb32, garb. rewrite <- (Nat.add_0_r (length pre)) at 1.
  rewrite !app_nth2_plus. cbn [le_bytes app nth].
  by rewrite !Zmod_mod.
Qed.

(** The header of that command is not the driver's: whatever flags (the
    fence flag among them) and fence id one asks for, there is content of the
    fresh heap block that makes the driver send them. *)
Theorem executeCommands_stale_header T `{Transport T} flags fence ctx d (w : world T) l :
  0 <= flags < 2 ^ 32 -> 0 <= fence < 2 ^ 64 ->
  (0 <? g_num_capsets (w_gpu w)) = true -> cd_maps d = true -> cd_address d = true -> cd_data d <> [] ->
  exists block ring pad1 pad2,
    w_tr (executeCommands ctx (Some d)
            (mk_world (w_gpu w) (set_m_mallocs (Some block :: l) (w_mem w)) (w_tr w))).2
    = (submit_cmd (CmdSubmit (mk_hdr VIRTIO_GPU_CMD_SUBMIT_3D flags fence ctx ring pad1)
         (u32 (Z.of_nat (length (cd_data d)))) pad2 (cd_data d)) 24 (w_tr w)).2.
Proof.
  intros Hfl Hfe H3 Hm Ha Hd.
  set (block := replicate 4 0 ++ le_bytes 4 flags ++ le_bytes 4 (fence mod 2 ^ 32)
                  ++ le_bytes 4 (fence / 2 ^ 32) ++ []).
  exists block, (garb block 20), (garb24 block 21), (garb32 block 28).
  assert (E1 : garb32 block 4 = flags) by (apply (garb32_le_bytes flags (replicate 4 0)); lia).
  assert (E2 : garb64 block 8 = fence).
  { unfold garb64, block.
    rewrite (app_assoc (replicate 4 0)).
    rewrite (garb32_le_bytes (fence mod 2 ^ 32) (replicate 4 0 ++ le_bytes 4 flags)) by (apply Z.mod_pos_bound; lia).
    rewrite (app_assoc (replicate 4 0 ++ le_bytes 4 flags)).
    rewrite (garb32_le_bytes (fence / 2 ^ 32) ((replicate 4 0 ++ le_bytes 4 flags) ++ le_bytes 4 _)).
    - pose proof (Z_div_mod_eq_full fence (2 ^ 32)). lia.
    - split; [apply Z.div_pos; lia|apply Z.div_lt_upper_bound; lia]. }
  unfold executeCommands, supports3D, map_add, IOMalloc, bind, get_gpu, gets, lock_contexts,
    unlock_contexts, upd_gpu, upd_mem, modify, ret, IOFree, heap_add, submit.
  cbn -[block garb garb24 garb32 garb64 Z.of_nat u32]. rewrite H3. cbn -[block garb garb24 garb32 garb64 Z.of_nat u32]. rewrite Hm. cbn -[block garb garb24 garb32 garb64 Z.of_nat u32]. rewrite Ha. cbn -[block garb garb24 garb32 garb64 Z.of_nat u32].
  destruct (Z.eqb_spec (Z.of_nat (length (cd_data d))) 0) as [E|E];
    [destruct (cd_data d); [done|cbn [length] in E; lia]|].
  cbn -[block garb garb24 garb32 garb64 Z.of_nat u32]. rewrite E1, E2. by destruct (submit_cmd _ 24 (w_tr w)) as [[r resp] t].
Qed.

(** * Display *)
(** Commands sent one after the other, up to the first the host refuses. *)
Fixpoint submit_all {T} `{Transport T} (cs : list gpu_cmd) (t : T) : IOReturn * T :=
  match cs with
  | [] => (kIOReturnSuccess, t)
  | c :: cs' =>
      let '((r, _), t') := submit_cmd c 24 t in
      if is_success r then submit_all cs' t' else (r, t')
  end.

(** The two commands of an update: of the same rectangle, both well formed. *)
Definition update_commands (res x y wd ht : Z) : list gpu_cmd :=
  [transfer_2d_cmd res 0 x y wd ht; flush_cmd res x y wd ht].

Lemma update_commands_ok res x y wd ht :
  Forall (fun v => 0 <= v < 2 ^ 32) [res; x; y; wd; ht] ->
  Forall (fun c => decode (encode c) = Some c) (update_commands res x y wd ht).
Proof.
  rewrite !Forall_cons. intros (H1 & H2 & H3 & H4 & H5 & _).
  unfold update_commands. rewrite !Forall_cons, Forall_nil.
  split_and!; [| |exact I]; apply decode_encode_lemma; (split; [|done]);
    unfold cmd_fields; cbn; rewrite !Forall_cons, Forall_nil; split_and!; try exact I;
    unfold field_ok; cbn; first [by split | lia].
Qed.

(** [updateDisplay] sends nothing, and says why, unless the scanout
    exists, the pool tracks the resource and the rectangle is not empty; then
    it sends a transfer and a flush of that rectangle, the flush only if the
    transfer succeeded, and answers the status of the last command sent. The
    pool and the driver's memory stay as they were. *)
Theorem updateDisplay_spec T `{Transport T} sc res x y wd ht (w : world T) :
  Forall (fun v => 0 <= v < 2 ^ 32) [res; x; y; wd; ht] ->
  let '(r, w') := updateDisplay sc res x y wd ht w in
  g_pool (w_gpu w') = g_pool (w_gpu w) /\ w_mem w' = w_mem w /\
  exists cs, w_tr w' = (submit_all cs (w_tr w)).2 /\ (cs <> [] -> r = (submit_all cs (w_tr w)).1)
    /\ Forall (fun c => decode (encode c) = Some c) cs
    /\ ((sc < g_max_scanouts (w_gpu w) /\ (exists i, live_at (g_pool (w_gpu w)) i res) /\ wd <> 0 /\ ht <> 0
         /\ cs = update_commands res x y wd ht)
        \/ (g_max_scanouts (w_gpu w) <= sc /\ r = kIOReturnBadArgument /\ cs = [])
        \/ (sc < g_max_scanouts (w_gpu w) /\ (forall i, ~ live_at (g_pool (w_gpu w)) i res)
            /\ r = kIOReturnNotFound /\ cs = [])
        \/ (sc < g_max_scanouts (w_gpu w) /\ (wd = 0 \/ ht = 0) /\ r = kIOReturnBadArgument /\ cs = [])).
Proof.
  intros Hr. pose proof (update_commands_ok res x y wd ht Hr) as Hok.
  unfold updateDisplay, lock_resources, unlock_resources, bind, upd_gpu, modify, get_gpu, gets, ret, submit.
  cbn [fst snd w_gpu w_mem w_tr].
  destruct (Z.leb_spec (g_max_scanouts (w_gpu w)) sc) as [Hs|Hs].
  { cbn -[decode encode]. split_and!; [done|done|]. exists []. split_and!; [done|done|by apply Forall_nil|auto]. }
  cbn -[findResource decode encode].
  destruct (findResource res (g_pool (w_gpu w))) as [i|] eqn:Hf.
  2: { cbn -[decode encode]. split_and!; [done|done|]. exists [].
       pose proof (findResource_None _ _ Hf). split_and!; [done|done|by apply Forall_nil|auto 8]. }
  apply findResource_Some in Hf.
  destruct (Z.eqb_spec wd 0) as [Hw|Hw]; [|destruct (Z.eqb_spec ht 0) as [Hh|Hh]];
    cbn -[decode encode transfer_2d_cmd flush_cmd].
  1,2: split_and!; [done|done|]; exists []; split_and!; [done|done|by apply Forall_nil|auto 8].
  destruct (submit_cmd (transfer_2d_cmd _ _ _ _ _ _) 24 (w_tr w)) as [[r1 resp1] t1] eqn:E1.
  cbn -[decode encode transfer_2d_cmd flush_cmd].
  destruct (is_success r1) eqn:Es; cbn -[decode encode transfer_2d_cmd flush_cmd];
    [destruct (submit_cmd (flush_cmd _ _ _ _ _) 24 t1) as [[r2 resp2] t2] eqn:E2|];
    cbn -[decode encode transfer_2d_cmd flush_cmd];
    (split_and!; [done|done|]); exists (update_commands res x y wd ht);
    (split_and!; [|intros _|exact Hok|left; eauto 8]); cbn -[decode encode transfer_2d_cmd flush_cmd];
    rewrite E1, Es; try done; rewrite E2; destruct (is_success r2) eqn:Es2; try done.
  by apply is_success_true in Es2 as ->.
Qed.

Section setup.
Context {T : Type} `{Host T}.

(** What scanouts depend on besides the pool. *)
Definition display_view (g : gpu) : bool * Z * Z :=
  (g_pci_device g && g_control_queue g, g_display_resource_id g, g_next_resource_id g).
Lemma createResource2D_display id f w h b :
  keeps (fun w0 : world T => display_view (w_gpu w0)) (createResource2D id f w h b).
Proof. unfold createResource2D, lock_resources, unlock_resources. keeps_tac. Qed.

(** The display resource is tracked, in a slot of its size, and the host has it. *)
Definition display_live (wd ht : Z) (w : world T) : Prop :=
  tracks (g_display_resource_id (w_gpu w)) (slot_2d VIRTIO_GPU_FORMAT_B8G8R8A8_UNORM wd ht true) w.

(** Creating another resource leaves it so. *)
Lemma display_live_create wd ht id f w0 h0 w :
  pool_sound w -> display_live wd ht w -> id <> g_display_resource_id (w_gpu w) ->
  display_live wd ht (createResource2D id f w0 h0 None w).2.
Proof.
  intros Hs Hl Hne. unfold display_live.
  pose proof (keeps_eq _ _ w (createResource2D_display id f w0 h0 None)) as [= _ Hd _].
  rewrite Hd. by apply tracks_create2D.
Qed.

Lemma display_live_first wd ht id w w' :
  pool_sound w -> id <> 0 ->
  createResource2D id VIRTIO_GPU_FORMAT_B8G8R8A8_UNORM wd ht None w = (kIOReturnSuccess, w') ->
  pool_sound w' /\ display_live wd ht (upd_gpu (set_g_display_resource_id id) w').2.
Proof.
  intros Hs Hid Hc.
  pose proof (sound_create2D id VIRTIO_GPU_FORMAT_B8G8R8A8_UNORM wd ht None w Hs) as Hs'.
  pose proof (tracks_created id VIRTIO_GPU_FORMAT_B8G8R8A8_UNORM wd ht None w Hs Hid) as Ht.
  rewrite Hc in Hs', Ht. split; [exact Hs'|exact (Ht eq_refl)].
Qed.

Lemma display_live_secondary wd ht id w :
  pool_sound w -> display_live wd ht w -> display_view (w_gpu w) = (true, id, id) ->
  let w' := ((let! secondary := next_resource_id in
              createResource2D secondary VIRTIO_GPU_FORMAT_B8G8R8A8_UNORM (wd / 2) ht None ;;;
              ret tt) w).2 in
  pool_sound w' /\ display_live wd ht w' /\ (display_view (w_gpu w')).1 = (true, id).
Proof.
  intros Hs Hl Hv. unfold bind, next_resource_id, upd_gpu, modify, get_gpu, gets.
  cbn -[createResource2D].
  set (w1 := mk_world _ _ _). set (id2 := u32 _).
  pose proof (f_equal snd Hv : g_next_resource_id (w_gpu w) = id) as En.
  pose proof (f_equal (fun v => v.1.2) Hv : g_display_resource_id (w_gpu w1) = id) as Ed.
  pose proof (keeps_eq _ _ w1 (createResource2D_display id2 VIRTIO_GPU_FORMAT_B8G8R8A8_UNORM (wd / 2) ht None)) as Hv1.
  pose proof (sound_create2D id2 VIRTIO_GPU_FORMAT_B8G8R8A8_UNORM (wd / 2) ht None w1 Hs) as Hs1.
  assert (Hne : id2 <> g_display_resource_id (w_gpu w1)).
  { rewrite Ed. unfold id2, u32. rewrite En. pose proof (Z_div_mod_eq_full (id + 1) (2 ^ 32)). lia. }
  pose proof (display_live_create wd ht id2 VIRTIO_GPU_FORMAT_B8G8R8A8_UNORM (wd / 2) ht w1 Hs Hl Hne) as Hl1.
  destruct (createResource2D id2 _ (wd / 2) ht None w1) as [r w2]. cbn [fst snd ret] in *.
  split_and!; [done|done|].
  exact (eq_trans (f_equal fst Hv1) (f_equal fst Hv)).
Qed.

Lemma enableScanout_display sc wd ht id (w : world T) :
  (display_view (w_gpu w)).1 = (true, id) -> id <> 0 ->
  let '(r, w') := enableScanout None sc wd ht w in
  (r, w_tr w') = submit_all [set_scanout_cmd sc id 0 0 wd ht] (w_tr w).
Proof.
  intros [= Hr Hd] Hid. unfold enableScanout, ready, bind, get_gpu, gets.
  rewrite Hr. cbn [negb]. cbv beta iota. rewrite Hd, (proj2 (Z.eqb_neq id 0) Hid). cbn [default]. 
  replace (if sc =? 1 then id else id) with id by by destruct (sc =? 1).
  unfold submit. cbn -[set_scanout_cmd].
  destruct (submit_cmd _ 24 (w_tr w)) as [[r resp] t]. cbn.
  destruct (is_success r) eqn:E; [|done]. by apply is_success_true in E as ->.
Qed.
End setup.

(** When [setupDisplayResource] succeeds, the display resource it records
    is the next id, tracked with the display's size and known to the host; the
    half-width resource it makes for large displays does not disturb it. As
    nothing sets the registry's secondary id, every scanout that
    [enableScanout] is then asked for, the second included, shows the first
    resource. *)
Theorem setupDisplayResource_ready T `{Host T} wd ht dp (w : world T) :
  pool_sound w -> 0 <= g_next_resource_id (w_gpu w) < 2 ^ 32 - 1 ->
  let '(r, w') := setupDisplayResource wd ht dp w in
  pool_sound w' /\
  (r = kIOReturnSuccess ->
     g_display_resource_id (w_gpu w') = g_next_resource_id (w_gpu w) + 1 /\ display_live wd ht w'
     /\ forall sc wd' ht', let '(r2, w2) := enableScanout None sc wd' ht' w' in
          (r2, w_tr w2) = submit_all [set_scanout_cmd sc (g_next_resource_id (w_gpu w) + 1) 0 0 wd' ht'] (w_tr w')).
Proof.
  intros Hs Hn. unfold setupDisplayResource, ready. unfold bind at 1, get_gpu at 1, gets at 1.
  destruct (g_pci_device (w_gpu w) && g_control_queue (w_gpu w)) eqn:Er; cbn [negb]; [|by split].
  unfold bind at 1, next_resource_id at 1. cbn -[createResource2D enableScanout submit_all].
  rewrite u32_small by lia. set (id := g_next_resource_id (w_gpu w) + 1).
  set (w1 := mk_world _ _ _). unfold bind at 1.
  pose proof (keeps_eq _ _ w1 (createResource2D_display id VIRTIO_GPU_FORMAT_B8G8R8A8_UNORM wd ht None)) as Hv.
  pose proof (sound_create2D id VIRTIO_GPU_FORMAT_B8G8R8A8_UNORM wd ht None w1 Hs) as Hs2.
  destruct (createResource2D id _ wd ht None w1) as [r w2] eqn:Ec. cbn [fst snd] in Hv, Hs2.
  destruct (is_success r) eqn:Es; cbn [negb].
  2: { apply is_success_false in Es. by split. }
  apply is_success_true in Es. subst r.
  destruct (display_live_first wd ht id w1 w2 Hs ltac:(unfold id; lia) Ec) as [_ Hl].
  unfold bind at 1. set (w3 := (upd_gpu _ w2).2) in *. change (upd_gpu _ w2) with (tt, w3).
  assert (Hv3 : display_view (w_gpu w3) = (true, id, id)).
  { injection Hv as E1 E2 E3. unfold display_view, w3. cbn. rewrite E1, E3. cbn. by rewrite Er. }
  assert (Hs3 : pool_sound w3) by exact Hs2.
  assert (Hdone : forall w4, pool_sound w4 -> display_live wd ht w4 ->
    (display_view (w_gpu w4)).1 = (true, id) ->
    pool_sound w4 /\ (kIOReturnSuccess = kIOReturnSuccess -> g_display_resource_id (w_gpu w4) = id
      /\ display_live wd ht w4 /\ forall sc wd' ht', let '(r2, w5) := enableScanout None sc wd' ht' w4 in
          (r2, w_tr w5) = submit_all [set_scanout_cmd sc id 0 0 wd' ht'] (w_tr w4))).
  { intros w4 H4 Hl4 Hv4. split; [done|]. intros _. split_and!; [exact (f_equal snd Hv4)|done|].
    intros sc wd' ht'. apply (enableScanout_display _ _ _ _ _ Hv4). unfold id. lia. }
  destruct ((1920 <=? wd) && (1080 <=? ht)); [|by apply Hdone; [..|rewrite Hv3]].
  destruct (display_live_secondary wd ht id w3 Hs3 Hl Hv3) as (H4 & Hl4 & Hv4).
  unfold bind at 1. destruct ((bind next_resource_id _) w3) as [u w4]. by apply Hdone.
Qed.

(** * Framebuffer, features, fences *)
(** The handover of the screen: [setscanout] succeeds exactly when the
    device is ready and the host accepts the command, and then tells the
    framebuffer (if there is one) whether a resource other than 0 and 1 has
    the scanout; a failed one leaves the framebuffer's flag alone, and so does
    every operation but [setscanout] and [setFramebuffer]. *)
Theorem scanout_handover T `{Transport T} (o : display_op) (w : world T) :
  g_framebuffer (w_gpu (do_display o w).2) =
  match o with
  | OpSetscanout sc res x y wd ht =>
      if g_pci_device (w_gpu w) && g_control_queue (w_gpu w)
         && is_success (submit_cmd (set_scanout_cmd sc res x y wd ht) 24 (w_tr w)).1.1
      then (fun _ => negb (res =? 0) && negb (res =? 1)) <$> g_framebuffer (w_gpu w)
      else g_framebuffer (w_gpu w)
  | OpSetFramebuffer f => f
  | _ => g_framebuffer (w_gpu w)
  end.
Proof.
  assert (Hk : forall A (m : M (world T) A), keeps (fun w => g_framebuffer (w_gpu w)) m ->
    g_framebuffer (w_gpu (m w).2) = g_framebuffer (w_gpu w)).
  { intros A m Hm. exact (keeps_eq _ m w Hm). }
  destruct o; try (apply Hk; cbn [do_display]; try match goal with o : res_op |- _ => destruct o end;
    cbn [do_op]; unfold quiet, create3DContext,
      initializeWebGLAcceleration, createRenderContext, destroy3DContext, destroyRenderContext,
      executeCommands, updateDisplay, initializeCommandHeader, setupScanout, setupDisplayResource,
      enableScanout, transferToHost2D, transferToHost3D, transferFromHost3D, flushResource,
      flushCommands, waitForIdle, enableVirgl, enableFeature, mapGuestMemory, allocateGPUMemory,
      allocateResource3D, probeResourceTracking, createResource2D, createResource3D, deallocateResource,
      next_resource_id, ready, supports3D, lock_contexts, unlock_contexts, lock_resources,
      unlock_resources, map_add; keeps_tac; fail).
  - cbn [do_display]. unfold quiet, setscanout, setScanoutTakenOverBy3D, ready, bind, get_gpu, gets, submit.
    destruct (g_pci_device (w_gpu w) && g_control_queue (w_gpu w)); cbn -[set_scanout_cmd]; [|done].
    destruct (submit_cmd (set_scanout_cmd _ _ _ _ _ _) 24 (w_tr w)) as [[r resp] t]. cbn.
    destruct (is_success r); [|done]. cbn. by rewrite andb_comm.
  - done.
Qed.

Lemma has_flag_lor f a b : has_flag f (Z.lor a b) = has_flag f a || has_flag f b.
Proof.
  unfold has_flag. rewrite Z.land_lor_distr_r, <- negb_andb. f_equal.
  apply eq_true_iff_eq. rewrite andb_true_iff, !Z.eqb_eq. apply Z.lor_eq_0_iff.
Qed.

(** Feature queries: the four branches and the fallback of
    [supportsFeature] amount to asking for 3D and for any of the flags virgl,
    resource blob and context init (the fallback is never taken), and
    nothing changes. *)
Theorem supportsFeature_spec T `{Transport T} flags (w : world T) :
  supportsFeature flags w =
  ((0 <? g_num_capsets (w_gpu w)) && negb (Z.land flags 25 =? 0), w).
Proof.
  unfold supportsFeature, supports3D, get_gpu, gets, bind, ret.
  change 25 with (Z.lor (Z.lor (Z.lor VIRTIO_GPU_FEATURE_3D VIRTIO_GPU_FEATURE_VIRGL)
         VIRTIO_GPU_FEATURE_RESOURCE_BLOB) VIRTIO_GPU_FEATURE_CONTEXT_INIT).
  fold (has_flag flags (Z.lor (Z.lor (Z.lor VIRTIO_GPU_FEATURE_3D VIRTIO_GPU_FEATURE_VIRGL)
         VIRTIO_GPU_FEATURE_RESOURCE_BLOB) VIRTIO_GPU_FEATURE_CONTEXT_INIT)).
  rewrite !has_flag_lor.
  by destruct (has_flag flags VIRTIO_GPU_FEATURE_3D), (has_flag flags VIRTIO_GPU_FEATURE_VIRGL),
    (has_flag flags VIRTIO_GPU_FEATURE_RESOURCE_BLOB), (has_flag flags VIRTIO_GPU_FEATURE_CONTEXT_INIT),
    (0 <? g_num_capsets (w_gpu w)).
Qed.

(** What the accelerator's barriers send: [flushCommands] a bare header
    that announces a context detach and carries no resource, which is no
    command; [waitForIdle] an empty submission with the next fence id, which
    is one. *)
Theorem barriers T `{Transport T} (w : world T) :
  g_is_mock_device (w_gpu w) = false -> 0 <= g_fence_id (w_gpu w) < 2 ^ 64 - 1 ->
  (exists c, w_tr (flushCommands w).2 = (submit_cmd c 24 (w_tr w)).2 /\ decode (encode c) = None)
  /\ (exists c, w_tr (waitForIdle w).2 = (submit_cmd c 24 (w_tr w)).2 /\ decode (encode c) = Some c
        /\ hdr_fence_id (cmd_hdr c) = g_fence_id (w_gpu w) + 1
        /\ g_fence_id (w_gpu (waitForIdle w).2) = g_fence_id (w_gpu w) + 1).
Proof.
  intros Hm Hf. unfold flushCommands, waitForIdle, get_gpu, gets, upd_gpu, modify, bind, submit, ret.
  rewrite Hm. split.
  - exists (CmdHdr (hdr_of VIRTIO_GPU_CMD_CTX_DETACH_RESOURCE)). split; [|reflexivity].
    by destruct (submit_cmd _ 24 (w_tr w)) as [[r resp] t].
  - cbn -[decode encode]. rewrite u64_small by lia.
    exists (CmdSubmit (mk_hdr VIRTIO_GPU_CMD_SUBMIT_3D VIRTIO_GPU_FLAG_FENCE (g_fence_id (w_gpu w) + 1) 0 0 0) 0 0 []).
    destruct (submit_cmd _ 24 (w_tr w)) as [[r resp] t]. cbn -[decode encode].
    split_and!; [done| |done|done].
    apply decode_encode_lemma. split; [|done]. unfold cmd_fields. cbn.
    rewrite !Forall_cons, Forall_nil. split_and!; try exact I; unfold field_ok; cbn; first [by split|lia].
Qed.

(** * Witnesses *)
Definition demo_ops : list display_op :=
  [OpCreateContext; OpSetupDisplay 1920 1080 32; OpEnableScanout None 1 960 1080;
   OpUpdate 0 2 0 0 64 64; OpExecute 1 (Some (mk_cmd_desc true true [1; 2; 3; 4])); OpCreateContext;
   OpRes (OpDeallocate 2); OpDestroyRender 1; OpWaitForIdle].

Lemma driver_unlocks_witness :
  locks (w_gpu (run_display demo_ops (demo_world [false; true; false])).2) = (Unlocked, Unlocked).
Proof. apply driver_unlocks. reflexivity. Defined.

Lemma driver_pool_sound_witness : pool_sound (run_display demo_ops (demo_world [])).2.
Proof. apply driver_pool_sound; [reflexivity|apply demo_world_sound]. Defined.

Lemma contexts_fresh_untracked_witness :
  (run_display demo_ops (demo_world [])).1 = [2; 3] /\ NoDup (run_display demo_ops (demo_world [])).1.
Proof.
  split; [vm_compute; reflexivity|].
  pose proof (contexts_fresh_untracked host_machine demo_ops (demo_world []) eq_refl
    ltac:(discriminate) ltac:(reflexivity)) as H.
  destruct (run_display demo_ops (demo_world [])) as [ids w']. destruct H as [H _]. exact H.
Defined.

Lemma executeCommands_spec_witness :
  let d := mk_cmd_desc true true [1; 2; 3; 4] in
  submittable (demo_world []) d = true
  /\ m_maps (w_mem (executeCommands 7 (Some d) (demo_world [])).2) = 0
  /\ exists c, hdr_ctx_id (cmd_hdr c) = 7 /\ decode (encode c) = Some c
      /\ hm_sent (w_tr (executeCommands 7 (Some d) (demo_world [])).2) = [c].
Proof.
  intros d. split; [reflexivity|].
  pose proof (executeCommands_spec host_machine 7 d (demo_world []) ltac:(split; [discriminate|reflexivity])
    ltac:(reflexivity)) as H.
  destruct (executeCommands 7 (Some d) (demo_world [])) as [r w'].
  destruct H as (_ & Hm & h & pad & Hh & Hc & Ht & _). split; [exact Hm|].
  exists (CmdSubmit h 4 pad (cd_data d)). split; [exact Hh|]. split; [exact Hc|]. exact (f_equal hm_sent Ht).
Defined.

Lemma executeCommands_stale_header_witness :
  exists block ring pad1 pad2,
    hm_sent (w_tr (executeCommands 1 (Some (mk_cmd_desc true true [9]))
      (mk_world demo_gpu (set_m_mallocs [Some block] demo_mem) (mk_host ∅ [] []))).2)
    = [CmdSubmit (mk_hdr VIRTIO_GPU_CMD_SUBMIT_3D VIRTIO_GPU_FLAG_FENCE 77 1 ring pad1) 1 pad2 [9]].
Proof.
  destruct (executeCommands_stale_header host_machine VIRTIO_GPU_FLAG_FENCE 77 1 (mk_cmd_desc true true [9])
    (demo_world []) [] ltac:(split; [discriminate|reflexivity]) ltac:(split; [discriminate|reflexivity])
    eq_refl eq_refl eq_refl ltac:(discriminate)) as (block & ring & p1 & p2 & H).
  exists block, ring, p1, p2. exact (f_equal hm_sent H).
Defined.

Lemma updateDisplay_spec_witness :
  let w := (setupDisplayResource 64 64 32 (demo_world [])).2 in
  exists cs, w_tr (updateDisplay 0 2 0 0 64 64 w).2 = (submit_all cs (w_tr w)).2
    /\ cs = update_commands 2 0 0 64 64.
Proof.
  intros w.
  pose proof (updateDisplay_spec host_machine 0 2 0 0 64 64 w
    ltac:(repeat constructor; (discriminate || reflexivity))) as H.
  destruct (updateDisplay 0 2 0 0 64 64 w) as [r w'] eqn:E.
  destruct H as (_ & _ & cs & Ht & Hr & _ & [(_ & _ & _ & _ & Hc)|[(Hx & _)|[(_ & Hx & _)|(_ & [Hx|Hx] & _)]]]);
    [exists cs; split; [exact Ht|exact Hc]|exfalso..].
  - apply Hx. reflexivity.
  - apply (Hx 0%nat). split; [discriminate|]. vm_compute. reflexivity.
  - discriminate Hx.
  - discriminate Hx.
Defined.

Lemma setupDisplayResource_ready_witness :
  let '(r, w) := setupDisplayResource 1920 1080 32 (demo_world []) in
  r = kIOReturnSuccess /\ display_live 1920 1080 w
  /\ w_tr (enableScanout None 1 960 1080 w).2
     = (submit_all [set_scanout_cmd 1 2 0 0 960 1080] (w_tr w)).2.
Proof.
  pose proof (setupDisplayResource_ready host_machine 1920 1080 32 (demo_world []) (demo_world_sound [])
    ltac:(split; [discriminate|reflexivity])) as H.
  destruct (setupDisplayResource 1920 1080 32 (demo_world [])) as [r w] eqn:E.
  assert (Hr : r = kIOReturnSuccess) by (vm_compute in E; congruence).
  destruct H as [_ H]. destruct (H Hr) as (_ & Hl & Hs). split; [exact Hr|]. split; [exact Hl|].
  specialize (Hs 1 960 1080). destruct (enableScanout None 1 960 1080 w) as [r2 w2]. exact (f_equal snd Hs).
Defined.

Lemma barriers_witness :
  exists c, hm_sent (w_tr (waitForIdle (demo_world [])).2) = [c] /\ hdr_fence_id (cmd_hdr c) = 1.
Proof.
  destruct (barriers host_machine (demo_world []) eq_refl ltac:(split; [discriminate|reflexivity]))
    as [_ (c & Ht & _ & Hf & _)].
  exists c. split; [rewrite Ht; reflexivity|exact Hf].
Defined.
