(* ===== verification/Bringup.v ===== *)
(** Bringing the device up: [initializeWithPCIDevice], [initVirtIOGPU] with
    what it calls, [cleanupVirtIOGPU] and [getVRAMRange] of
    [FB/VMVirtIOGPU.cpp]. This is where the capability walks, the mapping
    cache, the queue set-up and the driver's commands meet; a reference to a
    mapping is counted in [h_bars], a prepare or a reference of a buffer in
    [w_mem].

    The mappings made from a physical address ([withPhysicalAddress] and
    [map]), whether a mapping has a virtual address, the length of a device
    memory range and what the device's configuration registers hold after the
    register accesses so far are parameters. Sleeps and registry properties
    are left out. *)
From S2P Require Import Prelude Wire Transport Driver SplitQueue ControlQueue CursorQueue Pci Bars QueueSetup Resources Display.

Record machine (T : Type) := mk_machine {
  mc_hw : hw;
  mc_world : world T;
  mc_config_map : option mapping;
  mc_control_queue : option mdesc;
  mc_cursor_queue : option mdesc;
  mc_control_queue_size : Z;
  mc_cursor_queue_size : Z;
  mc_contexts : bool
}.
Arguments mk_machine {T}.
Arguments mc_hw {T}.
Arguments mc_world {T}.
Arguments mc_config_map {T}.
Arguments mc_control_queue {T}.
Arguments mc_cursor_queue {T}.
Arguments mc_control_queue_size {T}.
Arguments mc_cursor_queue_size {T}.
Arguments mc_contexts {T}.

Section setters.
Context {T : Type}.
Abbreviation B := (machine T).
Definition set_mc_hw (v : hw) (s : B) : B :=
  mk_machine v (mc_world s) (mc_config_map s) (mc_control_queue s) (mc_cursor_queue s) (mc_control_queue_size s) (mc_cursor_queue_size s) (mc_contexts s).
Definition set_mc_world (v : world T) (s : B) : B :=
  mk_machine (mc_hw s) v (mc_config_map s) (mc_control_queue s) (mc_cursor_queue s) (mc_control_queue_size s) (mc_cursor_queue_size s) (mc_contexts s).
Definition set_mc_config_map (v : option mapping) (s : B) : B :=
  mk_machine (mc_hw s) (mc_world s) v (mc_control_queue s) (mc_cursor_queue s) (mc_control_queue_size s) (mc_cursor_queue_size s) (mc_contexts s).
Definition set_mc_cursor_queue (v : option mdesc) (s : B) : B :=
  mk_machine (mc_hw s) (mc_world s) (mc_config_map s) (mc_control_queue s) v (mc_control_queue_size s) (mc_cursor_queue_size s) (mc_contexts s).
Definition set_mc_sizes (c k : Z) (s : B) : B :=
  mk_machine (mc_hw s) (mc_world s) (mc_config_map s) (mc_control_queue s) (mc_cursor_queue s) c k (mc_contexts s).
Definition set_mc_contexts (v : bool) (s : B) : B :=
  mk_machine (mc_hw s) (mc_world s) (mc_config_map s) (mc_control_queue s) (mc_cursor_queue s) (mc_control_queue_size s) (mc_cursor_queue_size s) v.
(** [m_control_queue]; the commands of [Display.v] only test it for null. *)
Definition set_mc_control_queue (v : option mdesc) (s : B) : B :=
  let w := mc_world s in
  mk_machine (mc_hw s) (mk_world (set_g_control_queue (bool_decide (is_Some v)) (w_gpu w)) (w_mem w) (w_tr w))
    (mc_config_map s) v (mc_cursor_queue s) (mc_control_queue_size s) (mc_cursor_queue_size s) (mc_contexts s).
End setters.

Definition SIZEOF_CTRL_HDR : Z := 24.
Definition LEGACY_NOTIFY : Z := 0x10.
Definition PAGE_SIZE : Z := 4096.
Definition DEFAULT_VRAM : Z := 512 * 1024 * 1024.

Section bringup.
Context {T : Type} `{Transport T}.
Abbreviation B := (machine T).
Context (dev : list ev -> Z -> Z -> Z).
Context (configRead8 configRead32 : Z -> Z).
Context (mapDev : Z -> option mapping) (getDev : Z -> option Z) (getDevLength : Z -> Z).
Context (virt : mapping -> bool) (direct_map : Z -> Z -> option mapping).
Context (config_by_phys : option (Z * Z)) (device_config : list ev -> Z * Z) (contexts_alloc : bool).
Context (fuel : nat).

Definition in_hw {A} (m : M hw A) : M B A :=
  fun s => let '(a, h) := m (mc_hw s) in (a, set_mc_hw h s).
Definition in_world {A} (m : M (world T) A) : M B A :=
  fun s => let '(a, w) := m (mc_world s) in (a, set_mc_world w s).
Definition pci_device : M B bool := in_world (get_gpu g_pci_device).

(** ** getVRAMRange *)
(** The sizes it takes for video memory. *)
Definition vram_size_ok (n : Z) : bool :=
  (4096 <=? n) && (n <=? 1024 * 1024 * 1024) && negb ((n <? 1024 * 1024) && (n =? 4096)).

(** The loop over the regions: the region's mapping, still referenced, and
    [vram_map] as the loop leaves it when it finds none. *)
Fixpoint vram_bars (n : nat) (bar : Z) (vram_map : option mapping) : M bars (bool * option mapping) :=
  match n with
  | O => ret (false, vram_map)
  | S k =>
      match vram_map with Some m => release_map m | None => ret tt end ;;;
      let! m := map_index mapDev bar in
      match m with
      | Some m =>
          if vram_size_ok (map_length m) then ret (true, Some m)
          else vram_bars k (bar + 1) (Some m)
      | None => vram_bars k (bar + 1) None
      end
  end.
Fixpoint vram_tries (n : nat) (vram_map : option mapping) : M bars (bool * option mapping) :=
  match n with
  | O => ret (false, vram_map)
  | S k =>
      let! r := vram_bars 6 0 vram_map in
      if r.1 then ret r else vram_tries k r.2
  end.

(** [IODeviceMemory::withRange] *)
Definition device_range (phys len : Z) : M (world T) (option mdesc) :=
  let! d := new_descriptor len in
  ret ((fun d => mk_mdesc (md_id d) len (md_prepare d) [(phys, len)]) <$> d).

Definition default_vram : M B (option mdesc) :=
  let! buffer := in_world (new_descriptor DEFAULT_VRAM) in
  match buffer with
  | None => ret None
  | Some b =>
      let phys := (default (0, 0) (head (md_segs b))).1 in
      let! range := in_world (device_range phys DEFAULT_VRAM) in
      in_world (release (md_id b)) ;;;
      ret range
  end.

Definition getVRAMRange : M B (option mdesc) :=
  let! pci := pci_device in
  if negb pci then ret None
  else
    let! r := in_hw (on_bars (vram_tries 3 None)) in
    match r with
    | (true, Some m) =>
        let! range := in_world (device_range (map_phys m) (map_length m)) in
        in_hw (on_bars (release_map m)) ;;;
        match range with Some d => ret (Some d) | None => default_vram end
    | (_, Some m) => in_hw (on_bars (release_map m)) ;;; default_vram
    | (_, None) => default_vram
    end.

(** ** The queue buffers *)
Definition setOptimalQueueSizes : M B bool :=
  let! three_d := in_world supports3D in
  let optimal_control := if three_d then 512 else 256 in
  let optimal_cursor := 16 in
  let max_memory := 64 * 1024 in
  let cap n := if max_memory <? n * SIZEOF_CTRL_HDR then max_memory / SIZEOF_CTRL_HDR else n in
  modify (set_mc_sizes (cap optimal_control) (cap optimal_cursor)) ;;;
  ret true.

Definition setupVirtIOHardwareQueues (control cursor : mdesc) : M B bool :=
  let! control_ret := in_world (prepare control) in
  let! cursor_ret := in_world (prepare cursor) in
  ret (is_success control_ret && is_success cursor_ret).

(** A null member is allocated; the buffer, and whether it is new. *)
Definition control_buffer : M B (option mdesc) :=
  let! q := gets mc_control_queue in
  match q with
  | Some d => ret (Some d)
  | None =>
      let! n := gets mc_control_queue_size in
      let! d := in_world (new_descriptor (n * SIZEOF_CTRL_HDR)) in
      modify (set_mc_control_queue d) ;;; ret d
  end.
Definition cursor_buffer : M B (option mdesc) :=
  let! q := gets mc_cursor_queue in
  match q with
  | Some d => ret (Some d)
  | None =>
      let! n := gets mc_cursor_queue_size in
      let! d := in_world (new_descriptor (n * SIZEOF_CTRL_HDR)) in
      modify (set_mc_cursor_queue d) ;;; ret d
  end.

Definition initializeVirtIOQueues : M B bool :=
  let! pci := pci_device in
  if negb pci then ret false
  else
    let! control := gets mc_control_queue in
    let! cursor := gets mc_cursor_queue in
    match control, cursor with
    | Some _, Some _ => ret true
    | _, _ =>
        let! ok := setOptimalQueueSizes in
        if negb ok then ret false
        else
          let! control := control_buffer in
          match control with
          | None => ret false
          | Some c =>
              let! cursor := cursor_buffer in
              match cursor with
              | None =>
                  in_world (release (md_id c)) ;;;
                  modify (set_mc_control_queue None) ;;;
                  ret false
              | Some k => setupVirtIOHardwareQueues c k
              end
          end
    end.

(** ** The notify region *)
Definition set_notify (f : notify -> notify) : M B unit :=
  in_hw (upd_cq (fun q => set_cq_notify (f (cq_notify q)) q)).
(** [m_notify_map]: the old mapping is dropped as it is. *)
Definition set_notify_map (m : option mapping) : M B unit :=
  in_hw (modify (set_h_notify_map m)) ;;;
  set_notify (fun n => mk_notify (n_base n) (bool_decide (is_Some m)) (n_cap_offset n) (n_off_multiplier n)).
Definition set_cap_offset (off : Z) : M B unit :=
  set_notify (fun n => mk_notify (n_base n) (n_map n) off (n_off_multiplier n)).

(** The page the direct mapping asks for, and the register's offset in it;
    [None]: one of the safety checks fails. *)
Definition direct_page (phys total notify_offset : Z) : option (Z * Z) :=
  if (phys =? 0) || (phys <? 0x1000) || (0xFFFFFFFFFFFF <? phys) then None
  else if (0 <? total) && (total <? u32 (notify_offset + 0x1000)) then None
  else if 0x100000 <? notify_offset then None
  else
    let target := u64 (phys + notify_offset) in
    let page_base := Z.land target (Z.lxor 0xFFFFFFFFFFFFFFFF (PAGE_SIZE - 1)) in
    let page_offset := target - page_base in
    if (page_base <? phys) || (phys + total <? page_base + (page_offset + 4)) then None
    else Some (page_base, page_offset).

Definition contexts_ready : M B bool :=
  let! c := gets mc_contexts in
  if c then ret true
  else modify (set_mc_contexts contexts_alloc) ;;; ret contexts_alloc.

(** What follows once [notify_offset] is settled. *)
Definition regions_done (notify_offset : Z) : M B bool :=
  set_cap_offset notify_offset ;;; contexts_ready.

Definition bar0_fallback : M B bool :=
  let! old := gets (fun s => h_notify_map (mc_hw s)) in
  match old with Some m => in_hw (on_bars (release_map m)) | None => ret tt end ;;;
  let! m := in_hw (on_bars (map_index mapDev 0)) in
  set_notify_map m ;;;
  match m with
  | None => ret false
  | Some _ => regions_done LEGACY_NOTIFY
  end.

Definition direct_notify (index notify_offset : Z) : M B bool :=
  match getDev index with
  | None => bar0_fallback
  | Some phys =>
      match direct_page phys (getDevLength index) notify_offset with
      | None => bar0_fallback
      | Some (page_base, page_offset) =>
          match direct_map page_base (page_offset + 4) with
          | None => bar0_fallback
          | Some d =>
              in_hw (on_bars (retain_map d)) ;;;
              if virt d then
                let! old := gets (fun s => h_notify_map (mc_hw s)) in
                match old with Some m => in_hw (on_bars (release_map m)) | None => ret tt end ;;;
                set_notify_map (Some d) ;;;
                set_cap_offset (u32 page_offset) ;;;
                ret true
              else in_hw (on_bars (release_map d)) ;;; bar0_fallback
          end
      end
  end.

(** [None]: the capability walk has not ended. *)
Definition setupGPUMemoryRegions : M B (option bool) :=
  set_notify (fun n => mk_notify false (n_map n) (n_cap_offset n) (n_off_multiplier n)) ;;;
  let! pci := pci_device in
  if negb pci then ret (Some false)
  else match findVirtIOCapability configRead8 configRead32 fuel true VIRTIO_PCI_CAP_NOTIFY_CFG with
  | None => ret None
  | Some found =>
      let '(bar, notify_offset) :=
        match found with
        | Some c => (cap_bar c, cap_offset c)
        | None => (0, LEGACY_NOTIFY)
        end in
      let! r := in_hw (on_bars (mapBarByNumber configRead32 mapDev true true bar)) in
      set_notify_map r.1 ;;;
      match r.1 with
      | None => ret (Some false)
      | Some m =>
          let! ok :=
            (if negb (map_length m <? u32 (notify_offset + 4)) && virt m
             then regions_done notify_offset
             else direct_notify (default (-1) r.2) notify_offset) in
          ret (Some ok)
      end
  end.

(** ** enable3DAcceleration *)
Definition enable3DAcceleration : M B unit :=
  let! pci := pci_device in
  if negb pci then ret tt
  else
    let! n := in_world (get_gpu g_num_capsets) in
    if n =? 0 then ret tt
    else
      let! ok := initializeVirtIOQueues in
      if negb ok then ret tt
      else
        let! three_d := in_world supports3D in
        if negb three_d then ret tt
        else
          let! feature_result := in_world (enableFeature VIRTIO_GPU_FEATURE_3D) in
          if negb (is_success feature_result) then ret tt
          else
            (if three_d then in_world enableVirgl else ret tt) ;;;
            in_world enableResourceBlob ;;;
            in_world initializeWebGLAcceleration ;;;
            ret tt.

(** ** initVirtIOGPU *)
(** The device's first initialisation, made to read its configuration: the
    status writes through the mapping of the common configuration. The BAR
    number is used as an IOKit index. *)
Definition handshake : list ev :=
  (fun v => Wr 8 VIRTIO_COMMON_DEVICE_STATUS v) <$>
    [0; VIRTIO_STATUS_ACKNOWLEDGE; Z.lor VIRTIO_STATUS_ACKNOWLEDGE VIRTIO_STATUS_DRIVER;
     Z.lor (Z.lor VIRTIO_STATUS_ACKNOWLEDGE VIRTIO_STATUS_DRIVER) VIRTIO_STATUS_DRIVER_OK].
Definition early_init : M hw (option unit) :=
  match findVirtIOCapability configRead8 configRead32 fuel true VIRTIO_PCI_CAP_COMMON_CFG with
  | None => ret None
  | Some None => ret (Some tt)
  | Some (Some c) =>
      let! m := on_bars (map_index mapDev (cap_bar c)) in
      match m with
      | None => ret (Some tt)
      | Some m =>
          (if negb (map_length m <? u32 (cap_offset c + 24)) && virt m
           then modify (fun h => set_h_trace (h_trace h ++ handshake) h)
           else ret tt) ;;;
          on_bars (release_map m) ;;;
          ret (Some tt)
      end
  end.

Definition set_config (e : config_env) : M B unit :=
  let '(scanouts, capsets) := init_config e in
  in_world (upd_gpu (fun g => set_g_num_capsets capsets (set_g_max_scanouts scanouts g))).

(** Up to the device configuration; the decision is [init_config]'s. The
    boolean tells whether the function goes on to the queues. *)
Definition read_device_config : M B (option bool) :=
  match findVirtIOCapability configRead8 configRead32 fuel true VIRTIO_PCI_CAP_DEVICE_CFG with
  | None => ret None
  | Some None => set_config (mk_config_env None None None (0, 0)) ;;; ret (Some false)
  | Some (Some c) =>
      let! r := in_hw (on_bars (mapBarByNumber configRead32 mapDev true false (cap_bar c))) in
      modify (set_mc_config_map r.1) ;;;
      let mapped := (fun m => (virt m, map_length m)) <$> r.1 in
      let in_bounds := match mapped with
                       | Some (true, size) => negb (size <? cap_offset c + SIZEOF_VIRTIO_GPU_CONFIG)
                       | _ => false
                       end in
      let! early := (if in_bounds then in_hw early_init else ret (Some tt)) in
      match early with
      | None => ret None
      | Some _ =>
          let! hw_values := gets (fun s => device_config (h_trace (mc_hw s))) in
          set_config (mk_config_env (Some c) mapped config_by_phys hw_values) ;;;
          ret (Some true)
      end
  end.

(** The rest: queues, notify region, 3D. *)
Definition bring_up_queues : M B (option bool) :=
  let! up := in_hw (setupControlVirtQueue dev configRead8 configRead32 mapDev getDev fuel true) in
  match up with
  | None => ret None
  | Some _ =>
      let! ok := initializeVirtIOQueues in
      if negb ok then ret (Some false)
      else
        let! regions := setupGPUMemoryRegions in
        match regions with
        | None => ret None
        | Some _ => enable3DAcceleration ;;; ret (Some true)
        end
  end.

Definition initVirtIOGPU : M B (option bool) :=
  let! more := read_device_config in
  match more with
  | None => ret None
  | Some false => ret (Some true)
  | Some true => bring_up_queues
  end.

Definition initializeWithPCIDevice (pciDevice : bool) : M B (option bool) :=
  if negb pciDevice then ret (Some false)
  else
    in_world (upd_gpu (set_g_pci_device true)) ;;;
    let! ok := initVirtIOGPU in
    match ok with
    | Some false => in_world (upd_gpu (set_g_pci_device false)) ;;; ret (Some false)
    | o => ret o
    end.

(** ** cleanupVirtIOGPU *)
Definition cleanupVirtIOGPU : M B unit :=
  in_hw teardownControlVirtQueue ;;;
  let! control := gets mc_control_queue in
  match control with Some d => in_world (release (md_id d)) ;;; modify (set_mc_control_queue None) | None => ret tt end ;;;
  let! cursor := gets mc_cursor_queue in
  match cursor with Some d => in_world (release (md_id d)) ;;; modify (set_mc_cursor_queue None) | None => ret tt end ;;;
  let! config := gets mc_config_map in
  match config with Some m => in_hw (on_bars (release_map m)) ;;; modify (set_mc_config_map None) | None => ret tt end ;;;
  let! notify := gets (fun s => h_notify_map (mc_hw s)) in
  match notify with Some m => in_hw (on_bars (release_map m)) ;;; set_notify_map None | None => ret tt end.
End bringup.

(** * References to mappings *)
(** One reference, when the pointer is to that mapping. *)
Definition held_by (id : Z) (o : option mapping) : Z :=
  match o with Some m => if decide (id = map_id m) then 1 else 0 | None => 0 end.
Definition cached (id : Z) (b : bars) : Z := foldr (fun o n => held_by id o + n) 0 (b_maps b).
(** The references beyond the cache's. *)
Definition loose (id : Z) (b : bars) : Z := refs id b - cached id b.

Lemma cached_insert id l i m :
  l !! i = Some None ->
  foldr (fun o n => held_by id o + n) 0 (<[i := Some m]> l)
  = foldr (fun o n => held_by id o + n) 0 l + held_by id (Some m).
Proof.
  revert i. induction l as [|o l IH]; intros [|i] Hi; try done.
  - injection Hi as ->. cbn -[held_by]. change (held_by id None) with 0. lia.
  - cbn -[held_by]. rewrite <- Z.add_assoc. f_equal. by apply IH.
Qed.

Lemma loose_add_ref id d m b : loose id (add_ref d m b) = loose id b + d * held_by id (Some m).
Proof. unfold loose, cached. rewrite refs_add_ref. cbn. case_decide; lia. Qed.

(** A method that moves a measure by an amount its result tells. *)
Definition six (b : bars) : Prop := length (b_maps b) = 6%nat.
Definition shifts {A} (id : Z) (m : M bars A) (f : A -> Z) : Prop :=
  forall b, six b -> let '(a, b') := m b in six b' /\ loose id b' = loose id b + f a.

Lemma shifts_ret {A} id (a : A) f : f a = 0 -> shifts id (ret a) f.
Proof. intros Hf b Hb. cbn. split; [done|lia]. Qed.
Lemma shifts_bind {A C} id (m : M bars A) (k : A -> M bars C) f g :
  shifts id m f -> (forall a, shifts id (k a) (fun c => g c - f a)) -> shifts id (bind m k) g.
Proof.
  intros Hm Hk b Hb. unfold bind. specialize (Hm b Hb). destruct (m b) as [a b1]. destruct Hm as [Hb1 H1].
  specialize (Hk a b1 Hb1). destruct (k a b1) as [c b2]. destruct Hk as [Hb2 H2]. split; [done|lia].
Qed.
Lemma shifts_map_index id mapDev i : shifts id (map_index mapDev i) (held_by id).
Proof.
  intros b Hb. unfold map_index. destruct (mapDev i) as [m|]; cbn -[held_by]; (split; [done|]);
    rewrite ?loose_add_ref; unfold held_by; lia.
Qed.
Lemma shifts_release_map id m : shifts id (release_map m) (fun _ => - held_by id (Some m)).
Proof. intros b Hb. cbn -[held_by]. split; [done|]. rewrite loose_add_ref. lia. Qed.
Lemma shifts_retain_map id m : shifts id (retain_map m) (fun _ => held_by id (Some m)).
Proof. intros b Hb. cbn -[held_by]. split; [done|]. rewrite loose_add_ref. lia. Qed.

Lemma gained_loose id b b' o d :
  b_maps b' = b_maps b -> gained o d b b' -> loose id b' = loose id b + d * held_by id o.
Proof.
  intros Hb Hg. unfold loose, cached. rewrite Hb, Hg. unfold held_by. repeat case_match; lia.
Qed.
Lemma shifts_find_index id mapDev n i phys :
  shifts id (find_index mapDev n i phys) (fun o => held_by id (snd <$> o)).
Proof.
  intros b Hb. pose proof (find_index_spec mapDev n i phys b) as Hf.
  destruct (find_index mapDev n i phys b) as [o b1]. destruct Hf as (Hm & Hg & _).
  split; [unfold six; by rewrite Hm|]. rewrite (gained_loose id _ _ _ _ Hm Hg). lia.
Qed.

Lemma shifts_mapBarByNumber id r32 mapDev want bar :
  shifts id (mapBarByNumber r32 mapDev true want bar) (fun r => held_by id r.1).
Proof.
  intros b Hb. unfold mapBarByNumber. cbn [negb orb]. destruct (Z.leb_spec 6 bar); [cbn; split; [done|lia]|].
  unfold bind at 1, gets at 1. destruct (b_maps b !! Z.to_nat bar) as [[m|]|] eqn:E.
  - revert b Hb E. intros b Hb _. revert b Hb.
    change (shifts id (bind (if want then bind (find_index mapDev 6 0 (map_phys m)) (fun f =>
      match f with Some (i, t) => release_map t ;;; ret (Some i) | None => ret None end) else ret None)
      (fun idx => retain_map m ;;; ret (Some m, idx))) (fun r => held_by id r.1)).
    apply (shifts_bind _ _ _ (fun _ => 0)).
    + destruct want; [|by apply shifts_ret]. eapply shifts_bind; [apply shifts_find_index|].
      intros [[i t]|]; cbn -[held_by]; [|by apply shifts_ret].
      eapply shifts_bind; [apply shifts_release_map|]. intros ?. apply shifts_ret. lia.
    + intros idx. eapply shifts_bind; [apply shifts_retain_map|]. intros ?. apply shifts_ret. cbn -[held_by]. lia.
  - destruct (bar_phys r32 bar) as [phys|]; [|cbn; split; [done|lia]].
    unfold bind. pose proof (find_index_spec mapDev 6 0 phys b) as Hf.
    destruct (find_index mapDev 6 0 phys b) as [[[j m]|] b1]; destruct Hf as (Hm & Hg & _); cbn -[held_by].
    2: { split; [unfold six; by rewrite Hm|]. rewrite (gained_loose id _ _ _ _ Hm Hg). unfold held_by. cbn. lia. }
    split; [unfold six; cbn; by rewrite length_insert, Hm|]. rewrite loose_add_ref.
    pose proof (gained_loose id _ _ _ _ Hm Hg) as Hl. cbn -[held_by] in Hl.
    unfold loose, cached in *. cbn -[held_by]. rewrite cached_insert by (by rewrite Hm).
    unfold refs at 1. cbn -[held_by]. change (default 0 (b_refs b1 !! id)) with (refs id b1). lia.
  - apply lookup_ge_None in E. unfold six in Hb. lia.
Qed.

Lemma shifts_readCommonConfig id r8 r32 mapDev getDev fuel :
  shifts id (readCommonConfig r8 r32 mapDev getDev fuel true)
    (fun o => match o with Some (Some (_, _, m)) => held_by id (Some m) | _ => 0 end).
Proof.
  intros b Hb. pose proof (readCommonConfig_gains r8 r32 mapDev getDev fuel b) as Hc.
  destruct (readCommonConfig r8 r32 mapDev getDev fuel true b) as [o b']. destruct Hc as [Hm Hg].
  split; [unfold six; by rewrite Hm|].
  destruct o as [[[[bar off] m]|]|];
    [destruct Hg as [Hg _]; rewrite (gained_loose id _ _ _ _ Hm Hg); lia|..];
    rewrite (gained_loose id _ _ _ _ Hm Hg); lia.
Qed.

(** The mappings the hardware side holds, which most of the queue set-up
    leaves alone. *)
Definition maps_of (h : hw) := (h_bars h, h_notify_map h, h_common_map h).
Lemma maps_emit e : keeps maps_of (emit e).
Proof. by apply keeps_modify. Qed.
Lemma maps_upd_cq f : keeps maps_of (upd_cq f).
Proof. by apply keeps_modify. Qed.
Lemma maps_upd_cur f : keeps maps_of (upd_cur f).
Proof. by apply keeps_modify. Qed.
Lemma maps_alloc b : keeps maps_of (alloc b).
Proof. intros v h Hv. unfold alloc. by destruct (h_allocs h) as [|[p|] l]. Qed.
#[export] Hint Resolve maps_emit maps_upd_cq maps_upd_cur maps_alloc : keeps.
Lemma maps_negotiateFeatures dev : keeps maps_of (negotiateFeatures dev).
Proof. unfold negotiateFeatures. keeps_tac. Qed.
Lemma maps_write_addresses phys l : keeps maps_of (write_addresses phys l).
Proof. unfold write_addresses. keeps_tac. Qed.
#[export] Hint Resolve maps_negotiateFeatures maps_write_addresses : keeps.
Lemma maps_setup_mapped dev : keeps maps_of (setup_mapped dev).
Proof. unfold setup_mapped, setup_ring, setup_buffers, setupCursorQueue. keeps_tac. Qed.
Lemma maps_drop_buf present clear b complete :
  (forall h, maps_of (clear h) = maps_of h) -> keeps maps_of (drop_buf present clear b complete).
Proof. intros Hc. unfold drop_buf. keeps_tac. by apply keeps_modify. Qed.
#[export] Hint Resolve maps_setup_mapped : keeps.
#[export] Hint Extern 2 (keeps _ (drop_buf _ _ _ _)) => apply maps_drop_buf; reflexivity : keeps.

(** ** The ledger
    [led id n c k x]: the notify, common and configuration mappings are [n],
    [c] and [k], and [x] references to [id] are held beyond the cache's. *)
Section ledger.
Context {T : Type} `{Transport T}.
Abbreviation B := (machine T).

Definition ledger (s : B) :=
  (h_bars (mc_hw s), h_notify_map (mc_hw s), h_common_map (mc_hw s), mc_config_map s).
Definition led (id : Z) (n c k : option mapping) (x : Z) (s : B) : Prop :=
  exists b, ledger s = (b, n, c, k) /\ six b /\ loose id b = x.

Lemma led_eq id n c k x x' s : led id n c k x s -> x = x' -> led id n c k x' s.
Proof. by intros ? <-. Qed.
Lemma led_keep {A} id n c k x (m : M B A) : keeps ledger m -> preserves (led id n c k x) m.
Proof.
  intros Hm s (b & Hs & Hb). pose proof (keeps_eq _ m s Hm) as E. destruct (m s) as [a s']. cbn [snd] in E.
  exists b. split; [exact (eq_trans E Hs)|exact Hb].
Qed.
Lemma led_still {A C} id n c k x (m : M B A) (kont : A -> M B C) Q :
  keeps ledger m -> (forall a, hoare (led id n c k x) (kont a) Q) ->
  hoare (led id n c k x) (bind m kont) Q.
Proof.
  intros Hm Hk. eapply hoare_bind; [|exact Hk]. by apply led_keep.
Qed.
Lemma led_bars {A C} id n c k x (m : M bars A) f (kont : A -> M B C) Q :
  shifts id m f -> (forall a, hoare (led id n c k (x + f a)) (kont a) Q) ->
  hoare (led id n c k x) (bind (in_hw (on_bars m)) kont) Q.
Proof.
  intros Hm Hk s (b & Hs & Hb & Hx). unfold bind, in_hw, on_bars. injection Hs as Es En Ec Ek.
  specialize (Hm (h_bars (mc_hw s))). rewrite Es in Hm. specialize (Hm Hb).
  rewrite Es. destruct (m b) as [a b']. destruct Hm as [Hb' Hx']. apply (Hk a).
  exists b'. unfold ledger. cbn. rewrite En, Ec, Ek. split_and!; [done|done|lia].
Qed.
Lemma led_ret {A} x' id n c k x (a : A) (Q : A -> B -> Prop) :
  x = x' -> (forall s, led id n c k x' s -> Q a s) -> hoare (led id n c k x) (ret a) Q.
Proof. intros -> HQ s Hs. by apply HQ. Qed.
Lemma led_set_notify {C} id n m c k x (kont : unit -> M B C) Q :
  hoare (led id m c k x) (kont tt) Q -> hoare (led id n c k x) (bind (set_notify_map m) kont) Q.
Proof.
  intros Hk s (b & Hs & Hb). unfold bind. apply Hk. exists b. injection Hs as Es En Ec Ek.
  split; [|done]. unfold ledger. cbn. by rewrite Es, Ec, Ek.
Qed.
Lemma led_set_config {C} id n m c k x (kont : unit -> M B C) Q :
  hoare (led id n c m x) (kont tt) Q -> hoare (led id n c k x) (bind (modify (set_mc_config_map m)) kont) Q.
Proof.
  intros Hk s (b & Hs & Hb). unfold bind. apply Hk. exists b. injection Hs as Es En Ec Ek.
  split; [|done]. unfold ledger. cbn. by rewrite Es, En, Ec.
Qed.
Lemma led_get_notify {C} id n c k x (kont : option mapping -> M B C) Q :
  hoare (led id n c k x) (kont n) Q ->
  hoare (led id n c k x) (bind (gets (fun s => h_notify_map (mc_hw s))) kont) Q.
Proof. intros Hk s Hs. pose proof Hs as (b & E & _). injection E as _ En _ _. unfold bind, gets. rewrite En. by apply Hk. Qed.
Lemma led_get_config {C} id n c k x (kont : option mapping -> M B C) Q :
  hoare (led id n c k x) (kont k) Q -> hoare (led id n c k x) (bind (gets mc_config_map) kont) Q.
Proof. intros Hk s Hs. pose proof Hs as (b & E & _). injection E as _ _ _ Ek. unfold bind, gets. rewrite Ek. by apply Hk. Qed.

(** Methods of the hardware side, seen from the machine. *)
Lemma in_hw_bind {A C D} (P : B -> Prop) (m : M hw A) (k : A -> M hw C) (kont : C -> M B D) Q :
  hoare P (bind (in_hw m) (fun a => bind (in_hw (k a)) kont)) Q -> hoare P (bind (in_hw (bind m k)) kont) Q.
Proof.
  intros Hm s Hs. specialize (Hm s Hs). unfold bind, in_hw in *. destruct (m (mc_hw s)) as [a h]. cbn in *.
  by destruct (k a h).
Qed.
Lemma in_hw_ret {A D} (P : B -> Prop) (a : A) (kont : A -> M B D) Q :
  hoare P (kont a) Q -> hoare P (bind (in_hw (ret a)) kont) Q.
Proof. intros Hk s Hs. unfold bind, in_hw, ret. destruct s. by apply Hk. Qed.
Lemma keeps_in_hw {A} (m : M hw A) :
  keeps maps_of m -> keeps ledger (in_hw m).
Proof.
  intros Hm v s Hs. unfold in_hw. pose proof (keeps_eq _ m (mc_hw s) Hm) as E.
  destruct (m (mc_hw s)) as [a h]. cbn in E. rewrite <- Hs. unfold ledger. cbn. by injection E as -> -> ->.
Qed.
Lemma keeps_in_world {A} (m : M (world T) A) : keeps ledger (in_world m).
Proof. intros v s Hs. unfold in_world. by destruct (m (mc_world s)). Qed.
Lemma led_hw_get {A C} id n c k x (f : hw -> A) a (kont : A -> M B C) Q :
  (forall h, h_notify_map h = n -> h_common_map h = c -> f h = a) ->
  hoare (led id n c k x) (kont a) Q -> hoare (led id n c k x) (bind (in_hw (gets f)) kont) Q.
Proof.
  intros Hf Hk s Hs. pose proof Hs as (b & E & _). injection E as Eb En Ec _.
  unfold bind, in_hw, gets. rewrite (Hf _ En Ec). destruct s. by apply Hk.
Qed.
Lemma led_hw_set {C} id n c k x n' c' f (kont : unit -> M B C) Q :
  (forall h, h_notify_map h = n -> h_common_map h = c -> maps_of (f h) = (h_bars h, n', c')) ->
  hoare (led id n' c' k x) (kont tt) Q -> hoare (led id n c k x) (bind (in_hw (modify f)) kont) Q.
Proof.
  intros Hf Hk s (b & E & Hb). injection E as Eb En Ec Ek. specialize (Hf _ En Ec).
  unfold bind, in_hw, modify. apply Hk. exists b. split; [|done].
  unfold maps_of in Hf. injection Hf as H1 H2 H3. unfold ledger. cbn. by rewrite H1, H2, H3, Eb, Ek.
Qed.
Lemma led_hw_get' {A C} id n c k x (f : hw -> A) (kont : A -> M B C) Q :
  (forall a, hoare (led id n c k x) (kont a) Q) -> hoare (led id n c k x) (bind (in_hw (gets f)) kont) Q.
Proof.
  intros Hk s Hs. unfold bind, in_hw, gets. specialize (Hk (f (mc_hw s)) s Hs). by destruct s.
Qed.
Lemma hoare_last_step {A} (P : B -> Prop) (m : M B A) Q : hoare P (bind m ret) Q -> hoare P m Q.
Proof. intros Hm s Hs. specialize (Hm s Hs). unfold bind in Hm. by destruct (m s). Qed.
Lemma bind_assoc {A C D} (P : B -> Prop) (m : M B A) (k : A -> M B C) (l : C -> M B D) Q :
  hoare P (bind m (fun a => bind (k a) l)) Q -> hoare P (bind (bind m k) l) Q.
Proof. intros Hm s Hs. specialize (Hm s Hs). unfold bind in *. by destruct (m s). Qed.
End ledger.

#[export] Hint Resolve keeps_in_world : keeps.
#[export] Hint Extern 2 (keeps ledger (in_hw _)) => apply keeps_in_hw; solve [keeps_tac] : keeps.

(** Walk a method of the bring-up, rule by rule. *)
Ltac led_step :=
  first
    [ apply led_get_notify | apply led_get_config | apply led_set_notify | apply led_set_config
    | eapply led_bars; [first [ apply shifts_map_index | apply shifts_release_map | apply shifts_retain_map
                              | apply shifts_mapBarByNumber | apply shifts_readCommonConfig ]
                       |intros ?; cbn beta iota]
    | apply in_hw_bind | apply in_hw_ret | apply bind_assoc
    | eapply led_still; [solve [keeps_tac]|intros ?] ].

Section ledgers.
Context {T : Type} `{Transport T}.
Abbreviation B := (machine T).
Context (dev : list ev -> Z -> Z -> Z).
Context (r8 r32 : Z -> Z) (mapDev : Z -> option mapping) (getDev : Z -> option Z) (getDevLength : Z -> Z).
Context (virt : mapping -> bool) (direct_map : Z -> Z -> option mapping).
Context (by_phys : option (Z * Z)) (device_config : list ev -> Z * Z) (contexts_alloc : bool).
Context (fuel : nat).

(** The lost mapping of [setupGPUMemoryRegions]. *)
Definition led_region (id : Z) c k x : bool -> B -> Prop :=
  fun _ s => exists n, led id n c k (x + held_by id n) s.

Lemma contexts_ready_led id n c k x :
  hoare (led id n c k (x + held_by id n)) (contexts_ready contexts_alloc) (led_region id c k x).
Proof.
  unfold contexts_ready. eapply led_still; [solve [keeps_tac]|intros [|]].
  - apply (led_ret _ _ _ _ _ _ _ _ eq_refl). intros s Hs. by exists n.
  - eapply led_still; [solve [keeps_tac]|intros ?]. apply (led_ret _ _ _ _ _ _ _ _ eq_refl). intros s Hs. by exists n.
Qed.
Lemma regions_done_led id off n c k x :
  hoare (led id n c k (x + held_by id n)) (regions_done contexts_alloc off) (led_region id c k x).
Proof. unfold regions_done, set_cap_offset, set_notify. led_step. apply contexts_ready_led. Qed.

Lemma bar0_fallback_led id n c k x :
  hoare (led id n c k x) (bar0_fallback mapDev contexts_alloc) (led_region id c k (x - held_by id n)).
Proof.
  unfold bar0_fallback. led_step.
  apply (hoare_bind _ _ _ (fun _ => led id n c k (x - held_by id n))).
  { apply hoare_last_step. destruct n as [m|].
    - led_step. eapply led_ret; [|done]; cbn -[held_by]; lia.
    - led_step. eapply led_ret; [|done]; cbn; lia. }
  intros _. led_step. led_step. destruct a as [m|]; [apply regions_done_led|].
  apply (led_ret (x - held_by id n)); [cbn; lia|]. intros s Hs. exists None.
  cbn. by rewrite Z.add_0_r.
Qed.

Lemma direct_notify_led id off index n c k x :
  hoare (led id n c k x)
    (direct_notify mapDev getDev getDevLength virt direct_map contexts_alloc index off)
    (led_region id c k (x - held_by id n)).
Proof.
  unfold direct_notify. destruct (getDev index) as [phys|]; [|apply bar0_fallback_led].
  destruct (direct_page phys (getDevLength index) off) as [[base po]|]; [|apply bar0_fallback_led].
  destruct (direct_map base (po + 4)) as [d|]; [|apply bar0_fallback_led].
  led_step. destruct (virt d).
  - led_step. apply (hoare_bind _ _ _ (fun _ => led id n c k (x + held_by id (Some d) - held_by id n))).
    { apply hoare_last_step. destruct n as [m|].
      - led_step. eapply led_ret; [|done]; cbn -[held_by]; lia.
      - led_step. eapply led_ret; [|done]; cbn; lia. }
    intros _. led_step. unfold set_cap_offset, set_notify. led_step.
    apply (led_ret (x - held_by id n + held_by id (Some d))); [lia|]. intros s Hs. by exists (Some d).
  - led_step. replace (x + held_by id (Some d) + - held_by id (Some d)) with x by lia. apply bar0_fallback_led.
Qed.

(** [m_pci_device] is set. *)
Definition has_pci (s : B) : Prop := g_pci_device (w_gpu (mc_world s)) = true.
Definition pci_of (s : B) : bool := g_pci_device (w_gpu (mc_world s)).

Lemma hoare_pci {C} (P : B -> Prop) (kont : bool -> M B C) Q :
  hoare (fun s => P s /\ has_pci s) (kont true) Q -> hoare (fun s => P s /\ has_pci s) (bind pci_device kont) Q.
Proof.
  intros Hk s [Hs Hp]. unfold bind, pci_device, in_world, get_gpu, gets. rewrite Hp. destruct s. by apply Hk.
Qed.
Lemma hoare_drop {A} (P P' : B -> Prop) (m : M B A) Q : hoare P m Q -> hoare (fun s => P s /\ P' s) m Q.
Proof. intros Hm s [Hs _]. by apply Hm. Qed.
Lemma hoare_bind_and {A C} (P I : B -> Prop) (m : M B A) (kont : A -> M B C) R Q :
  hoare P m R -> preserves I m -> (forall a, hoare (fun s => R a s /\ I s) (kont a) Q) ->
  hoare (fun s => P s /\ I s) (bind m kont) Q.
Proof.
  intros Hm Hi Hk s [Hs HI]. unfold bind. specialize (Hm s Hs). specialize (Hi s HI).
  destruct (m s) as [a s']. by apply Hk.
Qed.
Lemma keeps_pci_hw {A} (m : M hw A) : keeps pci_of (in_hw m).
Proof. intros v s Hs. unfold in_hw. by destruct (m (mc_hw s)). Qed.
Lemma keeps_has_pci {A} (m : M B A) : keeps pci_of m -> preserves has_pci m.
Proof. intros Hm. exact (Hm true). Qed.

Lemma setupGPUMemoryRegions_led id n c k x :
  hoare (fun s => led id n c k x s /\ has_pci s)
    (setupGPUMemoryRegions r8 r32 mapDev getDev getDevLength virt direct_map contexts_alloc fuel)
    (fun r s => r <> None -> exists n', led id n' c k (x + held_by id n') s).
Proof.
  unfold setupGPUMemoryRegions.
  eapply (hoare_bind_and _ has_pci _ _ (fun _ => led id n c k x)).
  { apply hoare_last_step. unfold set_notify. led_step. by apply (led_ret x). }
  { apply keeps_has_pci, keeps_pci_hw. }
  intros ?. cbn beta. apply hoare_pci, hoare_drop. cbn [negb].
  destruct (findVirtIOCapability r8 r32 fuel true VIRTIO_PCI_CAP_NOTIFY_CFG) as [found|]; [|by intros s _].
  destruct (match found with Some c => (cap_bar c, cap_offset c) | None => (0, LEGACY_NOTIFY) end) as [bar off].
  led_step. destruct a0 as [m idx]. cbn [fst snd]. led_step.
  destruct m as [m|].
  2: { apply (led_ret x); [cbn; lia|]. intros s Hs _. exists None. cbn. by rewrite Z.add_0_r. }
  apply (hoare_bind _ _ _ (led_region id c k x)); [|intros ok s Hs _; exact Hs].
  destruct (_ && _); [apply regions_done_led|].
  pose proof (direct_notify_led id off (default (-1) idx) (Some m) c k (x + held_by id (Some m))) as Hd.
  by rewrite Z.add_simpl_r in Hd.
Qed.

(** ** The control queue *)
Lemma setupControlVirtQueue_led id k x :
  hoare (led (T := T) id None None k x) (in_hw (setupControlVirtQueue dev r8 r32 mapDev getDev fuel true))
    (fun r s => exists n c, led id n c k (x + held_by id n + held_by id c) s).
Proof.
  apply hoare_last_step. unfold setupControlVirtQueue. cbn [negb]. led_step. led_step.
  assert (Hnone : forall (r : option bool) n c y, y = x + held_by id n + held_by id c ->
    hoare (led (T := T) id n c k y) (ret r) (fun _ s => exists n c, led id n c k (x + held_by id n + held_by id c) s)).
  { intros r n c y ->. intros s Hs. by exists n, c. }
  destruct a as [[[[bar off] m]|]|]; [|led_step; apply Hnone; cbn; lia..].
  led_step. apply (led_hw_set _ _ _ _ _ None (Some m)); [intros h Hn _; unfold maps_of; cbn; by rewrite Hn|].
  assert (Htail : forall n y, y = x + held_by id n + held_by id (Some m) ->
    hoare (led (T := T) id n (Some m) k y)
      (bind (in_hw (setup_mapped dev)) (fun ok => bind (in_hw (ret (Some ok))) ret))
      (fun _ s => exists n c, led id n c k (x + held_by id n + held_by id c) s)).
  { intros n y Hy. eapply led_still; [apply keeps_in_hw; auto with keeps|intros ok].
    led_step. by apply Hnone. }
  led_step. unfold setup_notify.
  destruct (readNotifyConfig r8 r32 fuel true) as [[[[nb no] nm]|]|];
    [|led_step; cbn [negb]; apply Htail; cbn -[held_by]; unfold held_by at 2; lia
     |led_step; cbn [negb]; led_step; apply Hnone; cbn -[held_by]; unfold held_by at 2; lia].
  led_step. led_step. led_step. apply (led_hw_get _ _ _ _ _ _ None); [done|]. led_step. led_step. led_step.
  apply (led_hw_set _ _ _ _ _ a0 (Some m)); [intros h _ Hc; unfold maps_of; cbn; by rewrite Hc|].
  led_step. led_step. led_step. cbn [negb]. apply Htail. lia.
Qed.

Lemma teardown_led id n c k x :
  hoare (led (T := T) id n c k x) (in_hw teardownControlVirtQueue)
    (fun _ => led id n None k (x - held_by id c)).
Proof.
  apply hoare_last_step. unfold teardownControlVirtQueue.
  apply in_hw_bind, (led_hw_get' id n c k x). intros live.
  apply in_hw_bind. eapply led_still; [apply keeps_in_hw; keeps_tac|intros ?].
  apply in_hw_bind. eapply led_still; [apply keeps_in_hw; auto with keeps|intros ?].
  do 4 (apply in_hw_bind; eapply led_still; [apply keeps_in_hw; auto with keeps|intros ?]).
  apply in_hw_bind. eapply led_still; [apply keeps_in_hw; auto with keeps|intros ?].
  apply in_hw_bind, (led_hw_get _ _ _ _ _ _ c); [done|].
  assert (Hend : hoare (led (T := T) id n None k (x - held_by id c)) (bind (in_hw (modify (set_h_common_cfg false))) ret)
    (fun _ => led id n None k (x - held_by id c))).
  { apply (led_hw_set _ _ _ _ _ n None); [intros h Hn Hc; unfold maps_of; cbn; by rewrite Hn, Hc|].
    by apply (led_ret (x - held_by id c)). }
  destruct c as [m|].
  - do 2 apply in_hw_bind. led_step. apply (led_hw_set _ _ _ _ _ n None); [intros h Hn _; unfold maps_of; cbn; by rewrite Hn|].
    replace (x + - held_by id (Some m)) with (x - held_by id (Some m)) by lia. exact Hend.
  - apply in_hw_bind, in_hw_ret. cbn [held_by] in *. rewrite Z.sub_0_r in *. exact Hend.
Qed.

(** ** The device configuration *)
Lemma early_init_led id n c k x :
  hoare (led (T := T) id n c k x) (in_hw (early_init r8 r32 mapDev virt fuel)) (fun _ => led id n c k x).
Proof.
  apply hoare_last_step. unfold early_init.
  assert (Hend : forall r : option unit, hoare (led (T := T) id n c k x) (ret r) (fun _ => led id n c k x))
    by (intros r s Hs; exact Hs).
  destruct (findVirtIOCapability r8 r32 fuel true VIRTIO_PCI_CAP_COMMON_CFG) as [[cp|]|];
    [|apply in_hw_ret, Hend..].
  led_step. led_step. destruct a as [m|]; [|apply in_hw_ret; cbn [held_by]; rewrite Z.add_0_r; apply Hend].
  apply in_hw_bind. eapply led_still; [|intros ?].
  { destruct (_ && _); apply keeps_in_hw; [by apply keeps_modify|apply keeps_ret]. }
  led_step. led_step. led_step. replace (x + held_by id (Some m) + - held_by id (Some m)) with x by lia.
  apply Hend.
Qed.

Lemma set_config_still e : keeps (ledger (T := T)) (set_config e).
Proof. unfold set_config. destruct (init_config e). auto with keeps. Qed.

Lemma read_device_config_led id n c x :
  hoare (led id n c None x)
    (read_device_config r8 r32 mapDev virt by_phys device_config fuel)
    (fun _ s => exists k, led (T := T) id n c k (x + held_by id k) s).
Proof.
  unfold read_device_config.
  assert (Hend : forall (r : option bool) k, hoare (led (T := T) id n c k (x + held_by id k)) (ret r)
    (fun _ s => exists k, led (T := T) id n c k (x + held_by id k) s)) by (intros r k s Hs; by exists k).
  destruct (findVirtIOCapability r8 r32 fuel true VIRTIO_PCI_CAP_DEVICE_CFG) as [[cp|]|].
  - led_step. destruct a as [m idx]. cbn [fst]. led_step.
    apply (hoare_bind _ _ _ (fun _ => led id n c m (x + held_by id m))).
    { destruct (match _ with Some (true, size) => _ | _ => false end); [apply early_init_led|intros s Hs; exact Hs]. }
    intros [[]|]; [|apply Hend].
    eapply led_still; [auto with keeps|intros ?]. eapply led_still; [apply set_config_still|intros ?]. apply Hend.
  - eapply led_still; [apply set_config_still|intros ?].
    pose proof (Hend (Some false) None) as He. cbn [held_by] in He. by rewrite Z.add_0_r in He.
  - pose proof (Hend None None) as He. cbn [held_by] in He. by rewrite Z.add_0_r in He.
Qed.

(** ** The queue buffers and the 3D features *)
Lemma queues_still : keeps (ledger (T := T)) initializeVirtIOQueues.
Proof.
  unfold initializeVirtIOQueues, setOptimalQueueSizes, control_buffer, cursor_buffer,
    setupVirtIOHardwareQueues, pci_device. keeps_tac.
Qed.
Lemma enable3D_still : keeps (ledger (T := T)) enable3DAcceleration.
Proof. pose proof queues_still. unfold enable3DAcceleration, pci_device. keeps_tac. Qed.

(** ** cleanupVirtIOGPU *)
Lemma cleanup_led id n c k x :
  hoare (led (T := T) id n c k x) cleanupVirtIOGPU
    (fun _ => led id None None None (x - held_by id n - held_by id c - held_by id k)).
Proof.
  unfold cleanupVirtIOGPU.
  eapply hoare_bind; [apply teardown_led|]. intros ?; cbn beta.
  eapply led_still; [auto with keeps|intros control]. eapply led_still; [destruct control; keeps_tac|intros ?].
  eapply led_still; [auto with keeps|intros cursor]. eapply led_still; [destruct cursor; keeps_tac|intros ?].
  led_step.
  apply (hoare_bind _ _ _ (fun _ => led id n None None (x - held_by id c - held_by id k))).
  { apply hoare_last_step. destruct k as [m|]; [led_step; led_step; led_step|led_step];
      (eapply led_ret; [|done]); cbn -[held_by]; [lia|cbn; lia]. }
  intros ?. led_step. apply hoare_last_step. destruct n as [m|]; [led_step; led_step; led_step|led_step];
    (eapply led_ret; [|done]); cbn -[held_by]; [lia|cbn; lia].
Qed.

(** ** The PCI device *)
Lemma pci_in_world {A} (m : M (world T) A) :
  keeps (fun w => g_pci_device (w_gpu w)) m -> keeps pci_of (in_world m).
Proof.
  intros Hm v s Hs. pose proof (keeps_eq _ m (mc_world s) Hm) as E. unfold in_world.
  destruct (m (mc_world s)) as [a w]. cbn in E. rewrite <- Hs. exact E.
Qed.
#[local] Hint Resolve keeps_pci_hw : keeps.
#[local] Hint Extern 2 (keeps pci_of (in_world _)) => apply pci_in_world; solve [keeps_tac] : keeps.
Lemma pci_set_config e : keeps pci_of (set_config (T := T) e).
Proof. unfold set_config. destruct (init_config e). apply pci_in_world, keeps_modify. reflexivity. Qed.
#[local] Hint Resolve pci_set_config : keeps.
Lemma pci_read_device_config :
  keeps pci_of (read_device_config (T := T) r8 r32 mapDev virt by_phys device_config fuel).
Proof. unfold read_device_config. keeps_tac. Qed.
Lemma pci_queues : keeps pci_of initializeVirtIOQueues.
Proof.
  unfold initializeVirtIOQueues, setOptimalQueueSizes, control_buffer, cursor_buffer,
    setupVirtIOHardwareQueues, pci_device, supports3D, prepare, release. keeps_tac.
Qed.

Lemma references_ledger id x s b :
  led id None None None x s -> has_pci s ->
  let s2 := (in_hw (setupControlVirtQueue dev r8 r32 mapDev getDev fuel true)
               (read_device_config r8 r32 mapDev virt by_phys device_config fuel s).2).2 in
  let '(r, s3) := initVirtIOGPU dev r8 r32 mapDev getDev getDevLength virt direct_map by_phys device_config
                    contexts_alloc fuel s in
  r = Some b -> (read_device_config r8 r32 mapDev virt by_phys device_config fuel s).1 = Some true ->
  led id None None None (x + if b then held_by id (h_notify_map (mc_hw s2)) else 0) (cleanupVirtIOGPU s3).2.
Proof.
  intros Hs Hp. unfold initVirtIOGPU, bind at 1.
  pose proof (read_device_config_led id None None x s Hs) as H1.
  pose proof (keeps_has_pci _ pci_read_device_config s Hp) as P1.
  destruct (read_device_config _ _ _ _ _ _ _ s) as [more s1]. destruct H1 as [k H1]. cbn [fst snd].
  destruct more as [[|]|]; [|cbn; by intros _ [=]|cbn; by intros [=]]. unfold bring_up_queues, bind at 1.
  pose proof (setupControlVirtQueue_led id k _ s1 H1) as H2. pose proof (keeps_has_pci _ (keeps_pci_hw
    (setupControlVirtQueue dev r8 r32 mapDev getDev fuel true)) s1 P1) as P2.
  destruct (in_hw (setupControlVirtQueue _ _ _ _ _ _ _) s1) as [up s2]. destruct H2 as (n & c & H2). cbn [fst snd].
  destruct up as [up|]; [|cbn; by intros [=]]. unfold bind at 1.
  pose proof (led_keep id n c k _ _ queues_still s2 H2) as H3.
  pose proof (keeps_has_pci _ pci_queues s2 P2) as P3.
  assert (En : h_notify_map (mc_hw s2) = n) by (destruct H2 as (? & E & _); by injection E).
  destruct (initializeVirtIOQueues s2) as [ok s3]. rewrite En. destruct ok; cbn [negb].
  - unfold bind at 1. pose proof (setupGPUMemoryRegions_led id n c k _ s3 (conj H3 P3)) as H4.
    destruct (setupGPUMemoryRegions _ _ _ _ _ _ _ _ _ s3) as [[reg|] s4]; [|done].
    destruct (H4 ltac:(done)) as [n' H5]. clear H4. unfold bind at 1.
    pose proof (led_keep id n' c k _ _ enable3D_still s4 H5) as H6. destruct (enable3DAcceleration s4) as [u s5]. cbn. intros [= <-] _.
    pose proof (cleanup_led id _ _ _ _ s5 H6) as H7. destruct (cleanupVirtIOGPU s5) as [u' s6]. cbn in H7 |- *.
    eapply led_eq; [exact H7|lia].
  - cbn. intros [= <-] _. pose proof (cleanup_led id _ _ _ _ s3 H3) as H7.
    destruct (cleanupVirtIOGPU s3) as [u' s6]. cbn -[held_by] in H7 |- *. eapply led_eq; [exact H7|lia].
Qed.
End ledgers.
