(* ===== verification/Accounts.v ===== *)
(** Accounts of kernel memory: what the driver owes the kernel's memory
    services, seen from one descriptor, how each service moves that balance,
    and triples that follow it through a method. [Wiring.v] uses them for the
    user client, [Probes.v] for the transport probes. *)
From S2P Require Import Prelude Wire Transport Driver Resources Display.

(** * Balances *)
(** What the kernel's memory services are owed, seen from descriptor [id]. *)
Definition mem_balance (id : Z) (m : mem) : Z * Z * Z * Z :=
  (m_heap m, m_maps m, count id (m_prep m), count id (m_refs m)).
Definition balance {T} (id : Z) (w : world T) : Z * Z * Z * Z := mem_balance id (w_mem w).

Definition own (id : Z) (o : option Z) : Z := if bool_decide (o = Some id) then 1 else 0.

Lemma quad_eq (a b c d a' b' c' d' : Z) :
  a = a' -> b = b' -> c = c' -> d = d' -> (a, b, c, d) = (a', b', c', d').
Proof. by intros -> -> -> ->. Qed.
Lemma own_None id : own id None = 0.
Proof. done. Qed.

Section moves.
Context {T : Type} `{Transport T}.

(** A memory service moves the balance. *)
Definition moves {A} (id : Z) (x : M (world T) A) (f : A -> Z * Z * Z * Z) : Prop :=
  forall w, let '(a, w') := x w in
    let '(h, m, p, r) := balance id w in let '(dh, dm, dp, dr) := f a in
    balance id w' = (h + dh, m + dm, p + dp, r + dr).

Lemma count_bump_own d id id' (g : gmap Z Z) :
  count id (bump d id' g) = count id g + d * own id (Some id').
Proof.
  unfold own. case_bool_decide as E.
  - injection E as ->. rewrite count_bump_eq. lia.
  - rewrite count_bump_ne by congruence. lia.
Qed.

Ltac moves_tac := intros w; cbn; unfold balance, mem_balance; cbn; rewrite ?count_bump_own; apply quad_eq; lia.
Lemma moves_complete id i : moves id (complete i) (fun _ => (0, 0, - own id (Some i), 0)).
Proof. moves_tac. Qed.
Lemma moves_release id i : moves id (release i) (fun _ => (0, 0, 0, - own id (Some i))).
Proof. moves_tac. Qed.
Lemma moves_IOFree id n : moves id (IOFree n) (fun _ => (- n, 0, 0, 0)).
Proof. moves_tac. Qed.
Lemma moves_map_add id n : moves id (map_add n) (fun _ => (0, n, 0, 0)).
Proof. moves_tac. Qed.
Lemma moves_prepare id d :
  moves id (prepare d) (fun x => (0, 0, if is_success x then own id (Some (md_id d)) else 0, 0)).
Proof.
  unfold prepare. intros w. unfold bind, ret. destruct (is_success (md_prepare d)) eqn:E;
    cbn -[is_success]; rewrite E; unfold balance, mem_balance; cbn; rewrite ?count_bump_own; apply quad_eq; lia.
Qed.
Lemma moves_IOMalloc id n :
  moves id (IOMalloc n) (fun g => (match g with Some _ => n | None => 0 end, 0, 0, 0)).
Proof. intros w. unfold IOMalloc, balance, mem_balance. destruct (m_mallocs (w_mem w)) as [|[g|] l]; cbn; apply quad_eq; lia. Qed.
Lemma moves_new_descriptor id n :
  moves id (new_descriptor n) (fun o => (0, 0, 0, own id (md_id <$> o))).
Proof.
  intros w. unfold new_descriptor, balance, mem_balance. destruct (m_allocs (w_mem w)) as [|[d|] l]; cbn -[own bump];
    rewrite ?count_bump_own, ?own_None; apply quad_eq; lia.
Qed.

Lemma bal_mem {A} id (x : M (world T) A) :
  keeps (fun w => mem_balance id (w_mem w)) x -> keeps (balance id) x.
Proof. done. Qed.
Ltac bal_tac := cbn -[Z.of_nat]; unfold balance, mem_balance; cbn -[Z.of_nat]; apply quad_eq; lia.
Lemma moves_execute id ctx d : moves id (executeCommands ctx d) (fun _ => (0, 0, 0, 0)).
Proof.
  intros w. unfold executeCommands, supports3D, map_add, IOMalloc, bind, get_gpu, gets.
  unfold lock_contexts, unlock_contexts, upd_gpu, upd_mem, modify, ret, IOFree, heap_add, submit.
  destruct d as [d|]; [|by bal_tac].
  destruct (negb (0 <? g_num_capsets (w_gpu w))); [by bal_tac|].
  destruct (negb (cd_maps d)); [by bal_tac|].
  destruct (negb (cd_address d) || _); [by bal_tac|].
  unfold upd_mem, modify. cbn [w_mem w_gpu w_tr m_mallocs set_m_maps].
  destruct (m_mallocs (w_mem w)) as [|[g|] l]; [by bal_tac| |by bal_tac].
  cbn [w_mem w_gpu w_tr]. destruct (submit_cmd _ _ _) as [[x resp] t]. by bal_tac.
Qed.


(** ** Triples at a known balance *)
Definition bal (id h m p r : Z) (w : world T) : Prop := balance id w = (h, m, p, r).

Lemma bal_keeps {A B} id h m p r (x : M (world T) A) (k : A -> M (world T) B) Q :
  keeps (balance id) x -> (forall a, hoare (bal id h m p r) (k a) Q) ->
  hoare (bal id h m p r) (bind x k) Q.
Proof. intros Hx Hk. eapply hoare_bind; [exact (Hx (h, m, p, r))|exact Hk]. Qed.

Lemma bal_moves {A B} id h m p r (x : M (world T) A) f (k : A -> M (world T) B) Q :
  moves id x f ->
  (forall a, let '(dh, dm, dp, dr) := f a in hoare (bal id (h + dh) (m + dm) (p + dp) (r + dr)) (k a) Q) ->
  hoare (bal id h m p r) (bind x k) Q.
Proof.
  intros Hx Hk w E. unfold bind. specialize (Hx w). destruct (x w) as [a w'].
  unfold bal in E. rewrite E in Hx. specialize (Hk a). destruct (f a) as [[[dh dm] dp] dr]. by apply Hk.
Qed.

Lemma bal_ret {A} id h m p r h' m' p' r' (a : A) :
  h = h' -> m = m' -> p = p' -> r = r' ->
  hoare (bal id h m p r) (ret a) (fun _ => bal id h' m' p' r').
Proof. by intros -> -> -> -> w Hw. Qed.

Lemma keeps_bal {A} id (x : M (world T) A) :
  (forall h m p r, hoare (bal id h m p r) x (fun _ => bal id h m p r)) -> keeps (balance id) x.
Proof. intros Hx [[[h m] p] r] w Hw. by apply Hx. Qed.
Lemma bal_of_keeps {A} id h m p r (x : M (world T) A) :
  keeps (balance id) x -> hoare (bal id h m p r) x (fun _ => bal id h m p r).
Proof. intros Hx. exact (Hx (h, m, p, r)). Qed.
End moves.

#[export] Hint Extern 4 (keeps (balance _) _) => apply bal_mem; solve [keeps_tac] : keeps.

(** Walk a method that gives back what it takes. *)
Ltac bal_step :=
  first
    [ eapply bal_moves; [apply moves_new_descriptor|intros ?; cbn beta iota]
    | eapply bal_moves; [apply moves_prepare|intros ?; cbn beta iota]
    | eapply bal_moves; [apply moves_complete|intros ?; cbn beta iota]
    | eapply bal_moves; [apply moves_release|intros ?; cbn beta iota]
    | eapply bal_moves; [apply moves_execute|intros ?; cbn beta iota]
    | eapply bal_moves; [apply moves_IOMalloc|intros ?; cbn beta iota]
    | eapply bal_moves; [apply moves_IOFree|intros ?; cbn beta iota]
    | eapply bal_moves; [apply moves_map_add|intros ?; cbn beta iota]
    | eapply bal_keeps; [solve [keeps_tac]|intros ?]
    | apply bal_ret; cbn [fmap option_fmap option_map]; rewrite ?own_None; lia
    | goal_case ].
Ltac account_tac := apply keeps_bal; intros h m p r; repeat bal_step.

Section accounts.
Context {T : Type} `{Transport T}.

Lemma account_attachBacking id res d : keeps (balance id) (attachBacking (T := T) res d).
Proof. unfold attachBacking. account_tac. Qed.
Lemma account_execute id ctx d : keeps (balance id) (executeCommands (T := T) ctx d).
Proof.
  intros v w Hw. pose proof (moves_execute id ctx d w) as E.
  destruct (executeCommands ctx d w) as [x w']. rewrite Hw in E. destruct v as [[[h m] p] r].
  cbn. rewrite E. apply quad_eq; lia.
Qed.
End accounts.
#[export] Hint Resolve account_attachBacking account_execute : keeps.
