(* ===== verification/Boot.v ===== *)
(** What the bring-up promises ([Bringup.v]): where the references to mappings
    go, the queue buffers, the notify region, the order of the status writes
    and the search for video memory. *)
From S2P Require Import Prelude Wire Transport Driver SplitQueue ControlQueue CursorQueue Pci Bars QueueSetup Resources Display Accounts Bringup.

(** * Video memory *)
Section vram.
Context (mapDev : Z -> option mapping).

Lemma shifts_release_opt id (o : option mapping) :
  shifts id (match o with Some m => release_map m | None => ret tt end) (fun _ => - held_by id o).
Proof.
  destruct o as [m|]; [apply shifts_release_map|by apply shifts_ret].
Qed.

Lemma shifts_vram_bars id n : forall bar o,
  shifts id (vram_bars mapDev n bar o) (fun r => held_by id r.2 - held_by id o).
Proof.
  induction n as [|n IH]; intros bar o; cbn [vram_bars]; [apply shifts_ret; cbn -[held_by]; lia|].
  eapply shifts_bind; [apply shifts_release_opt|]. intros ?.
  apply (shifts_bind _ _ _ (held_by id)); [apply shifts_map_index|]. intros [m|].
  - destruct (vram_size_ok (map_length m)); [apply shifts_ret; cbn -[held_by]; lia|].
    intros b Hb. specialize (IH (bar + 1) (Some m) b Hb). destruct (vram_bars _ _ _ _ b). destruct IH. split; [done|lia].
  - intros b Hb. specialize (IH (bar + 1) None b Hb). destruct (vram_bars _ _ _ _ b). destruct IH. split; [done|].
    change (held_by id None) with 0 in *. lia.
Qed.
Lemma shifts_vram_tries id n : forall o,
  shifts id (vram_tries mapDev n o) (fun r => held_by id r.2 - held_by id o).
Proof.
  induction n as [|n IH]; intros o; cbn [vram_tries]; [apply shifts_ret; cbn -[held_by]; lia|].
  apply (shifts_bind _ _ _ (fun r => held_by id r.2 - held_by id o)); [apply shifts_vram_bars|].
  intros [[|] o']; cbn [fst snd].
  - apply shifts_ret. cbn -[held_by]. lia.
  - intros b Hb. specialize (IH o' b Hb). destruct (vram_tries _ _ _ b). destruct IH. split; [done|lia].
Qed.

(** The region the search settles on: the first acceptable one. *)
Definition acceptable (bar : Z) : bool :=
  match mapDev bar with Some m => vram_size_ok (map_length m) | None => false end.
Definition first_region (lo hi : Z) (r : bool * option mapping) : Prop :=
  if r.1 then exists bar m, lo <= bar < hi /\ mapDev bar = Some m /\ r.2 = Some m
                /\ acceptable bar = true /\ forall b, lo <= b < bar -> acceptable b = false
  else forall b, lo <= b < hi -> acceptable b = false.

Lemma vram_bars_first n : forall bar o b, first_region bar (bar + Z.of_nat n) (vram_bars mapDev n bar o b).1.
Proof.
  induction n as [|n IH]; intros bar o b; cbn [vram_bars]; [intros b0 Hb0; lia|].
  unfold bind. destruct (match o with Some m => release_map m | None => ret tt end b) as [u b1].
  unfold map_index. assert (Hnext : forall o' b2, acceptable bar = false ->
    first_region bar (bar + Z.of_nat (S n)) (vram_bars mapDev n (bar + 1) o' b2).1).
  { intros o' b2 Hno. specialize (IH (bar + 1) o' b2). unfold first_region in *.
    destruct (vram_bars mapDev n (bar + 1) o' b2).1 as [[] o2]; cbn [fst snd] in *.
    - destruct IH as (j & m & Hj & H1 & H2 & H3 & H4). exists j, m. split_and!; try done; [lia..|].
      intros b0 Hb0. destruct (decide (b0 = bar)) as [->|]; [done|]. apply H4. lia.
    - intros b0 Hb0. destruct (decide (b0 = bar)) as [->|]; [done|]. apply IH. lia. }
  destruct (mapDev bar) as [m|] eqn:Em; cbn.
  - destruct (vram_size_ok (map_length m)) eqn:Es.
    + cbn. exists bar, m. unfold acceptable. rewrite Em. split_and!; try done; try lia.
    + apply Hnext. unfold acceptable. by rewrite Em.
  - apply Hnext. unfold acceptable. by rewrite Em.
Qed.
Lemma vram_tries_first n : forall o b,
  let r := (vram_tries mapDev n o b).1 in r.1 = true -> first_region 0 6 r.
Proof.
  induction n as [|n IH]; intros o b; cbn [vram_tries]; [done|].
  unfold bind. pose proof (vram_bars_first 6 0 o b) as Hf. change (0 + Z.of_nat 6) with 6 in Hf.
  destruct (vram_bars mapDev 6 0 o b) as [[[|] o'] b1]; cbn [fst snd] in *; [done|]. apply IH.
Qed.
End vram.

(** The search tells the truth both ways. *)
Lemma vram_tries_none mapDev n o b :
  (vram_tries mapDev (S n) o b).1.1 = false -> forall i, 0 <= i < 6 -> acceptable mapDev i = false.
Proof.
  revert o b. induction n as [|n IH]; intros o b; cbn [vram_tries]; unfold bind at 1;
    pose proof (vram_bars_first mapDev 6 0 o b) as Hf; change (0 + Z.of_nat 6) with 6 in Hf;
    destruct (vram_bars mapDev 6 0 o b) as [[[|] o'] b1]; cbn [fst snd] in *; done.
Qed.

Section vram_range.
Context {T : Type} `{Transport T}.
Abbreviation B := (machine T).
Context (mapDev : Z -> option mapping).

Definition allocs (s : B) := m_allocs (w_mem (mc_world s)).
Definition account (id : Z) (s : B) := balance id (mc_world s).

(** A descriptor that covers [len] bytes at [phys]. *)
Definition covers (d : mdesc) (phys len : Z) : Prop := md_segs d = [(phys, len)] /\ md_length d = len.
Definition buffer_at (a : mdesc) : Z := (default (0, 0) (head (md_segs a))).1.

(** The state but for the answers of the allocator and the accounts. *)
Lemma device_range_spec phys len w :
  let '(o, w') := device_range (T := T) phys len w in
  (forall id h m p r, bal id h m p r w -> bal id h m p (r + own id (md_id <$> o)) w') /\
  (forall d, o = Some d -> covers d phys len) /\
  (forall a l, m_allocs (w_mem w) = Some a :: l -> is_Some o) /\
  m_allocs (w_mem w') ⊆ m_allocs (w_mem w).
Proof.
  pose proof (fun id => moves_new_descriptor (T := T) id len w) as Hm.
  assert (Ha : forall a l, m_allocs (w_mem w) = Some a :: l -> is_Some (new_descriptor len w).1).
  { intros a l E. unfold new_descriptor. rewrite E. by eexists. }
  assert (Hs : m_allocs (w_mem (new_descriptor len w).2) ⊆ m_allocs (w_mem w)).
  { unfold new_descriptor. destruct (m_allocs (w_mem w)) as [|[a|] l] eqn:E; cbn; rewrite ?E; set_solver. }
  unfold device_range, bind, ret. destruct (new_descriptor len w) as [o w']. cbn [fst snd] in *. split_and!.
  - intros id h m p r Hb. specialize (Hm id). rewrite Hb in Hm. unfold bal. rewrite Hm.
    destruct o; apply quad_eq; cbn -[own]; lia.
  - intros d. destruct o as [d'|]; [|done]. by intros [= <-].
  - intros a l E. destruct (Ha a l E) as [d ->]. by eexists.
  - exact Hs.
Qed.

Lemma default_vram_spec (s : B) :
  let '(o, s') := default_vram s in
  mc_hw s' = mc_hw s /\
  (forall id h m p r, bal id h m p r (mc_world s) -> bal id h m p (r + own id (md_id <$> o)) (mc_world s')) /\
  (forall d, o = Some d -> exists a, Some a ∈ allocs s /\ covers d (buffer_at a) DEFAULT_VRAM).
Proof.
  unfold default_vram, in_world, bind at 1.
  pose proof (fun id => moves_new_descriptor (T := T) id DEFAULT_VRAM (mc_world s)) as Hm.
  assert (Ha : forall d, (new_descriptor DEFAULT_VRAM (mc_world s)).1 = Some d ->
    exists a, Some a ∈ allocs s /\ md_segs d = md_segs a).
  { intros d. unfold new_descriptor, allocs. destruct (m_allocs (w_mem (mc_world s))) as [|[a|] l]; [done| |done].
    intros [= <-]. exists a. split; [apply list_elem_of_here|done]. }
  destruct (new_descriptor DEFAULT_VRAM (mc_world s)) as [[b|] w1]; cbn [fst] in Ha; cbn -[device_range DEFAULT_VRAM own].
  2: { split_and!; [done| |done]. intros id h m p r Hb. specialize (Hm id). rewrite Hb in Hm. unfold bal. rewrite Hm.
       apply quad_eq; cbn; lia. }
  unfold bind at 1. cbn -[device_range DEFAULT_VRAM own].
  pose proof (device_range_spec (buffer_at b) DEFAULT_VRAM w1) as Hr. fold (buffer_at b).
  destruct (device_range (buffer_at b) DEFAULT_VRAM w1) as [o w2]. destruct Hr as (Hr & Hc & _ & _).
  cbn -[DEFAULT_VRAM own]. split_and!; [done| |].
  - intros id h m p r Hb. specialize (Hm id). rewrite Hb in Hm. specialize (Hr id _ _ _ _ Hm).
    pose proof (moves_release id (md_id b) w2) as Hl. rewrite Hr in Hl. cbn -[own] in Hl. unfold bal. cbn -[own] in *.
    rewrite Hl. apply quad_eq; lia.
  - intros d Ed. specialize (Hc d Ed). destruct (Ha b eq_refl) as (a & Hin & Es). exists a. split; [done|].
    unfold buffer_at in *. by rewrite <- Es.
Qed.

(** The two ranges it can answer. *)
Definition region_range (d : mdesc) : Prop :=
  exists bar m, 0 <= bar < 6 /\ mapDev bar = Some m /\ acceptable mapDev bar = true
    /\ (forall b, 0 <= b < bar -> acceptable mapDev b = false)
    /\ covers d (map_phys m) (map_length m).
Definition default_range (s : B) (d : mdesc) : Prop :=
  exists a, Some a ∈ allocs s /\ covers d (buffer_at a) DEFAULT_VRAM.

Lemma get_pci {A} (k : bool -> M B A) (s : B) : has_pci s -> bind pci_device k s = k true s.
Proof.
  intros Hp. unfold bind, pci_device, in_world, get_gpu, gets. rewrite Hp. by destruct s.
Qed.

Definition vram_answer (s : B) (x : option mdesc * B) : Prop :=
  let '(o, s') := x in
  (forall id, loose id (h_bars (mc_hw s')) = loose id (h_bars (mc_hw s))) /\
  (forall id h m p r, bal id h m p r (mc_world s) -> bal id h m p (r + own id (md_id <$> o)) (mc_world s')) /\
  (forall d, o = Some d -> region_range d \/ default_range s d) /\
  ((exists b, 0 <= b < 6 /\ acceptable mapDev b = true) ->
     forall a l, allocs s = Some a :: l -> exists d, o = Some d /\ region_range d) /\
  ((forall b, 0 <= b < 6 -> acceptable mapDev b = false) -> forall d, o = Some d -> default_range s d).

Lemma default_answer (s s1 : B) :
  allocs s1 ⊆ allocs s ->
  (forall id h m p r, bal id h m p r (mc_world s) -> bal id h m p r (mc_world s1)) ->
  (forall id, loose id (h_bars (mc_hw s1)) = loose id (h_bars (mc_hw s))) ->
  ((exists b, 0 <= b < 6 /\ acceptable mapDev b = true) -> forall a l, allocs s = Some a :: l -> False) ->
  vram_answer s (default_vram s1).
Proof.
  intros Ha Hw Hl Hno. pose proof (default_vram_spec s1) as Hd. unfold vram_answer.
  destruct (default_vram s1) as [o s']. destruct Hd as (E & Hm & Hd). rewrite E.
  assert (Hdef : forall d, o = Some d -> default_range s d).
  { intros d Ed. destruct (Hd d Ed) as (a & Hin & Hc). exists a. by split; [apply Ha|]. }
  split_and!; [done|intros; by apply Hm, Hw|auto| |auto]. intros Hr a l Ea. by destruct (Hno Hr a l Ea).
Qed.

(** [getVRAMRange] gives back every mapping it makes and keeps one
    reference, on the range it returns. The range is the first region whose
    size is acceptable (always, when there is one and the allocator answers);
    when there is none it is 512 MB at the address of a buffer that has
    already been released. *)
Theorem getVRAMRange_spec (s : B) :
  has_pci s -> six (h_bars (mc_hw s)) -> vram_answer s (getVRAMRange mapDev s).
Proof.
  intros Hp Hb. unfold getVRAMRange. rewrite get_pci by done. cbn [negb].
  unfold bind at 1, in_hw at 1, on_bars at 1.
  pose proof (vram_tries_first mapDev 3 None (h_bars (mc_hw s))) as Hf.
  pose proof (vram_tries_none mapDev 2 None (h_bars (mc_hw s))) as Hn.
  pose proof (fun id => shifts_vram_tries mapDev id 3 None (h_bars (mc_hw s)) Hb) as Hl.
  destruct (vram_tries mapDev 3 None (h_bars (mc_hw s))) as [[ok o] b1]. cbn [fst snd held_by] in *.
  destruct ok.
  - destruct (Hf eq_refl) as (bar & m & Hbar & Em & E & Hok & Hmin). cbn [snd] in E. subst o.
    pose proof (device_range_spec (map_phys m) (map_length m) (mc_world s)) as Hr.
    unfold bind at 1, in_world at 1. cbn [mc_world set_mc_hw].
    destruct (device_range (map_phys m) (map_length m) (mc_world s)) as [o w1].
    destruct Hr as (Hm & Hc & Hsome & Hsub). unfold bind at 1, in_hw at 1, on_bars at 1.
    assert (Hl1 : forall id, loose id (add_ref (-1) m b1) = loose id (h_bars (mc_hw s))).
    { intros id. destruct (Hl id) as [_ E]. rewrite loose_add_ref, E. lia. }
    cbn [mc_hw mc_world set_mc_hw set_mc_world release_map modify h_bars].
    destruct o as [d|]; [|apply default_answer; try done; [intros; replace r with (r + 0) by lia; by apply Hm|
      intros _ a l E; by destruct (Hsome a l E)]].
    assert (Hreg : region_range d). { exists bar, m. by split_and!; try lia; try apply Hc. }
    unfold ret, vram_answer. cbn [mc_hw mc_world set_mc_hw set_h_bars h_bars].
    split_and!; [exact Hl1|exact Hm|naive_solver..|]. intros Hno. rewrite Hno in Hok by lia. done.
  - assert (Hsome : (exists b, 0 <= b < 6 /\ acceptable mapDev b = true) -> False).
    { intros (b & Hb6 & E). by rewrite Hn in E. }
    destruct o as [m|]; apply default_answer; try done; try (intros; by apply Hsome); intros id; destruct (Hl id) as [_ E].
    + cbn -[loose]. rewrite loose_add_ref, E. unfold held_by. lia.
    + cbn -[loose]. unfold held_by in E. lia.
Qed.
End vram_range.

(** * Mappings across the bring-up *)
Section references.
Context {T : Type} `{Transport T}.
Abbreviation B := (machine T).
Context (dev : list ev -> Z -> Z -> Z).
Context (r8 r32 : Z -> Z) (mapDev : Z -> option mapping) (getDev : Z -> option Z) (getDevLength : Z -> Z).
Context (virt : mapping -> bool) (direct_map : Z -> Z -> option mapping).
Context (by_phys : option (Z * Z)) (device_config : list ev -> Z * Z) (contexts_alloc : bool).
Context (fuel : nat).
Abbreviation config_step := (read_device_config r8 r32 mapDev virt by_phys device_config fuel).
Abbreviation queue_step := (in_hw (setupControlVirtQueue dev r8 r32 mapDev getDev fuel true)).
Abbreviation init :=
  (initVirtIOGPU dev r8 r32 mapDev getDev getDevLength virt direct_map by_phys device_config contexts_alloc fuel).

(** A result that holds whatever the state. *)
Definition answers {A} (m : M B A) (P : A -> Prop) : Prop := forall s, P (m s).1.
Lemma answers_ret {A} (a : A) (P : A -> Prop) : P a -> answers (ret a) P.
Proof. by intros Ha s. Qed.
Lemma answers_bind {A C} (m : M B A) (k : A -> M B C) (P : C -> Prop) :
  (forall a, answers (k a) P) -> answers (bind m k) P.
Proof. intros Hk s. unfold bind. destruct (m s) as [a s']. apply Hk. Qed.

(** The capability walk has a fallback for the device configuration. *)
Lemma config_step_goes_on : answers config_step (fun r => r <> Some false).
Proof.
  unfold read_device_config, findVirtIOCapability. cbn [negb].
  destruct (find_walk r8 r32 fuel VIRTIO_PCI_CAP_DEVICE_CFG (r8 0x34)) as [c| |]; [| |by apply answers_ret].
  all: cbn; repeat (apply answers_bind; intros ?); goal_case; repeat (apply answers_bind; intros ?); by apply answers_ret.
Qed.

(** C11: whatever the device, its capability list and the allocator answer, a
    bring-up that ends followed by the clean-up leaves the three mappings null
    and gives back every reference to a mapping but the cache's -- except that
    when the notify region was set up, the mapping the queue set-up had stored
    in [m_notify_map] is lost. *)
Theorem bringup_references id (s : B) b :
  has_pci s -> six (h_bars (mc_hw s)) ->
  h_notify_map (mc_hw s) = None -> h_common_map (mc_hw s) = None -> mc_config_map s = None ->
  (init s).1 = Some b ->
  let s1 := (queue_step (config_step s).2).2 in
  let s2 := (cleanupVirtIOGPU (init s).2).2 in
  (h_notify_map (mc_hw s2) = None /\ h_common_map (mc_hw s2) = None /\ mc_config_map s2 = None) /\
  loose id (h_bars (mc_hw s2)) =
    loose id (h_bars (mc_hw s)) + (if b then held_by id (h_notify_map (mc_hw s1)) else 0).
Proof.
  intros Hp Hb Hn Hc Hk Hi s1 s2.
  assert (Hl : led id None None None (loose id (h_bars (mc_hw s))) s).
  { exists (h_bars (mc_hw s)). split; [|done]. unfold ledger. by rewrite Hn, Hc, Hk. }
  pose proof (references_ledger dev r8 r32 mapDev getDev getDevLength virt direct_map by_phys device_config
    contexts_alloc fuel id _ s b Hl Hp) as Hr. cbn zeta in Hr. subst s2.
  assert (Hg : (config_step s).1 = Some true).
  { pose proof (config_step_goes_on s). revert Hi. unfold initVirtIOGPU, bind.
    destruct (config_step s) as [[[|]|] s']; [done|done|]. cbn. by intros [=]. }
  destruct (init s) as [r s3]. cbn [fst snd] in *.
  destruct (Hr Hi Hg) as (b' & E & Hb' & Hx). injection E as -> -> -> ->. by split_and!.
Qed.
End references.

(** * The notify region *)
Section notify_region.
Context {T : Type} `{Transport T}.
Abbreviation B := (machine T).
Context (r8 r32 : Z -> Z) (mapDev : Z -> option mapping) (getDev : Z -> option Z) (getDevLength : Z -> Z).
Context (virt : mapping -> bool) (direct_map : Z -> Z -> option mapping) (contexts_alloc : bool).
Context (fuel : nat).

(** A doorbell register of a queue, inside the mapping. *)
Definition rings_in (n : notify) (q : Z) (m : mapping) : Prop :=
  exists a, notify_addr n q = Some a /\ a + 4 <= map_length m.

(** Where the doorbells are afterwards. *)
Definition placed (n : notify) (m : mapping) : Prop :=
  (virt m = true /\ rings_in n 0 m) \/
  (virt m = true /\ (exists base, direct_map base (n_cap_offset n + 4) = Some m) /\ 0 <= n_cap_offset n < PAGE_SIZE) \/
  (mapDev 0 = Some m /\ n_cap_offset n = LEGACY_NOTIFY).
Definition doorbells (s : B) := (h_notify_map (mc_hw s), cq_notify (h_cq (mc_hw s))).
Definition region (ok : bool) (s : B) : Prop :=
  ok = true -> exists m n, doorbells s = (Some m, n) /\ n_base n = false /\ n_map n = true /\ placed n m.
(** The mapping is set, without a base pointer. *)
Definition based (m : option mapping) (s : B) : Prop :=
  exists n, doorbells s = (m, n) /\ n_base n = false /\ n_map n = bool_decide (is_Some m).
Definition baseless (s : B) : Prop := n_base (cq_notify (h_cq (mc_hw s))) = false.

Lemma based_set_map m : hoare baseless (set_notify_map m) (fun _ => based m).
Proof. intros s Hs. unfold based, doorbells, set_notify_map. cbn. eexists. split; [reflexivity|]. by split. Qed.
Lemma based_still {A} m (k : M B A) : keeps doorbells k -> hoare (based m) k (fun _ => based m).
Proof.
  intros Hk s (n & E & Hn). exists n. split; [|done]. pose proof (keeps_eq _ k s Hk) as E'. by rewrite E', E.
Qed.
Lemma baseless_bars {A} (k : M bars A) : preserves baseless (in_hw (on_bars k)).
Proof. intros s Hs. unfold in_hw, on_bars. by destruct (k (h_bars (mc_hw s))). Qed.
Lemma contexts_ready_still : keeps doorbells (contexts_ready contexts_alloc).
Proof. unfold contexts_ready. keeps_tac. Qed.

Lemma regions_done_placed m off :
  (forall n, n_base n = false -> n_map n = true -> n_cap_offset n = off -> placed n m) ->
  hoare (based (Some m)) (regions_done contexts_alloc off) region.
Proof.
  intros Hp. unfold regions_done.
  apply (hoare_bind _ _ _ (fun _ s => exists n, doorbells s = (Some m, n) /\ n_base n = false /\ n_map n = true
    /\ n_cap_offset n = off)).
  - intros s (n & E & Hb & Hm). injection E as En Eq. unfold doorbells, set_cap_offset, set_notify. cbn.
    rewrite En, Eq. eexists. split; [reflexivity|]. by split_and!.
  - intros ? s (n & E & Hb & Hm & Ho) _. pose proof (keeps_eq _ _ s contexts_ready_still) as E'.
    exists m, n. rewrite E', E. split_and!; try done. by apply Hp.
Qed.

Lemma bar0_fallback_placed : hoare baseless (bar0_fallback mapDev contexts_alloc) region.
Proof.
  unfold bar0_fallback. eapply hoare_bind.
  { apply (hoare_gets _ (fun _ => baseless)). }
  intros old. eapply (hoare_bind _ _ _ (fun _ => baseless)).
  { destruct old; [apply baseless_bars|by intros s Hs]. }
  intros ?. apply (hoare_bind _ _ _ (fun o s => baseless s /\ forall m, o = Some m -> mapDev 0 = Some m)).
  { intros s Hs. split; [by apply baseless_bars|]. unfold in_hw, on_bars, map_index. by destruct (mapDev 0). }
  intros o s [Hs Ho]. revert s Hs.
  change (hoare baseless (bind (set_notify_map o) (fun _ => match o with
    | None => ret false | Some _ => regions_done contexts_alloc LEGACY_NOTIFY end)) region).
  eapply hoare_bind; [apply based_set_map|intros ?]. destruct o as [m|]; [|by intros s _ [=]].
  apply regions_done_placed. intros n _ _ Hn. right; right. split; [by apply Ho|done].
Qed.

Lemma page_of x : 0 <= x < 2 ^ 64 -> Z.land x (Z.lxor 0xFFFFFFFFFFFFFFFF (PAGE_SIZE - 1)) = x - x mod PAGE_SIZE.
Proof.
  intros Hx. change PAGE_SIZE with (2 ^ 12). rewrite <- (Z.land_ones x 12) by lia.
  change (2 ^ 12 - 1) with (Z.ones 12). change 0xFFFFFFFFFFFFFFFF with (Z.ones 64).
  assert (E : Z.land x (Z.lxor (Z.ones 64) (Z.ones 12)) = Z.ldiff x (Z.land x (Z.ones 12))).
  { apply Z.bits_inj'. intros i Hi. rewrite Z.land_spec, Z.lxor_spec, Z.ldiff_spec, Z.land_spec.
    rewrite !Z.testbit_ones_nonneg by lia. destruct (Z.testbit x i) eqn:Ei; [|done].
    assert (i < 64).
    { destruct (Z.lt_ge_cases i 64); [done|]. rewrite (Z.bits_above_log2 x i) in Ei; [done|lia|].
      destruct (decide (x = 0)) as [->|]; [cbn; lia|]. apply Z.log2_lt_pow2; [lia|].
      pose proof (Z.pow_le_mono_r 2 64 i). lia. }
    destruct (Z.ltb_spec i 64); [|lia]. by destruct (i <? 12). }
  rewrite E, Z.sub_nocarry_ldiff; [done|]. apply Z.bits_inj'. intros i Hi.
  rewrite Z.ldiff_spec, Z.land_spec, Z.bits_0. by destruct (Z.testbit x i), (Z.testbit (Z.ones 12) i).
Qed.

Lemma direct_page_range phys total off base po :
  direct_page phys total off = Some (base, po) -> 0 <= po < PAGE_SIZE.
Proof.
  unfold direct_page. repeat case_match; try done. intros [= <- <-].
  rewrite page_of by (unfold u64; apply Z.mod_pos_bound; lia).
  replace (u64 (phys + off) - _) with (u64 (phys + off) mod PAGE_SIZE) by lia. by apply Z.mod_pos_bound.
Qed.

Lemma direct_notify_placed index off :
  hoare baseless (direct_notify mapDev getDev getDevLength virt direct_map contexts_alloc index off) region.
Proof.
  unfold direct_notify. destruct (getDev index) as [phys|]; [|apply bar0_fallback_placed].
  destruct (direct_page phys (getDevLength index) off) as [[base po]|] eqn:Ep; [|apply bar0_fallback_placed].
  destruct (direct_map base (po + 4)) as [d|] eqn:Ed; [|apply bar0_fallback_placed].
  eapply hoare_bind; [apply baseless_bars|intros ?].
  destruct (virt d) eqn:Ev; [|eapply hoare_bind; [apply baseless_bars|intros ?; apply bar0_fallback_placed]].
  eapply hoare_bind; [apply (hoare_gets _ (fun _ => baseless))|intros old].
  eapply (hoare_bind _ _ _ (fun _ => baseless)).
  { destruct old; [apply baseless_bars|by intros s Hs]. }
  intros ?. eapply hoare_bind; [apply based_set_map|intros ?].
  intros s (n & E & Hb & Hm) _. injection E as En Eq. unfold doorbells, set_cap_offset, set_notify, bind. cbn.
  rewrite En, Eq. eexists d, _. split; [reflexivity|]. split_and!; [done|done|]. right; left.
  pose proof (direct_page_range _ _ _ _ _ Ep) as Hpo. cbn.
  rewrite u32_small by (unfold PAGE_SIZE in Hpo; lia). split; [done|]. split; [by exists base|done].
Qed.

Lemma setupGPUMemoryRegions_placed :
  (forall c, findVirtIOCapability r8 r32 fuel true VIRTIO_PCI_CAP_NOTIFY_CFG = Some (Some c) -> 0 <= cap_offset c < 2 ^ 32 - 4) ->
  hoare has_pci (setupGPUMemoryRegions r8 r32 mapDev getDev getDevLength virt direct_map contexts_alloc fuel)
    (fun r s => r = Some true -> region true s).
Proof.
  intros Hoff. unfold setupGPUMemoryRegions.
  apply (hoare_bind _ _ _ (fun _ s => baseless s /\ has_pci s)); [by intros s Hs|].
  intros ? s [Hb Hp]. cbn beta. rewrite get_pci by done. cbn [negb]. revert s Hb Hp.
  enough (Hk : forall c : cap, 0 <= cap_offset c < 2 ^ 32 - 4 ->
    hoare baseless
      (let! r0 := in_hw (on_bars (mapBarByNumber r32 mapDev true true (cap_bar c))) in
       set_notify_map r0.1 ;;;
       match r0.1 with
       | None => ret (Some false)
       | Some m => let! ok := (if negb (map_length m <? u32 (cap_offset c + 4)) && virt m
                               then regions_done contexts_alloc (cap_offset c)
                               else direct_notify mapDev getDev getDevLength virt direct_map contexts_alloc
                                      (default (-1) r0.2) (cap_offset c)) in ret (Some ok)
       end) (fun r s => r = Some true -> region true s)).
  { intros s Hb Hp. destruct (findVirtIOCapability r8 r32 fuel true VIRTIO_PCI_CAP_NOTIFY_CFG) as [[c|]|]; [| |done].
    - exact (Hk c (Hoff c eq_refl) s Hb).
    - refine (Hk (mk_cap 0 LEGACY_NOTIFY 4) _ s Hb). done. }
  intros c Hc. eapply hoare_bind; [apply baseless_bars|intros [m idx]]. cbn [fst snd].
  eapply hoare_bind; [apply based_set_map|intros ?]. destruct m as [m|]; [|by intros s _ [=]].
  eapply (hoare_bind _ _ _ region); [|intros ok s Hs [= ->]; exact Hs].
  destruct (Z.ltb_spec (map_length m) (u32 (cap_offset c + 4))) as [|Hl]; cbn [negb andb].
  2: { destruct (virt m) eqn:Ev.
       - apply regions_done_placed. intros n Hn1 Hn2 Hn. left. split; [done|]. exists (u32 (cap_offset c)).
         unfold notify_addr. rewrite Hn1, Hn2, Hn. cbn [andb]. rewrite Z.mul_0_l. change (u32 0) with 0.
         rewrite Z.add_0_r. split; [by rewrite u32_small by lia|]. rewrite u32_small in * by lia. lia.
       - eapply hoare_weaken; [apply direct_notify_placed| |done]. intros s (n & E & Hn & _).
         unfold baseless. by injection E as _ ->. }
  eapply hoare_weaken; [apply direct_notify_placed| |done]. intros s (n & E & Hn & _). unfold baseless. by injection E as _ ->.
Qed.

(** When [setupGPUMemoryRegions] succeeds there is a notify mapping, and
    either the doorbell of a queue with offset 0 lies inside it, or it is
    BAR 0 with the legacy offset. In a direct mapping that doorbell is the last
    word: a queue with a non-zero offset rings outside the mapping. *)
Theorem notify_region_bounds (s s' : B) :
  (forall c, findVirtIOCapability r8 r32 fuel true VIRTIO_PCI_CAP_NOTIFY_CFG = Some (Some c) ->
     0 <= cap_offset c < 2 ^ 32 - 4) ->
  (forall base len m, direct_map base len = Some m -> map_length m = len) ->
  has_pci s ->
  setupGPUMemoryRegions r8 r32 mapDev getDev getDevLength virt direct_map contexts_alloc fuel s = (Some true, s') ->
  exists m n, doorbells s' = (Some m, n) /\
    ((virt m = true /\ rings_in n 0 m) \/
     (virt m = true /\ (exists base, direct_map base (n_cap_offset n + 4) = Some m) /\ rings_in n 0 m /\
      forall q, 0 < q * n_off_multiplier n < 2 ^ 31 -> ~ rings_in n q m) \/
     (mapDev 0 = Some m /\ notify_addr n 0 = Some LEGACY_NOTIFY)).
Proof.
  intros Hoff Hlen Hp E. pose proof (setupGPUMemoryRegions_placed Hoff s Hp) as Hs. rewrite E in Hs.
  destruct (Hs eq_refl eq_refl) as (m & n & Ed & Hb & Hm & Hpl). exists m, n. split; [done|].
  assert (Ha : forall q, notify_addr n q = Some (n_cap_offset n + u32 (q * n_off_multiplier n))).
  { intros q. unfold notify_addr. by rewrite Hb, Hm. }
  destruct Hpl as [?|[(Hv & [base Hd] & Hr)|[Hd Hl]]]; [by left|right; left|right; right].
  - pose proof (Hlen _ _ _ Hd) as El. unfold PAGE_SIZE in Hr. split; [done|]. split; [by exists base|]. split.
    + eexists. split; [apply Ha|]. rewrite Z.mul_0_l. change (u32 0) with 0. lia.
    + intros q Hq (a & Ea & Hle). rewrite Ha, (u32_small (q * _)) in Ea by lia. injection Ea as <-. lia.
  - split; [done|]. rewrite Ha, Hl, Z.mul_0_l. done.
Qed.
End notify_region.

(** * The queue buffers *)
Section queue_buffers.
Context {T : Type} `{Transport T}.
Abbreviation B := (machine T).

(** The references the two members account for. *)
Definition queue_refs (id : Z) (s : B) : Z :=
  own id (md_id <$> mc_control_queue s) + own id (md_id <$> mc_cursor_queue s).
(** [p] prepares, and [r] references besides the members'. *)
Definition queues_hold (id h m p r : Z) (s : B) : Prop :=
  bal id h m p (r + queue_refs id s) (mc_world s).
Definition buffer_of (d : mdesc) (old : option mdesc) (entries : Z) : Prop :=
  match old with Some d' => d = d' | None => md_length d = entries * SIZEOF_CTRL_HDR end.
Definition prepares (id : Z) (d : mdesc) : Z := if is_success (md_prepare d) then own id (Some (md_id d)) else 0.

Lemma bal_set_control id h m p r d (s : B) :
  bal id h m p r (mc_world (set_mc_control_queue d s)) <-> bal id h m p r (mc_world s).
Proof. done. Qed.
Lemma bal_new {id h m p r n} {w : world T} :
  bal id h m p r w -> let '(o, w') := new_descriptor n w in bal id h m p (r + own id (md_id <$> o)) w'.
Proof.
  intros Hb. pose proof (moves_new_descriptor id n w) as Hm. destruct (new_descriptor n w) as [o w'].
  rewrite Hb in Hm. unfold bal. rewrite Hm. apply quad_eq; lia.
Qed.
Lemma new_length n (w : world T) d : (new_descriptor n w).1 = Some d -> md_length d = n.
Proof.
  unfold new_descriptor. destruct (m_allocs (w_mem w)) as [|[a|] l]; cbn; [done| |done]. by intros [= <-].
Qed.

(** What stays put while the buffers are made. *)
Definition queue_frame (s s' : B) : Prop :=
  mc_control_queue_size s' = mc_control_queue_size s /\ mc_cursor_queue_size s' = mc_cursor_queue_size s
  /\ mc_hw s' = mc_hw s.

Lemma control_buffer_spec id h m p r s :
  queues_hold id h m p r s ->
  let '(o, s') := control_buffer s in
  queues_hold id h m p r s' /\ mc_control_queue s' = o /\ mc_cursor_queue s' = mc_cursor_queue s /\ queue_frame s s' /\
  match o with Some d => buffer_of d (mc_control_queue s) (mc_control_queue_size s) | None => mc_control_queue s = None end.
Proof.
  intros Hs. unfold control_buffer, bind at 1, gets at 1. destruct (mc_control_queue s) as [d|] eqn:Ed.
  { cbn. rewrite Ed. unfold queue_frame. by split_and!. }
  unfold bind at 1, gets at 1. unfold bind at 1, in_world.
  set (n := mc_control_queue_size s * SIZEOF_CTRL_HDR). pose proof (new_length n (mc_world s)) as Hlen.
  pose proof (bal_new (n := n) Hs) as Hb. destruct (new_descriptor n (mc_world s)) as [o w]. cbn [fst] in Hlen.
  cbn -[own]. unfold queue_frame. cbn. split_and!; try done.
  - unfold queues_hold, queue_refs in *. cbn -[own]. rewrite Ed in Hb. cbn -[own] in Hb. rewrite own_None in Hb.
    unfold bal, balance in *. cbn -[own]. rewrite Hb. apply quad_eq; lia.
  - destruct o as [d|]; [|done]. by apply Hlen.
Qed.
Lemma cursor_buffer_spec id h m p r s :
  queues_hold id h m p r s ->
  let '(o, s') := cursor_buffer s in
  queues_hold id h m p r s' /\ mc_cursor_queue s' = o /\ mc_control_queue s' = mc_control_queue s /\ queue_frame s s' /\
  match o with Some d => buffer_of d (mc_cursor_queue s) (mc_cursor_queue_size s) | None => mc_cursor_queue s = None end.
Proof.
  intros Hs. unfold cursor_buffer, bind at 1, gets at 1. destruct (mc_cursor_queue s) as [d|] eqn:Ed.
  { cbn. rewrite Ed. unfold queue_frame. by split_and!. }
  unfold bind at 1, gets at 1. unfold bind at 1, in_world.
  set (n := mc_cursor_queue_size s * SIZEOF_CTRL_HDR). pose proof (new_length n (mc_world s)) as Hlen.
  pose proof (bal_new (n := n) Hs) as Hb. destruct (new_descriptor n (mc_world s)) as [o w]. cbn [fst] in Hlen.
  cbn -[own]. unfold queue_frame. cbn. split_and!; try done.
  - unfold queues_hold, queue_refs in *. cbn -[own]. rewrite Ed in Hb. cbn -[own] in Hb. rewrite own_None in Hb.
    unfold bal, balance in *. cbn -[own]. rewrite Hb. apply quad_eq; lia.
  - destruct o as [d|]; [|done]. by apply Hlen.
Qed.

Lemma setup_queues_spec id h m p r c k s :
  queues_hold id h m p r s ->
  let '(ok, s') := setupVirtIOHardwareQueues c k s in
  ok = is_success (md_prepare c) && is_success (md_prepare k) /\
  queues_hold id h m (p + prepares id c + prepares id k) r s' /\
  mc_control_queue s' = mc_control_queue s /\ mc_cursor_queue s' = mc_cursor_queue s /\ mc_hw s' = mc_hw s.
Proof.
  intros Hs. unfold setupVirtIOHardwareQueues, bind at 1, in_world at 1.
  pose proof (moves_prepare id c (mc_world s)) as Hc. destruct (prepare c (mc_world s)) as [x w] eqn:E1.
  unfold bind, in_world. cbn [mc_world set_mc_world].
  pose proof (moves_prepare id k w) as Hk. destruct (prepare k w) as [y w'] eqn:E2.
  assert (x = md_prepare c) as ->. { unfold prepare, bind, ret in E1. destruct (is_success (md_prepare c)); by injection E1. }
  assert (y = md_prepare k) as ->. { unfold prepare, bind, ret in E2. destruct (is_success (md_prepare k)); by injection E2. }
  cbn -[own is_success]. split_and!; try done. unfold queues_hold, bal, queue_refs in *. cbn -[own is_success].
  rewrite Hs in Hc. rewrite Hc in Hk. rewrite Hk. unfold prepares. apply quad_eq; lia.
Qed.

Lemma bal_release {id h m p r i} {w : world T} :
  bal id h m p r w -> bal id h m p (r - own id (Some i)) (release i w).2.
Proof.
  intros Hb. pose proof (moves_release id i w) as Hm. destruct (release i w) as [u w'].
  rewrite Hb in Hm. unfold bal. cbn [snd]. rewrite Hm. apply quad_eq; lia.
Qed.
Definition control_entries (s : B) : Z := if 0 <? g_num_capsets (w_gpu (mc_world s)) then 512 else 256.
Lemma optimal_sizes (s : B) :
  setOptimalQueueSizes s = (true, set_mc_sizes (control_entries s) 16 s).
Proof.
  unfold setOptimalQueueSizes, supports3D, bind, in_world, get_gpu, gets, modify, ret, control_entries.
  destruct s as [hw w cm cq kq cs ks cx]. cbn. by destruct (0 <? g_num_capsets (w_gpu w)).
Qed.

(** The outcome of a call that had a buffer to make. *)
Definition made (id : Z) (s : B) (p p' : Z) (ok : bool) (s' : B) : Prop :=
  match mc_control_queue s', mc_cursor_queue s' with
  | Some c, Some k =>
      buffer_of c (mc_control_queue s) (control_entries s) /\ buffer_of k (mc_cursor_queue s) 16 /\
      ok = is_success (md_prepare c) && is_success (md_prepare k) /\
      p' = p + prepares id c + prepares id k
  | None, _ => ok = false /\ p' = p
  | Some _, None => False
  end.

Lemma initializeVirtIOQueues_holds id h m p r s :
  has_pci s -> queues_hold id h m p r s ->
  let '(ok, s') := initializeVirtIOQueues s in
  mc_hw s' = mc_hw s /\
  exists p', queues_hold id h m p' r s' /\
    match mc_control_queue s, mc_cursor_queue s with
    | Some _, Some _ => ok = true /\ s' = s /\ p' = p
    | _, _ => made id s p p' ok s'
    end.
Proof.
  intros Hp Hs. unfold initializeVirtIOQueues. rewrite get_pci by done. cbn [negb].
  unfold bind at 1, gets at 1. unfold bind at 1, gets at 1.
  enough (Hgo : let '(ok, s') := (let! ok := setOptimalQueueSizes in
      if negb ok then ret false else let! control := control_buffer in
        match control with None => ret false | Some c => let! cursor := cursor_buffer in
          match cursor with
          | None => in_world (release (md_id c)) ;;; modify (set_mc_control_queue None) ;;; ret false
          | Some k => setupVirtIOHardwareQueues c k end end) s in
    mc_hw s' = mc_hw s /\ exists p', queues_hold id h m p' r s' /\ made id s p p' ok s').
  { destruct (mc_control_queue s); [|exact Hgo]. destruct (mc_cursor_queue s); [|exact Hgo]. cbn. split; [done|].
    by exists p. }
  unfold bind at 1. rewrite optimal_sizes. cbn [negb]. set (s0 := set_mc_sizes (control_entries s) 16 s).
  assert (Hs0 : queues_hold id h m p r s0) by exact Hs.
  unfold bind at 1. pose proof (control_buffer_spec id h m p r s0 Hs0) as Hc.
  destruct (control_buffer s0) as [[c|] s1].
  2: { destruct Hc as (H1 & E1 & _ & (_ & _ & Eh) & _). cbn. split; [done|]. exists p. split; [done|]. unfold made. by rewrite E1. }
  destruct Hc as (H1 & E1 & E2 & (_ & Ez & Eh) & Hbc). unfold bind at 1.
  pose proof (cursor_buffer_spec id h m p r s1 H1) as Hk. destruct (cursor_buffer s1) as [[k|] s2].
  - destruct Hk as (H2 & E3 & E4 & (_ & _ & Eh2) & Hbk). pose proof (setup_queues_spec id h m p r c k s2 H2) as Hq.
    destruct (setupVirtIOHardwareQueues c k s2) as [ok s3]. destruct Hq as (-> & H3 & E5 & E6 & Eh3).
    split; [by rewrite Eh3, Eh2, Eh|]. eexists. split; [exact H3|]. unfold made. rewrite E5, E4, E1, E6, E3.
    rewrite Ez, E2 in Hbk. by split_and!.
  - destruct Hk as (H2 & E3 & E4 & (_ & _ & Eh2) & _). cbn -[own]. split; [by rewrite Eh2, Eh|]. exists p. split; [|done].
    unfold queues_hold in *. rewrite <- (Z.add_0_r r) in H2. 
    assert (E : queue_refs id s2 = own id (Some (md_id c))).
    { unfold queue_refs. rewrite E3, E4, E1. cbn -[own]. rewrite own_None. lia. }
    rewrite E in H2. apply (bal_release (i := md_id c)) in H2. unfold queue_refs. cbn -[own balance]. rewrite E3, own_None.
    unfold bal, balance in *. cbn -[own] in *. rewrite H2, ?own_None. apply quad_eq; lia.
Qed.

(** The last two steps of the clean-up only touch mappings. *)
Definition memory_side (s : B) := (mc_world s, mc_control_queue s, mc_cursor_queue s).
Lemma memory_in_hw {A} (m : M hw A) : keeps memory_side (in_hw m).
Proof. intros v s Hs. unfold in_hw. by destruct (m (mc_hw s)). Qed.

Lemma cleanup_holds id h m p r s :
  queues_hold id h m p r s ->
  let s' := (cleanupVirtIOGPU s).2 in
  bal id h m p r (mc_world s') /\ mc_control_queue s' = None /\ mc_cursor_queue s' = None.
Proof.
  revert s. change (hoare (queues_hold id h m p r) cleanupVirtIOGPU (fun _ s' =>
    bal id h m p r (mc_world s') /\ mc_control_queue s' = None /\ mc_cursor_queue s' = None)).
  unfold cleanupVirtIOGPU. apply (hoare_bind _ _ _ (fun _ => queues_hold id h m p r)).
  { intros s Hs. unfold in_hw. by destruct (teardownControlVirtQueue (mc_hw s)). }
  intros ?. apply (hoare_bind _ _ _ (fun o s => queues_hold id h m p r s /\ mc_control_queue s = o)); [by intros s Hs|].
  intros control. apply (hoare_bind _ _ _ (fun _ s => queues_hold id h m p r s /\ mc_control_queue s = None)).
  { intros s [Hs E]. destruct control as [c|]; [|done]. unfold queues_hold, queue_refs in *. rewrite E in Hs.
    cbn -[own release] in *. apply (bal_release (i := md_id c)) in Hs. unfold bind, in_world.
    destruct (release (md_id c) (mc_world s)) as [u w]. cbn -[own] in *. split; [|done]. rewrite own_None.
    unfold bal, balance in *. cbn -[own] in *. rewrite Hs. apply quad_eq; lia. }
  intros ?. apply (hoare_bind _ _ _ (fun o s => (queues_hold id h m p r s /\ mc_control_queue s = None)
    /\ mc_cursor_queue s = o)); [by intros s Hs|].
  intros cursor. apply (hoare_bind _ _ _ (fun _ s => bal id h m p r (mc_world s) /\ mc_control_queue s = None
    /\ mc_cursor_queue s = None)).
  { intros s [[Hs Ec] E]. unfold queues_hold, queue_refs in *. rewrite E, Ec in Hs. destruct cursor as [k|].
    - cbn -[own release] in *. apply (bal_release (i := md_id k)) in Hs. unfold bind, in_world.
      destruct (release (md_id k) (mc_world s)) as [u w]. cbn -[own] in *. split_and!; [|done..].
      rewrite own_None in Hs. unfold bal, balance in *. cbn -[own] in *. rewrite Hs. apply quad_eq; lia.
    - cbn -[own] in *. rewrite own_None in Hs. split_and!; [|done..]. by replace r with (r + (0 + 0)) by lia. }
  intros ? s Hs.
  match goal with |- context [mc_world (?k s).2] =>
    assert (Hk : keeps memory_side k) by (pose proof (fun A => @memory_in_hw A); unfold set_notify_map, set_notify; keeps_tac);
    pose proof (keeps_eq _ _ s Hk) as E end.
  unfold memory_side in E. injection E as E1 E2 E3. destruct Hs as (? & ? & ?). by rewrite E1, E2, E3.
Qed.

(** The queue buffers. With both present [initializeVirtIOQueues] changes
    nothing; otherwise it makes those that are missing, with 512 or 256 and 16
    entries of 24 bytes, prepares both, and answers whether both prepares
    succeeded, or gives the control buffer back when the cursor's cannot be
    made. The clean-up releases exactly what the members hold, but the
    prepares are never undone. *)
Theorem queue_buffers_accounted id h m p r s :
  has_pci s -> queues_hold id h m p r s ->
  let '(ok, s1) := initializeVirtIOQueues s in
  let s2 := (cleanupVirtIOGPU s1).2 in
  exists p', queues_hold id h m p' r s1 /\
    match mc_control_queue s, mc_cursor_queue s with
    | Some _, Some _ => ok = true /\ s1 = s /\ p' = p
    | _, _ => made id s p p' ok s1
    end /\
    bal id h m p' r (mc_world s2) /\ mc_control_queue s2 = None /\ mc_cursor_queue s2 = None.
Proof.
  intros Hp Hs. pose proof (initializeVirtIOQueues_holds id h m p r s Hp Hs) as Hi.
  destruct (initializeVirtIOQueues s) as [ok s1]. destruct Hi as (_ & p' & H1 & Hm). exists p'.
  split; [done|]. split; [done|]. by apply cleanup_holds.
Qed.
End queue_buffers.

(** * The order of the register writes, and the device's limits *)
Section order.
Context {T : Type} `{Transport T}.
Abbreviation B := (machine T).
Context (dev : list ev -> Z -> Z -> Z).
Context (r8 r32 : Z -> Z) (mapDev : Z -> option mapping) (getDev : Z -> option Z) (getDevLength : Z -> Z).
Context (virt : mapping -> bool) (direct_map : Z -> Z -> option mapping).
Context (by_phys : option (Z * Z)) (device_config : list ev -> Z * Z) (contexts_alloc : bool).
Context (fuel : nat).

Definition trace (s : B) : list ev := h_trace (mc_hw s).
Lemma trace_in_hw {A} (m : M hw A) : keeps h_trace m -> keeps trace (in_hw m).
Proof.
  intros Hm v s Hs. pose proof (keeps_eq _ m (mc_hw s) Hm) as E. unfold in_hw.
  destruct (m (mc_hw s)) as [a h]. cbn in *. by rewrite <- Hs.
Qed.
Lemma trace_in_world {A} (m : M (world T) A) : keeps trace (in_world m).
Proof. intros v s Hs. unfold in_world. by destruct (m (mc_world s)). Qed.
Lemma trace_on_bars {A} (m : M bars A) : keeps h_trace (on_bars m).
Proof. intros v h Hh. unfold on_bars. by destruct (m (h_bars h)). Qed.
#[local] Hint Resolve trace_in_world trace_on_bars : keeps.
#[local] Hint Extern 2 (keeps trace (in_hw _)) => apply trace_in_hw; solve [keeps_tac] : keeps.
#[local] Hint Extern 2 (keeps h_trace (upd_cq _)) => apply keeps_modify; reflexivity : keeps.

Lemma trace_queues : keeps trace initializeVirtIOQueues.
Proof.
  unfold initializeVirtIOQueues, setOptimalQueueSizes, control_buffer, cursor_buffer,
    setupVirtIOHardwareQueues, pci_device. keeps_tac.
Qed.
Lemma trace_enable3D : keeps trace enable3DAcceleration.
Proof. pose proof trace_queues. unfold enable3DAcceleration, pci_device. keeps_tac. Qed.
Lemma trace_regions :
  keeps trace (setupGPUMemoryRegions r8 r32 mapDev getDev getDevLength virt direct_map contexts_alloc fuel).
Proof.
  unfold setupGPUMemoryRegions, direct_notify, bar0_fallback, regions_done, contexts_ready, set_cap_offset,
    set_notify_map, set_notify, pci_device. keeps_tac.
Qed.
Lemma trace_set_config e : keeps trace (set_config e).
Proof. unfold set_config. destruct (init_config e). auto with keeps. Qed.
#[local] Hint Resolve trace_queues trace_enable3D trace_regions trace_set_config : keeps.

(** Every register write after the reset. *)
Definition reset_writes : list ev :=
  [Wr 8 VIRTIO_COMMON_DEVICE_STATUS 0; Sleep 10; Wr 8 VIRTIO_COMMON_DEVICE_STATUS VIRTIO_STATUS_ACKNOWLEDGE;
   Wr 8 VIRTIO_COMMON_DEVICE_STATUS (Z.lor VIRTIO_STATUS_ACKNOWLEDGE VIRTIO_STATUS_DRIVER)].
Definition starts_over (t t' : list ev) : Prop := t' = t \/ exists u, t' = t ++ reset_writes ++ u.

Lemma grows_hw_modify f : (forall h, h_trace (f h) = h_trace h) -> grows (modify f).
Proof. intros Hf h. exists []. cbn. by rewrite Hf, app_nil_r. Qed.
Ltac grows_tac :=
  repeat first [apply grows_bind; [|intros ?] | case_match | solve [auto with keeps]
               | solve [apply grows_hw_modify; reflexivity] | apply grows_setupCursorQueue ].
Lemma setup_mapped_resets h : exists u, h_trace (setup_mapped dev h).2 = h_trace h ++ reset_writes ++ u.
Proof.
  unfold setup_mapped. unfold bind at 1, emit at 1, modify at 1. unfold bind at 1, emit at 1, modify at 1.
  unfold bind at 1, emit at 1, modify at 1. unfold bind at 1, emit at 1, modify at 1.
  match goal with |- context [h_trace (?k ?s).2] =>
    assert (Hg : grows k) by (unfold negotiateFeatures, setup_ring, setup_buffers, write_addresses, rd, upd_cq; grows_tac);
    destruct (Hg s) as [t Ht] end.
  exists t. rewrite Ht. cbn. by rewrite <- !app_assoc.
Qed.
Lemma queue_setup_resets (s : B) :
  starts_over (trace s) (trace (in_hw (setupControlVirtQueue dev r8 r32 mapDev getDev fuel true) s).2).
Proof.
  revert s. enough (Hh : forall t, hoare (fun h => h_trace h = t)
    (setupControlVirtQueue dev r8 r32 mapDev getDev fuel true) (fun _ h => starts_over t (h_trace h))).
  { intros s. specialize (Hh (trace s) (mc_hw s) eq_refl). unfold in_hw, trace in *. by destruct (setupControlVirtQueue _ _ _ _ _ _ _ _). }
  intros t. unfold setupControlVirtQueue. cbn [negb].
  assert (Hk : forall A (m : M hw A), keeps h_trace m -> hoare (fun h => h_trace h = t) m (fun _ h => h_trace h = t))
    by (intros A m Hm; exact (Hm t)).
  assert (Hend : forall A (a : A), hoare (fun h => h_trace h = t) (ret a) (fun _ h => starts_over t (h_trace h)))
    by (intros A a h Hh; by left).
  eapply hoare_bind; [apply Hk; auto with keeps|]. intros [[[[bar off] m]|]|]; [|apply Hend..].
  eapply hoare_bind; [apply Hk; by apply keeps_modify|intros ?].
  eapply hoare_bind; [apply Hk; unfold setup_notify; keeps_tac|intros [|]; [|apply Hend]]. cbn [negb].
  eapply (hoare_bind _ _ _ (fun _ h => starts_over t (h_trace h))); [|by intros ok h Hh].
  intros h <-. right. apply setup_mapped_resets.
Qed.

Lemma early_init_trace h :
  h_trace (early_init r8 r32 mapDev virt fuel h).2 = h_trace h \/
  h_trace (early_init r8 r32 mapDev virt fuel h).2 = h_trace h ++ handshake.
Proof.
  unfold early_init. destruct (findVirtIOCapability r8 r32 fuel true VIRTIO_PCI_CAP_COMMON_CFG) as [[c|]|]; [|by left..].
  unfold bind, on_bars, map_index. destruct (mapDev (cap_bar c)) as [m|]; [|by left]. cbn.
  destruct (negb _ && _); cbn; [by right|by left].
Qed.
Lemma config_trace (s : B) :
  let s' := (read_device_config r8 r32 mapDev virt by_phys device_config fuel s).2 in
  trace s' = trace s \/ trace s' = trace s ++ handshake.
Proof.
  revert s. enough (Hh : forall t, hoare (fun s => trace s = t)
    (read_device_config r8 r32 mapDev virt by_phys device_config fuel)
    (fun _ s => trace s = t \/ trace s = t ++ handshake)) by (intros s; exact (Hh (trace s) s eq_refl)).
  intros t. unfold read_device_config.
  assert (Hend : forall A (a : A) (P : B -> Prop), hoare P (ret a) (fun _ => P)) by (intros A a P s Hs; exact Hs).
  assert (Hk : forall A (m : M B A) (P : list ev -> Prop), keeps trace m ->
    hoare (fun s => P (trace s)) m (fun _ s => P (trace s))).
  { intros A m P Hm s Hs. by rewrite (keeps_eq _ m s Hm). }
  destruct (findVirtIOCapability r8 r32 fuel true VIRTIO_PCI_CAP_DEVICE_CFG) as [[c|]|]; [|shelve|by intros s; left].
  eapply hoare_bind; [apply (Hk _ _ (fun x => x = t)); auto with keeps|intros r].
  eapply hoare_bind; [apply (Hk _ _ (fun x => x = t)); by apply keeps_modify|intros ?].
  apply (hoare_bind _ _ _ (fun _ s => (fun x => x = t \/ x = t ++ handshake) (trace s))).
  - destruct (match _ with Some (true, size) => _ | _ => false end); [|intros s Hs; by left].
    intros s <-. unfold in_hw. pose proof (early_init_trace (mc_hw s)) as He. by destruct (early_init _ _ _ _ _ (mc_hw s)).
  - intros [[]|]; [|apply Hend]. do 2 (eapply hoare_bind; [apply (Hk _ _ (fun x => x = t \/ x = t ++ handshake)); auto with keeps|intros ?]). apply Hend.
  Unshelve. eapply hoare_bind; [apply (Hk _ _ (fun x => x = t)); auto with keeps|intros ? s Hs; by left].
Qed.

(** The bring-up writes no register but the four status values of the early
    initialisation before it has reset the device and announced itself again. *)
Theorem initVirtIOGPU_resets (s : B) :
  let s' := (initVirtIOGPU dev r8 r32 mapDev getDev getDevLength virt direct_map by_phys device_config
               contexts_alloc fuel s).2 in
  exists early, (early = [] \/ early = handshake) /\ starts_over (trace s ++ early) (trace s').
Proof.
  unfold initVirtIOGPU, bind at 1. pose proof (config_trace s) as Hc. cbn zeta in Hc.
  destruct (read_device_config r8 r32 mapDev virt by_phys device_config fuel s) as [more s1]. cbn [snd] in Hc.
  assert (Hstart : exists early, (early = [] \/ early = handshake) /\ trace s1 = trace s ++ early).
  { destruct Hc as [E|E]; [exists []; rewrite app_nil_r|exists handshake]; auto. }
  destruct Hstart as (early & He & Es1). exists early. split; [done|]. rewrite <- Es1.
  destruct more as [[|]|]; [|by left..]. unfold bring_up_queues, bind at 1. pose proof (queue_setup_resets s1) as Hq.
  destruct (in_hw (setupControlVirtQueue _ _ _ _ _ _ _) s1) as [up s2]. cbn [snd] in Hq.
  destruct up as [up|]; [|exact Hq].
  match goal with |- starts_over _ (trace (?k ?x).2) =>
    assert (Hk : keeps trace k) by keeps_tac; by rewrite (keeps_eq _ k x Hk) end.
Qed.

(** ** Scanouts and capability sets *)
Definition limits (s : B) := (g_max_scanouts (w_gpu (mc_world s)), g_num_capsets (w_gpu (mc_world s))).
Definition within (s : B) : Prop := 1 <= (limits s).1 <= 16 /\ 0 <= (limits s).2 <= 64.
Lemma limits_in_hw {A} (m : M hw A) : keeps limits (in_hw m).
Proof. intros v s Hs. unfold in_hw. by destruct (m (mc_hw s)). Qed.
Definition gpu_limits (g : gpu) := (g_max_scanouts g, g_num_capsets g).
Lemma limits_in_world {A} (m : M (world T) A) :
  keeps (fun w => gpu_limits (w_gpu w)) m -> keeps limits (in_world m).
Proof.
  intros Hm v s Hs. pose proof (keeps_eq _ m (mc_world s) Hm) as E.
  unfold in_world. destruct (m (mc_world s)) as [a w]. cbn in *. by rewrite <- Hs.
Qed.
Lemma limits_create3D id t f b w h d :
  keeps (fun w : world T => gpu_limits (w_gpu w)) (createResource3D id t f b w h d).
Proof.
  unfold createResource3D, lock_resources, unlock_resources. keeps_tac.
Qed.
Lemma limits_query n : forall i, keeps (fun w : world T => gpu_limits (w_gpu w)) (query_capsets n i).
Proof. induction n; intros i; cbn [query_capsets]; keeps_tac. Qed.
Lemma limits_webgl : keeps (fun w : world T => gpu_limits (w_gpu w)) initializeWebGLAcceleration.
Proof.
  pose proof limits_create3D. unfold initializeWebGLAcceleration, createRenderContext, allocateGPUMemory,
    next_resource_id, supports3D, lock_contexts, unlock_contexts, initializeCommandHeader. keeps_tac.
Qed.
Lemma limits_features : keeps (fun w : world T => gpu_limits (w_gpu w)) enableVirgl
  /\ keeps (fun w : world T => gpu_limits (w_gpu w)) enableResourceBlob
  /\ forall f, keeps (fun w : world T => gpu_limits (w_gpu w)) (enableFeature f).
Proof.
  pose proof limits_query. unfold enableVirgl, enableResourceBlob, supportsFeature, enableFeature, supports3D.
  split_and!; intros; keeps_tac.
Qed.
#[local] Hint Resolve limits_in_hw : keeps.
#[local] Hint Extern 2 (keeps limits (in_world _)) => apply limits_in_world; solve [keeps_tac] : keeps.
Lemma limits_queues : keeps limits initializeVirtIOQueues.
Proof.
  unfold initializeVirtIOQueues, setOptimalQueueSizes, control_buffer, cursor_buffer,
    setupVirtIOHardwareQueues, pci_device, supports3D, prepare, release. keeps_tac.
Qed.
Lemma limits_enable3D : keeps limits enable3DAcceleration.
Proof.
  pose proof limits_queues. pose proof limits_webgl. destruct limits_features as (? & ? & ?).
  unfold enable3DAcceleration, pci_device, supports3D. keeps_tac.
Qed.
Lemma limits_regions :
  keeps limits (setupGPUMemoryRegions r8 r32 mapDev getDev getDevLength virt direct_map contexts_alloc fuel).
Proof.
  unfold setupGPUMemoryRegions, direct_notify, bar0_fallback, regions_done, contexts_ready, set_cap_offset,
    set_notify_map, set_notify, pci_device. keeps_tac.
Qed.
#[local] Hint Resolve limits_queues limits_enable3D limits_regions : keeps.

Lemma config_within :
  (forall t, 0 <= (device_config t).2) -> (forall x k, by_phys = Some (x, k) -> 0 <= k) ->
  hoare (fun _ => True) (read_device_config r8 r32 mapDev virt by_phys device_config fuel)
    (fun r s => is_Some r -> within s).
Proof.
  intros Hd Hp.
  assert (Hset : forall e b, 0 <= (ce_hw e).2 -> ce_by_phys e = by_phys \/ ce_by_phys e = None ->
    hoare (fun _ : B => True) (set_config e ;;; ret (Some b)) (fun (r : option bool) s => is_Some r -> within s)).
  { intros e b Hhw Hbp s _ _. unfold set_config. pose proof (init_config_bounds e Hhw) as Hb.
    destruct (init_config e) as [x k]. cbn. destruct Hb as [Hb _]; [|exact Hb].
    intros y z E. destruct Hbp as [E'|E']; rewrite E' in E; [by eapply Hp|done]. }
  unfold read_device_config.
  assert (Hskip : forall A (m : M B A), hoare (fun _ => True) m (fun _ _ => True)) by done.
  destruct (findVirtIOCapability r8 r32 fuel true VIRTIO_PCI_CAP_DEVICE_CFG) as [[c|]|];
    [|apply Hset; [done|by right]|by intros s _ [? [=]]].
  do 3 (eapply hoare_bind; [apply Hskip|intros ?]). goal_case; [|by intros s _ [? [=]]].
  apply (hoare_bind _ _ _ (fun v _ => 0 <= v.2)); [intros s _; apply Hd|].
  intros hw s Hhw. apply Hset; [exact Hhw|by left|done].
Qed.

(** Whatever the configuration registers hold, a bring-up that ends leaves
    the driver with 1 to 16 scanouts and at most 64 capability sets. *)
Theorem initVirtIOGPU_limits (s : B) :
  (forall t, 0 <= (device_config t).2) -> (forall x k, by_phys = Some (x, k) -> 0 <= k) ->
  let '(r, s') := initVirtIOGPU dev r8 r32 mapDev getDev getDevLength virt direct_map by_phys device_config
               contexts_alloc fuel s in
  is_Some r -> 1 <= g_max_scanouts (w_gpu (mc_world s')) <= 16 /\ 0 <= g_num_capsets (w_gpu (mc_world s')) <= 64.
Proof.
  intros Hd Hp. unfold initVirtIOGPU, bind at 1. pose proof (config_within Hd Hp s I) as Hw.
  destruct (read_device_config r8 r32 mapDev virt by_phys device_config fuel s) as [more s1]. cbn [fst snd] in Hw.
  destruct more as [more|]; [|by intros [? [=]]]. specialize (Hw (mk_is_Some _ _ eq_refl)).
  assert (Hk : keeps limits (if more then bring_up_queues dev r8 r32 mapDev getDev getDevLength virt direct_map
    contexts_alloc fuel else ret (Some true))) by (unfold bring_up_queues; keeps_tac).
  pose proof (keeps_eq _ _ s1 Hk) as E. unfold within in Hw. rewrite <- E in Hw.
  destruct more; [destruct (bring_up_queues _ _ _ _ _ _ _ _ _ _ s1)|]; intros _; exact Hw.
Qed.
End order.

(** * A machine to boot *)
Definition boot_r32 (p : Z) : Z :=
  if p =? 0x18 then 0xFE000000 else if p =? 0x20 then 0xFD000000 else two_caps32 p.
Definition boot_map (i : Z) : option mapping :=
  if i =? 2 then Some (mk_mapping 9 0xFE000000 0x4000)
  else if i =? 4 then Some (mk_mapping 10 0xFD000000 0x2000) else None.
Definition boot_dev (i : Z) : option Z := if i =? 4 then Some 0xFD000000 else None.
Definition page_map (base len : Z) : option mapping := Some (mk_mapping 11 base len).
Definition boot_machine : machine host_machine :=
  mk_machine demo_hw (demo_world []) None None None 0 0 true.
Abbreviation boot_init :=
  (initVirtIOGPU demo_dev two_caps boot_r32 boot_map boot_dev (fun _ => 0x4000) (fun _ => true) page_map None
    (fun _ => (2, 1)) true 189).

(** The notify mapping of the queue set-up (10) is lost. *)
Lemma bringup_references_witness :
  (boot_init boot_machine).1 = Some true /\
  loose 10 (h_bars (mc_hw (cleanupVirtIOGPU (boot_init boot_machine).2).2)) = 1.
Proof.
  assert (E : (boot_init boot_machine).1 = Some true) by (vm_compute; reflexivity). split; [exact E|].
  destruct (bringup_references demo_dev two_caps boot_r32 boot_map boot_dev (fun _ => 0x4000) (fun _ => true) page_map
    None (fun _ => (2, 1)) true 189 10 boot_machine true eq_refl eq_refl eq_refl eq_refl eq_refl E) as [_ H].
  etransitivity; [exact H|]. vm_compute. reflexivity.
Defined.

Lemma getVRAMRange_spec_witness :
  exists d, (getVRAMRange boot_map boot_machine).1 = Some d /\ covers d 0xFE000000 0x4000.
Proof.
  pose proof (getVRAMRange_spec boot_map boot_machine eq_refl eq_refl) as H.
  assert (E : (getVRAMRange boot_map boot_machine).1 = Some (mk_mdesc 1 0x4000 kIOReturnSuccess [(0xFE000000, 0x4000)]))
    by (vm_compute; reflexivity).
  destruct (getVRAMRange boot_map boot_machine) as [o s']. destruct H as (_ & _ & _ & H & _).
  destruct (H ltac:(exists 2; split; [lia|reflexivity]) (demo_desc 1) [Some (demo_desc 2)] eq_refl) as (d & Ed & bar & m & _ & Em & _ & _ & Hc).
  cbn [fst] in E. rewrite E in Ed. injection Ed as <-. eexists. split; [exact E|]. by split.
Defined.

(** The direct mapping rings queue 0 only. *)
Lemma notify_region_bounds_witness :
  exists m n, doorbells (setupGPUMemoryRegions two_caps boot_r32 boot_map boot_dev (fun _ => 0x4000) (fun _ => true)
    page_map true 189 boot_machine).2 = (Some m, n) /\ map_id m = 11 /\ rings_in n 0 m.
Proof.
  set (r := setupGPUMemoryRegions two_caps boot_r32 boot_map boot_dev (fun _ => 0x4000) (fun _ => true)
    page_map true 189 boot_machine).
  assert (E : r.1 = Some true) by (vm_compute; reflexivity).
  assert (Ed : (map_id <$> (doorbells r.2).1) = Some 11) by (vm_compute; reflexivity).
  destruct (notify_region_bounds two_caps boot_r32 boot_map boot_dev (fun _ => 0x4000) (fun _ => true) page_map true 189
    boot_machine r.2) as (m & n & Em & Hcases).
  - intros c Hc. assert (Hf : findVirtIOCapability two_caps boot_r32 189 true VIRTIO_PCI_CAP_NOTIFY_CFG
      = Some (Some (mk_cap 4 0x3000 0x1000))) by (vm_compute; reflexivity).
    rewrite Hf in Hc. injection Hc as <-. cbn. lia.
  - intros base len m [= <-]. reflexivity.
  - reflexivity.
  - fold r. destruct r. cbn in E |- *. by rewrite E.
  - exists m, n. rewrite Em in Ed. cbn in Ed. injection Ed as Ed. split; [exact Em|]. split; [exact Ed|].
    destruct Hcases as [[_ H]|[(_ & _ & H & _)|[H _]]]; [exact H|exact H|discriminate H].
Defined.

Lemma queue_buffers_accounted_witness :
  (initializeVirtIOQueues boot_machine).1 = true /\
  balance 1 (mc_world (cleanupVirtIOGPU (initializeVirtIOQueues boot_machine).2).2) = (0, 0, 1, 0).
Proof.
  pose proof (queue_buffers_accounted 1 0 0 0 0 boot_machine eq_refl eq_refl) as H.
  assert (E : (initializeVirtIOQueues boot_machine).1 = true) by (vm_compute; reflexivity).
  assert (Ep : count 1 (m_prep (w_mem (mc_world (cleanupVirtIOGPU (initializeVirtIOQueues boot_machine).2).2))) = 1)
    by (vm_compute; reflexivity).
  destruct (initializeVirtIOQueues boot_machine) as [ok s1]. cbn [fst snd] in *.
  destruct H as (p' & _ & _ & Hb & _). split; [exact E|]. rewrite Hb. unfold bal, balance, mem_balance in Hb.
  injection Hb as _ _ Hb _. by rewrite <- Hb, Ep.
Defined.

Lemma initVirtIOGPU_limits_witness :
  (boot_init boot_machine).1 = Some true /\
  1 <= g_max_scanouts (w_gpu (mc_world (boot_init boot_machine).2)) <= 16.
Proof.
  assert (E : (boot_init boot_machine).1 = Some true) by (vm_compute; reflexivity). split; [exact E|].
  pose proof (initVirtIOGPU_limits demo_dev two_caps boot_r32 boot_map boot_dev (fun _ => 0x4000) (fun _ => true) page_map
    None (fun _ => (2, 1)) true 189 boot_machine ltac:(cbn; lia) ltac:(discriminate)) as H.
  destruct (initVirtIOGPU _ _ _ _ _ _ _ _ _ _ _ _ boot_machine) as [r s']. cbn [fst snd] in *.
  apply H. by rewrite E.
Defined.
