(* ===== verification/Probes.v ===== *)
(** The one-shot transport probes of [FB/VMVirtIOGPU.cpp] that
    [enableController] runs: [probeCursorTransport] on the cursor queue, and
    [probeTransport3D], which has the host clear a texture in two colours and
    looks at the bytes that come back.

    The bytes are the host's: [dma k l] is what the driver reads from the
    readback buffer at its [k]-th look, when it last filled it with the dwords
    [l]. The colours are C [float]s, computed with the standard library's
    binary32 arithmetic. *)
From Stdlib Require Import SpecFloat.
From S2P Require Import Prelude Wire Transport Driver SplitQueue ControlQueue CursorQueue Resources Tracking Display Accounts.

(** The whole device object: its queue-independent part and the cursor queue. *)
Record device (T : Type) := mk_device { d_world : world T; d_cursor : curq }.
Arguments mk_device {T}.
Arguments d_world {T}.
Arguments d_cursor {T}.

(** * Virgl command streams *)
Definition VIRGL_CCMD_NOP : Z := 0.
Definition VIRGL_CCMD_CREATE_OBJECT : Z := 1.
Definition VIRGL_CCMD_DESTROY_OBJECT : Z := 3.
Definition VIRGL_CCMD_SET_FRAMEBUFFER_STATE : Z := 5.
Definition VIRGL_CCMD_CLEAR : Z := 7.
Definition VIRGL_OBJECT_SURFACE : Z := 8.
Definition PIPE_CLEAR_COLOR0 : Z := Z.shiftl 1 2.
Definition VIRGL_OBJ_CLEAR_SIZE : Z := 8.
Definition VIRGL_OBJ_SURFACE_SIZE : Z := 5.
Definition VIRGL_CMD0 (cmd obj len : Z) : Z :=
  Z.lor (Z.lor cmd (Z.shiftl obj 8)) (Z.shiftl len 16).

Definition dword_bytes (l : list Z) : list Z := mjoin (le_bytes 4 <$> l).

(** ** [float]: binary32 *)
Definition f32 (num den : positive) : spec_float :=
  SFdiv 24 128 (S754_finite false num 0) (S754_finite false den 0).

(** [virgl_pack_float]: the bits of a positive number. *)
Definition virgl_pack_float (f : spec_float) : Z :=
  match f with
  | S754_finite false m e =>
      if Z.pos m <? 2 ^ 23 then Z.pos m else (e + 150) * 2 ^ 23 + (Z.pos m - 2 ^ 23)
  | _ => 0
  end.

(** [lrintf] of a positive number: to nearest, ties to even. *)
Definition lrintf (f : spec_float) : Z :=
  match f with
  | S754_finite false m e =>
      if 0 <=? e then Z.pos m * 2 ^ e
      else
        let d := 2 ^ (- e) in
        let q := Z.pos m / d in
        let r := 2 * (Z.pos m mod d) in
        if (r <? d) || ((r =? d) && Z.even q) then q else q + 1
  | _ => 0
  end.

Definition unorm8 (f : spec_float) : Z := lrintf (SFmul 24 128 f (f32 255 1)).

Record rgba := mk_rgba { c_r : spec_float; c_g : spec_float; c_b : spec_float; c_a : spec_float }.
Definition clear1_rgba : rgba := mk_rgba (f32 1 5) (f32 2 5) (f32 3 5) (f32 1 1).
Definition clear2_rgba : rgba := mk_rgba (f32 4 5) (f32 1 5) (f32 2 5) (f32 1 1).

(** * The verdict on the bytes *)
(** The dword of four bytes, the first at the lowest address. *)
Definition pack4 (b0 b1 b2 b3 : Z) : Z :=
  Z.lor (Z.lor (Z.lor b0 (Z.shiftl b1 8)) (Z.shiftl b2 16)) (Z.shiftl b3 24).

(** The colour in the byte orders RGBA, BGRA, ARGB, ABGR. *)
Definition patterns (c : rgba) : list Z :=
  let r := unorm8 (c_r c) in let g := unorm8 (c_g c) in
  let b := unorm8 (c_b c) in let a := unorm8 (c_a c) in
  [pack4 r g b a; pack4 b g r a; pack4 a r g b; pack4 a b g r].

Definition byte_at (v : Z) (b : nat) : Z := Z.land (Z.shiftr v (8 * Z.of_nat b)) 0xFF.

Definition within_tol (actual expected : Z) : bool :=
  forallb (fun b =>
    let ab := byte_at actual b in
    let eb := byte_at expected b in
    let diff := if eb <? ab then ab - eb else eb - ab in
    negb (1 <? diff)) (seq 0 4).

(** The first 64 dwords show [expected], each byte within one. *)
Definition all_pass (expected : Z) (px : list Z) : bool :=
  forallb (fun i => let actual := nth i px 0 in (actual =? expected) || within_tol actual expected)
    (seq 0 64).

Definition match_pattern (c : rgba) (px : list Z) : option nat :=
  index_of (fun e => all_pass e px) (patterns c).

Inductive t3d_verdict :=
  | T3D_FailA | T3D_FailB | T3D_FailC | T3D_FailD | T3D_FailF
  | T3D_FailG | T3D_FailG' | T3D_FailStale | T3D_FailNoMatch | T3D_FailOrder (p1 p2 : nat)
  | T3D_Partial (g1 g2 : option nat) | T3D_Pass (p : nat).

Definition judge (px1 px2 : list Z) : t3d_verdict :=
  let g1 := match_pattern clear1_rgba px1 in
  if nth 0 px2 0 =? nth 0 px1 0 then T3D_FailStale
  else
    let g2 := match_pattern clear2_rgba px2 in
    match g1, g2 with
    | None, None => T3D_FailNoMatch
    | Some p1, Some p2 => if Nat.eqb p1 p2 then T3D_Pass p1 else T3D_FailOrder p1 p2
    | _, _ => T3D_Partial g1 g2
    end.

(** * probeTransport3D *)
Definition PROBE_CTX : Z := 0xFFFB.
Definition PROBE_RES : Z := 0xFFFA.
Definition PROBE_SURF : Z := 1.
Definition PROBE_FORMAT : Z := 67. (* VIRGL_FORMAT_R8G8B8A8_UNORM *)
Definition READBACK_SIZE : Z := 16384.
Definition READBACK_DWORDS : nat := 4096.

(** What the label [cleanup] finds. *)
Record reached := mk_reached {
  phase_b_reached : bool;
  phase_c_reached : bool;
  phase_e_reached : bool;
  phase_f_reached : bool;
  readback_bmd : option mdesc
}.

Definition create_surface_dwords : list Z :=
  [VIRGL_CMD0 VIRGL_CCMD_CREATE_OBJECT VIRGL_OBJECT_SURFACE VIRGL_OBJ_SURFACE_SIZE;
   PROBE_SURF; PROBE_RES; PROBE_FORMAT; 0; 0].
Definition clear_dwords (c : rgba) : list Z :=
  [VIRGL_CMD0 VIRGL_CCMD_SET_FRAMEBUFFER_STATE 0 3; 1; 0; PROBE_SURF;
   VIRGL_CMD0 VIRGL_CCMD_CLEAR 0 VIRGL_OBJ_CLEAR_SIZE; PIPE_CLEAR_COLOR0;
   virgl_pack_float (c_r c); virgl_pack_float (c_g c); virgl_pack_float (c_b c);
   virgl_pack_float (c_a c); 0; 0; 0; VIRGL_CMD0 VIRGL_CCMD_NOP 0 0].
Definition destroy_surface_dwords : list Z :=
  [VIRGL_CMD0 VIRGL_CCMD_DESTROY_OBJECT VIRGL_OBJECT_SURFACE 1; PROBE_SURF].

Section probes.
Context {T : Type} `{Transport T}.
(** Whether a fresh descriptor maps, and the mapping has an address. *)
Context (mapped : mdesc -> bool * bool).
Context (dma : nat -> list Z -> list Z).
Abbreviation W := (world T).

(** The response's type is checked as well as the status. *)
Definition submit_nodata (c : gpu_cmd) : M W bool :=
  let! r := submit c 24 in
  ret (is_success r.1 && (resp_type r.2 =? VIRTIO_GPU_RESP_OK_NODATA)).

(** [withBytes] over the dwords, [executeCommands], [release]. *)
Definition execute_dwords (l : list Z) : M W bool :=
  let! desc := new_descriptor (Z.of_nat (length (dword_bytes l))) in
  match desc with
  | None => ret false
  | Some d =>
      let! r := executeCommands PROBE_CTX (Some (mk_cmd_desc (mapped d).1 (mapped d).2 (dword_bytes l))) in
      release (md_id d) ;;;
      ret (is_success r)
  end.

Definition send_clear (c : rgba) : M W bool :=
  let! ok := execute_dwords (clear_dwords c) in
  if negb ok then ret false
  else submit_nodata (transfer_3d_cmd VIRTIO_GPU_CMD_TRANSFER_FROM_HOST_3D PROBE_RES 0
                        0 0 0 64 64 1 PROBE_CTX).

(** Phases G and G′. *)
Definition probe_phase_G : M W t3d_verdict :=
  let! ok1 := send_clear clear1_rgba in
  if negb ok1 then ret T3D_FailG
  else
    let px1 := dma 0 (replicate READBACK_DWORDS 0) in
    let! ok2 := send_clear clear2_rgba in
    if negb ok2 then ret T3D_FailG'
    else ret (judge px1 (dma 1 (replicate READBACK_DWORDS 0xCDCDCDCD))).

(** Phases B to F, up to the first [goto cleanup]. *)
Definition probe_phases : M W (t3d_verdict * reached) :=
  let! hdr := initializeCommandHeader VIRTIO_GPU_CMD_CTX_CREATE PROBE_CTX false in
  let! okB := submit_nodata (CmdCtxCreate hdr 0 0 (replicate 64 0)) in
  if negb okB then ret (T3D_FailB, mk_reached false false false false None)
  else
    let! okC := submit_nodata (CmdCreate3D
      (mk_hdr VIRTIO_GPU_CMD_RESOURCE_CREATE_3D 0 0 PROBE_CTX 0 0)
      (mk_create_3d PROBE_RES VIRGL_TARGET_2D PROBE_FORMAT VIRGL_BIND_RENDER_TARGET
         64 64 1 1 0 0 0 0)) in
    if negb okC then ret (T3D_FailC, mk_reached true false false false None)
    else
      let! bmd := new_descriptor READBACK_SIZE in
      match bmd with
      | None => ret (T3D_FailD, mk_reached true true false false None)
      | Some d =>
          let! okD := attachBacking PROBE_RES (Some d) in
          if negb (is_success okD) then ret (T3D_FailD, mk_reached true true false false (Some d))
          else
            let! hdrE := initializeCommandHeader VIRTIO_GPU_CMD_CTX_ATTACH_RESOURCE PROBE_CTX false in
            submit_nodata (CmdCtxResource hdrE PROBE_RES 0) ;;;
            let! okF := execute_dwords create_surface_dwords in
            if negb okF then ret (T3D_FailF, mk_reached true true true false (Some d))
            else
              let! v := probe_phase_G in
              ret (v, mk_reached true true true true (Some d))
      end.

Definition when (b : bool) {A} (m : M W A) : M W unit := if b then m ;;; ret tt else ret tt.

Definition probe_cleanup (p : reached) : M W unit :=
  when (phase_f_reached p) (execute_dwords destroy_surface_dwords) ;;;
  when (phase_e_reached p)
    (let! hdr := initializeCommandHeader VIRTIO_GPU_CMD_CTX_DETACH_RESOURCE PROBE_CTX false in
     submit (CmdCtxResource hdr PROBE_RES 0) 24) ;;;
  when (phase_c_reached p) (deallocateResource PROBE_RES) ;;;
  when (phase_b_reached p) (destroy3DContext PROBE_CTX) ;;;
  match readback_bmd p with Some d => release (md_id d) | None => ret tt end.

Definition probeTransport3D : M W t3d_verdict :=
  let! control_queue := get_gpu g_control_queue in
  if negb control_queue then ret T3D_FailA
  else
    let! three_d := supports3D in
    let! num_capsets := get_gpu g_num_capsets in
    if negb three_d || (num_capsets =? 0) then ret T3D_FailA
    else
      let! p := probe_phases in
      probe_cleanup p.2 ;;;
      ret p.1.
End probes.

(** * The verdict *)
(** The four channels in the byte order [p]. *)
Definition channel_order (p : nat) (r g b a : Z) : list Z :=
  match p with
  | O => [r; g; b; a]
  | 1%nat => [b; g; r; a]
  | 2%nat => [a; r; g; b]
  | _ => [a; b; g; r]
  end.

(** Every byte of the first 64 dwords is within one of its channel. *)
Definition shows (ch px : list Z) : Prop :=
  forall i b, (i < 64)%nat -> (b < 4)%nat -> Z.abs (byte_at (nth i px 0) b - nth b ch 0) <= 1.

Lemma within_tol_spec v e :
  within_tol v e = true <-> forall b, (b < 4)%nat -> Z.abs (byte_at v b - byte_at e b) <= 1.
Proof.
  unfold within_tol. rewrite forallb_forall. split.
  - intros Hf b Hb. specialize (Hf b ltac:(apply in_seq; lia)).
    apply negb_true_iff, Z.ltb_ge in Hf. destruct (Z.ltb_spec (byte_at e b) (byte_at v b)); lia.
  - intros Hf b Hb%in_seq. specialize (Hf b ltac:(lia)).
    apply negb_true_iff, Z.ltb_ge. destruct (Z.ltb_spec (byte_at e b) (byte_at v b)); lia.
Qed.

Lemma all_pass_spec e ch px :
  (forall b, (b < 4)%nat -> byte_at e b = nth b ch 0) -> all_pass e px = true <-> shows ch px.
Proof.
  intros He. unfold all_pass. rewrite forallb_forall. split.
  - intros Hf i b Hi Hb. specialize (Hf i ltac:(apply in_seq; lia)). rewrite <- He by done.
    apply orb_true_iff in Hf as [->%Z.eqb_eq|Hf]; [by rewrite Z.sub_diag|].
    by apply (proj1 (within_tol_spec _ _) Hf).
  - intros Hs i Hi%in_seq. apply orb_true_iff. right. apply within_tol_spec. intros b Hb.
    rewrite He by done. apply Hs; lia.
Qed.

(** Two channel orders that differ by more than two somewhere cannot both be
    shown. *)
Definition apart (ch1 ch2 : list Z) : bool :=
  existsb (fun b => 2 <? Z.abs (nth b ch1 0 - nth b ch2 0)) (seq 0 4).
Lemma apart_spec ch1 ch2 px1 px2 :
  apart ch1 ch2 = true -> nth 0 px1 0 = nth 0 px2 0 -> shows ch1 px1 -> shows ch2 px2 -> False.
Proof.
  intros (b & Hb%in_seq & Hd%Z.ltb_lt)%existsb_exists E H1 H2.
  specialize (H1 0%nat b ltac:(lia) ltac:(lia)). specialize (H2 0%nat b ltac:(lia) ltac:(lia)).
  rewrite E in H1. lia.
Qed.

(** [r g b a] are the channels [c] rounds to, and its byte orders are far
    apart. *)
Definition renders (c : rgba) (r g b a : Z) : bool :=
  forallb (fun p => forallb (fun k =>
    byte_at (nth p (patterns c) 0) k =? nth k (channel_order p r g b a) 0) (seq 0 4)) (seq 0 4)
  && forallb (fun p => forallb (fun q =>
       Nat.eqb p q || apart (channel_order p r g b a) (channel_order q r g b a)) (seq 0 4)) (seq 0 4).

Lemma renders_pass c r g b a px p :
  renders c r g b a = true -> (p < 4)%nat ->
  all_pass (nth p (patterns c) 0) px = true <-> shows (channel_order p r g b a) px.
Proof.
  intros [Hp _]%andb_true_iff Hlt. apply all_pass_spec. intros k Hk.
  rewrite forallb_forall in Hp. specialize (Hp p ltac:(apply in_seq; lia)).
  rewrite forallb_forall in Hp. apply Z.eqb_eq, Hp, in_seq. lia.
Qed.

Lemma match_pattern_spec c r g b a px p :
  renders c r g b a = true ->
  match_pattern c px = Some p <-> (p < 4)%nat /\ shows (channel_order p r g b a) px.
Proof.
  intros Hc. pose proof (fun p => renders_pass c r g b a px p Hc) as Hs.
  assert (Hu : forall q, (q < 4)%nat -> (p < 4)%nat -> shows (channel_order p r g b a) px ->
    shows (channel_order q r g b a) px -> q = p).
  { intros q Hq Hp H1 H2. apply andb_true_iff in Hc as [_ Hd].
    rewrite forallb_forall in Hd. specialize (Hd p ltac:(apply in_seq; lia)).
    rewrite forallb_forall in Hd. specialize (Hd q ltac:(apply in_seq; lia)).
    apply orb_true_iff in Hd as [->%Nat.eqb_eq|Hd]; [done|].
    destruct (apart_spec _ _ px px Hd eq_refl H1 H2). }
  unfold match_pattern. split.
  - intros Hi. destruct (index_of_Some _ _ _ Hi) as (e & He & Hp & _).
    pose proof (lookup_lt_Some _ _ _ He) as Hlt. change (length (patterns c)) with 4%nat in Hlt.
    split; [done|]. apply Hs; [done|]. by rewrite (nth_lookup_Some _ _ _ _ He).
  - intros [Hp Hsh]. destruct (index_of _ (patterns c)) as [q|] eqn:Hi.
    + destruct (index_of_Some _ _ _ Hi) as (e & He & Hq & _).
      pose proof (lookup_lt_Some _ _ _ He) as Hlt. change (length (patterns c)) with 4%nat in Hlt.
      f_equal. apply Hu; try done. apply Hs; [done|]. by rewrite (nth_lookup_Some _ _ _ _ He).
    + exfalso. destruct (lookup_lt_is_Some_2 (patterns c) p Hp) as [e He].
      pose proof (proj1 (index_of_None _ _) Hi p e He) as Hn. cbn beta in Hn.
      apply Hs in Hsh; [|done]. rewrite (nth_lookup_Some _ _ _ _ He) in Hsh. congruence.
Qed.

Lemma clear1_renders : renders clear1_rgba 51 102 153 255 = true.
Proof. vm_compute. reflexivity. Qed.
Lemma clear2_renders : renders clear2_rgba 204 51 102 255 = true.
Proof. vm_compute. reflexivity. Qed.

Lemma colours_apart p : (p < 4)%nat ->
  apart (channel_order p 51 102 153 255) (channel_order p 204 51 102 255) = true.
Proof. do 4 (destruct p as [|p]; [reflexivity|]). lia. Qed.

Lemma judge_pass px1 px2 p :
  judge px1 px2 = T3D_Pass p <->
  (p < 4)%nat /\ shows (channel_order p 51 102 153 255) px1
  /\ shows (channel_order p 204 51 102 255) px2.
Proof.
  pose proof (match_pattern_spec _ _ _ _ _ px1 p clear1_renders) as M1.
  pose proof (match_pattern_spec _ _ _ _ _ px2 p clear2_renders) as M2.
  unfold judge. split.
  - destruct (nth 0 px2 0 =? nth 0 px1 0); [done|].
    destruct (match_pattern clear1_rgba px1) as [p1|], (match_pattern clear2_rgba px2) as [p2|]; try done.
    destruct (Nat.eqb_spec p1 p2) as [->|]; [|done]. intros [= ->].
    destruct (proj1 M1 eq_refl), (proj1 M2 eq_refl). by split_and!.
  - intros (Hp & H1 & H2). rewrite (proj2 M1 (conj Hp H1)), (proj2 M2 (conj Hp H2)), Nat.eqb_refl.
    destruct (Z.eqb_spec (nth 0 px2 0) (nth 0 px1 0)) as [E|]; [|done].
    destruct (apart_spec _ _ px1 px2 (colours_apart p Hp) (eq_sym E) H1 H2).
Qed.

(** * What the probe leaves behind *)
Section traceless.
Context {T : Type} `{Transport T}.
Context (mapped : mdesc -> bool * bool) (dma : nat -> list Z -> list Z).
Abbreviation W := (world T).

(** ** Memory *)
Lemma account_submit_nodata id c : keeps (balance id) (submit_nodata (T := T) c).
Proof. unfold submit_nodata. keeps_tac. Qed.
#[local] Hint Resolve account_submit_nodata : keeps.
Lemma account_execute_dwords id l : keeps (balance id) (execute_dwords (T := T) mapped l).
Proof. unfold execute_dwords. account_tac. Qed.
#[local] Hint Resolve account_execute_dwords : keeps.
Lemma account_send_clear id c : keeps (balance id) (send_clear (T := T) mapped c).
Proof. unfold send_clear. keeps_tac. Qed.
#[local] Hint Resolve account_send_clear : keeps.
Lemma account_phase_G id : keeps (balance id) (probe_phase_G (T := T) mapped dma).
Proof. unfold probe_phase_G. keeps_tac. Qed.
#[local] Hint Resolve account_phase_G : keeps.
Lemma account_header id ty ctx f : keeps (balance id) (initializeCommandHeader (T := T) ty ctx f).
Proof. unfold initializeCommandHeader. keeps_tac. Qed.
#[local] Hint Resolve account_header : keeps.
Lemma account_destroy3D id ctx : keeps (balance id) (destroy3DContext (T := T) ctx).
Proof. unfold destroy3DContext, supports3D, lock_contexts, unlock_contexts. keeps_tac. Qed.
#[local] Hint Resolve account_destroy3D : keeps.

(** The phases end with one reference on the readback buffer. *)
Lemma probe_phases_account id h m p r :
  hoare (bal id h m p r) (probe_phases (T := T) mapped dma)
    (fun x => bal id h m p (r + own id (md_id <$> readback_bmd x.2))).
Proof.
  assert (Hr : forall v q h' m' p' r', h' = h -> m' = m -> p' = p ->
    r' = r + own id (md_id <$> readback_bmd q) ->
    hoare (bal (T := T) id h' m' p' r') (ret (v, q))
      (fun x : t3d_verdict * reached => bal id h m p (r + own id (md_id <$> readback_bmd x.2)))).
  { intros v q h' m' p' r' -> -> -> -> w Hw. exact Hw. }
  unfold probe_phases.
  repeat first [ apply Hr; cbn [readback_bmd fmap option_fmap option_map]; rewrite ?own_None; lia
               | bal_step ].
Qed.

Lemma dealloc_untracked id res (w : W) :
  index_of (fun s => r_resource_id s =? res) (g_pool (w_gpu w)) = None ->
  let w' := (deallocateResource res w).2 in
  balance id w' = balance id w /\ g_pool (w_gpu w') = g_pool (w_gpu w).
Proof.
  intros Hn. unfold deallocateResource, lock_resources, unlock_resources, bind, upd_gpu, modify,
    get_gpu, gets, submit, ret. cbn [w_gpu w_tr w_mem].
  destruct (submit_cmd _ 24 (w_tr w)) as [[r resp] t]. cbn -[index_of]. destruct (is_success r); [|done].
  cbn -[index_of]. by rewrite Hn.
Qed.

(** It answers what the host answered. *)
Lemma dealloc_status id (w : W) :
  (deallocateResource id w).1
  = (submit_cmd (CmdUnref (hdr_of VIRTIO_GPU_CMD_RESOURCE_UNREF) id 0) 24 (w_tr w)).1.1.
Proof.
  pose proof (deallocateResource_asks id w) as Hq. by destruct (submit_cmd _ 24 (w_tr w)) as [r t], Hq.
Qed.

(** ** The pool *)
#[local] Hint Extern 1 (keeps _ lock_contexts) => unfold lock_contexts : keeps.
#[local] Hint Extern 1 (keeps _ unlock_contexts) => unfold unlock_contexts : keeps.
Ltac pool_tac := unfold probe_phases, probe_phase_G, send_clear, execute_dwords, submit_nodata,
  initializeCommandHeader, executeCommands, destroy3DContext, supports3D, map_add; keeps_tac.
Lemma probe_phases_pool : keeps (fun w : W => g_pool (w_gpu w)) (probe_phases mapped dma).
Proof. pool_tac. Qed.
Lemma execute_dwords_pool l : keeps (fun w : W => g_pool (w_gpu w)) (execute_dwords mapped l).
Proof. pool_tac. Qed.
Lemma destroy3D_pool c : keeps (fun w : W => g_pool (w_gpu w)) (destroy3DContext c).
Proof. pool_tac. Qed.
Lemma header_pool ty c f : keeps (fun w : W => g_pool (w_gpu w)) (initializeCommandHeader ty c f).
Proof. pool_tac. Qed.

(** ** Both, through the clean-up *)
Definition at_rest (id h m p r : Z) (pool : list gpu_resource) (w : W) : Prop :=
  bal id h m p r w /\ g_pool (w_gpu w) = pool.

Lemma rest_keeps {A B} id h m p r pool (x : M W A) (k : A -> M W B) Q :
  keeps (balance id) x -> keeps (fun w => g_pool (w_gpu w)) x ->
  (forall a, hoare (at_rest id h m p r pool) (k a) Q) -> hoare (at_rest id h m p r pool) (bind x k) Q.
Proof.
  intros Hb Hp Hk. eapply hoare_bind; [|exact Hk]. intros w [H1 H2].
  split; [exact (Hb (h, m, p, r) w H1)|exact (Hp pool w H2)].
Qed.

Lemma probe_cleanup_rest id h m p r pool q :
  index_of (fun s => r_resource_id s =? PROBE_RES) pool = None ->
  hoare (at_rest id h m p (r + own id (md_id <$> readback_bmd q)) pool) (probe_cleanup mapped q)
    (fun _ => at_rest id h m p r pool).
Proof.
  intros Hn. unfold probe_cleanup, when.
  apply rest_keeps; [keeps_tac|destruct (phase_f_reached q); [|keeps_tac];
    apply keeps_bind; [apply execute_dwords_pool|intros; apply keeps_ret]|intros _].
  apply rest_keeps; [keeps_tac|destruct (phase_e_reached q); [|keeps_tac];
    apply keeps_bind; [|intros; apply keeps_ret]; apply keeps_bind; [apply header_pool|intros; keeps_tac]|intros _].
  eapply (hoare_bind _ _ _ (fun _ => at_rest id h m p (r + own id (md_id <$> readback_bmd q)) pool)).
  { destruct (phase_c_reached q); [|by intros w Hw]. intros w [H1 H2].
    unfold bind. pose proof (dealloc_untracked id PROBE_RES w) as Hd. rewrite H2 in Hd.
    destruct (Hd Hn) as [E1 E2]. destruct (deallocateResource PROBE_RES w) as [x w']. cbn in *.
    split; [unfold bal; by rewrite E1|done]. }
  intros _. apply rest_keeps; [keeps_tac|destruct (phase_b_reached q); [|keeps_tac];
    apply keeps_bind; [apply destroy3D_pool|intros; apply keeps_ret]|intros _].
  destruct (readback_bmd q) as [d|]; cbn [fmap option_fmap option_map].
  - intros w [H1 H2]. split; [|exact H2]. pose proof (moves_release id (md_id d) w) as Hm.
    destruct (release (md_id d) w) as [u w']. unfold bal in *. rewrite H1 in Hm. cbn. rewrite Hm.
    apply quad_eq; lia.
  - rewrite own_None, Z.add_0_r. by intros w Hw.
Qed.

Lemma probe_at_rest id h m p r pool :
  index_of (fun s => r_resource_id s =? PROBE_RES) pool = None ->
  hoare (at_rest id h m p r pool) (probeTransport3D mapped dma) (fun _ => at_rest id h m p r pool).
Proof.
  intros Hn. unfold probeTransport3D, supports3D.
  assert (Hr : forall v : t3d_verdict,
    hoare (at_rest id h m p r pool) (ret v) (fun _ => at_rest id h m p r pool)) by (by intros v w Hw).
  apply rest_keeps; [keeps_tac|keeps_tac|intros cq]. destruct (negb cq); [apply Hr|].
  apply rest_keeps; [keeps_tac|keeps_tac|intros td]. apply rest_keeps; [keeps_tac|keeps_tac|intros n].
  destruct (_ || _); [apply Hr|].
  eapply (hoare_bind _ _ _
    (fun x => at_rest id h m p (r + own id (md_id <$> readback_bmd x.2)) pool)).
  { intros w [H1 H2]. split; [exact (probe_phases_account id h m p r w H1)|exact (probe_phases_pool pool w H2)]. }
  intros q. apply (hoare_bind _ _ _ (fun _ => at_rest id h m p r pool));
    [by apply probe_cleanup_rest|intros _; apply Hr].
Qed.
End traceless.

Section locks.
Context {T : Type} `{Transport T}.
Context (mapped : mdesc -> bool * bool) (dma : nat -> list Z -> list Z).
#[local] Hint Resolve deallocateResource_locks destroy3DContext_locks executeCommands_locks : locks.

Lemma probeTransport3D_locks : lock_safe (T := T) (probeTransport3D mapped dma).
Proof.
  unfold probeTransport3D, probe_phases, probe_cleanup, when, probe_phase_G, send_clear, execute_dwords,
    submit_nodata, initializeCommandHeader, supports3D. safe_tac.
Qed.
End locks.

(** ** The host *)
Section host.
Context {T : Type} `{Host T}.
Context (mapped : mdesc -> bool * bool) (dma : nat -> list Z -> list Z).
Abbreviation W := (world T).
Definition hosted (w : W) : gset Z := host_ids (w_tr w).

Lemma hosted_of_tr {A} (x : M W A) : keeps (fun w => w_tr w) x -> keeps hosted x.
Proof. intros Hx v w Hw. unfold hosted in *. by rewrite (keeps_eq _ x w Hx). Qed.
Lemma hosted_submit c n :
  (forall h, cmd_effect c h = h) -> (24 <= n)%nat -> keeps hosted (submit c n).
Proof.
  intros Hc Hn v w Hw. unfold submit. pose proof (host_submit c n (w_tr w) Hn) as Hs.
  destruct (submit_cmd c n (w_tr w)) as [[r resp] t]. destruct Hs as [Hs _]. unfold hosted in *. cbn.
  rewrite Hs, Hc. by destruct (is_success r).
Qed.
#[local] Hint Extern 2 (keeps hosted (submit _ _)) => apply hosted_submit; [reflexivity|lia] : keeps.
#[local] Hint Extern 3 (keeps hosted _) => apply hosted_of_tr; solve [auto with keeps] : keeps.
#[local] Hint Extern 1 (keeps _ lock_contexts) => unfold lock_contexts : keeps.
#[local] Hint Extern 1 (keeps _ unlock_contexts) => unfold unlock_contexts : keeps.

Lemma hosted_header ty c f : keeps hosted (initializeCommandHeader ty c f).
Proof. unfold initializeCommandHeader. keeps_tac. Qed.
#[local] Hint Resolve hosted_header : keeps.
Lemma hosted_execute l : keeps hosted (execute_dwords mapped l).
Proof. unfold execute_dwords, executeCommands, supports3D, map_add. keeps_tac. Qed.
#[local] Hint Resolve hosted_execute : keeps.
Lemma hosted_destroy3D c : keeps hosted (destroy3DContext c).
Proof. unfold destroy3DContext, supports3D. keeps_tac. Qed.
#[local] Hint Resolve hosted_destroy3D : keeps.
Lemma hosted_attach id d : keeps hosted (attachBacking id d).
Proof. unfold attachBacking. keeps_tac. Qed.
#[local] Hint Resolve hosted_attach : keeps.
Lemma hosted_nodata c : (forall h, cmd_effect c h = h) -> keeps hosted (submit_nodata c).
Proof. intros Hc. unfold submit_nodata. apply keeps_bind; [apply hosted_submit; [done|lia]|intros; apply keeps_ret]. Qed.
#[local] Hint Extern 2 (keeps hosted (submit_nodata _)) => apply hosted_nodata; reflexivity : keeps.
Lemma hosted_phase_G : keeps hosted (probe_phase_G mapped dma).
Proof. unfold probe_phase_G, send_clear. keeps_tac. Qed.
#[local] Hint Resolve hosted_phase_G : keeps.

(** The creation: the host has the resource exactly when the phase passed. *)
Lemma hosted_create c v :
  (forall h, cmd_effect c h = {[PROBE_RES]} ∪ h) ->
  hoare (fun w => hosted w = v) (submit_nodata c)
    (fun ok w => hosted w = if ok then {[PROBE_RES]} ∪ v else v).
Proof.
  intros Hc w Hw. unfold submit_nodata, bind, submit, ret.
  pose proof (host_submit c 24 (w_tr w) ltac:(lia)) as Hs.
  destruct (submit_cmd c 24 (w_tr w)) as [[r resp] t]. destruct Hs as [Hs Hr].
  unfold hosted in *. cbn -[resp_type Z.eqb]. rewrite Hs, Hc, Hw. destruct (is_success r) eqn:E; [|done].
  apply is_success_true in E. by rewrite (Hr E), Z.eqb_refl.
Qed.

Lemma hosted_step {A B} (x : M W A) (k : A -> M W B) v Q :
  keeps hosted x -> (forall a, hoare (fun w => hosted w = v) (k a) Q) ->
  hoare (fun w => hosted w = v) (bind x k) Q.
Proof. intros Hx Hk. eapply hoare_bind; [exact (Hx v)|exact Hk]. Qed.

Lemma probe_phases_hosted v :
  hoare (fun w => hosted w = v) (probe_phases mapped dma)
    (fun x w => hosted w = if phase_c_reached x.2 then {[PROBE_RES]} ∪ v else v).
Proof.
  unfold probe_phases.
  assert (Hr : forall u x q, u = (if phase_c_reached q then {[PROBE_RES]} ∪ v else v) ->
    hoare (fun w => hosted w = u) (ret (x, q))
      (fun (x : t3d_verdict * reached) w => hosted w = if phase_c_reached x.2 then {[PROBE_RES]} ∪ v else v)).
  { by intros u x q -> w Hw. }
  apply hosted_step; [keeps_tac|intros hdr]. apply hosted_step; [keeps_tac|intros okB].
  destruct (negb okB); [by apply Hr|].
  eapply hoare_bind; [by apply hosted_create|]. intros [|]; cbn [negb]; [|by apply Hr].
  repeat first [ by apply Hr | apply hosted_step; [solve [keeps_tac]|intros ?] | goal_case ].
Qed.

(** A host that destroys any resource of its own when asked to. *)
Definition destroys_on_demand : Prop :=
  forall t id, id ∈ host_ids t ->
    (submit_cmd (CmdUnref (hdr_of VIRTIO_GPU_CMD_RESOURCE_UNREF) id 0) 24 t).1.1 = kIOReturnSuccess.

Lemma hosted_dealloc v :
  destroys_on_demand -> PROBE_RES ∉ v ->
  hoare (fun w => hosted w = {[PROBE_RES]} ∪ v) (deallocateResource PROBE_RES) (fun _ w => hosted w = v).
Proof.
  intros Hd Hv w Hw.
  pose proof (deallocateResource_outcome PROBE_RES (rv w) w eq_refl) as Ho.
  assert (Hok : (deallocateResource PROBE_RES w).1 = kIOReturnSuccess).
  { specialize (Hd (w_tr w) PROBE_RES). unfold hosted in Hw. rewrite Hw in Hd. specialize (Hd ltac:(set_solver)).
    rewrite dealloc_status. exact Hd. }
  destruct (deallocateResource PROBE_RES w) as [r w']. cbn [fst snd] in *. subst r.
  assert (E : rv_host (rv w') = rv_host (rv w) ∖ {[PROBE_RES]}).
  { inversion Ho; subst; try done. }
  unfold hosted in *. cbn in E. rewrite E. change (rv_host (rv w)) with (host_ids (w_tr w)). rewrite Hw.
  set_solver.
Qed.

(** Whatever the host answers: it drops the probe's resource, or keeps it. *)
Lemma hosted_dealloc_any v :
  hoare (fun w => hosted w = {[PROBE_RES]} ∪ v) (deallocateResource PROBE_RES)
    (fun _ w => hosted w ∖ {[PROBE_RES]} = v ∖ {[PROBE_RES]}).
Proof.
  intros w Hw. pose proof (deallocateResource_outcome PROBE_RES (rv w) w eq_refl) as Ho.
  destruct (deallocateResource PROBE_RES w) as [r w']. cbn [fst snd] in *.
  assert (E : hosted w' = hosted w \/ hosted w' = hosted w ∖ {[PROBE_RES]}).
  { change (hosted w') with (rv_host (rv w')). change (hosted w) with (rv_host (rv w)). inversion Ho; subst; auto. }
  rewrite Hw in E. destruct E as [-> | ->]; set_solver.
Qed.
(** The clean-up decides: [after] is a property of what the host has. *)
Lemma probe_hosted v (after : W -> Prop) :
  (hoare (fun w => hosted w = {[PROBE_RES]} ∪ v) (deallocateResource PROBE_RES) (fun _ w => after w)) ->
  (forall w, hosted w = v -> after w) -> (forall w w', hosted w = hosted w' -> after w -> after w') ->
  hoare (fun w => hosted w = v) (probeTransport3D mapped dma) (fun _ w => after w).
Proof.
  intros Hd Hv Ha. unfold probeTransport3D, supports3D.
  assert (Hr : forall x : t3d_verdict, hoare (fun w => hosted w = v) (ret x) (fun _ w => after w)) by (intros x w Hw; by apply Hv).
  assert (Hk : forall A (x : M W A), keeps hosted x -> preserves after x).
  { intros A x Hx w Hw. pose proof (Hx (hosted w) w eq_refl) as E. cbn in E. by eapply Ha. }
  apply hosted_step; [keeps_tac|intros cq]. destruct (negb cq); [apply Hr|].
  apply hosted_step; [keeps_tac|intros td]. apply hosted_step; [keeps_tac|intros n].
  destruct (_ || _); [apply Hr|].
  eapply hoare_bind; [apply probe_phases_hosted|]. intros q.
  apply (hoare_bind _ _ _ (fun _ w => after w)); [|intros ?; by intros w Hw].
  unfold probe_cleanup, when.
  apply hosted_step; [keeps_tac|intros _]. apply hosted_step; [keeps_tac|intros _].
  apply (hoare_bind _ _ _ (fun _ w => after w)).
  - destruct (phase_c_reached q.2); [|intros w Hw; by apply Hv].
    eapply hoare_bind; [exact Hd|]. by intros ? w Hw.
  - intros ?. eapply (hoare_bind _ _ _ (fun _ w => after w)); [apply Hk; keeps_tac|intros ?].
    destruct (readback_bmd q.2); [|by intros w Hw].
    apply Hk, (hosted_of_tr (release _)). unfold release. keeps_tac.
Qed.
End host.

(** * probeCursorTransport *)
Definition CURSOR_RES : Z := 0xFFFD.

Inductive cursor_verdict :=
  | CP_NotInitialized | CP_FailA (r : IOReturn) | CP_FailB | CP_FailC (r : IOReturn)
  | CP_FailD (r : IOReturn) | CP_FailE (m1 m2 : IOReturn) | CP_Pass.

(** The backing of a tracked resource. *)
Definition backing_of (id : Z) (pool : list gpu_resource) : option Z :=
  match findResource id pool with
  | Some i => match pool !! i with Some s => r_backing_memory s | None => None end
  | None => None
  end.

Section cursor_probe.
Context {T : Type} `{Transport T}.
Context (env : nat -> shared -> shared) (expired : nat -> bool) (fuel : nat).

Definition on_world {A} (m : M (world T) A) : M (device T) A :=
  fun s => let '(a, w) := m (d_world s) in (a, mk_device w (d_cursor s)).
Definition on_queue {A} (m : M curq A) : M (device T) A :=
  fun s => let '(a, q) := m (d_cursor s) in (a, mk_device (d_world s) q).

(** [None]: a wait of the cursor queue has not ended within [fuel] looks. The
    red pixels go to the driver's own buffer, whose contents are not
    modelled. *)
Definition probeCursorTransport : M (device T) (option cursor_verdict) :=
  let! init := gets (fun s => cu_initialized (d_cursor s)) in
  if negb init then ret (Some CP_NotInitialized)
  else
    let! cr := on_world (createResource2D CURSOR_RES VIRTIO_GPU_FORMAT_B8G8R8A8_UNORM 64 64 None) in
    if negb (is_success cr) then ret (Some (CP_FailA cr))
    else
      let! pool := on_world (get_gpu g_pool) in
      match backing_of CURSOR_RES pool with
      | None => ret (Some CP_FailB)
      | Some _ =>
          let! xr := on_world (transferToHost2D CURSOR_RES 0 0 0 64 64) in
          if negb (is_success xr) then ret (Some (CP_FailC xr))
          else
            let! ur := on_queue (updateCursor env expired fuel CURSOR_RES 0 0 0 100 100) in
            match ur with
            | None => ret None
            | Some ur =>
                if negb (is_success ur) then ret (Some (CP_FailD ur))
                else
                  let! m1 := on_queue (moveCursor env expired fuel 0 200 200) in
                  match m1 with
                  | None => ret None
                  | Some m1 =>
                      let! m2 := on_queue (moveCursor env expired fuel 0 300 300) in
                      match m2 with
                      | None => ret None
                      | Some m2 =>
                          if negb (is_success m1) || negb (is_success m2)
                          then ret (Some (CP_FailE m1 m2)) else ret (Some CP_Pass)
                      end
                  end
            end
      end.
End cursor_probe.

(** ** The cursor queue across the probe *)
Definition cu_ready (q : curq) : Prop := cu_idle q /\ cu_overflow q = false.

Lemma cursor_cmd_ready env expired fuel c q :
  (forall t, deadline_in expired t fuel) -> length (encode c) = 56%nat -> cu_ready q ->
  exists r q', submitCursorCommand env expired fuel (encode c) (Some (replicate 24 0)) 24 q = (Some r, q')
    /\ cu_ready q'.
Proof.
  intros Hd Hc [Hi Ho].
  destruct (submitCursorCommand_settles_aux env expired fuel (encode c) (Some (replicate 24 0)) 24 q Hi (Hd _))
    as (r & Hr & H1 & H2 & H3 & _ & H5).
  destruct (submitCursorCommand _ _ _ _ _ _ q) as [o q']. cbn [fst snd] in *. subst o.
  exists r, q'. split; [done|]. split.
  - split; [done|]. destruct Hi as [_ [l Hl]]. exists l. by rewrite H1, H3.
  - rewrite H5; [done|]. rewrite Hc. unfold CURSOR_CMD_BUF_SIZE. lia.
Qed.

Lemma updateCursor_ready env expired fuel id hx hy sid x y q :
  (forall t, deadline_in expired t fuel) -> cu_ready q ->
  exists r q', updateCursor env expired fuel id hx hy sid x y q = (Some r, q') /\ cu_ready q'.
Proof.
  intros Hd Hq. unfold updateCursor, bind, gets. destruct (cu_initialized q); cbn [negb]; [|by eauto].
  match goal with |- context [submitCursorCommand _ _ _ (encode ?c) _ _ q] =>
    destruct (cursor_cmd_ready env expired fuel c q Hd (cursor_cmd_length _ _ _ _ _ _) Hq)
      as (r & q' & -> & Hq') end. by eauto.
Qed.
Lemma moveCursor_ready env expired fuel sid x y q :
  (forall t, deadline_in expired t fuel) -> cu_ready q ->
  exists r q', moveCursor env expired fuel sid x y q = (Some r, q') /\ cu_ready q'.
Proof.
  intros Hd Hq. unfold moveCursor, bind, gets. destruct (cu_initialized q); cbn [negb]; [|by eauto].
  match goal with |- context [submitCursorCommand _ _ _ (encode ?c) _ _ q] =>
    destruct (cursor_cmd_ready env expired fuel c q Hd (cursor_cmd_length _ _ _ _ _ _) Hq)
      as (r & q' & -> & Hq') end. by eauto.
Qed.

(** The cursor resource as the probe leaves it once it has passed phase A. *)
Definition cursor_leftover {T} `{Host T} (w : world T) : Prop :=
  tracks CURSOR_RES (slot_2d VIRTIO_GPU_FORMAT_B8G8R8A8_UNORM 64 64 true) w.

Section cursor_host.
Context {T : Type} `{Host T}.

Lemma transferToHost2D_rv id o x y wd ht : keeps (rv (T := T)) (transferToHost2D id o x y wd ht).
Proof. unfold transferToHost2D, ready. keeps_tac. Qed.

Lemma cursor_leftover_backing w :
  cursor_leftover w -> is_Some (backing_of CURSOR_RES (g_pool (w_gpu w))).
Proof.
  intros (i & s & Hi & Hs & (_ & _ & _ & _ & _ & Hb) & _). unfold backing_of. change (rv_pool (rv w)) with (g_pool (w_gpu w)) in Hi, Hs. rewrite Hi, Hs. by apply Hb.
Qed.
End cursor_host.

(** The cursor probe returns, with the cursor queue as usable as before
    and its command buffer not overrun, and never fails in phase B; once its
    first step has succeeded it leaves the 64 by 64 resource it created tracked
    in the pool and known to the host, whatever the verdict: nothing destroys
    it. The pool stays sound. *)
Theorem probeCursorTransport_leftover T `{Host T} env expired fuel (s : device T) :
  (forall t, deadline_in expired t fuel) -> cu_ready (d_cursor s) -> pool_sound (d_world s) ->
  let '(v, s') := probeCursorTransport env expired fuel s in
  cu_ready (d_cursor s') /\ pool_sound (d_world s') /\
  match v with
  | None | Some CP_FailB => False
  | Some CP_NotInitialized | Some (CP_FailA _) => True
  | _ => cursor_leftover (d_world s')
  end.
Proof.
  intros Hd Hq Hs. unfold probeCursorTransport, bind, gets, on_world, on_queue.
  destruct (cu_initialized (d_cursor s)); cbn [negb]; [|by split_and!].
  pose proof (sound_create2D CURSOR_RES VIRTIO_GPU_FORMAT_B8G8R8A8_UNORM 64 64 None (d_world s) Hs) as Hs1.
  pose proof (tracks_created CURSOR_RES VIRTIO_GPU_FORMAT_B8G8R8A8_UNORM 64 64 None (d_world s) Hs
    ltac:(done)) as Hl.
  destruct (createResource2D CURSOR_RES _ 64 64 None (d_world s)) as [cr w1]. cbn [fst snd] in Hs1, Hl.
  destruct (is_success cr) eqn:Ec; cbn [negb]; [|by split_and!]. apply is_success_true in Ec.
  specialize (Hl Ec). change (cursor_leftover w1) in Hl.
  cbn [d_world get_gpu gets fst snd d_cursor]. destruct (cursor_leftover_backing w1 Hl) as [b ->].
  cbn [d_world d_cursor].
  pose proof (tracks_keeps _ _ _ w1 (transferToHost2D_rv CURSOR_RES 0 0 0 64 64) Hl) as Hl2.
  pose proof (sound_keeps _ (transferToHost2D_rv CURSOR_RES 0 0 0 64 64) w1 Hs1) as Hs2.
  destruct (transferToHost2D CURSOR_RES 0 0 0 64 64 w1) as [xr w2]. cbn [fst snd d_cursor] in *.
  destruct (is_success xr); cbn [negb d_cursor d_world]; [|by split_and!].
  destruct (updateCursor_ready env expired fuel CURSOR_RES 0 0 0 100 100 (d_cursor s) Hd Hq)
    as (ur & q1 & -> & Hq1). cbn [d_cursor d_world].
  destruct (is_success ur); cbn [negb d_cursor d_world]; [|by split_and!].
  destruct (moveCursor_ready env expired fuel 0 200 200 q1 Hd Hq1) as (m1 & q2 & -> & Hq2). cbn [d_cursor d_world].
  destruct (moveCursor_ready env expired fuel 0 300 300 q2 Hd Hq2) as (m2 & q3 & -> & Hq3). cbn [d_cursor d_world].
  by destruct (_ || _).
Qed.

(** The steps of the 3D probe that can be refused. *)
Definition step_failed (v : t3d_verdict) : bool :=
  match v with
  | T3D_FailA | T3D_FailB | T3D_FailC | T3D_FailD | T3D_FailF | T3D_FailG | T3D_FailG' => true
  | _ => false
  end.

Lemma probe_verdict_judged {T} `{Transport T} mapped dma (w : world T) :
  let v := (probeTransport3D mapped dma w).1 in
  step_failed v = true
  \/ v = judge (dma 0%nat (replicate READBACK_DWORDS 0)) (dma 1%nat (replicate READBACK_DWORDS 0xCDCDCDCD)).
Proof.
  set (good v := step_failed v = true \/ v = judge (dma 0%nat (replicate READBACK_DWORDS 0))
                   (dma 1%nat (replicate READBACK_DWORDS 0xCDCDCDCD))).
  assert (Hany : forall A B (m : M (world T) A) (k : A -> M (world T) B) Q,
    (forall a, hoare (fun _ => True) (k a) Q) -> hoare (fun _ => True) (bind m k) Q).
  { intros A B m k Q Hk. by apply (hoare_bind _ m k (fun _ _ => True)). }
  assert (HG : hoare (fun _ => True) (probe_phase_G mapped dma) (fun v _ => good v)).
  { unfold probe_phase_G. apply Hany. intros ok1. destruct (negb ok1); [intros w0 _; by left|].
    apply Hany. intros ok2. destruct (negb ok2); intros w0 _; [by left|by right]. }
  assert (HP : hoare (fun _ => True) (probe_phases mapped dma) (fun q _ => good q.1)).
  { unfold probe_phases. repeat first
      [ eapply hoare_bind; [exact HG|intros v w0 Hv; exact Hv]
      | apply Hany; intros ? | goal_case | (intros w0 _; by left) ]. }
  enough (Hh : hoare (fun _ => True) (probeTransport3D mapped dma) (fun v _ => good v)) by by apply Hh.
  unfold probeTransport3D, supports3D.
  apply Hany. intros cq. destruct (negb cq); [intros w0 _; by left|].
  apply Hany. intros td. apply Hany. intros n. destruct (_ || _); [intros w0 _; by left|].
  eapply hoare_bind; [exact HP|]. intros q. apply (hoare_bind _ _ _ (fun _ _ => good q.1)).
  - intros w0 Hw0. exact Hw0.
  - intros _ w0 Hw0. exact Hw0.
Qed.

(** The 3D probe passes, in the byte order [p], only when the host wrote
    the first colour, then over the refill the second one: byte [b] of each of
    the first 64 dwords, at both looks, is within one of the channel that
    order puts there. The judgement passes exactly then, so no other order
    would have done. *)
Theorem probeTransport3D_pass T `{Transport T} mapped dma (w : world T) p :
  (forall px1 px2, judge px1 px2 = T3D_Pass p <->
     (p < 4)%nat /\ shows (channel_order p 51 102 153 255) px1
     /\ shows (channel_order p 204 51 102 255) px2) /\
  ((probeTransport3D mapped dma w).1 = T3D_Pass p ->
     shows (channel_order p 51 102 153 255) (dma 0%nat (replicate READBACK_DWORDS 0))
     /\ shows (channel_order p 204 51 102 255) (dma 1%nat (replicate READBACK_DWORDS 0xCDCDCDCD))).
Proof.
  split; [intros px1 px2; apply judge_pass|]. intros Hv.
  destruct (probe_verdict_judged mapped dma w) as [Hf|Hj]; rewrite Hv in *; [done|].
  symmetry in Hj. apply judge_pass in Hj. tauto.
Qed.

(** C21: when the driver does not track the probe's resource id and its locks are
    free, the 3D probe gives back, on every path and whatever the host refuses, the
    heap, the mappings, the prepares and the references it took, and leaves the
    pool and the locks alone and the host with the resources it had, its own id
    apart. When the host had no resource of that id and destroys what it is asked
    to, it is left with exactly the resources it had. *)
Theorem probeTransport3D_traceless T `{Host T} mapped dma (w : world T) :
  index_of (fun s => r_resource_id s =? PROBE_RES) (g_pool (w_gpu w)) = None ->
  locks (w_gpu w) = (Unlocked, Unlocked) ->
  let w' := (probeTransport3D mapped dma w).2 in
  (forall id, balance id w' = balance id w) /\ g_pool (w_gpu w') = g_pool (w_gpu w)
  /\ locks (w_gpu w') = (Unlocked, Unlocked)
  /\ host_ids (w_tr w') ∖ {[PROBE_RES]} = host_ids (w_tr w) ∖ {[PROBE_RES]}
  /\ (PROBE_RES ∉ host_ids (w_tr w) -> destroys_on_demand (T := T) -> host_ids (w_tr w') = host_ids (w_tr w)).
Proof.
  intros Hn Hl w'.
  assert (Hr : forall id, balance id w' = balance id w /\ g_pool (w_gpu w') = g_pool (w_gpu w)).
  { intros id. destruct (balance id w) as [[[h m] p] r] eqn:E.
    by apply (probe_at_rest mapped dma id h m p r (g_pool (w_gpu w)) Hn w). }
  split_and!; [intros id; apply Hr|apply (Hr 0)|by apply probeTransport3D_locks| |intros Hh Hd].
  - apply (probe_hosted mapped dma (host_ids (w_tr w)) (fun w' => hosted w' ∖ {[PROBE_RES]} = host_ids (w_tr w) ∖ {[PROBE_RES]})
      (hosted_dealloc_any _)); [by intros w0 ->|by intros w0 w1 ->|done].
  - apply (probe_hosted mapped dma (host_ids (w_tr w)) (fun w' => hosted w' = host_ids (w_tr w))
      (hosted_dealloc _ Hd Hh)); [done|by intros w0 w1 ->|done].
Qed.

(** The negative control does not do what its comment says: refilling the
    buffer is itself a change of the readback, so a host that answers the
    second clear and writes nothing is reported as a partial pass, never as
    stale. *)
Theorem probeTransport3D_silent_host T `{Transport T} mapped dma (w : world T) p :
  (p < 4)%nat ->
  shows (channel_order p 51 102 153 255) (dma 0%nat (replicate READBACK_DWORDS 0)) ->
  (forall l, dma 1%nat l = l) ->
  let v := (probeTransport3D mapped dma w).1 in
  step_failed v = true \/ v = T3D_Partial (Some p) None.
Proof.
  intros Hp Hs Hsil. destruct (probe_verdict_judged mapped dma w) as [Hf|Hj]; [by left|right].
  rewrite Hj, Hsil. unfold judge.
  rewrite (proj2 (match_pattern_spec _ _ _ _ _ _ p clear1_renders) (conj Hp Hs)).
  replace (match_pattern clear2_rgba _) with (@None nat) by (symmetry; vm_compute; reflexivity).
  destruct (Z.eqb_spec (nth 0 (replicate READBACK_DWORDS 0xCDCDCDCD) 0) (nth 0 (dma 0%nat (replicate READBACK_DWORDS 0)) 0))
    as [E|]; [|done].
  exfalso. change (nth 0 (replicate READBACK_DWORDS 0xCDCDCDCD) 0) with 0xCDCDCDCD in E.
  assert (Hap : apart (channel_order p 51 102 153 255) [205; 205; 205; 205] = true)
    by (clear -Hp; do 4 (destruct p as [|p]; [reflexivity|]); lia).
  eapply (apart_spec _ _ _ (replicate 64 0xCDCDCDCD) Hap (eq_sym E) Hs).
  intros i b Hi Hb. rewrite (nth_lookup_Some _ _ _ 0xCDCDCDCD) by by apply lookup_replicate_2.
  do 4 (destruct b as [|b]; [vm_compute; discriminate|]). lia.
Qed.

(** * Witnesses *)
(** A host that executes every command. *)
Record obliging := mk_obliging { ob_ids : gset Z }.
#[export] Instance obliging_transport : Transport obliging := fun c n t =>
  ((kIOReturnSuccess, resp_of VIRTIO_GPU_RESP_OK_NODATA n), mk_obliging (cmd_effect c (ob_ids t))).
#[export] Instance obliging_host : Host obliging.
Proof.
  refine {| host_ids := ob_ids |}. intros c n t Hn. cbn -[resp_type resp_of]. split; [done|].
  intros _. rewrite resp_type_resp_of; [done|lia|done].
Defined.

Definition probe_mem : mem :=
  mk_mem (Some <$> [demo_desc 1; demo_desc 2; demo_desc 3; demo_desc 4; demo_desc 5])
    (replicate 8 (Some [])) 0 ∅ ∅ 0.
Definition probe_world : world obliging := mk_world demo_gpu probe_mem (mk_obliging ∅).
Definition all_map (d : mdesc) : bool * bool := (true, true).

(** A host that clears to the first colour, in the order RGBA, and then not
    at all; and one that clears both times. *)
Definition clears_once (k : nat) (l : list Z) : list Z :=
  match k with O => replicate 4096 (pack4 51 102 153 255) | S _ => l end.
Definition clears_twice (k : nat) (l : list Z) : list Z :=
  match k with O => replicate 4096 (pack4 51 102 153 255) | S _ => replicate 4096 (pack4 204 51 102 255) end.

Example probe_passes : (probeTransport3D all_map clears_twice probe_world).1 = T3D_Pass 0.
Proof. vm_compute. reflexivity. Qed.

Lemma clears_once_shows : shows (channel_order 0 51 102 153 255) (clears_once 0 (replicate READBACK_DWORDS 0)).
Proof.
  apply (all_pass_spec (pack4 51 102 153 255)); [|vm_compute; reflexivity].
  intros b Hb. do 4 (destruct b as [|b]; [reflexivity|]). lia.
Qed.

Lemma probeTransport3D_silent_host_witness :
  (probeTransport3D all_map clears_once probe_world).1 = T3D_Partial (Some 0%nat) None.
Proof.
  destruct (probeTransport3D_silent_host obliging all_map clears_once probe_world 0 ltac:(lia)
    clears_once_shows ltac:(reflexivity)) as [H|H]; [|exact H].
  vm_compute in H. discriminate H.
Defined.

Lemma probeTransport3D_traceless_witness :
  host_ids (w_tr (probeTransport3D all_map clears_twice probe_world).2) = ∅.
Proof.
  destruct (probeTransport3D_traceless obliging all_map clears_twice probe_world eq_refl eq_refl) as (_ & _ & _ & _ & E).
  exact (E ltac:(apply not_elem_of_empty) ltac:(intros t id _; reflexivity)).
Defined.

(** A device that completes every cursor command at once. *)
Definition prompt_cursor (_ : nat) (sh : shared) : shared :=
  set_sh_used_idx (u16 (sh_used_idx sh + 1)) sh.
Definition probe_device : device host_machine := mk_device (demo_world []) small_cursor_queue.

Lemma probeCursorTransport_leftover_witness :
  (probeCursorTransport prompt_cursor (fun _ => true) 1 probe_device).1 = Some CP_Pass
  /\ cursor_leftover (d_world (probeCursorTransport prompt_cursor (fun _ => true) 1 probe_device).2).
Proof.
  pose proof (probeCursorTransport_leftover host_machine prompt_cursor (fun _ => true) 1 probe_device
    ltac:(intros t; exists 0%nat; split; [lia|reflexivity])
    ltac:(split; [apply small_cursor_queue_idle|reflexivity]) (demo_world_sound [])) as H.
  destruct (probeCursorTransport prompt_cursor (fun _ => true) 1 probe_device) as [v s'] eqn:E.
  destruct H as (_ & _ & H). assert (Hv : v = Some CP_Pass) by (vm_compute in E; congruence).
  subst v. split; [reflexivity|exact H].
Defined.
