(* ===== verification/Modes.v ===== *)
(** The framebuffer's answers that depend on its mode table alone
    ([FB/VMVirtIOFramebuffer.cpp]): the table, the filter that keeps the modes
    a buffer can hold, the descriptions of a mode (geometry, pixels, timing),
    the connection attributes and the interrupt references. A pointer argument
    the code tests for null is a boolean; [super] is what IOFramebuffer's own
    method would answer. *)
From Stdlib Require Import String.
From S2P Require Import Prelude Resources.

(** * The table *)
Record supported_mode := mk_mode { sm_id : Z; sm_width : Z; sm_height : Z; sm_is_default : bool }.

Definition kSupportedModes : list supported_mode :=
  [mk_mode 1 1024 768 false; mk_mode 2 1280 1024 false; mk_mode 3 1440 900 false;
   mk_mode 4 1680 1050 false; mk_mode 5 1920 1080 true; mk_mode 6 2560 1440 false;
   mk_mode 7 3840 2160 false].

Definition find_mode (id : Z) : option supported_mode :=
  match index_of (fun m => sm_id m =? id) kSupportedModes with
  | Some i => kSupportedModes !! i
  | None => None
  end.

(** * filterModesByAllocation *)
Definition MAX_DISPLAY_MODES : Z := 8.
Definition mode_bytes (m : supported_mode) : Z := u64 (u64 (sm_width m * sm_height m) * 4).
Definition mode_pixels (m : supported_mode) : Z := u64 (sm_width m * sm_height m).

(** The loop's variables: the list filled so far, [default_mode],
    [largest_fitting], [largest_pixels]. *)
Record filter_state := mk_filter {
  fi_modes : list Z;
  fi_default : Z;
  fi_largest : Z;
  fi_pixels : Z
}.

Fixpoint filter_loop (alloc_bytes : Z) (ms : list supported_mode) (s : filter_state) : filter_state :=
  match ms with
  | [] => s
  | m :: ms' =>
      if alloc_bytes <? mode_bytes m then filter_loop alloc_bytes ms' s
      else if MAX_DISPLAY_MODES <=? Z.of_nat (length (fi_modes s)) then s
      else
        let bigger := fi_pixels s <? mode_pixels m in
        filter_loop alloc_bytes ms'
          (mk_filter (fi_modes s ++ [sm_id m])
             (if sm_is_default m then sm_id m else fi_default s)
             (if bigger then sm_id m else fi_largest s)
             (if bigger then mode_pixels m else fi_pixels s))
  end.

(** [m_display_modes] (its used part) and [m_current_mode] for a buffer of
    [alloc_bytes] bytes, or for none. *)
Definition filter_modes (alloc_bytes : option Z) : list Z * Z :=
  match alloc_bytes with
  | None => ([], 0)
  | Some n =>
      let s := filter_loop n kSupportedModes (mk_filter [] 0 0 0) in
      (fi_modes s, if negb (fi_default s =? 0) then fi_default s else fi_largest s)
  end.

(** * Descriptions of a mode *)
Definition kDisplayModeValidFlag : Z := 1.
Definition kDisplayModeSafeFlag : Z := 2.
Definition kDisplayModeDefaultFlag : Z := 4.

Record IODisplayModeInformation := mk_mode_info {
  mi_nominalWidth : Z;
  mi_nominalHeight : Z;
  mi_refreshRate : Z;
  mi_maxDepthIndex : Z;
  mi_flags : Z
}.

Definition getInformationForDisplayMode (info : bool) (displayMode : Z)
  : IOReturn * option IODisplayModeInformation :=
  if negb info then (kIOReturnBadArgument, None)
  else match find_mode displayMode with
  | Some m =>
      let flags := Z.lor kDisplayModeValidFlag kDisplayModeSafeFlag in
      (kIOReturnSuccess, Some (mk_mode_info (sm_width m) (sm_height m) (Z.shiftl 60 16) 0
         (if sm_is_default m then Z.lor flags kDisplayModeDefaultFlag else flags)))
  | None => (kIOReturnUnsupported, None)
  end.

Definition getPixelFormatsForDisplayMode : Z := Z.shiftl 1 30.

Definition kIORGBDirectPixels : Z := 2.
Definition IO32BitDirectPixels : string := "--------RRRRRRRRGGGGGGGGBBBBBBBB"%string.

(** The fields [getPixelInformation] writes; the others are zeroed. *)
Record IOPixelInformation := mk_pixel_info {
  pi_bytesPerRow : Z;
  pi_bytesPerPlane : Z;
  pi_bitsPerPixel : Z;
  pi_pixelType : Z;
  pi_componentCount : Z;
  pi_bitsPerComponent : Z;
  pi_componentMasks : list Z;
  pi_pixelFormat : string;
  pi_activeWidth : Z;
  pi_activeHeight : Z
}.

Definition getPixelInformation (pixelInfo : bool) (displayMode : Z)
  : IOReturn * option IOPixelInformation :=
  if negb pixelInfo then (kIOReturnBadArgument, None)
  else match getInformationForDisplayMode true displayMode with
  | (r, None) => (r, None)
  | (_, Some i) =>
      let bytesPerRow := u32 (mi_nominalWidth i * 4) in
      (kIOReturnSuccess, Some (mk_pixel_info bytesPerRow (u32 (bytesPerRow * mi_nominalHeight i))
         32 kIORGBDirectPixels 3 8 [0x00FF0000; 0x0000FF00; 0x000000FF] IO32BitDirectPixels
         (mi_nominalWidth i) (mi_nominalHeight i)))
  end.

Definition timingInvalid : Z := 0.
Definition timingVESA_1024x768_60hz : Z := 190.
Definition timingVESA_1280x1024_60hz : Z := 260.
Definition timingVESA_1920x1440_60hz : Z := 304.
Definition kIODetailedTimingValid : Z := 0x80000000.
Definition kIODigitalSignal : Z := 1.

Record IOTimingInformation := mk_timing {
  ti_appleTimingID : Z;
  ti_flags : Z;
  ti_pixelClock : Z;
  ti_minPixelClock : Z;
  ti_maxPixelClock : Z;
  ti_horizontalActive : Z;
  ti_horizontalBlanking : Z;
  ti_horizontalSyncOffset : Z;
  ti_horizontalSyncPulseWidth : Z;
  ti_verticalActive : Z;
  ti_verticalBlanking : Z;
  ti_verticalSyncOffset : Z;
  ti_verticalSyncPulseWidth : Z;
  ti_syncConfig : Z * Z;
  ti_signalConfig : Z
}.

Definition appleTimingID (w h : Z) : Z :=
  if (w =? 1024) && (h =? 768) then timingVESA_1024x768_60hz
  else if (w =? 1280) && (h =? 1024) then timingVESA_1280x1024_60hz
  else if (w =? 1920) && (h =? 1440) then timingVESA_1920x1440_60hz
  else timingInvalid.

Definition getTimingInfoForDisplayMode (info : bool) (displayMode : Z)
  : IOReturn * option IOTimingInformation :=
  if negb info then (kIOReturnBadArgument, None)
  else match getInformationForDisplayMode true displayMode with
  | (r, None) => (r, None)
  | (_, Some i) =>
      let w := mi_nominalWidth i in
      let h := mi_nominalHeight i in
      let clock := u32 (u32 (w * h) * 60) / 1000000 in
      (kIOReturnSuccess, Some (mk_timing (appleTimingID w h) kIODetailedTimingValid clock clock clock
         w (w / 4) 8 32 h (h / 20) 1 3 (1, 1) kIODigitalSignal))
  end.

(** * Connection attributes *)
Definition kIOHardwareCursorAttribute : Z := 0x63727372. (* 'crsr' *)
Definition kConnectionFlags : Z := 0x666c6773. (* 'flgs' *)
Definition kConnectionSyncEnable : Z := 0x73796e63. (* 'sync' *)
Definition kConnectionSyncFlags : Z := 0x73796366. (* 'sycf' *)
Definition kConnectionSupportsAppleSense : Z := 0x61736e73. (* 'asns' *)
Definition kConnectionSupportsHLDDCSense : Z := 0x68646463. (* 'hddc' *)
Definition kConnectionEnable : Z := 0x656e6162. (* 'enab' *)
Definition kConnectionCheckEnable : Z := 0x63656e61. (* 'cena' *)
Definition kConnectionChanged : Z := 0x63686e67. (* 'chng' *)
Definition kConnectionPower : Z := 0x706f7772. (* 'powr' *)
Definition kConnectionPostWake : Z := 0x7077616b. (* 'pwak' *)
Definition kConnectionGammaScale : Z := 0x67736320. (* 'gsc ' *)
Definition kBuiltInConnection : Z := 11.
Definition kHasDDCConnection : Z := 8.
Definition kReportsHotPlugging : Z := 14.

(** A status, and what was written to [*value]. *)
Definition answer : Type := IOReturn * option Z.
Definition gives (v : Z) : answer := (kIOReturnSuccess, Some v).
Definition quietly : answer := (kIOReturnSuccess, None).

Definition getAttribute (super : Z -> answer) (attribute : Z) : answer :=
  if attribute =? kIOHardwareCursorAttribute then gives 0 else super attribute.

Section connection.
Context (super_get : Z -> Z -> answer) (super_set : Z -> Z -> Z -> IOReturn).

(** The case labels of the switch, in order, with the value each writes. *)
Definition connection_values : list (Z * answer) :=
  [(kConnectionFlags, gives (Z.lor (Z.lor (Z.shiftl 1 kBuiltInConnection) (Z.shiftl 1 kHasDDCConnection))
                               (Z.shiftl 1 kReportsHotPlugging)));
   (kConnectionCheckEnable, gives 1); (kConnectionEnable, gives 1);
   (kConnectionSyncFlags, gives 0xFF); (kConnectionSyncEnable, gives 0xFF);
   (kConnectionSupportsHLDDCSense, gives 1); (0x6c646463, gives 1);
   (kConnectionSupportsAppleSense, gives 1); (kConnectionPostWake, quietly);
   (0x70636e74, (kIOReturnUnsupported, None));
   (0x72677363, gives 0x10000); (0x67677363, gives 0x10000); (0x62677363, gives 0x10000);
   (0x76626c6d, gives 0x10000); (0xdeadbeef, gives 1); (0x40052e7, gives 1); (0x7102bb07, gives 1);
   (kConnectionChanged, quietly); (0x70726d30, gives 0x8000); (0x70726d31, gives 0x8000);
   (0x70726d32, gives 0x10000); (0x70697065, gives 0); (0x64706974, gives 1);
   (0x64706964, gives 0x1000); (0x636e7472, gives 0x1AF4)].

Fixpoint switch (attribute : Z) (cases : list (Z * answer)) (default : answer) : answer :=
  match cases with
  | [] => default
  | (label, a) :: cases' => if attribute =? label then a else switch attribute cases' default
  end.

(** The labels 'parm' and [default] both delegate. *)
Definition getAttributeForConnection (connectIndex attribute : Z) (value : bool) : answer :=
  if negb value then
    if (attribute =? kConnectionSupportsHLDDCSense) || (attribute =? 0x6c646463)
       || (attribute =? kConnectionSupportsAppleSense)
    then quietly else (kIOReturnBadArgument, None)
  else if negb (connectIndex =? 0) then (kIOReturnBadArgument, None)
  else switch attribute connection_values (super_get connectIndex attribute).

Definition settable : list Z :=
  [kConnectionEnable; kConnectionSyncEnable; kConnectionPower; kConnectionPostWake; 0x72677363;
   0x67677363; 0x62677363; kConnectionGammaScale; 0x76626c6d; 0x666c7573; 0xdeadbeef].

Definition setAttributeForConnection (connectIndex attribute value : Z) : IOReturn :=
  if negb (connectIndex =? 0) then kIOReturnBadArgument
  else if existsb (Z.eqb attribute) settable then kIOReturnSuccess
  else super_set connectIndex attribute value.
End connection.

Definition connectFlags (connectIndex displayMode : Z) (flags : bool) : answer :=
  if negb (connectIndex =? 0) then (kIOReturnBadArgument, None)
  else if negb flags then (kIOReturnBadArgument, None)
  else gives (Z.lor kDisplayModeValidFlag kDisplayModeSafeFlag).

Definition getConnectionCount : Z := 1.
Definition setCursorImage : IOReturn := kIOReturnUnsupported.
Definition setCursorState : IOReturn := kIOReturnUnsupported.

(** * Interrupts *)
Definition interrupt_types : list Z :=
  [0; 0x76626c20; 0x76626c6e; 0x64636920; 0x64706972; 0x68646369].

Definition registerForInterruptType (interruptType : Z) (interruptRef : bool) : answer :=
  if existsb (Z.eqb interruptType) interrupt_types
  then (kIOReturnSuccess, if interruptRef then Some (Z.lor interruptType 0x12340000) else None)
  else (kIOReturnUnsupported, None).

Definition is_display_ref (refValue : Z) : bool := Z.land refValue 0xFFFF0000 =? 0x12340000.

Definition unregisterInterrupt (interruptRef : Z) : IOReturn :=
  if is_display_ref interruptRef then kIOReturnSuccess else kIOReturnBadArgument.
Definition setInterruptState (interruptRef state : Z) : IOReturn :=
  if is_display_ref interruptRef then kIOReturnSuccess else kIOReturnBadArgument.

(** * Lemmas *)
(** The buffer a mode needs. *)
Definition fits (n : Z) (m : supported_mode) : bool := sm_width m * sm_height m * 4 <=? n.

Lemma fits_ltb n m :
  0 <= sm_width m * sm_height m < 2 ^ 62 -> (n <? mode_bytes m) = negb (fits n m).
Proof. intros Hm. unfold mode_bytes, fits. by rewrite !u64_small, Z.ltb_antisym by (rewrite ?u64_small; lia). Qed.

Lemma supported_small m : m ∈ kSupportedModes -> 0 <= sm_width m * sm_height m < 2 ^ 62.
Proof.
  intros Hm. assert (Hall : Forall (fun m => 0 <= sm_width m * sm_height m < 2 ^ 62) kSupportedModes).
  { repeat constructor; cbn; lia. }
  by apply (proj1 (Forall_forall _ _) Hall).
Qed.

(** The boot mode among the advertised ones, as a decision. *)
Definition boot_mode_ok (ids : list Z) (cur : Z) : bool :=
  let pixels id := match find_mode id with Some m => mode_pixels m | None => 0 end in
  match ids with
  | [] => cur =? 0
  | _ => existsb (Z.eqb cur) ids && (if existsb (Z.eqb 5) ids then cur =? 5
                                     else forallb (fun id => pixels id <=? pixels cur) ids)
  end.

(** The loop with the outcome of each comparison given: what it computes
    depends on nothing else, so its 128 runs decide the properties below. *)
Fixpoint loop_with (bs : list bool) (ms : list supported_mode) (s : filter_state) : filter_state :=
  match bs, ms with
  | b :: bs', m :: ms' =>
      if negb b then loop_with bs' ms' s
      else if MAX_DISPLAY_MODES <=? Z.of_nat (length (fi_modes s)) then s
      else
        let bigger := fi_pixels s <? mode_pixels m in
        loop_with bs' ms'
          (mk_filter (fi_modes s ++ [sm_id m])
             (if sm_is_default m then sm_id m else fi_default s)
             (if bigger then sm_id m else fi_largest s)
             (if bigger then mode_pixels m else fi_pixels s))
  | _, _ => s
  end.
Fixpoint select {A} (bs : list bool) (l : list A) : list A :=
  match bs, l with
  | b :: bs', x :: l' => if b then x :: select bs' l' else select bs' l'
  | _, _ => []
  end.
Fixpoint outcomes (n : nat) : list (list bool) :=
  match n with
  | O => [[]]
  | S k => (cons true <$> outcomes k) ++ (cons false <$> outcomes k)
  end.
Definition run_ok (bs : list bool) : bool :=
  let s := loop_with bs kSupportedModes (mk_filter [] 0 0 0) in
  bool_decide (fi_modes s = sm_id <$> select bs kSupportedModes)
  && boot_mode_ok (fi_modes s) (if negb (fi_default s =? 0) then fi_default s else fi_largest s).

Lemma runs_ok : forallb run_ok (outcomes (length kSupportedModes)) = true.
Proof. vm_compute. reflexivity. Qed.

Lemma outcomes_all bs : bs ∈ outcomes (length bs).
Proof.
  induction bs as [|b bs IH]; cbn; [by apply list_elem_of_singleton|].
  apply elem_of_app. destruct b; [left|right]; by apply list_elem_of_fmap_2.
Qed.

Lemma filter_loop_with n ms s :
  (forall m, m ∈ ms -> m ∈ kSupportedModes) -> filter_loop n ms s = loop_with (fits n <$> ms) ms s.
Proof.
  revert s. induction ms as [|m ms IH]; intros s Hms; [done|].
  cbn [filter_loop loop_with fmap list_fmap].
  rewrite (fits_ltb n m) by (apply supported_small, Hms; left).
  rewrite !IH by (intros x Hx; apply Hms; by right). done.
Qed.

Lemma select_filter {A} (f : A -> bool) l : select (f <$> l) l = List.filter f l.
Proof. induction l as [|x l IH]; [done|]. cbn. destruct (f x); by rewrite IH. Qed.

(** What a run that is in order has established. *)
Lemma run_ok_spec bs :
  run_ok bs = true ->
  let s := loop_with bs kSupportedModes (mk_filter [] 0 0 0) in
  fi_modes s = sm_id <$> select bs kSupportedModes
  /\ boot_mode_ok (fi_modes s) (if negb (fi_default s =? 0) then fi_default s else fi_largest s) = true.
Proof. unfold run_ok. cbv zeta. intros [H1 H2]%andb_true_iff. by apply bool_decide_eq_true in H1. Qed.

Lemma run_ok_all bs : length bs = length kSupportedModes -> run_ok bs = true.
Proof.
  intros Hl. pose proof (outcomes_all bs) as Ho. rewrite Hl in Ho.
  apply (proj1 (forallb_forall run_ok _) runs_ok). by apply list_elem_of_In.
Qed.

Lemma filter_modes_run n :
  filter_modes (Some n) =
  let s := loop_with (fits n <$> kSupportedModes) kSupportedModes (mk_filter [] 0 0 0) in
  (fi_modes s, if negb (fi_default s =? 0) then fi_default s else fi_largest s).
Proof. unfold filter_modes. by rewrite filter_loop_with. Qed.

Lemma filter_modes_decided n :
  (filter_modes (Some n)).1 = sm_id <$> List.filter (fits n) kSupportedModes
  /\ boot_mode_ok (filter_modes (Some n)).1 (filter_modes (Some n)).2 = true.
Proof.
  pose proof (run_ok_spec _ (run_ok_all (fits n <$> kSupportedModes) (length_fmap _ _))) as Ho.
  rewrite filter_modes_run, <- select_filter.
  destruct (loop_with _ _ _) as [ms d l p]. exact Ho.
Qed.

Lemma find_mode_Some id m : find_mode id = Some m -> m ∈ kSupportedModes /\ sm_id m = id.
Proof.
  unfold find_mode. destruct (index_of _ kSupportedModes) as [i|] eqn:E; [|done]. intros Hm.
  apply index_of_Some in E as (m' & Hm' & Hid & _). rewrite Hm in Hm'. injection Hm' as <-.
  split; [by eapply list_elem_of_lookup_2|by apply Z.eqb_eq].
Qed.
Lemma find_mode_id m : m ∈ kSupportedModes -> find_mode (sm_id m) = Some m.
Proof.
  assert (Hall : Forall (fun m => find_mode (sm_id m) = Some m) kSupportedModes) by (by repeat constructor).
  by apply (proj1 (Forall_forall _ _) Hall).
Qed.

(** An advertised mode is in the table and fits. *)
Lemma advertised_fits n id :
  id ∈ (filter_modes (Some n)).1 -> exists m, find_mode id = Some m /\ fits n m = true.
Proof.
  rewrite (proj1 (filter_modes_decided n)). intros (m & -> & Hm)%list_elem_of_fmap.
  apply list_elem_of_In, filter_In in Hm as [Hm Hf]. apply list_elem_of_In in Hm.
  exists m. split; [by apply find_mode_id|done].
Qed.

(** * Properties *)
(** The modes advertised for a buffer are exactly those of the table that
    fit in it, in the table's order; the boot mode is one of them, 1920 by 1080
    when it fits and otherwise one with the most pixels, and is 0 when none
    fits. *)
Theorem filter_modes_spec n :
  let '(ids, cur) := filter_modes (Some n) in
  ids = sm_id <$> List.filter (fits n) kSupportedModes
  /\ (ids = [] -> cur = 0) /\ (ids <> [] -> cur ∈ ids) /\ (5 ∈ ids -> cur = 5)
  /\ (5 ∉ ids -> forall m c, m ∈ kSupportedModes -> sm_id m ∈ ids -> find_mode cur = Some c ->
        sm_width m * sm_height m <= sm_width c * sm_height c).
Proof.
  destruct (filter_modes_decided n) as [H1 H2]. destruct (filter_modes (Some n)) as [ids cur].
  cbn [fst snd] in *. split; [done|]. clear H1. unfold boot_mode_ok in H2.
  destruct ids as [|id0 ids].
  { apply Z.eqb_eq in H2. split_and!; [done|done|by intros ?%not_elem_of_nil|].
    by intros _ m c _ ?%not_elem_of_nil. }
  apply andb_true_iff in H2 as [Hin H2].
  assert (Hmem : forall x, existsb (Z.eqb x) (id0 :: ids) = true <-> x ∈ id0 :: ids).
  { intros x. rewrite existsb_exists. split.
    - intros (y & Hy & ->%Z.eqb_eq). by apply list_elem_of_In.
    - intros Hx. exists x. split; [by apply list_elem_of_In|apply Z.eqb_refl]. }
  apply Hmem in Hin. split_and!; [done|done|..].
  - intros H5. apply Hmem in H5. rewrite H5 in H2. by apply Z.eqb_eq.
  - intros H5 m c Hm Hid Hc. destruct (existsb (Z.eqb 5) (id0 :: ids)) eqn:E5; [by apply Hmem in E5|].
    rewrite forallb_forall in H2. specialize (H2 (sm_id m) ltac:(by apply list_elem_of_In)).
    rewrite (find_mode_id m Hm), Hc in H2. apply Z.leb_le in H2. unfold mode_pixels in H2.
    apply find_mode_Some in Hc as [Hc _]. pose proof (supported_small _ Hm). pose proof (supported_small _ Hc).
    rewrite !u64_small in H2 by lia. exact H2.
Qed.

(** Whatever a client asks about an advertised mode is consistent with
    the table and with the buffer: its rows of four-byte pixels fill the plane,
    the plane fits in the buffer, the timing has the same active area, and no
    size overflows. *)
Theorem advertised_modes_described n id :
  id ∈ (filter_modes (Some n)).1 ->
  exists m i p t, find_mode id = Some m
    /\ getInformationForDisplayMode true id = (kIOReturnSuccess, Some i)
    /\ getPixelInformation true id = (kIOReturnSuccess, Some p)
    /\ getTimingInfoForDisplayMode true id = (kIOReturnSuccess, Some t)
    /\ (mi_nominalWidth i, mi_nominalHeight i) = (sm_width m, sm_height m)
    /\ pi_bytesPerRow p = 4 * sm_width m /\ pi_bytesPerPlane p = pi_bytesPerRow p * sm_height m
    /\ pi_bytesPerPlane p <= n
    /\ (ti_horizontalActive t, ti_verticalActive t) = (sm_width m, sm_height m)
    /\ ti_pixelClock t = sm_width m * sm_height m * 60 / 1000000.
Proof.
  intros (m & Hm & Hf)%advertised_fits. apply Z.leb_le in Hf.
  assert (Hb : 0 <= sm_width m < 8192 /\ 0 <= sm_height m < 4096).
  { apply find_mode_Some in Hm as [Hm _].
    assert (Hall : Forall (fun m => 0 <= sm_width m < 8192 /\ 0 <= sm_height m < 4096) kSupportedModes)
      by (repeat constructor; cbn; lia).
    by apply (proj1 (Forall_forall _ _) Hall). }
  unfold getPixelInformation, getTimingInfoForDisplayMode, getInformationForDisplayMode. cbn [negb].
  rewrite Hm. cbn [mi_nominalWidth mi_nominalHeight].
  assert (0 <= sm_width m * sm_height m <= 8192 * 4096) by nia.
  rewrite !(u32_small (sm_width m * 4)), !(u32_small (sm_width m * sm_height m)) by lia.
  rewrite (u32_small (sm_width m * 4 * sm_height m)) by lia.
  do 4 eexists. split_and!; try reflexivity; cbn [pi_bytesPerRow pi_bytesPerPlane ti_pixelClock]; lia || rewrite ?u32_small by lia; done.
Qed.

(** A registration hands out a reference that the other two interrupt
    calls accept only for the plain vertical-blank type 0: the bits of every
    named type run into the tag the reference is recognised by. *)
Theorem interrupt_refs_rejected ty ref st :
  registerForInterruptType ty true = (kIOReturnSuccess, Some ref) ->
  (unregisterInterrupt ref = kIOReturnSuccess <-> ty = 0)
  /\ (setInterruptState ref st = kIOReturnSuccess <-> ty = 0).
Proof.
  unfold registerForInterruptType. destruct (existsb (Z.eqb ty) interrupt_types) eqn:E; [|done].
  intros [= <-]. apply existsb_exists in E as (ty' & Hin & ->%Z.eqb_eq).
  unfold interrupt_types in Hin. cbn in Hin.
  repeat destruct Hin as [<-|Hin]; [..|done]; unfold unregisterInterrupt, setInterruptState;
    (replace (is_display_ref _) with false by reflexivity) || (replace (is_display_ref _) with true by reflexivity);
    (split; split; done).
Qed.

Lemma advertised_modes_described_witness :
  exists p, getPixelInformation true 6 = (kIOReturnSuccess, Some p) /\ pi_bytesPerPlane p <= 2560 * 1600 * 4.
Proof.
  destruct (advertised_modes_described (2560 * 1600 * 4) 6) as (m & i & p & t & _ & _ & Hp & _ & _ & _ & _ & Hb & _).
  - apply list_elem_of_In. vm_compute. tauto.
  - exists p. split; [exact Hp|exact Hb].
Defined.

Lemma interrupt_refs_rejected_witness :
  exists ref, registerForInterruptType 0x76626c20 true = (kIOReturnSuccess, Some ref)
    /\ ~ unregisterInterrupt ref = kIOReturnSuccess.
Proof.
  eexists. split; [reflexivity|]. intros H.
  destruct (interrupt_refs_rejected 0x76626c20 _ 1 eq_refl) as [H1 _]. apply H1 in H. discriminate H.
Defined.
