(* ===== verification/Vga.v ===== *)
(** The framebuffer of the QXL and standard-VGA devices: the register
    interface of [QemuVGADevice] ([FB/QemuVGADevice.cpp]), the mode table of
    [FB/modes.cpp] and [VMQemuVGA] ([FB/VMQemuVGA.cpp]): start, the mode
    callbacks, the custom-mode exchange with the window server, interrupts and
    attributes.

    A thread of [CustomMode] that waits for the window server is counted in
    [v_waiting]; its two halves are [custom_request] and [custom_resume]. What
    the VBE registers answer, the super class and [withSubRange] are
    parameters. Properties and logging are left out. *)
From Stdlib Require Import String.
From S2P Require Import Prelude Modes.

(** * The device *)
Record DisplayModeEntry := mk_dme { dm_width : Z; dm_height : Z; dm_flags : Z }.

Definition vs : Z := Z.lor kDisplayModeValidFlag kDisplayModeSafeFlag.
Definition vsd : Z := Z.lor vs kDisplayModeDefaultFlag.
Definition NUM_DISPLAY_MODES : Z := 25.
Definition CUSTOM_MODE_ID : Z := 1.
Definition modeList : list DisplayModeEntry :=
  [mk_dme 800 600 vs; mk_dme 800 600 vs; mk_dme 1024 768 vsd; mk_dme 1152 720 vs; mk_dme 1152 864 vs;
   mk_dme 1152 900 vs; mk_dme 1280 720 vs; mk_dme 1280 768 vs; mk_dme 1280 800 vs; mk_dme 1280 960 vs;
   mk_dme 1280 1024 vs; mk_dme 1376 1032 vs; mk_dme 1400 1050 vs; mk_dme 1440 900 vs; mk_dme 1600 900 vs;
   mk_dme 1600 1200 vs; mk_dme 1680 1050 vs; mk_dme 1920 1080 vs; mk_dme 1920 1200 vs; mk_dme 1920 1440 vs;
   mk_dme 2048 1152 vs; mk_dme 2048 1536 vs; mk_dme 2360 1770 vs; mk_dme 2560 1440 vs; mk_dme 2560 1600 vs].

Definition VBE_DISPI_IOPORT_INDEX : Z := 0x01CE.
Definition VBE_DISPI_IOPORT_DATA : Z := 0x01CF.
Definition VBE_DISPI_MAX_XRES : Z := 2560.
Definition VBE_DISPI_MAX_YRES : Z := 1600.
Definition VBE_DISPI_INDEX_XRES : Z := 1.
Definition VBE_DISPI_INDEX_YRES : Z := 2.
Definition VBE_DISPI_INDEX_BPP : Z := 3.
Definition VBE_DISPI_INDEX_ENABLE : Z := 4.
Definition VBE_DISPI_DISABLED : Z := 0.
Definition VBE_DISPI_ENABLED : Z := 1.
Definition VBE_DISPI_LFB_ENABLED : Z := 0x40.

(** A 16-bit write to a port. *)
Inductive io := Out16 (port value : Z).

Record svga := mk_svga {
  sv_provider : bool;
  sv_vram : option Z;      (* m_vram: the length of BAR 0 *)
  sv_max_width : Z;
  sv_max_height : Z;
  sv_fb_offset : Z;
  sv_fb_size : Z;
  sv_width : Z;
  sv_height : Z;
  sv_bpp : Z;
  sv_io : list io
}.

Definition set_sv_provider (b : bool) (s : svga) : svga :=
  mk_svga b (sv_vram s) (sv_max_width s) (sv_max_height s) (sv_fb_offset s) (sv_fb_size s) (sv_width s) (sv_height s) (sv_bpp s) (sv_io s).
Definition set_sv_mode (w h b : Z) (s : svga) : svga :=
  mk_svga (sv_provider s) (sv_vram s) (sv_max_width s) (sv_max_height s) (sv_fb_offset s) (sv_fb_size s) w h b (sv_io s).
Definition set_sv_io (l : list io) (s : svga) : svga :=
  mk_svga (sv_provider s) (sv_vram s) (sv_max_width s) (sv_max_height s) (sv_fb_offset s) (sv_fb_size s) (sv_width s) (sv_height s) (sv_bpp s) l.

Definition out16 (port value : Z) : M svga unit :=
  modify (fun s => set_sv_io (sv_io s ++ [Out16 port (u16 value)]) s).
Definition WriteRegVBE (index value : Z) : M svga unit :=
  out16 VBE_DISPI_IOPORT_INDEX index ;;; out16 VBE_DISPI_IOPORT_DATA value.

Section device.
Context (vbe : list io -> Z).
Definition ReadRegVBE (index : Z) : M svga Z :=
  out16 VBE_DISPI_IOPORT_INDEX index ;;; gets (fun s => u16 (vbe (sv_io s))).

Definition SetMode (width height bpp : Z) : M svga unit :=
  modify (set_sv_mode width height bpp) ;;;
  WriteRegVBE VBE_DISPI_INDEX_ENABLE VBE_DISPI_DISABLED ;;;
  WriteRegVBE VBE_DISPI_INDEX_XRES width ;;;
  WriteRegVBE VBE_DISPI_INDEX_YRES height ;;;
  WriteRegVBE VBE_DISPI_INDEX_BPP bpp ;;;
  WriteRegVBE VBE_DISPI_INDEX_ENABLE (Z.lor VBE_DISPI_ENABLED VBE_DISPI_LFB_ENABLED).

Definition svga_Cleanup : M svga unit := modify (set_sv_provider false).

(** [Start]; [bar0] is the length of the first device memory, when there is
    one. *)
Definition svga_Start (is_qxl : bool) (bar0 : option Z) : M svga bool :=
  modify (set_sv_provider true) ;;;
  match bar0 with
  | None => svga_Cleanup ;;; ret false
  | Some len =>
      modify (fun s => mk_svga (sv_provider s) (Some len) VBE_DISPI_MAX_XRES VBE_DISPI_MAX_YRES 0 (u32 len)
                         (sv_width s) (sv_height s) (sv_bpp s) (sv_io s)) ;;;
      (if is_qxl then modify (set_sv_mode 1024 768 32)
       else
         let! w := ReadRegVBE VBE_DISPI_INDEX_XRES in
         let! h := ReadRegVBE VBE_DISPI_INDEX_YRES in
         let! b := ReadRegVBE VBE_DISPI_INDEX_BPP in
         modify (set_sv_mode w h b)) ;;;
      ret true
  end.
End device.

Definition getVRAMSize (s : svga) : Z := match sv_vram s with Some n => u32 n | None => 0 end.

(** * The framebuffer *)
(** [m_gpu_device], [m_accelerator] (null tests), [m_3d_acceleration_enabled],
    [m_accel_updates]. *)
Record accel := mk_accel { ac_gpu : bool; ac_accelerator : bool; ac_enabled : bool; ac_updates : bool }.
Record vga := mk_vga {
  v_svga : svga;
  v_vram : option Z;              (* m_vram: its length *)
  v_num_active : Z;
  v_display_mode : Z;
  v_depth_mode : Z;
  v_modes : list Z;
  v_proc : bool;                  (* m_intr.proc *)
  v_intr_enabled : bool;
  v_emitted : Z;                  (* calls of the interrupt procedure *)
  v_restore_call : bool;
  v_scheduled : bool;             (* the restore call is pending *)
  v_waiting : Z;                  (* threads in CustomSwitchStepWait(2) *)
  v_custom_switch : Z;
  v_custom_switched : bool;
  v_custom : DisplayModeEntry;
  v_iolock : option lock_state;
  v_accel : accel
}.

Definition set_v_svga (x : svga) (v : vga) : vga :=
  mk_vga x (v_vram v) (v_num_active v) (v_display_mode v) (v_depth_mode v) (v_modes v) (v_proc v) (v_intr_enabled v) (v_emitted v) (v_restore_call v) (v_scheduled v) (v_waiting v) (v_custom_switch v) (v_custom_switched v) (v_custom v) (v_iolock v) (v_accel v).
Definition set_v_vram (x : option Z) (v : vga) : vga :=
  mk_vga (v_svga v) x (v_num_active v) (v_display_mode v) (v_depth_mode v) (v_modes v) (v_proc v) (v_intr_enabled v) (v_emitted v) (v_restore_call v) (v_scheduled v) (v_waiting v) (v_custom_switch v) (v_custom_switched v) (v_custom v) (v_iolock v) (v_accel v).
Definition set_v_active (n : Z) (ms : list Z) (v : vga) : vga :=
  mk_vga (v_svga v) (v_vram v) n (v_display_mode v) (v_depth_mode v) ms (v_proc v) (v_intr_enabled v) (v_emitted v) (v_restore_call v) (v_scheduled v) (v_waiting v) (v_custom_switch v) (v_custom_switched v) (v_custom v) (v_iolock v) (v_accel v).
Definition set_v_display (m d : Z) (v : vga) : vga :=
  mk_vga (v_svga v) (v_vram v) (v_num_active v) m d (v_modes v) (v_proc v) (v_intr_enabled v) (v_emitted v) (v_restore_call v) (v_scheduled v) (v_waiting v) (v_custom_switch v) (v_custom_switched v) (v_custom v) (v_iolock v) (v_accel v).
Definition set_v_intr (p e : bool) (v : vga) : vga :=
  mk_vga (v_svga v) (v_vram v) (v_num_active v) (v_display_mode v) (v_depth_mode v) (v_modes v) p e (v_emitted v) (v_restore_call v) (v_scheduled v) (v_waiting v) (v_custom_switch v) (v_custom_switched v) (v_custom v) (v_iolock v) (v_accel v).
Definition set_v_emitted (n : Z) (v : vga) : vga :=
  mk_vga (v_svga v) (v_vram v) (v_num_active v) (v_display_mode v) (v_depth_mode v) (v_modes v) (v_proc v) (v_intr_enabled v) n (v_restore_call v) (v_scheduled v) (v_waiting v) (v_custom_switch v) (v_custom_switched v) (v_custom v) (v_iolock v) (v_accel v).
Definition set_v_restore_call (b : bool) (v : vga) : vga :=
  mk_vga (v_svga v) (v_vram v) (v_num_active v) (v_display_mode v) (v_depth_mode v) (v_modes v) (v_proc v) (v_intr_enabled v) (v_emitted v) b (v_scheduled v) (v_waiting v) (v_custom_switch v) (v_custom_switched v) (v_custom v) (v_iolock v) (v_accel v).
Definition set_v_scheduled (b : bool) (v : vga) : vga :=
  mk_vga (v_svga v) (v_vram v) (v_num_active v) (v_display_mode v) (v_depth_mode v) (v_modes v) (v_proc v) (v_intr_enabled v) (v_emitted v) (v_restore_call v) b (v_waiting v) (v_custom_switch v) (v_custom_switched v) (v_custom v) (v_iolock v) (v_accel v).
Definition set_v_waiting (n : Z) (v : vga) : vga :=
  mk_vga (v_svga v) (v_vram v) (v_num_active v) (v_display_mode v) (v_depth_mode v) (v_modes v) (v_proc v) (v_intr_enabled v) (v_emitted v) (v_restore_call v) (v_scheduled v) n (v_custom_switch v) (v_custom_switched v) (v_custom v) (v_iolock v) (v_accel v).
Definition set_v_custom_switch (n : Z) (v : vga) : vga :=
  mk_vga (v_svga v) (v_vram v) (v_num_active v) (v_display_mode v) (v_depth_mode v) (v_modes v) (v_proc v) (v_intr_enabled v) (v_emitted v) (v_restore_call v) (v_scheduled v) (v_waiting v) n (v_custom_switched v) (v_custom v) (v_iolock v) (v_accel v).
Definition set_v_custom_switched (b : bool) (v : vga) : vga :=
  mk_vga (v_svga v) (v_vram v) (v_num_active v) (v_display_mode v) (v_depth_mode v) (v_modes v) (v_proc v) (v_intr_enabled v) (v_emitted v) (v_restore_call v) (v_scheduled v) (v_waiting v) (v_custom_switch v) b (v_custom v) (v_iolock v) (v_accel v).
Definition set_v_custom (d : DisplayModeEntry) (v : vga) : vga :=
  mk_vga (v_svga v) (v_vram v) (v_num_active v) (v_display_mode v) (v_depth_mode v) (v_modes v) (v_proc v) (v_intr_enabled v) (v_emitted v) (v_restore_call v) (v_scheduled v) (v_waiting v) (v_custom_switch v) (v_custom_switched v) d (v_iolock v) (v_accel v).
Definition set_v_iolock (l : option lock_state) (v : vga) : vga :=
  mk_vga (v_svga v) (v_vram v) (v_num_active v) (v_display_mode v) (v_depth_mode v) (v_modes v) (v_proc v) (v_intr_enabled v) (v_emitted v) (v_restore_call v) (v_scheduled v) (v_waiting v) (v_custom_switch v) (v_custom_switched v) (v_custom v) l (v_accel v).

Definition set_v_accel (a : accel) (v : vga) : vga :=
  mk_vga (v_svga v) (v_vram v) (v_num_active v) (v_display_mode v) (v_depth_mode v) (v_modes v) (v_proc v) (v_intr_enabled v) (v_emitted v) (v_restore_call v) (v_scheduled v) (v_waiting v) (v_custom_switch v) (v_custom_switched v) (v_custom v) (v_iolock v) a.

Definition on_svga {A} (m : M svga A) : M vga A :=
  fun v => let '(a, s) := m (v_svga v) in (a, set_v_svga s v).
Definition lock_io : M vga unit := modify (fun v => set_v_iolock (lock_acquire <$> v_iolock v) v).
Definition unlock_io : M vga unit := modify (fun v => set_v_iolock (lock_release <$> v_iolock v) v).

Definition GetDisplayMode (displayMode : Z) (v : vga) : option DisplayModeEntry :=
  if displayMode =? CUSTOM_MODE_ID then Some (v_custom v)
  else if (1 <=? displayMode) && (displayMode <=? NUM_DISPLAY_MODES)
  then modeList !! Z.to_nat (displayMode - 1)
  else None.

(** ** The mode callbacks *)
Definition setDisplayMode (displayMode depth : Z) : M vga IOReturn :=
  if negb (depth =? 0) then ret kIOReturnBadArgument
  else
    let! dme := gets (GetDisplayMode displayMode) in
    match dme with
    | None => ret kIOReturnBadArgument
    | Some dme =>
        let! switched := gets v_custom_switched in
        if switched then
          let! c := gets v_custom in
          (if (dm_width c =? dm_width dme) && (dm_height c =? dm_height dme)
           then modify (set_v_custom_switched false) else ret tt) ;;;
          modify (set_v_display displayMode 0) ;;;
          ret kIOReturnSuccess
        else
          lock_io ;;;
          on_svga (SetMode (dm_width dme) (dm_height dme) 32) ;;;
          unlock_io ;;;
          modify (set_v_display displayMode 0) ;;;
          ret kIOReturnSuccess
    end.

Definition getDisplayModes (v : vga) : list Z :=
  if negb (v_custom_switch v =? 0) then [CUSTOM_MODE_ID] else take (Z.to_nat (v_num_active v)) (v_modes v).
Definition getDisplayModeCount (v : vga) : Z :=
  if negb (v_custom_switch v =? 0) then 1 else v_num_active v.

Definition getInformationForDisplayMode (info : bool) (displayMode : Z) (v : vga)
  : IOReturn * option IODisplayModeInformation :=
  if negb info then (kIOReturnBadArgument, None)
  else match GetDisplayMode displayMode v with
  | None => (kIOReturnBadArgument, None)
  | Some d => (kIOReturnSuccess, Some (mk_mode_info (dm_width d) (dm_height d) (Z.shiftl 60 16) 0 (dm_flags d)))
  end.

Definition kIOFBSystemAperture : Z := 0.
Definition kIOReturnUnsupportedMode : IOReturn := kIOReturnOther 0xE00002E6.
(** The pixel information and its flags. *)
Definition getPixelInformation (pixelInfo : bool) (displayMode depth aperture : Z) (v : vga)
  : IOReturn * option (IOPixelInformation * Z) :=
  if negb pixelInfo then (kIOReturnBadArgument, None)
  else if negb (aperture =? kIOFBSystemAperture) then (kIOReturnUnsupportedMode, None)
  else if negb (depth =? 0) then (kIOReturnBadArgument, None)
  else match GetDisplayMode displayMode v with
  | None => (kIOReturnBadArgument, None)
  | Some d =>
      let bytesPerRow := u32 (Z.shiftl (Z.land (u32 (dm_width d + 7)) (Z.lxor 0xFFFFFFFF 7)) 2) in
      (kIOReturnSuccess, Some (mk_pixel_info bytesPerRow 0 32 kIORGBDirectPixels 3 8
         [0xFF0000; 0x00FF00; 0x0000FF] IO32BitDirectPixels (dm_width d) (dm_height d), dm_flags d))
  end.

(** ** The custom mode *)
Definition CustomSwitchStepSet (value : Z) : M vga unit := modify (set_v_custom_switch value).
Definition EmitConnectChangedEvent : M vga unit :=
  modify (fun v => if negb (v_proc v) || negb (v_intr_enabled v) then v else set_v_emitted (v_emitted v + 1) v).

(** What [RestoreAllModes] looks for: the first active mode of another size
    than the custom mode. *)
Fixpoint find_other (n : nat) (i : Z) (d1 : DisplayModeEntry) (v : vga) : option Z :=
  match n with
  | O => None
  | S k =>
      match GetDisplayMode (nth (Z.to_nat i) (v_modes v) 0) v with
      | Some d2 =>
          if negb (dm_width d2 =? dm_width d1) || negb (dm_height d2 =? dm_height d1) then Some i
          else find_other k (i + 1) d1 v
      | None => find_other k (i + 1) d1 v
      end
  end.

Definition swap_slots (i : nat) (l : list Z) : list Z :=
  let t := nth 0 l 0 in <[i := t]> (<[0%nat := nth i l 0]> l).

Definition RestoreAllModes : M vga unit :=
  let! step := gets v_custom_switch in
  if negb (step =? 2) then ret tt
  else
    let! d1 := gets (GetDisplayMode CUSTOM_MODE_ID) in
    match d1 with
    | None => ret tt
    | Some d1 =>
        let! slot := gets (fun v => find_other (Z.to_nat (v_num_active v)) 0 d1 v) in
        match slot with
        | None => ret tt
        | Some i =>
            modify (fun v => set_v_active (v_num_active v) (swap_slots (Z.to_nat i) (v_modes v)) v) ;;;
            modify (set_v_custom_switched true) ;;;
            CustomSwitchStepSet 0 ;;;
            EmitConnectChangedEvent
        end
    end.

(** The data a client hands in, and the room it offers for the answer. *)
Record CustomModeData := mk_cmd { cm_flags : Z; cm_width : Z; cm_height : Z }.
Definition SIZEOF_CustomModeData : Z := 12.

Definition clamp (lo hi x : Z) : Z := if x <? lo then lo else if hi <? x then hi else x.

(** The answer at [finish_up]. *)
Definition finish_up (flags : Z) : M vga (IOReturn * option CustomModeData) :=
  let! d := gets (fun v => GetDisplayMode (v_display_mode v) v) in
  match d with
  | None => ret (kIOReturnUnsupported, None)
  | Some d => ret (kIOReturnSuccess, Some (mk_cmd flags (dm_width d) (dm_height d)))
  end.

(** [CustomMode] up to its wait; [None]: the thread waits. *)
Definition custom_request (inData : option CustomModeData) (outData : bool) (inSize : Z) (outSize : option Z)
  : M vga (option (IOReturn * option CustomModeData)) :=
  let! call := gets v_restore_call in
  if negb call then ret (Some (kIOReturnUnsupported, None))
  else match inData with
  | None => ret (Some (kIOReturnBadArgument, None))
  | Some d =>
      if inSize <? SIZEOF_CustomModeData then ret (Some (kIOReturnBadArgument, None))
      else if negb outData then ret (Some (kIOReturnBadArgument, None))
      else if match outSize with Some n => n <? SIZEOF_CustomModeData | None => true end
      then ret (Some (kIOReturnBadArgument, None))
      else
        let! dme1 := gets (fun v => GetDisplayMode (v_display_mode v) v) in
        match dme1 with
        | None => ret (Some (kIOReturnUnsupported, None))
        | Some dme1 =>
            if Z.land (cm_flags d) 1 =? 0 then let! r := finish_up (cm_flags d) in ret (Some r)
            else
              let! sv := gets v_svga in
              let w := clamp 800 (sv_max_width sv) (cm_width d) in
              let h := clamp 600 (sv_max_height sv) (cm_height d) in
              if (w =? dm_width dme1) && (h =? dm_height dme1)
              then let! r := finish_up (cm_flags d) in ret (Some r)
              else
                modify (fun v => set_v_custom (mk_dme w h (dm_flags (v_custom v))) v) ;;;
                CustomSwitchStepSet 1 ;;;
                EmitConnectChangedEvent ;;;
                modify (fun v => set_v_waiting (v_waiting v + 1) v) ;;;
                ret None
        end
  end.

(** The rest, once [m_custom_switch] is 2: the restore is scheduled. [None]:
    the thread still waits. *)
Definition custom_resume (flags : Z) : M vga (option (IOReturn * option CustomModeData)) :=
  let! w := gets v_waiting in
  let! step := gets v_custom_switch in
  if (0 <? w) && (step =? 2) then
    modify (set_v_waiting (w - 1)) ;;;
    modify (set_v_scheduled true) ;;;
    let! r := finish_up flags in ret (Some r)
  else ret None.

(** The restore call runs when it is due. *)
Definition restore_due : M vga unit :=
  let! s := gets v_scheduled in
  if s then modify (set_v_scheduled false) ;;; RestoreAllModes else ret tt.

(** ** Interrupts and attributes *)
Definition kIOFBConnectInterruptType : Z := 0x64636920. (* 'dci ' *)
Definition registerForInterruptType (interruptType : Z) (proc : bool) : M vga IOReturn :=
  if negb (interruptType =? kIOFBConnectInterruptType) then ret kIOReturnUnsupported
  else modify (set_v_intr proc true) ;;; ret kIOReturnSuccess.
(** [own]: the reference is the address of [m_intr]. *)
Definition unregisterInterrupt (own : bool) : M vga IOReturn :=
  if negb own then ret kIOReturnBadArgument
  else modify (set_v_intr false false) ;;; ret kIOReturnSuccess.
Definition setInterruptState (own : bool) (state : Z) : M vga IOReturn :=
  if negb own then ret kIOReturnBadArgument
  else modify (fun v => set_v_intr (v_proc v) (negb (state =? 0)) v) ;;; ret kIOReturnSuccess.

Definition kIOCapturedAttribute : Z := 0x63617064. (* 'capd' *)
(** [r]: the super class's answer. *)
Definition setAttribute (r : IOReturn) (attribute value : Z) : M vga IOReturn :=
  let! step := gets v_custom_switch in
  let! mode := gets v_display_mode in
  (if (attribute =? kIOCapturedAttribute) && (value =? 0) && (step =? 1) && (mode =? CUSTOM_MODE_ID)
   then CustomSwitchStepSet 2 else ret tt) ;;;
  ret r.

Section attributes.
Context (super_get : Z -> answer) (super_conn : Z -> Z -> answer) (super_set_conn : Z -> Z -> Z -> IOReturn).

Definition getAttribute (attribute : Z) (v : vga) : answer :=
  if attribute =? kIOHardwareCursorAttribute then gives 1
  else if (attribute =? 0x63757372) || (attribute =? 0x63757273) then gives 0 (* 'cusr', 'curs' *)
  else if attribute =? 0x76737276 then gives 0 (* kIOVRAMSaveAttribute *)
  else if attribute =? kConnectionPower then gives 0 (* kIOPowerAttribute *)
  else if (attribute =? 0x67707520) || (attribute =? 0x47505520)
  then gives (if ac_enabled (v_accel v) && ac_updates (v_accel v) then 25 else 5)
  else super_get attribute.

Definition getAttributeForConnection (connectIndex attribute : Z) : answer :=
  if (attribute =? kConnectionSupportsAppleSense) || (attribute =? 0x70636e74)
     || (attribute =? 0x6c646463) || (attribute =? 0x7061726d)
     || (attribute =? kConnectionPower) || (attribute =? kConnectionPostWake)
  then (kIOReturnUnsupported, None)
  else if attribute =? kConnectionChanged then quietly
  else if attribute =? kConnectionEnable then gives 1
  else if attribute =? kConnectionFlags then gives 0
  else if attribute =? kConnectionSupportsHLDDCSense then (kIOReturnUnsupported, None)
  else super_conn connectIndex attribute.

Definition setAttributeForConnection (connectIndex attribute value : Z) : IOReturn :=
  if (attribute =? kConnectionFlags) || (attribute =? 0x70726f62) || (attribute =? kConnectionEnable)
  then kIOReturnSuccess
  else super_set_conn connectIndex attribute value.
End attributes.

(** ** Memory ranges: offset and length *)
Section ranges.
Context (withSubRange : Z -> Z -> Z -> option (Z * Z)).
Definition getVRAMRange (v : vga) : option (Z * Z) :=
  match v_vram v with
  | None => None
  | Some len => if len <=? getVRAMSize (v_svga v) then Some (0, len) else withSubRange len 0 (getVRAMSize (v_svga v))
  end.
Definition getApertureRange (aperture : Z) : M vga (option (Z * Z)) :=
  if negb (aperture =? kIOFBSystemAperture) then ret None
  else
    let! vram := gets v_vram in
    match vram with
    | None => ret None
    | Some len =>
        lock_io ;;;
        let! sv := gets v_svga in
        unlock_io ;;;
        ret (withSubRange len (sv_fb_offset sv) (sv_fb_size sv))
    end.
End ranges.

(** ** Acceleration *)
Definition on_accel {A} (m : M accel A) : M vga A :=
  fun v => let '(a, x) := m (v_accel v) in (a, set_v_accel x v).
Definition useAccelUpdates (state : bool) : M accel unit :=
  modify (fun a => mk_accel (ac_gpu a) (ac_accelerator a) (ac_enabled a) state).
Definition set_ac_enabled (b : bool) : M accel unit :=
  modify (fun a => mk_accel (ac_gpu a) (ac_accelerator a) b (ac_updates a)).
Definition cleanup3DAcceleration : M accel unit :=
  modify (fun a => mk_accel false false false (ac_updates a)).

(** The outcomes of the steps: the mock device, the accelerator's
    allocation, and whether its [init], [attach] and [start] all succeed. The
    value is [kIOReturnSuccess] as a [bool]. *)
Definition initTraditionalAcceleration (gpu alloc started : bool) : M accel bool :=
  modify (fun a => mk_accel gpu (ac_accelerator a) (ac_enabled a) (ac_updates a)) ;;;
  if negb gpu then ret false
  else
    modify (fun a => mk_accel (ac_gpu a) alloc (ac_enabled a) (ac_updates a)) ;;;
    if negb alloc then cleanup3DAcceleration ;;; ret false
    else if negb started then cleanup3DAcceleration ;;; ret false
    else
      set_ac_enabled true ;;;
      useAccelUpdates true ;;;
      let kIOReturnSuccess := 0 in
      ret (negb (kIOReturnSuccess =? 0)).

(** ** Start and stop *)
Definition TryDetectCurrentDisplayMode (defaultMode : Z) (v : vga) : Z :=
  let w := sv_width (v_svga v) in
  let h := sv_height (v_svga v) in
  let fix loop (i : Z) (l : list DisplayModeEntry) (tableDefault : Z) : Z :=
    match l with
    | [] => if tableDefault =? 0 then defaultMode else tableDefault
    | d :: l' =>
        if (w =? dm_width d) && (h =? dm_height d) then i + 1
        else loop (i + 1) l' (if Z.land (dm_flags d) kDisplayModeDefaultFlag =? 0 then tableDefault else i + 1)
    end in
  loop 1 (tail modeList) 0.

Definition dm_bytes (d : DisplayModeEntry) : Z := dm_width d * dm_height d * 4.
Definition fits (max_w max_h vram_bytes : Z) (d : DisplayModeEntry) : bool :=
  (dm_width d <=? max_w) && (dm_height d <=? max_h) && ((vram_bytes =? 0) || (dm_bytes d <=? vram_bytes)).
(** The loop that selects the modes: their ids. *)
Fixpoint active_modes (max_w max_h vram_bytes i : Z) (l : list DisplayModeEntry) : list Z :=
  match l with
  | [] => []
  | d :: l' =>
      (if fits max_w max_h vram_bytes d then [i + 1] else []) ++ active_modes max_w max_h vram_bytes (i + 1) l'
  end.

(** What [start] meets: the super class, the kind of device, its BAR 0, the
    outcome of [init3DAcceleration], the two allocations. *)
Record start_env := mk_start_env {
  se_super : bool;
  se_virtio : bool;
  se_qxl : bool;
  se_bar0 : option Z;
  se_accel : M accel bool;
  se_call : bool;
  se_lock : bool
}.

Definition Cleanup : M vga unit :=
  on_svga svga_Cleanup ;;;
  modify (set_v_restore_call false) ;;;
  modify (set_v_iolock None).

(** The part of [start] that decides the memory: [m_vram]. *)
Definition start_vram (e : start_env) : M vga unit :=
  if se_virtio e then modify (set_v_vram None)
  else
    let! sv := gets v_svga in
    modify (set_v_vram (sv_vram sv)) ;;;
    match sv_vram sv with
    | Some _ =>
        if se_qxl e then
          if (1024 <=? sv_max_width sv) && (768 <=? sv_max_height sv)
          then on_svga (SetMode 1024 768 32)
          else on_svga (SetMode 800 600 32)
        else ret tt
    | None => ret tt
    end.

Definition start (vbe : list io -> Z) (e : start_env) : M vga bool :=
  if negb (se_super e) then ret false
  else
    modify (set_v_restore_call false) ;;;
    modify (set_v_iolock None) ;;;
    modify (fun v => set_v_intr (v_proc v) false v) ;;;
    on_accel (modify (fun _ => mk_accel false false true false)) ;;;
    let! started := on_svga (svga_Start vbe (se_qxl e) (se_bar0 e)) in
    if negb started then Cleanup ;;; ret false
    else
      start_vram e ;;;
      modify (fun v => set_v_custom (nth 0 modeList (v_custom v)) v) ;;;
      let! vram := gets v_vram in
      let! sv := gets v_svga in
      let vram_bytes := match vram with Some n => n | None => getVRAMSize sv end in
      let ms := active_modes (sv_max_width sv) (sv_max_height sv) vram_bytes 0 modeList in
      let n := Z.of_nat (length ms) in
      modify (set_v_active n ms) ;;;
      if (n <=? 2) && negb (match vram with None => negb (se_virtio e) && (1 <=? n) | Some _ => false end)
      then Cleanup ;;; ret false
      else
        modify (set_v_restore_call (se_call e)) ;;;
        let! ok := on_accel (se_accel e) in
        (if ok then on_accel (set_ac_enabled true) else ret tt) ;;;
        modify (set_v_custom_switch 0) ;;;
        modify (set_v_custom_switched false) ;;;
        modify (set_v_iolock (if se_lock e then Some Unlocked else None)) ;;;
        if negb (se_lock e) then Cleanup ;;; ret false
        else
          modify (fun v => set_v_display (TryDetectCurrentDisplayMode 3 v) 0 v) ;;;
          ret true.

(** [stop]: the number of bytes it clears, when it clears any. [maps]: the
    memory can be mapped. *)
Definition stop (withSubRange : Z -> Z -> Z -> option (Z * Z)) (maps : bool) : M vga (option Z) :=
  let! v := gets (fun v => v) in
  let! cleared :=
    (match v_vram v, GetDisplayMode (v_display_mode v) v, v_iolock v with
     | Some _, Some d, Some _ =>
         lock_io ;;;
         let cleared :=
           match getVRAMRange withSubRange v with
           | Some (_, vramSize) =>
               let clearSize := u32 (u32 (dm_width d * dm_height d) * 4) in
               if (clearSize <=? vramSize) && maps then Some clearSize else None
           | None => None
           end in
         unlock_io ;;; ret cleared
     | _, _, _ => ret None
     end) in
  on_accel cleanup3DAcceleration ;;;
  Cleanup ;;;
  ret cleared.
