(* ===== verification/VgaLife.v ===== *)
(** The life of the QXL and VGA framebuffer ([Vga.v]): an invariant of every
    run after a successful start, what a mode change does to the hardware, and
    the custom-mode exchange from request to restore. *)
From S2P Require Import Prelude Modes Vga.

(** * Runs *)
(** What the window server, clients and the timer do. *)
Inductive vga_op :=
| OpRequest (d : option CustomModeData) (out : bool) (inSize : Z) (outSize : option Z)
| OpResume (flags : Z)
| OpRestore
| OpSetMode (mode depth : Z)
| OpSetAttribute (r : IOReturn) (attribute value : Z)
| OpRegister (ty : Z) (proc : bool)
| OpUnregister (own : bool)
| OpInterrupt (own : bool) (state : Z)
| OpAperture (aperture : Z).

Section run.
Context (withSubRange : Z -> Z -> Z -> option (Z * Z)).
Definition vga_step (op : vga_op) : M vga unit :=
  match op with
  | OpRequest d out n m => custom_request d out n m ;;; ret tt
  | OpResume flags => custom_resume flags ;;; ret tt
  | OpRestore => restore_due
  | OpSetMode m d => setDisplayMode m d ;;; ret tt
  | OpSetAttribute r a x => setAttribute r a x ;;; ret tt
  | OpRegister ty p => registerForInterruptType ty p ;;; ret tt
  | OpUnregister own => unregisterInterrupt own ;;; ret tt
  | OpInterrupt own x => setInterruptState own x ;;; ret tt
  | OpAperture a => getApertureRange withSubRange a ;;; ret tt
  end.
Fixpoint vga_run (ops : list vga_op) : M vga unit :=
  match ops with
  | [] => ret tt
  | op :: ops' => vga_step op ;;; vga_run ops'
  end.
End run.

(** * Sizes *)
Definition same_size (d1 d2 : DisplayModeEntry) : Prop :=
  dm_width d1 = dm_width d2 /\ dm_height d1 = dm_height d2.
#[export] Instance same_size_dec d1 d2 : Decision (same_size d1 d2).
Proof. unfold same_size. apply _. Defined.

Definition listed (id : Z) : DisplayModeEntry := nth (Z.to_nat (id - 1)) modeList (mk_dme 0 0 0).
Definition valid_id (id : Z) : Prop := 1 <= id <= NUM_DISPLAY_MODES.
#[export] Instance valid_id_dec id : Decision (valid_id id).
Proof. unfold valid_id. apply _. Defined.

Lemma GetDisplayMode_valid id v :
  valid_id id -> GetDisplayMode id v = Some (if id =? CUSTOM_MODE_ID then v_custom v else listed id).
Proof.
  intros [H1 H2]. unfold GetDisplayMode, NUM_DISPLAY_MODES in *. destruct (id =? CUSTOM_MODE_ID) eqn:E; [done|].
  destruct (Z.leb_spec 1 id), (Z.leb_spec id 25); try lia. cbn [andb]. unfold listed.
  destruct (nth_lookup_or_length modeList (Z.to_nat (id - 1)) (mk_dme 0 0 0)) as [|Hl]; [done|].
  change (length modeList) with 25%nat in Hl. lia.
Qed.

(** Two table entries after the custom one have the same size only when they
    are the same. *)
Definition table_ids : list Z := [2; 3; 4; 5; 6; 7; 8; 9; 10; 11; 12; 13; 14; 15; 16; 17; 18; 19; 20; 21; 22; 23; 24; 25].
Lemma table_sizes_differ a b :
  a ∈ table_ids -> b ∈ table_ids -> same_size (listed a) (listed b) -> a = b.
Proof.
  assert (H : Forall (fun a => Forall (fun b => same_size (listed a) (listed b) -> a = b) table_ids) table_ids)
    by (vm_compute; repeat constructor; intros []; congruence).
  rewrite Forall_forall in H. intros Ha Hb. specialize (H a Ha). rewrite Forall_forall in H. by apply H.
Qed.

Lemma valid_table id : valid_id id -> id <> CUSTOM_MODE_ID -> id ∈ table_ids.
Proof.
  unfold valid_id, NUM_DISPLAY_MODES, CUSTOM_MODE_ID. intros Hv Hne. unfold table_ids.
  assert (id = 2 \/ id = 3 \/ id = 4 \/ id = 5 \/ id = 6 \/ id = 7 \/ id = 8 \/ id = 9 \/ id = 10 \/ id = 11 \/
    id = 12 \/ id = 13 \/ id = 14 \/ id = 15 \/ id = 16 \/ id = 17 \/ id = 18 \/ id = 19 \/ id = 20 \/ id = 21 \/
    id = 22 \/ id = 23 \/ id = 24 \/ id = 25) by lia.
  repeat match goal with H : _ \/ _ |- _ => destruct H as [->|H] end; subst; set_solver.
Qed.

(** * The invariant *)
(** [ms]: the modes selected at the start. *)
Definition in_range (d : DisplayModeEntry) : Prop :=
  800 <= dm_width d <= VBE_DISPI_MAX_XRES /\ 600 <= dm_height d <= VBE_DISPI_MAX_YRES.
Record vga_ok (ms : list Z) (v : vga) : Prop := mk_vga_ok {
  ok_modes : v_modes v ≡ₚ ms;
  ok_count : v_num_active v = Z.of_nat (length ms);
  ok_valid : Forall valid_id ms;
  ok_nodup : NoDup ms;
  ok_three : (3 <= length ms)%nat;
  ok_display : valid_id (v_display_mode v);
  ok_depth : v_depth_mode v = 0;
  ok_custom : in_range (v_custom v);
  ok_max : sv_max_width (v_svga v) = VBE_DISPI_MAX_XRES /\ sv_max_height (v_svga v) = VBE_DISPI_MAX_YRES;
  ok_step : 0 <= v_custom_switch v <= 2;
  ok_waiting : 0 <= v_waiting v;
  ok_lock : v_iolock v = Some Unlocked
}.

(** What the interrupt, the scheduling and the hardware's mode are is free. *)
Lemma vga_ok_svga ms v s :
  vga_ok ms v -> sv_max_width s = sv_max_width (v_svga v) -> sv_max_height s = sv_max_height (v_svga v) ->
  vga_ok ms (set_v_svga s v).
Proof. intros [] H1 H2. constructor; try done. cbn. by rewrite H1, H2. Qed.
Lemma vga_ok_intr ms v p e n s w :
  vga_ok ms v -> 0 <= w -> vga_ok ms (set_v_waiting w (set_v_scheduled s (set_v_emitted n (set_v_intr p e v)))).
Proof. intros [] Hw. by constructor. Qed.
Lemma vga_ok_display ms v m : vga_ok ms v -> valid_id m -> vga_ok ms (set_v_display m 0 v).
Proof. intros [] Hm. by constructor. Qed.
Lemma vga_ok_step ms v n : vga_ok ms v -> 0 <= n <= 2 -> vga_ok ms (set_v_custom_switch n v).
Proof. intros [] Hn. by constructor. Qed.
Lemma vga_ok_switched ms v b : vga_ok ms v -> vga_ok ms (set_v_custom_switched b v).
Proof. intros []. by constructor. Qed.
Lemma vga_ok_custom ms v d : vga_ok ms v -> in_range d -> vga_ok ms (set_v_custom d v).
Proof. intros [] Hd. by constructor. Qed.
Lemma vga_ok_emit ms v : vga_ok ms v -> vga_ok ms (EmitConnectChangedEvent v).2.
Proof. intros []. unfold EmitConnectChangedEvent. cbn. destruct (_ || _); by constructor. Qed.
Lemma swap_slots_permutation i l : (i < length l)%nat -> swap_slots i l ≡ₚ l.
Proof.
  intros Hi. destruct l as [|x l]; [cbn in Hi; lia|]. unfold swap_slots. destruct i as [|j]; [done|].
  cbn in Hi. change (nth j l 0 :: <[j := x]> l ≡ₚ x :: l). destruct (nth_lookup_or_length l j 0) as [E|]; [|lia].
  rewrite insert_take_drop by lia.
  transitivity (x :: (take j l ++ nth j l 0 :: drop (S j) l)); [|by rewrite (take_drop_middle _ _ _ E)].
  rewrite <- !Permutation_middle. apply perm_swap.
Qed.
Lemma vga_ok_swap ms v i :
  vga_ok ms v -> (i < length (v_modes v))%nat ->
  vga_ok ms (set_v_active (v_num_active v) (swap_slots i (v_modes v)) v).
Proof.
  intros [] Hi. constructor; try done. cbn. rewrite <- ok_modes0. by apply swap_slots_permutation.
Qed.

(** * The search for another size *)
Lemma find_other_spec v d1 n : forall i,
  match find_other n i d1 v with
  | Some j => i <= j < i + Z.of_nat n /\
      exists d, GetDisplayMode (nth (Z.to_nat j) (v_modes v) 0) v = Some d /\ ~ same_size d d1
  | None => forall j, i <= j < i + Z.of_nat n ->
      forall d, GetDisplayMode (nth (Z.to_nat j) (v_modes v) 0) v = Some d -> same_size d d1
  end.
Proof.
  induction n as [|n IH]; intros i; cbn [find_other]; [intros j Hj; lia|].
  specialize (IH (i + 1)).
  destruct (GetDisplayMode (nth (Z.to_nat i) (v_modes v) 0) v) as [d|] eqn:E.
  - destruct (Z.eqb_spec (dm_width d) (dm_width d1)), (Z.eqb_spec (dm_height d) (dm_height d1)); cbn;
      [|split; [lia|]; exists d; split; [done|]; intros []; lia..].
    destruct (find_other n (i + 1) d1 v); [destruct IH; split; [lia|done]|].
    intros j Hj d' Ed. destruct (decide (j = i)) as [->|]; [|apply (IH j); [lia|done]].
    rewrite E in Ed. injection Ed as <-. by split.
  - destruct (find_other n (i + 1) d1 v); [destruct IH; split; [lia|done]|].
    intros j Hj d' Ed. destruct (decide (j = i)) as [->|]; [by rewrite E in Ed|]. apply (IH j); [lia|done].
Qed.

Lemma modes_length ms v : vga_ok ms v -> length (v_modes v) = length ms.
Proof. intros H. by rewrite (ok_modes _ _ H). Qed.
Lemma nth_valid ms v j :
  vga_ok ms v -> 0 <= j < v_num_active v -> valid_id (nth (Z.to_nat j) (v_modes v) 0).
Proof.
  intros H Hj. pose proof (ok_valid _ _ H) as Hv. rewrite <- (ok_modes _ _ H), Forall_forall in Hv. apply Hv.
  destruct (nth_lookup_or_length (v_modes v) (Z.to_nat j) 0) as [E|].
  - by eapply list_elem_of_lookup_2.
  - pose proof (modes_length _ _ H). rewrite (ok_count _ _ H) in Hj. lia.
Qed.

(** There is always one: at least three modes are active, two of them from
    the table. *)
Lemma find_other_found ms v :
  vga_ok ms v -> exists j, find_other (Z.to_nat (v_num_active v)) 0 (v_custom v) v = Some j /\ 0 <= j < v_num_active v.
Proof.
  intros H. pose proof (find_other_spec v (v_custom v) (Z.to_nat (v_num_active v)) 0) as Hf.
  pose proof (ok_count _ _ H) as Hc. pose proof (ok_three _ _ H) as H3.
  destruct (find_other _ _ _ _) as [j|]; [exists j; split; [done|lia]|exfalso].
  assert (Hsame : forall id, id ∈ v_modes v -> id <> CUSTOM_MODE_ID -> same_size (listed id) (v_custom v)).
  { intros id Hin Hne. apply list_elem_of_lookup in Hin as [k Hk]. pose proof (lookup_lt_Some _ _ _ Hk) as Hl.
    rewrite (modes_length _ _ H) in Hl. specialize (Hf (Z.of_nat k) ltac:(lia)). rewrite Nat2Z.id in Hf.
    rewrite (nth_lookup_Some _ _ _ _ Hk) in Hf. apply Hf. rewrite GetDisplayMode_valid.
    - by destruct (Z.eqb_spec id CUSTOM_MODE_ID).
    - pose proof (nth_valid ms v (Z.of_nat k) H ltac:(lia)) as Hv. rewrite Nat2Z.id in Hv.
      by rewrite (nth_lookup_Some _ _ _ _ Hk) in Hv. }
  assert (Hnd : NoDup (v_modes v)) by (rewrite (ok_modes _ _ H); apply (ok_nodup _ _ H)).
  assert (Hlen : (3 <= length (v_modes v))%nat) by (by rewrite (modes_length _ _ H)).
  assert (Hval : Forall valid_id (v_modes v)) by (rewrite (ok_modes _ _ H); apply (ok_valid _ _ H)).
  destruct (v_modes v) as [|a [|b [|c l]]]; cbn in Hlen; try lia. clear Hlen Hf.
  rewrite !NoDup_cons in Hnd. destruct Hnd as (Ha & Hb & _). rewrite !Forall_cons in Hval. destruct Hval as (Va & Vb & Vc & _).
  assert (Heq : forall x y, valid_id x -> valid_id y -> x ∈ a :: b :: c :: l -> y ∈ a :: b :: c :: l ->
    x <> CUSTOM_MODE_ID -> y <> CUSTOM_MODE_ID -> x = y).
  { intros x y Vx Vy Hx Hy Nx Ny. apply table_sizes_differ; [by apply valid_table..|].
    destruct (Hsame x Hx Nx), (Hsame y Hy Ny). split; congruence. }
  assert (a <> b /\ a <> c /\ b <> c) as (? & ? & ?) by set_solver.
  destruct (decide (a = CUSTOM_MODE_ID)).
  - assert (b = c) by (apply Heq; [done|done|set_solver..|congruence|congruence]). done.
  - destruct (decide (b = CUSTOM_MODE_ID)); [assert (a = c)|assert (a = b)]; try done;
      apply Heq; try done; try congruence; set_solver.
Qed.

(** * Each operation keeps the invariant *)
Lemma SetMode_max w h b s :
  let s' := (SetMode w h b s).2 in sv_max_width s' = sv_max_width s /\ sv_max_height s' = sv_max_height s.
Proof. by destruct s. Qed.
Lemma GetDisplayMode_dims ms v id d :
  vga_ok ms v -> GetDisplayMode id v = Some d -> valid_id id.
Proof.
  intros H. unfold GetDisplayMode, valid_id, CUSTOM_MODE_ID, NUM_DISPLAY_MODES.
  destruct (Z.eqb_spec id 1) as [->|]; [lia|]. destruct (Z.leb_spec 1 id), (Z.leb_spec id 25); cbn; [lia|done..].
Qed.
Lemma clamp_range lo hi x : lo <= hi -> lo <= clamp lo hi x <= hi.
Proof. intros. unfold clamp. destruct (Z.ltb_spec x lo), (Z.ltb_spec hi x); lia. Qed.

Lemma setDisplayMode_keeps ms m d : preserves (vga_ok ms) (setDisplayMode m d).
Proof.
  intros v H. unfold setDisplayMode. destruct (negb (d =? 0)); [done|]. unfold bind at 1, gets at 1.
  destruct (GetDisplayMode m v) as [e|] eqn:E; [|done]. pose proof (GetDisplayMode_dims _ _ _ _ H E) as Hm.
  unfold bind at 1, gets at 1. destruct (v_custom_switched v).
  - unfold bind, gets. destruct (_ && _); cbn; apply vga_ok_display; auto using vga_ok_switched.
  - destruct v. destruct H. cbn in *. rewrite ok_lock0. cbn.
    constructor; done.
Qed.
Lemma restore_keeps ms : preserves (vga_ok ms) RestoreAllModes.
Proof.
  intros v H. unfold RestoreAllModes, bind at 1, gets at 1. destruct (negb _); [done|].
  unfold bind at 1, gets at 1. rewrite GetDisplayMode_valid by (unfold valid_id, CUSTOM_MODE_ID, NUM_DISPLAY_MODES; lia).
  rewrite Z.eqb_refl. destruct (find_other_found _ _ H) as (j & E & Hj). unfold bind at 1, gets at 1. rewrite E.
  cbn -[EmitConnectChangedEvent swap_slots]. apply vga_ok_emit, vga_ok_step; [|lia]. apply vga_ok_switched, vga_ok_swap; [done|].
  rewrite (modes_length _ _ H). rewrite (ok_count _ _ H) in Hj. lia.
Qed.
Lemma finish_up_still flags v : (finish_up flags v).2 = v.
Proof. unfold finish_up, bind, gets. by destruct (GetDisplayMode _ v). Qed.

Lemma request_keeps ms d out n m : preserves (vga_ok ms) (custom_request d out n m).
Proof.
  intros v H. unfold custom_request, bind at 1, gets at 1. destruct (negb _); [done|].
  destruct d as [d|]; [|done]. destruct (n <? _); [done|]. destruct (negb out); [done|].
  destruct (match m with Some x => x <? SIZEOF_CustomModeData | None => true end); [done|].
  unfold bind at 1, gets at 1. destruct (GetDisplayMode (v_display_mode v) v) as [e|]; [|done].
  assert (Hf : forall s, (let! r := finish_up (cm_flags d) in ret (Some r)) s = (Some (finish_up (cm_flags d) s).1, s)).
  { intros s. unfold bind, ret. pose proof (finish_up_still (cm_flags d) s). by destruct (finish_up _ s) as [? ?]; cbn in *; subst. }
  destruct (Z.land (cm_flags d) 1 =? 0); [by rewrite Hf|]. unfold bind at 1, gets at 1.
  destruct (_ && _); [by rewrite Hf|]. destruct (ok_max _ _ H) as [Mw Mh]. rewrite Mw, Mh.
  cbn -[EmitConnectChangedEvent clamp VBE_DISPI_MAX_XRES VBE_DISPI_MAX_YRES].
  unfold bind. match goal with |- context [EmitConnectChangedEvent ?x] =>
    assert (Hx : vga_ok ms x); [|pose proof (vga_ok_emit _ _ Hx) as He; destruct (EmitConnectChangedEvent x) as [u y]] end.
  - apply vga_ok_step; [|lia]. apply vga_ok_custom; [done|]. split; apply clamp_range; done.
  - cbn in *. destruct He. constructor; try done. cbn. lia.
Qed.

Lemma step_keeps ms sub op : preserves (vga_ok ms) (vga_step sub op).
Proof.
  assert (Hret : forall A (m : M vga A), preserves (vga_ok ms) m -> preserves (vga_ok ms) (m ;;; ret tt)).
  { intros A m Hm v H. unfold bind. specialize (Hm v H). by destruct (m v). }
  destruct op as [d out n m|flags| |m d|r a x|ty p|own|own x|a]; cbn [vga_step]; try apply Hret.
  - apply request_keeps.
  - intros v H. unfold custom_resume, bind at 1, gets at 1. unfold bind at 1, gets at 1.
    destruct (Z.ltb_spec 0 (v_waiting v)); cbn [andb]; [|done]. destruct (v_custom_switch v =? 2); [|done].
    unfold bind, modify. pose proof finish_up_still as Hf. specialize (Hf flags (set_v_scheduled true (set_v_waiting (v_waiting v - 1) v))).
    destruct (finish_up _ _) as [r v']. cbn in *. subst v'. destruct H. constructor; try done. cbn. lia.
  - intros v H. unfold restore_due, bind, gets, modify. destruct (v_scheduled v); [|done].
    apply restore_keeps. by destruct H.
  - apply setDisplayMode_keeps.
  - intros v H. unfold setAttribute, bind, gets. destruct (_ && _ && _ && _); cbn; [apply vga_ok_step; [done|lia]|done].
  - intros v H. unfold registerForInterruptType. destruct (negb _); [done|]. by destruct H.
  - intros v H. unfold unregisterInterrupt. destruct (negb _); [done|]. by destruct H.
  - intros v H. unfold setInterruptState. destruct (negb _); [done|]. by destruct H.
  - intros v H. unfold getApertureRange. destruct (negb _); [done|]. unfold bind, gets.
    destruct (v_vram v); [|done]. destruct H. cbn. rewrite ok_lock0. cbn. by constructor.
Qed.
Lemma run_keeps ms sub ops : preserves (vga_ok ms) (vga_run sub ops).
Proof.
  induction ops as [|op ops IH]; cbn [vga_run]; [by intros v H|].
  eapply hoare_bind; [apply step_keeps|intros ?]. exact IH.
Qed.

(** * After a start *)
Lemma active_modes_spec w h n l : forall i id,
  id ∈ active_modes w h n i l <->
  exists k d, l !! k = Some d /\ id = i + Z.of_nat k + 1 /\ fits w h n d = true.
Proof.
  induction l as [|d l IH]; intros i id; cbn [active_modes].
  - split; [set_solver|]. intros (k & d & Hk & _). done.
  - rewrite elem_of_app, IH. split.
    + intros [Hd|(k & d' & Hk & -> & Hf)].
      * destruct (fits w h n d) eqn:E; [|set_solver]. apply list_elem_of_singleton in Hd as ->.
        exists 0%nat, d. split_and!; [done|lia|done].
      * exists (S k), d'. split_and!; [done|lia|done].
    + intros ([|k] & d' & Hk & -> & Hf); cbn in Hk.
      * injection Hk as <-. left. rewrite Hf. apply list_elem_of_singleton. lia.
      * right. exists k, d'. split_and!; [done|lia|done].
Qed.
Lemma active_modes_above w h n l i id : id ∈ active_modes w h n i l -> i < id <= i + Z.of_nat (length l).
Proof. rewrite active_modes_spec. intros (k & d & Hk & -> & _). apply lookup_lt_Some in Hk. lia. Qed.
Lemma active_modes_nodup w h n l : forall i, NoDup (active_modes w h n i l).
Proof.
  induction l as [|d l IH]; intros i; cbn [active_modes]; [constructor|].
  destruct (fits w h n d); [|apply IH]. cbn. apply NoDup_cons. split; [|apply IH].
  intros Hin%active_modes_above. lia.
Qed.

Lemma TryDetect_valid v : valid_id (TryDetectCurrentDisplayMode 3 v).
Proof.
  unfold TryDetectCurrentDisplayMode.
  enough (Hl : forall l i t, 1 <= i -> i + Z.of_nat (length l) <= 25 -> 0 <= t <= 25 ->
    valid_id ((fix loop (i : Z) (l : list DisplayModeEntry) (tableDefault : Z) : Z :=
      match l with
      | [] => if tableDefault =? 0 then 3 else tableDefault
      | d :: l' => if (sv_width (v_svga v) =? dm_width d) && (sv_height (v_svga v) =? dm_height d) then i + 1
        else loop (i + 1) l' (if Z.land (dm_flags d) kDisplayModeDefaultFlag =? 0 then tableDefault else i + 1)
      end) i l t)) by (apply Hl; cbn; lia).
  unfold valid_id, NUM_DISPLAY_MODES. induction l as [|d l IH]; intros i t Hi Hn Ht.
  - destruct (Z.eqb_spec t 0); lia.
  - cbn [length] in Hn. destruct (_ && _); [lia|]. apply IH; [lia|lia|]. destruct (_ =? 0); lia.
Qed.

(** The memory the modes are checked against. *)
Definition vram_bytes (v : vga) : Z := match v_vram v with Some n => n | None => getVRAMSize (v_svga v) end.

Lemma svga_Start_spec vbe q bar0 s :
  let '(ok, s') := svga_Start vbe q bar0 s in
  ok = true -> exists len, bar0 = Some len /\ sv_vram s' = Some len /\ sv_max_width s' = VBE_DISPI_MAX_XRES
    /\ sv_max_height s' = VBE_DISPI_MAX_YRES.
Proof.
  unfold svga_Start. destruct bar0 as [len|]; [|cbn; intros [=]]. unfold bind at 1, modify at 1. unfold bind at 1, modify at 1.
  destruct q; cbn; intros _; by exists len.
Qed.

(** What [start] leaves when it succeeds. *)
Definition started (v : vga) : Prop :=
  vga_ok (v_modes v) v /\
  v_modes v = active_modes VBE_DISPI_MAX_XRES VBE_DISPI_MAX_YRES (vram_bytes v) 0 modeList /\
  v_custom_switch v = 0 /\ v_custom_switched v = false /\ v_custom v = listed CUSTOM_MODE_ID.

Lemma SetMode_frame w h b s :
  sv_vram (SetMode w h b s).2 = sv_vram s /\ sv_max_width (SetMode w h b s).2 = sv_max_width s
  /\ sv_max_height (SetMode w h b s).2 = sv_max_height s.
Proof. by destruct s. Qed.
Lemma start_vram_spec e v len :
  sv_vram (v_svga v) = Some len ->
  exists sv, start_vram e v = (tt, set_v_vram (if se_virtio e then None else Some len) (set_v_svga sv v)) /\
    sv_vram sv = Some len /\ sv_max_width sv = sv_max_width (v_svga v) /\ sv_max_height sv = sv_max_height (v_svga v).
Proof.
  intros Hv. unfold start_vram. destruct (se_virtio e); [exists (v_svga v); by destruct v|].
  unfold bind at 1, gets at 1. rewrite Hv. unfold bind at 1, modify at 1.
  assert (Hm : forall w h, on_svga (SetMode w h 32) (set_v_vram (Some len) v) =
    (tt, set_v_vram (Some len) (set_v_svga (SetMode w h 32 (v_svga v)).2 v))) by (intros; by destruct v).
  destruct (se_qxl e); [|exists (v_svga v); by destruct v].
  destruct (_ && _); rewrite Hm; (eexists; split; [reflexivity|]); destruct (SetMode_frame 1024 768 32 (v_svga v)) as (? & ? & ?);
    destruct (SetMode_frame 800 600 32 (v_svga v)) as (? & ? & ?); split_and!; congruence.
Qed.

Lemma start_started vbe e v v' :
  start vbe e v = (true, v') -> 0 <= v_waiting v -> started v'.
Proof.
  unfold start. destruct (negb (se_super e)); [done|]. intros H Hw.
  unfold bind at 1, modify at 1 in H. unfold bind at 1, modify at 1 in H. unfold bind at 1, modify at 1 in H.
  unfold bind at 1, on_accel at 1, modify at 1 in H. unfold bind at 1, on_svga at 1 in H.
  match type of H with context [svga_Start vbe (se_qxl e) (se_bar0 e) ?s] =>
    pose proof (svga_Start_spec vbe (se_qxl e) (se_bar0 e) s) as Hs;
    destruct (svga_Start vbe (se_qxl e) (se_bar0 e) s) as [ok sv] end.
  destruct ok; cbn [negb] in H; [|discriminate (f_equal fst H)].
  destruct (Hs eq_refl) as (len & _ & Hlen & Mw & Mh). clear Hs.
  unfold bind at 1 in H. match type of H with context [start_vram e ?x] =>
    set (v0 := x) in H; pose proof (start_vram_spec e v0 len Hlen) as Hv; destruct Hv as (sv1 & E1 & E2 & E3 & E4); rewrite E1 in H end.
  set (v1 := set_v_vram (if se_virtio e then None else Some len) (set_v_svga sv1 v0)) in H.
  assert (W1 : v_waiting v1 = v_waiting v) by done.
  assert (E5 : v_vram v1 = if se_virtio e then None else Some len) by done.
  unfold bind at 1, modify at 1 in H. unfold bind at 1, gets at 1 in H. unfold bind at 1, gets at 1 in H.
  cbn [v_svga v_vram set_v_custom] in H.
  set (n := match v_vram v1 with Some n => n | None => getVRAMSize (v_svga v1) end) in H.
  assert (Mw1 : sv_max_width (v_svga v1) = VBE_DISPI_MAX_XRES) by (etransitivity; [exact E3|exact Mw]).
  assert (Mh1 : sv_max_height (v_svga v1) = VBE_DISPI_MAX_YRES) by (etransitivity; [exact E4|exact Mh]).
  rewrite Mw1, Mh1 in H.
  set (ms := active_modes VBE_DISPI_MAX_XRES VBE_DISPI_MAX_YRES n 0 modeList) in H.
  unfold bind at 1, modify at 1 in H.
  destruct ((Z.of_nat (length ms) <=? 2) && _) eqn:E; [discriminate (f_equal fst H)|].
  assert (H3 : (3 <= length ms)%nat).
  { rewrite E5 in E. destruct (Z.leb_spec (Z.of_nat (length ms)) 2); [|lia]. by destruct (se_virtio e). }
  unfold bind at 1, modify at 1 in H. unfold bind at 1, on_accel at 1 in H. destruct (se_accel e _) as [acc x].
  assert (Hacc : exists y, (if acc then on_accel (set_ac_enabled true) else ret tt)
    (set_v_accel x (set_v_restore_call (se_call e) (set_v_active (Z.of_nat (length ms)) ms (set_v_custom (nth 0 modeList (v_custom v1)) v1))))
    = (tt, set_v_accel y (set_v_restore_call (se_call e) (set_v_active (Z.of_nat (length ms)) ms (set_v_custom (nth 0 modeList (v_custom v1)) v1))))).
  { destruct acc; by eexists. }
  destruct Hacc as [y Ey]. unfold bind at 1 in H. rewrite Ey in H. clear Ey.
  unfold bind at 1, modify at 1 in H. unfold bind at 1, modify at 1 in H. unfold bind at 1, modify at 1 in H.
  destruct (se_lock e); cbn [negb] in H; [|discriminate (f_equal fst H)].
  unfold bind at 1, modify at 1 in H. injection H as <-.
  split; [|split; [|done]].
  2: { reflexivity. }
  constructor; cbn [v_modes v_num_active v_display_mode v_depth_mode v_custom v_svga v_custom_switch v_waiting v_iolock
    set_v_display set_v_iolock set_v_custom_switched set_v_custom_switch set_v_accel set_v_restore_call set_v_active set_v_custom].
  - done.
  - done.
  - apply Forall_forall. intros id Hin%active_modes_above. unfold valid_id, NUM_DISPLAY_MODES. cbn in Hin. lia.
  - apply active_modes_nodup.
  - exact H3.
  - apply TryDetect_valid.
  - done.
  - by vm_compute.
  - done.
  - lia.
  - lia.
  - done.
Qed.

Lemma listed_valid id :
  valid_id id -> listed id = nth (Z.to_nat (id - 1)) modeList (mk_dme 0 0 0) /\ modeList !! Z.to_nat (id - 1) = Some (listed id).
Proof.
  intros [H1 H2]. split; [done|]. unfold NUM_DISPLAY_MODES in H2. unfold listed.
  destruct (nth_lookup_or_length modeList (Z.to_nat (id - 1)) (mk_dme 0 0 0)) as [|Hl]; [done|].
  change (length modeList) with 25%nat in Hl. lia.
Qed.
Lemma modeList_large d : d ∈ modeList -> 800 <= dm_width d /\ 600 <= dm_height d.
Proof.
  assert (H : Forall (fun d => 800 <= dm_width d /\ 600 <= dm_height d) modeList) by (repeat constructor; cbn; lia).
  rewrite Forall_forall in H. apply H.
Qed.
(** C23: after a successful [start], whatever requests, mode changes,
    interrupts and restores follow in whatever order, the active modes are a
    permutation of those selected at the start, the current mode is valid, the
    custom mode is within the device's limits and the lock is free; every mode
    offered can be described and is within the limits. When [start] found the
    size of the video memory, every mode offered but the custom one fits it; when
    the size is 0 the code does not test it ([start_without_vram]), and nothing is
    claimed. *)
Theorem vga_life sub vbe e v v1 ops :
  0 <= v_waiting v -> start vbe e v = (true, v1) ->
  let v2 := (vga_run sub ops v1).2 in
  vga_ok (v_modes v1) v2 /\
  Z.of_nat (length (getDisplayModes v2)) = getDisplayModeCount v2 /\
  forall id, id ∈ getDisplayModes v2 ->
    exists d, GetDisplayMode id v2 = Some d /\ in_range d /\
      (id <> CUSTOM_MODE_ID -> vram_bytes v1 = 0 \/ dm_bytes d <= vram_bytes v1).
Proof.
  intros Hw Hs v2. destruct (start_started vbe e v v1 Hs Hw) as (Hok & Ems & _).
  pose proof (run_keeps (v_modes v1) sub ops v1 Hok) as H2. fold v2 in H2. split; [done|].
  pose proof (modes_length _ _ H2) as Hl. pose proof (ok_count _ _ H2) as Hc.
  unfold getDisplayModes, getDisplayModeCount. destruct (v_custom_switch v2 =? 0) eqn:Es; cbn [negb].
  2: { split; [done|]. intros id ->%list_elem_of_singleton. rewrite GetDisplayMode_valid by (by vm_compute).
       exists (v_custom v2). split_and!; [done|apply (ok_custom _ _ H2)|done]. }
  rewrite take_ge by lia. split; [lia|]. intros id Hin. rewrite (ok_modes _ _ H2) in Hin.
  pose proof (ok_valid _ _ H2) as Hv. rewrite Forall_forall in Hv. specialize (Hv id Hin).
  rewrite GetDisplayMode_valid by done. destruct (Z.eqb_spec id CUSTOM_MODE_ID) as [->|Hne].
  { exists (v_custom v2). split_and!; [done|apply (ok_custom _ _ H2)|done]. }
  exists (listed id). split; [done|]. rewrite Ems in Hin. apply active_modes_spec in Hin as (k & d & Hk & -> & Hf).
  unfold listed. replace (Z.to_nat (0 + Z.of_nat k + 1 - 1)) with k by lia.
  rewrite (nth_lookup_Some _ _ _ _ Hk). unfold fits in Hf.
  pose proof (modeList_large d ltac:(by eapply list_elem_of_lookup_2)) as [Hlw Hlh].
  destruct (Z.leb_spec (dm_width d) VBE_DISPI_MAX_XRES); [|done].
  destruct (Z.leb_spec (dm_height d) VBE_DISPI_MAX_YRES); [|done]. cbn [andb] in Hf. split.
  - by split.
  - intros _. destruct (Z.eqb_spec (vram_bytes v1) 0); [by left|]. destruct (Z.leb_spec (dm_bytes d) (vram_bytes v1)); [by right|done].
Qed.

(** * Mode changes *)
Definition vbe_writes (w h : Z) : list io :=
  let reg i x := [Out16 VBE_DISPI_IOPORT_INDEX i; Out16 VBE_DISPI_IOPORT_DATA (u16 x)] in
  reg VBE_DISPI_INDEX_ENABLE VBE_DISPI_DISABLED ++ reg VBE_DISPI_INDEX_XRES w ++ reg VBE_DISPI_INDEX_YRES h ++
  reg VBE_DISPI_INDEX_BPP 32 ++ reg VBE_DISPI_INDEX_ENABLE 0x41.
Definition hardware_at (w h : Z) (s s' : svga) : Prop :=
  sv_width s' = w /\ sv_height s' = h /\ sv_bpp s' = 32 /\ sv_io s' = sv_io s ++ vbe_writes w h.
Lemma SetMode_hardware w h s : hardware_at w h s (SetMode w h 32 s).2.
Proof. destruct s. unfold hardware_at. cbn. rewrite <- !app_assoc. by split_and!. Qed.

(** [setDisplayMode] rejects unknown modes and depths and changes nothing
    then; otherwise it records the mode, and writes the size to the VBE
    registers, with the display disabled meanwhile, except after a restore,
    when it only waits for a mode of the custom mode's size. *)
Theorem vga_setDisplayMode_spec m depth v :
  v_iolock v = Some Unlocked ->
  let '(r, v') := setDisplayMode m depth v in
  match GetDisplayMode m v with
  | Some d =>
      if decide (depth = 0) then
        r = kIOReturnSuccess /\ v_display_mode v' = m /\ v_depth_mode v' = 0 /\ v_iolock v' = Some Unlocked /\
        if v_custom_switched v
        then v_svga v' = v_svga v /\ (v_custom_switched v' = true <-> ~ same_size (v_custom v) d)
        else v_custom_switched v' = false /\ hardware_at (dm_width d) (dm_height d) (v_svga v) (v_svga v')
      else r = kIOReturnBadArgument /\ v' = v
  | None => r = kIOReturnBadArgument /\ v' = v
  end.
Proof.
  intros Hl. unfold setDisplayMode. destruct (decide (depth = 0)) as [->|Hd].
  2: { destruct (Z.eqb_spec depth 0); [done|]. cbn. by destruct (GetDisplayMode m v). }
  cbn [Z.eqb negb]. unfold bind at 1, gets at 1. destruct (GetDisplayMode m v) as [d|]; [|done].
  unfold bind at 1, gets at 1. destruct (v_custom_switched v) eqn:Es.
  - unfold bind at 1, gets at 1. unfold same_size.
    destruct (Z.eqb_spec (dm_width (v_custom v)) (dm_width d)), (Z.eqb_spec (dm_height (v_custom v)) (dm_height d));
      cbn; rewrite ?Es; split_and!; try done; naive_solver.
  - pose proof (SetMode_hardware (dm_width d) (dm_height d) (v_svga v)) as Hh.
    unfold bind at 1, lock_io, modify at 1. unfold bind at 1, on_svga. cbn [v_svga set_v_iolock].
    destruct (SetMode (dm_width d) (dm_height d) 32 (v_svga v)) as [u s']. cbn -[hardware_at].
    rewrite Hl. by split_and!.
Qed.

(** * The custom mode *)
(** The request of a client with room for the answer. *)
Definition request (flags w h : Z) : vga_op :=
  OpRequest (Some (mk_cmd flags w h)) true SIZEOF_CustomModeData (Some SIZEOF_CustomModeData).
Definition custom_dims (w h : Z) : DisplayModeEntry :=
  mk_dme (clamp 800 VBE_DISPI_MAX_XRES w) (clamp 600 VBE_DISPI_MAX_YRES h) vs.
(** Nothing is in progress. *)
Definition settled (v : vga) : Prop :=
  v_custom_switch v = 0 /\ v_custom_switched v = false /\ v_waiting v = 0 /\ v_restore_call v = true
  /\ dm_flags (v_custom v) = vs.
Definition shown (v : vga) : option DisplayModeEntry := GetDisplayMode (v_display_mode v) v.

(** The state after a request that goes through. *)
Definition requested (w h : Z) (v : vga) : vga :=
  let v1 := set_v_custom_switch 1 (set_v_custom (custom_dims w h) v) in
  set_v_waiting (v_waiting v + 1) (EmitConnectChangedEvent v1).2.
Lemma request_waits ms sub flags w h v :
  vga_ok ms v -> settled v -> Z.testbit flags 0 = true ->
  (forall d, shown v = Some d -> ~ same_size (custom_dims w h) d) ->
  vga_step sub (request flags w h) v = (tt, requested w h v).
Proof.
  intros H (S0 & S1 & S2 & S3 & S4) Hf Hd. cbn [vga_step request]. unfold custom_request, bind at 1, bind at 1, gets at 1.
  rewrite S3. cbn [negb]. change (SIZEOF_CustomModeData <? SIZEOF_CustomModeData) with false. cbn iota.
  unfold bind at 1, gets at 1. pose proof (GetDisplayMode_valid _ v (ok_display _ _ H)) as Ed. rewrite Ed.
  destruct (ok_max _ _ H) as [Mw Mh]. specialize (Hd _ Ed). cbn [cm_flags cm_width cm_height].
  assert (Ef : (Z.land flags 1 =? 0) = false).
  { apply Z.eqb_neq. intros E. apply (f_equal (fun x => Z.testbit x 0)) in E.
    rewrite Z.land_spec, Hf in E. done. }
  rewrite Ef. unfold bind at 1, gets at 1. rewrite Mw, Mh.
  set (d := if v_display_mode v =? CUSTOM_MODE_ID then v_custom v else listed (v_display_mode v)) in *.
  destruct (Z.eqb_spec (clamp 800 VBE_DISPI_MAX_XRES w) (dm_width d)), (Z.eqb_spec (clamp 600 VBE_DISPI_MAX_YRES h) (dm_height d));
    cbn [andb]; [exfalso; apply Hd; by split|..]; unfold requested, EmitConnectChangedEvent, bind, CustomSwitchStepSet, modify, ret; rewrite S4;
    cbn [v_proc v_intr_enabled set_v_custom_switch set_v_custom v_waiting v_emitted]; by destruct (negb (v_proc v) || negb (v_intr_enabled v)).
Qed.

(** The window server's part: it sets the custom mode and releases the
    display; the thread goes on and the restore runs. *)
Definition accepted (w h : Z) (flags : Z) (r : IOReturn) : list vga_op :=
  [request flags w h; OpSetMode CUSTOM_MODE_ID 0; OpSetAttribute r kIOCapturedAttribute 0; OpResume flags; OpRestore;
   OpSetMode CUSTOM_MODE_ID 0].
Definition slot0_differs (w h : Z) (v : vga) : Prop :=
  exists d, GetDisplayMode (nth 0 (v_modes v) 0) v = Some d /\ ~ same_size d (custom_dims w h).

Lemma requested_ok ms w h v : vga_ok ms v -> settled v -> vga_ok ms (requested w h v).
Proof.
  intros H Hs. unfold requested. pose proof (vga_ok_emit ms (set_v_custom_switch 1 (set_v_custom (custom_dims w h) v))) as He.
  destruct He; [apply vga_ok_step; [apply vga_ok_custom; [done|split; apply clamp_range; done]|lia]|].
  pose proof (ok_waiting _ _ H). constructor; try done. cbn. lia.
Qed.
Lemma requested_view w h v :
  let v' := requested w h v in
  v_svga v' = v_svga v /\ v_custom v' = custom_dims w h /\ v_custom_switch v' = 1 /\
  v_custom_switched v' = v_custom_switched v /\ v_waiting v' = v_waiting v + 1 /\ v_restore_call v' = v_restore_call v.
Proof. unfold requested, EmitConnectChangedEvent, modify. cbn. by destruct (negb (v_proc v) || negb (v_intr_enabled v)). Qed.

(** The custom mode is set in the hardware and released. *)
Lemma set_custom_spec v d :
  v_iolock v = Some Unlocked -> v_custom_switched v = false -> v_custom v = d ->
  exists sv, vga_step (fun _ _ _ => None) (OpSetMode CUSTOM_MODE_ID 0) v = (tt, set_v_display CUSTOM_MODE_ID 0 (set_v_svga sv v))
    /\ hardware_at (dm_width d) (dm_height d) (v_svga v) sv.
Proof.
  intros Hl Hs Hd. exists (SetMode (dm_width d) (dm_height d) 32 (v_svga v)).2. split; [|apply SetMode_hardware].
  cbn [vga_step]. unfold setDisplayMode. cbn [Z.eqb negb]. unfold bind at 1, bind at 1, gets at 1.
  change (GetDisplayMode CUSTOM_MODE_ID v) with (Some (v_custom v)). rewrite Hd. unfold bind at 1, gets at 1. rewrite Hs.
  unfold bind, lock_io, unlock_io, on_svga, modify, ret. cbn [v_svga set_v_iolock].
  destruct (SetMode (dm_width d) (dm_height d) 32 (v_svga v)) as [u s'].
  destruct v. cbn in *. subst. done.
Qed.

Lemma GetDisplayMode_custom id v v' : v_custom v' = v_custom v -> GetDisplayMode id v' = GetDisplayMode id v.
Proof. intros E. unfold GetDisplayMode. by rewrite E. Qed.
Lemma swap_slot0 i l : (i < length l)%nat -> nth 0 (swap_slots i l) 0 = nth i l 0.
Proof.
  intros Hi. destruct l as [|x l]; [cbn in Hi; lia|]. destruct i as [|j]; [done|]. done.
Qed.

(** The restore always finds its slot, so the switch never stays at 2. *)
Lemma restore_spec ms v :
  vga_ok ms v -> v_custom_switch v = 2 ->
  let v' := (RestoreAllModes v).2 in
  v_custom_switch v' = 0 /\ v_custom_switched v' = true /\ v_svga v' = v_svga v /\ v_display_mode v' = v_display_mode v
  /\ v_custom v' = v_custom v /\ v_waiting v' = v_waiting v /\ v_scheduled v' = v_scheduled v /\ v_restore_call v' = v_restore_call v /\
  exists d, GetDisplayMode (nth 0 (v_modes v') 0) v' = Some d /\ ~ same_size d (v_custom v).
Proof.
  intros H Hs. pose proof (find_other_spec v (v_custom v) (Z.to_nat (v_num_active v)) 0) as Hf.
  destruct (find_other_found _ _ H) as (j & E & Hj). rewrite E in Hf. destruct Hf as (_ & d & Ed & Hd).
  assert (Hslot : nth 0 (swap_slots (Z.to_nat j) (v_modes v)) 0 = nth (Z.to_nat j) (v_modes v) 0).
  { apply swap_slot0. rewrite (modes_length _ _ H). rewrite (ok_count _ _ H) in Hj. lia. }
  set (v1 := set_v_custom_switch 0 (set_v_custom_switched true
    (set_v_active (v_num_active v) (swap_slots (Z.to_nat j) (v_modes v)) v))).
  assert (Er : RestoreAllModes v = EmitConnectChangedEvent v1).
  { unfold RestoreAllModes, bind, gets. rewrite Hs. cbn [negb Z.eqb Pos.eqb].
    change (GetDisplayMode CUSTOM_MODE_ID v) with (Some (v_custom v)). cbn iota beta. by rewrite E. }
  cbn zeta. rewrite Er. unfold EmitConnectChangedEvent, modify.
  assert (Hgo : forall v', v' = v1 \/ v' = set_v_emitted (v_emitted v1 + 1) v1 ->
    v_custom_switch v' = 0 /\ v_custom_switched v' = true /\ v_svga v' = v_svga v /\ v_display_mode v' = v_display_mode v
    /\ v_custom v' = v_custom v /\ v_waiting v' = v_waiting v /\ v_scheduled v' = v_scheduled v /\ v_restore_call v' = v_restore_call v /\
    exists d, GetDisplayMode (nth 0 (v_modes v') 0) v' = Some d /\ ~ same_size d (v_custom v)).
  { intros v' Hv'. assert (Em : v_modes v' = swap_slots (Z.to_nat j) (v_modes v)) by (by destruct Hv' as [->| ->]).
    split_and!; try (by destruct Hv' as [->| ->]). exists d. split; [|done]. rewrite Em, Hslot, <- Ed.
    apply GetDisplayMode_custom. by destruct Hv' as [->| ->]. }
  apply Hgo. cbn [snd]. destruct (_ || _); auto.
Qed.

(** The release of the display, and the thread that goes on. *)
Lemma release_spec sub r v :
  v_custom_switch v = 1 -> v_display_mode v = CUSTOM_MODE_ID ->
  vga_step sub (OpSetAttribute r kIOCapturedAttribute 0) v = (tt, set_v_custom_switch 2 v).
Proof. intros Hs Hm. cbn [vga_step]. unfold setAttribute, bind, gets. by rewrite Hs, Hm. Qed.
Lemma resume_spec sub flags v :
  v_custom_switch v = 2 -> v_waiting v = 1 -> v_display_mode v = CUSTOM_MODE_ID ->
  (custom_resume flags v).1 = Some (kIOReturnSuccess, Some (mk_cmd flags (dm_width (v_custom v)) (dm_height (v_custom v)))) /\
  vga_step sub (OpResume flags) v = (tt, set_v_scheduled true (set_v_waiting 0 v)).
Proof.
  intros Hs Hw Hm. destruct v. cbn in *. subst. by split.
Qed.
(** The display is set to the custom mode while only the table has moved. *)
Lemma set_switched_spec sub v :
  v_custom_switched v = true ->
  vga_step sub (OpSetMode CUSTOM_MODE_ID 0) v = (tt, set_v_display CUSTOM_MODE_ID 0 (set_v_custom_switched false v)).
Proof.
  intros Hs. cbn [vga_step]. unfold setDisplayMode, bind, gets. cbn [Z.eqb negb].
  change (GetDisplayMode CUSTOM_MODE_ID v) with (Some (v_custom v)). cbn iota beta. by rewrite Hs, !Z.eqb_refl.
Qed.

(** C25: a request for a custom mode (flag bit 0), made while nothing is in progress, the
    restore thread call exists and the screen shows another size, that the window
    server answers as intended: it sets the mode, releases the display, the thread goes on and the restore
    runs, which leaves the driver switched (mode changes then only wait for the
    custom mode's size); and the window server sets the custom mode once more.
    After this sixth step the hardware has been programmed once, at the requested
    size clamped to the limits, the client was told that size, all states are back
    to rest and a mode of another size is in the first slot. *)
Theorem custom_mode_round ms sub flags w h r v :
  vga_ok ms v -> settled v -> Z.testbit flags 0 = true ->
  (forall d, shown v = Some d -> ~ same_size (custom_dims w h) d) ->
  let v3 := (vga_run sub (take 3 (accepted w h flags r)) v).2 in
  let v5 := (vga_run sub (take 5 (accepted w h flags r)) v).2 in
  let v6 := (vga_run sub (accepted w h flags r) v).2 in
  (custom_resume flags v3).1 = Some (kIOReturnSuccess, Some (mk_cmd flags (dm_width (custom_dims w h)) (dm_height (custom_dims w h)))) /\
  hardware_at (dm_width (custom_dims w h)) (dm_height (custom_dims w h)) (v_svga v) (v_svga v6) /\
  v_custom_switched v5 = true /\ settled v6 /\ v_display_mode v6 = CUSTOM_MODE_ID /\ v_scheduled v6 = false /\
  v_modes v6 ≡ₚ ms /\ slot0_differs w h v6.
Proof.
  intros H Hs Hf Hd v3 v5' v6. destruct (requested_view w h v) as (Q1 & Q2 & Q3 & Q4 & Q5 & Q6).
  pose proof (requested_ok ms w h v H Hs) as Hok1. set (v1 := requested w h v) in *.
  destruct Hs as (S0 & S1 & S2 & S3 & S4).
  destruct (set_custom_spec v1 (custom_dims w h) (ok_lock _ _ Hok1) ltac:(congruence) Q2) as (sv & E2 & Hsv).
  change (vga_step (fun _ _ _ => None) (OpSetMode CUSTOM_MODE_ID 0)) with (vga_step sub (OpSetMode CUSTOM_MODE_ID 0)) in E2.
  set (v2 := set_v_display CUSTOM_MODE_ID 0 (set_v_svga sv v1)) in *.
  pose proof (release_spec sub r v2 Q3 eq_refl) as E3.
  destruct (resume_spec sub flags (set_v_custom_switch 2 v2) eq_refl ltac:(cbn; lia) eq_refl) as [Ea E4].
  set (v4 := set_v_scheduled true (set_v_waiting 0 (set_v_custom_switch 2 v2))) in *.
  assert (Hrun3 : v3 = set_v_custom_switch 2 v2).
  { subst v3. cbn [take accepted vga_run]. unfold bind. rewrite (request_waits ms) by done. fold v1. rewrite E2, E3. done. }
  assert (Hok2 : vga_ok ms v2).
  { pose proof (step_keeps ms sub (OpSetMode CUSTOM_MODE_ID 0) v1 Hok1) as Hk. by rewrite E2 in Hk. }
  assert (Hok4 : vga_ok ms (set_v_scheduled false v4)) by (destruct Hok2; constructor; try done; cbn; lia).
  destruct (restore_spec ms _ Hok4 eq_refl) as (R1 & R2 & R3 & R4 & R5 & R6 & R7 & RC & R8).
  pose proof (restore_keeps ms _ Hok4) as Hok5. set (v5 := (RestoreAllModes (set_v_scheduled false v4)).2) in *.
  assert (E5 : vga_step sub OpRestore v4 = (tt, v5)).
  { cbn [vga_step]. unfold restore_due, bind, gets, modify. subst v5. cbn [v_scheduled v4 set_v_scheduled].
    by destruct (RestoreAllModes _) as [[] ?]. }
  pose proof (set_switched_spec sub v5 R2) as E6.
  assert (Hrun5 : v5' = v5).
  { subst v5'. cbn [take accepted vga_run]. unfold bind. rewrite (request_waits ms) by done. fold v1. by rewrite E2, E3, E4, E5. }
  assert (Hrun6 : v6 = set_v_display CUSTOM_MODE_ID 0 (set_v_custom_switched false v5)).
  { subst v6. cbn [accepted vga_run]. unfold bind. rewrite (request_waits ms) by done. fold v1. by rewrite E2, E3, E4, E5, E6. }
  rewrite Hrun3, Hrun5, Hrun6. split.
  { rewrite Ea. cbn [v_custom v2 set_v_custom_switch set_v_display set_v_svga]. by rewrite Q2. }
  cbn [v_svga v_display_mode v_scheduled v_modes set_v_display set_v_custom_switched].
  assert (Ec : v_custom v5 = custom_dims w h) by (rewrite R5; exact Q2).
  split; [rewrite R3, <- Q1; exact Hsv|]. split; [exact R2|]. split.
  { unfold settled. cbn [v_custom_switch v_custom_switched v_waiting v_restore_call v_custom set_v_display set_v_custom_switched].
    split_and!; [done|done|by rewrite R6| |by rewrite Ec]. rewrite RC. change (v_restore_call v1 = true). by rewrite Q6. }
  split_and!; [done|by rewrite R7|apply (ok_modes _ _ Hok5)|].
  destruct R8 as (d & Ed & Hne). exists d. split; [|by rewrite <- Q2].
  cbn [v_modes set_v_display set_v_custom_switched]. rewrite <- Ed. by apply GetDisplayMode_custom.
Qed.

(** After a restore, mode changes to sizes other than the custom mode's
    succeed and are reported as the current mode, but never reach the hardware,
    however many follow. *)
Theorem switched_screen_frozen ms sub ids v :
  vga_ok ms v -> v_custom_switched v = true ->
  Forall (fun m => exists d, GetDisplayMode m v = Some d /\ ~ same_size (v_custom v) d) ids ->
  let v' := (vga_run sub ((fun m => OpSetMode m 0) <$> ids) v).2 in
  v_svga v' = v_svga v /\ v_custom_switched v' = true /\ v_display_mode v' = default (v_display_mode v) (last ids).
Proof.
  revert v. induction ids as [|m ids IH]; intros v H Hs Hids; [done|].
  apply Forall_cons in Hids as [(d & Ed & Hd) Hids].
  assert (E : vga_step sub (OpSetMode m 0) v = (tt, set_v_display m 0 v)).
  { cbn [vga_step]. unfold setDisplayMode, bind, gets. cbn [Z.eqb negb]. rewrite Ed, Hs.
    unfold same_size in Hd. destruct (Z.eqb_spec (dm_width (v_custom v)) (dm_width d)),
      (Z.eqb_spec (dm_height (v_custom v)) (dm_height d)); cbn; [exfalso; by apply Hd|done..]. }
  cbn [fmap list_fmap vga_run]. unfold bind. rewrite E.
  destruct (IH (set_v_display m 0 v)) as (I1 & I2 & I3).
  - apply vga_ok_display; [done|]. by eapply GetDisplayMode_dims.
  - done.
  - eapply Forall_impl; [exact Hids|]. intros m' (d' & Ed' & Hd'). exists d'. split; [|done]. rewrite <- Ed'.
    by apply GetDisplayMode_custom.
  - split_and!; [exact I1|exact I2|]. etransitivity; [exact I3|]. rewrite last_cons. by destruct (last ids).
Qed.

(** The custom mode is not checked against the video memory: on a device
    with less than 16 MB a request for 2560x1600 goes through to the hardware
    and is the only mode offered. *)
Theorem custom_mode_exceeds_vram ms sub flags v :
  vga_ok ms v -> settled v -> Z.testbit flags 0 = true ->
  (forall d, shown v = Some d -> ~ same_size (mk_dme 2560 1600 vs) d) ->
  vram_bytes v < 2560 * 1600 * 4 ->
  let v' := (vga_run sub [request flags 2560 1600; OpSetMode CUSTOM_MODE_ID 0] v).2 in
  getDisplayModes v' = [CUSTOM_MODE_ID] /\ hardware_at 2560 1600 (v_svga v) (v_svga v') /\
  exists d, GetDisplayMode CUSTOM_MODE_ID v' = Some d /\ vram_bytes v < dm_bytes d.
Proof.
  intros H Hs Hf Hd Hb v'. destruct (requested_view 2560 1600 v) as (Q1 & Q2 & Q3 & Q4 & Q5 & Q6).
  pose proof (requested_ok ms 2560 1600 v H Hs) as Hok1.
  assert (E1 : vga_step sub (request flags 2560 1600) v = (tt, requested 2560 1600 v)) by (by apply (request_waits ms)).
  set (v1 := requested 2560 1600 v) in *. destruct Hs as (S0 & S1 & S2 & S3 & S4).
  destruct (set_custom_spec v1 (custom_dims 2560 1600) (ok_lock _ _ Hok1) ltac:(congruence) Q2) as (sv & E2 & Hsv).
  change (vga_step (fun _ _ _ => None) (OpSetMode CUSTOM_MODE_ID 0)) with (vga_step sub (OpSetMode CUSTOM_MODE_ID 0)) in E2.
  assert (Ev : v' = set_v_display CUSTOM_MODE_ID 0 (set_v_svga sv v1)).
  { subst v'. cbn [vga_run]. unfold bind. by rewrite E1, E2. }
  rewrite Ev. split_and!.
  - unfold getDisplayModes. cbn [v_custom_switch set_v_display set_v_svga]. by rewrite Q3.
  - rewrite <- Q1. exact Hsv.
  - exists (custom_dims 2560 1600). split; [|exact Hb]. rewrite <- Q2. reflexivity.
Qed.

(** ** Stopping *)
(** What [stop] clears lies inside the range it maps. *)
Lemma stop_clears_inside sub maps v n :
  (stop sub maps v).1 = Some n -> exists off len, getVRAMRange sub v = Some (off, len) /\ n <= len.
Proof.
  unfold stop, bind at 1, gets at 1. destruct (v_vram v) as [len|]; [|done].
  destruct (GetDisplayMode (v_display_mode v) v) as [d|]; [|done]. destruct (v_iolock v); [|done].
  unfold bind. cbn -[getVRAMRange u32]. destruct (getVRAMRange sub v) as [[off size]|]; [|done].
  destruct (Z.leb_spec (u32 (u32 (dm_width d * dm_height d) * 4)) size); cbn; [|done].
  destruct maps; [|done]. intros [= <-]. by exists off, size.
Qed.

(** * A machine with 64 MB, and one with 4 MB *)
Definition fresh_svga : svga := mk_svga false None 0 0 0 0 0 0 0 [].
Definition fresh_vga : vga :=
  mk_vga fresh_svga None 0 0 0 [] false false 0 false false 0 0 false (mk_dme 0 0 0) None (mk_accel false false false false).
Definition qxl_env (bar0 : Z) : start_env :=
  mk_start_env true false true (Some bar0) (initTraditionalAcceleration true true true) true true.
Definition qxl (bar0 : Z) : vga := (start (fun _ => 0) (qxl_env bar0) fresh_vga).2.

Lemma qxl_started bar0 : (start (fun _ => 0) (qxl_env bar0) fresh_vga).1 = true -> started (qxl bar0).
Proof.
  intros E. apply (start_started (fun _ => 0) (qxl_env bar0) fresh_vga); [|done].
  unfold qxl. destruct (start _ _ _). cbn in *. by rewrite E.
Qed.
Example qxl_64M_modes : v_modes (qxl 0x4000000) =
  [1; 2; 3; 4; 5; 6; 7; 8; 9; 10; 11; 12; 13; 14; 15; 16; 17; 18; 19; 20; 21; 22; 24; 25].
Proof. vm_compute. reflexivity. Qed.

(** A BAR of length 0: [start] succeeds, and offers modes no memory can show. *)
Example start_without_vram :
  let '(ok, v) := start (fun _ => 0) (qxl_env 0) fresh_vga in
  ok = true /\ vram_bytes v = 0 /\ length (getDisplayModes v) = 24%nat.
Proof. vm_compute. by split_and!. Qed.
Lemma vga_life_witness :
  Z.of_nat (length (getDisplayModes (vga_run (fun _ _ _ => None) [OpSetMode 3 0] (qxl 0x4000000)).2)) = 24.
Proof.
  assert (E : start (fun _ => 0) (qxl_env 0x4000000) fresh_vga = (true, qxl 0x4000000)).
  { unfold qxl. assert (E : (start (fun _ => 0) (qxl_env 0x4000000) fresh_vga).1 = true) by (vm_compute; reflexivity).
    destruct (start _ _ _). cbn in *. by rewrite E. }
  destruct (vga_life (fun _ _ _ => None) (fun _ => 0) (qxl_env 0x4000000) fresh_vga (qxl 0x4000000) [OpSetMode 3 0]
    ltac:(cbn; lia) E) as (_ & H & _).
  rewrite H. vm_compute. reflexivity.
Defined.
Lemma vga_setDisplayMode_spec_witness : v_display_mode (setDisplayMode 5 0 (qxl 0x4000000)).2 = 5.
Proof.
  pose proof (vga_setDisplayMode_spec 5 0 (qxl 0x4000000) ltac:(vm_compute; reflexivity)) as H.
  destruct (setDisplayMode 5 0 (qxl 0x4000000)) as [r v']. 
  assert (E : GetDisplayMode 5 (qxl 0x4000000) = Some (mk_dme 1152 864 vs)) by (vm_compute; reflexivity).
  rewrite E in H. destruct (decide (0 = 0)) as [_|Hn]; [|exfalso; apply Hn; reflexivity]. destruct H as (_ & H & _). exact H.
Defined.
Lemma custom_mode_round_witness :
  v_display_mode (vga_run (fun _ _ _ => None) (accepted 1366 768 1 kIOReturnSuccess) (qxl 0x4000000)).2 = 1.
Proof.
  destruct (qxl_started 0x4000000 ltac:(vm_compute; reflexivity)) as [Hok _].
  destruct (custom_mode_round (v_modes (qxl 0x4000000)) (fun _ _ _ => None) 1 1366 768 kIOReturnSuccess (qxl 0x4000000) Hok)
    as (_ & _ & _ & _ & H & _).
  - unfold settled. split_and!; vm_compute; reflexivity.
  - reflexivity.
  - assert (E : shown (qxl 0x4000000) = Some (mk_dme 1024 768 vsd)) by (vm_compute; reflexivity).
    intros d Hd. rewrite E in Hd. injection Hd as <-. intros [Hw _]. vm_compute in Hw. discriminate Hw.
  - exact H.
Defined.
Lemma custom_mode_exceeds_vram_witness :
  getDisplayModes (vga_run (fun _ _ _ => None) [request 1 2560 1600; OpSetMode CUSTOM_MODE_ID 0] (qxl 0x400000)).2 = [1]
  /\ vram_bytes (qxl 0x400000) = 0x400000.
Proof.
  destruct (qxl_started 0x400000 ltac:(vm_compute; reflexivity)) as [Hok _].
  split; [|vm_compute; reflexivity].
  apply (custom_mode_exceeds_vram (v_modes (qxl 0x400000)) (fun _ _ _ => None) 1 (qxl 0x400000) Hok).
  - unfold settled. split_and!; vm_compute; reflexivity.
  - reflexivity.
  - assert (E : shown (qxl 0x400000) = Some (mk_dme 1024 768 vsd)) by (vm_compute; reflexivity).
    intros d Hd. rewrite E in Hd. injection Hd as <-. intros [Hw _]. vm_compute in Hw. discriminate Hw.
  - assert (E : vram_bytes (qxl 0x400000) = 0x400000) by (vm_compute; reflexivity). rewrite E. lia.
Defined.
Lemma switched_screen_frozen_witness :
  let v := (vga_run (fun _ _ _ => None) (take 5 (accepted 1366 768 1 kIOReturnSuccess)) (qxl 0x4000000)).2 in
  v_display_mode (vga_run (fun _ _ _ => None) [OpSetMode 3 0] v).2 = 3 /\ sv_width (v_svga v) = 1366.
Proof.
  intros v. split; [|vm_compute; reflexivity].
  destruct (qxl_started 0x4000000 ltac:(vm_compute; reflexivity)) as [Hok _].
  destruct (switched_screen_frozen (v_modes (qxl 0x4000000)) (fun _ _ _ => None) [3] v) as (_ & _ & H).
  - apply run_keeps, Hok.
  - vm_compute. reflexivity.
  - apply Forall_singleton. exists (mk_dme 1024 768 vsd). split; [vm_compute; reflexivity|].
    intros [Hw _]. vm_compute in Hw. discriminate Hw.
  - exact H.
Defined.
