(* ===== verification/Accel.v ===== *)
(** The 3D accelerator: [VMQemuVGAAccelerator] of
    FB/VMQemuVGAAccelerator.cpp, the service user space opens for 3D. It keeps
    a pool of contexts and a pool of surfaces, each an array of pointers that
    doubles when full; a context lists the surfaces made in it; a surface has a
    host resource and a buffer.

    The heap objects behind the pool's pointers are values here, and a pointer
    to one is the index of its slot: an object is entered in its pool once, and
    freed when it leaves it. An array's capacity is the length of its list; a
    null array is the empty list.

    The managers for shaders, textures and command buffers are left out (of the
    texture manager, whether it exists), and so are render passes, draw calls
    and clears, which fill buffers no command carries to the device. A call
    through the null [m_gpu_device] is a kernel panic: it sets [a_panic], and
    what the method then returns is never seen. *)
From S2P Require Import Prelude Wire Transport Driver Resources Display Accounts.

(** * Data *)
(** [VM3DSurfaceInfo] *)
Record surface_info := mk_info {
  si_surface_id : Z; si_width : Z; si_height : Z; si_depth : Z; si_format : Z;
  si_face_type : Z; si_mip_levels : Z; si_multisample_count : Z; si_autogen_filter : Z; si_flags : Z
}.
Definition set_surface_id (id : Z) (i : surface_info) : surface_info :=
  mk_info id (si_width i) (si_height i) (si_depth i) (si_format i) (si_face_type i)
    (si_mip_levels i) (si_multisample_count i) (si_autogen_filter i) (si_flags i).
Definition VM3D_FORMAT_R5G6B5 : Z := 23.

(** [AccelContext]: of [bound_surface_ids] the first [bound_surface_count]
    entries, which the code has written; the array is null when its capacity
    is 0. *)
Record accel_context := mk_context {
  ac_context_id : Z;
  ac_gpu_context_id : Z;
  ac_active : bool;
  ac_command_buffer : option Z;
  ac_owning_task : Z;
  ac_bound_surface_ids : list Z;
  ac_bound_surface_capacity : Z
}.
Definition set_bound (ids : list Z) (cap : Z) (c : accel_context) : accel_context :=
  mk_context (ac_context_id c) (ac_gpu_context_id c) (ac_active c) (ac_command_buffer c)
    (ac_owning_task c) ids cap.
Definition bound_surface_count (c : accel_context) : Z := Z.of_nat (length (ac_bound_surface_ids c)).

(** [AccelSurface] *)
Record accel_surface := mk_surface {
  as_surface_id : Z;
  as_gpu_resource_id : Z;
  as_info : surface_info;
  as_backing_memory : option mdesc;
  as_is_render_target : bool;
  as_in_use : bool
}.
Definition set_render_target (v : bool) (s : accel_surface) : accel_surface :=
  mk_surface (as_surface_id s) (as_gpu_resource_id s) (as_info s) (as_backing_memory s) v (as_in_use s).

Definition SIZEOF_CONTEXT : Z := 48.
Definition SIZEOF_SURFACE : Z := 64.
Definition SIZEOF_PTR : Z := 8.
Definition kInitialContextCapacity : Z := 16.
Definition kInitialSurfaceCapacity : Z := 64.

(** An array of pointers and the number of objects in it. *)
Record pool (A : Type) := mk_pool { p_slots : list (option A); p_count : Z }.
Arguments mk_pool {A}.
Arguments p_slots {A}.
Arguments p_count {A}.

Section slots.
Context {A : Type} (key : A -> Z).
Definition slot_has (id : Z) (s : option A) : bool :=
  match s with Some x => key x =? id | None => false end.
Definition slot_free (s : option A) : bool := match s with Some _ => false | None => true end.
(** The first slot with the id, and the object in it. *)
Definition find_slot (id : Z) (p : pool A) : option (nat * A) :=
  match index_of (slot_has id) (p_slots p) with
  | Some i => match p_slots p !! i with Some (Some x) => Some (i, x) | _ => None end
  | None => None
  end.
Definition put_slot (i : nat) (x : A) (p : pool A) : pool A :=
  mk_pool (<[i := Some x]> (p_slots p)) (p_count p).
Definition fill_slot (i : nat) (x : A) (p : pool A) : pool A :=
  mk_pool (<[i := Some x]> (p_slots p)) (u32 (p_count p + 1)).
Definition empty_slot (i : nat) (p : pool A) : pool A :=
  mk_pool (<[i := None]> (p_slots p)) (if 0 <? p_count p then p_count p - 1 else p_count p).
Definition capacity (p : pool A) : Z := Z.of_nat (length (p_slots p)).
Definition grown_capacity (initial : Z) (p : pool A) : Z :=
  if capacity p =? 0 then initial else u32 (capacity p * 2).
Definition grow_slots (initial : Z) (p : pool A) : pool A :=
  mk_pool (p_slots p ++ replicate (Z.to_nat (grown_capacity initial p - capacity p)) None) (p_count p).
Definition objects (p : pool A) : list A := omap id (p_slots p).
End slots.

(** * The accelerator
    [m_lock] is [None] when it is null; [a_gc_generation] is the C static of
    [garbageCollectTextures]. *)
Record accel := mk_accel {
  a_framebuffer : bool;
  a_gpu_device : bool;
  a_texture_manager : bool;
  a_lock : option lock_state;
  a_contexts : pool accel_context;
  a_surfaces : pool accel_surface;
  a_next_context_id : Z;
  a_next_surface_id : Z;
  a_draw_calls : Z;
  a_triangles_rendered : Z;
  a_memory_used : Z;
  a_commands_submitted : Z;
  a_memory_allocated : Z;
  a_gc_generation : Z;
  a_panic : bool
}.

Definition set_a_framebuffer (v : bool) (a : accel) : accel :=
  mk_accel v (a_gpu_device a) (a_texture_manager a) (a_lock a) (a_contexts a) (a_surfaces a) (a_next_context_id a) (a_next_surface_id a) (a_draw_calls a) (a_triangles_rendered a) (a_memory_used a) (a_commands_submitted a) (a_memory_allocated a) (a_gc_generation a) (a_panic a).
Definition set_a_gpu_device (v : bool) (a : accel) : accel :=
  mk_accel (a_framebuffer a) v (a_texture_manager a) (a_lock a) (a_contexts a) (a_surfaces a) (a_next_context_id a) (a_next_surface_id a) (a_draw_calls a) (a_triangles_rendered a) (a_memory_used a) (a_commands_submitted a) (a_memory_allocated a) (a_gc_generation a) (a_panic a).
Definition set_a_texture_manager (v : bool) (a : accel) : accel :=
  mk_accel (a_framebuffer a) (a_gpu_device a) v (a_lock a) (a_contexts a) (a_surfaces a) (a_next_context_id a) (a_next_surface_id a) (a_draw_calls a) (a_triangles_rendered a) (a_memory_used a) (a_commands_submitted a) (a_memory_allocated a) (a_gc_generation a) (a_panic a).
Definition set_a_lock (v : option lock_state) (a : accel) : accel :=
  mk_accel (a_framebuffer a) (a_gpu_device a) (a_texture_manager a) v (a_contexts a) (a_surfaces a) (a_next_context_id a) (a_next_surface_id a) (a_draw_calls a) (a_triangles_rendered a) (a_memory_used a) (a_commands_submitted a) (a_memory_allocated a) (a_gc_generation a) (a_panic a).
Definition set_a_contexts (v : pool accel_context) (a : accel) : accel :=
  mk_accel (a_framebuffer a) (a_gpu_device a) (a_texture_manager a) (a_lock a) v (a_surfaces a) (a_next_context_id a) (a_next_surface_id a) (a_draw_calls a) (a_triangles_rendered a) (a_memory_used a) (a_commands_submitted a) (a_memory_allocated a) (a_gc_generation a) (a_panic a).
Definition set_a_surfaces (v : pool accel_surface) (a : accel) : accel :=
  mk_accel (a_framebuffer a) (a_gpu_device a) (a_texture_manager a) (a_lock a) (a_contexts a) v (a_next_context_id a) (a_next_surface_id a) (a_draw_calls a) (a_triangles_rendered a) (a_memory_used a) (a_commands_submitted a) (a_memory_allocated a) (a_gc_generation a) (a_panic a).
Definition set_a_next_context_id (v : Z) (a : accel) : accel :=
  mk_accel (a_framebuffer a) (a_gpu_device a) (a_texture_manager a) (a_lock a) (a_contexts a) (a_surfaces a) v (a_next_surface_id a) (a_draw_calls a) (a_triangles_rendered a) (a_memory_used a) (a_commands_submitted a) (a_memory_allocated a) (a_gc_generation a) (a_panic a).
Definition set_a_next_surface_id (v : Z) (a : accel) : accel :=
  mk_accel (a_framebuffer a) (a_gpu_device a) (a_texture_manager a) (a_lock a) (a_contexts a) (a_surfaces a) (a_next_context_id a) v (a_draw_calls a) (a_triangles_rendered a) (a_memory_used a) (a_commands_submitted a) (a_memory_allocated a) (a_gc_generation a) (a_panic a).
Definition set_a_draw_calls (v : Z) (a : accel) : accel :=
  mk_accel (a_framebuffer a) (a_gpu_device a) (a_texture_manager a) (a_lock a) (a_contexts a) (a_surfaces a) (a_next_context_id a) (a_next_surface_id a) v (a_triangles_rendered a) (a_memory_used a) (a_commands_submitted a) (a_memory_allocated a) (a_gc_generation a) (a_panic a).
Definition set_a_triangles_rendered (v : Z) (a : accel) : accel :=
  mk_accel (a_framebuffer a) (a_gpu_device a) (a_texture_manager a) (a_lock a) (a_contexts a) (a_surfaces a) (a_next_context_id a) (a_next_surface_id a) (a_draw_calls a) v (a_memory_used a) (a_commands_submitted a) (a_memory_allocated a) (a_gc_generation a) (a_panic a).
Definition set_a_memory_used (v : Z) (a : accel) : accel :=
  mk_accel (a_framebuffer a) (a_gpu_device a) (a_texture_manager a) (a_lock a) (a_contexts a) (a_surfaces a) (a_next_context_id a) (a_next_surface_id a) (a_draw_calls a) (a_triangles_rendered a) v (a_commands_submitted a) (a_memory_allocated a) (a_gc_generation a) (a_panic a).
Definition set_a_commands_submitted (v : Z) (a : accel) : accel :=
  mk_accel (a_framebuffer a) (a_gpu_device a) (a_texture_manager a) (a_lock a) (a_contexts a) (a_surfaces a) (a_next_context_id a) (a_next_surface_id a) (a_draw_calls a) (a_triangles_rendered a) (a_memory_used a) v (a_memory_allocated a) (a_gc_generation a) (a_panic a).
Definition set_a_memory_allocated (v : Z) (a : accel) : accel :=
  mk_accel (a_framebuffer a) (a_gpu_device a) (a_texture_manager a) (a_lock a) (a_contexts a) (a_surfaces a) (a_next_context_id a) (a_next_surface_id a) (a_draw_calls a) (a_triangles_rendered a) (a_memory_used a) (a_commands_submitted a) v (a_gc_generation a) (a_panic a).
Definition set_a_gc_generation (v : Z) (a : accel) : accel :=
  mk_accel (a_framebuffer a) (a_gpu_device a) (a_texture_manager a) (a_lock a) (a_contexts a) (a_surfaces a) (a_next_context_id a) (a_next_surface_id a) (a_draw_calls a) (a_triangles_rendered a) (a_memory_used a) (a_commands_submitted a) (a_memory_allocated a) v (a_panic a).
Definition set_a_panic (v : bool) (a : accel) : accel :=
  mk_accel (a_framebuffer a) (a_gpu_device a) (a_texture_manager a) (a_lock a) (a_contexts a) (a_surfaces a) (a_next_context_id a) (a_next_surface_id a) (a_draw_calls a) (a_triangles_rendered a) (a_memory_used a) (a_commands_submitted a) (a_memory_allocated a) (a_gc_generation a) v.

(** A [bcopy] into video memory: offsets from the two mappings' addresses. *)
Record copy := mk_copy { cp_dst : Z; cp_src : Z; cp_len : Z }.

(** The accelerator in its kernel, and what it has copied to video memory. *)
Record aworld (T : Type) := mk_aworld { aw_acc : accel; aw_world : world T; aw_vram : list copy }.
Arguments mk_aworld {T}.
Arguments aw_acc {T}.
Arguments aw_world {T}.
Arguments aw_vram {T}.

(** [calculateSurfaceSize] *)
Definition calculateSurfaceSize (info : surface_info) : Z :=
  let bpp := if si_format info =? VM3D_FORMAT_R5G6B5 then 2 else 4 in
  u32 (u32 (si_width info * si_height info) * bpp).

(** What the screen and the kernel answer [present3DSurface]: the range of
    [getVRAMRange], whether it and the surface's buffer map, the width and
    height of the [QemuVGADevice] behind a [VMQemuVGA] framebuffer, and, for
    the command buffer, the uninitialised bytes of the command on the stack,
    the rest of the fresh buffer and how it maps. *)
Record screen_env := mk_screen_env {
  se_vram : option mdesc;
  se_vram_maps : bool;
  se_vram_address : bool;
  se_surface_maps : bool;
  se_qemu : option (Z * Z);
  se_stack : Z * Z;
  se_cmd_rest : list Z;
  se_cmd_maps : bool * bool
}.

(** Where and how a surface is copied into video memory of [vram_len] bytes;
    [None]: it does not fit. *)
Definition vram_offset (qemu : option (Z * Z)) (info : surface_info) : Z :=
  match qemu with
  | Some (current_width, current_height) =>
      if (si_width info <? current_width) || (si_height info <? current_height) then
        let x_offset := u32 (current_width - si_width info) / 2 in
        let y_offset := u32 (current_height - si_height info) / 2 in
        u32 (u32 (u32 (y_offset * current_width) + x_offset) * 4)
      else 0
  | None => 0
  end.
Definition copy_plan (qemu : option (Z * Z)) (vram_len : Z) (info : surface_info) : option (list copy) :=
  let surface_size := calculateSurfaceSize info in
  let vram_size := u32 vram_len in
  let offset := vram_offset qemu info in
  if u32 (offset + surface_size) <=? vram_size then
    let bytes_per_row := u32 (si_width info * 4) in
    let vram_stride := match qemu with Some (cw, _) => u32 (cw * 4) | None => bytes_per_row end in
    if (bytes_per_row =? vram_stride) || (match qemu with None => true | _ => false end)
    then Some [mk_copy offset 0 surface_size]
    else Some ((fun row => mk_copy (offset + Z.of_nat row * vram_stride) (Z.of_nat row * bytes_per_row) bytes_per_row)
                 <$> seq 0 (Z.to_nat (si_height info)))
  else None.

(** The 128 bytes of the command [present3DSurface] builds: a header of which
    the code writes the first four fields (the ring index and padding are the
    stack's), the resource, the scanout and the rectangle, in this order. *)
Definition present_cmd (e : screen_env) (ctx res width height : Z) : list Z :=
  le_bytes 4 VIRTIO_GPU_CMD_SET_SCANOUT ++ le_bytes 4 0 ++ le_bytes 8 0 ++ le_bytes 4 ctx
  ++ le_bytes 1 (se_stack e).1 ++ le_bytes 3 (se_stack e).2
  ++ le_bytes 4 res ++ le_bytes 4 0
  ++ le_bytes 4 0 ++ le_bytes 4 0 ++ le_bytes 4 width ++ le_bytes 4 height
  ++ take 80 (se_cmd_rest e ++ replicate 80 0).

Section accel.
Context {T : Type} `{Transport T}.
Abbreviation S := (aworld T).

Definition get_acc {A} (f : accel -> A) : M S A := gets (fun w => f (aw_acc w)).
Definition upd_acc (f : accel -> accel) : M S unit :=
  modify (fun w => mk_aworld (f (aw_acc w)) (aw_world w) (aw_vram w)).
(** A service of the kernel, and a method of the device object. *)
Definition kernel {A} (m : M (world T) A) : M S A :=
  fun w => let '(a, k) := m (aw_world w) in (a, mk_aworld (aw_acc w) k (aw_vram w)).
Definition on_gpu {A} (dflt : A) (m : M (world T) A) : M S A :=
  let! present := get_acc a_gpu_device in
  if present then kernel m else upd_acc (set_a_panic true) ;;; ret dflt.
Definition bcopy_all (cs : list copy) : M S unit :=
  modify (fun w => mk_aworld (aw_acc w) (aw_world w) (aw_vram w ++ cs)).

Definition lock : M S unit := upd_acc (fun a => set_a_lock (lock_acquire <$> a_lock a) a).
Definition unlock : M S unit := upd_acc (fun a => set_a_lock (lock_release <$> a_lock a) a).

(** ** The pools *)
Definition pool_grow {A} (initial : Z) (get : accel -> pool A) (set : pool A -> accel -> accel) : M S bool :=
  let! p := get_acc get in
  let! block := kernel (IOMalloc (grown_capacity initial p * SIZEOF_PTR)) in
  match block with
  | None => ret false
  | Some _ =>
      kernel (IOFree (capacity p * SIZEOF_PTR)) ;;;
      upd_acc (set (grow_slots initial p)) ;;;
      ret true
  end.
Definition pool_add {A} (initial : Z) (get : accel -> pool A) (set : pool A -> accel -> accel) (x : A)
  : M S bool :=
  let! p := get_acc get in
  match index_of slot_free (p_slots p) with
  | Some i => upd_acc (fun a => set (fill_slot i x (get a)) a) ;;; ret true
  | None =>
      let! grown := pool_grow initial get set in
      if negb grown then ret false
      else upd_acc (fun a => set (fill_slot (Z.to_nat (p_count (get a))) x (get a)) a) ;;; ret true
  end.
Definition poolGrowContext : M S bool := pool_grow kInitialContextCapacity a_contexts set_a_contexts.
Definition poolGrowSurface : M S bool := pool_grow kInitialSurfaceCapacity a_surfaces set_a_surfaces.
Definition poolAddContext (c : accel_context) : M S bool :=
  pool_add kInitialContextCapacity a_contexts set_a_contexts c.
Definition poolAddSurface (s : accel_surface) : M S bool :=
  pool_add kInitialSurfaceCapacity a_surfaces set_a_surfaces s.
Definition poolRemoveContext (i : nat) : M S unit :=
  upd_acc (fun a => set_a_contexts (empty_slot i (a_contexts a)) a).
Definition poolRemoveSurface (i : nat) : M S unit :=
  upd_acc (fun a => set_a_surfaces (empty_slot i (a_surfaces a)) a).
Definition findContext (context_id : Z) : M S (option (nat * accel_context)) :=
  get_acc (fun a => find_slot ac_context_id context_id (a_contexts a)).
Definition findSurface (surface_id : Z) : M S (option (nat * accel_surface)) :=
  get_acc (fun a => find_slot as_surface_id surface_id (a_surfaces a)).

(** ** The surfaces of a context, a pointer to which is [i] *)
Definition context_at (i : nat) : M S (option accel_context) :=
  get_acc (fun a => match p_slots (a_contexts a) !! i with Some c => c | None => None end).
Definition put_context (i : nat) (c : accel_context) : M S unit :=
  upd_acc (fun a => set_a_contexts (put_slot i c (a_contexts a)) a).
Definition put_surface (i : nat) (s : accel_surface) : M S unit :=
  upd_acc (fun a => set_a_surfaces (put_slot i s (a_surfaces a)) a).

Definition contextHasSurface (c : accel_context) (surface_id : Z) : bool :=
  existsb (Z.eqb surface_id) (ac_bound_surface_ids c).

Definition contextBindSurface (i : nat) (surface_id : Z) : M S bool :=
  let! ctx := context_at i in
  match ctx with
  | None => ret false
  | Some c =>
      if existsb (Z.eqb surface_id) (ac_bound_surface_ids c) then ret true
      else
        let! room :=
          (if bound_surface_count c =? ac_bound_surface_capacity c then
             let new_cap := if ac_bound_surface_capacity c =? 0 then 8
                            else u32 (ac_bound_surface_capacity c * 2) in
             let! new_arr := kernel (IOMalloc (new_cap * 4)) in
             match new_arr with
             | None => ret None
             | Some _ =>
                 (if ac_bound_surface_capacity c =? 0 then ret tt
                  else kernel (IOFree (ac_bound_surface_capacity c * 4))) ;;;
                 ret (Some new_cap)
             end
           else ret (Some (ac_bound_surface_capacity c))) in
        match room with
        | None => ret false
        | Some cap => put_context i (set_bound (ac_bound_surface_ids c ++ [surface_id]) cap c) ;;; ret true
        end
  end.

(** The last entry takes the place of the one removed. *)
Definition unbind (surface_id : Z) (ids : list Z) : list Z :=
  match index_of (Z.eqb surface_id) ids with
  | None => ids
  | Some k => take (length ids - 1) (<[k := nth (length ids - 1) ids 0]> ids)
  end.
Definition contextUnbindSurface (i : nat) (surface_id : Z) : M S unit :=
  let! ctx := context_at i in
  match ctx with
  | None => ret tt
  | Some c => put_context i (set_bound (unbind surface_id (ac_bound_surface_ids c))
                               (ac_bound_surface_capacity c) c)
  end.

(** ** Contexts: the status and the id written through the pointer *)
Definition create3DContext (context_id : bool) (task : Z) : M S (IOReturn * option Z) :=
  if negb context_id then ret (kIOReturnBadArgument, None)
  else
    lock ;;;
    let! g := on_gpu (kIOReturnError, 0) createRenderContext in
    if negb (is_success g.1) then unlock ;;; ret (g.1, None)
    else
      let! context := kernel (IOMalloc SIZEOF_CONTEXT) in
      match context with
      | None =>
          on_gpu kIOReturnError (destroyRenderContext g.2) ;;;
          unlock ;;; ret (kIOReturnNoMemory, None)
      | Some _ =>
          upd_acc (fun a => set_a_next_context_id (u32 (a_next_context_id a + 1)) a) ;;;
          let! id := get_acc a_next_context_id in
          let! added := poolAddContext (mk_context id g.2 true None task [] 0) in
          if negb added then
            kernel (IOFree SIZEOF_CONTEXT) ;;;
            on_gpu kIOReturnError (destroyRenderContext g.2) ;;;
            unlock ;;; ret (kIOReturnNoMemory, None)
          else
            unlock ;;; ret (kIOReturnSuccess, Some id)
      end.

Definition destroyContextInternal (context_id : Z) : M S IOReturn :=
  let! found := findContext context_id in
  match found with
  | None => ret kIOReturnNotFound
  | Some (i, c) =>
      let! gpu := get_acc a_gpu_device in
      (if gpu then kernel (destroyRenderContext (ac_gpu_context_id c)) ;;; ret tt else ret tt) ;;;
      (if ac_bound_surface_capacity c =? 0 then ret tt
       else kernel (IOFree (ac_bound_surface_capacity c * 4))) ;;;
      (match ac_command_buffer c with Some d => kernel (release d) | None => ret tt end) ;;;
      poolRemoveContext i ;;;
      kernel (IOFree SIZEOF_CONTEXT) ;;;
      ret kIOReturnSuccess
  end.
Definition destroy3DContext (context_id : Z) : M S IOReturn :=
  lock ;;; let! r := destroyContextInternal context_id in unlock ;;; ret r.

(** ** Surfaces *)
(** [allocateSurfaceMemory] *)
Definition allocateSurfaceMemory (info : surface_info) : M S (IOReturn * option mdesc) :=
  let! memory := kernel (new_descriptor (calculateSurfaceSize info)) in
  ret (match memory with Some _ => kIOReturnSuccess | None => kIOReturnNoMemory end, memory).

Definition next_surface : M S Z :=
  upd_acc (fun a => set_a_next_surface_id (u32 (a_next_surface_id a + 1)) a) ;;;
  get_acc a_next_surface_id.

Definition create3DSurface (context_id : Z) (surface_info : option surface_info) : M S IOReturn :=
  match surface_info with
  | None => ret kIOReturnBadArgument
  | Some info =>
      lock ;;;
      let! context := findContext context_id in
      match context with
      | None => unlock ;;; ret kIOReturnNotFound
      | Some (ci, _) =>
          let! g := on_gpu (kIOReturnError, 0)
            (allocateResource3D VIRTIO_GPU_RESOURCE_TARGET_2D (si_format info) (si_width info) (si_height info) 1) in
          if negb (is_success g.1) then unlock ;;; ret g.1
          else
            let! surface := kernel (IOMalloc SIZEOF_SURFACE) in
            match surface with
            | None =>
                on_gpu kIOReturnError (deallocateResource g.2) ;;; unlock ;;; ret kIOReturnNoMemory
            | Some _ =>
                let! id := next_surface in
                let! m := allocateSurfaceMemory (set_surface_id id info) in
                if negb (is_success m.1) then
                  on_gpu kIOReturnError (deallocateResource g.2) ;;;
                  kernel (IOFree SIZEOF_SURFACE) ;;; unlock ;;; ret m.1
                else
                  let! added := poolAddSurface (mk_surface id g.2 (set_surface_id id info) m.2 false true) in
                  if negb added then
                    (match m.2 with Some d => kernel (release (md_id d)) | None => ret tt end) ;;;
                    on_gpu kIOReturnError (deallocateResource g.2) ;;;
                    kernel (IOFree SIZEOF_SURFACE) ;;; unlock ;;; ret kIOReturnNoMemory
                  else
                    contextBindSurface ci id ;;;
                    upd_acc (fun a => set_a_memory_used
                      (u64 (a_memory_used a + calculateSurfaceSize info)) a) ;;;
                    unlock ;;; ret kIOReturnSuccess
            end
      end
  end.

Definition release_backing (s : accel_surface) : M S unit :=
  match as_backing_memory s with Some d => kernel (release (md_id d)) | None => ret tt end.

Definition destroy3DSurface (context_id surface_id : Z) : M S IOReturn :=
  lock ;;;
  let! context := findContext context_id in
  match context with
  | None => unlock ;;; ret kIOReturnBadArgument
  | Some (ci, _) =>
      let! surface := findSurface surface_id in
      match surface with
      | None => unlock ;;; ret kIOReturnBadArgument
      | Some (si, s) =>
          contextUnbindSurface ci surface_id ;;;
          release_backing s ;;;
          poolRemoveSurface si ;;;
          kernel (IOFree SIZEOF_SURFACE) ;;;
          unlock ;;; ret kIOReturnSuccess
      end
  end.

(** [createSurfaceInternal]: the status, and the id it writes into [info]. *)
Definition createSurfaceInternal (context_id : Z) (info : surface_info) : M S (IOReturn * Z) :=
  let! context := findContext context_id in
  match context with
  | None => ret (kIOReturnBadArgument, si_surface_id info)
  | Some (ci, _) =>
      let! surface := kernel (IOMalloc SIZEOF_SURFACE) in
      match surface with
      | None => ret (kIOReturnNoMemory, si_surface_id info)
      | Some _ =>
          let! id := next_surface in
          let surface_size := u32 (u32 (u32 (si_width info * si_height info) * si_depth info) * 4) in
          let! memory := kernel (new_descriptor surface_size) in
          match memory with
          | None => kernel (IOFree SIZEOF_SURFACE) ;;; ret (kIOReturnNoMemory, id)
          | Some d =>
              let! added := poolAddSurface (mk_surface id 0 (set_surface_id id info) (Some d) false true) in
              if negb added then
                kernel (release (md_id d)) ;;; kernel (IOFree SIZEOF_SURFACE) ;;; ret (kIOReturnNoMemory, id)
              else contextBindSurface ci id ;;; ret (kIOReturnSuccess, id)
          end
      end
  end.

Definition destroySurfaceInternal (context_id surface_id : Z) : M S IOReturn :=
  let! surface := findSurface surface_id in
  match surface with
  | None => ret kIOReturnBadArgument
  | Some (si, s) =>
      let! context := findContext context_id in
      (match context with Some (ci, _) => contextUnbindSurface ci surface_id | None => ret tt end) ;;;
      release_backing s ;;;
      poolRemoveSurface si ;;;
      kernel (IOFree SIZEOF_SURFACE) ;;;
      ret kIOReturnSuccess
  end.

(** ** createFramebuffer: the status and the id written through the pointer *)
Definition framebuffer_info (width height format : Z) : surface_info :=
  mk_info 0 width height 1 format 0 1 1 0 0.
Definition framebuffer_id (color depth : Z) : Z := Z.lor (u32 (Z.shiftl color 16)) depth.

Definition createFramebuffer (context_id width height color_format depth_format : Z) (id_ptr : bool)
  : M S (IOReturn * option Z) :=
  lock ;;;
  let! context := findContext context_id in
  match context with
  | None => unlock ;;; ret (kIOReturnBadArgument, None)
  | Some _ =>
      if negb id_ptr then unlock ;;; ret (kIOReturnBadArgument, None)
      else if (width =? 0) || (height =? 0) || (8192 <? width) || (8192 <? height)
      then unlock ;;; ret (kIOReturnBadArgument, None)
      else
        let! color := (if color_format =? 0 then ret (kIOReturnSuccess, 0)
                       else createSurfaceInternal context_id (framebuffer_info width height color_format)) in
        if negb (is_success color.1) then unlock ;;; ret (color.1, None)
        else
          let! depth := (if depth_format =? 0 then ret (kIOReturnSuccess, 0)
                         else createSurfaceInternal context_id (framebuffer_info width height depth_format)) in
          if negb (is_success depth.1) then
            (if color.2 =? 0 then ret tt else destroySurfaceInternal context_id color.2 ;;; ret tt) ;;;
            unlock ;;; ret (depth.1, None)
          else unlock ;;; ret (kIOReturnSuccess, Some (framebuffer_id color.2 depth.2))
  end.

(** ** Commands *)
Definition submit3DCommands (context_id : Z) (commands : option cmd_desc) : M S IOReturn :=
  match commands with
  | None => ret kIOReturnBadArgument
  | Some d =>
      lock ;;;
      let! context := findContext context_id in
      match context with
      | None => unlock ;;; ret kIOReturnNotFound
      | Some (_, c) =>
          let! r := on_gpu kIOReturnError (executeCommands (ac_gpu_context_id c) (Some d)) in
          (if is_success r then
             upd_acc (fun a =>
               set_a_triangles_rendered (u32 (a_triangles_rendered a + u32 (Z.of_nat (length (cd_data d)) / 64)))
                 (set_a_commands_submitted (u32 (a_commands_submitted a + 1))
                    (set_a_draw_calls (u32 (a_draw_calls a + 1)) a)))
           else ret tt) ;;;
          unlock ;;; ret r
      end
  end.

(** ** present3DSurface *)
Definition gpu_3d : M S bool :=
  let! gpu := get_acc a_gpu_device in
  if gpu then kernel supports3D else ret false.

(** Method 2: the copy into video memory, given the result so far. *)
Definition present_copy (e : screen_env) (s : accel_surface) (result : IOReturn) : M S IOReturn :=
  let! fb := get_acc a_framebuffer in
  match fb, as_backing_memory s with
  | true, Some _ =>
      (match se_vram e with Some v => kernel (retain (md_id v)) | None => ret tt end) ;;;
      match se_vram e with
      | None => ret kIOReturnError
      | Some v =>
          if negb (se_vram_maps e) then ret kIOReturnError
          else
            kernel (map_add 1) ;;;
            (if se_surface_maps e then kernel (map_add 1) else ret tt) ;;;
            let! r :=
              (if se_surface_maps e && se_vram_address e then
                 match copy_plan (se_qemu e) (md_length v) (as_info s) with
                 | Some cs => bcopy_all cs ;;; ret kIOReturnSuccess
                 | None => ret kIOReturnNoSpace
                 end
               else ret result) in
            (if se_surface_maps e then kernel (map_add (-1)) else ret tt) ;;;
            kernel (map_add (-1)) ;;;
            ret r
      end
  | _, _ => ret result
  end.

(** Method 3: a command, when the result so far is a failure. *)
Definition present_command (e : screen_env) (c : accel_context) (s : accel_surface) (result : IOReturn)
  : M S IOReturn :=
  let! gpu := get_acc a_gpu_device in
  if negb (is_success result) && gpu && negb (ac_gpu_context_id c =? 0) then
    let! cmdDesc := kernel (new_descriptor 128) in
    match cmdDesc with
    | None => ret result
    | Some d =>
        let data := present_cmd e (ac_gpu_context_id c) (as_gpu_resource_id s)
                      (si_width (as_info s)) (si_height (as_info s)) in
        let! r := kernel (executeCommands (ac_gpu_context_id c)
                            (Some (mk_cmd_desc (se_cmd_maps e).1 (se_cmd_maps e).2 data))) in
        kernel (release (md_id d)) ;;;
        ret r
    end
  else ret result.

Definition present3DSurface (e : screen_env) (context_id surface_id : Z) : M S IOReturn :=
  lock ;;;
  let! context := findContext context_id in
  match context with
  | None => unlock ;;; ret kIOReturnNotFound
  | Some (_, c) =>
      let! surface := findSurface surface_id in
      match surface with
      | None => unlock ;;; ret kIOReturnNotFound
      | Some (si, s) =>
          let! three_d := gpu_3d in
          let! r1 := (if three_d then
                        kernel (updateDisplay 0 (as_gpu_resource_id s) 0 0
                                  (si_width (as_info s)) (si_height (as_info s)))
                      else ret kIOReturnSuccess) in
          if three_d && is_success r1 then unlock ;;; ret r1
          else
            let! r2 := present_copy e s r1 in
            let! r3 := present_command e c s r2 in
            (if is_success r3 then ret tt
             else
               put_surface si (set_render_target true s) ;;;
               upd_acc (fun a => set_a_draw_calls (u32 (a_draw_calls a + 1)) a)) ;;;
            unlock ;;; ret kIOReturnSuccess
      end
  end.

Definition resetStatistics : M S unit :=
  lock ;;; upd_acc (fun a => set_a_triangles_rendered 0 (set_a_draw_calls 0 a)) ;;; unlock.

(** ** Collecting surfaces
    [garbageCollectTextures]; its first phase only logs. The threshold is
    64 MB; [current_texture_memory] is what [getTextureMemoryUsage] says,
    [m_memory_allocated]. *)
Definition getTextureMemoryUsage : M S (option Z) :=
  let! manager := get_acc a_texture_manager in
  if negb manager then ret None else let! m := get_acc a_memory_allocated in ret (Some m).
Definition GC_THRESHOLD : Z := u32 (u32 (64 * 1024) * 1024).

Definition surface_at (i : nat) : M S (option accel_surface) :=
  get_acc (fun a => match p_slots (a_surfaces a) !! i with Some s => s | None => None end).
(** The part the three strategies share. *)
Definition gc_free (i : nat) (s : accel_surface) : M S unit :=
  release_backing s ;;;
  let! gpu := get_acc a_gpu_device in
  (if gpu && negb (as_gpu_resource_id s =? 0)
   then kernel (deallocateResource (as_gpu_resource_id s)) ;;; ret tt else ret tt) ;;;
  poolRemoveSurface i ;;;
  kernel (IOFree SIZEOF_SURFACE).

(** A sweep over [n] slots from slot [i] on: [step] looks at a surface and
    says whether it goes; the state is the texture memory left and the bytes
    and surfaces freed. [None] ends the sweep. *)
Definition gc_stats : Type := Z * Z * Z.
Definition gc_count (size : Z) (charge : bool) (x : gc_stats) : gc_stats :=
  let '(current, freed_memory, freed_count) := x in
  (if charge then u64 (current - size) else current, u64 (freed_memory + size), u32 (freed_count + 1)).
Fixpoint gc_sweep (step : gc_stats -> accel_surface -> M S (option bool)) (charge : bool)
    (n i : nat) (x : gc_stats) : M S gc_stats :=
  match n with
  | O => ret x
  | Datatypes.S n' =>
      let! here := surface_at i in
      match here with
      | None => gc_sweep step charge n' (Datatypes.S i) x
      | Some s =>
          let! verdict := step x s in
          match verdict with
          | None => ret x
          | Some false => gc_sweep step charge n' (Datatypes.S i) x
          | Some true =>
              gc_free i s ;;;
              gc_sweep step charge n' (Datatypes.S i) (gc_count (calculateSurfaceSize (as_info s)) charge x)
          end
      end
  end.

(** Strategy 1: the largest; strategy 2: the medium ones, by the generation
    counter; strategy 3: those no context lists. *)
Definition gc_large (x : gc_stats) (s : accel_surface) : M S (option bool) :=
  if as_is_render_target s then ret (Some false)
  else if x.1.1 <=? GC_THRESHOLD / 2 then ret None
  else ret (Some (1024 * 1024 <? calculateSurfaceSize (as_info s))).
Definition gc_medium (x : gc_stats) (s : accel_surface) : M S (option bool) :=
  if as_is_render_target s then ret (Some false)
  else if x.1.1 <=? u32 (GC_THRESHOLD * 3) / 4 then ret None
  else
    let surface_size := calculateSurfaceSize (as_info s) in
    if (256 * 1024 <=? surface_size) && (surface_size <=? 1024 * 1024) then
      upd_acc (fun a => set_a_gc_generation (u32 (a_gc_generation a + 1)) a) ;;;
      let! gen := get_acc a_gc_generation in
      ret (Some (as_surface_id s mod 3 =? gen mod 3))
    else ret (Some false).
Definition listed (a : accel) (surface_id : Z) : bool :=
  existsb (fun c => contextHasSurface c surface_id) (objects (a_contexts a)).
Definition gc_orphan (x : gc_stats) (s : accel_surface) : M S (option bool) :=
  let! here := get_acc (fun a => listed a (as_surface_id s)) in ret (Some (negb here)).

(** Phase 3: a context forgets the surfaces that are gone or have no buffer. *)
Definition backed (p : pool accel_surface) (surface_id : Z) : bool :=
  match find_slot as_surface_id surface_id p with
  | Some (_, s) => match as_backing_memory s with Some _ => true | None => false end
  | None => false
  end.
Definition forget_stale (p : pool accel_surface) (c : accel_context) : accel_context :=
  set_bound (List.filter (backed p) (ac_bound_surface_ids c)) (ac_bound_surface_capacity c) c.
Definition clean_contexts (a : accel) : accel :=
  set_a_contexts (mk_pool (option_map (forget_stale (a_surfaces a)) <$> p_slots (a_contexts a))
                    (p_count (a_contexts a))) a.

Definition garbageCollectTextures : M S (IOReturn * Z) :=
  let! manager := get_acc a_texture_manager in
  if negb manager then ret (kIOReturnUnsupported, 0)
  else
    lock ;;;
    let! usage := getTextureMemoryUsage in
    let current := default 0 usage in
    let! n := get_acc (fun a => length (p_slots (a_surfaces a))) in
    let! x := (if GC_THRESHOLD <? current then
                 let! x1 := gc_sweep gc_large true n 0 (current, 0, 0) in
                 gc_sweep gc_medium true n 0 x1
               else ret (current, 0, 0)) in
    let! y := gc_sweep gc_orphan false n 0 x in
    upd_acc clean_contexts ;;;
    upd_acc (fun a => set_a_memory_allocated
      (if y.1.2 <? a_memory_allocated a then a_memory_allocated a - y.1.2 else 0) a) ;;;
    unlock ;;;
    ret (kIOReturnSuccess, y.2).

(** ** Life of the service *)
(** [init]: [lock_ok] is [IOLockAlloc]'s answer; the managers come later. *)
Definition empty_pool {A} (n : Z) : pool A := mk_pool (replicate (Z.to_nat n) None) 0.
Definition init (lock_ok : bool) : M S bool :=
  let! ctxs := kernel (IOMalloc (kInitialContextCapacity * SIZEOF_PTR)) in
  let! surfs := kernel (IOMalloc (kInitialSurfaceCapacity * SIZEOF_PTR)) in
  let made {A} (b : option (list Z)) n : pool A :=
    match b with Some _ => empty_pool n | None => empty_pool 0 end in
  upd_acc (fun a =>
    mk_accel false false false (if lock_ok then Some Unlocked else None)
      (made ctxs kInitialContextCapacity) (made surfs kInitialSurfaceCapacity)
      1 1 0 0 0 0 0 (a_gc_generation a) (a_panic a)) ;;;
  ret (lock_ok && (match ctxs with Some _ => true | None => false end)
       && (match surfs with Some _ => true | None => false end)).

(** [start], as far as the members go: the provider is a framebuffer, which
    has a device object or not. *)
Definition start (gpu_device : bool) : M S unit :=
  upd_acc (fun a => set_a_texture_manager gpu_device (set_a_gpu_device gpu_device (set_a_framebuffer true a))).

Fixpoint stop_contexts (n i : nat) : M S unit :=
  match n with
  | O => ret tt
  | Datatypes.S n' =>
      let! c := context_at i in
      (match c with Some c => destroyContextInternal (ac_context_id c) ;;; ret tt | None => ret tt end) ;;;
      stop_contexts n' (Datatypes.S i)
  end.
Fixpoint stop_surfaces (n i : nat) : M S unit :=
  match n with
  | O => ret tt
  | Datatypes.S n' =>
      let! s := surface_at i in
      (match s with
       | Some s =>
           release_backing s ;;;
           kernel (IOFree SIZEOF_SURFACE) ;;;
           upd_acc (fun a => set_a_surfaces
             (mk_pool (<[i := None]> (p_slots (a_surfaces a))) (p_count (a_surfaces a))) a)
       | None => ret tt
       end) ;;;
      stop_surfaces n' (Datatypes.S i)
  end.
Definition stop : M S unit :=
  lock ;;;
  let! n := get_acc (fun a => length (p_slots (a_contexts a))) in
  stop_contexts n 0 ;;;
  let! m := get_acc (fun a => length (p_slots (a_surfaces a))) in
  stop_surfaces m 0 ;;;
  upd_acc (fun a => set_a_surfaces (mk_pool (p_slots (a_surfaces a)) 0) a) ;;;
  unlock.

(** [free] *)
Fixpoint free_contexts (l : list accel_context) : M S unit :=
  match l with
  | [] => ret tt
  | c :: l' =>
      (if ac_bound_surface_capacity c =? 0 then ret tt
       else kernel (IOFree (ac_bound_surface_capacity c * 4))) ;;;
      kernel (IOFree SIZEOF_CONTEXT) ;;;
      free_contexts l'
  end.
Fixpoint free_surfaces (l : list accel_surface) : M S unit :=
  match l with
  | [] => ret tt
  | s :: l' => release_backing s ;;; kernel (IOFree SIZEOF_SURFACE) ;;; free_surfaces l'
  end.
Definition free : M S unit :=
  upd_acc (fun a => set_a_lock None (set_a_texture_manager false a)) ;;;
  let! ctxs := get_acc a_contexts in
  free_contexts (objects ctxs) ;;;
  kernel (IOFree (capacity ctxs * SIZEOF_PTR)) ;;;
  upd_acc (set_a_contexts (empty_pool 0)) ;;;
  let! surfs := get_acc a_surfaces in
  free_surfaces (objects surfs) ;;;
  kernel (IOFree (capacity surfs * SIZEOF_PTR)) ;;;
  upd_acc (set_a_surfaces (empty_pool 0)).
End accel.
