(* ===== verification/AccelLife.v ===== *)
(** Theorems about the accelerator of [Accel.v]. *)
From S2P Require Import Prelude Wire Transport Driver Resources Display Accounts Accel.

(** * Pools as collections *)
Section slots.
Context {A : Type}.
Implicit Types (l : list (option A)) (x : A).

Lemma objects_insert_free l i x :
  l !! i = Some None -> omap id (<[i := Some x]> l) ≡ₚ x :: omap id l.
Proof.
  revert i. induction l as [|[y|] l IH]; intros [|i] Hi; simplify_eq/=; [|done|by apply IH].
  rewrite (IH i Hi). apply Permutation_swap.
Qed.
Lemma objects_remove l i x :
  l !! i = Some (Some x) -> omap id l ≡ₚ x :: omap id (<[i := None]> l).
Proof.
  revert i. induction l as [|[y|] l IH]; intros [|i] Hi; simplify_eq/=; [done| |by apply IH].
  rewrite (IH i Hi). apply Permutation_swap.
Qed.
Lemma objects_replace l i x y :
  l !! i = Some (Some x) -> omap id (<[i := Some y]> l) ≡ₚ y :: omap id (<[i := None]> l).
Proof.
  intros Hi. rewrite <- (list_insert_insert_eq l i (Some y) None). apply objects_insert_free.
  apply list_lookup_insert_eq. by apply lookup_lt_Some in Hi.
Qed.
Lemma objects_clear l i : l !! i = Some None -> omap id (<[i := None]> l) = omap id l.
Proof. intros Hi. by rewrite list_insert_id. Qed.
Lemma objects_grow l n : omap id (l ++ replicate n None) = omap id l.
Proof. rewrite omap_app. replace (omap id (replicate n (@None A))) with (@nil A); [apply app_nil_r|]. by induction n. Qed.
Lemma elem_objects l x : x ∈ omap id l <-> exists i, l !! i = Some (Some x).
Proof.
  rewrite list_elem_of_omap. split.
  - intros (o & Ho & E). cbn in E. subst. by apply list_elem_of_lookup_1 in Ho.
  - intros (i & Hi). exists (Some x). split; [by eapply list_elem_of_lookup_2|done].
Qed.
Lemma objects_full l : index_of slot_free l = None -> length (omap id l) = length l.
Proof.
  intros H. induction l as [|[y|] l IH]; [done| |done]. cbn in *.
  destruct (index_of slot_free l); [done|]. by rewrite IH.
Qed.
End slots.

(** What a pool's arrays guarantee: the count is that of the objects, their
    ids are distinct and were given out, and the array has not outgrown twice
    the number of ids. *)
Record pool_ok {A} (key : A -> Z) (initial next : Z) (p : pool A) : Prop := {
  po_count : p_count p = Z.of_nat (length (objects p));
  po_keys : NoDup (key <$> objects p);
  po_range : Forall (fun x => 1 < key x <= next) (objects p);
  po_room : capacity p <= Z.max initial (2 * next)
}.

Section pools.
Context {A : Type} (key : A -> Z).
Implicit Types (p q : pool A) (x : A).

Lemma find_slot_Some id p i x :
  find_slot key id p = Some (i, x) -> p_slots p !! i = Some (Some x) /\ key x = id.
Proof.
  unfold find_slot. destruct (index_of _ _) as [k|] eqn:E; [|done].
  apply index_of_Some in E as (s & Hs & Hk & _). rewrite Hs. destruct s as [y|]; [|done].
  intros [= -> ->]. cbn in Hk. split; [done|]. by apply Z.eqb_eq.
Qed.
Lemma find_slot_None id p : find_slot key id p = None -> id ∉ key <$> objects p.
Proof.
  unfold find_slot. intros H Hin. apply list_elem_of_fmap in Hin as (x & -> & Hx).
  apply elem_objects in Hx as (i & Hi).
  destruct (index_of _ _) as [k|] eqn:E.
  - apply index_of_Some in E as (s & Hs & Hk & _). rewrite Hs in H. by destruct s.
  - pose proof (proj1 (index_of_None _ _) E _ _ Hi) as Hf. cbn in Hf. by rewrite Z.eqb_refl in Hf.
Qed.
Lemma find_slot_in id p x : NoDup (key <$> objects p) ->
  x ∈ objects p -> key x = id -> exists i, find_slot key id p = Some (i, x).
Proof.
  intros Hd Hx <-. destruct (find_slot key (key x) p) as [[i y]|] eqn:E.
  - exists i. apply find_slot_Some in E as [Hi Hk]. do 2 f_equal.
    assert (Hy : y ∈ objects p) by (apply elem_objects; eauto).
    apply list_elem_of_lookup in Hx as (a & Ha). apply list_elem_of_lookup in Hy as (b & Hb).
    enough (a = b) by congruence.
    eapply NoDup_lookup; [exact Hd| |]; rewrite list_lookup_fmap; [by rewrite Ha|rewrite Hb; cbn; by rewrite Hk].
  - apply find_slot_None in E. destruct E. apply list_elem_of_fmap. eauto.
Qed.

(** [q] is [p] with [x] added; [x] taken out; [x] replaced by [y]. *)
Definition added x p q : Prop := objects q ≡ₚ x :: objects p /\ p_count q = p_count p + 1.
Definition room (next : Z) p q : Prop :=
  capacity q <= Z.max (capacity p) (Z.max 1 (2 * next)).

Lemma pool_ok_added initial next next' p q x :
  pool_ok key initial next p -> added x p q -> next <= next' -> next < key x <= next' -> 1 <= next ->
  capacity q <= Z.max initial (2 * next') -> pool_ok key initial next' q.
Proof.
  intros [H1 H2 H3 H4] [Hp Hc] Hn Hx H1n Hq. split.
  - rewrite Hc, H1, Hp. cbn. lia.
  - rewrite Hp. cbn. apply NoDup_cons. split; [|done]. intros Hin.
    apply list_elem_of_fmap in Hin as (y & E & Hy).
    pose proof (proj1 (Forall_forall _ _) H3 y Hy) as Hr. cbn in Hr. lia.
  - rewrite Hp. constructor; [lia|]. eapply Forall_impl; [exact H3|]. cbn. lia.
  - done.
Qed.
Lemma pool_ok_next initial next next' p :
  pool_ok key initial next p -> next <= next' -> pool_ok key initial next' p.
Proof.
  intros [H1 H2 H3 H4] Hn. split; [done|done| |lia].
  eapply Forall_impl; [exact H3|]. cbn. lia.
Qed.
Lemma pool_ok_removed initial next p i x :
  pool_ok key initial next p -> p_slots p !! i = Some (Some x) -> pool_ok key initial next (empty_slot i p).
Proof.
  intros [H1 H2 H3 H4] Hi. pose proof (objects_remove _ _ _ Hi) as Hp. fold (objects p) in Hp.
  assert (Hq : objects p ≡ₚ x :: objects (empty_slot i p)) by exact Hp.
  assert (Hl : p_count p = Z.of_nat (length (objects (empty_slot i p))) + 1).
  { rewrite H1, Hq. cbn. lia. }
  rewrite Hq in H2, H3. cbn in H2. apply NoDup_cons in H2 as [_ H2]. apply Forall_cons in H3 as [_ H3].
  split; [|done|done|].
  - cbn [p_count empty_slot]. destruct (Z.ltb_spec 0 (p_count p)); lia.
  - unfold capacity, empty_slot in *. cbn. by rewrite length_insert.
Qed.
Lemma pool_ok_put initial next p i x y :
  pool_ok key initial next p -> p_slots p !! i = Some (Some x) -> key y = key x ->
  pool_ok key initial next (put_slot i y p).
Proof.
  intros [H1 H2 H3 H4] Hi E. pose proof (objects_remove _ _ _ Hi) as Hp.
  pose proof (objects_replace _ _ _ y Hi) as Hq. fold (objects p) in Hp.
  change (omap id (<[i:=Some y]> (p_slots p))) with (objects (put_slot i y p)) in Hq.
  rewrite Hp in H1, H2, H3. split.
  - cbn [p_count put_slot]. by rewrite H1, Hq.
  - rewrite Hq. cbn. rewrite E. exact H2.
  - rewrite Hq. apply Forall_cons in H3 as [H3 H3']. constructor; [by rewrite E|done].
  - unfold capacity, put_slot in *. cbn. by rewrite length_insert.
Qed.

(** The array grows only when it is full, and then there is room in it. *)
Lemma fill_free_added p i x :
  index_of slot_free (p_slots p) = Some i -> 0 <= p_count p -> p_count p + 1 < 2 ^ 32 ->
  added x p (fill_slot i x p) /\ capacity (fill_slot i x p) = capacity p.
Proof.
  intros Hi H0 Hc. apply index_of_Some in Hi as (s & Hs & Hf & _). destruct s; [done|].
  split; [split|].
  - exact (objects_insert_free _ _ x Hs).
  - cbn. apply u32_small. lia.
  - unfold capacity, fill_slot. cbn. by rewrite length_insert.
Qed.
Lemma fill_grown_added initial next p x :
  index_of slot_free (p_slots p) = None -> pool_ok key initial next p ->
  0 < initial < 2 ^ 31 -> 1 <= next < 2 ^ 30 ->
  let q := fill_slot (Z.to_nat (p_count (grow_slots initial p))) x (grow_slots initial p) in
  added x p q /\ capacity q <= Z.max initial (2 * Z.of_nat (length (objects p))).
Proof.
  intros Hf [H1 H2 H3 H4] Hi Hn q. pose proof (objects_full _ Hf) as Hl. fold (objects p) in Hl.
  assert (Hcap : capacity p = p_count p) by (unfold capacity; lia).
  assert (Hg : grown_capacity initial p = if capacity p =? 0 then initial else capacity p * 2).
  { unfold grown_capacity. destruct (_ =? 0); [done|]. apply u32_small. lia. }
  assert (Hgt : capacity p < grown_capacity initial p).
  { rewrite Hg. destruct (Z.eqb_spec (capacity p) 0); [|unfold capacity in *]; lia. }
  set (l := p_slots p ++ replicate (Z.to_nat (grown_capacity initial p - capacity p)) None).
  assert (Hlook : l !! Z.to_nat (p_count p) = Some None).
  { unfold l. rewrite lookup_app_r by (unfold capacity in *; lia).
    apply lookup_replicate_2. unfold capacity in *. lia. }
  assert (Hlen : Z.of_nat (length l) = grown_capacity initial p).
  { unfold l. rewrite length_app, length_replicate. unfold capacity in *. lia. }
  split; [split|].
  - unfold q, fill_slot, grow_slots. unfold objects. cbn [p_slots p_count]. fold l.
    rewrite (objects_insert_free _ _ x Hlook). unfold l. by rewrite objects_grow.
  - unfold q, fill_slot, grow_slots. cbn [p_count]. apply u32_small. lia.
  - unfold q, capacity, fill_slot, grow_slots. cbn [p_slots p_count]. fold l.
    rewrite length_insert, Hlen, Hg. destruct (Z.eqb_spec (capacity p) 0); lia.
Qed.
End pools.

(** Distinct numbers of [2 .. n] are at most [n] many. *)
Lemma distinct_bound (l : list Z) n : 0 <= n -> NoDup l -> Forall (fun z => 1 < z <= n) l -> Z.of_nat (length l) <= n.
Proof.
  intros Hn Hd Hf. assert (Hs : l ⊆ seqZ 0 (n + 1)).
  { intros z Hz. apply elem_of_seqZ. pose proof (proj1 (Forall_forall _ _) Hf z Hz). cbn in *. lia. }
  destruct (decide (n <= 0)) as [H0|H0].
  { destruct l as [|z l]; [cbn; lia|]. apply Forall_cons in Hf as [Hz _]. lia. }
  assert (Hz0 : NoDup (0 :: l)).
  { apply NoDup_cons. split; [|done]. intros Hin.
    pose proof (proj1 (Forall_forall _ _) Hf 0 Hin). cbn in *. lia. }
  assert (Hs0 : (0 :: l) ⊆ seqZ 0 (n + 1)).
  { intros z [->|Hz]%elem_of_cons; [apply elem_of_seqZ; lia|by apply Hs]. }
  pose proof (submseteq_length _ _ (NoDup_submseteq _ _ Hz0 Hs0)) as Hlen.
  rewrite length_seqZ in Hlen. cbn in Hlen. lia.
Qed.
Lemma pool_ok_objects {A} (key : A -> Z) initial next p :
  pool_ok key initial next p -> 0 <= next -> Z.of_nat (length (objects p)) <= next.
Proof.
  intros [H1 H2 H3 H4] Hn. rewrite <- (length_fmap key (objects p)). apply distinct_bound; [done|done|].
  by apply Forall_fmap.
Qed.

(** * The invariant *)
(** A context lists distinct surfaces that were made, within its array. *)
Record ctx_ok (next_surface : Z) (c : accel_context) : Prop := {
  co_distinct : NoDup (ac_bound_surface_ids c);
  co_made : Forall (fun id => 1 < id <= next_surface) (ac_bound_surface_ids c);
  co_fits : bound_surface_count c <= ac_bound_surface_capacity c;
  co_room : 0 <= ac_bound_surface_capacity c <= Z.max 8 (2 * next_surface);
  co_command : ac_command_buffer c = None
}.
(** A surface has a buffer that holds it. *)
Definition surf_ok (s : accel_surface) : Prop :=
  exists d, as_backing_memory s = Some d /\ calculateSurfaceSize (as_info s) <= md_length d.

Record accel_ok (l : lock_state) (a : accel) : Prop := {
  ok_lock : a_lock a = Some l;
  ok_panic : a_panic a = false;
  ok_memory : a_memory_allocated a = 0;
  ok_next : 1 <= a_next_context_id a /\ 1 <= a_next_surface_id a;
  ok_contexts : pool_ok ac_context_id kInitialContextCapacity (a_next_context_id a) (a_contexts a);
  ok_surfaces : pool_ok as_surface_id kInitialSurfaceCapacity (a_next_surface_id a) (a_surfaces a);
  ok_bound : Forall (ctx_ok (a_next_surface_id a)) (objects (a_contexts a));
  ok_backed : Forall surf_ok (objects (a_surfaces a))
}.

Lemma ctx_ok_next n n' c : ctx_ok n c -> n <= n' -> ctx_ok n' c.
Proof.
  intros [H1 H2 H3 H4 H5] Hn. split; [done| |done|lia|done].
  eapply Forall_impl; [exact H2|]. cbn. lia.
Qed.
Lemma objects_elem {A} (p : pool A) i x : p_slots p !! i = Some (Some x) -> x ∈ objects p.
Proof. intros Hi. apply elem_objects. eauto. Qed.
Lemma Forall_put {A} (P : A -> Prop) (p : pool A) i x y :
  Forall P (objects p) -> p_slots p !! i = Some (Some x) -> P y -> Forall P (objects (put_slot i y p)).
Proof.
  intros HP Hi Hy. unfold put_slot. unfold objects at 1. cbn. rewrite (objects_replace _ _ _ y Hi).
  pose proof (objects_remove _ _ _ Hi) as Hp. fold (objects p) in Hp. rewrite Hp in HP.
  apply Forall_cons in HP as [_ HP]. by constructor.
Qed.
Lemma Forall_empty {A} (P : A -> Prop) (p : pool A) i x :
  Forall P (objects p) -> p_slots p !! i = Some (Some x) -> Forall P (objects (empty_slot i p)).
Proof.
  intros HP Hi. pose proof (objects_remove _ _ _ Hi) as Hp. fold (objects p) in Hp. rewrite Hp in HP.
  by apply Forall_cons in HP as [_ HP].
Qed.

(** ** Moves of the state that keep it *)
Section ok_steps.
Context (l : lock_state) (a : accel) (Ha : accel_ok l a).

Lemma ok_locked l' : accel_ok l' (set_a_lock (Some l') a).
Proof. destruct Ha. by split. Qed.
Lemma ok_add_context c q :
  a_next_context_id a < ac_context_id c -> ctx_ok (a_next_surface_id a) c -> added c (a_contexts a) q ->
  capacity q <= Z.max kInitialContextCapacity (2 * ac_context_id c) ->
  accel_ok l (set_a_contexts q (set_a_next_context_id (ac_context_id c) a)).
Proof.
  intros Hid Hc Hq Hcap. destruct Ha as [H1 H2 H3 [H4 H5] H6 H7 H8 H9]. split; cbn; try done; [lia| |].
  - eapply pool_ok_added; [exact H6|exact Hq|lia|lia|lia|exact Hcap].
  - destruct Hq as [Hp _]. rewrite Hp. by constructor.
Qed.
Lemma ok_add_surface s q :
  a_next_surface_id a < as_surface_id s -> surf_ok s -> added s (a_surfaces a) q ->
  capacity q <= Z.max kInitialSurfaceCapacity (2 * as_surface_id s) ->
  accel_ok l (set_a_surfaces q (set_a_next_surface_id (as_surface_id s) a)).
Proof.
  intros Hid Hs Hq Hcap. destruct Ha as [H1 H2 H3 [H4 H5] H6 H7 H8 H9]. split; cbn; try done; [lia| | |].
  - eapply pool_ok_added; [exact H7|exact Hq|lia|lia|lia|exact Hcap].
  - eapply Forall_impl; [exact H8|]. intros c Hc. eapply ctx_ok_next; [exact Hc|lia].
  - destruct Hq as [Hp _]. rewrite Hp. by constructor.
Qed.
Lemma ok_next_surface n : a_next_surface_id a <= n -> accel_ok l (set_a_next_surface_id n a).
Proof.
  intros Hn. destruct Ha as [H1 H2 H3 [H4 H5] H6 H7 H8 H9]. split; cbn; try done; [lia| |].
  - eapply pool_ok_next; [exact H7|lia].
  - eapply Forall_impl; [exact H8|]. intros c Hc. eapply ctx_ok_next; [exact Hc|lia].
Qed.
Lemma ok_next_context n : a_next_context_id a <= n -> accel_ok l (set_a_next_context_id n a).
Proof.
  intros Hn. destruct Ha as [H1 H2 H3 [H4 H5] H6 H7 H8 H9]. split; cbn; try done; [lia|].
  eapply pool_ok_next; [exact H6|lia].
Qed.
Lemma ok_put_context i c c' :
  p_slots (a_contexts a) !! i = Some (Some c) -> ac_context_id c' = ac_context_id c ->
  ctx_ok (a_next_surface_id a) c' -> accel_ok l (set_a_contexts (put_slot i c' (a_contexts a)) a).
Proof.
  intros Hi E Hc. destruct Ha as [H1 H2 H3 H4 H6 H7 H8 H9]. split; cbn; try done.
  - by eapply pool_ok_put.
  - by eapply Forall_put.
Qed.
Lemma ok_put_surface i s s' :
  p_slots (a_surfaces a) !! i = Some (Some s) -> as_surface_id s' = as_surface_id s -> surf_ok s' ->
  accel_ok l (set_a_surfaces (put_slot i s' (a_surfaces a)) a).
Proof.
  intros Hi E Hs. destruct Ha as [H1 H2 H3 H4 H6 H7 H8 H9]. split; cbn; try done.
  - by eapply pool_ok_put.
  - by eapply Forall_put.
Qed.
Lemma ok_remove_context i c :
  p_slots (a_contexts a) !! i = Some (Some c) -> accel_ok l (set_a_contexts (empty_slot i (a_contexts a)) a).
Proof.
  intros Hi. destruct Ha as [H1 H2 H3 H4 H6 H7 H8 H9]. split; cbn; try done.
  - by eapply pool_ok_removed.
  - by eapply Forall_empty.
Qed.
Lemma ok_remove_surface i s :
  p_slots (a_surfaces a) !! i = Some (Some s) -> accel_ok l (set_a_surfaces (empty_slot i (a_surfaces a)) a).
Proof.
  intros Hi. destruct Ha as [H1 H2 H3 H4 H6 H7 H8 H9]. split; cbn; try done.
  - by eapply pool_ok_removed.
  - by eapply Forall_empty.
Qed.
Lemma ok_context_at i c : p_slots (a_contexts a) !! i = Some (Some c) -> ctx_ok (a_next_surface_id a) c.
Proof. intros Hi. exact (proj1 (Forall_forall _ _) (ok_bound _ _ Ha) _ (objects_elem _ _ _ Hi)). Qed.
Lemma ok_surface_at i s : p_slots (a_surfaces a) !! i = Some (Some s) -> surf_ok s.
Proof. intros Hi. exact (proj1 (Forall_forall _ _) (ok_backed _ _ Ha) _ (objects_elem _ _ _ Hi)). Qed.
End ok_steps.

(** Unbinding takes the id out, and nothing else. *)
Lemma unbind_perm sid l : sid ∈ l -> l ≡ₚ sid :: unbind sid l.
Proof.
  intros Hin. unfold unbind. destruct (index_of (Z.eqb sid) l) as [k|] eqn:E.
  2: { apply list_elem_of_lookup in Hin as (i & Hi).
       pose proof (proj1 (index_of_None _ _) E _ _ Hi) as Hf. cbn in Hf. by rewrite Z.eqb_refl in Hf. }
  apply index_of_Some in E as (x & Hk & Hx & _). apply Z.eqb_eq in Hx. subst x.
  pose proof (list_elem_of_split_length _ _ _ Hk) as (l1 & l2 & -> & ->).
  destruct l2 as [|z l2 _] using rev_ind.
  - rewrite length_app. cbn [length]. replace (length l1 + 1 - 1)%nat with (length l1) by lia.
    rewrite take_insert_ge by lia. rewrite take_app_length. by rewrite <- Permutation_cons_append.
  - replace (length (l1 ++ sid :: l2 ++ [z]) - 1)%nat with (length (l1 ++ sid :: l2)) by (rewrite !length_app; cbn; rewrite length_app; cbn; lia).
    rewrite (app_comm_cons l2 [z] sid), (app_assoc l1).
    rewrite app_nth2 by lia. rewrite Nat.sub_diag. cbn [nth].
    rewrite insert_app_l by (rewrite length_app; cbn; lia).
    rewrite take_app_length' by (by rewrite length_insert).
    replace (length l1) with (length l1 + 0)%nat by lia. rewrite insert_app_r. cbn.
    rewrite <- app_assoc. cbn. rewrite <- !Permutation_middle. 
    by rewrite app_nil_r.
Qed.
Lemma unbind_absent sid l : sid ∉ l -> unbind sid l = l.
Proof.
  intros Hin. unfold unbind. destruct (index_of (Z.eqb sid) l) as [k|] eqn:E; [|done].
  apply index_of_Some in E as (x & Hk & Hx & _). apply Z.eqb_eq in Hx. subst x.
  destruct Hin. by eapply list_elem_of_lookup_2.
Qed.
Lemma unbind_ok n sid c :
  ctx_ok n c -> ctx_ok n (set_bound (unbind sid (ac_bound_surface_ids c)) (ac_bound_surface_capacity c) c).
Proof.
  intros [H1 H2 H3 H4 H5]. destruct (decide (sid ∈ ac_bound_surface_ids c)) as [Hin|Hin].
  - pose proof (unbind_perm _ _ Hin) as Hp. rewrite Hp in H1, H2. apply NoDup_cons in H1 as [_ H1].
    apply Forall_cons in H2 as [_ H2]. unfold bound_surface_count in H3. rewrite Hp in H3. cbn [length] in H3.
    split; [done|done| |done|done]. unfold bound_surface_count. cbn [ac_bound_surface_ids set_bound ac_bound_surface_capacity]. lia.
  - rewrite (unbind_absent _ _ Hin). by split.
Qed.

(** * Accounts
    What the kernel is owed, less the references the device's own pool holds;
    [clean]: an unused slot of that pool holds none. *)
Definition slot_refs (id : Z) (s : gpu_resource) : Z := own id (r_backing_memory s).
Definition pool_refs (id : Z) (p : list gpu_resource) : Z := foldr (fun s n => slot_refs id s + n) 0 p.
Definition clean (p : list gpu_resource) : Prop :=
  Forall (fun s => r_resource_id s = 0 -> r_backing_memory s = None) p.
Definition ledger {T} (id : Z) (w : world T) : Z * Z * Z * Z :=
  let '(h, m, p, r) := balance id w in (h, m, p, r - pool_refs id (g_pool (w_gpu w))).

Lemma pool_refs_insert id p i s s' :
  p !! i = Some s -> pool_refs id (<[i := s']> p) = pool_refs id p - slot_refs id s + slot_refs id s'.
Proof.
  revert i. induction p as [|x p IH]; intros [|i] Hi; simplify_eq/=; [lia|]. rewrite (IH i Hi). lia.
Qed.

Section ledger.
Context {T : Type} `{Transport T}.
Abbreviation W := (world T).

(** A method of the device or a kernel service moves the ledger and keeps the
    pool clean. *)
Definition shifts {A} (id : Z) (x : M W A) (f : A -> Z * Z * Z * Z -> Prop) : Prop :=
  forall w, clean (g_pool (w_gpu w)) ->
    let '(a, w') := x w in
    let '(h, m, p, r) := ledger id w in
    clean (g_pool (w_gpu w')) /\ exists dh dm dp dr,
      f a (dh, dm, dp, dr) /\ ledger id w' = (h + dh, m + dm, p + dp, r + dr).

Lemma shifts_moves {A} id (x : M W A) f :
  moves id x f -> keeps (fun w => g_pool (w_gpu w)) x -> shifts id x (fun a d => d = f a).
Proof.
  intros Hm Hk w Hc. specialize (Hm w). pose proof (keeps_eq _ x w Hk) as E.
  destruct (x w) as [a w']. cbn in E. unfold ledger in *. rewrite E.
  destruct (balance id w) as [[[h m] p] r]. destruct (f a) as [[[dh dm] dp] dr] eqn:Ef. rewrite Hm.
  split; [done|]. exists dh, dm, dp, dr. split; [by rewrite ?Ef|]. apply quad_eq; lia.
Qed.
Definition same : Z * Z * Z * Z -> Prop := eq (0, 0, 0, 0).
Lemma shifts_keeps {A} id (x : M W A) :
  keeps (balance id) x -> keeps (fun w => g_pool (w_gpu w)) x -> shifts id x (fun _ => same).
Proof.
  intros Hb Hp w Hc. pose proof (keeps_eq _ x w Hp) as E. pose proof (keeps_eq _ x w Hb) as E'.
  destruct (x w) as [a w']. cbn in E, E'. unfold ledger. rewrite E, E'.
  destruct (balance id w) as [[[h m] p] r]. split; [done|]. exists 0, 0, 0, 0. split; [done|]. apply quad_eq; lia.
Qed.
Lemma shifts_weaken {A} id (x : M W A) (f g : A -> Z * Z * Z * Z -> Prop) :
  shifts id x f -> (forall a d, f a d -> g a d) -> shifts id x g.
Proof.
  intros Hx Hfg w Hc. specialize (Hx w Hc). destruct (x w) as [a w'].
  destruct (ledger id w) as [[[h m] p] r]. destruct Hx as (Hc' & dh & dm & dp & dr & Hf & E).
  split; [done|]. exists dh, dm, dp, dr. auto.
Qed.

Lemma shifts_IOMalloc id n :
  shifts id (IOMalloc n) (fun g d => d = (match g with Some _ => n | None => 0 end, 0, 0, 0)).
Proof. apply shifts_moves; [apply moves_IOMalloc|keeps_tac]. Qed.
Lemma shifts_IOFree id n : shifts id (IOFree n) (fun _ d => d = (- n, 0, 0, 0)).
Proof. apply shifts_moves; [apply moves_IOFree|keeps_tac]. Qed.
Lemma shifts_release id i : shifts id (release i) (fun _ d => d = (0, 0, 0, - own id (Some i))).
Proof. apply shifts_moves; [apply moves_release|keeps_tac]. Qed.
Lemma shifts_retain id i : shifts id (retain i) (fun _ d => d = (0, 0, 0, own id (Some i))).
Proof.
  apply shifts_moves; [|keeps_tac]. intros w. cbn. unfold balance, mem_balance. cbn. rewrite count_bump_own.
  apply quad_eq; lia.
Qed.
Lemma shifts_map_add id n : shifts id (map_add n) (fun _ d => d = (0, n, 0, 0)).
Proof. apply shifts_moves; [apply moves_map_add|unfold map_add; keeps_tac]. Qed.
Lemma new_descriptor_length n (w : W) x : (new_descriptor n w).1 = Some x -> md_length x = n.
Proof.
  unfold new_descriptor. destruct (m_allocs (w_mem w)) as [|[d|] l]; cbn; [done|by intros [= <-]|done].
Qed.
Lemma shifts_new_descriptor id n :
  shifts id (new_descriptor n) (fun o d =>
    d = (0, 0, 0, own id (md_id <$> o)) /\ (forall x, o = Some x -> md_length x = n)).
Proof.
  intros w Hc. pose proof (shifts_moves id (new_descriptor n) _ (moves_new_descriptor id n) ltac:(keeps_tac) w Hc) as Hs.
  pose proof (new_descriptor_length n w) as Hl.
  destruct (new_descriptor n w) as [o w']. destruct (ledger id w) as [[[h m] p] r].
  destruct Hs as (Hc' & dh & dm & dp & dr & E & El). split; [done|]. exists dh, dm, dp, dr. done.
Qed.
Lemma shifts_execute id ctx d : shifts id (executeCommands ctx d) (fun _ => same).
Proof.
  apply shifts_keeps; [apply account_execute|].
  unfold executeCommands, supports3D, lock_contexts, unlock_contexts, map_add. keeps_tac.
Qed.
Lemma shifts_supports3D id : shifts id supports3D (fun _ => same).
Proof. unfold supports3D. apply shifts_keeps; keeps_tac. Qed.
Lemma shifts_createRenderContext id : shifts id createRenderContext (fun _ => same).
Proof.
  unfold createRenderContext, supports3D, lock_contexts, unlock_contexts, initializeCommandHeader.
  apply shifts_keeps; keeps_tac.
Qed.
Lemma shifts_destroyRenderContext id c : shifts id (destroyRenderContext c) (fun _ => same).
Proof.
  unfold destroyRenderContext, supports3D, lock_contexts, unlock_contexts. apply shifts_keeps; keeps_tac.
Qed.
Lemma shifts_updateDisplay id sc res x y wd ht : shifts id (updateDisplay sc res x y wd ht) (fun _ => same).
Proof. unfold updateDisplay, lock_resources, unlock_resources. apply shifts_keeps; keeps_tac. Qed.

Lemma shifts_submit id c n : shifts id (submit c n) (fun _ => same).
Proof. apply shifts_keeps; keeps_tac. Qed.

(** What creating a resource costs for good: the block it allocates for the
    bookkeeping it then keeps elsewhere. *)
Definition lost (d : Z * Z * Z * Z) : Prop := d = (0, 0, 0, 0) \/ d = (SIZEOF_GPU_RESOURCE, 0, 0, 0).

Ltac still :=
  unfold ledger, balance, mem_balance; cbn -[own pool_refs]; split; [done|]; exists 0, 0, 0, 0;
  split; [by first [left|reflexivity]|apply quad_eq; lia].
Lemma shifts_allocateResource3D id t f wd ht dp :
  shifts id (allocateResource3D t f wd ht dp) (fun _ => lost).
Proof.
  intros w Hc. unfold allocateResource3D, next_resource_id, createResource3D, lock_resources, unlock_resources,
    bind, upd_gpu, modify, get_gpu, gets, ret, submit, IOMalloc.
  cbn -[u32 own ledger pool_refs]. destruct (0 <? g_num_capsets (w_gpu w)); cbn -[u32 own ledger pool_refs]; [|still].
  match goal with |- context [match index_of ?f ?l with _ => _ end] => destruct (index_of f l) end;
    cbn -[u32 own ledger pool_refs]; [still|].
  match goal with |- context [submit_cmd ?c ?n ?t] => destruct (submit_cmd c n t) as [[r resp] t'] end. cbn -[u32 own ledger pool_refs].
  match goal with |- context [if ?b then _ else _] => destruct b end; cbn -[u32 own ledger pool_refs]; [|still].
  destruct (m_mallocs (w_mem w)) as [|[g|] l] eqn:Em; cbn -[u32 own ledger pool_refs]; [still| |].
  - match goal with |- context [match index_of ?f ?l with _ => _ end] => destruct (index_of f l) as [i|] eqn:Ef end; cbn -[u32 own ledger pool_refs].
    + apply index_of_Some in Ef as (s & Hs & Hf & _). apply Z.eqb_eq in Hf.
      pose proof (Forall_lookup_1 _ _ _ _ Hc Hs Hf) as Hb.
      assert (Hc' : clean (<[i := mk_resource (u32 (g_next_resource_id (w_gpu w) + 1)) wd ht f None true true]>
                             (g_pool (w_gpu w)))).
      { apply Forall_insert; [exact Hc|by cbn]. }
      unfold ledger, balance, mem_balance. cbn -[own pool_refs]. split; [exact Hc'|].
      exists SIZEOF_GPU_RESOURCE, 0, 0, 0. split; [by right|]. 
      rewrite (pool_refs_insert id _ _ _ _ Hs). unfold slot_refs. rewrite Hb. cbn -[own pool_refs]. rewrite own_None. apply quad_eq; lia.
    + unfold ledger, balance, mem_balance. cbn -[own pool_refs]. split; [done|].
      exists SIZEOF_GPU_RESOURCE, 0, 0, 0. split; [by right|]. apply quad_eq; lia.
  - still.
Qed.

Lemma shifts_deallocateResource id res : shifts id (deallocateResource res) (fun _ => same).
Proof.
  intros w Hc. unfold deallocateResource, lock_resources, unlock_resources, release,
    bind, upd_gpu, upd_mem, modify, get_gpu, gets, ret, submit.
  cbn -[own ledger pool_refs]. match goal with |- context [submit_cmd ?c ?n ?t] => destruct (submit_cmd c n t) as [[r resp] t'] end. cbn -[own ledger pool_refs].
  destruct (is_success r); cbn -[own ledger pool_refs].
  2: still.
  match goal with |- context [match index_of ?f ?l with _ => _ end] => destruct (index_of f l) as [i|] end; cbn -[own ledger pool_refs].
  2: still.
  destruct (g_pool (w_gpu w) !! i) as [s|] eqn:Hs; cbn -[own ledger pool_refs].
  2: still.
  assert (Hc' : clean (<[i := mk_resource 0 (r_width s) (r_height s) (r_format s) None (r_is_3d s) false]>
                         (g_pool (w_gpu w)))).
  { apply Forall_insert; [exact Hc|by cbn]. }
  destruct (r_backing_memory s) as [d|] eqn:Hb; unfold ledger, balance, mem_balance; cbn -[own bump pool_refs];
    (split; [exact Hc'|]); exists 0, 0, 0, 0; (split; [done|]); unfold ledger, balance, mem_balance; cbn -[own bump pool_refs];
    rewrite (pool_refs_insert id _ _ _ _ Hs); unfold slot_refs; rewrite Hb; cbn -[own bump pool_refs];
    rewrite ?own_None, ?count_bump_own; apply quad_eq; lia.
Qed.
End ledger.

(** ** What the accelerator holds *)
Definition zsum {A} (f : A -> Z) (l : list A) : Z := foldr (fun x n => f x + n) 0 l.
#[export] Instance zsum_perm {A} (f : A -> Z) : Proper (Permutation ==> eq) (zsum f).
Proof. intros l l' Hp. induction Hp; unfold zsum in *; cbn in *; lia. Qed.
Lemma zsum_fmap {A} (f : A -> Z) (g : A -> A) l : (forall x, f (g x) = f x) -> zsum f (g <$> l) = zsum f l.
Proof. intros Hfg. induction l as [|x l IH]; [done|]. cbn. rewrite Hfg. unfold zsum in *. cbn in IH. lia. Qed.
Lemma zsum_cons {A} (f : A -> Z) x l : zsum f (x :: l) = f x + zsum f l.
Proof. done. Qed.

Definition context_size (c : accel_context) : Z := SIZEOF_CONTEXT + 4 * ac_bound_surface_capacity c.
Definition surface_refs (id : Z) (s : accel_surface) : Z := own id (md_id <$> as_backing_memory s).
Definition contexts_heap (p : pool accel_context) : Z :=
  SIZEOF_PTR * capacity p + zsum context_size (objects p).
Definition surfaces_heap (p : pool accel_surface) : Z :=
  SIZEOF_PTR * capacity p + SIZEOF_SURFACE * Z.of_nat (length (objects p)).
Definition held_heap (a : accel) : Z := contexts_heap (a_contexts a) + surfaces_heap (a_surfaces a).
Definition held_refs (id : Z) (a : accel) : Z := zsum (surface_refs id) (objects (a_surfaces a)).

Section held.
Context {A : Type}.
Implicit Types (p q : pool A) (x y : A) (f : A -> Z).
Lemma capacity_put i x p : capacity (put_slot i x p) = capacity p.
Proof. unfold capacity, put_slot. cbn. by rewrite length_insert. Qed.
Lemma capacity_empty i p : capacity (empty_slot i p) = capacity p.
Proof. unfold capacity, empty_slot. cbn. by rewrite length_insert. Qed.
Lemma zsum_added f p q x : added x p q -> zsum f (objects q) = f x + zsum f (objects p).
Proof. intros [Hp _]. by rewrite Hp. Qed.
Lemma zsum_removed f p i x :
  p_slots p !! i = Some (Some x) -> zsum f (objects (empty_slot i p)) = zsum f (objects p) - f x.
Proof.
  intros Hi. unfold objects, empty_slot. cbn [p_slots]. rewrite (objects_remove _ _ _ Hi), zsum_cons. lia.
Qed.
Lemma zsum_put f p i x y :
  p_slots p !! i = Some (Some x) -> zsum f (objects (put_slot i y p)) = zsum f (objects p) - f x + f y.
Proof.
  intros Hi. unfold objects, put_slot. cbn [p_slots].
  rewrite (objects_replace _ _ _ y Hi), (objects_remove _ _ _ Hi), !zsum_cons. lia.
Qed.
Lemma zsum_one p : Z.of_nat (length (objects p)) = zsum (fun _ => 1) (objects p).
Proof. unfold zsum. induction (objects p); cbn -[Z.of_nat]; [done|]. cbn in *. lia. Qed.
End held.

Lemma contexts_heap_added c p q :
  added c p q -> contexts_heap q = contexts_heap p + SIZEOF_PTR * (capacity q - capacity p) + context_size c.
Proof. intros Hq. unfold contexts_heap. rewrite (zsum_added context_size _ _ _ Hq). lia. Qed.
Lemma contexts_heap_removed p i c :
  p_slots p !! i = Some (Some c) -> contexts_heap (empty_slot i p) = contexts_heap p - context_size c.
Proof. intros Hi. unfold contexts_heap. rewrite capacity_empty, (zsum_removed _ _ _ _ Hi). lia. Qed.
Lemma contexts_heap_put p i c c' :
  p_slots p !! i = Some (Some c) ->
  contexts_heap (put_slot i c' p) = contexts_heap p - context_size c + context_size c'.
Proof. intros Hi. unfold contexts_heap. rewrite capacity_put, (zsum_put _ _ _ _ _ Hi). lia. Qed.
Lemma surfaces_heap_added s p q :
  added s p q -> surfaces_heap q = surfaces_heap p + SIZEOF_PTR * (capacity q - capacity p) + SIZEOF_SURFACE.
Proof. intros Hq. unfold surfaces_heap. rewrite !zsum_one, (zsum_added _ _ _ _ Hq). lia. Qed.
Lemma surfaces_heap_removed p i s :
  p_slots p !! i = Some (Some s) -> surfaces_heap (empty_slot i p) = surfaces_heap p - SIZEOF_SURFACE.
Proof. intros Hi. unfold surfaces_heap. rewrite capacity_empty, !zsum_one, (zsum_removed _ _ _ _ Hi). lia. Qed.
Lemma surfaces_heap_put p i s s' :
  p_slots p !! i = Some (Some s) -> surfaces_heap (put_slot i s' p) = surfaces_heap p.
Proof. intros Hi. unfold surfaces_heap. rewrite capacity_put, !zsum_one, (zsum_put _ _ _ _ _ Hi). lia. Qed.

Definition plus4 (d e : Z * Z * Z * Z) : Z * Z * Z * Z :=
  let '(a1, a2, a3, a4) := d in let '(b1, b2, b3, b4) := e in (b1 + a1, b2 + a2, b3 + a3, b4 + a4).
Lemma plus4_plus4 d e (b : option (Z * Z * Z * Z)) :
  plus4 d <$> (plus4 e <$> b) = plus4 (plus4 d e) <$> b.
Proof.
  destruct b as [[[[b1 b2] b3] b4]|]; [|done]. destruct d as [[[? ?] ?] ?], e as [[[? ?] ?] ?]. cbn.
  f_equal. apply quad_eq; lia.
Qed.
Lemma plus4_zero (b : option (Z * Z * Z * Z)) : plus4 (0, 0, 0, 0) <$> b = b.
Proof. destruct b as [[[[b1 b2] b3] b4]|]; [|done]. cbn. f_equal. apply quad_eq; lia. Qed.

#[export] Instance clean_dec p : Decision (clean p).
Proof. unfold clean. apply _. Defined.

Section steps.
Context {T : Type} `{Transport T}.
Abbreviation S := (aworld T).
Context (id : Z).

(** The accelerator's members are [a]; the kernel's account is [b], if it is
    followed. *)
Definition st (a : accel) (b : option (Z * Z * Z * Z)) (w : S) : Prop :=
  aw_acc w = a /\
  match b with
  | Some b => clean (g_pool (w_gpu (aw_world w))) /\ ledger id (aw_world w) = b
  | None => True
  end.

Lemma acc_get_step {A B} a b (f : accel -> A) (k : A -> M S B) Q :
  hoare (st a b) (k (f a)) Q -> hoare (st a b) (bind (get_acc f) k) Q.
Proof. intros Hk w Hw. destruct Hw as [<- Hb]. by apply Hk. Qed.
Lemma acc_upd_step {B} a b f (k : unit -> M S B) Q :
  hoare (st (f a) b) (k tt) Q -> hoare (st a b) (bind (upd_acc f) k) Q.
Proof. intros Hk w [<- Hb]. apply Hk. by split. Qed.
Lemma st_copy {B} a b cs (k : unit -> M S B) Q :
  hoare (st a b) (k tt) Q -> hoare (st a b) (bind (bcopy_all cs) k) Q.
Proof. intros Hk w [<- Hb]. apply Hk. by split. Qed.
Lemma st_kernel {A B} a b (x : M (world T) A) f (k : A -> M S B) Q :
  shifts id x f -> (forall w, exists d, f (x w).1 d) ->
  (forall r d, f r d -> hoare (st a (plus4 d <$> b)) (k r) Q) ->
  hoare (st a b) (bind (kernel x) k) Q.
Proof.
  intros Hx Hi Hk w [<- Hb]. unfold bind, kernel. specialize (Hx (aw_world w)). specialize (Hi (aw_world w)).
  destruct (x (aw_world w)) as [r w'] eqn:E. destruct b as [[[[h m] p] q]|].
  - destruct Hb as [Hc Hl]. specialize (Hx Hc). rewrite Hl in Hx.
    destruct Hx as (Hc' & dh & dm & dp & dr & Hf & Hl'). apply (Hk _ _ Hf). split; [done|]. split; [done|exact Hl'].
  - destruct Hi as [d Hd]. by apply (Hk r d Hd).
Qed.
Lemma st_on_gpu {A B} a b (dflt : A) (x : M (world T) A) (k : A -> M S B) Q :
  a_gpu_device a = true ->
  hoare (st a b) (bind (kernel x) k) Q -> hoare (st a b) (bind (on_gpu dflt x) k) Q.
Proof.
  intros Hg Hk w Hw. specialize (Hk w Hw). destruct Hw as [<- Hb].
  unfold on_gpu, bind, get_acc, gets in *. by rewrite Hg.
Qed.
Lemma st_if {A B} a b (c : bool) (m1 m2 : M S A) (k : A -> M S B) Q :
  (c = true -> hoare (st a b) (bind m1 k) Q) -> (c = false -> hoare (st a b) (bind m2 k) Q) ->
  hoare (st a b) (bind (if c then m1 else m2) k) Q.
Proof. destruct c; auto. Qed.
Lemma acc_ret_step {A B} a b (x : A) (k : A -> M S B) Q :
  hoare (st a b) (k x) Q -> hoare (st a b) (bind (ret x) k) Q.
Proof. done. Qed.
Lemma bind_flat {A B C D E F} (u : M S A) (r : M S B) (p : M S C) (f : M S D) (x : E) (k : E -> M S F) w :
  bind (u ;;; r ;;; p ;;; f ;;; ret x) k w = (u ;;; r ;;; p ;;; f ;;; k x) w.
Proof. unfold bind, ret. repeat (case_match; simplify_eq). congruence. Qed.
Lemma st_bind {A B C} a b (m : M S A) (k : A -> M S B) (k' : B -> M S C) Q :
  hoare (st a b) (bind m (fun x => bind (k x) k')) Q -> hoare (st a b) (bind (bind m k) k') Q.
Proof. intros Hh w Hw. rewrite bind_bind. by apply Hh. Qed.
Lemma st_leaf {A} a b (x : A) (Q : A -> accel -> option (Z * Z * Z * Z) -> Prop) :
  Q x a b -> hoare (st a b) (ret x) (fun y w => exists a' b', st a' b' w /\ Q y a' b').
Proof. intros HQ w Hw. exists a, b. done. Qed.
End steps.

Create HintDb shifts.
#[export] Hint Resolve shifts_execute shifts_supports3D shifts_createRenderContext
  shifts_destroyRenderContext shifts_updateDisplay shifts_deallocateResource : shifts.

(** One step of a method, at known members and a known account. *)
Ltac acc_kernel :=
  first
    [ eapply st_kernel; [apply shifts_IOMalloc|intros ?; eexists; reflexivity|intros [?|] ? ->; cbn beta iota]
    | eapply st_kernel; [apply shifts_new_descriptor|intros ?; eexists; split; [reflexivity|apply new_descriptor_length]|intros [?|] ? [-> ?]; cbn [fmap option_fmap option_map]]
    | eapply st_kernel; [apply shifts_IOFree|intros ?; eexists; reflexivity|intros ? ? ->]
    | eapply st_kernel; [apply shifts_release|intros ?; eexists; reflexivity|intros ? ? ->]
    | eapply st_kernel; [apply shifts_retain|intros ?; eexists; reflexivity|intros ? ? ->]
    | eapply st_kernel; [apply shifts_map_add|intros ?; eexists; reflexivity|intros ? ? ->]
    | eapply st_kernel; [apply shifts_allocateResource3D|intros ?; eexists; by left|intros ? ? ?]
    | eapply st_kernel; [solve [eauto with shifts]|intros ?; by eexists|
        let H := fresh in intros ? ? H; unfold same in H; rewrite <- H; rewrite plus4_zero; clear H] ].
Ltac acc_step :=
  lazymatch goal with
  | |- hoare _ (bind (get_acc _) _) _ => apply acc_get_step
  | |- hoare _ (bind (upd_acc _) _) _ => apply acc_upd_step
  | |- hoare _ (bind (bcopy_all _) _) _ => apply st_copy
  | |- hoare _ (bind (bind _ _) _) _ => apply st_bind
  | |- hoare _ (bind (ret _) _) _ => apply acc_ret_step
  | |- hoare _ (bind (on_gpu _ _) _) _ => apply st_on_gpu; [assumption|]
  | |- hoare _ (bind (kernel _) _) _ => acc_kernel
  end.

Section pool_steps.
Context {T : Type} `{Transport T}.
Abbreviation S := (aworld T).
Context (id : Z).

Lemma st_pool_add {A B} (key : A -> Z) initial next a b get set (x : A) (k : bool -> M S B) Q :
  (forall p a, get (set p a) = p) -> (forall p q a, set p (set q a) = set p a) ->
  pool_ok key initial next (get a) -> 0 < initial < 2 ^ 31 -> 1 <= next < 2 ^ 30 ->
  hoare (st id a b) (k false) Q ->
  (forall q, added x (get a) q -> capacity q <= Z.max initial (2 * next) ->
     hoare (st id (set q a) (plus4 (SIZEOF_PTR * (capacity q - capacity (get a)), 0, 0, 0) <$> b)) (k true) Q) ->
  hoare (st id a b) (bind (pool_add initial get set x) k) Q.
Proof.
  intros Hgs Hss Hok Hi Hn Hf Ht. pose proof (pool_ok_objects _ _ _ _ Hok ltac:(lia)) as Hlen.
  unfold pool_add. apply st_bind, acc_get_step. destruct (index_of slot_free (p_slots (get a))) as [i|] eqn:Ei.
  - pose proof (po_count _ _ _ _ Hok). pose proof (po_room _ _ _ _ Hok).
    destruct (fill_free_added _ i x Ei ltac:(lia) ltac:(lia)) as [Hadd Hcap].
    apply st_bind, acc_upd_step, acc_ret_step. specialize (Ht _ Hadd ltac:(lia)).
    rewrite Hcap, Z.sub_diag, Z.mul_0_r, plus4_zero in Ht. exact Ht.
  - destruct (fill_grown_added key initial next (get a) x Ei Hok Hi ltac:(lia)) as [Hadd Hcap].
    apply st_bind. unfold pool_grow. apply st_bind, acc_get_step, st_bind. acc_kernel.
    + apply st_bind. acc_kernel. apply st_bind, acc_upd_step, acc_ret_step. cbn [negb].
      apply st_bind, acc_upd_step, acc_ret_step. rewrite Hss, Hgs. specialize (Ht _ Hadd ltac:(lia)).
      rewrite plus4_plus4. cbn [plus4].
      match type of Ht with context [plus4 (?u, 0, 0, 0)] => replace u with (grown_capacity initial (get a) * SIZEOF_PTR + - (capacity (get a) * SIZEOF_PTR)) in Ht end; [exact Ht|].
      unfold capacity, fill_slot, grow_slots, SIZEOF_PTR. cbn [p_slots].
      rewrite length_insert, length_app, length_replicate.
      assert (capacity (get a) <= grown_capacity initial (get a)); [|unfold capacity in *; lia].
      pose proof (po_room _ _ _ _ Hok). unfold grown_capacity.
      destruct (Z.eqb_spec (capacity (get a)) 0); [lia|]. rewrite u32_small; unfold capacity in *; lia.
    + rewrite plus4_zero. apply acc_ret_step. cbn [negb]. by apply acc_ret_step.
Qed.

Definition bound_more (n : Z) (sid : Z) (c c' : accel_context) : Prop :=
  c' = set_bound (ac_bound_surface_ids c') (ac_bound_surface_capacity c') c /\
  (ac_bound_surface_ids c' = ac_bound_surface_ids c \/ ac_bound_surface_ids c' = ac_bound_surface_ids c ++ [sid])
  /\ ctx_ok n c'.

Lemma st_bind_surface {B} a b i c n sid (k : bool -> M S B) Q :
  p_slots (a_contexts a) !! i = Some (Some c) -> ctx_ok n c -> 1 < sid <= n -> n < 2 ^ 30 ->
  (forall r c', bound_more n sid c c' ->
     hoare (st id (set_a_contexts (put_slot i c' (a_contexts a)) a)
              (plus4 (4 * (ac_bound_surface_capacity c' - ac_bound_surface_capacity c), 0, 0, 0) <$> b)) (k r) Q) ->
  hoare (st id a b) (bind (contextBindSurface i sid) k) Q.
Proof.
  intros Hi Hc Hsid Hn Hk. destruct (Hc) as [H1 H2 H3 H4 H5].
  assert (Hsame : forall r, hoare (st id a b) (k r) Q).
  { intros r. specialize (Hk r c).
    rewrite Z.sub_diag, Z.mul_0_r, plus4_zero in Hk.
    replace (set_a_contexts (put_slot i c (a_contexts a)) a) with a in Hk.
    - apply Hk. split; [by destruct c|]. split; [by left|done].
    - unfold put_slot. rewrite list_insert_id by done. by destruct a as [? ? ? ? [] ? ? ? ? ? ? ? ? ? ?]. }
  unfold contextBindSurface, context_at. apply st_bind, acc_get_step. rewrite Hi.
  destruct (existsb (Z.eqb sid) (ac_bound_surface_ids c)) eqn:Ex; [by apply acc_ret_step|].
  assert (Hnin : sid ∉ ac_bound_surface_ids c).
  { intros Hin. apply list_elem_of_lookup in Hin as (j & Hj). apply Bool.not_true_iff_false in Ex. apply Ex.
    apply existsb_exists. exists sid. rewrite Z.eqb_refl. split; [|done].
    apply list_elem_of_In. by eapply list_elem_of_lookup_2. }
  assert (Hnew : forall cap, bound_surface_count c + 1 <= cap -> cap <= Z.max 8 (2 * n) ->
    bound_more n sid c (set_bound (ac_bound_surface_ids c ++ [sid]) cap c)).
  { intros cap Hcap Hmax. split; [done|]. split; [by right|]. unfold bound_surface_count in *. split; cbn.
    - apply NoDup_app. split_and!; [done| |by apply NoDup_singleton].
      intros z Hz ->%list_elem_of_singleton. done.
    - apply Forall_app. split; [done|]. by constructor.
    - unfold bound_surface_count. cbn. rewrite length_app. cbn. lia.
    - unfold bound_surface_count in *. lia.
    - done. }
  apply st_bind. destruct (Z.eqb_spec (bound_surface_count c) (ac_bound_surface_capacity c)) as [Hfull|Hroom].
  - pose proof (distinct_bound _ n ltac:(lia) H1 H2) as Hlen. unfold bound_surface_count in *.
    apply st_bind. acc_kernel; [|rewrite plus4_zero; do 2 apply acc_ret_step; by apply Hsame].
    set (cap := if ac_bound_surface_capacity c =? 0 then 8 else u32 (ac_bound_surface_capacity c * 2)).
    assert (Hcap : cap = Z.max 8 (ac_bound_surface_capacity c * 2) \/ cap = 8 /\ ac_bound_surface_capacity c = 0
                   \/ cap = ac_bound_surface_capacity c * 2 /\ ac_bound_surface_capacity c <> 0).
    { right. unfold cap. destruct (Z.eqb_spec (ac_bound_surface_capacity c) 0); [by left|right].
      rewrite u32_small by lia. done. }
    apply st_bind.
    destruct (Z.eqb_spec (ac_bound_surface_capacity c) 0) as [Hz|Hz].
    + do 2 apply acc_ret_step. unfold put_context. apply st_bind, acc_upd_step, acc_ret_step.
      specialize (Hk true _ (Hnew cap ltac:(lia) ltac:(lia))). cbn [ac_bound_surface_capacity set_bound] in Hk.
      rewrite Hz in Hk. replace (cap * 4) with (4 * (cap - 0)) by lia. exact Hk.
    + acc_kernel. apply acc_ret_step. unfold put_context. apply st_bind, acc_upd_step, acc_ret_step.
      specialize (Hk true _ (Hnew cap ltac:(lia) ltac:(lia))). cbn [ac_bound_surface_capacity set_bound] in Hk.
      rewrite plus4_plus4. cbn [plus4].
      replace (cap * 4 + - (ac_bound_surface_capacity c * 4)) with (4 * (cap - ac_bound_surface_capacity c)) by lia.
      exact Hk.
  - apply acc_ret_step. unfold put_context. apply st_bind, acc_upd_step, acc_ret_step.
    specialize (Hk true _ (Hnew (ac_bound_surface_capacity c) ltac:(lia) ltac:(lia))).
    cbn [ac_bound_surface_capacity set_bound] in Hk. rewrite Z.sub_diag, plus4_zero in Hk. exact Hk.
Qed.
End pool_steps.

(** ** What an operation leaves
    The invariant, the ids given out, and an account that has moved by what
    the accelerator holds more, and at most [n] lost blocks. *)
Definition fair (id : Z) (n : Z) (a : accel) (b : option (Z * Z * Z * Z)) (a' : accel)
    (b' : option (Z * Z * Z * Z)) : Prop :=
  exists k, 0 <= k <= n /\
    b' = plus4 (held_heap a' - held_heap a + SIZEOF_GPU_RESOURCE * k, 0, 0,
                held_refs id a' - held_refs id a) <$> b.
Definition grown (a a' : accel) : Prop :=
  a_gpu_device a' = a_gpu_device a /\ a_framebuffer a' = a_framebuffer a
  /\ a_texture_manager a' = a_texture_manager a
  /\ a_next_context_id a <= a_next_context_id a' <= a_next_context_id a + 1
  /\ a_next_surface_id a <= a_next_surface_id a' <= a_next_surface_id a + 2.

Lemma fair_intro id n a b a' d k :
  0 <= k <= n ->
  d = (held_heap a' - held_heap a + SIZEOF_GPU_RESOURCE * k, 0, 0, held_refs id a' - held_refs id a) ->
  fair id n a b a' (plus4 d <$> b).
Proof. intros Hk ->. by exists k. Qed.
Lemma fair_zero id n a b a' :
  0 <= n -> held_heap a' = held_heap a -> held_refs id a' = held_refs id a -> fair id n a b a' b.
Proof.
  intros Hn E1 E2. exists 0. split; [lia|]. rewrite E1, E2. rewrite !Z.sub_diag. by rewrite plus4_zero.
Qed.

(** The members the pools and accounts do not depend on. *)
Ltac acc_leaf := apply st_leaf; rewrite ?plus4_plus4; cbn [plus4].
Ltac acc_run := repeat acc_step.

Section operations.
Context {T : Type} `{Transport T}.
Abbreviation S := (aworld T).
Context (id : Z).
Implicit Types (a : accel) (b : option (Z * Z * Z * Z)).

Lemma grown_refl a a' :
  a_gpu_device a' = a_gpu_device a -> a_framebuffer a' = a_framebuffer a ->
  a_texture_manager a' = a_texture_manager a ->
  a_next_context_id a' = a_next_context_id a -> a_next_surface_id a' = a_next_surface_id a -> grown a a'.
Proof. intros ? ? ? E1 E2. unfold grown. rewrite E1, E2. split_and!; try done; lia. Qed.

Lemma st_lock {B} a b l (k : unit -> M S B) Q :
  a_lock a = Some l -> hoare (st id (set_a_lock (Some (lock_acquire l)) a) b) (k tt) Q ->
  hoare (st id a b) (bind lock k) Q.
Proof. intros Hl Hk. unfold lock. apply acc_upd_step. by rewrite Hl. Qed.
Lemma st_unlock {B} a b l (k : unit -> M S B) Q :
  a_lock a = Some l -> hoare (st id (set_a_lock (Some (lock_release l)) a) b) (k tt) Q ->
  hoare (st id a b) (bind unlock k) Q.
Proof. intros Hl Hk. unfold unlock. apply acc_upd_step. by rewrite Hl. Qed.

(** From members [a] and account [b], [m] ends as [P] says. *)
Definition ends {A} a b (m : M S A) (P : A -> accel -> option (Z * Z * Z * Z) -> Prop) : Prop :=
  hoare (st id a b) m (fun r w => exists a' b', st id a' b' w /\ P r a' b').

Lemma relock_ok a : accel_ok Unlocked a -> accel_ok Locked (set_a_lock (Some Locked) a).
Proof. intros Ha. by eapply ok_locked. Qed.
Lemma unlock_ok a : accel_ok Locked a -> accel_ok Unlocked (set_a_lock (Some Unlocked) a).
Proof. intros Ha. by eapply ok_locked. Qed.

(** ** Contexts *)
Definition context_made (a : accel) (task : Z) (r : IOReturn * option Z) (a' : accel) : Prop :=
  a_surfaces a' = a_surfaces a /\
  ((r.1 <> kIOReturnSuccess /\ r.2 = None /\ a_contexts a' = a_contexts a)
   \/ (exists g, r = (kIOReturnSuccess, Some (a_next_context_id a + 1))
       /\ a_next_context_id a' = a_next_context_id a + 1
       /\ added (mk_context (a_next_context_id a + 1) g true None task [] 0) (a_contexts a) (a_contexts a'))).

Lemma create3DContext_run a b ptr task :
  accel_ok Unlocked a -> a_gpu_device a = true -> a_next_context_id a < 2 ^ 30 - 1 ->
  ends a b (create3DContext ptr task) (fun r a' b' =>
    accel_ok Unlocked a' /\ grown a a' /\ fair id 0 a b a' b' /\ context_made a task r a').
Proof.
  intros Ha Hg Hn. pose proof (relock_ok a Ha) as Hl. pose proof (ok_next _ _ Ha) as [Hn1 Hn2].
  unfold ends, create3DContext. destruct ptr; cbn [negb].
  2: { acc_leaf. split_and!; [done|by apply grown_refl|by apply fair_zero|]. split; [done|]. by left. }
  apply (st_lock _ _ Unlocked); [apply Ha|]. cbn [lock_acquire].
  set (a1 := set_a_lock (Some Locked) a) in *.
  assert (Hfail : forall r, r <> kIOReturnSuccess ->
    ends a1 b (unlock ;;; ret (r, None)) (fun r a' b' =>
      accel_ok Unlocked a' /\ grown a a' /\ fair id 0 a b a' b' /\ context_made a task r a')).
  { intros r Hr. unfold ends. apply (st_unlock _ _ Locked); [done|]. acc_leaf.
    split_and!; [by eapply ok_locked|by apply grown_refl|by apply fair_zero|]. split; [done|]. by left. }
  do 2 acc_step. match goal with x : (IOReturn * Z)%type |- _ => destruct x as [r g] end.
  cbn [fst snd]. destruct (is_success r) eqn:Er; cbn [negb].
  2: { apply Hfail. by apply is_success_false. }
  acc_kernel.
  2: { rewrite plus4_zero. do 2 acc_step. by apply Hfail. }
  do 2 acc_step. cbn [a_next_context_id a1 set_a_lock set_a_next_context_id].
  rewrite u32_small by lia.
  set (a2 := set_a_next_context_id (a_next_context_id a + 1) a1).
  assert (H2 : accel_ok Locked a2) by (apply ok_next_context; [done|cbn; lia]).
  set (c := mk_context _ _ _ _ _ _ _).
  unfold poolAddContext. eapply (st_pool_add id ac_context_id _ (a_next_context_id a + 1));
    [done|by intros ? ? []|apply H2|done|lia| |].
  - cbn [negb]. do 3 acc_step. apply (st_unlock _ _ Locked); [done|]. acc_leaf.
    split_and!; [by eapply ok_locked|repeat split; cbn; lia| |split; [done|by left]].
    replace (SIZEOF_CONTEXT + - SIZEOF_CONTEXT) with 0 by lia. rewrite plus4_zero. by apply fair_zero.
  - intros q Hq Hcap. cbn [negb]. apply (st_unlock _ _ Locked); [done|]. acc_leaf. split_and!.
    + assert (Hc : ctx_ok (a_next_surface_id a) c).
      { split; cbn; [constructor|constructor|done|lia|done]. }
      pose proof (ok_add_context _ _ Hl c q ltac:(cbn; lia) Hc Hq Hcap) as Ho.
      by apply (ok_locked _ _ Ho Unlocked).
    + repeat split; cbn; lia.
    + apply (fair_intro _ _ _ _ _ _ 0); [lia|]. apply quad_eq; [|done|done|unfold held_refs; cbn; lia].
      unfold held_heap. cbn -[Z.mul SIZEOF_GPU_RESOURCE]. rewrite (contexts_heap_added _ _ _ Hq).
      change (context_size c) with (SIZEOF_CONTEXT + 0). cbn. lia.
    + split; [done|]. right. exists g. split_and!; [done|done|exact Hq].
Qed.

Lemma st_destroyContextInternal {B} a b l cid (k : IOReturn -> M S B) Q :
  accel_ok l a -> a_gpu_device a = true ->
  (find_slot ac_context_id cid (a_contexts a) = None -> hoare (st id a b) (k kIOReturnNotFound) Q) ->
  (forall i c, find_slot ac_context_id cid (a_contexts a) = Some (i, c) ->
     hoare (st id (set_a_contexts (empty_slot i (a_contexts a)) a) (plus4 (- context_size c, 0, 0, 0) <$> b))
       (k kIOReturnSuccess) Q) ->
  hoare (st id a b) (bind (destroyContextInternal cid) k) Q.
Proof.
  intros Ha Hg Hn Hs. unfold destroyContextInternal, findContext. do 2 acc_step.
  destruct (find_slot ac_context_id cid (a_contexts a)) as [[i c]|] eqn:Ef; [|acc_step; by apply Hn].
  specialize (Hs i c eq_refl). apply find_slot_Some in Ef as [Hi _].
  pose proof (ok_context_at _ _ Ha i c Hi) as [_ _ _ Hcap Hcmd]. rewrite Hcmd.
  do 2 acc_step. rewrite Hg. acc_step. acc_step. acc_step. acc_step. acc_step.
  assert (E : forall b', b' = plus4 (- (SIZEOF_CONTEXT + 4 * ac_bound_surface_capacity c), 0, 0, 0) <$> b ->
     hoare (st id (set_a_contexts (empty_slot i (a_contexts a)) a) b') (k kIOReturnSuccess) Q).
  { intros b' ->. exact Hs. }
  destruct (Z.eqb_spec (ac_bound_surface_capacity c) 0) as [Hz|Hz]; unfold poolRemoveContext; acc_run;
    apply E; rewrite ?plus4_plus4; f_equal; cbn [plus4]; f_equal; apply quad_eq; lia.
Qed.

Definition context_gone (a : accel) (cid : Z) (r : IOReturn) (a' : accel) : Prop :=
  a_surfaces a' = a_surfaces a /\
  match find_slot ac_context_id cid (a_contexts a) with
  | Some (i, c) => r = kIOReturnSuccess /\ a_contexts a' = empty_slot i (a_contexts a)
  | None => r = kIOReturnNotFound /\ a_contexts a' = a_contexts a
  end.

Lemma destroy3DContext_run a b cid :
  accel_ok Unlocked a -> a_gpu_device a = true ->
  ends a b (destroy3DContext cid) (fun r a' b' =>
    accel_ok Unlocked a' /\ grown a a' /\ fair id 0 a b a' b' /\ context_gone a cid r a').
Proof.
  intros Ha Hg. pose proof (relock_ok a Ha) as Hl.
  unfold ends, destroy3DContext. apply (st_lock _ _ Unlocked); [apply Ha|]. cbn [lock_acquire].
  set (a1 := set_a_lock (Some Locked) a) in *.
  apply (st_destroyContextInternal _ _ Locked); [done|done|intros Hf|intros i c Hf].
  - apply (st_unlock _ _ Locked); [done|]. acc_leaf.
    split_and!; [by eapply ok_locked|by apply grown_refl|by apply fair_zero|split; [done|]].
    cbn in Hf. rewrite Hf. done.
  - apply (st_unlock _ _ Locked); [done|]. acc_leaf. cbn in Hf. pose proof (find_slot_Some _ _ _ _ _ Hf) as [Hi _].
    pose proof (ok_remove_context _ _ Hl i c Hi) as Ho.
    split_and!; [by apply (ok_locked _ _ Ho Unlocked)|by apply grown_refl| |split; [done|by rewrite Hf]].
    apply (fair_intro _ _ _ _ _ _ 0); [lia|]. apply quad_eq; [|done|done|unfold held_refs; cbn; lia].
    unfold held_heap. cbn -[Z.mul SIZEOF_GPU_RESOURCE]. rewrite (contexts_heap_removed _ _ _ Hi). lia.
Qed.

(** ** Surfaces *)
Definition surface_at_id (n g : Z) (info : surface_info) (d : mdesc) : accel_surface :=
  mk_surface n g (set_surface_id n info) (Some d) false true.
(** A surface entered: its buffer has the right size and its context lists it,
    unless there was no memory for the list. *)
Definition surface_made (a : accel) (cid : Z) (info : surface_info) (size : Z) (a' : accel) : Prop :=
  exists i c c' g d, let n := a_next_surface_id a + 1 in
    find_slot ac_context_id cid (a_contexts a) = Some (i, c)
    /\ a_next_surface_id a' = n /\ added (surface_at_id n g info d) (a_surfaces a) (a_surfaces a')
    /\ md_length d = size /\ a_contexts a' = put_slot i c' (a_contexts a) /\ bound_more n n c c'.

Lemma lost_times d : lost d -> exists k, 0 <= k <= 1 /\ d = (SIZEOF_GPU_RESOURCE * k, 0, 0, 0).
Proof. intros [->| ->]; [exists 0|exists 1]; split; (done || lia). Qed.

(** Entering surface [n + 1] in the pool and in context [i]. *)
Lemma st_enter_surface {B} a b l cid i c g info d (k : bool -> bool -> M S B) Q :
  let n := a_next_surface_id a in let s := surface_at_id (n + 1) g info d in
  let a0 := set_a_next_surface_id (n + 1) a in
  accel_ok l a -> find_slot ac_context_id cid (a_contexts a) = Some (i, c) -> n < 2 ^ 30 - 1 ->
  calculateSurfaceSize info <= md_length d ->
  hoare (st id a0 b) (k false false) Q ->
  (forall a' r, accel_ok l a' -> a_gpu_device a' = a_gpu_device a -> a_framebuffer a' = a_framebuffer a ->
     a_texture_manager a' = a_texture_manager a -> a_lock a' = a_lock a ->
     a_next_context_id a' = a_next_context_id a -> surface_made a cid info (md_length d) a' ->
     hoare (st id a' (plus4 (held_heap a' - held_heap a - SIZEOF_SURFACE, 0, 0, held_refs id a' - held_refs id a - own id (Some (md_id d))) <$> b))
       (k true r) Q) ->
  hoare (st id a0 b)
    (bind (poolAddSurface s) (fun added => if negb added then k false false
                                           else bind (contextBindSurface i (n + 1)) (k true))) Q.
Proof.
  intros n s a0 Ha Hf Hn Hd Hfail Hok. pose proof (ok_next _ _ Ha) as [Hn1 Hn2]. fold n in Hn2.
  assert (H0 : accel_ok l a0) by (apply ok_next_surface; [done|unfold n; lia]).
  unfold poolAddSurface. eapply (st_pool_add id as_surface_id _ (n + 1));
    [done|by intros ? ? []|apply H0|done|lia|exact Hfail|].
  intros q Hq Hcap. cbn [negb].
  assert (Hs : surf_ok s) by (exists d; split; [done|exact Hd]).
  pose proof (ok_add_surface _ _ Ha s q ltac:(cbn; unfold n; lia) Hs Hq Hcap) as H1.
  change (set_a_next_surface_id (as_surface_id s) a) with a0 in H1.
  destruct (find_slot_Some _ _ _ _ _ Hf) as [Hi _].
  eapply (st_bind_surface id _ _ i c (n + 1)); [exact Hi| |lia|lia|].
  { exact (ok_context_at _ _ H1 i c Hi). }
  intros r c' Hc'. rewrite plus4_plus4. cbn [plus4].
  set (a2 := set_a_contexts (put_slot i c' (a_contexts (set_a_surfaces q a0))) (set_a_surfaces q a0)).
  destruct Hc' as (E & Hids & Hco).
  assert (H2 : accel_ok l a2).
  { apply (ok_put_context _ _ H1 i c c'); [exact Hi|by rewrite E|exact Hco]. }
  specialize (Hok a2 r H2 eq_refl eq_refl eq_refl eq_refl eq_refl).
  match type of Hok with _ -> hoare (st id a2 (plus4 ?u <$> b)) _ _ =>
    match goal with |- hoare (st id a2 (plus4 ?v <$> b)) _ _ => replace v with u end end.
  - apply Hok. exists i, c, c', g, d. split_and!; [done|done|exact Hq|done|done|].
    split; [exact E|]. split; [exact Hids|exact Hco].
  - apply quad_eq; [|done|done|].
    + unfold held_heap. cbn [a_contexts a_surfaces a2 a0 set_a_contexts set_a_surfaces set_a_next_surface_id].
      rewrite (contexts_heap_put _ _ _ _ Hi), (surfaces_heap_added _ _ _ Hq).
      change (a_surfaces a0) with (a_surfaces a). unfold context_size. lia.
    + unfold held_refs. cbn [a_surfaces a2 set_a_contexts set_a_surfaces]. rewrite (zsum_added _ _ _ _ Hq).
      change (a_surfaces a0) with (a_surfaces a).
      change (surface_refs id s) with (own id (Some (md_id d))). lia.
Qed.

Definition surface_outcome (a : accel) (cid : Z) (info : surface_info) (size : Z) (ok : bool) (a' : accel) : Prop :=
  if ok then surface_made a cid info size a'
  else a_contexts a' = a_contexts a /\ a_surfaces a' = a_surfaces a.

Definition surface_post a b (cid : Z) (info : surface_info) (size : Z) (r : IOReturn) a' b' : Prop :=
  accel_ok Unlocked a' /\ grown a a' /\ fair id 1 a b a' b'
  /\ surface_outcome a cid info size (is_success r) a'.

Lemma create3DSurface_run a b cid info :
  accel_ok Unlocked a -> a_gpu_device a = true -> a_next_surface_id a < 2 ^ 30 - 1 ->
  ends a b (create3DSurface cid (Some info)) (surface_post a b cid info (calculateSurfaceSize info)).
Proof.
  intros Ha Hg Hn. pose proof (relock_ok a Ha) as Hl. pose proof (ok_next _ _ Ha) as [Hn1 Hn2].
  unfold ends, create3DSurface. apply (st_lock _ _ Unlocked); [apply Ha|]. cbn [lock_acquire].
  set (a1 := set_a_lock (Some Locked) a) in *.
  set (post := surface_post a b cid info (calculateSurfaceSize info)).
  assert (Hfail : forall r n k, r <> kIOReturnSuccess -> 0 <= k <= 1 ->
    a_next_surface_id a <= n <= a_next_surface_id a + 1 ->
    ends (set_a_next_surface_id n a1) (plus4 (SIZEOF_GPU_RESOURCE * k, 0, 0, 0) <$> b) (unlock ;;; ret r) post).
  { intros r n k Hr Hk Hnn. unfold ends. apply (st_unlock _ _ Locked); [done|]. acc_leaf.
    assert (H0 : accel_ok Locked (set_a_next_surface_id n a1)) by (apply ok_next_surface; [done|cbn; lia]).
    split_and!; [by apply (ok_locked _ _ H0 Unlocked)|repeat split; cbn; lia| |].
    - apply (fair_intro _ _ _ _ _ _ k); [lia|]. apply quad_eq; [|done|done|unfold held_refs; cbn; lia].
      change (held_heap (set_a_lock (Some (lock_release Locked)) (set_a_next_surface_id n a1))) with (held_heap a). lia.
    - apply is_success_false in Hr. rewrite Hr. done. }
  assert (Hfail1 : forall r k, r <> kIOReturnSuccess -> 0 <= k <= 1 ->
    ends a1 (plus4 (SIZEOF_GPU_RESOURCE * k, 0, 0, 0) <$> b) (unlock ;;; ret r) post).
  { intros r k Hr Hk. specialize (Hfail r (a_next_surface_id a) k Hr Hk ltac:(lia)). by destruct a. }
  unfold findContext. acc_step. destruct (find_slot ac_context_id cid (a_contexts a1)) as [[i c]|] eqn:Ef.
  2: { specialize (Hfail1 kIOReturnNotFound 0 ltac:(done) ltac:(lia)).
       rewrite Z.mul_0_r, plus4_zero in Hfail1. exact Hfail1. }
  do 2 acc_step. match goal with x : (IOReturn * Z)%type |- _ => destruct x as [r g] end. cbn [fst snd].
  match goal with Hd : lost _ |- _ => apply lost_times in Hd as (k & Hk & ->) end.
  destruct (is_success r) eqn:Er; cbn [negb].
  2: { apply is_success_false in Er. by apply Hfail1. }
  acc_step.
  2: { rewrite plus4_zero. do 2 acc_step. by apply Hfail1. }
  unfold next_surface, allocateSurfaceMemory. do 3 acc_step.
  change (a_next_surface_id a1) with (a_next_surface_id a). rewrite u32_small by lia.
  change (a_next_surface_id (set_a_next_surface_id (a_next_surface_id a + 1) a1)) with (a_next_surface_id a + 1).
  assert (Hb : forall b0, b0 = plus4 (SIZEOF_GPU_RESOURCE * k, 0, 0, 0) <$> b ->
    ends (set_a_next_surface_id (a_next_surface_id a + 1) a1) b0 (unlock ;;; ret kIOReturnNoMemory) post).
  { intros b0 ->. apply Hfail; [done|lia|lia]. }
  do 2 acc_step.
  2: { acc_step. change (is_success (kIOReturnNoMemory, @None mdesc).1) with false. cbn [negb].
       rewrite own_None. do 3 acc_step. apply Hb. rewrite !plus4_plus4. f_equal. cbn [plus4]. f_equal. apply quad_eq; lia. }
  acc_step. change (is_success (kIOReturnSuccess, Some m).1) with true. cbn [fst snd negb].
  eapply (st_enter_surface a1 _ Locked cid i c g info m (fun ad _ => if ad then _ else _));
    [exact Hl|exact Ef|cbn; lia| | |].
  - match goal with Hm : forall x, Some m = Some x -> _ |- _ => rewrite (Hm m eq_refl) end. done.
  - do 4 acc_step. apply Hb. rewrite !plus4_plus4. f_equal. cbn [plus4]. f_equal. apply quad_eq; lia.
  - intros a' r' H1 H2 H3 H4 H5 H6 H7. acc_step.
    apply (st_unlock _ _ Locked); [cbn; by rewrite H5|]. acc_leaf.
    match goal with Hm : forall x, Some m = Some x -> _ |- _ => rewrite (Hm m eq_refl) in H7 end.
    assert (Hn' : a_next_surface_id a' = a_next_surface_id a + 1) by by destruct H7 as (? & ? & ? & ? & ? & ? & ? & _).
    change (a_next_context_id a1) with (a_next_context_id a) in H6.
    split; [|split; [|split; [|exact H7]]].
    + destruct H1. by split.
    + unfold grown. cbn. rewrite H2, H3, H4, H6, Hn'. split_and!; done || lia.
    + apply (fair_intro _ _ _ _ _ _ k); [lia|]. apply quad_eq; [|lia|lia|unfold held_refs; cbn; lia].
      change (held_heap a1) with (held_heap a). unfold held_heap; cbn -[Z.mul contexts_heap surfaces_heap]. lia.
Qed.

(** The surface in slot [si] leaves, and context [ci], if any, forgets it. *)
Definition forget (ci : option nat) (sid : Z) a : accel :=
  match ci with
  | Some i =>
      match p_slots (a_contexts a) !! i with
      | Some (Some c) => set_a_contexts (put_slot i (set_bound (unbind sid (ac_bound_surface_ids c))
                           (ac_bound_surface_capacity c) c) (a_contexts a)) a
      | _ => a
      end
  | None => a
  end.
Definition take_surface (ci : option nat) (si : nat) (sid : Z) a : accel :=
  set_a_surfaces (empty_slot si (a_surfaces a)) (forget ci sid a).

Lemma forget_ok l ci sid a : accel_ok l a -> accel_ok l (forget ci sid a).
Proof.
  intros Ha. destruct ci as [i|]; cbn; [|done].
  destruct (p_slots (a_contexts a) !! i) as [[c|]|] eqn:Hi; [|done|done].
  apply (ok_put_context _ _ Ha i c); [done|done|]. apply unbind_ok. by eapply ok_context_at.
Qed.
Lemma forget_surfaces ci sid a : a_surfaces (forget ci sid a) = a_surfaces a.
Proof. destruct ci as [i|]; cbn; [|done]. by repeat case_match. Qed.
Lemma forget_held ci sid a : contexts_heap (a_contexts (forget ci sid a)) = contexts_heap (a_contexts a).
Proof.
  destruct ci as [i|]; cbn; [|done].
  destruct (p_slots (a_contexts a) !! i) as [[c|]|] eqn:Hi; [|done|done].
  cbn -[contexts_heap]. rewrite (contexts_heap_put _ _ _ _ Hi). unfold context_size. cbn. lia.
Qed.
Lemma take_surface_ok l ci si sid s a :
  accel_ok l a -> p_slots (a_surfaces a) !! si = Some (Some s) -> accel_ok l (take_surface ci si sid a).
Proof.
  intros Ha Hs. unfold take_surface. rewrite <- (forget_surfaces ci sid a).
  apply (ok_remove_surface _ _ (forget_ok _ ci sid _ Ha) si s). by rewrite forget_surfaces.
Qed.
Lemma take_surface_account ci si sid s a :
  p_slots (a_surfaces a) !! si = Some (Some s) ->
  held_heap (take_surface ci si sid a) = held_heap a - SIZEOF_SURFACE
  /\ held_refs id (take_surface ci si sid a) = held_refs id a - surface_refs id s.
Proof.
  intros Hs. unfold held_heap, held_refs, take_surface.
  cbn -[contexts_heap surfaces_heap empty_slot objects forget]. rewrite forget_held, (surfaces_heap_removed _ _ _ Hs).
  rewrite (zsum_removed _ _ _ _ Hs). lia.
Qed.
Lemma take_surface_grown ci si sid a : grown a (take_surface ci si sid a).
Proof. apply grown_refl; unfold take_surface, forget; by repeat case_match. Qed.
Lemma take_surface_same ci si sid a :
  let t := take_surface ci si sid a in
  a_gpu_device t = a_gpu_device a /\ a_framebuffer t = a_framebuffer a
  /\ a_texture_manager t = a_texture_manager a /\ a_next_context_id t = a_next_context_id a
  /\ a_next_surface_id t = a_next_surface_id a.
Proof. unfold take_surface, forget; by repeat case_match. Qed.
Lemma take_surface_lock ci si sid a : a_lock (take_surface ci si sid a) = a_lock a.
Proof. unfold take_surface, forget; by repeat case_match. Qed.

(** The steps both destructors share. *)
Lemma st_take_surface {B} a b l (ci : option nat) si sid s (k : M S B) Q :
  accel_ok l a -> p_slots (a_surfaces a) !! si = Some (Some s) ->
  (forall i, ci = Some i -> is_Some (p_slots (a_contexts a) !! i)) ->
  hoare (st id (take_surface ci si sid a)
           (plus4 (- SIZEOF_SURFACE, 0, 0, - surface_refs id s) <$> b)) k Q ->
  hoare (st id a b)
    (bind (match ci with Some i => contextUnbindSurface i sid | None => ret tt end) (fun _ =>
       bind (release_backing s) (fun _ => bind (poolRemoveSurface si) (fun _ =>
         bind (kernel (IOFree SIZEOF_SURFACE)) (fun _ => k))))) Q.
Proof.
  intros Ha Hs Hci Hk.
  destruct (ok_surface_at _ _ Ha si s Hs) as (d & Hd & _).
  assert (Hrest : hoare (st id (forget ci sid a) b)
    (bind (release_backing s) (fun _ => bind (poolRemoveSurface si) (fun _ =>
         bind (kernel (IOFree SIZEOF_SURFACE)) (fun _ => k)))) Q).
  { unfold release_backing. rewrite Hd. acc_step. unfold poolRemoveSurface. acc_step. acc_step.
    rewrite plus4_plus4. rewrite forget_surfaces. unfold take_surface, surface_refs in Hk. rewrite Hd in Hk.
    cbn [plus4]. match goal with |- hoare (st id _ (plus4 ?u <$> b)) _ _ =>
      match type of Hk with hoare (st id _ (plus4 ?v <$> b)) _ _ => replace u with v end end; [exact Hk|].
    apply quad_eq; cbn -[SIZEOF_SURFACE own]; lia. }
  destruct ci as [i|]; [|by acc_step].
  unfold contextUnbindSurface, context_at. do 2 acc_step. unfold forget in Hrest.
  destruct (p_slots (a_contexts a) !! i) as [[c|]|] eqn:Hi; [unfold put_context; acc_step; exact Hrest|acc_step; exact Hrest..].
Qed.

Definition surface_gone (a : accel) (cid sid : Z) (r : IOReturn) (a' : accel) : Prop :=
  match find_slot ac_context_id cid (a_contexts a), find_slot as_surface_id sid (a_surfaces a) with
  | Some (i, c), Some (j, s) =>
      r = kIOReturnSuccess /\ a_surfaces a' = empty_slot j (a_surfaces a)
      /\ a_contexts a' = put_slot i (set_bound (unbind sid (ac_bound_surface_ids c))
                                       (ac_bound_surface_capacity c) c) (a_contexts a)
  | _, _ => r = kIOReturnBadArgument /\ a_surfaces a' = a_surfaces a /\ a_contexts a' = a_contexts a
  end.

Lemma destroy3DSurface_run a b cid sid :
  accel_ok Unlocked a ->
  ends a b (destroy3DSurface cid sid) (fun r a' b' =>
    accel_ok Unlocked a' /\ grown a a' /\ fair id 0 a b a' b' /\ surface_gone a cid sid r a').
Proof.
  intros Ha. pose proof (relock_ok a Ha) as Hl.
  unfold ends, destroy3DSurface. apply (st_lock _ _ Unlocked); [apply Ha|]. cbn [lock_acquire].
  set (a1 := set_a_lock (Some Locked) a) in *. unfold findContext, findSurface, surface_gone. acc_step.
  change (a_contexts a1) with (a_contexts a).
  destruct (find_slot ac_context_id cid (a_contexts a)) as [[i c]|] eqn:Ef.
  2: { apply (st_unlock _ _ Locked); [done|]. acc_leaf.
       split_and!; [by eapply ok_locked|by apply grown_refl|by apply fair_zero|done|done|done]. }
  acc_step. change (a_surfaces a1) with (a_surfaces a).
  destruct (find_slot as_surface_id sid (a_surfaces a)) as [[j s]|] eqn:Es.
  2: { apply (st_unlock _ _ Locked); [done|]. acc_leaf.
       split_and!; [by eapply ok_locked|by apply grown_refl|by apply fair_zero|done|done|done]. }
  destruct (find_slot_Some _ _ _ _ _ Ef) as [Hi _]. destruct (find_slot_Some _ _ _ _ _ Es) as [Hj _].
  apply (st_take_surface a1 b Locked (Some i) j sid s); [done|done|intros ? [= <-]; by exists (Some c)|].
  apply (st_unlock _ _ Locked); [by rewrite take_surface_lock|]. acc_leaf.
  pose proof (take_surface_ok _ (Some i) j sid s _ Hl Hj) as H1.
  destruct (take_surface_account (Some i) j sid s a1 Hj) as [E1 E2].
  split_and!.
  - by apply (ok_locked _ _ H1 Unlocked).
  - exact (take_surface_grown (Some i) j sid a1).
  - apply (fair_intro _ _ _ _ _ _ 0); [lia|]. apply quad_eq; [|done|done|].
    + change (held_heap (set_a_lock ?x ?y)) with (held_heap y). change (held_heap a1) with (held_heap a) in E1. lia.
    + change (held_refs id (set_a_lock ?x ?y)) with (held_refs id y). change (held_refs id a1) with (held_refs id a) in E2. lia.
  - done.
  - done.
  - cbn. by rewrite Hi.
Qed.

Definition internal_size (info : surface_info) : Z :=
  u32 (u32 (u32 (si_width info * si_height info) * si_depth info) * 4).

Lemma st_createSurfaceInternal {B} a b l cid info (k : IOReturn * Z -> M S B) Q :
  accel_ok l a -> a_next_surface_id a < 2 ^ 30 - 1 -> calculateSurfaceSize info <= internal_size info ->
  (forall r sid n, r <> kIOReturnSuccess -> a_next_surface_id a <= n <= a_next_surface_id a + 1 ->
     hoare (st id (set_a_next_surface_id n a) b) (k (r, sid)) Q) ->
  (forall a', accel_ok l a' -> a_gpu_device a' = a_gpu_device a -> a_framebuffer a' = a_framebuffer a ->
     a_texture_manager a' = a_texture_manager a -> a_lock a' = a_lock a ->
     a_next_context_id a' = a_next_context_id a -> surface_made a cid info (internal_size info) a' ->
     hoare (st id a' (plus4 (held_heap a' - held_heap a, 0, 0, held_refs id a' - held_refs id a) <$> b))
       (k (kIOReturnSuccess, a_next_surface_id a + 1)) Q) ->
  hoare (st id a b) (bind (createSurfaceInternal cid info) k) Q.
Proof.
  intros Ha Hn Hsize Hfail Hok. pose proof (ok_next _ _ Ha) as [Hn1 Hn2].
  assert (Hf0 : forall r sid b0, r <> kIOReturnSuccess -> b0 = b -> hoare (st id a b0) (k (r, sid)) Q).
  { intros r sid b0 Hr ->. specialize (Hfail r sid (a_next_surface_id a) Hr ltac:(lia)). by destruct a. }
  assert (Hf1 : forall r sid b0, r <> kIOReturnSuccess -> b0 = b ->
    hoare (st id (set_a_next_surface_id (a_next_surface_id a + 1) a) b0) (k (r, sid)) Q).
  { intros r sid b0 Hr ->. apply Hfail; [done|lia]. }
  unfold createSurfaceInternal, findContext. do 2 acc_step.
  destruct (find_slot ac_context_id cid (a_contexts a)) as [[i c]|] eqn:Ef; [|acc_step; by apply Hf0].
  do 2 acc_step; [|acc_step; apply Hf0; [done|apply plus4_zero]].
  unfold next_surface. do 4 acc_step. rewrite u32_small by lia.
  change (a_next_surface_id (set_a_next_surface_id (a_next_surface_id a + 1) a)) with (a_next_surface_id a + 1).
  do 2 acc_step.
  2: { do 3 acc_step. apply Hf1; [done|]. rewrite own_None, !plus4_plus4. cbn [plus4].
       rewrite <- (plus4_zero b) at 2. f_equal. }
  match goal with Hm : forall x, Some ?m = Some x -> _ |- _ => rename m into d; pose proof (Hm d eq_refl) as Hd; clear Hm end.
  acc_step.
  apply (hoare_bind_ext _ (fun ad => if negb ad
      then bind (kernel (release (md_id d));;; kernel (IOFree SIZEOF_SURFACE);;; ret (kIOReturnNoMemory, a_next_surface_id a + 1)) k
      else bind (contextBindSurface i (a_next_surface_id a + 1))
             (fun _ => bind (ret (kIOReturnSuccess, a_next_surface_id a + 1)) k))).
  { intros [] w; cbn [negb]; [by rewrite bind_bind|done]. }
  eapply (st_enter_surface a _ l cid i c 0 info d
    (fun ad _ => if ad then bind (ret (kIOReturnSuccess, a_next_surface_id a + 1)) k else _));
    [exact Ha|exact Ef|lia|fold (internal_size info) in Hd; lia| |].
  - do 5 acc_step. apply Hf1; [done|]. rewrite !plus4_plus4. cbn [plus4].
    rewrite <- (plus4_zero b) at 2. f_equal. f_equal. apply quad_eq; lia.
  - intros a' r' H1 H2 H3 H4 H5 H6 H7. acc_step. fold (internal_size info) in Hd. rewrite Hd in H7.
    specialize (Hok a' H1 H2 H3 H4 H5 H6 H7). rewrite !plus4_plus4. cbn [plus4].
    match goal with |- hoare (st id _ (plus4 ?u <$> b)) _ _ =>
      match type of Hok with hoare (st id _ (plus4 ?v <$> b)) _ _ => replace u with v end end; [exact Hok|].
    apply quad_eq; lia.
Qed.

Lemma st_destroySurfaceInternal {B} a b l cid sid si s (k : IOReturn -> M S B) Q :
  accel_ok l a -> find_slot as_surface_id sid (a_surfaces a) = Some (si, s) ->
  (forall ci, hoare (st id (take_surface ci si sid a) (plus4 (- SIZEOF_SURFACE, 0, 0, - surface_refs id s) <$> b))
     (k kIOReturnSuccess) Q) ->
  hoare (st id a b) (bind (destroySurfaceInternal cid sid) k) Q.
Proof.
  intros Ha Hs Hk. unfold destroySurfaceInternal, findSurface, findContext. do 2 acc_step. rewrite Hs.
  do 2 acc_step. pose proof (find_slot_Some _ _ _ _ _ Hs) as [Hsi _].
  eapply hoare_ext; [intros w; apply bind_flat|].
  destruct (find_slot ac_context_id cid (a_contexts a)) as [[i c]|] eqn:Ef.
  - apply find_slot_Some in Ef as [Hi _].
    apply (st_take_surface a b l (Some i) si sid s); [done|done|intros ? [= <-]; by exists (Some c)|apply Hk].
  - by apply (st_take_surface a b l None si sid s).
Qed.

Lemma framebuffer_size w h f :
  0 < w <= 8192 -> 0 < h <= 8192 ->
  calculateSurfaceSize (framebuffer_info w h f) <= internal_size (framebuffer_info w h f).
Proof.
  intros Hw Hh. unfold calculateSurfaceSize, internal_size, framebuffer_info. cbn [si_width si_height si_depth si_format].
  assert (0 < w * h <= 67108864) by nia.
  rewrite (u32_small (w * h)) by lia. rewrite Z.mul_1_r. rewrite (u32_small (w * h)) by lia.
  destruct (f =? VM3D_FORMAT_R5G6B5); rewrite !u32_small; lia.
Qed.

(** The surfaces of a framebuffer: a colour one, then a depth one, as asked. *)
Definition framebuffer_ids (n cf df : Z) : Z * Z :=
  let c := if cf =? 0 then 0 else n + 1 in
  (c, if df =? 0 then 0 else (if cf =? 0 then n else n + 1) + 1).
Definition framebuffer_made (a : accel) (cf df : Z) (r : IOReturn * option Z) (a' : accel) : Prop :=
  if is_success r.1 then
    let '(c, d) := framebuffer_ids (a_next_surface_id a) cf df in
    r.2 = Some (framebuffer_id c d) /\
    exists news, objects (a_surfaces a') ≡ₚ news ++ objects (a_surfaces a)
      /\ (as_surface_id <$> news) = (if df =? 0 then [] else [d]) ++ (if cf =? 0 then [] else [c])
  else r.2 = None /\ objects (a_surfaces a') ≡ₚ objects (a_surfaces a).

Definition framebuffer_post a b (cf df : Z) (r : IOReturn * option Z) a' b' : Prop :=
  accel_ok Unlocked a' /\ grown a a' /\ fair id 0 a b a' b' /\ framebuffer_made a cf df r a'.
(** After the colour surface: the same members but for at most one surface. *)
Record coloured a b (cf : Z) (color : Z) a2 b2 : Prop := {
  cl_ok : accel_ok Locked a2;
  cl_gpu : a_gpu_device a2 = a_gpu_device a;
  cl_fb : a_framebuffer a2 = a_framebuffer a;
  cl_tm : a_texture_manager a2 = a_texture_manager a;
  cl_ctx : a_next_context_id a2 = a_next_context_id a;
  cl_next : a_next_surface_id a2 = if cf =? 0 then a_next_surface_id a else a_next_surface_id a + 1;
  cl_color : color = if cf =? 0 then 0 else a_next_surface_id a + 1;
  cl_account : b2 = plus4 (held_heap a2 - held_heap a, 0, 0, held_refs id a2 - held_refs id a) <$> b;
  cl_surfaces : exists news, objects (a_surfaces a2) ≡ₚ news ++ objects (a_surfaces a)
    /\ (as_surface_id <$> news) = if cf =? 0 then [] else [color]
}.

Lemma fair_exact a b a' b' :
  b' = plus4 (held_heap a' - held_heap a, 0, 0, held_refs id a' - held_refs id a) <$> b -> fair id 0 a b a' b'.
Proof. intros ->. apply (fair_intro _ _ _ _ _ _ 0); [lia|]. apply quad_eq; lia. Qed.

Lemma coloured_fail a b cf df color a2 b2 n r :
  coloured a b cf color a2 b2 -> r <> kIOReturnSuccess -> 1 <= a_next_surface_id a ->
  a_next_surface_id a2 <= n <= a_next_surface_id a2 + 1 ->
  forall cid, ends (set_a_next_surface_id n a2) b2
    ((if color =? 0 then ret tt else destroySurfaceInternal cid color ;;; ret tt) ;;;
     unlock ;;; ret (r, None)) (framebuffer_post a b cf df).
Proof.
  intros [H1 H2 H3 H4 H5 H6 H7 H8 H9] Hr Hn1 Hn cid. unfold ends.
  assert (Ho : accel_ok Locked (set_a_next_surface_id n a2)) by (apply ok_next_surface; [done|lia]).
  assert (Hm : forall a', objects (a_surfaces a') ≡ₚ objects (a_surfaces a) -> framebuffer_made a cf df (r, None) a').
  { intros a' Hp. unfold framebuffer_made. apply is_success_false in Hr. cbn [fst snd]. by rewrite Hr. }
  destruct H9 as (news & Hp & Hids). destruct (Z.eqb_spec cf 0) as [Hc|Hc].
  - subst color. apply fmap_nil_inv in Hids as ->. rewrite Z.eqb_refl. acc_step. apply (st_unlock _ _ Locked); [apply H1|]. acc_leaf.
    split_and!; [by apply (ok_locked _ _ Ho Unlocked)|unfold grown; cbn; rewrite H2, H3, H4, H5; split_and!; done || lia
      |by apply fair_exact|by apply Hm].
  - destruct news as [|s [|]]; try done. cbn in Hids. injection Hids as Hs.
    destruct (Z.eqb_spec color 0) as [E|E]; [lia|]. acc_step.
    assert (Hin : s ∈ objects (a_surfaces a2)) by (rewrite Hp; left).
    destruct (find_slot_in as_surface_id color _ s (po_keys _ _ _ _ (ok_surfaces _ _ H1)) Hin Hs) as (i & Hi).
    apply (st_destroySurfaceInternal _ _ Locked cid color i s); [done|exact Hi|intros ci].
    apply find_slot_Some in Hi as [Hi _]. acc_step.
    apply (st_unlock _ _ Locked); [rewrite take_surface_lock; apply H1|]. acc_leaf.
    destruct (take_surface_account ci i color s _ Hi) as [E1 E2].
    assert (E3 : held_heap (take_surface ci i color (set_a_next_surface_id n a2)) = held_heap a2 - SIZEOF_SURFACE
      /\ held_refs id (take_surface ci i color (set_a_next_surface_id n a2)) = held_refs id a2 - surface_refs id s).
    { destruct (take_surface_account ci i color s (set_a_next_surface_id n a2) Hi) as [-> ->]. done. }
    pose proof (take_surface_same ci i color (set_a_next_surface_id n a2)) as (G1 & G2 & G3 & G4 & G5).
    split_and!.
    + apply (ok_locked Locked). by apply (take_surface_ok _ ci i color s).
    + unfold grown.
      change (a_gpu_device (set_a_lock ?x ?y)) with (a_gpu_device y). change (a_framebuffer (set_a_lock ?x ?y)) with (a_framebuffer y).
      change (a_texture_manager (set_a_lock ?x ?y)) with (a_texture_manager y).
      change (a_next_context_id (set_a_lock ?x ?y)) with (a_next_context_id y).
      change (a_next_surface_id (set_a_lock ?x ?y)) with (a_next_surface_id y).
      rewrite G1, G2, G3, G4, G5. cbn. rewrite H2, H3, H4, H5. split_and!; done || lia.
    + apply fair_exact. rewrite H8, plus4_plus4. f_equal. cbn [plus4].
      change (held_heap (set_a_lock ?x ?y)) with (held_heap y). change (held_refs id (set_a_lock ?x ?y)) with (held_refs id y).
      destruct E3 as [-> ->]. f_equal. apply quad_eq; lia.
    + apply Hm. cbn -[take_surface]. unfold take_surface. cbn -[objects empty_slot].
      assert (Hq : objects (a_surfaces a2) ≡ₚ s :: objects (empty_slot i (a_surfaces a2))) by exact (objects_remove _ _ _ Hi).
      rewrite Hq in Hp. by apply Permutation_cons_inv in Hp.
Qed.

Lemma made_coloured a b cid info size a2 cf color a1 b1 :
  coloured a b cf color a1 b1 -> forall f, 
  accel_ok Locked a2 -> a_gpu_device a2 = a_gpu_device a1 -> a_framebuffer a2 = a_framebuffer a1 ->
  a_texture_manager a2 = a_texture_manager a1 -> a_next_context_id a2 = a_next_context_id a1 ->
  surface_made a1 cid info size a2 ->
  framebuffer_post a b cf f (kIOReturnSuccess, Some (framebuffer_id color (a_next_surface_id a1 + 1)))
    (set_a_lock (Some Unlocked) a2)
    (plus4 (held_heap a2 - held_heap a1, 0, 0, held_refs id a2 - held_refs id a1) <$> b1) \/ f = 0.
Proof.
  intros [H1 H2 H3 H4 H5 H6 H7 H8 (news & Hp & Hids)] f Ho E1 E2 E3 E4 Hm. destruct (decide (f = 0)) as [|Hf]; [by right|left].
  destruct Hm as (i & c & c' & g & d & _ & Hn & [Hq _] & _).
  split; [by apply (ok_locked _ _ Ho Unlocked)|]. split; [|split].
  - unfold grown. cbn. rewrite E1, E2, E3, E4, H2, H3, H4, H5, Hn, H6. destruct (cf =? 0); split_and!; done || lia.
  - apply fair_exact. rewrite H8, plus4_plus4. f_equal. cbn [plus4].
    change (held_heap (set_a_lock ?x ?y)) with (held_heap y). change (held_refs id (set_a_lock ?x ?y)) with (held_refs id y).
    f_equal. apply quad_eq; lia.
  - unfold framebuffer_made. change (is_success (kIOReturnSuccess, _).1) with true. cbn iota.
    unfold framebuffer_ids. destruct (Z.eqb_spec f 0) as [|_]; [done|]. rewrite H7, H6. split; [by destruct (cf =? 0)|].
    exists (surface_at_id (a_next_surface_id a1 + 1) g info d :: news). split; [cbn [a_surfaces set_a_lock]; by rewrite Hq, Hp|]. cbn. rewrite Hids, H6, H7. by destruct (cf =? 0).
Qed.

Lemma createFramebuffer_run a b cid w h cf df ptr :
  accel_ok Unlocked a -> a_next_surface_id a < 2 ^ 30 - 2 -> 0 <= w -> 0 <= h ->
  ends a b (createFramebuffer cid w h cf df ptr) (framebuffer_post a b cf df).
Proof.
  intros Ha Hn Hw Hh. pose proof (relock_ok a Ha) as Hl. pose proof (ok_next _ _ Ha) as [Hn1 Hn2].
  unfold ends, createFramebuffer. apply (st_lock _ _ Unlocked); [apply Ha|]. cbn [lock_acquire].
  set (a1 := set_a_lock (Some Locked) a) in *.
  assert (Hfail : forall r, r <> kIOReturnSuccess ->
    ends a1 b (unlock ;;; ret (r, None)) (framebuffer_post a b cf df)).
  { intros r Hr. unfold ends. apply (st_unlock _ _ Locked); [done|]. acc_leaf.
    split_and!; [by eapply ok_locked|by apply grown_refl|by apply fair_zero|].
    unfold framebuffer_made. apply is_success_false in Hr. cbn [fst]. by rewrite Hr. }
  assert (H1 : coloured a b 0 0 a1 b).
  { split; try done; [|exists []; split; [reflexivity|done]].
    symmetry. etransitivity; [|apply plus4_zero]. f_equal. f_equal. apply quad_eq; try done; apply Z.sub_diag. }
  unfold findContext. acc_step. destruct (find_slot _ _ _) as [[i c]|] eqn:Ef; [|by apply Hfail].
  destruct ptr; cbn [negb]; [|by apply Hfail].
  destruct ((w =? 0) || (h =? 0) || (8192 <? w) || (8192 <? h)) eqn:Ewh; [by apply Hfail|].
  rewrite !orb_false_iff, !Z.eqb_neq, !Z.ltb_ge in Ewh. destruct Ewh as (((W1 & W2) & W3) & W4).
  (* the depth surface, after the colour surface *)
  assert (Hdepth : forall color a2 b2, coloured a b cf color a2 b2 ->
    ends a2 b2
      (let! depth := (if df =? 0 then ret (kIOReturnSuccess, 0)
                      else createSurfaceInternal cid (framebuffer_info w h df)) in
       if negb (is_success depth.1) then
         (if color =? 0 then ret tt else destroySurfaceInternal cid color ;;; ret tt) ;;;
         unlock ;;; ret (depth.1, None)
       else unlock ;;; ret (kIOReturnSuccess, Some (framebuffer_id color depth.2))) (framebuffer_post a b cf df)).
  { intros color a2 b2 Hc. unfold ends.
    assert (Hn2' : a_next_surface_id a2 < 2 ^ 30 - 1) by (rewrite (cl_next _ _ _ _ _ _ Hc); destruct (cf =? 0); lia).
    destruct (Z.eqb_spec df 0) as [Hd|Hd].
    - acc_step. change (is_success (kIOReturnSuccess, 0).1) with true. cbn [negb fst snd].
      apply (st_unlock _ _ Locked); [apply Hc|]. acc_leaf. destruct Hc as [C1 C2 C3 C4 C5 C6 C7 C8 (news & C9 & C10)].
      split; [by apply (ok_locked _ _ C1 Unlocked)|]. split; [|split].
      + unfold grown. cbn. rewrite C2, C3, C4, C5, C6. destruct (cf =? 0); split_and!; done || lia.
      + by apply fair_exact.
      + unfold framebuffer_made. change (is_success (kIOReturnSuccess, _).1) with true. cbn iota.
        unfold framebuffer_ids. rewrite Hd. rewrite Z.eqb_refl. split; [by rewrite C7|].
        exists news. split; [exact C9|]. rewrite C10, C7. by destruct (cf =? 0).
    - apply (st_createSurfaceInternal _ _ Locked); [apply Hc|lia|apply framebuffer_size; lia| |].
      + intros r sid n Hr Hnn. cbn [fst snd]. pose proof Hr as Hr'. apply is_success_false in Hr'. rewrite Hr'. cbn [negb].
        by apply coloured_fail.
      + intros a3 O1 O2 O3 O4 O5 O6 O7. change (is_success (kIOReturnSuccess, _).1) with true. cbn [negb fst snd].
        apply (st_unlock _ _ Locked); [by rewrite O5; apply Hc|]. acc_leaf.
        destruct (made_coloured a b cid _ _ a3 cf color a2 b2 Hc df O1 O2 O3 O4 O6 O7) as [Hp|Hp]; [exact Hp|done]. }
  destruct (Z.eqb_spec cf 0) as [Hcf|Hcf].
  - acc_step. change (is_success (kIOReturnSuccess, 0).1) with true. cbn [negb fst snd]. apply Hdepth. by rewrite Hcf.
  - apply (st_createSurfaceInternal a1 b Locked); [done|cbn; lia|apply framebuffer_size; lia| |].
    + intros r sid n Hr Hnn. cbn [fst snd]. pose proof Hr as Hr'. apply is_success_false in Hr'. rewrite Hr'. cbn [negb].
      apply (st_unlock _ _ Locked); [done|]. acc_leaf.
      assert (Ho : accel_ok Locked (set_a_next_surface_id n a1)) by (apply ok_next_surface; [done|cbn in *; lia]).
      split; [by apply (ok_locked _ _ Ho Unlocked)|]. split; [unfold grown; cbn in *; split_and!; done || lia|].
      split; [by apply fair_zero|]. unfold framebuffer_made. cbn [fst]. by rewrite Hr'.
    + intros a3 O1 O2 O3 O4 O5 O6 O7. change (is_success (kIOReturnSuccess, _).1) with true. cbn [negb fst snd].
      apply Hdepth. destruct (O7) as (j & c0 & c' & g & d & _ & O8 & [O9 _] & _).
      split; try done.
      * rewrite O8. by destruct (Z.eqb_spec cf 0).
      * by destruct (Z.eqb_spec cf 0).
      * eexists [_]. split; [exact O9|]. by destruct (Z.eqb_spec cf 0).
Qed.

(** ** Commands and the screen *)
(** Members that only count things. *)
Lemma ok_stats l a d t m c :
  accel_ok l a -> accel_ok l (set_a_draw_calls d (set_a_triangles_rendered t (set_a_memory_used m (set_a_commands_submitted c a)))).
Proof. intros []. by split. Qed.

Lemma submit3DCommands_run a b cid d :
  accel_ok Unlocked a -> a_gpu_device a = true ->
  ends a b (submit3DCommands cid d) (fun r a' b' =>
    accel_ok Unlocked a' /\ grown a a' /\ fair id 0 a b a' b'
    /\ a_contexts a' = a_contexts a /\ a_surfaces a' = a_surfaces a).
Proof.
  intros Ha Hg. pose proof (relock_ok a Ha) as Hl. unfold ends, submit3DCommands.
  destruct d as [d|]; [|acc_leaf; split_and!; [done|by apply grown_refl|by apply fair_zero|done|done]].
  apply (st_lock _ _ Unlocked); [apply Ha|]. cbn [lock_acquire].
  set (a1 := set_a_lock (Some Locked) a) in *. unfold findContext. acc_step.
  destruct (find_slot _ _ _) as [[i c]|] eqn:Ef.
  - do 2 acc_step. apply st_if; intros Er; acc_step; apply (st_unlock _ _ Locked); try done; acc_leaf;
      (split_and!; [|by apply grown_refl|by apply fair_zero|done|done]).
    + destruct Ha. by split.
    + destruct Ha. by split.
  - apply (st_unlock _ _ Locked); [done|]. acc_leaf.
    split_and!; [by eapply ok_locked|by apply grown_refl|by apply fair_zero|done|done].
Qed.

Lemma resetStatistics_run a b :
  accel_ok Unlocked a ->
  hoare (st id a b) resetStatistics (fun _ (w : S) => exists a', st id a' b w /\
    accel_ok Unlocked a' /\ grown a a' /\ a_contexts a' = a_contexts a /\ a_surfaces a' = a_surfaces a).
Proof.
  intros Ha w Hw. unfold resetStatistics, lock, unlock, upd_acc, bind, modify. destruct Hw as [<- Hb].
  exists (set_a_lock (Some Unlocked) (set_a_triangles_rendered 0 (set_a_draw_calls 0 (aw_acc w)))).
  split; [split; [|exact Hb]|].
  - cbn. by rewrite (ok_lock _ _ Ha).
  - split_and!; [destruct Ha; by split|by apply grown_refl|done|done].
Qed.

(** What presenting leaves: the pools, but for the mark on a surface that no
    method could show. *)
Definition presented (a : accel) (cid sid : Z) (r : IOReturn) (a' : accel) : Prop :=
  a_contexts a' = a_contexts a /\
  match find_slot ac_context_id cid (a_contexts a), find_slot as_surface_id sid (a_surfaces a) with
  | Some _, Some (j, s) =>
      r = kIOReturnSuccess /\
      (a_surfaces a' = a_surfaces a \/ a_surfaces a' = put_slot j (set_render_target true s) (a_surfaces a))
  | _, _ => r = kIOReturnNotFound /\ a_surfaces a' = a_surfaces a
  end.

Lemma st_present_copy {B} a b e s (r : IOReturn) (k : IOReturn -> M S B) Q :
  match se_vram e with Some v => md_id v <> id | None => True end ->
  (forall r, hoare (st id a b) (k r) Q) -> hoare (st id a b) (bind (present_copy e s r) k) Q.
Proof.
  intros Hv Hk. unfold present_copy. do 2 acc_step.
  destruct (a_framebuffer a); [|acc_step; apply Hk]. destruct (as_backing_memory s); [|acc_step; apply Hk].
  acc_step. destruct (se_vram e) as [v|]; [|do 2 acc_step; apply Hk].
  acc_step. replace (own id (Some (md_id v))) with 0.
  2: { unfold own. rewrite bool_decide_eq_false_2; [done|]. congruence. }
  rewrite plus4_zero. destruct (se_vram_maps e); cbn [negb]; [|acc_step; apply Hk]. do 3 acc_step.
  assert (Hend : forall r b0, b0 = plus4 (0, if se_surface_maps e then 2 else 1, 0, 0) <$> b ->
    hoare (st id a b0) (bind ((if se_surface_maps e then kernel (map_add (-1)) else ret tt) ;;;
                              kernel (map_add (-1)) ;;; ret r) k) Q).
  { intros r' b0 ->. do 1 acc_step. destruct (se_surface_maps e); repeat acc_step; rewrite !plus4_plus4; cbn [plus4];
      match goal with |- hoare (st id _ (plus4 ?u <$> b)) _ _ => replace u with (0, 0, 0, 0) by (apply quad_eq; lia) end;
      rewrite plus4_zero; apply Hk. }
  assert (Hmid : forall b0, b0 = plus4 (0, if se_surface_maps e then 2 else 1, 0, 0) <$> b ->
    hoare (st id a b0) (bind (bind (if se_surface_maps e && se_vram_address e then
                 match copy_plan (se_qemu e) (md_length v) (as_info s) with
                 | Some cs => bcopy_all cs ;;; ret kIOReturnSuccess
                 | None => ret kIOReturnNoSpace
                 end
               else ret r) (fun r => (if se_surface_maps e then kernel (map_add (-1)) else ret tt) ;;;
                              kernel (map_add (-1)) ;;; ret r)) k) Q).
  { intros b0 Hb0. acc_step. destruct (se_surface_maps e && se_vram_address e); [|acc_step; by apply Hend].
    destruct (copy_plan _ _ _); [do 3 acc_step|acc_step]; by apply Hend. }
  destruct (se_surface_maps e); acc_step.
  - eapply Hmid. rewrite !plus4_plus4. f_equal.
  - eapply Hmid. done.
Qed.

Lemma st_present_command {B} a b e c s (r : IOReturn) (k : IOReturn -> M S B) Q :
  (forall r, hoare (st id a b) (k r) Q) -> hoare (st id a b) (bind (present_command e c s r) k) Q.
Proof.
  intros Hk. unfold present_command. do 2 acc_step. apply st_if; intros _; [|acc_step; apply Hk].
  do 2 acc_step.
  - do 4 acc_step. rewrite !plus4_plus4. cbn [plus4].
    match goal with |- hoare (st id _ (plus4 ?u <$> b)) _ _ => replace u with (0, 0, 0, 0) by (apply quad_eq; lia) end.
    rewrite plus4_zero. apply Hk.
  - acc_step. rewrite own_None, plus4_zero. apply Hk.
Qed.

Lemma present3DSurface_run a b e cid sid :
  accel_ok Unlocked a -> match se_vram e with Some v => md_id v <> id | None => True end ->
  ends a b (present3DSurface e cid sid) (fun r a' b' =>
    accel_ok Unlocked a' /\ grown a a' /\ fair id 0 a b a' b' /\ presented a cid sid r a').
Proof.
  intros Ha Hv. pose proof (relock_ok a Ha) as Hl. unfold ends, present3DSurface, presented.
  apply (st_lock _ _ Unlocked); [apply Ha|]. cbn [lock_acquire].
  set (a1 := set_a_lock (Some Locked) a) in *. unfold findContext, findSurface. acc_step.
  change (a_contexts a1) with (a_contexts a).
  destruct (find_slot ac_context_id cid (a_contexts a)) as [[i c]|] eqn:Ef.
  2: { apply (st_unlock _ _ Locked); [done|]. acc_leaf.
       split_and!; [by eapply ok_locked|by apply grown_refl|by apply fair_zero|done|done|done]. }
  acc_step. change (a_surfaces a1) with (a_surfaces a).
  destruct (find_slot as_surface_id sid (a_surfaces a)) as [[j s]|] eqn:Es.
  2: { apply (st_unlock _ _ Locked); [done|]. acc_leaf.
       split_and!; [by eapply ok_locked|by apply grown_refl|by apply fair_zero|done|done|done]. }
  assert (Hend : forall d, ends (set_a_draw_calls d a1) b (unlock ;;; ret kIOReturnSuccess) (fun r a' b' =>
    accel_ok Unlocked a' /\ grown a a' /\ fair id 0 a b a' b' /\ a_contexts a' = a_contexts a /\
    r = kIOReturnSuccess /\
      (a_surfaces a' = a_surfaces a \/ a_surfaces a' = put_slot j (set_render_target true s) (a_surfaces a)))).
  { intros d. unfold ends. apply (st_unlock _ _ Locked); [done|]. acc_leaf.
    split_and!; [destruct Ha; by split|by apply grown_refl|by apply fair_zero|done|done|by left]. }
  assert (Hend1 := Hend (a_draw_calls a1)). replace (set_a_draw_calls (a_draw_calls a1) a1) with a1 in Hend1 by by destruct a.
  pose proof (find_slot_Some _ _ _ _ _ Es) as [Hj _].
  assert (Hmark : ends a1 b (put_surface j (set_render_target true s) ;;;
      upd_acc (fun a => set_a_draw_calls (u32 (a_draw_calls a + 1)) a) ;;; unlock ;;; ret kIOReturnSuccess) (fun r a' b' =>
    accel_ok Unlocked a' /\ grown a a' /\ fair id 0 a b a' b' /\ a_contexts a' = a_contexts a /\
    r = kIOReturnSuccess /\
      (a_surfaces a' = a_surfaces a \/ a_surfaces a' = put_slot j (set_render_target true s) (a_surfaces a)))).
  { unfold ends, put_surface. do 2 acc_step. apply (st_unlock _ _ Locked); [done|]. acc_leaf.
    assert (Hs : surf_ok (set_render_target true s)) by exact (ok_surface_at _ _ Ha j s Hj).
    pose proof (ok_put_surface _ _ Hl j s (set_render_target true s) Hj eq_refl Hs) as Ho.
    split_and!; [destruct Ho; by split|by apply grown_refl| |done|done|by right].
    apply fair_zero; [lia| |].
    - unfold held_heap. cbn -[contexts_heap surfaces_heap put_slot].
      by rewrite (surfaces_heap_put _ _ _ (set_render_target true s) Hj).
    - unfold held_refs. cbn -[put_slot objects]. rewrite (zsum_put _ _ _ _ (set_render_target true s) Hj).
      unfold surface_refs. cbn. lia. }
  unfold gpu_3d. do 2 acc_step.
  assert (Hgo : forall td r1, hoare (st id a1 b)
    (if td && is_success r1 then unlock ;;; ret r1
     else let! r2 := present_copy e s r1 in let! r3 := present_command e c s r2 in
       (if is_success r3 then ret tt
        else put_surface j (set_render_target true s) ;;;
             upd_acc (fun a => set_a_draw_calls (u32 (a_draw_calls a + 1)) a)) ;;;
       unlock ;;; ret kIOReturnSuccess)
    (fun (r : IOReturn) w => exists a' b', st id a' b' w /\
      (accel_ok Unlocked a' /\ grown a a' /\ fair id 0 a b a' b' /\ a_contexts a' = a_contexts a /\
       r = kIOReturnSuccess /\
      (a_surfaces a' = a_surfaces a \/ a_surfaces a' = put_slot j (set_render_target true s) (a_surfaces a))))).
  { intros td r1. destruct (td && is_success r1) eqn:E.
    - apply andb_true_iff in E as [_ E]. apply is_success_true in E. subst r1. exact Hend1.
    - apply st_present_copy; [done|intros r2]. apply st_present_command. intros r3. apply st_if; intros _.
      + acc_step. exact Hend1.
      + acc_step. exact Hmark. }
  apply st_if; intros _.
  - acc_step. apply st_if; intros _; acc_step; apply Hgo.
  - acc_step. acc_step. apply (Hgo false).
Qed.

(** ** Collecting surfaces *)
Definition kept (a : accel) (s : accel_surface) : bool := listed a (as_surface_id s).
Definition keep_slot (a : accel) (o : option accel_surface) : option accel_surface :=
  match o with Some s => if kept a s then o else None | None => None end.

Lemma st_gc_free {B} a b l i s (k : unit -> M S B) Q :
  accel_ok l a -> p_slots (a_surfaces a) !! i = Some (Some s) ->
  (forall u, hoare (st id (set_a_surfaces (empty_slot i (a_surfaces a)) a)
           (plus4 (- SIZEOF_SURFACE, 0, 0, - surface_refs id s) <$> b)) (k u) Q) ->
  hoare (st id a b) (bind (gc_free i s) k) Q.
Proof.
  intros Ha Hi Hk. destruct (ok_surface_at _ _ Ha i s Hi) as (d & Hd & _).
  unfold gc_free, release_backing. rewrite Hd. do 5 acc_step.
  assert (Hrest : hoare (st id a (plus4 (0, 0, 0, - own id (Some (md_id d))) <$> b))
    (bind (poolRemoveSurface i ;;; kernel (IOFree SIZEOF_SURFACE)) k) Q).
  { unfold poolRemoveSurface. do 3 acc_step. rewrite plus4_plus4.
    match goal with |- hoare _ (k ?u) _ => specialize (Hk u) end.
    unfold surface_refs in Hk. rewrite Hd in Hk. cbn [plus4].
    match goal with |- hoare (st id _ (plus4 ?u <$> b)) _ _ =>
      match type of Hk with hoare (st id _ (plus4 ?v <$> b)) _ _ => replace u with v end end; [exact Hk|].
    apply quad_eq; cbn -[SIZEOF_SURFACE own]; lia. }
  destruct (a_gpu_device a && negb (as_gpu_resource_id s =? 0)); [do 3 acc_step|acc_step]; exact Hrest.
Qed.

(** The third sweep keeps the surfaces some context lists, and counts the rest. *)
Definition live_surfaces (a : accel) : Z := Z.of_nat (length (objects (a_surfaces a))).

Lemma st_gc_orphans {B} l n : forall a b i x pre rest (k : gc_stats -> M S B) Q,
  accel_ok l a -> p_slots (a_surfaces a) = pre ++ rest -> length pre = i -> length rest = n ->
  0 <= x.2 -> 0 <= x.1.2 -> x.2 + Z.of_nat n < 2 ^ 32 ->
  (forall cnt x', let a' := set_a_surfaces (mk_pool (pre ++ (keep_slot a <$> rest)) cnt) a in
     accel_ok l a' -> x'.2 = x.2 + (live_surfaces a - live_surfaces a') -> 0 <= x'.1.2 ->
     hoare (st id a' (plus4 (held_heap a' - held_heap a, 0, 0, held_refs id a' - held_refs id a) <$> b)) (k x') Q) ->
  hoare (st id a b) (bind (gc_sweep gc_orphan false n i x) k) Q.
Proof.
  induction n as [|n IH]; intros a b i x pre rest k Q Ha Hs Hi Hn Hx Hm Hx' Hk.
  - apply nil_length_inv in Hn as ->. cbn [gc_sweep]. acc_step.
    specialize (Hk (p_count (a_surfaces a)) x). cbn zeta in Hk.
    replace (set_a_surfaces _ a) with a in Hk.
    2: { destruct a as [? ? ? ? ? [sl cn] ? ? ? ? ? ? ? ? ?]. cbn in *. by rewrite Hs. }
    rewrite !Z.sub_diag, plus4_zero in Hk. apply Hk; [done|lia|done].
  - destruct rest as [|o rest]; [done|]. cbn [gc_sweep]. unfold surface_at. do 2 acc_step.
    assert (Ho : p_slots (a_surfaces a) !! i = Some o).
    { rewrite Hs, lookup_app_r by lia. by replace (i - length pre)%nat with 0%nat by lia. }
    rewrite Ho. cbn [length] in Hn. apply eq_add_S in Hn. rewrite Nat2Z.inj_succ in Hx'.
    destruct o as [s|].
    + unfold gc_orphan. do 4 acc_step. destruct (listed a (as_surface_id s)) eqn:El; cbn [negb].
      * apply (IH _ _ _ _ (pre ++ [Some s]) rest); [done|by rewrite <- app_assoc|rewrite length_app; cbn; lia|done|done|done|lia|].
        intros cnt x'. specialize (Hk cnt x'). cbn [fmap list_fmap keep_slot] in Hk.
        unfold kept in Hk. rewrite El in Hk. by rewrite <- app_assoc.
      * acc_step. apply (st_gc_free _ _ l); [done|done|intros _].
        pose proof (ok_remove_surface _ _ Ha i s Ho) as H1.
        destruct (take_surface_account None i 0 s a Ho) as [E1 E2]. unfold take_surface, forget in E1, E2.
        set (a1 := set_a_surfaces (empty_slot i (a_surfaces a)) a) in *.
        assert (Hlen : live_surfaces a = live_surfaces a1 + 1).
        { unfold live_surfaces. cbn [a_surfaces a1 set_a_surfaces]. rewrite !zsum_one, (zsum_removed _ _ _ _ Ho). lia. }
        apply (IH a1 _ _ _ (pre ++ [None]) rest); [exact H1| |rewrite length_app; cbn; lia|done| | | |].
        { cbn. rewrite Hs, <- app_assoc, insert_app_r_alt by lia. by replace (i - length pre)%nat with 0%nat by lia. }
        { destruct x as [[? ?] ?]. cbn. apply u32_range. }
        { destruct x as [[? ?] ?]. cbn. apply u64_range. }
        { destruct x as [[? ?] ?]. cbn in *. rewrite u32_small by lia. lia. }
        intros cnt x' a' H2 H3 H4.
        assert (Ea : a' = set_a_surfaces (mk_pool (pre ++ (keep_slot a <$> Some s :: rest)) cnt) a).
        { unfold a'. cbn [fmap list_fmap keep_slot]. unfold kept. rewrite El, <- app_assoc. done. }
        specialize (Hk cnt x'). cbn zeta in Hk. rewrite <- Ea in Hk. rewrite plus4_plus4. cbn [plus4].
        match goal with |- hoare (st id _ (plus4 ?u <$> b)) _ _ =>
          match type of Hk with _ -> _ -> _ -> hoare (st id _ (plus4 ?v <$> b)) _ _ => replace u with v end end.
        -- apply Hk; [done| |done]. rewrite H3. destruct x as [[? ?] ?]. cbn in *. rewrite u32_small by lia. lia.
        -- apply quad_eq; [|done|done|]; lia.
    + apply (IH _ _ _ _ (pre ++ [None]) rest); [done|by rewrite <- app_assoc|rewrite length_app; cbn; lia|done|done|done|lia|].
      intros cnt x'. specialize (Hk cnt x'). cbn [fmap list_fmap keep_slot] in Hk. by rewrite <- app_assoc.
Qed.

Lemma filter_sublist {A} (f : A -> bool) l : List.filter f l `sublist_of` l.
Proof. induction l as [|x l IH]; cbn; [constructor|]. destruct (f x); by constructor. Qed.
Lemma forget_stale_ok n p c : ctx_ok n c -> ctx_ok n (forget_stale p c).
Proof.
  intros [H1 H2 H3 H4 H5]. pose proof (filter_sublist (backed p) (ac_bound_surface_ids c)) as Hs.
  split; [by eapply sublist_NoDup| | |done|done].
  - rewrite Forall_forall in *. intros z Hz. apply H2. exact (elem_of_sublist _ _ _ Hz Hs).
  - unfold bound_surface_count in *. cbn. apply sublist_length in Hs. lia.
Qed.
Lemma objects_fmap {A} (f : A -> A) (l : list (option A)) : omap (fun o => o) (option_map f <$> l) = f <$> omap (fun o => o) l.
Proof. induction l as [|[x|] l IH]; cbn in *; [done|by f_equal|done]. Qed.
Lemma clean_contexts_ok l a : accel_ok l a -> accel_ok l (clean_contexts a) /\
  held_heap (clean_contexts a) = held_heap a /\ held_refs id (clean_contexts a) = held_refs id a.
Proof.
  intros [H1 H2 H3 H4 H5 H6 H7 H8]. unfold clean_contexts.
  set (p' := mk_pool _ _).
  assert (Ho : objects p' = forget_stale (a_surfaces a) <$> objects (a_contexts a)) by apply objects_fmap.
  assert (Hc : capacity p' = capacity (a_contexts a)) by (unfold capacity; cbn; by rewrite length_fmap).
  split; [|split; [|done]].
  - split; cbn -[objects]; try done.
    + destruct H5 as [P1 P2 P3 P4]. split; rewrite ?Ho, ?Hc; [|by rewrite <- list_fmap_compose|by apply Forall_fmap|done].
      rewrite length_fmap. exact P1.
    + change (Forall (ctx_ok (a_next_surface_id a)) (objects p')). rewrite Ho. apply Forall_fmap. eapply Forall_impl; [exact H7|]. intros c. apply forget_stale_ok.
  - unfold held_heap, contexts_heap. cbn -[surfaces_heap objects]. rewrite Ho, Hc.
    by rewrite (zsum_fmap context_size).
Qed.

Definition collected (a : accel) (r : IOReturn * Z) (a' : accel) : Prop :=
  if a_texture_manager a then
    r = (kIOReturnSuccess, live_surfaces a - live_surfaces a')
    /\ p_slots (a_surfaces a') = keep_slot a <$> p_slots (a_surfaces a)
    /\ p_slots (a_contexts a') = option_map (forget_stale (a_surfaces a')) <$> p_slots (a_contexts a)
  else r = (kIOReturnUnsupported, 0) /\ a_surfaces a' = a_surfaces a /\ a_contexts a' = a_contexts a.

Lemma garbageCollectTextures_run a b :
  accel_ok Unlocked a -> a_next_surface_id a < 2 ^ 30 ->
  ends a b garbageCollectTextures (fun r a' b' =>
    accel_ok Unlocked a' /\ grown a a' /\ fair id 0 a b a' b' /\ collected a r a').
Proof.
  intros Ha Hn. pose proof (relock_ok a Ha) as Hl. unfold ends, garbageCollectTextures, collected. acc_step.
  destruct (a_texture_manager a) eqn:Et; cbn [negb].
  2: { acc_leaf. split_and!; [done|by apply grown_refl|by apply fair_zero|done|done|done]. }
  apply (st_lock _ _ Unlocked); [apply Ha|]. cbn [lock_acquire].
  set (a1 := set_a_lock (Some Locked) a) in *. unfold getTextureMemoryUsage. do 2 acc_step.
  change (a_texture_manager a1) with (a_texture_manager a). rewrite Et. cbn [negb]. do 3 acc_step.
  change (a_memory_allocated a1) with (a_memory_allocated a). rewrite (ok_memory _ _ Ha). cbn [from_option]. unfold Datatypes.id.
  acc_step. change (GC_THRESHOLD <? 0) with false. cbn iota. acc_step.
  pose proof (po_room _ _ _ _ (ok_surfaces _ _ Ha)) as Hroom. unfold capacity in Hroom.
  change kInitialSurfaceCapacity with 64 in Hroom.
  eapply (st_gc_orphans Locked _ a1 b 0 (0, 0, 0) [] _); [exact Hl|reflexivity|done|reflexivity|done|done|cbn; lia|].
  intros cnt x' a2 H2 Hx Hm. acc_step. acc_step.
  destruct (clean_contexts_ok _ _ H2) as (H3 & E1 & E2).
  apply (st_unlock _ _ Locked); [apply H3|]. acc_leaf.
  assert (Hz : (if x'.1.2 <? a_memory_allocated (clean_contexts a2) then a_memory_allocated (clean_contexts a2) - x'.1.2 else 0) = 0).
  { rewrite (ok_memory _ _ H3). destruct (Z.ltb_spec x'.1.2 0); [lia|done]. }
  split_and!.
  - destruct H3. split; try done.
  - apply grown_refl; done.
  - apply fair_exact. f_equal.
    change (held_heap (set_a_lock ?x (set_a_memory_allocated ?y ?z))) with (held_heap z).
    change (held_refs id (set_a_lock ?x (set_a_memory_allocated ?y ?z))) with (held_refs id z).
    rewrite E1, E2. done.
  - cbn [fst]. f_equal. rewrite Hx. cbn. done.
  - done.
  - done.
Qed.

(** ** Stopping *)
Lemma find_slot_at {A} (key : A -> Z) (p : pool A) i x :
  NoDup (key <$> objects p) -> p_slots p !! i = Some (Some x) -> find_slot key (key x) p = Some (i, x).
Proof.
  intros Hd Hi. destruct (find_slot_in key (key x) p x Hd ltac:(by eapply objects_elem) eq_refl) as (j & Hj).
  rewrite Hj. do 2 f_equal. apply find_slot_Some in Hj as [Hj _]. destruct (decide (i = j)) as [->|Hne]; [done|].
  exfalso. assert (Hi' : <[i := None]> (p_slots p) !! j = Some (Some x)) by (by rewrite list_lookup_insert_ne).
  unfold objects in Hd. rewrite (objects_remove _ _ _ Hi), (objects_remove _ _ _ Hi') in Hd. cbn in Hd.
  apply NoDup_cons in Hd as [Hd _]. apply Hd. left.
Qed.

Lemma st_stop_contexts {B} n : forall a b i rest (k : unit -> M S B) Q,
  accel_ok Locked a -> a_gpu_device a = true ->
  p_slots (a_contexts a) = replicate i None ++ rest -> length rest = n ->
  (forall cnt, let a' := set_a_contexts (mk_pool (replicate (i + n) None) cnt) a in
     accel_ok Locked a' ->
     hoare (st id a' (plus4 (held_heap a' - held_heap a, 0, 0, 0) <$> b)) (k tt) Q) ->
  hoare (st id a b) (bind (stop_contexts n i) k) Q.
Proof.
  induction n as [|n IH]; intros a b i rest k Q Ha Hg Hs Hn Hk.
  - apply nil_length_inv in Hn as ->. cbn [stop_contexts]. acc_step.
    specialize (Hk (p_count (a_contexts a))). cbn zeta in Hk. rewrite Nat.add_0_r in Hk. rewrite app_nil_r in Hs.
    replace (set_a_contexts _ a) with a in Hk.
    2: { destruct a as [? ? ? ? [sl cn] ? ? ? ? ? ? ? ? ? ?]. cbn in *. by rewrite Hs. }
    rewrite Z.sub_diag, plus4_zero in Hk. by apply Hk.
  - destruct rest as [|o rest]; [done|]. cbn [length] in Hn. apply eq_add_S in Hn.
    cbn [stop_contexts]. unfold context_at. do 2 acc_step.
    assert (Ho : p_slots (a_contexts a) !! i = Some o).
    { rewrite Hs, lookup_app_r by (rewrite length_replicate; lia). rewrite length_replicate. by rewrite Nat.sub_diag. }
    rewrite Ho. assert (Hrep : forall l : list (option accel_context), replicate i None ++ None :: l = replicate (Datatypes.S i) None ++ l).
    { intros l. rewrite replicate_S_end, <- app_assoc. done. }
    rewrite Nat.add_succ_r in Hk. destruct o as [c|].
    + do 2 acc_step. pose proof (find_slot_at _ _ _ _ (po_keys _ _ _ _ (ok_contexts _ _ Ha)) Ho) as Hf.
      apply (st_destroyContextInternal _ _ Locked); [done|done|by rewrite Hf|intros j c' Hj].
      rewrite Hf in Hj. injection Hj as <- <-. acc_step.
      pose proof (ok_remove_context _ _ Ha i c Ho) as H1. set (a1 := set_a_contexts _ a) in *.
      apply (IH a1 _ _ rest); [exact H1|exact Hg| |done|].
      { cbn. rewrite Hs, insert_app_r_alt by (rewrite length_replicate; lia).
        rewrite length_replicate, Nat.sub_diag. cbn [insert list_insert]. apply Hrep. }
      intros cnt a' H2. specialize (Hk cnt). cbn zeta in Hk.
      change (set_a_contexts (mk_pool (replicate (Datatypes.S (i + n)) None) cnt) a) with a' in Hk.
      rewrite plus4_plus4. cbn [plus4].
      assert (E : held_heap a1 = held_heap a - context_size c).
      { unfold held_heap. cbn -[contexts_heap surfaces_heap empty_slot]. rewrite (contexts_heap_removed _ _ _ Ho). lia. }
      match goal with |- hoare (st id _ (plus4 ?u <$> b)) _ _ =>
        match type of Hk with _ -> hoare (st id _ (plus4 ?v <$> b)) _ _ => replace u with v end end; [by apply Hk|].
      apply quad_eq; lia.
    + acc_step. apply (IH a _ _ rest); [done|done|by rewrite Hs, Hrep|done|exact Hk].
Qed.

Lemma st_stop_surfaces {B} n : forall a b i rest (k : unit -> M S B) Q,
  p_slots (a_surfaces a) = replicate i None ++ rest -> length rest = n ->
  Forall surf_ok (objects (a_surfaces a)) ->
  (let a' := set_a_surfaces (mk_pool (replicate (i + n) None) (p_count (a_surfaces a))) a in
     hoare (st id a' (plus4 (held_heap a' - held_heap a, 0, 0, held_refs id a' - held_refs id a) <$> b)) (k tt) Q) ->
  hoare (st id a b) (bind (stop_surfaces n i) k) Q.
Proof.
  induction n as [|n IH]; intros a b i rest k Q Hs Hn Hb Hk.
  - apply nil_length_inv in Hn as ->. cbn [stop_surfaces]. acc_step.
    cbn zeta in Hk. rewrite Nat.add_0_r in Hk. rewrite app_nil_r in Hs.
    replace (set_a_surfaces _ a) with a in Hk.
    2: { destruct a as [? ? ? ? ? [sl cn] ? ? ? ? ? ? ? ? ?]. cbn in *. by rewrite Hs. }
    rewrite !Z.sub_diag, plus4_zero in Hk. by apply Hk.
  - destruct rest as [|o rest]; [done|]. cbn [length] in Hn. apply eq_add_S in Hn.
    cbn [stop_surfaces]. unfold surface_at. do 2 acc_step.
    assert (Ho : p_slots (a_surfaces a) !! i = Some o).
    { rewrite Hs, lookup_app_r by (rewrite length_replicate; lia). rewrite length_replicate. by rewrite Nat.sub_diag. }
    rewrite Ho. assert (Hrep : forall l : list (option accel_surface), replicate i None ++ None :: l = replicate (Datatypes.S i) None ++ l).
    { intros l. rewrite replicate_S_end, <- app_assoc. done. }
    rewrite Nat.add_succ_r in Hk. destruct o as [s|].
    + pose proof (proj1 (Forall_forall _ _) Hb s ltac:(by eapply objects_elem)) as (d & Hd & _).
      unfold release_backing. rewrite Hd. do 6 acc_step.
      set (p1 := mk_pool (<[i:=None]> (p_slots (a_surfaces a))) (p_count (a_surfaces a))).
      assert (Hobj : objects (a_surfaces a) ≡ₚ s :: objects p1) by exact (objects_remove _ _ _ Ho).
      apply (IH (set_a_surfaces p1 a) _ _ rest); [|done| |].
      { cbn. rewrite Hs, insert_app_r_alt by (rewrite length_replicate; lia).
        rewrite length_replicate, Nat.sub_diag. cbn [insert list_insert]. apply Hrep. }
      { rewrite Hobj in Hb. by apply Forall_cons in Hb as [_ Hb]. }
      intros a'. cbn zeta in Hk.
      change (set_a_surfaces (mk_pool (replicate (Datatypes.S (i + n)) None) (p_count (a_surfaces a))) a) with a' in Hk.
      rewrite !plus4_plus4. cbn [plus4].
      assert (E1 : held_heap (set_a_surfaces p1 a) = held_heap a - SIZEOF_SURFACE).
      { unfold held_heap, surfaces_heap. cbn -[contexts_heap objects p1 capacity]. rewrite Hobj.
        unfold capacity at 1. cbn [p_slots p1]. rewrite length_insert. unfold capacity. cbn [length]. lia. }
      assert (E2 : held_refs id (set_a_surfaces p1 a) = held_refs id a - own id (Some (md_id d))).
      { unfold held_refs. cbn [a_surfaces set_a_surfaces]. rewrite Hobj, zsum_cons. unfold surface_refs. rewrite Hd. cbn. lia. }
      match goal with |- hoare (st id _ (plus4 ?u <$> b)) _ _ =>
        match type of Hk with hoare (st id _ (plus4 ?v <$> b)) _ _ => replace u with v end end; [exact Hk|].
      apply quad_eq; lia.
    + acc_step. apply (IH a _ _ rest); [by rewrite Hs, Hrep|done|done|exact Hk].
Qed.

Lemma objects_none {A} n : omap (fun o : option A => o) (replicate n None) = [].
Proof. by induction n. Qed.

Lemma stop_run a b :
  accel_ok Unlocked a -> a_gpu_device a = true ->
  hoare (st id a b) stop (fun _ (w : S) => exists a' b', st id a' b' w /\
    accel_ok Unlocked a' /\ grown a a' /\ fair id 0 a b a' b'
    /\ objects (a_contexts a') = [] /\ objects (a_surfaces a') = []).
Proof.
  intros Ha Hg. pose proof (relock_ok a Ha) as Hl. unfold stop.
  apply (st_lock _ _ Unlocked); [apply Ha|]. cbn [lock_acquire].
  set (a1 := set_a_lock (Some Locked) a) in *. acc_step.
  apply (st_stop_contexts _ a1 b 0 (p_slots (a_contexts a1))); [done|done|done|done|].
  intros cnt a2 H2. acc_step.
  apply (st_stop_surfaces _ a2 _ 0 (p_slots (a_surfaces a2))); [done|done|exact (ok_backed _ _ H2)|].
  intros a3. acc_step. rewrite plus4_plus4. cbn [plus4]. intros w Hw.
  set (a4 := set_a_surfaces (mk_pool (p_slots (a_surfaces a3)) 0) a3) in *.
  assert (H4 : accel_ok Locked a4).
  { destruct H2 as [K1 K2 K3 K4 K5 K6 K7 K8]. split; try done.
    - destruct K6 as [P1 P2 P3 P4]. split; unfold objects, a4, a3; cbn [a_surfaces set_a_surfaces p_slots p_count];
        rewrite ?objects_none; [done|constructor|constructor|].
      unfold capacity in *. cbn [p_slots]. rewrite length_replicate. exact P4.
    - unfold objects, a4, a3. cbn [a_surfaces set_a_surfaces p_slots]. rewrite objects_none. constructor. }
  assert (E : held_heap a4 = held_heap a3 /\ held_refs id a4 = held_refs id a3) by done.
  exists (set_a_lock (Some Unlocked) a4), (plus4 (held_heap a4 - held_heap a, 0, 0, held_refs id a4 - held_refs id a) <$> b).
  split; [|split; [by apply (ok_locked _ _ H4 Unlocked)|split; [by apply grown_refl|split; [by apply fair_exact|]]]].
  - destruct E as [E1 E2]. rewrite E1, E2. unfold unlock, upd_acc, modify. destruct Hw as [Hw Hb]. split.
    + cbn. rewrite Hw. cbn. done.
    + cbn [snd aw_world]. 
      match type of Hb with match plus4 ?u <$> b with _ => _ end =>
        replace u with (held_heap a3 - held_heap a, 0, 0, held_refs id a3 - held_refs id a) in Hb end; [exact Hb|].
      change (held_heap a1) with (held_heap a). change (held_refs id a2) with (held_refs id a).
      apply quad_eq; lia.
  - unfold objects. cbn [a_contexts a_surfaces a4 a3 a2 set_a_lock set_a_surfaces set_a_contexts p_slots].
    by rewrite !objects_none.
Qed.

(** ** The whole life *)
Lemma st_free_contexts {B} a l : forall b (k : unit -> M S B) Q,
  hoare (st id a (plus4 (- zsum context_size l, 0, 0, 0) <$> b)) (k tt) Q ->
  Forall (fun c => 0 <= ac_bound_surface_capacity c) l ->
  hoare (st id a b) (bind (free_contexts l) k) Q.
Proof.
  induction l as [|c l IH]; intros b k Q Hk Hl; cbn [free_contexts].
  - acc_step. rewrite plus4_zero in Hk. exact Hk.
  - apply Forall_cons in Hl as [Hc Hl]. acc_step.
    assert (Hrest : forall b', b' = plus4 (- context_size c, 0, 0, 0) <$> b ->
      hoare (st id a b') (bind (free_contexts l) k) Q).
    { intros b' ->. apply IH; [|done]. rewrite plus4_plus4. cbn [plus4].
      match goal with |- hoare (st id _ (plus4 ?u <$> b)) _ _ =>
        match type of Hk with hoare (st id _ (plus4 ?v <$> b)) _ _ => replace u with v end end; [exact Hk|].
      rewrite zsum_cons. apply quad_eq; lia. }
    destruct (Z.eqb_spec (ac_bound_surface_capacity c) 0) as [Hz|Hz].
    + do 3 acc_step. apply Hrest. f_equal. f_equal. unfold context_size. apply quad_eq; lia.
    + do 3 acc_step. apply Hrest. rewrite plus4_plus4. f_equal. cbn [plus4]. f_equal. unfold context_size. apply quad_eq; lia.
Qed.
Lemma st_free_surfaces {B} a l : forall b (k : unit -> M S B) Q,
  hoare (st id a (plus4 (- (SIZEOF_SURFACE * Z.of_nat (length l)), 0, 0, - zsum (surface_refs id) l) <$> b)) (k tt) Q ->
  hoare (st id a b) (bind (free_surfaces l) k) Q.
Proof.
  induction l as [|s l IH]; intros b k Q Hk; cbn [free_surfaces].
  - acc_step. rewrite Z.mul_0_r, plus4_zero in Hk. exact Hk.
  - assert (Hrest : forall b', b' = plus4 (- SIZEOF_SURFACE, 0, 0, - surface_refs id s) <$> b ->
      hoare (st id a b') (bind (free_surfaces l) k) Q).
    { intros b' ->. apply IH. rewrite plus4_plus4. cbn [plus4].
      match goal with |- hoare (st id _ (plus4 ?u <$> b)) _ _ =>
        match type of Hk with hoare (st id _ (plus4 ?v <$> b)) _ _ => replace u with v end end; [exact Hk|].
      cbn [length]. rewrite zsum_cons, Nat2Z.inj_succ. apply quad_eq; lia. }
    unfold release_backing, surface_refs in *. destruct (as_backing_memory s) as [d|].
    + do 4 acc_step. apply Hrest. rewrite plus4_plus4. f_equal. cbn [plus4 fmap option_fmap option_map]. f_equal. apply quad_eq; lia.
    + do 4 acc_step. apply Hrest. cbn [fmap option_fmap option_map]. rewrite own_None. f_equal.
Qed.

Definition bounded (p : pool accel_context) : Prop :=
  Forall (fun c => 0 <= ac_bound_surface_capacity c) (objects p).

Lemma free_run a b :
  bounded (a_contexts a) ->
  hoare (st id a b) free (fun _ (w : S) => exists a', st id a' (plus4 (- held_heap a, 0, 0, - held_refs id a) <$> b) w).
Proof.
  intros Hb. unfold free. do 2 acc_step. apply st_free_contexts; [|exact Hb]. do 3 acc_step.
  apply st_free_surfaces. acc_step. intros w [Hw Hl]. eexists. split; [reflexivity|]. cbn [upd_acc modify snd aw_world].
  rewrite !plus4_plus4 in Hl. cbn [plus4] in Hl.
  match type of Hl with match plus4 ?u <$> b with _ => _ end =>
    replace u with (- held_heap a, 0, 0, - held_refs id a) in Hl end; [exact Hl|].
  unfold held_heap, contexts_heap, surfaces_heap, held_refs, SIZEOF_PTR. cbn. apply quad_eq; lia.
Qed.

Lemma objects_empty {A} n : objects (empty_pool (A := A) n) = [].
Proof. apply objects_none. Qed.
Lemma capacity_empty_pool {A} n : 0 <= n -> capacity (empty_pool (A := A) n) = n.
Proof. intros Hn. unfold capacity, empty_pool. cbn. rewrite length_replicate. lia. Qed.

(** After [init] and [start]: the invariant, if [init] succeeded, and in any
    case an account of what is held. *)
Lemma init_run a b lock_ok :
  a_panic a = false ->
  ends a b (init lock_ok) (fun ok a' b' =>
    (ok = true -> forall gpu, accel_ok Unlocked (set_a_texture_manager gpu (set_a_gpu_device gpu (set_a_framebuffer true a'))))
    /\ bounded (a_contexts a') /\ b' = plus4 (held_heap a', 0, 0, held_refs id a') <$> b
    /\ a_next_context_id a' = 1 /\ a_next_surface_id a' = 1).
Proof.
  intros Hp. unfold ends, init. cbn zeta.
  acc_step; [acc_step|acc_step]; do 1 acc_step; acc_leaf; split_and!; try done;
    try (unfold bounded; cbn [a_contexts]; rewrite objects_empty; constructor);
    try (f_equal; f_equal; unfold held_heap, contexts_heap, surfaces_heap, held_refs; cbn [a_contexts a_surfaces];
         rewrite !objects_empty, !capacity_empty_pool by done; apply quad_eq; done);
    try (rewrite ?andb_false_r; done).
  destruct lock_ok; [|done]. intros _ gpu. split; cbn -[empty_pool objects capacity Z.mul]; try done.
  all: split; rewrite ?objects_empty; [done|constructor|constructor|by rewrite capacity_empty_pool].
Qed.
End operations.

(** * Sessions *)
Inductive accel_op :=
| ACreateContext (task : Z)
| ADestroyContext (context_id : Z)
| ACreateSurface (context_id : Z) (info : surface_info)
| ADestroySurface (context_id surface_id : Z)
| ACreateFramebuffer (context_id width height color_format depth_format : Z)
| ASubmit (context_id : Z) (commands : option cmd_desc)
| APresent (e : screen_env) (context_id surface_id : Z)
| AReset
| ACollect
| AStop
| ADevice (o : display_op).

Section sessions.
Context {T : Type} `{Transport T}.
Abbreviation S := (aworld T).

Definition do_accel (o : accel_op) : M S unit :=
  match o with
  | ACreateContext task => create3DContext true task ;;; ret tt
  | ADestroyContext c => destroy3DContext c ;;; ret tt
  | ACreateSurface c info => create3DSurface c (Some info) ;;; ret tt
  | ADestroySurface c s => destroy3DSurface c s ;;; ret tt
  | ACreateFramebuffer c w h cf df => createFramebuffer c (u32 w) (u32 h) cf df true ;;; ret tt
  | ASubmit c d => submit3DCommands c d ;;; ret tt
  | APresent e c s => present3DSurface e c s ;;; ret tt
  | AReset => resetStatistics
  | ACollect => garbageCollectTextures ;;; ret tt
  | AStop => stop
  | ADevice o => kernel (do_display o) ;;; ret tt
  end.
Fixpoint run_accel (os : list accel_op) : M S unit :=
  match os with
  | [] => ret tt
  | o :: os' => do_accel o ;;; run_accel os'
  end.

(** The descriptors of video memory that a session presents to. *)
Definition avoids (id : Z) (o : accel_op) : Prop :=
  match o with
  | APresent e _ _ => match se_vram e with Some v => md_id v <> id | None => True end
  | ADevice _ => False
  | _ => True
  end.
(** The surfaces a session asks for. *)
Definition asks (o : accel_op) : Z := match o with ACreateSurface _ _ => 1 | _ => 0 end.
Definition surfaces_asked (os : list accel_op) : Z := foldr (fun o n => asks o + n) 0 os.
Lemma surfaces_asked_nonneg os : 0 <= surfaces_asked os.
Proof. induction os as [|o os IH]; cbn; [done|]. unfold surfaces_asked in IH. destruct o; cbn; lia. Qed.
(** A running service with room for [n] more operations. *)
Definition running (n : nat) (a : accel) : Prop :=
  accel_ok Unlocked a /\ a_gpu_device a = true
  /\ a_next_context_id a + Z.of_nat n < 2 ^ 30 /\ a_next_surface_id a + 2 * Z.of_nat n < 2 ^ 30.

Lemma fair_weaken id n m a b a' b' : n <= m -> fair id n a b a' b' -> fair id m a b a' b'.
Proof. intros Hn (k & Hk & ->). exists k. split; [lia|done]. Qed.
Lemma ends_done {A} id a b (m : M S A) P (P' : accel -> option (Z * Z * Z * Z) -> Prop) :
  ends id a b m P -> (forall r a' b', P r a' b' -> P' a' b') ->
  hoare (st id a b) (m ;;; ret tt) (fun _ (w : S) => exists a' b', st id a' b' w /\ P' a' b').
Proof.
  intros Hm HP. eapply hoare_bind; [exact Hm|]. intros r w (a' & b' & Hw & Hp).
  exists a', b'. split; [exact Hw|by eapply HP].
Qed.

Lemma do_accel_run id a b n o :
  running (Datatypes.S n) a -> (b = None \/ avoids id o) ->
  hoare (st id a b) (do_accel o) (fun _ w => exists a' b', st id a' b' w /\ (running n a' /\ fair id (asks o) a b a' b')).
Proof.
  intros (Ha & Hg & Hc & Hs) Ho. rewrite Nat2Z.inj_succ in Hc, Hs.
  assert (Hrun : forall a' b' m, 0 <= m <= asks o -> accel_ok Unlocked a' -> grown a a' -> fair id m a b a' b' ->
    running n a' /\ fair id (asks o) a b a' b').
  { intros a' b' m Hm H1 (G1 & _ & _ & G2 & G3) Hf. split; [|eapply fair_weaken; [|exact Hf]; lia].
    split; [done|]. split; [by rewrite G1|]. lia. }
  destruct o as [task|c|c info|c s|c w h cf df|c d|e c s| | | |o]; cbn [do_accel].
  - eapply ends_done; [apply create3DContext_run; [done|done|lia]|]. intros r a' b' (H1 & H2 & H3 & _). by apply (Hrun a' b' 0).
  - eapply ends_done; [by apply destroy3DContext_run|]. intros r a' b' (H1 & H2 & H3 & _). by apply (Hrun a' b' 0).
  - eapply ends_done; [apply create3DSurface_run; [done|done|lia]|]. intros r a' b' (H1 & H2 & H3 & _). by apply (Hrun a' b' 1).
  - eapply ends_done; [by apply destroy3DSurface_run|]. intros r a' b' (H1 & H2 & H3 & _). by apply (Hrun a' b' 0).
  - eapply ends_done; [apply createFramebuffer_run; [done|lia|apply u32_range|apply u32_range]|].
    intros r a' b' (H1 & H2 & H3 & _). by apply (Hrun a' b' 0).
  - eapply ends_done; [by apply submit3DCommands_run|]. intros r a' b' (H1 & H2 & H3 & _). by apply (Hrun a' b' 0).
  - destruct Ho as [->|Ho].
    + set (id' := match se_vram e with Some v => md_id v + 1 | None => id end).
      assert (Hid : match se_vram e with Some v => md_id v <> id' | None => True end).
      { unfold id'. destruct (se_vram e); [lia|done]. }
      intros w [Hw _]. unfold bind, ret. pose proof (present3DSurface_run id' a None e c s Ha Hid w (conj Hw I)) as Hp.
      destruct (present3DSurface e c s w) as [r w']. destruct Hp as (a' & b' & [Hw' Hb'] & H1 & H2 & (k & Hk & Hb) & _).
      cbn in Hb. subst b'. exists a', None. split; [by split|]. apply (Hrun a' None 0); [cbn; lia|done|done|by exists k].
    + eapply ends_done; [by apply present3DSurface_run|]. intros r a' b' (H1 & H2 & H3 & _). by apply (Hrun a' b' 0).
  - intros w Hw. destruct (resetStatistics_run id a b Ha w Hw) as (a' & Hw' & H1 & H2 & E1 & E2).
    exists a', b. split; [done|]. apply (Hrun a' b 0); [cbn; lia|done|done|]. apply fair_zero; [done| |].
    + unfold held_heap. by rewrite E1, E2.
    + unfold held_refs. by rewrite E2.
  - eapply ends_done; [apply garbageCollectTextures_run; [done|lia]|]. intros r a' b' (H1 & H2 & H3 & _). by apply (Hrun a' b' 0).
  - intros w Hw. destruct (stop_run id a b Ha Hg w Hw) as (a' & b' & Hw' & H1 & H2 & H3 & _).
    exists a', b'. split; [done|]. by apply (Hrun a' b' 0).
  - destruct Ho as [->|[]]. intros w [Hw _]. unfold bind, kernel. destruct (do_display o (aw_world w)) as [r k].
    exists a, None. split; [by split|]. apply (Hrun a None 0); [cbn; lia|done|by apply grown_refl|by apply fair_zero].
Qed.

Lemma fair_trans id n m a b a1 b1 a2 b2 :
  fair id n a b a1 b1 -> fair id m a1 b1 a2 b2 -> fair id (n + m) a b a2 b2.
Proof.
  intros (k & Hk & ->) (k' & Hk' & ->). exists (k + k'). split; [lia|]. rewrite plus4_plus4. cbn [plus4].
  f_equal. f_equal. apply quad_eq; lia.
Qed.
Lemma run_accel_run id os : forall a b,
  running (length os) a -> (b = None \/ Forall (avoids id) os) ->
  hoare (st id a b) (run_accel os) (fun _ w => exists a' b', st id a' b' w /\
    (running 0 a' /\ fair id (surfaces_asked os) a b a' b')).
Proof.
  induction os as [|o os IH]; intros a b Ha Ho; cbn [run_accel length].
  - intros w Hw. exists a, b. split; [done|]. split; [done|by apply fair_zero].
  - eapply hoare_bind.
    + apply (do_accel_run id a b (length os) o Ha). destruct Ho as [->|Ho]; [by left|right]. by apply Forall_cons in Ho as [? _].
    + intros [] w (a1 & b1 & Hw & Ha1 & Hf1).
      assert (Ho1 : b1 = None \/ Forall (avoids id) os).
      { destruct Ho as [->|Ho]; [left|right; by apply Forall_cons in Ho as [_ ?]]. by destruct Hf1 as (k & _ & ->). }
      destruct (IH a1 b1 Ha1 Ho1 w Hw) as (a2 & b2 & Hw2 & Ha2 & Hf2). exists a2, b2. split; [done|]. split; [done|].
      cbn [surfaces_asked foldr]. by eapply fair_trans.
Qed.

(** A service from its first allocation to its last release. *)
Definition life (lock_ok : bool) (os : list accel_op) : M S unit :=
  let! ok := init lock_ok in
  (if ok then start true ;;; run_accel os else ret tt) ;;;
  free.

Lemma life_run id b lock_ok os a :
  a_panic a = false -> Z.of_nat (length os) < 2 ^ 28 -> (b = None \/ Forall (avoids id) os) ->
  hoare (st id a b) (life lock_ok os) (fun _ w => exists a' k, st id a' (plus4 (SIZEOF_GPU_RESOURCE * k, 0, 0, 0) <$> b) w
    /\ 0 <= k <= surfaces_asked os).
Proof.
  intros Hp Hlen Ho. unfold life. eapply hoare_bind; [by apply init_run|].
  intros ok w (a1 & b1 & Hw & Hok & Hbd & -> & Hn1 & Hn2). destruct ok.
  - unfold start.
    set (a2 := set_a_texture_manager true (set_a_gpu_device true (set_a_framebuffer true a1))).
    assert (Ha2 : running (length os) a2) by (split; [by apply Hok|split; [done|cbn; lia]]).
    assert (Hw2 : st id a2 (plus4 (held_heap a1, 0, 0, held_refs id a1) <$> b)
      (upd_acc (fun a => set_a_texture_manager true (set_a_gpu_device true (set_a_framebuffer true a))) w).2).
    { destruct Hw as [<- Hb]. by split. }
    assert (Ho' : plus4 (held_heap a1, 0, 0, held_refs id a1) <$> b = None \/ Forall (avoids id) os).
    { destruct Ho as [->|Ho]; [by left|by right]. }
    pose proof (run_accel_run id os a2 _ Ha2 Ho' _ Hw2) as (a3 & b3 & Hw3 & (H3 & _) & (k & Hk & ->)).
    assert (Hbd3 : bounded (a_contexts a3)).
    { unfold bounded. eapply Forall_impl; [exact (ok_bound _ _ H3)|]. intros c Hc. pose proof (co_room _ _ Hc) as Hr. cbn. lia. }
    unfold bind, upd_acc, modify in *. cbn [snd] in *.
    destruct (run_accel os _) as [u w3]. cbn [snd] in *.
    destruct (free_run id a3 _ Hbd3 _ Hw3) as (a4 & Hw4). exists a4, k. split; [|done].
    rewrite !plus4_plus4 in Hw4. cbn [plus4] in Hw4.
    match type of Hw4 with st _ _ (plus4 ?u <$> _) _ => replace u with (SIZEOF_GPU_RESOURCE * k, 0, 0, 0) in Hw4 end; [exact Hw4|].
    change (held_heap a2) with (held_heap a1). change (held_refs id a2) with (held_refs id a1). apply quad_eq; lia.
  - destruct (free_run id a1 _ Hbd w Hw) as (a4 & Hw4). unfold bind, ret. exists a4, 0. split; [|pose proof (surfaces_asked_nonneg os); lia].
    rewrite plus4_plus4 in Hw4. cbn [plus4] in Hw4.
    match type of Hw4 with st _ _ (plus4 ?u <$> _) _ => replace u with (SIZEOF_GPU_RESOURCE * 0, 0, 0, 0) in Hw4 end; [exact Hw4|].
    apply quad_eq; lia.
Qed.
End sessions.
