(* ===== verification/AccelSpec.v ===== *)
(** What the accelerator of [Accel.v] guarantees over a session, and what it
    does not: theorems on top of the triples of [AccelLife.v]. *)
From S2P Require Import Prelude Wire Transport Driver Resources Display Accounts Accel AccelLife.

(** * The invariant and the memory *)
(** C26: on a framebuffer that has a device object, from [init] and [start] on, whatever user space asks in fewer than 2^28 operations, the
    host refuses and the kernel has memory for, the service keeps its invariant: its lock is free, the counts of its two
    pools are right, ids are distinct, contexts list distinct surfaces that were made, within
    their arrays, every surface has a buffer that holds it, and no null device is called.
    (On a framebuffer without one, [start] succeeds as well and the first context calls
    through the null pointer: [deviceless_service_panics].) *)
Theorem accelerator_sound T `{Transport T} lock_ok os (w : aworld T) :
  a_panic (aw_acc w) = false -> Z.of_nat (length os) < 2 ^ 28 ->
  let '(ok, w1) := init lock_ok w in
  ok = true -> accel_ok Unlocked (aw_acc ((start true ;;; run_accel os) w1).2).
Proof.
  intros Hp Hlen. pose proof (init_run 0 (aw_acc w) None lock_ok Hp w (conj eq_refl I)) as Hi.
  destruct (init lock_ok w) as [ok w1]. destruct Hi as (a1 & b1 & [Hw Hb] & Hok & _ & -> & Hn1 & Hn2). intros ->.
  set (a2 := set_a_texture_manager true (set_a_gpu_device true (set_a_framebuffer true a1))).
  assert (Ha2 : running (length os) a2) by (split; [by apply Hok|split; [done|cbn; lia]]).
  assert (Hw2 : st 0 a2 None (mk_aworld a2 (aw_world w1) (aw_vram w1))) by by split.
  pose proof (run_accel_run 0 os a2 None Ha2 (or_introl eq_refl) _ Hw2) as (a3 & b3 & [Hw3 _] & (H3 & _) & _).
  unfold bind, start, upd_acc, modify. cbn [fst snd]. cbn in Hw. rewrite Hw. fold a2. by rewrite Hw3.
Qed.

(** C27: over the whole life of the service on a framebuffer that has a device object, from
    [init] (which may run out of memory) through fewer than 2^28 operations of the service, of
    any kind, to [free], and with a device whose unused slots hold no backing, the kernel gets back what the accelerator took: mappings, prepares, and the references to every
    descriptor but those of video memory are as before (up to what the device's own pool
    holds), and of the heap only the device's lost blocks are missing, at most one for each
    surface asked for. *)
Theorem accelerator_returns_memory T `{Transport T} lock_ok os (w : aworld T) id :
  a_panic (aw_acc w) = false -> Z.of_nat (length os) < 2 ^ 28 ->
  clean (g_pool (w_gpu (aw_world w))) -> Forall (avoids id) os ->
  let w' := (life lock_ok os w).2 in
  exists k, 0 <= k <= surfaces_asked os /\
    let '(h, m, p, r) := ledger id (aw_world w) in
    ledger id (aw_world w') = (h + SIZEOF_GPU_RESOURCE * k, m, p, r).
Proof.
  intros Hp Hlen Hc Ho w'.
  destruct (life_run id (Some (ledger id (aw_world w))) lock_ok os (aw_acc w) Hp Hlen (or_intror Ho) w
    (conj eq_refl (conj Hc eq_refl))) as (a' & k & [_ [_ Hl]] & Hk).
  exists k. split; [exact Hk|]. fold w' in Hl. rewrite Hl. destruct (ledger id (aw_world w)) as [[[h m] p] r].
  cbn. apply quad_eq; lia.
Qed.

(** * Lookups *)
Definition lookup_by {A} (key : A -> Z) (id : Z) (p : pool A) : option A := snd <$> find_slot key id p.

Section lookups.
Context {A : Type} (key : A -> Z).
Implicit Types (p q : pool A) (x y : A).
Lemma lookup_by_Some p id x :
  NoDup (key <$> objects p) -> lookup_by key id p = Some x <-> x ∈ objects p /\ key x = id.
Proof.
  intros Hd. unfold lookup_by. split.
  - intros Hx. apply fmap_Some in Hx as ([i y] & Hi & ->). apply find_slot_Some in Hi as [Hi Hk].
    split; [by eapply objects_elem|done].
  - intros [Hx Hk]. destruct (find_slot_in key id p x Hd Hx Hk) as (i & ->). done.
Qed.
Lemma lookup_by_ext p q id :
  NoDup (key <$> objects p) -> NoDup (key <$> objects q) ->
  (forall x, key x = id -> x ∈ objects p <-> x ∈ objects q) -> lookup_by key id p = lookup_by key id q.
Proof.
  intros Hp Hq Hx. apply option_eq. intros x. rewrite !lookup_by_Some by done.
  split; intros [H1 H2]; (split; [by apply Hx|done]).
Qed.
Lemma lookup_by_added p q x id :
  NoDup (key <$> objects q) -> added x p q ->
  lookup_by key id q = if decide (id = key x) then Some x else lookup_by key id p.
Proof.
  intros Hq [Hp _]. pose proof Hq as Hq'. rewrite Hp in Hq'. cbn in Hq'. apply NoDup_cons in Hq' as [Hn Hd].
  destruct (decide (id = key x)) as [->|Hne].
  - apply lookup_by_Some; [done|]. split; [rewrite Hp; left|done].
  - apply lookup_by_ext; [done|done|]. intros y Hy. rewrite Hp, elem_of_cons. split; [|by right].
    intros [->|?]; [congruence|done].
Qed.
Lemma lookup_by_removed p i x id :
  NoDup (key <$> objects p) -> p_slots p !! i = Some (Some x) ->
  lookup_by key id (empty_slot i p) = if decide (id = key x) then None else lookup_by key id p.
Proof.
  intros Hd Hi. assert (Hp : objects p ≡ₚ x :: objects (empty_slot i p)) by exact (objects_remove _ _ _ Hi).
  pose proof Hd as Hd'. rewrite Hp in Hd'. cbn in Hd'. apply NoDup_cons in Hd' as [Hn Hd'].
  destruct (decide (id = key x)) as [->|Hne].
  - destruct (lookup_by key (key x) (empty_slot i p)) as [y|] eqn:E; [|done].
    apply lookup_by_Some in E as [Hy Hk]; [|done]. destruct Hn. rewrite <- Hk. by apply list_elem_of_fmap_2.
  - apply lookup_by_ext; [done|done|]. intros y Hy. rewrite Hp, elem_of_cons. split; [by right|].
    intros [->|?]; [congruence|done].
Qed.
Lemma lookup_by_put p i x y id :
  NoDup (key <$> objects p) -> p_slots p !! i = Some (Some x) -> key y = key x ->
  lookup_by key id (put_slot i y p) = if decide (id = key x) then Some y else lookup_by key id p.
Proof.
  intros Hd Hi Hk. assert (Hp : objects p ≡ₚ x :: objects (empty_slot i p)) by exact (objects_remove _ _ _ Hi).
  assert (Hq : objects (put_slot i y p) ≡ₚ y :: objects (empty_slot i p)) by exact (objects_replace _ _ _ y Hi).
  pose proof Hd as Hd'. rewrite Hp in Hd'. cbn in Hd'.
  assert (Hdq : NoDup (key <$> objects (put_slot i y p))) by (rewrite Hq; cbn; by rewrite Hk).
  apply NoDup_cons in Hd' as [Hn Hd'].
  destruct (decide (id = key x)) as [->|Hne].
  - apply lookup_by_Some; [done|]. split; [rewrite Hq; left|done].
  - apply lookup_by_ext; [done|done|]. intros z Hz. rewrite Hp, Hq, !elem_of_cons. split; (intros [->|?]; [congruence|by right]).
Qed.
End lookups.

Section results.
Context {T : Type} `{Transport T}.
Abbreviation S := (aworld T).

(** The result of a run, without an account. *)
Lemma acc_result_at {A} id (m : M S A) P (w : S) :
  ends id (aw_acc w) None m P -> exists b', P (m w).1 (aw_acc (m w).2) b'.
Proof.
  intros Hm. destruct (Hm w (conj eq_refl I)) as (a' & b' & [Hw _] & HP). exists b'. by rewrite Hw.
Qed.
Lemma acc_result {A} (m : M S A) P (w : S) :
  ends 0 (aw_acc w) None m P -> exists b', P (m w).1 (aw_acc (m w).2) b'.
Proof. apply acc_result_at. Qed.
Definition surf (w : S) (i : Z) : option accel_surface := lookup_by as_surface_id i (a_surfaces (aw_acc w)).
Definition ctx (w : S) (i : Z) : option accel_context := lookup_by ac_context_id i (a_contexts (aw_acc w)).
Definition listing (w : S) (i : Z) : list Z := match ctx w i with Some c => ac_bound_surface_ids c | None => [] end.
End results.

Lemma ok_surface_keys l a : accel_ok l a -> NoDup (as_surface_id <$> objects (a_surfaces a)).
Proof. intros Ha. exact (po_keys _ _ _ _ (ok_surfaces _ _ Ha)). Qed.
Lemma ok_context_keys l a : accel_ok l a -> NoDup (ac_context_id <$> objects (a_contexts a)).
Proof. intros Ha. exact (po_keys _ _ _ _ (ok_contexts _ _ Ha)). Qed.

(** Lookups before and after a surface is made in a context and entered. *)
Lemma made_lookups a a' cid info size :
  accel_ok Unlocked a -> accel_ok Unlocked a' -> surface_made a cid info size a' ->
  let n := a_next_surface_id a + 1 in
  exists c c' g d, lookup_by ac_context_id cid (a_contexts a) = Some c /\ ctx_ok (a_next_surface_id a) c
    /\ bound_more n n c c' /\ md_length d = size
    /\ lookup_by as_surface_id n (a_surfaces a) = None
    /\ (forall i, lookup_by as_surface_id i (a_surfaces a')
          = if decide (i = n) then Some (surface_at_id n g info d) else lookup_by as_surface_id i (a_surfaces a))
    /\ (forall i, lookup_by ac_context_id i (a_contexts a')
          = if decide (i = cid) then Some c' else lookup_by ac_context_id i (a_contexts a)).
Proof.
  intros Ha H1 (ci & c & c' & g & d & Hf & Hnext & Hadd & Hd & Hput & Hbm) n. fold n in Hnext, Hadd, Hbm.
  pose proof (find_slot_Some _ _ _ _ _ Hf) as [Hci Hcid]. exists c, c', g, d.
  split_and!; [unfold lookup_by; by rewrite Hf|by eapply ok_context_at|done|done| | |].
  - destruct (lookup_by as_surface_id n (a_surfaces a)) as [s|] eqn:E; [|done].
    apply lookup_by_Some in E as [Hin Hs]; [|by eapply ok_surface_keys].
    pose proof (proj1 (Forall_forall _ _) (po_range _ _ _ _ (ok_surfaces _ _ Ha)) s Hin) as Hr. cbn in Hr. lia.
  - intros i. exact (lookup_by_added as_surface_id _ _ _ i (ok_surface_keys _ _ H1) Hadd).
  - intros i. rewrite Hput, <- Hcid. apply lookup_by_put; [by eapply ok_context_keys|done|]. by destruct Hbm as [-> _].
Qed.
(** Lookups after a surface that is there is destroyed in a context that is. *)
Lemma gone_lookups a a' cid sid r c s :
  accel_ok Unlocked a -> surface_gone a cid sid r a' ->
  lookup_by ac_context_id cid (a_contexts a) = Some c -> lookup_by as_surface_id sid (a_surfaces a) = Some s ->
  r = kIOReturnSuccess
  /\ (forall i, lookup_by as_surface_id i (a_surfaces a')
        = if decide (i = sid) then None else lookup_by as_surface_id i (a_surfaces a))
  /\ (forall i, lookup_by ac_context_id i (a_contexts a')
        = if decide (i = cid) then Some (set_bound (unbind sid (ac_bound_surface_ids c)) (ac_bound_surface_capacity c) c)
          else lookup_by ac_context_id i (a_contexts a)).
Proof.
  intros Ha Hg Hc Hs. unfold surface_gone in Hg. unfold lookup_by in Hc, Hs.
  destruct (find_slot ac_context_id cid (a_contexts a)) as [[i1 x1]|] eqn:F1; [|done].
  destruct (find_slot as_surface_id sid (a_surfaces a)) as [[i2 x2]|] eqn:F2; [|done].
  cbn in Hc, Hs. injection Hc as ->. injection Hs as ->. destruct Hg as (-> & Es & Ec).
  apply find_slot_Some in F1 as [F1 <-]. apply find_slot_Some in F2 as [F2 <-]. split_and!; [done|intros i..].
  - rewrite Es. exact (lookup_by_removed _ _ _ _ i (ok_surface_keys _ _ Ha) F2).
  - rewrite Ec. by apply lookup_by_put; [eapply ok_context_keys|..].
Qed.

(** Unbinding what was just bound gives the list back. *)
Lemma unbind_bound n sid c c' :
  ctx_ok n c -> n < sid -> bound_more sid sid c c' -> unbind sid (ac_bound_surface_ids c') ≡ₚ ac_bound_surface_ids c.
Proof.
  intros Hc Hn (_ & [E|E] & _).
  - rewrite E, unbind_absent; [done|]. intros Hin.
    pose proof (proj1 (Forall_forall _ _) (co_made _ _ Hc) sid Hin) as Hr. cbn in Hr. lia.
  - assert (Hin : sid ∈ ac_bound_surface_ids c') by (rewrite E; apply elem_of_app; right; by left).
    pose proof (unbind_perm _ _ Hin) as Hp. rewrite E in Hp at 1. rewrite <- Permutation_cons_append in Hp.
    by apply Permutation_cons_inv in Hp.
Qed.

(** C28: a surface made is found under its fresh id, with its description and a buffer of its
    size, and nothing else changes; destroyed in the same context it is gone again, every
    lookup is as it was, and every context lists the surfaces it listed. A creation that fails
    leaves every lookup alone. *)
Theorem surface_roundtrip T `{Transport T} cid info (w : aworld T) :
  running 2 (aw_acc w) ->
  let n := a_next_surface_id (aw_acc w) + 1 in
  let '(r, w1) := create3DSurface cid (Some info) w in
  if is_success r then
    is_Some (ctx w cid) /\ surf w n = None
    /\ (exists g d, surf w1 n = Some (surface_at_id n g info d) /\ md_length d = calculateSurfaceSize info)
    /\ (forall i, i <> n -> surf w1 i = surf w i)
    /\ let '(r2, w2) := destroy3DSurface cid n w1 in
       r2 = kIOReturnSuccess /\ (forall i, surf w2 i = surf w i)
       /\ (forall i, is_Some (ctx w2 i) <-> is_Some (ctx w i)) /\ (forall i, listing w2 i ≡ₚ listing w i)
  else forall i, surf w1 i = surf w i /\ ctx w1 i = ctx w i.
Proof.
  intros (Ha & Hg & _ & Hn). intros n. assert (Hn' : a_next_surface_id (aw_acc w) < 2 ^ 30 - 2) by lia.
  destruct (acc_result _ _ w (create3DSurface_run 0 (aw_acc w) None cid info Ha Hg ltac:(lia))) as (b1 & H1 & G1 & _ & Ho).
  destruct (create3DSurface cid (Some info) w) as [r w1]. cbn [fst snd] in *. unfold surface_outcome in Ho.
  destruct (is_success r).
  2: { destruct Ho as [E1 E2]. intros i. unfold surf, ctx. by rewrite E1, E2. }
  destruct (made_lookups _ _ _ _ _ Ha H1 Ho) as (c & c' & g & d & Hcw & Hcok & Hbm & Hd & Hnone & Hs1 & Hc1).
  fold n in Hbm, Hnone, Hs1. split; [by exists c|]. split; [done|].
  split; [exists g, d; unfold surf; by rewrite Hs1, decide_True|].
  split; [intros i Hi; unfold surf; by rewrite Hs1, decide_False|].
  destruct (acc_result _ _ w1 (destroy3DSurface_run 0 (aw_acc w1) None cid n H1)) as (b2 & H2 & _ & _ & Hgone).
  destruct (destroy3DSurface cid n w1) as [r2 w2]. cbn [fst snd] in *.
  destruct (gone_lookups _ _ _ _ _ c' (surface_at_id n g info d) H1 Hgone) as (-> & Hs2 & Hc2).
  { by rewrite Hc1, decide_True. }
  { by rewrite Hs1, decide_True. }
  split; [done|]. split; [|split].
  - intros i. unfold surf. rewrite Hs2, Hs1. by destruct (decide (i = n)) as [->|].
  - intros i. unfold ctx. rewrite Hc2, Hc1. destruct (decide (i = cid)) as [->|]; [|done]. rewrite Hcw. by split; eexists.
  - intros i. unfold listing, ctx. rewrite Hc2, Hc1. destruct (decide (i = cid)) as [->|]; [|done]. rewrite Hcw. cbn.
    apply (unbind_bound (n - 1)); [|lia|done]. by replace (n - 1) with (a_next_surface_id (aw_acc w)) by lia.
Qed.

(** * Collecting *)
Lemma lookup_none_fmap {A} (key : A -> Z) (p : pool A) id : id ∉ key <$> objects p -> find_slot key id p = None.
Proof.
  intros Hn. destruct (find_slot key id p) as [[i x]|] eqn:E; [|done]. apply find_slot_Some in E as [Hi <-].
  destruct Hn. apply list_elem_of_fmap_2. by eapply objects_elem.
Qed.
Lemma elem_keep a (p q : pool accel_surface) s :
  p_slots q = keep_slot a <$> p_slots p -> s ∈ objects q <-> s ∈ objects p /\ kept a s = true.
Proof.
  intros Hq. unfold objects. rewrite !elem_objects, Hq. split.
  - intros (i & Hi). rewrite list_lookup_fmap in Hi. apply fmap_Some in Hi as (o & Ho & E).
    destruct o as [x|]; [|done]. cbn in E. destruct (kept a x) eqn:K; [|done]. injection E as ->. split; [by exists i|done].
  - intros [(i & Hi) K]. exists i. rewrite list_lookup_fmap, Hi. cbn. by rewrite K.
Qed.
Lemma elem_forget (p q : pool accel_context) sp c :
  p_slots q = option_map (forget_stale sp) <$> p_slots p ->
  c ∈ objects q <-> exists c0, c0 ∈ objects p /\ c = forget_stale sp c0.
Proof.
  intros Hq. unfold objects. setoid_rewrite elem_objects. rewrite Hq. split.
  - intros (i & Hi). rewrite list_lookup_fmap in Hi. apply fmap_Some in Hi as ([x|] & Ho & E); [|done].
    injection E as ->. exists x. split; [by exists i|done].
  - intros (c0 & (i & Hi) & ->). exists i. by rewrite list_lookup_fmap, Hi.
Qed.
Lemma backed_ok l a sid : accel_ok l a -> backed (a_surfaces a) sid = true <-> sid ∈ as_surface_id <$> objects (a_surfaces a).
Proof.
  intros Ha. unfold backed. destruct (find_slot as_surface_id sid (a_surfaces a)) as [[i s]|] eqn:E.
  - apply find_slot_Some in E as [Hi Hs]. destruct (ok_surface_at _ _ Ha i s Hi) as (d & -> & _).
    split; [|done]. intros _. rewrite <- Hs. apply list_elem_of_fmap_2. by eapply objects_elem.
  - apply find_slot_None in E. done.
Qed.
Lemma listed_true a sid : listed a sid = true <-> exists c, c ∈ objects (a_contexts a) /\ sid ∈ ac_bound_surface_ids c.
Proof.
  unfold listed, contextHasSurface. rewrite existsb_exists. setoid_rewrite existsb_exists.
  setoid_rewrite Z.eqb_eq. setoid_rewrite <- list_elem_of_In. split.
  - intros (c & Hc & x & Hx & ->). eauto.
  - intros (c & Hc & Hs). eauto.
Qed.

(** C29: a collection keeps exactly the surfaces some context lists and has every context
    forget exactly the ids of surfaces that are gone, so that afterwards lists and surfaces
    agree; it answers how many it freed, and a second one frees nothing. (The two sweeps for
    memory pressure never run: the memory they go by is never counted up.) *)
Theorem collect_spec T `{Transport T} (w : aworld T) :
  running 2 (aw_acc w) -> a_texture_manager (aw_acc w) = true ->
  let '(r, w1) := garbageCollectTextures w in
  let surfaces w := objects (a_surfaces (aw_acc w)) in
  let contexts w := objects (a_contexts (aw_acc w)) in
  r = (kIOReturnSuccess, Z.of_nat (length (surfaces w)) - Z.of_nat (length (surfaces w1)))
  /\ (forall s, s ∈ surfaces w1 <-> s ∈ surfaces w /\ exists c, c ∈ contexts w /\ as_surface_id s ∈ ac_bound_surface_ids c)
  /\ (forall sid, (exists c, c ∈ contexts w1 /\ sid ∈ ac_bound_surface_ids c) <-> sid ∈ as_surface_id <$> surfaces w1)
  /\ (garbageCollectTextures w1).1 = (kIOReturnSuccess, 0).
Proof.
  intros (Ha & Hg & _ & Hn) Ht. cbn [Z.of_nat] in Hn.
  destruct (acc_result _ _ w (garbageCollectTextures_run 0 (aw_acc w) None Ha ltac:(lia))) as (b1 & H1 & G1 & _ & Ho).
  destruct (garbageCollectTextures w) as [r w1]. cbn [fst snd] in *. unfold collected in Ho. rewrite Ht in Ho.
  destruct Ho as (-> & Es & Ec). pose proof G1 as (G2 & _ & G3 & _ & G5).
  assert (Hsurf : forall s, s ∈ objects (a_surfaces (aw_acc w1)) <->
    s ∈ objects (a_surfaces (aw_acc w)) /\ exists c, c ∈ objects (a_contexts (aw_acc w)) /\ as_surface_id s ∈ ac_bound_surface_ids c).
  { intros s. rewrite (elem_keep _ _ _ s Es). unfold kept. by rewrite listed_true. }
  assert (Hlist : forall sid, (exists c, c ∈ objects (a_contexts (aw_acc w1)) /\ sid ∈ ac_bound_surface_ids c)
    <-> sid ∈ as_surface_id <$> objects (a_surfaces (aw_acc w1))).
  { intros sid. setoid_rewrite (elem_forget _ _ _ _ Ec). split.
    - intros (c & (c0 & Hc0 & ->) & Hs). cbn in Hs. apply list_elem_of_In, filter_In in Hs as [_ Hb]. by eapply backed_ok.
    - intros Hs. apply list_elem_of_fmap in Hs as (s & -> & Hs). pose proof Hs as Hs'.
      apply Hsurf in Hs as [_ (c & Hc & Hin)]. exists (forget_stale (a_surfaces (aw_acc w1)) c). split; [by exists c|].
      cbn. apply list_elem_of_In, filter_In. split; [by apply list_elem_of_In|].
      eapply backed_ok; [exact H1|]. by apply list_elem_of_fmap_2. }
  split; [done|]. split; [exact Hsurf|]. split; [exact Hlist|].
  destruct (acc_result _ _ w1 (garbageCollectTextures_run 0 (aw_acc w1) None H1 ltac:(lia))) as (b2 & _ & _ & _ & Ho2).
  destruct (garbageCollectTextures w1) as [r2 w2]. cbn [fst snd] in *. unfold collected in Ho2. rewrite G3, Ht in Ho2.
  destruct Ho2 as (-> & Es2 & _). f_equal. unfold live_surfaces, objects. rewrite Es2.
  assert (Hid : keep_slot (aw_acc w1) <$> p_slots (a_surfaces (aw_acc w1)) = p_slots (a_surfaces (aw_acc w1))).
  { rewrite <- (list_fmap_id (p_slots (a_surfaces (aw_acc w1)))) at 2. apply list_fmap_ext. intros i o Ho.
    destruct o as [s|]; [|done]. cbn. unfold kept. rewrite (proj2 (listed_true _ _)); [done|].
    apply Hlist, list_elem_of_fmap_2. by eapply objects_elem. }
  rewrite Hid. lia.
Qed.

(** * Framebuffers *)
Lemma framebuffer_id_split c d :
  0 <= c < 2 ^ 16 -> 0 <= d < 2 ^ 16 ->
  Z.shiftr (framebuffer_id c d) 16 = c /\ Z.land (framebuffer_id c d) 0xffff = d.
Proof.
  intros Hc Hd. unfold framebuffer_id. rewrite u32_small by (rewrite Z.shiftl_mul_pow2 by lia; lia).
  change 0xffff with (Z.ones 16). split.
  - rewrite Z.shiftr_lor, Z.shiftr_shiftl_l by lia. cbn. rewrite Z.shiftl_0_r.
    rewrite (Z.shiftr_div_pow2 d) by lia. rewrite Z.div_small by lia. by rewrite Z.lor_0_r.
  - rewrite Z.land_lor_distr_l, !Z.land_ones by lia. rewrite Z.shiftl_mul_pow2 by lia.
    rewrite Z_mod_mult, Z.mod_small by lia. done.
Qed.

(** [createFramebuffer] makes the surfaces asked for and an id from which, while ids fit
    in 16 bits, both can be read back; refused or out of memory it leaves the surfaces there
    were, and none of its own. *)
Theorem createFramebuffer_spec T `{Transport T} cid wd ht cf df ptr (w : aworld T) :
  running 2 (aw_acc w) -> 0 <= wd -> 0 <= ht -> a_next_surface_id (aw_acc w) + 2 < 2 ^ 16 ->
  let '(r, w1) := createFramebuffer cid wd ht cf df ptr w in
  let surfaces w := objects (a_surfaces (aw_acc w)) in
  if is_success r.1 then
    exists id news, r.2 = Some id /\ surfaces w1 ≡ₚ news ++ surfaces w
      /\ (as_surface_id <$> news) = (if df =? 0 then [] else [Z.land id 0xffff]) ++ (if cf =? 0 then [] else [Z.shiftr id 16])
      /\ Forall (fun s => as_surface_id s ∉ as_surface_id <$> surfaces w) news
  else r.2 = None /\ surfaces w1 ≡ₚ surfaces w.
Proof.
  intros (Ha & Hg & _ & Hn) Hw Hh H16.
  destruct (acc_result _ _ w (createFramebuffer_run 0 (aw_acc w) None cid wd ht cf df ptr Ha ltac:(lia) Hw Hh))
    as (b1 & H1 & _ & _ & Ho).
  destruct (createFramebuffer cid wd ht cf df ptr w) as [r w1]. cbn [fst snd] in *. unfold framebuffer_made in Ho.
  destruct (is_success r.1); [|done]. pose proof (ok_next _ _ Ha) as [_ Hn2].
  destruct (framebuffer_ids _ cf df) as [c d] eqn:E. destruct Ho as (Er & news & Hp & Hids).
  assert (Hcd : 0 <= c < 2 ^ 16 /\ 0 <= d < 2 ^ 16 /\ ((cf =? 0) = false -> a_next_surface_id (aw_acc w) < c) /\ ((df =? 0) = false -> a_next_surface_id (aw_acc w) < d)).
  { unfold framebuffer_ids in E. injection E as <- <-. destruct (cf =? 0), (df =? 0); split_and!; lia. }
  destruct Hcd as (Hc & Hd & Hc' & Hd'). destruct (framebuffer_id_split c d Hc Hd) as [E1 E2].
  exists (framebuffer_id c d), news. rewrite E1, E2. split_and!; [done|done|done|].
  apply Forall_forall. intros s Hs Hin.
  assert (Hr : as_surface_id s <= a_next_surface_id (aw_acc w)).
  { apply list_elem_of_fmap in Hin as (s' & -> & Hs').
    pose proof (proj1 (Forall_forall _ _) (po_range _ _ _ _ (ok_surfaces _ _ Ha)) s' Hs') as Hr. cbn in Hr. lia. }
  assert (Hs2 : as_surface_id s ∈ as_surface_id <$> news) by by apply list_elem_of_fmap_2.
  rewrite Hids in Hs2. destruct (cf =? 0), (df =? 0); cbn in Hs2; set_unfold; naive_solver lia.
Qed.

(** * The screen *)
(** A copy inside video memory of [vram] bytes and a buffer of [len] bytes. *)
Definition in_bounds (vram len : Z) (c : copy) : Prop :=
  0 <= cp_dst c /\ cp_dst c + cp_len c <= vram /\ 0 <= cp_src c /\ cp_src c + cp_len c <= len.

(** No QEMU display behind the framebuffer, or one as wide as the surface and
    not lower. *)
Definition fits_screen (q : option (Z * Z)) (i : surface_info) : Prop :=
  match q with
  | None => True
  | Some (cw, ch) => si_width i = cw /\ 0 <= si_height i <= ch /\ 0 <= cw /\ cw * ch * 4 < 2 ^ 32
  end.

Lemma copy_plan_bounds q vram i len cs :
  0 <= vram -> calculateSurfaceSize i <= len -> fits_screen q i ->
  copy_plan q vram i = Some cs -> Forall (in_bounds vram len) cs.
Proof.
  intros Hv Hl Hq. unfold copy_plan.
  pose proof (u32_range (u32 (si_width i * si_height i) * (if si_format i =? VM3D_FORMAT_R5G6B5 then 2 else 4))) as Hs.
  change (u32 (u32 (si_width i * si_height i) * _)) with (calculateSurfaceSize i) in Hs.
  assert (Hm : u32 vram <= vram) by (apply Z.mod_le; lia).
  destruct (Z.leb_spec (u32 (vram_offset q i + calculateSurfaceSize i)) (u32 vram)) as [Hle|]; [|done].
  destruct q as [[cw ch]|]; cbn in Hq.
  - destruct Hq as (Hw & Hh & Hcw & Hlt). rewrite Hw, Z.eqb_refl. cbn [orb].
    assert (Hwh : 0 <= cw * si_height i <= cw * ch) by nia.
    assert (Hsz : calculateSurfaceSize i <= 4 * (cw * si_height i)).
    { unfold calculateSurfaceSize. rewrite Hw, (u32_small (cw * si_height i)) by lia. destruct (_ =? _); rewrite u32_small; lia. }
    assert (Hoff : 0 <= vram_offset (Some (cw, ch)) i /\ vram_offset (Some (cw, ch)) i + 4 * (cw * si_height i) <= 4 * (cw * ch)).
    { cbn. rewrite Hw. destruct (_ || _) eqn:Eb; [|nia]. apply orb_true_iff in Eb. rewrite !Z.ltb_lt in Eb.
      rewrite Z.sub_diag. change (u32 0 / 2) with 0. rewrite Z.add_0_r.
      set (y := u32 (ch - si_height i) / 2).
      assert (Hcw1 : 0 < cw -> ch < 2 ^ 32) by nia.
      destruct (Z.eq_dec cw 0) as [->|Hcw0]; [rewrite !Z.mul_0_r, ?Z.mul_0_l; change (u32 0) with 0; lia|].
      assert (Hy : 0 <= y /\ 2 * y <= ch - si_height i).
      { unfold y. rewrite u32_small by lia. pose proof (Z_div_mod_eq_full (ch - si_height i) 2).
        pose proof (Z.mod_pos_bound (ch - si_height i) 2 ltac:(lia)). lia. }
      assert (0 <= y * cw /\ 2 * (y * cw) <= cw * ch - cw * si_height i) by nia.
      rewrite (u32_small (y * cw)) by lia. rewrite (u32_small (y * cw)) by lia. rewrite u32_small by lia. lia. }
    revert Hle Hoff. generalize (vram_offset (Some (cw, ch)) i) as off. intros off Hle Hoff.
    rewrite u32_small in Hle by lia. intros [= <-]. constructor; [|constructor]. unfold in_bounds. cbn [cp_dst cp_src cp_len]. lia.
  - rewrite orb_true_r. intros [= <-]. cbn [vram_offset] in *. rewrite Z.add_0_l, u32_small in Hle by lia.
    constructor; [|constructor]. unfold in_bounds. cbn [cp_dst cp_src cp_len]. lia.
Qed.

Section quiet.
Context {T : Type} `{Transport T}.
Lemma keeps_vram_kernel {A} (m : M (world T) A) : keeps (@aw_vram T) (kernel m).
Proof. intros v w Hw. unfold kernel. by destruct (m (aw_world w)). Qed.
Lemma keeps_vram_upd f : keeps (@aw_vram T) (upd_acc f).
Proof. by apply keeps_modify. Qed.
Lemma keeps_vram_get {A} (f : accel -> A) : keeps (@aw_vram T) (get_acc f).
Proof. apply keeps_gets. Qed.
Lemma bind_lock {B} (k : unit -> M (aworld T) B) w :
  bind lock k w = k tt (mk_aworld (set_a_lock (lock_acquire <$> a_lock (aw_acc w)) (aw_acc w)) (aw_world w) (aw_vram w)).
Proof. done. Qed.
Lemma bind_get {A B} (f : accel -> A) (k : A -> M (aworld T) B) w : bind (get_acc f) k w = k (f (aw_acc w)) w.
Proof. done. Qed.
End quiet.
#[export] Hint Resolve keeps_vram_kernel keeps_vram_upd keeps_vram_get : keeps.
Ltac quiet := unfold lock, unlock, put_surface; keeps_tac.

(** Copying to video memory only what is [Q]. *)
Section writes.
Context {T : Type} `{Transport T} (Q : copy -> Prop).
Abbreviation S := (aworld T).
Definition writes {A} (m : M S A) : Prop := forall w, exists cs, aw_vram (m w).2 = aw_vram w ++ cs /\ Forall Q cs.

Lemma writes_keeps {A} (m : M S A) : keeps aw_vram m -> writes m.
Proof. intros Hm w. exists []. rewrite app_nil_r. by split; [apply keeps_eq|]. Qed.
Lemma writes_bind {A B} (m : M S A) (k : A -> M S B) : writes m -> (forall x, writes (k x)) -> writes (bind m k).
Proof.
  intros Hm Hk w. destruct (Hm w) as (cs & E & Hc). unfold bind. destruct (m w) as [x w1]. cbn in E.
  destruct (Hk x w1) as (cs' & E' & Hc'). exists (cs ++ cs'). rewrite E', E, app_assoc. split; [done|by apply Forall_app].
Qed.
Lemma writes_copies cs : Forall Q cs -> writes (bcopy_all cs).
Proof. intros Hc w. by exists cs. Qed.
Lemma writes_present_copy e s r :
  (forall v cs, se_vram e = Some v -> copy_plan (se_qemu e) (md_length v) (as_info s) = Some cs -> Forall Q cs) ->
  writes (present_copy e s r).
Proof.
  intros Hp. unfold present_copy. apply writes_bind; [(apply writes_keeps; quiet)|intros fb].
  destruct fb; [|(apply writes_keeps; quiet)]. destruct (as_backing_memory s); [|(apply writes_keeps; quiet)].
  destruct (se_vram e) as [v|]; [|(apply writes_keeps; quiet)]. specialize (Hp v).
  apply writes_bind; [(apply writes_keeps; quiet)|intros _]. destruct (negb _); [(apply writes_keeps; quiet)|].
  apply writes_bind; [(apply writes_keeps; quiet)|intros _].
  apply writes_bind; [destruct (se_surface_maps e); (apply writes_keeps; quiet)|intros _].
  apply writes_bind.
  - destruct (_ && _); [|(apply writes_keeps; quiet)]. destruct (copy_plan _ _ _) as [cs|]; [|(apply writes_keeps; quiet)].
    apply writes_bind; [apply writes_copies; by apply Hp|intros _; (apply writes_keeps; quiet)].
  - intros r'. apply writes_keeps. destruct (se_surface_maps e); quiet.
Qed.
Lemma writes_present_command e c s r : writes (present_command e c s r).
Proof. apply writes_keeps. unfold present_command. quiet. Qed.
End writes.

(** C33: presenting a surface that has the width of the screen and is no higher copies, if it
    copies, from within that surface's buffer to within video memory. *)
Theorem present_in_bounds T `{Transport T} e cid sid (w : aworld T) :
  running 1 (aw_acc w) -> (forall v, se_vram e = Some v -> 0 <= md_length v) ->
  (forall s, surf w sid = Some s -> fits_screen (se_qemu e) (as_info s)) ->
  exists cs, aw_vram (present3DSurface e cid sid w).2 = aw_vram w ++ cs /\
    Forall (fun c => exists s d v, surf w sid = Some s /\ as_backing_memory s = Some d /\ se_vram e = Some v
      /\ in_bounds (md_length v) (md_length d) c) cs.
Proof.
  intros (Ha & _) Hv Hfit. destruct w as [a k vr]. unfold surf, lookup_by in *. cbn [aw_acc aw_vram] in *.
  set (Q := fun c : copy => exists s d v, _ = Some s /\ as_backing_memory s = Some d /\ se_vram e = Some v
      /\ in_bounds (md_length v) (md_length d) c).
  set (a1 := set_a_lock (lock_acquire <$> a_lock a) a). set (w1 := mk_aworld a1 k vr).
  assert (Hgo : forall m : M (aworld T) IOReturn, writes Q m -> exists cs, aw_vram (m w1).2 = vr ++ cs /\ Forall Q cs).
  { intros m Hm. exact (Hm w1). }
  unfold present3DSurface, findContext, findSurface. rewrite bind_lock. cbn [aw_acc aw_world aw_vram]. fold a1 w1.
  rewrite bind_get. change (a_contexts (aw_acc w1)) with (a_contexts a).
  destruct (find_slot ac_context_id cid (a_contexts a)) as [[i c]|].
  2: { apply Hgo, writes_keeps. quiet. }
  rewrite bind_get. change (a_surfaces (aw_acc w1)) with (a_surfaces a).
  destruct (find_slot as_surface_id sid (a_surfaces a)) as [[j s]|] eqn:Es.
  2: { apply Hgo, writes_keeps. quiet. }
  pose proof (find_slot_Some _ _ _ _ _ Es) as [Hj _]. destruct (ok_surface_at _ _ Ha j s Hj) as (d & Ed & Hd).
  assert (Hc : forall r, writes (T := T) Q (present_copy e s r)).
  { intros r. apply writes_present_copy. intros v cs Ev Ep.
    pose proof (copy_plan_bounds _ _ _ (md_length d) _ (Hv v Ev) Hd (Hfit s eq_refl) Ep) as Hcs.
    eapply Forall_impl; [exact Hcs|]. intros x Hx. by exists s, d, v. }
  apply Hgo. apply writes_bind; [apply writes_keeps; unfold gpu_3d; quiet|intros td].
  apply writes_bind; [apply writes_keeps; quiet|intros r1].
  destruct (td && is_success r1); [apply writes_keeps; quiet|].
  apply writes_bind; [apply Hc|intros r2]. apply writes_bind; [apply writes_present_command|intros r3].
  apply writes_keeps. quiet.
Qed.

(** * Tearing down *)
Section teardown.
Context {T : Type} `{Host T}.
Abbreviation S := (aworld T).
Definition host_view (w : S) : rview := rv (aw_world w).
Lemma host_kernel {A} (m : M (world T) A) : keeps rv m -> keeps host_view (kernel m).
Proof.
  intros Hm v w Hw. unfold kernel. pose proof (keeps_eq rv m (aw_world w) Hm) as E.
  destruct (m (aw_world w)) as [x k]. unfold host_view in *. cbn in *. by rewrite E.
Qed.
Lemma host_upd f : keeps host_view (upd_acc (T := T) f).
Proof. by apply keeps_modify. Qed.
Lemma host_get {A} (f : accel -> A) : keeps host_view (get_acc (T := T) f).
Proof. apply keeps_gets. Qed.
Lemma rv_mem f : keeps rv (upd_mem (T := T) f).
Proof. by apply keeps_modify. Qed.
Lemma rv_free n : keeps (rv (T := T)) (IOFree n).
Proof. apply rv_mem. Qed.
Lemma rv_release i : keeps (rv (T := T)) (release i).
Proof. apply rv_mem. Qed.
#[local] Hint Resolve host_upd host_get rv_free rv_release : keeps.
Lemma rv_destroyRenderContext c : keeps (rv (T := T)) (destroyRenderContext c).
Proof. unfold destroyRenderContext, supports3D, lock_contexts, unlock_contexts. keeps_tac. Qed.
#[local] Hint Resolve rv_destroyRenderContext : keeps.
#[local] Hint Extern 1 (keeps host_view (kernel _)) => apply host_kernel : keeps.
Ltac host_tac := unfold lock, unlock, put_surface, put_context, release_backing, findContext, findSurface in *; keeps_tac.

Lemma host_destroyContextInternal c : keeps host_view (destroyContextInternal (T := T) c).
Proof. unfold destroyContextInternal, poolRemoveContext. host_tac. Qed.
Lemma host_contextUnbindSurface i sid : keeps host_view (contextUnbindSurface (T := T) i sid).
Proof. unfold contextUnbindSurface, context_at. host_tac. Qed.
#[local] Hint Resolve host_destroyContextInternal host_contextUnbindSurface : keeps.
Lemma host_destroy3DSurface c s : keeps host_view (destroy3DSurface (T := T) c s).
Proof. unfold destroy3DSurface, poolRemoveSurface. host_tac. Qed.
Lemma host_stop_contexts n : forall i, keeps host_view (stop_contexts (T := T) n i).
Proof. induction n; intros i; cbn [stop_contexts]; unfold context_at; host_tac. Qed.
Lemma host_stop_surfaces n : forall i, keeps host_view (stop_surfaces (T := T) n i).
Proof. induction n; intros i; cbn [stop_surfaces]; unfold surface_at; host_tac. Qed.
#[local] Hint Resolve host_stop_contexts host_stop_surfaces : keeps.
Lemma host_stop : keeps host_view (stop (T := T)).
Proof. unfold stop. host_tac. Qed.
Lemma host_free_contexts l : keeps host_view (free_contexts (T := T) l).
Proof. induction l; cbn [free_contexts]; host_tac. Qed.
Lemma host_free_surfaces l : keeps host_view (free_surfaces (T := T) l).
Proof. induction l; cbn [free_surfaces]; host_tac. Qed.
#[local] Hint Resolve host_free_contexts host_free_surfaces : keeps.
Lemma host_free : keeps host_view (free (T := T)).
Proof. unfold free. host_tac. Qed.
Lemma host_destroy3DContext c : keeps host_view (destroy3DContext (T := T) c).
Proof. unfold destroy3DContext. host_tac. Qed.
End teardown.

Definition tears_down (o : accel_op) : bool :=
  match o with ADestroyContext _ | ADestroySurface _ _ | AStop => true | _ => false end.

(** Nothing the accelerator takes down gives a host resource back: however user space
    destroys its surfaces and contexts, and whether or not the service stops before it is
    freed, the device's pool and the host keep every resource the surfaces had. *)
Theorem teardown_keeps_host_resources T `{Host T} os (w : aworld T) :
  forallb tears_down os = true ->
  rv (aw_world (free (run_accel os w).2).2) = rv (aw_world w).
Proof.
  intros Ho. transitivity (host_view (run_accel os w).2); [exact (keeps_eq _ _ _ host_free)|].
  revert w Ho. induction os as [|o os IH]; intros w Ho; [done|]. cbn [forallb] in Ho. apply andb_true_iff in Ho as [Ho Hos].
  cbn [run_accel]. unfold bind at 1. destruct (do_accel o w) as [u w1] eqn:E.
  rewrite (IH w1 Hos). replace w1 with (do_accel o w).2 by by rewrite E. apply (keeps_eq host_view).
  destruct o; try discriminate Ho; cbn [do_accel].
  - apply keeps_bind; [apply host_destroy3DContext|intros ?; apply keeps_ret].
  - apply keeps_bind; [apply host_destroy3DSurface|intros ?; apply keeps_ret].
  - apply host_stop.
Qed.

(** * A step of a running service *)
Section running.
Context {T : Type} `{Transport T}.
Lemma running_step n o (w : aworld T) : running (S n) (aw_acc w) -> running n (aw_acc (do_accel o w).2).
Proof.
  intros Hr. destruct (do_accel_run 0 (aw_acc w) None n o Hr (or_introl eq_refl) w (conj eq_refl I)) as (a' & b' & [Hw _] & Hr' & _).
  by rewrite Hw.
Qed.
Lemma running_context n task (w : aworld T) :
  running (S n) (aw_acc w) -> running n (aw_acc (create3DContext true task w).2).
Proof.
  intros Hr. apply (running_step n (ACreateContext task)) in Hr. cbn [do_accel] in Hr. unfold bind, ret in Hr.
  by destruct (create3DContext true task w).
Qed.
Lemma running_surface n cid info (w : aworld T) :
  running (S n) (aw_acc w) -> running n (aw_acc (create3DSurface cid (Some info) w).2).
Proof.
  intros Hr. apply (running_step n (ACreateSurface cid info)) in Hr. cbn [do_accel] in Hr. unfold bind, ret in Hr.
  by destruct (create3DSurface cid (Some info) w).
Qed.
End running.

(** * Outside video memory
    On the screen of the boot mode, a surface one row lower and eight pixels
    wider: the left margin is a 32-bit number below 0, the sum that is checked
    against the size of video memory wraps around to a small one, and the rows
    go to 4 GB and on. *)
Definition wide_info : surface_info := mk_info 0 1032 767 1 2 0 1 1 0 0.

(** Sixteen bits to a pixel, half the screen: rows of 2048 bytes are read from
    a buffer with rows of 1024. *)
Definition half_info : surface_info := mk_info 0 512 384 1 VM3D_FORMAT_R5G6B5 0 1 1 0 0.

(** The screen has 16 MB of video memory, shows 1024x768, and is a QXL one. *)
Definition demo_vram : mdesc := mk_mdesc 100 0x1000000 kIOReturnSuccess [(0xE0000000, 0x1000000)].
Definition demo_screen : screen_env :=
  mk_screen_env (Some demo_vram) true true true (Some (1024, 768)) (0, 0) [] (true, true).
Definition demo_acc : accel :=
  mk_accel false false false None (empty_pool 0) (empty_pool 0) 0 0 0 0 0 0 0 0 false.
(** A host that takes what a context and a surface need, then refuses. *)
Definition demo_kernel : world host_machine :=
  mk_world demo_gpu
    (mk_mem (Some <$> [demo_desc 1; demo_desc 2; demo_desc 3; demo_desc 4]) (replicate 16 (Some [])) 0 ∅ ∅ 0)
    (mk_host ∅ (replicate 2 false ++ replicate 8 true) []).
Definition demo_aworld : aworld host_machine := mk_aworld demo_acc demo_kernel [].
(** Initialised and started, with one context made. *)
Definition service (w : aworld host_machine) : aworld host_machine := (start true (init true w).2).2.
Definition started : aworld host_machine := service demo_aworld.
Definition opened : aworld host_machine := (create3DContext true 7 started).2.
Definition drawn (info : surface_info) : aworld host_machine := (create3DSurface 2 (Some info) opened).2.
Definition shown_copies (info : surface_info) : list copy :=
  aw_vram (present3DSurface demo_screen 2 2 (drawn info)).2.

(** A surface a little wider than the screen and a row lower is copied beyond the end of
    video memory, at 4 GB and up, and a 16-bit surface is read beyond the end of its own
    buffer; the caller is told of success. *)
Theorem present_out_of_bounds :
  (present3DSurface demo_screen 2 2 (drawn wide_info)).1 = kIOReturnSuccess
  /\ length (shown_copies wide_info) = 767%nat
  /\ Forall (fun c => md_length demo_vram < cp_dst c) (shown_copies wide_info)
  /\ (present3DSurface demo_screen 2 2 (drawn half_info)).1 = kIOReturnSuccess
  /\ (exists d, as_backing_memory <$> surf (drawn half_info) 2 = Some (Some d)
       /\ Exists (fun c => md_length d < cp_src c) (shown_copies half_info)).
Proof.
  split_and!; [by vm_compute|by vm_compute|apply (bool_decide_unpack _); by vm_compute|by vm_compute|].
  eexists. split; [by vm_compute|]. apply (bool_decide_unpack _). by vm_compute.
Qed.

(** * Witnesses *)
Lemma service_running n w :
  a_panic (aw_acc w) = false -> (init true w).1 = true -> Z.of_nat n < 2 ^ 28 -> running n (aw_acc (service w)).
Proof.
  intros Hp Hk Hn. pose proof (init_run 0 (aw_acc w) None true Hp w (conj eq_refl I)) as Hi. unfold service.
  destruct (init true w) as [ok w1]. cbn in Hk. subst ok. destruct Hi as (a1 & b1 & [Hw _] & Hok & _ & _ & H1 & H2).
  unfold start, upd_acc, modify. cbn [snd aw_acc] in *. rewrite Hw. split; [by apply Hok|]. split; [done|cbn; lia].
Qed.
Lemma started_running n : Z.of_nat n < 2 ^ 28 -> running n (aw_acc started).
Proof. by apply service_running. Qed.
Lemma opened_running n : Z.of_nat n < 2 ^ 20 -> running n (aw_acc opened).
Proof. intros Hn. apply running_context, started_running. lia. Qed.
Lemma drawn_running n info : Z.of_nat n < 2 ^ 19 -> running n (aw_acc (drawn info)).
Proof. intros Hn. apply running_surface, opened_running. lia. Qed.

Definition small_info : surface_info := mk_info 0 64 48 1 2 0 1 1 0 0.
Definition screen_info : surface_info := mk_info 0 1024 700 1 2 0 1 1 0 0.

(** Without a device object [start] succeeds and [create3DContext] calls null. *)
Example deviceless_service_panics :
  a_panic (aw_acc ((start false ;;; do_accel (ACreateContext 7)) (init true demo_aworld).2).2) = true.
Proof. vm_compute. reflexivity. Qed.
Lemma accelerator_sound_witness :
  accel_ok Unlocked (aw_acc ((start true ;;;
    run_accel [ACreateContext 7; ACreateSurface 2 small_info; ADestroyContext 2; ACollect; AStop]) (init true demo_aworld).2).2).
Proof.
  pose proof (accelerator_sound host_machine true
    [ACreateContext 7; ACreateSurface 2 small_info; ADestroyContext 2; ACollect; AStop] demo_aworld eq_refl ltac:(reflexivity)) as Hs.
  destruct (init true demo_aworld) as [ok w1] eqn:E. apply Hs.
  replace ok with (init true demo_aworld).1 by (by rewrite E). by vm_compute.
Defined.

Lemma accelerator_returns_memory_witness :
  let w' := (life true [ACreateContext 7; ACreateSurface 2 small_info; AReset; ACollect] demo_aworld).2 in
  exists k, 0 <= k <= 1 /\
    let '(h, m, p, r) := ledger 1 (aw_world demo_aworld) in
    ledger 1 (aw_world w') = (h + SIZEOF_GPU_RESOURCE * k, m, p, r).
Proof.
  apply (accelerator_returns_memory host_machine true
    [ACreateContext 7; ACreateSurface 2 small_info; AReset; ACollect] demo_aworld 1 eq_refl).
  - reflexivity.
  - apply (bool_decide_unpack _). by vm_compute.
  - repeat constructor.
Defined.

Lemma surface_roundtrip_witness :
  (create3DSurface 2 (Some small_info) opened).1 = kIOReturnSuccess
  /\ forall i, surf (destroy3DSurface 2 2 (create3DSurface 2 (Some small_info) opened).2).2 i = surf opened i.
Proof.
  pose proof (surface_roundtrip host_machine 2 small_info opened (opened_running 2 ltac:(reflexivity))) as Hs.
  assert (Hr : (create3DSurface 2 (Some small_info) opened).1 = kIOReturnSuccess) by by vm_compute.
  split; [exact Hr|]. assert (Hn : a_next_surface_id (aw_acc opened) + 1 = 2) by by vm_compute.
  cbv zeta in Hs. rewrite Hn in Hs. destruct (create3DSurface 2 (Some small_info) opened) as [r w1]. cbn [fst snd] in *.
  subst r. cbn [is_success] in Hs. change (is_success kIOReturnSuccess) with true in Hs.
  destruct Hs as (_ & _ & _ & _ & Hs). destruct (destroy3DSurface 2 2 w1) as [r2 w2]. by destruct Hs as (_ & Hs & _).
Defined.

(** A surface whose context is gone. *)
Definition orphaned : aworld host_machine := (do_accel (ADestroyContext 2) (drawn small_info)).2.
Lemma collect_spec_witness :
  length (objects (a_surfaces (aw_acc orphaned))) = 1%nat
  /\ (garbageCollectTextures orphaned).1 = (kIOReturnSuccess, 1)
  /\ (garbageCollectTextures (garbageCollectTextures orphaned).2).1 = (kIOReturnSuccess, 0).
Proof.
  pose proof (collect_spec host_machine orphaned
    (running_step 2 (ADestroyContext 2) _ (drawn_running 3 small_info ltac:(reflexivity))) ltac:(by vm_compute)) as Hs.
  split; [by vm_compute|]. destruct (garbageCollectTextures orphaned) as [r w1] eqn:E.
  assert (Hr : r = (kIOReturnSuccess, 1)).
  { replace r with (garbageCollectTextures orphaned).1 by (by rewrite E). by vm_compute. }
  subst r. split; [done|]. exact (proj2 (proj2 (proj2 Hs))).
Defined.

Lemma createFramebuffer_spec_witness :
  exists id, (createFramebuffer 2 640 480 2 2 true opened).1.2 = Some id /\ Z.shiftr id 16 = 2 /\ Z.land id 0xffff = 3.
Proof.
  pose proof (createFramebuffer_spec host_machine 2 640 480 2 2 true opened (opened_running 2 ltac:(reflexivity))
    ltac:(lia) ltac:(lia) ltac:(by vm_compute)) as Hs.
  destruct (createFramebuffer 2 640 480 2 2 true opened) as [r w1] eqn:E.
  assert (Hr : r = (kIOReturnSuccess, Some 131075)).
  { replace r with (createFramebuffer 2 640 480 2 2 true opened).1 by (by rewrite E). by vm_compute. }
  subst r. change (is_success _) with true in Hs. destruct Hs as (id & news & [= <-] & _).
  exists 131075. by vm_compute.
Defined.

Lemma present_in_bounds_witness :
  length (shown_copies screen_info) = 1%nat
  /\ exists cs, shown_copies screen_info = [] ++ cs /\
    Forall (fun c => exists s d v, surf (drawn screen_info) 2 = Some s /\ as_backing_memory s = Some d
      /\ se_vram demo_screen = Some v /\ in_bounds (md_length v) (md_length d) c) cs.
Proof.
  split; [by vm_compute|].
  assert (Hs : as_info <$> surf (drawn screen_info) 2 = Some (set_surface_id 2 screen_info)) by by vm_compute.
  assert (Hv : aw_vram (drawn screen_info) = []) by by vm_compute.
  pose proof (present_in_bounds host_machine demo_screen 2 2 (drawn screen_info) (drawn_running 1 screen_info ltac:(reflexivity))) as Hp.
  rewrite Hv in Hp. apply Hp.
  - intros v [= <-]. by vm_compute.
  - intros s E. rewrite E in Hs. injection Hs as ->. cbn. lia.
Defined.

Lemma teardown_keeps_host_resources_witness :
  rv_host (rv (aw_world (drawn small_info))) = {[2]}
  /\ rv (aw_world (free (run_accel [ADestroySurface 2 2; ADestroyContext 2; AStop] (drawn small_info)).2).2)
     = rv (aw_world (drawn small_info)).
Proof. split; [by vm_compute|]. by apply teardown_keeps_host_resources. Defined.
