(* ===== verification/Accel2D.v ===== *)
(** The accelerator's 2D operations (last part of
    [FB/VMQemuVGAAccelerator.cpp]): copying and filling rectangles of surfaces
    the window server names by address, waiting for the device, and the time
    conversions.

    A surface is an address in one memory of bytes and a row length
    ([IOAccelSurfaceInformation], [IOAccelBounds] of the vendored
    IOAccelTypes.h), so source and destination may overlap. [memcpy] reads
    every byte before it writes any; C leaves it undefined between overlapping
    ranges, so the theorems are about rows that do not overlap their source. *)
From S2P Require Import Prelude Wire Transport Driver Resources Tracking Display Accounts Accel AccelLife AccelSpec.

(** * Rectangles and memory *)
Record surface_memory := mk_surface_memory { sm_address : Z; sm_rowBytes : Z }.
(** [SInt16] members. *)
Record bounds := mk_bounds { b_x : Z; b_y : Z; b_w : Z; b_h : Z }.
Definition bounds_ok (b : bounds) : Prop :=
  Forall (fun v => - 2 ^ 15 <= v < 2 ^ 15) [b_x b; b_y b; b_w b; b_h b].

Definition memory : Type := Z -> Z.
Definition memcpy (d s n : Z) (m : memory) : memory :=
  fun a => if (d <=? a) && (a <? d + n) then m (s + (a - d)) else m a.
(** A 32-bit store. *)
Definition store32 (a v : Z) (m : memory) : memory :=
  fun x => if (a <=? x) && (x <? a + 4) then Z.shiftr v (8 * (x - a)) mod 256 else m x.

(** [address + (y * rowBytes) + (x * 4)]: the product of an [int] and a
    [UInt32] is unsigned 32-bit; the other is an [int]. *)
Definition rect_pointer (s : surface_memory) (b : bounds) : Z :=
  u64 (sm_address s + u32 (b_y b * sm_rowBytes s) + b_x b * 4).

Fixpoint copy_rows (n : nat) (d s drow srow line : Z) (m : memory) : memory :=
  match n with
  | O => m
  | S k => copy_rows k (u64 (d + drow)) (u64 (s + srow)) drow srow line (memcpy d s line m)
  end.
Definition cpu_blit (src dest : surface_memory) (srcRect destRect : bounds) (m : memory) : memory :=
  copy_rows (Z.to_nat (b_h srcRect)) (rect_pointer dest destRect) (rect_pointer src srcRect)
    (sm_rowBytes dest) (sm_rowBytes src) (u32 (b_w srcRect * 4)) m.

Fixpoint fill_pixels (n : nat) (a color : Z) (m : memory) : memory :=
  match n with
  | O => m
  | S k => fill_pixels k (u64 (a + 4)) color (store32 a color m)
  end.
Fixpoint fill_rows (n w : nat) (a row color : Z) (m : memory) : memory :=
  match n with
  | O => m
  | S k => fill_rows k w (u64 (a + row)) row color (fill_pixels w a color m)
  end.
Definition cpu_fill (s : surface_memory) (r : bounds) (color : Z) (m : memory) : memory :=
  fill_rows (Z.to_nat (b_h r)) (Z.to_nat (b_w r)) (rect_pointer s r) (sm_rowBytes s) color m.

Record bworld (T : Type) := mk_bworld { bw_world : aworld T; bw_memory : memory }.
Arguments mk_bworld {T}.
Arguments bw_world {T}.
Arguments bw_memory {T}.

Section blit.
Context {T : Type} `{Transport T}.
Abbreviation S := (bworld T).
Definition on_service {A} (m : M (aworld T) A) : M S A :=
  fun w => let '(a, aw) := m (bw_world w) in (a, mk_bworld aw (bw_memory w)).
Definition upd_memory (f : memory -> memory) : M S unit := modify (fun w => mk_bworld (bw_world w) (f (bw_memory w))).
Definition count_draw : M S unit := on_service (upd_acc (fun a => set_a_draw_calls (u32 (a_draw_calls a + 1)) a)).

(** The device's answer, when there is one that is no mock. *)
Definition hardware (m : M (world T) IOReturn) : M (aworld T) bool :=
  let! gpu := get_acc a_gpu_device in
  if gpu then
    let! mock := kernel (get_gpu g_is_mock_device) in
    if negb mock then let! r := kernel m in ret (is_success r) else ret false
  else ret false.

Definition blitSurfaceAccelerated (src dest : option surface_memory) (srcRect destRect : option bounds) : M S IOReturn :=
  match src, dest, srcRect, destRect with
  | Some src, Some dest, Some srcRect, Some destRect =>
      let! done := on_service (hardware blitRect) in
      (if done then ret tt else upd_memory (cpu_blit src dest srcRect destRect)) ;;;
      count_draw ;;;
      ret kIOReturnSuccess
  | _, _, _, _ => ret kIOReturnBadArgument
  end.
Definition fillSurfaceAccelerated (surface : option surface_memory) (rect : option bounds) (color : Z) : M S IOReturn :=
  match surface, rect with
  | Some surface, Some rect =>
      let! done := on_service (hardware fillRect) in
      (if done then ret tt else upd_memory (cpu_fill surface rect color)) ;;;
      count_draw ;;;
      ret kIOReturnSuccess
  | _, _ => ret kIOReturnBadArgument
  end.
Definition synchronizeAccelerator : M (aworld T) IOReturn :=
  let! gpu := get_acc a_gpu_device in
  if gpu then
    let! mock := kernel (get_gpu g_is_mock_device) in
    if negb mock then
      let! r := kernel flushCommands in
      if negb (is_success r) then ret r
      else kernel waitForIdle
    else ret kIOReturnSuccess
  else ret kIOReturnSuccess.
End blit.

(** * Time *)
Definition UINT64_MAX : Z := 2 ^ 64 - 1.
(** [s_numer] and [s_denom], which stay once they are set, for the smallest
    difference seen between two readings of the clock: UINT64_MAX when none was
    positive. *)
Definition timebase (min_tick_delta : Z) : Z * Z :=
  if min_tick_delta <=? 10 then (1, 1000)
  else if min_tick_delta <=? 100 then (min_tick_delta, 1000)
  else (1, 1).
Definition convertToMicroseconds (base : Z * Z) (timestamp_delta : Z) : Z :=
  let '(numer, denom) := base in
  if denom =? 0 then timestamp_delta
  else if UINT64_MAX / numer <? timestamp_delta then u64 (timestamp_delta * numer / denom)
  else u64 (timestamp_delta * numer) / denom.
Definition calculateFPS (frame_time_microseconds : Z) : Z :=
  if frame_time_microseconds =? 0 then 0 else u32 (1000000 / frame_time_microseconds).

(** * Rows *)
(** A run of [line] bytes that starts at [a], and the start of row [i]. *)
Definition in_row (a line x : Z) : Prop := a <= x < a + line.
Definition row (a stride : Z) (i : nat) : Z := a + Z.of_nat i * stride.
Lemma row_0 a stride : row a stride 0 = a.
Proof. unfold row. lia. Qed.
Lemma row_S a stride i : row a stride (S i) = row (a + stride) stride i.
Proof. unfold row. lia. Qed.
(** Later rows start after earlier ones end. *)
Lemma row_after a stride line i j : line <= stride -> 0 <= stride -> (i < j)%nat -> row a stride i + line <= row a stride j.
Proof. intros ? ? Hij. unfold row. assert (Z.of_nat i + 1 <= Z.of_nat j) by lia. nia. Qed.
Lemma in_row_at a line k : 0 <= k < line -> in_row a line (a + k).
Proof. unfold in_row. lia. Qed.

(** The rows [i < n] from [a], [stride] apart, are [line] bytes each, do not
    meet, and none wraps around the address space. *)
Definition rows_ok (n : nat) (a stride line : Z) : Prop :=
  0 <= a /\ 0 <= line <= stride /\ a + Z.of_nat n * stride < 2 ^ 64.
Lemma rows_ok_S n a stride line : rows_ok (S n) a stride line ->
  u64 (a + stride) = a + stride /\ rows_ok n (a + stride) stride line.
Proof. intros (? & ? & H). split; [apply u64_small|unfold rows_ok]; nia. Qed.

Lemma memcpy_in d s n m k : 0 <= k < n -> memcpy d s n m (d + k) = m (s + k).
Proof.
  intros [H1 H2]. unfold memcpy. rewrite (proj2 (Z.leb_le _ _)), (proj2 (Z.ltb_lt _ _)) by lia. cbn. f_equal. lia.
Qed.
Lemma memcpy_out d s n m x : ~ in_row d n x -> memcpy d s n m x = m x.
Proof.
  intros Hx. unfold memcpy, in_row in *. destruct (Z.leb_spec d x), (Z.ltb_spec x (d + n)); cbn; try done. lia.
Qed.

(** * Copying *)
Lemma copy_rows_frame n : forall d s drow srow line m x,
  rows_ok n d drow line -> (forall i, (i < n)%nat -> ~ in_row (row d drow i) line x) ->
  copy_rows n d s drow srow line m x = m x.
Proof.
  induction n as [|n IH]; intros d s drow srow line m x Hd Hx; [done|].
  destruct (rows_ok_S _ _ _ _ Hd) as [E Hd']. cbn [copy_rows]. rewrite E, IH; [|done|].
  - apply memcpy_out. rewrite <- (row_0 d drow). apply Hx. lia.
  - intros i Hi. rewrite <- row_S. apply Hx. lia.
Qed.

(** No row is overwritten before it was read, nor overlaps its own source. *)
Definition read_first (n : nat) (d s drow srow line : Z) : Prop :=
  forall i j x, (i <= j < n)%nat -> in_row (row d drow i) line x -> ~ in_row (row s srow j) line x.

Lemma copy_rows_copies n : forall d s drow srow line m,
  rows_ok n d drow line -> rows_ok n s srow line -> read_first n d s drow srow line ->
  forall i k, (i < n)%nat -> 0 <= k < line ->
  copy_rows n d s drow srow line m (row d drow i + k) = m (row s srow i + k).
Proof.
  induction n as [|n IH]; intros d s drow srow line m Hd Hs Hr i k Hi Hk; [lia|].
  pose proof Hd as (_ & Hl & _).
  destruct (rows_ok_S _ _ _ _ Hd) as [Ed Hd'], (rows_ok_S _ _ _ _ Hs) as [Es Hs']. cbn [copy_rows]. rewrite Ed, Es.
  destruct i as [|i].
  - rewrite copy_rows_frame; [rewrite !row_0; by apply memcpy_in|done|].
    intros i Hi'. rewrite <- row_S. pose proof (row_after d drow line 0 (S i)) as Ha. unfold in_row. lia.
  - rewrite !row_S, IH; [|done|done| |lia|done].
    + apply memcpy_out. intros Hx. apply (Hr 0%nat (S i) (row s srow (S i) + k)); [lia| |by apply in_row_at].
      by rewrite row_0, row_S.
    + intros a b x Hab. rewrite <- !row_S. apply Hr. lia.
Qed.

(** Rows moved up within one surface, and rows that go to another buffer. *)
Lemma read_first_up n s stride line k : 0 <= line <= stride -> 0 < k -> read_first n (s - k * stride) s stride stride line.
Proof.
  intros Hl Hk i j x Hij Hx Hy.
  assert (Z.of_nat i <= Z.of_nat j) by lia. unfold in_row, row in *. nia.
Qed.
Lemma read_first_apart n d s drow srow line :
  0 <= line <= drow -> 0 <= srow -> line <= srow ->
  row d drow n <= s \/ row s srow n <= d -> read_first n d s drow srow line.
Proof.
  intros Hd Hs1 Hs2 Hapart i j x Hij Hx Hy.
  pose proof (row_after d drow line i n ltac:(lia) ltac:(lia) ltac:(lia)).
  pose proof (row_after s srow line j n ltac:(lia) ltac:(lia) ltac:(lia)).
  unfold in_row in *. assert (d <= row d drow i) by (unfold row; nia). assert (s <= row s srow j) by (unfold row; nia). lia.
Qed.

(** Rows moved down: the first [k] come again and again. *)
Lemma copy_rows_down n : forall s stride line m k,
  (0 < k)%nat -> rows_ok (n + k) s stride line ->
  forall i c, (i < n)%nat -> 0 <= c < line ->
  copy_rows n (row s stride k) s stride stride line m (row s stride (k + i) + c) = m (row s stride (i mod k)%nat + c).
Proof.
  induction n as [|n IH]; intros s stride line m k Hk Hs i c Hi Hc; [lia|].
  pose proof Hs as (_ & Hl & _). destruct (rows_ok_S _ _ _ _ Hs) as [Es Hs']. cbn [copy_rows].
  rewrite Es. assert (Ed : u64 (row s stride k + stride) = row (s + stride) stride k).
  { rewrite u64_small; [unfold row; lia|]. destruct Hs as (? & ? & ?). unfold row. nia. }
  rewrite Ed. destruct i as [|i].
  - rewrite Nat.add_0_r, (Nat.Div0.mod_0_l k), row_0, copy_rows_frame; [by apply memcpy_in| |].
    + destruct Hs as (? & ? & ?). unfold rows_ok, row. nia.
    + intros i Hi'. pose proof (row_after s stride line k (S (k + i))) as Ha. rewrite row_S in Ha.
      replace (row (row (s + stride) stride k) stride i) with (row (s + stride) stride (k + i)) by (unfold row; lia).
      unfold in_row. lia.
  - rewrite Nat.add_succ_r, row_S, IH by (done || lia).
    pose proof (Nat.mod_upper_bound i k ltac:(lia)) as Hm.
    rewrite <- row_S. destruct (decide (S (i mod k) = k)%nat) as [E|E].
    + rewrite E, memcpy_in by done. replace (S i mod k)%nat with 0%nat; [by rewrite row_0|].
      apply (Nat.mod_unique _ _ (S (i / k)%nat)); [lia|]. pose proof (Nat.div_mod_eq i k). lia.
    + replace (S i mod k)%nat with (S (i mod k))%nat.
      * apply memcpy_out. pose proof (row_after s stride line (S (i mod k)) k). unfold in_row. lia.
      * apply (Nat.mod_unique _ _ (i / k)); [lia|]. pose proof (Nat.div_mod_eq i k). lia.
Qed.

(** * Filling *)
Definition color_byte (color b : Z) : Z := Z.shiftr color (8 * b) mod 256.

Lemma store32_in a v m b : 0 <= b < 4 -> store32 a v m (a + b) = color_byte v b.
Proof.
  intros Hb. unfold store32, color_byte. rewrite (proj2 (Z.leb_le _ _)), (proj2 (Z.ltb_lt _ _)) by lia.
  cbn. do 2 f_equal. lia.
Qed.
Lemma store32_out a v m x : ~ in_row a 4 x -> store32 a v m x = m x.
Proof.
  intros Hx. unfold store32, in_row in *. destruct (Z.leb_spec a x), (Z.ltb_spec x (a + 4)); cbn; try done. lia.
Qed.

Lemma fill_pixels_frame n : forall a color m x,
  0 <= a /\ a + 4 * Z.of_nat n < 2 ^ 64 -> ~ in_row a (4 * Z.of_nat n) x -> fill_pixels n a color m x = m x.
Proof.
  induction n as [|n IH]; intros a color m x Ha Hx; [done|]. cbn [fill_pixels].
  rewrite u64_small by lia. rewrite IH; [|lia|unfold in_row in *; lia].
  apply store32_out. unfold in_row in *. lia.
Qed.
Lemma fill_pixels_paints n : forall a color m j b,
  0 <= a /\ a + 4 * Z.of_nat n < 2 ^ 64 -> (j < n)%nat -> 0 <= b < 4 ->
  fill_pixels n a color m (a + 4 * Z.of_nat j + b) = color_byte color b.
Proof.
  induction n as [|n IH]; intros a color m j b Ha Hj Hb; [lia|]. cbn [fill_pixels].
  rewrite u64_small by lia. destruct j as [|j].
  - rewrite fill_pixels_frame by (unfold in_row; lia).
    replace (a + 4 * Z.of_nat 0 + b) with (a + b) by lia. by apply store32_in.
  - replace (a + 4 * Z.of_nat (S j) + b) with (a + 4 + 4 * Z.of_nat j + b) by lia. apply IH; lia.
Qed.

Lemma fill_rows_frame n : forall w a stride color m x,
  rows_ok n a stride (4 * Z.of_nat w) -> (forall i, (i < n)%nat -> ~ in_row (row a stride i) (4 * Z.of_nat w) x) ->
  fill_rows n w a stride color m x = m x.
Proof.
  induction n as [|n IH]; intros w a stride color m x Ha Hx; [done|].
  destruct (rows_ok_S _ _ _ _ Ha) as [E Ha']. cbn [fill_rows]. rewrite E, IH; [|done|].
  - apply fill_pixels_frame; [destruct Ha as (? & ? & ?); nia|]. rewrite <- (row_0 a stride). apply Hx. lia.
  - intros i Hi. rewrite <- row_S. apply Hx. lia.
Qed.
Lemma fill_rows_paints n : forall w a stride color m i j b,
  rows_ok n a stride (4 * Z.of_nat w) -> (i < n)%nat -> (j < w)%nat -> 0 <= b < 4 ->
  fill_rows n w a stride color m (row a stride i + 4 * Z.of_nat j + b) = color_byte color b.
Proof.
  induction n as [|n IH]; intros w a stride color m i j b Ha Hi Hj Hb; [lia|].
  destruct (rows_ok_S _ _ _ _ Ha) as [E Ha']. pose proof Ha as (? & Hl & ?). cbn [fill_rows]. rewrite E.
  destruct i as [|i]; [|rewrite row_S; apply IH; (done || lia)].
  rewrite fill_rows_frame; [|done|].
  - rewrite row_0. apply fill_pixels_paints; (done || nia).
  - intros i Hi'. rewrite <- row_S. pose proof (row_after a stride (4 * Z.of_nat w) 0 (S i)). unfold in_row. lia.
Qed.

(** * Rectangles inside their surface *)
(** The byte [b] of the pixel at [x], [y]. *)
Definition pixel (s : surface_memory) (x y b : Z) : Z := sm_address s + y * sm_rowBytes s + x * 4 + b.

(** A rectangle with corner [x], [y] that lies in its rows, for a surface that
    lies in the address space and has at most 4 GB above the rectangle. *)
Definition rect_ok (s : surface_memory) (b : bounds) (w h : Z) : Prop :=
  0 <= sm_address s /\ 0 <= b_x b /\ 0 <= b_y b /\ 0 <= w < 2 ^ 15 /\ 0 <= h < 2 ^ 15 /\
  b_y b * sm_rowBytes s < 2 ^ 32 /\ (b_x b + w) * 4 <= sm_rowBytes s /\
  sm_address s + (b_y b + h + 1) * sm_rowBytes s < 2 ^ 64.

Lemma rect_pointer_ok s b w h : rect_ok s b w h ->
  rect_pointer s b = pixel s (b_x b) (b_y b) 0 /\ rows_ok (Z.to_nat h) (rect_pointer s b) (sm_rowBytes s) (w * 4).
Proof.
  intros (? & ? & ? & ? & ? & ? & ? & ?). unfold rect_pointer, pixel, rows_ok.
  rewrite u32_small by nia. rewrite u64_small by nia. split; [lia|]. nia.
Qed.
Lemma rect_pixel_row s b w h x y k : rect_ok s b w h -> 0 <= y ->
  pixel s (b_x b + x) (b_y b + y) k = row (rect_pointer s b) (sm_rowBytes s) (Z.to_nat y) + (4 * x + k).
Proof. intros H Hy. rewrite (proj1 (rect_pointer_ok s b w h H)). unfold pixel, row. rewrite Z2Nat.id by done. lia. Qed.

(** The addresses of a rectangle of [w] by [h] pixels. *)
Definition in_rect (s : surface_memory) (b : bounds) (w h a : Z) : Prop :=
  exists x y k, 0 <= x < w /\ 0 <= y < h /\ 0 <= k < 4 /\ a = pixel s (b_x b + x) (b_y b + y) k.
Lemma in_rect_rows s b w h a i : rect_ok s b w h ->
  (i < Z.to_nat h)%nat -> in_row (row (rect_pointer s b) (sm_rowBytes s) i) (w * 4) a -> in_rect s b w h a.
Proof.
  intros Hb Hi [H1 H2]. set (r := row _ _ i) in *.
  exists ((a - r) / 4), (Z.of_nat i), ((a - r) mod 4).
  rewrite (rect_pixel_row s b w h) by (done || lia). rewrite Nat2Z.id. fold r.
  pose proof (Z.div_mod (a - r) 4 ltac:(lia)). pose proof (Z.mod_pos_bound (a - r) 4 ltac:(lia)). lia.
Qed.

(** Which way a copy may go: between memory that does not meet, or up. *)
Definition copy_ordered (src dest : surface_memory) (r1 r2 : bounds) : Prop :=
  (src = dest /\ b_y r2 < b_y r1) \/
  row (rect_pointer dest r2) (sm_rowBytes dest) (Z.to_nat (b_h r1)) <= rect_pointer src r1 \/
  row (rect_pointer src r1) (sm_rowBytes src) (Z.to_nat (b_h r1)) <= rect_pointer dest r2.

Lemma copy_ordered_reads src dest r1 r2 :
  rect_ok src r1 (b_w r1) (b_h r1) -> rect_ok dest r2 (b_w r1) (b_h r1) -> copy_ordered src dest r1 r2 ->
  read_first (Z.to_nat (b_h r1)) (rect_pointer dest r2) (rect_pointer src r1) (sm_rowBytes dest) (sm_rowBytes src) (b_w r1 * 4).
Proof.
  intros H1 H2 [[-> Hy]|Ho].
  - rewrite (proj1 (rect_pointer_ok _ _ _ _ H1)), (proj1 (rect_pointer_ok _ _ _ _ H2)).
    destruct H1 as (? & ? & ? & ? & ? & ? & ? & ?), H2 as (_ & ? & ? & _ & _ & _ & ? & _).
    intros i j x Hij Hx Hx'. assert (Z.of_nat i <= Z.of_nat j) by lia. unfold in_row, row, pixel in *. nia.
  - destruct H1 as (? & ? & ? & ? & ? & ? & ? & ?), H2 as (? & ? & ? & ? & ? & ? & ? & ?).
    apply read_first_apart; (done || lia).
Qed.

Lemma cpu_blit_copies src dest r1 r2 m :
  rect_ok src r1 (b_w r1) (b_h r1) -> rect_ok dest r2 (b_w r1) (b_h r1) -> copy_ordered src dest r1 r2 ->
  (forall x y k, 0 <= x < b_w r1 -> 0 <= y < b_h r1 -> 0 <= k < 4 ->
    cpu_blit src dest r1 r2 m (pixel dest (b_x r2 + x) (b_y r2 + y) k) = m (pixel src (b_x r1 + x) (b_y r1 + y) k)) /\
  (forall a, ~ in_rect dest r2 (b_w r1) (b_h r1) a -> cpu_blit src dest r1 r2 m a = m a).
Proof.
  intros H1 H2 Ho. pose proof (copy_ordered_reads _ _ _ _ H1 H2 Ho) as Hr.
  destruct (rect_pointer_ok _ _ _ _ H1) as [_ Hs], (rect_pointer_ok _ _ _ _ H2) as [_ Hd].
  unfold cpu_blit. rewrite u32_small by (destruct H1 as (? & ? & ? & ? & _); lia). split.
  - intros x y k Hx Hy Hk. rewrite (rect_pixel_row _ _ _ _ _ _ _ H1), (rect_pixel_row _ _ _ _ _ _ _ H2) by lia.
    apply copy_rows_copies; (done || lia).
  - intros a Ha. apply copy_rows_frame; [done|]. intros i Hi Hx. apply Ha. by eapply in_rect_rows.
Qed.

Lemma cpu_fill_paints s r color m :
  rect_ok s r (b_w r) (b_h r) ->
  (forall x y k, 0 <= x < b_w r -> 0 <= y < b_h r -> 0 <= k < 4 ->
    cpu_fill s r color m (pixel s (b_x r + x) (b_y r + y) k) = color_byte color k) /\
  (forall a, ~ in_rect s r (b_w r) (b_h r) a -> cpu_fill s r color m a = m a).
Proof.
  intros H. destruct (rect_pointer_ok _ _ _ _ H) as [_ Hs].
  assert (E : b_w r * 4 = 4 * Z.of_nat (Z.to_nat (b_w r))) by (destruct H as (? & ? & ? & ? & _); lia).
  unfold cpu_fill. split.
  - intros x y k Hx Hy Hk. rewrite (rect_pixel_row _ _ _ _ _ _ _ H) by lia.
    rewrite <- (Z2Nat.id x) by lia. rewrite Z.add_assoc. apply fill_rows_paints; [by rewrite <- E|lia|lia|done].
  - intros a Ha. rewrite E in Hs. apply fill_rows_frame; [done|]. rewrite <- E.
    intros i Hi Hx. apply Ha. by eapply in_rect_rows.
Qed.

(** Rows above the surface: the product of the negative row number and the row
    length is taken modulo 2^32, so the pointer is almost 4 GB too high. *)
Lemma rect_above_strays s b :
  b_y b < 0 -> - b_y b * sm_rowBytes s <= 2 ^ 32 -> 0 < sm_rowBytes s ->
  0 <= sm_address s + b_x b * 4 -> sm_address s + b_x b * 4 + 2 ^ 32 < 2 ^ 64 ->
  rect_pointer s b = pixel s (b_x b) (b_y b) 0 + 2 ^ 32.
Proof.
  intros Hy Hr Hrow Ha Hb. unfold rect_pointer.
  assert (E : u32 (b_y b * sm_rowBytes s) = b_y b * sm_rowBytes s + 2 ^ 32).
  { unfold u32. rewrite <- (Z.mod_add _ 1) by done. apply Z.mod_small. nia. }
  rewrite E, u64_small; [unfold pixel; lia|nia].
Qed.

(** * The operations *)
Section service.
Context {T : Type} `{Transport T}.

(** The world after an operation that the processor did. *)
Definition drawn_once (f : memory -> memory) (w : bworld T) : bworld T :=
  let aw := bw_world w in
  mk_bworld (mk_aworld (set_a_draw_calls (u32 (a_draw_calls (aw_acc aw) + 1)) (aw_acc aw)) (aw_world aw) (aw_vram aw))
    (f (bw_memory w)).

(** The device accelerates nothing, mock or not. *)
Lemma hardware_declines (m : M (world T) IOReturn) (w : aworld T) :
  (forall k, m k = (kIOReturnUnsupported, k)) -> hardware m w = (false, w).
Proof.
  intros Hm. destruct w as [a k v]. unfold hardware, get_acc, gets, bind, ret. cbn.
  destruct (a_gpu_device a); [|done]. cbn. destruct (g_is_mock_device (w_gpu k)); cbn; [done|].
  unfold kernel. cbn. by rewrite Hm.
Qed.

Lemma blit_run src dest r1 r2 (w : bworld T) :
  blitSurfaceAccelerated (Some src) (Some dest) (Some r1) (Some r2) w =
  (kIOReturnSuccess, drawn_once (cpu_blit src dest r1 r2) w).
Proof.
  unfold blitSurfaceAccelerated, bind, on_service. rewrite (hardware_declines blitRect) by done. by destruct w as [[a k v] m].
Qed.
Lemma fill_run s r color (w : bworld T) :
  fillSurfaceAccelerated (Some s) (Some r) color w = (kIOReturnSuccess, drawn_once (cpu_fill s r color) w).
Proof.
  unfold fillSurfaceAccelerated, bind, on_service. rewrite (hardware_declines fillRect) by done. by destruct w as [[a k v] m].
Qed.
End service.

(** C24: A copy between rectangles inside their surfaces, which the processor
    always makes because the device accelerates nothing, succeeds and counts one
    draw. Every pixel of the source appears at its place in the destination and
    no byte outside the destination's rectangle changes, for surfaces that do
    not meet and for one surface whose rows move up. *)
Theorem blitSurfaceAccelerated_copies {T : Type} `{Transport T} src dest r1 r2 (w : bworld T) :
  rect_ok src r1 (b_w r1) (b_h r1) -> rect_ok dest r2 (b_w r1) (b_h r1) -> copy_ordered src dest r1 r2 ->
  exists w', blitSurfaceAccelerated (Some src) (Some dest) (Some r1) (Some r2) w = (kIOReturnSuccess, w') /\
    bw_world w' = bw_world (drawn_once (fun m => m) w) /\
    (forall x y k, 0 <= x < b_w r1 -> 0 <= y < b_h r1 -> 0 <= k < 4 ->
      bw_memory w' (pixel dest (b_x r2 + x) (b_y r2 + y) k) = bw_memory w (pixel src (b_x r1 + x) (b_y r1 + y) k)) /\
    (forall a, ~ in_rect dest r2 (b_w r1) (b_h r1) a -> bw_memory w' a = bw_memory w a).
Proof.
  intros H1 H2 Ho. eexists. split; [apply blit_run|]. split; [done|].
  by apply (cpu_blit_copies src dest r1 r2 (bw_memory w)).
Qed.

(** Moved down by [k] rows within one surface, a rectangle is not copied:
    the first [k] rows of it come again and again. *)
Theorem scroll_down_repeats {T : Type} `{Transport T} s r1 r2 (w : bworld T) :
  rect_ok s r1 (b_w r1) (b_h r1) -> rect_ok s r2 (b_w r1) (b_h r1) -> b_x r2 = b_x r1 -> b_y r1 < b_y r2 ->
  forall x y k, 0 <= x < b_w r1 -> 0 <= y < b_h r1 -> 0 <= k < 4 ->
  bw_memory (blitSurfaceAccelerated (Some s) (Some s) (Some r1) (Some r2) w).2 (pixel s (b_x r2 + x) (b_y r2 + y) k) =
  bw_memory w (pixel s (b_x r1 + x) (b_y r1 + y mod (b_y r2 - b_y r1)) k).
Proof.
  intros H1 H2 Hx Hy x y k Hxx Hyy Hk. rewrite blit_run. cbn [snd drawn_once bw_memory].
  pose proof (Z.mod_pos_bound y (b_y r2 - b_y r1) ltac:(lia)) as Hm.
  rewrite (rect_pixel_row _ _ _ _ _ (y mod _) _ H1) by lia.
  destruct (rect_pointer_ok _ _ _ _ H1) as [P1 R1], (rect_pointer_ok _ _ _ _ H2) as [P2 R2].
  unfold cpu_blit. rewrite u32_small by (destruct H1 as (? & ? & ? & ? & _); lia).
  set (n := Z.to_nat (b_y r2 - b_y r1)). assert (Hn : Z.of_nat n = b_y r2 - b_y r1) by lia.
  assert (E : rect_pointer s r2 = row (rect_pointer s r1) (sm_rowBytes s) n)
    by (rewrite P1, P2; unfold row, pixel; rewrite Hn, Hx; lia).
  replace (Z.to_nat (y mod (b_y r2 - b_y r1))) with (Z.to_nat y mod n)%nat
    by (unfold n; rewrite Z2Nat.inj_mod by lia; done).
  rewrite E. rewrite <- copy_rows_down with (n := Z.to_nat (b_h r1)) (line := b_w r1 * 4); [|lia| |lia|lia].
  - f_equal. unfold pixel, row. rewrite P1. unfold pixel. rewrite Hx, Nat2Z.inj_add, Z2Nat.id, Hn by lia. lia.
  - destruct R1 as (? & ? & _), R2 as (_ & _ & R2). unfold rows_ok. rewrite E in R2. unfold row in R2. lia.
Qed.

(** A fill of a rectangle inside its surface stores the color at every
    pixel of it, lowest byte first, and changes no other byte. *)
Theorem fillSurfaceAccelerated_paints {T : Type} `{Transport T} s r color (w : bworld T) :
  rect_ok s r (b_w r) (b_h r) ->
  exists w', fillSurfaceAccelerated (Some s) (Some r) color w = (kIOReturnSuccess, w') /\
    bw_world w' = bw_world (drawn_once (fun m => m) w) /\
    (forall x y k, 0 <= x < b_w r -> 0 <= y < b_h r -> 0 <= k < 4 ->
      bw_memory w' (pixel s (b_x r + x) (b_y r + y) k) = color_byte color k) /\
    (forall a, ~ in_rect s r (b_w r) (b_h r) a -> bw_memory w' a = bw_memory w a).
Proof.
  intros H1. eexists. split; [apply fill_run|]. split; [done|].
  by apply (cpu_fill_paints s r color (bw_memory w)).
Qed.

(** A fill that starts above the surface is not clipped: its first pixel is
    stored almost 4 GB above the place asked for. *)
Theorem fill_above_strays {T : Type} `{Transport T} s r color (w : bworld T) :
  b_y r < 0 -> - b_y r * sm_rowBytes s <= 2 ^ 32 -> 0 <= sm_address s + b_x r * 4 ->
  0 < b_w r < 2 ^ 15 -> 0 < b_h r < 2 ^ 15 -> b_w r * 4 <= sm_rowBytes s ->
  sm_address s + b_x r * 4 + b_h r * sm_rowBytes s + 2 ^ 32 < 2 ^ 64 ->
  bw_memory (fillSurfaceAccelerated (Some s) (Some r) color w).2 (pixel s (b_x r) (b_y r) 0 + 2 ^ 32) = color_byte color 0.
Proof.
  intros Hy Hrow Ha Hw Hh Hl Hend. rewrite fill_run. cbn [snd drawn_once bw_memory]. unfold cpu_fill.
  pose proof (rect_above_strays s r Hy Hrow ltac:(lia) Ha ltac:(nia)) as E. rewrite <- E.
  rewrite <- (fill_rows_paints (Z.to_nat (b_h r)) (Z.to_nat (b_w r)) (rect_pointer s r) (sm_rowBytes s) color (bw_memory w) 0 0 0);
    [f_equal; rewrite row_0; lia| |lia|lia|done].
  rewrite E. unfold rows_ok, pixel. nia.
Qed.

(** Waiting does nothing without a device or with a mock one; otherwise it
    succeeds exactly when the device acknowledges both commands, and the second
    is not sent when the first is refused. *)
Theorem synchronizeAccelerator_spec {T : Type} `{Transport T} (w : aworld T) :
  let gpu := w_gpu (aw_world w) in
  if negb (a_gpu_device (aw_acc w)) || g_is_mock_device gpu then synchronizeAccelerator w = (kIOReturnSuccess, w)
  else
    let '(r1, k1) := flushCommands (aw_world w) in
    let '(r2, k2) := waitForIdle k1 in
    synchronizeAccelerator w =
      (if is_success r1 then r2 else r1,
       mk_aworld (aw_acc w) (if is_success r1 then k2 else k1) (aw_vram w)).
Proof.
  destruct w as [a k v]. unfold synchronizeAccelerator, get_acc, gets, bind, ret. cbn [aw_acc aw_world aw_vram fst snd].
  destruct (a_gpu_device a); [|done]. unfold kernel at 1. cbn -[flushCommands waitForIdle].
  destruct (g_is_mock_device (w_gpu k)); cbn -[flushCommands waitForIdle]; [by destruct k|].
  unfold kernel, bind, ret. cbn -[flushCommands waitForIdle].
  destruct (flushCommands k) as [r1 k1] eqn:E1.
  destruct (waitForIdle k1) as [r2 k2] eqn:E2.
  destruct (is_success r1); cbn -[waitForIdle]; [by rewrite E2|done].
Qed.

(** Whatever the clock was taken for, the conversion is the exact quotient,
    without overflow, for every 64-bit difference. *)
Theorem convertToMicroseconds_exact tick delta :
  0 < tick -> 0 <= delta < 2 ^ 64 ->
  let '(numer, denom) := timebase tick in
  0 < denom /\ convertToMicroseconds (timebase tick) delta = delta * numer / denom /\ delta * numer / denom < 2 ^ 64.
Proof.
  intros Ht Hd.
  assert (H : exists numer denom, timebase tick = (numer, denom) /\ 0 < numer <= 100 /\
    (denom = 1000 \/ denom = 1 /\ numer = 1)).
  { unfold timebase. destruct (Z.leb_spec tick 10), (Z.leb_spec tick 100); eexists _, _; (split; [reflexivity|lia]). }
  destruct H as (numer & denom & -> & Hn & Hde).
  assert (Hden : 0 < denom) by lia.
  assert (Hq : 0 <= delta * numer / denom < 2 ^ 64)
    by (split; [apply Z.div_pos; nia|apply Z.div_lt_upper_bound; nia]).
  split; [done|]. split; [|lia]. unfold convertToMicroseconds.
  destruct (Z.eqb_spec denom 0); [lia|]. destruct (Z.ltb_spec (UINT64_MAX / numer) delta) as [Hl|Hl].
  - apply u64_small. exact Hq.
  - f_equal. apply u64_small. split; [nia|].
    pose proof (Z.mul_div_le UINT64_MAX numer ltac:(lia)). unfold UINT64_MAX in *. nia.
Qed.

(** * Concrete runs *)
(** Four pixels by four; every byte of memory is the number of its address. *)
Definition demo_surface : surface_memory := mk_surface_memory 0x1000 16.
Definition demo_memory : memory := fun a => a mod 256.
Definition demo_bworld : bworld host_machine := mk_bworld started demo_memory.
Definition lower : bounds := mk_bounds 1 1 2 3.
Definition upper : bounds := mk_bounds 0 0 2 3.
Definition bytes_at (m : memory) (a : Z) (n : nat) : list Z := map (fun i => m (a + Z.of_nat i)) (seq 0 n).
Definition after {A} (r : A * bworld host_machine) : memory := bw_memory r.2.

(** Two pixels of each of three rows, moved up and left; the rest of the first
    row stays. *)
Example moved_up :
  bytes_at (after (blitSurfaceAccelerated (Some demo_surface) (Some demo_surface) (Some lower) (Some upper) demo_bworld)) 0x1000 12
  = [20; 21; 22; 23; 24; 25; 26; 27; 8; 9; 10; 11].
Proof. vm_compute. reflexivity. Qed.
(** The last row of three moved down by one is the first row again. *)
Example moved_down :
  bytes_at (after (blitSurfaceAccelerated (Some demo_surface) (Some demo_surface)
    (Some (mk_bounds 0 0 2 3)) (Some (mk_bounds 0 1 2 3)) demo_bworld)) 0x1030 8 = [0; 1; 2; 3; 4; 5; 6; 7].
Proof. vm_compute. reflexivity. Qed.
Example painted :
  bytes_at (after (fillSurfaceAccelerated (Some demo_surface) (Some lower) 0x11223344 demo_bworld)) 0x1010 8
  = [16; 17; 18; 19; 0x44; 0x33; 0x22; 0x11].
Proof. vm_compute. reflexivity. Qed.
Example sixty_frames : calculateFPS (convertToMicroseconds (timebase 1) 16666667) = 60.
Proof. vm_compute. reflexivity. Qed.

Lemma demo_rect_ok : rect_ok demo_surface lower 2 3 /\ rect_ok demo_surface upper 2 3.
Proof. unfold rect_ok. cbn. lia. Qed.

Lemma blitSurfaceAccelerated_copies_witness :
  rect_ok demo_surface lower 2 3 /\
  exists w', blitSurfaceAccelerated (Some demo_surface) (Some demo_surface) (Some lower) (Some upper) demo_bworld
    = (kIOReturnSuccess, w') /\ bw_memory w' 0x1000 = 20.
Proof.
  split; [apply demo_rect_ok|].
  destruct (blitSurfaceAccelerated_copies demo_surface demo_surface lower upper demo_bworld
    (proj1 demo_rect_ok) (proj2 demo_rect_ok) (or_introl (conj eq_refl eq_refl))) as (w' & E & _ & Hp & _).
  exists w'. split; [exact E|]. apply (Hp 0 0 0); cbn; lia.
Defined.
