(* ===== verification/Client3D.v ===== *)
(** The 3D user client: [VMQemuVGA3DUserClient] of
    FB/VMQemuVGA3DUserClient.cpp, and how the accelerator opens one
    ([newUserClient] of FB/VMQemuVGAAccelerator.cpp).

    A task's calls pass [IOUserClient::externalMethod], which checks the sizes
    of the arguments against the entry of the dispatch table before it calls
    the entry's function; that check is a parameter, [admits]. *)
From S2P Require Import Prelude Wire Transport Driver Resources Display Accounts Accel AccelLife AccelSpec.

Definition kIOReturnExclusiveAccess : IOReturn := kIOReturnOther 0xE00002C5.

(** * The client *)
(** The members of one client; [m_accelerator] is set by its [start]. *)
Record client3d := mk_client {
  m_accelerator : bool;
  m_task : Z;
  m_context_id : Z;
  m_has_context : bool
}.
Definition set_context (id : Z) (has : bool) (c : client3d) : client3d :=
  mk_client (m_accelerator c) (m_task c) id has.

(** The arguments of a call: scalars, a structure as bytes when it is passed in
    line, or a descriptor of it, and the room for what is written back. *)
Record call_args := mk_call {
  scalarInput : list Z;
  structureInput : list Z;
  structureInputDescriptor : option cmd_desc;
  scalarOutputCount : Z;
  structureOutputSize : Z
}.
Definition structure_size (a : call_args) : Z :=
  match structureInputDescriptor a with
  | Some d => Z.of_nat (length (cd_data d))
  | None => Z.of_nat (length (structureInput a))
  end.

(** [IOExternalMethodDispatch] without the function. *)
Record dispatch := mk_dispatch {
  checkScalarInputCount : Z;
  checkStructureInputSize : Z;
  checkScalarOutputCount : Z;
  checkStructureOutputSize : Z
}.
Definition sizeof_VM3DSurfaceInfo : Z := 40.

Inductive method3d :=
| sCreate3DContext | sDestroy3DContext | sCreate3DSurface | sDestroy3DSurface
| sSubmit3DCommands | sPresent3DSurface | sGetCapabilities.

(** The table has [kVM3DUserClientMethodCount] entries; those after the
    seventh are zero, with a null function. *)
Definition kVM3DUserClientMethodCount : Z := 15.
Definition sMethods (selector : Z) : option method3d * dispatch :=
  if selector =? 0 then (Some sCreate3DContext, mk_dispatch 0 0 1 0)
  else if selector =? 1 then (Some sDestroy3DContext, mk_dispatch 1 0 0 0)
  else if selector =? 2 then (Some sCreate3DSurface, mk_dispatch 1 sizeof_VM3DSurfaceInfo 1 0)
  else if selector =? 3 then (Some sDestroy3DSurface, mk_dispatch 2 0 0 0)
  else if selector =? 4 then (Some sSubmit3DCommands, mk_dispatch 1 0 0 0)
  else if selector =? 5 then (Some sPresent3DSurface, mk_dispatch 2 0 0 0)
  else if selector =? 6 then (Some sGetCapabilities, mk_dispatch 0 0 0 256)
  else (None, mk_dispatch 0 0 0 0).

(** The structure of a [VM3DSurfaceInfo]. *)
Definition word (i : nat) (bs : list Z) : Z := le_val (take 4 (drop (4 * i) bs)).
Definition decode_info (bs : list Z) : surface_info :=
  mk_info (word 0 bs) (word 1 bs) (word 2 bs) (word 3 bs) (word 4 bs)
    (word 5 bs) (word 6 bs) (word 7 bs) (word 8 bs) (word 9 bs).

(** * The clients over the accelerator *)
Record cworld (T : Type) := mk_cworld { cw_clients : list client3d; cw_world : aworld T }.
Arguments mk_cworld {T}.
Arguments cw_clients {T}.
Arguments cw_world {T}.

(** What a call answers: the status, the scalars and the structure written. *)
Definition answer : Type := IOReturn * list Z * list Z.
Definition no_data (r : IOReturn) : answer := (r, [], []).

(** What [newUserClient] meets: the boot argument, and whether the client is
    allocated, initialised, attached and started. *)
Record open_env := mk_open_env {
  oe_gate : bool; oe_alloc : bool; oe_init : bool; oe_attach : bool; oe_start : bool
}.
(** What is done with the client's object. *)
Inductive client_step := SAlloc | SAttach | SDetach | SRelease | SHandler.

Section newUserClient.
(** Types 0, 1 and 4 differ in the class only. *)
Definition open_other (no_object : IOReturn) (e : open_env) : IOReturn * list client_step :=
  if negb (oe_alloc e) then (kIOReturnNoMemory, [])
  else if negb (oe_init e) then (no_object, [SAlloc; SRelease])
  else if negb (oe_attach e) then (kIOReturnError, [SAlloc; SRelease])
  else if negb (oe_start e) then (kIOReturnError, [SAlloc; SAttach; SDetach; SRelease])
  else (kIOReturnSuccess, [SAlloc; SAttach; SHandler]).
(** Type 2: the local [client] is set only on success. *)
Definition open_3d (e : open_env) : IOReturn * list client_step :=
  if negb (oe_alloc e) then (kIOReturnNoMemory, [])
  else if negb (oe_init e) then (kIOReturnNoMemory, [SAlloc; SRelease])
  else if negb (oe_attach e) then (kIOReturnError, [SAlloc])
  else if negb (oe_start e) then (kIOReturnError, [SAlloc; SAttach; SDetach])
  else (kIOReturnSuccess, [SAlloc; SAttach; SHandler]).
Definition newUserClient (type : Z) (e : open_env) : IOReturn * list client_step :=
  if (4 <? type) || (type =? 3) then (kIOReturnBadArgument, [])
  else if type =? 0 then
    if oe_gate e then open_other kIOReturnNoMemory e else (kIOReturnUnsupported, [])
  else if type =? 1 then open_other kIOReturnError e
  else if type =? 4 then open_other kIOReturnError e
  else open_3d e.
End newUserClient.

(** Sessions: tasks open clients, call them, close them and die. *)
Inductive client_op :=
| COpen (task : Z) (e : open_env)
| CCall (e : screen_env) (i : nat) (selector : Z) (a : call_args)
| CClose (i : nat)
| CDied (i : nat).
Definition client_of (o : client_op) : option nat :=
  match o with COpen _ _ => None | CCall _ i _ _ | CClose i | CDied i => Some i end.

Section clients.
Context {T : Type} `{Transport T}.
(** [IOUserClient::externalMethod]: whether it lets a call through, what it
    answers when not, and what it answers for a null function. *)
Context (admits : dispatch -> call_args -> bool) (refusal no_function : IOReturn).
Abbreviation S := (cworld T).

Definition on_acc {A} (m : M (aworld T) A) : M S A :=
  fun w => let '(a, aw) := m (cw_world w) in (a, mk_cworld (cw_clients w) aw).
Definition upd_client (i : nat) (f : client3d -> client3d) : M S unit :=
  modify (fun w => mk_cworld (alter f i (cw_clients w)) (cw_world w)).

(** [withTask], [initWithTask] and [start] *)
Definition initWithTask (task : Z) : client3d := mk_client false task 0 false.
Definition start3d (c : client3d) : client3d := mk_client true (m_task c) (m_context_id c) (m_has_context c).
Definition open_client (task : Z) (e : open_env) : M S IOReturn :=
  let r := newUserClient 2 e in
  (if is_success r.1
   then modify (fun w => mk_cworld (cw_clients w ++ [start3d (initWithTask task)]) (cw_world w)) else ret tt) ;;;
  ret r.1.

(** [clientClose], which [clientDied] calls. *)
Definition clientClose (i : nat) : M S IOReturn :=
  let! c := gets (fun w => cw_clients w !! i) in
  (match c with
   | Some c => if m_has_context c
               then on_acc (destroy3DContext (m_context_id c)) ;;; upd_client i (set_context 0 false)
               else ret tt
   | None => ret tt
   end) ;;;
  ret kIOReturnSuccess.
Definition clientDied (i : nat) : M S IOReturn := clientClose i.

(** Whether the call is about the client's own context. *)
Definition owns (c : client3d) (context_id : Z) : bool := m_has_context c && (context_id =? m_context_id c).

(** ** The methods, on client [i] with members [c] *)
Definition scalar (a : call_args) (n : nat) : Z := nth n (scalarInput a) 0.

Definition do_create_context (i : nat) (c : client3d) : M S answer :=
  if m_has_context c then ret (no_data kIOReturnExclusiveAccess)
  else
    let! r := on_acc (create3DContext true (m_task c)) in
    (match r.2 with Some id => upd_client i (set_context id (m_has_context c)) | None => ret tt end) ;;;
    if is_success r.1 then
      upd_client i (fun c => set_context (m_context_id c) true c) ;;;
      ret (r.1, [default (m_context_id c) r.2], [])
    else ret (no_data r.1).

Definition do_destroy_context (i : nat) (c : client3d) (a : call_args) : M S answer :=
  let context_id := u32 (scalar a 0) in
  if negb (owns c context_id) then ret (no_data kIOReturnBadArgument)
  else
    let! r := on_acc (destroy3DContext context_id) in
    (if is_success r then upd_client i (set_context 0 false) else ret tt) ;;;
    ret (no_data r).

Definition do_create_surface (c : client3d) (a : call_args) : M S answer :=
  let context_id := u32 (scalar a 0) in
  if negb (owns c context_id) then ret (no_data kIOReturnBadArgument)
  else
    let info := decode_info (structureInput a) in
    let! r := on_acc (create3DSurface context_id (Some info)) in
    ret (r, if is_success r then [si_surface_id info] else [], []).

Definition do_destroy_surface (c : client3d) (a : call_args) : M S answer :=
  let context_id := u32 (scalar a 0) in
  if negb (owns c context_id) then ret (no_data kIOReturnBadArgument)
  else ret (no_data kIOReturnSuccess).

Definition do_submit (c : client3d) (a : call_args) : M S answer :=
  let context_id := u32 (scalar a 0) in
  if negb (owns c context_id) then ret (no_data kIOReturnBadArgument)
  else
    match structureInputDescriptor a with
    | None => ret (no_data kIOReturnBadArgument)
    | Some d =>
        let! r := on_acc (submit3DCommands context_id (Some d)) in ret (no_data r)
    end.

Definition do_present (e : screen_env) (c : client3d) (a : call_args) : M S answer :=
  let context_id := u32 (scalar a 0) in
  let surface_id := u32 (scalar a 1) in
  if negb (owns c context_id) then ret (no_data kIOReturnBadArgument)
  else let! r := on_acc (present3DSurface e context_id surface_id) in ret (no_data r).

(** The capability getters of the accelerator. *)
Definition supportsShaders (three_d : bool) : bool := if three_d then true else true.
Definition supportsHardwareTransform (three_d : bool) : bool :=
  if three_d then true else supportsShaders three_d.
Definition supportsMultisample (three_d : bool) : bool := if three_d then true else true.
Definition getMaxTextureSize (three_d : bool) : Z := if three_d then 8192 else 4096.
Definition getMaxRenderTargets (three_d : bool) : Z := if three_d then 8 else 4.

Definition do_capabilities : M S answer :=
  let! three_d := on_acc gpu_3d in
  let flag (b : bool) : Z := if b then 1 else 0 in
  ret (kIOReturnSuccess, [],
       le_bytes 4 (getMaxTextureSize three_d) ++ le_bytes 4 (getMaxRenderTargets three_d)
       ++ le_bytes 4 (flag (supportsShaders three_d)) ++ le_bytes 4 (flag (supportsMultisample three_d))
       ++ le_bytes 4 (flag (supportsHardwareTransform three_d)) ++ le_bytes 4 (256 * 1024 * 1024)
       ++ replicate 232 0).

Definition run_method (m : method3d) (e : screen_env) (i : nat) (c : client3d) (a : call_args) : M S answer :=
  match m with
  | sCreate3DContext => do_create_context i c
  | sDestroy3DContext => do_destroy_context i c a
  | sCreate3DSurface => do_create_surface c a
  | sDestroy3DSurface => do_destroy_surface c a
  | sSubmit3DCommands => do_submit c a
  | sPresent3DSurface => do_present e c a
  | sGetCapabilities => do_capabilities
  end.

(** [externalMethod] of client [i]; [e] is what a present meets. *)
Definition externalMethod (e : screen_env) (i : nat) (selector : Z) (a : call_args) : M S answer :=
  if kVM3DUserClientMethodCount <=? selector then ret (no_data kIOReturnBadArgument)
  else
    let! c := gets (fun w => cw_clients w !! i) in
    match c with
    | None => ret (no_data refusal)
    | Some c =>
        let '(function, d) := sMethods selector in
        if negb (admits d a) then ret (no_data refusal)
        else match function with
             | None => ret (no_data no_function)
             | Some m => run_method m e i c a
             end
    end.

Definition do_client (o : client_op) : M S unit :=
  match o with
  | COpen task e => open_client task e ;;; ret tt
  | CCall e i sel a => externalMethod e i sel a ;;; ret tt
  | CClose i => clientClose i ;;; ret tt
  | CDied i => clientDied i ;;; ret tt
  end.
Fixpoint run_clients (os : list client_op) : M S unit :=
  match os with
  | [] => ret tt
  | o :: os' => do_client o ;;; run_clients os'
  end.
End clients.
