(* ===== verification/ClientSpec.v ===== *)
(** What the 3D user client of [Client3D.v] gives its tasks: isolation of their
    contexts, and what it does not do. *)
From S2P Require Import Prelude Wire Transport Driver Resources Display Accounts Accel AccelLife AccelSpec Client3D.

(** * What a call of the accelerator leaves *)
Definition surfaces_stay (a a' : accel) : Prop :=
  forall s, s ∈ objects (a_surfaces a) -> exists s', s' ∈ objects (a_surfaces a')
    /\ as_surface_id s' = as_surface_id s /\ as_info s' = as_info s /\ as_backing_memory s' = as_backing_memory s.
Definition others_stay (id : Z) (a a' : accel) : Prop :=
  forall x, x ∈ objects (a_contexts a) -> ac_context_id x <> id -> x ∈ objects (a_contexts a').
(** Context [id], of task [task], is there. *)
Definition has_context_of (a : accel) (id task : Z) : Prop :=
  exists x, x ∈ objects (a_contexts a) /\ ac_context_id x = id /\ ac_owning_task x = task.
Definition own_stays (id : Z) (a a' : accel) : Prop :=
  forall task, has_context_of a id task -> has_context_of a' id task.

Lemma surfaces_stay_refl a a' : a_surfaces a' = a_surfaces a -> surfaces_stay a a'.
Proof. intros E s Hs. exists s. by rewrite E. Qed.
Lemma surfaces_stay_trans a a1 a2 : surfaces_stay a a1 -> surfaces_stay a1 a2 -> surfaces_stay a a2.
Proof.
  intros H1 H2 s Hs. destruct (H1 s Hs) as (s1 & Hs1 & E1 & E2 & E3). destruct (H2 s1 Hs1) as (s2 & Hs2 & F1 & F2 & F3).
  exists s2. split; [done|]. split_and!; congruence.
Qed.
Lemma others_stay_refl id a a' : a_contexts a' = a_contexts a -> others_stay id a a'.
Proof. intros E x Hx _. by rewrite E. Qed.
Lemma others_have id a a' i task : others_stay id a a' -> i <> id -> has_context_of a i task -> has_context_of a' i task.
Proof. intros Ho Hi (x & Hx & <- & E). exists x. split; [by apply Ho|done]. Qed.

Section calls.
Context {T : Type} `{Transport T}.
Implicit Types (w : aworld T).

Lemma acc_create_context n task w :
  running (S n) (aw_acc w) ->
  let '(r, w') := create3DContext true task w in
  running n (aw_acc w') /\ surfaces_stay (aw_acc w) (aw_acc w') /\ (forall i, others_stay i (aw_acc w) (aw_acc w'))
  /\ ((r.1 <> kIOReturnSuccess /\ r.2 = None)
      \/ exists id, r = (kIOReturnSuccess, Some id) /\ has_context_of (aw_acc w') id task
           /\ forall t, ~ has_context_of (aw_acc w) id t).
Proof.
  intros Hr. pose proof (running_context n task w Hr) as Hr'. destruct Hr as (Ha & Hg & Hn & _).
  destruct (acc_result _ _ w (create3DContext_run 0 (aw_acc w) None true task Ha Hg ltac:(lia))) as (b' & _ & _ & _ & Es & Ho).
  destruct (create3DContext true task w) as [r w']. cbn [fst snd] in *.
  split; [done|]. split; [by apply surfaces_stay_refl|]. destruct Ho as [(Hr1 & Hr2 & Ec)|(g & -> & _ & Hp & _)].
  - split; [intros i; by apply others_stay_refl|]. by left.
  - pose proof (ok_contexts _ _ Ha) as Hc. pose proof (ok_next _ _ Ha) as [Hn1 _].
    split; [intros i x Hx _; rewrite Hp; by right|]. right. exists (a_next_context_id (aw_acc w) + 1). split_and!; [done| |].
    + eexists. split; [rewrite Hp; by left|done].
    + intros t (x & Hx & Ex & _). pose proof (proj1 (Forall_forall _ _) (po_range _ _ _ _ Hc) x Hx) as Hxr. cbn in Hxr. lia.
Qed.
Lemma acc_destroy_context n cid w :
  running (S n) (aw_acc w) ->
  let '(r, w') := destroy3DContext cid w in
  running n (aw_acc w') /\ surfaces_stay (aw_acc w) (aw_acc w') /\ others_stay cid (aw_acc w) (aw_acc w')
  /\ forall task, has_context_of (aw_acc w) cid task -> r = kIOReturnSuccess.
Proof.
  intros Hr. pose proof (running_step n (ADestroyContext cid) w Hr) as Hr'. cbn [do_accel] in Hr'. unfold bind, ret in Hr'.
  destruct Hr as (Ha & Hg & _).
  destruct (acc_result _ _ w (destroy3DContext_run 0 (aw_acc w) None cid Ha Hg)) as (b' & _ & _ & _ & Es & Ho).
  destruct (destroy3DContext cid w) as [r w']. cbn [fst snd] in *. split; [done|]. split; [by apply surfaces_stay_refl|].
  destruct (find_slot ac_context_id cid (a_contexts (aw_acc w))) as [[i c]|] eqn:Ef; destruct Ho as [-> Ec].
  - apply find_slot_Some in Ef as [Hi Hc]. split; [|done]. intros x Hx Hne.
    assert (Hp : objects (a_contexts (aw_acc w)) ≡ₚ c :: objects (empty_slot i (a_contexts (aw_acc w)))) by exact (objects_remove _ _ _ Hi).
    rewrite Ec. rewrite Hp in Hx. apply elem_of_cons in Hx as [->|Hx]; [done|exact Hx].
  - split; [by apply others_stay_refl|]. intros task (x & Hx & <- & _). apply find_slot_None in Ef.
    destruct Ef. by apply list_elem_of_fmap_2.
Qed.
Lemma acc_create_surface n cid info w :
  running (S n) (aw_acc w) ->
  let '(r, w') := create3DSurface cid (Some info) w in
  running n (aw_acc w') /\ surfaces_stay (aw_acc w) (aw_acc w') /\ others_stay cid (aw_acc w) (aw_acc w')
  /\ own_stays cid (aw_acc w) (aw_acc w').
Proof.
  intros Hr. pose proof (running_surface n cid info w Hr) as Hr'. destruct Hr as (Ha & Hg & _ & Hn).
  destruct (acc_result _ _ w (create3DSurface_run 0 (aw_acc w) None cid info Ha Hg ltac:(lia))) as (b' & _ & _ & _ & Ho).
  destruct (create3DSurface cid (Some info) w) as [r w']. cbn [fst snd] in *. split; [done|].
  unfold surface_outcome in Ho. destruct (is_success r).
  - destruct Ho as (i & c & c' & g & d & Hf & _ & [Hs _] & _ & Ec & Eb & _). apply find_slot_Some in Hf as [Hi Hc].
    assert (Hp : objects (a_contexts (aw_acc w)) ≡ₚ c :: objects (empty_slot i (a_contexts (aw_acc w)))) by exact (objects_remove _ _ _ Hi).
    assert (Hq : objects (a_contexts (aw_acc w')) ≡ₚ c' :: objects (empty_slot i (a_contexts (aw_acc w)))).
    { rewrite Ec. exact (objects_replace _ _ _ c' Hi). }
    split; [|split].
    + intros s Hin. exists s. split; [rewrite Hs; by right|done].
    + intros x Hx Hne. rewrite Hp in Hx. rewrite Hq. apply elem_of_cons in Hx as [->|Hx]; [done|by right].
    + intros task (x & Hx & Ex & Et). rewrite Hp in Hx. apply elem_of_cons in Hx as [->|Hx].
      * exists c'. split; [rewrite Hq; by left|]. rewrite Eb. done.
      * exists x. split; [rewrite Hq; by right|done].
  - destruct Ho as [Ec Es]. split; [by apply surfaces_stay_refl|]. split; [by apply others_stay_refl|].
    intros task (x & Hx & Ex). exists x. by rewrite Ec.
Qed.
Lemma acc_submit n cid d w :
  running (S n) (aw_acc w) ->
  let '(r, w') := submit3DCommands cid d w in
  running n (aw_acc w') /\ surfaces_stay (aw_acc w) (aw_acc w') /\ a_contexts (aw_acc w') = a_contexts (aw_acc w).
Proof.
  intros Hr. pose proof (running_step n (ASubmit cid d) w Hr) as Hr'. cbn [do_accel] in Hr'. unfold bind, ret in Hr'.
  destruct Hr as (Ha & Hg & _).
  destruct (acc_result _ _ w (submit3DCommands_run 0 (aw_acc w) None cid d Ha Hg)) as (b' & _ & _ & _ & Ec & Es).
  destruct (submit3DCommands cid d w) as [r w']. cbn [fst snd] in *. split; [done|]. split; [by apply surfaces_stay_refl|done].
Qed.
Lemma acc_present n e cid sid w :
  running (S n) (aw_acc w) ->
  let '(r, w') := present3DSurface e cid sid w in
  running n (aw_acc w') /\ surfaces_stay (aw_acc w) (aw_acc w') /\ a_contexts (aw_acc w') = a_contexts (aw_acc w).
Proof.
  intros Hr. pose proof (running_step n (APresent e cid sid) w Hr) as Hr'. cbn [do_accel] in Hr'. unfold bind, ret in Hr'.
  destruct Hr as (Ha & Hg & _).
  set (id' := match se_vram e with Some v => md_id v + 1 | None => 0 end).
  assert (Hid : match se_vram e with Some v => md_id v <> id' | None => True end).
  { unfold id'. destruct (se_vram e); [lia|done]. }
  destruct (acc_result_at id' _ _ w (present3DSurface_run id' (aw_acc w) None e cid sid Ha Hid)) as (b' & _ & _ & _ & Ec & Ho).
  destruct (present3DSurface e cid sid w) as [r w']. cbn [fst snd] in *. split; [done|]. split; [|done].
  destruct (find_slot ac_context_id cid _) as [[i c]|]; [|apply surfaces_stay_refl; by destruct Ho].
  destruct (find_slot as_surface_id sid _) as [[j s]|] eqn:Ef; [|apply surfaces_stay_refl; by destruct Ho].
  apply find_slot_Some in Ef as [Hj _]. destruct Ho as (_ & [Es|Es]); [by apply surfaces_stay_refl|].
  intros s0 Hs0. pose proof (objects_remove _ _ _ Hj) as Hp.
  pose proof (objects_replace _ _ _ (set_render_target true s) Hj) as Hq. unfold objects in *. rewrite Hp in Hs0.
  apply elem_of_cons in Hs0 as [->|Hs0].
  - exists (set_render_target true s). split; [|done]. rewrite Es. cbn [p_slots put_slot]. rewrite Hq. by left.
  - exists s0. split; [|done]. rewrite Es. cbn [p_slots put_slot]. rewrite Hq. by right.
Qed.
End calls.

(** * Isolation *)
(** Every client that says it has a context has one of its own task's, and no
    two have the same. *)
Record clients_ok (cs : list client3d) (a : accel) : Prop := {
  cl_own : forall i c, cs !! i = Some c -> m_has_context c = true -> has_context_of a (m_context_id c) (m_task c);
  cl_apart : forall i j c d, cs !! i = Some c -> cs !! j = Some d -> m_has_context c = true -> m_has_context d = true ->
    m_context_id c = m_context_id d -> i = j
}.
(** What client [i] may change: itself, its context, and what is new. *)
Definition confined {T} (i : nat) (c : client3d) (w w' : cworld T) : Prop :=
  let a := aw_acc (cw_world w) in let a' := aw_acc (cw_world w') in
  surfaces_stay a a' /\ (forall j, j <> i -> cw_clients w' !! j = cw_clients w !! j)
  /\ (forall x, x ∈ objects (a_contexts a) -> ~ (m_has_context c = true /\ ac_context_id x = m_context_id c) ->
      x ∈ objects (a_contexts a')).

Lemma clients_ok_stay cs a a' : (forall id, own_stays id a a') -> clients_ok cs a -> clients_ok cs a'.
Proof. intros Hs [H1 H2]. split; [|done]. intros i c Hc Hh. by eapply Hs, H1. Qed.
(** Client [i] drops its context, and the others keep theirs. *)
Lemma clients_ok_drop cs a a' i c :
  cs !! i = Some c -> m_has_context c = true -> others_stay (m_context_id c) a a' -> clients_ok cs a ->
  clients_ok (alter (set_context 0 false) i cs) a'.
Proof.
  intros Hi Hh Ho [H1 H2].
  assert (Hl : forall j d, alter (set_context 0 false) i cs !! j = Some d -> m_has_context d = true -> j <> i /\ cs !! j = Some d).
  { intros j d Hj Hd. destruct (decide (j = i)) as [->|Hne].
    - rewrite list_lookup_alter_eq, Hi in Hj. injection Hj as <-. discriminate Hd.
    - by rewrite list_lookup_alter_ne in Hj by done. }
  split.
  - intros j d Hj Hd. destruct (Hl j d Hj Hd) as [Hne Hj']. eapply others_have; [exact Ho| |by eapply H1].
    intros E. apply Hne. by eapply H2.
  - intros j k d e Hj Hk Hd He E. destruct (Hl j d Hj Hd) as [_ Hj']. destruct (Hl k e Hk He) as [_ Hk']. by eapply H2.
Qed.
(** Client [i], with none, gets a fresh context. *)
Lemma clients_ok_take cs a a' i c id :
  cs !! i = Some c -> m_has_context c = false -> (forall j, own_stays j a a') ->
  has_context_of a' id (m_task c) -> (forall t, ~ has_context_of a id t) -> clients_ok cs a ->
  clients_ok (alter (set_context id true) i cs) a'.
Proof.
  intros Hi Hh Ho Hnew Hfresh [H1 H2].
  assert (Hl : forall j d, alter (set_context id true) i cs !! j = Some d -> m_has_context d = true ->
    (j = i /\ d = set_context id true c) \/ (j <> i /\ cs !! j = Some d /\ m_context_id d <> id)).
  { intros j d Hj Hd. destruct (decide (j = i)) as [->|Hne].
    - rewrite list_lookup_alter_eq, Hi in Hj. injection Hj as <-. by left.
    - rewrite list_lookup_alter_ne in Hj by done. right. split_and!; [done|done|]. intros E.
      apply (Hfresh (m_task d)). rewrite <- E. by eapply H1. }
  split.
  - intros j d Hj Hd. destruct (Hl j d Hj Hd) as [[-> ->]|(_ & Hj' & _)]; [exact Hnew|]. by eapply Ho, H1.
  - intros j k d e Hj Hk Hd He E.
    destruct (Hl j d Hj Hd) as [[-> ->]|(Hji & Hj' & Hj2)], (Hl k e Hk He) as [[-> ->]|(Hki & Hk' & Hk2)];
      cbn in *; [done|congruence|congruence|by eapply H2].
Qed.

Section isolation.
Context {T : Type} `{Transport T}.
Context (admits : dispatch -> call_args -> bool) (refusal no_function : IOReturn).
Abbreviation S := (cworld T).
Definition acc_of (w : S) : accel := aw_acc (cw_world w).

Definition isolates {A} (n : nat) (i : nat) (c : client3d) (m : M S A) : Prop := forall w,
  cw_clients w !! i = Some c -> running (Datatypes.S n) (acc_of w) -> clients_ok (cw_clients w) (acc_of w) ->
  let w' := (m w).2 in
  running n (acc_of w') /\ clients_ok (cw_clients w') (acc_of w') /\ confined i c w w'.

Lemma running_less n a : running (Datatypes.S n) a -> running n a.
Proof. intros (H1 & H2 & H3 & H4). split; [done|]. split; [done|lia]. Qed.
Lemma isolates_ret {A} n i c (x : A) : isolates n i c (ret x).
Proof.
  intros w Hi Hr Hc. cbn. split; [by apply running_less|]. split; [done|].
  split; [by apply surfaces_stay_refl|]. by split.
Qed.
(** A call that leaves the clients alone and touches at most [c]'s context. *)
Lemma isolates_on_acc {A B} n i c (m : M (aworld T) A) (k : A -> B) :
  (forall w, running (Datatypes.S n) (aw_acc w) -> let '(r, w') := m w in
    running n (aw_acc w') /\ surfaces_stay (aw_acc w) (aw_acc w') /\ (forall id, own_stays id (aw_acc w) (aw_acc w'))
    /\ (forall x, x ∈ objects (a_contexts (aw_acc w)) -> ~ (m_has_context c = true /\ ac_context_id x = m_context_id c) ->
        x ∈ objects (a_contexts (aw_acc w')))) ->
  isolates n i c (let! r := on_acc m in ret (k r)).
Proof.
  intros Hm w Hi Hr Hc. unfold bind, on_acc, ret, acc_of, confined in *. specialize (Hm (cw_world w) Hr).
  destruct (m (cw_world w)) as [r aw]. cbn. destruct Hm as (H1 & H2 & H3 & H4).
  split; [done|]. split; [by eapply clients_ok_stay|]. by split.
Qed.

Lemma owned i c (w : S) id :
  owns c id = true -> cw_clients w !! i = Some c -> clients_ok (cw_clients w) (acc_of w) ->
  m_has_context c = true /\ id = m_context_id c /\ has_context_of (acc_of w) id (m_task c).
Proof.
  intros Ho Hi Hc. unfold owns in Ho. apply andb_true_iff in Ho as [Hh E]. apply Z.eqb_eq in E as ->.
  split_and!; [done|done|by eapply cl_own].
Qed.

Lemma isolates_surface n i c a : isolates n i c (do_create_surface c a).
Proof.
  unfold do_create_surface. destruct (negb (owns c (u32 (scalar a 0)))) eqn:Eo; [apply isolates_ret|].
  apply negb_false_iff, andb_true_iff in Eo as [Hh Eo]. apply Z.eqb_eq in Eo.
  set (info := decode_info (structureInput a)).
  apply (isolates_on_acc n i c (create3DSurface _ (Some info))
    (fun r => (r, if is_success r then [si_surface_id info] else [], []))).
  intros w Hr. pose proof (acc_create_surface n (u32 (scalar a 0)) info w Hr) as Hs.
  destruct (create3DSurface (u32 (scalar a 0)) (Some info) w) as [r w']. destruct Hs as (H1 & H2 & H3 & H4).
  split; [done|]. split; [done|]. split.
  - intros id t Ht. destruct (decide (id = u32 (scalar a 0))) as [->|Hne]; [by apply H4|by eapply others_have].
  - intros x Hx Hne. apply H3; [done|]. intros E. apply Hne. split; [done|congruence].
Qed.
Lemma isolates_quiet {A B} n i c (m : M (aworld T) A) (k : A -> B) :
  (forall w, running (Datatypes.S n) (aw_acc w) -> let '(r, w') := m w in
    running n (aw_acc w') /\ surfaces_stay (aw_acc w) (aw_acc w') /\ a_contexts (aw_acc w') = a_contexts (aw_acc w)) ->
  isolates n i c (let! r := on_acc m in ret (k r)).
Proof.
  intros Hm. apply isolates_on_acc. intros w Hr. specialize (Hm w Hr). destruct (m w) as [r w'].
  destruct Hm as (H1 & H2 & H3). split; [done|]. split; [done|]. split.
  - intros id t (x & Hx & Ht). exists x. by rewrite H3.
  - intros x Hx _. by rewrite H3.
Qed.
Lemma isolates_submit n i c a : isolates n i c (do_submit c a).
Proof.
  unfold do_submit. destruct (negb _); [apply isolates_ret|]. destruct (structureInputDescriptor a); [|apply isolates_ret].
  apply (isolates_quiet n i c _ no_data). intros w Hr. by apply acc_submit.
Qed.
Lemma isolates_present n i c e a : isolates n i c (do_present e c a).
Proof.
  unfold do_present. destruct (negb _); [apply isolates_ret|].
  apply (isolates_quiet n i c _ no_data). intros w Hr. by apply acc_present.
Qed.
Lemma isolates_capabilities n i c : isolates n i c do_capabilities.
Proof.
  unfold do_capabilities. apply isolates_quiet. intros w Hr. unfold gpu_3d, bind, get_acc, gets, kernel, ret.
  destruct (a_gpu_device (aw_acc w)); cbn; (split; [by apply running_less|]; split; [by apply surfaces_stay_refl|done]).
Qed.

(** Dropping the context of a client that has one. *)
Lemma isolates_drop n i c (w : S) :
  cw_clients w !! i = Some c -> m_has_context c = true -> running (Datatypes.S n) (acc_of w) ->
  clients_ok (cw_clients w) (acc_of w) ->
  let '(r, w') := on_acc (destroy3DContext (m_context_id c)) w in
  r = kIOReturnSuccess /\ cw_clients w' = cw_clients w /\ running n (acc_of w')
  /\ clients_ok (alter (set_context 0 false) i (cw_clients w)) (acc_of w')
  /\ surfaces_stay (acc_of w) (acc_of w') /\ others_stay (m_context_id c) (acc_of w) (acc_of w').
Proof.
  intros Hi Hh Hr Hc. unfold on_acc, acc_of in *.
  pose proof (acc_destroy_context n (m_context_id c) (cw_world w) Hr) as Hd.
  destruct (destroy3DContext (m_context_id c) (cw_world w)) as [r aw]. destruct Hd as (H1 & H2 & H3 & H4).
  split; [by eapply H4, cl_own|]. split; [done|]. split; [done|]. split; [by eapply clients_ok_drop|done].
Qed.
Lemma confined_drop i c (w : S) cs aw :
  m_has_context c = true -> surfaces_stay (acc_of w) (aw_acc aw) ->
  others_stay (m_context_id c) (acc_of w) (aw_acc aw) -> cs = alter (set_context 0 false) i (cw_clients w) ->
  confined i c w (mk_cworld cs aw).
Proof.
  intros Hh H1 H2 ->. split; [done|]. split.
  - intros j Hj. cbn. by rewrite list_lookup_alter_ne.
  - intros x Hx Hne. apply H2; [done|]. intros E. by apply Hne.
Qed.
Lemma isolates_destroy n i c a : isolates n i c (do_destroy_context i c a).
Proof.
  unfold do_destroy_context. destruct (negb (owns c (u32 (scalar a 0)))) eqn:Eo; [apply isolates_ret|].
  apply negb_false_iff, andb_true_iff in Eo as [Hh Eo]. apply Z.eqb_eq in Eo. rewrite Eo.
  intros w Hi Hr Hc. pose proof (isolates_drop n i c w Hi Hh Hr Hc) as Hd. unfold bind at 1.
  destruct (on_acc _ w) as [r [cs aw]]. destruct Hd as (-> & E & H1 & H2 & H3 & H4). cbn in E. subst cs.
  change (is_success kIOReturnSuccess) with true. cbn iota. unfold bind, upd_client, modify, ret. cbn.
  split; [done|]. split; [done|]. by apply confined_drop.
Qed.
Lemma clientClose_eq i c (w : S) :
  cw_clients w !! i = Some c ->
  clientClose i w =
    if m_has_context c
    then (kIOReturnSuccess, (upd_client i (set_context 0 false) (on_acc (destroy3DContext (m_context_id c)) w).2).2)
    else (kIOReturnSuccess, w).
Proof.
  intros Hi. unfold clientClose, bind, gets, ret. rewrite Hi. destruct (m_has_context c); [|done].
  by destruct (on_acc _ w).
Qed.
Lemma isolates_close n i c : isolates n i c (clientClose i).
Proof.
  intros w Hi Hr Hc. rewrite (clientClose_eq i c w Hi). destruct (m_has_context c) eqn:Hh.
  - pose proof (isolates_drop n i c w Hi Hh Hr Hc) as Hd.
    destruct (on_acc _ w) as [r [cs aw]]. destruct Hd as (-> & E & H1 & H2 & H3 & H4). cbn in E. subst cs.
    cbn. split; [done|]. split; [done|]. by apply confined_drop.
  - exact (isolates_ret n i c kIOReturnSuccess w Hi Hr Hc).
Qed.
Lemma do_create_context_eq i c (w : S) :
  do_create_context i c w =
    if m_has_context c then (no_data kIOReturnExclusiveAccess, w)
    else match on_acc (create3DContext true (m_task c)) w with
         | ((r, Some id), w1) =>
             if is_success r
             then ((r, [id], []), (upd_client i (fun c => set_context (m_context_id c) true c)
                                     (upd_client i (set_context id (m_has_context c)) w1).2).2)
             else (no_data r, (upd_client i (set_context id (m_has_context c)) w1).2)
         | ((r, None), w1) =>
             if is_success r
             then ((r, [m_context_id c], []), (upd_client i (fun c => set_context (m_context_id c) true c) w1).2)
             else (no_data r, w1)
         end.
Proof.
  unfold do_create_context. destruct (m_has_context c); [done|]. unfold bind, ret.
  destruct (on_acc _ w) as [[r [id|]] w1]; cbn; by destruct (is_success r).
Qed.
Lemma isolates_create n i c : isolates n i c (do_create_context i c).
Proof.
  intros w Hi Hr Hc. rewrite do_create_context_eq. destruct (m_has_context c) eqn:Hh.
  { exact (isolates_ret n i c (no_data kIOReturnExclusiveAccess) w Hi Hr Hc). }
  unfold on_acc, acc_of in *. pose proof (acc_create_context n (m_task c) (cw_world w) Hr) as Hm.
  destruct (create3DContext true (m_task c) (cw_world w)) as [r aw]. destruct Hm as (H1 & H2 & H3 & H4).
  assert (Hown : forall j, own_stays j (aw_acc (cw_world w)) (aw_acc aw)).
  { intros j t Ht. by apply (others_have (j + 1) _ _ j t (H3 _) ltac:(lia)). }
  assert (Hconf : forall cs, (forall j, j <> i -> cs !! j = cw_clients w !! j) -> confined i c w (mk_cworld cs aw)).
  { intros cs Hcs. split; [done|]. split; [done|]. intros x Hx _. by apply (H3 (ac_context_id x + 1) x Hx ltac:(lia)). }
  destruct H4 as [[Hr1 Hr2]|(id & -> & Hnew & Hfresh)].
  - destruct r as [r o]. cbn in Hr1, Hr2. subst o. apply is_success_false in Hr1. rewrite Hr1. cbn.
    split; [done|]. split; [by eapply clients_ok_stay|]. by apply Hconf.
  - change (is_success kIOReturnSuccess) with true. cbn.
    assert (E : alter (fun c => set_context (m_context_id c) true c) i (alter (set_context id false) i (cw_clients w))
                = alter (set_context id true) i (cw_clients w)).
    { apply list_eq. intros j. destruct (decide (j = i)) as [->|Hne].
      - by rewrite !list_lookup_alter_eq, Hi.
      - by rewrite !list_lookup_alter_ne. }
    rewrite E. split; [done|]. split; [by eapply clients_ok_take|].
    apply Hconf. intros j Hj. by rewrite list_lookup_alter_ne.
Qed.

Lemma isolates_externalMethod n i c e sel a : isolates n i c (externalMethod admits refusal no_function e i sel a).
Proof.
  assert (Hm : forall f, isolates n i c (run_method f e i c a)).
  { intros []; cbn [run_method].
    - apply isolates_create.
    - apply isolates_destroy.
    - apply isolates_surface.
    - unfold do_destroy_surface. destruct (negb _); apply isolates_ret.
    - apply isolates_submit.
    - apply isolates_present.
    - apply isolates_capabilities. }
  intros w Hi Hr Hc. unfold externalMethod. destruct (_ <=? sel); [exact (isolates_ret n i c (no_data _) w Hi Hr Hc)|].
  unfold bind, gets. rewrite Hi. destruct (sMethods sel) as [[f|] d];
    (destruct (negb (admits d a)); [exact (isolates_ret n i c (no_data _) w Hi Hr Hc)|]).
  - exact (Hm f w Hi Hr Hc).
  - exact (isolates_ret n i c (no_data _) w Hi Hr Hc).
Qed.

Abbreviation run := (run_clients (T := T) admits refusal no_function).
Abbreviation step := (do_client (T := T) admits refusal no_function).
Lemma isolates_step n o i c : client_of o = Some i -> isolates n i c (step o).
Proof.
  assert (Hm : forall A (m : M S A), isolates n i c m -> isolates n i c (m ;;; ret tt)).
  { intros A m Hm w Hi Hr Hc. specialize (Hm w Hi Hr Hc). unfold bind, ret. by destruct (m w). }
  destruct o; cbn [client_of do_client]; intros [= ->]; apply Hm.
  - apply isolates_externalMethod.
  - apply isolates_close.
  - apply isolates_close.
Qed.
(** A step of a client that is not there does nothing; opening adds one. *)
Lemma step_absent o i (w : S) : client_of o = Some i -> cw_clients w !! i = None -> (step o w).2 = w.
Proof.
  destruct o; cbn [client_of do_client]; intros [= ->] Hi.
  - unfold externalMethod. destruct (_ <=? _); [done|]. unfold bind, gets, ret. by rewrite Hi.
  - unfold clientClose, bind, gets, ret. by rewrite Hi.
  - unfold clientDied, clientClose, bind, gets, ret. by rewrite Hi.
Qed.
Lemma step_other o (w : S) :
  match client_of o with Some i => cw_clients w !! i = None | None => True end ->
  let w' := (step o w).2 in
  cw_world w' = cw_world w /\ (cw_clients w' = cw_clients w \/
    exists c, m_has_context c = false /\ cw_clients w' = cw_clients w ++ [c]).
Proof.
  intros Hi. destruct (client_of o) as [i|] eqn:Eo.
  { rewrite (step_absent o i w Eo Hi). split; [done|by left]. }
  destruct o; try discriminate Eo. cbn [do_client]. unfold open_client. destruct (is_success _); [|by split; [|left]].
  cbn. split; [done|]. right. by exists (start3d (initWithTask task)).
Qed.
Lemma clients_ok_open cs a c : m_has_context c = false -> clients_ok cs a -> clients_ok (cs ++ [c]) a.
Proof.
  intros Hn [H1 H2].
  assert (Hl : forall j d, (cs ++ [c]) !! j = Some d -> m_has_context d = true -> cs !! j = Some d).
  { intros j d Hj Hd. apply lookup_app_Some in Hj as [Hj|[_ Hj]]; [done|].
    apply list_lookup_singleton_Some in Hj as [_ <-]. congruence. }
  split; [intros j d Hj Hd; by eapply H1; [apply Hl|]|].
  intros j k d e Hj Hk Hd He E. by eapply (H2 j k d e); [apply Hl|apply Hl|..].
Qed.
Lemma client_step_keeps n o (w : S) :
  running (Datatypes.S n) (acc_of w) -> clients_ok (cw_clients w) (acc_of w) ->
  let w' := (step o w).2 in
  running n (acc_of w') /\ clients_ok (cw_clients w') (acc_of w') /\ surfaces_stay (acc_of w) (acc_of w').
Proof.
  intros Hr Hc.
  assert (Hother : match client_of o with Some i => cw_clients w !! i = None | None => True end ->
    let w' := (step o w).2 in
    running n (acc_of w') /\ clients_ok (cw_clients w') (acc_of w') /\ surfaces_stay (acc_of w) (acc_of w')).
  { intros Hi. destruct (step_other o w Hi) as [Ew Ec]. unfold acc_of in *. cbv zeta. rewrite Ew.
    split; [by apply running_less|]. split; [|by apply surfaces_stay_refl].
    destruct Ec as [->|(c & Hn & ->)]; [done|by apply clients_ok_open]. }
  destruct (client_of o) as [i|] eqn:Eo; [|by apply Hother].
  destruct (cw_clients w !! i) as [c|] eqn:Ei; [|by apply Hother].
  destruct (isolates_step n o i c Eo w Ei Hr Hc) as (H1 & H2 & H3 & _). done.
Qed.
Lemma clients_run_keeps os : forall n (w : S),
  running (length os + n) (acc_of w) -> clients_ok (cw_clients w) (acc_of w) ->
  let w' := (run os w).2 in
  running n (acc_of w') /\ clients_ok (cw_clients w') (acc_of w') /\ surfaces_stay (acc_of w) (acc_of w').
Proof.
  induction os as [|o os IH]; intros n w Hr Hc; cbn [run_clients length Nat.add] in *.
  - cbn. split; [done|]. split; [done|by apply surfaces_stay_refl].
  - destruct (client_step_keeps _ o w Hr Hc) as (H1 & H2 & H3). unfold bind. destruct (step o w) as [u w1]. cbn [snd] in *.
    destruct (IH n w1 H1 H2) as (G1 & G2 & G3). split; [done|]. split; [done|by eapply surfaces_stay_trans].
Qed.
Lemma run_app os os' (w : S) : (run (os ++ os') w).2 = (run os' (run os w).2).2.
Proof.
  revert w. induction os as [|o os IH]; intros w; [done|]. cbn [run_clients app]. unfold bind.
  destruct (step o w) as [u w1]. apply IH.
Qed.
Lemma no_clients_ok a : clients_ok [] a.
Proof. split; intros; by simplify_eq. Qed.
End isolation.

(** C31: in any session of any number of clients, one that has a context has one made for its
    own task, no two share one, and what a client asks for, its close and its death included,
    leaves the other clients, their contexts and every surface with its buffer as they were. *)
Theorem clients_isolated T `{Transport T} admits refusal no_function os o i (w : aworld T) :
  running (length os + 1) (aw_acc w) -> client_of o = Some i ->
  let w1 := (run_clients admits refusal no_function os (mk_cworld [] w)).2 in
  let w2 := (do_client admits refusal no_function o w1).2 in
  clients_ok (cw_clients w2) (acc_of w2)
  /\ (forall j, j <> i -> cw_clients w2 !! j = cw_clients w1 !! j)
  /\ (forall j c x, j <> i -> cw_clients w1 !! j = Some c -> m_has_context c = true ->
      x ∈ objects (a_contexts (acc_of w1)) -> ac_context_id x = m_context_id c -> x ∈ objects (a_contexts (acc_of w2)))
  /\ surfaces_stay (acc_of w1) (acc_of w2).
Proof.
  intros Hr Ho. destruct (clients_run_keeps admits refusal no_function os 1 (mk_cworld [] w) Hr (no_clients_ok _)) as (H1 & H2 & _).
  cbv zeta. set (w1 := (run_clients admits refusal no_function os (mk_cworld [] w)).2) in *.
  destruct (cw_clients w1 !! i) as [c|] eqn:Ei.
  - destruct (isolates_step admits refusal no_function 0 o i c Ho w1 Ei H1 H2) as (G1 & G2 & G3 & G4 & G5).
    split; [done|]. split; [done|]. split; [|done]. intros j d x Hj Hd Hh Hx E. apply G5; [done|]. intros [Hc E'].
    apply Hj. eapply (cl_apart _ _ H2 j i d c); [done..|congruence].
  - rewrite (step_absent admits refusal no_function o i w1 Ho Ei).
    split; [done|]. split; [done|]. split; [done|by apply surfaces_stay_refl].
Qed.

(** * Submission *)
(** What [IOUserClient::externalMethod] documents of its check, as far as the
    structure goes, for sizes that are not [kIOUCVariableStructureSize]. *)
Definition checks_structure (admits : dispatch -> call_args -> bool) : Prop :=
  forall d a, admits d a = true -> structure_size a = checkStructureInputSize d.
(** The kernel passes a structure by descriptor only when it is too large to be
    passed in line. *)
Definition io_struct_inband : Z := 4096.
Definition large_descriptor (a : call_args) : Prop :=
  forall d, structureInputDescriptor a = Some d -> io_struct_inband < Z.of_nat (length (cd_data d)).

(** No call of the submit selector ever reaches the accelerator: the table demands a
    structure of no bytes, the method a descriptor, and the two exclude each other. *)
Theorem user_submission_never_sent T `{Transport T} admits refusal no_function e i a (w : cworld T) :
  checks_structure admits -> large_descriptor a -> refusal <> kIOReturnSuccess ->
  let '(r, w') := externalMethod admits refusal no_function e i 4 a w in
  w' = w /\ r.1.1 <> kIOReturnSuccess.
Proof.
  intros Had Hd Hr. unfold externalMethod. change (kVM3DUserClientMethodCount <=? 4) with false. cbn iota.
  unfold bind, gets. destruct (cw_clients w !! i) as [c|]; [|by split].
  change (sMethods 4) with (Some sSubmit3DCommands, mk_dispatch 1 0 0 0). cbn iota beta.
  destruct (admits (mk_dispatch 1 0 0 0) a) eqn:Ea; cbn [negb]; [|by split].
  cbn [run_method]. unfold do_submit. destruct (negb _); [by split|].
  apply Had in Ea. unfold structure_size in Ea. cbn in Ea.
  destruct (structureInputDescriptor a) as [d|] eqn:Es; [|by split].
  pose proof (Hd d Es) as Hl. unfold io_struct_inband in Hl. lia.
Qed.

(** A surface made through the client exists from then on under a fresh id, but what the
    caller is told is the id it had itself put into the description. *)
Theorem create_surface_answers_caller T `{Transport T} admits refusal no_function e i a (w : cworld T) :
  running 1 (acc_of w) ->
  let n := a_next_surface_id (acc_of w) + 1 in
  let '(r, w') := externalMethod admits refusal no_function e i 2 a w in
  r.1.1 = kIOReturnSuccess -> refusal <> kIOReturnSuccess ->
  r.1.2 = [word 0 (structureInput a)]
  /\ ~ n ∈ (as_surface_id <$> objects (a_surfaces (acc_of w)))
  /\ n ∈ (as_surface_id <$> objects (a_surfaces (acc_of w'))).
Proof.
  intros (Ha & Hg & _ & Hn) n. unfold externalMethod. change (kVM3DUserClientMethodCount <=? 2) with false. cbn iota.
  unfold bind at 1, gets. destruct (cw_clients w !! i) as [c|]; [|by intros ? []].
  change (sMethods 2) with (Some sCreate3DSurface, mk_dispatch 1 sizeof_VM3DSurfaceInfo 1 0). cbn iota beta.
  destruct (negb _); [by intros ? []|]. cbn [run_method]. unfold do_create_surface.
  destruct (negb _); [done|]. set (cid := u32 (scalar a 0)). set (info := decode_info (structureInput a)).
  destruct (acc_result _ _ (cw_world w) (create3DSurface_run 0 (acc_of w) None cid info Ha Hg ltac:(lia))) as (b' & _ & _ & _ & Ho).
  unfold bind, on_acc, ret, acc_of in *. destruct (create3DSurface cid (Some info) (cw_world w)) as [r aw]. cbn [fst snd cw_world aw_acc] in *.
  intros -> ?. change (is_success kIOReturnSuccess) with true in *. cbn iota in *.
  destruct Ho as (ci & x & x' & g & d & _ & _ & [Hp _] & _). split; [done|]. split.
  - intros Hin. apply list_elem_of_fmap in Hin as (s & Es & Hs).
    pose proof (proj1 (Forall_forall _ _) (po_range _ _ _ _ (ok_surfaces _ _ Ha)) s Hs) as Hr. cbn in Hr. lia.
  - rewrite Hp. cbn. left.
Qed.

(** * Opening *)
(** The references to the client's object that are left. *)
Definition left_over (l : list client_step) : Z :=
  zsum (fun s => match s with SAlloc => 1 | SRelease => -1 | _ => 0 end) l.
Lemma newUserClient_references type e :
  0 <= type ->
  let '(r, l) := newUserClient type e in
  left_over l = if is_success r then 1
                else if (type =? 2) && oe_alloc e && oe_init e then 1 else 0.
Proof.
  intros Ht. unfold newUserClient, open_other, open_3d.
  destruct (type =? 3) eqn:E3; [|destruct (4 <? type) eqn:E4].
  - apply Z.eqb_eq in E3 as ->. reflexivity.
  - apply Z.ltb_lt in E4. cbn. assert ((type =? 2) = false) as -> by (apply Z.eqb_neq; lia). reflexivity.
  - cbn [orb]. destruct (Z.eqb_spec type 0) as [->|H0]; [destruct e as [[] [] [] [] []]; reflexivity|].
    destruct (Z.eqb_spec type 1) as [->|H1]; [destruct e as [? [] [] [] []]; reflexivity|].
    destruct (Z.eqb_spec type 4) as [->|H4]; [destruct e as [? [] [] [] []]; reflexivity|].
    apply Z.ltb_ge in E4. apply Z.eqb_neq in E3. assert (type = 2) as -> by lia.
    destruct e as [? [] [] [] []]; reflexivity.
Qed.

(** * Witnesses *)
Definition demo_admits (d : dispatch) (a : call_args) : bool :=
  (Z.of_nat (length (scalarInput a)) =? checkScalarInputCount d) && (structure_size a =? checkStructureInputSize d)
  && (scalarOutputCount a =? checkScalarOutputCount d) && (structureOutputSize a =? checkStructureOutputSize d).
Definition demo_open : open_env := mk_open_env true true true true true.
Definition call_create : client_op := CCall demo_screen 0 0 (mk_call [] [] None 1 0).
Definition call_create1 : client_op := CCall demo_screen 1 0 (mk_call [] [] None 1 0).
Definition surface_bytes : list Z :=
  le_bytes 4 99 ++ le_bytes 4 64 ++ le_bytes 4 48 ++ le_bytes 4 1 ++ le_bytes 4 2 ++ replicate 20 0.
Definition call_surface : client_op := CCall demo_screen 0 2 (mk_call [2] surface_bytes None 1 0).
Definition two_clients : list client_op := [COpen 7 demo_open; COpen 8 demo_open; call_create; call_create1; call_surface].
(** A service over a host that refuses nothing. *)
Definition served : aworld host_machine :=
  service (mk_aworld demo_acc (mk_world demo_gpu (w_mem demo_kernel) (mk_host ∅ [] [])) []).
Lemma served_running n : Z.of_nat n < 2 ^ 28 -> running n (aw_acc served).
Proof. by apply service_running. Qed.
Definition demo_run (os : list client_op) : cworld host_machine :=
  (run_clients demo_admits kIOReturnBadArgument kIOReturnNotReady os (mk_cworld [] served)).2.

Definition demo_step (o : client_op) (w : cworld host_machine) : cworld host_machine :=
  (do_client demo_admits kIOReturnBadArgument kIOReturnNotReady o w).2.
Lemma clients_isolated_witness :
  (m_context_id <$> cw_clients (demo_run two_clients)) = [2; 3]
  /\ length (objects (a_surfaces (acc_of (demo_step (CDied 0) (demo_run two_clients))))) = 1%nat
  /\ clients_ok (cw_clients (demo_step (CDied 0) (demo_run two_clients))) (acc_of (demo_step (CDied 0) (demo_run two_clients))).
Proof.
  split; [by vm_compute|]. split; [by vm_compute|]. unfold demo_run, demo_step.
  exact (proj1 (clients_isolated host_machine demo_admits kIOReturnBadArgument kIOReturnNotReady two_clients (CDied 0) 0
    served (served_running 6 ltac:(reflexivity)) eq_refl)).
Defined.

Lemma user_submission_never_sent_witness :
  let a := mk_call [2] [] (Some (mk_cmd_desc true true (replicate 5000 0))) 0 0 in
  (externalMethod demo_admits kIOReturnBadArgument kIOReturnNotReady demo_screen 0 4 a (demo_run two_clients)).2
  = demo_run two_clients.
Proof.
  intros a. pose proof (user_submission_never_sent host_machine demo_admits kIOReturnBadArgument kIOReturnNotReady
    demo_screen 0 a (demo_run two_clients)) as Hs.
  destruct (externalMethod _ _ _ _ _ _ _ _) as [r w']. apply Hs.
  - intros d x Hx. unfold demo_admits in Hx. repeat (apply andb_true_iff in Hx as [Hx ?]).
    by apply Z.eqb_eq.
  - intros d [= <-]. by vm_compute.
  - done.
Defined.

Lemma create_surface_answers_caller_witness :
  (externalMethod demo_admits kIOReturnBadArgument kIOReturnNotReady demo_screen 0 2
     (mk_call [2] surface_bytes None 1 0) (demo_run two_clients)).1.1.2 = [99]
  /\ (as_surface_id <$> objects (a_surfaces (acc_of (demo_run two_clients)))) = [2].
Proof.
  split; [|by vm_compute].
  assert (Hr : running 1 (acc_of (demo_run two_clients))).
  { exact (proj1 (clients_run_keeps demo_admits kIOReturnBadArgument kIOReturnNotReady two_clients 1 (mk_cworld [] served)
      (served_running 6 ltac:(reflexivity)) (no_clients_ok _))). }
  pose proof (create_surface_answers_caller host_machine demo_admits kIOReturnBadArgument kIOReturnNotReady demo_screen 0
    (mk_call [2] surface_bytes None 1 0) (demo_run two_clients) Hr) as Hs. cbv zeta in Hs.
  destruct (externalMethod _ _ _ _ _ _ _ (demo_run two_clients)) as [r w'] eqn:E.
  assert (Hok : r.1.1 = kIOReturnSuccess).
  { replace r with (externalMethod demo_admits kIOReturnBadArgument kIOReturnNotReady demo_screen 0 2
     (mk_call [2] surface_bytes None 1 0) (demo_run two_clients)).1 by (by rewrite E). by vm_compute. }
  destruct (Hs Hok ltac:(done)) as (Hid & _). cbn [fst]. rewrite Hid. by vm_compute.
Defined.
