(* ===== verification/CGLContext.v ===== *)
(** The CGL user client: [VMCGLContext] of [FB/VMCGLContext.cpp], which a task
    opens on the accelerator (type 4 of [newUserClient]) to create one context,
    attach a surface, submit and present.

    As for [Client3D], [IOUserClient::externalMethod] checks a call against the
    entry of the dispatch table first; that check is the parameter [admits].
    The members that nothing changes ([m_command_buffer], [m_shared_memory],
    [m_current_framebuffer_id]) are left out. *)
From S2P Require Import Prelude Wire Transport Driver Resources Display Accounts Accel AccelLife AccelSpec Client3D ClientSpec.

Definition kIOReturnNoDevice : IOReturn := kIOReturnOther 0xE00002C0.

(** * The client *)
Record cgl := mk_cgl {
  gl_accelerator : bool;
  gl_task : Z;
  gl_context_id : Z;
  gl_cgl_context_id : Z;
  gl_context_valid : bool;
  gl_current_surface_id : Z;
  gl_shared_memory_desc : option mdesc
}.
Definition set_gl_accelerator v (c : cgl) : cgl :=
  mk_cgl v (gl_task c) (gl_context_id c) (gl_cgl_context_id c) (gl_context_valid c) (gl_current_surface_id c) (gl_shared_memory_desc c).
Definition set_gl_context_id v (c : cgl) : cgl :=
  mk_cgl (gl_accelerator c) (gl_task c) v (gl_cgl_context_id c) (gl_context_valid c) (gl_current_surface_id c) (gl_shared_memory_desc c).
Definition set_gl_context id cgl_id valid (c : cgl) : cgl :=
  mk_cgl (gl_accelerator c) (gl_task c) id cgl_id valid (gl_current_surface_id c) (gl_shared_memory_desc c).
Definition set_gl_current_surface_id v (c : cgl) : cgl :=
  mk_cgl (gl_accelerator c) (gl_task c) (gl_context_id c) (gl_cgl_context_id c) (gl_context_valid c) v (gl_shared_memory_desc c).
Definition set_gl_shared_memory_desc v (c : cgl) : cgl :=
  mk_cgl (gl_accelerator c) (gl_task c) (gl_context_id c) (gl_cgl_context_id c) (gl_context_valid c) (gl_current_surface_id c) v.

Record glworld (T : Type) := mk_glworld { gl_client : cgl; gl_world : aworld T }.
Arguments mk_glworld {T}.
Arguments gl_client {T}.
Arguments gl_world {T}.

(** * The dispatch table
    An entry initialises the members of [IOExternalMethodDispatch] in order: the
    counts the code writes as scalar inputs, scalar outputs, structure inputs
    and structure outputs are its scalar inputs, structure inputs, scalar
    outputs and structure outputs. *)
Inductive cgl_method :=
| sCGLCreateContext | sCGLDestroyContext | sCGLSetSurface | sCGLFlushContext | sCGLSubmitCommands
| sCGLSetParameter | sCGLGetParameter | sCGLSetVirtualScreen | sCGLGetVirtualScreen | sCGLUpdateContext
| sCGLClearDrawable | sCGLLockContext | sCGLUnlockContext | sCGLSetupSharedMemory.
Definition kVMCGLMethodCount : Z := 14.
Definition kIOUCVariableStructureSize : Z := 0xFFFFFFFF.
Definition dispatchTable : list (cgl_method * dispatch) :=
  [(sCGLCreateContext, mk_dispatch 2 1 0 0); (sCGLDestroyContext, mk_dispatch 0 0 0 0);
   (sCGLSetSurface, mk_dispatch 3 0 0 0); (sCGLFlushContext, mk_dispatch 0 0 0 0);
   (sCGLSubmitCommands, mk_dispatch 1 0 0 kIOUCVariableStructureSize); (sCGLSetParameter, mk_dispatch 2 0 0 0);
   (sCGLGetParameter, mk_dispatch 1 2 0 0); (sCGLSetVirtualScreen, mk_dispatch 1 0 0 0);
   (sCGLGetVirtualScreen, mk_dispatch 0 1 0 0); (sCGLUpdateContext, mk_dispatch 0 0 0 0);
   (sCGLClearDrawable, mk_dispatch 0 0 0 0); (sCGLLockContext, mk_dispatch 0 0 0 0);
   (sCGLUnlockContext, mk_dispatch 0 0 0 0); (sCGLSetupSharedMemory, mk_dispatch 2 0 0 0)].

(** What a session is made of: calls of the task, the ends of the client, and
    the methods themselves, for code in the kernel that has the object. *)
Inductive cgl_op :=
| LCall (e : screen_env) (selector : Z) (a : call_args)
| LClose | LDied | LStop.
Inductive cgl_direct :=
| LCreate (pixel_format share_context : Z) | LDestroy
| LSetSurface (surface_id width height : Z) | LFlush (e : screen_env)
| LSubmit (commands : option cmd_desc) (command_size : Z)
| LSetParameter (name : Z) (params : option Z) (count : Z) | LGetParameter (name : Z)
| LSetVirtualScreen (screen_id : Z) | LGetVirtualScreen
| LUpdate | LClearDrawable | LLock | LUnlock | LSharedMemory (address size : Z)
| LEnd.

Section cgl.
Context {T : Type} `{Transport T}.
Context (admits : dispatch -> call_args -> bool) (refusal : IOReturn).
(** How the descriptor over a task's structure maps. *)
Context (mapped : mdesc -> bool * bool).
Abbreviation S := (glworld T).

Definition on_accel {A} (m : M (aworld T) A) : M S A :=
  fun w => let '(a, aw) := m (gl_world w) in (a, mk_glworld (gl_client w) aw).
Definition get_cgl {A} (f : cgl -> A) : M S A := gets (fun w => f (gl_client w)).
Definition upd_cgl (f : cgl -> cgl) : M S unit := modify (fun w => mk_glworld (f (gl_client w)) (gl_world w)).
Definition valid : M S bool := get_cgl gl_context_valid.

Definition initWithTask (task : Z) : cgl := mk_cgl false task 0 0 false 0 None.
(** [start], of a provider that is an accelerator or not. *)
Definition start (is_accelerator : bool) (c : cgl) : bool * cgl := (is_accelerator, set_gl_accelerator is_accelerator c).

(** ** The methods *)
Definition cglCreateContext (pixel_format share_context : Z) : M S IOReturn :=
  let! c := get_cgl id in
  if gl_context_valid c then ret kIOReturnExclusiveAccess
  else if negb (gl_accelerator c) then ret kIOReturnNoDevice
  else
    let! r := on_accel (create3DContext true (gl_task c)) in
    (match r.2 with Some id => upd_cgl (set_gl_context_id id) | None => ret tt end) ;;;
    if negb (is_success r.1) then ret r.1
    else
      upd_cgl (fun c => set_gl_context (gl_context_id c) (gl_context_id c) true c) ;;;
      ret kIOReturnSuccess.
Definition cglDestroyContext : M S IOReturn :=
  let! c := get_cgl id in
  if negb (gl_context_valid c) then ret kIOReturnNotOpen
  else if negb (gl_accelerator c) then ret kIOReturnNoDevice
  else
    let! r := on_accel (destroy3DContext (gl_context_id c)) in
    if negb (is_success r) then ret r
    else upd_cgl (set_gl_context 0 0 false) ;;; ret kIOReturnSuccess.
Definition cglSetSurface (surface_id width height : Z) : M S IOReturn :=
  let! v := valid in
  if negb v then ret kIOReturnNotOpen
  else upd_cgl (set_gl_current_surface_id surface_id) ;;; ret kIOReturnSuccess.
Definition cglFlushContext (e : screen_env) : M S IOReturn :=
  let! c := get_cgl id in
  if negb (gl_context_valid c) then ret kIOReturnNotOpen
  else if negb (gl_accelerator c) then ret kIOReturnNoDevice
  else if gl_current_surface_id c =? 0 then ret kIOReturnSuccess
  else on_accel (present3DSurface e (gl_context_id c) (gl_current_surface_id c)).
Definition cglSubmitCommands (commands : option cmd_desc) (command_size : Z) : M S IOReturn :=
  let! c := get_cgl id in
  if negb (gl_context_valid c) then ret kIOReturnNotOpen
  else match commands with
  | Some d => if negb (gl_accelerator c) then ret kIOReturnBadArgument
              else on_accel (submit3DCommands (gl_context_id c) (Some d))
  | None => ret kIOReturnBadArgument
  end.
Definition cglSetParameter (param_name : Z) (params : option Z) (count : Z) : M S IOReturn :=
  let! v := valid in
  if negb v then ret kIOReturnNotOpen
  else match params with
  | None => ret kIOReturnBadArgument
  | Some _ => if count =? 0 then ret kIOReturnBadArgument else ret kIOReturnSuccess
  end.
(** The value; the count it writes is always 1. *)
Definition kCGLCPSwapInterval : Z := 222.
Definition kCGLCPCurrentRendererID : Z := 309.
Definition kCGLCPGPUVertexProcessing : Z := 310.
Definition kCGLCPGPUFragmentProcessing : Z := 311.
Definition kCGLCPHasDrawable : Z := 314.
Definition parameter (c : cgl) (param_name : Z) : Z :=
  if param_name =? kCGLCPSwapInterval then 1
  else if param_name =? kCGLCPCurrentRendererID then 0x00024600
  else if (param_name =? kCGLCPGPUVertexProcessing) || (param_name =? kCGLCPGPUFragmentProcessing) then 1
  else if param_name =? kCGLCPHasDrawable then (if gl_current_surface_id c =? 0 then 0 else 1)
  else 0.
Definition cglGetParameter (param_name : Z) : M S (IOReturn * Z) :=
  let! c := get_cgl id in
  if negb (gl_context_valid c) then ret (kIOReturnNotOpen, 0)
  else ret (kIOReturnSuccess, parameter c param_name).
Definition if_valid : M S IOReturn :=
  let! v := valid in ret (if v then kIOReturnSuccess else kIOReturnNotOpen).
Definition cglSetVirtualScreen (screen_id : Z) : M S IOReturn := if_valid.
Definition cglGetVirtualScreen : M S (IOReturn * Z) := let! r := if_valid in ret (r, 0).
Definition cglUpdateContext : M S IOReturn := if_valid.
Definition cglClearDrawable : M S IOReturn :=
  let! v := valid in
  if negb v then ret kIOReturnNotOpen
  else upd_cgl (set_gl_current_surface_id 0) ;;; ret kIOReturnSuccess.
Definition cglLockContext : M S IOReturn := if_valid.
Definition cglUnlockContext : M S IOReturn := if_valid.
Definition drop_shared : M S unit :=
  let! d := get_cgl gl_shared_memory_desc in
  match d with
  | Some d => on_accel (kernel (release (md_id d))) ;;; upd_cgl (set_gl_shared_memory_desc None)
  | None => ret tt
  end.
Definition cglSetupSharedMemory (address size : Z) : M S IOReturn :=
  let! v := valid in
  if negb v then ret kIOReturnNotOpen
  else
    drop_shared ;;;
    let! desc := on_accel (kernel (new_descriptor size)) in
    match desc with
    | None => ret kIOReturnNoMemory
    | Some d =>
        upd_cgl (set_gl_shared_memory_desc (Some d)) ;;;
        let! r := on_accel (kernel (prepare d)) in
        if negb (is_success r) then drop_shared ;;; ret r
        else ret kIOReturnSuccess
    end.

(** ** The ends of a client *)
Definition clientClose : M S IOReturn :=
  let! v := valid in
  (if v then cglDestroyContext ;;; ret tt else ret tt) ;;;
  ret kIOReturnSuccess.
Definition clientDied : M S IOReturn := clientClose.
Definition stop : M S unit :=
  let! v := valid in if v then cglDestroyContext ;;; ret tt else ret tt.
Definition free : M S unit := drop_shared.

(** ** The handlers *)
Definition int32 (z : Z) : Z := (z + 2 ^ 31) mod 2 ^ 32 - 2 ^ 31.
Definition counts (a : call_args) (inputs : Z) (outputs : option Z) : bool :=
  (Z.of_nat (length (scalarInput a)) =? inputs)
  && match outputs with Some n => scalarOutputCount a =? n | None => true end.
Definition status (m : M S IOReturn) : M S answer := let! r := m in ret (no_data r).
Definition run_method (m : cgl_method) (e : screen_env) (a : call_args) : M S answer :=
  let bad := ret (no_data kIOReturnBadArgument) in
  let arg n := u32 (scalar a n) in
  match m with
  | sCGLCreateContext =>
      if negb (counts a 2 (Some 1)) then bad
      else
        let! r := cglCreateContext (arg 0%nat) (arg 1%nat) in
        let! id := get_cgl gl_cgl_context_id in
        ret (r, if is_success r then [id] else [], [])
  | sCGLDestroyContext => status cglDestroyContext
  | sCGLSetSurface =>
      if negb (counts a 3 None) then bad else status (cglSetSurface (arg 0%nat) (arg 1%nat) (arg 2%nat))
  | sCGLFlushContext => status (cglFlushContext e)
  | sCGLSubmitCommands =>
      if negb (counts a 1 None) then bad
      else if (length (structureInput a) =? 0)%nat then bad
      else
        let! desc := on_accel (kernel (new_descriptor (Z.of_nat (length (structureInput a))))) in
        match desc with
        | None => ret (no_data kIOReturnNoMemory)
        | Some d =>
            let! r := cglSubmitCommands (Some (mk_cmd_desc (mapped d).1 (mapped d).2 (structureInput a))) (arg 0%nat) in
            on_accel (kernel (release (md_id d))) ;;;
            ret (no_data r)
        end
  | sCGLSetParameter =>
      if negb (counts a 2 None) then bad else status (cglSetParameter (arg 0%nat) (Some (int32 (scalar a 1))) 1)
  | sCGLGetParameter =>
      if negb (counts a 1 (Some 2)) then bad
      else
        let! r := cglGetParameter (arg 0%nat) in
        ret (r.1, if is_success r.1 then [r.2; 1] else [], [])
  | sCGLSetVirtualScreen => if negb (counts a 1 None) then bad else status (cglSetVirtualScreen (arg 0%nat))
  | sCGLGetVirtualScreen =>
      if negb (scalarOutputCount a =? 1) then bad
      else
        let! r := cglGetVirtualScreen in
        ret (r.1, if is_success r.1 then [r.2] else [], [])
  | sCGLUpdateContext => status cglUpdateContext
  | sCGLClearDrawable => status cglClearDrawable
  | sCGLLockContext => status cglLockContext
  | sCGLUnlockContext => status cglUnlockContext
  | sCGLSetupSharedMemory =>
      if negb (counts a 2 None) then bad else status (cglSetupSharedMemory (scalar a 0) (scalar a 1))
  end.
Definition externalMethod (e : screen_env) (selector : Z) (a : call_args) : M S answer :=
  if kVMCGLMethodCount <=? selector then ret (no_data kIOReturnBadArgument)
  else match dispatchTable !! Z.to_nat selector with
  | Some (m, d) => if negb (admits d a) then ret (no_data refusal) else run_method m e a
  | None => ret (no_data refusal)
  end.

(** ** Sessions *)
Definition do_cgl (o : cgl_op) : M S (option IOReturn) :=
  match o with
  | LCall e selector a => let! r := externalMethod e selector a in ret (Some r.1.1)
  | LClose => clientClose ;;; ret None
  | LDied => clientDied ;;; ret None
  | LStop => stop ;;; ret None
  end.
Fixpoint run_cgl (os : list cgl_op) : M S (list IOReturn) :=
  match os with
  | [] => ret []
  | o :: os' =>
      let! r := do_cgl o in
      let! rs := run_cgl os' in
      ret (option_list r ++ rs)
  end.
Definition do_direct (o : cgl_direct) : M S unit :=
  match o with
  | LCreate p s => cglCreateContext p s ;;; ret tt
  | LDestroy => cglDestroyContext ;;; ret tt
  | LSetSurface s w h => cglSetSurface s w h ;;; ret tt
  | LFlush e => cglFlushContext e ;;; ret tt
  | LSubmit d n => cglSubmitCommands d n ;;; ret tt
  | LSetParameter n p k => cglSetParameter n p k ;;; ret tt
  | LGetParameter n => cglGetParameter n ;;; ret tt
  | LSetVirtualScreen s => cglSetVirtualScreen s ;;; ret tt
  | LGetVirtualScreen => cglGetVirtualScreen ;;; ret tt
  | LUpdate => cglUpdateContext ;;; ret tt
  | LClearDrawable => cglClearDrawable ;;; ret tt
  | LLock => cglLockContext ;;; ret tt
  | LUnlock => cglUnlockContext ;;; ret tt
  | LSharedMemory a n => cglSetupSharedMemory a n ;;; ret tt
  | LEnd => stop
  end.
Fixpoint run_direct (os : list cgl_direct) : M S unit :=
  match os with
  | [] => ret tt
  | o :: os' => do_direct o ;;; run_direct os'
  end.
End cgl.

(** * From user space *)
(** What [IOUserClient::externalMethod] is documented to check, as far as it
    is needed: the structure input and the scalar outputs have the sizes of the
    entry, unless the entry says variable. *)
Definition checks_sizes (admits : dispatch -> call_args -> bool) : Prop :=
  forall d a, admits d a = true ->
    (checkStructureInputSize d = kIOUCVariableStructureSize \/ structure_size a = checkStructureInputSize d)
    /\ (checkScalarOutputCount d = kIOUCVariableStructureSize \/ scalarOutputCount a = checkScalarOutputCount d).
(** A structure comes in line or as a descriptor. *)
Definition one_structure (o : cgl_op) : Prop :=
  match o with LCall _ _ a => structureInputDescriptor a <> None -> structureInput a = [] | _ => True end.

Section user.
Context {T : Type} `{Transport T} (admits : dispatch -> call_args -> bool) (refusal : IOReturn) (mapped : mdesc -> bool * bool).
Abbreviation S := (glworld T).
Implicit Types (w : S).

Definition inert (m : M S answer) : Prop := forall w, gl_context_valid (gl_client w) = false ->
  (m w).2 = w /\ (m w).1.1.1 <> kIOReturnSuccess.
Lemma inert_ret r x y : r <> kIOReturnSuccess -> inert (ret (r, x, y)).
Proof. by intros Hr w _. Qed.
Lemma inert_status (m : M S IOReturn) :
  (forall w, gl_context_valid (gl_client w) = false -> m w = (kIOReturnNotOpen, w)) -> inert (status m).
Proof. intros Hm w Hw. unfold status, bind. by rewrite Hm. Qed.
Ltac closed := intros w Hw; unfold cglDestroyContext, cglSetSurface, cglFlushContext, cglSetParameter, cglSetVirtualScreen,
  cglUpdateContext, cglClearDrawable, cglLockContext, cglUnlockContext, cglSetupSharedMemory, if_valid, valid, get_cgl, gets, bind, id, ret;
  by rewrite Hw.
Lemma inert_method e a m d :
  checks_sizes admits -> (structureInputDescriptor a <> None -> structureInput a = []) ->
  (m, d) ∈ dispatchTable -> admits d a = true -> inert (run_method mapped m e a).
Proof.
  intros Hc Ha Hm Hd. destruct (Hc _ _ Hd) as [Hs Ho]. unfold run_method.
  assert (Hb : inert (ret (no_data kIOReturnBadArgument))) by by apply inert_ret.
  assert (Hif : forall (b : bool) m', inert m' -> inert (if b then ret (no_data kIOReturnBadArgument) else m')) by (by intros [] m').
  assert (Hbad : forall b m', b = true -> inert (if b then ret (no_data kIOReturnBadArgument) else m')) by (by intros b m' ->).
  repeat (apply elem_of_cons in Hm as [[= -> ->]|Hm]; [cbn in Hs, Ho|]); [..|by apply elem_of_nil in Hm];
    try solve [apply inert_status; closed | apply Hif, inert_status; closed].
  - apply Hbad. destruct Ho as [?|Ho]; [done|]. unfold counts. rewrite Ho. by rewrite andb_false_r.
  - apply Hif, Hbad. destruct Hs as [?|Hs]; [done|]. unfold structure_size in Hs. apply Nat.eqb_eq.
    destruct (structureInputDescriptor a); [by rewrite Ha|lia].
  - apply Hbad. destruct Ho as [?|Ho]; [done|]. unfold counts. rewrite Ho. by rewrite andb_false_r.
  - apply Hbad. destruct Ho as [?|Ho]; [done|]. by rewrite Ho.
Qed.
Lemma inert_call e sel a : checks_sizes admits -> refusal <> kIOReturnSuccess ->
  (structureInputDescriptor a <> None -> structureInput a = []) -> inert (externalMethod admits refusal mapped e sel a).
Proof.
  intros Hc Hr Ha. unfold externalMethod. destruct (_ <=? sel); [by apply inert_ret|].
  destruct (dispatchTable !! Z.to_nat sel) as [[m d]|] eqn:E; [|by apply inert_ret].
  destruct (admits d a) eqn:Ed; cbn [negb]; [|by apply inert_ret].
  eapply inert_method; [done|done| |done]. by apply list_elem_of_lookup_2 in E.
Qed.
End user.

(** C37: From user space the class does nothing. Its dispatch table gives the
    number of scalar outputs where the size of the structure input belongs, so
    a call of [sCGLCreateContext] is either refused for its sizes or, with no
    output, by the handler: no session ever has a context, every call of every
    selector fails, and neither the client nor the accelerator changes. *)
Theorem cgl_never_opens T `{Transport T} admits refusal mapped os (w : glworld T) :
  checks_sizes admits -> refusal <> kIOReturnSuccess -> gl_context_valid (gl_client w) = false -> Forall one_structure os ->
  let '(rs, w') := run_cgl admits refusal mapped os w in
  w' = w /\ Forall (fun r => r <> kIOReturnSuccess) rs.
Proof.
  intros Hc Hr Hv Hos. induction Hos as [|o os Ho _ IH]; [by split|]. cbn [run_cgl]. unfold bind at 1.
  assert (Hstop : forall m : M (glworld T) IOReturn, (let! v := valid in if v then m ;;; ret tt else ret tt) w = (tt, w)).
  { intros m. unfold valid, get_cgl, gets, bind. by rewrite Hv. }
  assert (Hstep : exists r, do_cgl admits refusal mapped o w = (r, w) /\ Forall (fun r => r <> kIOReturnSuccess) (option_list r)).
  { destruct o as [e sel a| | |]; cbn [do_cgl].
    - destruct (inert_call admits refusal mapped e sel a Hc Hr Ho w Hv) as [E1 E2]. unfold bind.
      destruct (externalMethod _ _ _ e sel a w) as [r w']. cbn in E1, E2 |- *. subst w'. eexists. split; [reflexivity|]. by repeat constructor.
    - exists None. split; [|by constructor]. unfold clientClose, valid, get_cgl, gets, bind. by rewrite Hv.
    - exists None. split; [|by constructor]. unfold clientDied, clientClose, valid, get_cgl, gets, bind. by rewrite Hv.
    - exists None. split; [|by constructor]. unfold stop, valid, get_cgl, gets, bind. by rewrite Hv. }
  destruct Hstep as (r & -> & Hr1). unfold bind. destruct (run_cgl _ _ _ os w) as [rs w']. destruct IH as [-> IH].
  split; [done|]. by apply Forall_app_2.
Qed.

(** * From the kernel
    The methods themselves keep their promise: while the client says it has a
    context, the accelerator has it, for the client's task. *)
Section kernel_sessions.
Context {T : Type} `{Transport T}.
Abbreviation S := (glworld T).
Definition owned_context (c : cgl) (a : accel) : Prop :=
  gl_context_valid c = true ->
  gl_accelerator c = true /\ gl_cgl_context_id c = gl_context_id c /\ has_context_of a (gl_context_id c) (gl_task c).
Definition cgl_inv (n : nat) (w : S) : Prop :=
  running n (aw_acc (gl_world w)) /\ owned_context (gl_client w) (aw_acc (gl_world w)).
(** What one step does to the number of steps the identifiers last. *)
Definition steps {A} (m : M S A) : Prop := forall n w, cgl_inv (Datatypes.S n) w -> cgl_inv n (m w).2.

Lemma steps_quiet {A} (m : M S A) :
  (forall w, aw_acc (gl_world (m w).2) = aw_acc (gl_world w) /\ gl_context_valid (gl_client (m w).2) = gl_context_valid (gl_client w)
    /\ gl_accelerator (gl_client (m w).2) = gl_accelerator (gl_client w) /\ gl_cgl_context_id (gl_client (m w).2) = gl_cgl_context_id (gl_client w)
    /\ gl_context_id (gl_client (m w).2) = gl_context_id (gl_client w) /\ gl_task (gl_client (m w).2) = gl_task (gl_client w)) -> steps m.
Proof.
  intros Hm n w [H1 H2]. destruct (Hm w) as (E1 & E2 & E3 & E4 & E5 & E6). unfold cgl_inv, owned_context in *.
  rewrite E1, E2, E3, E4, E5, E6. split; [by apply running_less|done].
Qed.
Lemma steps_ret {A} (x : A) : steps (ret x).
Proof. by apply steps_quiet. Qed.
Lemma steps_discard {A} (m : M S A) : steps m -> steps (m ;;; ret tt).
Proof. intros Hm n w Hw. specialize (Hm n w Hw). unfold bind. by destruct (m w). Qed.
Lemma steps_get {A B} (f : cgl -> A) (k : A -> M S B) :
  (forall n w, cgl_inv (Datatypes.S n) w -> cgl_inv n (k (f (gl_client w)) w).2) -> steps (bind (get_cgl f) k).
Proof. intros Hk n w Hw. by apply Hk. Qed.

Lemma steps_create p s : steps (cglCreateContext (T := T) p s).
Proof.
  apply steps_get. intros n w [Hr Ho]. unfold id. destruct (gl_context_valid (gl_client w)) eqn:Ev.
  { apply (steps_ret kIOReturnExclusiveAccess n w). by split. }
  destruct (gl_accelerator (gl_client w)) eqn:Ea; cbn [negb]; [|by apply (steps_ret kIOReturnNoDevice n w)].
  pose proof (acc_create_context n (gl_task (gl_client w)) (gl_world w) Hr) as Hc. unfold on_accel, bind, ret.
  destruct (create3DContext true (gl_task (gl_client w)) (gl_world w)) as [r aw]. destruct Hc as (Hr' & _ & _ & Hc).
  destruct Hc as [[Hf En]|(id & -> & Hid & _)].
  - destruct r as [r o]. cbn in Hf, En |- *. subst o. apply is_success_false in Hf. rewrite Hf. cbn. split; [done|].
    intros Hv. cbn in Hv. congruence.
  - cbn. split; [done|]. intros _. by cbn.
Qed.
(** The destruction of a context the client owns succeeds. *)
Lemma destroy_owned n w : cgl_inv (Datatypes.S n) w -> 
  let '(r, w') := cglDestroyContext w in cgl_inv n w' /\ gl_context_valid (gl_client w') = false
    /\ (gl_context_valid (gl_client w) = true -> r = kIOReturnSuccess).
Proof.
  intros [Hr Ho]. unfold cglDestroyContext, get_cgl, gets, bind, id, ret.
  destruct (gl_context_valid (gl_client w)) eqn:Ev; cbn [negb].
  2: { split; [|done]. apply (steps_ret tt n w). by split. }
  destruct (Ho Ev) as (Ea & Ec & Hh). rewrite Ea. cbn [negb]. unfold on_accel.
  pose proof (acc_destroy_context n (gl_context_id (gl_client w)) (gl_world w) Hr) as Hd.
  destruct (destroy3DContext _ (gl_world w)) as [r aw]. destruct Hd as (Hr' & _ & _ & Hd). rewrite (Hd _ Hh). cbn.
  split; [|done]. split; [done|]. intros Hv. discriminate Hv.
Qed.
Lemma steps_destroy : steps (cglDestroyContext (T := T)).
Proof. intros n w Hw. pose proof (destroy_owned n w Hw) as Hd. destruct (cglDestroyContext w). by destruct Hd. Qed.
Lemma steps_accel (m : M (aworld T) IOReturn) :
  (forall n w, running (Datatypes.S n) (aw_acc w) -> let '(r, w') := m w in
    running n (aw_acc w') /\ a_contexts (aw_acc w') = a_contexts (aw_acc w)) -> steps (on_accel m).
Proof.
  intros Hm n w [Hr Ho]. unfold on_accel. specialize (Hm n (gl_world w) Hr). destruct (m (gl_world w)) as [r aw].
  destruct Hm as [Hr' Ec]. split; [done|]. intros Hv. destruct (Ho Hv) as (E1 & E2 & x & Hx & Hx'). split; [done|]. split; [done|].
  exists x. cbn. by rewrite Ec.
Qed.
Lemma steps_flush e : steps (cglFlushContext (T := T) e).
Proof.
  apply steps_get. intros n w Hw. unfold id. destruct (negb _); [by apply (steps_ret kIOReturnNotOpen n w)|].
  destruct (negb _); [by apply (steps_ret kIOReturnNoDevice n w)|]. destruct (_ =? 0); [by apply (steps_ret kIOReturnSuccess n w)|].
  apply steps_accel; [|done]. intros k aw Hr. pose proof (acc_present k e (gl_context_id (gl_client w)) (gl_current_surface_id (gl_client w)) aw Hr) as Hp.
  destruct (present3DSurface _ _ _ aw). by destruct Hp as (? & _ & ?).
Qed.
Lemma steps_submit d k : steps (cglSubmitCommands (T := T) d k).
Proof.
  apply steps_get. intros n w Hw. unfold id. destruct (negb _); [by apply (steps_ret kIOReturnNotOpen n w)|].
  destruct d as [d|]; [|by apply (steps_ret kIOReturnBadArgument n w)]. destruct (negb _); [by apply (steps_ret kIOReturnBadArgument n w)|].
  apply steps_accel; [|done]. intros j aw Hr. pose proof (acc_submit j (gl_context_id (gl_client w)) (Some d) aw Hr) as Hp.
  destruct (submit3DCommands _ _ aw). by destruct Hp as (? & _ & ?).
Qed.
Lemma steps_shared a k : steps (cglSetupSharedMemory (T := T) a k).
Proof.
  apply steps_quiet. intros w.
  unfold cglSetupSharedMemory, drop_shared, valid, get_cgl, gets, bind, ret, on_accel, upd_cgl, modify, kernel, prepare, release, upd_mem, new_descriptor, modify.
  destruct w as [[ac tk ci cc va su sh] [acc [g m tr] vr]]. cbn. destruct va; cbn; [|done].
  destruct sh as [d0|]; cbn; destruct (m_allocs m) as [|[d|] l]; cbn; try done; destruct (is_success (md_prepare d)) eqn:E; cbn; rewrite ?E; cbn; by split_and!.
Qed.
Lemma steps_stop : steps (stop (T := T)).
Proof.
  apply steps_get. intros n w Hw. destruct (gl_context_valid _); [by apply steps_discard; [apply steps_destroy|]|by apply (steps_ret tt n w)].
Qed.
Ltac quiet := apply steps_quiet; intros w; unfold cglSetSurface, cglSetParameter, cglGetParameter, cglSetVirtualScreen, cglGetVirtualScreen,
  cglUpdateContext, cglClearDrawable, cglLockContext, cglUnlockContext, if_valid, valid, get_cgl, gets, bind, id, ret;
  cbn; repeat (case_match; cbn); split_and!; done.
Lemma steps_direct o : steps (do_direct (T := T) o).
Proof.
  destruct o; cbn [do_direct]; try apply steps_discard;
    first [apply steps_create | apply steps_destroy | apply steps_flush | apply steps_submit | apply steps_shared | apply steps_stop | quiet].
Qed.
Lemma run_direct_inv os : forall n (w : S), cgl_inv (length os + n) w -> cgl_inv n (run_direct os w).2.
Proof.
  induction os as [|o os IH]; intros n w Hw; [done|]. cbn [run_direct]. unfold bind.
  pose proof (steps_direct o (length os + n)%nat w Hw) as Ho. destruct (do_direct o w) as [u w1]. by apply IH.
Qed.
End kernel_sessions.

(** The methods keep the context they say they have. After any sequence of
    them on a running accelerator, in any order and on any host, a client that
    says it has a context has one the accelerator made for its task, under the
    id it hands out; and when the client then stops, its context is destroyed,
    whatever came before. *)
Theorem cgl_context_owned T `{Transport T} os n (w : glworld T) :
  running (length os + Datatypes.S n) (aw_acc (gl_world w)) -> gl_context_valid (gl_client w) = false ->
  let w1 := (run_direct os w).2 in
  owned_context (gl_client w1) (aw_acc (gl_world w1))
  /\ gl_context_valid (gl_client (stop w1).2) = false /\ running n (aw_acc (gl_world (stop w1).2)).
Proof.
  intros Hr Hv w1. assert (Hi : cgl_inv (length os + Datatypes.S n) w) by (split; [done|intros E; congruence]).
  pose proof (run_direct_inv os (Datatypes.S n) w Hi) as H1. fold w1 in H1. split; [apply H1|].
  split; [|apply (steps_stop n w1 H1)].
  unfold stop, valid, get_cgl, gets, bind, ret. destruct (gl_context_valid (gl_client w1)) eqn:Ev; [|done].
  pose proof (destroy_owned n w1 H1) as Hd. destruct (cglDestroyContext w1). by destruct Hd as (_ & E & _).
Qed.

(** Shared memory once prepared stays wired: [cglSetupSharedMemory] prepares
    the descriptor, and nothing completes it; [free] only drops the reference. *)
Theorem shared_memory_stays_wired T `{Transport T} address size d l (w : glworld T) :
  gl_context_valid (gl_client w) = true -> gl_shared_memory_desc (gl_client w) = None ->
  m_allocs (w_mem (aw_world (gl_world w))) = Some d :: l -> md_prepare d = kIOReturnSuccess ->
  let mem (w : glworld T) := w_mem (aw_world (gl_world w)) in
  let '(r, w1) := cglSetupSharedMemory address size w in
  let w2 := (free w1).2 in
  r = kIOReturnSuccess
  /\ count (md_id d) (m_refs (mem w2)) = count (md_id d) (m_refs (mem w))
  /\ count (md_id d) (m_prep (mem w2)) = count (md_id d) (m_prep (mem w)) + 1.
Proof.
  destruct w as [[ac tk ci cc va su sh] [acc [g [al ml hp pr rf mp] tr] vr]]. cbn. intros -> -> -> Hp.
  unfold cglSetupSharedMemory, free, drop_shared, valid, get_cgl, gets, bind, ret, on_accel, upd_cgl, modify, kernel, prepare, release,
    upd_mem, new_descriptor, modify. cbn -[count bump]. rewrite Hp.
  change (is_success kIOReturnSuccess) with true. unfold bind, ret, modify. cbn -[count bump].
  change (is_success kIOReturnSuccess) with true. cbn -[count bump]. rewrite !count_bump_eq. split_and!; [done|lia..].
Qed.

(** * Witnesses *)
Definition demo_mapping (d : mdesc) : bool * bool := (true, true).
Definition demo_cgl : glworld host_machine := mk_glworld (start true (initWithTask 7)).2 served.
Definition demo_calls : list cgl_op :=
  [LCall demo_screen 0 (mk_call [0; 0] [] None 1 0); LCall demo_screen 0 (mk_call [0; 0] [1] None 0 0);
   LCall demo_screen 4 (mk_call [16] (replicate 16 0) None 0 0); LCall demo_screen 3 (mk_call [] [] None 0 0); LClose].
Lemma demo_checks_sizes : checks_sizes demo_admits.
Proof.
  intros d a Hd. unfold demo_admits in Hd. repeat (apply andb_true_iff in Hd as [Hd ?]).
  split; right; by apply Z.eqb_eq.
Qed.
Lemma cgl_never_opens_witness :
  (run_cgl demo_admits kIOReturnBadArgument demo_mapping demo_calls demo_cgl).2 = demo_cgl
  /\ length (run_cgl demo_admits kIOReturnBadArgument demo_mapping demo_calls demo_cgl).1 = 4%nat.
Proof.
  split; [|vm_compute; reflexivity].
  pose proof (cgl_never_opens host_machine demo_admits kIOReturnBadArgument demo_mapping demo_calls demo_cgl
    demo_checks_sizes ltac:(done) eq_refl ltac:(repeat (apply Forall_cons; split; [done || (intros ?; done)|]); by constructor)) as Hn.
  destruct (run_cgl _ _ _ demo_calls demo_cgl) as [rs w']. exact (proj1 Hn).
Defined.
Definition demo_direct : list cgl_direct :=
  [LFlush demo_screen; LCreate 0 0; LCreate 0 0; LSetSurface 5 640 480; LFlush demo_screen; LGetParameter 309; LDestroy; LCreate 0 0].
Lemma cgl_context_owned_witness :
  let w1 := (run_direct demo_direct demo_cgl).2 in
  gl_context_valid (gl_client w1) = true /\ gl_context_id (gl_client w1) = 3
  /\ gl_context_valid (gl_client (stop w1).2) = false.
Proof.
  split; [vm_compute; reflexivity|]. split; [vm_compute; reflexivity|].
  exact (proj1 (proj2 (cgl_context_owned host_machine demo_direct 0 demo_cgl (served_running 9 ltac:(reflexivity)) eq_refl))).
Defined.
