(* ===== verification/GLTranslator.v ===== *)
(** The OpenGL translator of [FB/VMOpenGLTranslator.cpp]: immediate-mode calls
    turned into virgl command streams ([FB/virgl_protocol.h]) that
    [executeCommands] of the device submits.

    A [float] and a [double] are their bit patterns, which is all that copying
    and packing them needs; the viewport and the narrowing of the clear depth
    compute with the standard library's IEEE arithmetic. The members of
    [VMGLState] that no method reads or writes are left out, and the others are
    grouped. Writing to a null or past the end of the vertex buffer sets
    [gt_fault]. *)
From Stdlib Require Import SpecFloat.
From S2P Require Import Prelude Wire Transport Driver Resources Tracking Display Accounts Probes.

(** * IEEE formats
    A format has [mw] bits of mantissa and [ew] of exponent. *)
Definition emin_of (mw ew : Z) : Z := 3 - 2 ^ (ew - 1) - (mw + 1).
Definition float_of_bits (mw ew : Z) (b : Z) : spec_float :=
  let s := Z.testbit b (mw + ew) in
  let e := Z.shiftr b mw mod 2 ^ ew in
  let m := b mod 2 ^ mw in
  if e =? 2 ^ ew - 1 then if m =? 0 then S754_infinity s else S754_nan
  else if e =? 0 then if m =? 0 then S754_zero s else S754_finite s (Z.to_pos m) (emin_of mw ew)
  else S754_finite s (Z.to_pos (m + 2 ^ mw)) (emin_of mw ew + e - 1).
Definition bits_of_float (mw ew : Z) (f : spec_float) : Z :=
  let sign (s : bool) := if s then 2 ^ (mw + ew) else 0 in
  match f with
  | S754_zero s => sign s
  | S754_infinity s => sign s + (2 ^ ew - 1) * 2 ^ mw
  | S754_nan => sign true + (2 ^ ew - 1) * 2 ^ mw + 2 ^ (mw - 1)
  | S754_finite s m e =>
      sign s + (if Z.pos m <? 2 ^ mw then Z.pos m else (e - emin_of mw ew + 1) * 2 ^ mw + (Z.pos m - 2 ^ mw))
  end.
Definition single (b : Z) : spec_float := float_of_bits 23 8 b.
Definition single_bits (f : spec_float) : Z := bits_of_float 23 8 f.
(** [int] to [float]: to nearest, ties to even. *)
Definition single_of_int (n : Z) : spec_float := binary_normalize 24 128 n 0 false.
Definition normalize (prec emax : Z) (f : spec_float) : spec_float :=
  match f with
  | S754_finite s m e => binary_normalize prec emax (cond_Zopp s (Z.pos m)) e s
  | _ => f
  end.
(** [double] to [float] and back; a NaN keeps its sign and the top of its
    payload and becomes quiet. *)
Definition is_nan (mw ew b : Z) : bool :=
  (Z.shiftr b mw mod 2 ^ ew =? 2 ^ ew - 1) && negb (b mod 2 ^ mw =? 0).
Definition single_of_double (d : Z) : Z :=
  if is_nan 52 11 d
  then Z.lor (Z.lor (Z.shiftl (Z.shiftr d 63) 31) 0x7FC00000) (Z.shiftr (d mod 2 ^ 52) 29)
  else single_bits (normalize 24 128 (float_of_bits 52 11 d)).
Definition double_of_single (b : Z) : Z :=
  if is_nan 23 8 b
  then Z.lor (Z.lor (Z.shiftl (Z.shiftr b 31) 63) 0x7FF8000000000000) (Z.shiftl (b mod 2 ^ 23) 29)
  else bits_of_float 52 11 (normalize 53 1024 (float_of_bits 23 8 b)).
Definition f_0 : Z := 0.
Definition f_1 : Z := 0x3F800000.

(** * The virgl protocol *)
Definition VIRGL_CCMD_BIND_OBJECT : Z := 2.
Definition VIRGL_CCMD_SET_VIEWPORT_STATE : Z := 4.
Definition VIRGL_CCMD_SET_VERTEX_BUFFERS : Z := 6.
Definition VIRGL_CCMD_DRAW_VBO : Z := 8.
Definition VIRGL_CCMD_RESOURCE_INLINE_WRITE : Z := 9.
Definition VIRGL_OBJECT_VERTEX_ELEMENTS : Z := 5.
Definition VIRGL_TARGET_BUFFER : Z := 0.
Definition VIRGL_BIND_VERTEX_BUFFER : Z := Z.shiftl 1 4.
Definition VIRGL_FORMAT_R8G8B8A8_UNORM : Z := 67.
Definition PIPE_FORMAT_R32G32B32A32_FLOAT : Z := 3.
Definition PIPE_CLEAR_DEPTH : Z := Z.shiftl 1 0.
Definition PIPE_CLEAR_STENCIL : Z := Z.shiftl 1 1.
Definition VIRGL_CLEAR_SIZE : Z := 9.
Definition VIRGL_DRAW_VBO_SIZE : Z := 12.
Definition VIRGL_SET_FRAMEBUFFER_STATE_SIZE : Z := 11.
Definition VIRGL_INLINE_WRITE_HDR_SIZE : Z := 12.
Definition VIRGL_VERTEX_BUFFER_SIZE : Z := 3.
Definition VIRGL_CMD_HDR (cmd len : Z) : Z := u32 (Z.lor (Z.shiftl len 16) cmd).
Definition virgl_pack_double (d : Z) : Z * Z := (d mod 2 ^ 32, Z.shiftr d 32 mod 2 ^ 32).

(** How a host reads a stream: a header with the opcode in bits 0-7, the type
    of object in bits 8-15 and the number of payload dwords in bits 16-31,
    then that payload, then the next command. *)
Record virgl_cmd := mk_virgl { vc_opcode : Z; vc_object : Z; vc_payload : list Z }.
Fixpoint parse_stream (fuel : nat) (l : list Z) : option (list virgl_cmd) :=
  match l, fuel with
  | [], _ => Some []
  | _, O => None
  | h :: rest, S fuel =>
      let len := Z.to_nat (Z.shiftr h 16 mod 2 ^ 16) in
      if (len <=? length rest)%nat then
        cs ← parse_stream fuel (drop len rest);
        Some (mk_virgl (h mod 2 ^ 8) (Z.shiftr h 8 mod 2 ^ 8) (take len rest) :: cs)
      else None
  end.
Definition parse (l : list Z) : option (list virgl_cmd) := parse_stream (length l) l.
Fixpoint dwords (l : list Z) : list Z :=
  match l with
  | a :: b :: c :: d :: l' => le_val [a; b; c; d] :: dwords l'
  | _ => []
  end.

(** * The translator *)
Definition MAX_BATCH_VERTICES : Z := 10000.
Definition MAX_TEXTURES : nat := 32.
Definition FLOATS : Z := 12. (* per vertex *)

Record batch := mk_batch {
  primitive_mode : Z;
  vertex_data : option (gmap Z Z); (* what was written of the buffer *)
  vertex_count : Z;
  in_begin_end : bool
}.
Record attributes := mk_attributes {
  current_color : list Z;
  current_texcoord : list Z;
  current_normal : list Z
}.
Record matrices := mk_matrices { modelview_matrix : list Z; projection_matrix : list Z; matrix_mode : Z }.
Record view := mk_view {
  viewport_x : Z; viewport_y : Z; viewport_width : Z; viewport_height : Z;
  depth_near : Z; depth_far : Z
}.
Record target := mk_target { current_fbo : Z; color_buffer_handle : Z; depth_buffer_handle : Z }.
Record caps := mk_caps {
  current_texture_unit : nat;
  texture_enabled : list bool;
  blend_enabled : bool;
  blend_src_factor : Z;
  blend_dst_factor : Z;
  depth_test_enabled : bool;
  depth_write_enabled : bool;
  cull_face_enabled : bool
}.
Record clears := mk_clears { clear_color : list Z; clear_depth : Z; clear_stencil : Z }.
(** [VMGLState] *)
Record gl_state := mk_gl {
  gs_batch : batch;
  gs_attributes : attributes;
  gs_matrices : matrices;
  gs_view : view;
  gs_target : target;
  gs_caps : caps;
  gs_clears : clears
}.
Definition set_gs_batch v (s : gl_state) : gl_state :=
  mk_gl v (gs_attributes s) (gs_matrices s) (gs_view s) (gs_target s) (gs_caps s) (gs_clears s).
Definition set_gs_attributes v (s : gl_state) : gl_state :=
  mk_gl (gs_batch s) v (gs_matrices s) (gs_view s) (gs_target s) (gs_caps s) (gs_clears s).
Definition set_gs_matrices v (s : gl_state) : gl_state :=
  mk_gl (gs_batch s) (gs_attributes s) v (gs_view s) (gs_target s) (gs_caps s) (gs_clears s).
Definition set_gs_view v (s : gl_state) : gl_state :=
  mk_gl (gs_batch s) (gs_attributes s) (gs_matrices s) v (gs_target s) (gs_caps s) (gs_clears s).
Definition set_gs_target v (s : gl_state) : gl_state :=
  mk_gl (gs_batch s) (gs_attributes s) (gs_matrices s) (gs_view s) v (gs_caps s) (gs_clears s).
Definition set_gs_caps v (s : gl_state) : gl_state :=
  mk_gl (gs_batch s) (gs_attributes s) (gs_matrices s) (gs_view s) (gs_target s) v (gs_clears s).
Definition set_gs_clears v (s : gl_state) : gl_state :=
  mk_gl (gs_batch s) (gs_attributes s) (gs_matrices s) (gs_view s) (gs_target s) (gs_caps s) v.
(** [bzero] *)
Definition zero_state : gl_state :=
  mk_gl (mk_batch 0 None 0 false)
    (mk_attributes (replicate 4 f_0) (replicate 4 f_0) (replicate 3 f_0))
    (mk_matrices (replicate 16 f_0) (replicate 16 f_0) 0) (mk_view 0 0 0 0 f_0 f_0) (mk_target 0 0 0)
    (mk_caps 0 (replicate MAX_TEXTURES false) false 0 0 false false false)
    (mk_clears (replicate 4 f_0) f_0 0).

(** [m_accelerator] is null, or an accelerator with or without a device. *)
Record translator := mk_translator {
  gt_accelerator : option bool;
  gt_context_id : Z;
  gt_state : gl_state;
  gt_next_handle : Z;
  gt_command_buffer : bool;
  gt_shaders_created : bool;
  gt_fault : bool
}.
Definition set_gt_accelerator v c (t : translator) : translator :=
  mk_translator v c (gt_state t) (gt_next_handle t) (gt_command_buffer t) (gt_shaders_created t) (gt_fault t).
Definition set_gt_state v (t : translator) : translator :=
  mk_translator (gt_accelerator t) (gt_context_id t) v (gt_next_handle t) (gt_command_buffer t) (gt_shaders_created t) (gt_fault t).
Definition set_gt_next_handle v (t : translator) : translator :=
  mk_translator (gt_accelerator t) (gt_context_id t) (gt_state t) v (gt_command_buffer t) (gt_shaders_created t) (gt_fault t).
Definition set_gt_command_buffer v (t : translator) : translator :=
  mk_translator (gt_accelerator t) (gt_context_id t) (gt_state t) (gt_next_handle t) v (gt_shaders_created t) (gt_fault t).
Definition set_gt_shaders_created v (t : translator) : translator :=
  mk_translator (gt_accelerator t) (gt_context_id t) (gt_state t) (gt_next_handle t) (gt_command_buffer t) v (gt_fault t).
Definition set_gt_fault v (t : translator) : translator :=
  mk_translator (gt_accelerator t) (gt_context_id t) (gt_state t) (gt_next_handle t) (gt_command_buffer t) (gt_shaders_created t) v.
Definition upd_state (f : gl_state -> gl_state) (t : translator) : translator := set_gt_state (f (gt_state t)) t.

Record gworld (T : Type) := mk_gworld { gw_gl : translator; gw_world : world T }.
Arguments mk_gworld {T}.
Arguments gw_gl {T}.
Arguments gw_world {T}.

(** The calls; [GStub] is any of the 28 methods that return success and do
    nothing else. *)
Inductive gl_op :=
| GClear (mask : Z) | GClearColor (r g b a : Z) | GClearDepth (depth : Z)
| GViewport (x y width height : Z)
| GBegin (mode : Z) | GEnd
| GVertex2f (x y : Z) | GVertex3f (x y z : Z) | GVertex4f (x y z w : Z)
| GColor3f (r g b : Z) | GColor4f (r g b a : Z)
| GTexCoord2f (s t : Z) | GTexCoord3f (s t r : Z) | GNormal3f (x y z : Z)
| GLoadIdentity | GMatrixMode (mode : Z) | GEnable (cap : Z) | GDisable (cap : Z)
| GFlush | GFinish | GStub.

(** * Streams *)
Definition glPrimitiveToVirgl (gl_mode : Z) : Z :=
  if (0 <=? gl_mode) && (gl_mode <=? 9) then gl_mode else 4. (* PIPE_PRIM_TRIANGLES *)

Definition clear_buffers (mask : Z) : Z :=
  let bit (m v : Z) := if negb (Z.land mask m =? 0) then v else 0 in
  Z.lor (Z.lor (bit 0x00004000 PIPE_CLEAR_COLOR0) (bit 0x00000100 PIPE_CLEAR_DEPTH)) (bit 0x00000400 PIPE_CLEAR_STENCIL).
Definition clear_stream (c : clears) (mask : Z) : list Z :=
  let '(lo, hi) := virgl_pack_double (double_of_single (clear_depth c)) in
  [VIRGL_CMD_HDR VIRGL_CCMD_CLEAR (VIRGL_CLEAR_SIZE - 1); clear_buffers mask]
  ++ clear_color c ++ [lo; hi; clear_stencil c].

Definition viewport_stream (v : view) : list Z :=
  let two := S754_finite false 8388608 (-22) in
  let half f := SFdiv 24 128 f two in
  let near := single (depth_near v) in let far := single (depth_far v) in
  let scale_x := half (single_of_int (viewport_width v)) in
  let scale_y := half (single_of_int (viewport_height v)) in
  let scale_z := half (SFsub 24 128 far near) in
  let trans_x := SFadd 24 128 (single_of_int (viewport_x v)) scale_x in
  let trans_y := SFadd 24 128 (single_of_int (viewport_y v)) scale_y in
  let trans_z := half (SFadd 24 128 far near) in
  [VIRGL_CMD_HDR VIRGL_CCMD_SET_VIEWPORT_STATE 7; 0; single_bits scale_x; single_bits scale_y;
   single_bits scale_z; single_bits trans_x; single_bits trans_y; single_bits trans_z].

Definition framebuffer_stream (color_handle depth_handle : Z) : list Z :=
  [VIRGL_CMD_HDR VIRGL_CCMD_SET_FRAMEBUFFER_STATE (VIRGL_SET_FRAMEBUFFER_STATE_SIZE - 1);
   1; depth_handle; color_handle; 0; 0; 0; 0; 0; 0; 0].
Definition inline_write_stream (handle size offset : Z) (data : list Z) : list Z :=
  let data_dwords := u32 (size + 3) / 4 in
  let total_size := u32 (VIRGL_INLINE_WRITE_HDR_SIZE + data_dwords) in
  [VIRGL_CMD_HDR VIRGL_CCMD_RESOURCE_INLINE_WRITE (u32 (total_size - 1));
   handle; 0; 0; 0; 0; offset; 0; 0; size; 1; 1] ++ data.
Definition vertex_elements_stream (handle : Z) : list Z :=
  let element (src_offset : Z) := [src_offset; 0; 0; PIPE_FORMAT_R32G32B32A32_FLOAT] in
  [VIRGL_CMD_HDR VIRGL_CCMD_CREATE_OBJECT 14; handle; VIRGL_OBJECT_VERTEX_ELEMENTS]
  ++ element 0 ++ element 16 ++ element 32.
Definition bind_stream (handle : Z) : list Z :=
  [VIRGL_CMD_HDR VIRGL_CCMD_BIND_OBJECT 2; handle; VIRGL_OBJECT_VERTEX_ELEMENTS].
Definition vertex_buffers_stream (handle : Z) : list Z :=
  [VIRGL_CMD_HDR VIRGL_CCMD_SET_VERTEX_BUFFERS 4; FLOATS * 4; 0; handle; 0].
Definition draw_stream (mode count : Z) : list Z :=
  [VIRGL_CMD_HDR VIRGL_CCMD_DRAW_VBO (VIRGL_DRAW_VBO_SIZE - 1); 0; count; glPrimitiveToVirgl mode;
   0; 1; 0; 0; 0; 0; 0; u32 (count - 1)].

Section translator.
Context {T : Type} `{Transport T}.
(** Whether a fresh descriptor maps, and the mapping has an address. *)
Context (mapped : mdesc -> bool * bool).
Abbreviation S := (gworld T).

Definition on_world {A} (m : M (world T) A) : M S A :=
  fun w => let '(a, d) := m (gw_world w) in (a, mk_gworld (gw_gl w) d).
Definition get_gl {A} (f : translator -> A) : M S A := gets (fun w => f (gw_gl w)).
Definition upd_gl (f : translator -> translator) : M S unit :=
  modify (fun w => mk_gworld (f (gw_gl w)) (gw_world w)).

(** ** Helper functions
    What they do to the device depends on the accelerator and the context. *)
Definition submit_at (acc : option bool) (context_id : Z) (cmd : list Z) : M (world T) IOReturn :=
  match acc with
  | Some true =>
      let! cmdDesc := new_descriptor (4 * Z.of_nat (length cmd)) in
      match cmdDesc with
      | None => ret kIOReturnNoMemory
      | Some d =>
          let! r := executeCommands context_id (Some (mk_cmd_desc (mapped d).1 (mapped d).2 (dword_bytes cmd))) in
          release (md_id d) ;;;
          ret r
      end
  | _ => ret kIOReturnNotReady
  end.
Definition createVirglBuffer (acc : option bool) (size bind_flags handle : Z) : M (world T) IOReturn :=
  match acc with
  | Some true => createResource3D handle VIRGL_TARGET_BUFFER VIRGL_FORMAT_R8G8B8A8_UNORM bind_flags size 1 1
  | _ => ret kIOReturnNotReady
  end.
Definition uploadBufferData (acc : option bool) (context_id handle : Z) (data : option (list Z)) (size offset : Z)
  : M (world T) IOReturn :=
  match acc, data with
  | Some _, Some data =>
      let total_size := u32 (VIRGL_INLINE_WRITE_HDR_SIZE + u32 (size + 3) / 4) in
      let! cmd := IOMalloc (4 * total_size) in
      match cmd with
      | None => ret kIOReturnNoMemory
      | Some _ =>
          let! r := submit_at acc context_id (inline_write_stream handle size offset data) in
          IOFree (4 * total_size) ;;;
          ret r
      end
  | _, _ => ret kIOReturnBadArgument
  end.

Definition submitVirglCommand (cmd : list Z) : M S IOReturn :=
  let! t := get_gl id in on_world (submit_at (gt_accelerator t) (gt_context_id t) cmd).
Definition allocateHandle : M S Z :=
  let! h := get_gl gt_next_handle in
  upd_gl (set_gt_next_handle (u32 (h + 1))) ;;;
  ret h.
(** The status and the handle, which the caller's variable takes. *)
Definition createVertexElements : M S (IOReturn * Z) :=
  let! handle := allocateHandle in
  let! r := submitVirglCommand (vertex_elements_stream handle) in
  ret (r, handle).

(** What [memcpy] reads of the vertex buffer: the first [n] floats. *)
Definition read_floats (data : gmap Z Z) (n : nat) : list Z :=
  (fun i => default 0 (data !! Z.of_nat i)) <$> seq 0 n.

Definition flushVertexBatch : M S IOReturn :=
  let! t := get_gl id in
  let b := gs_batch (gt_state t) in
  let count := vertex_count b in
  if count =? 0 then ret kIOReturnSuccess
  else match gt_accelerator t with
  | None => ret kIOReturnNotReady
  | Some _ =>
      let! vbo_handle := allocateHandle in
      let data_size := u32 (count * FLOATS * 4) in
      let! r := on_world (createVirglBuffer (gt_accelerator t) data_size VIRGL_BIND_VERTEX_BUFFER vbo_handle) in
      if negb (is_success r) then ret r
      else
        let data := (fun d => read_floats d (Z.to_nat (count * FLOATS))) <$> vertex_data b in
        let! r := on_world (uploadBufferData (gt_accelerator t) (gt_context_id t) vbo_handle data data_size 0) in
        if negb (is_success r) then ret r
        else
          allocateHandle ;;;
          let! (r, ve_handle) := createVertexElements in
          if negb (is_success r) then ret r
          else
            submitVirglCommand (bind_stream ve_handle) ;;;
            submitVirglCommand (vertex_buffers_stream vbo_handle) ;;;
            submitVirglCommand (draw_stream (primitive_mode b) count)
  end.

(** ** The calls *)
Definition upd_gs (f : gl_state -> gl_state) : M S unit := upd_gl (upd_state f).
Definition upd_batch (f : batch -> batch) : M S unit := upd_gs (fun s => set_gs_batch (f (gs_batch s)) s).
Definition upd_attributes (f : attributes -> attributes) : M S IOReturn :=
  upd_gs (fun s => set_gs_attributes (f (gs_attributes s)) s) ;;; ret kIOReturnSuccess.
Definition get_batch {A} (f : batch -> A) : M S A := get_gl (fun t => f (gs_batch (gt_state t))).

Definition glClear (mask : Z) : M S IOReturn :=
  let! t := get_gl id in
  match gt_accelerator t with
  | None => ret kIOReturnNotReady
  | Some _ => submitVirglCommand (clear_stream (gs_clears (gt_state t)) mask)
  end.
Definition glClearColor (r g b a : Z) : M S IOReturn :=
  upd_gs (fun s => set_gs_clears (mk_clears [r; g; b; a] (clear_depth (gs_clears s)) (clear_stencil (gs_clears s))) s) ;;;
  ret kIOReturnSuccess.
Definition glClearDepth (depth : Z) : M S IOReturn :=
  upd_gs (fun s => set_gs_clears (mk_clears (clear_color (gs_clears s)) (single_of_double depth) (clear_stencil (gs_clears s))) s) ;;;
  ret kIOReturnSuccess.

Definition updateViewport : M S IOReturn :=
  let! t := get_gl id in
  match gt_accelerator t with
  | None => ret kIOReturnNotReady
  | Some _ => submitVirglCommand (viewport_stream (gs_view (gt_state t)))
  end.
Definition glViewport (x y width height : Z) : M S IOReturn :=
  upd_gs (fun s => set_gs_view (mk_view x y width height (depth_near (gs_view s)) (depth_far (gs_view s))) s) ;;;
  updateViewport.

Definition glBegin (mode : Z) : M S IOReturn :=
  let! inside := get_batch in_begin_end in
  if inside then ret kIOReturnError
  else upd_batch (fun b => mk_batch mode (vertex_data b) 0 true) ;;; ret kIOReturnSuccess.
Definition glEnd : M S IOReturn :=
  let! inside := get_batch in_begin_end in
  if negb inside then ret kIOReturnError
  else
    upd_batch (fun b => mk_batch (primitive_mode b) (vertex_data b) (vertex_count b) false) ;;;
    flushVertexBatch.

(** The twelve floats of a vertex, stored from [offset]. *)
Fixpoint store_floats (offset : Z) (fs : list Z) (data : gmap Z Z) : gmap Z Z :=
  match fs with
  | [] => data
  | f :: fs' => store_floats (offset + 1) fs' (<[offset := f]> data)
  end.
Definition vertex_floats (x y z w : Z) (a : attributes) : list Z :=
  [x; y; z; w] ++ current_color a ++ current_texcoord a.
Definition glVertex4f (x y z w : Z) : M S IOReturn :=
  let! inside := get_batch in_begin_end in
  if negb inside then ret kIOReturnError
  else
    let! count := get_batch vertex_count in
    (if MAX_BATCH_VERTICES <=? count then
       flushVertexBatch ;;;
       upd_batch (fun b => mk_batch (primitive_mode b) (vertex_data b) 0 (in_begin_end b))
     else ret tt) ;;;
    let! b := get_batch id in
    let offset := u32 (vertex_count b * FLOATS) in
    let! a := get_gl (fun t => gs_attributes (gt_state t)) in
    (match vertex_data b with
     | Some data =>
         if offset + FLOATS <=? MAX_BATCH_VERTICES * FLOATS then
           upd_batch (fun b => mk_batch (primitive_mode b)
             (Some (store_floats offset (vertex_floats x y z w a) data)) (vertex_count b) (in_begin_end b))
         else upd_gl (set_gt_fault true)
     | None => upd_gl (set_gt_fault true)
     end) ;;;
    upd_batch (fun b => mk_batch (primitive_mode b) (vertex_data b) (u32 (vertex_count b + 1)) (in_begin_end b)) ;;;
    ret kIOReturnSuccess.
Definition glVertex3f (x y z : Z) : M S IOReturn := glVertex4f x y z f_1.
Definition glVertex2f (x y : Z) : M S IOReturn := glVertex4f x y f_0 f_1.

Definition glColor4f (r g b a : Z) : M S IOReturn :=
  upd_attributes (fun s => mk_attributes [r; g; b; a] (current_texcoord s) (current_normal s)).
Definition glColor3f (r g b : Z) : M S IOReturn := glColor4f r g b f_1.
Definition glTexCoord3f (s t r : Z) : M S IOReturn :=
  upd_attributes (fun a => mk_attributes (current_color a) [s; t; r; f_1] (current_normal a)).
Definition glTexCoord2f (s t : Z) : M S IOReturn := glTexCoord3f s t f_0.
Definition glNormal3f (x y z : Z) : M S IOReturn :=
  upd_attributes (fun a => mk_attributes (current_color a) (current_texcoord a) [x; y; z]).

Definition GL_MODELVIEW : Z := 0x1700.
Definition identity_matrix : list Z :=
  [f_1; f_0; f_0; f_0; f_0; f_1; f_0; f_0; f_0; f_0; f_1; f_0; f_0; f_0; f_0; f_1].
Definition load_identity (m : matrices) : matrices :=
  if matrix_mode m =? GL_MODELVIEW then mk_matrices identity_matrix (projection_matrix m) (matrix_mode m)
  else mk_matrices (modelview_matrix m) identity_matrix (matrix_mode m).
Definition glLoadIdentity : M S IOReturn :=
  upd_gs (fun s => set_gs_matrices (load_identity (gs_matrices s)) s) ;;; ret kIOReturnSuccess.
Definition glMatrixMode (mode : Z) : M S IOReturn :=
  upd_gs (fun s => set_gs_matrices (mk_matrices (modelview_matrix (gs_matrices s)) (projection_matrix (gs_matrices s)) mode) s) ;;;
  ret kIOReturnSuccess.

(** [glEnable] and [glDisable] differ in the value they store. *)
Definition set_cap (cap : Z) (v : bool) (c : caps) : caps :=
  let put texture blend depth cull :=
    mk_caps (current_texture_unit c) texture blend (blend_src_factor c) (blend_dst_factor c) depth (depth_write_enabled c) cull in
  if cap =? 0x0BE2 then put (texture_enabled c) v (depth_test_enabled c) (cull_face_enabled c)
  else if cap =? 0x0B71 then put (texture_enabled c) (blend_enabled c) v (cull_face_enabled c)
  else if cap =? 0x0B44 then put (texture_enabled c) (blend_enabled c) (depth_test_enabled c) v
  else if cap =? 0x0DE1 then
    put (<[current_texture_unit c := v]> (texture_enabled c)) (blend_enabled c) (depth_test_enabled c) (cull_face_enabled c)
  else c.
Definition glEnable (cap : Z) : M S IOReturn :=
  upd_gs (fun s => set_gs_caps (set_cap cap true (gs_caps s)) s) ;;; ret kIOReturnSuccess.
Definition glDisable (cap : Z) : M S IOReturn :=
  upd_gs (fun s => set_gs_caps (set_cap cap false (gs_caps s)) s) ;;; ret kIOReturnSuccess.
Definition glFlush : M S IOReturn := ret kIOReturnSuccess.
Definition glFinish : M S IOReturn := ret kIOReturnSuccess.

Definition do_gl (o : gl_op) : M S IOReturn :=
  match o with
  | GClear mask => glClear mask
  | GClearColor r g b a => glClearColor r g b a
  | GClearDepth d => glClearDepth d
  | GViewport x y width height => glViewport x y width height
  | GBegin mode => glBegin mode
  | GEnd => glEnd
  | GVertex2f x y => glVertex2f x y
  | GVertex3f x y z => glVertex3f x y z
  | GVertex4f x y z w => glVertex4f x y z w
  | GColor3f r g b => glColor3f r g b
  | GColor4f r g b a => glColor4f r g b a
  | GTexCoord2f s t => glTexCoord2f s t
  | GTexCoord3f s t r => glTexCoord3f s t r
  | GNormal3f x y z => glNormal3f x y z
  | GLoadIdentity => glLoadIdentity
  | GMatrixMode mode => glMatrixMode mode
  | GEnable cap => glEnable cap
  | GDisable cap => glDisable cap
  | GFlush => glFlush
  | GFinish => glFinish
  | GStub => ret kIOReturnSuccess
  end.
Fixpoint run_gl (os : list gl_op) : M S IOReturn :=
  match os with
  | [] => ret kIOReturnSuccess
  | o :: os' => do_gl o ;;; run_gl os'
  end.

(** ** Life *)
Definition COMMAND_BUFFER_BYTES : Z := 16384 * 4.
Definition VERTEX_BUFFER_BYTES : Z := MAX_BATCH_VERTICES * FLOATS * 4.
Definition initial_state : gl_state :=
  mk_gl (mk_batch 0 None 0 false)
    (mk_attributes [f_1; f_1; f_1; f_1] (replicate 4 f_0) (replicate 3 f_0))
    (mk_matrices (replicate 16 f_0) (replicate 16 f_0) 0) (mk_view 0 0 0 0 f_0 f_1) (mk_target 0 0 0)
    (mk_caps 0 (replicate MAX_TEXTURES false) false 1 17 false true false)
    (mk_clears [f_0; f_0; f_0; f_1] f_1 0).
(** On an object the runtime has zeroed. *)
Definition init : M S bool :=
  upd_gl (fun _ => mk_translator None 0 zero_state 100 false false false) ;;;
  let! block := on_world (IOMalloc COMMAND_BUFFER_BYTES) in
  match block with
  | None => ret false
  | Some _ =>
      upd_gl (set_gt_command_buffer true) ;;;
      upd_gl (set_gt_state initial_state) ;;;
      let! block := on_world (IOMalloc VERTEX_BUFFER_BYTES) in
      match block with
      | None => on_world (IOFree COMMAND_BUFFER_BYTES) ;;; ret false
      | Some _ =>
          upd_batch (fun b => mk_batch (primitive_mode b) (Some ∅) (vertex_count b) (in_begin_end b)) ;;;
          glLoadIdentity ;;;
          ret true
      end
  end.
Definition free : M S unit :=
  let! t := get_gl id in
  (if gt_command_buffer t then
     on_world (IOFree COMMAND_BUFFER_BYTES) ;;; upd_gl (set_gt_command_buffer false) else ret tt) ;;;
  match vertex_data (gs_batch (gt_state t)) with
  | Some _ =>
      on_world (IOFree VERTEX_BUFFER_BYTES) ;;;
      upd_batch (fun b => mk_batch (primitive_mode b) None (vertex_count b) (in_begin_end b))
  | None => ret tt
  end.
(** The shader handles it would set are 0 before and after. *)
Definition createDefaultShaders : M S IOReturn :=
  let! t := get_gl id in
  if gt_shaders_created t then ret kIOReturnSuccess
  else match gt_accelerator t with
  | Some true => upd_gl (set_gt_shaders_created true) ;;; ret kIOReturnSuccess
  | _ => ret kIOReturnNotReady
  end.
Definition setupRenderTarget : M S IOReturn :=
  let! t := get_gl id in
  match gt_accelerator t with
  | Some true =>
      let color_handle := 2 in
      let depth_handle := 3 in
      let! r := submitVirglCommand (framebuffer_stream color_handle depth_handle) in
      (if is_success r
       then upd_gs (set_gs_target (mk_target 1 color_handle depth_handle))
       else ret tt) ;;;
      ret r
  | _ => ret kIOReturnNotReady
  end.
Definition initWithAccelerator (accelerator : option bool) (context_id : Z) : M S bool :=
  upd_gl (set_gt_accelerator accelerator context_id) ;;;
  createDefaultShaders ;;;
  setupRenderTarget ;;;
  glViewport 0 0 640 480 ;;;
  ret true.
End translator.
