(* ===== verification/GLSpec.v ===== *)
(** What the OpenGL translator of [GLTranslator.v] promises: which vertices a
    [glBegin]/[glEnd] pair draws, how the streams it submits are framed, that it
    stays inside its vertex buffer, and what becomes of its buffers. *)
From Stdlib Require Import SpecFloat.
From S2P Require Import Prelude Wire Transport Driver Resources Tracking Display Accounts Probes GLTranslator.

Create HintDb gl.

(** * The specification of immediate mode *)
(** The calls allowed between [glBegin] and [glEnd]: what each does to the
    attributes, and the vertex it emits. *)
Definition immediate (o : gl_op) : bool :=
  match o with
  | GVertex2f _ _ | GVertex3f _ _ _ | GVertex4f _ _ _ _ | GColor3f _ _ _ | GColor4f _ _ _ _
  | GTexCoord2f _ _ | GTexCoord3f _ _ _ | GNormal3f _ _ _ => true
  | _ => false
  end.
Definition attributes_after (o : gl_op) (a : attributes) : attributes :=
  let color c := mk_attributes c (current_texcoord a) (current_normal a) in
  let texcoord t := mk_attributes (current_color a) t (current_normal a) in
  match o with
  | GColor3f r g b => color [r; g; b; f_1]
  | GColor4f r g b x => color [r; g; b; x]
  | GTexCoord2f s t => texcoord [s; t; f_0; f_1]
  | GTexCoord3f s t r => texcoord [s; t; r; f_1]
  | GNormal3f x y z => mk_attributes (current_color a) (current_texcoord a) [x; y; z]
  | _ => a
  end.
Definition vertex_of (o : gl_op) (a : attributes) : list (list Z) :=
  match o with
  | GVertex2f x y => [vertex_floats x y f_0 f_1 a]
  | GVertex3f x y z => [vertex_floats x y z f_1 a]
  | GVertex4f x y z w => [vertex_floats x y z w a]
  | _ => []
  end.
Fixpoint shade (a : attributes) (os : list gl_op) : list (list Z) :=
  match os with
  | [] => []
  | o :: os' => vertex_of o a ++ shade (attributes_after o a) os'
  end.
Definition final_attributes (a : attributes) (os : list gl_op) : attributes :=
  foldl (fun a o => attributes_after o a) a os.

(** Vertices in batches of [k]; [pending] is the one being filled. *)
Fixpoint batches (k : nat) (pending vs : list (list Z)) : list (list (list Z)) :=
  match vs with
  | [] => [pending]
  | v :: vs' => if (k <=? length pending)%nat then pending :: batches k [v] vs'
                else batches k (pending ++ [v]) vs'
  end.
Lemma concat_batches k vs : forall p, mjoin (batches k p vs) = p ++ vs.
Proof.
  induction vs as [|v vs IH]; intros p; cbn; [done|].
  destruct (k <=? length p)%nat; cbn; rewrite IH; [done|]. by rewrite <- app_assoc.
Qed.
Lemma batches_small k vs : forall p, (0 < k)%nat -> (length p <= k)%nat -> Forall (fun b => (length b <= k)%nat) (batches k p vs).
Proof.
  induction vs as [|v vs IH]; intros p Hk Hp; cbn [batches]; [apply Forall_singleton; exact Hp|].
  destruct (Nat.leb_spec k (length p)).
  - apply Forall_cons. split; [done|]. apply IH; [done|]. cbn. lia.
  - apply IH; [done|]. rewrite length_app. cbn. lia.
Qed.
Lemma batches_nonempty k vs : forall p, batches k p vs <> [].
Proof. induction vs as [|v vs IH]; intros p; cbn [batches]; [done|]. by destruct (k <=? length p)%nat. Qed.
(** Every batch but the last is full. *)
Lemma batches_full k vs : forall p b, (0 < k)%nat -> (length p <= k)%nat -> b ∈ removelast (batches k p vs) -> length b = k.
Proof.
  induction vs as [|v vs IH]; intros p b Hk Hp; cbn [batches]; [by intros ?%elem_of_nil|].
  destruct (Nat.leb_spec k (length p)).
  - change (p :: batches k [v] vs) with ([p] ++ batches k [v] vs). rewrite removelast_app by apply batches_nonempty.
    intros [->%list_elem_of_singleton|Hb]%elem_of_app; [lia|]. by apply (IH [v]); cbn.
  - apply IH; [done|]. rewrite length_app. cbn. lia.
Qed.

Section spec.
Context {T : Type} `{Transport T} (mapped : mdesc -> bool * bool).
Context (acc : option bool) (context_id mode : Z).
Abbreviation W := (world T).

(** One batch drawn: a buffer of the vertices with the handle [nh], its format
    with the handle two further, both bound, and the draw; the status and the
    next handle. *)
Definition draw_batch (vs : list (list Z)) (nh : Z) : M W (IOReturn * Z) :=
  let count := Z.of_nat (length vs) in
  let size := u32 (count * FLOATS * 4) in
  if count =? 0 then ret (kIOReturnSuccess, nh)
  else match acc with
  | None => ret (kIOReturnNotReady, nh)
  | Some _ =>
      let! r := createVirglBuffer acc size VIRGL_BIND_VERTEX_BUFFER nh in
      if negb (is_success r) then ret (r, u32 (nh + 1))
      else
        let! r := uploadBufferData mapped acc context_id nh (Some (mjoin vs)) size 0 in
        if negb (is_success r) then ret (r, u32 (nh + 1))
        else
          let ve := u32 (u32 (nh + 1) + 1) in
          let! r := submit_at mapped acc context_id (vertex_elements_stream ve) in
          if negb (is_success r) then ret (r, u32 (ve + 1))
          else
            submit_at mapped acc context_id (bind_stream ve) ;;;
            submit_at mapped acc context_id (vertex_buffers_stream nh) ;;;
            let! r := submit_at mapped acc context_id (draw_stream mode count) in
            ret (r, u32 (ve + 1))
  end.
(** Batches one after the other, whatever becomes of those before the last. *)
Fixpoint draw_all (bs : list (list (list Z))) (nh : Z) : M W (IOReturn * Z) :=
  match bs with
  | [] => ret (kIOReturnSuccess, nh)
  | [b] => draw_batch b nh
  | b :: bs' => let! r := draw_batch b nh in draw_all bs' r.2
  end.
End spec.

(** * Refinement *)
Definition attributes_ok (a : attributes) : Prop := length (current_color a) = 4%nat /\ length (current_texcoord a) = 4%nat.
(** The buffer holds the vertices [vs]. *)
Definition holds (b : batch) (vs : list (list Z)) : Prop :=
  vertex_count b = Z.of_nat (length vs) /\ Forall (fun v => length v = 12%nat) vs
  /\ exists d, vertex_data b = Some d /\ read_floats d (12 * length vs) = mjoin vs.

Lemma length_join12 (vs : list (list Z)) : Forall (fun v => length v = 12%nat) vs -> length (mjoin vs) = (12 * length vs)%nat.
Proof. induction 1 as [|v vs Hv _ IH]; [done|]. change (mjoin (v :: vs)) with (v ++ mjoin vs). rewrite length_app, IH, Hv. cbn [length]. lia. Qed.
Lemma vertex_length x y z w a : attributes_ok a -> length (vertex_floats x y z w a) = 12%nat.
Proof. intros [H1 H2]. unfold vertex_floats. rewrite !length_app, H1, H2. done. Qed.
Lemma attributes_ok_after o a : attributes_ok a -> attributes_ok (attributes_after o a).
Proof. intros [H1 H2]. destruct o; by split. Qed.

Lemma store_lookup fs : forall off d i,
  store_floats off fs d !! i
  = if (off <=? i) && (i <? off + Z.of_nat (length fs)) then fs !! Z.to_nat (i - off) else d !! i.
Proof.
  induction fs as [|f fs IH]; intros off d i; cbn [store_floats length].
  - destruct (Z.leb_spec off i), (Z.ltb_spec i (off + Z.of_nat 0)); cbn; [lia|done..].
  - rewrite IH. destruct (decide (i = off)) as [->|Hne].
    + rewrite lookup_insert_eq, Z.leb_refl, Z.sub_diag.
      destruct (Z.leb_spec (off + 1) off), (Z.ltb_spec off (off + Z.of_nat (S (length fs)))); cbn; [lia..|done|lia].
    + rewrite lookup_insert_ne by done.
      destruct (Z.leb_spec (off + 1) i), (Z.leb_spec off i), (Z.ltb_spec i (off + 1 + Z.of_nat (length fs))),
        (Z.ltb_spec i (off + Z.of_nat (S (length fs)))); cbn; try lia; [|done..].
      replace (Z.to_nat (i - off)) with (S (Z.to_nat (i - (off + 1)))) by lia. done.
Qed.
Lemma read_store d n fs :
  read_floats (store_floats (Z.of_nat n) fs d) (n + length fs) = read_floats d n ++ fs.
Proof.
  unfold read_floats. rewrite seq_app, fmap_app. f_equal.
  - apply list_fmap_ext. intros j i Hi%lookup_seq. rewrite store_lookup.
    destruct (Z.leb_spec (Z.of_nat n) (Z.of_nat i)); [lia|done].
  - apply list_eq. intros i. rewrite list_lookup_fmap. destruct (decide (i < length fs)%nat) as [Hi|Hi].
    + rewrite lookup_seq_lt by done. cbn. rewrite store_lookup.
      destruct (Z.leb_spec (Z.of_nat n) (Z.of_nat (n + i))); [|lia].
      destruct (Z.ltb_spec (Z.of_nat (n + i)) (Z.of_nat n + Z.of_nat (length fs))); [|lia]. cbn.
      replace (Z.to_nat (Z.of_nat (n + i) - Z.of_nat n)) with i by lia.
      destruct (fs !! i) eqn:E; [done|]. apply lookup_ge_None in E. lia.
    + rewrite lookup_seq_ge, lookup_ge_None_2 by lia. done.
Qed.

Definition capacity : nat := Z.to_nat MAX_BATCH_VERTICES.
Lemma capacity_val : Z.of_nat capacity = 10000.
Proof. unfold capacity. by rewrite Z2Nat.id. Qed.

Section refinement.
Context {T : Type} `{Transport T} (mapped : mdesc -> bool * bool).
Abbreviation S := (gworld T).
Implicit Types (w : S).
Definition batch_of (w : S) : batch := gs_batch (gt_state (gw_gl w)).
Definition attributes_of (w : S) : attributes := gs_attributes (gt_state (gw_gl w)).

(** What a flush does, from the accelerator, the context and the mode. *)
Definition draws (w : S) (vs : list (list Z)) : (IOReturn * Z) * world T :=
  draw_batch mapped (gt_accelerator (gw_gl w)) (gt_context_id (gw_gl w)) (primitive_mode (batch_of w)) vs
    (gt_next_handle (gw_gl w)) (gw_world w).
Lemma flush_run w vs :
  holds (batch_of w) vs -> 
  flushVertexBatch mapped w
  = ((draws w vs).1.1, mk_gworld (set_gt_next_handle (draws w vs).1.2 (gw_gl w)) (draws w vs).2).
Proof.
  intros (Hc & _ & d & Hd & Hr). destruct w as [[acc ctx st nh cb sh fa] gw].
  unfold batch_of in *. cbn in Hc, Hd.
  unfold flushVertexBatch, draws, draw_batch, batch_of, get_gl, gets, bind.
  cbn [gw_gl gw_world gt_state gt_accelerator gt_context_id gt_next_handle id].
  rewrite Hd, Hc. destruct (Z.of_nat (length vs) =? 0); [by cbn|].
  destruct acc as [has|]; [|by cbn].
  unfold allocateHandle, get_gl, gets, upd_gl, modify, bind, on_world, ret.
  cbn [gw_gl gw_world gt_state gt_accelerator gt_context_id gt_next_handle id set_gt_next_handle].
  replace (Z.to_nat (Z.of_nat (length vs) * FLOATS)) with (12 * length vs)%nat by (unfold FLOATS; lia).
  cbn [option_map fmap option_fmap]. rewrite Hr.
  destruct (createVirglBuffer _ _ _ nh gw) as [r1 d1]. destruct (is_success r1); cbn [negb]; [|by cbn].
  cbn [gw_world gw_gl].
  destruct (uploadBufferData mapped _ _ nh _ _ 0 d1) as [r2 d2]. destruct (is_success r2); cbn [negb]; [|by cbn].
  unfold createVertexElements, allocateHandle, submitVirglCommand, get_gl, gets, upd_gl, modify, bind, on_world, ret.
  cbn [gw_gl gw_world gt_state gt_accelerator gt_context_id gt_next_handle id set_gt_next_handle].
  destruct (submit_at mapped _ _ (vertex_elements_stream _) d2) as [r3 d3]. destruct (is_success r3); cbn [negb]; [|by cbn].
  cbn [gw_gl gw_world gt_state gt_accelerator gt_context_id gt_next_handle id set_gt_next_handle].
  destruct (submit_at mapped _ _ (bind_stream _) d3) as [r4 d4]. cbn [gw_gl gw_world gt_accelerator gt_context_id].
  destruct (submit_at mapped _ _ (vertex_buffers_stream _) d4) as [r5 d5]. cbn [gw_gl gw_world gt_accelerator gt_context_id].
  by destruct (submit_at mapped _ _ (draw_stream _ _) d5) as [r6 d6].
Qed.

(** What the calls inside a pair leave alone. *)
Definition frame (w : S) : option bool * Z * Z * bool * bool :=
  (gt_accelerator (gw_gl w), gt_context_id (gw_gl w), primitive_mode (batch_of w), in_begin_end (batch_of w), gt_fault (gw_gl w)).
(** Inside a pair, with the vertices [p] not yet drawn. *)
Definition filling (w : S) (p : list (list Z)) : Prop :=
  in_begin_end (batch_of w) = true /\ holds (batch_of w) p /\ (length p <= capacity)%nat /\ attributes_ok (attributes_of w).
Lemma draws_frame w w' vs : frame w = frame w' -> gt_next_handle (gw_gl w) = gt_next_handle (gw_gl w') ->
  gw_world w = gw_world w' -> draws w vs = draws w' vs.
Proof. intros [= E1 E2 E3 _ _] E4 E5. unfold draws. by rewrite E1, E2, E3, E4, E5. Qed.

(** Storing a vertex in the next place of the buffer. *)
Definition store_vertex (x y z q : Z) : M S IOReturn :=
  let! b := get_batch id in
  let offset := u32 (vertex_count b * FLOATS) in
  let! a := get_gl (fun t => gs_attributes (gt_state t)) in
  (match vertex_data b with
   | Some data =>
       if offset + FLOATS <=? MAX_BATCH_VERTICES * FLOATS then
         upd_batch (fun b => mk_batch (primitive_mode b)
           (Some (store_floats offset (vertex_floats x y z q a) data)) (vertex_count b) (in_begin_end b))
       else upd_gl (set_gt_fault true)
   | None => upd_gl (set_gt_fault true)
   end) ;;;
  upd_batch (fun b => mk_batch (primitive_mode b) (vertex_data b) (u32 (vertex_count b + 1)) (in_begin_end b)) ;;;
  ret kIOReturnSuccess.
Lemma store_vertex_run x y z q w p :
  holds (batch_of w) p -> (length p < capacity)%nat -> attributes_ok (attributes_of w) ->
  exists w', store_vertex x y z q w = (kIOReturnSuccess, w') /\ frame w' = frame w
    /\ attributes_of w' = attributes_of w /\ gt_next_handle (gw_gl w') = gt_next_handle (gw_gl w)
    /\ gw_world w' = gw_world w /\ holds (batch_of w') (p ++ [vertex_floats x y z q (attributes_of w)]).
Proof.
  intros (Hc & Hp & d & Hd & Hr) Hn Ha. pose proof capacity_val as Hk.
  pose proof (vertex_length x y z q _ Ha) as Hv. revert Hv.
  destruct w as [[acc ctx [[mode data count ins] at_ mt vw tg cp cl] nh cb sh fa] gw].
  unfold batch_of, attributes_of in *. cbn -[vertex_floats] in Hc, Hd, Ha |- *. subst data count. intros Hv.
  unfold store_vertex, get_batch, get_gl, gets, upd_batch, upd_gs, upd_gl, modify, bind, ret.
  cbn [gw_gl gw_world gt_state gs_batch gs_attributes vertex_data vertex_count id].
  rewrite u32_small by (unfold FLOATS; lia).
  destruct (Z.leb_spec (Z.of_nat (length p) * FLOATS + FLOATS) (MAX_BATCH_VERTICES * FLOATS)) as [_|Hover];
    [|unfold MAX_BATCH_VERTICES, FLOATS in Hover; lia].
  unfold upd_state, set_gt_state, set_gs_batch.
  cbn [gw_gl gw_world gt_state gs_batch gs_attributes vertex_data vertex_count gs_matrices gs_view gs_target gs_caps gs_clears
    primitive_mode in_begin_end gt_accelerator gt_context_id gt_next_handle gt_command_buffer gt_shaders_created gt_fault].
  rewrite u32_small by lia. eexists. split; [reflexivity|]. split_and!; [done..|].
  unfold holds. cbn -[vertex_floats Nat.mul]. split; [rewrite length_app; cbn [length]; lia|]. split; [apply Forall_app; split; [done|by apply Forall_singleton]|].
  eexists. split; [done|]. rewrite length_app. cbn [length].
  replace (12 * (length p + 1))%nat with (12 * length p + length (vertex_floats x y z q at_))%nat by lia.
  replace (Z.of_nat (length p) * FLOATS) with (Z.of_nat (12 * length p)) by (unfold FLOATS; lia).
  rewrite read_store, Hr, join_app. f_equal. cbn -[vertex_floats]. by rewrite app_nil_r.
Qed.

Lemma holds_empty w d : vertex_data (batch_of w) = Some d -> vertex_count (batch_of w) = 0 -> holds (batch_of w) [].
Proof. intros Hd Hc. split; [done|]. split; [done|]. by exists d. Qed.
Lemma vertex_run x y z q w p :
  filling w p ->
  let v := vertex_floats x y z q (attributes_of w) in
  exists w', glVertex4f mapped x y z q w = (kIOReturnSuccess, w') /\ frame w' = frame w /\ attributes_of w' = attributes_of w
    /\ if (capacity <=? length p)%nat
       then filling w' [v] /\ gt_next_handle (gw_gl w') = (draws w p).1.2 /\ gw_world w' = (draws w p).2
       else filling w' (p ++ [v]) /\ gt_next_handle (gw_gl w') = gt_next_handle (gw_gl w) /\ gw_world w' = gw_world w.
Proof.
  intros (Hin & Hh & Hl & Ha) v. pose proof capacity_val as Hk.
  assert (Hkeep : forall w1 w', frame w' = frame w1 -> in_begin_end (batch_of w1) = true -> in_begin_end (batch_of w') = true).
  { intros w1 w' [= _ _ _ -> _]. done. }
  assert (E : glVertex4f mapped x y z q w
    = bind (if MAX_BATCH_VERTICES <=? vertex_count (batch_of w)
            then flushVertexBatch mapped ;;; upd_batch (fun b => mk_batch (primitive_mode b) (vertex_data b) 0 (in_begin_end b))
            else ret tt) (fun _ => store_vertex x y z q) w).
  { unfold glVertex4f, get_batch, get_gl, gets. unfold bind at 1. fold (batch_of w). rewrite Hin. cbn [negb].
    unfold bind at 1. fold (batch_of w). done. }
  rewrite E. clear E. pose proof Hh as (Hc & _ & d & Hd & _). rewrite Hc.
  destruct (Nat.leb_spec capacity (length p)) as [Hf|Hf].
  - destruct (Z.leb_spec MAX_BATCH_VERTICES (Z.of_nat (length p))) as [_|?]; [|unfold MAX_BATCH_VERTICES in *; lia].
    unfold bind at 1 2. rewrite (flush_run w p Hh). unfold upd_batch, upd_gs, upd_gl, modify.
    set (w1 := mk_gworld (upd_state _ _) _).
    assert (F : frame w1 = frame w) by done.
    assert (Hh1 : holds (batch_of w1) []) by by apply (holds_empty w1 d).
    destruct (store_vertex_run x y z q w1 [] Hh1 ltac:(cbn; lia) Ha) as (w' & E1 & E2 & E3 & E4 & E5 & E6).
    exists w'. split; [exact E1|]. rewrite E2, E3, E4, E5. split; [done|]. split; [done|]. split; [|done].
    split; [by eapply Hkeep; [rewrite E2|]|]. split; [done|]. split; [cbn; lia|]. by rewrite E3.
  - destruct (Z.leb_spec MAX_BATCH_VERTICES (Z.of_nat (length p))) as [?|_]; [unfold MAX_BATCH_VERTICES in *; lia|].
    destruct (store_vertex_run x y z q w p Hh Hf Ha) as (w' & E1 & E2 & E3 & E4 & E5 & E6).
    exists w'. unfold bind at 1, ret. split; [exact E1|]. split; [done|]. split; [done|]. split; [|done].
    split; [by eapply Hkeep|]. split; [done|]. split; [rewrite length_app; cbn; lia|]. by rewrite E3.
Qed.

(** One call of the pair, against the specification of it. *)
Lemma immediate_step o w p :
  immediate o = true -> filling w p ->
  exists r w' p', do_gl mapped o w = (r, w') /\ frame w' = frame w /\ filling w' p'
    /\ attributes_of w' = attributes_after o (attributes_of w)
    /\ forall vs, draw_all mapped (gt_accelerator (gw_gl w)) (gt_context_id (gw_gl w)) (primitive_mode (batch_of w))
         (batches capacity p (vertex_of o (attributes_of w) ++ vs)) (gt_next_handle (gw_gl w)) (gw_world w)
       = draw_all mapped (gt_accelerator (gw_gl w)) (gt_context_id (gw_gl w)) (primitive_mode (batch_of w))
         (batches capacity p' vs) (gt_next_handle (gw_gl w')) (gw_world w').
Proof.
  intros Ho Hf.
  assert (Hv : forall x y z q, exists r w' p', glVertex4f mapped x y z q w = (r, w') /\ frame w' = frame w /\ filling w' p'
    /\ attributes_of w' = attributes_of w
    /\ forall vs, draw_all mapped (gt_accelerator (gw_gl w)) (gt_context_id (gw_gl w)) (primitive_mode (batch_of w))
         (batches capacity p (vertex_floats x y z q (attributes_of w) :: vs)) (gt_next_handle (gw_gl w)) (gw_world w)
       = draw_all mapped (gt_accelerator (gw_gl w)) (gt_context_id (gw_gl w)) (primitive_mode (batch_of w))
         (batches capacity p' vs) (gt_next_handle (gw_gl w')) (gw_world w')).
  { intros x y z q. destruct (vertex_run x y z q w p Hf) as (w' & E & F & A & Hw). cbn [batches].
    destruct (capacity <=? length p)%nat; destruct Hw as (Hf' & En & Ew); eexists _, w', _; (split; [exact E|]);
      (split; [done|]); (split; [exact Hf'|]); (split; [done|]); intros vs.
    - pose proof (batches_nonempty capacity vs [vertex_floats x y z q (attributes_of w)]) as Hne.
      destruct (batches capacity [_] vs) as [|b bs]; [done|]. cbn [draw_all]. rewrite En, Ew. unfold bind at 1, draws.
      by destruct (draw_batch _ _ _ _ p _ _) as [[r n] d].
    - by rewrite En, Ew. }
  assert (Ha : forall f, attributes_ok (f (attributes_of w)) -> exists w', upd_attributes f w = (kIOReturnSuccess, w')
    /\ frame w' = frame w /\ filling w' p /\ attributes_of w' = f (attributes_of w)
    /\ gt_next_handle (gw_gl w') = gt_next_handle (gw_gl w) /\ gw_world w' = gw_world w).
  { intros f Hok. eexists. split; [reflexivity|]. split; [done|]. split; [|done]. destruct Hf as (? & ? & ? & ?). by split_and!. }
  destruct Hf as (_ & _ & _ & H4).
  destruct o; try discriminate Ho; cbn [do_gl vertex_of attributes_after app];
    try (apply Hv); unfold glColor3f, glTexCoord2f, glColor4f, glTexCoord3f, glNormal3f;
    match goal with |- context [upd_attributes ?f w] => destruct (Ha f) as (w' & E & F & Hf' & A & En & Ew) end;
    try exact (attributes_ok_after (GColor4f 0 0 0 0) _ H4); try (by destruct H4; split);
    eexists _, w', p; (split; [exact E|]); (split; [done|]); (split; [done|]); (split; [exact A|]); intros vs; by rewrite En, Ew.
Qed.

Lemma immediate_run os : forall w p,
  forallb immediate os = true -> filling w p ->
  exists r w' p', run_gl mapped os w = (r, w') /\ frame w' = frame w /\ filling w' p'
    /\ attributes_of w' = final_attributes (attributes_of w) os
    /\ draw_all mapped (gt_accelerator (gw_gl w)) (gt_context_id (gw_gl w)) (primitive_mode (batch_of w))
         (batches capacity p (shade (attributes_of w) os)) (gt_next_handle (gw_gl w)) (gw_world w) = draws w' p'.
Proof.
  induction os as [|o os IH]; intros w p Ho Hf; cbn [run_gl shade final_attributes foldl].
  - eexists _, w, p. by split_and!.
  - apply andb_true_iff in Ho as [Ho Hos].
    destruct (immediate_step o w p Ho Hf) as (r & w1 & p1 & E1 & F1 & Hf1 & A1 & D1).
    destruct (IH w1 p1 Hos Hf1) as (r2 & w2 & p2 & E2 & F2 & Hf2 & A2 & D2).
    exists r2, w2, p2. split; [unfold bind; by rewrite E1|]. split; [congruence|]. split; [done|].
    split; [by rewrite A2, A1|]. rewrite D1, <- A1. injection F1 as G1 G2 G3 _ _. by rewrite <- G1, <- G2, <- G3.
Qed.
End refinement.

(** C32: A [glBegin]/[glEnd] pair around calls that emit vertices or set
    attributes draws exactly those vertices, in order, each with the attributes
    current at its call, in batches of 10000 vertices of which every one but the
    last is full: what the device sees, the next handle and the status are those
    of drawing these batches one after the other. The pair leaves the state it
    found outside, and never writes past its buffer. *)
Theorem immediate_mode_batches T `{Transport T} mapped mode os (w : gworld T) :
  in_begin_end (batch_of w) = false -> vertex_data (batch_of w) <> None -> attributes_ok (attributes_of w) ->
  forallb immediate os = true ->
  let vs := shade (attributes_of w) os in
  let bs := batches capacity [] vs in
  let '(r, w') := (glBegin mode ;;; run_gl mapped os ;;; glEnd mapped) w in
  mjoin bs = vs /\ (forall b, b ∈ removelast bs -> Z.of_nat (length b) = MAX_BATCH_VERTICES)
  /\ Forall (fun b => Z.of_nat (length b) <= MAX_BATCH_VERTICES) bs
  /\ draw_all mapped (gt_accelerator (gw_gl w)) (gt_context_id (gw_gl w)) mode bs (gt_next_handle (gw_gl w)) (gw_world w)
     = ((r, gt_next_handle (gw_gl w')), gw_world w')
  /\ attributes_of w' = final_attributes (attributes_of w) os
  /\ in_begin_end (batch_of w') = false /\ gt_fault (gw_gl w') = gt_fault (gw_gl w).
Proof.
  intros Hin Hd Ha Ho. cbn zeta. pose proof capacity_val as Hk. change MAX_BATCH_VERTICES with 10000.
  destruct (vertex_data (batch_of w)) as [d|] eqn:Ed; [|done].
  set (w1 := mk_gworld (upd_state (fun s => set_gs_batch (mk_batch mode (vertex_data (batch_of w)) 0 true) s) (gw_gl w)) (gw_world w)).
  assert (Hf : filling w1 []).
  { split; [done|]. split; [by apply (holds_empty w1 d)|]. split; [cbn; lia|done]. }
  destruct (immediate_run mapped os w1 [] Ho Hf) as (r & w2 & p & E & F & (Hin2 & Hh & Hl & _) & A & D).
  set (w3 := mk_gworld (upd_state (fun s => set_gs_batch (mk_batch (primitive_mode (gs_batch s)) (vertex_data (gs_batch s))
    (vertex_count (gs_batch s)) false) s) (gw_gl w2)) (gw_world w2)).
  assert (Hend : glEnd mapped w2 = flushVertexBatch mapped w3).
  { unfold glEnd, get_batch, get_gl, gets. unfold bind at 1. fold (batch_of w2). rewrite Hin2. done. }
  assert (E' : (glBegin mode ;;; run_gl mapped os ;;; glEnd mapped) w = flushVertexBatch mapped w3).
  { assert (Eb : glBegin mode w = (kIOReturnSuccess, w1)).
    { unfold glBegin, get_batch, get_gl, gets. unfold bind at 1. fold (batch_of w). by rewrite Hin. }
    rewrite <- Hend. unfold bind. by rewrite Eb, E. }
  rewrite E'. assert (Hh3 : holds (batch_of w3) p) by exact Hh. rewrite (flush_run mapped w3 p Hh3).
  injection F as F1 F2 F3 F4 F5.
  split; [by rewrite concat_batches|]. split; [|split; [|split; [|split_and!]]].
  - intros b Hb. rewrite (batches_full capacity (shade (attributes_of w) os) [] b); [done|lia|cbn; lia|done].
  - eapply Forall_impl; [apply (batches_small capacity); [lia|cbn; lia]|]. intros b Hb. cbn in Hb. lia.
  - change (attributes_of w1) with (attributes_of w) in D. etransitivity; [exact D|].
    change (draws mapped w3 p) with (draws mapped w2 p). cbn. by destruct (draws mapped w2 p) as [[r' n] g].
  - exact A.
  - done.
  - exact F5.
Qed.

(** * Framing *)
(** Any host, with a record of what it was sent. *)
Record logged (T : Type) := mk_logged { lg_sent : list gpu_cmd; lg_host : T }.
Arguments mk_logged {T}.
Arguments lg_sent {T}.
Arguments lg_host {T}.
#[export] Instance logged_transport {T} `{Transport T} : Transport (logged T) := fun c n t =>
  let '(r, h) := submit_cmd c n (lg_host t) in (r, mk_logged (lg_sent t ++ [c]) h).

(** A stream that a host reads as one command with all of the payload. *)
Definition well_framed (data : list Z) : bool :=
  match parse (dwords data) with Some [_] => true | _ => false end.
Definition MAX_STREAM_DWORDS : Z := 65536.
Definition framed (c : gpu_cmd) : Prop :=
  match c with
  | CmdSubmit _ _ _ data => well_framed data = (Z.of_nat (length data) <=? 4 * MAX_STREAM_DWORDS)
  | _ => True
  end.

Lemma le_val_mod n : forall z, le_val (le_bytes n z) = z mod 256 ^ Z.of_nat n.
Proof.
  induction n as [|n IH]; intros z; cbn [le_bytes le_val]; [by rewrite Z.mod_1_r|].
  rewrite IH, Nat2Z.inj_succ, Z.pow_succ_r, Z.rem_mul_r by lia. done.
Qed.
Lemma dwords_bytes l : dwords (dword_bytes l) = u32 <$> l.
Proof.
  induction l as [|z l IH]; [done|]. change (dword_bytes (z :: l)) with (le_bytes 4 z ++ dword_bytes l).
  cbn [le_bytes app dwords fmap list_fmap]. rewrite IH. f_equal. exact (le_val_mod 4 z).
Qed.
Lemma length_dword_bytes l : length (dword_bytes l) = (4 * length l)%nat.
Proof.
  induction l as [|z l IH]; [done|]. change (dword_bytes (z :: l)) with (le_bytes 4 z ++ dword_bytes l).
  rewrite length_app, length_le_bytes, IH. cbn [length]. lia.
Qed.
Lemma header_length op len : 0 <= op < 2 ^ 8 -> Z.shiftr (VIRGL_CMD_HDR op len) 16 mod 2 ^ 16 = len mod 2 ^ 16.
Proof.
  intros Ho. unfold VIRGL_CMD_HDR, u32. rewrite !Z.shiftr_div_pow2 by lia.
  change (2 ^ 32) with (2 ^ 16 * 2 ^ 16). rewrite Z.rem_mul_r by lia.
  rewrite (Z.mul_comm (2 ^ 16)), Z.div_add, Z.div_small, Z.add_0_l, Zmod_mod by (lia || apply Z.mod_pos_bound; lia).
  rewrite <- Z.shiftr_div_pow2, Z.shiftr_lor, Z.shiftr_shiftl_l, Z.sub_diag, Z.shiftl_0_r by lia.
  rewrite (Z.shiftr_div_pow2 op), Z.div_small, Z.lor_0_r by lia. done.
Qed.
Lemma parse_some fuel x l : parse_stream fuel (x :: l) <> Some [].
Proof. destruct fuel; cbn; [done|]. destruct (_ <=? _)%nat; [|done]. by destruct (parse_stream fuel _). Qed.

(** A stream whose header announces its payload, as far as 16 bits can. *)
Definition announced (l : list Z) : Prop :=
  exists op len payload, l = VIRGL_CMD_HDR op len :: payload /\ 0 <= op < 2 ^ 8
    /\ len mod 2 ^ 16 = Z.of_nat (length payload) mod 2 ^ 16.
Lemma announced_framed l : announced l -> well_framed (dword_bytes l) = (Z.of_nat (length (dword_bytes l)) <=? 4 * MAX_STREAM_DWORDS).
Proof.
  intros (op & len & pay & -> & Ho & El). rewrite length_dword_bytes. unfold well_framed. rewrite dwords_bytes.
  cbn [fmap list_fmap length]. unfold parse. cbn [length parse_stream].
  assert (Eh : u32 (VIRGL_CMD_HDR op len) = VIRGL_CMD_HDR op len) by apply Zmod_mod.
  rewrite Eh, header_length, El by done. set (rest := u32 <$> pay).
  assert (Er : length rest = length pay) by apply length_fmap. rewrite Er.
  destruct (Z.leb_spec (Z.of_nat (4 * S (length pay))) (4 * MAX_STREAM_DWORDS)) as [Hs|Hs]; unfold MAX_STREAM_DWORDS in Hs.
  - rewrite Z.mod_small, Nat2Z.id by lia. rewrite (proj2 (Nat.leb_le _ _) (le_n _)), drop_ge by lia. by destruct (length pay).
  - set (n := Z.to_nat _). assert (Hn : (n < length pay)%nat).
    { unfold n. pose proof (Z.mod_pos_bound (Z.of_nat (length pay)) (2 ^ 16) ltac:(lia)). lia. }
    rewrite (proj2 (Nat.leb_le _ _)) by lia. destruct (drop n rest) as [|x rest'] eqn:Ed.
    + apply (f_equal length) in Ed. rewrite length_drop in Ed. cbn in Ed. lia.
    + pose proof (parse_some (length pay) x rest') as Hp. destruct (parse_stream _ (x :: rest')) as [[|c cs]|]; done.
Qed.
Lemma announce op len l payload : l = VIRGL_CMD_HDR op len :: payload -> 0 <= op < 2 ^ 8 ->
  len mod 2 ^ 16 = Z.of_nat (length payload) mod 2 ^ 16 -> announced l.
Proof. intros -> Ho E. by exists op, len, payload. Qed.
Ltac announce_tac := first [ eapply announce; [reflexivity|done|reflexivity] ].
Lemma announced_clear c mask : length (clear_color c) = 4%nat -> announced (clear_stream c mask).
Proof.
  intros Hc. unfold clear_stream. destruct (virgl_pack_double _) as [lo hi].
  destruct (clear_color c) as [|r [|g [|b [|x [|]]]]]; try discriminate Hc. announce_tac.
Qed.
Lemma announced_viewport v : announced (viewport_stream v). Proof. announce_tac. Qed.
Lemma announced_framebuffer a b : announced (framebuffer_stream a b). Proof. announce_tac. Qed.
Lemma announced_elements h : announced (vertex_elements_stream h). Proof. announce_tac. Qed.
Lemma announced_bind h : announced (bind_stream h). Proof. announce_tac. Qed.
Lemma announced_buffers h : announced (vertex_buffers_stream h). Proof. announce_tac. Qed.
Lemma announced_draw m n : announced (draw_stream m n). Proof. announce_tac. Qed.
Lemma announced_write handle n data : 0 <= n <= MAX_BATCH_VERTICES -> Z.of_nat (length data) = n * FLOATS ->
  announced (inline_write_stream handle (u32 (n * FLOATS * 4)) 0 data).
Proof.
  unfold MAX_BATCH_VERTICES, FLOATS. intros Hn Hd. unfold inline_write_stream, VIRGL_INLINE_WRITE_HDR_SIZE.
  rewrite (u32_small (n * 12 * 4)) by lia. rewrite (u32_small (n * 12 * 4 + 3)) by lia.
  replace (n * 12 * 4 + 3) with (3 + (n * 12) * 4) by lia. rewrite Z.div_add by lia. change (3 / 4) with 0.
  rewrite (u32_small (12 + (0 + n * 12))) by lia. rewrite u32_small by lia.
  eapply announce; [reflexivity|done|]. cbn [length app]. f_equal. lia.
Qed.
#[export] Hint Resolve announced_viewport announced_framebuffer announced_elements announced_bind announced_buffers
  announced_draw : gl.

Section framing.
Context {T : Type} `{Transport T} (mapped : mdesc -> bool * bool).
Abbreviation W := (world (logged T)).
Abbreviation S := (gworld (logged T)).
Definition log_framed (w : W) : Prop := Forall framed (lg_sent (w_tr w)).

Lemma log_keeps {A} (m : M W A) : keeps (fun w => w_tr w) m -> preserves log_framed m.
Proof. exact (keeps_preserves (fun w : W => w_tr w) (fun t => Forall framed (lg_sent t)) m). Qed.
Lemma log_submit c n : framed c -> preserves log_framed (submit c n).
Proof.
  intros Hc w Hw. unfold submit, submit_cmd, logged_transport, log_framed in *.
  destruct (submit_cmd c n (lg_host (w_tr w))) as [r h]. cbn. by apply Forall_app_2; [|apply Forall_singleton].
Qed.
Ltac log_tac :=
  repeat first [ solve [apply log_keeps; keeps_tac] | apply preserves_bind; [|intros ?] | apply log_submit; done | goal_case ].
Lemma log_execute ctx d : framed (CmdSubmit (mk_hdr 0 0 0 0 0 0) 0 0 (cd_data d)) -> preserves log_framed (executeCommands ctx (Some d)).
Proof. intros Hd. unfold executeCommands, supports3D, lock_contexts, unlock_contexts, map_add. log_tac. Qed.
Lemma log_create id t f b wd ht dp : preserves log_framed (createResource3D id t f b wd ht dp).
Proof. unfold createResource3D, lock_resources, unlock_resources. log_tac. Qed.
Lemma log_submit_at acc ctx l : announced l -> preserves log_framed (submit_at mapped acc ctx l).
Proof.
  intros Hl. unfold submit_at. destruct acc as [[]|]; [|apply preserves_ret..].
  apply preserves_bind; [log_tac|intros [d|]]; [|apply preserves_ret].
  apply preserves_bind; [apply log_execute; by apply announced_framed|intros r]. log_tac.
Qed.
Lemma log_upload acc ctx h n data : 0 <= n <= MAX_BATCH_VERTICES ->
  (forall l, data = Some l -> Z.of_nat (length l) = n * FLOATS) ->
  preserves log_framed (uploadBufferData mapped acc ctx h data (u32 (n * FLOATS * 4)) 0).
Proof.
  intros Hn Hd. unfold uploadBufferData. destruct acc as [has|]; [|apply preserves_ret].
  destruct data as [l|]; [|apply preserves_ret].
  apply preserves_bind; [log_tac|intros [g|]]; [|apply preserves_ret].
  apply preserves_bind; [apply log_submit_at, announced_write; [done|by apply Hd]|intros r]. log_tac.
Qed.

(** What keeps the translator inside its buffers. *)
Definition gl_ok (t : translator) : Prop :=
  gt_fault t = false /\ 0 <= vertex_count (gs_batch (gt_state t)) <= MAX_BATCH_VERTICES
  /\ vertex_data (gs_batch (gt_state t)) <> None /\ length (clear_color (gs_clears (gt_state t))) = 4%nat.
Definition sound (w : S) : Prop := log_framed (gw_world w) /\ gl_ok (gw_gl w).
Lemma sound_on_world {A} (m : M W A) : preserves log_framed m -> preserves sound (on_world m).
Proof. intros Hm w [H1 H2]. specialize (Hm _ H1). unfold on_world. by destruct (m (gw_world w)). Qed.
Lemma sound_upd f : (forall t, gl_ok t -> gl_ok (f t)) -> preserves sound (upd_gl f).
Proof. intros Hf w [H1 H2]. split; [done|]. by apply Hf. Qed.
Lemma sound_get {A B} (f : translator -> A) (k : A -> M S B) :
  (forall t, gl_ok t -> preserves sound (k (f t))) -> preserves sound (bind (get_gl f) k).
Proof. intros Hk w Hw. exact (Hk _ (proj2 Hw) w Hw). Qed.
Lemma sound_command l : announced l -> preserves sound (submitVirglCommand mapped l).
Proof. intros Hl. apply sound_get. intros t _. by apply sound_on_world, log_submit_at. Qed.
Lemma sound_allocate : preserves sound (allocateHandle (T := logged T)).
Proof.
  apply sound_get. intros t _. apply preserves_bind; [|intros ?; apply preserves_ret]. by apply sound_upd.
Qed.
Hint Resolve sound_command sound_allocate preserves_ret announced_elements announced_bind announced_buffers announced_draw : gl.
Lemma sound_flush : preserves sound (flushVertexBatch (T := logged T) mapped).
Proof.
  apply sound_get. intros t (_ & Hn & _). unfold id. destruct (_ =? 0); [auto with gl|].
  destruct (gt_accelerator t) as [has|]; [|auto with gl].
  apply preserves_bind; [auto with gl|intros vbo].
  apply preserves_bind; [apply sound_on_world; unfold createVirglBuffer; destruct has; [apply log_create|apply preserves_ret]|intros r].
  apply preserves_if; [auto with gl|].
  apply preserves_bind; [apply sound_on_world, log_upload; [done|]|intros r'].
  { intros l Hl. destruct (vertex_data _) as [d|]; [|done]. injection Hl as <-. unfold read_floats.
    rewrite length_fmap, length_seq. unfold FLOATS. lia. }
  apply preserves_if; [auto with gl|].
  apply preserves_bind; [auto with gl|intros _].
  apply preserves_bind; [unfold createVertexElements|intros [r3 ve]].
  { apply preserves_bind; [auto with gl|intros h]. apply preserves_bind; auto with gl. }
  apply preserves_if; [auto with gl|].
  apply preserves_bind; [auto with gl|intros _]. apply preserves_bind; auto with gl.
Qed.
Lemma sound_gs f : (forall s, gs_batch (f s) = gs_batch s /\ length (clear_color (gs_clears (f s))) = length (clear_color (gs_clears s))) ->
  preserves sound (upd_gs (T := logged T) f ;;; ret kIOReturnSuccess).
Proof.
  intros Hf. apply preserves_bind; [|intros _; apply preserves_ret]. apply sound_upd.
  intros t (H1 & H2 & H3 & H4). destruct (Hf (gt_state t)) as [E1 E2]. unfold gl_ok. cbn. by rewrite E1, E2.
Qed.
Lemma sound_batch f : (forall b, 0 <= vertex_count b <= MAX_BATCH_VERTICES -> vertex_data b <> None ->
    0 <= vertex_count (f b) <= MAX_BATCH_VERTICES /\ vertex_data (f b) <> None) ->
  preserves sound (upd_batch (T := logged T) f).
Proof. intros Hf. apply sound_upd. intros t (H1 & H2 & H3 & H4). by destruct (Hf _ H2 H3). Qed.

Lemma sound_store x y z q w : sound w -> vertex_count (batch_of w) < MAX_BATCH_VERTICES -> sound (store_vertex x y z q w).2.
Proof.
  intros [Hl (H1 & H2 & H3 & H4)] Hn. unfold batch_of in *.
  destruct w as [[acc ctx [[mode data count ins] at_ mt vw tg cp cl] nh cb sh fa] gw]. cbn in *.
  unfold store_vertex, get_batch, get_gl, gets, upd_batch, upd_gs, upd_gl, modify, bind, ret.
  cbn -[vertex_floats u32]. destruct data as [d|]; [|done]. unfold MAX_BATCH_VERTICES, FLOATS in *.
  rewrite (u32_small (count * 12)) by lia. destruct (Z.leb_spec (count * 12 + 12) (10000 * 12)); [|lia].
  cbn -[vertex_floats u32]. split; [exact Hl|]. unfold gl_ok. cbn -[vertex_floats u32]. rewrite u32_small by lia.
  unfold MAX_BATCH_VERTICES. split_and!; [done|lia|lia|done|done].
Qed.
Lemma sound_vertex x y z q : preserves sound (glVertex4f (T := logged T) mapped x y z q).
Proof.
  intros w Hw. unfold glVertex4f, get_batch. unfold bind at 1. unfold get_gl at 1, gets at 1. destruct (in_begin_end _); cbn [negb]; [|done].
  unfold bind at 1, get_gl at 1, gets at 1. fold (batch_of w).
  destruct (Z.leb_spec MAX_BATCH_VERTICES (vertex_count (batch_of w))) as [_|Hn].
  - pose proof (sound_flush w Hw) as Hf. unfold bind at 1 2. destruct (flushVertexBatch mapped w) as [r w1].
    apply (sound_store x y z q); [|done].
    apply (sound_batch (fun b => mk_batch (primitive_mode b) (vertex_data b) 0 (in_begin_end b))); [|exact Hf].
    intros b _ Hd. by split.
  - by apply (sound_store x y z q w).
Qed.
Hint Resolve sound_vertex sound_flush : gl.
Lemma sound_do o : preserves sound (do_gl (T := logged T) mapped o).
Proof.
  destruct o; cbn [do_gl]; unfold glVertex2f, glVertex3f, glColor3f, glColor4f, glTexCoord2f, glTexCoord3f, glNormal3f,
    upd_attributes, glClearColor, glClearDepth, glLoadIdentity, glMatrixMode, glEnable, glDisable, glFlush, glFinish;
    auto with gl; try (apply sound_gs; by intros).
  - apply sound_get. intros t (_ & _ & _ & H4). unfold id. destruct (gt_accelerator t); [|apply preserves_ret].
    by apply sound_command, announced_clear.
  - unfold glClearColor. apply preserves_bind; [|intros _; apply preserves_ret]. apply sound_upd. by intros t (? & ? & ? & _).
  - unfold glViewport. apply preserves_bind; [apply sound_upd; by intros t (? & ? & ? & ?)|intros _].
    apply sound_get. intros t _. unfold id. destruct (gt_accelerator t); [|apply preserves_ret].
    apply sound_command, announced_viewport.
  - apply sound_get. intros t _. apply preserves_if; [apply preserves_ret|].
    apply preserves_bind; [|intros _; apply preserves_ret]. apply sound_batch. by intros.
  - apply sound_get. intros t _. apply preserves_if; [apply preserves_ret|].
    apply preserves_bind; [|intros _; apply sound_flush]. apply sound_batch. by intros.
Qed.
End framing.

Section life.
Context {T : Type} `{Transport T} (mapped : mdesc -> bool * bool).
Abbreviation S := (gworld T).
Lemma gl_init_run (w : S) :
  init w =
  match m_mallocs (w_mem (gw_world w)) with
  | Some _ :: Some _ :: l =>
      (true, mk_gworld (mk_translator None 0
         (mk_gl (mk_batch 0 (Some ∅) 0 false) (gs_attributes initial_state)
            (mk_matrices (replicate 16 f_0) identity_matrix 0) (gs_view initial_state) (gs_target initial_state)
            (gs_caps initial_state) (gs_clears initial_state)) 100 true false false)
         (mk_world (w_gpu (gw_world w))
            (set_m_heap (m_heap (w_mem (gw_world w)) + COMMAND_BUFFER_BYTES + VERTEX_BUFFER_BYTES)
               (set_m_mallocs l (w_mem (gw_world w)))) (w_tr (gw_world w))))
  | Some _ :: l =>
      (false, mk_gworld (mk_translator None 0 initial_state 100 true false false)
         (mk_world (w_gpu (gw_world w))
            (set_m_heap (m_heap (w_mem (gw_world w)) + COMMAND_BUFFER_BYTES + - COMMAND_BUFFER_BYTES)
               (set_m_mallocs (tail l) (w_mem (gw_world w)))) (w_tr (gw_world w))))
  | l => (false, mk_gworld (mk_translator None 0 zero_state 100 false false false)
         (mk_world (w_gpu (gw_world w)) (set_m_mallocs (tail l) (w_mem (gw_world w))) (w_tr (gw_world w))))
  end.
Proof.
  destruct w as [gl [g [al ml hp pr rf mp] tr]]. cbn [gw_world w_mem m_mallocs].
  by destruct ml as [|[b|] [|[b'|] ml]].
Qed.
End life.

Lemma sound_setup T `{Transport T} mapped acc ctx : preserves sound (initWithAccelerator (T := logged T) mapped acc ctx).
Proof.
  unfold initWithAccelerator, createDefaultShaders, setupRenderTarget.
  apply preserves_bind; [by apply sound_upd|intros _].
  apply preserves_bind; [|intros _; apply preserves_bind; [|intros _]].
  - apply sound_get. intros t _. destruct (gt_shaders_created (id t)); [apply preserves_ret|].
    destruct (gt_accelerator (id t)) as [[]|]; [|apply preserves_ret..].
    apply preserves_bind; [by apply sound_upd|intros _; apply preserves_ret].
  - apply sound_get. intros t _. destruct (gt_accelerator (id t)) as [[]|]; [|apply preserves_ret..].
    apply preserves_bind; [apply sound_command, announced_framebuffer|intros r].
    apply preserves_bind; [|intros _; apply preserves_ret].
    destruct (is_success r); [|apply preserves_ret]. by apply sound_upd.
  - apply preserves_bind; [apply (sound_do mapped (GViewport 0 0 640 480))|intros _; apply preserves_ret].
Qed.
Lemma gl_sound_run T `{Transport T} mapped os : preserves sound (run_gl (T := logged T) mapped os).
Proof.
  induction os as [|o os IH]; [apply preserves_ret|]. apply preserves_bind; [apply sound_do|by intros _].
Qed.

(** C30: Whatever calls follow the set-up of a translator, in whatever order and
    on whatever host, every stream the host gets is one command whose header
    announces its payload, unless the stream is longer than 65536 dwords; and the
    translator never writes past its vertex buffer, nor through a null pointer. *)
Theorem every_stream_framed T `{Transport T} mapped acc ctx os (w w1 : gworld (logged T)) :
  init w = (true, w1) -> lg_sent (w_tr (gw_world w)) = [] ->
  let w2 := (initWithAccelerator mapped acc ctx ;;; run_gl mapped os) w1 in
  Forall framed (lg_sent (w_tr (gw_world w2.2))) /\ gt_fault (gw_gl w2.2) = false
  /\ 0 <= vertex_count (batch_of w2.2) <= MAX_BATCH_VERTICES.
Proof.
  intros Hi Hl. assert (Hs : sound w1).
  { rewrite gl_init_run in Hi. destruct (m_mallocs _) as [|[b|] [|[b'|] l]]; try discriminate Hi. injection Hi as <-.
    split; [unfold log_framed; cbn; by rewrite Hl|]. by split_and!. }
  pose proof (preserves_bind sound _ _ (sound_setup T mapped acc ctx) (fun _ => gl_sound_run T mapped os) w1 Hs) as [H1 (H2 & H3 & _)].
  split; [exact H1|]. split; [exact H2|exact H3].
Qed.
(** The stream that uploads [n] vertices is read as one command up to 5460 of
    them; from 5461 on its header's 16 bits of length are too few, and the host
    takes the rest of the vertices for commands. *)
Theorem upload_framing handle n data :
  0 < n <= MAX_BATCH_VERTICES -> Z.of_nat (length data) = n * FLOATS ->
  well_framed (dword_bytes (inline_write_stream handle (u32 (n * FLOATS * 4)) 0 data)) = (n <=? 5460).
Proof.
  intros Hn Hd. rewrite announced_framed by (apply announced_write; [lia|done]). rewrite length_dword_bytes.
  unfold inline_write_stream. rewrite length_app. cbn [length]. unfold MAX_STREAM_DWORDS, FLOATS in *.
  destruct (Z.leb_spec n 5460), (Z.leb_spec (Z.of_nat (4 * (12 + length data))) (4 * 65536)); done || lia.
Qed.

(** * Buffers of the host *)
Section buffers.
Context {T : Type} `{Host T} (mapped : mdesc -> bool * bool).
Definition knows (ids : gset Z) (w : world T) : Prop := ids ⊆ host_ids (w_tr w).
Lemma knows_keeps {A} ids (m : M (world T) A) : keeps (fun w => w_tr w) m -> preserves (knows ids) m.
Proof. exact (keeps_preserves (fun w : world T => w_tr w) (fun t => ids ⊆ host_ids t) m). Qed.
Lemma knows_submit ids c n : (24 <= n)%nat -> (forall x, x ⊆ cmd_effect c x) -> preserves (knows ids) (submit c n).
Proof.
  intros Hn Hc w Hw. unfold submit, knows in *. pose proof (host_submit c n (w_tr w) Hn) as Hs.
  destruct (submit_cmd c n (w_tr w)) as [[r resp] t]. destruct Hs as [Hs _]. cbn. rewrite Hs.
  destruct (is_success r); [|done]. specialize (Hc (host_ids (w_tr w))). set_solver.
Qed.
Ltac knows_tac :=
  repeat first [ solve [apply knows_keeps; keeps_tac] | apply preserves_bind; [|intros ?]
    | apply knows_submit; [lia|cbn; set_solver] | goal_case ].
Lemma knows_execute ids ctx d : preserves (knows ids) (executeCommands ctx d).
Proof. unfold executeCommands, supports3D, lock_contexts, unlock_contexts, map_add. knows_tac. Qed.
Lemma knows_create ids id t f b wd ht dp : preserves (knows ids) (createResource3D id t f b wd ht dp).
Proof. unfold createResource3D, lock_resources, unlock_resources. knows_tac. Qed.
Lemma knows_submit_at ids acc ctx l : preserves (knows ids) (submit_at mapped acc ctx l).
Proof.
  unfold submit_at. destruct acc as [[]|]; [|apply preserves_ret..].
  apply preserves_bind; [knows_tac|intros [d|]]; [|apply preserves_ret].
  apply preserves_bind; [apply knows_execute|intros r]. knows_tac.
Qed.
Lemma knows_upload ids acc ctx h data size off : preserves (knows ids) (uploadBufferData mapped acc ctx h data size off).
Proof.
  unfold uploadBufferData. destruct acc as [has|]; [|apply preserves_ret]. destruct data as [l|]; [|apply preserves_ret].
  apply preserves_bind; [knows_tac|intros [g|]]; [|apply preserves_ret].
  apply preserves_bind; [apply knows_submit_at|intros r]. knows_tac.
Qed.
(** A resource that was created is the host's. *)
Lemma create_known id t f b wd ht dp :
  hoare (fun _ => True) (createResource3D (T := T) id t f b wd ht dp) (fun r w' => r = kIOReturnSuccess -> id ∈ host_ids (w_tr w')).
Proof.
  intros w _. unfold createResource3D, lock_resources, unlock_resources, get_gpu, gets, upd_gpu, modify, submit, bind, ret.
  cbn [w_gpu w_tr w_mem g_pool]. destruct (0 <? g_num_capsets (w_gpu w)); cbn [negb]; [|done].
  destruct (findResource id _); [done|]. cbn [w_tr w_gpu w_mem]. set (c := CmdCreate3D _ _).
  pose proof (host_submit c 24 (w_tr w) ltac:(lia)) as Hs. destruct (submit_cmd c 24 (w_tr w)) as [[r resp] t'].
  destruct Hs as [Hs _]. assert (Hr : r = kIOReturnSuccess -> id ∈ host_ids t') by (intros ->; rewrite Hs; cbn; set_solver).
  cbn [fst snd]. unfold IOMalloc. cbn [w_mem w_gpu w_tr].
  destruct (is_success r && (resp_type resp =? VIRTIO_GPU_RESP_OK_NODATA)); [|exact Hr]. destruct (m_mallocs _) as [|[g|] l]; [exact Hr| |exact Hr].
  cbn [w_gpu g_pool]. by destruct (find_free _).
Qed.

(** A batch that was drawn left its vertex buffer with the host. *)
Lemma drawn_known acc ctx mode vs nh :
  vs <> [] -> hoare (fun _ => True) (draw_batch mapped acc ctx mode vs nh)
    (fun r w' => r.1 = kIOReturnSuccess -> nh ∈ host_ids (w_tr w')).
Proof.
  intros Hvs w _. unfold draw_batch. destruct (Z.eqb_spec (Z.of_nat (length vs)) 0) as [E|_]; [destruct vs; [done|cbn in E; lia]|].
  destruct acc as [[]|]; [| |done]; unfold createVirglBuffer; [|done].
  set (m := createResource3D _ _ _ _ _ _ _).
  match goal with |- context [bind m ?k w] => set (k0 := k) end.
  pose proof (create_known nh VIRGL_TARGET_BUFFER VIRGL_FORMAT_R8G8B8A8_UNORM VIRGL_BIND_VERTEX_BUFFER
    (u32 (Z.of_nat (length vs) * FLOATS * 4)) 1 1 w I) as Hc. fold m in Hc.
  unfold bind. destruct (m w) as [r w1]. cbn [fst snd] in Hc.
  destruct (decide (r = kIOReturnSuccess)) as [->|Hr].
  - intros _. specialize (Hc eq_refl). assert (Hk : preserves (knows {[nh]}) (k0 kIOReturnSuccess)).
    { unfold k0. cbn [negb is_success]. repeat first [apply preserves_ret | apply knows_upload | apply knows_submit_at
        | apply preserves_bind; [|intros ?] | apply preserves_if]. }
    specialize (Hk w1 ltac:(unfold knows; set_solver)). unfold knows in Hk. set_solver.
  - unfold k0. apply is_success_false in Hr as Hr'. rewrite Hr'. cbn. by intros E.
Qed.

Lemma knows_flush ids : preserves (fun w : gworld T => knows ids (gw_world w)) (flushVertexBatch mapped).
Proof.
  assert (Hw : forall A (m : M (world T) A), preserves (knows ids) m -> preserves (fun w : gworld T => knows ids (gw_world w)) (on_world m)).
  { intros A m Hm w Hk. unfold on_world. specialize (Hm _ Hk). by destruct (m (gw_world w)). }
  assert (Hs : forall l, preserves (fun w : gworld T => knows ids (gw_world w)) (submitVirglCommand mapped l)).
  { intros l. unfold submitVirglCommand. apply preserves_bind; [apply preserves_gets|intros t]. apply Hw, knows_submit_at. }
  assert (Ha : preserves (fun w : gworld T => knows ids (gw_world w)) allocateHandle) by (by intros w Hk).
  unfold flushVertexBatch, createVertexElements, createVirglBuffer.
  repeat first [apply preserves_ret | apply preserves_gets | exact Ha | apply Hs | apply Hw, knows_upload | apply Hw, knows_create
    | apply Hw, preserves_ret | apply preserves_bind; [|intros ?] | apply preserves_if | goal_case].
Qed.
Lemma knows_do ids o : preserves (fun w : gworld T => knows ids (gw_world w)) (do_gl mapped o).
Proof.
  assert (Hs : forall l, preserves (fun w : gworld T => knows ids (gw_world w)) (submitVirglCommand mapped l)).
  { intros l w Hk. unfold submitVirglCommand, bind, get_gl, gets, on_world.
    pose proof (knows_submit_at ids (gt_accelerator (gw_gl w)) (gt_context_id (gw_gl w)) l _ Hk) as Hx.
    by destruct (submit_at mapped _ _ l (gw_world w)). }
  assert (Hu : forall f, preserves (fun w : gworld T => knows ids (gw_world w)) (upd_gl f)) by (by intros f w Hk).
  destruct o; cbn [do_gl]; unfold glClear, glClearColor, glClearDepth, glViewport, updateViewport, glBegin, glEnd, glVertex2f,
    glVertex3f, glVertex4f, glColor3f, glColor4f, glTexCoord2f, glTexCoord3f, glNormal3f, upd_attributes, glLoadIdentity,
    glMatrixMode, glEnable, glDisable, glFlush, glFinish, upd_batch, upd_gs;
    repeat first [apply preserves_ret | apply preserves_gets | apply Hs | apply Hu | apply knows_flush
      | apply preserves_bind; [|intros ?] | apply preserves_if | goal_case].
Qed.
End buffers.

(** The vertex buffer of a batch that was drawn stays with the host through
    every later call: the translator has no call that gives it back. *)
Theorem drawn_buffers_stay T `{Host T} mapped acc ctx mode vs nh (w : world T) t os :
  vs <> [] ->
  let '(r, w') := draw_batch mapped acc ctx mode vs nh w in
  r.1 = kIOReturnSuccess -> nh ∈ host_ids (w_tr (gw_world (run_gl mapped os (mk_gworld t w')).2)).
Proof.
  intros Hvs. pose proof (drawn_known mapped acc ctx mode vs nh Hvs w I) as Hd.
  destruct (draw_batch mapped acc ctx mode vs nh w) as [r w']. intros Hr. specialize (Hd Hr). cbn in Hd.
  assert (Hp : preserves (fun w : gworld T => knows {[nh]} (gw_world w)) (run_gl mapped os)).
  { induction os as [|o os IH]; [apply preserves_ret|]. apply preserves_bind; [apply knows_do|by intros _]. }
  specialize (Hp (mk_gworld t w') ltac:(unfold knows; cbn; set_solver)). unfold knows in Hp. set_solver.
Qed.

(** Handles are resource ids of the device, and every translator starts at 100:
    a batch whose handle is already the id of a resource is lost, and the host
    hears nothing of it. *)
Theorem handle_taken T `{Transport T} mapped ctx mode vs nh (w : world T) i :
  vs <> [] -> 0 < g_num_capsets (w_gpu w) -> findResource nh (g_pool (w_gpu w)) = Some i ->
  let '(r, w') := draw_batch mapped (Some true) ctx mode vs nh w in
  r = (kIOReturnBadArgument, u32 (nh + 1)) /\ w_tr w' = w_tr w.
Proof.
  intros Hvs Hc Hf. unfold draw_batch. destruct (Z.eqb_spec (Z.of_nat (length vs)) 0) as [E|_]; [destruct vs; [done|cbn in E; lia]|].
  unfold createVirglBuffer, createResource3D, lock_resources, unlock_resources, get_gpu, gets, upd_gpu, modify, bind, ret.
  cbn [w_gpu]. rewrite (proj2 (Z.ltb_lt _ _) Hc). cbn [negb w_gpu set_g_resource_lock g_pool]. by rewrite Hf.
Qed.

(** [init] and [free]: when the vertex buffer cannot be had, [init] frees the
    command buffer and leaves the pointer to it, and the [free] that follows
    frees it again. *)
Theorem init_then_free T `{Transport T} (w : gworld T) :
  let '(ok, w1) := init w in
  let w2 := (free w1).2 in
  let heap (w : gworld T) := m_heap (w_mem (gw_world w)) in
  if ok then heap w1 = heap w + COMMAND_BUFFER_BYTES + VERTEX_BUFFER_BYTES /\ heap w2 = heap w
  else heap w1 = heap w
    /\ (heap w2 = heap w <-> gt_command_buffer (gw_gl w1) = false)
    /\ (gt_command_buffer (gw_gl w1) = true -> heap w2 = heap w - COMMAND_BUFFER_BYTES).
Proof.
  rewrite gl_init_run. destruct w as [gl [g [al ml hp pr rf mp] tr]]. cbn [gw_world w_mem m_mallocs m_heap].
  destruct ml as [|[b|] [|[b'|] ml]]; unfold free, bind, get_gl, gets, on_world, IOFree, heap_add, upd_mem, upd_gl, upd_batch, upd_gs, modify, ret;
    cbn -[COMMAND_BUFFER_BYTES VERTEX_BUFFER_BYTES Z.add Z.opp]; unfold COMMAND_BUFFER_BYTES, VERTEX_BUFFER_BYTES, MAX_BATCH_VERTICES, FLOATS;
    repeat split; intros; try done; lia.
Qed.

(** * Concrete cases *)
Definition demo_mapped (d : mdesc) : bool * bool := (true, true).
Definition demo_blocks (n : nat) (w : world host_machine) : world host_machine :=
  mk_world (w_gpu w)
    (set_m_allocs ((fun i => Some (mk_mdesc (Z.of_nat i) 0 kIOReturnSuccess [])) <$> seq 1 n)
       (set_m_mallocs (replicate n (Some [])) (w_mem w))) (w_tr w).
Definition demo_gl : gworld host_machine :=
  mk_gworld (mk_translator None 0 zero_state 0 false false false) (demo_blocks 20 (demo_world [])).
Definition demo_ready : gworld host_machine :=
  (initWithAccelerator demo_mapped (Some true) 1 (init demo_gl).2).2.
Definition demo_triangle : list gl_op :=
  [GColor3f f_1 f_0 f_0; GVertex2f f_0 f_0; GVertex2f f_1 f_0; GTexCoord2f f_1 f_1; GVertex3f f_0 f_1 f_0].

Lemma immediate_mode_batches_witness :
  let rw := (glBegin 4 ;;; run_gl demo_mapped demo_triangle ;;; glEnd demo_mapped) demo_ready in
  draw_all demo_mapped (Some true) 1 4 (batches capacity [] (shade (attributes_of demo_ready) demo_triangle)) 100 (gw_world demo_ready)
    = ((rw.1, gt_next_handle (gw_gl rw.2)), gw_world rw.2)
  /\ rw.1 = kIOReturnSuccess.
Proof.
  pose proof (immediate_mode_batches host_machine demo_mapped 4 demo_triangle demo_ready
    ltac:(vm_compute; reflexivity) ltac:(vm_compute; discriminate) ltac:(vm_compute; split; reflexivity)
    ltac:(vm_compute; reflexivity)) as Hm.
  cbn zeta. assert (Hs : ((glBegin 4 ;;; run_gl demo_mapped demo_triangle ;;; glEnd demo_mapped) demo_ready).1 = kIOReturnSuccess)
    by (vm_compute; reflexivity).
  revert Hm Hs. destruct ((glBegin 4 ;;; run_gl demo_mapped demo_triangle ;;; glEnd demo_mapped) demo_ready) as [r w'].
  intros (_ & _ & _ & E & _) Hs. split; [exact E|exact Hs].
Defined.
Definition demo_logged : gworld (logged host_machine) :=
  mk_gworld (gw_gl demo_gl) (mk_world (w_gpu (gw_world demo_gl)) (w_mem (gw_world demo_gl)) (mk_logged [] (w_tr (gw_world demo_gl)))).
Lemma every_stream_framed_witness :
  let w2 := (initWithAccelerator demo_mapped (Some true) 1 ;;; run_gl demo_mapped ([GClear 0x4100; GBegin 4] ++ demo_triangle ++ [GEnd]))
    (init demo_logged).2 in
  Forall framed (lg_sent (w_tr (gw_world w2.2))) /\ length (lg_sent (w_tr (gw_world w2.2))) = 9%nat.
Proof.
  split; [|vm_compute; reflexivity].
  exact (proj1 (every_stream_framed host_machine demo_mapped (Some true) 1 ([GClear 0x4100; GBegin 4] ++ demo_triangle ++ [GEnd])
    demo_logged (init demo_logged).2 eq_refl eq_refl)).
Defined.
Lemma upload_framing_witness :
  well_framed (dword_bytes (inline_write_stream 100 (u32 (1 * FLOATS * 4)) 0 (replicate 12 0))) = true.
Proof. apply (upload_framing 100 1 (replicate 12 0)); [unfold MAX_BATCH_VERTICES; lia|reflexivity]. Defined.

(** What the host hears of one triangle: the render target, the viewport, the
    buffer's creation and contents, its format, the bindings and the draw. *)
Example demo_streams :
  let w := run_gl demo_mapped ([GBegin 4] ++ demo_triangle ++ [GEnd]) demo_ready in
  (fun c => match c with
            | CmdSubmit _ _ _ data => (fun v => (vc_opcode v, vc_object v, Z.of_nat (length (vc_payload v)))) <$> default [] (parse (dwords data))
            | _ => [] end) <$> hm_sent (w_tr (gw_world w.2))
  = [[(VIRGL_CCMD_SET_FRAMEBUFFER_STATE, 0, 10)]; [(VIRGL_CCMD_SET_VIEWPORT_STATE, 0, 7)]; [];
     [(VIRGL_CCMD_RESOURCE_INLINE_WRITE, 0, 47)]; [(VIRGL_CCMD_CREATE_OBJECT, 0, 14)]; [(VIRGL_CCMD_BIND_OBJECT, 0, 2)];
     [(VIRGL_CCMD_SET_VERTEX_BUFFERS, 0, 4)]; [(VIRGL_CCMD_DRAW_VBO, 0, 11)]].
Proof. vm_compute. reflexivity. Qed.
(** Handles: the buffer takes 100, the elements 102. *)
Example demo_handles : gt_next_handle (gw_gl (run_gl demo_mapped ([GBegin 4] ++ demo_triangle ++ [GEnd]) demo_ready).2) = 103.
Proof. vm_compute. reflexivity. Qed.
(** The set-up loads the identity into the projection only. *)
Example identity_loaded :
  let m := gs_matrices (gt_state (gw_gl demo_ready)) in
  projection_matrix m = identity_matrix /\ modelview_matrix m = replicate 16 f_0.
Proof. vm_compute. by split. Qed.
(** A clear depth of 0.1 reaches the host as the double nearest to its [float]. *)
Example clear_depth_narrowed : double_of_single (single_of_double 0x3FB999999999999A) = 0x3FB99999A0000000.
Proof. vm_compute. reflexivity. Qed.
