(* ===== verification/Framebuffer.v ===== *)
(** The framebuffer: [VMVirtIOFramebuffer] of [FB/VMVirtIOFramebuffer.cpp],
    on top of the device object. One buffer, allocated once when the service
    starts, serves as the aperture the window server draws in, as the backing
    of host resource 1 and as the source of the transfers; a mode change makes
    a new resource over the same buffer.

    [m_scanout_taken_over_by_3d] is the device's [g_framebuffer] (see
    [Display.v]). The one-shot flags of [enableController] are C statics; the
    model has one framebuffer. What [super]'s methods return is only logged and
    left out, and so are the registry properties. *)
From S2P Require Import Prelude Wire Transport Driver SplitQueue ControlQueue CursorQueue Resources Tracking Display Accounts Probes Modes.

Record framebuffer := mk_framebuffer {
  f_gpu_driver : bool;
  f_fb_backing : option mdesc;
  f_fb_device_memory : option mdesc;
  f_fb_resource_id : Z;
  f_fb_allocation_width : Z;
  f_fb_allocation_height : Z;
  f_width : Z;
  f_height : Z;
  f_depth : Z;
  f_display_modes : list Z;
  f_current_mode : Z;
  f_display_mode : Z;
  f_depth_mode : Z;
  f_refresh_timer : option bool;
  f_scanout_resource_id : Z;
  f_full_refresh_tick_count : Z;
  f_already_enabled : bool;
  f_call_count : Z;
  f_resource_tracking_probed : bool;
  f_recreate_probed : bool;
  f_cursor_probed : bool;
  f_transport3d_probed : bool
}.

Definition set_f_gpu_driver (v : bool) (f : framebuffer) : framebuffer :=
  mk_framebuffer v (f_fb_backing f) (f_fb_device_memory f) (f_fb_resource_id f) (f_fb_allocation_width f) (f_fb_allocation_height f) (f_width f) (f_height f) (f_depth f) (f_display_modes f) (f_current_mode f) (f_display_mode f) (f_depth_mode f) (f_refresh_timer f) (f_scanout_resource_id f) (f_full_refresh_tick_count f) (f_already_enabled f) (f_call_count f) (f_resource_tracking_probed f) (f_recreate_probed f) (f_cursor_probed f) (f_transport3d_probed f).
Definition set_f_fb_backing (v : option mdesc) (f : framebuffer) : framebuffer :=
  mk_framebuffer (f_gpu_driver f) v (f_fb_device_memory f) (f_fb_resource_id f) (f_fb_allocation_width f) (f_fb_allocation_height f) (f_width f) (f_height f) (f_depth f) (f_display_modes f) (f_current_mode f) (f_display_mode f) (f_depth_mode f) (f_refresh_timer f) (f_scanout_resource_id f) (f_full_refresh_tick_count f) (f_already_enabled f) (f_call_count f) (f_resource_tracking_probed f) (f_recreate_probed f) (f_cursor_probed f) (f_transport3d_probed f).
Definition set_f_fb_device_memory (v : option mdesc) (f : framebuffer) : framebuffer :=
  mk_framebuffer (f_gpu_driver f) (f_fb_backing f) v (f_fb_resource_id f) (f_fb_allocation_width f) (f_fb_allocation_height f) (f_width f) (f_height f) (f_depth f) (f_display_modes f) (f_current_mode f) (f_display_mode f) (f_depth_mode f) (f_refresh_timer f) (f_scanout_resource_id f) (f_full_refresh_tick_count f) (f_already_enabled f) (f_call_count f) (f_resource_tracking_probed f) (f_recreate_probed f) (f_cursor_probed f) (f_transport3d_probed f).
Definition set_f_fb_resource_id (v : Z) (f : framebuffer) : framebuffer :=
  mk_framebuffer (f_gpu_driver f) (f_fb_backing f) (f_fb_device_memory f) v (f_fb_allocation_width f) (f_fb_allocation_height f) (f_width f) (f_height f) (f_depth f) (f_display_modes f) (f_current_mode f) (f_display_mode f) (f_depth_mode f) (f_refresh_timer f) (f_scanout_resource_id f) (f_full_refresh_tick_count f) (f_already_enabled f) (f_call_count f) (f_resource_tracking_probed f) (f_recreate_probed f) (f_cursor_probed f) (f_transport3d_probed f).
Definition set_f_fb_allocation_width (v : Z) (f : framebuffer) : framebuffer :=
  mk_framebuffer (f_gpu_driver f) (f_fb_backing f) (f_fb_device_memory f) (f_fb_resource_id f) v (f_fb_allocation_height f) (f_width f) (f_height f) (f_depth f) (f_display_modes f) (f_current_mode f) (f_display_mode f) (f_depth_mode f) (f_refresh_timer f) (f_scanout_resource_id f) (f_full_refresh_tick_count f) (f_already_enabled f) (f_call_count f) (f_resource_tracking_probed f) (f_recreate_probed f) (f_cursor_probed f) (f_transport3d_probed f).
Definition set_f_fb_allocation_height (v : Z) (f : framebuffer) : framebuffer :=
  mk_framebuffer (f_gpu_driver f) (f_fb_backing f) (f_fb_device_memory f) (f_fb_resource_id f) (f_fb_allocation_width f) v (f_width f) (f_height f) (f_depth f) (f_display_modes f) (f_current_mode f) (f_display_mode f) (f_depth_mode f) (f_refresh_timer f) (f_scanout_resource_id f) (f_full_refresh_tick_count f) (f_already_enabled f) (f_call_count f) (f_resource_tracking_probed f) (f_recreate_probed f) (f_cursor_probed f) (f_transport3d_probed f).
Definition set_f_width (v : Z) (f : framebuffer) : framebuffer :=
  mk_framebuffer (f_gpu_driver f) (f_fb_backing f) (f_fb_device_memory f) (f_fb_resource_id f) (f_fb_allocation_width f) (f_fb_allocation_height f) v (f_height f) (f_depth f) (f_display_modes f) (f_current_mode f) (f_display_mode f) (f_depth_mode f) (f_refresh_timer f) (f_scanout_resource_id f) (f_full_refresh_tick_count f) (f_already_enabled f) (f_call_count f) (f_resource_tracking_probed f) (f_recreate_probed f) (f_cursor_probed f) (f_transport3d_probed f).
Definition set_f_height (v : Z) (f : framebuffer) : framebuffer :=
  mk_framebuffer (f_gpu_driver f) (f_fb_backing f) (f_fb_device_memory f) (f_fb_resource_id f) (f_fb_allocation_width f) (f_fb_allocation_height f) (f_width f) v (f_depth f) (f_display_modes f) (f_current_mode f) (f_display_mode f) (f_depth_mode f) (f_refresh_timer f) (f_scanout_resource_id f) (f_full_refresh_tick_count f) (f_already_enabled f) (f_call_count f) (f_resource_tracking_probed f) (f_recreate_probed f) (f_cursor_probed f) (f_transport3d_probed f).
Definition set_f_depth (v : Z) (f : framebuffer) : framebuffer :=
  mk_framebuffer (f_gpu_driver f) (f_fb_backing f) (f_fb_device_memory f) (f_fb_resource_id f) (f_fb_allocation_width f) (f_fb_allocation_height f) (f_width f) (f_height f) v (f_display_modes f) (f_current_mode f) (f_display_mode f) (f_depth_mode f) (f_refresh_timer f) (f_scanout_resource_id f) (f_full_refresh_tick_count f) (f_already_enabled f) (f_call_count f) (f_resource_tracking_probed f) (f_recreate_probed f) (f_cursor_probed f) (f_transport3d_probed f).
Definition set_f_display_modes (v : list Z) (f : framebuffer) : framebuffer :=
  mk_framebuffer (f_gpu_driver f) (f_fb_backing f) (f_fb_device_memory f) (f_fb_resource_id f) (f_fb_allocation_width f) (f_fb_allocation_height f) (f_width f) (f_height f) (f_depth f) v (f_current_mode f) (f_display_mode f) (f_depth_mode f) (f_refresh_timer f) (f_scanout_resource_id f) (f_full_refresh_tick_count f) (f_already_enabled f) (f_call_count f) (f_resource_tracking_probed f) (f_recreate_probed f) (f_cursor_probed f) (f_transport3d_probed f).
Definition set_f_current_mode (v : Z) (f : framebuffer) : framebuffer :=
  mk_framebuffer (f_gpu_driver f) (f_fb_backing f) (f_fb_device_memory f) (f_fb_resource_id f) (f_fb_allocation_width f) (f_fb_allocation_height f) (f_width f) (f_height f) (f_depth f) (f_display_modes f) v (f_display_mode f) (f_depth_mode f) (f_refresh_timer f) (f_scanout_resource_id f) (f_full_refresh_tick_count f) (f_already_enabled f) (f_call_count f) (f_resource_tracking_probed f) (f_recreate_probed f) (f_cursor_probed f) (f_transport3d_probed f).
Definition set_f_display_mode (v : Z) (f : framebuffer) : framebuffer :=
  mk_framebuffer (f_gpu_driver f) (f_fb_backing f) (f_fb_device_memory f) (f_fb_resource_id f) (f_fb_allocation_width f) (f_fb_allocation_height f) (f_width f) (f_height f) (f_depth f) (f_display_modes f) (f_current_mode f) v (f_depth_mode f) (f_refresh_timer f) (f_scanout_resource_id f) (f_full_refresh_tick_count f) (f_already_enabled f) (f_call_count f) (f_resource_tracking_probed f) (f_recreate_probed f) (f_cursor_probed f) (f_transport3d_probed f).
Definition set_f_depth_mode (v : Z) (f : framebuffer) : framebuffer :=
  mk_framebuffer (f_gpu_driver f) (f_fb_backing f) (f_fb_device_memory f) (f_fb_resource_id f) (f_fb_allocation_width f) (f_fb_allocation_height f) (f_width f) (f_height f) (f_depth f) (f_display_modes f) (f_current_mode f) (f_display_mode f) v (f_refresh_timer f) (f_scanout_resource_id f) (f_full_refresh_tick_count f) (f_already_enabled f) (f_call_count f) (f_resource_tracking_probed f) (f_recreate_probed f) (f_cursor_probed f) (f_transport3d_probed f).
Definition set_f_refresh_timer (v : option bool) (f : framebuffer) : framebuffer :=
  mk_framebuffer (f_gpu_driver f) (f_fb_backing f) (f_fb_device_memory f) (f_fb_resource_id f) (f_fb_allocation_width f) (f_fb_allocation_height f) (f_width f) (f_height f) (f_depth f) (f_display_modes f) (f_current_mode f) (f_display_mode f) (f_depth_mode f) v (f_scanout_resource_id f) (f_full_refresh_tick_count f) (f_already_enabled f) (f_call_count f) (f_resource_tracking_probed f) (f_recreate_probed f) (f_cursor_probed f) (f_transport3d_probed f).
Definition set_f_scanout_resource_id (v : Z) (f : framebuffer) : framebuffer :=
  mk_framebuffer (f_gpu_driver f) (f_fb_backing f) (f_fb_device_memory f) (f_fb_resource_id f) (f_fb_allocation_width f) (f_fb_allocation_height f) (f_width f) (f_height f) (f_depth f) (f_display_modes f) (f_current_mode f) (f_display_mode f) (f_depth_mode f) (f_refresh_timer f) v (f_full_refresh_tick_count f) (f_already_enabled f) (f_call_count f) (f_resource_tracking_probed f) (f_recreate_probed f) (f_cursor_probed f) (f_transport3d_probed f).
Definition set_f_full_refresh_tick_count (v : Z) (f : framebuffer) : framebuffer :=
  mk_framebuffer (f_gpu_driver f) (f_fb_backing f) (f_fb_device_memory f) (f_fb_resource_id f) (f_fb_allocation_width f) (f_fb_allocation_height f) (f_width f) (f_height f) (f_depth f) (f_display_modes f) (f_current_mode f) (f_display_mode f) (f_depth_mode f) (f_refresh_timer f) (f_scanout_resource_id f) v (f_already_enabled f) (f_call_count f) (f_resource_tracking_probed f) (f_recreate_probed f) (f_cursor_probed f) (f_transport3d_probed f).
Definition set_f_already_enabled (v : bool) (f : framebuffer) : framebuffer :=
  mk_framebuffer (f_gpu_driver f) (f_fb_backing f) (f_fb_device_memory f) (f_fb_resource_id f) (f_fb_allocation_width f) (f_fb_allocation_height f) (f_width f) (f_height f) (f_depth f) (f_display_modes f) (f_current_mode f) (f_display_mode f) (f_depth_mode f) (f_refresh_timer f) (f_scanout_resource_id f) (f_full_refresh_tick_count f) v (f_call_count f) (f_resource_tracking_probed f) (f_recreate_probed f) (f_cursor_probed f) (f_transport3d_probed f).
Definition set_f_call_count (v : Z) (f : framebuffer) : framebuffer :=
  mk_framebuffer (f_gpu_driver f) (f_fb_backing f) (f_fb_device_memory f) (f_fb_resource_id f) (f_fb_allocation_width f) (f_fb_allocation_height f) (f_width f) (f_height f) (f_depth f) (f_display_modes f) (f_current_mode f) (f_display_mode f) (f_depth_mode f) (f_refresh_timer f) (f_scanout_resource_id f) (f_full_refresh_tick_count f) (f_already_enabled f) v (f_resource_tracking_probed f) (f_recreate_probed f) (f_cursor_probed f) (f_transport3d_probed f).
Definition set_f_resource_tracking_probed (v : bool) (f : framebuffer) : framebuffer :=
  mk_framebuffer (f_gpu_driver f) (f_fb_backing f) (f_fb_device_memory f) (f_fb_resource_id f) (f_fb_allocation_width f) (f_fb_allocation_height f) (f_width f) (f_height f) (f_depth f) (f_display_modes f) (f_current_mode f) (f_display_mode f) (f_depth_mode f) (f_refresh_timer f) (f_scanout_resource_id f) (f_full_refresh_tick_count f) (f_already_enabled f) (f_call_count f) v (f_recreate_probed f) (f_cursor_probed f) (f_transport3d_probed f).
Definition set_f_recreate_probed (v : bool) (f : framebuffer) : framebuffer :=
  mk_framebuffer (f_gpu_driver f) (f_fb_backing f) (f_fb_device_memory f) (f_fb_resource_id f) (f_fb_allocation_width f) (f_fb_allocation_height f) (f_width f) (f_height f) (f_depth f) (f_display_modes f) (f_current_mode f) (f_display_mode f) (f_depth_mode f) (f_refresh_timer f) (f_scanout_resource_id f) (f_full_refresh_tick_count f) (f_already_enabled f) (f_call_count f) (f_resource_tracking_probed f) v (f_cursor_probed f) (f_transport3d_probed f).
Definition set_f_cursor_probed (v : bool) (f : framebuffer) : framebuffer :=
  mk_framebuffer (f_gpu_driver f) (f_fb_backing f) (f_fb_device_memory f) (f_fb_resource_id f) (f_fb_allocation_width f) (f_fb_allocation_height f) (f_width f) (f_height f) (f_depth f) (f_display_modes f) (f_current_mode f) (f_display_mode f) (f_depth_mode f) (f_refresh_timer f) (f_scanout_resource_id f) (f_full_refresh_tick_count f) (f_already_enabled f) (f_call_count f) (f_resource_tracking_probed f) (f_recreate_probed f) v (f_transport3d_probed f).
Definition set_f_transport3d_probed (v : bool) (f : framebuffer) : framebuffer :=
  mk_framebuffer (f_gpu_driver f) (f_fb_backing f) (f_fb_device_memory f) (f_fb_resource_id f) (f_fb_allocation_width f) (f_fb_allocation_height f) (f_width f) (f_height f) (f_depth f) (f_display_modes f) (f_current_mode f) (f_display_mode f) (f_depth_mode f) (f_refresh_timer f) (f_scanout_resource_id f) (f_full_refresh_tick_count f) (f_already_enabled f) (f_call_count f) (f_resource_tracking_probed f) (f_recreate_probed f) (f_cursor_probed f) v.

(** The framebuffer and the device it drives. *)
Record screen (T : Type) := mk_screen { s_fb : framebuffer; s_dev : device T }.
Arguments mk_screen {T}.
Arguments s_fb {T}.
Arguments s_dev {T}.

(** [init], as far as the members go. *)
Definition init_framebuffer : framebuffer :=
  mk_framebuffer false None None 0 0 0 1024 768 32 [] 0 0 0 None 1 0 false 0 false false false false.

Definition FULL_REFRESH_INTERVAL : Z := 4.
Definition FORMAT : Z := 0x1. (* VIRTIO_GPU_FORMAT_B8G8R8A8_UNORM *)

(** [ceilings] *)
Definition ceilings : list (Z * Z) :=
  [(4096, 2160); (2560, 1600); (1920, 1200); (1600, 1200); (1280, 1024); (1024, 768)].

Section framebuffer.
Context {T : Type} `{Transport T}.
Context (env : nat -> shared -> shared) (expired : nat -> bool) (fuel : nat).
Context (mapped : mdesc -> bool * bool) (dma : nat -> list Z -> list Z).
Abbreviation S := (screen T).

Definition get_fb {A} (f : framebuffer -> A) : M S A := gets (fun s => f (s_fb s)).
Definition upd_fb (f : framebuffer -> framebuffer) : M S unit :=
  modify (fun s => mk_screen (f (s_fb s)) (s_dev s)).
Definition on_device {A} (m : M (device T) A) : M S A :=
  fun s => let '(a, d) := m (s_dev s) in (a, mk_screen (s_fb s) d).
Definition on_gpu {A} (m : M (world T) A) : M S A := on_device (on_world m).

(** ** The buffer *)
(** [IOBufferMemoryDescriptor::withOptions]: what it returns, its length
    included, is the kernel's answer. *)
Definition withOptions : M (world T) (option mdesc) :=
  fun w =>
    match m_allocs (w_mem w) with
    | Some d :: l =>
        (Some d, mk_world (w_gpu w)
           (set_m_refs (bump 1 (md_id d) (m_refs (w_mem w))) (set_m_allocs l (w_mem w))) (w_tr w))
    | None :: l => (None, mk_world (w_gpu w) (set_m_allocs l (w_mem w)) (w_tr w))
    | [] => (None, w)
    end.

(** [IODeviceMemory::withRange] *)
Definition withRange (phys len : Z) : M (world T) (option mdesc) :=
  let! d := new_descriptor len in
  ret ((fun d => mk_mdesc (md_id d) len (md_prepare d) [(phys, len)]) <$> d).

Fixpoint try_ceilings (cs : list (Z * Z)) : M (world T) (option (mdesc * mdesc * (Z * Z))) :=
  match cs with
  | [] => ret None
  | (w, h) :: cs' =>
      let try_size := w * h * 4 in
      let! backing := withOptions in
      match backing with
      | None => try_ceilings cs'
      | Some b =>
          let! prepare_ret := prepare b in
          if negb (is_success prepare_ret) then release (md_id b) ;;; try_ceilings cs'
          else
            let phys := (default (0, 0) (head (md_segs b))).1 in
            let! dev_mem := withRange phys try_size in
            match dev_mem with
            | None => complete (md_id b) ;;; release (md_id b) ;;; try_ceilings cs'
            | Some m =>
                if negb (md_length b =? try_size) then
                  release (md_id m) ;;; complete (md_id b) ;;; release (md_id b) ;;; try_ceilings cs'
                else if negb (Nat.eqb (length (walk_segs (md_segs b))) 1) then
                  release (md_id m) ;;; complete (md_id b) ;;; release (md_id b) ;;; try_ceilings cs'
                else ret (Some (b, m, (w, h)))
            end
      end
  end.

Definition initDisplayModes : M S unit :=
  upd_fb (fun f => set_f_current_mode 0 (set_f_display_modes [] f)).

Definition filterModesByAllocation : M S unit :=
  upd_fb (fun f =>
    let '(modes, cur) := filter_modes (md_length <$> f_fb_backing f) in
    set_f_current_mode cur (set_f_display_modes modes f)).

(** The end of [start]: the buffer, and the modes it can hold. *)
Definition start_buffer : M S unit :=
  let! r := on_gpu (try_ceilings ceilings) in
  match r with
  | Some (b, m, (w, h)) =>
      upd_fb (fun f => set_f_fb_allocation_height h (set_f_fb_allocation_width w
                (set_f_fb_device_memory (Some m) (set_f_fb_backing (Some b) f))))
  | None => ret tt
  end ;;;
  filterModesByAllocation.

(** The aperture and the VRAM range are the buffer, retained for the
    caller. *)
Definition kIOFBSystemAperture : Z := 0.
Definition getVRAMRange : M S (option mdesc) :=
  let! m := get_fb f_fb_device_memory in
  match m with
  | Some d => on_gpu (retain (md_id d)) ;;; ret (Some d)
  | None => ret None
  end.
Definition getApertureRange (aperture : Z) : M S (option mdesc) :=
  if negb (aperture =? kIOFBSystemAperture) then ret None else getVRAMRange.

Definition getDisplayModeCount : M S Z := get_fb (fun f => Z.of_nat (length (f_display_modes f))).
Definition getDisplayModes (allDisplayModes : bool) : M S (IOReturn * list Z) :=
  if negb allDisplayModes then ret (kIOReturnBadArgument, [])
  else let! l := get_fb f_display_modes in ret (kIOReturnSuccess, l).
Definition getCurrentDisplayMode : M S (IOReturn * (Z * Z)) :=
  let! m := get_fb f_current_mode in ret (kIOReturnSuccess, (m, 0)).

(** ** The resource *)
Definition teardownFramebufferResource : M S unit :=
  let! id := get_fb f_fb_resource_id in
  let! gpu := get_fb f_gpu_driver in
  if negb (id =? 0) && gpu
  then on_gpu (deallocateResource id) ;;; upd_fb (set_f_fb_resource_id 0)
  else ret tt.

Definition setupFramebufferResource (width height : Z) : M S IOReturn :=
  let! f := get_fb (fun f => f) in
  if negb (f_gpu_driver f) then ret kIOReturnNotReady
  else if (width =? 0) || (height =? 0) || (8192 <? width) || (8192 <? height)
  then ret kIOReturnBadArgument
  else match f_fb_backing f, f_fb_device_memory f with
  | Some backing, Some _ =>
      if negb (f_fb_resource_id f =? 0) && (f_width f =? width) && (f_height f =? height)
      then ret kIOReturnSuccess
      else if md_length backing <? u64 (u64 (width * height) * 4) then ret kIOReturnNoSpace
      else
        teardownFramebufferResource ;;;
        upd_fb (set_f_fb_resource_id 1) ;;;
        let! create_ret := on_gpu (createResource2D 1 FORMAT width height (Some backing)) in
        if negb (is_success create_ret) then teardownFramebufferResource ;;; ret create_ret
        else
          let! scanout_ret := on_gpu (setscanout 0 1 0 0 width height) in
          if negb (is_success scanout_ret) then teardownFramebufferResource ;;; ret scanout_ret
          else
            upd_fb (fun f => set_f_height height (set_f_width width f)) ;;;
            ret kIOReturnSuccess
  | _, _ => ret kIOReturnNotReady
  end.

(** ** The self-check of the recreate path *)
Inductive recreate_verdict :=
  | RP_Precondition | RP_FailA (r : IOReturn) | RP_FailB | RP_FailC (r : IOReturn)
  | RP_FailD_moved | RP_FailD_dims | RP_Pass.

(** The descriptors' identities are what the code compares. *)
Definition same_object (a b : option mdesc) : bool := bool_decide (md_id <$> a = md_id <$> b).

Definition probeResourceRecreate : M S recreate_verdict :=
  let! f := get_fb (fun f => f) in
  match f_fb_backing f, f_fb_device_memory f with
  | Some _, Some _ =>
      if f_fb_resource_id f =? 0 then ret RP_Precondition
      else
        let saved_w := f_width f in
        let saved_h := f_height f in
        let probe_w := if 100 <? saved_w then saved_w - 100 else saved_w + 100 in
        let probe_h := if 100 <? saved_h then saved_h - 100 else saved_h + 100 in
        let! recreate_ret := setupFramebufferResource probe_w probe_h in
        if negb (is_success recreate_ret)
        then setupFramebufferResource saved_w saved_h ;;; ret (RP_FailA recreate_ret)
        else
          let! g := get_fb (fun f => f) in
          if negb (same_object (f_fb_backing g) (f_fb_backing f)
                   && same_object (f_fb_device_memory g) (f_fb_device_memory f))
          then setupFramebufferResource saved_w saved_h ;;; ret RP_FailB
          else
            let! restore_ret := setupFramebufferResource saved_w saved_h in
            if negb (is_success restore_ret) then ret (RP_FailC restore_ret)
            else
              let! k := get_fb (fun f => f) in
              if negb (same_object (f_fb_backing k) (f_fb_backing f)
                       && same_object (f_fb_device_memory k) (f_fb_device_memory f))
              then ret RP_FailD_moved
              else if negb (f_width k =? saved_w) || negb (f_height k =? saved_h)
              then ret RP_FailD_dims
              else ret RP_Pass
  | _, _ => ret RP_Precondition
  end.

(** ** Refreshing *)
Definition taken_over : M S bool := on_gpu (get_gpu (fun g => default false (g_framebuffer g))).

Definition refreshDisplay : M S unit :=
  let! f := get_fb (fun f => f) in
  if negb (f_gpu_driver f) then ret tt
  else if f_scanout_resource_id f =? 0 then ret tt
  else
    let! taken := taken_over in
    if taken then ret tt
    else
      let ticks := u32 (f_full_refresh_tick_count f + 1) in
      upd_fb (set_f_full_refresh_tick_count ticks) ;;;
      if ticks <? FULL_REFRESH_INTERVAL then ret tt
      else
        upd_fb (set_f_full_refresh_tick_count 0) ;;;
        let! transfer_result := on_gpu (transferToHost2D (f_scanout_resource_id f) 0 0 0 (f_width f) (f_height f)) in
        if negb (is_success transfer_result) then ret tt
        else
          on_gpu (flushResource (f_scanout_resource_id f) 0 0 (f_width f) (f_height f)) ;;;
          ret tt.

(** The timer event: one-shot, so that it has to be armed again. *)
Definition displayRefreshTimer : M S unit :=
  upd_fb (fun f => set_f_refresh_timer ((fun _ => false) <$> f_refresh_timer f) f) ;;;
  refreshDisplay ;;;
  upd_fb (fun f => set_f_refresh_timer ((fun _ => true) <$> f_refresh_timer f) f).

(** ** setDisplayMode *)
Definition setDisplayMode (displayMode : Z) : M S IOReturn :=
  let! modes := get_fb f_display_modes in
  if negb (existsb (fun m => m =? displayMode) modes) then ret kIOReturnUnsupported
  else
    upd_fb (set_f_current_mode displayMode) ;;;
    match (getInformationForDisplayMode true displayMode).2 with
    | None => ret kIOReturnSuccess
    | Some i =>
        let new_w := mi_nominalWidth i in
        let new_h := mi_nominalHeight i in
        let! f := get_fb (fun f => f) in
        let! setup_ret :=
          (if negb (new_w =? f_width f) || negb (new_h =? f_height f) || (f_fb_resource_id f =? 0)
           then setupFramebufferResource new_w new_h else ret kIOReturnSuccess) in
        if negb (is_success setup_ret) then ret setup_ret
        else
          upd_fb (set_f_depth 32) ;;;
          refreshDisplay ;;;
          ret kIOReturnSuccess
    end.

(** ** enableController *)
Definition once {A} (flag : framebuffer -> bool) (set : bool -> framebuffer -> framebuffer)
    (dflt : A) (m : M S A) : M S A :=
  let! done_before := get_fb flag in
  if done_before then ret dflt else upd_fb (set true) ;;; m.

(** The display set-up for the current mode; [None]: the cursor queue's wait
    has not ended. *)
Definition enable_display (i : IODisplayModeInformation) : M S (option unit) :=
  let w := mi_nominalWidth i in
  let h := mi_nominalHeight i in
  upd_fb (fun f => set_f_depth 32 (set_f_height h (set_f_width w f))) ;;;
  on_gpu (setscanout 0 999 0 0 w h) ;;;
  once f_resource_tracking_probed set_f_resource_tracking_probed tt
    (on_gpu probeResourceTracking ;;; ret tt) ;;;
  let! setup_ret := setupFramebufferResource w h in
  if negb (is_success setup_ret) then ret (Some tt)
  else
    once f_recreate_probed set_f_recreate_probed tt (probeResourceRecreate ;;; ret tt) ;;;
    let! ended := once f_cursor_probed set_f_cursor_probed true
      (let! v := on_device (probeCursorTransport env expired fuel) in
       ret (match v with Some _ => true | None => false end)) in
    if negb ended then ret None
    else
      once f_transport3d_probed set_f_transport3d_probed tt
        (on_gpu (probeTransport3D mapped dma) ;;; ret tt) ;;;
      let! f := get_fb (fun f => f) in
      on_gpu (transferToHost2D (f_fb_resource_id f) 0 0 0 (f_width f) (f_height f)) ;;;
      on_gpu (flushResource (f_fb_resource_id f) 0 0 (f_width f) (f_height f)) ;;;
      ret (Some tt).

Definition enableController : M S (option IOReturn) :=
  upd_fb (fun f => set_f_call_count (f_call_count f + 1) f) ;;;
  let! f := get_fb (fun f => f) in
  if f_already_enabled f && (2 <? f_call_count f) then ret (Some kIOReturnSuccess)
  else
    upd_fb (set_f_already_enabled true) ;;;
    let! ended :=
      (if f_gpu_driver f then
         match (getInformationForDisplayMode true (f_current_mode f)).2 with
         | Some i => enable_display i
         | None => ret (Some tt)
         end
       else ret (Some tt)) in
    match ended with
    | None => ret None
    | Some _ =>
        (if f_gpu_driver f
         then upd_fb (fun f => set_f_refresh_timer ((fun _ => true) <$> f_refresh_timer f) f)
         else ret tt) ;;;
        ret (Some kIOReturnSuccess)
    end.

(** ** open, close, stop, free *)
(** [open] forces the parent's status to success; its own display set-up is
    under [if (false && ...)]. *)
Definition open (super_open : IOReturn) : M S IOReturn :=
  ret (if negb (is_success super_open) then kIOReturnSuccess else super_open).

Definition close : M S unit := upd_fb (set_f_refresh_timer None).

(** [stop], without the accelerator and the PCI range. *)
Definition stop : M S unit := teardownFramebufferResource.

Definition free : M S unit :=
  upd_fb (set_f_refresh_timer None) ;;;
  teardownFramebufferResource ;;;
  let! m := get_fb f_fb_device_memory in
  match m with
  | Some d => on_gpu (release (md_id d)) ;;; upd_fb (set_f_fb_device_memory None)
  | None => ret tt
  end ;;;
  let! b := get_fb f_fb_backing in
  match b with
  | Some d => on_gpu (complete (md_id d)) ;;; on_gpu (release (md_id d)) ;;; upd_fb (set_f_fb_backing None)
  | None => ret tt
  end.
End framebuffer.

(** A triple at one state, with the run as one term. *)
Lemma hoare_at {S A} (m : M S A) s (Q : A -> S -> Prop) :
  (let '(a, s') := m s in Q a s') -> Q (m s).1 (m s).2.
Proof. by destruct (m s). Qed.

Lemma hoare_pure {S A} (C : Prop) (P : S -> Prop) (m : M S A) Q :
  (C -> hoare P m Q) -> hoare (fun s => C /\ P s) m Q.
Proof. intros Hm s [HC HP]. by apply (Hm HC). Qed.

(** * Triples at a known framebuffer
    [at_fb f q P]: the framebuffer's members are [f], the cursor queue is [q],
    and the rest of the device satisfies [P]. *)
Definition at_fb {T} (f : framebuffer) (q : curq) (P : world T -> Prop) (s : screen T) : Prop :=
  s_fb s = f /\ d_cursor (s_dev s) = q /\ P (d_world (s_dev s)).

Section triples.
Context {T : Type} `{Transport T}.

Lemma at_get {A B} f q P (g : framebuffer -> A) (k : A -> M (screen T) B) Q :
  hoare (at_fb f q P) (k (g f)) Q -> hoare (at_fb f q P) (bind (get_fb g) k) Q.
Proof. intros Hk s Hs. pose proof Hs as [Hf _]. unfold bind, get_fb, gets. rewrite Hf. by apply Hk. Qed.
Lemma at_upd {B} f q P u (k : unit -> M (screen T) B) Q :
  hoare (at_fb (u f) q P) (k tt) Q -> hoare (at_fb f q P) (bind (upd_fb u) k) Q.
Proof. intros Hk s (Hf & Hq & HP). apply Hk. split_and!; [by rewrite <- Hf|done|done]. Qed.
Lemma at_gpu {A B} f q P R (m : M (world T) A) (k : A -> M (screen T) B) Q :
  hoare P m R -> (forall a, hoare (at_fb f q (R a)) (k a) Q) -> hoare (at_fb f q P) (bind (on_gpu m) k) Q.
Proof.
  intros Hm Hk s (Hf & Hq & HP). unfold bind, on_gpu, on_device, on_world. specialize (Hm _ HP).
  destruct (m (d_world (s_dev s))) as [a w]. apply Hk. by split_and!.
Qed.
Lemma at_ret {A} f q P (a : A) (Q : A -> screen T -> Prop) :
  (forall s, at_fb f q P s -> Q a s) -> hoare (at_fb f q P) (ret a) Q.
Proof. intros HQ s Hs. by apply HQ. Qed.
Lemma at_weaken {A} f q (P P' : world T -> Prop) (m : M (screen T) A) Q :
  (forall w, P w -> P' w) -> hoare (at_fb f q P') m Q -> hoare (at_fb f q P) m Q.
Proof. intros HP Hm s (Hf & Hq & Hw). apply Hm. split_and!; auto. Qed.
(** A last step seen as one that is followed. *)
Lemma hoare_last {S A} (P : S -> Prop) (m : M S A) Q :
  hoare P (bind m ret) Q -> hoare P m Q.
Proof. intros Hm s Hs. specialize (Hm s Hs). unfold bind in Hm. by destruct (m s). Qed.
Lemma hoare_assoc {S A B C} (P : S -> Prop) (m : M S A) (k : A -> M S B) (l : B -> M S C) Q :
  hoare P (bind m (fun a => bind (k a) l)) Q -> hoare P (bind (bind m k) l) Q.
Proof. intros Hm s Hs. specialize (Hm s Hs). unfold bind in *. by destruct (m s). Qed.
End triples.

(** What a set-up asks before it touches anything, and whether it finds the
    resource already there. *)
Definition already_live (wd ht : Z) (f : framebuffer) : bool :=
  negb (f_fb_resource_id f =? 0) && (f_width f =? wd) && (f_height f =? ht).
Definition can_setup (wd ht : Z) (f : framebuffer) : bool :=
  f_gpu_driver f && negb ((wd =? 0) || (ht =? 0) || (8192 <? wd) || (8192 <? ht))
  && match f_fb_backing f, f_fb_device_memory f with
     | Some b, Some _ => already_live wd ht f || negb (md_length b <? u64 (u64 (wd * ht) * 4))
     | _, _ => false
     end.
Definition sized (wd ht : Z) (f : framebuffer) : framebuffer :=
  set_f_height ht (set_f_width wd (set_f_fb_resource_id 1 (set_f_fb_resource_id 0 f))).

Section setup.
Context {T : Type} `{Host T}.
Abbreviation W := (world T).

(** The framebuffer's resource, at that size. *)
Definition shown (wd ht : Z) (w : W) : Prop := tracks 1 (slot_2d FORMAT wd ht false) w.

(** How a set-up can end, from the members [f] and the device property [X]. *)
Inductive setup_outcome (wd ht : Z) (f : framebuffer) (q : curq) (X : W -> Prop)
  : IOReturn -> screen T -> Prop :=
  | so_refused r s :
      can_setup wd ht f = false -> r <> kIOReturnSuccess ->
      at_fb f q (fun w => pool_sound w /\ X w) s -> setup_outcome wd ht f q X r s
  | so_live s :
      can_setup wd ht f = true -> already_live wd ht f = true ->
      at_fb f q (fun w => pool_sound w /\ X w) s -> setup_outcome wd ht f q X kIOReturnSuccess s
  | so_failed r f' s :
      can_setup wd ht f = true -> already_live wd ht f = false -> r <> kIOReturnSuccess ->
      f' = set_f_fb_resource_id 0 f ->
      at_fb f' q pool_sound s -> setup_outcome wd ht f q X r s
  | so_made s :
      can_setup wd ht f = true -> already_live wd ht f = false ->
      at_fb (sized wd ht f) q (fun w => pool_sound w /\ shown wd ht w) s ->
      setup_outcome wd ht f q X kIOReturnSuccess s.

Lemma teardown_at f q X :
  f_gpu_driver f = true -> f_fb_resource_id f = 0 \/ f_fb_resource_id f = 1 ->
  hoare (at_fb f q (fun w => pool_sound w /\ X w)) teardownFramebufferResource
    (fun _ => at_fb (set_f_fb_resource_id 0 f) q pool_sound).
Proof.
  intros Hg Hid. unfold teardownFramebufferResource. apply at_get, at_get. rewrite Hg.
  destruct Hid as [Hid|Hid]; rewrite Hid; cbn [Z.eqb negb andb].
  - apply at_ret. intros s (Hf & Hq & Hw & _). split_and!; [|done|done]. rewrite Hf. destruct f. cbn in *. by subst.
  - apply (at_gpu _ _ _ (fun _ => pool_sound)); [intros w [Hw _]; exact (sound_deallocate 1 w Hw)|]. intros _.
    apply hoare_last, at_upd, at_ret. done.
Qed.

Lemma one_neq_0 : 1 <> 0.
Proof. done. Qed.
Lemma rv_setscanout a b c d e g : keeps (rv (T := T)) (setscanout a b c d e g).
Proof. unfold setscanout, ready, setScanoutTakenOverBy3D. keeps_tac. Qed.

Lemma setup_at wd ht f q X :
  f_fb_resource_id f = 0 \/ f_fb_resource_id f = 1 ->
  hoare (at_fb f q (fun w => pool_sound w /\ X w)) (setupFramebufferResource wd ht)
    (setup_outcome wd ht f q X).
Proof.
  intros Hid. unfold setupFramebufferResource. apply at_get.
  assert (Hno : forall r, can_setup wd ht f = false -> r <> kIOReturnSuccess ->
    hoare (at_fb f q (fun w => pool_sound w /\ X w)) (ret r) (setup_outcome wd ht f q X)).
  { intros r Hc Hr. apply at_ret. intros s Hs. by apply so_refused. }
  destruct (f_gpu_driver f) eqn:Eg; cbn [negb]; [|apply Hno; [|done]; unfold can_setup; by rewrite Eg].
  destruct ((wd =? 0) || (ht =? 0) || (8192 <? wd) || (8192 <? ht)) eqn:Ed;
    [apply Hno; [|done]; unfold can_setup; by rewrite Ed, andb_false_r|].
  destruct (f_fb_backing f) as [b|] eqn:Eb; [|apply Hno; [|done]; unfold can_setup; by rewrite Eb, andb_false_r].
  destruct (f_fb_device_memory f) as [m|] eqn:Em;
    [|apply Hno; [|done]; unfold can_setup; by rewrite Eb, Em, andb_false_r].
  fold (already_live wd ht f).
  assert (Hcan : can_setup wd ht f = already_live wd ht f || negb (md_length b <? u64 (u64 (wd * ht) * 4))).
  { unfold can_setup. by rewrite Eg, Ed, Eb, Em. }
  destruct (already_live wd ht f) eqn:El.
  { apply at_ret. intros s Hs. by apply so_live. }
  destruct (md_length b <? u64 (u64 (wd * ht) * 4)) eqn:Ef; [by apply Hno|]. cbn [orb negb] in Hcan.
  assert (Hfail : forall f' r, f_gpu_driver f' = true -> f_fb_resource_id f' = 1 ->
      set_f_fb_resource_id 0 f' = set_f_fb_resource_id 0 f -> r <> kIOReturnSuccess ->
      hoare (at_fb f' q pool_sound) (teardownFramebufferResource ;;; ret r) (setup_outcome wd ht f q X)).
  { intros f' r Hg' Hid' Heq Hr. eapply hoare_bind.
    - apply (at_weaken _ _ _ (fun w => pool_sound w /\ True)); [done|].
      apply teardown_at; [done|by right].
    - intros ?; cbn beta. apply at_ret. intros s Hs. by eapply so_failed. }
  eapply hoare_bind; [by apply teardown_at|]. intros ?; cbn beta. apply at_upd.
  set (f1 := set_f_fb_resource_id 1 _).
  apply (at_gpu _ _ _ (fun r w => pool_sound w /\ (r = kIOReturnSuccess -> shown wd ht w))).
  { intros w Hw. exact (conj (sound_create2D 1 FORMAT wd ht (Some b) w Hw)
      (fun Hr => tracks_created 1 FORMAT wd ht (Some b) w Hw one_neq_0 Hr)). }
  intros r. cbn beta. destruct (is_success r) eqn:Er; cbn [negb].
  2: { apply (at_weaken _ _ _ pool_sound); [by intros w [Hw _]|]. apply Hfail; [done|done|by destruct f|].
       by apply is_success_false. }
  apply is_success_true in Er. subst r.
  eapply (at_gpu _ _ _ (fun _ w => pool_sound w /\ shown wd ht w)).
  { intros w [Hw Ht]. split; [by apply (sound_keeps _ (rv_setscanout _ _ _ _ _ _))|].
    by apply tracks_keeps; [apply rv_setscanout|apply Ht]. }
  intros r. destruct (is_success r) eqn:Er; cbn [negb].
  2: { apply (at_weaken _ _ _ pool_sound); [by intros w [Hw _]|]. apply Hfail; [done|done|by destruct f|].
       by apply is_success_false. }
  apply at_upd, at_ret. intros s Hs. by apply so_made.
Qed.
End setup.

(** * The invariant
    The buffer is [b0], seen through the device memory [m0]; [g] says whether
    there is a driver and [c] is the current mode. Whatever resource there is
    has the framebuffer's recorded size, which satisfies [D], and the host
    shows that resource from the buffer. *)
Section invariant.
Context {T : Type} `{Host T}.
Context (b0 m0 : option mdesc).
Hypothesis both : is_Some b0 <-> is_Some m0.
Abbreviation W := (world T).
Abbreviation S := (screen T).
Definition gpu_of (s : S) : W := d_world (s_dev s).

Definition advertised : list Z := (filter_modes (md_length <$> b0)).1.

Record screen_ok (g : bool) (c : Z) (D : Z -> Z -> Prop) (s : S) : Prop := {
  ok_gpu : f_gpu_driver (s_fb s) = g;
  ok_backing : f_fb_backing (s_fb s) = b0;
  ok_memory : f_fb_device_memory (s_fb s) = m0;
  ok_modes : f_display_modes (s_fb s) = advertised;
  ok_current : f_current_mode (s_fb s) = c;
  ok_scanout : f_scanout_resource_id (s_fb s) = 1;
  ok_id : f_fb_resource_id (s_fb s) = 0 \/ f_fb_resource_id (s_fb s) = 1;
  ok_live : f_fb_resource_id (s_fb s) <> 0 -> g = true /\ D (f_width (s_fb s)) (f_height (s_fb s));
  ok_shown : f_fb_resource_id (s_fb s) <> 0 ->
    shown (f_width (s_fb s)) (f_height (s_fb s)) (gpu_of s);
  ok_pool : pool_sound (gpu_of s);
  ok_cursor : cu_ready (d_cursor (s_dev s))
}.

(** A size the driver, if there is one, can set up in the buffer. *)
Definition fits_buffer (wd ht : Z) : Prop :=
  0 < wd <= 8192 /\ 0 < ht <= 8192
  /\ exists b m, b0 = Some b /\ m0 = Some m /\ wd * ht * 4 <= md_length b.

Lemma fits_can_setup c D wd ht s :
  screen_ok true c D s -> fits_buffer wd ht -> can_setup wd ht (s_fb s) = true.
Proof.
  intros [Hg Hb Hm _ _ _ _ _ _ _ _] (Hw & Hh & b & m & -> & -> & Hf). unfold can_setup.
  rewrite Hg, Hb, Hm. cbn [andb].
  assert (0 <= wd * ht <= 8192 * 8192) by nia.
  rewrite (proj2 (Z.eqb_neq wd 0)), (proj2 (Z.eqb_neq ht 0)), !(proj2 (Z.ltb_ge 8192 _)) by lia. cbn [orb negb andb].
  rewrite !u64_small by (rewrite ?u64_small; lia). by rewrite (proj2 (Z.ltb_ge _ _)), orb_true_r by lia.
Qed.

Definition sizes (wd ht : Z) : Z -> Z -> Prop := fun w h => w = wd /\ h = ht.

(** A set-up of a size that fits ends with the resource at that size, or with
    none. *)
Lemma setup_ok c D wd ht :
  fits_buffer wd ht ->
  hoare (screen_ok true c D) (setupFramebufferResource wd ht) (fun r s =>
    if is_success r
    then f_fb_resource_id (s_fb s) = 1 /\ f_width (s_fb s) = wd /\ f_height (s_fb s) = ht
         /\ screen_ok true c (sizes wd ht) s
    else f_fb_resource_id (s_fb s) = 0 /\ forall D', screen_ok true c D' s).
Proof.
  intros Hfit s Hs. pose proof (fits_can_setup _ _ _ _ _ Hs Hfit) as Hcan.
  pose proof (setup_at wd ht (s_fb s) (d_cursor (s_dev s))
    (fun w => f_fb_resource_id (s_fb s) <> 0 -> shown (f_width (s_fb s)) (f_height (s_fb s)) w)
    (ok_id _ _ _ _ Hs) s) as Ho.
  specialize (Ho (conj eq_refl (conj eq_refl (conj (ok_pool _ _ _ _ Hs) (ok_shown _ _ _ _ Hs))))).
  destruct (setupFramebufferResource wd ht s) as [r s']. cbn [fst snd] in *.
  destruct Hs as [Hg Hb Hm Hmo Hcu Hsc Hid Hlive Hsh Hp Hq].
  destruct Ho as [r' s' Hc|s' _ Hl (Hf & Hcur & Hw & Hx)|r' f' s' _ _ Hr -> (Hf & Hcur & Hw)|s' _ _ (Hf & Hcur & Hw & Hs)].
  - congruence.
  - change (is_success kIOReturnSuccess) with true. unfold already_live in Hl.
    apply andb_true_iff in Hl as [[H1 H2]%andb_true_iff H3].
    apply negb_true_iff, Z.eqb_neq in H1. apply Z.eqb_eq in H2. apply Z.eqb_eq in H3.
    rewrite Hf. split_and!; [by destruct Hid|done|done|].
    constructor; unfold gpu_of; rewrite ?Hf, ?Hcur; try done.
  - apply is_success_false in Hr. rewrite Hr, Hf. split; [done|]. intros D'.
    constructor; unfold gpu_of; rewrite ?Hf, ?Hcur; cbn; try done. by left.
  - change (is_success kIOReturnSuccess) with true. rewrite Hf. split_and!; [done|done|done|].
    constructor; unfold gpu_of; rewrite ?Hf, ?Hcur; cbn; try done. by right.
Qed.

(** ** The current mode *)
Definition mode_dims (c : Z) : Z -> Z -> Prop :=
  fun w h => exists m, find_mode c = Some m /\ w = sm_width m /\ h = sm_height m.
Definition mode_ok (c : Z) : Prop := c = 0 \/ c ∈ advertised.

Lemma mode_large m : m ∈ kSupportedModes -> 100 < sm_width m <= 8192 /\ 100 < sm_height m <= 8192.
Proof.
  intros Hm. assert (Hall : Forall (fun m => 100 < sm_width m <= 8192 /\ 100 < sm_height m <= 8192) kSupportedModes)
    by (repeat constructor; cbn; lia).
  by apply (proj1 (Forall_forall _ _) Hall).
Qed.

Lemma mode_fits c m : mode_ok c -> find_mode c = Some m -> fits_buffer (sm_width m) (sm_height m).
Proof using both.
  intros Hc Hm. pose proof (mode_large m (proj1 (find_mode_Some _ _ Hm))).
  destruct Hc as [->|Hc]; [done|]. unfold advertised in Hc. unfold fits_buffer.
  destruct b0 as [b|]; [|by apply not_elem_of_nil in Hc].
  destruct (advertised_fits _ _ Hc) as (m' & Hm' & Hf). apply Z.leb_le in Hf.
  destruct (proj1 both ltac:(by eexists)) as [dm Edm].
  split; [lia|]. split; [lia|]. exists b, dm. split_and!; [done|done|congruence].
Qed.

(** The invariant between operations. *)
Definition screen_inv (s : S) : Prop :=
  mode_ok (f_current_mode (s_fb s))
  /\ screen_ok (f_gpu_driver (s_fb s)) (f_current_mode (s_fb s)) (mode_dims (f_current_mode (s_fb s))) s.

Lemma screen_inv_of g c s : mode_ok c -> screen_ok g c (mode_dims c) s -> screen_inv s.
Proof. intros Hc Hs. unfold screen_inv. by rewrite (ok_current _ _ _ _ Hs), (ok_gpu _ _ _ _ Hs). Qed.

Lemma setup_mode c D m :
  mode_ok c -> find_mode c = Some m ->
  hoare (screen_ok true c D) (setupFramebufferResource (sm_width m) (sm_height m))
    (fun _ => screen_ok true c (mode_dims c)).
Proof using both.
  intros Hc Hm. eapply hoare_weaken; [apply setup_ok; by eapply mode_fits|done|].
  intros r s. cbn beta. destruct (is_success r); [|by intros [_ Hs]].
  intros (_ & _ & _ & [A1 A2 A3 A4 A5 A6 A7 A8 A9 A10 A11]).
  constructor; try done. intros Hid. destruct (A8 Hid) as [? [-> ->]]. split; [done|]. by exists m.
Qed.

(** ** Steps that keep the invariant *)
Definition core (f : framebuffer) :=
  (f_gpu_driver f, f_fb_backing f, f_fb_device_memory f, f_display_modes f, f_current_mode f,
   f_scanout_resource_id f, f_fb_resource_id f, f_width f, f_height f).

Lemma upd_step g c D u :
  (forall f, core (u f) = core f) -> preserves (screen_ok g c D) (upd_fb u).
Proof.
  intros Hu s Hs. specialize (Hu (s_fb s)). injection Hu as E1 E2 E3 E4 E5 E6 E7 E8 E9.
  destruct Hs as [A1 A2 A3 A4 A5 A6 A7 A8 A9 A10 A11].
  constructor; unfold gpu_of; cbn; rewrite ?E1, ?E2, ?E3, ?E4, ?E5, ?E6, ?E7, ?E8, ?E9; done.
Qed.

Lemma gpu_step {A} g c D (m : M W A) :
  preserves pool_sound m -> (forall wd ht, preserves (fun w => pool_sound w /\ shown wd ht w) m) ->
  preserves (screen_ok g c D) (on_gpu m).
Proof.
  intros Hp Hs s [A1 A2 A3 A4 A5 A6 A7 A8 A9 A10 A11]. unfold on_gpu, on_device, on_world.
  pose proof (Hp _ A10) as Hp'. pose proof (fun wd ht Hsh => Hs wd ht _ (conj A10 Hsh)) as Hs'.
  unfold gpu_of in *. destruct (m (d_world (s_dev s))) as [a w]. cbn in Hp', Hs' |- *.
  constructor; unfold gpu_of; cbn; try done. intros Hid. by apply Hs', A9.
Qed.

Lemma neutral_step {A} g c D (m : M W A) : keeps rv m -> preserves (screen_ok g c D) (on_gpu m).
Proof.
  intros Hm. apply gpu_step; [by apply sound_keeps|].
  intros wd ht. exact (keeps_preserves rv (fun v => pool_inv v /\ tracked 1 (slot_2d FORMAT wd ht false) v) m Hm).
Qed.

Lemma rv_transfer id o x y wd ht : keeps (rv (T := T)) (transferToHost2D id o x y wd ht).
Proof. unfold transferToHost2D, ready. keeps_tac. Qed.
Lemma rv_flush id x y wd ht : keeps (rv (T := T)) (flushResource id x y wd ht).
Proof. unfold flushResource, ready. keeps_tac. Qed.
Lemma rv_get {A} (f : gpu -> A) : keeps (rv (T := T)) (get_gpu f).
Proof. apply keeps_gets. Qed.
Lemma rv_retain d : keeps (rv (T := T)) (retain d).
Proof. unfold retain. keeps_tac. Qed.

#[local] Hint Resolve rv_transfer rv_flush rv_get rv_retain rv_setscanout : keeps.
#[local] Hint Extern 2 (preserves (screen_ok _ _ _) (on_gpu _)) => apply neutral_step; solve [auto with keeps] : drv.
#[local] Hint Extern 2 (preserves (screen_ok _ _ _) (upd_fb _)) => apply upd_step; reflexivity : drv.
#[local] Hint Extern 2 (preserves (screen_ok _ _ _) (get_fb _)) => apply preserves_gets : drv.
Ltac keep_tac := repeat first [ solve [auto with drv] | apply preserves_bind; [|intros ?] | goal_case ].

Lemma refresh_step g c D : preserves (screen_ok g c D) refreshDisplay.
Proof. unfold refreshDisplay, taken_over. keep_tac. Qed.
#[local] Hint Resolve refresh_step : drv.

(** ** The resource-tracking and transport probes *)
Lemma shown_tracking_probe wd ht :
  preserves (fun w : W => pool_sound w /\ shown wd ht w) probeResourceTracking.
Proof.
  assert (Hc : forall a b d e, preserves (fun w : W => pool_sound w /\ shown wd ht w)
    (createResource2D PROBE_ID a b d e)).
  { intros a b d e w [Hp Hs]. split; [by apply sound_create2D|by apply tracks_create2D]. }
  assert (Hd : preserves (fun w : W => pool_sound w /\ shown wd ht w) (deallocateResource PROBE_ID)).
  { intros w [Hp Hs]. split; [by apply sound_deallocate|by apply tracks_deallocate]. }
  assert (Hk : forall A (m : M W A), keeps rv m -> preserves (fun w : W => pool_sound w /\ shown wd ht w) m).
  { intros A m. exact (keeps_preserves rv (fun v => pool_inv v /\ tracked 1 (slot_2d FORMAT wd ht false) v) m). }
  unfold probeResourceTracking.
  repeat first [ apply Hc | apply Hd | apply preserves_ret | solve [apply Hk; keeps_tac]
               | apply preserves_bind; [|intros ?] | goal_case ].
Qed.
Lemma tracking_step g c D : preserves (screen_ok g c D) (on_gpu probeResourceTracking).
Proof.
  apply gpu_step; [|apply shown_tracking_probe].
  intros w Hw. pose proof (sound_op OpProbe w Hw) as Hs. cbn [do_op] in Hs. unfold bind, ret in Hs.
  by destruct (probeResourceTracking w).
Qed.
#[local] Hint Resolve tracking_step : drv.

Lemma host_grows v id : pool_inv v -> pool_inv (set_host ({[id]} ∪ rv_host v) v).
Proof. intros [H1 H2 H3 H4 H5]. constructor; try done. cbn. intros i id' Hl. pose proof (H5 i id' Hl). set_solver. Qed.
Lemma tracked_grows v id id' P : tracked id' P v -> tracked id' P (set_host ({[id]} ∪ rv_host v) v).
Proof. intros (i & s & H1 & H2 & H3 & H4). exists i, s. split_and!; try done. cbn. set_solver. Qed.

Lemma shown_3d_probe mapped dma (I : rview -> Prop) :
  (forall v, I v -> I (set_host ({[PROBE_RES]} ∪ rv_host v) v)) ->
  preserves (fun w : W => I (rv w)) (deallocateResource PROBE_RES) ->
  preserves (fun w : W => I (rv w)) (probeTransport3D mapped dma).
Proof.
  intros Hg Hd.
  assert (Hk : forall A (m : M W A), keeps rv m -> preserves (fun w : W => I (rv w)) m).
  { intros A m. exact (keeps_preserves rv I m). }
  assert (Hc : forall h b, c3d_resource_id b = PROBE_RES ->
    preserves (fun w : W => I (rv w)) (submit_nodata (CmdCreate3D h b))).
  { intros h b Hb w Hw. unfold submit_nodata, bind, submit, ret.
    pose proof (host_submit (CmdCreate3D h b) 24 (w_tr w) ltac:(lia)) as Hs.
    destruct (submit_cmd (CmdCreate3D h b) 24 (w_tr w)) as [[r resp] t]. destruct Hs as [Hs _].
    unfold rv. cbn in Hs |- *. rewrite Hs, Hb. destruct (is_success r); [by apply (Hg (rv w))|done]. }
  unfold probeTransport3D, probe_phases, probe_cleanup, when, probe_phase_G, send_clear, execute_dwords,
    executeCommands, destroy3DContext, initializeCommandHeader, supports3D, map_add, lock_contexts, unlock_contexts.
  repeat first
    [ apply Hd | (apply Hc; reflexivity) | apply preserves_ret
    | solve [apply Hk; unfold submit_nodata, release; keeps_tac]
    | apply preserves_bind; [|intros ?] | goal_case ].
Qed.
Lemma probe3d_step mapped dma g c D : preserves (screen_ok g c D) (on_gpu (probeTransport3D mapped dma)).
Proof.
  apply gpu_step.
  - apply shown_3d_probe; [intros v; apply host_grows|]. apply sound_deallocate.
  - intros wd ht. apply (shown_3d_probe mapped dma (fun v => pool_inv v /\ tracked 1 (slot_2d FORMAT wd ht false) v)).
    + intros v [Hp Ht]. split; [by apply host_grows|by apply tracked_grows].
    + intros w [Hp Hs]. split; [by apply sound_deallocate|by apply tracks_deallocate].
Qed.
#[local] Hint Resolve probe3d_step : drv.

(** ** The self-check *)
Definition recreate_fine (v : recreate_verdict) : Prop :=
  match v with RP_FailB | RP_FailD_moved | RP_FailD_dims => False | _ => True end.

Lemma recreate_ok c :
  mode_ok c -> hoare (screen_ok true c (mode_dims c)) probeResourceRecreate
    (fun v s => recreate_fine v /\ screen_ok true c (mode_dims c) s).
Proof using both.
  intros Hc s Hs. pose proof Hs as [A1 A2 A3 A4 A5 A6 A7 A8 A9 A10 A11].
  apply hoare_at. unfold probeResourceRecreate, bind, get_fb, gets.
  destruct (f_fb_backing (s_fb s)) as [b|] eqn:Eb; [|by split].
  destruct (f_fb_device_memory (s_fb s)) as [m|] eqn:Em; [|by split].
  destruct (Z.eqb_spec (f_fb_resource_id (s_fb s)) 0) as [|Hid]; [by split|].
  destruct (A8 Hid) as (_ & md & Hm & Ew & Eh). rewrite Ew, Eh.
  pose proof (mode_large md (proj1 (find_mode_Some _ _ Hm))) as [Hlw Hlh].
  pose proof (mode_fits c md Hc Hm) as Hfit.
  assert (Hfit' : fits_buffer (if 100 <? sm_width md then sm_width md - 100 else sm_width md + 100)
                    (if 100 <? sm_height md then sm_height md - 100 else sm_height md + 100)).
  { rewrite !(proj2 (Z.ltb_lt 100 _)) by lia. destruct Hfit as (_ & _ & b' & m' & H1 & H2 & H3).
    split; [lia|]. split; [lia|]. exists b', m'. split_and!; [done|done|nia]. }
  set (pw := if 100 <? sm_width md then _ else _) in *. set (ph := if 100 <? sm_height md then _ else _) in *.
  pose proof (setup_ok c _ pw ph Hfit' s Hs) as H1. cbn beta in H1.
  destruct (setupFramebufferResource pw ph s) as [r1 s1]. cbn [fst snd] in H1.
  destruct (is_success r1); cbn [negb].
  2: { destruct H1 as [_ H1]. pose proof (setup_mode c _ md Hc Hm s1 (H1 (mode_dims c))) as H2. cbn beta in H2.
       by destruct (setupFramebufferResource (sm_width md) (sm_height md) s1). }
  destruct H1 as (_ & _ & _ & H1). pose proof (setup_ok c _ _ _ Hfit s1 H1) as H2. cbn beta in H2.
  pose proof (setup_mode c _ md Hc Hm s1 H1) as H3. cbn beta in H3.
  rewrite (ok_backing _ _ _ _ H1), (ok_memory _ _ _ _ H1), <- A2, <- A3.
  unfold same_object at 1 2. rewrite !bool_decide_eq_true_2 by done. cbn [andb negb].
  destruct (setupFramebufferResource (sm_width md) (sm_height md) s1) as [r2 s2]. cbn [fst snd] in H2, H3.
  destruct (is_success r2); cbn [negb]; [|by split].
  destruct H2 as (_ & Ew2 & Eh2 & _). rewrite (ok_backing _ _ _ _ H3), (ok_memory _ _ _ _ H3), <- A2, <- A3.
  unfold same_object. rewrite !bool_decide_eq_true_2 by done. cbn [andb negb].
  rewrite Ew2, Eh2, !Z.eqb_refl. by split.
Qed.

(** ** The cursor probe *)
Lemma cursor_probe_ok env expired fuel g c D :
  (forall t, deadline_in expired t fuel) ->
  hoare (screen_ok g c D) (on_device (probeCursorTransport env expired fuel))
    (fun v s => v <> None /\ screen_ok g c D s).
Proof.
  intros Hd [fb [w0 q0]] [A1 A2 A3 A4 A5 A6 A7 A8 A9 A10 A11]. apply hoare_at.
  unfold gpu_of in *. cbn [s_fb s_dev d_world d_cursor] in *.
  assert (Hp : forall wd ht (w : W), pool_sound w /\ (f_fb_resource_id fb <> 0 -> shown wd ht w) ->
    let w' := (createResource2D CURSOR_RES VIRTIO_GPU_FORMAT_B8G8R8A8_UNORM 64 64 None w).2 in
    pool_sound w' /\ (f_fb_resource_id fb <> 0 -> shown wd ht w')).
  { intros wd ht w [H1 H2]. split; [by apply sound_create2D|]. intros Hid. apply tracks_create2D; [done|done|by apply H2]. }
  assert (Hk : forall wd ht (w : W), pool_sound w /\ (f_fb_resource_id fb <> 0 -> shown wd ht w) ->
    let w' := (transferToHost2D CURSOR_RES 0 0 0 64 64 w).2 in
    pool_sound w' /\ (f_fb_resource_id fb <> 0 -> shown wd ht w')).
  { intros wd ht w [H1 H2]. split; [by apply (sound_keeps _ (rv_transfer _ _ _ _ _ _))|].
    intros Hid. apply tracks_keeps; [apply rv_transfer|by apply H2]. }
  specialize (Hp (f_width fb) (f_height fb) w0 (conj A10 A9)).
  assert (Hend : forall w q, pool_sound w /\ (f_fb_resource_id fb <> 0 ->
      shown (f_width fb) (f_height fb) w) -> cu_ready q ->
    screen_ok g c D (mk_screen fb (mk_device w q))).
  { intros w q [H1 H2] Hq. by constructor. }
  unfold on_device, probeCursorTransport, bind, gets, on_world, on_queue.
  cbn [s_fb s_dev d_world d_cursor].
  destruct (cu_initialized q0); cbn [negb d_world d_cursor]; [|split; [done|by apply Hend]].
  destruct (createResource2D CURSOR_RES _ 64 64 None w0) as [cr w1]. cbn [snd d_cursor d_world] in *.
  destruct (is_success cr); cbn [negb]; [|split; [done|by apply Hend]].
  cbn [get_gpu gets d_world d_cursor].
  destruct (backing_of CURSOR_RES (g_pool (w_gpu w1))); [|split; [done|by apply Hend]].
  specialize (Hk _ _ w1 Hp). cbn [d_world d_cursor].
  destruct (transferToHost2D CURSOR_RES 0 0 0 64 64 w1) as [xr w2]. cbn [snd d_cursor d_world] in *.
  destruct (is_success xr); cbn [negb d_cursor d_world]; [|split; [done|by apply Hend]].
  destruct (updateCursor_ready env expired fuel CURSOR_RES 0 0 0 100 100 q0 Hd A11)
    as (ur & q1 & -> & Hq1).
  destruct (is_success ur); cbn [negb d_cursor d_world]; [|split; [done|by apply Hend]].
  destruct (moveCursor_ready env expired fuel 0 200 200 q1 Hd Hq1) as (m1 & q2 & -> & Hq2). cbn [d_cursor d_world].
  destruct (moveCursor_ready env expired fuel 0 300 300 q2 Hd Hq2) as (m2 & q3 & -> & Hq3). cbn [d_cursor d_world].
  destruct (_ || _); (split; [done|by apply Hend]).
Qed.

(** ** enableController *)
Lemma once_step {A} (I : S -> Prop) flag set (d : A) m :
  (forall b, preserves I (upd_fb (set b))) -> preserves I m -> preserves I (once flag set d m).
Proof.
  intros Hs Hm. unfold once. apply preserves_bind; [apply preserves_gets|intros [|]]; [apply preserves_ret|].
  apply preserves_bind; [apply Hs|intros _; exact Hm].
Qed.

(** What follows the set-up once it has succeeded. *)
Lemma enable_display_ok env expired fuel mapped dma c m i :
  (forall t, deadline_in expired t fuel) -> mode_ok c -> find_mode c = Some m ->
  mi_nominalWidth i = sm_width m -> mi_nominalHeight i = sm_height m ->
  hoare (screen_ok true c (mode_dims c)) (enable_display env expired fuel mapped dma i)
    (fun r s => r = Some tt /\ screen_ok true c (mode_dims c) s).
Proof using both.
  intros Hd Hc Hm Ew Eh. set (I := screen_ok true c (mode_dims c)). unfold enable_display. rewrite Ew, Eh.
  assert (Hstep : forall A B (x : M S A) (k : A -> M S B) Q,
    preserves I x -> (forall a, hoare I (k a) Q) -> hoare I (bind x k) Q).
  { intros A B x k Q Hx Hk. eapply hoare_bind; [exact Hx|exact Hk]. }
  assert (Hret : hoare I (ret (Some tt)) (fun r s => r = Some tt /\ I s)) by (by intros s Hs).
  apply Hstep; [|intros _].
  { intros s [A1 A2 A3 A4 A5 A6 A7 A8 A9 A10 A11]. unfold gpu_of in *.
    assert (Heq : f_fb_resource_id (s_fb s) <> 0 -> sm_width m = f_width (s_fb s) /\ sm_height m = f_height (s_fb s)).
    { intros Hid. destruct (A8 Hid) as (_ & m' & Hm' & -> & ->). by simplify_eq. }
    constructor; unfold gpu_of; cbn; try done.
    - intros Hid. split; [done|]. by exists m.
    - intros Hid. destruct (Heq Hid) as [-> ->]. by apply A9. }
  apply Hstep; [unfold I; auto with drv|intros _].
  apply Hstep; [unfold I; apply once_step; [auto with drv|keep_tac]|intros _].
  eapply hoare_bind; [by apply (setup_mode c _ m Hc Hm)|]. intros r. fold I.
  destruct (is_success r); cbn [negb]; [|exact Hret].
  apply Hstep.
  { unfold I. apply once_step; [auto with drv|]. intros s Hs. apply (hoare_at _ s (fun _ => I)). unfold bind, ret.
    pose proof (recreate_ok c Hc s Hs) as Hr. by destruct (probeResourceRecreate s); destruct Hr. }
  intros _. apply (hoare_bind _ _ _ (fun ended s => ended = true /\ I s)).
  { unfold once. apply Hstep; [apply preserves_gets|]. intros [|]; [by intros s Hs|].
    apply Hstep; [unfold I; auto with drv|intros _].
    eapply hoare_bind; [by apply cursor_probe_ok|]. intros [v|] s [Hv Hs]; [by split|done]. }
  intros ended. apply hoare_pure. intros ->. cbn [negb].
  apply Hstep; [unfold I; apply once_step; [auto with drv|keep_tac]|intros _].
  apply Hstep; [apply preserves_gets|intros f]. apply Hstep; [unfold I; keep_tac|intros _].
  apply Hstep; [unfold I; keep_tac|intros _]. exact Hret.
Qed.

Lemma info_of_mode c m : find_mode c = Some m ->
  exists i, getInformationForDisplayMode true c = (kIOReturnSuccess, Some i)
    /\ mi_nominalWidth i = sm_width m /\ mi_nominalHeight i = sm_height m.
Proof. intros Hm. unfold getInformationForDisplayMode. cbn [negb]. rewrite Hm. eexists. by split_and!. Qed.
Lemma info_of_no_mode c : find_mode c = None ->
  getInformationForDisplayMode true c = (kIOReturnUnsupported, None).
Proof. intros Hm. unfold getInformationForDisplayMode. cbn [negb]. by rewrite Hm. Qed.

Lemma enableController_ok env expired fuel mapped dma g c :
  (forall t, deadline_in expired t fuel) -> mode_ok c ->
  hoare (screen_ok g c (mode_dims c)) (enableController env expired fuel mapped dma)
    (fun r s => r = Some kIOReturnSuccess /\ screen_ok g c (mode_dims c) s).
Proof using both.
  intros Hd Hc. unfold enableController. set (I := screen_ok g c (mode_dims c)).
  assert (Hstep : forall A B (x : M S A) (k : A -> M S B) Q,
    preserves I x -> (forall a, hoare I (k a) Q) -> hoare I (bind x k) Q).
  { intros A B x k Q Hx Hk. eapply hoare_bind; [exact Hx|exact Hk]. }
  apply Hstep; [unfold I; auto with drv|intros _].
  apply (hoare_bind _ _ _ (fun f s => (f_gpu_driver f = g /\ f_current_mode f = c) /\ I s)).
  { intros s Hs. split; [|exact Hs]. split; [exact (ok_gpu _ _ _ _ Hs)|exact (ok_current _ _ _ _ Hs)]. }
  intros f. apply hoare_pure. intros [-> ->]. destruct (_ && _); [by intros s Hs|].
  apply Hstep; [unfold I; auto with drv|intros _].
  apply (hoare_bind _ _ _ (fun r s => r = Some tt /\ I s)).
  - unfold I. destruct g; [|by intros s Hs]. destruct (find_mode c) as [m|] eqn:Hm.
    + destruct (info_of_mode c m Hm) as (i & -> & Ew & Eh). cbn [snd]. by eapply enable_display_ok.
    + rewrite (info_of_no_mode c Hm). cbn [snd]. by intros s Hs.
  - intros r. apply hoare_pure. intros ->. apply Hstep; [unfold I; keep_tac|intros _]. by intros s Hs.
Qed.

(** ** setDisplayMode *)
Lemma refresh_core : keeps (fun s : S => core (s_fb s)) refreshDisplay.
Proof.
  assert (Hu : forall u, (forall f, core (u f) = core f) -> keeps (fun s : S => core (s_fb s)) (upd_fb u)).
  { intros u Hu. apply keeps_modify. intros s. apply Hu. }
  assert (Hg : forall A (m : M W A), keeps (fun s : S => core (s_fb s)) (on_gpu m)).
  { intros A m v s Hs. unfold on_gpu, on_device, on_world. by destruct (m (d_world (s_dev s))). }
  unfold refreshDisplay, taken_over.
  repeat first [ apply keeps_ret | apply Hg | (apply Hu; reflexivity) | (apply keeps_gets)
               | apply keeps_bind; [|intros ?] | goal_case ].
Qed.

(** What a mode change promises, from the screen [s0] before it. *)
Definition mode_changed (dm : Z) (s0 : S) (r : IOReturn) (s : S) : Prop :=
  (dm ∉ advertised -> r = kIOReturnUnsupported /\ s = s0)
  /\ (dm ∈ advertised -> f_current_mode (s_fb s) = dm)
  /\ (r = kIOReturnSuccess -> dm ∈ advertised /\ f_fb_resource_id (s_fb s) = 1
        /\ mode_dims dm (f_width (s_fb s)) (f_height (s_fb s))
        /\ shown (f_width (s_fb s)) (f_height (s_fb s)) (gpu_of s)).

(** The last steps of a change that has the resource it needs. *)
Lemma mode_tail_ok dm s0 :
  dm ∈ advertised ->
  hoare (fun s => f_fb_resource_id (s_fb s) = 1 /\ screen_ok true dm (mode_dims dm) s)
    (upd_fb (set_f_depth 32) ;;; refreshDisplay ;;; ret kIOReturnSuccess)
    (fun r s => screen_inv s /\ mode_changed dm s0 r s).
Proof.
  intros Hin s [Hid Hs]. apply hoare_at. unfold bind, ret. cbn [upd_fb modify].
  set (s1 := mk_screen _ _). assert (Hs1 : screen_ok true dm (mode_dims dm) s1) by (by apply (upd_step _ _ _ (set_f_depth 32))).
  pose proof (refresh_step _ _ _ s1 Hs1) as Hs2. pose proof (keeps_eq _ _ s1 refresh_core) as Hc.
  destruct (refreshDisplay s1) as [u s2]. cbn [fst snd] in *.
  assert (Hid2 : f_fb_resource_id (s_fb s2) = 1).
  { unfold core in Hc. injection Hc as _ _ _ _ _ _ Hc _ _. rewrite Hc. exact Hid. }
  split; [apply (screen_inv_of true dm); [by right|exact Hs2]|].
  split; [done|]. split; [by rewrite (ok_current _ _ _ _ Hs2)|]. intros _.
  split_and!; [done|done|apply (ok_live _ _ _ _ Hs2); by rewrite Hid2|apply (ok_shown _ _ _ _ Hs2); by rewrite Hid2].
Qed.

Lemma setDisplayMode_ok dm s :
  screen_inv s -> let '(r, s') := setDisplayMode dm s in screen_inv s' /\ mode_changed dm s r s'.
Proof using both.
  intros [Hok Hs]. pose proof Hs as [A1 A2 A3 A4 A5 A6 A7 A8 A9 A10 A11].
  set (g := f_gpu_driver (s_fb s)) in *. set (c := f_current_mode (s_fb s)) in *.
  unfold setDisplayMode, bind at 1, get_fb at 1, gets at 1. rewrite A4.
  assert (Hmem : existsb (fun m => m =? dm) advertised = true <-> dm ∈ advertised).
  { rewrite existsb_exists. split; [intros (x & Hx & ->%Z.eqb_eq); by apply list_elem_of_In|].
    intros Hx. exists dm. split; [by apply list_elem_of_In|apply Z.eqb_refl]. }
  destruct (existsb _ advertised) eqn:Ei; cbn [negb].
  2: { assert (Hno : dm ∉ advertised) by (intros Hx; apply Hmem in Hx; done).
       cbn. split; [by split|]. split_and!; [done|done|done]. }
  assert (Hin : dm ∈ advertised) by (by apply Hmem). clear Ei Hmem.
  unfold bind at 1. cbn [upd_fb modify]. set (s1 := mk_screen _ _).
  assert (Hs1 : screen_ok g dm (mode_dims c) s1) by (by constructor).
  assert (Hm : exists m, find_mode dm = Some m).
  { unfold advertised in Hin. destruct b0 as [b|]; [|by apply not_elem_of_nil in Hin].
    destruct (advertised_fits _ _ Hin) as (m & Hm & _). by exists m. }
  destruct Hm as [m Hm]. destruct (info_of_mode dm m Hm) as (i & -> & Ew & Eh). cbn [snd].
  unfold bind at 1, get_fb at 1, gets at 1. rewrite Ew, Eh.
  destruct (negb (sm_width m =? f_width (s_fb s1)) || negb (sm_height m =? f_height (s_fb s1))
            || (f_fb_resource_id (s_fb s1) =? 0)) eqn:Econd.
  - unfold bind at 1. destruct g eqn:Eg.
    + pose proof (setup_ok dm _ _ _ (mode_fits dm m (or_intror Hin) Hm) s1 Hs1) as H1. cbn beta in H1.
      pose proof (setup_mode dm _ m (or_intror Hin) Hm s1 Hs1) as H2. cbn beta in H2.
      destruct (setupFramebufferResource (sm_width m) (sm_height m) s1) as [r s2]. cbn [fst snd] in H1, H2.
      destruct (is_success r) eqn:Er; cbn [negb].
      * destruct H1 as [Hid _]. pose proof (mode_tail_ok dm s Hin s2 (conj Hid H2)) as Ht.
        by destruct ((upd_fb (set_f_depth 32) ;;; refreshDisplay ;;; ret kIOReturnSuccess) s2).
      * cbn. split; [apply (screen_inv_of true dm); [by right|exact H2]|].
        split; [done|]. split; [by rewrite (ok_current _ _ _ _ H2)|]. intros ->. done.
    + assert (Hset : setupFramebufferResource (sm_width m) (sm_height m) s1 = (kIOReturnNotReady, s1)).
      { unfold setupFramebufferResource, bind, get_fb, gets. change (f_gpu_driver (s_fb s1)) with g. by rewrite Eg. }
      rewrite Hset. cbn. split; [|by split_and!].
      apply (screen_inv_of false dm); [by right|].
      destruct Hs1 as [B1 B2 B3 B4 B5 B6 B7 B8 B9 B10 B11]. constructor; try done.
      intros Hid. by destruct (B8 Hid).
  - unfold bind at 1. cbn [ret negb]. change (is_success kIOReturnSuccess) with true. cbn [negb].
    apply orb_false_iff in Econd as [[E1 E2]%orb_false_iff E3].
    apply negb_false_iff, Z.eqb_eq in E1. apply negb_false_iff, Z.eqb_eq in E2. apply Z.eqb_neq in E3.
    destruct (ok_live _ _ _ _ Hs1 E3) as [Eg _].
    assert (Hid : f_fb_resource_id (s_fb s1) = 1) by (by destruct (ok_id _ _ _ _ Hs1)).
    assert (Hs2 : screen_ok true dm (mode_dims dm) s1).
    { rewrite Eg in Hs1. destruct Hs1 as [B1 B2 B3 B4 B5 B6 B7 B8 B9 B10 B11]. constructor; try done.
      intros _. split; [done|]. exists m. by rewrite E1, E2. }
    pose proof (mode_tail_ok dm s Hin s1 (conj Hid Hs2)) as Ht.
    by destruct ((upd_fb (set_f_depth 32) ;;; refreshDisplay ;;; ret kIOReturnSuccess) s1).
Qed.

(** ** Any sequence of operations *)
Inductive fb_op :=
  | FbSetMode (displayMode : Z)
  | FbEnable
  | FbTick
  | FbOpen (super_open : IOReturn)
  | FbClose
  | FbStop
  | FbAperture (aperture : Z)
  | FbVRAM
  | FbOther (o : res_op).

(** Operations of other parts on resources of their own. *)
Definition foreign (o : fb_op) : bool :=
  match o with
  | FbOther (OpCreate2D id _ _ _ _) | FbOther (OpCreate3D id _ _ _ _ _ _) | FbOther (OpDeallocate id) => negb (id =? 1)
  | FbOther (OpAllocate3D _ _ _ _ _) => false
  | _ => true
  end.

Context (env : nat -> shared -> shared) (expired : nat -> bool) (fuel : nat).
Context (mapped : mdesc -> bool * bool) (dma : nat -> list Z -> list Z).
Hypothesis clock : forall t, deadline_in expired t fuel.

Definition do_fb (o : fb_op) : M S unit :=
  match o with
  | FbSetMode dm => setDisplayMode dm ;;; ret tt
  | FbEnable => enableController env expired fuel mapped dma ;;; ret tt
  | FbTick => displayRefreshTimer
  | FbOpen r => open r ;;; ret tt
  | FbClose => close
  | FbStop => stop
  | FbAperture a => getApertureRange a ;;; ret tt
  | FbVRAM => getVRAMRange ;;; ret tt
  | FbOther o => on_gpu (do_op o)
  end.
Fixpoint run_fb (os : list fb_op) : M S unit :=
  match os with
  | [] => ret tt
  | o :: os' => do_fb o ;;; run_fb os'
  end.

Lemma inv_of_steps {A} (m : M S A) :
  (forall g c D, preserves (screen_ok g c D) m) -> preserves screen_inv m.
Proof. intros Hm s [Hc Hs]. eapply screen_inv_of; [exact Hc|]. by apply Hm. Qed.

Lemma teardown_step g c D : preserves (screen_ok g c D) teardownFramebufferResource.
Proof.
  intros s Hs. destruct (f_gpu_driver (s_fb s)) eqn:Eg.
  - pose proof (teardown_at (s_fb s) (d_cursor (s_dev s)) (fun _ => True) Eg (ok_id _ _ _ _ Hs) s) as Ht.
    destruct Hs as [A1 A2 A3 A4 A5 A6 A7 A8 A9 A10 A11].
    destruct Ht as (Hf & Hq & Hw); [by split_and!|].
    destruct (teardownFramebufferResource s) as [u s']. cbn [snd] in *.
    constructor; unfold gpu_of; rewrite ?Hf, ?Hq; cbn; try done. by left.
  - unfold teardownFramebufferResource, bind, get_fb, gets. rewrite Eg, andb_false_r. exact Hs.
Qed.

Lemma other_step g c D o : foreign (FbOther o) = true -> preserves (screen_ok g c D) (on_gpu (do_op o)).
Proof.
  intros Ho. apply gpu_step; [apply sound_op|]. intros wd ht w [Hp Hs].
  split; [by apply sound_op|].
  destruct o as [id f wd' ht' b|id t f bd wd' ht' d|?|id b|id|]; cbn [foreign] in Ho;
    try apply negb_true_iff, Z.eqb_neq in Ho; try done; cbn [do_op]; unfold bind, ret.
  - pose proof (tracks_create2D 1 (slot_2d FORMAT wd ht false) id f wd' ht' b w Hp (not_eq_sym Ho) Hs) as Ht.
    by destruct (createResource2D id f wd' ht' b w).
  - pose proof (tracks_create3D 1 (slot_2d FORMAT wd ht false) id t f bd wd' ht' d w Hp (not_eq_sym Ho) Hs) as Ht.
    by destruct (createResource3D id t f bd wd' ht' d w).
  - pose proof (tracks_keeps 1 (slot_2d FORMAT wd ht false) (attachBacking id b) w (rv_attachBacking id b) Hs) as Ht.
    by destruct (attachBacking id b w).
  - pose proof (tracks_deallocate 1 (slot_2d FORMAT wd ht false) id w Hp (not_eq_sym Ho) Hs) as Ht.
    by destruct (deallocateResource id w).
  - pose proof (shown_tracking_probe wd ht w (conj Hp Hs)) as [_ Ht]. by destruct (probeResourceTracking w).
Qed.

Lemma do_fb_ok o : foreign o = true -> preserves screen_inv (do_fb o).
Proof using both clock.
  intros Ho. destruct o; cbn [do_fb].
  - apply preserves_bind; [|intros ?; apply preserves_ret]. intros s Hs. apply (hoare_at _ s (fun _ => screen_inv)).
    pose proof (setDisplayMode_ok displayMode s Hs) as H1. by destruct (setDisplayMode displayMode s); destruct H1.
  - apply preserves_bind; [|intros ?; apply preserves_ret]. intros s [Hc Hs].
    destruct (enableController_ok env expired fuel mapped dma _ _ clock Hc s Hs) as [_ H1].
    by eapply screen_inv_of.
  - apply inv_of_steps. intros g c D. unfold displayRefreshTimer. keep_tac.
  - apply inv_of_steps. intros g c D. unfold open. keep_tac.
  - apply inv_of_steps. intros g c D. unfold close. keep_tac.
  - apply inv_of_steps. intros g c D. apply teardown_step.
  - apply inv_of_steps. intros g c D. unfold getApertureRange, getVRAMRange. keep_tac.
  - apply inv_of_steps. intros g c D. unfold getVRAMRange. keep_tac.
  - apply inv_of_steps. intros g c D. by apply other_step.
Qed.

Lemma run_fb_ok os : forallb foreign os = true -> preserves screen_inv (run_fb os).
Proof using both clock.
  induction os as [|o os IH]; cbn [forallb run_fb]; intros Hos; [apply preserves_ret|].
  apply andb_true_iff in Hos as [Ho Hos]. apply preserves_bind; [by apply do_fb_ok|intros _; by apply IH].
Qed.
End invariant.
