(* ===== verification/Screens.v ===== *)
(** What the framebuffer promises: the choice of its buffer, the invariant of
    its life from [start] on, mode changes, [enableController], the refresh
    timer's rate and the recreate self-check, from the lemmas of
    [Framebuffer.v]. *)
From S2P Require Import Prelude Wire Transport Driver SplitQueue ControlQueue CursorQueue Resources Tracking Display Accounts Probes Modes Framebuffer.

(** * The buffer *)
Section buffer.
Context {T : Type} `{Transport T}.
Abbreviation W := (world T).

Lemma moves_withOptions id : moves id (withOptions (T := T)) (fun o => (0, 0, 0, own id (md_id <$> o))).
Proof.
  intros w. unfold withOptions, balance, mem_balance. destruct (m_allocs (w_mem w)) as [|[d|] l]; cbn -[own bump];
    rewrite ?count_bump_own, ?own_None; apply quad_eq; lia.
Qed.
Lemma moves_withRange id phys n : moves id (withRange (T := T) phys n) (fun o => (0, 0, 0, own id (md_id <$> o))).
Proof.
  intros w. unfold withRange, bind, ret. pose proof (moves_new_descriptor id n w) as Hm.
  destruct (new_descriptor n w) as [[d|] w']; exact Hm.
Qed.

(** What the ladder leaves taken, and what it settles on. *)
Definition taken_by (id : Z) (r : option (mdesc * mdesc * (Z * Z))) : Z * Z * Z * Z :=
  match r with
  | None => (0, 0, 0, 0)
  | Some (b, d, _) => (0, 0, own id (Some (md_id b)), own id (Some (md_id b)) + own id (Some (md_id d)))
  end.
Definition one_range (cs : list (Z * Z)) (r : option (mdesc * mdesc * (Z * Z))) : Prop :=
  match r with
  | None => True
  | Some (b, d, (wd, ht)) =>
      (wd, ht) ∈ cs /\ md_length b = wd * ht * 4 /\ md_length d = wd * ht * 4
      /\ exists phys len, walk_segs (md_segs b) = [(phys, len)] /\ md_segs d = [(phys, wd * ht * 4)]
  end.

Lemma one_range_cons c cs r : one_range cs r -> one_range (c :: cs) r.
Proof.
  destruct r as [[[b d] [wd ht]]|]; [|done]. intros (Hin & Hr). split; [by apply list_elem_of_further|exact Hr].
Qed.

Lemma withRange_range phys n (w : W) d w' :
  withRange phys n w = (Some d, w') -> md_length d = n /\ md_segs d = [(phys, n)].
Proof.
  unfold withRange, bind, ret. destruct (new_descriptor n w) as [[d0|] w0]; cbn; intros E; by simplify_eq.
Qed.

Lemma one_segment segs :
  length (walk_segs segs) = 1%nat -> exists len, walk_segs segs = [((default (0, 0) (head segs)).1, len)].
Proof.
  destruct segs as [|[a l] segs]; cbn; [done|]. destruct (a =? 0); [done|]. destruct (l =? 0); cbn; [by eexists|].
  destruct (walk_segs segs); [by eexists|done].
Qed.

Lemma try_ceilings_gpu cs : keeps (fun w : W => (w_gpu w, w_tr w)) (try_ceilings cs).
Proof.
  induction cs as [|[wd ht] cs IH]; cbn [try_ceilings]; [apply keeps_ret|].
  assert (Ho : keeps (fun w : W => (w_gpu w, w_tr w)) withOptions).
  { intros v w <-. unfold withOptions. by destruct (m_allocs (w_mem w)) as [|[d|] l]. }
  assert (Hn : forall n, keeps (fun w : W => (w_gpu w, w_tr w)) (new_descriptor n)).
  { intros n v w <-. unfold new_descriptor. by destruct (m_allocs (w_mem w)) as [|[d|] l]. }
  assert (Hu : forall f, keeps (fun w : W => (w_gpu w, w_tr w)) (upd_mem f)) by (intros f v w <-; done).
  unfold withRange, prepare, release, complete.
  repeat first [ exact IH | apply Ho | apply Hn | apply Hu | apply keeps_ret
               | apply keeps_bind; [|intros ?] | goal_case ].
Qed.

Lemma try_ceilings_moves id cs :
  forall h m p r, hoare (bal id h m p r) (try_ceilings (T := T) cs) (fun o w =>
    let '(dh, dm, dp, dr) := taken_by id o in bal id (h + dh) (m + dm) (p + dp) (r + dr) w).
Proof.
  induction cs as [|[wd ht] cs IH]; intros h m p r; cbn [try_ceilings].
  { intros w Hw. cbn. unfold bal in *. rewrite Hw. apply quad_eq; lia. }
  assert (Hgo : forall h' m' p' r', h' = h -> m' = m -> p' = p -> r' = r ->
    hoare (bal id h' m' p' r') (try_ceilings (T := T) cs) (fun o w =>
      let '(dh, dm, dp, dr) := taken_by id o in bal id (h + dh) (m + dm) (p + dp) (r + dr) w)).
  { intros ? ? ? ? -> -> -> ->. apply IH. }
  eapply bal_moves; [apply moves_withOptions|]. intros [b|]; cbn beta iota; cbn [fmap option_fmap option_map];
    rewrite ?own_None; [|apply Hgo; lia].
  eapply bal_moves; [apply moves_prepare|]. intros x. cbn beta iota. destruct (is_success x) eqn:Ex; cbn [negb].
  2: { eapply bal_moves; [apply moves_release|]. intros ?; cbn beta iota. apply Hgo; lia. }
  assert (Hback : forall h' m' p' r', h' = h -> m' = m -> p' = p + own id (Some (md_id b)) ->
      r' = r + own id (Some (md_id b)) ->
    hoare (bal id h' m' p' r') (complete (md_id b) ;;; release (md_id b) ;;; try_ceilings (T := T) cs) (fun o w =>
      let '(dh, dm, dp, dr) := taken_by id o in bal id (h + dh) (m + dm) (p + dp) (r + dr) w)).
  { intros ? ? ? ? -> -> -> ->. eapply bal_moves; [apply moves_complete|]. intros ?; cbn beta iota.
    eapply bal_moves; [apply moves_release|]. intros ?; cbn beta iota. apply Hgo; lia. }
  eapply bal_moves; [apply moves_withRange|]. intros [d|]; cbn beta iota; cbn [fmap option_fmap option_map];
    rewrite ?own_None; [|apply Hback; lia].
  repeat case_match; try (eapply bal_moves; [apply moves_release|]; intros ?; cbn beta iota; apply Hback; lia).
  intros w Hw. cbn. unfold bal in *. rewrite Hw. apply quad_eq; lia.
Qed.

Lemma try_ceilings_range cs (w : W) : one_range cs (try_ceilings cs w).1.
Proof.
  revert w. induction cs as [|[wd ht] cs IH]; intros w; cbn [try_ceilings]; [done|].
  assert (Hgo : forall w', one_range ((wd, ht) :: cs) (try_ceilings cs w').1) by (intros w'; apply one_range_cons, IH).
  unfold bind at 1. destruct (withOptions w) as [[b|] w1]; [|apply Hgo].
  unfold bind at 1. destruct (prepare b w1) as [x w2]. destruct (is_success x); cbn [negb]; [|apply Hgo].
  unfold bind at 1. destruct (withRange _ _ w2) as [[d|] w3] eqn:Er; [|apply Hgo].
  apply withRange_range in Er as [El Es].
  destruct (Z.eqb_spec (md_length b) (wd * ht * 4)) as [Eb|]; cbn [negb]; [|apply Hgo].
  destruct (Nat.eqb_spec (length (walk_segs (md_segs b))) 1) as [Ew|]; cbn [negb]; [|apply Hgo].
  cbn. split_and!; [apply list_elem_of_here|done|done|]. destruct (one_segment _ Ew) as [len E].
  eexists _, len. by split.
Qed.
End buffer.

(** The ladder of buffer sizes gives back every candidate it refuses. The
    one it settles on is prepared once and has the exact size of one of the
    ladder's entries, in one physical segment, where the device memory
    begins; the device object and the transport are not touched. *)
Theorem try_ceilings_spec T `{Transport T} cs (w : world T) :
  let '(o, w') := try_ceilings cs w in
  w_gpu w' = w_gpu w /\ w_tr w' = w_tr w /\ one_range cs o
  /\ forall id, let '(h, m, p, r) := balance id w in
       let '(dh, dm, dp, dr) := taken_by id o in
       balance id w' = (h + dh, m + dm, p + dp, r + dr).
Proof.
  pose proof (keeps_eq _ _ w (try_ceilings_gpu cs)) as Hk. pose proof (try_ceilings_range cs w) as Hr.
  assert (Hm : forall id h m p r, balance id w = (h, m, p, r) ->
    let '(dh, dm, dp, dr) := taken_by id (try_ceilings cs w).1 in
    balance id (try_ceilings cs w).2 = (h + dh, m + dm, p + dp, r + dr)).
  { intros id h m p r E. pose proof (try_ceilings_moves id cs h m p r w E) as Hm.
    by destruct (try_ceilings cs w). }
  destruct (try_ceilings cs w) as [o w']. cbn [fst snd] in *. injection Hk as -> ->.
  split_and!; [done|done|done|]. intros id. specialize (Hm id). destruct (balance id w) as [[[h m] p] r]. by apply Hm.
Qed.

(** * The life of the framebuffer *)
Section life.
Context {T : Type} `{Host T}.
Abbreviation S := (screen T).

(** The framebuffer as [start] finds it, over a device. *)
Definition before_start (gpu : bool) (w : world T) (q : curq) : S :=
  mk_screen (set_f_gpu_driver gpu init_framebuffer) (mk_device w q).
Definition started (gpu : bool) (w : world T) (q : curq) : S := (start_buffer (before_start gpu w q)).2.

Lemma boot_ok_in ids cur : boot_mode_ok ids cur = true -> cur = 0 \/ cur ∈ ids.
Proof.
  unfold boot_mode_ok. destruct ids as [|id ids]; [intros ->%Z.eqb_eq; by left|].
  intros [(y & Hy & ->%Z.eqb_eq)%existsb_exists _]%andb_true_iff. right. by apply list_elem_of_In.
Qed.
Lemma boot_mode n : (filter_modes n).2 = 0 \/ (filter_modes n).2 ∈ (filter_modes n).1.
Proof. destruct n as [n|]; [|by left]. apply boot_ok_in, filter_modes_decided. Qed.

(** The members and the device once the modes are chosen, for any choice. *)
Definition with_modes (p : list Z * Z) (f : framebuffer) : framebuffer :=
  let '(modes, cur) := p in set_f_current_mode cur (set_f_display_modes modes f).
Lemma with_modes_inv p b m f w q :
  p = filter_modes (md_length <$> b) -> f_fb_backing f = b -> f_fb_device_memory f = m ->
  f_fb_resource_id f = 0 -> f_scanout_resource_id f = 1 -> pool_sound w -> cu_ready q ->
  f_fb_backing (with_modes p f) = b /\ f_fb_device_memory (with_modes p f) = m
  /\ screen_inv b m (mk_screen (T := T) (with_modes p f) (mk_device w q)).
Proof.
  intros Ep Eb Em Ei Es Hp Hq. pose proof (boot_mode (md_length <$> b)) as Hboot. rewrite <- Ep in Hboot.
  assert (Ha : advertised b = p.1) by (unfold advertised; by rewrite Ep).
  clear Ep. destruct p as [ids cur]. cbn in *. split_and!; [done|done|].
  split; [unfold mode_ok; cbn; by rewrite Ha|].
  constructor; cbn; rewrite ?Ei; try done; [by left].
Qed.

Lemma start_ok gpu w q :
  pool_sound w -> cu_ready q ->
  let s := started gpu w q in
  (is_Some (f_fb_backing (s_fb s)) <-> is_Some (f_fb_device_memory (s_fb s)))
  /\ screen_inv (f_fb_backing (s_fb s)) (f_fb_device_memory (s_fb s)) s.
Proof.
  intros Hp Hq. unfold started, before_start, start_buffer, on_gpu, on_device, on_world, bind.
  cbn [s_fb s_dev d_world d_cursor].
  pose proof (keeps_eq _ _ w (try_ceilings_gpu ceilings)) as Hk.
  destruct (try_ceilings ceilings w) as [o w']. cbn [fst snd] in *. injection Hk as Eg Et.
  assert (Hp' : pool_sound w') by (unfold pool_sound, rv in *; by rewrite Eg, Et).
  assert (Hm : forall b m f, f_fb_backing f = b -> f_fb_device_memory f = m ->
    f_fb_resource_id f = 0 -> f_scanout_resource_id f = 1 -> (is_Some b <-> is_Some m) ->
    let s := (filterModesByAllocation (mk_screen f (mk_device w' q))).2 in
    (is_Some (f_fb_backing (s_fb s)) <-> is_Some (f_fb_device_memory (s_fb s)))
    /\ screen_inv (f_fb_backing (s_fb s)) (f_fb_device_memory (s_fb s)) s).
  { intros b m f Eb Em Ei Es Hbm.
    destruct (with_modes_inv _ b m f w' q eq_refl Eb Em Ei Es Hp' Hq) as (E1 & E2 & Hi).
    unfold filterModesByAllocation, upd_fb, modify. cbn [s_fb s_dev snd]. rewrite Eb.
    fold (with_modes (filter_modes (md_length <$> b)) f). by rewrite E1, E2. }
  destruct o as [[[b m] [wd ht]]|]; cbn [upd_fb modify ret s_fb s_dev].
  - by apply (Hm (Some b) (Some m)).
  - by apply (Hm None None).
Qed.

(** ** Refreshing *)
(** The members and the device a refresh works from. *)
Definition refreshing (f : framebuffer) (w : world T) : Prop :=
  f_gpu_driver f = true /\ f_scanout_resource_id f <> 0
  /\ default false (g_framebuffer (w_gpu w)) = false
  /\ g_pci_device (w_gpu w) = true /\ g_control_queue (w_gpu w) = true.

Fixpoint refreshes (n : nat) : M S unit :=
  match n with
  | O => ret tt
  | Datatypes.S n' => refreshDisplay ;;; refreshes n'
  end.

(** One full refresh, on the transport. *)
Definition full_refresh (f : framebuffer) (t : T) : T :=
  (submit_all (update_commands (f_scanout_resource_id f) 0 0 (f_width f) (f_height f)) t).2.

Lemma refresh_once f w q :
  refreshing f w -> 0 <= f_full_refresh_tick_count f < FULL_REFRESH_INTERVAL ->
  let '(_, s) := refreshDisplay (mk_screen f (mk_device w q)) in
  let n := f_full_refresh_tick_count f + 1 in
  s = mk_screen (set_f_full_refresh_tick_count (n mod FULL_REFRESH_INTERVAL) f)
        (mk_device (mk_world (w_gpu w) (w_mem w)
           (Nat.iter (Z.to_nat (n / FULL_REFRESH_INTERVAL)) (full_refresh f) (w_tr w))) q).
Proof.
  intros (Hg & Hs & Ht & Hd & Hc) Hn. unfold FULL_REFRESH_INTERVAL in *.
  unfold refreshDisplay, taken_over, on_gpu, on_device, on_world, bind, get_fb, gets, upd_fb, modify, get_gpu.
  cbn [s_fb s_dev d_world d_cursor]. rewrite Hg. cbn [negb]. rewrite (proj2 (Z.eqb_neq _ 0) Hs).
  unfold gets. cbn [s_fb s_dev d_world d_cursor w_gpu]. rewrite Ht.
  rewrite (u32_small (f_full_refresh_tick_count f + 1)) by lia.
  destruct (Z.ltb_spec (f_full_refresh_tick_count f + 1) FULL_REFRESH_INTERVAL) as [E|E];
    unfold FULL_REFRESH_INTERVAL in E.
  { cbn. rewrite Z.mod_small, Z.div_small by lia. by destruct w. }
  replace (f_full_refresh_tick_count f + 1) with 4 by lia. rewrite Z.mod_same, Z.div_same by done.
  unfold transferToHost2D, flushResource, ready, bind, get_gpu, gets, submit, ret.
  cbn [s_fb s_dev d_world d_cursor w_gpu w_mem w_tr]. rewrite Hd, Hc. cbn [andb negb].
  unfold full_refresh, update_commands. change (Nat.iter (Z.to_nat 1) _ _) with
    (submit_all [transfer_2d_cmd (f_scanout_resource_id f) 0 0 0 (f_width f) (f_height f);
                 flush_cmd (f_scanout_resource_id f) 0 0 (f_width f) (f_height f)] (w_tr w)).2.
  cbn. destruct (submit_cmd _ 24 (w_tr w)) as [[r x] t1]. cbn.
  destruct (is_success r); cbn; [|by destruct f]. rewrite Hd, Hc. cbn.
  destruct (submit_cmd _ 24 t1) as [[r2 x2] t2]. cbn. destruct (is_success r2); by destruct f.
Qed.
Lemma refreshes_run n : forall f w q,
  refreshing f w -> 0 <= f_full_refresh_tick_count f < FULL_REFRESH_INTERVAL ->
  let k := f_full_refresh_tick_count f + Z.of_nat n in
  (refreshes n (mk_screen f (mk_device w q))).2
  = mk_screen (set_f_full_refresh_tick_count (k mod FULL_REFRESH_INTERVAL) f)
      (mk_device (mk_world (w_gpu w) (w_mem w)
         (Nat.iter (Z.to_nat (k / FULL_REFRESH_INTERVAL)) (full_refresh f) (w_tr w))) q).
Proof.
  induction n as [|n IH]; intros f w q Hr Ht; cbn [refreshes].
  - rewrite Z.add_0_r, Z.mod_small, Z.div_small by done. cbn. by destruct f, w.
  - unfold bind. pose proof (refresh_once f w q Hr Ht) as H1. cbn zeta in *.
    destruct (refreshDisplay _) as [u s1]. subst s1. rewrite IH; [|exact Hr|].
    2: { apply Z.mod_pos_bound. done. }
    cbn [f_full_refresh_tick_count set_f_full_refresh_tick_count w_gpu w_mem w_tr].
    set (t := f_full_refresh_tick_count f) in *. unfold FULL_REFRESH_INTERVAL in *.
    change (full_refresh (set_f_full_refresh_tick_count ((t + 1) mod 4) f)) with (full_refresh f).
    rewrite <- Nat.iter_add, <- Z2Nat.inj_add by (apply Z.div_pos; [pose proof (Z.mod_pos_bound (t + 1) 4); lia|done]).
    replace (((t + 1) mod 4 + Z.of_nat n) mod 4) with ((t + Z.of_nat (Datatypes.S n)) mod 4).
    2: { rewrite Zplus_mod_idemp_l. f_equal. lia. }
    replace (((t + 1) mod 4 + Z.of_nat n) / 4 + (t + 1) / 4) with ((t + Z.of_nat (Datatypes.S n)) / 4); [done|].
    pose proof (Z.div_mod (t + 1) 4 ltac:(done)) as E.
    replace (t + Z.of_nat (Datatypes.S n)) with ((t + 1) / 4 * 4 + ((t + 1) mod 4 + Z.of_nat n)) by lia.
    rewrite Z.div_add_l by done. lia.
Qed.

Lemma refresh_taken f (w : world T) q :
  default false (g_framebuffer (w_gpu w)) = true ->
  refreshDisplay (mk_screen f (mk_device w q)) = (tt, mk_screen f (mk_device w q)).
Proof.
  intros Ht. unfold refreshDisplay, taken_over, on_gpu, on_device, on_world, bind, get_fb, gets, get_gpu.
  cbn [s_fb s_dev d_world d_cursor]. destruct (f_gpu_driver f); [|done]. destruct (f_scanout_resource_id f =? 0); [done|].
  cbn. rewrite Ht. done.
Qed.

(** ** Reachable screens *)
Context (env : nat -> shared -> shared) (expired : nat -> bool) (fuel : nat).
Context (mapped : mdesc -> bool * bool) (dma : nat -> list Z -> list Z).

(** After [start] and a sequence of operations. *)
Definition after (gpu : bool) (w : world T) (q : curq) (os : list fb_op) : S :=
  (run_fb env expired fuel mapped dma os (started gpu w q)).2.

Context (gpu : bool) (w : world T) (q : curq) (os : list fb_op).
Hypothesis clock : forall t, deadline_in expired t fuel.
Hypothesis pool : pool_sound w.
Hypothesis cursor : cu_ready q.
Hypothesis own_ids : forallb foreign os = true.
Definition backing0 : option mdesc := f_fb_backing (s_fb (started gpu w q)).
Definition memory0 : option mdesc := f_fb_device_memory (s_fb (started gpu w q)).

Lemma both0 : is_Some backing0 <-> is_Some memory0.
Proof using pool cursor. apply (start_ok gpu w q pool cursor). Qed.
Lemma after_inv : screen_inv backing0 memory0 (after gpu w q os).
Proof using pool cursor clock own_ids.
  apply (run_fb_ok _ _ both0 env expired fuel mapped dma clock os own_ids).
  apply (start_ok gpu w q pool cursor).
Qed.
End life.

(** C19: from [start] on, through any mode changes, [enableController] calls
    with their probes, timer events, opens, closes, stops, aperture requests
    and operations of other parts on resources of their own, and whatever the
    host refuses: the buffer, its device memory and the advertised modes stay
    those [start] chose; the current mode is an advertised one or none; and
    the framebuffer's resource, when there is one, is resource 1, has the
    size of the current mode, is tracked with that size by the pool, exists
    on the host, and its pixels fit in the buffer. *)
Theorem framebuffer_life T `{Host T} env expired fuel mapped dma gpu (w : world T) q os :
  (forall t, deadline_in expired t fuel) -> pool_sound w -> cu_ready q -> forallb foreign os = true ->
  let f0 := s_fb (started gpu w q) in
  let s := after env expired fuel mapped dma gpu w q os in
  let f := s_fb s in
  f_fb_backing f = f_fb_backing f0 /\ f_fb_device_memory f = f_fb_device_memory f0
  /\ f_display_modes f = f_display_modes f0
  /\ (f_current_mode f = 0 \/ f_current_mode f ∈ f_display_modes f)
  /\ pool_sound (gpu_of s)
  /\ (f_fb_resource_id f <> 0 ->
        f_gpu_driver f = true /\ f_fb_resource_id f = 1
        /\ exists b m, f_fb_backing f = Some b /\ find_mode (f_current_mode f) = Some m
             /\ f_width f = sm_width m /\ f_height f = sm_height m
             /\ f_width f * f_height f * 4 <= md_length b
             /\ tracks 1 (slot_2d FORMAT (f_width f) (f_height f) false) (gpu_of s)).
Proof.
  intros Hclock Hp Hq Hos f0 s f.
  pose proof (after_inv env expired fuel mapped dma gpu w q os Hclock Hp Hq Hos) as [Hc Hs]. fold s f in Hc, Hs.
  destruct (start_ok gpu w q Hp Hq) as [_ [_ Hs0]].
  pose proof (both0 gpu w q Hp Hq) as Hb.
  destruct Hs as [A1 A2 A3 A4 A5 A6 A7 A8 A9 A10 A11]. fold f in A1, A2, A3, A4, A5, A6, A7, A8, A9.
  split_and!; [exact A2|exact A3|rewrite A4; symmetry; apply (ok_modes _ _ _ _ _ _ Hs0)|by rewrite A4|exact A10|].
  intros Hid. destruct (A8 Hid) as (Hg & m & Hm & Ew & Eh).
  split; [exact Hg|]. split; [by destruct A7|].
  destruct (mode_fits _ _ Hb _ m Hc Hm) as (_ & _ & b & d & E1 & E2 & Hfit).
  exists b, m. split_and!; [congruence|done|done|done|by rewrite Ew, Eh|exact (A9 Hid)].
Qed.

(** C20: a mode that is not advertised is refused and nothing changes; for an
    advertised one the mode becomes current, and on success resource 1 has
    its size, on the host and in the pool. This holds after any such
    sequence of operations. *)
Theorem setDisplayMode_spec T `{Host T} env expired fuel mapped dma gpu (w : world T) q os dm :
  (forall t, deadline_in expired t fuel) -> pool_sound w -> cu_ready q -> forallb foreign os = true ->
  let s := after env expired fuel mapped dma gpu w q os in
  let '(r, s') := setDisplayMode dm s in
  let f := s_fb s' in
  (dm ∉ f_display_modes (s_fb s) -> r = kIOReturnUnsupported /\ s' = s)
  /\ (dm ∈ f_display_modes (s_fb s) -> f_current_mode f = dm)
  /\ (r = kIOReturnSuccess ->
        dm ∈ f_display_modes (s_fb s) /\ f_fb_resource_id f = 1
        /\ (exists m, find_mode dm = Some m /\ f_width f = sm_width m /\ f_height f = sm_height m)
        /\ tracks 1 (slot_2d FORMAT (f_width f) (f_height f) false) (gpu_of s')).
Proof.
  intros Hclock Hp Hq Hos s.
  pose proof (after_inv env expired fuel mapped dma gpu w q os Hclock Hp Hq Hos) as Hi. fold s in Hi.
  pose proof (setDisplayMode_ok _ _ (both0 gpu w q Hp Hq) dm s Hi) as Hm.
  destruct Hi as [_ Hs]. rewrite (ok_modes _ _ _ _ _ _ Hs).
  destruct (setDisplayMode dm s) as [r s']. destruct Hm as [_ (H1 & H2 & H3)]. split_and!; [done|done|].
  intros Hr. destruct (H3 Hr) as (? & ? & ? & ?). by split_and!.
Qed.


(** In any such state the self-check of the recreate path never reports
    that the buffer or the aperture moved, nor that the restored resource has
    another size: only what the host refuses can fail it. *)
Theorem probeResourceRecreate_asserts T `{Host T} env expired fuel mapped dma gpu (w : world T) q os :
  (forall t, deadline_in expired t fuel) -> pool_sound w -> cu_ready q -> forallb foreign os = true ->
  match (probeResourceRecreate (after env expired fuel mapped dma gpu w q os)).1 with
  | RP_FailB | RP_FailD_moved | RP_FailD_dims => False
  | _ => True
  end.
Proof.
  intros Hclock Hp Hq Hos.
  pose proof (after_inv env expired fuel mapped dma gpu w q os Hclock Hp Hq Hos) as [Hc Hs].
  set (s := after _ _ _ _ _ _ _ _ _) in *. destruct (f_gpu_driver (s_fb s)) eqn:Eg.
  - pose proof (recreate_ok _ _ (both0 gpu w q Hp Hq) _ Hc s Hs) as Hr.
    destruct (probeResourceRecreate s) as [v s']. exact (proj1 Hr).
  - unfold probeResourceRecreate, bind, get_fb, gets. destruct (f_fb_backing (s_fb s)); [|done].
    destruct (f_fb_device_memory (s_fb s)); [|done].
    destruct (Z.eqb_spec (f_fb_resource_id (s_fb s)) 0) as [|Hid]; [done|].
    destruct (ok_live _ _ _ _ _ _ Hs Hid) as [Hg _]. congruence.
Qed.

(** C22: while 2D rendering owns the scanout, one timer event in four sends
    the transfer and the flush of the whole screen, the flush only when the
    transfer succeeded, and the others send nothing; while 3D rendering owns
    it, no event sends anything or is counted. *)
Theorem refresh_throttle T `{Transport T} n f (w : world T) q :
  refreshing f w -> 0 <= f_full_refresh_tick_count f < FULL_REFRESH_INTERVAL ->
  let k := f_full_refresh_tick_count f + Z.of_nat n in
  (refreshes n (mk_screen f (mk_device w q))).2
  = mk_screen (set_f_full_refresh_tick_count (k mod FULL_REFRESH_INTERVAL) f)
      (mk_device (mk_world (w_gpu w) (w_mem w)
         (Nat.iter (Z.to_nat (k / FULL_REFRESH_INTERVAL)) (full_refresh f) (w_tr w))) q)
  /\ forall w', default false (g_framebuffer (w_gpu w')) = true ->
       refreshDisplay (mk_screen f (mk_device w' q)) = (tt, mk_screen f (mk_device w' q)).
Proof.
  intros Hr Ht k. split; [exact (refreshes_run n f w q Hr Ht)|]. intros w'. apply refresh_taken.
Qed.

(** * Witnesses *)
Definition screen_desc (id : Z) : mdesc := mk_mdesc id 35389440 kIOReturnSuccess [(0x40000000, 35389440)].
Definition screen_mem : mem :=
  mk_mem (Some <$> [screen_desc 1; screen_desc 2; demo_desc 3; demo_desc 4; demo_desc 5; demo_desc 6;
                    demo_desc 7; demo_desc 8; demo_desc 9])
    (replicate 40 (Some [])) 0 ∅ ∅ 0.
Definition shown_gpu : gpu := set_g_framebuffer (Some false) demo_gpu.
Definition screen_world : world obliging := mk_world shown_gpu screen_mem (mk_obliging ∅).
Definition session_ops : list fb_op :=
  [FbEnable; FbTick; FbSetMode 1; FbTick; FbOther (OpCreate2D 0x100 1 64 64 None); FbAperture 0].
#[local] Abbreviation final :=
  (after prompt_cursor (fun _ => true) 1 all_map clears_twice true screen_world small_cursor_queue session_ops).

Lemma screen_world_sound : pool_sound screen_world.
Proof. exact (demo_world_sound []). Qed.
Lemma prompt_clock t : deadline_in (fun _ => true) t 1.
Proof. exists 0%nat. split; [lia|reflexivity]. Qed.
Lemma small_ready : cu_ready small_cursor_queue.
Proof. split; [apply small_cursor_queue_idle|reflexivity]. Qed.

Lemma framebuffer_life_witness :
  f_fb_resource_id (s_fb final) = 1 /\ find_mode (f_current_mode (s_fb final)) = find_mode 1
  /\ tracks 1 (slot_2d FORMAT (f_width (s_fb final)) (f_height (s_fb final)) false) (gpu_of final).
Proof.
  destruct (framebuffer_life obliging prompt_cursor (fun _ => true) 1 all_map clears_twice true screen_world
    small_cursor_queue session_ops prompt_clock screen_world_sound small_ready ltac:(reflexivity))
    as (_ & _ & _ & _ & _ & Hl).
  destruct (Hl ltac:(vm_compute; discriminate)) as (_ & Hid & b & m & _ & Hm & _ & _ & _ & Ht).
  split; [exact Hid|]. split; [vm_compute; reflexivity|exact Ht].
Defined.

Lemma setDisplayMode_spec_witness :
  let '(r, s') := setDisplayMode 2 final in
  r = kIOReturnSuccess /\ f_current_mode (s_fb s') = 2 /\ f_fb_resource_id (s_fb s') = 1.
Proof.
  pose proof (setDisplayMode_spec obliging prompt_cursor (fun _ => true) 1 all_map clears_twice true screen_world
    small_cursor_queue session_ops 2 prompt_clock screen_world_sound small_ready ltac:(reflexivity)) as H1.
  cbv zeta in H1. destruct (setDisplayMode 2 final) as [r s'] eqn:E.
  assert (Hr : r = kIOReturnSuccess).
  { change r with (r, s').1. rewrite <- E. vm_compute. reflexivity. }
  destruct H1 as (_ & H2 & H3). destruct (H3 Hr) as (H4 & H5 & _). split; [exact Hr|]. split; [exact (H2 H4)|exact H5].
Defined.


Lemma probeResourceRecreate_asserts_witness :
  match (probeResourceRecreate final).1 with
  | RP_Pass => True
  | _ => False
  end.
Proof.
  pose proof (probeResourceRecreate_asserts obliging prompt_cursor (fun _ => true) 1 all_map clears_twice true
    screen_world small_cursor_queue session_ops prompt_clock screen_world_sound small_ready ltac:(reflexivity)) as H1.
  assert (E : (probeResourceRecreate final).1 = RP_Pass) by (vm_compute; reflexivity).
  rewrite E in H1 |- *. exact H1.
Defined.

#[local] Abbreviation s0 := (started true screen_world small_cursor_queue).
Lemma refresh_throttle_witness :
  f_full_refresh_tick_count (s_fb
    (refreshes 9 (mk_screen (s_fb s0) (mk_device (gpu_of s0) small_cursor_queue))).2) = 1.
Proof.
  destruct (refresh_throttle obliging 9 (s_fb s0) (gpu_of s0) small_cursor_queue
    ltac:(vm_compute; split_and!; congruence) ltac:(vm_compute; split; congruence)) as [H1 _].
  rewrite H1. vm_compute. reflexivity.
Defined.

(** ** What the code does that it does not mean to *)
(** The negative control of [enableController] sets the scanout to resource
    999, which is in the range the user client hands out. On a second call
    with that resource on the host, the framebuffer's own resource is still
    live, its set-up returns early, and nothing takes the scanout back: the
    refresh timer never sends anything again. *)
Definition twice_enabled : screen obliging :=
  after prompt_cursor (fun _ => true) 1 all_map clears_twice true
    (mk_world shown_gpu screen_mem (mk_obliging {[999]})) small_cursor_queue [FbEnable; FbEnable].
Theorem enableController_twice :
  (taken_over twice_enabled).1 = true /\ f_fb_resource_id (s_fb twice_enabled) = 1
  /\ forall n, (refreshes n twice_enabled).2 = twice_enabled.
Proof.
  assert (E : g_framebuffer (w_gpu (gpu_of twice_enabled)) = Some true) by (vm_compute; reflexivity).
  split; [vm_compute; reflexivity|]. split; [vm_compute; reflexivity|].
  destruct twice_enabled as [f [w q]]. cbn in E.
  induction n as [|n IH]; [done|]. cbn [refreshes]. unfold bind. rewrite refresh_taken; [exact IH|]. by rewrite E.
Qed.
