(* ===== verification/UserClient.v ===== *)
(** The user client: [VMVirtIOGPUUserClient] of [FB/VMVirtIOGPU.cpp]. Its
    state is a table of wired user buffers, the state of the two-phase backing
    probe and a surface counter; its operations are the handlers behind
    [externalMethod], most of which build one command and send it. *)
From S2P Require Import Prelude Wire Transport Driver Resources Display.

Definition MAX_USER_BACKINGS : nat := 64.
Definition VIRGL_BIND_SAMPLER_VIEW : Z := Z.shiftl 1 3.
Definition VIRGL_BIND_SCANOUT : Z := Z.shiftl 1 18.
Definition VIRGL_FORMAT_R8G8B8A8_UNORM : Z := 67.

(** [resource_id = 0] marks a free slot. *)
Record user_backing_entry := mk_backing { ub_resource_id : Z; ub_desc : option Z }.
Definition free_backing : user_backing_entry := mk_backing 0 None.

Record client := mk_client {
  c_gpu_device : bool;
  c_accelerator : option (option Z);  (* its IOAccelIndex, when published *)
  c_surfaces : list Z;
  c_next_surface_id : Z;
  c_user_backings : list user_backing_entry;
  c_probe_descriptor : option Z;
  c_probe_resource_id : Z;
  c_probe_ctx_id : Z;
  c_probe_in_progress : bool
}.

Definition set_c_next_surface_id (v : Z) (c : client) : client :=
  mk_client (c_gpu_device c) (c_accelerator c) (c_surfaces c) v (c_user_backings c)
    (c_probe_descriptor c) (c_probe_resource_id c) (c_probe_ctx_id c) (c_probe_in_progress c).
Definition set_c_surfaces (v : list Z) (c : client) : client :=
  mk_client (c_gpu_device c) (c_accelerator c) v (c_next_surface_id c) (c_user_backings c)
    (c_probe_descriptor c) (c_probe_resource_id c) (c_probe_ctx_id c) (c_probe_in_progress c).
Definition set_c_user_backings (v : list user_backing_entry) (c : client) : client :=
  mk_client (c_gpu_device c) (c_accelerator c) (c_surfaces c) (c_next_surface_id c) v
    (c_probe_descriptor c) (c_probe_resource_id c) (c_probe_ctx_id c) (c_probe_in_progress c).
Definition set_c_probe (d : option Z) (res ctx : Z) (busy : bool) (c : client) : client :=
  mk_client (c_gpu_device c) (c_accelerator c) (c_surfaces c) (c_next_surface_id c)
    (c_user_backings c) d res ctx busy.

(** [initWithTask] and [start], for a client that reaches a device. *)
Definition new_client (accelerator : option (option Z)) : client :=
  mk_client true accelerator [] 1 (replicate MAX_USER_BACKINGS free_backing) None 0 0 false.

(** What a call runs in: the calling client, the function-level static of
    [createVirglContextEx] that all clients share, and the driver. *)
Record session (T : Type) := mk_session { s_client : client; s_next_user_ctx_id : Z; s_world : world T }.
Arguments mk_session {T}.
Arguments s_client {T}.
Arguments s_next_user_ctx_id {T}.
Arguments s_world {T}.

(** The scalars and structures of an [IOExternalMethodArguments]: a count and
    a pointer each way ([a_in] is the memory behind the input pointer), the
    inline input structure, the input descriptor and the bytes its [map] shows
    (none behind a null address), the inline output buffer's size, and whether
    [writeBytes] fills the output descriptor. *)
Record struct_desc := mk_struct_desc { sd_desc : mdesc; sd_map : option (option (list Z)) }.
Record method_args := mk_args {
  a_in_count : nat; a_in_ptr : bool; a_in : nat -> Z;
  a_out_count : nat; a_out_ptr : bool;
  a_struct : option (list Z);
  a_struct_desc : option struct_desc;
  a_blob_capacity : option Z;
  a_out_desc : option bool
}.

(** What a call writes: scalar outputs, 64 bits or only the low 32 at once,
    the output structure, and its size. *)
Inductive output :=
| Out64 (i : nat) (v : Z)
| Out32 (i : nat) (v : Z)
| OutStruct (bytes : list Z)
| OutSize (n : Z).

Section client.
Context {T : Type} `{Transport T}.
(** Whether [map] gives a mapping for a command descriptor, and an address. *)
Context (mapped : mdesc -> bool * bool).
Abbreviation S := (session T).

Definition on_gpu {A} (m : M (world T) A) : M S A :=
  fun s => let '(a, w) := m (s_world s) in (a, mk_session (s_client s) (s_next_user_ctx_id s) w).
Definition get_client {A} (f : client -> A) : M S A := gets (fun s => f (s_client s)).
Definition upd_client (f : client -> client) : M S unit :=
  modify (fun s => mk_session (f (s_client s)) (s_next_user_ctx_id s) (s_world s)).

Definition sendDisplayCommand (cmd : option gpu_cmd) (resp_size : nat) : M S (IOReturn * list Z) :=
  match cmd with
  | None => ret (kIOReturnBadArgument, replicate resp_size 0)
  | Some c => on_gpu (submit c resp_size)
  end.
Definition send (c : gpu_cmd) : M S IOReturn :=
  let! r := sendDisplayCommand (Some c) 24 in ret r.1.

(** ** The table of user backings *)
Definition findUserBacking (resource_id : Z) (t : list user_backing_entry) : option Z :=
  if resource_id =? 0 then None
  else match index_of (fun e => ub_resource_id e =? resource_id) t with
       | None => None
       | Some i => e ← t !! i; ub_desc e
       end.

Definition addUserBacking (resource_id : Z) (desc : option Z) (t : list user_backing_entry)
  : option (list user_backing_entry) :=
  match desc with
  | None => None
  | Some _ =>
      if resource_id =? 0 then None
      else match findUserBacking resource_id t with
           | Some _ => None
           | None =>
               match index_of (fun e => ub_resource_id e =? 0) t with
               | None => None
               | Some i => Some (<[i := mk_backing resource_id desc]> t)
               end
           end
  end.

Definition drop_desc (desc : option Z) : M S unit :=
  match desc with
  | None => ret tt
  | Some d => on_gpu (complete d) ;;; on_gpu (release d)
  end.

Definition removeUserBacking (resource_id : Z) : M S unit :=
  if resource_id =? 0 then ret tt
  else
    let! t := get_client c_user_backings in
    match index_of (fun e => ub_resource_id e =? resource_id) t with
    | None => ret tt
    | Some i =>
        drop_desc (e ← t !! i; ub_desc e) ;;;
        upd_client (fun c => set_c_user_backings (<[i := free_backing]> (c_user_backings c)) c)
    end.

(** Iterations [i .. i + n - 1] of the loop. *)
Fixpoint remove_backings (n i : nat) : M S unit :=
  match n with
  | O => ret tt
  | Datatypes.S k =>
      let! t := get_client c_user_backings in
      drop_desc (e ← t !! i; if ub_resource_id e =? 0 then None else ub_desc e) ;;;
      upd_client (fun c => set_c_user_backings (<[i := free_backing]> (c_user_backings c)) c) ;;;
      remove_backings k (Datatypes.S i)
  end.
Definition removeAllUserBackings : M S unit := remove_backings MAX_USER_BACKINGS 0.

(** ** Commands without state *)
Definition ctx_hdr (ty ctx_id : Z) : M S virtio_gpu_ctrl_hdr :=
  on_gpu (initializeCommandHeader ty ctx_id false).

Definition send_ctx_create (ctx_id : Z) : M S IOReturn :=
  let! hdr := ctx_hdr VIRTIO_GPU_CMD_CTX_CREATE ctx_id in
  send (CmdCtxCreate hdr 0 0 (replicate 64 0)).
Definition send_ctx_destroy (ctx_id : Z) : M S IOReturn :=
  let! hdr := ctx_hdr VIRTIO_GPU_CMD_CTX_DESTROY ctx_id in
  send (CmdCtxDestroy hdr).
Definition send_ctx_attach (ctx_id resource_id : Z) : M S IOReturn :=
  let! hdr := ctx_hdr VIRTIO_GPU_CMD_CTX_ATTACH_RESOURCE ctx_id in
  send (CmdCtxResource hdr resource_id 0).
Definition send_unref (resource_id : Z) : M S IOReturn :=
  send (CmdUnref (hdr_of VIRTIO_GPU_CMD_RESOURCE_UNREF) resource_id 0).

(** ** 0x6000 createVirglContextEx, 0x6001 destroyVirglContextEx *)
Definition createVirglContextEx : M S (IOReturn * option Z) :=
  let! gpu := get_client c_gpu_device in
  if negb gpu then ret (kIOReturnBadArgument, None)
  else
    let! ctx_id := gets s_next_user_ctx_id in
    modify (fun s => mk_session (s_client s) (u32 (ctx_id + 1)) (s_world s)) ;;;
    let! r := send_ctx_create ctx_id in
    ret (r, if is_success r then Some ctx_id else None).

Definition destroyVirglContextEx (ctx_id : Z) : M S IOReturn :=
  let! gpu := get_client c_gpu_device in
  if negb gpu then ret kIOReturnNotReady else send_ctx_destroy ctx_id.

(** ** 0x6002 createResource3DEx *)
Definition allocateUserResourceId : M S Z :=
  let! id := on_gpu (get_gpu g_next_user_resource_id) in
  on_gpu (upd_gpu (set_g_next_user_resource_id (u32 (id + 1)))) ;;;
  ret id.

Definition createResource3DEx
    (ctx_id target format bind width height depth array_size last_level nr_samples flags : Z)
  : M S (IOReturn * option Z) :=
  let! gpu := get_client c_gpu_device in
  if negb gpu then ret (kIOReturnBadArgument, None)
  else
    let! resource_id := allocateUserResourceId in
    let! r := send (CmdCreate3D (mk_hdr VIRTIO_GPU_CMD_RESOURCE_CREATE_3D 0 0 ctx_id 0 0)
      (mk_create_3d resource_id target format bind width height depth array_size last_level
         nr_samples flags 0)) in
    ret (r, if is_success r then Some resource_id else None).

(** ** 0x6003 attachBackingUser, 0x6004 detachBackingUser, 0x6005 resourceUnref *)
(** Walk the segments of a prepared descriptor and send the scatter list; the
    descriptor is let go when that fails. The probe's phase 1 holds a copy of
    this code. *)
Definition attach_prepared (resource_id : Z) (d : mdesc) : M S IOReturn :=
  let drop := on_gpu (complete (md_id d)) ;;; on_gpu (release (md_id d)) in
  let segs := walk_segs (md_segs d) in
  let nr_entries := u32 (Z.of_nat (length segs)) in
  if (nr_entries =? 0) || negb (total_length segs =? md_length d)
  then drop ;;; ret kIOReturnNoMemory
  else
    let cmd_size := 32 + nr_entries * 16 in
    let! cmdbuf := on_gpu (IOMalloc cmd_size) in
    match cmdbuf with
    | None => drop ;;; ret kIOReturnNoMemory
    | Some g =>
        let! r := send (CmdAttach
          (mk_hdr VIRTIO_GPU_CMD_RESOURCE_ATTACH_BACKING 0 0 0 (garb g 20) (garb24 g 21))
          resource_id nr_entries (seg_entry <$> take (Z.to_nat nr_entries) segs)) in
        on_gpu (IOFree cmd_size) ;;;
        if negb (is_success r) then drop ;;; ret r else ret r
    end.

(** [withAddressRange] and [prepare]. *)
Definition wire_user_memory (len : Z) : M S (IOReturn * option mdesc) :=
  let! desc := on_gpu (new_descriptor len) in
  match desc with
  | None => ret (kIOReturnNoMemory, None)
  | Some d =>
      let! prep_ret := on_gpu (prepare d) in
      if negb (is_success prep_ret) then on_gpu (release (md_id d)) ;;; ret (prep_ret, None)
      else ret (kIOReturnSuccess, Some d)
  end.

Definition attachBackingUser (resource_id addr len : Z) : M S IOReturn :=
  let! gpu := get_client c_gpu_device in
  if negb gpu then ret kIOReturnNotReady
  else if (resource_id =? 0) || (addr =? 0) || (len =? 0) then ret kIOReturnBadArgument
  else
    let! t := get_client c_user_backings in
    match findUserBacking resource_id t with
    | Some _ => ret kIOReturnBusy
    | None =>
        let! wired := wire_user_memory len in
        match wired.2 with
        | None => ret wired.1
        | Some d =>
            let! r := attach_prepared resource_id d in
            if negb (is_success r) then ret r
            else
              let! t := get_client c_user_backings in
              match addUserBacking resource_id (Some (md_id d)) t with
              | None => on_gpu (complete (md_id d)) ;;; on_gpu (release (md_id d)) ;;;
                        ret kIOReturnNoResources
              | Some t' => upd_client (set_c_user_backings t') ;;; ret kIOReturnSuccess
              end
        end
    end.

Definition detachBackingUser (resource_id : Z) : M S IOReturn :=
  let! gpu := get_client c_gpu_device in
  if negb gpu then ret kIOReturnNotReady
  else
    let! r := send (CmdDetach (hdr_of VIRTIO_GPU_CMD_RESOURCE_DETACH_BACKING) resource_id 0) in
    removeUserBacking resource_id ;;;
    ret r.

Definition resourceUnref (resource_id : Z) : M S IOReturn :=
  let! gpu := get_client c_gpu_device in
  if negb gpu then ret kIOReturnNotReady
  else if resource_id =? 0 then ret kIOReturnBadArgument
  else
    let! t := get_client c_user_backings in
    (match findUserBacking resource_id t with
     | Some _ => removeUserBacking resource_id
     | None => ret tt
     end) ;;;
    send_unref resource_id.

(** ** 0x6006 getCapsetInfo, 0x6007 getCapset *)
Definition getCapsetInfo (capset_index : Z) : M S (IOReturn * (Z * Z * Z)) :=
  let! gpu := get_client c_gpu_device in
  if negb gpu then ret (kIOReturnBadArgument, (0, 0, 0))
  else
    let! r := sendDisplayCommand
      (Some (CmdGetCapsetInfo (hdr_of VIRTIO_GPU_CMD_GET_CAPSET_INFO) capset_index 0)) 40 in
    if negb (is_success r.1) then ret (r.1, (0, 0, 0))
    else ret (kIOReturnSuccess, (capset_field r.2 24, capset_field r.2 28, capset_field r.2 32)).

(** The blob and [*out_blob_size]. *)
Definition getCapset (capset_id version blob_capacity : Z) : M S (IOReturn * (list Z * Z)) :=
  let! gpu := get_client c_gpu_device in
  if negb gpu || (blob_capacity =? 0) then ret (kIOReturnBadArgument, ([], 0))
  else
    let RESPONSE_CAP := 2048 + 24 in
    let! r := sendDisplayCommand
      (Some (CmdGetCapset (hdr_of VIRTIO_GPU_CMD_GET_CAPSET) capset_id version))
      (Z.to_nat RESPONSE_CAP) in
    if negb (is_success r.1) then ret (r.1, ([], 0))
    else
      let blob_size := RESPONSE_CAP - 24 in
      let blob_size := if blob_capacity <? blob_size then blob_capacity else blob_size in
      ret (kIOReturnSuccess, (take (Z.to_nat blob_size) (drop 24 r.2), blob_size)).

(** ** 0x6008 submitVirglCommandsEx, 0x6009 ctxAttachResource *)
(** A descriptor made over the caller's bytes, handed to [executeCommands]. *)
Definition execute_bytes (ctx_id : Z) (commands : list Z) : M S IOReturn :=
  let! desc := on_gpu (new_descriptor (Z.of_nat (length commands))) in
  match desc with
  | None => ret kIOReturnNoMemory
  | Some d =>
      let! r := on_gpu (executeCommands ctx_id
                  (Some (mk_cmd_desc (mapped d).1 (mapped d).2 commands))) in
      on_gpu (release (md_id d)) ;;;
      ret r
  end.

Definition submitVirglCommandsEx (ctx_id : Z) (commands : option (list Z)) : M S IOReturn :=
  let! gpu := get_client c_gpu_device in
  if negb gpu then ret kIOReturnNotReady
  else match commands with
  | None => ret kIOReturnBadArgument
  | Some bytes =>
      if Z.of_nat (length bytes) =? 0 then ret kIOReturnBadArgument
      else
        let! three_d := on_gpu supports3D in
        if negb three_d then ret kIOReturnUnsupported
        else if 1024 * 1024 <? Z.of_nat (length bytes) then ret kIOReturnBadArgument
        else execute_bytes ctx_id bytes
  end.

Definition ctxAttachResource (ctx_id resource_id : Z) : M S IOReturn :=
  let! gpu := get_client c_gpu_device in
  if negb gpu then ret kIOReturnNotReady else send_ctx_attach ctx_id resource_id.

(** ** 0x5000 probeAttachBackingUser *)
Definition PROBE_CTX : Z := 0xFFF9.
Definition PROBE_RES : Z := 0xFFF8.
Definition PROBE_W : Z := 64.
Definition PROBE_H : Z := 64.
Definition PROBE_BUF_SIZE : Z := PROBE_W * PROBE_H * 4.

Definition probe_transfer (ty ctx_id resource_id : Z) : gpu_cmd :=
  transfer_3d_cmd ty resource_id 0 0 0 0 PROBE_W PROBE_H 1 ctx_id.

(** The label [phase1_cleanup]. *)
Definition phase1_cleanup (resource_created : bool) (r : IOReturn) : M S IOReturn :=
  (if resource_created then send_unref PROBE_RES ;;; ret tt else ret tt) ;;;
  send_ctx_destroy PROBE_CTX ;;;
  ret r.

Definition probe_phase1 (addr len : Z) : M S IOReturn :=
  let! busy := get_client c_probe_in_progress in
  if busy then ret kIOReturnBusy
  else if negb (len =? PROBE_BUF_SIZE) then ret kIOReturnBadArgument
  else if addr =? 0 then ret kIOReturnBadArgument
  else
    let! a := send_ctx_create PROBE_CTX in
    if negb (is_success a) then ret a
    else
      let! b := send (CmdCreate3D (mk_hdr VIRTIO_GPU_CMD_RESOURCE_CREATE_3D 0 0 PROBE_CTX 0 0)
        (mk_create_3d PROBE_RES VIRGL_TARGET_2D VIRGL_FORMAT_R8G8B8A8_UNORM
           VIRGL_BIND_RENDER_TARGET PROBE_W PROBE_H 1 1 0 0 0 0)) in
      if negb (is_success b) then phase1_cleanup false b
      else
        send_ctx_attach PROBE_CTX PROBE_RES ;;;
        let! wired := wire_user_memory len in
        match wired.2 with
        | None => phase1_cleanup true wired.1
        | Some d =>
            let! r := attach_prepared PROBE_RES d in
            if negb (is_success r) then phase1_cleanup true r
            else
              let! e := send (probe_transfer VIRTIO_GPU_CMD_TRANSFER_TO_HOST_3D PROBE_CTX PROBE_RES) in
              if negb (is_success e) then
                on_gpu (complete (md_id d)) ;;; on_gpu (release (md_id d)) ;;;
                phase1_cleanup true e
              else
                upd_client (set_c_probe (Some (md_id d)) PROBE_RES PROBE_CTX true) ;;;
                ret kIOReturnSuccess
        end.

Definition probe_phase2 : M S IOReturn :=
  let! c := get_client (fun c => c) in
  match c_probe_in_progress c, c_probe_descriptor c with
  | true, Some d =>
      let! xfer_ret := send (probe_transfer VIRTIO_GPU_CMD_TRANSFER_FROM_HOST_3D
                               (c_probe_ctx_id c) (c_probe_resource_id c)) in
      drop_desc (Some d) ;;;
      upd_client (set_c_probe None (c_probe_resource_id c) (c_probe_ctx_id c) false) ;;;
      send_unref (c_probe_resource_id c) ;;;
      send_ctx_destroy (c_probe_ctx_id c) ;;;
      upd_client (set_c_probe None 0 0 false) ;;;
      ret xfer_ret
  | _, _ => ret kIOReturnNotReady
  end.

Definition probeAttachBackingUser (phase addr len : Z) : M S IOReturn :=
  let! gpu := get_client c_gpu_device in
  if negb gpu then ret kIOReturnNotReady
  else if phase =? 1 then probe_phase1 addr len
  else if phase =? 2 then probe_phase2
  else ret kIOReturnBadArgument.

Definition probeAttachBackingUserCleanup : M S unit :=
  let! c := get_client (fun c => c) in
  match c_probe_in_progress c, c_probe_descriptor c with
  | true, Some d =>
      drop_desc (Some d) ;;;
      upd_client (set_c_probe None (c_probe_resource_id c) (c_probe_ctx_id c) false) ;;;
      (if c_gpu_device c then
         send_unref (c_probe_resource_id c) ;;; send_ctx_destroy (c_probe_ctx_id c) ;;; ret tt
       else ret tt) ;;;
      upd_client (set_c_probe None 0 0 false)
  | _, _ => ret tt
  end.

(** ** Life cycle *)
Definition flush_collections : M S unit := upd_client (set_c_surfaces []).
Definition clientClose : M S IOReturn :=
  probeAttachBackingUserCleanup ;;; removeAllUserBackings ;;; flush_collections ;;;
  ret kIOReturnSuccess.
Definition clientDied : M S IOReturn := clientClose.
Definition stop : M S unit :=
  flush_collections ;;;
  upd_client (fun c => mk_client false None (c_surfaces c) (c_next_surface_id c) (c_user_backings c)
    (c_probe_descriptor c) (c_probe_resource_id c) (c_probe_ctx_id c) (c_probe_in_progress c)).
Definition free : M S unit := probeAttachBackingUserCleanup ;;; removeAllUserBackings.

(** ** The older selectors *)
(** The status, and the surface id when it was assigned. *)
Definition createSurface (width height format : Z) : M S (IOReturn * option Z) :=
  let! c := get_client (fun c => c) in
  if negb (c_gpu_device c) then ret (kIOReturnBadArgument, None)
  else if (width =? 0) || (height =? 0) || (8192 <? width) || (8192 <? height)
  then ret (kIOReturnBadArgument, None)
  else if (1000 <? Z.of_nat (length (c_surfaces c))) then ret (kIOReturnNoMemory, None)
  else
    let surface_id := c_next_surface_id c in
    upd_client (set_c_next_surface_id
      (if surface_id =? 0xFFFFFFFF then 1 else surface_id + 1)) ;;;
    let virtio_format := if format =? 0 then VIRTIO_GPU_FORMAT_B8G8R8A8_UNORM else format in
    let resource_id := Z.lor surface_id 0x10000 in
    let! r := on_gpu (createResource2D resource_id virtio_format width height None) in
    ret (r, Some surface_id).

Definition destroySurface (surface_id : Z) : M S IOReturn :=
  let! c := get_client (fun c => c) in
  if negb (c_gpu_device c) then ret kIOReturnBadArgument
  else if (surface_id =? 0) || (c_next_surface_id c <=? surface_id) then ret kIOReturnBadArgument
  else on_gpu (deallocateResource (Z.lor surface_id 0x10000)).

(** [clearSurface], [presentSurface], [destroy3DContext] and
    [attachVirglResource] answer success without doing anything. *)
Definition stub : M S IOReturn :=
  let! gpu := get_client c_gpu_device in
  ret (if gpu then kIOReturnSuccess else kIOReturnBadArgument).

(** The status, and the id when one was written. *)
Definition client_create3DContext : M S (IOReturn * option Z) :=
  let! gpu := get_client c_gpu_device in
  if negb gpu then ret (kIOReturnBadArgument, None)
  else
    let! three_d := on_gpu supports3D in
    if negb three_d then ret (kIOReturnUnsupported, None)
    else let! c := on_gpu create3DContext in ret (c.1, Some c.2).

Definition submitVirglCommands (commands : list Z) : M S IOReturn :=
  let! gpu := get_client c_gpu_device in
  if negb gpu || (Z.of_nat (length commands) =? 0) then ret kIOReturnBadArgument
  else
    let! three_d := on_gpu supports3D in
    if negb three_d then ret kIOReturnUnsupported
    else if 1024 * 1024 <? Z.of_nat (length commands) then ret kIOReturnBadArgument
    else execute_bytes 1 commands.

Definition createVirglResource (resourceId width height format : Z) : M S IOReturn :=
  let! gpu := get_client c_gpu_device in
  if negb gpu then ret kIOReturnBadArgument
  else if (width =? 0) || (height =? 0) || (8192 <? width) || (8192 <? height)
  then ret kIOReturnBadArgument
  else on_gpu (createResource3D resourceId VIRTIO_GPU_RESOURCE_TARGET_2D format
         (Z.lor (Z.lor VIRGL_BIND_RENDER_TARGET VIRGL_BIND_SAMPLER_VIEW) VIRGL_BIND_SCANOUT)
         width height 1).

Definition createVirglContext (contextId : Z) : M S IOReturn :=
  let! gpu := get_client c_gpu_device in
  if negb gpu then ret kIOReturnBadArgument
  else
    let! three_d := on_gpu supports3D in
    if negb three_d then ret kIOReturnUnsupported
    else let! c := on_gpu createRenderContext in ret c.1.

Definition getVirglCapability (cap : Z) : M S Z :=
  let! gpu := get_client c_gpu_device in
  if negb gpu then ret 0
  else
    let! three_d := on_gpu supports3D in
    ret (if cap =? 0 then 8192 else if cap =? 1 then (if three_d then 1 else 0)
         else if cap =? 2 then 8 else 0).

(** Selector 0's [GPUCapabilities] structure. *)
Definition capabilities (three_d : bool) : list Z :=
  enc_fields ([(4%nat, 0x10000); (4%nat, 0x1af4); (4%nat, 0x1050); (4%nat, 2);
    (8%nat, 512 * 1024 * 1024); (4%nat, 8192); (4%nat, 8192); (4%nat, 64);
    (4%nat, if three_d then 1 else 0); (4%nat, 0); (4%nat, 1); (4%nat, 8192); (4%nat, 2)]
    ++ replicate 32 (4%nat, 0)).

(** ** externalMethod *)
Definition result : Type := IOReturn * list output.
Definition refuse (r : IOReturn) : M S result := ret (r, []).
Definition status (m : M S IOReturn) : M S result := let! r := m in ret (r, []).
Definition out64 (m : M S (IOReturn * option Z)) : M S result :=
  let! r := m in
  ret (r.1, match r.2 with Some v => [Out64 0 v] | None => [] end).
(** Through a 32-bit pointer to the first output. *)
Definition out32 (m : M S (IOReturn * option Z)) : M S result :=
  let! r := m in
  ret (r.1, match r.2 with Some v => [Out32 0 v] | None => [] end).

Definition getAcceleratorInfo (a : method_args) : M S result :=
  match a_out_desc a with
  | Some written =>
      let! three_d := on_gpu supports3D in
      if written then ret (kIOReturnSuccess, [OutStruct (capabilities three_d)])
      else refuse kIOReturnError
  | None =>
      if (1 <=? a_out_count a)%nat && a_out_ptr a then
        let! accelerator := get_client c_accelerator in
        match accelerator with
        | Some (Some index) => ret (kIOReturnSuccess, [Out64 0 index])
        | _ => refuse kIOReturnNotReady
        end
      else refuse kIOReturnBadArgument
  end.

(** Selector 0x6008: the commands come inline or, from 4096 bytes on, in a
    descriptor. *)
Definition submit_input (ctx_id : Z) (a : method_args) : M S result :=
  match a_struct a with
  | Some (b :: bytes) => status (submitVirglCommandsEx ctx_id (Some (b :: bytes)))
  | _ =>
      match a_struct_desc a with
      | None => refuse kIOReturnBadArgument
      | Some d =>
          let! pr := on_gpu (prepare (sd_desc d)) in
          if negb (is_success pr) then refuse pr
          else match sd_map d with
          | None => on_gpu (complete (md_id (sd_desc d))) ;;; refuse kIOReturnVMError
          | Some bytes =>
              on_gpu (map_add 1) ;;;
              let! r := submitVirglCommandsEx ctx_id bytes in
              on_gpu (map_add (-1)) ;;;
              on_gpu (complete (md_id (sd_desc d))) ;;;
              refuse r
          end
      end
  end.

(** Scalars: [args->scalarInput[i]] cast to 32 bits, two of them as one 64-bit
    value, and the checks on counts and pointers before they are used. *)
Definition scalar (a : method_args) (i : nat) : Z := u32 (a_in a i).
Definition scalar64 (a : method_args) (i : nat) : Z := scalar a i + 2 ^ 32 * scalar a (Datatypes.S i).
Definition takes (a : method_args) (n : nat) (m : M S result) (other : IOReturn) : M S result :=
  if (n <=? a_in_count a)%nat && a_in_ptr a then m else refuse other.
Definition gives (a : method_args) (n : nat) (m : M S result) (other : IOReturn) : M S result :=
  if (n <=? a_out_count a)%nat && a_out_ptr a then m else refuse other.

(** The selectors IOAccelerator clients use. *)
Definition standard_selectors (selector : Z) (a : method_args) (others : M S result) : M S result :=
  if selector =? 0 then
    getAcceleratorInfo a
  else if selector =? 1 then
    gives a 1%nat (out32 client_create3DContext) kIOReturnBadArgument
  else if selector =? 2 then
    takes a 1%nat (status stub) kIOReturnBadArgument
  else if selector =? 4 then
    takes a 2%nat (gives a 1%nat (ret (kIOReturnSuccess, [Out64 0 (u64 (a_in a 0%nat))]))
    kIOReturnBadArgument) kIOReturnBadArgument
  else if selector =? 7 then
    refuse kIOReturnSuccess
  else if selector =? 8 then
    takes a 1%nat (refuse kIOReturnSuccess) kIOReturnBadArgument
  else others.

(** Surfaces and contexts. *)
Definition surface_selectors (selector : Z) (a : method_args) (others : M S result) : M S result :=
  if selector =? 0x1000 then
    takes a 3%nat (gives a 1%nat (out32 (createSurface (scalar a 0%nat) (scalar a 1%nat) (scalar a 2%nat)))
    kIOReturnUnsupported) kIOReturnUnsupported
  else if selector =? 0x1001 then
    takes a 1%nat (status (destroySurface (scalar a 0%nat))) kIOReturnUnsupported
  else if selector =? 0x1002 then
    takes a 2%nat (status stub) kIOReturnUnsupported
  else if selector =? 0x1003 then
    takes a 1%nat (status stub) kIOReturnUnsupported
  else if selector =? 0x2000 then
    gives a 1%nat (out32 client_create3DContext) kIOReturnUnsupported
  else if selector =? 0x2001 then
    takes a 1%nat (status stub) kIOReturnUnsupported
  else others.

(** The VirtGLGL interface. *)
Definition virgl_selectors (selector : Z) (a : method_args) (others : M S result) : M S result :=
  if selector =? 0x3000 then
    match a_struct a with
    | Some (b :: bytes) => status (submitVirglCommands (b :: bytes))
    | _ => refuse kIOReturnBadArgument
    end
  else if (selector =? 0x3001) || (selector =? 0x4003) then
    takes a 4%nat (status (createVirglResource (scalar a 0%nat) (scalar a 1%nat) (scalar a 2%nat) (scalar a 3%nat)))
    kIOReturnBadArgument
  else if (selector =? 0x3002) || (selector =? 0x4004) then
    takes a 1%nat (status (createVirglContext (scalar a 0%nat))) kIOReturnBadArgument
  else if selector =? 0x3003 then
    takes a 2%nat (status stub) kIOReturnBadArgument
  else if selector =? 0x3004 then
    takes a 1%nat (gives a 1%nat
      (let! v := getVirglCapability (scalar a 0%nat) in ret (kIOReturnSuccess, [Out64 0 v]))
    kIOReturnBadArgument) kIOReturnBadArgument
  else if selector =? 0x3005 then
    takes a 5%nat (status (on_gpu (transferToHost2D (scalar a 0%nat) 0 (scalar a 1%nat) (scalar a 2%nat)
      (scalar a 3%nat) (scalar a 4%nat)))) kIOReturnBadArgument
  else if selector =? 0x3006 then
    takes a 5%nat (status (on_gpu (flushResource (scalar a 0%nat) (scalar a 1%nat) (scalar a 2%nat)
      (scalar a 3%nat) (scalar a 4%nat)))) kIOReturnBadArgument
  else if selector =? 0x3007 then
    takes a 6%nat (status (on_gpu (setscanout (scalar a 0%nat) (scalar a 1%nat) (scalar a 2%nat)
      (scalar a 3%nat) (scalar a 4%nat) (scalar a 5%nat)))) kIOReturnBadArgument
  else if selector =? 0x3008 then
    let ctx_id := if (9 <=? a_in_count a)%nat then scalar a 8%nat else 0 in
    takes a 8%nat (status (on_gpu (transferToHost3D (scalar a 0%nat) (scalar a 1%nat) (scalar a 2%nat)
      (scalar a 3%nat) (scalar a 4%nat) (scalar a 5%nat) (scalar a 6%nat) (scalar a 7%nat) ctx_id))) kIOReturnBadArgument
  else if selector =? 0x3009 then
    let ctx_id := if (9 <=? a_in_count a)%nat then scalar a 8%nat else 0 in
    takes a 8%nat (status (on_gpu (transferFromHost3D (scalar a 0%nat) (scalar a 1%nat) (scalar a 2%nat)
      (scalar a 3%nat) (scalar a 4%nat) (scalar a 5%nat) (scalar a 6%nat) (scalar a 7%nat) ctx_id))) kIOReturnBadArgument
  else others.

(** The probe and the winsys interface. *)
Definition winsys_selectors (selector : Z) (a : method_args) (others : M S result) : M S result :=
  if selector =? 0x5000 then
    takes a 5%nat (status (probeAttachBackingUser (scalar a 0%nat) (scalar64 a 1%nat) (scalar64 a 3%nat)))
    kIOReturnBadArgument
  else if selector =? 0x6000 then
    gives a 1%nat (out64 createVirglContextEx) kIOReturnBadArgument
  else if selector =? 0x6001 then
    takes a 1%nat (status (destroyVirglContextEx (scalar a 0%nat))) kIOReturnBadArgument
  else if selector =? 0x6002 then
    takes a 11%nat (gives a 1%nat (out64 (createResource3DEx (scalar a 0%nat) (scalar a 1%nat) (scalar a 2%nat)
      (scalar a 3%nat) (scalar a 4%nat) (scalar a 5%nat) (scalar a 6%nat) (scalar a 7%nat)
      (scalar a 8%nat) (scalar a 9%nat) (scalar a 10%nat)))
    kIOReturnBadArgument) kIOReturnBadArgument
  else if selector =? 0x6003 then
    takes a 5%nat (status (attachBackingUser (scalar a 0%nat) (scalar64 a 1%nat) (scalar64 a 3%nat)))
    kIOReturnBadArgument
  else if selector =? 0x6004 then
    takes a 1%nat (status (detachBackingUser (scalar a 0%nat))) kIOReturnBadArgument
  else if selector =? 0x6005 then
    takes a 1%nat (status (resourceUnref (scalar a 0%nat))) kIOReturnBadArgument
  else if selector =? 0x6006 then
    (* the input pointer is not tested *)
    if (1 <=? a_in_count a)%nat then
      gives a 3%nat
        (let! r := getCapsetInfo (scalar a 0%nat) in
         ret (r.1, if is_success r.1 then [Out64 0 r.2.1.1; Out64 1 r.2.1.2; Out64 2 r.2.2] else []))
        kIOReturnBadArgument
    else refuse kIOReturnBadArgument
  else if selector =? 0x6007 then
    takes a 2%nat
      (match a_blob_capacity a with
       | Some capacity =>
           if 0 <? capacity then
             let! r := getCapset (scalar a 0%nat) (scalar a 1%nat) (u32 capacity) in
             ret (r.1, if is_success r.1 then [OutStruct r.2.1; OutSize r.2.2] else [])
           else refuse kIOReturnBadArgument
       | None => refuse kIOReturnBadArgument
       end) kIOReturnBadArgument
  else if selector =? 0x6008 then
    takes a 1%nat (submit_input (scalar a 0%nat) a) kIOReturnBadArgument
  else if selector =? 0x6009 then
    takes a 2%nat (status (ctxAttachResource (scalar a 0%nat) (scalar a 1%nat))) kIOReturnBadArgument
  else others.

Definition externalMethod (selector : Z) (a : method_args) : M S result :=
  let! gpu := get_client c_gpu_device in
  if negb gpu then refuse kIOReturnNotReady
  else standard_selectors selector a (surface_selectors selector a (virgl_selectors selector a
         (winsys_selectors selector a (refuse kIOReturnUnsupported)))).

(** A client's calls, one after the other. *)
Fixpoint run_calls (calls : list (Z * method_args)) : M S (list result) :=
  match calls with
  | [] => ret []
  | (sel, a) :: l =>
      let! r := externalMethod sel a in
      let! rs := run_calls l in
      ret (r :: rs)
  end.
End client.

(** * The table of user backings as a finite map *)
(** The promise of the table: a partial map from resource ids to the wired
    descriptors, of at most [MAX_USER_BACKINGS] entries. *)
Fixpoint backings (t : list user_backing_entry) : gmap Z Z :=
  match t with
  | [] => ∅
  | e :: t' =>
      if ub_resource_id e =? 0 then backings t'
      else match ub_desc e with
           | Some d => <[ub_resource_id e := d]> (backings t')
           | None => backings t'
           end
  end.

(** A slot is free, or holds an id and a descriptor; no id is held twice. *)
Definition entry_ok (e : user_backing_entry) : Prop := ub_resource_id e = 0 <-> ub_desc e = None.
Fixpoint distinct_ids (t : list user_backing_entry) : Prop :=
  match t with
  | [] => True
  | e :: t' =>
      (ub_resource_id e <> 0 -> Forall (fun e' => ub_resource_id e' <> ub_resource_id e) t')
      /\ distinct_ids t'
  end.
Record table_ok (t : list user_backing_entry) : Prop := {
  tb_length : length t = MAX_USER_BACKINGS;
  tb_entries : Forall entry_ok t;
  tb_distinct : distinct_ids t
}.

Definition has_id (id : Z) (e : user_backing_entry) : bool := ub_resource_id e =? id.

Lemma backings_cons e t :
  entry_ok e ->
  backings (e :: t) = match ub_desc e with
                      | Some d => <[ub_resource_id e := d]> (backings t)
                      | None => backings t
                      end.
Proof.
  intros He. cbn. destruct (Z.eqb_spec (ub_resource_id e) 0) as [E|E]; [|done].
  by rewrite (proj1 He E).
Qed.

Lemma index_of_cons {A} (f : A -> bool) x l :
  index_of f (x :: l) = if f x then Some 0%nat else Datatypes.S <$> index_of f l.
Proof. done. Qed.

Lemma backings_fresh id t :
  Forall entry_ok t -> id <> 0 -> index_of (has_id id) t = None -> backings t !! id = None.
Proof.
  intros He Hid. induction He as [|e t He _ IH]; [done|]. rewrite index_of_cons.
  destruct (has_id id e) eqn:E; [done|]. apply Z.eqb_neq in E.
  destruct (index_of (has_id id) t); [done|]. intros _. rewrite backings_cons by done.
  destruct (ub_desc e); [rewrite lookup_insert_ne by done|]; auto.
Qed.

Lemma backings_at id t i e :
  Forall entry_ok t -> id <> 0 -> index_of (has_id id) t = Some i -> t !! i = Some e ->
  backings t !! id = ub_desc e /\ ub_desc e <> None.
Proof.
  intros He Hid. revert i. induction He as [|e' t He _ IH]; intros i; [done|]. rewrite index_of_cons.
  destruct (has_id id e') eqn:E.
  - intros [= <-] [= ->]. apply Z.eqb_eq in E. rewrite backings_cons by done. subst id.
    destruct (ub_desc e) eqn:Ed; [by rewrite lookup_insert_eq|]. by apply He in Ed.
  - apply Z.eqb_neq in E. destruct (index_of (has_id id) t) as [j|]; [|done]. intros [= <-] Hj.
    destruct (IH j eq_refl Hj) as [Hb Hd]. split; [|done]. rewrite backings_cons by done.
    destruct (ub_desc e'); [by rewrite lookup_insert_ne|done].
Qed.

Lemma find_backings id t : Forall entry_ok t -> findUserBacking id t = backings t !! id.
Proof.
  intros He. unfold findUserBacking. destruct (Z.eqb_spec id 0) as [->|Hid].
  - induction He as [|e t He _ IH]; [done|]. rewrite backings_cons by done.
    destruct (ub_desc e) eqn:Ed; [|done]. rewrite lookup_insert_ne; [done|].
    intros E. apply He in E. congruence.
  - fold (has_id id). destruct (index_of (has_id id) t) as [i|] eqn:Ei.
    + destruct (index_of_Some _ _ _ Ei) as (e & Hi & _ & _). rewrite Hi. cbn.
      by destruct (backings_at id t i e He Hid Ei Hi).
    + by rewrite backings_fresh.
Qed.

Lemma backings_add id d t i :
  Forall entry_ok t -> id <> 0 -> backings t !! id = None ->
  index_of (fun e => ub_resource_id e =? 0) t = Some i ->
  backings (<[i := mk_backing id (Some d)]> t) = <[id := d]> (backings t).
Proof.
  intros He Hid. revert i. induction He as [|e t He _ IH]; intros i Hn; [done|].
  rewrite index_of_cons, backings_cons in * by done.
  destruct (Z.eqb_spec (ub_resource_id e) 0) as [E|E].
  - intros [= <-]. cbn. rewrite (proj1 He E). apply Z.eqb_neq in Hid. by rewrite Hid.
  - destruct (index_of _ t) as [j|]; [|done]. intros [= <-]. cbn [insert list_insert fmap option_fmap option_map].
    change (list_insert j ?x t) with (<[j := x]> t).
    rewrite backings_cons by done. destruct (ub_desc e) as [d'|]; [|by apply IH].
    destruct (decide (id = ub_resource_id e)) as [->|Hne]; [by rewrite lookup_insert_eq in Hn|].
    rewrite lookup_insert_ne in Hn by done. rewrite IH by done. by rewrite insert_insert_ne.
Qed.

Lemma backings_remove id t i :
  Forall entry_ok t -> distinct_ids t -> id <> 0 -> index_of (has_id id) t = Some i ->
  backings (<[i := free_backing]> t) = delete id (backings t).
Proof.
  intros He Hd Hid. revert i. induction He as [|e t He Ht IH]; intros i; [done|].
  destruct Hd as [Hd Hd']. rewrite index_of_cons, backings_cons by done.
  destruct (has_id id e) eqn:E.
  - intros [= <-]. apply Z.eqb_eq in E. subst id. cbn [insert list_insert].
    rewrite backings_cons by done. cbn [ub_desc free_backing].
    assert (Hf : backings t !! ub_resource_id e = None).
    { apply backings_fresh; [done|done|]. apply index_of_None. intros j x Hj.
      apply Z.eqb_neq. exact (Forall_lookup_1 _ _ _ _ (Hd Hid) Hj). }
    destruct (ub_desc e).
    + by rewrite delete_insert_eq, delete_id.
    + by rewrite delete_id.
  - apply Z.eqb_neq in E. destruct (index_of (has_id id) t) as [j|]; [|done]. intros [= <-].
    cbn [insert list_insert]. change (list_insert j ?x t) with (<[j := x]> t).
    rewrite backings_cons by done. rewrite IH by done.
    destruct (ub_desc e); [|done]. by rewrite delete_insert_ne.
Qed.

Lemma distinct_insert e t i :
  distinct_ids t ->
  (ub_resource_id e <> 0 -> Forall (fun e' => ub_resource_id e' <> ub_resource_id e) t) ->
  distinct_ids (<[i := e]> t).
Proof.
  revert i. induction t as [|x t IH]; intros i; [done|]. intros [Hx Ht] He.
  destruct i as [|i]; cbn [insert list_insert]; (split; [intros Hn|]).
  - by apply He, Forall_cons in Hn as [_ ?].
  - done.
  - change (Forall (fun e' => ub_resource_id e' <> ub_resource_id x) (<[i := e]> t)).
    apply Forall_insert; [by apply Hx|]. destruct (decide (ub_resource_id e = 0)) as [E|E]; [congruence|].
    apply He, Forall_cons in E as [? _]. congruence.
  - apply IH; [done|]. intros Hn. by apply He, Forall_cons in Hn as [_ ?].
Qed.

Lemma table_ok_insert t i e :
  table_ok t -> entry_ok e ->
  (ub_resource_id e <> 0 -> backings t !! ub_resource_id e = None) ->
  table_ok (<[i := e]> t).
Proof.
  intros [Hl He Hd] Hx Hn. split; [by rewrite length_insert|by apply Forall_insert|].
  apply distinct_insert; [done|]. intros Hne. specialize (Hn Hne).
  apply Forall_lookup. intros j y Hy E.
  destruct (index_of (has_id (ub_resource_id e)) t) as [k|] eqn:Ek.
  - destruct (index_of_Some _ _ _ Ek) as (z & Hz & _ & _).
    destruct (backings_at _ _ _ _ He Hne Ek Hz). congruence.
  - apply (proj1 (index_of_None _ _) Ek) in Hy. by apply Z.eqb_neq in Hy.
Qed.

Lemma table_ok_free t i : table_ok t -> table_ok (<[i := free_backing]> t).
Proof. intros Ht. by apply table_ok_insert. Qed.
Lemma table_ok_new : table_ok (replicate MAX_USER_BACKINGS free_backing).
Proof.
  split; [done|by apply Forall_replicate|]. generalize MAX_USER_BACKINGS.
  intros n. by induction n.
Qed.

(** The map is full when every slot is taken. *)
Lemma backings_size t :
  Forall entry_ok t -> distinct_ids t ->
  (size (backings t) <= length t)%nat
  /\ (size (backings t) = length t <-> index_of (fun e => ub_resource_id e =? 0) t = None).
Proof.
  intros He. induction He as [|e t He Ht IH]; [done|]. intros [Hd Hd'].
  destruct (IH Hd') as [IH1 IH2]. rewrite index_of_cons, backings_cons by done.
  destruct (Z.eqb_spec (ub_resource_id e) 0) as [E|E].
  - rewrite (proj1 He E). cbn. split; [lia|]. split; [lia|done].
  - destruct (ub_desc e) eqn:Ed; [|by apply He in Ed].
    assert (Hf : backings t !! ub_resource_id e = None).
    { apply backings_fresh; [done|done|]. apply index_of_None. intros j x Hj.
      apply Z.eqb_neq. exact (Forall_lookup_1 _ _ _ _ (Hd E) Hj). }
    rewrite map_size_insert_None by done. cbn [length].
    destruct (index_of _ t); cbn; split; try lia; split; intros; try done;
      [exfalso; enough (Some n = None) by done; apply IH2; lia | f_equal; by apply IH2].
Qed.

Lemma add_backing_spec id d t :
  table_ok t ->
  match addUserBacking id (Some d) t with
  | Some t' => id <> 0 /\ backings t !! id = None /\ (size (backings t) < MAX_USER_BACKINGS)%nat
               /\ table_ok t' /\ backings t' = <[id := d]> (backings t)
               /\ exists i, t !! i = Some free_backing /\ t' = <[i := mk_backing id (Some d)]> t
  | None => id = 0 \/ is_Some (backings t !! id) \/ size (backings t) = MAX_USER_BACKINGS
  end.
Proof.
  intros Ht. pose proof Ht as [Hl He Hd]. unfold addUserBacking.
  destruct (Z.eqb_spec id 0) as [->|Hid]; [by left|].
  rewrite find_backings by done. destruct (backings t !! id) eqn:Ef; [by right; left|].
  destruct (backings_size t He Hd) as [Hs1 Hs2]. rewrite Hl in *.
  destruct (index_of _ t) as [i|] eqn:Ei; [|by right; right; apply Hs2].
  split_and!; [done|done| | |by apply backings_add|].
  - destruct (decide (size (backings t) = MAX_USER_BACKINGS)) as [E|E]; [by apply Hs2 in E|lia].
  - apply table_ok_insert; [done|by split|done].
  - exists i. split; [|done]. destruct (index_of_Some _ _ _ Ei) as ([x o] & Hx & E & _).
    apply Z.eqb_eq in E. cbn in E. subst x. rewrite Hx. f_equal.
    pose proof (proj1 (Forall_lookup_1 _ _ _ _ He Hx) eq_refl) as Ho. cbn in Ho. by subst o.
Qed.

Lemma run_drop_desc {T} `{Transport T} o (s : session T) :
  (drop_desc o s).2 =
    match o with
    | None => s
    | Some d => mk_session (s_client s) (s_next_user_ctx_id s) (release d (complete d (s_world s)).2).2
    end.
Proof. by destruct o. Qed.

Lemma run_removeUserBacking {T} `{Transport T} id (s : session T) :
  let t := c_user_backings (s_client s) in
  (removeUserBacking id s).2 =
    if id =? 0 then s
    else match index_of (has_id id) t with
         | None => s
         | Some i =>
             let s' := (drop_desc (e ← t !! i; ub_desc e) s).2 in
             mk_session (set_c_user_backings (<[i := free_backing]> t) (s_client s))
               (s_next_user_ctx_id s) (s_world s')
         end.
Proof.
  intros t. unfold removeUserBacking. destruct (id =? 0); [done|].
  unfold bind, get_client, gets. fold t. fold (has_id id). destruct (index_of (has_id id) t) as [i|]; [|done].
  unfold upd_client, modify. pose proof (run_drop_desc (e ← t !! i; ub_desc e) s) as E.
  destruct (drop_desc _ s) as [[] s']. cbn [snd] in E. subst s'. cbn. by destruct (e ← t !! i; ub_desc e).
Qed.

(** * The dispatcher keeps to the caller's arrays *)
(** The call with another memory behind its input pointer. *)
Definition with_in (f : nat -> Z) (a : method_args) : method_args :=
  mk_args (a_in_count a) (a_in_ptr a) f (a_out_count a) (a_out_ptr a) (a_struct a)
    (a_struct_desc a) (a_blob_capacity a) (a_out_desc a).

(** An output the caller made room for. *)
Definition out_ok (a : method_args) (o : output) : Prop :=
  match o with
  | Out64 i _ | Out32 i _ => (i < a_out_count a)%nat /\ a_out_ptr a = true
  | OutStruct bytes =>
      a_out_desc a = Some true
      \/ exists n, a_blob_capacity a = Some n /\ Z.of_nat (length bytes) <= n
  | OutSize v => exists n, a_blob_capacity a = Some n /\ 0 <= v <= n
  end.

Section outputs.
Context {T : Type} `{Transport T}.
Context (mapped : mdesc -> bool * bool).

(** [outs Q m]: the outputs of every run of [m] satisfy [Q]. *)
Definition outs (Q : output -> Prop) (m : M (session T) result) : Prop :=
  forall s, Forall Q (m s).1.2.

Lemma outs_bind {A} Q (m : M (session T) A) k : (forall x, outs Q (k x)) -> outs Q (bind m k).
Proof. intros Hk s. unfold bind. destruct (m s) as [x s']. apply Hk. Qed.
Lemma outs_ret Q (r : result) : Forall Q r.2 -> outs Q (ret r).
Proof. by intros Hr s. Qed.
Lemma outs_refuse Q r : outs Q (refuse r).
Proof. by apply outs_ret, Forall_nil. Qed.
Lemma outs_status Q m : outs Q (status m).
Proof. apply outs_bind. intros x. by apply outs_ret, Forall_nil. Qed.
Lemma outs_one Q r o : Q o -> outs Q (ret (r, [o])).
Proof. intros Ho. apply outs_ret, Forall_cons. by split; [|apply Forall_nil]. Qed.
Lemma outs_out64 (Q : output -> Prop) m : (forall v, Q (Out64 0 v)) -> outs Q (out64 m).
Proof. intros Ho. apply outs_bind. intros [r [v|]]; [by apply outs_one|by apply outs_ret, Forall_nil]. Qed.
Lemma outs_out32 (Q : output -> Prop) m : (forall v, Q (Out32 0 v)) -> outs Q (out32 m).
Proof. intros Ho. apply outs_bind. intros [r [v|]]; [by apply outs_one|by apply outs_ret, Forall_nil]. Qed.

Lemma getCapset_outs Q id version capacity :
  0 <= capacity -> (forall bytes n, Z.of_nat (length bytes) <= n <= capacity -> Q (OutStruct bytes) /\ (0 <= n -> Q (OutSize n))) ->
  outs Q (let! r := getCapset id version capacity in
          ret (r.1, if is_success r.1 then [OutStruct r.2.1; OutSize r.2.2] else [])).
Proof.
  intros Hc HQ s. unfold getCapset, bind, get_client, gets.
  destruct (_ || _); [by apply Forall_nil|].
  destruct (sendDisplayCommand _ _ s) as [[r resp] s']. cbn [fst snd].
  destruct (negb (is_success r)) eqn:E; cbn [ret fst snd].
  { apply negb_true_iff in E. rewrite E. by apply Forall_nil. }
  set (n := if capacity <? _ then _ else _). assert (Hn : 0 <= n <= capacity).
  { unfold n. destruct (Z.ltb_spec capacity (2048 + 24 - 24)); lia. }
  assert (Hl : Z.of_nat (length (take (Z.to_nat n) (drop 24 resp))) <= n).
  { rewrite length_take. lia. }
  destruct (HQ _ n (conj Hl (proj2 Hn))) as [H1 H2].
  change (is_success kIOReturnSuccess) with true. cbv iota.
  rewrite !Forall_cons, Forall_nil. split_and!; [done|apply H2; lia|done].
Qed.
End outputs.

(** C39: Whatever the selector and the host's answers, [externalMethod] writes
    only to scalar outputs the caller counted, and no more structure bytes
    than the caller's buffer holds. *)
Theorem externalMethod_output_bounds T `{Transport T} mapped sel a (s : session T) :
  Forall (out_ok a) (externalMethod mapped sel a s).1.2.
Proof.
  revert s. change (outs (out_ok a) (externalMethod mapped sel a)).
  assert (Hg : forall n m other,
    ((n <= a_out_count a)%nat -> a_out_ptr a = true -> outs (T := T) (out_ok a) m) ->
    outs (out_ok a) (if (n <=? a_out_count a)%nat && a_out_ptr a then m else refuse other)).
  { intros n m other Hm. destruct (Nat.leb_spec n (a_out_count a)), (a_out_ptr a); cbn; try apply outs_refuse.
    by apply Hm. }
  unfold externalMethod, standard_selectors, surface_selectors, virgl_selectors, winsys_selectors,
    takes, gives, getAcceleratorInfo, submit_input. apply outs_bind. intros g. cbv zeta.
  repeat first
    [ apply outs_refuse | apply outs_status
    | apply Hg; intros Hn Hp
    | apply outs_out64; intros v; cbn; by split
    | apply outs_out32; intros v; cbn; by split
    | apply outs_one; cbn; first [by left|by split]
    | match goal with |- outs _ (match ?x with _ => _ end) => destruct x eqn:? end
    | apply getCapset_outs; [by apply u32_range|intros bytes v Hv]
    | apply outs_bind; intros ? ].
  - apply outs_ret. cbn [snd]. destruct (is_success _); rewrite ?Forall_cons, Forall_nil; [|done].
    cbn. split_and!; lia || done.
  - assert (u32 z <= z) by (apply Z.mod_le; lia).
    cbn. split; [right|]; exists z; (split; [done|lia]).
Qed.

(** The dispatcher reads no scalar input beyond the count the caller gave:
    calls whose arrays agree below the count have the same result and effect. *)
Theorem externalMethod_input_bounds T `{Transport T} mapped sel a f (s : session T) :
  (forall i, (i < a_in_count a)%nat -> f i = a_in a i) ->
  externalMethod mapped sel (with_in f a) s = externalMethod mapped sel a s.
Proof.
  intros Hf. unfold externalMethod.
  match goal with |- bind _ ?k s = bind _ ?k' s =>
    change (k (c_gpu_device (s_client s)) s = k' (c_gpu_device (s_client s)) s) end. cbv beta.
  destruct (negb (c_gpu_device (s_client s))); [done|].
  unfold standard_selectors, surface_selectors, virgl_selectors, winsys_selectors, takes, gives,
    scalar64, scalar, with_in, getAcceleratorInfo, submit_input.
  cbn [a_in_count a_in_ptr a_in a_out_count a_out_ptr a_struct a_struct_desc a_blob_capacity a_out_desc].
  cbv zeta.
  repeat match goal with
  | |- (if ?sel =? ?k then _ else _) s = _ => destruct (sel =? k)
  | |- (if (?sel =? ?k) || ?b then _ else _) s = _ => destruct ((sel =? k) || b)
  end;
  repeat match goal with
  | |- context [(?n <=? a_in_count a)%nat] => destruct (Nat.leb_spec n (a_in_count a))
  end; cbn [andb]; rewrite ?Hf by lia; try reflexivity.
Qed.

(** * The table refines a finite map *)
(** C38: the table of user backings is a partial map of at most 64 entries:
    [findUserBacking] looks up, [addUserBacking] inserts a fresh nonzero id
    unless the map is full, [removeUserBacking] deletes and gives the
    descriptor's prepare and reference back, a new client's map is empty, and
    every operation keeps the table well formed. *)
Theorem user_table_refines_map T `{Transport T} id d (s : session T) acc :
  let t := c_user_backings (s_client s) in
  table_ok t ->
  findUserBacking id t = backings t !! id
  /\ match addUserBacking id (Some d) t with
     | Some t' => id <> 0 /\ backings t !! id = None /\ (size (backings t) < MAX_USER_BACKINGS)%nat
                  /\ table_ok t' /\ backings t' = <[id := d]> (backings t)
     | None => id = 0 \/ is_Some (backings t !! id) \/ size (backings t) = MAX_USER_BACKINGS
     end
  /\ (let s' := (removeUserBacking id s).2 in
      let t' := c_user_backings (s_client s') in
      table_ok t' /\ backings t' = delete id (backings t)
      /\ s_world s' = match backings t !! id with
                      | Some d' => (release d' (complete d' (s_world s)).2).2
                      | None => s_world s
                      end)
  /\ table_ok (c_user_backings (new_client acc)) /\ backings (c_user_backings (new_client acc)) = ∅.
Proof.
  intros t Ht. pose proof Ht as [Hl He Hd]. split_and!; [by apply find_backings| | |apply table_ok_new|].
  - pose proof (add_backing_spec id d t Ht) as Ha.
    destruct (addUserBacking id (Some d) t); [|done]. destruct Ha as (? & ? & ? & ? & ? & _). done.
  - cbv zeta. rewrite run_removeUserBacking. fold t. destruct (Z.eqb_spec id 0) as [->|Hid].
    + fold t. pose proof (find_backings 0 t He) as Hf. change (findUserBacking 0 t) with (@None Z) in Hf.
      rewrite <- Hf. split_and!; [done|by rewrite delete_id|done].
    + destruct (index_of (has_id id) t) as [i|] eqn:Ei.
      * destruct (index_of_Some _ _ _ Ei) as (e & Hi & _ & _).
        destruct (backings_at id t i e He Hid Ei Hi) as [-> _]. cbn [s_client c_user_backings set_c_user_backings s_world].
        split_and!; [by apply table_ok_free|by apply backings_remove|].
        rewrite Hi, run_drop_desc. cbn [mbind option_bind]. by destruct (ub_desc e).
      * fold t. pose proof (backings_fresh id t He Hid Ei) as Hf. rewrite Hf.
        split_and!; [done|by rewrite delete_id|done].
  - cbn [c_user_backings new_client]. by vm_compute.
Qed.

(** * Witnesses *)
Definition demo_session : session host_machine :=
  mk_session (new_client (Some (Some 7))) 0x100 (demo_world []).
Definition scalars (l : list Z) : method_args :=
  mk_args (length l) true (fun i => nth i l 0) 3 true None None (Some 64) None.

(** [resourceUnref] passes any id to the host, those of the driver's own
    pool included: a client's call leaves a live slot whose resource the host
    no longer has, so the pool is sound no more. *)
Theorem resourceUnref_breaks_pool :
  let w := (createResource2D 5 1 4 3 None (demo_world [])).2 in
  let s := mk_session (new_client None) 0x100 w in
  pool_sound w /\ (resourceUnref 5 s).1 = kIOReturnSuccess /\ ~ pool_sound (s_world (resourceUnref 5 s).2).
Proof.
  intros w s. split; [exact (sound_create2D 5 1 4 3 None _ (demo_world_sound []))|]. split; [by vm_compute|].
  intros [_ _ _ _ Hh]. specialize (Hh 0%nat 5 ltac:(split; [done|by vm_compute])).
  vm_compute in Hh. discriminate.
Qed.

Definition demo_table : list user_backing_entry :=
  <[0%nat := mk_backing 5 (Some 9)]> (replicate MAX_USER_BACKINGS free_backing).
Lemma demo_table_ok : table_ok demo_table.
Proof. apply table_ok_insert; [apply table_ok_new|done|]. intros _. by vm_compute. Qed.

Lemma user_table_refines_map_witness :
  let s := mk_session (set_c_user_backings demo_table (new_client None)) 0 (demo_world []) in
  let s' := (removeUserBacking 5 s).2 in
  backings (c_user_backings (s_client s)) !! 5 = Some 9
  /\ backings (c_user_backings (s_client s')) = delete 5 (backings demo_table).
Proof.
  intros s s'.
  destruct (user_table_refines_map host_machine 5 9 s None demo_table_ok) as (H1 & _ & (_ & H & _) & _).
  split; [symmetry; exact H1 | exact H].
Defined.

Lemma externalMethod_input_bounds_witness :
  let a := scalars [0x104] in
  externalMethod (fun _ => (true, true)) 0x6005 (with_in (fun i => match i with O => 0x104 | _ => 99 end) a) demo_session
  = externalMethod (fun _ => (true, true)) 0x6005 a demo_session.
Proof.
  apply (externalMethod_input_bounds host_machine). intros [|i] Hi; [reflexivity|].
  cbn in Hi. lia.
Defined.
