(* ===== verification/Wiring.v ===== *)
(** Memory wired on behalf of a user client: every path of the client's
    methods settles its account of prepares, references, mappings and heap
    blocks with the table of user backings and the probe's descriptor. *)
From S2P Require Import Prelude Wire Transport Driver Resources Display Accounts UserClient.

(** * Accounts *)
(** How often a client holds [id]: in the table, and for the probe. *)
Definition held_in (id : Z) (t : list user_backing_entry) : Z :=
  foldr (fun e n => own id (ub_desc e) + n) 0 t.
Definition held (id : Z) (c : client) : Z :=
  held_in id (c_user_backings c) + own id (c_probe_descriptor c).

(** The table is well formed and the probe is in progress exactly while it
    holds a descriptor. *)
Definition client_ok (c : client) : Prop :=
  table_ok (c_user_backings c)
  /\ c_probe_in_progress c = bool_decide (is_Some (c_probe_descriptor c)).

(** Outstanding prepares and references of [id] the client does not hold. *)
Definition unheld {T} (id : Z) (s : session T) : Z * Z * Z * Z :=
  let '(h, m, p, r) := balance id (s_world s) in
  (h, m, p - held id (s_client s), r - held id (s_client s)).
Definition accounted {T} (id : Z) (v : Z * Z * Z * Z) (s : session T) : Prop :=
  client_ok (s_client s) /\ unheld id s = v.

(** The client and the balance, exactly. *)
Definition st {T} (id : Z) (c : client) (h m p r : Z) (s : session T) : Prop :=
  s_client s = c /\ balance id (s_world s) = (h, m, p, r).
Definition account {T} (id : Z) (s : session T) : client * (Z * Z * Z * Z) :=
  (s_client s, balance id (s_world s)).

Lemma held_in_insert id t i e e' :
  t !! i = Some e -> held_in id (<[i := e']> t) = held_in id t - own id (ub_desc e) + own id (ub_desc e').
Proof.
  revert i. induction t as [|x t IH]; intros [|i] Hi; try done.
  - injection Hi as ->. cbn. lia.
  - change (own id (ub_desc x) + held_in id (<[i:=e']> t)
            = own id (ub_desc x) + held_in id t - own id (ub_desc e) + own id (ub_desc e')).
    rewrite (IH i Hi). lia.
Qed.

Lemma held_in_empty id n : held_in id (replicate n free_backing) = 0.
Proof. induction n; [done|]. cbn. change (foldr _ 0 ?l) with (held_in id l). by rewrite IHn. Qed.

Section rules.
Context {T : Type} `{Transport T}.
Implicit Types (c : client) (h m p r : Z) (s : session T).

Lemma account_st {A} id (x : M (session T) A) :
  (forall c h m p r, hoare (st id c h m p r) x (fun _ => st id c h m p r)) -> keeps (account id) x.
Proof.
  intros Hx [c [[[h m] p] r]] s Hs. unfold account in *.
  destruct (Hx c h m p r s) as [E3 E4]; [split; [exact (f_equal fst Hs)|exact (f_equal snd Hs)]|].
  cbn. by rewrite E3, E4.
Qed.

Lemma accounted_keeps {A} id v (x : M (session T) A) :
  keeps (account id) x -> preserves (accounted id v) x.
Proof.
  intros Hx s [Hs Hv]. pose proof (keeps_eq _ x s Hx) as E. unfold account in E.
  injection E as E1 E2 E3 E4 E5. unfold accounted, unheld, balance, mem_balance in *. rewrite E1, E2, E3, E4, E5. done.
Qed.

Lemma st_keeps {A B} id c h m p r (x : M (session T) A) (k : A -> M (session T) B) Q :
  keeps (account id) x -> (forall a, hoare (st id c h m p r) (k a) Q) ->
  hoare (st id c h m p r) (bind x k) Q.
Proof.
  intros Hx Hk. eapply hoare_bind; [|exact Hk]. intros s [E1 E2].
  pose proof (Hx (c, (h, m, p, r)) s) as Hs. unfold account in Hs. cbn beta in Hs.
  rewrite E1, E2 in Hs. specialize (Hs eq_refl). unfold account in Hs.
  split; [exact (f_equal fst Hs)|exact (f_equal snd Hs)].
Qed.

Lemma st_get {A B} id c h m p r (f : client -> A) (k : A -> M (session T) B) Q :
  hoare (st id c h m p r) (k (f c)) Q -> hoare (st id c h m p r) (bind (get_client f) k) Q.
Proof. intros Hk s [E1 E2]. unfold bind, get_client, gets. cbn. rewrite E1. by apply Hk. Qed.

Lemma st_upd {B} id c h m p r f (k : unit -> M (session T) B) Q :
  hoare (st id (f c) h m p r) (k tt) Q -> hoare (st id c h m p r) (bind (upd_client f) k) Q.
Proof. intros Hk s [E1 E2]. unfold bind, upd_client, modify. cbn. apply Hk. split; cbn; [by rewrite E1|done]. Qed.

Lemma st_moves {A B} id c h m p r (x : M (world T) A) f (k : A -> M (session T) B) Q :
  moves id x f ->
  (forall a, let '(dh, dm, dp, dr) := f a in hoare (st id c (h + dh) (m + dm) (p + dp) (r + dr)) (k a) Q) ->
  hoare (st id c h m p r) (bind (on_gpu x) k) Q.
Proof.
  intros Hx Hk s [E1 E2]. unfold bind, on_gpu. specialize (Hx (s_world s)).
  destruct (x (s_world s)) as [a w']. rewrite E2 in Hx. specialize (Hk a).
  destruct (f a) as [[[dh dm] dp] dr]. apply Hk. by split.
Qed.

(** ** Methods that leave the account alone *)
Lemma acct_gpu {A} id (x : M (world T) A) : keeps (balance id) x -> keeps (account id) (on_gpu x).
Proof.
  intros Hx v s Hs. pose proof (keeps_eq _ x (s_world s) Hx) as E. unfold account in *.
  unfold on_gpu. destruct (x (s_world s)) as [a w]. cbn in *. by rewrite E.
Qed.
Lemma acct_get {A} id (f : client -> A) : keeps (account id) (get_client (T := T) f).
Proof. apply keeps_gets. Qed.
Lemma acct_static id f :
  keeps (account id) (modify (fun s : session T => mk_session (s_client s) (f s) (s_world s))).
Proof. apply keeps_modify. done. Qed.
End rules.

#[export] Hint Resolve acct_get : keeps.
#[export] Hint Extern 4 (keeps (account _) (on_gpu _)) => apply acct_gpu, bal_mem; solve [keeps_tac] : keeps.
#[export] Hint Extern 1 (keeps (account _) (modify _)) => apply acct_static : keeps.

(** Follow a method whose balance moves. *)
Ltac wire_step :=
  first
    [ eapply st_get
    | eapply st_upd
    | eapply st_moves; [apply moves_new_descriptor|intros ?; cbn beta iota]
    | eapply st_moves; [apply moves_prepare|intros ?; cbn beta iota]
    | eapply st_moves; [apply moves_complete|intros ?; cbn beta iota]
    | eapply st_moves; [apply moves_release|intros ?; cbn beta iota]
    | eapply st_moves; [apply moves_IOMalloc|intros ?; cbn beta iota]
    | eapply st_moves; [apply moves_IOFree|intros ?; cbn beta iota]
    | eapply st_moves; [apply moves_map_add|intros ?; cbn beta iota]
    | eapply st_keeps; [solve [keeps_tac]|intros ?]
    | goal_case ].

Section methods.
Context {T : Type} `{Transport T}.
Context (mapped : mdesc -> bool * bool).

Lemma acct_send id c : keeps (account id) (send (T := T) c).
Proof. unfold send, sendDisplayCommand. keeps_tac. Qed.
#[local] Hint Resolve acct_send : keeps.
Lemma acct_attach_ids id : keeps (account id) (allocateUserResourceId (T := T)).
Proof. unfold allocateUserResourceId. keeps_tac. Qed.
#[local] Hint Resolve acct_attach_ids : keeps.
Lemma acct_header id ty ctx : keeps (account id) (ctx_hdr (T := T) ty ctx).
Proof. unfold ctx_hdr, initializeCommandHeader. keeps_tac. Qed.
#[local] Hint Resolve acct_header : keeps.
Lemma acct_ctx_create id ctx : keeps (account id) (send_ctx_create (T := T) ctx).
Proof. unfold send_ctx_create. keeps_tac. Qed.
Lemma acct_ctx_destroy id ctx : keeps (account id) (send_ctx_destroy (T := T) ctx).
Proof. unfold send_ctx_destroy. keeps_tac. Qed.
Lemma acct_ctx_attach id ctx res : keeps (account id) (send_ctx_attach (T := T) ctx res).
Proof. unfold send_ctx_attach. keeps_tac. Qed.
Lemma acct_unref id res : keeps (account id) (send_unref (T := T) res).
Proof. unfold send_unref. keeps_tac. Qed.
#[local] Hint Resolve acct_ctx_create acct_ctx_destroy acct_ctx_attach acct_unref : keeps.
Lemma acct_cleanup id b r : keeps (account id) (phase1_cleanup (T := T) b r).
Proof. unfold phase1_cleanup. keeps_tac. Qed.
#[local] Hint Resolve acct_cleanup : keeps.

Lemma st_ret {A} id c h m p r h' m' p' r' (a : A) :
  h = h' -> m = m' -> p = p' -> r = r' ->
  hoare (st (T := T) id c h m p r) (ret a) (fun _ => st id c h' m' p' r').
Proof. by intros -> -> -> -> s Hs. Qed.

Ltac own_lia := unfold own in *; repeat case_bool_decide; lia.
Ltac wire_tac :=
  repeat first
    [ eapply st_moves; [apply moves_execute|intros ?; cbn beta iota]
    | wire_step
    | apply st_ret; cbn [fmap option_fmap option_map]; rewrite ?own_None; lia ].

Lemma acct_execute_bytes id ctx bytes : keeps (account id) (execute_bytes (T := T) mapped ctx bytes).
Proof. apply account_st. intros c h m p r. unfold execute_bytes. wire_tac. Qed.
#[local] Hint Resolve acct_execute_bytes : keeps.
Lemma acct_submitEx id ctx bytes : keeps (account id) (submitVirglCommandsEx (T := T) mapped ctx bytes).
Proof. unfold submitVirglCommandsEx, supports3D. keeps_tac. Qed.
#[local] Hint Resolve acct_submitEx : keeps.
Lemma acct_submit id bytes : keeps (account id) (submitVirglCommands (T := T) mapped bytes).
Proof. unfold submitVirglCommands, supports3D. keeps_tac. Qed.
Lemma acct_submit_input id ctx a : keeps (account id) (submit_input (T := T) mapped ctx a).
Proof.
  apply account_st. intros c h m p r. unfold submit_input, status, refuse. wire_tac.
Qed.

(** ** Methods that hand a descriptor to the client *)
(** The descriptor a wired range leaves with the caller. *)
Lemma st_wire id c h m p r len :
  hoare (st (T := T) id c h m p r) (wire_user_memory len)
    (fun x s => let o := own id (md_id <$> x.2) in
                st id c h m (p + o) (r + o) s /\ (x.2 = None -> x.1 <> kIOReturnSuccess)).
Proof.
  unfold wire_user_memory. eapply st_moves; [apply moves_new_descriptor|]. intros [d|]; cbn beta iota.
  2: { intros s Hs. cbn -[own]. rewrite own_None. split; [by rewrite !Z.add_0_r in *|done]. }
  eapply st_moves; [apply moves_prepare|]. intros x. cbn beta iota.
  change (own id (md_id <$> Some d)) with (own id (Some (md_id d))).
  destruct (is_success x) eqn:E; cbn [negb].
  - intros s [H1 H2]. cbn -[own]. split; [|done]. split; [done|]. rewrite H2. apply quad_eq; lia.
  - eapply st_moves; [apply moves_release|]. intros ?; cbn beta iota. intros s [H1 H2]. cbn -[own].
    split; [|intros _; by apply is_success_false]. split; [done|]. rewrite H2, own_None. apply quad_eq; lia.
Qed.

(** A refused attachment lets the descriptor go. *)
Lemma st_attach_prepared id c h m p r res d :
  hoare (st (T := T) id c h m p r) (attach_prepared res d)
    (fun x => let o := if is_success x then 0 else own id (Some (md_id d)) in
              st id c h m (p - o) (r - o)).
Proof.
  unfold attach_prepared. cbv zeta.
  assert (Hd : forall h' e, h' = h -> e <> kIOReturnSuccess ->
    hoare (st (T := T) id c h' m p r)
      ((on_gpu (complete (md_id d)) ;;; on_gpu (release (md_id d))) ;;; ret e)
      (fun x => let o := if is_success x then 0 else own id (Some (md_id d)) in
                st id c h m (p - o) (r - o))).
  { intros h' e -> He%is_success_false. intros s [H1 H2]. cbn -[own]. rewrite He. split; [done|].
    pose proof (moves_complete id (md_id d) (s_world s)) as M1.
    pose proof (moves_release id (md_id d) (complete (md_id d) (s_world s)).2) as M2.
    rewrite H2 in M1. cbn -[own balance bump] in M1, M2 |- *. rewrite M1 in M2. rewrite M2.
    apply quad_eq; lia. }
  destruct (_ || _); [by apply Hd|].
  eapply st_moves; [apply moves_IOMalloc|]. intros [g|]; cbn beta iota; [|by rewrite !Z.add_0_r; apply Hd].
  eapply st_keeps; [solve [keeps_tac]|]. intros x.
  eapply st_moves; [apply moves_IOFree|]. intros ?; cbn beta iota. rewrite !Z.add_0_r.
  destruct (is_success x) eqn:E; cbn [negb].
  - intros s [H1 H2]. cbn [ret fst snd]. rewrite E. split; [done|]. rewrite H2. apply quad_eq; lia.
  - apply Hd; [lia|by apply is_success_false].
Qed.

(** The account after a call that may have changed what the client holds. *)
Lemma settle {A} id v (x : M (session T) A) :
  (forall c h m p r, client_ok c -> v = (h, m, p - held id c, r - held id c) ->
     hoare (st id c h m p r) x (fun _ => accounted id v)) ->
  preserves (accounted id v) x.
Proof.
  intros Hx s [Hok Hv]. unfold unheld in Hv. destruct (balance id (s_world s)) as [[[h m] p] r] eqn:E.
  by apply (Hx (s_client s) h m p r Hok).
Qed.

Lemma accounted_st {A} id v c h m p r (x : M (session T) A) :
  preserves (accounted id v) x -> client_ok c -> v = (h, m, p - held id c, r - held id c) ->
  hoare (st id c h m p r) x (fun _ => accounted id v).
Proof. intros Hx Hok Hv s [H1 H2]. apply Hx. split; [by rewrite H1|]. unfold unheld. by rewrite H2, H1, Hv. Qed.

Lemma accounted_ret {A} id v c h m p r (a : A) :
  client_ok c -> v = (h, m, p - held id c, r - held id c) ->
  hoare (st (T := T) id c h m p r) (ret a) (fun _ => accounted id v).
Proof. intros Hok -> s [H1 H2]. split; cbn [ret snd]; [by rewrite H1|]. unfold unheld. by rewrite H2, H1. Qed.

Lemma accounted_attachBackingUser id v res addr len :
  preserves (accounted (T := T) id v) (attachBackingUser res addr len).
Proof.
  apply settle. intros c h m p r Hok Hv. unfold attachBackingUser.
  apply st_get. destruct (negb (c_gpu_device c)); [by apply accounted_ret|].
  destruct (_ || _ || _); [by apply accounted_ret|]. apply st_get.
  destruct (findUserBacking res (c_user_backings c)); [by apply accounted_ret|].
  eapply hoare_bind; [apply st_wire|]. intros [e [d|]]; cbn [fst snd].
  2: { cbv zeta. rewrite own_None, !Z.add_0_r. intros s [Hs _]. exact (accounted_ret _ _ _ _ _ _ _ _ Hok Hv s Hs). }
  eapply hoare_bind.
  { intros s [Hs _]. exact (st_attach_prepared id c h m _ _ res d s Hs). }
  intros x. cbv zeta. cbn [fst snd fmap option_fmap option_map]. destruct (is_success x) eqn:E; cbn [negb].
  2: { apply accounted_ret; [done|]. rewrite Hv. apply quad_eq; lia. }
  apply st_get. pose proof (add_backing_spec res (md_id d) _ (proj1 Hok)) as Ha.
  destruct (addUserBacking res (Some (md_id d)) (c_user_backings c)) as [t'|].
  - destruct Ha as (_ & _ & _ & Ht & _ & i & Hi & ->). apply st_upd. apply accounted_ret.
    + split; [exact Ht|exact (proj2 Hok)].
    + rewrite Hv. unfold held. cbn [c_user_backings set_c_user_backings c_probe_descriptor].
      rewrite (held_in_insert _ _ _ _ _ Hi). cbn -[own held_in]. rewrite own_None. apply quad_eq; lia.
  - repeat wire_step. apply accounted_ret; [done|]. rewrite Hv. apply quad_eq; lia.
Qed.

Lemma st_upd_last id v c h m p r f :
  client_ok (f c) -> v = (h, m, p - held id (f c), r - held id (f c)) ->
  hoare (st (T := T) id c h m p r) (upd_client f) (fun _ => accounted id v).
Proof.
  intros Hok Hv s [<- H2]. split; [done|]. unfold unheld, upd_client, modify. cbn [snd s_world s_client].
  by rewrite H2, Hv.
Qed.

Lemma drop_held id v c h m p r o c' {B} (k : unit -> M (session T) B) :
  client_ok c' -> held id c' = held id c - own id o ->
  v = (h, m, p - held id c, r - held id c) ->
  (forall h' m' p' r', v = (h', m', p' - held id c', r' - held id c') ->
     hoare (st id c h' m' p' r') (k tt) (fun _ => accounted id v)) ->
  hoare (st (T := T) id c h m p r) (bind (drop_desc o) k) (fun _ => accounted id v).
Proof.
  intros Hok' Hh Hv Hk. unfold drop_desc. destruct o as [d|].
  - intros s [H1 H2].
    pose proof (moves_complete id d (s_world s)) as M1.
    pose proof (moves_release id d (complete d (s_world s)).2) as M2.
    rewrite H2 in M1. cbn -[own balance bump] in M1, M2. rewrite M1 in M2.
    unfold bind, on_gpu. cbn -[own balance bump]. eapply Hk; [|split; [exact H1|exact M2]].
    rewrite Hv, Hh. apply quad_eq; lia.
  - rewrite own_None in Hh. apply Hk. rewrite Hv, Hh. apply quad_eq; lia.
Qed.

Lemma client_ok_free i c :
  client_ok c -> client_ok (set_c_user_backings (<[i := free_backing]> (c_user_backings c)) c).
Proof. intros [H1 H2]. split; [by apply table_ok_free|done]. Qed.

Lemma held_free id c i e :
  c_user_backings c !! i = Some e ->
  held id (set_c_user_backings (<[i := free_backing]> (c_user_backings c)) c)
  = held id c - own id (ub_desc e).
Proof.
  intros Hi. unfold held. cbn [c_user_backings set_c_user_backings c_probe_descriptor].
  rewrite (held_in_insert _ _ _ _ _ Hi). cbn -[own held_in]. rewrite own_None. lia.
Qed.

Lemma accounted_remove id v res : preserves (accounted (T := T) id v) (removeUserBacking res).
Proof.
  apply settle. intros c h m p r Hok Hv. unfold removeUserBacking.
  destruct (res =? 0); [by apply accounted_ret|]. apply st_get.
  destruct (index_of _ (c_user_backings c)) as [i|] eqn:Ei; [|by apply accounted_ret].
  destruct (index_of_Some _ _ _ Ei) as (e & Hi & _ & _). rewrite Hi. cbn [mbind option_bind].
  eapply drop_held with (c := c); [by apply (client_ok_free i)|by apply held_free|done|].
  intros h' m' p' r' Hv'. apply st_upd_last; [by apply client_ok_free|done].
Qed.

Lemma accounted_remove_backings id v n i :
  preserves (accounted (T := T) id v) (remove_backings n i).
Proof.
  revert i. induction n as [|n IH]; intros i; [apply preserves_ret|]. cbn [remove_backings].
  apply settle. intros c h m p r Hok Hv. apply st_get.
  set (o := (e ← c_user_backings c !! i; _)).
  eapply drop_held with (c := c); [by apply (client_ok_free i)| |done|].
  - unfold o. destruct (c_user_backings c !! i) as [e|] eqn:Hi; cbn [mbind option_bind].
    + rewrite (held_free id c i e Hi). pose proof (Forall_lookup_1 _ _ _ _ (tb_entries _ (proj1 Hok)) Hi) as He.
      destruct (Z.eqb_spec (ub_resource_id e) 0) as [E|E]; [|done]. by rewrite (proj1 He E).
    + rewrite own_None. unfold held. cbn [c_user_backings set_c_user_backings c_probe_descriptor].
      rewrite list_insert_ge by (by apply lookup_ge_None). lia.
  - intros h' m' p' r' Hv'. apply st_upd. apply accounted_st; [apply IH|by apply client_ok_free|done].
Qed.

Lemma client_ok_probe d res ctx b c :
  client_ok c -> b = bool_decide (is_Some d) -> client_ok (set_c_probe d res ctx b c).
Proof. intros [H1 _] ->. by split. Qed.
Lemma held_probe id c d res ctx b :
  held id (set_c_probe d res ctx b c) = held id c - own id (c_probe_descriptor c) + own id d.
Proof. unfold held. cbn [c_user_backings set_c_probe c_probe_descriptor]. lia. Qed.

Lemma accounted_phase1 id v addr len : preserves (accounted (T := T) id v) (probe_phase1 addr len).
Proof.
  apply settle. intros c h m p r Hok Hv. unfold probe_phase1. apply st_get.
  destruct (c_probe_in_progress c) eqn:Eb; [by apply accounted_ret|].
  destruct (negb _); [by apply accounted_ret|]. destruct (addr =? 0); [by apply accounted_ret|].
  eapply st_keeps; [solve [keeps_tac]|]. intros a. destruct (negb _); [by apply accounted_ret|].
  eapply st_keeps; [solve [keeps_tac]|]. intros b.
  assert (Hc : forall r' e h' m' p' rr, v = (h', m', p' - held id c, rr - held id c) ->
    hoare (st (T := T) id c h' m' p' rr) (phase1_cleanup r' e) (fun _ => accounted id v)).
  { intros. apply accounted_st; [|done|done]. apply accounted_keeps. keeps_tac. }
  destruct (negb _); [by apply Hc|]. eapply st_keeps; [solve [keeps_tac]|]. intros _.
  eapply hoare_bind; [apply st_wire|]. intros [e [d|]]; cbn [fst snd].
  2: { cbv zeta. rewrite own_None, !Z.add_0_r. intros s [Hs _]. by apply (Hc true e _ _ _ _ Hv s). }
  eapply hoare_bind.
  { intros s [Hs _]. exact (st_attach_prepared id c h m _ _ PROBE_RES d s Hs). }
  intros x. cbv zeta. cbn [fst snd fmap option_fmap option_map]. destruct (is_success x); cbn [negb].
  2: { apply Hc. rewrite Hv. apply quad_eq; lia. }
  eapply st_keeps; [solve [keeps_tac]|]. intros y. destruct (negb _).
  - do 2 wire_step. apply Hc. rewrite Hv. apply quad_eq; lia.
  - apply st_upd, accounted_ret; [by apply client_ok_probe|]. rewrite held_probe, Hv.
    destruct Hok as [_ Ho]. rewrite Eb in Ho. symmetry in Ho. apply bool_decide_eq_false in Ho.
    apply eq_None_not_Some in Ho. rewrite Ho, own_None. apply quad_eq; lia.
Qed.

Lemma accounted_phase2 id v : preserves (accounted (T := T) id v) probe_phase2.
Proof.
  apply settle. intros c h m p r Hok Hv. unfold probe_phase2. apply st_get.
  destruct (c_probe_in_progress c) eqn:Eb, (c_probe_descriptor c) as [d|] eqn:Ed;
    try by apply accounted_ret.
  eapply st_keeps; [solve [keeps_tac]|]. intros x.
  eapply drop_held with (c' := set_c_probe None (c_probe_resource_id c) (c_probe_ctx_id c) false c);
    [by apply client_ok_probe|by rewrite held_probe, Ed, own_None; lia|done|].
  intros h' m' p' r' Hv'. apply st_upd.
  do 2 (eapply st_keeps; [solve [keeps_tac]|]; intros ?).
  apply st_upd, accounted_ret; [by do 2 (apply client_ok_probe; [|done])|done].
Qed.

Lemma accounted_cleanup id v : preserves (accounted (T := T) id v) probeAttachBackingUserCleanup.
Proof.
  apply settle. intros c h m p r Hok Hv. unfold probeAttachBackingUserCleanup. apply st_get.
  destruct (c_probe_in_progress c) eqn:Eb, (c_probe_descriptor c) as [d|] eqn:Ed;
    try by apply accounted_ret.
  eapply drop_held with (c' := set_c_probe None (c_probe_resource_id c) (c_probe_ctx_id c) false c);
    [by apply client_ok_probe|by rewrite held_probe, Ed, own_None; lia|done|].
  intros h' m' p' r' Hv'. apply st_upd.
  eapply st_keeps; [solve [keeps_tac]|]. intros ?.
  apply st_upd_last; [by do 2 (apply client_ok_probe; [|done])|done].
Qed.

#[local] Hint Resolve accounted_attachBackingUser accounted_remove accounted_phase1 accounted_phase2 : drv.

(** The selectors that reach the driver's own resource pool. *)
Definition touches_pool (selector : Z) : bool :=
  (selector =? 0x1000) || (selector =? 0x1001) || (selector =? 0x3001) || (selector =? 0x4003).

Ltac accounted_tac :=
  repeat first
    [ match goal with |- preserves _ (match ?x with _ => _ end) => destruct x eqn:? end
    | solve [auto with drv]
    | solve [apply accounted_keeps; keeps_tac]
    | apply preserves_bind; [|intros ?]
    | goal_case ].

Lemma accounted_probe id v phase addr len :
  preserves (accounted (T := T) id v) (probeAttachBackingUser phase addr len).
Proof. unfold probeAttachBackingUser. accounted_tac. Qed.
Lemma accounted_detach id v res : preserves (accounted (T := T) id v) (detachBackingUser res).
Proof. unfold detachBackingUser. accounted_tac. Qed.
Lemma accounted_resourceUnref id v res : preserves (accounted (T := T) id v) (resourceUnref res).
Proof. unfold resourceUnref. accounted_tac. Qed.
#[local] Hint Resolve accounted_probe accounted_detach accounted_resourceUnref : drv.
#[local] Hint Resolve acct_submit acct_submit_input : keeps.

Lemma accounted_externalMethod id v sel a :
  touches_pool sel = false -> preserves (accounted (T := T) id v) (externalMethod mapped sel a).
Proof.
  intros Hs. unfold externalMethod, standard_selectors, surface_selectors, virgl_selectors,
    winsys_selectors, touches_pool in *.
  apply preserves_bind; [apply accounted_keeps, acct_get|]. intros g. cbv zeta.
  apply orb_false_iff in Hs as [Hs H4]. apply orb_false_iff in Hs as [Hs H3].
  apply orb_false_iff in Hs as [H1 H2]. rewrite H1, H2, H3, H4. cbn [orb].
  unfold takes, gives, status, refuse, out64, out32, stub, getAcceleratorInfo, client_create3DContext,
    createVirglContext, getVirglCapability, createVirglContextEx, destroyVirglContextEx,
    createResource3DEx, getCapsetInfo, getCapset, sendDisplayCommand, ctxAttachResource,
    transferToHost2D, flushResource, setscanout, transferToHost3D, transferFromHost3D,
    create3DContext, createRenderContext, initializeCommandHeader, supports3D, ready,
    setScanoutTakenOverBy3D, lock_contexts, unlock_contexts, refuse.
  accounted_tac.
Qed.

Lemma accounted_run_calls id v calls :
  Forall (fun c => touches_pool c.1 = false) calls ->
  preserves (accounted (T := T) id v) (run_calls mapped calls).
Proof.
  induction 1 as [|[sel a] calls Hs _ IH]; [apply preserves_ret|]. cbn [run_calls].
  apply preserves_bind; [by apply accounted_externalMethod|]. intros r.
  apply preserves_bind; [exact IH|]. intros rs. apply preserves_ret.
Qed.

Lemma accounted_clientClose id v : preserves (accounted (T := T) id v) clientClose.
Proof.
  unfold clientClose, removeAllUserBackings.
  apply preserves_bind; [apply accounted_cleanup|]. intros _.
  apply preserves_bind; [apply accounted_remove_backings|]. intros _.
  apply preserves_bind; [|intros _; apply preserves_ret].
  intros s [Hok Hv]. by split.
Qed.

(** ** What closing leaves in the table *)
Lemma cleanup_probe :
  hoare (fun s : session T => client_ok (s_client s)) probeAttachBackingUserCleanup
    (fun _ s => c_probe_descriptor (s_client s) = None).
Proof.
  intros s [_ Hb]. unfold probeAttachBackingUserCleanup, bind at 1, get_client at 1, gets.
  destruct (c_probe_in_progress (s_client s)) eqn:Eb, (c_probe_descriptor (s_client s)) as [d|] eqn:Ed;
    try exact Ed; [|by rewrite bool_decide_eq_true_2 in Hb by eauto].
  match goal with |- c_probe_descriptor (s_client (?x s).2) = None =>
    enough (Hh : hoare (fun _ => True) x (fun _ s => c_probe_descriptor (s_client s) = None))
      by exact (Hh s I)
  end.
  do 3 (eapply hoare_bind with (R := fun _ _ => True); [done|intros _]). by intros s' _.
Qed.

Lemma remove_backings_slots n i (s : session T) :
  length (c_user_backings (s_client s)) = (i + n)%nat ->
  let c := s_client (remove_backings n i s).2 in
  c_user_backings c = take i (c_user_backings (s_client s)) ++ replicate n free_backing
  /\ c_probe_descriptor c = c_probe_descriptor (s_client s).
Proof.
  cbv zeta. revert i s. induction n as [|n IH]; intros i s Hl.
  - cbn. split; [|done]. by rewrite take_ge, app_nil_r by lia.
  - assert (Hr : exists s2 : session T, (remove_backings (Datatypes.S n) i s).2 = (remove_backings n (Datatypes.S i) s2).2
      /\ s_client s2 = set_c_user_backings (<[i := free_backing]> (c_user_backings (s_client s))) (s_client s)).
    { cbn [remove_backings]. unfold bind at 1, get_client, gets. unfold bind at 1. set (o := (e ← _; _)).
      pose proof (run_drop_desc o s) as Hd. destruct (drop_desc o s) as [[] s1]. cbn [snd] in Hd.
      eexists. split; [done|]. cbn. subst s1. by destruct o. }
    destruct Hr as (s2 & -> & Hs2). destruct (IH (Datatypes.S i) s2) as [-> ->].
    { rewrite Hs2. cbn. rewrite length_insert. lia. }
    rewrite Hs2. cbn [c_user_backings set_c_user_backings c_probe_descriptor]. split; [|done].
    rewrite (take_S_r _ _ free_backing) by (rewrite list_lookup_insert_eq; [done|lia]).
    rewrite take_insert_ge by lia. by rewrite <- app_assoc.
Qed.

Lemma clientClose_holds_nothing (s : session T) id :
  client_ok (s_client s) -> held id (s_client (clientClose s).2) = 0.
Proof.
  intros Hok. unfold clientClose, removeAllUserBackings, bind.
  pose proof (cleanup_probe s Hok) as Hp.
  destruct (accounted_cleanup id (unheld id s) s (conj Hok eq_refl)) as [Hok1 _].
  destruct (probeAttachBackingUserCleanup s) as [[] s1]. cbn [snd] in *.
  destruct (remove_backings_slots MAX_USER_BACKINGS 0 s1 (tb_length _ (proj1 Hok1))) as [E1 E2].
  destruct (remove_backings MAX_USER_BACKINGS 0 s1) as [[] s2]. cbn [snd] in *.
  unfold held. cbn -[held_in own]. rewrite E1, E2, Hp, own_None, take_0. cbn [app].
  by rewrite held_in_empty.
Qed.
End methods.

(** * Wired memory is accounted for *)
(** From [s] to [s'] the kernel's books of [id] moved exactly with what the
    client holds. *)
Definition settled {T} (id : Z) (s s' : session T) : Prop :=
  let books (w : session T) f := count id (f (w_mem (s_world w))) - held id (s_client w) in
  m_heap (w_mem (s_world s')) = m_heap (w_mem (s_world s))
  /\ m_maps (w_mem (s_world s')) = m_maps (w_mem (s_world s))
  /\ books s' m_prep = books s m_prep /\ books s' m_refs = books s m_refs.

Lemma settled_unheld {T} id (s s' : session T) : unheld id s' = unheld id s -> settled id s s'.
Proof. unfold unheld, balance, mem_balance, settled. intros E. by injection E. Qed.

(** C12: whatever sequence of calls a client makes on selectors that leave the
    driver's resource pool alone, and whatever the host answers, each
    descriptor is prepared and referenced once more than before exactly for
    each time the client holds it (in its table, or for the probe), no heap
    block or mapping is left over, and closing the client gives back
    everything it held. *)
Theorem user_memory_accounted T `{Transport T} mapped calls (s : session T) id :
  client_ok (s_client s) -> Forall (fun c => touches_pool c.1 = false) calls ->
  let s1 := (run_calls mapped calls s).2 in
  let s2 := (clientClose s1).2 in
  client_ok (s_client s1) /\ settled id s s1 /\ settled id s s2 /\ held id (s_client s2) = 0.
Proof.
  intros Hok Hc s1 s2.
  destruct (accounted_run_calls mapped id (unheld id s) calls Hc s (conj Hok eq_refl)) as [Hok1 E1].
  destruct (accounted_clientClose id (unheld id s) s1 (conj Hok1 E1)) as [_ E2].
  fold s1 in Hok1, E1. fold s2 in E2.
  split_and!; [done|by apply settled_unheld|by apply settled_unheld|by apply clientClose_holds_nothing].
Qed.

(** * attachBackingUser *)
(** One call that gets as far as the command. *)
Definition attach_cmd (g : list Z) (res : Z) (segs : list (Z * Z)) : gpu_cmd :=
  CmdAttach (mk_hdr VIRTIO_GPU_CMD_RESOURCE_ATTACH_BACKING 0 0 0 (garb g 20) (garb24 g 21))
    res (u32 (Z.of_nat (length segs)))
    (seg_entry <$> take (Z.to_nat (u32 (Z.of_nat (length segs)))) segs).

Lemma attach_prepared_sent T `{Transport T} res d (s : session T) :
  let segs := walk_segs (md_segs d) in
  let '(r, s') := attach_prepared res d s in
  s_client s' = s_client s /\
  (r = kIOReturnSuccess ->
   total_length segs = md_length d /\
   exists g, w_tr (s_world s') = (submit_cmd (attach_cmd g res segs) 24 (w_tr (s_world s))).2
          /\ (submit_cmd (attach_cmd g res segs) 24 (w_tr (s_world s))).1.1 = kIOReturnSuccess).
Proof.
  intros segs. unfold attach_prepared. fold segs. cbv zeta.
  destruct (_ || _) eqn:Eg; [by split|]. apply orb_false_iff in Eg as [_ El].
  apply negb_false_iff, Z.eqb_eq in El.
  unfold bind at 1, on_gpu at 1, IOMalloc. destruct (m_mallocs (w_mem (s_world s))) as [|[g|] l]; [by split| |by split].
  unfold bind at 1, send, sendDisplayCommand. fold (attach_cmd g res segs).
  unfold bind at 1, on_gpu at 1, submit. cbn [s_world s_client s_next_user_ctx_id w_tr].
  destruct (submit_cmd (attach_cmd g res segs) 24 (w_tr (s_world s))) as [[r resp] t] eqn:Es.
  unfold ret at 1. cbn [fst snd].
  cbn -[is_success attach_cmd]. destruct (is_success r) eqn:Er; cbn -[attach_cmd].
  - split; [done|]. intros _. split; [done|]. exists g. rewrite Es. split; [done|]. by apply is_success_true.
  - split; [done|]. intros ->. by apply is_success_false in Er.
Qed.

(** [attachBackingUser] succeeds only with a command the host accepted:
    its entries are exactly the segments of the wired range, which cover the
    whole length asked for, it reads back as itself, and the table now maps
    the resource, unmapped before, to the wired descriptor. When it fails the
    table is unchanged. *)
Theorem attachBackingUser_spec T `{Transport T} res addr len (s : session T) :
  client_ok (s_client s) -> 0 <= res < 2 ^ 32 ->
  let t := c_user_backings (s_client s) in
  let '(r, s') := attachBackingUser res addr len s in
  if is_success r then
    exists d g, head (m_allocs (w_mem (s_world s))) = Some (Some d) /\
    let segs := walk_segs (md_segs d) in let c := attach_cmd g res segs in
    res <> 0 /\ backings t !! res = None /\ total_length segs = len
    /\ backings (c_user_backings (s_client s')) = <[res := md_id d]> (backings t)
    /\ w_tr (s_world s') = (submit_cmd c 24 (w_tr (s_world s))).2
    /\ (submit_cmd c 24 (w_tr (s_world s))).1.1 = kIOReturnSuccess
    /\ (Z.of_nat (length segs) < 2 ^ 32 -> segs_fit segs ->
        decode (encode c) = Some c
        /\ exists es, c = CmdAttach (mk_hdr VIRTIO_GPU_CMD_RESOURCE_ATTACH_BACKING 0 0 0 (garb g 20) (garb24 g 21))
                            res (Z.of_nat (length segs)) es
           /\ (fun e => (me_addr e, me_length e)) <$> es = segs)
  else s_client s' = s_client s.
Proof.
  intros Hok Hres t. unfold attachBackingUser.
  unfold bind at 1, get_client at 1, gets at 1. destruct (negb (c_gpu_device (s_client s))); [done|].
  destruct (_ || _ || _) eqn:Ea; [done|].
  unfold bind at 1, get_client at 1, gets at 1. fold t.
  pose proof (find_backings res t (tb_entries _ (proj1 Hok))) as Hf.
  destruct (findUserBacking res t) eqn:Ef; [done|].
  unfold bind at 1, wire_user_memory, bind at 1, on_gpu at 1, new_descriptor.
  destruct (m_allocs (w_mem (s_world s))) as [|[d|] l] eqn:Em; [done| |done].
  unfold bind at 1, on_gpu at 1. unfold prepare, bind at 1. cbn -[is_success attach_prepared addUserBacking].
  destruct (is_success (md_prepare d)) eqn:Ep.
  2: { cbn -[is_success]. rewrite Ep. cbn -[is_success]. by rewrite Ep. }
  cbn -[is_success attach_prepared addUserBacking]. rewrite Ep. cbn -[is_success attach_prepared addUserBacking].
  unfold bind at 1. set (d' := mk_mdesc (md_id d) len (md_prepare d) (md_segs d)).
  match goal with |- context [attach_prepared res d' ?s1] =>
    pose proof (attach_prepared_sent T res d' s1) as Hs; destruct (attach_prepared res d' s1) as [r s2] end.
  cbn -[is_success walk_segs attach_cmd] in Hs. destruct Hs as [Hc Hs].
  destruct (is_success r) eqn:Er; cbn [negb].
  2: { unfold ret. by rewrite Er. }
  apply is_success_true in Er. destruct (Hs Er) as (Hl & g & Ht & Hr).
  unfold bind, get_client, gets. rewrite Hc. fold t.
  pose proof (add_backing_spec res (md_id d) t (proj1 Hok)) as Hadd. cbn [md_id d'].
  destruct (addUserBacking res (Some (md_id d)) t) as [t'|]; [|cbn; by rewrite Hc].
  destruct Hadd as (Hne & _ & _ & _ & Hb & _). change (is_success kIOReturnSuccess) with true. cbn [fst].
  exists d, g. split; [done|]. cbv zeta. split_and!; try done.
  intros Hn Hfit. unfold attach_cmd. rewrite u32_small, Nat2Z.id, take_ge by lia.
  split; [by apply attach_decodes|]. eexists. split; [done|]. by apply attach_entries_exact.
Qed.

(** * Faults of the wiring *)
(** Closing a client sends nothing to the host unless the probe is in
    progress, although it unwires every buffer in the table: what the host was
    told to read and write it may read and write still. *)
Theorem clientClose_silent T `{Transport T} (s : session T) :
  c_probe_in_progress (s_client s) = false -> w_tr (s_world (clientClose s).2) = w_tr (s_world s).
Proof.
  intros Hp. unfold clientClose, removeAllUserBackings, bind.
  assert (Hc : (probeAttachBackingUserCleanup s).2 = s).
  { unfold probeAttachBackingUserCleanup, bind at 1, get_client at 1, gets. by rewrite Hp. }
  destruct (probeAttachBackingUserCleanup s) as [[] s1]. cbn [snd] in Hc. subst s1.
  assert (Hr : forall n i (s : session T), w_tr (s_world (remove_backings n i s).2) = w_tr (s_world s)).
  { induction n as [|n IH]; intros i s0; [done|]. cbn [remove_backings]. unfold bind at 1, get_client, gets.
    unfold bind at 1. set (o := (e ← _; _)). pose proof (run_drop_desc o s0) as Hd.
    destruct (drop_desc o s0) as [[] s1]. cbn [snd] in Hd. unfold bind at 1, upd_client, modify.
    rewrite IH. cbn. subst s1. by destruct o. }
  specialize (Hr MAX_USER_BACKINGS 0%nat s). destruct (remove_backings _ _ s) as [[] s2]. exact Hr.
Qed.

(** C0: when the table is full [attachBackingUser] fails only after the host
    accepted the command: the memory is unwired, no detach is sent, and the
    host keeps the resource attached to it. *)
Definition full_table : list user_backing_entry :=
  imap (fun i _ => mk_backing (Z.of_nat i + 1) (Some (Z.of_nat i + 100))) (replicate 64 tt).
Definition full_session : session host_machine :=
  mk_session (set_c_user_backings full_table (new_client None)) 0x100 (demo_world []).

Theorem attachBackingUser_full_table :
  let '(r, s') := attachBackingUser 0x104 0x8000 4096 full_session in
  r = kIOReturnNoResources
  /\ hm_sent (w_tr (s_world s')) = [attach_cmd [] 0x104 [(0x8000, 4096)]]
  /\ count 1 (m_prep (w_mem (s_world s'))) = 0 /\ s_client s' = s_client full_session.
Proof. vm_compute. done. Qed.

(** The two id counters meet: after 255 resources of its own the driver
    allocates the first id it hands to clients. *)
Theorem id_partition_overlaps T `{Transport T} (s : session T) :
  g_next_resource_id (w_gpu (s_world s)) = 1 -> g_next_user_resource_id (w_gpu (s_world s)) = 0x100 ->
  (allocateUserResourceId s).1 = 0x100
  /\ (next_resource_id (Nat.iter 254 (fun w => (next_resource_id w).2) (s_world s))).1 = 0x100.
Proof.
  intros Hk Hu. split; [exact Hu|].
  assert (Hi : forall n, (n <= 254)%nat -> g_next_resource_id (w_gpu
    (Nat.iter n (fun w => (next_resource_id w).2) (s_world s))) = Z.of_nat n + 1).
  { induction n as [|n IH]; intros Hn; [exact Hk|].
    set (f := fun w => (next_resource_id w).2) in *.
    change (u32 (g_next_resource_id (w_gpu (Nat.iter n f (s_world s))) + 1) = Z.of_nat (Datatypes.S n) + 1).
    rewrite IH by lia. rewrite u32_small; lia. }
  set (f := fun w => (next_resource_id w).2) in *.
  change (u32 (g_next_resource_id (w_gpu (Nat.iter 254 f (s_world s))) + 1) = 0x100).
  by rewrite Hi by lia.
Qed.

(** * Witnesses *)
Lemma new_client_ok acc : client_ok (new_client acc).
Proof. split; [apply table_ok_new|done]. Qed.

Definition demo_calls : list (Z * method_args) :=
  [(0x6003, scalars [0x104; 0x8000; 0; 4096; 0]); (0x6009, scalars [1; 0x104])].

Lemma user_memory_accounted_witness :
  let s1 := (run_calls (fun _ => (true, true)) demo_calls demo_session).2 in
  held 1 (s_client s1) = 1 /\ settled 1 demo_session s1
  /\ held 1 (s_client (clientClose s1).2) = 0 /\ settled 1 demo_session (clientClose s1).2.
Proof.
  intros s1.
  destruct (user_memory_accounted host_machine (fun _ => (true, true)) demo_calls demo_session 1
    (new_client_ok _) ltac:(repeat (apply Forall_cons; split; [reflexivity|]); apply Forall_nil; exact I))
    as (_ & H1 & H2 & H3).
  split; [vm_compute; reflexivity|]. split; [exact H1|]. split; [exact H3|exact H2].
Defined.

Lemma attachBackingUser_spec_witness :
  let s' := (attachBackingUser 0x104 0x8000 4096 demo_session).2 in
  backings (c_user_backings (s_client s')) = <[0x104 := 1]> (backings (c_user_backings (s_client demo_session))).
Proof.
  intros s'.
  pose proof (attachBackingUser_spec host_machine 0x104 0x8000 4096 demo_session (new_client_ok _) ltac:(lia)) as H.
  destruct (attachBackingUser 0x104 0x8000 4096 demo_session) as [r s1] eqn:E.
  assert (Hr : is_success r = true).
  { change r with (fst (r, s1)). rewrite <- E. vm_compute. reflexivity. }
  rewrite Hr in H. destruct H as (d & g & Hd & _ & _ & _ & Hb & _).
  cbn in Hd. injection Hd as <-. exact Hb.
Defined.

Lemma clientClose_silent_witness :
  hm_sent (w_tr (s_world (clientClose full_session).2)) = [].
Proof. rewrite (clientClose_silent host_machine full_session eq_refl). reflexivity. Defined.

Lemma id_partition_overlaps_witness :
  (next_resource_id (Nat.iter 254 (fun w => (next_resource_id w).2) (demo_world []))).1 = 0x100.
Proof. apply (id_partition_overlaps host_machine demo_session eq_refl eq_refl). Defined.
