(* ===== verification/Typing.v ===== *)
(** Every command that a user client can make the driver send is well typed:
    its fields fit their widths, its type code is its struct's, its counts
    describe its tail. The transport is any, wrapped in a log of what is
    submitted. *)
From S2P Require Import Prelude Wire Transport Driver Resources Display UserClient.

Record logged (T : Type) := mk_logged { lg_under : T; lg_sent : list gpu_cmd }.
Arguments mk_logged {T}.
Arguments lg_under {T}.
Arguments lg_sent {T}.

#[export] Instance logged_transport {T} `{Transport T} : Transport (logged T) := fun c n t =>
  let '(r, u) := submit_cmd c n (lg_under t) in (r, mk_logged u (lg_sent t ++ [c])).

Definition u32_ok (z : Z) : Prop := 0 <= z < 2 ^ 32.
Definition desc_fits (o : option mdesc) : Prop :=
  match o with Some d => segs_fit (walk_segs (md_segs d)) | None => True end.

(** The typed part of the device object and of memory, and the log. *)
Record typed_world {T} (w : world (logged T)) : Prop := {
  tw_sent : Forall cmd_ok (lg_sent (w_tr w));
  tw_resource : u32_ok (g_next_resource_id (w_gpu w));
  tw_user : u32_ok (g_next_user_resource_id (w_gpu w));
  tw_context : u32_ok (g_next_context_id (w_gpu w));
  tw_allocs : Forall desc_fits (m_allocs (w_mem w))
}.
Record typed {T} (s : session (logged T)) : Prop := {
  ty_world : typed_world (s_world s);
  ty_ctx : u32_ok (s_next_user_ctx_id s);
  ty_probe_resource : u32_ok (c_probe_resource_id (s_client s));
  ty_probe_ctx : u32_ok (c_probe_ctx_id (s_client s));
  ty_surface : u32_ok (c_next_surface_id (s_client s))
}.

Lemma u32_ok_u32 z : u32_ok (u32 z).
Proof. apply u32_range. Qed.

Lemma u32_ok_0 : u32_ok 0.
Proof. by vm_compute. Qed.
#[local] Hint Resolve u32_ok_0 : drv.
Lemma u32_ok_lor a b : u32_ok a -> u32_ok b -> u32_ok (Z.lor a b).
Proof.
  unfold u32_ok. intros [Ha Ha'] [Hb Hb']. split; [by apply Z.lor_nonneg|].
  destruct (decide (Z.lor a b = 0)) as [->|Hne]; [lia|].
  assert (0 <= Z.lor a b) by (by apply Z.lor_nonneg).
  apply Z.log2_lt_pow2; [lia|]. rewrite Z.log2_lor by done.
  assert (Hl : forall z, 0 <= z < 2 ^ 32 -> Z.log2 z < 32).
  { intros z Hz. destruct (decide (z = 0)) as [->|]; [by vm_compute|].
    apply Z.log2_lt_pow2; lia. }
  apply Z.max_lub_lt; by apply Hl.
Qed.

(** A command's fields, one by one. *)
Ltac field_tac :=
  unfold field_ok, u32_ok in *;
  cbn -[u32 garb garb24 garb32 garb64 Z.of_nat length Z.lor];
  first [ lia | apply garb_range | apply garb24_range | apply garb32_range | apply garb64_range
        | apply u32_range | by split ].
Ltac cmd_tac :=
  split;
  [ unfold cmd_fields, hdr_fields, body_fields, create_3d_fields, rect_fields, box_fields; cbn [cmd_hdr app];
    repeat (apply Forall_cons; split); try (apply Forall_nil; exact I); try field_tac
  | try done ].

Section world_typing.
Context {T : Type} `{Transport T}.
Abbreviation W := (world (logged T)).

Lemma typed_submit c n : cmd_ok c -> preserves (typed_world (T := T)) (submit c n).
Proof.
  intros Hc w [H1 H2 H3 H4 H5]. unfold submit, submit_cmd, logged_transport.
  destruct (submit_cmd c n (lg_under (w_tr w))) as [r u]. constructor; try done.
  cbn. rewrite Forall_app, Forall_cons, Forall_nil. done.
Qed.
Lemma typed_upd_gpu f :
  (forall g, (g_next_resource_id (f g) = g_next_resource_id g \/ u32_ok (g_next_resource_id (f g)))
    /\ (g_next_user_resource_id (f g) = g_next_user_resource_id g \/ u32_ok (g_next_user_resource_id (f g)))
    /\ (g_next_context_id (f g) = g_next_context_id g \/ u32_ok (g_next_context_id (f g)))) ->
  preserves (typed_world (T := T)) (upd_gpu f).
Proof.
  intros Hf w [H1 H2 H3 H4 H5]. destruct (Hf (w_gpu w)) as (E1 & E2 & E3).
  constructor; try done; cbn; [destruct E1 as [->|]|destruct E2 as [->|]|destruct E3 as [->|]]; done.
Qed.
Lemma typed_upd_mem f :
  (forall m, m_allocs (f m) = m_allocs m) -> preserves (typed_world (T := T)) (upd_mem f).
Proof. intros Hf w [H1 H2 H3 H4 H5]. constructor; try done. cbn. by rewrite Hf. Qed.
Lemma typed_IOMalloc n : preserves (typed_world (T := T)) (IOMalloc n).
Proof.
  intros w [H1 H2 H3 H4 H5]. unfold IOMalloc.
  destruct (m_mallocs (w_mem w)) as [|[g|] l]; by constructor.
Qed.
Lemma typed_new_descriptor n :
  hoare (typed_world (T := T)) (new_descriptor n) (fun o w => typed_world w /\ desc_fits o).
Proof.
  intros w [H1 H2 H3 H4 H5]. unfold new_descriptor.
  destruct (m_allocs (w_mem w)) as [|[d|] l] eqn:E; cbn [fst snd];
    rewrite ?E in *; try (apply Forall_cons in H5 as [Hd H5]); (split; [|done]); constructor; try done.
  by rewrite E.
Qed.

(** A fact of the value a method returns. *)
Lemma hoare_fact {S A B} (P : S -> Prop) (m : M S A) (k : A -> M S B) (F : A -> Prop) Q :
  hoare P m (fun a s => P s /\ F a) -> (forall a, F a -> hoare P (k a) Q) -> hoare P (bind m k) Q.
Proof. intros Hm Hk. eapply hoare_bind; [exact Hm|]. intros a s [Hs Ha]. by apply Hk. Qed.
Lemma preserves_fact {S A B} (I : S -> Prop) (m : M S A) (k : A -> M S B) (F : A -> Prop) :
  hoare I m (fun a s => I s /\ F a) -> (forall a, F a -> preserves I (k a)) -> preserves I (bind m k).
Proof. intros Hm Hk. by eapply hoare_fact. Qed.

Lemma typed_get {A} (f : gpu -> A) : preserves (typed_world (T := T)) (get_gpu f).
Proof. by intros w Hw. Qed.
Lemma typed_get_resource :
  hoare (typed_world (T := T)) (get_gpu g_next_resource_id) (fun a s => typed_world s /\ u32_ok a).
Proof. intros w Hw. split; [done|by apply Hw]. Qed.
Lemma typed_get_user :
  hoare (typed_world (T := T)) (get_gpu g_next_user_resource_id) (fun a s => typed_world s /\ u32_ok a).
Proof. intros w Hw. split; [done|by apply Hw]. Qed.
Lemma typed_get_context :
  hoare (typed_world (T := T)) (get_gpu g_next_context_id) (fun a s => typed_world s /\ u32_ok a).
Proof. intros w Hw. split; [done|by apply Hw]. Qed.
End world_typing.

#[export] Hint Resolve typed_IOMalloc typed_get : drv.
#[export] Hint Extern 2 (preserves typed_world (upd_mem _)) => apply typed_upd_mem; reflexivity : drv.
#[export] Hint Extern 2 (preserves typed_world (upd_gpu _)) =>
  apply typed_upd_gpu; intros ?; cbn -[u32]; split_and!; first [by left | right; apply u32_range] : drv.

Ltac typed_tac :=
  repeat first
    [ match goal with |- preserves _ (match ?x with _ => _ end) => destruct x eqn:? end
    | solve [auto with drv]
    | solve [apply typed_submit; cmd_tac]
    | apply preserves_bind; [|intros ?] ].

Section driver_typing.
Context {T : Type} `{Transport T}.
Abbreviation W := (world (logged T)).

Lemma attach_cmd_ok g res segs :
  u32_ok res -> segs_fit segs ->
  cmd_ok (CmdAttach (mk_hdr VIRTIO_GPU_CMD_RESOURCE_ATTACH_BACKING 0 0 0 (garb g 20) (garb24 g 21))
    res (u32 (Z.of_nat (length segs))) (seg_entry <$> take (Z.to_nat (u32 (Z.of_nat (length segs)))) segs)).
Proof.
  intros Hres Hfit. split.
  - unfold cmd_fields, hdr_fields, body_fields. cbn [cmd_hdr app].
    repeat (apply Forall_cons; split); try (apply Forall_nil; exact I); field_tac.
  - cbn [type_matches cmd_hdr hdr_type]. split; [done|]. split.
    + rewrite length_fmap, length_take. pose proof (u32_range (Z.of_nat (length segs))).
      assert (u32 (Z.of_nat (length segs)) <= Z.of_nat (length segs)) by (apply Z.mod_le; lia). lia.
    + apply (Forall_take _ (Z.to_nat (u32 (Z.of_nat (length segs))))) in Hfit.
      induction Hfit as [|[a n] l [Ha Hs] _ IH]; [done|].
      cbn [fmap list_fmap mbind list_bind]. apply Forall_app. split; [|exact IH].
      cbn in Ha, Hs. repeat (apply Forall_cons; split); try (apply Forall_nil; exact I); field_tac.
Qed.

Lemma typed_attachBacking res d :
  u32_ok res -> desc_fits d -> preserves (typed_world (T := T)) (attachBacking res d).
Proof.
  intros Hres Hd. unfold attachBacking, prepare, complete, IOFree, heap_add.
  repeat first
    [ match goal with |- preserves _ (match ?x with _ => _ end) => destruct x eqn:? end
    | solve [auto with drv]
    | solve [apply typed_submit, attach_cmd_ok; done]
    | apply preserves_bind; [|intros ?] ].
Qed.

Lemma typed_create2D id f w h :
  u32_ok id -> u32_ok f -> u32_ok w -> u32_ok h ->
  preserves (typed_world (T := T)) (createResource2D id f w h None).
Proof.
  intros Hid Hf Hw Hh. unfold createResource2D, lock_resources, unlock_resources, complete, release.
  apply preserves_bind; [auto with drv|intros _]. apply preserves_bind; [auto with drv|intros pool].
  destruct (findResource id pool); [typed_tac|].
  apply preserves_bind; [apply typed_submit; cmd_tac|intros r].
  destruct (_ || _); [typed_tac|].
  eapply preserves_fact; [apply typed_new_descriptor|]. intros d Hd.
  destruct d as [d|]; [|typed_tac].
  apply preserves_bind; [by apply typed_attachBacking|intros a]. typed_tac.
Qed.

Lemma typed_create3D id t f b w h d :
  u32_ok id -> u32_ok t -> u32_ok f -> u32_ok b -> u32_ok w -> u32_ok h -> u32_ok d ->
  preserves (typed_world (T := T)) (createResource3D id t f b w h d).
Proof. intros. unfold createResource3D, lock_resources, unlock_resources. typed_tac. Qed.

Lemma typed_deallocate id :
  u32_ok id -> preserves (typed_world (T := T)) (deallocateResource id).
Proof. intros. unfold deallocateResource, lock_resources, unlock_resources, release. typed_tac. Qed.

Lemma typed_execute ctx maps addr data :
  u32_ok ctx -> Z.of_nat (length data) < 2 ^ 32 ->
  preserves (typed_world (T := T)) (executeCommands ctx (Some (mk_cmd_desc maps addr data))).
Proof.
  intros Hc Hl. unfold executeCommands, supports3D, lock_contexts, unlock_contexts, map_add, IOFree, heap_add.
  cbn [cd_data cd_maps cd_address].
  repeat first
    [ match goal with |- preserves _ (match ?x with _ => _ end) => destruct x eqn:? end
    | solve [auto with drv]
    | solve [apply typed_submit; split;
        [unfold cmd_fields, hdr_fields, body_fields; cbn [cmd_hdr app];
         repeat (apply Forall_cons; split); try (apply Forall_nil; exact I); field_tac
        |cbn -[u32 Z.of_nat]; split; [done|rewrite u32_small; lia]]]
    | apply preserves_bind; [|intros ?] ].
Qed.

Lemma length_digits fuel n acc : (length (digits fuel n acc) <= fuel + length acc)%nat.
Proof.
  revert n acc. induction fuel as [|k IH]; intros n acc; cbn; [lia|].
  destruct (n / 10 =? 0); [cbn; lia|]. etransitivity; [apply IH|]. cbn. lia.
Qed.
Lemma length_show n : (length (show_int32 n) <= 11)%nat.
Proof.
  unfold show_int32. destruct (n <? 2 ^ 31); cbn [length].
  - pose proof (length_digits 10 n []). cbn [length] in *. lia.
  - pose proof (length_digits 10 (2 ^ 32 - n) []). cbn [length] in *. lia.
Qed.

(** The header [initializeCommandHeader] fills in without a fence. *)
Definition plain_header (ty ctx : Z) : virtio_gpu_ctrl_hdr :=
  mk_hdr ty VIRTIO_GPU_FLAG_INFO_RING_IDX 0 ctx
    (if (ty =? VIRTIO_GPU_CMD_UPDATE_CURSOR) || (ty =? VIRTIO_GPU_CMD_MOVE_CURSOR) then 1 else 0) 0.
Lemma typed_header ty ctx :
  hoare (typed_world (T := T)) (initializeCommandHeader ty ctx false)
    (fun h w => typed_world w /\ h = plain_header ty ctx).
Proof. by intros w Hw. Qed.

Lemma typed_createRenderContext : preserves (typed_world (T := T)) createRenderContext.
Proof.
  unfold createRenderContext, supports3D, lock_contexts, unlock_contexts.
  apply preserves_bind; [auto with drv|intros b]. destruct (negb b); [typed_tac|].
  apply preserves_bind; [auto with drv|intros _]. apply preserves_bind; [auto with drv|intros _].
  eapply preserves_fact; [apply typed_get_context|]. intros id Hid.
  eapply preserves_fact; [apply typed_header|]. intros hdr ->. cbv zeta.
  pose proof (length_show id) as Hl.
  apply preserves_bind; [apply typed_submit|intros r; typed_tac].
  assert (Hn : (length (ctx_prefix ++ show_int32 id) <= 24)%nat) by (rewrite length_app; cbn [ctx_prefix length]; lia).
  split.
  - unfold cmd_fields, hdr_fields, body_fields, plain_header. cbn [cmd_hdr app].
    repeat (apply Forall_cons; split); try (apply Forall_nil; exact I); try field_tac.
    unfold field_ok. cbn [fst snd]. change (256 ^ Z.of_nat 4) with 4294967296. lia.
  - split; [done|]. unfold pad_name. rewrite length_app, length_replicate. lia.
Qed.

Lemma typed_setscanout s r x y w h :
  u32_ok s -> u32_ok r -> u32_ok x -> u32_ok y -> u32_ok w -> u32_ok h ->
  preserves (typed_world (T := T)) (setscanout s r x y w h).
Proof. intros. unfold setscanout, ready, set_scanout_cmd, setScanoutTakenOverBy3D. typed_tac. Qed.
Lemma typed_to2D r x y w h :
  u32_ok r -> u32_ok x -> u32_ok y -> u32_ok w -> u32_ok h ->
  preserves (typed_world (T := T)) (transferToHost2D r 0 x y w h).
Proof. intros. unfold transferToHost2D, ready, transfer_2d_cmd. typed_tac. Qed.
Lemma typed_flush r x y w h :
  u32_ok r -> u32_ok x -> u32_ok y -> u32_ok w -> u32_ok h ->
  preserves (typed_world (T := T)) (flushResource r x y w h).
Proof. intros. unfold flushResource, ready, flush_cmd. typed_tac. Qed.
Lemma transfer3D_ok ty r l x y z w h d c :
  ty = VIRTIO_GPU_CMD_TRANSFER_TO_HOST_3D \/ ty = VIRTIO_GPU_CMD_TRANSFER_FROM_HOST_3D ->
  u32_ok r -> u32_ok l -> u32_ok x -> u32_ok y -> u32_ok z -> u32_ok w -> u32_ok h -> u32_ok d -> u32_ok c ->
  cmd_ok (transfer_3d_cmd ty r l x y z w h d c).
Proof.
  intros Hty. intros. unfold transfer_3d_cmd.
  split; [|by destruct Hty as [->| ->]; [left|right]].
  unfold cmd_fields, hdr_fields, body_fields, box_fields. cbn [cmd_hdr app].
  repeat (apply Forall_cons; split); try (apply Forall_nil; exact I); destruct Hty as [->| ->]; field_tac.
Qed.
End driver_typing.

Section client_typing.
Context {T : Type} `{Transport T}.
Abbreviation S := (session (logged T)).

Lemma typed_on_gpu {A} (m : M (world (logged T)) A) :
  preserves typed_world m -> preserves (typed (T := T)) (on_gpu m).
Proof.
  intros Hm s [H1 H2 H3 H4 H5]. specialize (Hm _ H1). unfold on_gpu.
  destruct (m (s_world s)) as [a w]. by constructor.
Qed.
Lemma typed_on_gpu_fact {A} (m : M (world (logged T)) A) F :
  hoare typed_world m (fun a w => typed_world w /\ F a) ->
  hoare (typed (T := T)) (on_gpu m) (fun a s => typed s /\ F a).
Proof.
  intros Hm s [H1 H2 H3 H4 H5]. specialize (Hm _ H1). unfold on_gpu.
  destruct (m (s_world s)) as [a w], Hm as [Hw Ha]. by split.
Qed.
Lemma typed_get_client {A} (f : client -> A) : preserves (typed (T := T)) (get_client f).
Proof. by intros s Hs. Qed.
Lemma typed_upd_client f :
  (forall c, c_probe_resource_id (f c) = c_probe_resource_id c \/ u32_ok (c_probe_resource_id (f c))) ->
  (forall c, c_probe_ctx_id (f c) = c_probe_ctx_id c \/ u32_ok (c_probe_ctx_id (f c))) ->
  (forall c, u32_ok (c_next_surface_id c) -> u32_ok (c_next_surface_id (f c))) ->
  preserves (typed (T := T)) (upd_client f).
Proof.
  intros F1 F2 F3 s [H1 H2 H3 H4 H5]. constructor; try done; cbn.
  - by destruct (F1 (s_client s)) as [->|].
  - by destruct (F2 (s_client s)) as [->|].
  - by apply F3.
Qed.
Lemma typed_submit_response c n :
  cmd_ok c -> preserves (typed (T := T)) (sendDisplayCommand (Some c) n).
Proof. intros Hc. by apply typed_on_gpu, typed_submit. Qed.
Lemma typed_send c : cmd_ok c -> preserves (typed (T := T)) (send c).
Proof. intros Hc. apply preserves_bind; [by apply typed_submit_response|intros r; apply preserves_ret]. Qed.
Lemma typed_ctx_hdr ty ctx :
  hoare (typed (T := T)) (ctx_hdr ty ctx) (fun h s => typed s /\ h = plain_header ty ctx).
Proof. apply typed_on_gpu_fact, typed_header. Qed.
#[local] Hint Resolve typed_get_client : drv.
#[local] Hint Extern 3 (preserves typed (on_gpu _)) => apply typed_on_gpu; solve [auto with drv] : drv.
#[local] Hint Extern 2 (preserves typed (upd_client _)) =>
  apply typed_upd_client; intros ?; cbn; auto with drv : drv.

Lemma typed_ctx_create ctx : u32_ok ctx -> preserves (typed (T := T)) (send_ctx_create ctx).
Proof.
  intros Hc. eapply preserves_fact; [apply typed_ctx_hdr|]. intros h ->. apply typed_send.
  unfold plain_header. cmd_tac.
Qed.
Lemma typed_ctx_destroy ctx : u32_ok ctx -> preserves (typed (T := T)) (send_ctx_destroy ctx).
Proof.
  intros Hc. eapply preserves_fact; [apply typed_ctx_hdr|]. intros h ->. apply typed_send.
  unfold plain_header. cmd_tac.
Qed.
Lemma typed_ctx_attach ctx res :
  u32_ok ctx -> u32_ok res -> preserves (typed (T := T)) (send_ctx_attach ctx res).
Proof.
  intros Hc Hr. eapply preserves_fact; [apply typed_ctx_hdr|]. intros h ->. apply typed_send.
  unfold plain_header. cmd_tac. by left.
Qed.
Lemma typed_unref res : u32_ok res -> preserves (typed (T := T)) (send_unref res).
Proof. intros Hr. apply typed_send. cmd_tac. Qed.
#[local] Hint Resolve typed_ctx_create typed_ctx_destroy typed_ctx_attach typed_unref : drv.

Ltac user_tac :=
  repeat first
    [ match goal with |- preserves _ (match ?x with _ => _ end) => destruct x eqn:? end
    | solve [auto with drv]
    | solve [apply typed_send; cmd_tac]
    | solve [apply typed_submit_response; cmd_tac]
    | apply preserves_bind; [|intros ?] ].

Lemma typed_wire len :
  hoare (typed (T := T)) (wire_user_memory len) (fun x s => typed s /\ desc_fits x.2).
Proof.
  unfold wire_user_memory. eapply hoare_fact; [apply typed_on_gpu_fact, typed_new_descriptor|].
  intros [d|] Hd; [|by intros s Hs].
  eapply hoare_bind with (R := fun _ => typed).
  { apply typed_on_gpu. unfold prepare. typed_tac. }
  intros r. destruct (negb (is_success r)); [|by intros s Hs].
  eapply hoare_bind with (R := fun _ => typed); [|by intros ? s Hs].
  apply typed_on_gpu. unfold release. auto with drv.
Qed.

Lemma typed_attach_prepared res d :
  u32_ok res -> segs_fit (walk_segs (md_segs d)) -> preserves (typed (T := T)) (attach_prepared res d).
Proof.
  intros Hr Hd. unfold attach_prepared, complete, release, IOFree, heap_add.
  repeat first
    [ match goal with |- preserves _ (match ?x with _ => _ end) => destruct x eqn:? end
    | solve [auto with drv]
    | solve [by apply typed_send, attach_cmd_ok]
    | apply preserves_bind; [|intros ?] ].
Qed.

Lemma typed_drop o : preserves (typed (T := T)) (drop_desc o).
Proof. unfold drop_desc, complete, release. user_tac. Qed.
#[local] Hint Resolve typed_drop typed_attach_prepared : drv.
Lemma typed_removeBacking res : preserves (typed (T := T)) (removeUserBacking res).
Proof. unfold removeUserBacking. user_tac. Qed.
#[local] Hint Resolve typed_removeBacking : drv.

Lemma typed_attachBackingUser res addr len :
  u32_ok res -> preserves (typed (T := T)) (attachBackingUser res addr len).
Proof.
  intros Hr. unfold attachBackingUser, complete, release.
  apply preserves_bind; [auto with drv|intros g]. destruct (negb g); [auto with drv|].
  destruct (_ || _ || _); [auto with drv|]. apply preserves_bind; [auto with drv|intros t].
  destruct (findUserBacking res t); [auto with drv|].
  eapply preserves_fact; [apply typed_wire|]. intros [e [d|]] Hd; cbn [snd desc_fits] in *; [|auto with drv].
  user_tac.
Qed.
#[local] Hint Resolve typed_attachBackingUser : drv.

Lemma sentinels : u32_ok PROBE_CTX /\ u32_ok PROBE_RES.
Proof. by vm_compute. Qed.
Lemma probe_transfer_ok ty ctx res :
  ty = VIRTIO_GPU_CMD_TRANSFER_TO_HOST_3D \/ ty = VIRTIO_GPU_CMD_TRANSFER_FROM_HOST_3D ->
  u32_ok ctx -> u32_ok res -> cmd_ok (probe_transfer ty ctx res).
Proof. intros. by apply transfer3D_ok. Qed.

Lemma typed_phase1 addr len : preserves (typed (T := T)) (probe_phase1 addr len).
Proof.
  destruct sentinels as [Hc Hr]. unfold probe_phase1, complete, release.
  apply preserves_bind; [auto with drv|intros b]. destruct b; [auto with drv|].
  destruct (negb _); [auto with drv|]. destruct (addr =? 0); [auto with drv|].
  apply preserves_bind; [auto with drv|intros x]. destruct (negb _); [auto with drv|].
  assert (Hcl : forall b r, preserves (typed (T := T)) (phase1_cleanup b r)).
  { intros. unfold phase1_cleanup. user_tac. }
  apply preserves_bind; [apply typed_send; cmd_tac|intros y]. destruct (negb _); [auto with drv|].
  apply preserves_bind; [auto with drv|intros ?].
  eapply preserves_fact; [apply typed_wire|]. intros [e [d|]] Hd; cbn [snd desc_fits] in *; [|auto with drv].
  apply preserves_bind; [auto with drv|intros r]. destruct (negb _); [auto with drv|].
  apply preserves_bind; [apply typed_send, probe_transfer_ok; auto|intros r']. user_tac.
Qed.

Lemma typed_get_probe :
  hoare (typed (T := T)) (get_client (fun c => c))
    (fun c s => typed s /\ (u32_ok (c_probe_resource_id c) /\ u32_ok (c_probe_ctx_id c))).
Proof. intros s Hs. split; [done|]. split; apply Hs. Qed.

Lemma typed_phase2 : preserves (typed (T := T)) probe_phase2.
Proof.
  unfold probe_phase2. eapply preserves_fact; [apply typed_get_probe|]. intros c [H1 H2].
  destruct (c_probe_in_progress c), (c_probe_descriptor c); try apply preserves_ret.
  apply preserves_bind; [apply typed_send, probe_transfer_ok; auto|intros r]. user_tac.
Qed.

Lemma typed_cleanup : preserves (typed (T := T)) probeAttachBackingUserCleanup.
Proof.
  unfold probeAttachBackingUserCleanup. eapply preserves_fact; [apply typed_get_probe|]. intros c [H1 H2].
  destruct (c_probe_in_progress c), (c_probe_descriptor c); try apply preserves_ret. user_tac.
Qed.

Lemma typed_remove_backings n i : preserves (typed (T := T)) (remove_backings n i).
Proof. revert i. induction n as [|n IH]; intros i; cbn [remove_backings]; [apply preserves_ret|]. user_tac. Qed.

Lemma typed_clientClose : preserves (typed (T := T)) clientClose.
Proof.
  unfold clientClose, removeAllUserBackings, flush_collections.
  apply preserves_bind; [apply typed_cleanup|intros _].
  apply preserves_bind; [apply typed_remove_backings|intros _]. user_tac.
Qed.

Context (mapped : mdesc -> bool * bool).

Lemma typed_execute_bytes ctx bytes :
  u32_ok ctx -> Z.of_nat (length bytes) <= 1024 * 1024 ->
  preserves (typed (T := T)) (execute_bytes mapped ctx bytes).
Proof.
  intros Hc Hl. unfold execute_bytes.
  eapply preserves_fact; [apply typed_on_gpu_fact, typed_new_descriptor|]. intros [d|] _; [|auto with drv].
  apply preserves_bind; [apply typed_on_gpu, typed_execute; [done|lia]|intros r].
  unfold release. user_tac.
Qed.

Lemma typed_submitEx ctx bytes :
  u32_ok ctx -> preserves (typed (T := T)) (submitVirglCommandsEx mapped ctx bytes).
Proof.
  intros Hc. unfold submitVirglCommandsEx, supports3D.
  apply preserves_bind; [auto with drv|intros g]. destruct (negb g); [auto with drv|].
  destruct bytes as [bytes|]; [|auto with drv]. destruct (_ =? 0); [auto with drv|].
  apply preserves_bind; [auto with drv|intros b]. destruct (negb b); [auto with drv|].
  destruct (Z.ltb_spec (1024 * 1024) (Z.of_nat (length bytes))); [auto with drv|].
  by apply typed_execute_bytes.
Qed.

Lemma typed_submitCommands bytes : preserves (typed (T := T)) (submitVirglCommands mapped bytes).
Proof.
  unfold submitVirglCommands, supports3D.
  apply preserves_bind; [auto with drv|intros g]. destruct (_ || _); [auto with drv|].
  apply preserves_bind; [auto with drv|intros b]. destruct (negb b); [auto with drv|].
  destruct (Z.ltb_spec (1024 * 1024) (Z.of_nat (length bytes))); [auto with drv|].
  by apply typed_execute_bytes.
Qed.
#[local] Hint Resolve typed_submitEx typed_submitCommands typed_phase1 typed_phase2 : drv.

Lemma typed_submit_input ctx a : u32_ok ctx -> preserves (typed (T := T)) (submit_input mapped ctx a).
Proof.
  intros Hc. unfold submit_input, status, refuse, complete, map_add.
  repeat first
    [ match goal with |- preserves _ (match ?x with _ => _ end) => destruct x eqn:? end
    | solve [auto with drv]
    | apply typed_on_gpu; solve [unfold prepare; typed_tac]
    | apply preserves_bind; [|intros ?] ].
Qed.

Lemma typed_createSurface w h f :
  u32_ok w -> u32_ok h -> u32_ok f -> preserves (typed (T := T)) (createSurface w h f).
Proof.
  intros Hw Hh Hf. unfold createSurface.
  eapply preserves_fact with (F := fun c => u32_ok (c_next_surface_id c)).
  { intros s Hs. split; [done|apply Hs]. }
  intros c Hc. destruct (negb _); [auto with drv|]. destruct (_ || _); [auto with drv|].
  destruct (1000 <? _); [auto with drv|]. cbv zeta.
  apply preserves_bind.
  { apply typed_upd_client; intros c'; cbn; auto. intros _. unfold u32_ok in *.
    destruct (Z.eqb_spec (c_next_surface_id c) 4294967295); lia. }
  intros _. apply preserves_bind; [|intros r; auto with drv].
  apply typed_on_gpu, typed_create2D; try done.
  - apply u32_ok_lor; [done|by vm_compute].
  - destruct (f =? 0); [by vm_compute|done].
Qed.
#[local] Hint Resolve typed_createSurface typed_submit_input : drv.

Lemma typed_allocate :
  hoare (typed (T := T)) allocateUserResourceId (fun id s => typed s /\ u32_ok id).
Proof.
  unfold allocateUserResourceId.
  eapply hoare_fact; [apply typed_on_gpu_fact, typed_get_user|]. intros id Hid.
  eapply hoare_bind with (R := fun _ => typed); [|intros ? s Hs; by split].
  apply typed_on_gpu, typed_upd_gpu. intros g. split_and!; [by left|right; apply u32_range|by left].
Qed.

Lemma typed_createResource3DEx c t f b w h d l m n fl :
  u32_ok c -> u32_ok t -> u32_ok f -> u32_ok b -> u32_ok w -> u32_ok h -> u32_ok d -> u32_ok l ->
  u32_ok m -> u32_ok n -> u32_ok fl ->
  preserves (typed (T := T)) (createResource3DEx c t f b w h d l m n fl).
Proof.
  intros. unfold createResource3DEx. apply preserves_bind; [auto with drv|intros g].
  destruct (negb g); [auto with drv|]. eapply preserves_fact; [apply typed_allocate|]. intros id Hid.
  user_tac.
Qed.

Lemma typed_createVirglContextEx : preserves (typed (T := T)) createVirglContextEx.
Proof.
  unfold createVirglContextEx. apply preserves_bind; [auto with drv|intros g].
  destruct (negb g); [auto with drv|]. eapply preserves_fact.
  { intros s Hs. split; [exact Hs|exact (ty_ctx _ Hs)]. }
  intros id Hid. apply preserves_bind; [|intros _; user_tac].
  intros s [H1 H2 H3 H4 H5]. constructor; try done. apply u32_range.
Qed.

Lemma typed_resource id fmt w h :
  u32_ok id -> u32_ok fmt -> u32_ok w -> u32_ok h ->
  preserves (typed (T := T)) (createVirglResource id w h fmt).
Proof.
  intros. unfold createVirglResource. apply preserves_bind; [auto with drv|intros g].
  destruct (negb g); [auto with drv|]. destruct (_ || _); [auto with drv|].
  apply typed_on_gpu, typed_create3D; try done; by vm_compute.
Qed.

Lemma typed_destroySurface id : u32_ok id -> preserves (typed (T := T)) (destroySurface id).
Proof.
  intros Hid. unfold destroySurface. apply preserves_bind; [auto with drv|intros c].
  destruct (negb _); [auto with drv|]. destruct (_ || _); [auto with drv|].
  apply typed_on_gpu, typed_deallocate, u32_ok_lor; [done|by vm_compute].
Qed.

Lemma typed_detach res : u32_ok res -> preserves (typed (T := T)) (detachBackingUser res).
Proof. intros. unfold detachBackingUser. user_tac. Qed.
Lemma typed_resourceUnref res : u32_ok res -> preserves (typed (T := T)) (resourceUnref res).
Proof. intros. unfold resourceUnref. user_tac. Qed.
Lemma typed_capsetInfo i : u32_ok i -> preserves (typed (T := T)) (getCapsetInfo i).
Proof. intros. unfold getCapsetInfo. user_tac. Qed.
Lemma typed_capset i v n : u32_ok i -> u32_ok v -> preserves (typed (T := T)) (getCapset i v n).
Proof. intros. unfold getCapset. user_tac. Qed.
Lemma typed_probe ph addr len : preserves (typed (T := T)) (probeAttachBackingUser ph addr len).
Proof. unfold probeAttachBackingUser. user_tac. Qed.
Lemma typed_renderContext : preserves (typed (T := T)) client_create3DContext.
Proof.
  unfold client_create3DContext, supports3D, create3DContext. pose proof (typed_createRenderContext (T := T)). user_tac.
Qed.
Lemma typed_virglContext id : preserves (typed (T := T)) (createVirglContext id).
Proof. unfold createVirglContext, supports3D. pose proof (typed_createRenderContext (T := T)). user_tac. Qed.
Lemma typed_to3D r l x y z w h d c :
  u32_ok r -> u32_ok l -> u32_ok x -> u32_ok y -> u32_ok z -> u32_ok w -> u32_ok h -> u32_ok d -> u32_ok c ->
  preserves (typed_world (T := T)) (transferToHost3D r l x y z w h d c).
Proof.
  intros. unfold transferToHost3D, ready. apply preserves_bind; [auto with drv|intros b].
  destruct (negb b); [auto with drv|].
  apply preserves_bind; [apply typed_submit, transfer3D_ok; auto|intros; auto with drv].
Qed.
Lemma typed_from3D r l x y z w h d c :
  u32_ok r -> u32_ok l -> u32_ok x -> u32_ok y -> u32_ok z -> u32_ok w -> u32_ok h -> u32_ok d -> u32_ok c ->
  preserves (typed_world (T := T)) (transferFromHost3D r l x y z w h d c).
Proof.
  intros. unfold transferFromHost3D, ready. apply preserves_bind; [auto with drv|intros b].
  destruct (negb b); [auto with drv|].
  apply preserves_bind; [apply typed_submit, transfer3D_ok; auto|intros; auto with drv].
Qed.
#[local] Hint Resolve typed_createResource3DEx typed_createVirglContextEx typed_resource typed_destroySurface
  typed_detach typed_resourceUnref typed_capsetInfo typed_capset typed_probe typed_renderContext
  typed_virglContext typed_to3D typed_from3D typed_setscanout typed_to2D typed_flush : drv.

Lemma u32_ok_scalar a i : u32_ok (scalar a i).
Proof. apply u32_range. Qed.
Lemma u32_ok_if (b : bool) x y : u32_ok x -> u32_ok y -> u32_ok (if b then x else y).
Proof. by destruct b. Qed.
#[local] Hint Resolve u32_ok_scalar u32_ok_if : drv.

Lemma typed_externalMethod sel a : preserves (typed (T := T)) (externalMethod mapped sel a).
Proof.
  unfold externalMethod, standard_selectors, surface_selectors, virgl_selectors, winsys_selectors,
    takes, gives, status, out32, out64, getAcceleratorInfo, stub, getVirglCapability,
    destroyVirglContextEx, ctxAttachResource, supports3D, refuse. cbv zeta.
  user_tac.
Qed.

Lemma typed_run_calls calls : preserves (typed (T := T)) (run_calls mapped calls).
Proof.
  induction calls as [|[sel a] calls IH]; cbn [run_calls]; [apply preserves_ret|].
  apply preserves_bind; [apply typed_externalMethod|intros r].
  apply preserves_bind; [exact IH|intros rs; apply preserves_ret].
Qed.
End client_typing.

(** C16: whatever the calls of a client and whatever their 64-bit scalars,
    structures and physical segments, every command the driver submits for
    them and for closing the client has fields that fit their widths, the
    type code of its struct and counts that describe its tail; so the host
    reads back exactly the command that was meant. *)
Theorem client_commands_typed T `{Transport T} mapped calls (s : session (logged T)) :
  typed s ->
  let s' := (clientClose (run_calls mapped calls s).2).2 in
  typed s' /\ Forall (fun c => decode (encode c) = Some c) (lg_sent (w_tr (s_world s'))).
Proof.
  intros Hs s'. assert (Hs' : typed s') by (apply typed_clientClose, typed_run_calls, Hs).
  split; [done|]. eapply Forall_impl; [exact (tw_sent _ (ty_world _ Hs'))|].
  intros c Hc. by apply decode_encode_lemma.
Qed.

Definition logged_session : session (logged host_machine) :=
  mk_session (new_client None) 0x100 (mk_world demo_gpu demo_mem (mk_logged (mk_host ∅ [] []) [])).
Lemma logged_session_typed : typed logged_session.
Proof.
  constructor; [constructor|..]; cbn; try (unfold u32_ok; lia).
  - by apply Forall_nil.
  - assert (Hd : forall id, desc_fits (Some (demo_desc id))).
    { intros id. apply Forall_cons. split; [cbn; lia|by apply Forall_nil]. }
    cbn. rewrite !Forall_cons, Forall_nil. split_and!; [apply (Hd 1)|apply (Hd 2)|done].
Qed.
Lemma client_commands_typed_witness :
  let calls := [(0x6000, scalars []); (0x6003, scalars [2 ^ 40 + 0x104; 0x8000; 0; 4096; 0])] in
  let s' := (clientClose (run_calls (fun _ => (true, true)) calls logged_session).2).2 in
  length (lg_sent (w_tr (s_world s'))) = 2%nat
  /\ Forall (fun c => decode (encode c) = Some c) (lg_sent (w_tr (s_world s'))).
Proof.
  intros calls s'. split; [vm_compute; reflexivity|].
  apply (client_commands_typed host_machine (fun _ => (true, true)) calls logged_session logged_session_typed).
Defined.
