(* ===== verification/CommandBuffer.v ===== *)
(** Command buffers and their pool: [VMCommandBuffer] and [VMCommandBufferPool]
    (FB/VMCommandBuffer.cpp, .h).

    Command buffers are reference-counted objects: [cw_objects] holds the live
    ones behind their pointers, which are never reused. What a command buffer
    owns (two arrays, a lock, a buffer of 64 KB) is counted in [cw_arrays],
    [cw_locks] and [cw_memories]; whether an allocation succeeds is the next of
    [cw_answers]. [cw_fault] is set when the code leaves what its language and
    the kernel define: a dead object is used, a struct is written past its end,
    or raw memory is handed to an [OSArray], which retains what it is given by
    a call through its virtual table. *)
From S2P Require Import Prelude.

(** * Data *)
(** [VMCommandBufferState]; nothing sets the others. *)
Definition STATE_INITIAL : Z := 0.
Definition STATE_PENDING : Z := 3.
Definition CMD_DRAW : Z := 0x1006.
Definition CMD_DISPATCH : Z := 0x2001.
(** [VMGPUCommand]: the header, of 16 bytes, and a flexible array. *)
Record gpu_command := mk_command { gc_type : Z; gc_size : Z; gc_sequence : Z; gc_data : list Z }.
Definition SIZEOF_COMMAND : Z := 16.
(** [VMDrawCommandDescriptor] and [VMComputeCommandDescriptor]: four words. *)
Definition SIZEOF_DESCRIPTOR : Z := 16.
Record resource_binding := mk_res_binding { rb_binding_point : Z; rb_resource_id : Z; rb_resource_type : Z }.
(** A member that is null is [None] or false. *)
Record command_buffer := mk_cb {
  cb_commands : option (list gpu_command);
  cb_resources : option (list resource_binding);
  cb_command_lock : option lock_state;
  cb_buffer_memory : bool;
  cb_buffer_size : Z;
  cb_current_size : Z;
  cb_max_commands : Z;
  cb_command_count : Z;
  cb_state : Z;
  cb_execution_time : Z
}.
Definition set_cb_commands (v : option (list gpu_command)) (c : command_buffer) : command_buffer :=
  mk_cb v (cb_resources c) (cb_command_lock c) (cb_buffer_memory c) (cb_buffer_size c) (cb_current_size c)
    (cb_max_commands c) (cb_command_count c) (cb_state c) (cb_execution_time c).
Definition set_cb_resources (v : option (list resource_binding)) (c : command_buffer) : command_buffer :=
  mk_cb (cb_commands c) v (cb_command_lock c) (cb_buffer_memory c) (cb_buffer_size c) (cb_current_size c)
    (cb_max_commands c) (cb_command_count c) (cb_state c) (cb_execution_time c).
Definition set_cb_command_lock (v : option lock_state) (c : command_buffer) : command_buffer :=
  mk_cb (cb_commands c) (cb_resources c) v (cb_buffer_memory c) (cb_buffer_size c) (cb_current_size c)
    (cb_max_commands c) (cb_command_count c) (cb_state c) (cb_execution_time c).
Definition set_cb_counts (size count : Z) (c : command_buffer) : command_buffer :=
  mk_cb (cb_commands c) (cb_resources c) (cb_command_lock c) (cb_buffer_memory c) (cb_buffer_size c) size
    (cb_max_commands c) count (cb_state c) (cb_execution_time c).
Definition set_cb_state (state time : Z) (c : command_buffer) : command_buffer :=
  mk_cb (cb_commands c) (cb_resources c) (cb_command_lock c) (cb_buffer_memory c) (cb_buffer_size c) (cb_current_size c)
    (cb_max_commands c) (cb_command_count c) state time.

(** The world of one pool: the pool's arrays, limit and lock, and the kernel. *)
Record cworld := mk_cworld {
  cw_available : list Z;
  cw_active : list Z;
  cw_max_buffers : Z;
  cw_pool_lock : lock_state;
  cw_objects : gmap Z (Z * command_buffer);
  cw_next_pointer : Z;
  cw_answers : list bool;
  cw_arrays : Z;
  cw_locks : Z;
  cw_memories : Z;
  cw_fault : bool
}.
Definition set_cw_available (v : list Z) (w : cworld) : cworld :=
  mk_cworld v (cw_active w) (cw_max_buffers w) (cw_pool_lock w) (cw_objects w) (cw_next_pointer w) (cw_answers w) (cw_arrays w) (cw_locks w) (cw_memories w) (cw_fault w).
Definition set_cw_active (v : list Z) (w : cworld) : cworld :=
  mk_cworld (cw_available w) v (cw_max_buffers w) (cw_pool_lock w) (cw_objects w) (cw_next_pointer w) (cw_answers w) (cw_arrays w) (cw_locks w) (cw_memories w) (cw_fault w).
Definition set_cw_max_buffers (v : Z) (w : cworld) : cworld :=
  mk_cworld (cw_available w) (cw_active w) v (cw_pool_lock w) (cw_objects w) (cw_next_pointer w) (cw_answers w) (cw_arrays w) (cw_locks w) (cw_memories w) (cw_fault w).
Definition set_cw_pool_lock (v : lock_state) (w : cworld) : cworld :=
  mk_cworld (cw_available w) (cw_active w) (cw_max_buffers w) v (cw_objects w) (cw_next_pointer w) (cw_answers w) (cw_arrays w) (cw_locks w) (cw_memories w) (cw_fault w).
Definition set_cw_objects (v : gmap Z (Z * command_buffer)) (w : cworld) : cworld :=
  mk_cworld (cw_available w) (cw_active w) (cw_max_buffers w) (cw_pool_lock w) v (cw_next_pointer w) (cw_answers w) (cw_arrays w) (cw_locks w) (cw_memories w) (cw_fault w).
Definition set_cw_next_pointer (v : Z) (w : cworld) : cworld :=
  mk_cworld (cw_available w) (cw_active w) (cw_max_buffers w) (cw_pool_lock w) (cw_objects w) v (cw_answers w) (cw_arrays w) (cw_locks w) (cw_memories w) (cw_fault w).
Definition set_cw_answers (v : list bool) (w : cworld) : cworld :=
  mk_cworld (cw_available w) (cw_active w) (cw_max_buffers w) (cw_pool_lock w) (cw_objects w) (cw_next_pointer w) v (cw_arrays w) (cw_locks w) (cw_memories w) (cw_fault w).
Definition set_cw_arrays (v : Z) (w : cworld) : cworld :=
  mk_cworld (cw_available w) (cw_active w) (cw_max_buffers w) (cw_pool_lock w) (cw_objects w) (cw_next_pointer w) (cw_answers w) v (cw_locks w) (cw_memories w) (cw_fault w).
Definition set_cw_locks (v : Z) (w : cworld) : cworld :=
  mk_cworld (cw_available w) (cw_active w) (cw_max_buffers w) (cw_pool_lock w) (cw_objects w) (cw_next_pointer w) (cw_answers w) (cw_arrays w) v (cw_memories w) (cw_fault w).
Definition set_cw_memories (v : Z) (w : cworld) : cworld :=
  mk_cworld (cw_available w) (cw_active w) (cw_max_buffers w) (cw_pool_lock w) (cw_objects w) (cw_next_pointer w) (cw_answers w) (cw_arrays w) (cw_locks w) v (cw_fault w).
Definition set_cw_fault (v : bool) (w : cworld) : cworld :=
  mk_cworld (cw_available w) (cw_active w) (cw_max_buffers w) (cw_pool_lock w) (cw_objects w) (cw_next_pointer w) (cw_answers w) (cw_arrays w) (cw_locks w) (cw_memories w) v.
Definition fault : M cworld unit := modify (set_cw_fault true).
Definition ask : M cworld bool :=
  fun w => (hd true (cw_answers w), set_cw_answers (tail (cw_answers w)) w).
(** An allocation counted by [get] and [set]. *)
Definition acquire (get : cworld -> Z) (set : Z -> cworld -> cworld) (n : Z) : M cworld bool :=
  let! ok := ask in
  if ok then modify (fun w => set (get w + n) w) ;;; ret true else ret false.
Definition discard (get : cworld -> Z) (set : Z -> cworld -> cworld) (n : Z) : M cworld unit :=
  modify (fun w => set (get w - n) w).
Definition take_pool : M cworld unit := modify (fun w => set_cw_pool_lock (lock_acquire (cw_pool_lock w)) w).
Definition give_pool : M cworld unit := modify (fun w => set_cw_pool_lock (lock_release (cw_pool_lock w)) w).

(** ** Objects *)
Definition object_at (p : Z) : M cworld (option (Z * command_buffer)) :=
  let! o := gets (fun w => cw_objects w !! p) in
  match o with Some x => ret (Some x) | None => fault ;;; ret None end.
Definition put_buffer (p : Z) (c : command_buffer) : M cworld unit :=
  modify (fun w => set_cw_objects (alter (fun o => (o.1, c)) p (cw_objects w)) w).
Definition put_count (p rc : Z) : M cworld unit :=
  modify (fun w => set_cw_objects (alter (fun o => (rc, o.2)) p (cw_objects w)) w).
Definition retain (p : Z) : M cworld unit :=
  let! o := object_at p in
  match o with Some (rc, _) => put_count p (rc + 1) | None => ret tt end.

(** * A command buffer *)
(** [init]: the four allocations, in order; a missing array or lock is only
    noticed at the end. *)
Definition init (p : Z) : M cworld bool :=
  let! commands := acquire cw_arrays set_cw_arrays 1 in
  let! resources := acquire cw_arrays set_cw_arrays 1 in
  let! command_lock := acquire cw_locks set_cw_locks 1 in
  let! buffer_memory := acquire cw_memories set_cw_memories 1 in
  put_buffer p (mk_cb (if commands then Some [] else None) (if resources then Some [] else None)
    (if command_lock then Some Unlocked else None) buffer_memory (64 * 1024) 0 256 0 STATE_INITIAL 0) ;;;
  ret (buffer_memory && (commands && resources && command_lock)).
(** [free]: nothing happens without the lock. The commands are freed and then
    taken out of their array, which releases them again. *)
Definition free (c : command_buffer) : M cworld unit :=
  match cb_command_lock c with
  | None => ret tt
  | Some _ =>
      match cb_commands c with
      | Some l => (if (length l =? 0)%nat then ret tt else fault) ;;; discard cw_arrays set_cw_arrays 1
      | None => ret tt
      end ;;;
      match cb_resources c with
      | Some l => (if (length l =? 0)%nat then ret tt else fault) ;;; discard cw_arrays set_cw_arrays 1
      | None => ret tt
      end ;;;
      (if cb_buffer_memory c then discard cw_memories set_cw_memories 1 else ret tt) ;;;
      discard cw_locks set_cw_locks 1
  end.
Definition release (p : Z) : M cworld unit :=
  let! o := object_at p in
  match o with
  | Some (rc, c) =>
      if rc =? 1 then free c ;;; modify (fun w => set_cw_objects (delete p (cw_objects w)) w)
      else put_count p (rc - 1)
  | None => ret tt
  end.
Definition blank_buffer : command_buffer := mk_cb None None None false 0 0 0 0 0 0.
Definition withAccelerator : M cworld (option Z) :=
  let! ok := ask in
  if negb ok then ret None
  else
    let! p := gets cw_next_pointer in
    modify (fun w => set_cw_next_pointer (p + 1) (set_cw_objects (<[p := (1, blank_buffer)]> (cw_objects w)) w)) ;;;
    let! made := init p in
    if negb made then release p ;;; ret None else ret (Some p).

(** The methods run with the lock of the buffer: [k] gets the buffer, locked,
    and answers the buffer to leave and a status; a null lock is not checked. *)
Definition with_lock (p : Z) (k : command_buffer -> M cworld (command_buffer * IOReturn)) : M cworld IOReturn :=
  let! o := object_at p in
  match o with
  | None => ret kIOReturnError
  | Some (_, c) =>
      match cb_command_lock c with
      | None => fault ;;; ret kIOReturnError
      | Some l =>
          let! out := k (set_cb_command_lock (Some (lock_acquire l)) c) in
          let '(c', r) := out in
          put_buffer p (set_cb_command_lock (lock_release <$> cb_command_lock c') c') ;;;
          ret r
      end
  end.
(** [reset] frees the commands and takes them out of their array, like [free].
    The bytes of the buffer, which nothing here reads or writes, are left out. *)
Definition reset (p : Z) : M cworld IOReturn :=
  with_lock p (fun c =>
    if cb_state c =? STATE_PENDING then ret (c, kIOReturnBusy)
    else
      match cb_commands c with
      | Some [] => ret tt
      | _ => fault
      end ;;;
      match cb_resources c with
      | Some (_ :: _) => fault
      | _ => ret tt
      end ;;;
      ret (set_cb_state STATE_INITIAL 0 (set_cb_counts 0 0
             (set_cb_resources ((fun _ => []) <$> cb_resources c) (set_cb_commands (Some []) c))),
           kIOReturnSuccess)).
(** A store of [n] bytes at offset [off] of a struct of [size] bytes. *)
Definition store_within (size off n : Z) : M cworld unit :=
  if off + n <=? size then ret tt else fault.
(** [setObject] of something that is no object. *)
Definition set_raw : M cworld unit := fault.
(** [addDrawCommand] and [addComputeCommand], which differ in the type. *)
Definition add_command (type p : Z) (descriptor : option (list Z)) : M cworld IOReturn :=
  match descriptor with
  | None => ret kIOReturnBadArgument
  | Some data =>
      with_lock p (fun c =>
        if negb (cb_state c =? STATE_INITIAL) then ret (c, kIOReturnNotPermitted)
        else if cb_max_commands c <=? cb_command_count c then ret (c, kIOReturnNoSpace)
        else
          let! command := ask in
          if negb command then ret (c, kIOReturnNoMemory)
          else
            store_within SIZEOF_COMMAND 0 SIZEOF_COMMAND ;;;
            store_within SIZEOF_COMMAND SIZEOF_COMMAND SIZEOF_DESCRIPTOR ;;;
            set_raw ;;;
            ret (set_cb_counts (u64 (cb_current_size c + SIZEOF_DESCRIPTOR)) (u32 (cb_command_count c + 1))
                   (set_cb_commands ((fun l => l ++ [mk_command type SIZEOF_DESCRIPTOR (cb_command_count c) data]) <$> cb_commands c) c),
                 kIOReturnSuccess))
  end.
Definition addDrawCommand : Z -> option (list Z) -> M cworld IOReturn := add_command CMD_DRAW.
Definition addComputeCommand : Z -> option (list Z) -> M cworld IOReturn := add_command CMD_DISPATCH.
Definition addResourceBinding (p binding_point resource_id resource_type : Z) : M cworld IOReturn :=
  with_lock p (fun c =>
    if negb (cb_state c =? STATE_INITIAL) then ret (c, kIOReturnNotPermitted)
    else
      let! binding := ask in
      if negb binding then ret (c, kIOReturnNoMemory)
      else
        set_raw ;;;
        ret (set_cb_resources ((fun l => l ++ [mk_res_binding binding_point resource_id resource_type]) <$> cb_resources c) c,
             kIOReturnSuccess)).

(** * The pool *)
(** An [OSArray] that lets go of what it holds. *)
Fixpoint release_all (ps : list Z) : M cworld unit :=
  match ps with [] => ret tt | p :: rest => release p ;;; release_all rest end.
(** [init] of the pool: whether it has made its two arrays and its lock, and how
    many arrays it has made. *)
Definition pool_init (max_buffers : Z) : M cworld (bool * Z) :=
  let! available := acquire cw_arrays set_cw_arrays 1 in
  if negb available then ret (false, 0)
  else
    let! active := acquire cw_arrays set_cw_arrays 1 in
    if negb active then ret (false, 1)
    else
      let! pool_lock := acquire cw_locks set_cw_locks 1 in
      if negb pool_lock then ret (false, 2)
      else modify (fun w => set_cw_max_buffers max_buffers (set_cw_active [] (set_cw_available [] w))) ;;; ret (true, 2).
(** [free] of the pool, with [arrays] arrays and [locks] locks to give back. *)
Definition pool_free (arrays locks : Z) : M cworld unit :=
  let! available := gets cw_available in
  release_all available ;;; modify (set_cw_available []) ;;;
  let! active := gets cw_active in
  release_all active ;;; modify (set_cw_active []) ;;;
  discard cw_arrays set_cw_arrays arrays ;;;
  discard cw_locks set_cw_locks locks.
Definition pool_withAccelerator (max_buffers : Z) : M cworld bool :=
  let! pool := ask in
  if negb pool then ret false
  else
    let! made := pool_init max_buffers in
    if negb made.1 then pool_free made.2 0 ;;; ret false else ret true.
Definition active_add (p : Z) : M cworld unit :=
  modify (fun w => set_cw_active (cw_active w ++ [p]) w) ;;; retain p.
Definition available_add (p : Z) : M cworld unit :=
  modify (fun w => set_cw_available (cw_available w ++ [p]) w) ;;; retain p.
(** The buffer to hand out: the first of the available ones, or a new one below the
    limit, which only counts the active ones. *)
Definition next_buffer : M cworld (option Z) :=
  let! available := gets cw_available in
  match available with
  | p :: rest => retain p ;;; modify (set_cw_available rest) ;;; release p ;;; ret (Some p)
  | [] =>
      let! n := gets (fun w => Z.of_nat (length (cw_active w))) in
      let! max := gets cw_max_buffers in
      if n <? max then withAccelerator else ret None
  end.
(** The status, and the buffer if it has been written. *)
Definition allocateCommandBuffer (out_buffer : bool) : M cworld (IOReturn * option Z) :=
  if negb out_buffer then ret (kIOReturnBadArgument, None)
  else
    take_pool ;;;
    let! buffer := next_buffer in
    match buffer with
    | Some p => active_add p ;;; give_pool ;;; ret (kIOReturnSuccess, Some p)
    | None => give_pool ;;; ret (kIOReturnNoSpace, None)
    end.
Definition releaseCommandBuffer (buffer : option Z) : M cworld IOReturn :=
  match buffer with
  | None => ret kIOReturnBadArgument
  | Some p =>
      take_pool ;;;
      let! active := gets cw_active in
      match index_of (Z.eqb p) active with
      | Some i => modify (set_cw_active (delete i active)) ;;; release p
      | None => ret tt
      end ;;;
      let! r := reset p in
      available_add p ;;;
      give_pool ;;;
      release p ;;;
      ret kIOReturnSuccess
  end.
Definition resetPool : M cworld IOReturn :=
  take_pool ;;;
  let! available := gets cw_available in
  modify (set_cw_available []) ;;; release_all available ;;;
  let! active := gets cw_active in
  modify (set_cw_active []) ;;; release_all active ;;;
  give_pool ;;;
  ret kIOReturnSuccess.

(** * Runs *)
(** A command buffer as [init] leaves it, and as [reset] does. *)
Definition ready : command_buffer := mk_cb (Some []) (Some []) (Some Unlocked) true (64 * 1024) 0 256 0 STATE_INITIAL 0.
(** What the holder of a buffer may leave in it: any counts, times and states but
    pending, without recorded commands. [begin], [end] and [submit], which the class
    declares and the repository does not define, would set these members. *)
Definition usable (c : command_buffer) : Prop :=
  exists state time size count, state <> STATE_PENDING /\ c = set_cb_state state time (set_cb_counts size count ready).
Lemma ready_usable : usable ready.
Proof. by exists STATE_INITIAL, 0, 0, 0. Qed.
Lemma bind_cw {A B} (f : M cworld A) (h : A -> M cworld B) w a w' : f w = (a, w') -> bind f h w = h a w'.
Proof. intros E. unfold bind. by rewrite E. Qed.
Lemma alter_known {A} (f : A -> A) (m : gmap Z A) p x : m !! p = Some x -> alter f p m = <[p := f x]> m.
Proof.
  intros H. apply map_eq. intros q. destruct (decide (q = p)) as [->|].
  - by rewrite lookup_alter_eq, lookup_insert_eq, H.
  - by rewrite lookup_alter_ne, lookup_insert_ne.
Qed.
Lemma command_object_at_run p x w : cw_objects w !! p = Some x -> object_at p w = (Some x, w).
Proof. intros H. unfold object_at, bind, gets. by rewrite H. Qed.
Lemma command_retain_run p rc c w : cw_objects w !! p = Some (rc, c) ->
  retain p w = (tt, set_cw_objects (<[p := (rc + 1, c)]> (cw_objects w)) w).
Proof.
  intros H. unfold retain. rewrite (bind_cw _ _ _ _ _ (command_object_at_run _ _ _ H)). unfold put_count, modify.
  by rewrite (alter_known _ _ _ _ H).
Qed.
Lemma command_release_run p rc c w : cw_objects w !! p = Some (rc, c) -> rc <> 1 ->
  release p w = (tt, set_cw_objects (<[p := (rc - 1, c)]> (cw_objects w)) w).
Proof.
  intros H Hrc. unfold release. rewrite (bind_cw _ _ _ _ _ (command_object_at_run _ _ _ H)). destruct (Z.eqb_spec rc 1); [done|].
  unfold put_count, modify. by rewrite (alter_known _ _ _ _ H).
Qed.
Lemma set_objects_same w : set_cw_objects (cw_objects w) w = w.
Proof. by destruct w. Qed.
(** Whatever was left in it, a buffer that is reset is as new. *)
Lemma reset_run p rc c w : usable c -> cw_objects w !! p = Some (rc, c) ->
  reset p w = (kIOReturnSuccess, set_cw_objects (<[p := (rc, ready)]> (cw_objects w)) w).
Proof.
  intros (state & time & size & count & Hs & ->) H. unfold reset, with_lock. rewrite (bind_cw _ _ _ _ _ (command_object_at_run _ _ _ H)).
  cbn [cb_command_lock ready lock_acquire set_cb_state set_cb_counts].
  unfold bind at 1, bind at 1, bind at 1, ret. cbn [cb_state cb_commands cb_resources ready set_cb_command_lock set_cb_state set_cb_counts].
  destruct (Z.eqb_spec state STATE_PENDING); [done|]. unfold bind, ret, put_buffer, modify. by rewrite (alter_known _ _ _ _ H).
Qed.
(** The kernel refuses nothing that is asked of it. *)
Definition grants (answers : list bool) : Prop := Forall (fun b => b = true) answers.
Definition willing (w : cworld) : Prop := grants (cw_answers w).
Lemma grants_head l : grants l -> hd true l = true /\ grants (tail l).
Proof. intros H. destruct l; [done|]. by apply Forall_cons in H. Qed.
Definition present {A} (o : option A) : bool := match o with Some _ => true | None => false end.
Section kernel.
Context (av ac : list Z) (mx : Z) (pl : lock_state) (fa : bool).
Abbreviation at_ ob nx an ar lk me := (mk_cworld av ac mx pl ob nx an ar lk me fa).
Definition one (b : bool) : Z := if b then 1 else 0.
Lemma command_init_run p ob nx an ar lk me : exists b1 b2 b3 b4 an',
  init p (at_ ob nx an ar lk me)
  = (b4 && (b1 && b2 && b3),
     at_ (alter (fun o => (o.1, mk_cb (if b1 then Some [] else None) (if b2 then Some [] else None) (if b3 then Some Unlocked else None) b4
            (64 * 1024) 0 256 0 STATE_INITIAL 0)) p ob) nx an' (ar + one b1 + one b2) (lk + one b3) (me + one b4))
  /\ (grants an -> b4 && (b1 && b2 && b3) = true).
Proof using Type.
  assert (Ha : forall an ar lk me, acquire cw_arrays set_cw_arrays 1 (at_ ob nx an ar lk me)
    = (hd true an, at_ ob nx (tail an) (ar + one (hd true an)) lk me)).
  { intros an0 ar0 lk0 me0. unfold acquire, ask, bind. cbn [cw_answers]. destruct (hd true an0); cbn; [done|]. by rewrite Z.add_0_r. }
  unfold init. rewrite (bind_cw _ _ _ _ _ (Ha _ _ _ _)), (bind_cw _ _ _ _ _ (Ha _ _ _ _)).
  set (an2 := tail (tail an)). set (ar2 := ar + _ + _).
  assert (Hl : acquire cw_locks set_cw_locks 1 (at_ ob nx an2 ar2 lk me) = (hd true an2, at_ ob nx (tail an2) ar2 (lk + one (hd true an2)) me)).
  { unfold acquire, ask, bind. cbn [cw_answers]. destruct (hd true an2); cbn; [done|]. by rewrite Z.add_0_r. }
  rewrite (bind_cw _ _ _ _ _ Hl). set (lk3 := lk + _).
  assert (Hm : acquire cw_memories set_cw_memories 1 (at_ ob nx (tail an2) ar2 lk3 me)
    = (hd true (tail an2), at_ ob nx (tail (tail an2)) ar2 lk3 (me + one (hd true (tail an2))))).
  { unfold acquire, ask, bind. cbn [cw_answers]. destruct (hd true (tail an2)); cbn; [done|]. by rewrite Z.add_0_r. }
  rewrite (bind_cw _ _ _ _ _ Hm). eexists _, _, _, _, _. split; [reflexivity|].
  intros [H1 [H2 [H3 [H4 _]%grants_head]%grants_head]%grants_head]%grants_head. unfold an2. by rewrite H1, H2, H3, H4.
Qed.
(** [free] of a buffer without commands: it gives back what it owns, if it owns
    its lock. *)
Lemma command_free_run c ob nx an ar lk me :
  (cb_commands c = None \/ cb_commands c = Some []) -> (cb_resources c = None \/ cb_resources c = Some []) ->
  free c (at_ ob nx an ar lk me) = (tt,
    match cb_command_lock c with
    | None => at_ ob nx an ar lk me
    | Some _ => at_ ob nx an (ar - one (present (cb_commands c)) - one (present (cb_resources c))) (lk - 1) (me - one (cb_buffer_memory c))
    end).
Proof using Type.
  intros H1 H2. unfold free. destruct (cb_command_lock c); [|done].
  destruct H1 as [-> | ->], H2 as [-> | ->], (cb_buffer_memory c); unfold bind, ret, discard, modify; cbn;
    unfold set_cw_arrays, set_cw_locks, set_cw_memories; cbn; by rewrite ?Z.sub_0_r.
Qed.
End kernel.
(** A new command buffer, or none: what is left of one that was not finished
    is at most two arrays and a memory, and never a lock. *)
Lemma withAccelerator_run w : cw_objects w !! cw_next_pointer w = None ->
  exists r ans ar lk me next, withAccelerator w =
    (r, mk_cworld (cw_available w) (cw_active w) (cw_max_buffers w) (cw_pool_lock w)
          (match r with Some p => <[p := (1, ready)]> (cw_objects w) | None => cw_objects w end) next ans ar lk me (cw_fault w))
  /\ cw_next_pointer w <= next
  /\ match r with
     | Some p => p = cw_next_pointer w /\ next = p + 1 /\ ar = cw_arrays w + 2 /\ lk = cw_locks w + 1 /\ me = cw_memories w + 1
     | None => ~ willing w /\ lk = cw_locks w /\ cw_arrays w <= ar <= cw_arrays w + 2 /\ cw_memories w <= me <= cw_memories w + 1
     end.
Proof.
  destruct w as [av ac mx pl ob nx an ar lk me fa]. cbn [cw_objects cw_next_pointer cw_available cw_active cw_max_buffers cw_pool_lock cw_arrays cw_locks cw_memories cw_fault].
  intros Hf. unfold withAccelerator, bind at 1, ask at 1. cbn [cw_answers]. destruct (hd true an) eqn:Ean; cbn [negb].
  2: { eexists None, _, _, _, _, _. split; [reflexivity|]. cbn. split; [lia|]. split; [|lia]. intros [H _]%grants_head. cbn in H. congruence. }
  unfold bind at 1, gets. unfold bind at 1, modify at 1. unfold set_cw_answers, set_cw_next_pointer, set_cw_objects. cbn [cw_next_pointer cw_objects cw_available cw_active cw_max_buffers cw_pool_lock cw_answers cw_arrays cw_locks cw_memories cw_fault].
  destruct (command_init_run av ac mx pl fa nx (<[nx := (1, blank_buffer)]> ob) (nx + 1) (tail an) ar lk me) as (b1 & b2 & b3 & b4 & an' & E & Hg).
  rewrite (bind_cw _ _ _ _ _ E). rewrite (alter_known _ _ nx (1, blank_buffer)) by apply lookup_insert_eq. rewrite insert_insert_eq. cbn [fst].
  set (c := mk_cb _ _ _ _ _ _ _ _ _ _). destruct (b4 && (b1 && b2 && b3)) eqn:Hb; cbn [negb].
  - apply andb_true_iff in Hb as [-> Hb]. apply andb_true_iff in Hb as [Hb ->]. apply andb_true_iff in Hb as [-> ->].
    eexists (Some nx), _, _, _, _, _. split; [reflexivity|]. cbn. lia.
  - match goal with |- context [bind (release nx) _ ?w] => set (w1 := w) end.
    assert (Er : release nx w1 = (tt, mk_cworld av ac mx pl ob (nx + 1) an' (if b3 then ar else ar + one b1 + one b2) lk (if b3 then me else me + one b4) fa)).
    { unfold release. rewrite (bind_cw _ _ _ _ _ (command_object_at_run nx (1, c) w1 (lookup_insert_eq _ _ _))). change (1 =? 1) with true. cbv iota.
      unfold w1. rewrite (bind_cw _ _ _ _ _ (command_free_run av ac mx pl fa c _ _ _ _ _ _ ltac:(destruct b1; [by right|by left]) ltac:(destruct b2; [by right|by left]))).
      unfold c. destruct b3; cbn [cb_command_lock]; unfold modify, set_cw_objects; cbn [cw_objects cw_available cw_active cw_max_buffers cw_pool_lock cw_answers cw_arrays cw_locks cw_memories cw_fault cw_next_pointer];
        rewrite delete_insert_id by done; [|by rewrite Z.add_0_r]. f_equal. f_equal; destruct b1, b2, b4; cbn; lia. }
    rewrite (bind_cw _ _ _ _ _ Er). eexists None, _, _, _, _, _. split; [reflexivity|]. cbn. split; [lia|].
    split; [|destruct b1, b2, b3, b4; cbn; lia]. intros [_ H]%grants_head. pose proof (Hg H). congruence.
Qed.

(** * The pool's invariant *)
(** Every live buffer is listed, once; the pool holds the available ones alone,
    as new, and with a client each of the active ones. *)
Definition accounted (available active : list Z) (p : Z) (o : option (Z * command_buffer)) : Prop :=
  match o with
  | Some x => (p ∈ available /\ x = (1, ready)) \/ (p ∈ active /\ (exists c, usable c /\ x = (2, c)))
  | None => (p ∉ available) /\ (p ∉ active)
  end.
Lemma accounted_available av ac p o : p ∉ ac -> accounted av ac p o -> p ∈ av -> o = Some (1, ready).
Proof. destruct o as [x|]; cbn; [|tauto]. intros Hn [[_ ->]|[? _]] ?; [done|tauto]. Qed.
Lemma accounted_active av ac p o : p ∉ av -> accounted av ac p o -> p ∈ ac -> exists c, usable c /\ o = Some (2, c).
Proof. destruct o as [x|]; cbn; [|tauto]. intros Hn [[? _]|[_ (c & Hc & ->)]] ?; [tauto|by exists c]. Qed.
Lemma accounted_same av ac av' ac' p o : (p ∈ av <-> p ∈ av') -> (p ∈ ac <-> p ∈ ac') -> accounted av ac p o -> accounted av' ac' p o.
Proof. intros H1 H2. unfold accounted. destruct o; rewrite H1, H2; done. Qed.
Record pool_ok (w : cworld) : Prop := {
  po_nodup : NoDup (cw_available w ++ cw_active w);
  po_objects : forall p, accounted (cw_available w) (cw_active w) p (cw_objects w !! p);
  po_limit : Z.of_nat (length (cw_available w ++ cw_active w)) <= cw_max_buffers w;
  po_lock : cw_pool_lock w = Unlocked;
  po_fresh : forall p, cw_next_pointer w <= p -> cw_objects w !! p = None;
  po_locks : cw_locks w = 1 + Z.of_nat (length (cw_available w ++ cw_active w));
  po_fault : cw_fault w = false
}.
Lemma pool_made_run max ans w : 0 <= max -> cw_objects w = ∅ -> cw_pool_lock w = Unlocked -> cw_fault w = false -> cw_locks w = 0 ->
  cw_answers w = ans ->
  let '(ok, w') := pool_withAccelerator max w in ok = true -> pool_ok w' /\ cw_available w' = [] /\ cw_active w' = [] /\ cw_max_buffers w' = max.
Proof.
  intros Hmax Ho Hl Hf Hk Ha. destruct w as [av ac mx pl ob nx an ar lk me fa]. cbn in Ho, Hl, Hf, Hk, Ha. subst.
  unfold pool_withAccelerator. unfold bind at 1, ask at 1. cbn [cw_answers]. destruct (hd true ans); cbn [negb]; [|done].
  set (w0 := set_cw_answers _ _).
  assert (Hi : exists b n w', pool_init max w0 = ((b, n), w')
    /\ (b = true -> w' = mk_cworld [] [] max Unlocked ∅ nx (cw_answers w') (cw_arrays w') 1 me false)).
  { unfold pool_init, acquire, ask, modify, bind, ret. cbn. destruct (hd true (tail ans)); cbn; [|by eexists _, _, _].
    destruct (hd true (tail (tail ans))); cbn; [|by eexists _, _, _]. destruct (hd true (tail (tail (tail ans)))); cbn; [|by eexists _, _, _].
    eexists _, _, _. split; [reflexivity|]. done. }
  destruct Hi as (b & n & w' & Ei & Hb). rewrite (bind_cw _ _ _ _ _ Ei). destruct b; cbn [fst snd negb]; [|unfold bind; by destruct (pool_free n 0 w')].
  rewrite (Hb eq_refl). intros _. split; [|done].
  constructor; cbn; try done.
  - constructor.
  - intros p. rewrite lookup_empty. split; apply not_elem_of_nil.
Qed.

(** The outcome of an allocation: the buffer released first, or a new one. *)
Definition allocated (w w' : cworld) (r : IOReturn * option Z) : Prop :=
  match cw_available w with
  | p :: rest => r = (kIOReturnSuccess, Some p) /\ cw_available w' = rest /\ cw_active w' = cw_active w ++ [p]
      /\ cw_objects w' !! p = Some (2, ready)
  | [] => cw_available w' = []
      /\ ((exists p, Z.of_nat (length (cw_active w)) < cw_max_buffers w /\ cw_objects w !! p = None
             /\ r = (kIOReturnSuccess, Some p) /\ cw_active w' = cw_active w ++ [p] /\ cw_objects w' !! p = Some (2, ready))
          \/ r = (kIOReturnNoSpace, None) /\ cw_active w' = cw_active w
             /\ (Z.of_nat (length (cw_active w)) < cw_max_buffers w -> ~ willing w))
  end.
Lemma active_add_run p rc c w : cw_objects w !! p = Some (rc, c) ->
  active_add p w = (tt, set_cw_objects (<[p := (rc + 1, c)]> (cw_objects w)) (set_cw_active (cw_active w ++ [p]) w)).
Proof.
  intros H. unfold active_add, bind at 1, modify.
  assert (H' : cw_objects (set_cw_active (cw_active w ++ [p]) w) !! p = Some (rc, c)) by done. by rewrite (command_retain_run _ _ _ _ H').
Qed.
Lemma available_add_run p rc c w : cw_objects w !! p = Some (rc, c) ->
  available_add p w = (tt, set_cw_objects (<[p := (rc + 1, c)]> (cw_objects w)) (set_cw_available (cw_available w ++ [p]) w)).
Proof.
  intros H. unfold available_add, bind at 1, modify.
  assert (H' : cw_objects (set_cw_available (cw_available w ++ [p]) w) !! p = Some (rc, c)) by done. by rewrite (command_retain_run _ _ _ _ H').
Qed.
Lemma take_pool_run w : cw_pool_lock w = Unlocked -> take_pool w = (tt, set_cw_pool_lock Locked w).
Proof. intros E. unfold take_pool, modify. by rewrite E. Qed.
Ltac worlds :=
  unfold set_cw_available, set_cw_active, set_cw_pool_lock, set_cw_objects;
  cbn [cw_objects cw_next_pointer cw_available cw_active cw_max_buffers cw_pool_lock cw_answers cw_arrays cw_locks cw_memories cw_fault].
(** One buffer more among the active, with two references. *)
Lemma pool_ok_activate av ac mx ob nx an ar lk me p :
  NoDup (av ++ ac) -> p ∉ av -> p ∉ ac -> p < nx ->
  (forall q, q <> p -> accounted av ac q (ob !! q)) ->
  (forall q, nx <= q -> ob !! q = None) ->
  Z.of_nat (length (av ++ ac)) + 1 <= mx -> lk = 2 + Z.of_nat (length (av ++ ac)) ->
  pool_ok (mk_cworld av (ac ++ [p]) mx Unlocked (<[p := (2, ready)]> ob) nx an ar lk me false).
Proof.
  intros Hnd Hav Hac Hp Hob Hfr Hmx Hlk. constructor; cbn; try done.
  - rewrite app_assoc. apply NoDup_app. split; [done|]. split; [|apply NoDup_singleton].
    intros q Hq H. apply list_elem_of_singleton in H as ->. apply elem_of_app in Hq as [?|?]; done.
  - intros q. destruct (decide (q = p)) as [->|Hne].
    + rewrite lookup_insert_eq. right. split; [set_solver|]. exists ready. split; [apply ready_usable|done].
    + rewrite lookup_insert_ne by done. refine (accounted_same _ _ _ _ _ _ _ _ (Hob q Hne)); set_solver.
  - rewrite app_assoc, length_app. cbn. lia.
  - intros q Hq. rewrite lookup_insert_ne by lia. by apply Hfr.
  - rewrite app_assoc, length_app. cbn. lia.
Qed.
Lemma allocate_run w : pool_ok w -> exists r w', allocateCommandBuffer true w = (r, w') /\ pool_ok w'
  /\ cw_max_buffers w' = cw_max_buffers w /\ allocated w w' r.
Proof.
  intros [Hnd Hob Hlim Hl Hfr Hlk Hf]. destruct w as [av ac mx pl ob nx an ar lk me fa]. cbn in Hnd, Hob, Hlim, Hl, Hfr, Hlk, Hf. subst pl fa. cbn [cw_available cw_active cw_max_buffers].
  unfold allocateCommandBuffer. cbn [negb]. rewrite (bind_cw _ _ _ _ _ (take_pool_run (mk_cworld av ac mx Unlocked ob nx an ar lk me false) eq_refl)). worlds.
  unfold allocated. cbn [cw_available]. destruct av as [|p rest].
  - set (w0 := mk_cworld [] ac mx Locked ob nx an ar lk me false). cbn [app] in *.
    destruct (Z.ltb_spec (Z.of_nat (length ac)) mx) as [Hlt|Hge].
    + assert (En : next_buffer w0 = withAccelerator w0).
      { unfold next_buffer, bind, gets. cbn [cw_available cw_active cw_max_buffers w0]. by destruct (Z.ltb_spec (Z.of_nat (length ac)) mx); [|lia]. }
      destruct (withAccelerator_run w0 (Hfr nx ltac:(lia))) as (r & ans & ar' & lk' & me' & next & E & Hnx & Hr). cbn in Hnx, Hr. rewrite <- En in E.
      rewrite (bind_cw _ _ _ _ _ E). destruct r as [p|].
      * destruct Hr as (-> & -> & -> & -> & ->). rewrite (bind_cw _ _ _ _ _ (active_add_run nx 1 ready _ (lookup_insert_eq _ _ _))).
        unfold bind, give_pool, modify, ret. worlds. rewrite insert_insert_eq. cbn [lock_release].
        eexists _, _. split; [reflexivity|]. split; [|split; [done|split; [done|left; exists nx; split_and!; try done; [apply Hfr; lia|apply lookup_insert_eq]]]].
        apply pool_ok_activate; [done|apply not_elem_of_nil| |lia|intros q _; apply Hob|intros q Hq; apply Hfr; lia|cbn; lia|cbn; lia].
        intros H. destruct (accounted_active _ _ _ _ ltac:(apply not_elem_of_nil) (Hob nx) H) as (c & _ & Hs). rewrite Hfr in Hs by lia. done.
      * destruct Hr as (Hwill & -> & _). unfold bind, give_pool, modify, ret. worlds. cbn [lock_release].
        eexists _, _. split; [reflexivity|]. split; [|split; [done|split; [done|right; by split_and!]]]. constructor; cbn; try done. intros q Hq. apply Hfr. lia.
    + assert (En : next_buffer w0 = (None, w0)).
      { unfold next_buffer, bind, gets. cbn [cw_available cw_active cw_max_buffers w0]. by destruct (Z.ltb_spec (Z.of_nat (length ac)) mx); [lia|]. }
      rewrite (bind_cw _ _ _ _ _ En). unfold w0, bind, give_pool, modify, ret. worlds. cbn [lock_release]. eexists _, _. split; [reflexivity|].
      split; [by constructor|]. split; [done|]. split; [done|right; split_and!; [done|done|cbn; lia]].
  - cbn [app] in Hnd. apply NoDup_cons in Hnd as [Hn Hnd]. rewrite elem_of_app in Hn. cbn [app length] in Hlim, Hlk.
    assert (Hp : ob !! p = Some (1, ready)) by (apply (accounted_available (p :: rest) ac p); [tauto|apply Hob|left]).
    set (w0 := mk_cworld (p :: rest) ac mx Locked ob nx an ar lk me false).
    assert (En : next_buffer w0 = (Some p, mk_cworld rest ac mx Locked ob nx an ar lk me false)).
    { unfold next_buffer, bind at 1, gets. cbn [cw_available w0]. rewrite (bind_cw _ _ _ _ _ (command_retain_run p 1 ready w0 Hp)).
      unfold bind at 1, modify, w0. worlds.
      rewrite (bind_cw _ _ _ _ _ (command_release_run p (1 + 1) ready (mk_cworld rest ac mx Locked _ nx an ar lk me false) (lookup_insert_eq _ _ _) ltac:(done))).
      worlds. rewrite insert_insert_eq. unfold ret. f_equal. f_equal. by apply insert_id. }
    rewrite (bind_cw _ _ _ _ _ En), (bind_cw _ _ _ _ _ (active_add_run p 1 ready (mk_cworld rest ac mx Locked ob nx an ar lk me false) Hp)).
    unfold bind, give_pool, modify, ret. worlds. cbn [lock_release].
    eexists _, _. split; [reflexivity|]. split; [|split_and!; [done..|apply lookup_insert_eq]].
    apply pool_ok_activate; [done|tauto|tauto| | |done|lia|lia].
    + destruct (Z.lt_ge_cases p nx); [done|]. by rewrite Hfr in Hp.
    + intros q Hne. refine (accounted_same _ _ _ _ _ _ _ _ (Hob q)); set_solver.
Qed.
Lemma index_of_pointer p l : p ∈ l -> exists i, index_of (Z.eqb p) l = Some i /\ exists l1 l2, l = l1 ++ p :: l2 /\ delete i l = l1 ++ l2.
Proof.
  intros H. destruct (index_of (Z.eqb p) l) as [i|] eqn:Hi.
  - exists i. split; [done|]. destruct (index_of_Some _ _ _ Hi) as (q & Hq & Heq & _). apply Z.eqb_eq in Heq as <-.
    exists (take i l), (drop (S i) l). split; [by rewrite take_drop_middle|apply delete_take_drop].
  - apply list_elem_of_lookup in H as [j Hj]. pose proof (proj1 (index_of_None _ _) Hi j p Hj) as Hn. by rewrite Z.eqb_refl in Hn.
Qed.
(** A release by a client that holds the buffer. *)
Lemma releaseCommandBuffer_run w p : pool_ok w -> p ∈ cw_active w ->
  exists w', releaseCommandBuffer (Some p) w = (kIOReturnSuccess, w') /\ pool_ok w'
  /\ cw_max_buffers w' = cw_max_buffers w /\ cw_available w' = cw_available w ++ [p]
  /\ exists l1 l2, cw_active w = l1 ++ p :: l2 /\ cw_active w' = l1 ++ l2.
Proof.
  intros [Hnd Hob Hlim Hl Hfr Hlk Hf] Hin. destruct w as [av ac mx pl ob nx an ar lk me fa]. cbn in Hnd, Hob, Hlim, Hl, Hfr, Hlk, Hf. subst pl fa. cbn [cw_available cw_active cw_max_buffers] in Hin |- *.
  assert (Hav : p ∉ av) by (intros H; apply NoDup_app in Hnd as (_ & Hnd & _); by apply (Hnd p)).
  destruct (accounted_active _ _ _ _ Hav (Hob p) Hin) as (c & Hc & Hp).
  destruct (index_of_pointer p ac Hin) as (i & Hi & l1 & l2 & Hac & Hdel).
  unfold releaseCommandBuffer. rewrite (bind_cw _ _ _ _ _ (take_pool_run (mk_cworld av ac mx Unlocked ob nx an ar lk me false) eq_refl)). worlds.
  set (wL := mk_cworld _ _ _ _ _ _ _ _ _ _ _). rewrite (bind_cw (gets cw_active) _ wL ac wL eq_refl), Hi.
  set (w0 := mk_cworld av (l1 ++ l2) mx Locked ob nx an ar lk me false).
  assert (Em : (modify (set_cw_active (delete i ac)) ;;; release p) wL = (tt, set_cw_objects (<[p := (2 - 1, c)]> ob) w0)).
  { rewrite (bind_cw _ _ wL tt w0) by (unfold modify, wL; worlds; by rewrite Hdel). by rewrite (command_release_run p 2 c w0 Hp ltac:(done)). }
  rewrite (bind_cw _ _ _ _ _ Em). unfold w0. worlds.
  rewrite (bind_cw _ _ _ _ _ (reset_run p (2 - 1) c (mk_cworld av (l1 ++ l2) mx Locked _ nx an ar lk me false) Hc (lookup_insert_eq _ _ _))).
  worlds. rewrite insert_insert_eq.
  rewrite (bind_cw _ _ _ _ _ (available_add_run p (2 - 1) ready (mk_cworld av (l1 ++ l2) mx Locked _ nx an ar lk me false) (lookup_insert_eq _ _ _))).
  worlds. rewrite insert_insert_eq.
  rewrite (bind_cw give_pool _ (mk_cworld (av ++ [p]) (l1 ++ l2) mx Locked (<[p := (2 - 1 + 1, ready)]> ob) nx an ar lk me false) tt (mk_cworld (av ++ [p]) (l1 ++ l2) mx Unlocked (<[p := (2 - 1 + 1, ready)]> ob) nx an ar lk me false) eq_refl).
  rewrite (bind_cw _ _ _ _ _ (command_release_run p (2 - 1 + 1) ready (mk_cworld (av ++ [p]) (l1 ++ l2) mx Unlocked _ nx an ar lk me false) (lookup_insert_eq _ _ _) ltac:(done))).
  worlds. rewrite insert_insert_eq. eexists. split; [reflexivity|]. split; [|split; [done|split; [done|by exists l1, l2]]].
  assert (Hperm : (av ++ [p]) ++ l1 ++ l2 ≡ₚ av ++ ac) by (rewrite Hac, <- app_assoc; cbn; by rewrite Permutation_middle).
  constructor; cbn; try done.
  - by rewrite Hperm.
  - intros q. destruct (decide (q = p)) as [->|Hne].
    + rewrite lookup_insert_eq. left. by split; [set_solver|].
    + rewrite lookup_insert_ne by done. refine (accounted_same _ _ _ _ _ _ _ _ (Hob q)); [set_solver|]. rewrite Hac. set_solver.
  - rewrite <- Hlim. by rewrite Hperm.
  - intros q Hq. rewrite lookup_insert_ne; [by apply Hfr|]. intros ->. rewrite Hfr in Hp by done. done.
  - rewrite Hlk. by rewrite Hperm.
Qed.

(** * The theorems *)
(** What clients see: an allocation's answer, a release, and the use of a buffer. *)
Inductive pool_event :=
| Got (answer : IOReturn * option Z)
| Gave (p : Z)
| Used (p : Z).
(** A sequence of labelled steps. *)
Inductive trace {S E : Type} (step : S -> E -> S -> Prop) : S -> list E -> S -> Prop :=
| trace_nil s : trace step s [] s
| trace_snoc s1 es s2 e s3 : trace step s1 es s2 -> step s2 e s3 -> trace step s1 (es ++ [e]) s3.
(** Clients that use and give back only buffers they hold. *)
Inductive pool_step (w : cworld) : pool_event -> cworld -> Prop :=
| step_allocate r w' : allocateCommandBuffer true w = (r, w') -> pool_step w (Got r) w'
| step_release p r w' : p ∈ cw_active w -> releaseCommandBuffer (Some p) w = (r, w') -> pool_step w (Gave p) w'
| step_use p c : p ∈ cw_active w -> usable c -> pool_step w (Used p) (put_buffer p c w).2.

(** The specification: a first-in first-out queue of buffers to reuse, and those
    that clients hold. *)
Inductive fifo_step (max_buffers : Z) : list Z * list Z -> pool_event -> list Z * list Z -> Prop :=
| fifo_reuse p queue held : fifo_step max_buffers (p :: queue, held) (Got (kIOReturnSuccess, Some p)) (queue, held ++ [p])
| fifo_new p held : Z.of_nat (length held) < max_buffers -> p ∉ held ->
    fifo_step max_buffers ([], held) (Got (kIOReturnSuccess, Some p)) ([], held ++ [p])
| fifo_refused held : fifo_step max_buffers ([], held) (Got (kIOReturnNoSpace, None)) ([], held)
| fifo_back p queue h1 h2 : fifo_step max_buffers (queue, h1 ++ p :: h2) (Gave p) (queue ++ [p], h1 ++ h2)
| fifo_used p queue held : p ∈ held -> fifo_step max_buffers (queue, held) (Used p) (queue, held).
Definition queues (w : cworld) : list Z * list Z := (cw_available w, cw_active w).

Lemma use_run w p c : pool_ok w -> p ∈ cw_active w -> usable c ->
  pool_ok (put_buffer p c w).2 /\ cw_max_buffers (put_buffer p c w).2 = cw_max_buffers w /\ queues (put_buffer p c w).2 = queues w.
Proof.
  intros [Hnd Hob Hlim Hl Hfr Hlk Hf] Hin Hc. split; [|done].
  assert (Hav : p ∉ cw_available w) by (intros H; apply NoDup_app in Hnd as (_ & Hnd & _); by apply (Hnd p)).
  destruct (accounted_active _ _ _ _ Hav (Hob p) Hin) as (c0 & _ & Hp).
  unfold put_buffer, modify. cbn [snd]. rewrite (alter_known _ _ _ _ Hp). constructor; cbn; try done.
  - intros q. destruct (decide (q = p)) as [->|Hne]; [|by rewrite lookup_insert_ne].
    rewrite lookup_insert_eq. right. split; [done|]. by exists c.
  - intros q Hq. rewrite lookup_insert_ne; [by apply Hfr|]. intros ->. by rewrite Hfr in Hp.
Qed.
Lemma allocated_fifo w w' r : pool_ok w -> allocated w w' r -> fifo_step (cw_max_buffers w) (queues w) (Got r) (queues w').
Proof.
  intros Hw. unfold allocated, queues. destruct (cw_available w) as [|p rest] eqn:Ea.
  - intros (-> & [(p & Hlt & Hn & -> & -> & _)|(-> & -> & _)]); constructor; [done|].
    pose proof (po_objects _ Hw p) as H. rewrite Hn in H. apply H.
  - intros (-> & -> & -> & _). constructor.
Qed.
Lemma pool_step_ok w e w' : pool_step w e w' -> pool_ok w ->
  pool_ok w' /\ cw_max_buffers w' = cw_max_buffers w /\ fifo_step (cw_max_buffers w) (queues w) e (queues w').
Proof.
  intros [r w1 E|p r w1 Hp E|p c Hp Hc] Hw.
  - destruct (allocate_run w Hw) as (r' & w2 & E' & H1 & H2 & H3). rewrite E in E'. injection E' as -> ->.
    split; [done|]. split; [done|]. by apply allocated_fifo.
  - destruct (releaseCommandBuffer_run w p Hw Hp) as (w2 & E' & H1 & H2 & Ha & l1 & l2 & Hl & Hl'). rewrite E in E'. injection E' as -> ->.
    split; [done|]. split; [done|]. unfold queues. rewrite Ha, Hl, Hl'. constructor.
  - destruct (use_run w p c Hw Hp Hc) as (H1 & H2 & ->). split; [done|]. split; [done|]. by constructor.
Qed.
Lemma pool_trace_ok w es w' : trace pool_step w es w' -> pool_ok w ->
  pool_ok w' /\ cw_max_buffers w' = cw_max_buffers w /\ trace (fifo_step (cw_max_buffers w)) (queues w) es (queues w').
Proof.
  intros H Hw. induction H as [|w1 es w2 e w3 _ IH Hs]; [split; [done|]; split; [done|constructor]|].
  destruct (IH Hw) as (H2 & E & Ht). destruct (pool_step_ok _ _ _ Hs H2) as (H3 & E' & Hf).
  split; [done|]. split; [congruence|]. rewrite E in Hf. by econstructor.
Qed.
Definition fresh_kernel (w : cworld) : Prop :=
  cw_objects w = ∅ /\ cw_pool_lock w = Unlocked /\ cw_fault w = false /\ cw_locks w = 0.

(** C13: The pool is a bounded first-in first-out queue of clean buffers. From its creation,
    through any allocations, any releases of buffers held and any use of them that records
    nothing and leaves no buffer pending, and whatever the kernel refuses: what the clients see
    is a run of the queue [fifo_step], in which a release appends and an allocation takes the
    head, or a new buffer below the limit when the queue is empty, or is refused; nothing faults,
    the lock is free, no buffer is listed twice, there are at most [max_buffers] of them, no
    other is alive, and the locks taken from the kernel are the pool's and theirs; an available
    buffer has one reference and is as new, whatever its last holder left in it, a held one has
    two. The next allocation hands out a buffer that is as new, and is refused only at the limit
    or when the kernel refuses. *)
Theorem command_pool_sound max_buffers es (w0 w1 w : cworld) :
  0 <= max_buffers -> fresh_kernel w0 -> pool_withAccelerator max_buffers w0 = (true, w1) -> trace pool_step w1 es w ->
  trace (fifo_step max_buffers) ([], []) es (queues w)
  /\ cw_fault w = false /\ cw_pool_lock w = Unlocked
  /\ NoDup (cw_available w ++ cw_active w) /\ Z.of_nat (length (cw_available w ++ cw_active w)) <= max_buffers
  /\ (forall p, accounted (cw_available w) (cw_active w) p (cw_objects w !! p))
  /\ cw_locks w = 1 + Z.of_nat (length (cw_available w ++ cw_active w))
  /\ let '(r, w') := allocateCommandBuffer true w in allocated w w' r.
Proof.
  intros Hmax (Ho & Hl & Hf & Hk) E Ht. pose proof (pool_made_run max_buffers _ w0 Hmax Ho Hl Hf Hk eq_refl) as H. rewrite E in H.
  destruct (H eq_refl) as (Hok & Ea & Ec & Em). destruct (pool_trace_ok _ _ _ Ht Hok) as (Hw & Ew & Hq).
  destruct (allocate_run w Hw) as (r & w' & -> & _ & _ & Ha). unfold queues at 1 in Hq. rewrite Ea, Ec, Em in Hq.
  destruct Hw. split_and!; try done. by rewrite <- Em, <- Ew.
Qed.
Definition demo_kernel : cworld := mk_cworld [] [] 0 Unlocked ∅ 1 [] 0 0 0 false.
Definition demo_pool : cworld := (pool_withAccelerator 2 demo_kernel).2.
Definition demo_w1 : cworld := (allocateCommandBuffer true demo_pool).2.
Definition demo_w2 : cworld := (allocateCommandBuffer true demo_w1).2.
Definition used_buffer : command_buffer := set_cb_state 1 9 (set_cb_counts 64 3 ready).
Definition demo_used : cworld := (put_buffer 2 used_buffer demo_w2).2.
Definition demo_w3 : cworld := (releaseCommandBuffer (Some 2) demo_used).2.
Definition demo_w4 : cworld := (releaseCommandBuffer (Some 1) demo_w3).2.
Lemma run_pair {A} (f : M cworld A) w : f w = ((f w).1, (f w).2).
Proof. apply surjective_pairing. Qed.
Definition demo_events : list pool_event :=
  [Got (kIOReturnSuccess, Some 1); Got (kIOReturnSuccess, Some 2); Used 2; Gave 2; Gave 1].
Lemma demo_run : trace pool_step demo_pool demo_events demo_w4.
Proof.
  assert (Hu : cw_active demo_used = [1; 2]) by (vm_compute; reflexivity). assert (H1 : cw_active demo_w3 = [1]) by (vm_compute; reflexivity).
  assert (H2 : cw_active demo_w2 = [1; 2]) by (vm_compute; reflexivity).
  assert (E1 : (allocateCommandBuffer true demo_pool).1 = (kIOReturnSuccess, Some 1)) by (vm_compute; reflexivity).
  assert (E2 : (allocateCommandBuffer true demo_w1).1 = (kIOReturnSuccess, Some 2)) by (vm_compute; reflexivity).
  apply (trace_snoc _ _ [_; _; _; _] demo_w3); [apply (trace_snoc _ _ [_; _; _] demo_used);
    [apply (trace_snoc _ _ [_; _] demo_w2); [apply (trace_snoc _ _ [_] demo_w1); [apply (trace_snoc _ _ [] demo_pool); [constructor|]|]|]|]|].
  - rewrite <- E1. exact (step_allocate demo_pool _ _ (run_pair _ _)).
  - rewrite <- E2. exact (step_allocate demo_w1 _ _ (run_pair _ _)).
  - apply (step_use demo_w2 2 used_buffer); [rewrite H2; set_solver|]. by exists 1, 9, 64, 3.
  - refine (step_release demo_used 2 _ _ _ (run_pair (releaseCommandBuffer (Some 2)) demo_used)). rewrite Hu. set_solver.
  - refine (step_release demo_w3 1 _ _ _ (run_pair (releaseCommandBuffer (Some 1)) demo_w3)). rewrite H1. set_solver.
Qed.
Lemma allocated_first w p rest x : let '(r, w') := x in allocated w w' r -> cw_available w = p :: rest -> r = (kIOReturnSuccess, Some p).
Proof. destruct x as [r w']. unfold allocated. intros H E. rewrite E in H. apply H. Qed.
Lemma command_pool_sound_witness :
  cw_available demo_w4 = [2; 1] /\ cw_locks demo_w4 = 3 /\ (allocateCommandBuffer true demo_w4).1 = (kIOReturnSuccess, Some 2).
Proof.
  assert (Ei : pool_withAccelerator 2 demo_kernel = (true, demo_pool)) by (vm_compute; reflexivity).
  pose proof (command_pool_sound 2 demo_events demo_kernel demo_pool demo_w4 ltac:(lia) ltac:(done) Ei demo_run) as H.
  assert (Ea : cw_available demo_w4 = [2; 1]) by (vm_compute; reflexivity). assert (Ec : cw_active demo_w4 = []) by (vm_compute; reflexivity).
  destruct H as (_ & _ & _ & _ & _ & _ & Hlk & Hal). rewrite Ea, Ec in Hlk. split; [exact Ea|]. split; [exact Hlk|].
  pose proof (allocated_first demo_w4 2 [1] (allocateCommandBuffer true demo_w4)) as Hfst.
  destruct (allocateCommandBuffer true demo_w4) as [r w5]. exact (Hfst Hal Ea).
Defined.

(** Recording a command is undefined. A command for a live buffer that is not locked either
    fails and changes nothing but the kernel's answers (it is not in the initial state, it is
    full, the kernel has no memory), or it has written its descriptor past the end of the
    16 bytes of its struct: it succeeds exactly when something has gone wrong. *)
Theorem recording_overruns type p data w rc c :
  cw_objects w !! p = Some (rc, c) -> cb_command_lock c = Some Unlocked -> cw_fault w = false ->
  let '(r, w') := add_command type p (Some data) w in
  cw_fault w' = is_success r
  /\ (is_success r = false -> cw_objects w' = cw_objects w /\ cw_available w' = cw_available w /\ cw_active w' = cw_active w).
Proof.
  intros Ho Hl Hf. unfold add_command, with_lock. rewrite (bind_cw _ _ _ _ _ (command_object_at_run _ _ _ Ho)), Hl. cbn [lock_acquire].
  set (c1 := set_cb_command_lock (Some Locked) c).
  assert (Hsame : forall r an, is_success r = false ->
    let '(r', w') := (put_buffer p (set_cb_command_lock (lock_release <$> cb_command_lock c1) c1) ;;; ret r) (set_cw_answers an w) in
    cw_fault w' = is_success r' /\ (is_success r' = false -> cw_objects w' = cw_objects w /\ cw_available w' = cw_available w /\ cw_active w' = cw_active w)).
  { intros r an Hr. unfold bind, put_buffer, modify, ret. split; [by rewrite Hr|]. intros _. split; [|done]. cbn [cw_objects set_cw_objects set_cw_answers].
    rewrite (alter_known _ _ _ _ Ho). apply insert_id. rewrite Ho. f_equal. f_equal. destruct c. cbn in *. by subst. }
  assert (Hw : set_cw_answers (cw_answers w) w = w) by by destruct w.
  destruct (cb_state c1 =? STATE_INITIAL) eqn:E1; cbn [negb].
  2: { unfold bind at 1, ret at 1. pose proof (Hsame kIOReturnNotPermitted (cw_answers w) eq_refl) as H. by rewrite Hw in H. }
  destruct (cb_max_commands c1 <=? cb_command_count c1) eqn:E2.
  { unfold bind at 1, ret at 1. pose proof (Hsame kIOReturnNoSpace (cw_answers w) eq_refl) as H. by rewrite Hw in H. }
  unfold bind at 1. unfold bind at 1, ask. destruct (hd true (cw_answers w)); cbn [negb].
  2: { unfold ret at 1. apply (Hsame kIOReturnNoMemory (tail (cw_answers w)) eq_refl). }
  unfold bind at 1, store_within at 1. change (0 + SIZEOF_COMMAND <=? SIZEOF_COMMAND) with true. cbv iota. unfold ret at 1.
  unfold bind at 1, store_within at 1. change (SIZEOF_COMMAND + SIZEOF_DESCRIPTOR <=? SIZEOF_COMMAND) with false. cbv iota.
  unfold set_raw, fault, put_buffer, modify, bind, ret. by split.
Qed.
Lemma recording_overruns_witness :
  let '(r, w') := addDrawCommand 1 (Some [3; 1; 0; 0]) demo_w1 in r = kIOReturnSuccess /\ cw_fault w' = true.
Proof.
  assert (Ho : cw_objects demo_w1 !! 1 = Some (2, ready)) by (vm_compute; reflexivity).
  assert (Hf : cw_fault demo_w1 = false) by (vm_compute; reflexivity).
  assert (E : (add_command CMD_DRAW 1 (Some [3; 1; 0; 0]) demo_w1).1 = kIOReturnSuccess) by (vm_compute; reflexivity).
  pose proof (recording_overruns CMD_DRAW 1 [3; 1; 0; 0] demo_w1 2 ready Ho eq_refl Hf) as H.
  unfold addDrawCommand. destruct (add_command CMD_DRAW 1 (Some [3; 1; 0; 0]) demo_w1) as [r w']. cbn [fst] in E. rewrite E in H |- *.
  destruct H as [-> _]. split; reflexivity.
Defined.

(** ** Outside the discipline *)
(** Released twice, a buffer is available twice, and handed to two clients. *)
Example released_twice_shared :
  let w1 := (allocateCommandBuffer true demo_pool).2 in
  let w2 := (releaseCommandBuffer (Some 1) w1).2 in
  let '(r, w3) := releaseCommandBuffer (Some 1) w2 in
  let '(a, w4) := allocateCommandBuffer true w3 in
  let '(b, w5) := allocateCommandBuffer true w4 in
  r = kIOReturnSuccess /\ cw_available w3 = [1; 1] /\ a = (kIOReturnSuccess, Some 1) /\ b = a /\ cw_fault w5 = false.
Proof. vm_compute. by split_and!. Qed.
(** [resetPool] forgets the buffers held; given back, they exceed the limit. *)
Example reset_exceeds_limit :
  let w1 := (allocateCommandBuffer true demo_pool).2 in
  let w2 := (allocateCommandBuffer true w1).2 in
  let w3 := (resetPool w2).2 in
  let w4 := (allocateCommandBuffer true w3).2 in
  let w5 := (allocateCommandBuffer true w4).2 in
  let w6 := (releaseCommandBuffer (Some 1) w5).2 in
  let '(r, w7) := allocateCommandBuffer true w6 in
  r = (kIOReturnSuccess, Some 1) /\ cw_max_buffers w7 = 2 /\ cw_active w7 = [3; 4; 1] /\ cw_fault w7 = false.
Proof. vm_compute. by split_and!. Qed.
(** A buffer without its lock is not cleaned up: two arrays and a memory leak. *)
Example lockless_buffer_leaks :
  let '(r, w) := withAccelerator (set_cw_answers [true; true; true; false; true] demo_kernel) in
  r = None /\ cw_objects w = ∅ /\ cw_arrays w = 2 /\ cw_memories w = 1 /\ cw_locks w = 0.
Proof. vm_compute. by split_and!. Qed.
