(* ===== verification/IOSurfaces.v ===== *)
(** The surface manager: [VMIOSurfaceManager] (FB/VMIOSurfaceManager.cpp, .h)
    with the helpers of FB/VMIOSurfaceManager_Helpers.cpp. A surface is a
    struct copied into an [OSData], which an array and a dictionary share; its
    pixels are an [IOBufferMemoryDescriptor]. Lookups go through a cache of 64
    raw pointers ([findSurface]), which is a C static.

    The objects behind pointers are modelled as such: [kn_objects] holds the
    live [OSData]s with their retain counts, [kn_buffers] the live buffers with
    their bytes, and pointers are never reused. A read through a dangling
    pointer, an access outside a buffer, an overlapping [memcpy] and a division
    by zero set [kn_fault]; what follows a fault means nothing. The library's
    collections do as documented: an [OSArray] is a list, an [OSDictionary] with
    the keys ["%u"] a finite map of 32-bit numbers, and both retain what they
    hold; insertion succeeds. Whether an allocation, [prepare] or a mapping
    succeeds is the next of [kn_answers], a fresh buffer holds [kn_junk], and
    the clock (of [mach_absolute_time] and [clock_get_uptime]) moves forward by
    [kn_ticks].

    This file: data, the discovery cache, creation and destruction. *)
From S2P Require Import Prelude.

(** * Data *)
(** [VMIOSurfacePixelFormat], the formats the manager knows. *)
Definition FORMAT_ARGB32 : Z := 0x41524742.
Definition FORMAT_BGRA32 : Z := 0x42475241.
Definition FORMAT_RGBA32 : Z := 0x52474241.
Definition FORMAT_ABGR32 : Z := 0x41424752.
Definition FORMAT_RGB24 : Z := 0x18.
Definition FORMAT_RGB565 : Z := 0x52353635.
Definition FORMAT_YUV420 : Z := 0x79343230.
Definition FORMAT_NV12 : Z := 0x34323066.
Definition FORMAT_P010 : Z := 0x70303130.

(** [VMIOSurfaceMemoryPriority] *)
Definition PRIORITY_LOW : Z := 0.
Definition PRIORITY_NORMAL : Z := 1.
Definition PRIORITY_HIGH : Z := 2.
Definition PRIORITY_CRITICAL : Z := 3.

(** [VMIOSurfaceLockOptions] *)
Definition LOCK_READ_ONLY : Z := 1.

(** [VMIOSurfacePlaneInfo] *)
Record plane_info := mk_plane {
  pi_width : Z; pi_height : Z; pi_bytes_per_element : Z; pi_bytes_per_row : Z;
  pi_element_width : Z; pi_element_height : Z; pi_offset : Z; pi_size : Z
}.
(** [VMIOSurfaceDescriptor]; four planes. *)
Record surface_desc := mk_desc {
  sd_width : Z; sd_height : Z; sd_pixel_format : Z; sd_bytes_per_row : Z; sd_bytes_per_element : Z;
  sd_element_width : Z; sd_element_height : Z; sd_plane_count : Z; sd_planes : list plane_info;
  sd_alloc_size : Z; sd_usage_flags : Z; sd_cache_mode : Z; sd_depth : Z; sd_format : Z;
  sd_usage : Z; sd_flags : Z
}.
Definition set_planes (count : Z) (planes : list plane_info) (d : surface_desc) : surface_desc :=
  mk_desc (sd_width d) (sd_height d) (sd_pixel_format d) (sd_bytes_per_row d) (sd_bytes_per_element d)
    (sd_element_width d) (sd_element_height d) count planes (sd_alloc_size d) (sd_usage_flags d)
    (sd_cache_mode d) (sd_depth d) (sd_format d) (sd_usage d) (sd_flags d).
Definition set_pixel_format (f : Z) (d : surface_desc) : surface_desc :=
  mk_desc (sd_width d) (sd_height d) f (sd_bytes_per_row d) (sd_bytes_per_element d)
    (sd_element_width d) (sd_element_height d) (sd_plane_count d) (sd_planes d) (sd_alloc_size d)
    (sd_usage_flags d) (sd_cache_mode d) (sd_depth d) (sd_format d) (sd_usage d) (sd_flags d).

(** [VMIOSurface], without the name and the fields that stay zero. *)
Record io_surface := mk_io_surface {
  is_surface_id : Z;
  is_descriptor : surface_desc;
  is_memory : option Z;
  is_base_address : option Z;
  is_lock_count : Z;
  is_ref_count : Z;
  is_is_locked : bool;
  is_is_purgeable : bool;
  is_creation_time : Z;
  is_last_access_time : Z;
  is_width : Z;
  is_height : Z;
  is_memory_size : Z;
  is_cache_mode : Z;
  is_memory_priority : Z
}.
Definition set_is_descriptor (v : surface_desc) (s : io_surface) : io_surface :=
  mk_io_surface (is_surface_id s) v (is_memory s) (is_base_address s) (is_lock_count s) (is_ref_count s) (is_is_locked s) (is_is_purgeable s) (is_creation_time s) (is_last_access_time s) (is_width s) (is_height s) (is_memory_size s) (is_cache_mode s) (is_memory_priority s).
Definition set_is_memory (v : option Z) (s : io_surface) : io_surface :=
  mk_io_surface (is_surface_id s) (is_descriptor s) v (is_base_address s) (is_lock_count s) (is_ref_count s) (is_is_locked s) (is_is_purgeable s) (is_creation_time s) (is_last_access_time s) (is_width s) (is_height s) (is_memory_size s) (is_cache_mode s) (is_memory_priority s).
Definition set_is_lock_count (v : Z) (s : io_surface) : io_surface :=
  mk_io_surface (is_surface_id s) (is_descriptor s) (is_memory s) (is_base_address s) v (is_ref_count s) (is_is_locked s) (is_is_purgeable s) (is_creation_time s) (is_last_access_time s) (is_width s) (is_height s) (is_memory_size s) (is_cache_mode s) (is_memory_priority s).
Definition set_is_ref_count (v : Z) (s : io_surface) : io_surface :=
  mk_io_surface (is_surface_id s) (is_descriptor s) (is_memory s) (is_base_address s) (is_lock_count s) v (is_is_locked s) (is_is_purgeable s) (is_creation_time s) (is_last_access_time s) (is_width s) (is_height s) (is_memory_size s) (is_cache_mode s) (is_memory_priority s).
Definition set_is_is_locked (v : bool) (s : io_surface) : io_surface :=
  mk_io_surface (is_surface_id s) (is_descriptor s) (is_memory s) (is_base_address s) (is_lock_count s) (is_ref_count s) v (is_is_purgeable s) (is_creation_time s) (is_last_access_time s) (is_width s) (is_height s) (is_memory_size s) (is_cache_mode s) (is_memory_priority s).
Definition set_is_last_access_time (v : Z) (s : io_surface) : io_surface :=
  mk_io_surface (is_surface_id s) (is_descriptor s) (is_memory s) (is_base_address s) (is_lock_count s) (is_ref_count s) (is_is_locked s) (is_is_purgeable s) (is_creation_time s) v (is_width s) (is_height s) (is_memory_size s) (is_cache_mode s) (is_memory_priority s).
Definition set_is_memory_priority (v : Z) (s : io_surface) : io_surface :=
  mk_io_surface (is_surface_id s) (is_descriptor s) (is_memory s) (is_base_address s) (is_lock_count s) (is_ref_count s) (is_is_locked s) (is_is_purgeable s) (is_creation_time s) (is_last_access_time s) (is_width s) (is_height s) (is_memory_size s) (is_cache_mode s) v.
Definition SIZEOF_IOSURFACE : Z := 344.

(** The [ClientInfo] of [registerClient], without the name. *)
Record client_info := mk_client {
  ci_client_id : Z;
  ci_process_id : Z;
  ci_access_rights : Z;
  ci_registration_time : Z;
  ci_surface_count : Z;
  ci_active : bool
}.
Definition set_ci_access_rights (v : Z) (c : client_info) : client_info :=
  mk_client (ci_client_id c) (ci_process_id c) v (ci_registration_time c) (ci_surface_count c) (ci_active c).
Definition set_ci_active (v : bool) (c : client_info) : client_info :=
  mk_client (ci_client_id c) (ci_process_id c) (ci_access_rights c) (ci_registration_time c) (ci_surface_count c) v.
Definition SIZEOF_CLIENT_INFO : Z := 96.

(** The [SurfaceSharing] of [shareSurface], and the [MemoryPool] of
    [createMemoryPool]: the entries of their arrays. *)
Record surface_sharing := mk_sharing {
  sh_surface_id : Z; sh_owner_client_id : Z; sh_shared_client_id : Z; sh_sharing_mode : Z; sh_active : bool
}.
Record memory_pool := mk_pool { mp_size : Z; mp_allocated : Z; mp_free_blocks : Z; mp_active : bool }.
Definition SIZEOF_MEMORY_POOL : Z := 16.

(** The bytes of an [OSData]. *)
Inductive os_data :=
| SurfaceData (s : io_surface)
| ClientData (c : client_info).

(** An [IOBufferMemoryDescriptor]. *)
Record buffer := mk_buffer { bf_length : Z; bf_bytes : Z -> Z; bf_prepared : Z }.

(** [VMSurfaceCacheEntry] *)
Record cache_entry := mk_entry {
  ce_surface_id : Z;
  ce_surface_object : option Z;
  ce_last_access_time : Z;
  ce_access_count : Z;
  ce_discovery_cost : Z;
  ce_is_prefetched : bool;
  ce_is_high_priority : bool
}.
Definition set_ce_last_access_time (v : Z) (e : cache_entry) : cache_entry :=
  mk_entry (ce_surface_id e) (ce_surface_object e) v (ce_access_count e) (ce_discovery_cost e) (ce_is_prefetched e) (ce_is_high_priority e).
Definition set_ce_access_count (v : Z) (e : cache_entry) : cache_entry :=
  mk_entry (ce_surface_id e) (ce_surface_object e) (ce_last_access_time e) v (ce_discovery_cost e) (ce_is_prefetched e) (ce_is_high_priority e).
Definition set_ce_is_high_priority (v : bool) (e : cache_entry) : cache_entry :=
  mk_entry (ce_surface_id e) (ce_surface_object e) (ce_last_access_time e) (ce_access_count e) (ce_discovery_cost e) (ce_is_prefetched e) v.
Definition CACHE_SIZE : nat := 64.

(** The statics of the discovery system: of [g_surface_cache] the first
    [g_cache_size] entries (the others are not read), [g_discovery_stats]
    without the times, which are only reported, [g_last_accessed_surface_id]
    and [g_sequential_prediction_window]. *)
Record discovery := mk_disc {
  dc_cache : list cache_entry;
  dc_total_lookups : Z;
  dc_cache_hits : Z;
  dc_cache_misses : Z;
  dc_fast_path_hits : Z;
  dc_sequential : Z;
  dc_random : Z;
  dc_last_accessed : Z;
  dc_window : Z
}.
Definition set_dc_cache (v : list cache_entry) (d : discovery) : discovery :=
  mk_disc v (dc_total_lookups d) (dc_cache_hits d) (dc_cache_misses d) (dc_fast_path_hits d) (dc_sequential d) (dc_random d) (dc_last_accessed d) (dc_window d).
Definition set_dc_total_lookups (v : Z) (d : discovery) : discovery :=
  mk_disc (dc_cache d) v (dc_cache_hits d) (dc_cache_misses d) (dc_fast_path_hits d) (dc_sequential d) (dc_random d) (dc_last_accessed d) (dc_window d).
Definition set_dc_cache_hits (v : Z) (d : discovery) : discovery :=
  mk_disc (dc_cache d) (dc_total_lookups d) v (dc_cache_misses d) (dc_fast_path_hits d) (dc_sequential d) (dc_random d) (dc_last_accessed d) (dc_window d).
Definition set_dc_cache_misses (v : Z) (d : discovery) : discovery :=
  mk_disc (dc_cache d) (dc_total_lookups d) (dc_cache_hits d) v (dc_fast_path_hits d) (dc_sequential d) (dc_random d) (dc_last_accessed d) (dc_window d).
Definition set_dc_fast_path_hits (v : Z) (d : discovery) : discovery :=
  mk_disc (dc_cache d) (dc_total_lookups d) (dc_cache_hits d) (dc_cache_misses d) v (dc_sequential d) (dc_random d) (dc_last_accessed d) (dc_window d).
Definition set_dc_sequential (v : Z) (d : discovery) : discovery :=
  mk_disc (dc_cache d) (dc_total_lookups d) (dc_cache_hits d) (dc_cache_misses d) (dc_fast_path_hits d) v (dc_random d) (dc_last_accessed d) (dc_window d).
Definition set_dc_random (v : Z) (d : discovery) : discovery :=
  mk_disc (dc_cache d) (dc_total_lookups d) (dc_cache_hits d) (dc_cache_misses d) (dc_fast_path_hits d) (dc_sequential d) v (dc_last_accessed d) (dc_window d).
Definition set_dc_last_accessed (v : Z) (d : discovery) : discovery :=
  mk_disc (dc_cache d) (dc_total_lookups d) (dc_cache_hits d) (dc_cache_misses d) (dc_fast_path_hits d) (dc_sequential d) (dc_random d) v (dc_window d).
Definition set_dc_window (v : Z) (d : discovery) : discovery :=
  mk_disc (dc_cache d) (dc_total_lookups d) (dc_cache_hits d) (dc_cache_misses d) (dc_fast_path_hits d) (dc_sequential d) (dc_random d) (dc_last_accessed d) v.

(** The performance counters [getIOSurfaceStats] reports. *)
Record counters := mk_counters {
  ct_surface_allocations : Z;
  ct_surface_deallocations : Z;
  ct_surfaces_created : Z;
  ct_surfaces_destroyed : Z;
  ct_surface_locks : Z;
  ct_surface_unlocks : Z;
  ct_lock_operations : Z;
  ct_unlock_operations : Z;
  ct_copy_operations : Z;
  ct_format_conversions : Z
}.
Definition set_ct_surface_allocations (v : Z) (c : counters) : counters :=
  mk_counters v (ct_surface_deallocations c) (ct_surfaces_created c) (ct_surfaces_destroyed c) (ct_surface_locks c) (ct_surface_unlocks c) (ct_lock_operations c) (ct_unlock_operations c) (ct_copy_operations c) (ct_format_conversions c).
Definition set_ct_surface_deallocations (v : Z) (c : counters) : counters :=
  mk_counters (ct_surface_allocations c) v (ct_surfaces_created c) (ct_surfaces_destroyed c) (ct_surface_locks c) (ct_surface_unlocks c) (ct_lock_operations c) (ct_unlock_operations c) (ct_copy_operations c) (ct_format_conversions c).
Definition set_ct_surfaces_created (v : Z) (c : counters) : counters :=
  mk_counters (ct_surface_allocations c) (ct_surface_deallocations c) v (ct_surfaces_destroyed c) (ct_surface_locks c) (ct_surface_unlocks c) (ct_lock_operations c) (ct_unlock_operations c) (ct_copy_operations c) (ct_format_conversions c).
Definition set_ct_surfaces_destroyed (v : Z) (c : counters) : counters :=
  mk_counters (ct_surface_allocations c) (ct_surface_deallocations c) (ct_surfaces_created c) v (ct_surface_locks c) (ct_surface_unlocks c) (ct_lock_operations c) (ct_unlock_operations c) (ct_copy_operations c) (ct_format_conversions c).
Definition set_ct_surface_locks (v : Z) (c : counters) : counters :=
  mk_counters (ct_surface_allocations c) (ct_surface_deallocations c) (ct_surfaces_created c) (ct_surfaces_destroyed c) v (ct_surface_unlocks c) (ct_lock_operations c) (ct_unlock_operations c) (ct_copy_operations c) (ct_format_conversions c).
Definition set_ct_surface_unlocks (v : Z) (c : counters) : counters :=
  mk_counters (ct_surface_allocations c) (ct_surface_deallocations c) (ct_surfaces_created c) (ct_surfaces_destroyed c) (ct_surface_locks c) v (ct_lock_operations c) (ct_unlock_operations c) (ct_copy_operations c) (ct_format_conversions c).
Definition set_ct_lock_operations (v : Z) (c : counters) : counters :=
  mk_counters (ct_surface_allocations c) (ct_surface_deallocations c) (ct_surfaces_created c) (ct_surfaces_destroyed c) (ct_surface_locks c) (ct_surface_unlocks c) v (ct_unlock_operations c) (ct_copy_operations c) (ct_format_conversions c).
Definition set_ct_unlock_operations (v : Z) (c : counters) : counters :=
  mk_counters (ct_surface_allocations c) (ct_surface_deallocations c) (ct_surfaces_created c) (ct_surfaces_destroyed c) (ct_surface_locks c) (ct_surface_unlocks c) (ct_lock_operations c) v (ct_copy_operations c) (ct_format_conversions c).
Definition set_ct_copy_operations (v : Z) (c : counters) : counters :=
  mk_counters (ct_surface_allocations c) (ct_surface_deallocations c) (ct_surfaces_created c) (ct_surfaces_destroyed c) (ct_surface_locks c) (ct_surface_unlocks c) (ct_lock_operations c) (ct_unlock_operations c) v (ct_format_conversions c).
Definition set_ct_format_conversions (v : Z) (c : counters) : counters :=
  mk_counters (ct_surface_allocations c) (ct_surface_deallocations c) (ct_surfaces_created c) (ct_surfaces_destroyed c) (ct_surface_locks c) (ct_surface_unlocks c) (ct_lock_operations c) (ct_unlock_operations c) (ct_copy_operations c) v.

(** The manager, once [initWithAccelerator] has made its collections and its
    lock. A collection made on first use is an option. *)
Record manager := mk_manager {
  sm_gpu_device : bool;
  sm_surface_lock : lock_state;
  sm_surfaces : list Z;
  sm_surface_map : gmap Z Z;
  sm_next_surface_id : Z;
  sm_released_surface_ids : list Z;
  sm_total_surface_memory : Z;
  sm_allocated_surface_memory : Z;
  sm_surface_count : Z;
  sm_peak_surface_count : Z;
  sm_counters : counters;
  sm_supports_hardware : bool;
  sm_supports_yuv : bool;
  sm_clients : option (list Z);
  sm_client_map : option (gmap Z Z);
  sm_next_client_id : Z;
  sm_released_client_ids : option (list Z);
  sm_shared_surfaces : option (list surface_sharing);
  sm_memory_pools : option (list memory_pool);
  sm_available_memory : Z
}.
Definition set_sm_gpu_device (v : bool) (m : manager) : manager :=
  mk_manager v (sm_surface_lock m) (sm_surfaces m) (sm_surface_map m) (sm_next_surface_id m) (sm_released_surface_ids m) (sm_total_surface_memory m) (sm_allocated_surface_memory m) (sm_surface_count m) (sm_peak_surface_count m) (sm_counters m) (sm_supports_hardware m) (sm_supports_yuv m) (sm_clients m) (sm_client_map m) (sm_next_client_id m) (sm_released_client_ids m) (sm_shared_surfaces m) (sm_memory_pools m) (sm_available_memory m).
Definition set_sm_surface_lock (v : lock_state) (m : manager) : manager :=
  mk_manager (sm_gpu_device m) v (sm_surfaces m) (sm_surface_map m) (sm_next_surface_id m) (sm_released_surface_ids m) (sm_total_surface_memory m) (sm_allocated_surface_memory m) (sm_surface_count m) (sm_peak_surface_count m) (sm_counters m) (sm_supports_hardware m) (sm_supports_yuv m) (sm_clients m) (sm_client_map m) (sm_next_client_id m) (sm_released_client_ids m) (sm_shared_surfaces m) (sm_memory_pools m) (sm_available_memory m).
Definition set_sm_surfaces (v : list Z) (m : manager) : manager :=
  mk_manager (sm_gpu_device m) (sm_surface_lock m) v (sm_surface_map m) (sm_next_surface_id m) (sm_released_surface_ids m) (sm_total_surface_memory m) (sm_allocated_surface_memory m) (sm_surface_count m) (sm_peak_surface_count m) (sm_counters m) (sm_supports_hardware m) (sm_supports_yuv m) (sm_clients m) (sm_client_map m) (sm_next_client_id m) (sm_released_client_ids m) (sm_shared_surfaces m) (sm_memory_pools m) (sm_available_memory m).
Definition set_sm_surface_map (v : gmap Z Z) (m : manager) : manager :=
  mk_manager (sm_gpu_device m) (sm_surface_lock m) (sm_surfaces m) v (sm_next_surface_id m) (sm_released_surface_ids m) (sm_total_surface_memory m) (sm_allocated_surface_memory m) (sm_surface_count m) (sm_peak_surface_count m) (sm_counters m) (sm_supports_hardware m) (sm_supports_yuv m) (sm_clients m) (sm_client_map m) (sm_next_client_id m) (sm_released_client_ids m) (sm_shared_surfaces m) (sm_memory_pools m) (sm_available_memory m).
Definition set_sm_next_surface_id (v : Z) (m : manager) : manager :=
  mk_manager (sm_gpu_device m) (sm_surface_lock m) (sm_surfaces m) (sm_surface_map m) v (sm_released_surface_ids m) (sm_total_surface_memory m) (sm_allocated_surface_memory m) (sm_surface_count m) (sm_peak_surface_count m) (sm_counters m) (sm_supports_hardware m) (sm_supports_yuv m) (sm_clients m) (sm_client_map m) (sm_next_client_id m) (sm_released_client_ids m) (sm_shared_surfaces m) (sm_memory_pools m) (sm_available_memory m).
Definition set_sm_released_surface_ids (v : list Z) (m : manager) : manager :=
  mk_manager (sm_gpu_device m) (sm_surface_lock m) (sm_surfaces m) (sm_surface_map m) (sm_next_surface_id m) v (sm_total_surface_memory m) (sm_allocated_surface_memory m) (sm_surface_count m) (sm_peak_surface_count m) (sm_counters m) (sm_supports_hardware m) (sm_supports_yuv m) (sm_clients m) (sm_client_map m) (sm_next_client_id m) (sm_released_client_ids m) (sm_shared_surfaces m) (sm_memory_pools m) (sm_available_memory m).
Definition set_sm_total_surface_memory (v : Z) (m : manager) : manager :=
  mk_manager (sm_gpu_device m) (sm_surface_lock m) (sm_surfaces m) (sm_surface_map m) (sm_next_surface_id m) (sm_released_surface_ids m) v (sm_allocated_surface_memory m) (sm_surface_count m) (sm_peak_surface_count m) (sm_counters m) (sm_supports_hardware m) (sm_supports_yuv m) (sm_clients m) (sm_client_map m) (sm_next_client_id m) (sm_released_client_ids m) (sm_shared_surfaces m) (sm_memory_pools m) (sm_available_memory m).
Definition set_sm_allocated_surface_memory (v : Z) (m : manager) : manager :=
  mk_manager (sm_gpu_device m) (sm_surface_lock m) (sm_surfaces m) (sm_surface_map m) (sm_next_surface_id m) (sm_released_surface_ids m) (sm_total_surface_memory m) v (sm_surface_count m) (sm_peak_surface_count m) (sm_counters m) (sm_supports_hardware m) (sm_supports_yuv m) (sm_clients m) (sm_client_map m) (sm_next_client_id m) (sm_released_client_ids m) (sm_shared_surfaces m) (sm_memory_pools m) (sm_available_memory m).
Definition set_sm_surface_count (v : Z) (m : manager) : manager :=
  mk_manager (sm_gpu_device m) (sm_surface_lock m) (sm_surfaces m) (sm_surface_map m) (sm_next_surface_id m) (sm_released_surface_ids m) (sm_total_surface_memory m) (sm_allocated_surface_memory m) v (sm_peak_surface_count m) (sm_counters m) (sm_supports_hardware m) (sm_supports_yuv m) (sm_clients m) (sm_client_map m) (sm_next_client_id m) (sm_released_client_ids m) (sm_shared_surfaces m) (sm_memory_pools m) (sm_available_memory m).
Definition set_sm_peak_surface_count (v : Z) (m : manager) : manager :=
  mk_manager (sm_gpu_device m) (sm_surface_lock m) (sm_surfaces m) (sm_surface_map m) (sm_next_surface_id m) (sm_released_surface_ids m) (sm_total_surface_memory m) (sm_allocated_surface_memory m) (sm_surface_count m) v (sm_counters m) (sm_supports_hardware m) (sm_supports_yuv m) (sm_clients m) (sm_client_map m) (sm_next_client_id m) (sm_released_client_ids m) (sm_shared_surfaces m) (sm_memory_pools m) (sm_available_memory m).
Definition set_sm_counters (v : counters) (m : manager) : manager :=
  mk_manager (sm_gpu_device m) (sm_surface_lock m) (sm_surfaces m) (sm_surface_map m) (sm_next_surface_id m) (sm_released_surface_ids m) (sm_total_surface_memory m) (sm_allocated_surface_memory m) (sm_surface_count m) (sm_peak_surface_count m) v (sm_supports_hardware m) (sm_supports_yuv m) (sm_clients m) (sm_client_map m) (sm_next_client_id m) (sm_released_client_ids m) (sm_shared_surfaces m) (sm_memory_pools m) (sm_available_memory m).
Definition set_sm_supports_hardware (v : bool) (m : manager) : manager :=
  mk_manager (sm_gpu_device m) (sm_surface_lock m) (sm_surfaces m) (sm_surface_map m) (sm_next_surface_id m) (sm_released_surface_ids m) (sm_total_surface_memory m) (sm_allocated_surface_memory m) (sm_surface_count m) (sm_peak_surface_count m) (sm_counters m) v (sm_supports_yuv m) (sm_clients m) (sm_client_map m) (sm_next_client_id m) (sm_released_client_ids m) (sm_shared_surfaces m) (sm_memory_pools m) (sm_available_memory m).
Definition set_sm_supports_yuv (v : bool) (m : manager) : manager :=
  mk_manager (sm_gpu_device m) (sm_surface_lock m) (sm_surfaces m) (sm_surface_map m) (sm_next_surface_id m) (sm_released_surface_ids m) (sm_total_surface_memory m) (sm_allocated_surface_memory m) (sm_surface_count m) (sm_peak_surface_count m) (sm_counters m) (sm_supports_hardware m) v (sm_clients m) (sm_client_map m) (sm_next_client_id m) (sm_released_client_ids m) (sm_shared_surfaces m) (sm_memory_pools m) (sm_available_memory m).
Definition set_sm_clients (v : option (list Z)) (m : manager) : manager :=
  mk_manager (sm_gpu_device m) (sm_surface_lock m) (sm_surfaces m) (sm_surface_map m) (sm_next_surface_id m) (sm_released_surface_ids m) (sm_total_surface_memory m) (sm_allocated_surface_memory m) (sm_surface_count m) (sm_peak_surface_count m) (sm_counters m) (sm_supports_hardware m) (sm_supports_yuv m) v (sm_client_map m) (sm_next_client_id m) (sm_released_client_ids m) (sm_shared_surfaces m) (sm_memory_pools m) (sm_available_memory m).
Definition set_sm_client_map (v : option (gmap Z Z)) (m : manager) : manager :=
  mk_manager (sm_gpu_device m) (sm_surface_lock m) (sm_surfaces m) (sm_surface_map m) (sm_next_surface_id m) (sm_released_surface_ids m) (sm_total_surface_memory m) (sm_allocated_surface_memory m) (sm_surface_count m) (sm_peak_surface_count m) (sm_counters m) (sm_supports_hardware m) (sm_supports_yuv m) (sm_clients m) v (sm_next_client_id m) (sm_released_client_ids m) (sm_shared_surfaces m) (sm_memory_pools m) (sm_available_memory m).
Definition set_sm_next_client_id (v : Z) (m : manager) : manager :=
  mk_manager (sm_gpu_device m) (sm_surface_lock m) (sm_surfaces m) (sm_surface_map m) (sm_next_surface_id m) (sm_released_surface_ids m) (sm_total_surface_memory m) (sm_allocated_surface_memory m) (sm_surface_count m) (sm_peak_surface_count m) (sm_counters m) (sm_supports_hardware m) (sm_supports_yuv m) (sm_clients m) (sm_client_map m) v (sm_released_client_ids m) (sm_shared_surfaces m) (sm_memory_pools m) (sm_available_memory m).
Definition set_sm_released_client_ids (v : option (list Z)) (m : manager) : manager :=
  mk_manager (sm_gpu_device m) (sm_surface_lock m) (sm_surfaces m) (sm_surface_map m) (sm_next_surface_id m) (sm_released_surface_ids m) (sm_total_surface_memory m) (sm_allocated_surface_memory m) (sm_surface_count m) (sm_peak_surface_count m) (sm_counters m) (sm_supports_hardware m) (sm_supports_yuv m) (sm_clients m) (sm_client_map m) (sm_next_client_id m) v (sm_shared_surfaces m) (sm_memory_pools m) (sm_available_memory m).
Definition set_sm_shared_surfaces (v : option (list surface_sharing)) (m : manager) : manager :=
  mk_manager (sm_gpu_device m) (sm_surface_lock m) (sm_surfaces m) (sm_surface_map m) (sm_next_surface_id m) (sm_released_surface_ids m) (sm_total_surface_memory m) (sm_allocated_surface_memory m) (sm_surface_count m) (sm_peak_surface_count m) (sm_counters m) (sm_supports_hardware m) (sm_supports_yuv m) (sm_clients m) (sm_client_map m) (sm_next_client_id m) (sm_released_client_ids m) v (sm_memory_pools m) (sm_available_memory m).
Definition set_sm_memory_pools (v : option (list memory_pool)) (m : manager) : manager :=
  mk_manager (sm_gpu_device m) (sm_surface_lock m) (sm_surfaces m) (sm_surface_map m) (sm_next_surface_id m) (sm_released_surface_ids m) (sm_total_surface_memory m) (sm_allocated_surface_memory m) (sm_surface_count m) (sm_peak_surface_count m) (sm_counters m) (sm_supports_hardware m) (sm_supports_yuv m) (sm_clients m) (sm_client_map m) (sm_next_client_id m) (sm_released_client_ids m) (sm_shared_surfaces m) v (sm_available_memory m).
Definition set_sm_available_memory (v : Z) (m : manager) : manager :=
  mk_manager (sm_gpu_device m) (sm_surface_lock m) (sm_surfaces m) (sm_surface_map m) (sm_next_surface_id m) (sm_released_surface_ids m) (sm_total_surface_memory m) (sm_allocated_surface_memory m) (sm_surface_count m) (sm_peak_surface_count m) (sm_counters m) (sm_supports_hardware m) (sm_supports_yuv m) (sm_clients m) (sm_client_map m) (sm_next_client_id m) (sm_released_client_ids m) (sm_shared_surfaces m) (sm_memory_pools m) v.

(** The kernel's memory and clock. *)
Record iokern := mk_iokern {
  kn_objects : gmap Z (Z * os_data);
  kn_buffers : gmap Z buffer;
  kn_next_pointer : Z;
  kn_answers : list bool;
  kn_clock : Z;
  kn_ticks : list Z;
  kn_junk : Z -> Z -> Z;
  kn_heap : Z;
  kn_fault : bool
}.
Definition set_kn_objects (v : gmap Z (Z * os_data)) (k : iokern) : iokern :=
  mk_iokern v (kn_buffers k) (kn_next_pointer k) (kn_answers k) (kn_clock k) (kn_ticks k) (kn_junk k) (kn_heap k) (kn_fault k).
Definition set_kn_buffers (v : gmap Z buffer) (k : iokern) : iokern :=
  mk_iokern (kn_objects k) v (kn_next_pointer k) (kn_answers k) (kn_clock k) (kn_ticks k) (kn_junk k) (kn_heap k) (kn_fault k).
Definition set_kn_next_pointer (v : Z) (k : iokern) : iokern :=
  mk_iokern (kn_objects k) (kn_buffers k) v (kn_answers k) (kn_clock k) (kn_ticks k) (kn_junk k) (kn_heap k) (kn_fault k).
Definition set_kn_answers (v : list bool) (k : iokern) : iokern :=
  mk_iokern (kn_objects k) (kn_buffers k) (kn_next_pointer k) v (kn_clock k) (kn_ticks k) (kn_junk k) (kn_heap k) (kn_fault k).
Definition set_kn_clock (v : Z) (k : iokern) : iokern :=
  mk_iokern (kn_objects k) (kn_buffers k) (kn_next_pointer k) (kn_answers k) v (kn_ticks k) (kn_junk k) (kn_heap k) (kn_fault k).
Definition set_kn_ticks (v : list Z) (k : iokern) : iokern :=
  mk_iokern (kn_objects k) (kn_buffers k) (kn_next_pointer k) (kn_answers k) (kn_clock k) v (kn_junk k) (kn_heap k) (kn_fault k).
Definition set_kn_heap (v : Z) (k : iokern) : iokern :=
  mk_iokern (kn_objects k) (kn_buffers k) (kn_next_pointer k) (kn_answers k) (kn_clock k) (kn_ticks k) (kn_junk k) v (kn_fault k).
Definition set_kn_fault (v : bool) (k : iokern) : iokern :=
  mk_iokern (kn_objects k) (kn_buffers k) (kn_next_pointer k) (kn_answers k) (kn_clock k) (kn_ticks k) (kn_junk k) (kn_heap k) v.

Record iow := mk_iow { io_mgr : manager; io_disc : discovery; io_kern : iokern }.

Definition get_mgr {A} (f : manager -> A) : M iow A := gets (fun w => f (io_mgr w)).
Definition upd_mgr (f : manager -> manager) : M iow unit :=
  modify (fun w => mk_iow (f (io_mgr w)) (io_disc w) (io_kern w)).
Definition get_disc {A} (f : discovery -> A) : M iow A := gets (fun w => f (io_disc w)).
Definition upd_disc (f : discovery -> discovery) : M iow unit :=
  modify (fun w => mk_iow (io_mgr w) (f (io_disc w)) (io_kern w)).
Definition get_kern {A} (f : iokern -> A) : M iow A := gets (fun w => f (io_kern w)).
Definition upd_kern (f : iokern -> iokern) : M iow unit :=
  modify (fun w => mk_iow (io_mgr w) (io_disc w) (f (io_kern w))).
Definition bump (set : Z -> counters -> counters) (get : counters -> Z) : M iow unit :=
  upd_mgr (fun m => set_sm_counters (set (u64 (get (sm_counters m) + 1)) (sm_counters m)) m).

(** * The kernel *)
Definition fault : M iow unit := upd_kern (set_kn_fault true).
Definition ask : M iow bool :=
  fun w => let k := io_kern w in
    (hd true (kn_answers k), mk_iow (io_mgr w) (io_disc w) (set_kn_answers (tail (kn_answers k)) k)).
(** The clock, moved forward. *)
Definition now : M iow Z :=
  fun w => let k := io_kern w in
    let t := kn_clock k + Z.max 0 (hd 0 (kn_ticks k)) in
    (u64 t, mk_iow (io_mgr w) (io_disc w) (set_kn_clock t (set_kn_ticks (tail (kn_ticks k)) k))).
Definition IOMalloc (n : Z) : M iow bool :=
  let! ok := ask in
  if ok then upd_kern (fun k => set_kn_heap (kn_heap k + n) k) ;;; ret true else ret false.
Definition IOFree (n : Z) : M iow unit := upd_kern (fun k => set_kn_heap (kn_heap k - n) k).

Definition lock : M iow unit :=
  upd_mgr (fun m => set_sm_surface_lock (lock_acquire (sm_surface_lock m)) m).
Definition unlock : M iow unit :=
  upd_mgr (fun m => set_sm_surface_lock (lock_release (sm_surface_lock m)) m).

(** ** Objects: [OSData::withBytes], [retain], [release], [getRetainCount] *)
Definition fresh_pointer : M iow Z :=
  let! p := get_kern kn_next_pointer in
  upd_kern (set_kn_next_pointer (p + 1)) ;;; ret p.
Definition withBytes (x : os_data) : M iow (option Z) :=
  let! ok := ask in
  if ok then
    let! p := fresh_pointer in
    upd_kern (fun k => set_kn_objects (<[p := (1, x)]> (kn_objects k)) k) ;;;
    ret (Some p)
  else ret None.
Definition object_at (p : Z) : M iow (option (Z * os_data)) :=
  let! o := get_kern (fun k => kn_objects k !! p) in
  match o with
  | Some x => ret (Some x)
  | None => fault ;;; ret None
  end.
Definition put_object (p rc : Z) (x : os_data) : M iow unit :=
  upd_kern (fun k => set_kn_objects (<[p := (rc, x)]> (kn_objects k)) k).
Definition retain (p : Z) : M iow unit :=
  let! o := object_at p in
  match o with
  | Some (rc, x) => put_object p (rc + 1) x
  | None => ret tt
  end.
Definition release (p : Z) : M iow unit :=
  let! o := object_at p in
  match o with
  | Some (rc, x) =>
      if rc =? 1 then upd_kern (fun k => set_kn_objects (delete p (kn_objects k)) k)
      else put_object p (rc - 1) x
  | None => ret tt
  end.
(** [OSDynamicCast] to [OSData] and [getBytesNoCopy]: the struct behind a
    pointer, which the methods then read and write in place. *)
Definition surface_at (p : Z) : M iow (option io_surface) :=
  let! o := object_at p in
  match o with
  | Some (_, SurfaceData s) => ret (Some s)
  | Some (_, ClientData _) => fault ;;; ret None
  | None => ret None
  end.
Definition put_surface (p : Z) (s : io_surface) : M iow unit :=
  upd_kern (fun k => set_kn_objects (alter (fun o => (o.1, SurfaceData s)) p (kn_objects k)) k).

(** ** Collections: an array or a dictionary of the manager, by its getter and
    setter *)
Section collections.
Context (get_l : manager -> list Z) (set_l : list Z -> manager -> manager).
Context (get_d : manager -> gmap Z Z) (set_d : gmap Z Z -> manager -> manager).
(** [setObject] and [removeObject] of an [OSArray], the latter after
    [getNextIndexOfObject]. *)
Definition array_add (p : Z) : M iow unit :=
  upd_mgr (fun m => set_l (get_l m ++ [p]) m) ;;; retain p.
Definition array_remove (p : Z) : M iow unit :=
  let! l := get_mgr get_l in
  match index_of (Z.eqb p) l with
  | Some i => upd_mgr (set_l (delete i l)) ;;; release p
  | None => ret tt
  end.
(** [setObject] and [removeObject] of an [OSDictionary]. *)
Definition dict_set (key p : Z) : M iow unit :=
  let! d := get_mgr get_d in
  retain p ;;;
  match d !! key with Some q => release q | None => ret tt end ;;;
  upd_mgr (set_d (<[key := p]> d)).
Definition dict_remove (key : Z) : M iow unit :=
  let! d := get_mgr get_d in
  match d !! key with
  | Some q => upd_mgr (set_d (delete key d)) ;;; release q
  | None => ret tt
  end.
End collections.
Definition surfaces_add := array_add sm_surfaces set_sm_surfaces.
Definition surfaces_remove := array_remove sm_surfaces set_sm_surfaces.
Definition map_set := dict_set sm_surface_map set_sm_surface_map.
Definition map_remove := dict_remove sm_surface_map set_sm_surface_map.

(** ** Buffers: [withCapacity], [prepare], [complete], [release] *)
Definition withCapacity (size : Z) : M iow (option Z) :=
  let! ok := ask in
  if ok then
    let! p := fresh_pointer in
    upd_kern (fun k => set_kn_buffers (<[p := mk_buffer size (kn_junk k p) 0]> (kn_buffers k)) k) ;;;
    ret (Some p)
  else ret None.
Definition buffer_at (b : Z) : M iow (option buffer) :=
  let! o := get_kern (fun k => kn_buffers k !! b) in
  match o with
  | Some x => ret (Some x)
  | None => fault ;;; ret None
  end.
Definition set_prepared (f : Z -> Z) (b : buffer) : buffer :=
  mk_buffer (bf_length b) (bf_bytes b) (f (bf_prepared b)).
Definition set_bytes (f : Z -> Z) (b : buffer) : buffer := mk_buffer (bf_length b) f (bf_prepared b).
Definition upd_buffer (b : Z) (f : buffer -> buffer) : M iow unit :=
  let! o := buffer_at b in
  match o with
  | Some x => upd_kern (fun k => set_kn_buffers (<[b := f x]> (kn_buffers k)) k)
  | None => ret tt
  end.
Definition prepare (b : Z) : M iow bool :=
  let! ok := ask in
  if ok then upd_buffer b (set_prepared Z.succ) ;;; ret true else ret false.
Definition complete (b : Z) : M iow unit := upd_buffer b (set_prepared Z.pred).
Definition release_buffer (b : Z) : M iow unit :=
  let! o := buffer_at b in
  match o with
  | Some _ => upd_kern (fun k => set_kn_buffers (delete b (kn_buffers k)) k)
  | None => ret tt
  end.
(** [getBytesNoCopy] of a buffer: its bytes, or null. *)
Definition bytes_of (b : Z) : M iow (option Z) :=
  let! ok := ask in ret (if ok then Some b else None).

(** ** Access to a buffer's bytes *)
Definition access (b off n : Z) : M iow unit :=
  let! o := buffer_at b in
  match o with
  | Some x => if (0 <=? off) && (off + n <=? bf_length x) then ret tt else fault
  | None => ret tt
  end.
Definition within (off n a : Z) : bool := (off <=? a) && (a <? off + n).
(** A store of [n] little-endian bytes, and a 32-bit load. *)
Definition poke (n off v : Z) (f : Z -> Z) : Z -> Z :=
  fun a => if within off n a then Z.land (Z.shiftr v (8 * (a - off))) 255 else f a.
Definition peek32 (f : Z -> Z) (off : Z) : Z :=
  f off + Z.shiftl (f (off + 1)) 8 + Z.shiftl (f (off + 2)) 16 + Z.shiftl (f (off + 3)) 24.
Definition move (doff n soff : Z) (src dst : Z -> Z) : Z -> Z :=
  fun a => if within doff n a then src (soff + (a - doff)) else dst a.
Definition bytes_at (b : Z) : M iow (Z -> Z) :=
  let! o := buffer_at b in ret (match o with Some x => bf_bytes x | None => fun _ => 0 end).
Definition store (n b off v : Z) : M iow unit :=
  access b off n ;;; upd_buffer b (fun x => set_bytes (poke n off v (bf_bytes x)) x).
Definition load32 (b off : Z) : M iow Z :=
  access b off 4 ;;; let! f := bytes_at b in ret (peek32 f off).
Definition load8 (b off : Z) : M iow Z :=
  access b off 1 ;;; let! f := bytes_at b in ret (f off).
Definition memcpy (dst doff src soff n : Z) : M iow unit :=
  access src soff n ;;;
  access dst doff n ;;;
  (if (dst =? src) && (Z.abs (doff - soff) <? n) then fault else ret tt) ;;;
  let! f := bytes_at src in
  upd_buffer dst (fun x => set_bytes (move doff n soff f (bf_bytes x)) x).
(** [for (i = start; n times; i++) body] *)
Fixpoint for_loop (n : nat) (i : Z) (body : Z -> M iow unit) : M iow unit :=
  match n with
  | O => ret tt
  | S n' => body i ;;; for_loop n' (i + 1) body
  end.

(** * The discovery cache *)
(** ** Ordering entries by a key, for this cache and the one of [IOSurfaceProps.v] *)
Section by_key.
Context {A : Type} (key : A -> Z).
(** The first entry with the smallest key: the oldest access. *)
Fixpoint lru_from (i best : nat) (oldest : Z) (l : list A) : nat :=
  match l with
  | [] => best
  | e :: l' => if key e <? oldest then lru_from (i + 1) i (key e) l' else lru_from (i + 1) best oldest l'
  end.
Definition lru_index (l : list A) : nat :=
  match l with [] => 0%nat | e :: l' => lru_from 1 0 (key e) l' end.
(** The bubble sort: [k] comparisons of neighbours, from the front, in passes
    of [n-1], [n-2], ... comparisons. *)
Fixpoint bubble (k : nat) (l : list A) : list A :=
  match k, l with
  | S k', a :: b :: l' => if key a <? key b then b :: bubble k' (a :: l') else a :: bubble k' (b :: l')
  | _, _ => l
  end.
Fixpoint bubble_sort (passes : nat) (l : list A) : list A :=
  match passes with
  | O => l
  | S k => bubble_sort k (bubble passes l)
  end.
End by_key.

Definition is_some {A} (o : option A) : bool := match o with Some _ => true | None => false end.
Definition cache_hit (id : Z) (e : cache_entry) : bool :=
  (ce_surface_id e =? id) && is_some (ce_surface_object e).
Definition looked_up (d : discovery) : discovery := set_dc_total_lookups (u32 (dc_total_lookups d + 1)) d.
Definition missed (d : discovery) : discovery := set_dc_cache_misses (u32 (dc_cache_misses d + 1)) d.
Definition cache_add (e : cache_entry) (d : discovery) : discovery := set_dc_cache (dc_cache d ++ [e]) d.
Definition cache_full (d : discovery) : bool := negb (length (dc_cache d) <? CACHE_SIZE)%nat.
Definition note_pattern (id : Z) (d : discovery) : discovery :=
  if dc_last_accessed d =? u32 (id - 1)
  then set_dc_sequential (u32 (dc_sequential d + 1)) d
  else set_dc_random (u32 (dc_random d + 1)) d.
(** A hit on entry [i] at time [t]. *)
Definition hit (i : nat) (t id : Z) (d : discovery) : discovery :=
  let d := set_dc_cache (alter (fun e => set_ce_last_access_time t (set_ce_access_count (u32 (ce_access_count e + 1)) e)) i (dc_cache d)) d in
  let d := set_dc_cache_hits (u32 (dc_cache_hits d + 1)) d in
  let d := set_dc_fast_path_hits (u32 (dc_fast_path_hits d + 1)) d in
  set_dc_last_accessed id (note_pattern id d).
Definition cache_enter (e : cache_entry) (d : discovery) : discovery :=
  if cache_full d then set_dc_cache (<[lru_index ce_last_access_time (dc_cache d) := e]> (dc_cache d)) d else cache_add e d.
Definition adapt_window (d : discovery) : discovery :=
  if (0 <? dc_total_lookups d) && (dc_total_lookups d mod 500 =? 0) then
    if u32 (dc_cache_misses d * 3) <? dc_cache_hits d then
      if dc_window d <? 16 then set_dc_window (dc_window d + 1) d else d
    else if u32 (dc_cache_hits d * 2) <? dc_cache_misses d then
      if 4 <? dc_window d then set_dc_window (dc_window d - 1) d else d
    else d
  else d.

(** The object under a key of [m_surface_map]. *)
Definition map_object (id : Z) : M iow (option Z) := get_mgr (fun m => sm_surface_map m !! id).
Definition prefetch (id t : Z) : M iow unit :=
  let! d := get_disc (fun d => d) in
  if u32 (dc_random d * 2) <? dc_sequential d then
    let predicted_id := u32 (id + 1) in
    if predicted_id <? u32 (id + dc_window d) then
      let! obj := map_object predicted_id in
      if is_some obj && negb (cache_full d)
      then upd_disc (cache_add (mk_entry predicted_id obj t 0 0 true false))
      else ret tt
    else ret tt
  else ret tt.
(** The report of every hundredth lookup divides. *)
Definition report : M iow unit :=
  let! d := get_disc (fun d => d) in
  if dc_total_lookups d mod 100 =? 0 then
    if (dc_total_lookups d =? 0) || (u32 (dc_sequential d + dc_random d) =? 0) then fault else ret tt
  else ret tt.
Definition findSurface (surface_id : Z) : M iow (option Z) :=
  let! discovery_start_time := now in
  if (surface_id =? 0) || (0x7FFFFFFF <? surface_id) then
    upd_disc (fun d => missed (looked_up d)) ;;; ret None
  else
    upd_disc looked_up ;;;
    let! cache := get_disc dc_cache in
    match index_of (cache_hit surface_id) cache with
    | Some i =>
        upd_disc (hit i discovery_start_time surface_id) ;;;
        ret (match cache !! i with Some e => ce_surface_object e | None => None end)
    | None =>
        prefetch surface_id discovery_start_time ;;;
        let! surface_obj := map_object surface_id in
        match surface_obj with
        | None =>
            let! discovery_end_time := now in
            upd_disc (fun d => set_dc_last_accessed surface_id (missed d)) ;;;
            ret None
        | Some p =>
            let! o := object_at p in
            if match o with Some (rc, _) => rc =? 0 | None => false end then
              upd_disc missed ;;; ret None
            else
              upd_disc (cache_enter (mk_entry surface_id (Some p) discovery_start_time 1 1 false false)) ;;;
              let! discovery_end_time := now in
              upd_disc (note_pattern surface_id) ;;;
              report ;;;
              upd_disc adapt_window ;;;
              upd_disc (set_dc_last_accessed surface_id) ;;;
              ret (Some p)
        end
    end.

(** ** Managing the cache *)
Definition getDiscoveryStatistics (stats : bool) : M iow (IOReturn * option discovery) :=
  if negb stats then ret (kIOReturnBadArgument, None)
  else let! d := get_disc (fun d => d) in ret (kIOReturnSuccess, Some d).
Definition resetDiscoveryStatistics : M iow IOReturn :=
  upd_disc (fun d => mk_disc (dc_cache d) 0 0 0 0 0 0 (dc_last_accessed d) (dc_window d)) ;;;
  ret kIOReturnSuccess.
Definition flushDiscoveryCache : M iow IOReturn :=
  upd_disc (fun d => set_dc_last_accessed 0 (set_dc_cache [] d)) ;;; ret kIOReturnSuccess.
Fixpoint prewarm (ids : list Z) : M iow unit :=
  match ids with
  | [] => ret tt
  | id :: ids' =>
      let! full := get_disc cache_full in
      if full then ret tt
      else
        (if id =? 0 then ret tt
         else
           let! obj := map_object id in
           if is_some obj then upd_disc (cache_add (mk_entry id obj 0 0 0 true true)) else ret tt) ;;;
        prewarm ids'
  end.
Definition prewarmDiscoveryCache (surface_ids : option (list Z)) : M iow IOReturn :=
  match surface_ids with
  | None | Some [] => ret kIOReturnBadArgument
  | Some ids => prewarm ids ;;; ret kIOReturnSuccess
  end.
Definition optimizeDiscoveryCache : M iow IOReturn :=
  let! cache := get_disc dc_cache in
  if (length cache =? 0)%nat then ret kIOReturnSuccess
  else
    let sorted := bubble_sort ce_access_count (length cache - 1) cache in
    let high := (length cache / 4)%nat in
    upd_disc (set_dc_cache ((set_ce_is_high_priority true <$> take high sorted) ++ drop high sorted)) ;;;
    ret kIOReturnSuccess.

(** * Sizes and formats *)
Definition getBytesPerPixel (format : Z) : Z :=
  if bool_decide (format ∈ [FORMAT_ARGB32; FORMAT_BGRA32; FORMAT_RGBA32; FORMAT_ABGR32]) then 4
  else if format =? FORMAT_RGB24 then 3
  else if format =? FORMAT_RGB565 then 2
  else if bool_decide (format ∈ [FORMAT_YUV420; FORMAT_NV12]) then 1
  else if format =? FORMAT_P010 then 2
  else 0.
Definition getPlaneCount (format : Z) : Z :=
  if bool_decide (format ∈ [FORMAT_NV12; FORMAT_P010]) then 2
  else if format =? FORMAT_YUV420 then 3
  else 1.
Definition validatePixelFormat (supports_yuv : bool) (format : Z) : IOReturn :=
  if bool_decide (format ∈ [FORMAT_ARGB32; FORMAT_BGRA32; FORMAT_RGBA32; FORMAT_ABGR32; FORMAT_RGB24; FORMAT_RGB565])
  then kIOReturnSuccess
  else if bool_decide (format ∈ [FORMAT_YUV420; FORMAT_NV12; FORMAT_P010])
  then if supports_yuv then kIOReturnSuccess else kIOReturnUnsupported
  else kIOReturnUnsupported.
Definition page_align (total_size : Z) : Z := Z.land (u32 (total_size + 4095)) 0xFFFFF000.
Definition calculateSurfaceSize (d : surface_desc) : Z :=
  let bytes_per_pixel := getBytesPerPixel (sd_pixel_format d) in
  if bytes_per_pixel =? 0 then 0
  else
    let plane_count := getPlaneCount (sd_pixel_format d) in
    let total_size :=
      if plane_count =? 1 then
        let bytes_per_row := if 0 <? sd_bytes_per_row d then sd_bytes_per_row d
                             else u32 (sd_width d * bytes_per_pixel) in
        u32 (bytes_per_row * sd_height d)
      else foldl (fun total pl => u32 (total + pi_size pl)) 0 (take (Z.to_nat plane_count) (sd_planes d)) in
    page_align total_size.
(** The planes it writes come first; the others stay the caller's. *)
Definition setupPlaneInfo (format width height : Z) (planes : list plane_info)
  : IOReturn * Z * list plane_info :=
  let plane_count := getPlaneCount format in
  if bool_decide (format ∈ [FORMAT_ARGB32; FORMAT_BGRA32; FORMAT_RGBA32; FORMAT_ABGR32]) then
    (kIOReturnSuccess, plane_count,
     mk_plane width height 4 (u32 (width * 4)) 1 1 0 (u32 (u32 (width * 4) * height)) :: tail planes)
  else if format =? FORMAT_NV12 then
    (kIOReturnSuccess, plane_count,
     mk_plane width height 1 width 1 1 0 (u32 (width * height))
     :: mk_plane (width / 2) (height / 2) 2 width 2 2 (u32 (width * height)) (u32 (width * height) / 2)
     :: drop 2 planes)
  else (kIOReturnUnsupported, plane_count, planes).

(** * Creation and destruction *)
Definition MAX_RECYCLED_IDS : nat := 64.
Definition allocateSurfaceId : M iow Z :=
  let! released := get_mgr sm_released_surface_ids in
  match last released with
  | Some reused_id =>
      upd_mgr (set_sm_released_surface_ids (take (length released - 1) released)) ;;; ret reused_id
  | None =>
      let! id := get_mgr sm_next_surface_id in
      upd_mgr (set_sm_next_surface_id (u32 (id + 1))) ;;; ret id
  end.
Definition releaseSurfaceId (surface_id : Z) : M iow unit :=
  if surface_id =? 0 then ret tt
  else
    let! released := get_mgr sm_released_surface_ids in
    if (length released <? MAX_RECYCLED_IDS)%nat then
      let! id_number := ask in
      if id_number then upd_mgr (set_sm_released_surface_ids (released ++ [surface_id])) else ret tt
    else ret tt.
Definition allocateSurfaceMemory (d : surface_desc) : M iow (IOReturn * option Z) :=
  let size := calculateSurfaceSize d in
  if size =? 0 then ret (kIOReturnBadArgument, None)
  else
    let! buffer := withCapacity size in
    match buffer with
    | None => ret (kIOReturnNoMemory, None)
    | Some b => ret (kIOReturnSuccess, Some b)
    end.
(** [createSurface] from the [IOMalloc] of the struct on: the object with its
    buffer, or a status after everything is given back. *)
Definition new_surface (d : surface_desc) (surface_id surface_size : Z) : M iow (IOReturn + Z) :=
  let undo r := IOFree SIZEOF_IOSURFACE ;;; releaseSurfaceId surface_id ;;; ret (inl r) in
  let! surface := IOMalloc SIZEOF_IOSURFACE in
  if negb surface then releaseSurfaceId surface_id ;;; ret (inl kIOReturnNoMemory)
  else
    let! t := now in
    let '(plane_result, plane_count, planes) :=
      setupPlaneInfo (sd_pixel_format d) (sd_width d) (sd_height d) (sd_planes d) in
    if negb (is_success plane_result) then undo plane_result
    else
      let! mem := allocateSurfaceMemory d in
      match mem with
      | (r, None) => undo r
      | (_, Some b) =>
          let! prepared := prepare b in
          if negb prepared then release_buffer b ;;; undo kIOReturnVMError
          else
            let! base := bytes_of b in
            match base with
            | None => complete b ;;; release_buffer b ;;; undo kIOReturnVMError
            | Some _ =>
                let! data := withBytes (SurfaceData
                  (mk_io_surface surface_id (set_planes plane_count planes d) (Some b) base 0 1 false false
                     t t (sd_width d) (sd_height d) surface_size 0 PRIORITY_NORMAL)) in
                match data with
                | None => complete b ;;; release_buffer b ;;; undo kIOReturnNoMemory
                | Some p => ret (inr p)
                end
            end
      end.
(** The statistics of a creation. *)
Definition count_surface (size : Z) : M iow unit :=
  upd_mgr (fun m => set_sm_surface_count (u32 (sm_surface_count m + 1)) m) ;;;
  bump set_ct_surface_allocations ct_surface_allocations ;;;
  upd_mgr (fun m => set_sm_allocated_surface_memory (u64 (sm_allocated_surface_memory m + size)) m) ;;;
  bump set_ct_surfaces_created ct_surfaces_created ;;;
  upd_mgr (fun m => if sm_peak_surface_count m <? sm_surface_count m
                    then set_sm_peak_surface_count (sm_surface_count m) m else m).
(** The status, and the id if it has been written. *)
Definition createSurface (descriptor : option surface_desc) (surface_id : bool)
  : M iow (IOReturn * option Z) :=
  match descriptor with
  | None => ret (kIOReturnBadArgument, None)
  | Some d =>
      if negb surface_id then ret (kIOReturnBadArgument, None)
      else
        let! yuv := get_mgr sm_supports_yuv in
        let result := validatePixelFormat yuv (sd_pixel_format d) in
        if negb (is_success result) then ret (result, None)
        else if (sd_width d =? 0) || (sd_height d =? 0) || (16384 <? sd_width d) || (16384 <? sd_height d)
        then ret (kIOReturnBadArgument, None)
        else
          lock ;;;
          let surface_size := calculateSurfaceSize d in
          if surface_size =? 0 then unlock ;;; ret (kIOReturnBadArgument, None)
          else
            let! m := get_mgr (fun m => m) in
            if sm_total_surface_memory m <? u64 (sm_allocated_surface_memory m + surface_size)
            then unlock ;;; ret (kIOReturnNoMemory, None)
            else
              let! id := allocateSurfaceId in
              let! surface_data := new_surface d id surface_size in
              match surface_data with
              | inl r => unlock ;;; ret (r, Some id)
              | inr p =>
                  surfaces_add p ;;;
                  map_set id p ;;;
                  release p ;;;
                  count_surface surface_size ;;;
                  unlock ;;;
                  ret (kIOReturnSuccess, Some id)
              end
  end.

(** The common opening of the methods on a surface, with the lock held:
    [findSurface], the cast, the struct. The method goes on with the pointer
    and the struct; [answer] is what it returns of a status otherwise. *)
Definition with_surface {A} (answer : IOReturn -> A) (surface_id : Z)
    (k : Z -> io_surface -> M iow A) : M iow A :=
  let! obj := findSurface surface_id in
  match obj with
  | None => unlock ;;; ret (answer kIOReturnNotFound)
  | Some p =>
      let! s := surface_at p in
      match s with
      | None => unlock ;;; ret (answer kIOReturnInternalError)
      | Some s => k p s
      end
  end.
Definition status (r : IOReturn) : IOReturn := r.

(** The statistics of a destruction. *)
Definition uncount_surface (size : Z) : M iow unit :=
  upd_mgr (fun m => set_sm_surface_count (u32 (sm_surface_count m - 1)) m) ;;;
  bump set_ct_surface_deallocations ct_surface_deallocations ;;;
  upd_mgr (fun m => set_sm_allocated_surface_memory (u64 (sm_allocated_surface_memory m - size)) m) ;;;
  bump set_ct_surfaces_destroyed ct_surfaces_destroyed.
Definition destroySurface (surface_id : Z) : M iow IOReturn :=
  if surface_id =? 0 then ret kIOReturnBadArgument
  else
    lock ;;;
    with_surface status surface_id (fun p s =>
      if is_is_locked s || (0 <? is_lock_count s) then unlock ;;; ret kIOReturnBusy
      else
        let ref_count := u32 (is_ref_count s - 1) in
        put_surface p (set_is_ref_count ref_count s) ;;;
        if 0 <? ref_count then unlock ;;; ret kIOReturnSuccess
        else
          match is_memory s with
          | Some b =>
              complete b ;;; release_buffer b ;;;
              put_surface p (set_is_memory None (set_is_ref_count ref_count s))
          | None => ret tt
          end ;;;
          map_remove surface_id ;;;
          surfaces_remove p ;;;
          uncount_surface (is_memory_size s) ;;;
          releaseSurfaceId surface_id ;;;
          unlock ;;;
          ret kIOReturnSuccess).

(** * Set-up *)
(** A new object: zeroed; the C statics as they are initialised. *)
Definition no_counters : counters := mk_counters 0 0 0 0 0 0 0 0 0 0.
Definition blank_manager : manager :=
  mk_manager false Unlocked [] ∅ 0 [] 0 0 0 0 no_counters false false None None 0 None None None 0.
Definition initial_discovery : discovery := mk_disc [] 0 0 0 0 0 0 0 8.
(** [init], then the rest; [accelerator] is the argument, with whether it has
    a device. *)
Definition init (m : manager) : manager :=
  set_sm_counters (set_ct_surface_locks 0 (sm_counters m))
    (set_sm_total_surface_memory (256 * 1024 * 1024) (set_sm_next_surface_id 1 (set_sm_gpu_device false m))).
Definition initWithAccelerator (accelerator : option bool) : M iow bool :=
  match accelerator with
  | None => ret false
  | Some device =>
      upd_mgr (fun m => set_sm_gpu_device device (init m)) ;;;
      let! m_surface_lock := ask in
      if negb m_surface_lock then ret false
      else
        let! surfaces := ask in
        let! surface_map := ask in
        let! released := ask in
        if negb (surfaces && surface_map && released) then ret false
        else
          upd_mgr (fun m => let c := sm_counters m in
            mk_manager (sm_gpu_device m) Unlocked [] ∅ (sm_next_surface_id m) []
            (512 * 1024 * 1024) 0 0 0
            (mk_counters 0 0 (ct_surfaces_created c) (ct_surfaces_destroyed c) (ct_surface_locks c)
               (ct_surface_unlocks c) 0 0 0 (ct_format_conversions c)) (sm_supports_hardware m) (sm_supports_yuv m)
            (sm_clients m) (sm_client_map m) (sm_next_client_id m) (sm_released_client_ids m)
            (sm_shared_surfaces m) (sm_memory_pools m) (sm_available_memory m)) ;;;
          ret true
  end.
(** [free]: the last reference to an [OSArray] or [OSDictionary] lets go of what
    it holds; the other collections, the lock and the statics stay. *)
Fixpoint release_all (ps : list Z) : M iow unit :=
  match ps with [] => ret tt | p :: rest => release p ;;; release_all rest end.
Definition free : M iow unit :=
  let! surfaces := get_mgr sm_surfaces in
  release_all surfaces ;;;
  upd_mgr (set_sm_surfaces []) ;;;
  let! surface_map := get_mgr sm_surface_map in
  release_all (map_to_list surface_map).*2 ;;;
  upd_mgr (set_sm_surface_map ∅).
