(* ===== verification/IOSurfaceOps.v ===== *)
(** The operations of the surface manager of [IOSurfaces.v]: locks, pixels,
    format conversion, clients and sharing, eviction and compaction, pools and
    statistics. *)
From S2P Require Import Prelude IOSurfaces.

(** * Locks *)
Definition synced (s : io_surface) (t lock_count : Z) (locked : bool) : io_surface :=
  set_is_last_access_time t (set_is_is_locked locked (set_is_lock_count lock_count s)).
(** The status and the address: the buffer whose start it is. The GPU
    synchronisation only logs. *)
Definition lockSurface (surface_id lock_options : Z) (base_address : bool)
  : M iow (IOReturn * option Z) :=
  if negb base_address then ret (kIOReturnBadArgument, None)
  else
    lock ;;;
    with_surface (fun r => (r, None)) surface_id (fun p s =>
      match is_memory s, is_base_address s with
      | Some _, Some base =>
          let read_only := negb (Z.land lock_options LOCK_READ_ONLY =? 0) in
          if is_is_locked s && negb read_only then unlock ;;; ret (kIOReturnBusy, None)
          else
            let! t := now in
            put_surface p (synced s t (u32 (is_lock_count s + 1)) true) ;;;
            bump set_ct_lock_operations ct_lock_operations ;;;
            bump set_ct_surface_locks ct_surface_locks ;;;
            unlock ;;;
            ret (kIOReturnSuccess, Some base)
      | _, _ => unlock ;;; ret (kIOReturnNotReady, None)
      end).

Definition unlockSurface (surface_id lock_options : Z) : M iow IOReturn :=
  lock ;;;
  with_surface status surface_id (fun p s =>
    if negb (is_is_locked s) || (is_lock_count s =? 0) then unlock ;;; ret kIOReturnNotOpen
    else
      let lock_count := u32 (is_lock_count s - 1) in
      let! t := now in
      put_surface p (synced s t lock_count (if lock_count =? 0 then false else is_is_locked s)) ;;;
      bump set_ct_unlock_operations ct_unlock_operations ;;;
      bump set_ct_surface_unlocks ct_surface_unlocks ;;;
      unlock ;;;
      ret kIOReturnSuccess).

(** The plane [i] of a surface, if its descriptor has one. *)
Definition plane_of (i : Z) (s : io_surface) : option plane_info :=
  if i <? sd_plane_count (is_descriptor s) then sd_planes (is_descriptor s) !! Z.to_nat i else None.

(** The address: a buffer and an offset into it. *)
Definition lockSurfacePlane (surface_id plane_index lock_options : Z) (base_address : bool)
  : M iow (IOReturn * option (Z * Z)) :=
  if negb base_address || (4 <=? plane_index) then ret (kIOReturnBadArgument, None)
  else
    lock ;;;
    with_surface (fun r => (r, None)) surface_id (fun p s =>
      match plane_of plane_index s with
      | None => unlock ;;; ret (kIOReturnBadArgument, None)
      | Some plane =>
          match is_memory s, is_base_address s with
          | Some _, Some base =>
              let! t := now in
              put_surface p (synced s t (u32 (is_lock_count s + 1)) true) ;;;
              bump set_ct_lock_operations ct_lock_operations ;;;
              unlock ;;;
              ret (kIOReturnSuccess, Some (base, pi_offset plane))
          | _, _ => unlock ;;; ret (kIOReturnNotReady, None)
          end
      end).

Definition unlockSurfacePlane (surface_id plane_index lock_options : Z) : M iow IOReturn :=
  if 4 <=? plane_index then ret kIOReturnBadArgument
  else
    lock ;;;
    with_surface status surface_id (fun p s =>
      if negb (is_some (plane_of plane_index s)) then unlock ;;; ret kIOReturnBadArgument
      else if negb (is_is_locked s) || (is_lock_count s =? 0) then unlock ;;; ret kIOReturnNotOpen
      else
        let lock_count := u32 (is_lock_count s - 1) in
        let! t := now in
        put_surface p (synced s t lock_count (if lock_count =? 0 then false else is_is_locked s)) ;;;
        bump set_ct_unlock_operations ct_unlock_operations ;;;
        unlock ;;;
        ret kIOReturnSuccess).

Definition getSurfacePlaneInfo (surface_id plane_index : Z) (plane_info_ptr : bool)
  : M iow (IOReturn * option plane_info) :=
  if negb plane_info_ptr || (4 <=? plane_index) then ret (kIOReturnBadArgument, None)
  else
    lock ;;;
    with_surface (fun r => (r, None)) surface_id (fun p s =>
      unlock ;;;
      ret (match plane_of plane_index s with
           | None => (kIOReturnBadArgument, None)
           | Some plane => (kIOReturnSuccess, Some plane)
           end)).

(** * Pixels *)
Definition touch (p : Z) : M iow unit :=
  let! t := now in
  let! s := surface_at p in
  match s with Some s => put_surface p (set_is_last_access_time t s) | None => ret tt end.

Definition fillSurface (surface_id fill_color : Z) : M iow IOReturn :=
  lock ;;;
  with_surface status surface_id (fun p s =>
    match is_base_address s with
    | None => unlock ;;; ret kIOReturnNotReady
    | Some base =>
        let bytes_per_pixel := getBytesPerPixel (sd_pixel_format (is_descriptor s)) in
        if bytes_per_pixel =? 0 then unlock ;;; ret kIOReturnUnsupported
        else
          let pixel_count := is_memory_size s / bytes_per_pixel in
          for_loop (Z.to_nat pixel_count) 0 (fun i => store 4 base (4 * i) fill_color) ;;;
          touch p ;;;
          unlock ;;;
          ret kIOReturnSuccess
    end).

Definition fillSurfaceRegion (surface_id x y width height fill_color : Z) : M iow IOReturn :=
  if (surface_id =? 0) || (width =? 0) || (height =? 0) then ret kIOReturnBadArgument
  else
    lock ;;;
    with_surface status surface_id (fun p s =>
      match is_base_address s with
      | None => unlock ;;; ret kIOReturnNotReady
      | Some base =>
          if (is_width s <? u32 (x + width)) || (is_height s <? u32 (y + height))
          then unlock ;;; ret kIOReturnBadArgument
          else
            let bytes_per_pixel := getBytesPerPixel (sd_pixel_format (is_descriptor s)) in
            if bytes_per_pixel =? 0 then unlock ;;; ret kIOReturnUnsupported
            else
              let stride := u32 (is_width s * bytes_per_pixel) in
              let base_ptr := u32 (y * stride) + u32 (x * bytes_per_pixel) in
              for_loop (Z.to_nat height) 0 (fun row =>
                for_loop (Z.to_nat width) 0 (fun col =>
                  store 4 base (base_ptr + u32 (row * stride) + 4 * col) fill_color)) ;;;
              touch p ;;;
              unlock ;;;
              ret kIOReturnSuccess
      end).

(** The second [findSurface] comes after the first, whatever that returned;
    both structs are read before anything is written. *)
Definition with_surfaces (src dst : Z)
    (k : Z -> io_surface -> Z -> io_surface -> M iow IOReturn) : M iow IOReturn :=
  let! dest_obj := findSurface dst in
  match dest_obj with
  | None => unlock ;;; ret kIOReturnNotFound
  | Some q =>
      let! s := surface_at src in
      let! d := surface_at q in
      match s, d with
      | Some s, Some d => k src s q d
      | _, _ => unlock ;;; ret kIOReturnInternalError
      end
  end.

Definition copySurface (source_surface_id dest_surface_id : Z) : M iow IOReturn :=
  if (source_surface_id =? 0) || (dest_surface_id =? 0) then ret kIOReturnBadArgument
  else if source_surface_id =? dest_surface_id then ret kIOReturnSuccess
  else
    lock ;;;
    let! source_obj := findSurface source_surface_id in
    match source_obj with
    | None => unlock ;;; ret kIOReturnNotFound
    | Some p => with_surfaces p dest_surface_id (fun p s q d =>
        if negb (is_width s =? is_width d) || negb (is_height s =? is_height d)
           || negb (sd_pixel_format (is_descriptor s) =? sd_pixel_format (is_descriptor d))
        then unlock ;;; ret kIOReturnBadArgument
        else
          match is_memory s, is_memory d, is_base_address s, is_base_address d with
          | Some _, Some _, Some src, Some dst =>
              memcpy dst 0 src 0 (Z.min (is_memory_size s) (is_memory_size d)) ;;;
              touch q ;;;
              bump set_ct_copy_operations ct_copy_operations ;;;
              unlock ;;;
              ret kIOReturnSuccess
          | _, _, _, _ => unlock ;;; ret kIOReturnNotReady
          end)
    end.

(** One row after the other, the pointers moving by the strides. *)
Fixpoint copy_rows (n : nat) (dst dst_ptr dest_stride src src_ptr source_stride row_bytes : Z) : M iow unit :=
  match n with
  | O => ret tt
  | S n' =>
      memcpy dst dst_ptr src src_ptr row_bytes ;;;
      copy_rows n' dst (dst_ptr + dest_stride) dest_stride src (src_ptr + source_stride) source_stride row_bytes
  end.
Definition copySurfaceRegion (source_surface_id dest_surface_id src_x src_y dst_x dst_y width height : Z)
  : M iow IOReturn :=
  if (source_surface_id =? 0) || (dest_surface_id =? 0) || (width =? 0) || (height =? 0)
  then ret kIOReturnBadArgument
  else
    lock ;;;
    let! source_obj := findSurface source_surface_id in
    let! dest_obj := findSurface dest_surface_id in
    match source_obj, dest_obj with
    | Some p, Some q =>
        let! s := surface_at p in
        let! d := surface_at q in
        match s, d with
        | Some s, Some d =>
            match is_base_address s, is_base_address d with
            | Some src, Some dst =>
                if (is_width s <? u32 (src_x + width)) || (is_height s <? u32 (src_y + height))
                   || (is_width d <? u32 (dst_x + width)) || (is_height d <? u32 (dst_y + height))
                then unlock ;;; ret kIOReturnBadArgument
                else if negb (sd_pixel_format (is_descriptor s) =? sd_pixel_format (is_descriptor d))
                then unlock ;;; ret kIOReturnBadArgument
                else
                  let bytes_per_pixel := getBytesPerPixel (sd_pixel_format (is_descriptor s)) in
                  let source_stride := u32 (is_width s * bytes_per_pixel) in
                  let dest_stride := u32 (is_width d * bytes_per_pixel) in
                  copy_rows (Z.to_nat height)
                    dst (u32 (dst_y * dest_stride) + u32 (dst_x * bytes_per_pixel)) dest_stride
                    src (u32 (src_y * source_stride) + u32 (src_x * bytes_per_pixel)) source_stride
                    (u32 (width * bytes_per_pixel)) ;;;
                  touch q ;;;
                  bump set_ct_copy_operations ct_copy_operations ;;;
                  unlock ;;;
                  ret kIOReturnSuccess
            | _, _ => unlock ;;; ret kIOReturnNotReady
            end
        | _, _ => unlock ;;; ret kIOReturnInternalError
        end
    | _, _ => unlock ;;; ret kIOReturnNotFound
    end.

(** * Format conversion: of one pixel, and of [pixel_count] of them *)
Definition byte_of (v shift : Z) : Z := Z.land (Z.shiftr v shift) 255.
Definition pack (b3 b2 b1 b0 : Z) : Z :=
  Z.lor (Z.lor (Z.lor (Z.shiftl b3 24) (Z.shiftl b2 16)) (Z.shiftl b1 8)) b0.
Definition pixel_BGRAtoRGBA (bgra : Z) : Z :=
  pack (byte_of bgra 8) (byte_of bgra 16) (byte_of bgra 24) (byte_of bgra 0).
Definition pixel_RGBAtoBGRA (rgba : Z) : Z :=
  pack (byte_of rgba 8) (byte_of rgba 16) (byte_of rgba 24) (byte_of rgba 0).
Definition luminance (bgra : Z) : Z :=
  (299 * byte_of bgra 8 + 587 * byte_of bgra 16 + 114 * byte_of bgra 24) / 1000.

Definition convert_pixels (f : Z -> Z) (source dest pixel_count : Z) : M iow IOReturn :=
  for_loop (Z.to_nat pixel_count) 0 (fun i =>
    let! pixel := load32 source (4 * i) in store 4 dest (4 * i) (f pixel)) ;;;
  ret kIOReturnSuccess.
Definition convertBGRAtoRGBA := convert_pixels pixel_BGRAtoRGBA.
Definition convertRGBAtoBGRA := convert_pixels pixel_RGBAtoBGRA.
Definition convertBGRAtoRGB24 (source dest pixel_count : Z) : M iow IOReturn :=
  for_loop (Z.to_nat pixel_count) 0 (fun i =>
    let! bgra := load32 source (4 * i) in
    store 1 dest (i * 3) (byte_of bgra 8) ;;;
    store 1 dest (i * 3 + 1) (byte_of bgra 16) ;;;
    store 1 dest (i * 3 + 2) (byte_of bgra 24)) ;;;
  ret kIOReturnSuccess.
Definition convertRGB24toBGRA (source dest pixel_count : Z) : M iow IOReturn :=
  for_loop (Z.to_nat pixel_count) 0 (fun i =>
    let! r := load8 source (i * 3) in
    let! g := load8 source (i * 3 + 1) in
    let! b := load8 source (i * 3 + 2) in
    store 4 dest (4 * i) (pack b g r 255)) ;;;
  ret kIOReturnSuccess.
Definition convertBGRAtoLuminance (source dest pixel_count : Z) : M iow IOReturn :=
  for_loop (Z.to_nat pixel_count) 0 (fun i =>
    let! bgra := load32 source (4 * i) in store 1 dest i (Z.land (luminance bgra) 255)) ;;;
  ret kIOReturnSuccess.

Definition FORMAT_RGB : Z := 0x52474220.
Definition FORMAT_L8 : Z := 0x4C303030.
Definition performPixelFormatConversion (source source_format dest dest_format width height : Z)
  : M iow IOReturn :=
  if (width =? 0) || (height =? 0) then ret kIOReturnBadArgument
  else if source_format =? dest_format then
    let source_bpp := getBytesPerPixel source_format in
    if source_bpp =? 0 then ret kIOReturnUnsupported
    else memcpy dest 0 source 0 (u32 (u32 (width * height) * source_bpp)) ;;; ret kIOReturnSuccess
  else if (source_format =? FORMAT_BGRA32) && (dest_format =? FORMAT_RGBA32)
  then convertBGRAtoRGBA source dest (u32 (width * height))
  else if (source_format =? FORMAT_RGBA32) && (dest_format =? FORMAT_BGRA32)
  then convertRGBAtoBGRA source dest (u32 (width * height))
  else if (source_format =? FORMAT_BGRA32) && (dest_format =? FORMAT_RGB)
  then convertBGRAtoRGB24 source dest (u32 (width * height))
  else if (source_format =? FORMAT_RGB) && (dest_format =? FORMAT_BGRA32)
  then convertRGB24toBGRA source dest (u32 (width * height))
  else if (source_format =? FORMAT_BGRA32) && (dest_format =? FORMAT_L8)
  then convertBGRAtoLuminance source dest (u32 (width * height))
  else ret kIOReturnUnsupported.

Definition convertSurfaceFormat (source_surface_id dest_surface_id dest_format : Z) : M iow IOReturn :=
  if (source_surface_id =? 0) || (dest_surface_id =? 0) then ret kIOReturnBadArgument
  else if source_surface_id =? dest_surface_id then ret kIOReturnSuccess
  else
    let! yuv := get_mgr sm_supports_yuv in
    let format_result := validatePixelFormat yuv dest_format in
    if negb (is_success format_result) then ret format_result
    else
      lock ;;;
      let! source_obj := findSurface source_surface_id in
      match source_obj with
      | None => unlock ;;; ret kIOReturnNotFound
      | Some p => with_surfaces p dest_surface_id (fun p s q d =>
          match is_memory s, is_memory d, is_base_address s, is_base_address d with
          | Some _, Some _, Some src, Some dst =>
              if negb (is_width s =? is_width d) || negb (is_height s =? is_height d)
              then unlock ;;; ret kIOReturnBadArgument
              else
                let source_format := sd_pixel_format (is_descriptor s) in
                if source_format =? dest_format then unlock ;;; ret kIOReturnSuccess
                else
                  let! conversion_result :=
                    performPixelFormatConversion src source_format dst dest_format (is_width s) (is_height s) in
                  if negb (is_success conversion_result) then unlock ;;; ret conversion_result
                  else
                    let! t := now in
                    put_surface q (set_is_last_access_time t
                      (set_is_descriptor (set_pixel_format dest_format (is_descriptor d)) d)) ;;;
                    bump set_ct_format_conversions ct_format_conversions ;;;
                    unlock ;;;
                    ret kIOReturnSuccess
          | _, _, _, _ => unlock ;;; ret kIOReturnNotReady
          end)
      end.

(** * Clients *)
Definition allocateClientId : M iow Z :=
  let! released := get_mgr (fun m => default [] (sm_released_client_ids m)) in
  match last released with
  | Some id =>
      upd_mgr (set_sm_released_client_ids (Some (take (length released - 1) released))) ;;; ret id
  | None =>
      upd_mgr (fun m => set_sm_next_client_id (u32 (sm_next_client_id m + 1)) m) ;;;
      get_mgr sm_next_client_id
  end.
Definition releaseClientId (client_id : Z) : M iow unit :=
  if client_id =? 0 then ret tt
  else
    let! released := get_mgr sm_released_client_ids in
    let! ids := (match released with
                 | Some l => ret (Some l)
                 | None => let! array := ask in ret (if array then Some [] else None)
                 end) in
    match ids with
    | None => ret tt
    | Some l =>
        let! id_number := ask in
        upd_mgr (set_sm_released_client_ids (Some (if id_number then l ++ [client_id] else l)))
    end.
Definition findClient (client_id : Z) : M iow (option Z) :=
  if client_id =? 0 then ret None
  else get_mgr (fun m => default ∅ (sm_client_map m) !! client_id).

Definition clients_of (m : manager) : list Z := default [] (sm_clients m).
Definition client_map_of (m : manager) : gmap Z Z := default ∅ (sm_client_map m).
Definition set_clients (l : list Z) : manager -> manager := set_sm_clients (Some l).
Definition set_client_map (d : gmap Z Z) : manager -> manager := set_sm_client_map (Some d).
Definition client_at (p : Z) : M iow (option client_info) :=
  let! o := object_at p in
  match o with
  | Some (_, ClientData c) => ret (Some c)
  | Some (_, SurfaceData _) => fault ;;; ret None
  | None => ret None
  end.
Definition put_client (p : Z) (c : client_info) : M iow unit :=
  upd_kern (fun k => set_kn_objects (alter (fun o => (o.1, ClientData c)) p (kn_objects k)) k).

(** The process id and rights of a [VMIOSurfaceClientDescriptor], without the
    name. *)
Definition registerClient (descriptor : option (Z * Z)) (client_id : bool) : M iow (IOReturn * option Z) :=
  match descriptor with
  | None => ret (kIOReturnBadArgument, None)
  | Some (process_id, access_rights) =>
      if negb client_id then ret (kIOReturnBadArgument, None)
      else
        lock ;;;
        let! m := get_mgr (fun m => m) in
        let! clients := (if is_some (sm_clients m) then ret true else ask) in
        if negb clients then unlock ;;; ret (kIOReturnNoMemory, None)
        else
          upd_mgr (fun m => set_clients (clients_of m) m) ;;;
          let! client_map := (if is_some (sm_client_map m) then ret true else ask) in
          if negb client_map then unlock ;;; ret (kIOReturnNoMemory, None)
          else
            upd_mgr (fun m => set_client_map (client_map_of m) m) ;;;
            let! id := allocateClientId in
            let! info := IOMalloc SIZEOF_CLIENT_INFO in
            if negb info then releaseClientId id ;;; unlock ;;; ret (kIOReturnNoMemory, Some id)
            else
              let! t := now in
              let! data := withBytes (ClientData (mk_client id process_id access_rights t 0 true)) in
              match data with
              | None =>
                  IOFree SIZEOF_CLIENT_INFO ;;; releaseClientId id ;;; unlock ;;;
                  ret (kIOReturnNoMemory, Some id)
              | Some p =>
                  array_add clients_of set_clients p ;;;
                  dict_set client_map_of set_client_map id p ;;;
                  release p ;;;
                  unlock ;;;
                  ret (kIOReturnSuccess, Some id)
              end
  end.

(** The common opening of the methods on a client. *)
Definition with_client {A} (answer : IOReturn -> A) (client_id : Z)
    (k : Z -> client_info -> M iow A) : M iow A :=
  let! client_data := get_mgr (fun m => client_map_of m !! client_id) in
  match client_data with
  | None => unlock ;;; ret (answer kIOReturnNotFound)
  | Some p =>
      let! c := client_at p in
      match c with
      | None => unlock ;;; ret (answer kIOReturnInternalError)
      | Some c => k p c
      end
  end.
(** The last line logs the name in the struct. *)
Definition unregisterClient (client_id : Z) : M iow IOReturn :=
  if client_id =? 0 then ret kIOReturnBadArgument
  else
    lock ;;;
    with_client status client_id (fun p c =>
      (if 0 <? ci_surface_count c then put_client p (set_ci_active false c)
       else
         dict_remove client_map_of set_client_map client_id ;;;
         array_remove clients_of set_clients p ;;;
         releaseClientId client_id) ;;;
      let! name := client_at p in
      unlock ;;;
      ret kIOReturnSuccess).
Definition getClientDescriptor (client_id : Z) (descriptor : bool) : M iow (IOReturn * option client_info) :=
  if (client_id =? 0) || negb descriptor then ret (kIOReturnBadArgument, None)
  else
    lock ;;;
    with_client (fun r => (r, None)) client_id (fun p c =>
      unlock ;;;
      ret (if ci_active c then (kIOReturnSuccess, Some c) else (kIOReturnNotFound, None))).
Definition setClientAccessRights (client_id access_rights : Z) : M iow IOReturn :=
  if client_id =? 0 then ret kIOReturnBadArgument
  else
    lock ;;;
    with_client status client_id (fun p c =>
      if negb (ci_active c) then unlock ;;; ret kIOReturnNotFound
      else put_client p (set_ci_access_rights access_rights c) ;;; unlock ;;; ret kIOReturnSuccess).

(** * Sharing *)
Definition deactivate (s : surface_sharing) : surface_sharing :=
  mk_sharing (sh_surface_id s) (sh_owner_client_id s) (sh_shared_client_id s) (sh_sharing_mode s) false.
Definition shares_with (surface_id client_id : Z) (s : surface_sharing) : bool :=
  sh_active s && (sh_surface_id s =? surface_id)
  && ((sh_owner_client_id s =? client_id) || (sh_shared_client_id s =? client_id)).
Definition SIZEOF_SHARING : Z := 32.
(** One entry for each client that exists. *)
Fixpoint share_all (surface_id mode : Z) (clients : list Z) : M iow unit :=
  match clients with
  | [] => ret tt
  | target :: rest =>
      let! target_client_obj := findClient target in
      (if negb (is_some target_client_obj) then ret tt
       else
         let! sharing := IOMalloc SIZEOF_SHARING in
         if negb sharing then ret tt
         else
           let! data := ask in
           (if data then
              upd_mgr (fun m => set_sm_shared_surfaces
                (Some (default [] (sm_shared_surfaces m) ++ [mk_sharing surface_id 0 target mode true])) m)
            else ret tt) ;;;
           IOFree SIZEOF_SHARING) ;;;
      share_all surface_id mode rest
  end.
(** The descriptor: the id, the mode and the clients. *)
Definition shareSurface (surface_id : Z) (descriptor : option (Z * Z * list Z)) : M iow IOReturn :=
  match descriptor with
  | None => ret kIOReturnBadArgument
  | Some (id, mode, allowed_clients) =>
      if (surface_id =? 0) || negb (id =? surface_id) then ret kIOReturnBadArgument
      else
        lock ;;;
        let! surface_obj := findSurface surface_id in
        match surface_obj with
        | None => unlock ;;; ret kIOReturnNotFound
        | Some _ =>
            let! shared := get_mgr sm_shared_surfaces in
            let! array := (if is_some shared then ret true else ask) in
            if negb array then unlock ;;; ret kIOReturnNoMemory
            else
              upd_mgr (fun m => set_sm_shared_surfaces (Some (default [] (sm_shared_surfaces m))) m) ;;;
              share_all surface_id mode allowed_clients ;;;
              unlock ;;;
              ret kIOReturnSuccess
        end
  end.
Definition unshareSurface (surface_id client_id : Z) : M iow IOReturn :=
  if (surface_id =? 0) || (client_id =? 0) then ret kIOReturnBadArgument
  else
    lock ;;;
    let! shared := get_mgr sm_shared_surfaces in
    match shared with
    | None => unlock ;;; ret kIOReturnNotFound
    | Some l =>
        match index_of (shares_with surface_id client_id) l with
        | None => unlock ;;; ret kIOReturnNotFound
        | Some i =>
            upd_mgr (set_sm_shared_surfaces (Some (alter deactivate i l))) ;;;
            unlock ;;;
            ret kIOReturnSuccess
        end
    end.
(** The clients written, at most the room the caller has, and the count. *)
Definition getSurfaceClients (surface_id : Z) (client_ids : bool) (client_count : option Z)
  : M iow (IOReturn * list Z * option Z) :=
  match client_count with
  | None => ret (kIOReturnBadArgument, [], None)
  | Some room =>
      if surface_id =? 0 then ret (kIOReturnBadArgument, [], None)
      else
        lock ;;;
        let! shared := get_mgr (fun m => default [] (sm_shared_surfaces m)) in
        let found := filter (fun s => sh_active s = true /\ sh_surface_id s = surface_id) shared in
        let max_clients := if client_ids then room else 0 in
        unlock ;;;
        ret (kIOReturnSuccess, take (Z.to_nat max_clients) (sh_shared_client_id <$> found),
             Some (u32 (Z.of_nat (length found))))
  end.
Definition canClientAccessSurface (client_id surface_id : Z) : M iow bool :=
  if (client_id =? 0) || (surface_id =? 0) then ret false
  else
    lock ;;;
    let! client := findClient client_id in
    if negb (is_some client) then unlock ;;; ret false
    else
      let! surface := findSurface surface_id in
      if negb (is_some surface) then unlock ;;; ret false
      else
        let! shared := get_mgr (fun m => default [] (sm_shared_surfaces m)) in
        unlock ;;;
        ret (existsb (shares_with surface_id client_id) shared).

(** * Priorities, eviction, compaction *)
Definition setSurfaceMemoryPriority (surface_id priority : Z) : M iow IOReturn :=
  if surface_id =? 0 then ret kIOReturnBadArgument
  else if (priority <? PRIORITY_LOW) || (PRIORITY_CRITICAL <? priority) then ret kIOReturnBadArgument
  else
    lock ;;;
    with_surface status surface_id (fun p s =>
      put_surface p (set_is_memory_priority priority s) ;;; unlock ;;; ret kIOReturnSuccess).

(** A surface the first pass takes: neither locked nor of high priority, and
    idle for more than 60000000000 units of a million ticks. *)
Definition evictable (current_time : Z) (s : io_surface) : bool :=
  negb (is_is_locked s || (0 <? is_lock_count s))
  && (is_memory_priority s <? PRIORITY_HIGH)
  && (60000000000 <? u64 (current_time - is_last_access_time s) / 1000000).
Fixpoint eviction_candidates (current_time : Z) (surfaces : list Z) : M iow (list Z) :=
  match surfaces with
  | [] => ret []
  | p :: rest =>
      let! s := surface_at p in
      match s with
      | None => ret []
      | Some s =>
          let! others := eviction_candidates current_time rest in
          ret (if evictable current_time s then p :: others else others)
      end
  end.
(** The second pass: how many, and how many bytes. *)
Fixpoint evict (candidates : list Z) : M iow (Z * Z) :=
  match candidates with
  | [] => ret (0, 0)
  | p :: rest =>
      let! s := surface_at p in
      match s with
      | None => evict rest
      | Some s =>
          if is_is_locked s || (0 <? is_lock_count s) then evict rest
          else
            put_surface p (set_is_last_access_time 0 s) ;;;
            let! more := evict rest in
            ret (u32 (more.1 + 1), u64 (more.2 + is_memory_size s))
      end
  end.
Definition evictUnusedSurfaces (max_surfaces_to_evict : Z) : M iow (IOReturn * Z) :=
  lock ;;;
  let! surfaces := get_mgr sm_surfaces in
  match surfaces with
  | [] => unlock ;;; ret (kIOReturnSuccess, 0)
  | _ =>
      let! array := ask in
      if negb array then unlock ;;; ret (kIOReturnNoMemory, 0)
      else
        let! current_time := now in
        let! iterator := ask in
        if negb iterator then unlock ;;; ret (kIOReturnNoMemory, 0)
        else
          let! candidates := eviction_candidates current_time surfaces in
          let n := Z.of_nat (length candidates) in
          let to_evict := if max_surfaces_to_evict =? 0 then n else Z.min max_surfaces_to_evict n in
          let! evicted := evict (take (Z.to_nat to_evict) candidates) in
          upd_mgr (fun m => set_sm_allocated_surface_memory
                              (u64 (sm_allocated_surface_memory m - evicted.2)) m) ;;;
          unlock ;;;
          ret (kIOReturnSuccess, evicted.1)
  end.

Definition shouldEvictSurface (surface_id : Z) : M iow bool :=
  let! surface_obj := findSurface surface_id in
  match surface_obj with
  | None => ret false
  | Some p =>
      let! s := surface_at p in
      match s with
      | None => ret false
      | Some s =>
          if is_is_locked s || (0 <? is_lock_count s) then ret false
          else if 1 <? is_ref_count s then ret false
          else
            let! current_time := now in
            ret (10000000000 <? u64 (current_time - is_last_access_time s))
      end
  end.
(** From the last index down, with the lock held. *)
Fixpoint compact_from (n : nat) : M iow unit :=
  match n with
  | O => ret tt
  | S i =>
      let! data := get_mgr (fun m => sm_surfaces m !! i) in
      match data with
      | None => ret tt
      | Some p =>
          let! s := surface_at p in
          match s with
          | None => ret tt
          | Some s =>
              let! evict := shouldEvictSurface (is_surface_id s) in
              if evict then
                let! s := surface_at p in
                match s with
                | Some s =>
                    if (is_lock_count s =? 0) && (is_ref_count s <=? 1)
                    then let! r := destroySurface (is_surface_id s) in ret tt
                    else ret tt
                | None => ret tt
                end
              else ret tt
          end
      end ;;;
      compact_from i
  end.
Definition compactSurfaceMemory : M iow IOReturn :=
  lock ;;;
  let! n := get_mgr (fun m => length (sm_surfaces m)) in
  compact_from n ;;;
  unlock ;;;
  ret kIOReturnSuccess.

(** * Checks *)
Definition validateSurface (surface_id : Z) : M iow IOReturn :=
  lock ;;;
  with_surface status surface_id (fun p s =>
    let! yuv := get_mgr sm_supports_yuv in
    let r := if is_surface_id s =? surface_id then kIOReturnSuccess else kIOReturnInternalError in
    let r := if (is_width s =? 0) || (is_height s =? 0) || (16384 <? is_width s) || (16384 <? is_height s)
             then kIOReturnBadArgument else r in
    let r := if is_success (validatePixelFormat yuv (sd_pixel_format (is_descriptor s)))
             then r else kIOReturnBadArgument in
    let r := if is_some (is_memory s) then r else kIOReturnNotReady in
    unlock ;;;
    ret r).
Definition checkSurfaceIntegrity (surface_id : Z) : M iow IOReturn :=
  lock ;;;
  with_surface status surface_id (fun p s =>
    let! r := (match is_memory s with
               | None => ret kIOReturnSuccess
               | Some b =>
                   let! o := buffer_at b in
                   ret (match o with
                        | Some x => if (bf_length x =? is_memory_size s) && bool_decide (is_base_address s = Some b)
                                    then kIOReturnSuccess else kIOReturnIOError
                        | None => kIOReturnIOError
                        end)
               end) in
    let r := if is_ref_count s =? 0 then kIOReturnInternalError else r in
    let r := if is_is_locked s && (is_lock_count s =? 0) then kIOReturnInternalError else r in
    unlock ;;;
    ret r).

(** * Statistics: the divisions of [getIOSurfaceStats], by the creations *)
Definition getIOSurfaceStats (stats_buffer : bool) (buffer_size : option Z) (sizeof_stats : Z)
  : M iow (IOReturn * option counters) :=
  match buffer_size with
  | None => ret (kIOReturnBadArgument, None)
  | Some size =>
      if negb stats_buffer then ret (kIOReturnBadArgument, None)
      else if size <? sizeof_stats then ret (kIOReturnNoSpace, None)
      else
        lock ;;;
        let! c := get_mgr sm_counters in
        let total_operations := u64 (u64 (ct_surfaces_created c + ct_surface_locks c) + ct_copy_operations c) in
        (if (0 <? total_operations)
            && ((ct_surfaces_created c =? 0) || (u64 (ct_surface_locks c + 1) =? 0)
                || (u64 (ct_copy_operations c + 1) =? 0))
         then fault else ret tt) ;;;
        unlock ;;;
        ret (kIOReturnSuccess, Some c)
  end.
Definition getMemoryUsage (pointers : bool) : M iow (IOReturn * option (Z * Z * Z)) :=
  if negb pointers then ret (kIOReturnBadArgument, None)
  else
    lock ;;;
    let! m := get_mgr (fun m => m) in
    unlock ;;;
    let available := u64 (sm_total_surface_memory m - sm_allocated_surface_memory m) in
    ret (kIOReturnSuccess, Some (sm_total_surface_memory m, available, available)).
Definition resetIOSurfaceCounters : M iow unit :=
  lock ;;;
  upd_mgr (fun m => set_sm_counters
    (mk_counters 0 0 0 0 0 0 0 0 0 (ct_format_conversions (sm_counters m))) m) ;;;
  unlock.

(** * Pools, which no surface is taken from *)
Definition createMemoryPool (size : Z) : M iow (IOReturn * Z) :=
  if size =? 0 then ret (kIOReturnBadArgument, 0)
  else
    let! pools := get_mgr sm_memory_pools in
    match pools with
    | None => ret (kIOReturnNotReady, 0)
    | Some l =>
        let! pool := IOMalloc SIZEOF_MEMORY_POOL in
        if negb pool then ret (kIOReturnNoMemory, 0)
        else
          let! data := ask in
          if negb data then IOFree SIZEOF_MEMORY_POOL ;;; ret (kIOReturnNoMemory, 0)
          else
            upd_mgr (set_sm_memory_pools (Some (l ++ [mk_pool size 0 1 true]))) ;;;
            ret (kIOReturnSuccess, Z.of_nat (length l))
    end.
(** The index and size of the best pool so far. *)
Fixpoint best_pool (size i : Z) (best : option (Z * Z)) (pools : list memory_pool) : option (Z * Z) :=
  match pools with
  | [] => best
  | p :: rest =>
      let available := u32 (mp_size p - mp_allocated p) in
      let best_size := match best with Some (_, z) => z | None => 0xFFFFFFFF end in
      best_pool size (i + 1)
        (if mp_active p && (size <=? available) && (mp_size p <? best_size) then Some (i, mp_size p) else best)
        rest
  end.
Definition findBestMemoryPool (size : Z) : M iow (IOReturn * option Z) :=
  if size =? 0 then ret (kIOReturnBadArgument, None)
  else
    let! pools := get_mgr (fun m => default [] (sm_memory_pools m)) in
    match pools with
    | [] => ret (kIOReturnNotFound, None)
    | _ =>
        match best_pool size 0 None pools with
        | Some (i, _) => ret (kIOReturnSuccess, Some i)
        | None => ret (kIOReturnNoSpace, None)
        end
    end.
Definition pool_configs : list Z := [1 * 1024 * 1024; 4 * 1024 * 1024; 512 * 1024 * 1024; 64 * 1024 * 1024].
Fixpoint create_pools (sizes : list Z) : M iow IOReturn :=
  match sizes with
  | [] => ret kIOReturnSuccess
  | size :: rest =>
      let! r := createMemoryPool size in
      if is_success r.1 then create_pools rest else ret r.1
  end.
Definition configureMemoryPools : M iow IOReturn :=
  let! pools := ask in
  if negb pools then upd_mgr (set_sm_memory_pools None) ;;; ret kIOReturnNoMemory
  else
    upd_mgr (set_sm_memory_pools (Some [])) ;;;
    let! r := create_pools pool_configs in
    if negb (is_success r) then ret r
    else
      upd_mgr (fun m => set_sm_available_memory (u64 (sm_total_surface_memory m - 32 * 1024 * 1024)) m) ;;;
      ret kIOReturnSuccess.
Definition setupIOSurfaceSupport : M iow IOReturn :=
  upd_mgr (fun m => set_sm_supports_yuv true (set_sm_supports_hardware (sm_gpu_device m) m)) ;;;
  configureMemoryPools.
