(* ===== verification/IOSurfaceLife.v ===== *)
(** The surface manager's invariant, and every operation of [IOSurfaces.v] and
    [IOSurfaceOps.v] run against it. *)
From S2P Require Import Prelude IOSurfaces IOSurfaceOps.

(** * The invariant *)
(** A surface as [createSurface] leaves it, with whatever was written or
    locked since: a 32-bit format, and a buffer that holds its pixels. *)
Definition formats32 : list Z := [FORMAT_ARGB32; FORMAT_BGRA32; FORMAT_RGBA32; FORMAT_ABGR32].
Record surf_ok (k : iokern) (id : Z) (s : io_surface) : Prop := {
  so_id : is_surface_id s = id;
  so_buffer : exists b x, is_memory s = Some b /\ is_base_address s = Some b
    /\ kn_buffers k !! b = Some x /\ bf_length x = is_memory_size s /\ bf_prepared x = 1;
  so_ref : is_ref_count s = 1;
  so_lock : is_is_locked s = (0 <? is_lock_count s) /\ 0 <= is_lock_count s < 2 ^ 32;
  so_dims : 0 < is_width s <= 16384 /\ 0 < is_height s <= 16384;
  so_format : sd_pixel_format (is_descriptor s) ∈ formats32;
  so_size : 4 * (is_width s * is_height s) <= is_memory_size s < 2 ^ 32
}.
Definition size_at (k : iokern) (p : Z) : Z :=
  match kn_objects k !! p with Some (_, SurfaceData s) => is_memory_size s | _ => 0 end.
Definition sum_sizes (k : iokern) (ps : list Z) : Z := foldr Z.add 0 (size_at k <$> ps).

(** [n] more operations are to come: ids and counts do not wrap. *)
Record minv (l : lock_state) (n : nat) (m : manager) (k : iokern) : Prop := {
  mi_lock : sm_surface_lock m = l;
  mi_nodup : NoDup (sm_surfaces m);
  mi_map : forall p, p ∈ sm_surfaces m <-> exists id, sm_surface_map m !! id = Some p;
  mi_obj : forall id p, sm_surface_map m !! id = Some p ->
    exists s, kn_objects k !! p = Some (2, SurfaceData s) /\ surf_ok k id s;
  mi_own : forall p q s s', kn_objects k !! p = Some (2, SurfaceData s) ->
    kn_objects k !! q = Some (2, SurfaceData s') -> is_memory s = is_memory s' -> p = q;
  mi_live : forall p rc s, kn_objects k !! p = Some (rc, SurfaceData s) -> p ∈ sm_surfaces m;
  mi_locks : forall p rc s, kn_objects k !! p = Some (rc, SurfaceData s) -> is_lock_count s + Z.of_nat n < 2 ^ 32;
  mi_sum : sm_allocated_surface_memory m = sum_sizes k (sm_surfaces m);
  mi_total : sm_allocated_surface_memory m <= sm_total_surface_memory m < 2 ^ 62;
  mi_count : sm_surface_count m = Z.of_nat (length (sm_surfaces m))
    /\ sm_surface_count m + Z.of_nat n < 2 ^ 31;
  mi_ids : forall id, is_Some (sm_surface_map m !! id) -> 0 < id < sm_next_surface_id m;
  mi_released : NoDup (sm_released_surface_ids m) /\ (length (sm_released_surface_ids m) <= 64)%nat
    /\ forall id, id ∈ sm_released_surface_ids m ->
         0 < id < sm_next_surface_id m /\ sm_surface_map m !! id = None;
  mi_next : 0 < sm_next_surface_id m /\ sm_next_surface_id m + Z.of_nat n <= 2 ^ 31;
  mi_fresh : forall p, kn_next_pointer k <= p -> kn_objects k !! p = None /\ kn_buffers k !! p = None;
  mi_clients : forall c p, client_map_of m !! c = Some p ->
    exists rc i, kn_objects k !! p = Some (rc, ClientData i) /\ 0 < rc /\ ci_client_id i = c;
  mi_fault : kn_fault k = false
}.

(** The cache: an entry is right, or it is for a destroyed surface, whose id
    is one of [stale]. *)
Record dinv (n : nat) (stale : list Z) (m : manager) (k : iokern) (d : discovery) : Prop := {
  di_entries : forall e p, e ∈ dc_cache d -> ce_surface_object e = Some p ->
    sm_surface_map m !! ce_surface_id e = Some p
    \/ kn_objects k !! p = None /\ p < kn_next_pointer k /\ ce_surface_id e ∈ stale;
  di_length : (length (dc_cache d) <= CACHE_SIZE)%nat;
  di_window : 4 <= dc_window d <= 16;
  di_total : 0 <= dc_total_lookups d /\ dc_total_lookups d + Z.of_nat n < 2 ^ 32;
  di_pattern : 0 <= dc_sequential d /\ 0 <= dc_random d
    /\ dc_sequential d + dc_random d <= dc_total_lookups d
}.

Definition on_clock (k k' : iokern) : Prop := exists c t, k' = set_kn_clock c (set_kn_ticks t k).
Lemma on_clock_refl k : on_clock k k.
Proof. exists (kn_clock k), (kn_ticks k). by destruct k. Qed.
Lemma on_clock_trans k1 k2 k3 : on_clock k1 k2 -> on_clock k2 k3 -> on_clock k1 k3.
Proof. intros (c & t & ->) (c' & t' & ->). by exists c', t'. Qed.
Lemma surf_ok_clock k k' id s : on_clock k k' -> surf_ok k id s -> surf_ok k' id s.
Proof. intros (c & t & ->) []. by constructor. Qed.
Lemma minv_clock l n m k k' : on_clock k k' -> minv l n m k -> minv l n m k'.
Proof.
  intros (c & t & ->) []. constructor; try done.
  intros id p Hp. destruct (mi_obj0 id p Hp) as (s & Hs & Hok). exists s. split; [done|].
  apply (surf_ok_clock k); [by exists c, t|done].
Qed.
Lemma dinv_clock n sl m k k' d : on_clock k k' -> dinv n sl m k d -> dinv n sl m k' d.
Proof. by intros (c & t & ->) []. Qed.
Lemma now_run m d k : exists t k', now (mk_iow m d k) = (t, mk_iow m d k') /\ on_clock k k'.
Proof. eexists _, _. split; [done|]. by eexists _, _. Qed.

(** * [findSurface] *)
Section by_key.
Context {A : Type} (key : A -> Z).
Lemma lru_from_bound l i best oldest : (best < i)%nat -> (lru_from key i best oldest l < i + length l)%nat.
Proof.
  revert i best oldest. induction l as [|e l IH]; intros i best oldest Hb; cbn; [lia|].
  destruct (_ <? _); specialize (IH (i + 1)%nat); [specialize (IH i (key e))|specialize (IH best oldest)]; lia.
Qed.
Lemma lru_index_bound l : l <> [] -> (lru_index key l < length l)%nat.
Proof. destruct l as [|e l]; [done|]. intros _. cbn. pose proof (lru_from_bound l 1 0 (key e)). lia. Qed.
Lemma bubble_perm k l : bubble key k l ≡ₚ l.
Proof.
  revert l. induction k as [|k IH]; intros [|a [|b l]]; try done. cbn [bubble]. destruct (_ <? _).
  - rewrite IH. apply Permutation_swap.
  - by rewrite IH.
Qed.
Lemma bubble_sort_perm k l : bubble_sort key k l ≡ₚ l.
Proof. revert l. induction k as [|k IH]; intros l; [done|]. cbn [bubble_sort]. by rewrite IH, bubble_perm. Qed.
End by_key.

Section discovery.
Context (sl : list Z) (m : manager) (k : iokern).
Implicit Types (d : discovery) (e : cache_entry).

Definition entry_ok e : Prop :=
  forall p, ce_surface_object e = Some p -> sm_surface_map m !! ce_surface_id e = Some p
    \/ kn_objects k !! p = None /\ p < kn_next_pointer k /\ ce_surface_id e ∈ sl.
Lemma dinv_entry n d e : dinv n sl m k d -> e ∈ dc_cache d -> entry_ok e.
Proof. intros Hd He p Hp. by apply (di_entries _ _ _ _ _ Hd). Qed.
Lemma entry_mapped id t c h b1 b2 : entry_ok (mk_entry id (sm_surface_map m !! id) t c h b1 b2).
Proof. intros p Hp. by left. Qed.

(** Changes to the cache, and to the counters. *)
Lemma dinv_cache n d (cache : list cache_entry) :
  dinv n sl m k d -> (length cache <= CACHE_SIZE)%nat -> (forall e, e ∈ cache -> entry_ok e) ->
  dinv n sl m k (set_dc_cache cache d).
Proof. intros [] Hl He. constructor; try done. intros e p Hin. by apply He. Qed.
Lemma dinv_add n d e :
  dinv n sl m k d -> cache_full d = false -> entry_ok e -> dinv n sl m k (cache_add e d).
Proof.
  intros Hd Hf He. apply dinv_cache; [done| |].
  - unfold cache_full in Hf. apply negb_false_iff, Nat.ltb_lt in Hf. rewrite length_app. cbn. lia.
  - intros e' Hin. apply elem_of_app in Hin as [Hin|Hin]; [by eapply dinv_entry|]. by apply list_elem_of_singleton in Hin as ->.
Qed.
Lemma dinv_enter n d e : dinv n sl m k d -> entry_ok e -> dinv n sl m k (cache_enter e d).
Proof.
  intros Hd He. unfold cache_enter. destruct (cache_full d) eqn:Hf; [|by apply dinv_add].
  apply dinv_cache; [done|rewrite length_insert; apply (di_length _ _ _ _ _ Hd)|].
  intros e' Hin. apply list_elem_of_lookup in Hin as (i & Hi). apply list_lookup_insert_Some in Hi as [(_ & <- & _)|(_ & Hi)]; [done|].
  eapply dinv_entry; [done|]. by eapply list_elem_of_lookup_2.
Qed.

Definition slack d : Prop := dc_sequential d + dc_random d < dc_total_lookups d.
Lemma dinv_looked n d : dinv (Datatypes.S n) sl m k d -> dinv n sl m k (looked_up d) /\ slack (looked_up d).
Proof.
  intros [H1 H2 H3 H4 H5]. unfold slack. cbn. rewrite u32_small by lia. split; [|lia].
  constructor; cbn; [done|done|done| |]; rewrite u32_small by lia; lia.
Qed.
Lemma dinv_missed n d : dinv n sl m k d -> dinv n sl m k (missed d).
Proof. by intros []. Qed.
Lemma dinv_last n d id : dinv n sl m k d -> dinv n sl m k (set_dc_last_accessed id d).
Proof. by intros []. Qed.
Lemma dinv_note n d id : dinv n sl m k d -> slack d ->
  dinv n sl m k (note_pattern id d) /\ 1 <= dc_sequential (note_pattern id d) + dc_random (note_pattern id d)
  /\ dc_total_lookups (note_pattern id d) = dc_total_lookups d /\ dc_cache (note_pattern id d) = dc_cache d.
Proof.
  intros [H1 H2 H3 H4 H5] Hs. unfold slack in Hs. unfold note_pattern. destruct (_ =? _); cbn; rewrite u32_small by lia;
    (split; [|split; [lia|done]]); constructor; cbn; rewrite ?u32_small by lia; first [done|lia].
Qed.
Lemma dinv_hit n d i t id : dinv n sl m k d -> slack d -> dinv n sl m k (hit i t id d).
Proof.
  intros Hd Hs. unfold hit.
  assert (Hc : dinv n sl m k (set_dc_cache (alter (fun e => set_ce_last_access_time t (set_ce_access_count (u32 (ce_access_count e + 1)) e)) i (dc_cache d)) d)).
  { apply dinv_cache; [done|rewrite length_alter; apply (di_length _ _ _ _ _ Hd)|].
    intros e He. apply list_elem_of_lookup in He as (j & Hj). rewrite list_lookup_alter in Hj.
    destruct (decide (i = j)) as [->|]; [|eapply dinv_entry; [done|by eapply list_elem_of_lookup_2]].
    apply fmap_Some in Hj as (e0 & He0 & ->). apply list_elem_of_lookup_2 in He0. by apply (dinv_entry _ _ _ Hd He0). }
  apply dinv_last. eapply dinv_note; [by destruct Hc|done].
Qed.
Lemma dinv_adapt n d : dinv n sl m k d -> dinv n sl m k (adapt_window d).
Proof.
  intros [H1 H2 H3 H4 H5]. unfold adapt_window. destruct (_ && _); [|by constructor].
  destruct (_ <? _); [|destruct (_ <? _); [|by constructor]].
  - destruct (Z.ltb_spec (dc_window d) 16); constructor; cbn; first [done|lia].
  - destruct (Z.ltb_spec 4 (dc_window d)); constructor; cbn; first [done|lia].
Qed.
Lemma prefetch_run n d id t : dinv n sl m k d -> slack d ->
  exists d', prefetch id t (mk_iow m d k) = (tt, mk_iow m d' k) /\ dinv n sl m k d' /\ slack d'.
Proof.
  intros Hd Hs. unfold prefetch, map_object, get_disc, get_mgr, bind, gets. cbn [io_disc io_mgr].
  destruct (_ <? _); [|by exists d]. destruct (_ <? _); [|by exists d].
  destruct (is_some _ && _) eqn:E; [|by exists d]. apply andb_true_iff in E as [_ E]. apply negb_true_iff in E.
  eexists. split; [done|]. split; [|done]. apply dinv_add; [done|done|]. apply entry_mapped.
Qed.
Lemma report_run d : 0 < dc_total_lookups d < 2 ^ 32 -> 1 <= dc_sequential d + dc_random d <= dc_total_lookups d ->
  report (mk_iow m d k) = (tt, mk_iow m d k).
Proof.
  intros H1 H2. unfold report, get_disc, bind, gets. cbn [io_disc]. destruct (_ =? 0); [|done].
  rewrite u32_small by lia. destruct (Z.eqb_spec (dc_total_lookups d) 0); [lia|].
  by destruct (Z.eqb_spec (dc_sequential d + dc_random d) 0); [lia|].
Qed.
End discovery.

Lemma object_at_run m d k p x : kn_objects k !! p = Some x -> object_at p (mk_iow m d k) = (Some x, mk_iow m d k).
Proof. intros H. unfold object_at, get_kern, bind, gets. cbn [io_kern]. by rewrite H. Qed.

(** What [findSurface] answers and leaves: the dictionary's object, and nothing
    but the cache and the clock changed. *)
Lemma findSurface_run l n sl m d k id :
  minv l (Datatypes.S n) m k -> dinv (Datatypes.S n) sl m k d -> id ∉ sl ->
  exists d' k', findSurface id (mk_iow m d k) = (sm_surface_map m !! id, mk_iow m d' k')
    /\ on_clock k k' /\ dinv n sl m k' d'.
Proof.
  intros Hm Hd Hid. unfold findSurface. unfold bind at 1.
  destruct (now_run m d k) as (t & k1 & -> & Hk1).
  apply (minv_clock _ _ _ _ _ Hk1) in Hm. apply (dinv_clock _ _ _ _ _ _ Hk1) in Hd.
  destruct (dinv_looked _ _ _ _ _ Hd) as [Hd1 Hs1].
  destruct ((id =? 0) || (0x7FFFFFFF <? id)) eqn:Hr.
  { assert (Hnone : sm_surface_map m !! id = None).
    { destruct (sm_surface_map m !! id) eqn:E; [|done].
      pose proof (mi_ids _ _ _ _ Hm id (ex_intro _ _ E)) as [H1 H2]. pose proof (mi_next _ _ _ _ Hm).
      apply orb_true_iff in Hr as [Hr|Hr]; [apply Z.eqb_eq in Hr|apply Z.ltb_lt in Hr]; lia. }
    rewrite Hnone. eexists _, k1. split; [done|]. split; [done|]. by apply dinv_missed. }
  unfold bind at 1, upd_disc at 1, modify. cbn [io_mgr io_disc io_kern].
  unfold bind at 1, get_disc, gets. cbn [io_disc].
  destruct (index_of (cache_hit id) (dc_cache (looked_up d))) as [i|] eqn:Hi.
  - apply index_of_Some in Hi as (e & He & Hh & _). rewrite He. unfold cache_hit in Hh.
    apply andb_true_iff in Hh as [Hh1 Hh2]. apply Z.eqb_eq in Hh1.
    destruct (ce_surface_object e) as [p|] eqn:Ho; [|done].
    assert (Hp : sm_surface_map m !! id = Some p).
    { destruct (di_entries _ _ _ _ _ Hd1 e p) as [H|(_ & _ & H)]; [by eapply list_elem_of_lookup_2|done| |].
      - by rewrite <- Hh1. - by rewrite Hh1 in H. }
    rewrite Hp. unfold bind, upd_disc, modify, ret. cbn [io_mgr io_disc io_kern].
    eexists _, k1. split; [done|]. split; [done|]. by apply dinv_hit.
  - destruct (prefetch_run sl m k1 n _ id t Hd1 Hs1) as (d2 & E & Hd2 & Hs2).
    unfold bind at 1. rewrite E. unfold bind at 1, map_object, get_mgr, gets. cbn [io_mgr].
    destruct (sm_surface_map m !! id) as [p|] eqn:Hp.
    + destruct (mi_obj _ _ _ _ Hm id p Hp) as (s & Hob & _).
      unfold bind at 1. rewrite (object_at_run _ _ _ _ _ Hob). change (2 =? 0) with false. cbv match.
      unfold bind at 1, upd_disc at 1, modify. cbn [io_mgr io_disc io_kern].
      set (d3 := cache_enter _ d2).
      assert (Hd3 : dinv n sl m k1 d3).
      { apply dinv_enter; [done|]. intros q [= <-]. by left. }
      assert (Hs3 : slack d3).
      { unfold slack, d3, cache_enter, cache_add. by destruct (cache_full d2). }
      unfold bind at 1. destruct (now_run m d3 k1) as (t' & k2 & -> & Hk2).
      unfold bind at 1, upd_disc at 1, modify. cbn [io_mgr io_disc io_kern].
      apply (dinv_clock _ _ _ _ _ _ Hk2) in Hd3.
      destruct (dinv_note _ _ _ _ _ id Hd3 Hs3) as (Hd4 & H41 & H42 & _).
      unfold bind at 1. rewrite report_run.
      2,3: pose proof (di_total _ _ _ _ _ Hd4); pose proof (di_pattern _ _ _ _ _ Hd4); lia.
      unfold bind, upd_disc, modify, ret. cbn [io_mgr io_disc io_kern].
      eexists _, k2. split; [done|]. split; [by eapply on_clock_trans|]. by apply dinv_last, dinv_adapt.
    + unfold bind at 1. destruct (now_run m d2 k1) as (t' & k2 & -> & Hk2).
      unfold bind, upd_disc, modify, ret. cbn [io_mgr io_disc io_kern].
      eexists _, k2. split; [done|]. split; [by eapply on_clock_trans|].
      apply (dinv_clock _ _ _ _ _ _ Hk2). by apply dinv_last, dinv_missed.
Qed.

(** * Changes that keep the invariant *)
Lemma minv_less l n n' m k : (n' <= n)%nat -> minv l n m k -> minv l n' m k.
Proof.
  intros Hn []. constructor; try done; [|lia|lia].
  intros p rc s Hp. specialize (mi_locks0 p rc s Hp). lia.
Qed.
Lemma dinv_less n n' sl m k d : (n' <= n)%nat -> dinv n sl m k d -> dinv n' sl m k d.
Proof. intros Hn []. constructor; try done; lia. Qed.
Lemma minv_set_lock l l' n m k : minv l n m k -> minv l' n (set_sm_surface_lock l' m) k.
Proof. by intros []. Qed.
Lemma minv_set_counters l n m k c : minv l n m k -> minv l n (set_sm_counters c m) k.
Proof. by intros []. Qed.
(** The fields of the kernel the invariant does not read. *)
Definition on_side (k k' : iokern) : Prop :=
  kn_objects k' = kn_objects k /\ kn_buffers k' = kn_buffers k /\ kn_next_pointer k <= kn_next_pointer k'
  /\ kn_fault k' = kn_fault k.
Lemma on_side_refl k : on_side k k.
Proof. split_and!; [done|done|lia|done]. Qed.
Lemma on_side_trans k1 k2 k3 : on_side k1 k2 -> on_side k2 k3 -> on_side k1 k3.
Proof. intros (H1 & H2 & H3 & H4) (G1 & G2 & G3 & G4). split_and!; [congruence|congruence|lia|congruence]. Qed.
Lemma on_clock_side k k' : on_clock k k' -> on_side k k'.
Proof. intros (c & t & ->). split_and!; cbn; [done|done|lia|done]. Qed.
Lemma surf_ok_ext k k' id s : kn_buffers k' = kn_buffers k -> surf_ok k id s -> surf_ok k' id s.
Proof. intros Hb []. constructor; try done. by rewrite Hb. Qed.
Lemma sum_sizes_ext k k' ps : kn_objects k' = kn_objects k -> sum_sizes k' ps = sum_sizes k ps.
Proof. intros Ho. unfold sum_sizes, size_at. by rewrite Ho. Qed.
Lemma minv_side l n m k k' : on_side k k' -> minv l n m k -> minv l n m k'.
Proof.
  intros (Ho & Hb & Hp & Hf) []. constructor; try done; rewrite ?Ho, ?Hb, ?Hf; try done.
  - intros id p Hid. destruct (mi_obj0 id p Hid) as (s & Hs & Hok). exists s. split; [done|]. by apply (surf_ok_ext k).
  - by rewrite (sum_sizes_ext k) by done.
  - intros p Hle. apply mi_fresh0. lia.
Qed.

Lemma dinv_moves n sl sl' m m' k k' d :
  (forall id p, sm_surface_map m !! id = Some p ->
     sm_surface_map m' !! id = Some p \/ kn_objects k' !! p = None /\ p < kn_next_pointer k' /\ id ∈ sl') ->
  (forall p, p < kn_next_pointer k -> kn_objects k !! p = None -> kn_objects k' !! p = None) ->
  kn_next_pointer k <= kn_next_pointer k' -> sl ⊆ sl' ->
  dinv n sl m k d -> dinv n sl' m' k' d.
Proof.
  intros Hmap Hobj Hp Hsl []. constructor; try done. intros e p He Ho.
  destruct (di_entries0 e p He Ho) as [H|(H1 & H2 & H3)]; [by apply Hmap|]. right. split_and!; [by apply Hobj|lia|by apply Hsl].
Qed.
Lemma dinv_same n sl m m' k k' d :
  sm_surface_map m' = sm_surface_map m -> kn_next_pointer k <= kn_next_pointer k' ->
  (forall p, kn_objects k !! p = None -> kn_objects k' !! p = None) ->
  dinv n sl m k d -> dinv n sl m' k' d.
Proof.
  intros Hm Hp Ho. apply dinv_moves; [|by intros p _; apply Ho|done|done].
  intros id p Hid. left. by rewrite Hm.
Qed.

(** A surface written in place. *)
Definition kept_surface (s s' : io_surface) : Prop :=
  is_surface_id s' = is_surface_id s /\ is_memory s' = is_memory s /\ is_base_address s' = is_base_address s
  /\ is_ref_count s' = is_ref_count s /\ is_width s' = is_width s /\ is_height s' = is_height s
  /\ is_memory_size s' = is_memory_size s
  /\ (sd_pixel_format (is_descriptor s) ∈ formats32 -> sd_pixel_format (is_descriptor s') ∈ formats32)
  /\ is_is_locked s' = (0 <? is_lock_count s') /\ 0 <= is_lock_count s' <= is_lock_count s + 1.
Definition with_object (p : Z) (s : io_surface) (k : iokern) : iokern :=
  set_kn_objects (alter (fun o => (o.1, SurfaceData s)) p (kn_objects k)) k.
Lemma kept_surface_ok k id s s' : kept_surface s s' -> is_lock_count s + 1 < 2 ^ 32 -> surf_ok k id s -> surf_ok k id s'.
Proof.
  intros (E1 & E2 & E3 & E4 & E5 & E6 & E7 & E8 & E9) Hlc []. constructor; rewrite ?E1, ?E4, ?E5, ?E6, ?E7; try done.
  - rewrite E2, E3. done.
  - destruct E9 as [E9 E10]. split; [done|lia].
  - by apply E8.
Qed.
Lemma with_object_lookup p s k q rc x :
  kn_objects (with_object p s k) !! q = Some (rc, x) <->
  (q = p /\ x = SurfaceData s /\ exists y, kn_objects k !! p = Some (rc, y)) \/ (q <> p /\ kn_objects k !! q = Some (rc, x)).
Proof.
  unfold with_object. cbn. destruct (decide (q = p)) as [->|Hne].
  - rewrite lookup_alter_eq, fmap_Some. split.
    + intros ((rc' & y) & -> & E). injection E as -> ->. left. split_and!; [done|done|by exists y].
    + intros [(_ & -> & y & ->)|[H _]]; [by exists (rc, y)|done].
  - rewrite lookup_alter_ne by done. split; [by right|]. by intros [(-> & _)|[_ H]].
Qed.
Lemma with_object_size p s s' k rc q :
  kn_objects k !! p = Some (rc, SurfaceData s) -> is_memory_size s' = is_memory_size s ->
  size_at (with_object p s' k) q = size_at k q.
Proof.
  intros Hp Hs. unfold size_at, with_object. cbn. destruct (decide (q = p)) as [->|Hne].
  - rewrite lookup_alter_eq, Hp. done.
  - by rewrite lookup_alter_ne by done.
Qed.
Lemma minv_put l n m k p s s' :
  minv l (Datatypes.S n) m k -> kn_objects k !! p = Some (2, SurfaceData s) -> kept_surface s s' ->
  minv l n m (with_object p s' k).
Proof.
  intros Hm Hp Hk. pose proof (mi_locks _ _ _ _ Hm _ _ _ Hp) as Hlc. apply (minv_less _ _ n _ _ (Nat.le_succ_diag_r n)) in Hm as [].
  assert (Hlc' : is_lock_count s' <= is_lock_count s + 1) by apply Hk.
  constructor; try done.
  - intros id q Hq. destruct (mi_obj0 id q Hq) as (sq & Hsq & Hok).
    destruct (decide (q = p)) as [->|Hne].
    + exists s'. rewrite Hp in Hsq. injection Hsq as <-. split; [|].
      * apply with_object_lookup. left. split_and!; [done|done|by eexists].
      * apply (surf_ok_ext k); [done|]. apply (kept_surface_ok _ _ s); [done|lia|done].
    + exists sq. split; [apply with_object_lookup; by right|]. by apply (surf_ok_ext k).
  - intros q r sq sr Hq Hr Hmem. apply with_object_lookup in Hq, Hr.
    assert (Hms : is_memory s' = is_memory s) by apply Hk.
    destruct Hq as [(-> & [= ->] & _)|[_ Hq]]; destruct Hr as [(-> & [= ->] & _)|[_ Hr]]; try done.
    + apply (mi_own0 p r s sr); [done|done|congruence].
    + apply (mi_own0 q p sq s); [done|done|congruence].
    + by apply (mi_own0 q r sq sr).
  - intros q rc sq Hq. apply with_object_lookup in Hq as [(-> & _)|[_ Hq]]; [by apply (mi_live0 p 2 s)|by eapply mi_live0].
  - intros q rc sq Hq. apply with_object_lookup in Hq as [(-> & [= ->] & _)|[_ Hq]]; [lia|by eapply mi_locks0].
  - rewrite mi_sum0. unfold sum_sizes. f_equal. apply list_fmap_ext. intros i q _.
    symmetry. apply (with_object_size _ s _ _ 2); [done|]. apply Hk.
  - intros q Hq. destruct (mi_fresh0 q Hq) as [H1 H2]. split; [|done].
    apply eq_None_not_Some. intros ((rc & y) & Hy). apply with_object_lookup in Hy as [(-> & _)|[_ Hy]]; congruence.
  - intros c q Hq. destruct (mi_clients0 c q Hq) as (rc & i & Hi & Hrc). exists rc, i. split; [|done].
    apply with_object_lookup. right. split; [|done]. intros ->. congruence.
Qed.
Lemma dinv_put n sl m k p s d : dinv n sl m k d -> dinv n sl m (with_object p s k) d.
Proof.
  apply dinv_same; [done|cbn; lia|]. intros q Hq. apply eq_None_not_Some. intros ((rc & y) & Hy).
  apply with_object_lookup in Hy as [(-> & _ & z & Hz)|[_ Hy]]; congruence.
Qed.

(** A buffer written. *)
Definition with_buffer (b : Z) (x : buffer) (k : iokern) : iokern :=
  set_kn_buffers (<[b := x]> (kn_buffers k)) k.
Lemma minv_buffer l n m k b x f :
  minv l n m k -> kn_buffers k !! b = Some x -> minv l n m (with_buffer b (set_bytes f x) k).
Proof.
  intros [] Hb. constructor; try done.
  - intros id p Hp. destruct (mi_obj0 id p Hp) as (s & Hs & Hok). exists s. split; [done|].
    destruct Hok as [? (b' & x' & H1 & H2 & H3 & H4) ? ? ? ?]. constructor; try done. exists b'. cbn.
    destruct (decide (b' = b)) as [->|Hne].
    + rewrite lookup_insert_eq. exists (set_bytes f x). rewrite Hb in H3. injection H3 as <-. by split_and!; try apply H4.
    + rewrite lookup_insert_ne by done. by exists x'.
  - intros p Hp. destruct (mi_fresh0 p Hp) as [H1 H2]. split; [done|]. cbn. rewrite lookup_insert_ne; [done|]. congruence.
Qed.
Lemma dinv_side n sl m k k' d : on_side k k' -> dinv n sl m k d -> dinv n sl m k' d.
Proof. intros (Ho & _ & Hp & _). apply dinv_same; [done|done|]. by rewrite Ho. Qed.

(** * The primitives, run *)
Section primitives.
Context (m : manager) (d : discovery).
Implicit Types (k : iokern).
Abbreviation at_ k := (mk_iow m d k).

Lemma ask_run k : exists b k', ask (at_ k) = (b, at_ k') /\ on_side k k' /\ kn_heap k' = kn_heap k.
Proof. eexists _, _. split; [done|]. split; [split_and!; cbn; [done|done|lia|done]|done]. Qed.
Lemma IOMalloc_run z k : exists b k', IOMalloc z (at_ k) = (b, at_ k') /\ on_side k k'
  /\ kn_heap k' = kn_heap k + (if b then z else 0).
Proof.
  unfold IOMalloc, bind. destruct (ask_run k) as (b & k' & -> & Hk & Hh). destruct b.
  - eexists true, _. split; [done|]. split; [done|]. cbn. by rewrite Hh.
  - eexists false, k'. split; [done|]. split; [done|]. by rewrite Hh, Z.add_0_r.
Qed.
Lemma put_object_run p rc x k :
  put_object p rc x (at_ k) = (tt, at_ (set_kn_objects (<[p := (rc, x)]> (kn_objects k)) k)).
Proof. done. Qed.
Lemma retain_run p rc x k : kn_objects k !! p = Some (rc, x) ->
  retain p (at_ k) = (tt, at_ (set_kn_objects (<[p := (rc + 1, x)]> (kn_objects k)) k)).
Proof. intros H. unfold retain, bind. by rewrite (object_at_run _ _ _ _ _ H). Qed.
Lemma release_run p rc x k : kn_objects k !! p = Some (rc, x) ->
  release p (at_ k) = (tt, at_ (set_kn_objects
    (if rc =? 1 then delete p (kn_objects k) else <[p := (rc - 1, x)]> (kn_objects k)) k)).
Proof. intros H. unfold release, bind. rewrite (object_at_run _ _ _ _ _ H). by destruct (rc =? 1). Qed.
Lemma surface_at_run p rc s k : kn_objects k !! p = Some (rc, SurfaceData s) ->
  surface_at p (at_ k) = (Some s, at_ k).
Proof. intros H. unfold surface_at, bind. by rewrite (object_at_run _ _ _ _ _ H). Qed.
Lemma put_surface_run p s k : put_surface p s (at_ k) = (tt, at_ (with_object p s k)).
Proof. done. Qed.
Lemma buffer_at_run b x k : kn_buffers k !! b = Some x -> buffer_at b (at_ k) = (Some x, at_ k).
Proof. intros H. unfold buffer_at, get_kern, bind, gets. cbn [io_kern]. by rewrite H. Qed.
Lemma upd_buffer_run b x f k : kn_buffers k !! b = Some x ->
  upd_buffer b f (at_ k) = (tt, at_ (with_buffer b (f x) k)).
Proof. intros H. unfold upd_buffer, bind. by rewrite (buffer_at_run _ _ _ H). Qed.
Lemma release_buffer_run b x k : kn_buffers k !! b = Some x ->
  release_buffer b (at_ k) = (tt, at_ (set_kn_buffers (delete b (kn_buffers k)) k)).
Proof. intros H. unfold release_buffer, bind. by rewrite (buffer_at_run _ _ _ H). Qed.
Lemma touch_run p rc s k : kn_objects k !! p = Some (rc, SurfaceData s) ->
  exists t k', touch p (at_ k) = (tt, at_ (with_object p (set_is_last_access_time t s) k')) /\ on_clock k k'.
Proof.
  intros H. unfold touch, bind. destruct (now_run m d k) as (t & k' & -> & Hk). exists t, k'. split; [|done].
  destruct Hk as (c & ts & ->). by rewrite (surface_at_run _ rc s).
Qed.
End primitives.

Lemma bind_run {A B} (f : M iow A) (g : A -> M iow B) w a w' : f w = (a, w') -> bind f g w = g a w'.
Proof. intros E. unfold bind. by rewrite E. Qed.

(** * Creation *)
Definition reserved (id : Z) (m : manager) : Prop :=
  0 < id < sm_next_surface_id m /\ (id ∉ sm_released_surface_ids m) /\ sm_surface_map m !! id = None.
(** The ids given out and taken back. *)
Definition ids_moved (m m' : manager) : Prop :=
  exists r x, m' = set_sm_released_surface_ids r (set_sm_next_surface_id x m).

Lemma allocateSurfaceId_run l n m d k :
  minv l (Datatypes.S n) m k ->
  exists id m', allocateSurfaceId (mk_iow m d k) = (id, mk_iow m' d k)
    /\ minv l n m' k /\ reserved id m' /\ ids_moved m m'
    /\ id = default (sm_next_surface_id m) (last (sm_released_surface_ids m)).
Proof.
  intros Hm. pose proof (minv_less _ _ _ _ _ (Nat.le_succ_diag_r n) Hm) as Hm'. destruct Hm.
  unfold allocateSurfaceId, bind, get_mgr, gets. cbn [io_mgr].
  destruct mi_released0 as (Hn & Hl & Hr).
  destruct (last (sm_released_surface_ids m)) as [id|] eqn:E.
  - apply last_Some in E as (r & E). rewrite E in *. rewrite length_app in Hl. cbn in Hl.
    assert (Ht : take (length (r ++ [id]) - 1) (r ++ [id]) = r).
    { rewrite length_app. cbn. replace (length r + 1 - 1)%nat with (length r) by lia. apply take_app_length. }
    rewrite Ht. apply NoDup_app in Hn as (Hn1 & Hn2 & _).
    assert (Hid : id ∈ r ++ [id]) by (apply elem_of_app; right; by left). destruct (Hr id Hid) as [Hx Hy].
    eexists id, _. split; [done|]. split; [|split; [|split; [|done]]].
    + destruct Hm'. constructor; try done. split; [done|]. split; [cbn; lia|].
      intros i Hi. apply Hr. apply elem_of_app. by left.
    + split; [done|]. split; [|done]. cbn. intros Hi. apply (Hn2 id); [done|by left].
    + exists r, (sm_next_surface_id m). by destruct m.
  - eexists _, _. split; [done|]. split; [|split; [|split; [|done]]].
    + destruct Hm'. constructor; try done; cbn; rewrite ?u32_small by lia; try lia.
      * intros i Hi. specialize (mi_ids0 i Hi). lia.
      * split; [done|]. split; [done|]. intros i Hi. destruct (Hr i Hi). split; [lia|done].
    + unfold reserved. cbn. rewrite u32_small by lia. split_and!; [lia|lia| |].
      * intros Hi. destruct (Hr _ Hi) as [? _]. lia.
      * destruct (sm_surface_map m !! sm_next_surface_id m) eqn:Es; [|done].
        specialize (mi_ids0 _ (ex_intro _ _ Es)). lia.
    + exists (sm_released_surface_ids m), (u32 (sm_next_surface_id m + 1)). by destruct m.
Qed.
Lemma minv_releases l n m k id :
  minv l n m k -> reserved id m -> (length (sm_released_surface_ids m) < 64)%nat ->
  minv l n (set_sm_released_surface_ids (sm_released_surface_ids m ++ [id]) m) k.
Proof.
  intros [] (H1 & H2 & H3) Hl. constructor; try done. destruct mi_released0 as (Hn & _ & Hr).
  split; [|split].
  - apply NoDup_app. split; [done|]. split; [|apply NoDup_singleton]. intros x Hx Hx'.
    apply list_elem_of_singleton in Hx' as ->. done.
  - cbn. rewrite length_app. cbn. lia.
  - intros i Hi. apply elem_of_app in Hi as [Hi|Hi]; [by apply Hr|]. by apply list_elem_of_singleton in Hi as ->.
Qed.
Lemma releaseSurfaceId_run l n m d k id :
  minv l n m k -> reserved id m ->
  exists m' k', releaseSurfaceId id (mk_iow m d k) = (tt, mk_iow m' d k')
    /\ minv l n m' k' /\ on_side k k' /\ kn_heap k' = kn_heap k
    /\ exists r, m' = set_sm_released_surface_ids r m.
Proof.
  intros Hm Hr. pose proof Hr as (H1 & _). unfold releaseSurfaceId. destruct (Z.eqb_spec id 0); [lia|].
  unfold bind at 1, get_mgr, gets. cbn [io_mgr]. unfold MAX_RECYCLED_IDS.
  assert (Hsame : exists r, m = set_sm_released_surface_ids r m) by (exists (sm_released_surface_ids m); by destruct m).
  destruct (Nat.ltb_spec (length (sm_released_surface_ids m)) 64).
  - unfold bind. destruct (ask_run m d k) as (b & k' & -> & Hk & Hh). destruct b.
    + eexists _, k'. split; [done|]. split; [|split; [done|split; [done|by eexists]]].
      apply (minv_side _ _ _ _ _ Hk) in Hm. by apply minv_releases.
    + exists m, k'. split; [done|]. split; [by eapply minv_side|done].
  - exists m, k. split; [done|]. split; [done|]. by split; [apply on_side_refl|].
Qed.

(** ** The size of a well-described surface *)
Definition desc_ok (d : surface_desc) : Prop :=
  sd_pixel_format d ∈ formats32
  /\ (sd_bytes_per_row d = 0
      \/ 4 * sd_width d <= sd_bytes_per_row d /\ sd_bytes_per_row d * sd_height d < 2 ^ 32 - 4096)
  /\ 0 <= sd_width d /\ 0 <= sd_height d.
Lemma page_align_spec t : 0 <= t < 2 ^ 32 - 4095 ->
  page_align t = (t + 4095) / 4096 * 4096 /\ t <= page_align t < t + 4096.
Proof.
  intros Ht. unfold page_align. rewrite u32_small by lia.
  assert (E : Z.land (t + 4095) 0xFFFFF000 = Z.shiftl (Z.shiftr (t + 4095) 12) 12).
  { change 0xFFFFF000 with (Z.shiftl (Z.ones 20) 12). apply Z.bits_inj'. intros i Hi.
    rewrite Z.land_spec. destruct (Z.lt_ge_cases i 12).
    - rewrite !Z.shiftl_spec_low by done. apply andb_false_r.
    - rewrite !Z.shiftl_spec_high by lia. rewrite Z.shiftr_spec by lia. replace (i - 12 + 12) with i by lia.
      destruct (Z.lt_ge_cases (i - 12) 20).
      + rewrite Z.ones_spec_low by lia. apply andb_true_r.
      + rewrite Z.ones_spec_high by lia. rewrite andb_false_r. symmetry.
        apply Z.testbit_false; [lia|]. rewrite Z.div_small; [done|].
        split; [lia|]. apply Z.lt_le_trans with (2 ^ 32); [lia|]. apply Z.pow_le_mono_r; lia. }
  rewrite E, Z.shiftl_mul_pow2, Z.shiftr_div_pow2 by lia. change (2 ^ 12) with 4096. split; [done|].
  pose proof (Z_div_mod_eq_full (t + 4095) 4096). pose proof (Z.mod_pos_bound (t + 4095) 4096 ltac:(lia)). lia.
Qed.
Lemma formats32_facts f : f ∈ formats32 -> getBytesPerPixel f = 4 /\ getPlaneCount f = 1
  /\ (forall yuv, validatePixelFormat yuv f = kIOReturnSuccess).
Proof. unfold formats32. rewrite !elem_of_cons, elem_of_nil. intros [->|[->|[->|[->|[]]]]]; by vm_compute. Qed.
Lemma desc_ok_size d : desc_ok d -> 0 < sd_width d <= 16384 -> 0 < sd_height d <= 16384 ->
  4 * (sd_width d * sd_height d) <= calculateSurfaceSize d < 2 ^ 32.
Proof.
  intros (Hf & Hr & _) Hw Hh. destruct (formats32_facts _ Hf) as (E1 & E2 & _).
  unfold calculateSurfaceSize. rewrite E1, E2. change (4 =? 0) with false. change (1 =? 1) with true. cbv beta iota zeta.
  assert (Hwh : 4 * (sd_width d * sd_height d) <= 4 * (16384 * 16384)) by nia.
  destruct (Z.ltb_spec 0 (sd_bytes_per_row d)).
  - destruct Hr as [Hr|[Hr1 Hr2]]; [lia|]. assert (4 * (sd_width d * sd_height d) <= sd_bytes_per_row d * sd_height d) by nia.
    rewrite u32_small by lia. pose proof (page_align_spec (sd_bytes_per_row d * sd_height d)). lia.
  - rewrite (u32_small (sd_width d * 4)) by lia. rewrite u32_small by nia.
    pose proof (page_align_spec (sd_width d * 4 * sd_height d)). nia.
Qed.

(** ** The object with its buffer, or nothing *)
Definition fresh_surface (d : surface_desc) (id size b t : Z) (planes : list plane_info) : io_surface :=
  mk_io_surface id (set_planes 1 planes d) (Some b) (Some b) 0 1 false false
    t t (sd_width d) (sd_height d) size 0 PRIORITY_NORMAL.
Definition surface_born (d : surface_desc) (id size p : Z) (k k' : iokern) : Prop :=
  exists b t planes x, kn_next_pointer k <= b < p /\ p < kn_next_pointer k'
    /\ kn_objects k' = <[p := (1, SurfaceData (fresh_surface d id size b t planes))]> (kn_objects k)
    /\ kn_buffers k' = <[b := x]> (kn_buffers k) /\ bf_length x = size /\ bf_prepared x = 1
    /\ kn_fault k' = kn_fault k /\ kn_heap k' = kn_heap k + SIZEOF_IOSURFACE.
(** Nothing left of it: the heap and the objects are as before, and the id is
    back (unless there was no room or memory to keep it). *)
Definition given_back (m m' : manager) (k k' : iokern) : Prop :=
  on_side k k' /\ kn_heap k' = kn_heap k /\ exists r, m' = set_sm_released_surface_ids r m.

Lemma with_fresh_buffer k b x : kn_buffers k !! b = None ->
  delete b (<[b := x]> (kn_buffers k)) = kn_buffers k.
Proof. intros H. by rewrite delete_insert_eq, delete_id. Qed.

Lemma undo_run l n m d k k' id r :
  minv l n m k -> reserved id m -> on_side k k' -> kn_heap k' = kn_heap k + SIZEOF_IOSURFACE ->
  exists m' k2, (IOFree SIZEOF_IOSURFACE ;;; releaseSurfaceId id ;;; ret (inl r : IOReturn + Z)) (mk_iow m d k')
    = (inl r, mk_iow m' d k2) /\ minv l n m' k2 /\ given_back m m' k k2.
Proof.
  intros Hm Hr Hk Hh. unfold IOFree, upd_kern, modify, bind at 1. cbn [io_mgr io_disc io_kern].
  set (k1 := set_kn_heap (kn_heap k' - SIZEOF_IOSURFACE) k').
  assert (Hk1 : on_side k k1) by (destruct Hk as (? & ? & ? & ?); by split_and!).
  destruct (releaseSurfaceId_run l n m d k1 id) as (m2 & k2 & E & Hm2 & Hk2 & Hh2 & Hr2); [by eapply minv_side|done|].
  exists m2, k2. rewrite (bind_run _ _ _ _ _ E). split; [done|]. split; [done|].
  split; [by eapply on_side_trans|]. split; [rewrite Hh2; cbn; lia|done].
Qed.
Lemma withCapacity_run size m d k :
  kn_buffers k !! kn_next_pointer k = None ->
  exists k', (withCapacity size (mk_iow m d k) = (None, mk_iow m d k') /\ on_side k k' /\ kn_heap k' = kn_heap k)
  \/ exists b f, withCapacity size (mk_iow m d k) = (Some b, mk_iow m d k') /\ b = kn_next_pointer k
     /\ kn_buffers k' = <[b := mk_buffer size f 0]> (kn_buffers k) /\ kn_objects k' = kn_objects k
     /\ kn_next_pointer k' = b + 1 /\ kn_fault k' = kn_fault k /\ kn_heap k' = kn_heap k.
Proof.
  intros Hf. unfold withCapacity, bind, ask. cbn. destruct (hd true (kn_answers k)).
  - eexists. right. eexists _, _. split; [done|]. by split_and!.
  - eexists. left. split; [done|]. split; [split_and!; cbn; [done|done|lia|done]|done].
Qed.
(** A buffer that came and went. *)
Lemma dropped_side k k1 k2 b x : kn_buffers k !! b = None ->
  kn_buffers k2 = delete b (<[b := x]> (kn_buffers k)) -> kn_objects k2 = kn_objects k ->
  kn_next_pointer k <= kn_next_pointer k2 -> kn_fault k2 = kn_fault k -> on_side k1 k -> on_side k1 k2.
Proof.
  intros Hb E Ho Hp Hf H1. eapply on_side_trans; [done|]. split_and!; [done| |done|done].
  by rewrite E, with_fresh_buffer.
Qed.

(** What [new_surface] ends in: everything given back, or a surface born. *)
Definition born_or_not (l : lock_state) (n : nat) (m : manager) (k : iokern) (desc : surface_desc) (id size : Z)
    (r : IOReturn + Z) (m' : manager) (k' : iokern) : Prop :=
  match r with
  | inl e => is_success e = false /\ minv l n m' k' /\ given_back m m' k k'
  | inr p => m' = m /\ surface_born desc id size p k k'
  end.

Section birth.
Context (l : lock_state) (n : nat) (m : manager) (d : discovery) (k : iokern) (desc : surface_desc) (id size : Z).
Context (Hm : minv l n m k) (Hr : reserved id m).
Abbreviation ends_in prog k' := (exists r m' k2, prog (mk_iow m d k') = (r, mk_iow m' d k2)
  /\ born_or_not l n m k desc id size r m' k2).

Lemma given_up e k' : is_success e = false -> on_side k k' -> kn_heap k' = kn_heap k + SIZEOF_IOSURFACE ->
  ends_in (IOFree SIZEOF_IOSURFACE ;;; releaseSurfaceId id ;;; ret (inl e : IOReturn + Z)) k'.
Proof using Hm Hr.
  intros He Hk Hh. destruct (undo_run l n m d k k' id e Hm Hr Hk Hh) as (m' & k2 & E & H).
  by exists (inl e), m', k2.
Qed.

(** From here on with the struct allocated in [k2], and a buffer [b] in it. *)
Context (k2 : iokern) (b : Z) (x : buffer).
Context (Hk2 : on_side k k2) (Hh2 : kn_heap k2 = kn_heap k + SIZEOF_IOSURFACE).
Context (Hfresh : kn_buffers k2 !! b = None) (Hb : kn_next_pointer k2 <= b).
Definition has_buffer (k' : iokern) : Prop :=
  kn_buffers k' = <[b := x]> (kn_buffers k2) /\ kn_objects k' = kn_objects k2 /\ b < kn_next_pointer k'
  /\ kn_fault k' = kn_fault k2 /\ kn_heap k' = kn_heap k2.
Lemma has_buffer_ask m0 d0 k' : has_buffer k' ->
  exists ok k'', ask (mk_iow m0 d0 k') = (ok, mk_iow m0 d0 k'') /\ has_buffer k''.
Proof using Type. intros (H1 & H2 & H3 & H4 & H5). eexists _, _. split; [done|]. by split_and!. Qed.
Lemma has_buffer_at k' : has_buffer k' -> kn_buffers k' !! b = Some x.
Proof using Type. intros (-> & _). apply lookup_insert_eq. Qed.
Lemma dropped k' : has_buffer k' -> on_side k (set_kn_buffers (delete b (kn_buffers k')) k').
Proof using Hk2 Hfresh Hb.
  intros (H1 & H2 & H3 & H4 & H5). eapply (dropped_side k2 _ _ b x); [done|cbn; by rewrite H1|done|cbn; lia|done|done].
Qed.
Lemma completed_drop e k' : is_success e = false -> has_buffer k' ->
  ends_in (complete b ;;; release_buffer b ;;; IOFree SIZEOF_IOSURFACE ;;; releaseSurfaceId id ;;; ret (inl e : IOReturn + Z)) k'.
Proof using Hm Hr Hk2 Hh2 Hfresh Hb.
  intros He Hk'. unfold complete. rewrite (bind_run _ _ _ _ _ (upd_buffer_run _ _ _ _ _ _ (has_buffer_at _ Hk'))).
  rewrite (bind_run _ _ _ _ _ (release_buffer_run _ _ b (set_prepared Z.pred x) _ (lookup_insert_eq _ _ _))).
  apply given_up; [done| |cbn; destruct Hk' as (_ & _ & _ & _ & H5); lia].
  pose proof (dropped _ Hk') as Hd. cbn in *. by rewrite delete_insert_eq.
Qed.
Lemma born t pl k' : has_buffer k' -> bf_length x = size -> bf_prepared x = 1 ->
  ends_in (let! base := bytes_of b in
           match base with
           | None => complete b ;;; release_buffer b ;;; IOFree SIZEOF_IOSURFACE ;;; releaseSurfaceId id ;;; ret (inl kIOReturnVMError)
           | Some _ =>
               let! data := withBytes (SurfaceData
                 (mk_io_surface id (set_planes 1 pl desc) (Some b) base 0 1 false false
                    t t (sd_width desc) (sd_height desc) size 0 PRIORITY_NORMAL)) in
               match data with
               | None => complete b ;;; release_buffer b ;;; IOFree SIZEOF_IOSURFACE ;;; releaseSurfaceId id ;;; ret (inl kIOReturnNoMemory)
               | Some p => ret (inr p)
               end
           end) k'.
Proof using Hm Hr Hk2 Hh2 Hfresh Hb.
  intros Hk' Hx1 Hx2. unfold bytes_of, bind at 1, bind at 1.
  destruct (has_buffer_ask m d k' Hk') as (ok & k6 & -> & Hk6). unfold ret at 1. destruct ok; [|by apply completed_drop].
  unfold withBytes, bind at 1, bind at 1.
  destruct (has_buffer_ask m d k6 Hk6) as (ok & k7 & -> & (H1 & H2 & H3 & H4 & H5)). destruct ok; [|by apply completed_drop].
  eexists (inr _), m, _. split; [done|]. split; [done|]. destruct Hk2 as (K1 & K2 & K3 & K4).
  exists b, t, pl, x. unfold fresh_surface. cbn.
  split_and!; [lia|done|lia|by rewrite H2, K1|by rewrite H1, K2|done|done|congruence|lia].
Qed.
End birth.

Lemma new_surface_run l n m d k desc id size :
  minv l n m k -> reserved id m -> desc_ok desc -> size = calculateSurfaceSize desc -> size <> 0 ->
  exists r m' k', new_surface desc id size (mk_iow m d k) = (r, mk_iow m' d k')
    /\ born_or_not l n m k desc id size r m' k'.
Proof.
  intros Hm Hr [Hf _] Hsize Hnz. destruct (formats32_facts _ Hf) as (_ & E2 & _).
  unfold new_surface. cbv zeta. unfold bind at 1.
  destruct (IOMalloc_run m d SIZEOF_IOSURFACE k) as (ok & k1 & -> & Hk1 & Hh1). destruct ok; cbn [negb].
  2: { unfold bind. destruct (releaseSurfaceId_run l n m d k1 id) as (m' & k' & -> & Hm' & Hk' & Hh' & Hrel); [by eapply minv_side|done|].
       eexists (inl _), m', k'. split; [done|]. split; [done|]. split; [done|].
       split; [by eapply on_side_trans|]. split; [by rewrite Hh', Hh1, Z.add_0_r|done]. }
  unfold bind at 1. destruct (now_run m d k1) as (t & k2 & -> & Hk2).
  assert (Hh2 : kn_heap k2 = kn_heap k + SIZEOF_IOSURFACE) by (destruct Hk2 as (? & ? & ->); exact Hh1).
  apply on_clock_side, (on_side_trans _ _ _ Hk1) in Hk2. clear k1 Hk1 Hh1.
  assert (Hsp : exists pl, setupPlaneInfo (sd_pixel_format desc) (sd_width desc) (sd_height desc) (sd_planes desc)
                  = (kIOReturnSuccess, 1, pl)).
  { unfold setupPlaneInfo. rewrite E2, bool_decide_true by done. by eexists. }
  destruct Hsp as (pl & ->). change (negb (is_success kIOReturnSuccess)) with false. cbv match.
  assert (Hfresh : kn_buffers k2 !! kn_next_pointer k2 = None).
  { destruct Hk2 as (_ & -> & Hp & _). apply (mi_fresh _ _ _ _ Hm). lia. }
  unfold allocateSurfaceMemory. rewrite <- Hsize. destruct (Z.eqb_spec size 0); [done|]. unfold bind at 1, bind at 1.
  destruct (withCapacity_run size m d k2 Hfresh) as (k3 & [(-> & Hk3 & Hh3)|(b & f & -> & Hb & Hb3 & Ho3 & Hp3 & Hf3 & Hh3)]).
  { unfold ret at 1. apply given_up; [done|done|done|by eapply on_side_trans|lia]. }
  unfold ret at 1. rewrite <- Hb in Hfresh.
  assert (Hk3 : has_buffer k2 b (mk_buffer size f 0) k3) by (split_and!; first [done|lia]).
  unfold prepare, bind at 1, bind at 1. destruct (has_buffer_ask _ _ _ m d k3 Hk3) as (ok & k4 & -> & Hk4). destruct ok.
  2: { unfold ret at 1. cbn [negb]. rewrite (bind_run _ _ _ _ _ (release_buffer_run _ _ _ _ _ (has_buffer_at _ _ _ _ Hk4))).
       apply given_up; [done|done|done| |cbn; destruct Hk4 as (_ & _ & _ & _ & H5); lia].
       by eapply (dropped k k2 b); [done|done|lia|]. }
  unfold bind at 1. rewrite (upd_buffer_run _ _ _ _ _ _ (has_buffer_at _ _ _ _ Hk4)). unfold ret at 1. cbn [negb].
  apply (born l n m d k desc id size Hm Hr k2 b (set_prepared Z.succ (mk_buffer size f 0))); try done; [lia|].
  destruct Hk4 as (H1 & H2 & H3 & H4 & H5). split_and!; try done. cbn. by rewrite H1, insert_insert_eq.
Qed.

(** ** Entering the object *)
Lemma sum_sizes_app k ps qs : sum_sizes k (ps ++ qs) = sum_sizes k ps + sum_sizes k qs.
Proof. unfold sum_sizes. induction ps as [|p ps IH]; [done|]. cbn in *. lia. Qed.
Lemma sum_sizes_frame k k' ps : (forall p, p ∈ ps -> size_at k' p = size_at k p) -> sum_sizes k' ps = sum_sizes k ps.
Proof.
  intros H. unfold sum_sizes. f_equal. apply list_fmap_ext. intros i p Hp. apply H. by eapply list_elem_of_lookup_2.
Qed.
Lemma minv_map_inj l n m k id id' p : minv l n m k ->
  sm_surface_map m !! id = Some p -> sm_surface_map m !! id' = Some p -> id = id'.
Proof.
  intros Hm H1 H2. destruct (mi_obj _ _ _ _ Hm _ _ H1) as (s & Hs & [<- _ _ _ _ _ _]).
  destruct (mi_obj _ _ _ _ Hm _ _ H2) as (s' & Hs' & [<- _ _ _ _ _ _]). congruence.
Qed.
Lemma minv_pointer_old l n m k id p : minv l n m k -> sm_surface_map m !! id = Some p -> p < kn_next_pointer k.
Proof.
  intros Hm Hp. destruct (mi_obj _ _ _ _ Hm _ _ Hp) as (s & Hs & _).
  apply Z.lt_nge. intros Hle. destruct (mi_fresh _ _ _ _ Hm p Hle). congruence.
Qed.
Lemma minv_size_pos l n m k : minv l n m k -> forall ps, (forall p, p ∈ ps -> p ∈ sm_surfaces m) -> 0 <= sum_sizes k ps.
Proof.
  intros Hm ps. induction ps as [|p ps IH]; intros Hps; [done|]. unfold sum_sizes in *. cbn.
  assert (0 <= size_at k p).
  { destruct (proj1 (mi_map _ _ _ _ Hm p) (Hps p ltac:(left))) as (id & Hid).
    destruct (mi_obj _ _ _ _ Hm _ _ Hid) as (s & Hs & Hok). unfold size_at. rewrite Hs. pose proof (so_size _ _ _ Hok).
    pose proof (so_dims _ _ _ Hok). nia. }
  assert (0 <= foldr Z.add 0 (size_at k <$> ps)) by (apply IH; intros q Hq; apply Hps; by right). lia.
Qed.

(** The manager before and after a surface is entered. *)
Record entered (id p size : Z) (m m' : manager) : Prop := {
  en_lock : sm_surface_lock m' = sm_surface_lock m;
  en_surfaces : sm_surfaces m' = sm_surfaces m ++ [p];
  en_map : sm_surface_map m' = <[id := p]> (sm_surface_map m);
  en_next : sm_next_surface_id m' = sm_next_surface_id m;
  en_released : sm_released_surface_ids m' = sm_released_surface_ids m;
  en_total : sm_total_surface_memory m' = sm_total_surface_memory m;
  en_allocated : sm_allocated_surface_memory m' = sm_allocated_surface_memory m + size;
  en_count : sm_surface_count m' = sm_surface_count m + 1;
  en_clients : sm_clients m' = sm_clients m /\ sm_client_map m' = sm_client_map m
    /\ sm_shared_surfaces m' = sm_shared_surfaces m
}.
(** The kernel before and after: a surface with references from the array and
    the dictionary. *)
Definition settled (desc : surface_desc) (id size p : Z) (k k' : iokern) : Prop :=
  exists b t planes x, kn_next_pointer k <= b < p /\ p < kn_next_pointer k'
    /\ kn_objects k' = <[p := (2, SurfaceData (fresh_surface desc id size b t planes))]> (kn_objects k)
    /\ kn_buffers k' = <[b := x]> (kn_buffers k) /\ bf_length x = size /\ bf_prepared x = 1
    /\ kn_fault k' = kn_fault k /\ kn_heap k' = kn_heap k + SIZEOF_IOSURFACE.

Lemma fresh_surface_ok k desc id size b t pl x :
  desc_ok desc -> 0 < sd_width desc <= 16384 -> 0 < sd_height desc <= 16384 -> size = calculateSurfaceSize desc ->
  kn_buffers k !! b = Some x -> bf_length x = size -> bf_prepared x = 1 ->
  surf_ok k id (fresh_surface desc id size b t pl).
Proof.
  intros Hd Hw Hh -> Hb Hl Hp. constructor; try done; cbn.
  - by exists b, x.
  - apply Hd.
  - by apply desc_ok_size.
Qed.
Lemma minv_enter l n m m' k k' desc id p size :
  minv l (Datatypes.S n) m k -> reserved id m -> desc_ok desc ->
  0 < sd_width desc <= 16384 -> 0 < sd_height desc <= 16384 -> size = calculateSurfaceSize desc ->
  sm_allocated_surface_memory m + size <= sm_total_surface_memory m ->
  settled desc id size p k k' -> entered id p size m m' -> minv l n m' k'.
Proof.
  intros Hm (Hid & Hrel & Hnone) Hdesc Hw Hh Hsz Hfit (b & t & pl & x & Hb & Hp & Eo & Eb & Hx1 & Hx2 & Ef & _) [].
  assert (Hold : forall i q, sm_surface_map m !! i = Some q -> q < kn_next_pointer k) by (intros i q; by apply (minv_pointer_old _ _ _ _ _ _ Hm)).
  assert (Hobk : forall q y, kn_objects k !! q = Some y -> q < kn_next_pointer k).
  { intros q y Hq. apply Z.lt_nge. intros Hle. destruct (mi_fresh _ _ _ _ Hm q Hle). congruence. }
  assert (Hbufk : forall q y, kn_buffers k !! q = Some y -> q < kn_next_pointer k).
  { intros q y Hq. apply Z.lt_nge. intros Hle. destruct (mi_fresh _ _ _ _ Hm q Hle). congruence. }
  set (s := fresh_surface desc id size b t pl) in *.
  assert (Hnew : forall q s', kn_objects k !! q = Some (2, SurfaceData s') -> is_memory s' <> is_memory s).
  { intros q s' Hq E. pose proof (mi_live _ _ _ _ Hm _ _ _ Hq) as Hin. apply (mi_map _ _ _ _ Hm) in Hin as (i & Hi).
    destruct (mi_obj _ _ _ _ Hm _ _ Hi) as (s2 & Hs2 & Hok). rewrite Hq in Hs2. injection Hs2 as <-.
    destruct (so_buffer _ _ _ Hok) as (b' & x' & E1 & _ & E3 & _). rewrite E in E1. injection E1 as ->.
    pose proof (Hbufk _ _ E3). lia. }
  constructor; rewrite ?en_lock0, ?en_next0, ?en_released0, ?en_total0, ?en_surfaces0, ?en_map0, ?Ef; try apply Hm.
  - apply NoDup_app. split; [apply Hm|]. split; [|apply NoDup_singleton]. intros q Hq Hq'.
    apply list_elem_of_singleton in Hq' as ->. apply (mi_map _ _ _ _ Hm) in Hq as (i & Hi). pose proof (Hold _ _ Hi). lia.
  - intros q. rewrite elem_of_app, list_elem_of_singleton, (mi_map _ _ _ _ Hm). split.
    + intros [(i & Hi)| ->]; [exists i; rewrite lookup_insert_ne; [done|congruence]|exists id; apply lookup_insert_eq].
    + intros (i & Hi). apply lookup_insert_Some in Hi as [[_ <-]|[_ Hi]]; [by right|left; by exists i].
  - intros i q Hi. rewrite Eo. apply lookup_insert_Some in Hi as [[<- <-]|[_ Hi]].
    + exists s. split; [apply lookup_insert_eq|]. apply (fresh_surface_ok _ _ _ _ _ _ _ x); try done. rewrite Eb. apply lookup_insert_eq.
    + pose proof (Hold _ _ Hi). rewrite lookup_insert_ne by lia. destruct (mi_obj _ _ _ _ Hm _ _ Hi) as (s' & Hs' & [? (b' & x' & H1 & H2 & H3 & H4) ? ? ? ?]).
      exists s'. split; [done|]. constructor; try done. exists b', x'. rewrite Eb. pose proof (Hbufk _ _ H3). by rewrite lookup_insert_ne by lia.
  - intros q r s1 s2 Hq Hr E. rewrite Eo in Hq, Hr. apply lookup_insert_Some in Hq as [[<- Hq]|[_ Hq]]; apply lookup_insert_Some in Hr as [[<- Hr]|[_ Hr]]; try done.
    + injection Hq as <-. by apply Hnew in Hr.
    + injection Hr as <-. by apply Hnew in Hq.
    + by apply (mi_own _ _ _ _ Hm q r s1 s2).
  - intros q rc s' Hq. rewrite Eo in Hq. apply elem_of_app. apply lookup_insert_Some in Hq as [[<- _]|[_ Hq]]; [right; by left|left; by eapply mi_live].
  - intros q rc s' Hq. rewrite Eo in Hq. pose proof (mi_next _ _ _ _ Hm).
    apply lookup_insert_Some in Hq as [[<- [= <- <-]]|[_ Hq]]; [cbn; lia|]. pose proof (mi_locks _ _ _ _ Hm _ _ _ Hq). lia.
  - rewrite en_allocated0, (mi_sum _ _ _ _ Hm), sum_sizes_app. f_equal.
    + apply sum_sizes_frame. intros q Hq. apply (mi_map _ _ _ _ Hm) in Hq as (i & Hi). pose proof (Hold _ _ Hi).
      unfold size_at. rewrite Eo, lookup_insert_ne by lia. done.
    + unfold sum_sizes. cbn. unfold size_at. rewrite Eo, lookup_insert_eq. cbn. lia.
  - pose proof (mi_total _ _ _ _ Hm). lia.
  - rewrite en_count0, length_app. pose proof (mi_count _ _ _ _ Hm). cbn. lia.
  - intros i [q Hi]. apply lookup_insert_Some in Hi as [[<- _]|[_ Hi]]; [lia|]. apply (mi_ids _ _ _ _ Hm). by eexists.
  - destruct (mi_released _ _ _ _ Hm) as (H1 & H2 & H3). split; [done|]. split; [done|]. intros i Hi. destruct (H3 i Hi). split; [lia|].
    rewrite lookup_insert_ne; [done|congruence].
  - pose proof (mi_next _ _ _ _ Hm). lia.
  - intros q Hq. destruct (mi_fresh _ _ _ _ Hm q) as [H1 H2]; [lia|]. rewrite Eo, Eb, !lookup_insert_ne by lia. done.
  - intros c q Hq. destruct en_clients0 as (_ & E & _). unfold client_map_of in Hq. rewrite E in Hq.
    destruct (mi_clients _ _ _ _ Hm c q Hq) as (rc & i & Hi & H). exists rc, i. split; [|done]. rewrite Eo.
    pose proof (Hobk _ _ Hi). by rewrite lookup_insert_ne by lia.
Qed.

Lemma publish_run {A} (K : M iow A) m d k id p x :
  kn_objects k !! p = Some (1, x) -> sm_surface_map m !! id = None ->
  (surfaces_add p ;;; map_set id p ;;; release p ;;; K) (mk_iow m d k)
  = K (mk_iow (set_sm_surface_map (<[id := p]> (sm_surface_map m)) (set_sm_surfaces (sm_surfaces m ++ [p]) m)) d
         (set_kn_objects (<[p := (2, x)]> (kn_objects k)) k)).
Proof.
  intros Hp Hn. unfold surfaces_add, array_add, map_set, dict_set, upd_mgr, get_mgr, modify, gets, bind, ret.
  cbn [io_mgr io_disc io_kern]. rewrite (retain_run _ _ p 1 x k Hp). cbn [io_mgr io_disc io_kern].
  rewrite (retain_run _ _ p (1 + 1) x) by (cbn; apply lookup_insert_eq). cbn [io_mgr io_disc io_kern].
  assert (E : sm_surface_map (set_sm_surfaces (sm_surfaces m ++ [p]) m) !! id = None) by done. rewrite E.
  rewrite (release_run _ _ p (1 + 1 + 1) x) by (cbn; apply lookup_insert_eq).
  cbn. by rewrite !insert_insert_eq.
Qed.

(** A creation that fails leaves the manager's tables alone. *)
Definition same_tables (m m' : manager) : Prop :=
  sm_surfaces m' = sm_surfaces m /\ sm_surface_map m' = sm_surface_map m
  /\ sm_allocated_surface_memory m' = sm_allocated_surface_memory m
  /\ sm_surface_count m' = sm_surface_count m /\ sm_shared_surfaces m' = sm_shared_surfaces m
  /\ sm_client_map m' = sm_client_map m.
Lemma same_tables_refl m : same_tables m m.
Proof. done. Qed.
Definition next_id (m : manager) : Z := default (sm_next_surface_id m) (last (sm_released_surface_ids m)).
Definition creation (desc : surface_desc) (m m' : manager) (k k' : iokern) (r : IOReturn * option Z) : Prop :=
  if is_success r.1 then
    exists p, r.2 = Some (next_id m)
      /\ settled desc (next_id m) (calculateSurfaceSize desc) p k k'
      /\ sm_surface_map m !! next_id m = None
      /\ sm_surface_map m' = <[next_id m := p]> (sm_surface_map m)
      /\ sm_surfaces m' = sm_surfaces m ++ [p]
      /\ sm_allocated_surface_memory m' = sm_allocated_surface_memory m + calculateSurfaceSize desc
      /\ sm_shared_surfaces m' = sm_shared_surfaces m /\ sm_client_map m' = sm_client_map m
  else same_tables m m' /\ on_side k k' /\ kn_heap k' = kn_heap k.

Lemma dinv_enter_map n sl m m' k k' d desc id p size :
  minv Locked n m k -> sm_surface_map m !! id = None -> settled desc id size p k k' ->
  sm_surface_map m' = <[id := p]> (sm_surface_map m) -> dinv n sl m k d -> dinv n sl m' k' d.
Proof.
  intros Hm Hn (b & t & pl & x & Hb & Hp & Eo & _) Em. apply dinv_moves; [| |lia|done].
  - intros i q Hi. left. rewrite Em, lookup_insert_ne; [done|congruence].
  - intros q Hq Hno. rewrite Eo, lookup_insert_ne; [done|lia].
Qed.

Lemma lock_run m d k : sm_surface_lock m = Unlocked ->
  lock (mk_iow m d k) = (tt, mk_iow (set_sm_surface_lock Locked m) d k).
Proof. intros E. unfold lock, upd_mgr, modify. cbn [io_mgr io_disc io_kern]. by rewrite E. Qed.
Lemma unlock_run m d k : sm_surface_lock m = Locked ->
  unlock (mk_iow m d k) = (tt, mk_iow (set_sm_surface_lock Unlocked m) d k).
Proof. intros E. unfold unlock, upd_mgr, modify. cbn [io_mgr io_disc io_kern]. by rewrite E. Qed.

Lemma count_surface_run l n m d k0 k id p size :
  minv l (Datatypes.S n) m k0 -> 0 <= size -> sm_allocated_surface_memory m + size <= sm_total_surface_memory m ->
  exists m', count_surface size (mk_iow (set_sm_surface_map (<[id := p]> (sm_surface_map m))
                                          (set_sm_surfaces (sm_surfaces m ++ [p]) m)) d k) = (tt, mk_iow m' d k)
    /\ entered id p size m m'.
Proof.
  intros Hm Hs Hfit. pose proof (mi_total _ _ _ _ Hm). pose proof (mi_count _ _ _ _ Hm) as [Hc1 Hc2].
  assert (0 <= sm_allocated_surface_memory m).
  { rewrite (mi_sum _ _ _ _ Hm). by apply (minv_size_pos _ _ _ _ Hm). }
  eexists. split; [reflexivity|]. cbn.
  assert (E1 : u32 (sm_surface_count m + 1) = sm_surface_count m + 1) by (apply u32_small; lia).
  assert (E2 : u64 (sm_allocated_surface_memory m + size) = sm_allocated_surface_memory m + size) by (apply u64_small; lia).
  destruct (_ <? _); constructor; cbn; done.
Qed.
Lemma same_ids_tables m m' : ids_moved m m' -> same_tables m m' /\ sm_surface_lock m' = sm_surface_lock m
  /\ sm_total_surface_memory m' = sm_total_surface_memory m /\ sm_clients m' = sm_clients m.
Proof. by intros (r & x & ->). Qed.

(** The locked part, from the allocation of the id on. *)
Lemma create_locked_run n sl m d k desc :
  minv Locked (Datatypes.S (Datatypes.S n)) m k -> dinv n sl m k d -> desc_ok desc ->
  0 < sd_width desc <= 16384 -> 0 < sd_height desc <= 16384 ->
  sm_allocated_surface_memory m + calculateSurfaceSize desc <= sm_total_surface_memory m ->
  exists r m' k',
    (let! id := allocateSurfaceId in
     let! surface_data := new_surface desc id (calculateSurfaceSize desc) in
     match surface_data with
     | inl r => unlock ;;; ret (r, Some id)
     | inr p => surfaces_add p ;;; map_set id p ;;; release p ;;;
                count_surface (calculateSurfaceSize desc) ;;; unlock ;;; ret (kIOReturnSuccess, Some id)
     end) (mk_iow m d k) = (r, mk_iow m' d k')
    /\ minv Unlocked n m' k' /\ dinv n sl m' k' d /\ creation desc m m' k k' r.
Proof.
  intros Hm Hd Hdesc Hw Hh Hfit. pose proof (desc_ok_size _ Hdesc Hw Hh) as Hsz.
  destruct (allocateSurfaceId_run _ _ _ d _ Hm) as (id & m1 & E1 & Hm1 & Hr & Hmv & Hid). fold (next_id m) in Hid.
  rewrite (bind_run _ _ _ _ _ E1). destruct (same_ids_tables _ _ Hmv) as ((T1 & T2 & T3 & T4 & T5 & T6) & TL & TT & TC).
  destruct (new_surface_run _ _ m1 d k desc id (calculateSurfaceSize desc) Hm1 Hr Hdesc eq_refl ltac:(nia)) as (r & m2 & k2 & E2 & Hbn).
  rewrite (bind_run _ _ _ _ _ E2). destruct r as [e|p]; cbn in Hbn.
  - destruct Hbn as (He & Hm2 & Hk2 & Hh2 & rel & ->).
    rewrite (bind_run _ _ _ _ _ (unlock_run _ _ _ (mi_lock _ _ _ _ Hm2))). eexists _, _, k2. split; [done|].
    split; [eapply minv_set_lock, minv_less; [|done]; lia|]. split.
    + apply (dinv_side _ _ _ k); [done|]. by apply (dinv_same _ _ m _ k k).
    + unfold creation. cbn [fst]. by rewrite He.
  - destruct Hbn as (-> & (b & t & pl & x & Hb & Hp & Ho & Hbf & Hx1 & Hx2 & Hf & Hhp)).
    set (s := fresh_surface desc id (calculateSurfaceSize desc) b t pl) in *.
    assert (Hpo : kn_objects k2 !! p = Some (1, SurfaceData s)) by (rewrite Ho; apply lookup_insert_eq).
    pose proof Hr as (_ & _ & Hnone). rewrite (publish_run _ m1 d k2 id p _ Hpo Hnone).
    set (k3 := set_kn_objects (<[p := (2, SurfaceData s)]> (kn_objects k2)) k2).
    destruct (count_surface_run _ _ _ d _ k3 id p (calculateSurfaceSize desc) Hm1 ltac:(nia) ltac:(lia)) as (m3 & E3 & Hent).
    rewrite (bind_run _ _ _ _ _ E3).
    assert (Hset : settled desc id (calculateSurfaceSize desc) p k k3).
    { exists b, t, pl, x. unfold k3. cbn. rewrite Ho, insert_insert_eq. by split_and!; try lia. }
    assert (Hm3 : minv Locked n m3 k3).
    { by apply (minv_enter _ _ _ _ _ _ _ _ _ _ Hm1 Hr Hdesc Hw Hh eq_refl ltac:(lia) Hset). }
    rewrite (bind_run _ _ _ _ _ (unlock_run _ _ _ (mi_lock _ _ _ _ Hm3))). eexists _, _, k3. split; [done|].
    destruct Hent. split; [by eapply minv_set_lock|]. split.
    + apply (dinv_enter_map _ _ m _ k _ _ desc id p (calculateSurfaceSize desc)); [by eapply minv_less; [|done]; lia|congruence|done| |done].
      cbn. by rewrite en_map0, T2.
    + unfold creation. cbn [fst]. change (is_success kIOReturnSuccess) with true. cbv match. rewrite <- Hid. cbn.
      destruct en_clients0 as (C1 & C2 & C3). exists p. split_and!; try congruence; done.
Qed.
Lemma createSurface_run n sl m d k desc :
  minv Unlocked (Datatypes.S (Datatypes.S n)) m k -> dinv n sl m k d -> desc_ok desc ->
  exists r m' k', createSurface (Some desc) true (mk_iow m d k) = (r, mk_iow m' d k')
    /\ minv Unlocked n m' k' /\ dinv n sl m' k' d /\ creation desc m m' k k' r.
Proof.
  intros Hm Hd Hdesc. pose proof Hdesc as (Hf & _ & Hw0 & Hh0). destruct (formats32_facts _ Hf) as (_ & _ & Ev).
  assert (Hfail : forall e m', is_success e = false -> same_tables m m' -> minv Unlocked n m' k ->
    exists r m2 k', (e, None, mk_iow m' d k) = (r, mk_iow m2 d k')
    /\ minv Unlocked n m2 k' /\ dinv n sl m2 k' d /\ creation desc m m2 k k' r).
  { intros e m' He Ht Hm'. eexists _, m', k. split; [done|]. split; [done|]. split.
    - apply (dinv_same _ _ m _ k k); [apply Ht|done|done|done].
    - unfold creation. cbn [fst]. rewrite He. split; [done|]. by split; [apply on_side_refl|]. }
  assert (Hless : minv Unlocked n m k) by (eapply minv_less; [|done]; lia).
  unfold createSurface. unfold negb at 1. unfold bind at 1, get_mgr, gets. cbn [io_mgr]. rewrite Ev.
  change (negb (is_success kIOReturnSuccess)) with false. cbv match.
  destruct (_ || _) eqn:Edims; [by apply Hfail|].
  apply orb_false_iff in Edims as [Edims E4]. apply orb_false_iff in Edims as [Edims E3]. apply orb_false_iff in Edims as [E1 E2].
  apply Z.eqb_neq in E1, E2. apply Z.ltb_ge in E3, E4. pose proof (desc_ok_size _ Hdesc ltac:(lia) ltac:(lia)) as Hsz.
  rewrite (bind_run _ _ _ _ _ (lock_run _ _ _ (mi_lock _ _ _ _ Hm))). cbv zeta.
  destruct (Z.eqb_spec (calculateSurfaceSize desc) 0); [nia|].
  unfold bind at 1, get_mgr, gets. cbn [io_mgr sm_total_surface_memory sm_allocated_surface_memory set_sm_surface_lock].
  set (mL := set_sm_surface_lock Locked m).
  assert (HmL : minv Locked (Datatypes.S (Datatypes.S n)) mL k) by by eapply minv_set_lock.
  destruct (_ <? _) eqn:Efit.
  { rewrite (bind_run _ _ _ _ _ (unlock_run _ _ _ (mi_lock _ _ _ _ HmL))). apply Hfail; [done|done|].
    eapply minv_set_lock, minv_less; [|done]; lia. }
  apply Z.ltb_ge in Efit. pose proof (mi_total _ _ _ _ Hm).
  assert (0 <= sm_allocated_surface_memory m).
  { rewrite (mi_sum _ _ _ _ Hm). by apply (minv_size_pos _ _ _ _ Hm). }
  rewrite u64_small in Efit by nia.
  assert (HdL : dinv n sl mL k d) by by apply (dinv_same _ _ m _ k k).
  destruct (create_locked_run n sl mL d k desc HmL HdL Hdesc ltac:(lia) ltac:(lia) Efit) as (r & m' & k' & E & H1 & H2 & H3).
  exists r, m', k'. rewrite E. split; [done|]. split; [done|]. by split.
Qed.

(** * Destruction *)
Record left_tables (id p size : Z) (m m' : manager) : Prop := {
  lv_lock : sm_surface_lock m' = sm_surface_lock m;
  lv_surfaces : p :: sm_surfaces m' ≡ₚ sm_surfaces m;
  lv_map : sm_surface_map m' = delete id (sm_surface_map m);
  lv_next : sm_next_surface_id m' = sm_next_surface_id m;
  lv_released : sm_released_surface_ids m' = sm_released_surface_ids m;
  lv_total : sm_total_surface_memory m' = sm_total_surface_memory m;
  lv_allocated : sm_allocated_surface_memory m' = sm_allocated_surface_memory m - size;
  lv_count : sm_surface_count m' = sm_surface_count m - 1;
  lv_clients : sm_clients m' = sm_clients m /\ sm_client_map m' = sm_client_map m
    /\ sm_shared_surfaces m' = sm_shared_surfaces m
}.
Definition buried (p b : Z) (k k' : iokern) : Prop :=
  kn_objects k' = delete p (kn_objects k) /\ kn_buffers k' = delete b (kn_buffers k)
  /\ kn_next_pointer k' = kn_next_pointer k /\ kn_fault k' = kn_fault k /\ kn_heap k' = kn_heap k.

Lemma sum_sizes_perm k ps qs : ps ≡ₚ qs -> sum_sizes k ps = sum_sizes k qs.
Proof. unfold sum_sizes. induction 1; cbn in *; lia. Qed.
Lemma minv_leave l n m m' k k' id p b s :
  minv l n m k -> sm_surface_map m !! id = Some p -> kn_objects k !! p = Some (2, SurfaceData s) ->
  is_memory s = Some b -> buried p b k k' -> left_tables id p (is_memory_size s) m m' ->
  minv l n m' k' /\ reserved id m'.
Proof.
  intros Hm Hid Hp Hsb (Eo & Eb & Enp & Ef & _) [].
  assert (Hnd : NoDup (p :: sm_surfaces m')) by (rewrite lv_surfaces0; apply Hm). apply NoDup_cons in Hnd as [Hnp Hnd].
  assert (Hin : forall q, q ∈ sm_surfaces m' <-> q ∈ sm_surfaces m /\ q <> p).
  { intros q. rewrite <- lv_surfaces0, elem_of_cons. split; [intros H; split; [by right|congruence]|by intros [[->|] ?]]. }
  assert (Hmap : forall i q, sm_surface_map m' !! i = Some q <-> sm_surface_map m !! i = Some q /\ q <> p).
  { intros i q. rewrite lv_map0, lookup_delete_Some. split; intros [H1 H2]; split; try done.
    - intros ->. apply H1. by apply (minv_map_inj _ _ _ _ _ _ _ Hm Hid H2).
    - congruence. }
  split; [constructor; rewrite ?lv_lock0, ?lv_next0, ?lv_released0, ?lv_total0, ?Ef, ?Enp; try apply Hm; try done|].
  - intros q. rewrite Hin, (mi_map _ _ _ _ Hm). split.
    + intros [(i & Hi) Hne]. exists i. by apply Hmap.
    + intros (i & Hi). apply Hmap in Hi as [Hi Hne]. split; [by exists i|done].
  - intros i q Hi. apply Hmap in Hi as [Hi Hne]. destruct (mi_obj _ _ _ _ Hm _ _ Hi) as (s' & Hs' & [? (b' & x' & H1 & H2 & H3 & H4) ? ? ? ?]).
    exists s'. split; [by rewrite Eo, lookup_delete_ne|]. constructor; try done. exists b', x'. rewrite Eb.
    assert (b <> b'); [|by rewrite lookup_delete_ne]. intros ->. apply Hne. apply (mi_own _ _ _ _ Hm q p s' s); [done|done|congruence].
  - intros q r s1 s2. rewrite Eo, !lookup_delete_Some. intros [_ Hq] [_ Hr]. by apply (mi_own _ _ _ _ Hm).
  - intros q rc s'. rewrite Eo, lookup_delete_Some. intros [Hne Hq]. apply Hin. split; [by eapply mi_live|done].
  - intros q rc s'. rewrite Eo, lookup_delete_Some. intros [_ Hq]. by apply (mi_locks _ _ _ _ Hm _ _ _ Hq).
  - rewrite lv_allocated0, (mi_sum _ _ _ _ Hm), <- (sum_sizes_perm _ _ _ lv_surfaces0). unfold sum_sizes at 1. cbn.
    unfold size_at at 1. rewrite Hp. rewrite (sum_sizes_frame k k'); [unfold sum_sizes; lia|].
    intros q Hq. unfold size_at. rewrite Eo, lookup_delete_ne; [done|]. by intros ->.
  - pose proof (mi_total _ _ _ _ Hm). destruct (mi_obj _ _ _ _ Hm _ _ Hid) as (s' & Hs' & Hok). rewrite Hp in Hs'. injection Hs' as <-.
    pose proof (so_size _ _ _ Hok). pose proof (so_dims _ _ _ Hok). nia.
  - pose proof (mi_count _ _ _ _ Hm) as [H1 H2]. rewrite <- lv_surfaces0 in H1. cbn in H1. lia.
  - intros i [q Hi]. apply Hmap in Hi as [Hi _]. apply (mi_ids _ _ _ _ Hm). by eexists.
  - destruct (mi_released _ _ _ _ Hm) as (H1 & H2 & H3). split; [done|]. split; [done|]. intros i Hi. destruct (H3 i Hi) as [H4 H5].
    split; [done|]. rewrite lv_map0. by apply lookup_delete_None; right.
  - intros q Hq. destruct (mi_fresh _ _ _ _ Hm q Hq) as [H1 H2]. rewrite Eo, Eb. split; apply lookup_delete_None; by right.
  - intros c q Hq. destruct lv_clients0 as (_ & E & _). unfold client_map_of in Hq. rewrite E in Hq.
    destruct (mi_clients _ _ _ _ Hm c q Hq) as (rc & i & Hi & H). exists rc, i. split; [|done]. rewrite Eo, lookup_delete_ne; [done|]. congruence.
  - split; [rewrite lv_next0; apply Hm; by eexists|]. split; [|rewrite lv_map0; apply lookup_delete_eq].
    rewrite lv_released0. intros Hr. destruct (mi_released _ _ _ _ Hm) as (_ & _ & H3). destruct (H3 id Hr). congruence.
Qed.
Lemma dinv_leave n sl m m' k k' d id p b :
  minv Locked n m k -> sm_surface_map m !! id = Some p -> buried p b k k' ->
  sm_surface_map m' = delete id (sm_surface_map m) -> dinv n sl m k d -> dinv n (id :: sl) m' k' d.
Proof.
  intros Hm Hid (Eo & _ & Enp & _) Em. apply dinv_moves; [| |lia|set_solver].
  - intros i q Hi. destruct (decide (i = id)) as [->|Hne].
    + right. rewrite Hid in Hi. injection Hi as <-. rewrite Eo, Enp. split; [apply lookup_delete_eq|]. split; [|by left].
      by eapply minv_pointer_old.
    + left. rewrite Em, lookup_delete_ne; [done|congruence].
  - intros q Hq Hno. rewrite Eo. apply lookup_delete_None. by right.
Qed.

(** The dictionary and the array let go of an object. *)
Lemma unlist_run {A} (K : M iow A) m d k id p x i :
  kn_objects k !! p = Some (2, x) -> sm_surface_map m !! id = Some p ->
  index_of (Z.eqb p) (sm_surfaces m) = Some i ->
  (map_remove id ;;; surfaces_remove p ;;; K) (mk_iow m d k)
  = K (mk_iow (set_sm_surfaces (delete i (sm_surfaces m)) (set_sm_surface_map (delete id (sm_surface_map m)) m)) d
         (set_kn_objects (delete p (kn_objects k)) k)).
Proof.
  intros Hp Hid Hi. unfold map_remove, dict_remove, surfaces_remove, array_remove, upd_mgr, get_mgr, modify, gets, bind, ret.
  cbn [io_mgr io_disc io_kern]. rewrite Hid. cbn [io_mgr io_disc io_kern].
  rewrite (release_run _ _ p 2 x k Hp). cbn [io_mgr io_disc io_kern].
  assert (E : sm_surfaces (set_sm_surface_map (delete id (sm_surface_map m)) m) = sm_surfaces m) by done. rewrite E, Hi.
  cbn [io_mgr io_disc io_kern]. rewrite (release_run _ _ p 1 x) by (cbn; apply lookup_insert_eq).
  cbn. by rewrite delete_insert_eq.
Qed.

Lemma delete_index_perm (ps : list Z) p i : index_of (Z.eqb p) ps = Some i -> p :: delete i ps ≡ₚ ps.
Proof.
  intros Hi. apply index_of_Some in Hi as (q & Hq & E & _). apply Z.eqb_eq in E as <-. symmetry. by apply delete_Permutation.
Qed.
Lemma uncount_surface_run l n m d k0 k p id i size :
  minv l n m k0 -> sm_surface_map m !! id = Some p -> index_of (Z.eqb p) (sm_surfaces m) = Some i ->
  0 <= size <= sm_allocated_surface_memory m ->
  exists m', uncount_surface size (mk_iow (set_sm_surfaces (delete i (sm_surfaces m))
               (set_sm_surface_map (delete id (sm_surface_map m)) m)) d k) = (tt, mk_iow m' d k)
    /\ left_tables id p size m m'.
Proof.
  intros Hm Hid Hi Hs. pose proof (mi_total _ _ _ _ Hm). pose proof (mi_count _ _ _ _ Hm) as [Hc1 Hc2].
  pose proof (delete_index_perm _ _ _ Hi) as Hp. pose proof (Permutation_length Hp) as Hl. cbn in Hl.
  eexists. split; [reflexivity|]. constructor; cbn; try done.
  - apply u64_small. lia.
  - apply u32_small. lia.
Qed.
Lemma size_in_total l n m k p rc s : minv l n m k -> p ∈ sm_surfaces m -> kn_objects k !! p = Some (rc, SurfaceData s) ->
  is_memory_size s <= sm_allocated_surface_memory m.
Proof.
  intros Hm Hin Hs. rewrite (mi_sum _ _ _ _ Hm). apply elem_of_Permutation in Hin as (qs & Hq).
  rewrite (sum_sizes_perm _ _ _ Hq). unfold sum_sizes. cbn. unfold size_at at 1. rewrite Hs.
  enough (0 <= sum_sizes k qs) by (unfold sum_sizes in *; lia).
  apply (minv_size_pos _ _ _ _ Hm). intros q Hqq. rewrite Hq. by right.
Qed.

(** The answer of [destroySurface], the tables and the memory after it. *)
Definition destruction (id : Z) (m m' : manager) (k k' : iokern) (r : IOReturn) : Prop :=
  match sm_surface_map m !! id with
  | None => (r = kIOReturnNotFound \/ id = 0 /\ r = kIOReturnBadArgument) /\ same_tables m m' /\ on_side k k'
  | Some p => exists s b, kn_objects k !! p = Some (2, SurfaceData s) /\ is_memory s = Some b
      /\ if 0 <? is_lock_count s then r = kIOReturnBusy /\ same_tables m m' /\ on_side k k'
         else r = kIOReturnSuccess /\ buried p b k k'
           /\ sm_surface_map m' = delete id (sm_surface_map m)
           /\ p :: sm_surfaces m' ≡ₚ sm_surfaces m
           /\ sm_allocated_surface_memory m' = sm_allocated_surface_memory m - is_memory_size s
           /\ sm_shared_surfaces m' = sm_shared_surfaces m
           /\ (sm_released_surface_ids m' = sm_released_surface_ids m ++ [id]
               \/ sm_released_surface_ids m' = sm_released_surface_ids m)
  end.
Lemma releaseSurfaceId_ids m d k id m' k' :
  releaseSurfaceId id (mk_iow m d k) = (tt, mk_iow m' d k') ->
  kn_objects k' = kn_objects k /\ kn_buffers k' = kn_buffers k /\ kn_next_pointer k' = kn_next_pointer k
  /\ (sm_released_surface_ids m' = sm_released_surface_ids m ++ [id]
      \/ sm_released_surface_ids m' = sm_released_surface_ids m).
Proof.
  unfold releaseSurfaceId. destruct (id =? 0); [intros [= <- <-]; by split_and!; [..|right]|].
  unfold bind at 1, get_mgr, gets. cbn [io_mgr]. destruct (_ <? _)%nat; [|intros [= <- <-]; by split_and!; [..|right]].
  unfold bind, ask. cbn. destruct (hd _ _); intros [= <- <-]; cbn; (split_and!; [done|done|done|]); [by left|by right].
Qed.

(** The part of [destroySurface] after the reference count has dropped to 0. *)
Lemma bury_run n sl m d k id p s b :
  minv Locked n m k -> dinv n sl m k d -> sm_surface_map m !! id = Some p ->
  kn_objects k !! p = Some (2, SurfaceData s) -> surf_ok k id s -> is_memory s = Some b ->
  exists m' k',
    (put_surface p (set_is_ref_count 0 s) ;;;
     (complete b ;;; release_buffer b ;;; put_surface p (set_is_memory None (set_is_ref_count 0 s))) ;;;
     map_remove id ;;;
     surfaces_remove p ;;;
     uncount_surface (is_memory_size s) ;;;
     releaseSurfaceId id ;;;
     unlock ;;;
     ret kIOReturnSuccess) (mk_iow m d k) = (kIOReturnSuccess, mk_iow m' d k')
    /\ minv Unlocked n m' k' /\ dinv n (id :: sl) m' k' d /\ buried p b k k'
    /\ sm_surface_map m' = delete id (sm_surface_map m) /\ p :: sm_surfaces m' ≡ₚ sm_surfaces m
    /\ sm_allocated_surface_memory m' = sm_allocated_surface_memory m - is_memory_size s
    /\ sm_shared_surfaces m' = sm_shared_surfaces m
    /\ (sm_released_surface_ids m' = sm_released_surface_ids m ++ [id]
        \/ sm_released_surface_ids m' = sm_released_surface_ids m).
Proof.
  intros Hm Hd Hid Hp Hok Hb. destruct (so_buffer _ _ _ Hok) as (b' & x & Eb & _ & Hx & _).
  rewrite Hb in Eb. injection Eb as <-.
  assert (Hin : p ∈ sm_surfaces m) by (apply (mi_map _ _ _ _ Hm); by exists id).
  destruct (index_of (Z.eqb p) (sm_surfaces m)) as [i|] eqn:Hi.
  2: { apply list_elem_of_lookup in Hin as (j & Hj). pose proof (proj1 (index_of_None _ _) Hi j p Hj) as H. by rewrite Z.eqb_refl in H. }
  rewrite (bind_run _ _ _ _ _ (put_surface_run _ _ _ _ _)).
  assert (Hx1 : kn_buffers (with_object p (set_is_ref_count 0 s) k) !! b = Some x) by done.
  unfold bind at 1, bind at 1, complete. rewrite (upd_buffer_run _ _ _ _ _ _ Hx1).
  rewrite (bind_run _ _ _ _ _ (release_buffer_run _ _ b (set_prepared Z.pred x) _ (lookup_insert_eq _ _ _))).
  rewrite put_surface_run.
  set (s2 := set_is_memory None (set_is_ref_count 0 s)).
  match goal with |- context [mk_iow m d ?k2] => set (k1 := k2) end.
  assert (Ho1 : kn_objects k1 = <[p := (2, SurfaceData s2)]> (kn_objects k)).
  { unfold k1. cbn. apply map_eq. intros q. destruct (decide (q = p)) as [->|Hne].
    - by rewrite !lookup_alter_eq, Hp, lookup_insert_eq.
    - by rewrite !lookup_alter_ne, lookup_insert_ne by done. }
  rewrite (unlist_run _ m d k1 id p (SurfaceData s2) i) by (try done; rewrite Ho1; apply lookup_insert_eq).
  set (k2 := set_kn_objects (delete p (kn_objects k1)) k1).
  assert (Hbur : buried p b k k2).
  { split_and!; try done.
    - change (delete p (kn_objects k1) = delete p (kn_objects k)). by rewrite Ho1, delete_insert_eq.
    - change (delete b (<[b := set_prepared Z.pred x]> (kn_buffers k)) = delete b (kn_buffers k)). by rewrite delete_insert_eq. }
  pose proof (so_size _ _ _ Hok) as Hsz. pose proof (so_dims _ _ _ Hok) as Hdm. pose proof (size_in_total _ _ _ _ _ _ _ Hm Hin Hp).
  destruct (uncount_surface_run _ _ _ d _ k2 p id i (is_memory_size s) Hm Hid Hi ltac:(nia)) as (m1 & E1 & Hlv).
  rewrite (bind_run _ _ _ _ _ E1).
  destruct (minv_leave _ _ _ _ _ _ _ _ _ _ Hm Hid Hp Hb Hbur Hlv) as [Hm1 Hres].
  destruct (releaseSurfaceId_run _ _ m1 d k2 id Hm1 Hres) as (m2 & k3 & E2 & Hm2 & Hk3 & Hh3 & rel & Hrel).
  rewrite (bind_run _ _ _ _ _ E2). rewrite (bind_run _ _ _ _ _ (unlock_run _ _ _ (mi_lock _ _ _ _ Hm2))).
  pose proof (dinv_leave _ _ _ m1 _ _ _ _ _ _ Hm Hid Hbur (lv_map _ _ _ _ _ Hlv) Hd) as Hd1.
  pose proof (releaseSurfaceId_ids _ _ _ _ _ _ E2) as (K1 & K2 & K3 & Hids).
  eexists _, k3. split; [done|]. split; [by eapply minv_set_lock|]. split.
  { apply (dinv_side _ _ _ k2); [done|]. apply (dinv_same _ _ m1 _ k2 k2); [by rewrite Hrel|lia|done|done]. }
  assert (Hf3 : kn_fault k3 = kn_fault k2) by apply Hk3.
  destruct Hlv, Hbur as (B1 & B2 & B3 & B4 & B5). rewrite lv_released0 in Hids. subst m2. cbn in *. unfold buried. split_and!; first [congruence|done|apply lv_clients0].
Qed.

(** * The common opening *)
Section opening.
Context (l : lock_state) (n : nat) (sl : list Z) (m : manager) (d : discovery) (k : iokern) (id : Z).
Context (Hm : minv l (Datatypes.S n) m k) (Hd : dinv (Datatypes.S n) sl m k d) (Hid : id ∉ sl).

(** [findSurface], then a read of what it found. *)
Lemma find_run {A} (f : option Z -> M iow A) :
  exists d' k', bind (findSurface id) f (mk_iow m d k) = f (sm_surface_map m !! id) (mk_iow m d' k')
    /\ on_clock k k' /\ minv l n m k' /\ dinv n sl m k' d'.
Proof using Hm Hd Hid.
  destruct (findSurface_run _ _ _ _ _ _ _ Hm Hd Hid) as (d' & k' & E & Hk & Hd').
  exists d', k'. rewrite (bind_run _ _ _ _ _ E). split; [done|]. split; [done|]. split; [|done].
  apply (minv_clock _ _ _ k); [done|]. by eapply minv_less; [apply Nat.le_succ_diag_r|].
Qed.
Lemma with_surface_run {A} (answer : IOReturn -> A) (f : Z -> io_surface -> M iow A) :
  exists d' k', on_clock k k' /\ minv l n m k' /\ dinv n sl m k' d' /\
    match sm_surface_map m !! id with
    | None => with_surface answer id f (mk_iow m d k) = (unlock ;;; ret (answer kIOReturnNotFound)) (mk_iow m d' k')
    | Some p => exists s, kn_objects k' !! p = Some (2, SurfaceData s) /\ surf_ok k' id s
        /\ with_surface answer id f (mk_iow m d k) = f p s (mk_iow m d' k')
    end.
Proof using Hm Hd Hid.
  unfold with_surface.
  destruct (find_run (fun obj => match obj with
    | None => unlock ;;; ret (answer kIOReturnNotFound)
    | Some p => let! s := surface_at p in match s with
        | None => unlock ;;; ret (answer kIOReturnInternalError) | Some s => f p s end end)) as (d' & k' & E & Hk & Hm' & Hd').
  exists d', k'. split; [done|]. split; [done|]. split; [done|].
  destruct (sm_surface_map m !! id) as [p|] eqn:Hp; [|done].
  destruct (mi_obj _ _ _ _ Hm' _ _ Hp) as (s & Hs & Hok). exists s. split; [done|]. split; [done|].
  rewrite E. by rewrite (bind_run _ _ _ _ _ (surface_at_run _ _ _ _ _ _ Hs)).
Qed.
End opening.

Lemma destroySurface_run n sl m d k id :
  minv Unlocked (Datatypes.S n) m k -> dinv (Datatypes.S n) sl m k d -> id ∉ sl ->
  exists r m' d' k', destroySurface id (mk_iow m d k) = (r, mk_iow m' d' k')
    /\ minv Unlocked n m' k' /\ dinv n (id :: sl) m' k' d' /\ destruction id m m' k k' r.
Proof.
  intros Hm Hd Hid.
  assert (Hext : forall m d k, dinv n sl m k d -> dinv n (id :: sl) m k d).
  { intros m0 d0 k0. apply dinv_moves; [by left|done|lia|set_solver]. }
  unfold destroySurface, destruction. destruct (Z.eqb_spec id 0) as [->|Hnz].
  { assert (Hn : sm_surface_map m !! 0 = None).
    { destruct (sm_surface_map m !! 0) eqn:E; [|done]. pose proof (mi_ids _ _ _ _ Hm 0 (ex_intro _ _ E)). lia. }
    rewrite Hn. eexists _, m, d, k. split; [done|]. split; [by eapply minv_less; [|done]; lia|].
    split; [apply Hext; by eapply dinv_less; [|done]; lia|]. split; [by right|]. split; [done|apply on_side_refl]. }
  rewrite (bind_run _ _ _ _ _ (lock_run _ _ _ (mi_lock _ _ _ _ Hm))). set (mL := set_sm_surface_lock Locked m).
  assert (HmL : minv Locked (Datatypes.S n) mL k) by by eapply minv_set_lock.
  assert (HdL : dinv (Datatypes.S n) sl mL k d) by by apply (dinv_same _ _ m _ k k).
  match goal with |- context [with_surface status id ?f] =>
    destruct (with_surface_run _ _ _ _ _ _ _ HmL HdL Hid status f) as (d' & k' & Hk & Hm' & Hd' & Hf) end.
  change (sm_surface_map mL) with (sm_surface_map m) in Hf. apply on_clock_side in Hk as Hside.
  assert (Hun : forall r : IOReturn, exists m' d2 k2, (unlock ;;; ret r) (mk_iow mL d' k') = (r, mk_iow m' d2 k2)
    /\ minv Unlocked n m' k2 /\ dinv n (id :: sl) m' k2 d2 /\ same_tables m m' /\ on_side k k2).
  { intros r. rewrite (bind_run _ _ _ _ _ (unlock_run _ _ _ (mi_lock _ _ _ _ Hm'))). eexists _, d', k'. split; [done|].
    split; [by eapply minv_set_lock|]. split; [apply Hext; by apply (dinv_same _ _ mL _ k' k')|done]. }
  destruct (sm_surface_map m !! id) as [p|] eqn:Hp.
  - destruct Hf as (s & Hs & Hok & ->). destruct (so_buffer _ _ _ Hok) as (b & x & Hb & _).
    assert (Ho : kn_objects k' = kn_objects k) by apply Hside. rewrite Ho in Hs.
    destruct (so_lock _ _ _ Hok) as [El _]. rewrite El, orb_diag. destruct (0 <? is_lock_count s) eqn:Elc.
    + destruct (Hun kIOReturnBusy) as (m' & d2 & k2 & -> & H1 & H2 & H3 & H4). eexists _, m', d2, k2.
      split; [done|]. split; [done|]. split; [done|]. exists s, b. rewrite Elc. by split_and!.
    + assert (Hs' : kn_objects k' !! p = Some (2, SurfaceData s)) by by rewrite Ho.
      destruct (bury_run _ _ _ _ _ _ _ _ _ Hm' Hd' Hp Hs' Hok Hb) as (m' & k2 & E & H1 & H2 & H3 & H4).
      rewrite (so_ref _ _ _ Hok). change (u32 (1 - 1)) with 0. change (0 <? 0) with false. cbv zeta iota. rewrite Hb.
      exists kIOReturnSuccess, m', d', k2. split; [done|]. split; [done|]. split; [done|].
      exists s, b. rewrite Elc. split; [done|]. split; [done|]. split; [done|]. split; [|exact H4].
      destruct Hk as (c & t & ->). exact H3.
  - rewrite Hf. destruct (Hun (status kIOReturnNotFound)) as (m' & d2 & k2 & -> & H1 & H2 & H3 & H4).
    eexists _, m', d2, k2. split; [done|]. split; [done|]. split; [done|]. split; [by left|]. by split.
Qed.
