(* ===== verification/IOSurfaceSafe.v ===== *)
(** Every operation of the surface manager keeps the invariant of
    [IOSurfaceLife.v], in sessions that use no destroyed id. *)
From S2P Require Import Prelude IOSurfaces IOSurfaceOps IOSurfaceLife.

(** * Triples over the invariant *)
Definition good (l : lock_state) (n : nat) (sl : list Z) (w : iow) : Prop :=
  minv l n (io_mgr w) (io_kern w) /\ dinv n sl (io_mgr w) (io_kern w) (io_disc w).
(** A method in possession of the structs of some surfaces. *)
Definition has (k : iokern) (ps : Z * io_surface) : Prop :=
  kn_objects k !! ps.1 = Some (2, SurfaceData ps.2) /\ surf_ok k (is_surface_id ps.2) ps.2.
Definition held (n : nat) (sl : list Z) (L : list (Z * io_surface)) (w : iow) : Prop :=
  good Locked n sl w /\ Forall (has (io_kern w)) L.
(** From [n] operations to come to [e]. *)
Definition settles {A} (e n : nat) (sl : list Z) (L : list (Z * io_surface)) (prog : M iow A) : Prop :=
  hoare (held n sl L) prog (fun _ => good Unlocked e sl).

Lemma good_less l n n' sl w : (n' <= n)%nat -> good l n sl w -> good l n' sl w.
Proof. intros Hn [H1 H2]. split; [by eapply minv_less|by eapply dinv_less]. Qed.
Lemma has_side k k' ps : on_side k k' -> has k ps -> has k' ps.
Proof. intros (Ho & Hb & _) [H1 H2]. split; [by rewrite Ho|by eapply surf_ok_ext]. Qed.

(** What is known of a struct, whatever the kernel holds. *)
Record surf_ok_of (id : Z) (s : io_surface) : Prop := {
  sf_id : is_surface_id s = id;
  sf_base : exists b, is_memory s = Some b /\ is_base_address s = Some b;
  sf_lock : is_is_locked s = (0 <? is_lock_count s) /\ 0 <= is_lock_count s < 2 ^ 32;
  sf_dims : 0 < is_width s <= 16384 /\ 0 < is_height s <= 16384;
  sf_format : sd_pixel_format (is_descriptor s) ∈ formats32;
  sf_size : 4 * (is_width s * is_height s) <= is_memory_size s < 2 ^ 32
}.
Lemma surf_ok_facts k id s : surf_ok k id s -> surf_ok_of id s.
Proof. intros [? (b & x & H1 & H2 & _) ? ? ? ? ?]. constructor; try done. by exists b. Qed.

Lemma hoare_lock {A} n sl (K : M iow A) Q :
  hoare (held n sl []) K Q -> hoare (good Unlocked n sl) (lock ;;; K) Q.
Proof.
  intros HK [m d k] [Hm Hd]. cbn in Hm, Hd. rewrite (bind_run _ _ _ _ _ (lock_run _ _ _ (mi_lock _ _ _ _ Hm))). apply HK.
  split; [|done]. split; cbn; [by eapply minv_set_lock|]. by apply (dinv_same _ _ m _ k k).
Qed.
Section triples.
Context (n : nat) (sl : list Z) (L : list (Z * io_surface)).
Implicit Types (w : iow).

Lemma held_side m d k d' k' : on_side k k' -> dinv n sl m k' d' ->
  held n sl L (mk_iow m d k) -> held n sl L (mk_iow m d' k').
Proof.
  intros Hk Hd [[Hm _] HL]. split; [split; [by eapply minv_side|done]|].
  eapply Forall_impl; [exact HL|]. intros ps. by apply has_side.
Qed.
Lemma held_now : preserves (held n sl L) now.
Proof.
  intros [m d k] Hw. destruct (now_run m d k) as (t & k' & -> & Hk). cbn. apply (held_side _ d k); [by apply on_clock_side| |done].
  apply (dinv_clock _ _ _ k); [done|apply Hw].
Qed.
Lemma held_ask : preserves (held n sl L) ask.
Proof.
  intros [m d k] Hw. destruct (ask_run m d k) as (b & k' & -> & Hk & _). cbn. apply (held_side _ d k); [done| |done].
  apply (dinv_side _ _ _ k); [done|apply Hw].
Qed.
Lemma held_get_mgr {A} (f : manager -> A) : preserves (held n sl L) (get_mgr f).
Proof. by intros w Hw. Qed.
(** What the invariant does not see of the manager. *)
Lemma held_upd_mgr f : (forall m k, minv Locked n m k -> minv Locked n (f m) k) ->
  (forall m, sm_surface_map (f m) = sm_surface_map m) -> preserves (held n sl L) (upd_mgr f).
Proof.
  intros Hf Hmap [m d k] [[Hm Hd] HL]. split; [|exact HL]. split; cbn in *; [by apply Hf|]. by apply (dinv_same _ _ m _ k k).
Qed.
Lemma held_bump set get : preserves (held n sl L) (bump set get).
Proof. apply held_upd_mgr; [|done]. intros m k Hm. by apply minv_set_counters. Qed.
Lemma held_ret {A} (a : A) : preserves (held n sl L) (ret a).
Proof. by intros w Hw. Qed.
Lemma held_bind {A B} (P : M iow A) (K : A -> M iow B) :
  preserves (held n sl L) P -> (forall a, preserves (held n sl L) (K a)) -> preserves (held n sl L) (bind P K).
Proof. apply preserves_bind. Qed.
Lemma held_for (N : nat) i body :
  (forall j, i <= j < i + Z.of_nat N -> preserves (held n sl L) (body j)) -> preserves (held n sl L) (for_loop N i body).
Proof.
  revert i. induction N as [|N IH]; intros i Hb; cbn [for_loop]; [apply held_ret|].
  apply held_bind; [apply Hb; lia|intros _]. apply IH. intros j Hj. apply Hb. lia.
Qed.

(** ** Structs and buffers *)
(** A buffer of a held surface. *)
Definition buffer_of (b size : Z) : Prop := exists p s, (p, s) ∈ L /\ is_base_address s = Some b /\ is_memory_size s = size.
Lemma held_buffer w b size : held n sl L w -> buffer_of b size ->
  exists x, kn_buffers (io_kern w) !! b = Some x /\ bf_length x = size.
Proof.
  intros [_ Hh] (p & s & HL & Hb & <-). rewrite Forall_forall in Hh. destruct (Hh _ HL) as [_ Hok]. cbn in Hok.
  destruct (so_buffer _ _ _ Hok) as (b' & x & _ & E & Hx & Hl & _). rewrite Hb in E. injection E as <-. by exists x.
Qed.
Lemma held_set_bytes m d k b x f : kn_buffers k !! b = Some x ->
  held n sl L (mk_iow m d k) -> held n sl L (mk_iow m d (with_buffer b (set_bytes f x) k)).
Proof.
  intros Hx [[Hm Hd] Hh]. split.
  - split; cbn; [by apply minv_buffer|]. by apply (dinv_same _ _ m _ k).
  - eapply Forall_impl; [exact Hh|]. intros [p s] [H1 [? (b' & x' & E1 & E2 & E3 & E4) ? ? ? ?]]. split; [done|]. cbn in *. constructor; try done.
    exists b'. cbn. destruct (decide (b = b')) as [->|].
    + rewrite lookup_insert_eq. exists (set_bytes f x). rewrite Hx in E3. injection E3 as ->. by split_and!; try apply E4.
    + rewrite lookup_insert_ne by done. by exists x'.
Qed.
Lemma held_access b off len size : buffer_of b size -> 0 <= off -> off + len <= size ->
  preserves (held n sl L) (access b off len).
Proof.
  intros Hb H1 H2 [m d k] Hw. destruct (held_buffer _ _ _ Hw Hb) as (x & Hx & Hl). cbn in Hx.
  unfold access. rewrite (bind_run _ _ _ _ _ (buffer_at_run _ _ _ _ _ Hx)). rewrite Hl.
  destruct (Z.leb_spec 0 off); [|lia]. by destruct (Z.leb_spec (off + len) size); [|lia].
Qed.
Lemma held_rewrite b size (f : buffer -> Z -> Z) : buffer_of b size ->
  preserves (held n sl L) (upd_buffer b (fun x => set_bytes (f x) x)).
Proof.
  intros Hb [m d k] Hw. destruct (held_buffer _ _ _ Hw Hb) as (x & Hx & Hl). cbn in Hx.
  rewrite (upd_buffer_run _ _ _ _ _ _ Hx). by apply held_set_bytes.
Qed.
Lemma held_bytes_at b size : buffer_of b size -> preserves (held n sl L) (bytes_at b).
Proof.
  intros Hb [m d k] Hw. destruct (held_buffer _ _ _ Hw Hb) as (x & Hx & Hl). cbn in Hx.
  unfold bytes_at. by rewrite (bind_run _ _ _ _ _ (buffer_at_run _ _ _ _ _ Hx)).
Qed.
Lemma held_store len b off v size : buffer_of b size -> 0 <= off -> off + len <= size ->
  preserves (held n sl L) (store len b off v).
Proof. intros Hb H1 H2. apply held_bind; [by eapply held_access|intros _]. by apply (held_rewrite b size (fun x => poke len off v (bf_bytes x))). Qed.
Lemma held_load32 b off size : buffer_of b size -> 0 <= off -> off + 4 <= size ->
  preserves (held n sl L) (load32 b off).
Proof.
  intros Hb H1 H2. apply held_bind; [by eapply held_access|intros _]. apply held_bind; [by eapply held_bytes_at|intros f].
  apply held_ret.
Qed.
Lemma held_memcpy dst doff src soff len size size' :
  buffer_of dst size -> buffer_of src size' -> 0 <= doff -> doff + len <= size -> 0 <= soff -> soff + len <= size' ->
  dst <> src \/ len <= Z.abs (doff - soff) -> preserves (held n sl L) (memcpy dst doff src soff len).
Proof.
  intros Hd Hs H1 H2 H3 H4 Hne. unfold memcpy.
  apply held_bind; [by eapply held_access|intros _]. apply held_bind; [by eapply held_access|intros _].
  apply held_bind; [|intros _; apply held_bind; [by eapply held_bytes_at|intros f]].
  - destruct (Z.eqb_spec dst src); cbn; [|apply held_ret]. destruct (Z.ltb_spec (Z.abs (doff - soff)) len); [|apply held_ret].
    destruct Hne; [done|lia].
  - by apply (held_rewrite dst size (fun x => move doff len soff f (bf_bytes x))).
Qed.
(** ** The opening *)
End triples.

(** ** Whole methods, from [n] operations to come to [e] *)
Section settling.
Context (e n : nat) (sl : list Z) (L : list (Z * io_surface)).
Lemma settles_unlock {A} (a : A) : (e <= n)%nat -> settles e n sl L (unlock ;;; ret a).
Proof.
  intros He [m d k] [[Hm Hd] _]. cbn in Hm, Hd. rewrite (bind_run _ _ _ _ _ (unlock_run _ _ _ (mi_lock _ _ _ _ Hm))).
  apply (good_less _ n); [done|]. split; cbn; [by eapply minv_set_lock|]. by apply (dinv_same _ _ m _ k k).
Qed.
Lemma settles_bind {A B} (P : M iow A) (K : A -> M iow B) :
  preserves (held n sl L) P -> (forall a, settles e n sl L (K a)) -> settles e n sl L (bind P K).
Proof. intros HP HK. eapply hoare_bind; [exact HP|]. intros a. apply HK. Qed.
Lemma settles_weaken {A} n' L' (P : M iow A) :
  (n' <= n)%nat -> Forall (fun x => x ∈ L) L' -> settles e n' sl L' P -> settles e n sl L P.
Proof.
  intros Hn HL HP. eapply hoare_weaken; [exact HP| |done]. intros w [Hg Hh]. split; [by eapply good_less|].
  rewrite Forall_forall in HL, Hh |- *. auto.
Qed.
Lemma settles_put {A} p s s' (K : M iow A) :
  (p, s) ∈ L -> (is_lock_count s + 1 < 2 ^ 32 -> kept_surface s s') -> settles e n sl [] K ->
  settles e (Datatypes.S n) sl L (put_surface p s' ;;; K).
Proof.
  intros HL Hk0 HK [m d k] [[Hm Hd] Hh]. rewrite Forall_forall in Hh. destruct (Hh _ HL) as [Ho _]. cbn in Ho, Hm, Hd.
  assert (Hk : kept_surface s s') by (apply Hk0; pose proof (mi_locks _ _ _ _ Hm _ _ _ Ho); lia).
  rewrite (bind_run _ _ _ _ _ (put_surface_run _ _ _ _ _)). apply HK. split; [|done].
  split; cbn; [by eapply minv_put|]. apply dinv_put. by eapply dinv_less; [apply Nat.le_succ_diag_r|].
Qed.
Lemma settles_touch {A} p s (K : M iow A) :
  (p, s) ∈ L -> settles e n sl [] K -> settles e (Datatypes.S n) sl L (touch p ;;; K).
Proof.
  intros HL HK [m d k] Hw. pose proof Hw as [[Hm Hd] Hh]. rewrite Forall_forall in Hh. destruct (Hh _ HL) as [Ho Hok]. cbn in Ho, Hok, Hm, Hd.
  destruct (touch_run m d p 2 s k Ho) as (t & k' & E & Hk). rewrite (bind_run _ _ _ _ _ E). apply HK.
  split; [|done]. apply (minv_clock _ _ _ _ _ Hk) in Hm. apply (dinv_clock _ _ _ _ _ _ Hk) in Hd.
  split; cbn; [|apply dinv_put; by eapply dinv_less; [apply Nat.le_succ_diag_r|]].
  apply (minv_put _ _ _ _ _ s); [done|by destruct Hk as (? & ? & ->)|].
  destruct (so_lock _ _ _ Hok). unfold kept_surface. cbn. split_and!; first [done|lia].
Qed.
End settling.
Lemma settles_with_surface {A} e n sl L id (answer : IOReturn -> A) f :
  (e <= n)%nat -> id ∉ sl -> (forall p s, surf_ok_of id s -> settles e n sl ((p, s) :: L) (f p s)) ->
  settles e (Datatypes.S n) sl L (with_surface answer id f).
Proof.
  intros He Hid Hf [m d k] [[Hm Hd] HL]. cbn in Hm, Hd, HL.
  destruct (with_surface_run _ _ _ _ _ _ _ Hm Hd Hid answer f) as (d' & k' & Hk & Hm' & Hd' & Hr).
  assert (HL' : Forall (has k') L).
  { eapply Forall_impl; [exact HL|]. intros ps. apply has_side. by apply on_clock_side. }
  destruct (sm_surface_map m !! id) as [p|] eqn:Hp.
  - destruct Hr as (s & Hs & Hok & ->). apply Hf; [by eapply surf_ok_facts|]. split; [done|]. constructor; [|done].
    split; [done|]. cbn. by rewrite (so_id _ _ _ Hok).
  - rewrite Hr. by apply (settles_unlock e n sl L (answer kIOReturnNotFound) He).
Qed.

(** * The operations *)
Create HintDb surf.
#[export] Hint Resolve held_now held_ask held_get_mgr held_bump held_ret : surf.

(** Three operations' worth of counting for each. *)
Definition safe {A} (sl : list Z) (prog : M iow A) : Prop :=
  forall n, hoare (good Unlocked (3 + n) sl) prog (fun _ => good Unlocked n sl).
Lemma safe_ret {A} sl (a : A) : safe sl (ret a).
Proof. intros n w Hw. apply (good_less _ (3 + n)); [lia|done]. Qed.

(** Opens a method under the lock, and walks to its ends. *)
Ltac settle :=
  repeat first
    [ apply settles_unlock; lia
    | apply settles_bind; [solve [auto with surf]|intros ?]
    | goal_case ].
Ltac opened := intros n; change (3 + n)%nat with (Datatypes.S (Datatypes.S (Datatypes.S n))); apply hoare_lock.
Ltac kept_tac :=
  unfold kept_surface, synced; cbn; split_and!; first [done|lia].

Section operations.
Context (sl : list Z).

Lemma u32_pred_lock s id : surf_ok_of id s -> (is_lock_count s =? 0) = false ->
  u32 (is_lock_count s - 1) = is_lock_count s - 1 /\ is_is_locked s = true.
Proof. intros [_ _ [E Hl] _ _ _] Hz. apply Z.eqb_neq in Hz. rewrite u32_small by lia. split; [done|]. rewrite E. apply Z.ltb_lt. lia. Qed.

(** Taking and dropping a lock. *)
Lemma settles_lock_put {A} e n id p s L t (K : M iow A) : surf_ok_of id s ->
  settles e n sl [] K -> settles e (Datatypes.S n) sl ((p, s) :: L) (put_surface p (synced s t (u32 (is_lock_count s + 1)) true) ;;; K).
Proof.
  intros Hs HK. apply (settles_put _ _ _ _ _ s); [left| |done]. intros Hlc. destruct (sf_lock _ _ Hs) as [_ Hr].
  unfold kept_surface, synced. cbn. rewrite u32_small by lia. split_and!; first [done|lia].
Qed.
Lemma settles_unlock_put {A} e n id p s L t (K : M iow A) : surf_ok_of id s -> (is_lock_count s =? 0) = false ->
  settles e n sl [] K -> settles e (Datatypes.S n) sl ((p, s) :: L)
    (put_surface p (synced s t (u32 (is_lock_count s - 1)) (if u32 (is_lock_count s - 1) =? 0 then false else is_is_locked s)) ;;; K).
Proof.
  intros Hs Hz HK. apply (settles_put _ _ _ _ _ s); [left| |done]. intros Hlc. destruct (sf_lock _ _ Hs) as [_ Hr].
  destruct (u32_pred_lock _ _ Hs Hz) as [E1 E2]. apply Z.eqb_neq in Hz.
  unfold kept_surface, synced. cbn. rewrite E1, E2. split_and!; first [done|lia|destruct (Z.eqb_spec (is_lock_count s - 1) 0); lia].
Qed.

Lemma lockSurface_safe id o ptr : id ∉ sl -> safe sl (lockSurface id o ptr).
Proof.
  intros Hid. unfold lockSurface. destruct ptr; [|apply safe_ret]. opened.
  apply settles_with_surface; [lia|done|]. intros p s Hs. destruct (sf_base _ _ Hs) as (b & -> & ->).
  destruct (_ && _); [settle|]. apply settles_bind; [auto with surf|intros t].
  apply (settles_lock_put _ _ id); [done|]. settle.
Qed.
Lemma unlockSurface_safe id o : id ∉ sl -> safe sl (unlockSurface id o).
Proof.
  intros Hid. unfold unlockSurface. opened. apply settles_with_surface; [lia|done|]. intros p s Hs.
  destruct (_ || _) eqn:E; [settle|]. apply orb_false_iff in E as [_ E]. apply settles_bind; [auto with surf|intros t].
  apply (settles_unlock_put _ _ id); [done|done|]. settle.
Qed.
Lemma lockSurfacePlane_safe id i o ptr : id ∉ sl -> safe sl (lockSurfacePlane id i o ptr).
Proof.
  intros Hid. unfold lockSurfacePlane. destruct (_ || _); [apply safe_ret|]. opened.
  apply settles_with_surface; [lia|done|]. intros p s Hs. destruct (sf_base _ _ Hs) as (b & -> & ->).
  destruct (plane_of i s); [|settle]. apply settles_bind; [auto with surf|intros t].
  apply (settles_lock_put _ _ id); [done|]. settle.
Qed.
Lemma unlockSurfacePlane_safe id i o : id ∉ sl -> safe sl (unlockSurfacePlane id i o).
Proof.
  intros Hid. unfold unlockSurfacePlane. destruct (_ <=? _); [apply safe_ret|]. opened.
  apply settles_with_surface; [lia|done|]. intros p s Hs. destruct (negb (is_some _)); [settle|].
  destruct (_ || _) eqn:E; [settle|]. apply orb_false_iff in E as [_ E]. apply settles_bind; [auto with surf|intros t].
  apply (settles_unlock_put _ _ id); [done|done|]. settle.
Qed.
Lemma getSurfacePlaneInfo_safe id i ptr : id ∉ sl -> safe sl (getSurfacePlaneInfo id i ptr).
Proof.
  intros Hid. unfold getSurfacePlaneInfo. destruct (_ || _); [apply safe_ret|]. opened.
  apply settles_with_surface; [lia|done|]. intros p s Hs. settle.
Qed.
Lemma validateSurface_safe id : id ∉ sl -> safe sl (validateSurface id).
Proof.
  intros Hid. unfold validateSurface. opened. apply settles_with_surface; [lia|done|]. intros p s Hs.
  apply settles_bind; [auto with surf|intros yuv]. apply settles_unlock. lia.
Qed.
Lemma held_buffer_at n L b size : buffer_of L b size -> preserves (held n sl L) (buffer_at b).
Proof.
  intros Hb [m d k] Hw. destruct (held_buffer _ _ _ _ _ _ Hw Hb) as (x & Hx & Hl). cbn in Hx. by rewrite (buffer_at_run _ _ _ _ _ Hx).
Qed.
Lemma checkSurfaceIntegrity_safe id : id ∉ sl -> safe sl (checkSurfaceIntegrity id).
Proof.
  intros Hid. unfold checkSurfaceIntegrity. opened. apply settles_with_surface; [lia|done|]. intros p s Hs.
  destruct (sf_base _ _ Hs) as (b & E1 & E2). apply settles_bind; [|intros r; apply settles_unlock; lia].
  rewrite E1. apply held_bind; [|intros o; apply held_ret].
  apply (held_buffer_at _ _ _ (is_memory_size s)). exists p, s. split; [left|done].
Qed.
Lemma setSurfaceMemoryPriority_safe id v : id ∉ sl -> safe sl (setSurfaceMemoryPriority id v).
Proof.
  intros Hid. unfold setSurfaceMemoryPriority. destruct (_ =? _); [apply safe_ret|]. destruct (_ || _); [apply safe_ret|].
  opened. apply settles_with_surface; [lia|done|]. intros p s Hs. apply (settles_put _ _ _ _ _ s); [left| |settle].
  intros _. destruct (sf_lock _ _ Hs). kept_tac.
Qed.
End operations.

(** * Two surfaces at once *)
Section two.
Context (n : nat) (sl : list Z) (src dst : Z).
Context (Hsrc : src ∉ sl) (Hdst : dst ∉ sl) (Hne : src <> dst).
Implicit Types (w : iow).

(** Two structs, with their buffers apart. *)
Definition apart (s d : io_surface) : Prop :=
  surf_ok_of src s /\ surf_ok_of dst d
  /\ exists bs bd, is_memory s = Some bs /\ is_base_address s = Some bs
       /\ is_memory d = Some bd /\ is_base_address d = Some bd /\ bs <> bd.
Lemma two_held w p q :
  held n sl [] w -> sm_surface_map (io_mgr w) !! src = Some p -> sm_surface_map (io_mgr w) !! dst = Some q ->
  exists s d, kn_objects (io_kern w) !! p = Some (2, SurfaceData s) /\ kn_objects (io_kern w) !! q = Some (2, SurfaceData d)
    /\ apart s d /\ held n sl [(q, d); (p, s)] w.
Proof using Hne.
  intros [[Hm Hd] _] Hp Hq. destruct (mi_obj _ _ _ _ Hm _ _ Hp) as (s & Hs & Hoks). destruct (mi_obj _ _ _ _ Hm _ _ Hq) as (d & Hdd & Hokd).
  exists s, d. split; [done|]. split; [done|]. split.
  - split; [by eapply surf_ok_facts|]. split; [by eapply surf_ok_facts|].
    destruct (so_buffer _ _ _ Hoks) as (bs & xs & S1 & S2 & _). destruct (so_buffer _ _ _ Hokd) as (bd & xd & D1 & D2 & _).
    exists bs, bd. split_and!; try done. intros ->. assert (p = q) as -> by (apply (mi_own _ _ _ _ Hm p q s d); [done|done|congruence]).
    apply Hne. by eapply minv_map_inj.
  - split; [by split|]. constructor; [split; cbn; [done|by rewrite (so_id _ _ _ Hokd)]|].
    constructor; [|constructor]. split; cbn; [done|by rewrite (so_id _ _ _ Hoks)].
Qed.
Lemma find_held {A} id (f : option Z -> M iow A) w : id ∉ sl -> held (Datatypes.S n) sl [] w ->
  exists w', bind (findSurface id) f w = f (sm_surface_map (io_mgr w) !! id) w' /\ held n sl [] w' /\ io_mgr w' = io_mgr w.
Proof using Type.
  intros Hid [[Hm Hd] _]. destruct w as [m d k]. cbn in Hm, Hd.
  destruct (find_run _ _ _ _ _ _ _ Hm Hd Hid f) as (d' & k' & E & _ & Hm' & Hd'). exists (mk_iow m d' k'). split; [done|]. by split.
Qed.
End two.

Lemma settles_two e n sl src dst (f : Z -> io_surface -> Z -> io_surface -> M iow IOReturn) :
  (e <= n)%nat -> src ∉ sl -> dst ∉ sl -> src <> dst ->
  (forall p s q d, apart src dst s d -> settles e n sl [(q, d); (p, s)] (f p s q d)) ->
  settles e (Datatypes.S (Datatypes.S n)) sl []
    (let! source_obj := findSurface src in
     match source_obj with
     | None => unlock ;;; ret kIOReturnNotFound
     | Some p => with_surfaces p dst f
     end).
Proof.
  intros He Hs Hd Hne Hf w Hw.
  match goal with |- context [bind (findSurface src) ?g] => destruct (find_held _ sl src g w Hs Hw) as (w1 & -> & H1 & E1) end.
  destruct (sm_surface_map (io_mgr w) !! src) as [p|] eqn:Hp; [|apply (settles_unlock e (Datatypes.S n) sl []); [lia|done]].
  unfold with_surfaces.
  match goal with |- context [bind (findSurface dst) ?g] => destruct (find_held _ sl dst g w1 Hd H1) as (w2 & -> & H2 & E2) end.
  rewrite E1. destruct (sm_surface_map (io_mgr w) !! dst) as [q|] eqn:Hq; [|apply (settles_unlock e n sl []); [lia|done]].
  destruct (two_held n sl src dst Hne w2 p q H2) as (s & d & Es & Ed & Hap & Hh); [by rewrite E2, E1|by rewrite E2, E1|].
  destruct w2 as [m2 d2 k2]. cbn in Es, Ed.
  rewrite (bind_run _ _ _ _ _ (surface_at_run _ _ _ _ _ _ Es)), (bind_run _ _ _ _ _ (surface_at_run _ _ _ _ _ _ Ed)).
  by apply Hf.
Qed.

Lemma buffer_in L p s b : (p, s) ∈ L -> is_base_address s = Some b -> buffer_of L b (is_memory_size s).
Proof. intros HL Hb. by exists p, s. Qed.
#[export] Hint Resolve list_elem_of_here list_elem_of_further : surf.

(** A rectangle that stays in numbers of 32 bits. *)
Definition rect_ok (x y width height : Z) : Prop :=
  0 <= x /\ 0 <= y /\ 0 <= width /\ 0 <= height /\ x + width < 2 ^ 32 /\ y + height < 2 ^ 32.
(** A pixel of a rectangle inside a surface: its address, in range. *)
Lemma pixel_in_range w h size x y width height row col :
  0 < w <= 16384 -> 0 < h <= 16384 -> 4 * (w * h) <= size < 2 ^ 32 ->
  rect_ok x y width height -> x + width <= w -> y + height <= h -> 0 <= row < height -> 0 <= col < width ->
  let stride := u32 (w * 4) in
  u32 (y * stride) + u32 (x * 4) + u32 (row * stride) + 4 * col = 4 * ((y + row) * w + (x + col))
  /\ 0 <= 4 * ((y + row) * w + (x + col)) /\ 4 * ((y + row) * w + (x + col)) + 4 <= size.
Proof.
  intros Hw Hh Hs (H1 & H2 & H3 & H4 & H5 & H6) Hx Hy Hr Hc. cbv zeta.
  rewrite (u32_small (w * 4)) by lia. assert (0 <= y * w <= (y + row) * w) by nia. assert (0 <= row * w <= (y + row) * w) by nia.
  assert ((y + row) * w + (x + col) <= w * h - 1) by nia.
  rewrite !u32_small by nia. split; [ring|]. nia.
Qed.

Lemma row_in_range w h size x y width height row :
  0 < w <= 16384 -> 0 < h <= 16384 -> 4 * (w * h) <= size < 2 ^ 32 ->
  rect_ok x y width height -> x + width <= w -> y + height <= h -> 0 <= row < height ->
  let stride := u32 (w * 4) in
  u32 (width * 4) = width * 4
  /\ u32 (y * stride) + u32 (x * 4) + row * stride = 4 * ((y + row) * w + x)
  /\ 0 <= 4 * ((y + row) * w + x) /\ 4 * ((y + row) * w + x) + width * 4 <= size.
Proof.
  intros Hw Hh Hs (H1 & H2 & H3 & H4 & H5 & H6) Hx Hy Hr. cbv zeta.
  rewrite (u32_small (w * 4)) by lia. assert (0 <= y * w <= (y + row) * w) by nia.
  assert ((y + row) * w + (x + width) <= w * h) by nia.
  rewrite !u32_small by nia. split; [lia|]. split; [ring|]. nia.
Qed.
Lemma rect_fits x width y height w h :
  rect_ok x y width height -> (w <? u32 (x + width)) || (h <? u32 (y + height)) = false ->
  x + width <= w /\ y + height <= h.
Proof.
  intros (H1 & H2 & H3 & H4 & H5 & H6) E. rewrite !u32_small in E by lia. apply orb_false_iff in E as [E1 E2].
  apply Z.ltb_ge in E1, E2. done.
Qed.

Section pixels.
Context (sl : list Z).

Lemma fillSurface_safe id color : id ∉ sl -> safe sl (fillSurface id color).
Proof.
  intros Hid. unfold fillSurface. opened. apply settles_with_surface; [lia|done|]. intros p s Hs.
  destruct (sf_base _ _ Hs) as (b & _ & E). rewrite E. destruct (formats32_facts _ (sf_format _ _ Hs)) as (-> & _).
  change (4 =? 0) with false. cbv zeta iota. pose proof (sf_size _ _ Hs) as Hsz. pose proof (sf_dims _ _ Hs).
  assert (Hq : 0 <= is_memory_size s / 4) by (apply Z.div_pos; nia).
  apply settles_bind.
  - apply held_for. intros j Hj. rewrite Z2Nat.id in Hj by done. pose proof (Z.mul_div_le (is_memory_size s) 4 ltac:(lia)).
    apply (held_store _ _ _ 4 b (4 * j) color (is_memory_size s)); [by eapply buffer_in; [left|]|lia|lia].
  - intros _. apply (settles_touch _ _ _ _ _ s); [left|]. settle.
Qed.
Lemma fillSurfaceRegion_safe id x y width height color :
  id ∉ sl -> rect_ok x y width height -> safe sl (fillSurfaceRegion id x y width height color).
Proof.
  intros Hid Hrect. unfold fillSurfaceRegion. destruct (_ || _ || _); [apply safe_ret|].
  opened. apply settles_with_surface; [lia|done|]. intros p s Hs.
  destruct (sf_base _ _ Hs) as (b & _ & E). rewrite E. destruct (formats32_facts _ (sf_format _ _ Hs)) as (-> & _).
  destruct (_ || _) eqn:Efit; [settle|]. destruct (rect_fits _ _ _ _ _ _ Hrect Efit) as [Hx Hy].
  change (4 =? 0) with false. cbv zeta iota. destruct (sf_dims _ _ Hs) as [Hw Hh]. pose proof (sf_size _ _ Hs) as Hsz.
  pose proof Hrect as (_ & _ & Hw0 & Hh0 & _). apply settles_bind.
  - apply held_for. intros row Hrow. apply held_for. intros col Hcol. rewrite Z2Nat.id in Hrow, Hcol by done.
    destruct (pixel_in_range _ _ _ _ _ _ _ row col Hw Hh Hsz Hrect Hx Hy ltac:(lia) ltac:(lia)) as (Ep & Hp1 & Hp2).
    cbv zeta in Ep. rewrite Ep. apply (held_store _ _ _ 4 b _ color (is_memory_size s)); [by eapply buffer_in; [left|]|done|done].
  - intros _. apply (settles_touch _ _ _ _ _ s); [left|]. settle.
Qed.
Lemma copySurface_safe src dst : src ∉ sl -> dst ∉ sl -> safe sl (copySurface src dst).
Proof.
  intros H1 H2. unfold copySurface. destruct (_ || _); [apply safe_ret|].
  destruct (Z.eqb_spec src dst) as [|Hsd]; [apply safe_ret|]. opened. apply settles_two; [lia|done|done|done|].
  intros p s q d (Hs & Hd & bs & bd & Ms & Bs & Md & Bd & Hne). destruct (_ || _ || _); [settle|].
  rewrite Ms, Bs, Md, Bd. pose proof (sf_size _ _ Hs). pose proof (sf_dims _ _ Hs). pose proof (sf_size _ _ Hd). pose proof (sf_dims _ _ Hd).
  apply settles_bind.
  - eapply (held_memcpy _ _ _ bd 0 bs 0 _ (is_memory_size d) (is_memory_size s)).
    + eapply buffer_in; [left|done].
    + eapply buffer_in; [right; left|done].
    + lia. + lia. + lia. + lia. + left. congruence.
  - intros _. apply (settles_touch _ _ _ _ _ d); [left|]. settle.
Qed.
Lemma held_copy_rows n L N dst dptr ds src sptr ss rb dsize ssize :
  buffer_of L dst dsize -> buffer_of L src ssize -> dst <> src ->
  (forall j, 0 <= j < Z.of_nat N -> (0 <= dptr + j * ds /\ dptr + j * ds + rb <= dsize)
    /\ 0 <= sptr + j * ss /\ sptr + j * ss + rb <= ssize) ->
  preserves (held n sl L) (copy_rows N dst dptr ds src sptr ss rb).
Proof.
  intros Hd Hs Hne. revert dptr sptr. induction N as [|N IH]; intros dptr sptr Hr; cbn [copy_rows]; [apply held_ret|].
  apply held_bind; [|intros _; apply IH].
  - destruct (Hr 0 ltac:(lia)) as [[? ?] [? ?]]. eapply (held_memcpy _ _ _ dst _ src _ _ dsize ssize); [done|done|lia..|by left].
  - intros j Hj. destruct (Hr (j + 1) ltac:(lia)) as [[? ?] [? ?]]. lia.
Qed.
Lemma settles_copy_region n src dst p s q d bs bd sx sy dx dy width height :
  surf_ok_of src s -> surf_ok_of dst d -> is_base_address s = Some bs -> is_base_address d = Some bd -> bs <> bd ->
  rect_ok sx sy width height -> rect_ok dx dy width height ->
  settles n (Datatypes.S n) sl [(q, d); (p, s)]
    (if (is_width s <? u32 (sx + width)) || (is_height s <? u32 (sy + height))
        || (is_width d <? u32 (dx + width)) || (is_height d <? u32 (dy + height))
     then unlock ;;; ret kIOReturnBadArgument
     else if negb (sd_pixel_format (is_descriptor s) =? sd_pixel_format (is_descriptor d))
     then unlock ;;; ret kIOReturnBadArgument
     else
       let bytes_per_pixel := getBytesPerPixel (sd_pixel_format (is_descriptor s)) in
       let source_stride := u32 (is_width s * bytes_per_pixel) in
       let dest_stride := u32 (is_width d * bytes_per_pixel) in
       copy_rows (Z.to_nat height)
         bd (u32 (dy * dest_stride) + u32 (dx * bytes_per_pixel)) dest_stride
         bs (u32 (sy * source_stride) + u32 (sx * bytes_per_pixel)) source_stride
         (u32 (width * bytes_per_pixel)) ;;;
       touch q ;;;
       bump set_ct_copy_operations ct_copy_operations ;;;
       unlock ;;;
       ret kIOReturnSuccess).
Proof.
  intros Hs Hd Bs Bd Hne Hrs Hrd. destruct (_ || _) eqn:Efit; [settle|].
  rewrite <- orb_assoc in Efit. apply orb_false_iff in Efit as [Ef1 Ef2].
  destruct (rect_fits _ _ _ _ _ _ Hrs Ef1) as [Hsx Hsy]. destruct (rect_fits _ _ _ _ _ _ Hrd Ef2) as [Hdx Hdy].
  destruct (negb _); [settle|]. destruct (formats32_facts _ (sf_format _ _ Hs)) as (-> & _). cbv zeta.
  destruct (sf_dims _ _ Hs) as [Hw Hh]. pose proof (sf_size _ _ Hs) as Hsz.
  destruct (sf_dims _ _ Hd) as [Hw' Hh']. pose proof (sf_size _ _ Hd) as Hsz'. pose proof Hrs as (_ & _ & _ & Hh0 & _).
  apply settles_bind.
  - apply (held_copy_rows _ _ _ _ _ _ _ _ _ _ (is_memory_size d) (is_memory_size s)).
    + eapply buffer_in; [left|done].
    + eapply buffer_in; [right; left|done].
    + congruence.
    + intros j Hj. rewrite Z2Nat.id in Hj by done.
      destruct (row_in_range _ _ _ _ _ _ _ j Hw Hh Hsz Hrs Hsx Hsy Hj) as (E1 & E2 & G1 & G2).
      destruct (row_in_range _ _ _ _ _ _ _ j Hw' Hh' Hsz' Hrd Hdx Hdy Hj) as (_ & E3 & G3 & G4).
      cbv zeta in E2, E3. rewrite E1, E2, E3. lia.
  - intros _. apply (settles_touch _ _ _ _ _ d); [left|]. settle.
Qed.
Lemma copySurfaceRegion_safe src dst sx sy dx dy width height :
  src ∉ sl -> dst ∉ sl -> src <> dst -> rect_ok sx sy width height -> rect_ok dx dy width height ->
  safe sl (copySurfaceRegion src dst sx sy dx dy width height).
Proof.
  intros H1 H2 Hne Hrs Hrd. unfold copySurfaceRegion. destruct (_ || _ || _ || _); [apply safe_ret|]. opened. intros w Hw.
  match goal with |- context [bind (findSurface src) ?g] => destruct (find_held _ sl src g w H1 Hw) as (w1 & -> & Hw1 & E1) end.
  match goal with |- context [bind (findSurface dst) ?g] => destruct (find_held _ sl dst g w1 H2 Hw1) as (w2 & -> & Hw2 & E2) end.
  rewrite E1.
  destruct (sm_surface_map (io_mgr w) !! src) as [p|] eqn:Hp; [|apply (settles_unlock n (Datatypes.S n) sl []); [lia|done]].
  destruct (sm_surface_map (io_mgr w) !! dst) as [q|] eqn:Hq; [|apply (settles_unlock n (Datatypes.S n) sl []); [lia|done]].
  destruct (two_held (Datatypes.S n) sl src dst Hne w2 p q Hw2) as (s & d & Es & Ed & Hap & Hh); [by rewrite E2, E1|by rewrite E2, E1|].
  destruct w2 as [m2 d2 k2]. cbn in Es, Ed.
  rewrite (bind_run _ _ _ _ _ (surface_at_run _ _ _ _ _ _ Es)), (bind_run _ _ _ _ _ (surface_at_run _ _ _ _ _ _ Ed)).
  destruct Hap as (Hs & Hd & bs & bd & Ms & Bs & Md & Bd & Hnb). rewrite Bs, Bd.
  by apply (settles_copy_region n src dst p s q d bs bd).
Qed.
End pixels.

Section conversion.
Context (sl : list Z).

Lemma validated_not f yuv : is_success (validatePixelFormat yuv f) = true -> f <> FORMAT_RGB /\ f <> FORMAT_L8.
Proof. intros H. split; intros ->; by destruct yuv. Qed.
Lemma held_convert_pixels n L f src dst ssize dsize count :
  buffer_of L src ssize -> buffer_of L dst dsize -> 0 <= count -> 4 * count <= ssize -> 4 * count <= dsize ->
  preserves (held n sl L) (convert_pixels f src dst count).
Proof.
  intros Hs Hd H0 H1 H2. apply held_bind; [|intros _; apply held_ret]. apply held_for. intros i Hi. rewrite Z2Nat.id in Hi by done.
  apply held_bind; [apply (held_load32 _ _ _ src (4 * i) ssize); [done|lia|lia]|intros v].
  apply (held_store _ _ _ 4 dst (4 * i) (f v) dsize); [done|lia|lia].
Qed.
(** Between surfaces of 32 bits a conversion is one of two loops, or none. *)
Lemma conversion_run n L src sf dst df w h ssize dsize :
  buffer_of L src ssize -> buffer_of L dst dsize -> 0 < w <= 16384 -> 0 < h <= 16384 ->
  4 * (w * h) <= ssize -> 4 * (w * h) <= dsize ->
  sf ∈ formats32 -> sf <> df -> df <> FORMAT_RGB -> df <> FORMAT_L8 ->
  hoare (held n sl L) (performPixelFormatConversion src sf dst df w h)
    (fun r st => held n sl L st /\ (is_success r = true -> df ∈ formats32)).
Proof.
  intros Hs Hd Hw Hh H1 H2 Hf Hne N1 N2. unfold performPixelFormatConversion.
  destruct (_ || _); [intros st Hst; split; [exact Hst|done]|]. destruct (Z.eqb_spec sf df); [done|].
  assert (Hwh : u32 (w * h) = w * h) by (apply u32_small; nia). rewrite Hwh.
  destruct ((sf =? FORMAT_BGRA32) && (df =? FORMAT_RGBA32)) eqn:E1.
  { apply andb_true_iff in E1 as [_ ->%Z.eqb_eq]. intros st Hst. split; [|intros _; unfold formats32; set_solver].
    by apply (held_convert_pixels n L _ _ _ ssize dsize); [..|nia|lia|lia|]. }
  destruct ((sf =? FORMAT_RGBA32) && (df =? FORMAT_BGRA32)) eqn:E2.
  { apply andb_true_iff in E2 as [_ ->%Z.eqb_eq]. intros st Hst. split; [|intros _; unfold formats32; set_solver].
    by apply (held_convert_pixels n L _ _ _ ssize dsize); [..|nia|lia|lia|]. }
  destruct (Z.eqb_spec df FORMAT_RGB); [done|]. rewrite andb_false_r.
  assert (E3 : (sf =? FORMAT_RGB) = false).
  { apply Z.eqb_neq. intros ->. unfold formats32 in Hf. rewrite !elem_of_cons, elem_of_nil in Hf. naive_solver. }
  rewrite E3. destruct (Z.eqb_spec df FORMAT_L8); [done|]. rewrite andb_false_r. cbn.
  intros st Hst. split; [exact Hst|done].
Qed.
Lemma convertSurfaceFormat_safe src dst f : src ∉ sl -> dst ∉ sl -> safe sl (convertSurfaceFormat src dst f).
Proof.
  intros H1 H2. unfold convertSurfaceFormat. destruct (_ || _); [apply safe_ret|].
  destruct (Z.eqb_spec src dst) as [|Hsd]; [apply safe_ret|]. intros n w Hw. unfold bind at 1, get_mgr, gets.
  destruct (is_success (validatePixelFormat (sm_supports_yuv (io_mgr w)) f)) eqn:Ev; cbn [negb]; [|by apply safe_ret].
  destruct (validated_not _ _ Ev) as [N1 N2]. clear Ev. revert w Hw.
  match goal with |- forall w, _ -> good _ _ _ (?P w).2 => change (hoare (good Unlocked (3 + n) sl) P (fun _ => good Unlocked n sl)) end.
  change (3 + n)%nat with (Datatypes.S (Datatypes.S (Datatypes.S n))). apply hoare_lock. apply settles_two; [lia|done|done|done|].
  intros p s q d (Hs & Hd & bs & bd & Ms & Bs & Md & Bd & Hnb). rewrite Ms, Md, Bs, Bd.
  destruct (negb _ || negb _) eqn:Edim; [settle|]. apply orb_false_iff in Edim as [Ew Eh].
  apply negb_false_iff, Z.eqb_eq in Ew, Eh. cbv zeta. destruct (Z.eqb_spec (sd_pixel_format (is_descriptor s)) f) as [|Hf]; [settle|].
  pose proof (sf_size _ _ Hs). pose proof (sf_size _ _ Hd) as Hsd'. rewrite <- Ew, <- Eh in Hsd'. destruct (sf_dims _ _ Hs).
  eapply hoare_bind.
  - eapply (conversion_run _ _ bs _ bd f _ _ (is_memory_size s) (is_memory_size d)); try done; try lia.
    + eapply buffer_in; [right; left|done].
    + eapply buffer_in; [left|done].
    + apply (sf_format _ _ Hs).
  - intros r. destruct (is_success r) eqn:Er; cbn [negb].
    2: { eapply hoare_weaken; [apply (settles_unlock n (Datatypes.S n)); lia|by intros st [Hst _]|done]. }
    destruct (decide (f ∈ formats32)) as [Hfm|Hfm]; [|intros st [_ Hc]; by destruct Hfm; apply Hc].
    eapply (hoare_weaken _ (held (Datatypes.S n) sl [(q, d); (p, s)]) _ _ (fun _ => good Unlocked n sl)); [|by intros st [Hst _]|done].
    apply settles_bind; [auto with surf|intros t]. apply (settles_put _ _ _ _ _ d); [left| |settle].
    intros _. destruct (sf_lock _ _ Hd). kept_tac.
Qed.
End conversion.

(** * Clients *)
(** Objects that are no surface come and go as they like. *)
Definition same_surfaces (m m' : manager) : Prop :=
  sm_surface_lock m' = sm_surface_lock m /\ sm_surfaces m' = sm_surfaces m /\ sm_surface_map m' = sm_surface_map m
  /\ sm_next_surface_id m' = sm_next_surface_id m /\ sm_released_surface_ids m' = sm_released_surface_ids m
  /\ sm_total_surface_memory m' = sm_total_surface_memory m
  /\ sm_allocated_surface_memory m' = sm_allocated_surface_memory m /\ sm_surface_count m' = sm_surface_count m.
Definition surface_objects (k k' : iokern) : Prop :=
  (forall p rc s, kn_objects k' !! p = Some (rc, SurfaceData s) <-> kn_objects k !! p = Some (rc, SurfaceData s))
  /\ kn_buffers k' = kn_buffers k /\ kn_next_pointer k <= kn_next_pointer k' /\ kn_fault k' = kn_fault k
  /\ (forall p, kn_next_pointer k' <= p -> kn_objects k' !! p = None)
  /\ (forall p, p < kn_next_pointer k -> kn_objects k !! p = None -> kn_objects k' !! p = None).
Lemma minv_clients l n m m' k k' :
  minv l n m k -> same_surfaces m m' -> surface_objects k k' ->
  (forall c p, client_map_of m' !! c = Some p ->
    exists rc i, kn_objects k' !! p = Some (rc, ClientData i) /\ 0 < rc /\ ci_client_id i = c) ->
  minv l n m' k'.
Proof.
  intros Hm (E1 & E2 & E3 & E4 & E5 & E6 & E7 & E8) (Ho & Hb & Hp & Hf & Hfr & _) Hc.
  constructor; rewrite ?E1, ?E2, ?E3, ?E4, ?E5, ?E6, ?E7, ?E8, ?Hf; try apply Hm; try done.
  - intros id p Hid. destruct (mi_obj _ _ _ _ Hm id p Hid) as (s & Hs & Hok). exists s. split; [by apply Ho|by eapply surf_ok_ext].
  - intros p q s s'. rewrite !Ho. by apply (mi_own _ _ _ _ Hm).
  - intros p rc s. rewrite Ho. by apply (mi_live _ _ _ _ Hm).
  - intros p rc s. rewrite Ho. by apply (mi_locks _ _ _ _ Hm).
  - rewrite (mi_sum _ _ _ _ Hm). symmetry. apply sum_sizes_frame. intros p Hin. unfold size_at.
    apply (mi_map _ _ _ _ Hm) in Hin as (id & Hid). destruct (mi_obj _ _ _ _ Hm id p Hid) as (s & Hs & _). rewrite Hs. by rewrite (proj2 (Ho _ _ _) Hs).
  - intros p Hle. split; [by apply Hfr|]. rewrite Hb. apply (mi_fresh _ _ _ _ Hm). lia.
Qed.
Lemma dinv_clients n sl m m' k k' d :
  dinv n sl m k d -> same_surfaces m m' -> surface_objects k k' -> dinv n sl m' k' d.
Proof.
  intros Hd (_ & _ & E3 & _) (_ & _ & Hp & _ & _ & Ho). revert Hd. apply dinv_moves; [|done|done|done].
  intros id p Hid. left. by rewrite E3.
Qed.

(** The dictionary's old object, if it had one under the key, is let go. *)
Definition let_go (objs : gmap Z (Z * os_data)) (o : option Z) : gmap Z (Z * os_data) :=
  match o with
  | None => objs
  | Some q => match objs !! q with
              | Some (rc, x) => if rc =? 1 then delete q objs else <[q := (rc - 1, x)]> objs
              | None => objs
              end
  end.
Lemma let_go_ne objs o p : o <> Some p -> let_go objs o !! p = objs !! p.
Proof.
  unfold let_go. destruct o as [q|]; [|done]. intros Hne. destruct (objs !! q) as [[rc x]|]; [|done].
  destruct (rc =? 1); [rewrite lookup_delete_ne|rewrite lookup_insert_ne]; congruence.
Qed.
Lemma let_go_client objs q rc i p y : objs !! q = Some (rc, ClientData i) ->
  (forall c, y <> ClientData c) -> forall rc', let_go objs (Some q) !! p = Some (rc', y) <-> objs !! p = Some (rc', y).
Proof.
  intros Hq Hy rc'. unfold let_go. rewrite Hq. destruct (decide (p = q)) as [->|Hne].
  - rewrite Hq. destruct (rc =? 1); [rewrite lookup_delete_eq|rewrite lookup_insert_eq]; split; intros H; try done;
      injection H as ? E; exfalso; by eapply (Hy i).
  - by destruct (rc =? 1); [rewrite lookup_delete_ne|rewrite lookup_insert_ne].
Qed.
Lemma let_go_None objs o p : objs !! p = None -> let_go objs o !! p = None.
Proof.
  intros Hp. unfold let_go. destruct o as [q|]; [|done]. destruct (objs !! q) as [[rc x]|] eqn:Hq; [|done].
  destruct (rc =? 1); [apply lookup_delete_None; by right|]. rewrite lookup_insert_ne; [done|]. congruence.
Qed.

Lemma client_publish_run {A} (K : M iow A) m d k id p x :
  kn_objects k !! p = Some (1, x) -> (forall q, client_map_of m !! id = Some q -> q <> p /\ is_Some (kn_objects k !! q)) ->
  (array_add clients_of set_clients p ;;; dict_set client_map_of set_client_map id p ;;; release p ;;; K) (mk_iow m d k)
  = K (mk_iow (set_client_map (<[id := p]> (client_map_of m)) (set_clients (clients_of m ++ [p]) m)) d
         (set_kn_objects (<[p := (2, x)]> (let_go (kn_objects k) (client_map_of m !! id))) k)).
Proof.
  intros Hp Hq. unfold array_add, dict_set, upd_mgr, get_mgr, modify, gets, bind, ret. cbn [io_mgr io_disc io_kern].
  rewrite (retain_run _ _ p 1 x k Hp). cbn [io_mgr io_disc io_kern].
  rewrite (retain_run _ _ p (1 + 1) x) by (cbn; apply lookup_insert_eq). cbn [io_mgr io_disc io_kern].
  change (client_map_of (set_clients (clients_of m ++ [p]) m)) with (client_map_of m).
  destruct (client_map_of m !! id) as [q|] eqn:Eq.
  - destruct (Hq q eq_refl) as [Hne [[rc y] Hy]].
    rewrite (release_run _ _ q rc y) by (cbn; rewrite !lookup_insert_ne by done; done). cbn [io_mgr io_disc io_kern].
    rewrite (release_run _ _ p (1 + 1 + 1) x) by (cbn; destruct (rc =? 1); [rewrite lookup_delete_ne by done|rewrite lookup_insert_ne by done]; by rewrite lookup_insert_eq).
    unfold let_go. rewrite Hy. cbn. do 2 f_equal. unfold set_kn_objects. cbn. f_equal.
    change (1 + 1 + 1 =? 1) with false. cbv iota. apply map_eq. intros r. destruct (decide (r = p)) as [->|Hr].
    { by rewrite !lookup_insert_eq. }
    rewrite !(lookup_insert_ne _ p r) by done. destruct (rc =? 1).
    + destruct (decide (r = q)) as [->|Hrq]; [by rewrite !lookup_delete_eq|]. by rewrite !lookup_delete_ne, !(lookup_insert_ne _ p r) by done.
    + destruct (decide (r = q)) as [->|Hrq]; [by rewrite !lookup_insert_eq|]. by rewrite !(lookup_insert_ne _ q r), !(lookup_insert_ne _ p r) by done.
  - rewrite (release_run _ _ p (1 + 1 + 1) x) by (cbn; by rewrite lookup_insert_eq). cbn. by rewrite !insert_insert_eq.
Qed.

Section clients.
Context (sl : list Z).
Implicit Types (n : nat) (L : list (Z * io_surface)).

Lemma held_upd_kern n L f : (forall k, on_side k (f k)) -> preserves (held n sl L) (upd_kern f).
Proof. intros Hf [m d k] Hw. apply (held_side _ _ _ _ d k); [apply Hf| |done]. apply (dinv_side _ _ _ k); [apply Hf|apply Hw]. Qed.
Lemma held_IOFree n L z : preserves (held n sl L) (IOFree z).
Proof. apply held_upd_kern. intros k. split_and!; cbn; [done|done|lia|done]. Qed.
Lemma held_IOMalloc n L z : preserves (held n sl L) (IOMalloc z).
Proof.
  apply held_bind; [apply held_ask|]. intros ok. destruct ok; [|apply held_ret].
  apply held_bind; [|intros _; apply held_ret]. apply held_upd_kern. intros k. split_and!; cbn; [done|done|lia|done].
Qed.
(** Changes of the manager beside the surfaces and the dictionary of clients. *)
Lemma held_beside n L f : (forall m, same_surfaces m (f m) /\ client_map_of (f m) = client_map_of m) ->
  preserves (held n sl L) (upd_mgr f).
Proof.
  intros Hf. apply held_upd_mgr; [|intros m; by destruct (Hf m) as [(_ & _ & H & _) _]].
  intros m k Hm. destruct (Hf m) as [H1 H2]. apply (minv_clients _ _ m _ k k); [done|done| |rewrite H2; apply Hm].
  split; [done|]. split; [done|]. split; [lia|]. split; [done|]. split; [|done]. intros p Hp. by apply (mi_fresh _ _ _ _ Hm).
Qed.
Ltac beside := apply held_beside; intros m0; (split; [by split_and!|done]).
Lemma held_allocateClientId n L : preserves (held n sl L) allocateClientId.
Proof.
  apply held_bind; [apply held_get_mgr|intros released]. destruct (last released).
  - apply held_bind; [beside|intros _; apply held_ret].
  - apply held_bind; [beside|intros _; apply held_get_mgr].
Qed.
Lemma held_releaseClientId n L id : preserves (held n sl L) (releaseClientId id).
Proof.
  unfold releaseClientId. destruct (id =? 0); [apply held_ret|]. apply held_bind; [apply held_get_mgr|intros released].
  apply held_bind; [destruct released; [apply held_ret|apply held_bind; [apply held_ask|intros []; apply held_ret]]|intros ids].
  destruct ids; [|apply held_ret]. apply held_bind; [apply held_ask|intros ok]. destruct ok; beside.
Qed.
Lemma held_findClient n L id : preserves (held n sl L) (findClient id).
Proof. unfold findClient. destruct (id =? 0); [apply held_ret|apply held_get_mgr]. Qed.

(** The object of a new client, and its two references. *)
Lemma minv_new_client n m k k1 id p i (cl : list Z) :
  minv Locked n m k -> kn_objects k1 = <[p := (1, ClientData i)]> (kn_objects k) -> kn_buffers k1 = kn_buffers k ->
  kn_next_pointer k <= p < kn_next_pointer k1 -> kn_fault k1 = kn_fault k -> ci_client_id i = id ->
  let m' := set_client_map (<[id := p]> (client_map_of m)) (set_clients cl m) in
  let k' := set_kn_objects (<[p := (2, ClientData i)]> (let_go (kn_objects k1) (client_map_of m !! id))) k1 in
  minv Locked n m' k' /\ same_surfaces m m' /\ surface_objects k k'.
Proof.
  intros Hm Ho Hb Hp Hf Hid m' k'.
  assert (Hold : forall c q, client_map_of m !! c = Some q -> q < kn_next_pointer k).
  { intros c q Hq. destruct (mi_clients _ _ _ _ Hm _ _ Hq) as (rc & j & Hj & _). apply Z.lt_nge. intros Hle.
    destruct (mi_fresh _ _ _ _ Hm q Hle). congruence. }
  assert (Hgo : forall q rc y, q <> p -> (forall c, y <> ClientData c) ->
    let_go (kn_objects k1) (client_map_of m !! id) !! q = Some (rc, y) <-> kn_objects k !! q = Some (rc, y)).
  { intros q rc y Hq Hy. assert (E : kn_objects k1 !! q = kn_objects k !! q) by by rewrite Ho, lookup_insert_ne.
    destruct (client_map_of m !! id) as [r|] eqn:Hr; [|cbn; by rewrite E].
    destruct (mi_clients _ _ _ _ Hm _ _ Hr) as (rc' & j & Hj & _). pose proof (Hold _ _ Hr).
    rewrite (let_go_client _ _ rc' j); [by rewrite E| |done]. rewrite Ho, lookup_insert_ne by lia. done. }
  assert (Hsame : same_surfaces m m') by by split_and!.
  assert (Hso : surface_objects k k').
  { split; [|split; [done|split; [cbn; lia|split; [done|split]]]].
    - intros q rc s. cbn. destruct (decide (q = p)) as [->|Hq].
      + rewrite lookup_insert_eq. split; [done|]. intros Hs. destruct (mi_fresh _ _ _ _ Hm p ltac:(lia)). congruence.
      + rewrite lookup_insert_ne by done. by apply Hgo.
    - intros q Hq. cbn in *. rewrite lookup_insert_ne by lia. apply let_go_None. rewrite Ho, lookup_insert_ne by lia.
      apply (mi_fresh _ _ _ _ Hm). lia.
    - intros q Hq Hn. cbn in *. rewrite lookup_insert_ne by lia. apply let_go_None. by rewrite Ho, lookup_insert_ne by lia. }
  split; [|by split]. apply (minv_clients _ _ m _ k); [done|done|done|].
  intros c q Hq. change (client_map_of m') with (<[id := p]> (client_map_of m)) in Hq. cbn.
  apply lookup_insert_Some in Hq as [[<- <-]|[Hne Hq]]; [exists 2, i; by rewrite lookup_insert_eq|].
  pose proof (Hold _ _ Hq). rewrite lookup_insert_ne by lia. destruct (mi_clients _ _ _ _ Hm _ _ Hq) as (rc & j & Hj & Hrc & Hc).
  exists rc, j. rewrite let_go_ne; [rewrite Ho, lookup_insert_ne by lia; done|].
  intros Hr. destruct (mi_clients _ _ _ _ Hm _ _ Hr) as (rc' & j' & Hj' & _ & Hc'). congruence.
Qed.
Lemma settles_new_client {A} e n id i (bad good_r : A) : (e <= n)%nat -> ci_client_id i = id ->
  settles e n sl [] (let! data := withBytes (ClientData i) in
    match data with
    | None => IOFree SIZEOF_CLIENT_INFO ;;; releaseClientId id ;;; unlock ;;; ret bad
    | Some p => array_add clients_of set_clients p ;;; dict_set client_map_of set_client_map id p ;;; release p ;;; unlock ;;; ret good_r
    end).
Proof.
  intros He Hi [m d k] [[Hm Hd] HL]. unfold withBytes, ask, bind at 1, bind at 1. cbn [io_mgr io_disc io_kern] in *.
  set (k0 := set_kn_answers (tail (kn_answers k)) k). assert (Hk0 : on_side k k0) by (split_and!; cbn; [done|done|lia|done]).
  apply (minv_side _ _ _ _ _ Hk0) in Hm. apply (dinv_side _ _ _ _ _ _ Hk0) in Hd.
  destruct (hd true (kn_answers k)).
  - match goal with |- context [bind fresh_pointer ?g (mk_iow m d k0)] =>
      change (bind fresh_pointer g (mk_iow m d k0)) with (g (kn_next_pointer k0) (mk_iow m d (set_kn_next_pointer (kn_next_pointer k0 + 1) k0))) end.
    cbv beta. unfold bind at 1, upd_kern, modify, ret at 1. cbn [io_mgr io_disc io_kern].
    match goal with |- context [mk_iow m d ?k] => set (k1 := k) end. set (p := kn_next_pointer k0).
    assert (Ho : kn_objects k1 = <[p := (1, ClientData i)]> (kn_objects k0)) by done.
    assert (Hp : kn_next_pointer k0 <= p < kn_next_pointer k1) by (cbn; lia).
    destruct (minv_new_client n m k0 k1 id p i (clients_of m ++ [p]) Hm Ho eq_refl Hp eq_refl Hi) as (Hm' & Hs & Hso).
    rewrite (client_publish_run _ m d k1 id p (ClientData i)).
    + apply (settles_unlock e n sl [] good_r He). split; [|done]. split; [done|]. by apply (dinv_clients _ _ m _ k0).
    + rewrite Ho. apply lookup_insert_eq.
    + intros q Hq. destruct (mi_clients _ _ _ _ Hm _ _ Hq) as (rc & j & Hj & _).
      assert (q <> p). { intros ->. destruct (mi_fresh _ _ _ _ Hm p ltac:(lia)). congruence. }
      split; [done|]. rewrite Ho, lookup_insert_ne by done. by eexists.
  - change (good Unlocked e sl ((IOFree SIZEOF_CLIENT_INFO ;;; releaseClientId id ;;; unlock ;;; ret bad) (mk_iow m d k0)).2).
    revert Hm Hd. intros Hm Hd.
    assert (Hsettle : settles e n sl [] (IOFree SIZEOF_CLIENT_INFO ;;; releaseClientId id ;;; unlock ;;; ret bad)).
    { apply settles_bind; [apply held_IOFree|intros _]. apply settles_bind; [apply held_releaseClientId|intros _]. by apply settles_unlock. }
    by apply Hsettle.
Qed.
Lemma registerClient_safe desc ptr : safe sl (registerClient desc ptr).
Proof.
  unfold registerClient. destruct desc as [[pid rights]|]; [|apply safe_ret]. destruct ptr; [|apply safe_ret]. cbn [negb]. opened.
  apply settles_bind; [apply held_get_mgr|intros m]. apply settles_bind; [destruct (is_some _); auto with surf|intros ok].
  destruct ok; cbn [negb]; [|settle]. apply settles_bind; [beside|intros _].
  apply settles_bind; [destruct (is_some _); auto with surf|intros ok]. destruct ok; cbn [negb]; [|settle].
  apply settles_bind; [beside|intros _]. apply settles_bind; [apply held_allocateClientId|intros id].
  apply settles_bind; [apply held_IOMalloc|intros info]. destruct info; cbn [negb].
  - apply settles_bind; [auto with surf|intros t]. by apply settles_new_client; [lia|].
  - apply settles_bind; [apply held_releaseClientId|intros _]. settle.
Qed.
End clients.

Section client_ops.
Context (sl : list Z).
Implicit Types (n : nat).

Lemma less3 n : (n <= Datatypes.S (Datatypes.S (Datatypes.S n)))%nat.
Proof. lia. Qed.
Lemma settles_with_client {A} e n id (answer : IOReturn -> A) f :
  (e <= n)%nat ->
  (forall p rc c w, held n sl [] w -> client_map_of (io_mgr w) !! id = Some p ->
     kn_objects (io_kern w) !! p = Some (rc, ClientData c) -> 0 < rc -> ci_client_id c = id ->
     good Unlocked e sl (f p c w).2) ->
  settles e n sl [] (with_client answer id f).
Proof.
  intros He Hf [m d k] Hw. unfold with_client, bind at 1, get_mgr, gets. cbn [io_mgr].
  destruct (client_map_of m !! id) as [p|] eqn:Hp; [|exact (settles_unlock e n sl [] _ He _ Hw)].
  pose proof Hw as [[Hm _] _]. destruct (mi_clients _ _ _ _ Hm _ _ Hp) as (rc & c & Hc & Hrc & Hid). cbn in Hc.
  unfold client_at, bind at 1, bind at 1. rewrite (object_at_run _ _ _ _ _ Hc). by eapply Hf.
Qed.
Lemma getClientDescriptor_safe id ptr : safe sl (getClientDescriptor id ptr).
Proof.
  unfold getClientDescriptor. destruct (_ || _); [apply safe_ret|]. opened. apply settles_with_client; [lia|].
  intros p rc c w Hw _ _ _ _. exact (settles_unlock n _ sl [] _ (less3 n) _ Hw).
Qed.
Lemma setClientAccessRights_safe id r : safe sl (setClientAccessRights id r).
Proof.
  unfold setClientAccessRights. destruct (_ =? _); [apply safe_ret|]. opened. apply settles_with_client; [lia|].
  intros p rc c [m d k] Hw Hp Hc Hrc Hid. destruct (negb _).
  { exact (settles_unlock n _ sl [] _ (less3 n) _ Hw). }
  refine (settles_unlock n _ sl [] kIOReturnSuccess (less3 n) _ _).
  destruct Hw as [[Hm Hd] _]. cbn in *. split; [|done].
  set (k' := set_kn_objects (alter (fun o => (o.1, ClientData (set_ci_access_rights r c))) p (kn_objects k)) k).
  assert (Hq : forall q rc' y, (forall c, y <> ClientData c) -> kn_objects k' !! q = Some (rc', y) <-> kn_objects k !! q = Some (rc', y)).
  { intros q rc' y Hy. cbn. destruct (decide (q = p)) as [->|Hne]; [|by rewrite lookup_alter_ne].
    rewrite lookup_alter_eq, Hc. cbn. split; intros [= ? E]; exfalso; by eapply Hy. }
  assert (Hso : surface_objects k k').
  { split; [intros q rc' s; by apply Hq|]. split; [done|]. split; [cbn; lia|]. split; [done|]. split.
    - intros q Hq'. cbn in *. destruct (mi_fresh _ _ _ _ Hm q Hq') as [Hn _]. rewrite lookup_alter_ne; [done|congruence].
    - intros q _ Hn. cbn. rewrite lookup_alter_ne; [done|congruence]. }
  split; cbn.
  - apply (minv_clients _ _ m _ k); [done|by split_and!|done|]. intros i q Hi. destruct (mi_clients _ _ _ _ Hm _ _ Hi) as (rc' & j & Hj & Hrc' & Hji).
    cbn. destruct (decide (q = p)) as [->|Hne]; [|rewrite lookup_alter_ne by done; by exists rc', j].
    rewrite lookup_alter_eq, Hc. rewrite Hc in Hj. injection Hj as <- <-. eexists _, _. split; [done|]. by split.
  - apply (dinv_clients _ _ m _ k); [done|by split_and!|done].
Qed.

Ltac beside := apply held_beside; intros m0; (split; [by split_and!|done]).
Lemma settles_find {A} e n id (f : option Z -> M iow A) : id ∉ sl ->
  (forall o, settles e n sl [] (f o)) -> settles e (Datatypes.S n) sl [] (bind (findSurface id) f).
Proof. intros Hid Hf w Hw. destruct (find_held _ sl id f w Hid Hw) as (w' & -> & Hw' & _). by apply Hf. Qed.
Lemma held_share_all n id mode clients : preserves (held n sl []) (share_all id mode clients).
Proof.
  induction clients as [|c cs IH]; cbn [share_all]; [apply held_ret|].
  apply held_bind; [apply held_findClient|intros o]. apply held_bind; [|intros _; apply IH].
  destruct (negb _); [apply held_ret|]. apply held_bind; [apply held_IOMalloc|intros ok]. destruct ok; cbn [negb]; [|apply held_ret].
  apply held_bind; [apply held_ask|intros data]. apply held_bind; [destruct data; [beside|apply held_ret]|intros _; apply held_IOFree].
Qed.
Lemma shareSurface_safe id desc : id ∉ sl -> safe sl (shareSurface id desc).
Proof.
  intros Hid. unfold shareSurface. destruct desc as [[[i mode] clients]|]; [|apply safe_ret]. destruct (_ || _); [apply safe_ret|].
  opened. apply settles_find; [done|]. intros o. destruct o; [|settle].
  apply settles_bind; [apply held_get_mgr|intros shared]. apply settles_bind; [destruct (is_some _); auto with surf|intros ok].
  destruct ok; cbn [negb]; [|settle]. apply settles_bind; [beside|intros _].
  apply settles_bind; [apply held_share_all|intros _]. settle.
Qed.
Lemma unshareSurface_safe id c : safe sl (unshareSurface id c).
Proof.
  unfold unshareSurface. destruct (_ || _); [apply safe_ret|]. opened. apply settles_bind; [apply held_get_mgr|intros shared].
  destruct shared as [l|]; [|settle]. destruct (index_of _ l); [|settle]. apply settles_bind; [beside|intros _]. settle.
Qed.
Lemma getSurfaceClients_safe id ptr cnt : safe sl (getSurfaceClients id ptr cnt).
Proof.
  unfold getSurfaceClients. destruct cnt; [|apply safe_ret]. destruct (_ =? _); [apply safe_ret|]. opened.
  apply settles_bind; [apply held_get_mgr|intros shared]. apply settles_unlock. lia.
Qed.
Lemma canClientAccessSurface_safe c id : id ∉ sl -> safe sl (canClientAccessSurface c id).
Proof.
  intros Hid. unfold canClientAccessSurface. destruct (_ || _); [apply safe_ret|]. opened.
  apply settles_bind; [apply held_findClient|intros client]. destruct (negb _); [settle|].
  apply settles_find; [done|]. intros o. destruct (negb _); [settle|]. settle.
Qed.
Lemma getMemoryUsage_safe ptr : safe sl (getMemoryUsage ptr).
Proof.
  unfold getMemoryUsage. destruct ptr; [|apply safe_ret]. opened. apply settles_bind; [apply held_get_mgr|intros m]. settle.
Qed.
Lemma resetIOSurfaceCounters_safe : safe sl resetIOSurfaceCounters.
Proof.
  unfold resetIOSurfaceCounters. opened. apply settles_bind; [beside|intros _].
  intros [m d k] [[Hm Hd] _]. cbn in Hm, Hd. rewrite (unlock_run _ _ _ (mi_lock _ _ _ _ Hm)).
  apply (good_less _ (Datatypes.S (Datatypes.S (Datatypes.S n)))); [lia|]. split; cbn; [by eapply minv_set_lock|]. by apply (dinv_same _ _ m _ k k).
Qed.

(** ** The cache *)
Lemma safe_disc f : (forall n m k d, minv Unlocked n m k -> dinv n sl m k d -> dinv n sl m k (f d)) -> safe sl (upd_disc f ;;; ret kIOReturnSuccess).
Proof.
  intros Hf n [m d k] [Hm Hd]. apply (good_less _ (3 + n)); [lia|]. split; [done|]. by apply Hf.
Qed.
Lemma flushDiscoveryCache_safe : safe sl flushDiscoveryCache.
Proof.
  apply safe_disc. intros n m k d _ Hd. apply dinv_last. apply dinv_cache; [done|cbn; unfold CACHE_SIZE; lia|]. intros e He. by apply elem_of_nil in He.
Qed.
Lemma resetDiscoveryStatistics_safe : safe sl resetDiscoveryStatistics.
Proof. apply safe_disc. intros n m k d _ []. constructor; cbn; first [done|lia]. Qed.
Lemma getDiscoveryStatistics_safe ptr : safe sl (getDiscoveryStatistics ptr).
Proof. destruct ptr; intros n w Hw; (apply (good_less _ (3 + n)); [lia|done]). Qed.
Lemma prewarm_run n m k ids d : dinv n sl m k d ->
  exists d', prewarm ids (mk_iow m d k) = (tt, mk_iow m d' k) /\ dinv n sl m k d'.
Proof.
  revert d. induction ids as [|id ids IH]; intros d Hd; cbn [prewarm]; [by exists d|].
  unfold bind at 1, get_disc, gets. cbn [io_disc]. destruct (cache_full d) eqn:Hf; [by exists d|].
  unfold bind at 1. destruct (id =? 0); [by apply IH|].
  unfold bind at 1, map_object, get_mgr, gets. cbn [io_mgr]. destruct (is_some _); [|by apply IH].
  unfold upd_disc, modify. cbn [io_mgr io_disc io_kern]. apply IH. apply dinv_add; [done|done|]. apply entry_mapped.
Qed.
Lemma prewarmDiscoveryCache_safe ids : safe sl (prewarmDiscoveryCache ids).
Proof.
  unfold prewarmDiscoveryCache. destruct ids as [[|id ids]|]; [apply safe_ret| |apply safe_ret]. intros n [m d k] [Hm Hd].
  destruct (prewarm_run _ m k (id :: ids) d Hd) as (d' & E & Hd'). rewrite (bind_run _ _ _ _ _ E).
  apply (good_less _ (3 + n)); [lia|done].
Qed.
Lemma optimizeDiscoveryCache_safe : safe sl optimizeDiscoveryCache.
Proof.
  intros n [m d k] [Hm Hd]. apply (good_less _ (3 + n)); [lia|]. unfold optimizeDiscoveryCache, bind at 1, get_disc, gets. cbn [io_disc].
  destruct (_ =? _)%nat; [done|]. split; [done|]. cbn -[take drop bubble_sort Nat.div].
  set (srt := bubble_sort ce_access_count (length (dc_cache d) - 1) (dc_cache d)).
  assert (Hp : srt ≡ₚ dc_cache d) by apply bubble_sort_perm.
  apply dinv_cache; [done| |].
  - rewrite length_app, length_fmap, <- length_app, take_drop, Hp. apply (di_length _ _ _ _ _ Hd).
  - intros e He. assert (Hin : exists e0, e0 ∈ dc_cache d /\ ce_surface_id e = ce_surface_id e0 /\ ce_surface_object e = ce_surface_object e0).
    { apply elem_of_app in He as [He|He].
      - apply list_elem_of_fmap in He as (e0 & -> & He0). exists e0. split; [|done]. rewrite <- Hp. rewrite <- (take_drop (length (dc_cache d) / 4) srt).
        apply elem_of_app. by left.
      - exists e. split; [|done]. rewrite <- Hp. rewrite <- (take_drop (length (dc_cache d) / 4) srt). apply elem_of_app. by right. }
    destruct Hin as (e0 & Hin & E1 & E2). intros p Hpp. rewrite E1. rewrite E2 in Hpp. by apply (dinv_entry _ _ _ _ _ _ Hd Hin).
Qed.
End client_ops.
