(* ===== verification/IOSurfaceSpec.v ===== *)
(** What the surface manager of [IOSurfaces.v] guarantees, and what it does
    not: theorems on top of [IOSurfaceLife.v] and [IOSurfaceSafe.v]. *)
From S2P Require Import Prelude IOSurfaces IOSurfaceOps IOSurfaceLife IOSurfaceSafe.

(** * Sessions *)
Inductive surface_op :=
| OpCreate (d : surface_desc)
| OpDestroy (id : Z)
| OpLock (id o : Z) | OpUnlock (id o : Z)
| OpLockPlane (id i o : Z) | OpUnlockPlane (id i o : Z) | OpPlaneInfo (id i : Z)
| OpFill (id color : Z) | OpFillRegion (id x y width height color : Z)
| OpCopy (src dst : Z) | OpCopyRegion (src dst sx sy dx dy width height : Z)
| OpConvert (src dst format : Z)
| OpPriority (id v : Z) | OpValidate (id : Z) | OpIntegrity (id : Z)
| OpRegister (pid rights : Z) | OpClient (id : Z) | OpRights (id rights : Z)
| OpShare (id mode : Z) (clients : list Z) | OpUnshare (id client : Z)
| OpClients (id room : Z) | OpCanAccess (client id : Z)
| OpUsage | OpResetCounters
| OpFlush | OpPrewarm (ids : list Z) | OpOptimize | OpResetDiscovery | OpDiscovery.

Definition drop_result {A} (prog : M iow A) : M iow unit := prog ;;; ret tt.
Definition perform (o : surface_op) : M iow unit :=
  match o with
  | OpCreate d => drop_result (createSurface (Some d) true)
  | OpDestroy id => drop_result (destroySurface id)
  | OpLock id o => drop_result (lockSurface id o true)
  | OpUnlock id o => drop_result (unlockSurface id o)
  | OpLockPlane id i o => drop_result (lockSurfacePlane id i o true)
  | OpUnlockPlane id i o => drop_result (unlockSurfacePlane id i o)
  | OpPlaneInfo id i => drop_result (getSurfacePlaneInfo id i true)
  | OpFill id color => drop_result (fillSurface id color)
  | OpFillRegion id x y w h color => drop_result (fillSurfaceRegion id x y w h color)
  | OpCopy src dst => drop_result (copySurface src dst)
  | OpCopyRegion src dst sx sy dx dy w h => drop_result (copySurfaceRegion src dst sx sy dx dy w h)
  | OpConvert src dst f => drop_result (convertSurfaceFormat src dst f)
  | OpPriority id v => drop_result (setSurfaceMemoryPriority id v)
  | OpValidate id => drop_result (validateSurface id)
  | OpIntegrity id => drop_result (checkSurfaceIntegrity id)
  | OpRegister pid rights => drop_result (registerClient (Some (pid, rights)) true)
  | OpClient id => drop_result (getClientDescriptor id true)
  | OpRights id r => drop_result (setClientAccessRights id r)
  | OpShare id mode clients => drop_result (shareSurface id (Some (id, mode, clients)))
  | OpUnshare id c => drop_result (unshareSurface id c)
  | OpClients id room => drop_result (getSurfaceClients id true (Some room))
  | OpCanAccess c id => drop_result (canClientAccessSurface c id)
  | OpUsage => drop_result (getMemoryUsage true)
  | OpResetCounters => resetIOSurfaceCounters
  | OpFlush => drop_result flushDiscoveryCache
  | OpPrewarm ids => drop_result (prewarmDiscoveryCache (Some ids))
  | OpOptimize => drop_result optimizeDiscoveryCache
  | OpResetDiscovery => drop_result resetDiscoveryStatistics
  | OpDiscovery => drop_result (getDiscoveryStatistics true)
  end.
Fixpoint session (ops : list surface_op) : M iow unit :=
  match ops with [] => ret tt | o :: rest => perform o ;;; session rest end.

(** The surfaces an operation looks up, and what it asks for within bounds. *)
Definition looks_up (o : surface_op) : list Z :=
  match o with
  | OpDestroy id | OpLock id _ | OpUnlock id _ | OpLockPlane id _ _ | OpUnlockPlane id _ _ | OpPlaneInfo id _
  | OpFill id _ | OpFillRegion id _ _ _ _ _ | OpPriority id _ | OpValidate id | OpIntegrity id
  | OpShare id _ _ | OpCanAccess _ id => [id]
  | OpCopy src dst | OpCopyRegion src dst _ _ _ _ _ _ | OpConvert src dst _ => [src; dst]
  | _ => []
  end.
Definition in_bounds (o : surface_op) : Prop :=
  match o with
  | OpCreate d => desc_ok d
  | OpFillRegion _ x y w h _ => rect_ok x y w h
  | OpCopyRegion src dst sx sy dx dy w h => src <> dst /\ rect_ok sx sy w h /\ rect_ok dx dy w h
  | _ => True
  end.
(** The ids destroyed since the cache was last flushed. *)
Definition stale_after (stale : list Z) (o : surface_op) : list Z :=
  match o with OpDestroy id => id :: stale | OpFlush => [] | _ => stale end.
Fixpoint tame (stale : list Z) (ops : list surface_op) : Prop :=
  match ops with
  | [] => True
  | o :: rest => Forall (fun id => id ∉ stale) (looks_up o) /\ in_bounds o /\ tame (stale_after stale o) rest
  end.
Definition stale_end (stale : list Z) (ops : list surface_op) : list Z := foldl stale_after stale ops.

Lemma safe_drop {A} sl sl' (prog : M iow A) n :
  hoare (good Unlocked (3 + n) sl) prog (fun _ => good Unlocked n sl') ->
  hoare (good Unlocked (3 + n) sl) (drop_result prog) (fun _ => good Unlocked n sl').
Proof. intros H. eapply hoare_bind; [exact H|]. by intros a w Hw. Qed.
Lemma create_good sl n desc : desc_ok desc ->
  hoare (good Unlocked (3 + n) sl) (createSurface (Some desc) true) (fun _ => good Unlocked n sl).
Proof.
  intros Hd [m d k] [Hm Hdi]. cbn in Hm, Hdi. apply (minv_less _ _ (Datatypes.S (Datatypes.S n))) in Hm; [|lia]. apply (dinv_less _ n) in Hdi; [|lia].
  destruct (createSurface_run _ _ _ _ _ _ Hm Hdi Hd) as (r & m' & k' & -> & H1 & H2 & _). by split.
Qed.
Lemma destroy_good sl n id : id ∉ sl ->
  hoare (good Unlocked (3 + n) sl) (destroySurface id) (fun _ => good Unlocked n (id :: sl)).
Proof.
  intros Hid [m d k] [Hm Hd]. cbn in Hm, Hd. apply (minv_less _ _ (Datatypes.S n)) in Hm; [|lia]. apply (dinv_less _ (Datatypes.S n)) in Hd; [|lia].
  destruct (destroySurface_run _ _ _ _ _ _ Hm Hd Hid) as (r & m' & d' & k' & -> & H1 & H2 & _). by split.
Qed.
Lemma flush_good sl n : hoare (good Unlocked (3 + n) sl) flushDiscoveryCache (fun _ => good Unlocked n []).
Proof.
  intros [m d k] [Hm Hd]. apply (good_less _ (3 + n)); [lia|]. split; [done|]. destruct Hd. constructor; cbn; try done.
  - intros e p He. by apply elem_of_nil in He.
  - lia.
Qed.

(** Each operation, once its surfaces are not stale. *)
Lemma perform_good sl n o :
  Forall (fun id => id ∉ sl) (looks_up o) -> in_bounds o ->
  hoare (good Unlocked (3 + n) sl) (perform o) (fun _ => good Unlocked n (stale_after sl o)).
Proof.
  intros Hl Hb. destruct o; cbn [looks_up] in Hl; try (apply Forall_cons in Hl as [H1 Hl]); try (apply Forall_cons in Hl as [H2 _]);
    cbn [perform stale_after in_bounds] in *;
    try match goal with |- hoare _ resetIOSurfaceCounters _ => apply resetIOSurfaceCounters_safe | _ => apply safe_drop end.
  - by apply create_good. - by apply destroy_good.
  - by apply lockSurface_safe. - by apply unlockSurface_safe. - by apply lockSurfacePlane_safe.
  - by apply unlockSurfacePlane_safe. - by apply getSurfacePlaneInfo_safe. - by apply fillSurface_safe.
  - by apply fillSurfaceRegion_safe. - by apply copySurface_safe. - destruct Hb as (? & ? & ?). by apply copySurfaceRegion_safe.
  - by apply convertSurfaceFormat_safe. - by apply setSurfaceMemoryPriority_safe. - by apply validateSurface_safe.
  - by apply checkSurfaceIntegrity_safe. - by apply registerClient_safe. - by apply getClientDescriptor_safe.
  - by apply setClientAccessRights_safe. - by apply shareSurface_safe. - by apply unshareSurface_safe.
  - by apply getSurfaceClients_safe. - by apply canClientAccessSurface_safe. - by apply getMemoryUsage_safe.
  - by apply flush_good. - by apply prewarmDiscoveryCache_safe. - by apply optimizeDiscoveryCache_safe.
  - by apply resetDiscoveryStatistics_safe. - by apply getDiscoveryStatistics_safe.
Qed.
Lemma session_good ops sl n : tame sl ops ->
  hoare (good Unlocked (3 * length ops + n) sl) (session ops) (fun _ => good Unlocked n (stale_end sl ops)).
Proof.
  revert sl. induction ops as [|o ops IH]; intros sl Ht; [by intros w Hw|]. destruct Ht as (H1 & H2 & H3). cbn [session length].
  replace (3 * Datatypes.S (length ops) + n)%nat with (3 + (3 * length ops + n))%nat by lia.
  eapply hoare_bind; [by apply perform_good|]. intros []. by apply IH.
Qed.

(** * From the start *)
Definition clean_kernel (k : iokern) : Prop := kn_objects k = ∅ /\ kn_buffers k = ∅ /\ kn_fault k = false.
Definition clean_start (w : iow) : Prop :=
  io_mgr w = blank_manager /\ io_disc w = initial_discovery /\ clean_kernel (io_kern w).

Lemma init_good device n w : clean_start w -> Z.of_nat n < 2 ^ 30 ->
  let '(ok, w1) := initWithAccelerator (Some device) w in ok = true -> good Unlocked n [] w1.
Proof.
  intros (Em & Ed & Eo & Eb & Ef) Hn. destruct w as [m d k]. cbn in *. subst m d.
  unfold initWithAccelerator, upd_mgr, modify, ask, bind, ret. cbn [io_mgr io_disc io_kern fst snd].
  destruct (hd true (kn_answers k)); cbn; [|done].
  set (a1 := tail (kn_answers k)). destruct (hd true a1), (hd true (tail a1)), (hd true (tail (tail a1))); cbn; try done. intros _.
  split; cbn.
  - constructor; cbn; rewrite ?Eo, ?Eb; try done; try lia.
    + constructor.
    + intros p. split; [intros H; by apply elem_of_nil in H|]. by intros (id & Hid).
    + intros id [p Hp]. done.
    + split; [constructor|]. split; [lia|]. intros id H. by apply elem_of_nil in H.
  - constructor; cbn; try done; try lia. intros e p H. by apply elem_of_nil in H.
Qed.

Section setup.
Context (l : lock_state) (n : nat) (sl : list Z).
Lemma good_side m d k k' : on_side k k' -> good l n sl (mk_iow m d k) -> good l n sl (mk_iow m d k').
Proof. intros Hk [Hm Hd]. split; [by eapply minv_side|by eapply dinv_side]. Qed.
Lemma good_ask : preserves (good l n sl) ask.
Proof. intros [m d k] Hw. destruct (ask_run m d k) as (b & k' & -> & Hk & _). by apply (good_side _ _ k). Qed.
Lemma good_upd_kern f : (forall k, on_side k (f k)) -> preserves (good l n sl) (upd_kern f).
Proof. intros Hf [m d k] Hw. by apply (good_side _ _ k). Qed.
Lemma good_beside f : (forall m, same_surfaces m (f m) /\ client_map_of (f m) = client_map_of m) ->
  preserves (good l n sl) (upd_mgr f).
Proof.
  intros Hf [m d k] [Hm Hd]. destruct (Hf m) as [H1 H2]. cbn in *.
  assert (Hso : surface_objects k k).
  { split; [done|]. split; [done|]. split; [lia|]. split; [done|]. split; [|done]. intros p Hp. by apply (mi_fresh _ _ _ _ Hm). }
  split; cbn; [|by eapply dinv_clients]. apply (minv_clients _ _ m _ k k); [done|done|done|rewrite H2; apply Hm].
Qed.
Lemma good_pool z : preserves (good l n sl) (createMemoryPool z).
Proof.
  unfold createMemoryPool. destruct (z =? 0); [apply preserves_ret|]. apply preserves_bind; [apply preserves_gets|intros pools].
  destruct pools as [pl|]; [|apply preserves_ret]. apply preserves_bind.
  { apply preserves_bind; [apply good_ask|intros []; [|apply preserves_ret]]. apply preserves_bind; [|intros _; apply preserves_ret].
    apply good_upd_kern. intros k. split_and!; cbn; [done|done|lia|done]. }
  intros []; cbn [negb]; [|apply preserves_ret]. apply preserves_bind; [apply good_ask|intros []]; cbn [negb].
  - apply preserves_bind; [|intros _; apply preserves_ret]. apply good_beside. intros m0. split; [by split_and!|done].
  - apply preserves_bind; [|intros _; apply preserves_ret]. apply good_upd_kern. intros k. split_and!; cbn; [done|done|lia|done].
Qed.
Lemma good_pools zs : preserves (good l n sl) (create_pools zs).
Proof.
  induction zs as [|z zs IH]; cbn [create_pools]; [apply preserves_ret|]. apply preserves_bind; [apply good_pool|intros r].
  destruct (is_success r.1); [apply IH|apply preserves_ret].
Qed.
Lemma setup_good : preserves (good l n sl) setupIOSurfaceSupport.
Proof.
  apply preserves_bind; [|intros _].
  { apply good_beside. intros m0. split; [by split_and!|done]. }
  unfold configureMemoryPools. apply preserves_bind; [apply good_ask|intros []]; cbn [negb].
  - apply preserves_bind; [apply good_beside; intros m0; (split; [by split_and!|done])|intros _].
    apply preserves_bind; [apply good_pools|intros r]. destruct (negb _); [apply preserves_ret|].
    apply preserves_bind; [apply good_beside; intros m0; (split; [by split_and!|done])|intros _; apply preserves_ret].
  - apply preserves_bind; [apply good_beside; intros m0; (split; [by split_and!|done])|intros _; apply preserves_ret].
Qed.
End setup.

(** A life: from [initWithAccelerator] and [setupIOSurfaceSupport] on. *)
Definition life (device : bool) (ops : list surface_op) : M iow bool :=
  let! ok := initWithAccelerator (Some device) in
  if ok then setupIOSurfaceSupport ;;; session ops ;;; ret true else ret false.
Lemma life_good device ops w n :
  clean_start w -> Z.of_nat (3 * length ops + n) < 2 ^ 30 -> tame [] ops ->
  let '(ok, w') := life device ops w in ok = true -> good Unlocked n (stale_end [] ops) w'.
Proof.
  intros Hw Hn Ht. unfold life, bind at 1. pose proof (init_good device _ w Hw Hn) as Hi.
  destruct (initWithAccelerator (Some device) w) as [ok w1]. destruct ok; [|done]. specialize (Hi eq_refl).
  pose proof (setup_good _ _ _ _ Hi) as Hs. unfold bind at 1. destruct (setupIOSurfaceSupport w1) as [r w2]. cbn [snd] in Hs.
  pose proof (session_good ops [] n Ht _ Hs) as Hg. unfold bind. destruct (session ops w2) as [u w3]. intros _. exact Hg.
Qed.

(** ** The invariant, spelled out *)
(** Each surface of the dictionary is in the array, with a struct of its id, a
    wired buffer of its own that holds its pixels, and the memory counted. *)
Definition tables_ok (m : manager) (k : iokern) : Prop :=
  NoDup (sm_surfaces m)
  /\ (forall p, p ∈ sm_surfaces m <-> exists id, sm_surface_map m !! id = Some p)
  /\ (forall id p, sm_surface_map m !! id = Some p -> exists s b x,
        kn_objects k !! p = Some (2, SurfaceData s) /\ is_surface_id s = id
        /\ is_memory s = Some b /\ is_base_address s = Some b /\ kn_buffers k !! b = Some x
        /\ bf_length x = is_memory_size s /\ bf_prepared x = 1
        /\ 4 * (is_width s * is_height s) <= is_memory_size s
        /\ is_is_locked s = (0 <? is_lock_count s)
        /\ forall id' p' s', sm_surface_map m !! id' = Some p' -> kn_objects k !! p' = Some (2, SurfaceData s') ->
             is_memory s' = Some b -> id' = id)
  /\ sm_allocated_surface_memory m = sum_sizes k (sm_surfaces m)
  /\ sm_allocated_surface_memory m <= sm_total_surface_memory m
  /\ sm_surface_count m = Z.of_nat (length (sm_surfaces m))
  /\ NoDup (sm_released_surface_ids m)
  /\ (forall id, id ∈ sm_released_surface_ids m -> sm_surface_map m !! id = None).
Lemma minv_tables l n m k : minv l n m k -> tables_ok m k.
Proof.
  intros Hm. split_and!; try apply Hm.
  intros id p Hp. destruct (mi_obj _ _ _ _ Hm _ _ Hp) as (s & Hs & Hok).
  destruct (so_buffer _ _ _ Hok) as (b & x & H1 & H2 & H3 & H4 & H5). exists s, b, x.
  split_and!; try done; try apply Hok. intros id' p' s' Hp' Hs' Hb.
  assert (p' = p) as -> by (apply (mi_own _ _ _ _ Hm p' p s' s); [done|done|congruence]). by eapply minv_map_inj.
Qed.


(** * Pointers kept for ids *)
(** The pointer the cache answers for [id]. *)
Definition cached (id p : Z) (d : discovery) : Prop :=
  exists i e, index_of (cache_hit id) (dc_cache d) = Some i /\ dc_cache d !! i = Some e /\ ce_surface_object e = Some p.
Lemma index_of_alter {A} (f : A -> bool) g l i j :
  (forall x, f (g x) = f x) -> index_of f (alter g j l) = i <-> index_of f l = i.
Proof.
  intros Hg. enough (index_of f (alter g j l) = index_of f l) as -> by done.
  revert j. induction l as [|x l IH]; intros [|j]; cbn; [done|done|by rewrite Hg|]. destruct (f x); [done|].
  by rewrite (IH j).
Qed.
Lemma cached_hit id p i t id' d : cached id p d -> cached id p (hit i t id' d).
Proof.
  intros (j & e & H1 & H2 & H3). set (g := fun e => set_ce_last_access_time t (set_ce_access_count (u32 (ce_access_count e + 1)) e)).
  assert (E : dc_cache (hit i t id' d) = alter g i (dc_cache d)) by (unfold hit, note_pattern; by destruct (_ =? _)).
  unfold cached. rewrite E. exists j, (if decide (j = i) then g e else e). split; [by apply index_of_alter|].
  destruct (decide (j = i)) as [->|]; [by rewrite list_lookup_alter_eq, H2|by rewrite list_lookup_alter_ne].
Qed.
Lemma index_of_fresh {A} (f : A -> bool) l e : index_of f l = None -> f e = true -> index_of f (l ++ [e]) = Some (length l).
Proof.
  induction l as [|x l IH]; cbn; [by intros _ ->|]. destruct (f x); [done|]. intros H He.
  destruct (index_of f l) eqn:E; [done|]. by rewrite IH.
Qed.
Lemma index_of_insert {A} (f : A -> bool) l i e : index_of f l = None -> (i < length l)%nat -> f e = true -> index_of f (<[i := e]> l) = Some i.
Proof.
  revert i. induction l as [|x l IH]; intros i; cbn; [lia|]. destruct (f x) eqn:Ex; [done|]. intros H Hi He.
  destruct (index_of f l) eqn:E; [done|]. destruct i as [|i]; cbn; [by rewrite He|]. rewrite Ex, IH by (done || lia). done.
Qed.
Lemma index_of_none_app {A} (f : A -> bool) l e : index_of f l = None -> f e = false -> index_of f (l ++ [e]) = None.
Proof. induction l as [|x l IH]; cbn; [by intros _ ->|]. destruct (f x); [done|]. intros H He. destruct (index_of f l); [done|]. by rewrite IH. Qed.
Lemma cached_enter id p t c1 c2 b1 b2 d : (length (dc_cache d) <= CACHE_SIZE)%nat -> index_of (cache_hit id) (dc_cache d) = None ->
  cached id p (cache_enter (mk_entry id (Some p) t c1 c2 b1 b2) d).
Proof.
  intros Hl Hn. set (e := mk_entry _ _ _ _ _ _ _). assert (He : cache_hit id e = true).
  { unfold cache_hit, e. cbn. by rewrite Z.eqb_refl. }
  unfold cache_enter, cached. destruct (cache_full d) eqn:Ef; cbn.
  - unfold cache_full in Ef. apply negb_true_iff, Nat.ltb_ge in Ef.
    assert (Hi : (lru_index ce_last_access_time (dc_cache d) < length (dc_cache d))%nat).
    { apply lru_index_bound. intros E. rewrite E in Ef. cbn in Ef. unfold CACHE_SIZE in Ef. lia. }
    exists (lru_index ce_last_access_time (dc_cache d)), e. split; [by apply index_of_insert|]. split; [|done]. by apply list_lookup_insert_eq.
  - exists (length (dc_cache d)), e. split; [by apply index_of_fresh|]. split; [|done]. by apply list_lookup_middle.
Qed.

Lemma cached_same id p d d' : dc_cache d' = dc_cache d -> cached id p d -> cached id p d'.
Proof. unfold cached. by intros ->. Qed.
Lemma note_cache id d : dc_cache (note_pattern id d) = dc_cache d.
Proof. unfold note_pattern. by destruct (_ =? _). Qed.
Lemma adapt_cache d : dc_cache (adapt_window d) = dc_cache d.
Proof. unfold adapt_window. repeat case_match; done. Qed.
Lemma report_disc w : io_disc (report w).2 = io_disc w /\ io_mgr (report w).2 = io_mgr w.
Proof. unfold report, bind, get_disc, gets, fault, upd_kern, modify, ret. repeat case_match; simplify_eq/=; done. Qed.

(** A lookup that finds a surface leaves its pointer in the cache... *)
Lemma prefetch_misses id t m d k : 0 < id < 2 ^ 31 -> (length (dc_cache d) <= CACHE_SIZE)%nat ->
  index_of (cache_hit id) (dc_cache d) = None ->
  exists d', prefetch id t (mk_iow m d k) = (tt, mk_iow m d' k) /\ (length (dc_cache d') <= CACHE_SIZE)%nat
    /\ index_of (cache_hit id) (dc_cache d') = None.
Proof.
  intros Hid Hl Hn. unfold prefetch, map_object, get_disc, get_mgr, bind, gets. cbn [io_disc io_mgr].
  destruct (_ <? _); [|by exists d]. destruct (_ <? _); [|by exists d].
  destruct (is_some _ && _) eqn:E; [|by exists d]. apply andb_true_iff in E as [_ E]. apply negb_true_iff in E.
  eexists. split; [done|]. cbn. unfold cache_full in E. apply negb_false_iff, Nat.ltb_lt in E. split.
  - rewrite length_app. cbn. lia.
  - apply index_of_none_app; [done|]. unfold cache_hit. cbn. rewrite u32_small by lia. destruct (Z.eqb_spec (id + 1) id); [lia|done].
Qed.
Lemma findSurface_caches m d k id p w : 0 < id < 2 ^ 31 -> (length (dc_cache d) <= CACHE_SIZE)%nat ->
  findSurface id (mk_iow m d k) = (Some p, w) -> cached id p (io_disc w).
Proof.
  intros Hid Hl. unfold findSurface, bind at 1. destruct (now_run m d k) as (t & k1 & -> & Hk1).
  destruct (_ || _) eqn:Hr; [done|]. unfold bind at 1, upd_disc at 1, modify. cbn [io_mgr io_disc io_kern].
  unfold bind at 1, get_disc, gets. cbn [io_disc]. change (dc_cache (looked_up d)) with (dc_cache d).
  destruct (index_of (cache_hit id) (dc_cache d)) as [i|] eqn:Hi.
  - unfold bind, upd_disc, modify, ret. cbn [io_mgr io_disc io_kern]. intros [= Hp <-].
    cbn [io_disc]. apply cached_hit. destruct (dc_cache d !! i) as [e|] eqn:He; [|done]. by exists i, e.
  - destruct (prefetch_misses id t m (looked_up d) k1 Hid Hl Hi) as (d2 & E & Hl2 & Hi2).
    unfold bind at 1. rewrite E. unfold bind at 1, map_object, get_mgr, gets. cbn [io_mgr].
    destruct (sm_surface_map m !! id) as [q|]; [|done]. unfold bind at 1.
    destruct (object_at q (mk_iow m d2 k1)) as [o w2] eqn:Eo.
    assert (E2 : io_disc w2 = d2).
    { revert Eo. unfold object_at, bind, get_kern, gets. cbn [io_kern]. by destruct (kn_objects k1 !! q); intros [= <- <-]. }
    destruct w2 as [m2 d2' k2]. cbn in E2. subst d2'. destruct (match o with Some _ => _ | None => _ end); [done|].
    unfold bind at 1, upd_disc at 1, modify. cbn [io_mgr io_disc io_kern].
    set (d3 := cache_enter _ d2). assert (H3 : cached id q d3) by by apply cached_enter.
    unfold bind at 1. destruct (now_run m2 d3 k2) as (t' & k3 & -> & _).
    unfold bind at 1, upd_disc at 1, modify. cbn [io_mgr io_disc io_kern]. unfold bind at 1.
    pose proof (report_disc (mk_iow m2 (note_pattern id d3) k3)) as [Hd _].
    destruct (report _) as [[] w4]. cbn [snd io_disc] in Hd. unfold bind, upd_disc, modify, ret. intros [= <- <-]. cbn [io_disc].
    apply (cached_same _ _ d3); [|done]. transitivity (dc_cache (adapt_window (io_disc w4))); [done|].
    by rewrite adapt_cache, Hd, note_cache.
Qed.
(** ... and as long as it is there every lookup answers it, whatever it points to. *)
Lemma findSurface_cached m d k id p : 0 < id < 2 ^ 31 -> cached id p d ->
  exists d' k', findSurface id (mk_iow m d k) = (Some p, mk_iow m d' k') /\ on_clock k k' /\ cached id p d'.
Proof.
  intros Hid Hc. unfold findSurface, bind at 1. destruct (now_run m d k) as (t & k1 & -> & Hk1).
  destruct (Z.eqb_spec id 0); [lia|]. destruct (Z.ltb_spec 0x7FFFFFFF id); [lia|]. cbn [orb].
  pose proof Hc as (i & e & H1 & H2 & H3).
  unfold bind at 1, upd_disc at 1, modify. cbn [io_mgr io_disc io_kern].
  unfold bind at 1, get_disc, gets. cbn [io_disc]. change (dc_cache (looked_up d)) with (dc_cache d). rewrite H1, H2, H3.
  unfold bind, upd_disc, modify, ret. cbn [io_mgr io_disc io_kern]. eexists _, k1. split; [done|]. split; [done|].
  apply cached_hit. by exists i, e.
Qed.

(** ** What the operations leave alone *)
Lemma keeps_upd_mgr {V} (pr : iow -> V) f : (forall w, pr (mk_iow (f (io_mgr w)) (io_disc w) (io_kern w)) = pr w) -> keeps pr (upd_mgr f).
Proof. apply keeps_modify. Qed.
Lemma keeps_upd_kern {V} (pr : iow -> V) f : (forall w, pr (mk_iow (io_mgr w) (io_disc w) (f (io_kern w))) = pr w) -> keeps pr (upd_kern f).
Proof. apply keeps_modify. Qed.
Lemma keeps_ask {V} (pr : iow -> V) : (forall m d k k', pr (mk_iow m d k') = pr (mk_iow m d k)) -> keeps pr ask.
Proof. intros H v [m d k] <-. apply H. Qed.
(** The cache, and the clients: [destroySurface] changes them only in its lookup. *)
Definition beside (w : iow) : discovery * option (gmap Z Z) := (io_disc w, sm_client_map (io_mgr w)).
Ltac beside_tac := repeat first
  [ apply keeps_ret | apply keeps_gets | apply keeps_ask; done | apply keeps_upd_mgr; done
  | apply keeps_upd_kern; done | apply keeps_bind; [|intros ?] | progress unfold status | goal_case ].
Lemma object_at_beside p : keeps beside (object_at p).
Proof. unfold object_at, get_kern, fault. beside_tac. Qed.
Lemma release_beside p : keeps beside (release p).
Proof. unfold release, put_object. apply keeps_bind; [apply object_at_beside|intros ?]. beside_tac. Qed.
Lemma surface_at_beside p : keeps beside (surface_at p).
Proof. unfold surface_at, fault. apply keeps_bind; [apply object_at_beside|intros ?]. beside_tac. Qed.
Lemma upd_buffer_beside b f : keeps beside (upd_buffer b f).
Proof. unfold upd_buffer, buffer_at, get_kern, fault. beside_tac. Qed.
Lemma release_buffer_beside b : keeps beside (release_buffer b).
Proof. unfold release_buffer, buffer_at, get_kern, fault. beside_tac. Qed.
Lemma bump_beside set get : keeps beside (bump set get).
Proof. unfold bump. beside_tac. Qed.
Lemma destroySurface_beside id w : id <> 0 ->
  beside (destroySurface id w).2 = beside (findSurface id (lock w).2).2.
Proof.
  intros Hid. unfold destroySurface. destruct (Z.eqb_spec id 0); [done|]. unfold bind at 1.
  destruct (lock w) as [[] w1]. unfold with_surface, bind at 1. cbn [snd]. destruct (findSurface id w1) as [o w2]. cbn [snd].
  apply (keeps_eq beside). destruct o as [p|]; [|unfold unlock; beside_tac].
  apply keeps_bind; [apply surface_at_beside|intros [s|]]; [|unfold unlock; beside_tac].
  unfold unlock, put_surface, complete, map_remove, surfaces_remove, dict_remove, array_remove, uncount_surface, releaseSurfaceId, get_mgr.
  repeat first [apply release_beside | apply upd_buffer_beside | apply release_buffer_beside | apply bump_beside
    | apply keeps_ret | apply keeps_gets | apply keeps_ask; done | apply keeps_upd_mgr; done | apply keeps_upd_kern; done
    | apply keeps_bind; [|intros ?] | goal_case].
Qed.

(** ** A dangling id *)
(** [id] is answered with a pointer to no object. *)
Definition dangling (id p : Z) (w : iow) : Prop :=
  0 < id < 2 ^ 31 /\ cached id p (io_disc w) /\ kn_objects (io_kern w) !! p = None.
Definition faulty (w : iow) : Prop := kn_fault (io_kern w) = true.
Lemma dangling_mgr id p m m' d k : dangling id p (mk_iow m d k) -> dangling id p (mk_iow m' d k).
Proof. done. Qed.
Lemma with_surface_dangling {A} (answer : IOReturn -> A) id p f w : dangling id p w -> faulty (with_surface answer id f w).2.
Proof.
  destruct w as [m d k]. intros (Hid & Hc & Ho). cbn in Hc, Ho.
  destruct (findSurface_cached m d k id p Hid Hc) as (d' & k' & E & Hk & _).
  assert (Ho' : kn_objects k' !! p = None) by (destruct Hk as (c & t & ->); exact Ho).
  unfold with_surface. rewrite (bind_run _ _ _ _ _ E). unfold surface_at, object_at, get_kern, gets, bind at 2. cbn.
  unfold bind. cbn. by rewrite Ho'.
Qed.
Lemma lockSurface_dangling id p o w : dangling id p w -> faulty (lockSurface id o true w).2.
Proof. intros H. destruct w as [m d k]. unfold lockSurface, negb, bind, lock, upd_mgr, modify. apply (with_surface_dangling _ _ p), H. Qed.
Lemma destroySurface_dangling id p w : dangling id p w -> faulty (destroySurface id w).2.
Proof.
  intros H. destruct w as [m d k]. unfold destroySurface. destruct (Z.eqb_spec id 0) as [->|]; [destruct H as [? _]; lia|].
  unfold bind, lock, upd_mgr, modify. apply (with_surface_dangling _ _ p), H.
Qed.

(** The end of a surface, seen from the cache: the pointer stays there. *)
Lemma destroySurface_leaves n sl m d k id r w :
  minv Unlocked (Datatypes.S n) m k -> dinv (Datatypes.S n) sl m k d -> id ∉ sl ->
  destroySurface id (mk_iow m d k) = (r, w) -> r = kIOReturnSuccess ->
  exists p m' d' k', w = mk_iow m' d' k' /\ minv Unlocked n m' k' /\ dinv n (id :: sl) m' k' d'
    /\ sm_surface_map m !! id = Some p /\ p < kn_next_pointer k /\ dangling id p w
    /\ sm_surface_map m' !! id = None /\ sm_client_map m' = sm_client_map m /\ sm_shared_surfaces m' = sm_shared_surfaces m
    /\ kn_next_pointer k' = kn_next_pointer k.
Proof.
  intros Hm Hd Hid E ->. destruct (destroySurface_run _ _ _ _ _ _ Hm Hd Hid) as (r & m' & d' & k' & E' & Hm' & Hd' & Hdes).
  rewrite E in E'. injection E' as <- ->. unfold destruction in Hdes.
  destruct (sm_surface_map m !! id) as [p|] eqn:Hp; [|by destruct Hdes as [[?|[_ ?]] _]].
  destruct Hdes as (s & b & Hs & Hb & Hdes). destruct (0 <? is_lock_count s); [by destruct Hdes as [? _]|].
  destruct Hdes as (_ & (Eo & _ & En & _) & Em & _ & _ & Esh & _).
  pose proof (mi_ids _ _ _ _ Hm id (ex_intro _ _ Hp)) as Hr. pose proof (mi_next _ _ _ _ Hm) as Hnx.
  assert (HdL : dinv (Datatypes.S n) sl (set_sm_surface_lock Locked m) k d) by by apply (dinv_same _ _ m _ k k).
  destruct (findSurface_run _ _ _ _ _ _ _ (minv_set_lock _ Locked _ _ _ Hm) HdL Hid) as (d2 & k2 & E2 & _).
  pose proof (findSurface_caches _ _ _ id p _ ltac:(lia) (di_length _ _ _ _ _ Hd)
    (eq_trans E2 (f_equal (fun x => (x, _)) Hp))) as Hc. cbn [io_disc] in Hc.
  pose proof (destroySurface_beside id (mk_iow m d k) ltac:(lia)) as Hbe. rewrite E, (lock_run _ _ _ (mi_lock _ _ _ _ Hm)) in Hbe. cbn [snd] in Hbe.
  rewrite E2 in Hbe. unfold beside in Hbe. cbn in Hbe. injection Hbe as <- Ecl.
  assert (Hdg : dangling id p (mk_iow m' d' k')) by (split; [lia|]; split; [done|]; cbn; rewrite Eo; apply lookup_delete_eq).
  exists p, m', d', k'. split_and!; try done.
  - by eapply minv_pointer_old.
  - rewrite Em. apply lookup_delete_eq.
Qed.
(** A creation does not reach the cache, nor a pointer given out before. *)
Lemma createSurface_leaves n sl m d k id p desc r w :
  minv Unlocked (Datatypes.S (Datatypes.S n)) m k -> dinv n sl m k d -> desc_ok desc ->
  p < kn_next_pointer k -> dangling id p (mk_iow m d k) -> createSurface (Some desc) true (mk_iow m d k) = (r, w) ->
  kn_fault (io_kern w) = false /\ dangling id p w.
Proof.
  intros Hm Hd Hdesc Hp (Hid & Hc & Ho) E. destruct (createSurface_run _ _ _ _ _ _ Hm Hd Hdesc) as (r' & m' & k' & E' & Hm' & Hd' & Hcr).
  rewrite E in E'. injection E' as <- ->. cbn in *. split; [apply Hm'|]. split; [done|]. split; [done|].
  unfold creation in Hcr. destruct (is_success r.1).
  - destruct Hcr as (q & _ & (b & t & pl & x & Hb & Hq & Eo & _) & _). cbn. rewrite Eo, lookup_insert_ne; [done|lia].
  - destruct Hcr as (_ & (Eo & _) & _). cbn. by rewrite Eo.
Qed.

(** ** Access *)
Lemma findSurface_mgr id : keeps io_mgr (findSurface id).
Proof.
  unfold findSurface, prefetch, map_object, report, object_at, now, get_disc, get_mgr, get_kern, upd_disc, upd_kern, fault.
  apply keeps_bind; [by intros v w|intros t]. repeat first
    [ apply keeps_ret | apply keeps_gets | apply keeps_modify; done | by intros v w | apply keeps_bind; [|intros ?] | goal_case ].
Qed.
Definition may_access (client id : Z) (m : manager) : bool :=
  negb (client =? 0) && negb (id =? 0) && is_some (client_map_of m !! client)
  && existsb (shares_with id client) (default [] (sm_shared_surfaces m)).
Lemma canClient_mgr client id m d k :
  (canClientAccessSurface client id (mk_iow m d k)).1 = true -> may_access client id m = true.
Proof.
  unfold canClientAccessSurface, may_access, findClient. destruct (client =? 0), (id =? 0); try done. cbn [orb negb andb].
  unfold bind at 1. change (lock (mk_iow m d k)) with (tt, mk_iow (set_sm_surface_lock (lock_acquire (sm_surface_lock m)) m) d k).
  set (mL := set_sm_surface_lock _ m). unfold bind at 1, get_mgr at 1, gets. cbn [io_mgr].
  change (default ∅ (sm_client_map mL)) with (client_map_of m). destruct (is_some _); [|done]. cbn [negb andb].
  unfold bind at 1. pose proof (keeps_eq io_mgr (findSurface id) (mk_iow mL d k) (findSurface_mgr id)) as E.
  destruct (findSurface id (mk_iow mL d k)) as [o [m2 d2 k2]]. cbn [snd io_mgr] in E. subst m2. by destruct (is_some o).
Qed.
Lemma canClient_cached client id p m d k : 0 < id < 2 ^ 31 -> cached id p d ->
  may_access client id m = true -> (canClientAccessSurface client id (mk_iow m d k)).1 = true.
Proof.
  intros Hid Hc Hm. unfold may_access in Hm. rewrite !andb_true_iff in Hm. destruct Hm as (((H1 & H2) & H3) & H4).
  unfold canClientAccessSurface, findClient. destruct (client =? 0), (id =? 0); try done. cbn [orb negb andb].
  unfold bind at 1. change (lock (mk_iow m d k)) with (tt, mk_iow (set_sm_surface_lock (lock_acquire (sm_surface_lock m)) m) d k).
  set (mL := set_sm_surface_lock _ m). unfold bind at 1, get_mgr at 1, gets. cbn [io_mgr].
  change (default ∅ (sm_client_map mL)) with (client_map_of m). rewrite H3. cbn [negb].
  destruct (findSurface_cached mL d k id p Hid Hc) as (d2 & k2 & E & _). by rewrite (bind_run _ _ _ _ _ E).
Qed.

(** ** A concrete life *)
Definition demo_start : iow :=
  mk_iow blank_manager initial_discovery (mk_iokern ∅ ∅ 1 [] 0 [5; 5; 5] (fun _ a => a mod 256) 0 false).
Definition demo_desc (width height format : Z) : surface_desc :=
  mk_desc width height format 0 4 1 1 1 [] 0 0 0 32 format 0 0.
Definition demo_ops : list surface_op :=
  [OpCreate (demo_desc 4 2 FORMAT_BGRA32); OpCreate (demo_desc 4 2 FORMAT_RGBA32);
   OpRegister 7 1; OpShare 1 1 [1]; OpLock 1 0; OpFillRegion 1 1 0 2 2 0xFF00FF00; OpUnlock 1 0;
   OpConvert 1 2 FORMAT_RGBA32; OpCopyRegion 1 2 0 0 1 1 2 1].
Lemma demo_clean : clean_start demo_start.
Proof. by split_and!. Qed.
Lemma demo_desc_ok w h f : f ∈ formats32 -> 0 <= w -> 0 <= h -> desc_ok (demo_desc w h f).
Proof. intros. split_and!; [done|by left|done|done]. Qed.
Lemma demo_tame : tame [] demo_ops.
Proof.
  cbn. unfold rect_ok. split_and!; try done; try lia; try (apply demo_desc_ok; [set_solver|lia|lia]);
    repeat (constructor; try set_solver).
Qed.

(** * The theorems *)
(** C4: from [initWithAccelerator] of the first manager on, through fewer than 2^28 creations (32-bit formats, rows
    that hold their pixels), destructions, locks, plane locks, whole fills and copies, fills of
    rectangles and copies of rectangles from one surface to another, conversions, priorities,
    checks, clients, shares and cache operations, whatever the kernel refuses, provided that
    none uses an id destroyed since the last flush of the cache and that the corners of every
    rectangle stay below 2^32: the lock is free, nothing is read through a
    dangling pointer or written outside a buffer, array and dictionary hold the same surfaces,
    each with a wired buffer of its own that holds its pixels, the memory in use is counted
    exactly and within the limit, and ids to be reused are distinct and of no surface. (The
    code checks the corners in 32 bits: a rectangle that wraps passes and is written outside
    the buffer, [wrapped_region_faults].) *)
Theorem surfaces_sound device ops (w : iow) :
  clean_start w -> Z.of_nat (length ops) < 2 ^ 28 -> tame [] ops ->
  let '(ok, w') := life device ops w in
  ok = true ->
  sm_surface_lock (io_mgr w') = Unlocked /\ kn_fault (io_kern w') = false /\ tables_ok (io_mgr w') (io_kern w').
Proof.
  intros Hw Hn Ht. pose proof (life_good device ops w 0 Hw ltac:(lia) Ht) as H.
  destruct (life device ops w) as [ok w']. intros Hok. destruct (H Hok) as [Hm _].
  split; [apply Hm|]. split; [apply Hm|]. by eapply minv_tables.
Qed.
Lemma surfaces_sound_witness :
  let '(ok, w') := life true demo_ops demo_start in
  ok = true
  /\ sm_surface_lock (io_mgr w') = Unlocked /\ kn_fault (io_kern w') = false /\ tables_ok (io_mgr w') (io_kern w').
Proof.
  pose proof (surfaces_sound true demo_ops demo_start demo_clean ltac:(cbn; lia) demo_tame) as H.
  assert (E : (life true demo_ops demo_start).1 = true) by (vm_compute; reflexivity).
  destruct (life true demo_ops demo_start) as [ok w']. cbn [fst] in E. split; [exact E|exact (H E)].
Defined.

(** C7: in any such session the cached lookup of any id not destroyed since the last flush
    is the dictionary's, and it changes neither tables nor memory: what [findSurface] answers
    through 64 cached pointers, prefetches and replacements refines a finite map. *)
Theorem findSurface_refines_map device ops (w : iow) id :
  clean_start w -> Z.of_nat (length ops) < 2 ^ 28 -> tame [] ops -> id ∉ stale_end [] ops ->
  let '(ok, w1) := life device ops w in
  ok = true ->
  let '(r, w2) := findSurface id w1 in
  r = sm_surface_map (io_mgr w1) !! id /\ io_mgr w2 = io_mgr w1
  /\ kn_objects (io_kern w2) = kn_objects (io_kern w1) /\ kn_buffers (io_kern w2) = kn_buffers (io_kern w1)
  /\ kn_fault (io_kern w2) = false.
Proof.
  intros Hw Hn Ht Hid. pose proof (life_good device ops w 1 Hw ltac:(lia) Ht) as H.
  destruct (life device ops w) as [ok w1]. intros Hok. destruct (H Hok) as [Hm Hd]. destruct w1 as [m d k]. cbn in Hm, Hd.
  destruct (findSurface_run _ _ _ _ _ _ _ Hm Hd Hid) as (d' & k' & -> & Hk & _).
  apply on_clock_side in Hk as (E1 & E2 & E3 & E4). cbn. split_and!; try done. rewrite E4. apply Hm.
Qed.

Lemma findSurface_refines_map_witness :
  let '(ok, w1) := life true demo_ops demo_start in
  ok = true /\ (findSurface 1 w1).1 = sm_surface_map (io_mgr w1) !! 1 /\ is_some (findSurface 1 w1).1 = true.
Proof.
  pose proof (findSurface_refines_map true demo_ops demo_start 1 demo_clean ltac:(cbn; lia) demo_tame ltac:(cbn; set_solver)) as H.
  assert (E : (life true demo_ops demo_start).1 = true) by (vm_compute; reflexivity).
  assert (E2 : is_some (findSurface 1 (life true demo_ops demo_start).2).1 = true) by (vm_compute; reflexivity).
  destruct (life true demo_ops demo_start) as [ok w1]. cbn [fst snd] in E, E2. specialize (H E).
  destruct (findSurface 1 w1) as [r w2]. split; [exact E|]. split; [apply H|exact E2].
Defined.

(** C9: [createSurface] is all or nothing: after any such session, whatever the kernel refuses, a
    request for a 32-bit surface either answers success with an id of no surface (the last one
    released, else the next), enters one object holding a wired buffer of
    [calculateSurfaceSize] bytes in array and dictionary and counts its memory; or answers an
    error and leaves tables, objects, buffers and heap as they were. On success the struct it
    copied into the object stays allocated: [SIZEOF_IOSURFACE] bytes of heap per creation. *)
Theorem createSurface_all_or_nothing device ops (w : iow) desc :
  clean_start w -> Z.of_nat (length ops) < 2 ^ 28 -> tame [] ops -> desc_ok desc ->
  let '(ok, w1) := life device ops w in
  ok = true ->
  let '(r, w2) := createSurface (Some desc) true w1 in
  creation desc (io_mgr w1) (io_mgr w2) (io_kern w1) (io_kern w2) r
  /\ io_disc w2 = io_disc w1 /\ sm_surface_lock (io_mgr w2) = Unlocked
  /\ kn_fault (io_kern w2) = false /\ tables_ok (io_mgr w2) (io_kern w2).
Proof.
  intros Hw Hn Ht Hdesc. pose proof (life_good device ops w 2 Hw ltac:(lia) Ht) as H.
  destruct (life device ops w) as [ok [m d k]]. intros Hok. destruct (H Hok) as [Hm Hd]. cbn in Hm, Hd.
  destruct (createSurface_run 0 _ _ _ _ _ Hm (dinv_less 2 0 _ _ _ _ ltac:(lia) Hd) Hdesc) as (r & m' & k' & -> & Hm' & _ & Hc).
  cbn. split_and!; try done; try apply Hm'. all: by eapply minv_tables.
Qed.
Lemma createSurface_all_or_nothing_witness :
  let '(ok, w1) := life true demo_ops demo_start in
  let '(r, w2) := createSurface (Some (demo_desc 8 8 FORMAT_ARGB32)) true w1 in
  ok = true /\ r = (kIOReturnSuccess, Some 3)
  /\ creation (demo_desc 8 8 FORMAT_ARGB32) (io_mgr w1) (io_mgr w2) (io_kern w1) (io_kern w2) r.
Proof.
  pose proof (createSurface_all_or_nothing true demo_ops demo_start (demo_desc 8 8 FORMAT_ARGB32) demo_clean
    ltac:(cbn; lia) demo_tame ltac:(apply demo_desc_ok; [set_solver|lia|lia])) as H.
  assert (E : (life true demo_ops demo_start).1 = true) by (vm_compute; reflexivity).
  assert (E2 : (createSurface (Some (demo_desc 8 8 FORMAT_ARGB32)) true (life true demo_ops demo_start).2).1
    = (kIOReturnSuccess, Some 3)) by (vm_compute; reflexivity).
  destruct (life true demo_ops demo_start) as [ok w1]. cbn [fst snd] in E, E2. specialize (H E).
  destruct (createSurface _ true w1) as [r w2]. split; [exact E|]. split; [exact E2|apply H].
Defined.

(** [destroySurface] leaves the pointer in the discovery cache. After any such session and a
    successful destruction of [id], nothing has gone wrong yet, but [findSurface] still answers the
    freed object for it, where the dictionary has none: the next [lockSurface] or
    [destroySurface] of [id] reads freed memory instead of answering [kIOReturnNotFound]. And
    when [createSurface] gives [id] out again, its answer is good and the first lock of the new
    surface reads the freed one. *)
Theorem destroyed_id_dangles device ops (w : iow) id :
  clean_start w -> Z.of_nat (length ops) < 2 ^ 28 -> tame [] ops -> id ∉ stale_end [] ops ->
  let '(ok, w1) := life device ops w in
  ok = true ->
  let '(r, w2) := destroySurface id w1 in
  r = kIOReturnSuccess ->
  kn_fault (io_kern w2) = false /\ sm_surface_map (io_mgr w2) !! id = None
  /\ (exists p, (findSurface id w2).1 = Some p /\ kn_objects (io_kern w2) !! p = None)
  /\ (forall o, faulty (lockSurface id o true w2).2) /\ faulty (destroySurface id w2).2
  /\ forall desc, desc_ok desc ->
       let '(r, w3) := createSurface (Some desc) true w2 in
       r = (kIOReturnSuccess, Some id) ->
       kn_fault (io_kern w3) = false /\ forall o, faulty (lockSurface id o true w3).2.
Proof.
  intros Hw Hn Ht Hid. pose proof (life_good device ops w 3 Hw ltac:(lia) Ht) as H.
  destruct (life device ops w) as [ok [m d k]]. intros Hok. destruct (H Hok) as [Hm Hd]. cbn in Hm, Hd.
  destruct (destroySurface id _) as [r w2] eqn:E. intros Hr.
  destruct (destroySurface_leaves _ _ _ _ _ _ _ _ Hm Hd Hid E Hr) as (p & m' & d' & k' & -> & Hm' & Hd' & _ & Hp & Hdg & Hno & _ & _ & En).
  cbn [io_mgr io_kern]. split; [apply Hm'|]. split; [done|]. split; [|split; [|split]].
  - destruct Hdg as (H1 & H2 & H3). destruct (findSurface_cached m' d' k' id p H1 H2) as (d2 & k2 & -> & _). by exists p.
  - intros o. by eapply lockSurface_dangling.
  - by eapply destroySurface_dangling.
  - intros desc Hdesc. destruct (createSurface (Some desc) true _) as [r3 w3] eqn:E3. intros _.
    destruct (createSurface_leaves 0 _ _ _ _ id p desc _ _ Hm' (dinv_less 2 0 _ _ _ _ ltac:(lia) Hd') Hdesc ltac:(lia) Hdg E3) as [H1 H2].
    split; [done|]. intros o. by eapply lockSurface_dangling.
Qed.
Lemma destroyed_id_dangles_witness :
  let '(ok, w1) := life true demo_ops demo_start in
  let '(r, w2) := destroySurface 1 w1 in
  let '(r3, w3) := createSurface (Some (demo_desc 8 8 FORMAT_ARGB32)) true w2 in
  ok = true /\ r = kIOReturnSuccess /\ r3 = (kIOReturnSuccess, Some 1)
  /\ faulty (lockSurface 1 0 true w2).2 /\ faulty (lockSurface 1 0 true w3).2.
Proof.
  pose proof (destroyed_id_dangles true demo_ops demo_start 1 demo_clean ltac:(cbn; lia) demo_tame ltac:(cbn; set_solver)) as H.
  assert (E : (life true demo_ops demo_start).1 = true) by (vm_compute; reflexivity).
  assert (E2 : (destroySurface 1 (life true demo_ops demo_start).2).1 = kIOReturnSuccess) by (vm_compute; reflexivity).
  assert (E3 : (createSurface (Some (demo_desc 8 8 FORMAT_ARGB32)) true (destroySurface 1 (life true demo_ops demo_start).2).2).1
    = (kIOReturnSuccess, Some 1)) by (vm_compute; reflexivity).
  destruct (life true demo_ops demo_start) as [ok w1]. cbn [fst snd] in E, E2, E3. specialize (H E).
  destruct (destroySurface 1 w1) as [r w2]. cbn [fst snd] in E2, E3. destruct (H E2) as (_ & _ & _ & H4 & _ & H6).
  specialize (H6 (demo_desc 8 8 FORMAT_ARGB32) ltac:(apply demo_desc_ok; [set_solver|lia|lia])).
  destruct (createSurface _ true w2) as [r3 w3]. cbn [fst] in E3. destruct (H6 E3) as [_ H7].
  split; [exact E|]. split; [exact E2|]. split; [exact E3|]. split; [apply H4|apply H7].
Defined.

(** Shares outlive their surface. After any such session, a client that may access surface
    [id] may access whatever surface [createSurface] gives that id to once [id] has been
    destroyed: the shares are kept by id, and neither destruction nor creation withdraws them. *)
Theorem shares_survive_recycling device ops (w : iow) id desc client :
  clean_start w -> Z.of_nat (length ops) < 2 ^ 28 -> tame [] ops -> id ∉ stale_end [] ops -> desc_ok desc ->
  let '(ok, w1) := life device ops w in
  ok = true ->
  let '(r, w2) := destroySurface id w1 in
  r = kIOReturnSuccess ->
  let '(r3, w3) := createSurface (Some desc) true w2 in
  r3 = (kIOReturnSuccess, Some id) ->
  (canClientAccessSurface client id w1).1 = true -> (canClientAccessSurface client id w3).1 = true.
Proof.
  intros Hw Hn Ht Hid Hdesc. pose proof (life_good device ops w 3 Hw ltac:(lia) Ht) as H.
  destruct (life device ops w) as [ok [m d k]]. intros Hok. destruct (H Hok) as [Hm Hd]. cbn in Hm, Hd.
  destruct (destroySurface id _) as [r w2] eqn:E. intros Hr.
  destruct (destroySurface_leaves _ _ _ _ _ _ _ _ Hm Hd Hid E Hr) as (p & m' & d' & k' & -> & Hm' & Hd' & Hp0 & Hp & Hdg & Hno & Ec & Es & En).
  destruct (createSurface_run 0 _ _ _ _ _ Hm' (dinv_less 2 0 _ _ _ _ ltac:(lia) Hd') Hdesc) as (r3 & m3 & k3 & -> & Hm3 & _ & Hc).
  intros ->. change (is_success kIOReturnSuccess) with true in Hc. destruct Hc as (q & _ & _ & _ & _ & _ & _ & Es3 & Ec3).
  destruct Hdg as (Hr1 & Hch & _). intros Ha. apply (canClient_cached _ _ p); [done|done|].
  apply canClient_mgr in Ha. unfold may_access, client_map_of in *. by rewrite Ec3, Es3, Ec, Es.
Qed.
Lemma shares_survive_recycling_witness :
  let '(ok, w1) := life true demo_ops demo_start in
  let '(r, w2) := destroySurface 1 w1 in
  let '(r3, w3) := createSurface (Some (demo_desc 8 8 FORMAT_ARGB32)) true w2 in
  ok = true /\ r = kIOReturnSuccess /\ r3 = (kIOReturnSuccess, Some 1) /\ (canClientAccessSurface 1 1 w3).1 = true.
Proof.
  pose proof (shares_survive_recycling true demo_ops demo_start 1 (demo_desc 8 8 FORMAT_ARGB32) 1 demo_clean
    ltac:(cbn; lia) demo_tame ltac:(cbn; set_solver) ltac:(apply demo_desc_ok; [set_solver|lia|lia])) as H.
  assert (E : (life true demo_ops demo_start).1 = true) by (vm_compute; reflexivity).
  assert (E0 : (canClientAccessSurface 1 1 (life true demo_ops demo_start).2).1 = true) by (vm_compute; reflexivity).
  assert (E2 : (destroySurface 1 (life true demo_ops demo_start).2).1 = kIOReturnSuccess) by (vm_compute; reflexivity).
  assert (E3 : (createSurface (Some (demo_desc 8 8 FORMAT_ARGB32)) true (destroySurface 1 (life true demo_ops demo_start).2).2).1
    = (kIOReturnSuccess, Some 1)) by (vm_compute; reflexivity).
  destruct (life true demo_ops demo_start) as [ok w1]. cbn [fst snd] in E, E0, E2, E3. specialize (H E).
  destruct (destroySurface 1 w1) as [r w2]. cbn [fst snd] in E2, E3. specialize (H E2).
  destruct (createSurface _ true w2) as [r3 w3]. cbn [fst] in E3.
  split; [exact E|]. split; [exact E2|]. split; [exact E3|exact (H E3 E0)].
Defined.

(** * The end *)
Definition drop_one (o : option (Z * os_data)) : option (Z * os_data) :=
  match o with Some (rc, x) => if rc =? 1 then None else Some (rc - 1, x) | None => None end.
Lemma release_all_run ps m d k :
  NoDup ps -> (forall p, p ∈ ps -> is_Some (kn_objects k !! p)) ->
  exists k', release_all ps (mk_iow m d k) = (tt, mk_iow m d k')
    /\ kn_buffers k' = kn_buffers k /\ kn_fault k' = kn_fault k
    /\ forall p, kn_objects k' !! p = if decide (p ∈ ps) then drop_one (kn_objects k !! p) else kn_objects k !! p.
Proof.
  intros Hnd. revert k. induction Hnd as [|p ps Hp Hnd IH]; intros k Hall.
  { exists k. by split_and!. }
  destruct (Hall p) as [[rc x] Hx]; [left|].
  set (k1 := if rc =? 1 then set_kn_objects (delete p (kn_objects k)) k else set_kn_objects (<[p := (rc - 1, x)]> (kn_objects k)) k).
  assert (E : release p (mk_iow m d k) = (tt, mk_iow m d k1)).
  { unfold release, k1. rewrite (bind_run _ _ _ _ _ (object_at_run _ _ _ _ _ Hx)). by destruct (rc =? 1). }
  assert (Hq : forall q, kn_objects k1 !! q = if decide (q = p) then drop_one (kn_objects k !! q) else kn_objects k !! q).
  { intros q. unfold k1, drop_one. destruct (decide (q = p)) as [->|Hne].
    - rewrite Hx. destruct (rc =? 1); cbn; [apply lookup_delete_eq|apply lookup_insert_eq].
    - destruct (rc =? 1); cbn; [by apply lookup_delete_ne|by apply lookup_insert_ne]. }
  destruct (IH k1) as (k' & E2 & Hb & Hf & Ho).
  { intros q Hin. rewrite Hq, decide_False by (intros ->; done). apply Hall. by right. }
  exists k'. cbn [release_all]. rewrite (bind_run _ _ _ _ _ E). split; [done|].
  split; [rewrite Hb; unfold k1; by destruct (rc =? 1)|]. split; [rewrite Hf; unfold k1; by destruct (rc =? 1)|].
  intros q. rewrite Ho, Hq. destruct (decide (q = p)) as [->|Hne].
  - rewrite decide_False by done. by rewrite decide_True by left.
  - destruct (decide (q ∈ ps)); [by rewrite decide_True by (by right)|]. rewrite decide_False; [done|].
    by intros [?|?]%elem_of_cons.
Qed.
Lemma map_values l n m k : minv l n m k ->
  NoDup (map_to_list (sm_surface_map m)).*2 /\ forall p, p ∈ (map_to_list (sm_surface_map m)).*2 <-> p ∈ sm_surfaces m.
Proof.
  intros Hm. split.
  - apply NoDup_fmap_2_strong; [|apply NoDup_map_to_list]. intros [i p] [j q] Hi Hj E. cbn in E. subst q.
    apply elem_of_map_to_list in Hi, Hj. f_equal. by eapply minv_map_inj.
  - intros p. rewrite (mi_map _ _ _ _ Hm), list_elem_of_fmap. split.
    + intros ([i q] & -> & Hin). exists i. by apply elem_of_map_to_list.
    + intros [i Hi]. exists (i, p). split; [done|]. by apply elem_of_map_to_list.
Qed.
(** [free] gives up the surfaces but not their memory: after any session it drops both
    references to the object of each surface, once each, so that none is left; the buffers
    the objects named stay allocated and wired, with no pointer to them. *)
Theorem free_leaks_buffers device ops (w : iow) :
  clean_start w -> Z.of_nat (length ops) < 2 ^ 28 -> tame [] ops ->
  let '(ok, w1) := life device ops w in
  ok = true ->
  let w2 := (free w1).2 in
  kn_fault (io_kern w2) = false /\ kn_buffers (io_kern w2) = kn_buffers (io_kern w1)
  /\ (forall p rc s, kn_objects (io_kern w2) !! p <> Some (rc, SurfaceData s))
  /\ sm_surfaces (io_mgr w2) = [] /\ sm_surface_map (io_mgr w2) = ∅.
Proof.
  intros Hw Hn Ht. pose proof (life_good device ops w 0 Hw ltac:(lia) Ht) as H.
  destruct (life device ops w) as [ok [m d k]]. intros Hok. destruct (H Hok) as [Hm _]. cbn in Hm. cbv zeta.
  assert (Hobj : forall p, p ∈ sm_surfaces m -> exists s, kn_objects k !! p = Some (2, SurfaceData s)).
  { intros p Hp. apply (mi_map _ _ _ _ Hm) in Hp as [id Hid]. destruct (mi_obj _ _ _ _ Hm _ _ Hid) as (s & Hs & _). by exists s. }
  destruct (release_all_run (sm_surfaces m) m d k (mi_nodup _ _ _ _ Hm)) as (k1 & E1 & B1 & F1 & O1).
  { intros p Hp. destruct (Hobj p Hp) as [s Hs]. by eexists. }
  destruct (map_values _ _ _ _ Hm) as [Hnd Hin].
  destruct (release_all_run (map_to_list (sm_surface_map m)).*2 (set_sm_surfaces [] m) d k1 Hnd) as (k2 & E2 & B2 & F2 & O2).
  { intros p Hp%Hin. rewrite O1, decide_True by done. destruct (Hobj p Hp) as [s ->]. by eexists. }
  assert (free (mk_iow m d k) = (tt, mk_iow (set_sm_surface_map ∅ (set_sm_surfaces [] m)) d k2)) as ->.
  { unfold free, bind at 1, get_mgr, gets. cbn [io_mgr]. rewrite (bind_run _ _ _ _ _ E1).
    unfold bind at 1, upd_mgr at 1, modify. cbn [io_mgr io_disc io_kern]. unfold bind at 1. cbn [io_mgr].
    by rewrite (bind_run _ _ _ _ _ E2). }
  cbn [snd io_mgr io_kern]. split; [rewrite F2, F1; apply Hm|]. split; [by rewrite B2|]. split; [|done].
  intros p rc s Hs. rewrite O2, O1 in Hs. destruct (decide (p ∈ sm_surfaces m)) as [Hp|Hp].
  - rewrite decide_True in Hs by by apply Hin. by destruct (Hobj p Hp) as [s' E]; rewrite E in Hs.
  - rewrite decide_False in Hs by by rewrite Hin. apply Hp. by eapply (mi_live _ _ _ _ Hm).
Qed.
Lemma free_leaks_buffers_witness :
  let '(ok, w1) := life true demo_ops demo_start in
  ok = true /\ sm_surfaces (io_mgr (free w1).2) = [] /\ size (kn_buffers (io_kern (free w1).2)) = 2%nat.
Proof.
  pose proof (free_leaks_buffers true demo_ops demo_start demo_clean ltac:(cbn; lia) demo_tame) as H.
  assert (E : (life true demo_ops demo_start).1 = true) by (vm_compute; reflexivity).
  assert (E2 : size (kn_buffers (io_kern (life true demo_ops demo_start).2)) = 2%nat) by (vm_compute; reflexivity).
  destruct (life true demo_ops demo_start) as [ok w1]. cbn [fst snd] in E, E2. destruct (H E) as (_ & H2 & _ & H4 & _).
  split; [exact E|]. split; [exact H4|]. by rewrite H2.
Defined.
