(* ===== verification/IOSurfacePixels.v ===== *)
(** What the surface manager writes into the surfaces: fills and conversions
    pixel by pixel, on top of [IOSurfaceSpec.v]. *)
From S2P Require Import Prelude IOSurfaces IOSurfaceOps IOSurfaceLife IOSurfaceSafe IOSurfaceSpec.

(** * Bytes and pixels *)
Lemma byte_shift v i : 0 <= i -> Z.land (Z.shiftr v i) 255 = (v / 2 ^ i) mod 256.
Proof. intros. rewrite Z.shiftr_div_pow2 by done. by change 255 with (Z.ones 8); rewrite Z.land_ones. Qed.
Lemma peek_poke off v f : peek32 (poke 4 off v f) off = u32 v.
Proof.
  unfold peek32, poke, within.
  repeat match goal with |- context [(off <=? ?a) && (?a <? off + 4)] =>
    replace ((off <=? a) && (a <? off + 4)) with true by (symmetry; apply andb_true_iff; split; [apply Z.leb_le|apply Z.ltb_lt]; lia) end.
  rewrite !byte_shift by lia. rewrite !Z.shiftl_mul_pow2 by done. unfold u32.
  replace (off - off) with 0 by lia. replace (off + 1 - off) with 1 by lia. replace (off + 2 - off) with 2 by lia.
  replace (off + 3 - off) with 3 by lia. change (2 ^ (8 * 0)) with 1. change (2 ^ (8 * 1)) with 256.
  change (2 ^ (8 * 2)) with 65536. change (2 ^ (8 * 3)) with 16777216. change (2 ^ 8) with 256. change (2 ^ 16) with 65536.
  change (2 ^ 24) with 16777216. change (2 ^ 32) with 4294967296. rewrite Z.div_1_r. Z.to_euclidean_division_equations; lia.
Qed.
Lemma peek_poke_ne off off' v f : off' + 4 <= off \/ off + 4 <= off' -> peek32 (poke 4 off v f) off' = peek32 f off'.
Proof.
  intros H. unfold peek32, poke, within.
  repeat match goal with |- context [(off <=? ?a) && (?a <? off + 4)] =>
    replace ((off <=? a) && (a <? off + 4)) with false by (symmetry; apply andb_false_iff; destruct (Z.leb_spec off a); [right; apply Z.ltb_ge; lia|by left]) end.
  done.
Qed.

(** A loop of pure steps on the bytes of one buffer. *)
Fixpoint steps (n : nat) (i : Z) (F : Z -> (Z -> Z) -> Z -> Z) (f : Z -> Z) : Z -> Z :=
  match n with O => f | Datatypes.S n' => steps n' (i + 1) F (F i f) end.
Section loop.
Context (m : manager) (d : discovery) (k : iokern) (b : Z) (x : buffer).
Definition drawn (f : Z -> Z) : iow := mk_iow m d (with_buffer b (set_bytes f x) k).
Lemma for_loop_steps n i body F f :
  (forall j f, i <= j < i + Z.of_nat n -> body j (drawn f) = (tt, drawn (F j f))) ->
  for_loop n i body (drawn f) = (tt, drawn (steps n i F f)).
Proof.
  revert i f. induction n as [|n IH]; intros i f H; [done|]. cbn [for_loop steps].
  rewrite (bind_run _ _ _ _ _ (H i f ltac:(lia))). apply IH. intros j g Hj. apply H. lia.
Qed.
Lemma drawn_buffer f : kn_buffers (io_kern (drawn f)) !! b = Some (set_bytes f x).
Proof. apply lookup_insert_eq. Qed.
Lemma access_run c off n y : kn_buffers k !! c = Some y -> 0 <= off -> off + n <= bf_length y ->
  access c off n (mk_iow m d k) = (tt, mk_iow m d k).
Proof.
  intros Hy H1 H2. unfold access. rewrite (bind_run _ _ _ _ _ (buffer_at_run _ _ _ _ _ Hy)).
  destruct (Z.leb_spec 0 off); [|lia]. by destruct (Z.leb_spec (off + n) (bf_length y)); [|lia].
Qed.
End loop.
Lemma store_run m d k b x n off v f : 0 <= off -> off + n <= bf_length x ->
  store n b off v (drawn m d k b x f) = (tt, drawn m d k b x (poke n off v f)).
Proof.
  intros H1 H2. unfold store, drawn. pose proof (drawn_buffer m d k b x f) as Hb. unfold drawn in Hb. cbn [io_kern] in Hb.
  rewrite (bind_run _ _ _ _ _ (access_run _ _ _ _ _ _ _ Hb H1 H2)). rewrite (upd_buffer_run _ _ _ _ _ _ Hb).
  unfold with_buffer. cbn. by rewrite insert_insert_eq.
Qed.
Lemma load_run m d k b x c y off f : c <> b -> kn_buffers k !! c = Some y -> 0 <= off -> off + 4 <= bf_length y ->
  load32 c off (drawn m d k b x f) = (peek32 (bf_bytes y) off, drawn m d k b x f).
Proof.
  intros Hcb Hy H1 H2. unfold load32, drawn.
  assert (Hc : kn_buffers (with_buffer b (set_bytes f x) k) !! c = Some y) by (cbn; by rewrite lookup_insert_ne).
  rewrite (bind_run _ _ _ _ _ (access_run _ _ _ _ _ _ _ Hc H1 H2)).
  unfold bytes_at, bind at 1. by rewrite (bind_run _ _ _ _ _ (buffer_at_run _ _ _ _ _ Hc)).
Qed.

(** A run of words. *)
Lemma steps_words n i o v f j : 
  peek32 (steps n i (fun j => poke 4 (o + 4 * j) (v j)) f) (o + 4 * j)
  = if (i <=? j) && (j <? i + Z.of_nat n) then u32 (v j) else peek32 f (o + 4 * j).
Proof.
  revert i f. induction n as [|n IH]; intros i f; cbn [steps].
  - destruct (Z.leb_spec i j), (Z.ltb_spec j (i + Z.of_nat 0)); done || lia.
  - rewrite IH. destruct (Z.eq_dec i j) as [->|].
    + destruct (Z.leb_spec (j + 1) j); [lia|]. cbn [andb]. rewrite peek_poke.
      destruct (Z.leb_spec j j), (Z.ltb_spec j (j + Z.of_nat (Datatypes.S n))); done || lia.
    + rewrite peek_poke_ne by lia.
      destruct (Z.leb_spec (i + 1) j), (Z.ltb_spec j (i + 1 + Z.of_nat n)), (Z.leb_spec i j), (Z.ltb_spec j (i + Z.of_nat (Datatypes.S n))); done || lia.
Qed.

(** A rectangle of words, row by row, in an image [w] words wide. *)
Definition row_of (w x y width color : Z) (row : Z) (f : Z -> Z) : Z -> Z :=
  steps (Z.to_nat width) 0 (fun col => poke 4 (4 * ((y + row) * w + (x + col))) color) f.
Definition inside (x y width height xx yy : Z) : bool :=
  (x <=? xx) && (xx <? x + width) && (y <=? yy) && (yy <? y + height).
Lemma steps_ext n i F G f : (forall j f, F j f = G j f) -> steps n i F f = steps n i G f.
Proof. intros H. revert i f. induction n as [|n IH]; intros i f; cbn; [done|]. by rewrite H, IH. Qed.
Lemma row_pixel w x y width color row f xx yy :
  0 <= x -> 0 <= width -> x + width <= w -> 0 <= xx < w ->
  peek32 (row_of w x y width color row f) (4 * (yy * w + xx))
  = if (x <=? xx) && (xx <? x + width) && (yy =? y + row) then u32 color else peek32 f (4 * (yy * w + xx)).
Proof.
  intros Hx Hw Hxw Hxx. unfold row_of.
  rewrite (steps_ext _ _ _ (fun col => poke 4 (4 * ((y + row) * w + x) + 4 * col) color)) by (intros; f_equal; ring).
  replace (4 * (yy * w + xx)) with (4 * ((y + row) * w + x) + 4 * ((yy - (y + row)) * w + (xx - x))) by ring.
  rewrite (steps_words _ _ _ (fun _ => color)). rewrite Z2Nat.id by done.
  destruct (Z.eqb_spec yy (y + row)) as [->|Hne].
  - replace ((y + row - (y + row)) * w + (xx - x)) with (xx - x) by ring. rewrite andb_true_r.
    destruct (Z.leb_spec 0 (xx - x)), (Z.ltb_spec (xx - x) (0 + width)), (Z.leb_spec x xx), (Z.ltb_spec xx (x + width)); done || lia.
  - rewrite andb_false_r. assert (yy - (y + row) <= -1 \/ 1 <= yy - (y + row)) as [H|H] by lia.
    + destruct (Z.leb_spec 0 ((yy - (y + row)) * w + (xx - x))); [nia|done].
    + destruct (Z.ltb_spec ((yy - (y + row)) * w + (xx - x)) (0 + width)); [nia|by rewrite andb_false_r].
Qed.
Lemma rect_pixel w x y width n i color f xx yy :
  0 <= x -> 0 <= width -> x + width <= w -> 0 <= xx < w ->
  peek32 (steps n i (row_of w x y width color) f) (4 * (yy * w + xx))
  = if (x <=? xx) && (xx <? x + width) && (y + i <=? yy) && (yy <? y + i + Z.of_nat n) then u32 color
    else peek32 f (4 * (yy * w + xx)).
Proof.
  intros Hx Hw Hxw Hxx. revert i f. induction n as [|n IH]; intros i f; cbn [steps].
  - destruct (Z.leb_spec (y + i) yy), (Z.ltb_spec yy (y + i + Z.of_nat 0)); try lia; by rewrite ?andb_false_r.
  - rewrite IH, row_pixel by done. destruct ((x <=? xx) && (xx <? x + width)); [|done]. cbn [andb].
    destruct (Z.leb_spec (y + (i + 1)) yy), (Z.ltb_spec yy (y + (i + 1) + Z.of_nat n)), (Z.eqb_spec yy (y + i)),
      (Z.leb_spec (y + i) yy), (Z.ltb_spec yy (y + i + Z.of_nat (Datatypes.S n))); done || lia.
Qed.

(** * Fills *)
Definition painted (w h x y width height color : Z) (f g : Z -> Z) : Prop :=
  forall xx yy, 0 <= xx < w -> 0 <= yy < h ->
    peek32 g (4 * (yy * w + xx)) = if inside x y width height xx yy then u32 color else peek32 f (4 * (yy * w + xx)).
Lemma fill_loop m d k b buf w h x y width height color :
  0 < w <= 16384 -> 0 < h <= 16384 -> 4 * (w * h) <= bf_length buf < 2 ^ 32 ->
  rect_ok x y width height -> x + width <= w -> y + height <= h ->
  exists g,
    for_loop (Z.to_nat height) 0 (fun row => for_loop (Z.to_nat width) 0 (fun col =>
      store 4 b (u32 (y * u32 (w * 4)) + u32 (x * 4) + u32 (row * u32 (w * 4)) + 4 * col) color))
      (drawn m d k b buf (bf_bytes buf)) = (tt, drawn m d k b buf g)
    /\ painted w h x y width height color (bf_bytes buf) g.
Proof.
  intros Hw Hh Hs Hr Hx Hy. pose proof Hr as (H1 & H2 & H3 & H4 & _).
  exists (steps (Z.to_nat height) 0 (row_of w x y width color) (bf_bytes buf)). split.
  - apply for_loop_steps. intros row f Hrow. unfold row_of. apply for_loop_steps. intros col g Hcol.
    destruct (pixel_in_range w h (bf_length buf) x y width height row col Hw Hh Hs Hr Hx Hy ltac:(lia) ltac:(lia)) as (-> & Ha & Hb).
    by apply store_run.
  - intros xx yy Hxx Hyy. rewrite rect_pixel by done. unfold inside. rewrite Z.add_0_r, Z2Nat.id by done. done.
Qed.

Lemma drawn_self m d k b buf : kn_buffers k !! b = Some buf -> mk_iow m d k = drawn m d k b buf (bf_bytes buf).
Proof.
  intros H. unfold drawn, with_buffer. destruct buf as [len f pr]. cbn. destruct k. cbn in *. unfold set_kn_buffers. cbn.
  by rewrite insert_id.
Qed.
Definition fill_answer (s : io_surface) (b : Z) (buf : buffer) x y width height color (k k' : iokern) (r : IOReturn) : Prop :=
  if (0 <? width) && (0 <? height) && (x + width <=? is_width s) && (y + height <=? is_height s) then
    r = kIOReturnSuccess /\ exists g, kn_buffers k' = <[b := set_bytes g buf]> (kn_buffers k)
      /\ painted (is_width s) (is_height s) x y width height color (bf_bytes buf) g
  else r = kIOReturnBadArgument /\ kn_buffers k' = kn_buffers k.
Lemma fillSurfaceRegion_run n sl m d k id x y width height color p s b buf :
  minv Unlocked (Datatypes.S n) m k -> dinv (Datatypes.S n) sl m k d -> id ∉ sl ->
  sm_surface_map m !! id = Some p -> kn_objects k !! p = Some (2, SurfaceData s) -> is_base_address s = Some b ->
  kn_buffers k !! b = Some buf -> rect_ok x y width height -> 0 < width -> 0 < height ->
  let '(r, w2) := fillSurfaceRegion id x y width height color (mk_iow m d k) in
  kn_fault (io_kern w2) = false /\ fill_answer s b buf x y width height color k (io_kern w2) r.
Proof.
  intros Hm Hd Hid Hp Hs Hb Hbuf Hr Hw0 Hh0. pose proof Hr as (H1 & H2 & H3 & H4 & H5 & H6).
  pose proof (mi_ids _ _ _ _ Hm id (ex_intro _ _ Hp)) as Hpos. unfold fillSurfaceRegion, fill_answer.
  destruct (Z.eqb_spec id 0); [lia|]. destruct (Z.eqb_spec width 0); [lia|]. destruct (Z.eqb_spec height 0); [lia|]. cbn [orb].
  rewrite (proj2 (Z.ltb_lt 0 width)), (proj2 (Z.ltb_lt 0 height)) by done. cbn [andb].
  rewrite (bind_run _ _ _ _ _ (lock_run _ _ _ (mi_lock _ _ _ _ Hm))). set (mL := set_sm_surface_lock Locked m).
  assert (HmL : minv Locked (Datatypes.S n) mL k) by by eapply minv_set_lock.
  assert (HdL : dinv (Datatypes.S n) sl mL k d) by by apply (dinv_same _ _ m _ k k).
  match goal with |- context [with_surface status id ?f] =>
    destruct (with_surface_run _ _ _ _ _ _ _ HmL HdL Hid status f) as (d' & k' & Hk & Hm' & Hd' & Hf) end.
  change (sm_surface_map mL) with (sm_surface_map m) in Hf. rewrite Hp in Hf. destruct Hf as (s' & Hs' & Hok & ->).
  destruct Hk as (c & t & ->). cbn in Hs'. assert (s' = s) as -> by congruence. rewrite Hb.
  destruct (so_dims _ _ _ Hok) as [Hw Hh]. pose proof (so_size _ _ _ Hok) as Hsz.
  destruct (so_buffer _ _ _ Hok) as (b' & buf' & _ & Eb & Ebuf & Hlen & _). cbn in Ebuf. assert (b' = b) as -> by congruence.
  assert (buf' = buf) as -> by congruence. destruct (formats32_facts _ (so_format _ _ _ Hok)) as (-> & _).
  set (kc := set_kn_clock c (set_kn_ticks t k)) in *. assert (Hfk : kn_fault k = false) by apply Hm.
  rewrite (u32_small (x + width)), (u32_small (y + height)) by lia. rewrite !Z.leb_antisym, <- negb_orb.
  destruct (_ || _) eqn:Efit; cbn [negb].
  { rewrite (bind_run _ _ _ _ _ (unlock_run mL d' kc eq_refl)). by split_and!. }
  apply orb_false_iff in Efit as [Ex Ey]. apply Z.ltb_ge in Ex, Ey. change (4 =? 0) with false. cbv zeta iota.
  destruct (fill_loop mL d' kc b buf (is_width s) (is_height s) x y width height color Hw Hh ltac:(lia) Hr Ex Ey) as (g & E & Hg).
  rewrite (drawn_self mL d' kc b buf Hbuf), (bind_run _ _ _ _ _ E). unfold drawn.
  destruct (touch_run mL d' p 2 s (with_buffer b (set_bytes g buf) kc) Hs) as (ti & k3 & E3 & (c3 & t3 & ->)).
  rewrite (bind_run _ _ _ _ _ E3). rewrite (bind_run _ _ _ _ _ (unlock_run mL d' _ eq_refl)). split; [exact Hfk|]. split; [done|].
  by exists g.
Qed.

(** * Conversions *)
Definition holds32 (k : iokern) (b count : Z) : Prop :=
  exists x, kn_buffers k !! b = Some x /\ 4 * count <= bf_length x.
Definition pixels (k : iokern) (b i : Z) : Z := match kn_buffers k !! b with Some x => peek32 (bf_bytes x) (4 * i) | None => 0 end.
Lemma convert_run g m d k a b count x y :
  a <> b -> kn_buffers k !! a = Some y -> kn_buffers k !! b = Some x -> 0 <= count ->
  4 * count <= bf_length y -> 4 * count <= bf_length x ->
  exists f, convert_pixels g a b count (mk_iow m d k) = (kIOReturnSuccess, drawn m d k b x f)
    /\ forall i, 0 <= i < count -> peek32 f (4 * i) = u32 (g (peek32 (bf_bytes y) (4 * i))).
Proof.
  intros Hab Hy Hx Hc Hly Hlx.
  set (F := fun i => poke 4 (0 + 4 * i) (g (peek32 (bf_bytes y) (4 * i)))).
  assert (E : for_loop (Z.to_nat count) 0 (fun i => let! pixel := load32 a (4 * i) in store 4 b (4 * i) (g pixel))
    (drawn m d k b x (bf_bytes x)) = (tt, drawn m d k b x (steps (Z.to_nat count) 0 F (bf_bytes x)))).
  { apply for_loop_steps. intros j f Hj.
    rewrite (bind_run _ _ _ _ _ (load_run m d k b x a y (4 * j) f Hab Hy ltac:(lia) ltac:(lia))). by apply store_run; lia. }
  exists (steps (Z.to_nat count) 0 F (bf_bytes x)). split.
  - unfold convert_pixels. rewrite (drawn_self m d k b x Hx) at 1. by rewrite (bind_run _ _ _ _ _ E).
  - intros i Hi. pose proof (steps_words (Z.to_nat count) 0 0 (fun i => g (peek32 (bf_bytes y) (4 * i))) (bf_bytes x) i) as E0.
    rewrite Z.add_0_l in E0. unfold F. rewrite E0, Z2Nat.id by done. destruct (Z.leb_spec 0 i), (Z.ltb_spec i (0 + count)); done || lia.
Qed.
(** The four bytes of a packed word, and the swap of two of them. *)
Lemma lor_shift a b n : 0 <= n -> 0 <= b < 2 ^ n -> Z.lor (Z.shiftl a n) b = a * 2 ^ n + b.
Proof.
  intros Hn Hb. rewrite <- Z.shiftl_mul_pow2 by done. rewrite <- Z.add_lor_land. enough (Z.land (Z.shiftl a n) b = 0) by lia.
  apply Z.bits_inj'. intros j Hj. rewrite Z.land_spec, Z.bits_0. destruct (Z.ltb_spec j n).
  - by rewrite Z.shiftl_spec_low.
  - rewrite <- (Z.mod_small b (2 ^ n)) by done. by rewrite Z.mod_pow2_bits_high, andb_false_r by lia.
Qed.
Lemma byte_of_div v i : 0 <= i -> byte_of v i = (v / 2 ^ i) mod 256.
Proof. apply byte_shift. Qed.
Lemma byte_of_range v i : 0 <= i -> 0 <= byte_of v i < 256.
Proof. intros. rewrite byte_of_div by done. apply Z.mod_pos_bound. lia. Qed.
Lemma pack_value a b c d : 0 <= a < 256 -> 0 <= b < 256 -> 0 <= c < 256 -> 0 <= d < 256 ->
  pack a b c d = a * 16777216 + b * 65536 + c * 256 + d.
Proof.
  intros Ha Hb Hc Hd. unfold pack. rewrite <- !Z.lor_assoc.
  rewrite (lor_shift c d 8), (lor_shift b _ 16), (lor_shift a _ 24) by (change (2 ^ 8) with 256; change (2 ^ 16) with 65536; change (2 ^ 24) with 16777216; lia).
  change (2 ^ 8) with 256. change (2 ^ 16) with 65536. change (2 ^ 24) with 16777216. lia.
Qed.
Lemma swap_bytes v :
  byte_of (pixel_BGRAtoRGBA v) 0 = byte_of v 0 /\ byte_of (pixel_BGRAtoRGBA v) 8 = byte_of v 24
  /\ byte_of (pixel_BGRAtoRGBA v) 16 = byte_of v 16 /\ byte_of (pixel_BGRAtoRGBA v) 24 = byte_of v 8
  /\ 0 <= pixel_BGRAtoRGBA v < 2 ^ 32.
Proof.
  pose proof (byte_of_range v 0 ltac:(lia)) as H0. pose proof (byte_of_range v 8 ltac:(lia)) as H1.
  pose proof (byte_of_range v 16 ltac:(lia)) as H2. pose proof (byte_of_range v 24 ltac:(lia)) as H3.
  unfold pixel_BGRAtoRGBA. rewrite pack_value by done. rewrite !(byte_of_div (_ + _)) by lia.
  change (2 ^ 0) with 1. change (2 ^ 8) with 256. change (2 ^ 16) with 65536. change (2 ^ 24) with 16777216. change (2 ^ 32) with 4294967296.
  generalize dependent (byte_of v 0). generalize dependent (byte_of v 8). generalize dependent (byte_of v 16). generalize dependent (byte_of v 24).
  intros. rewrite Z.div_1_r. split_and!; try (Z.to_euclidean_division_equations; lia); lia.
Qed.
Lemma swap_swap v : 0 <= v < 2 ^ 32 -> pixel_RGBAtoBGRA (pixel_BGRAtoRGBA v) = v.
Proof.
  intros Hv. destruct (swap_bytes v) as (E0 & E1 & E2 & E3 & _). unfold pixel_RGBAtoBGRA. rewrite E0, E1, E2, E3.
  rewrite pack_value by (apply byte_of_range; lia). rewrite !byte_of_div by lia.
  change (2 ^ 0) with 1. change (2 ^ 8) with 256. change (2 ^ 16) with 65536. change (2 ^ 24) with 16777216. change (2 ^ 32) with 4294967296 in Hv.
  rewrite Z.div_1_r. Z.to_euclidean_division_equations; lia.
Qed.
Lemma performs g width height m d k a b x y :
  a <> b -> kn_buffers k !! a = Some y -> kn_buffers k !! b = Some x -> 0 < width <= 16384 -> 0 < height <= 16384 ->
  4 * (width * height) <= bf_length y -> 4 * (width * height) <= bf_length x ->
  exists f, convert_pixels g a b (u32 (width * height)) (mk_iow m d k) = (kIOReturnSuccess, drawn m d k b x f)
    /\ forall i, 0 <= i < width * height -> peek32 f (4 * i) = u32 (g (peek32 (bf_bytes y) (4 * i))).
Proof. intros Hab Hy Hx Hw Hh Hly Hlx. rewrite u32_small by nia. by apply convert_run; [..|nia| |]. Qed.
Lemma fillSurfaceRegion_empty n m d k id x y width height color s b buf :
  minv Unlocked n m k -> rect_ok x y width height -> ~ (0 < width /\ 0 < height) ->
  let '(r, w2) := fillSurfaceRegion id x y width height color (mk_iow m d k) in
  kn_fault (io_kern w2) = false /\ fill_answer s b buf x y width height color k (io_kern w2) r.
Proof.
  intros Hm (_ & _ & H1 & H2 & _) Hn.
  assert (E : (width =? 0) || (height =? 0) = true) by (destruct (Z.eqb_spec width 0), (Z.eqb_spec height 0); try done; lia).
  unfold fillSurfaceRegion, fill_answer. rewrite <- orb_assoc, E, orb_true_r.
  assert (E' : (0 <? width) && (0 <? height) = false) by (destruct (Z.ltb_spec 0 width), (Z.ltb_spec 0 height); try done; lia).
  rewrite E'. split; [apply Hm|done].
Qed.
Definition byte_buffer (x : buffer) : Prop := forall i, 0 <= bf_bytes x i < 256.
Lemma peek32_range x i : byte_buffer x -> 0 <= peek32 (bf_bytes x) i < 2 ^ 32.
Proof.
  intros H. unfold peek32. rewrite !Z.shiftl_mul_pow2 by done. pose proof (H i). pose proof (H (i + 1)). pose proof (H (i + 2)). pose proof (H (i + 3)). lia.
Qed.

(** * The theorems *)
(** C14: [fillSurfaceRegion] of an id that was not destroyed since the last flush of the lookup
    cache, after any session of [surfaces_sound], for a rectangle whose corners stay below 2^32
    ([x + width] and [y + height] do not wrap; when they do the code's check passes wrongly, see
    [wrapped_region_faults]): a rectangle that is not empty and lies inside the surface is
    answered success, exactly its pixels are the colour's 32 bits, every other pixel of the
    surface and every other buffer is as it was; an empty one, or one that leaves the surface,
    is answered [kIOReturnBadArgument] and no byte changes. *)
Theorem fillSurfaceRegion_paints device ops (w : iow) id x y width height color :
  clean_start w -> Z.of_nat (length ops) < 2 ^ 28 -> tame [] ops -> id ∉ stale_end [] ops ->
  rect_ok x y width height ->
  let '(ok, w1) := life device ops w in
  ok = true -> forall p s b buf,
  sm_surface_map (io_mgr w1) !! id = Some p -> kn_objects (io_kern w1) !! p = Some (2, SurfaceData s) ->
  is_base_address s = Some b -> kn_buffers (io_kern w1) !! b = Some buf ->
  let '(r, w2) := fillSurfaceRegion id x y width height color w1 in
  kn_fault (io_kern w2) = false
  /\ fill_answer s b buf x y width height color (io_kern w1) (io_kern w2) r.
Proof.
  intros Hw Hn Ht Hid Hr. pose proof (life_good device ops w 1 Hw ltac:(lia) Ht) as H.
  destruct (life device ops w) as [ok [m d k]]. intros Hok p s b buf Hp Hs Hb Hbuf. destruct (H Hok) as [Hm Hd].
  destruct (decide (0 < width /\ 0 < height)) as [[Hw0 Hh0]|Hempty].
  - by apply (fillSurfaceRegion_run 0 _ m d k id x y width height color p s b buf Hm Hd Hid).
  - by apply (fillSurfaceRegion_empty 1 m d k id x y width height color s b buf Hm).
Qed.
(** The left neighbour of column 0 has number 2^32 - 1: the sum with the width is 0
    in 32 bits, the check passes, and the store is almost 4 GB beyond the buffer. *)
Example wrapped_region_faults :
  let w1 := (life true demo_ops demo_start).2 in
  let '(r, w2) := fillSurfaceRegion 1 (2 ^ 32 - 1) 0 1 1 7 w1 in
  kn_fault (io_kern w1) = false /\ r = kIOReturnSuccess /\ kn_fault (io_kern w2) = true.
Proof. vm_compute. by split_and!. Qed.
Lemma fillSurfaceRegion_paints_witness :
  let '(ok, w1) := life true demo_ops demo_start in
  ok = true /\ exists p s b buf,
  sm_surface_map (io_mgr w1) !! 1 = Some p /\ kn_objects (io_kern w1) !! p = Some (2, SurfaceData s)
  /\ is_width s = 4 /\ is_height s = 2
  /\ let '(r, w2) := fillSurfaceRegion 1 1 1 2 1 7 w1 in fill_answer s b buf 1 1 2 1 7 (io_kern w1) (io_kern w2) r.
Proof.
  pose proof (fillSurfaceRegion_paints true demo_ops demo_start 1 1 1 2 1 7 demo_clean ltac:(cbn; lia) demo_tame
    ltac:(cbn; set_solver) ltac:(unfold rect_ok; lia)) as H.
  destruct (life true demo_ops demo_start) as [ok w1] eqn:E.
  assert (E1 : ok = true) by (change ok with (ok, w1).1; rewrite <- E; vm_compute; reflexivity).
  assert (E2 : let k := io_kern w1 in exists p s b buf, sm_surface_map (io_mgr w1) !! 1 = Some p /\ kn_objects k !! p = Some (2, SurfaceData s)
    /\ is_base_address s = Some b /\ kn_buffers k !! b = Some buf /\ is_width s = 4 /\ is_height s = 2).
  { change w1 with (ok, w1).2. rewrite <- E. vm_compute. do 4 eexists. do 3 (split; [reflexivity|]). repeat split. }
  destruct E2 as (p & s & b & buf & H1 & H2 & H3 & H4 & H5 & H6). split; [exact E1|]. exists p, s, b, buf.
  specialize (H E1 p s b buf H1 H2 H3 H4). destruct (fillSurfaceRegion _ _ _ _ _ _ w1) as [r w2].
  split; [exact H1|]. split; [exact H2|]. split; [exact H5|]. split; [exact H6|]. apply H.
Defined.

(** C17: format conversion and back. [performPixelFormatConversion] from BGRA to RGBA writes
    each pixel of the source with the bytes at offsets 1 and 3 exchanged and those at 0 and 2
    kept, and from RGBA back to BGRA, into the source or a third buffer, gives every
    pixel its value again; both answer success and read and write in bounds only. *)
Theorem conversion_round_trip (w : iow) a b c width height xa xb xc :
  a <> b -> c <> b ->
  kn_buffers (io_kern w) !! a = Some xa -> kn_buffers (io_kern w) !! b = Some xb -> kn_buffers (io_kern w) !! c = Some xc ->
  0 < width <= 16384 -> 0 < height <= 16384 ->
  4 * (width * height) <= bf_length xa -> 4 * (width * height) <= bf_length xb -> 4 * (width * height) <= bf_length xc ->
  byte_buffer xa ->
  let '(r1, w1) := performPixelFormatConversion a FORMAT_BGRA32 b FORMAT_RGBA32 width height w in
  let '(r2, w2) := performPixelFormatConversion b FORMAT_RGBA32 c FORMAT_BGRA32 width height w1 in
  r1 = kIOReturnSuccess /\ r2 = kIOReturnSuccess /\ kn_fault (io_kern w2) = kn_fault (io_kern w)
  /\ forall i, 0 <= i < width * height ->
       let v := pixels (io_kern w) a i in
       let u := pixels (io_kern w1) b i in
       (byte_of u 0 = byte_of v 0 /\ byte_of u 8 = byte_of v 24 /\ byte_of u 16 = byte_of v 16 /\ byte_of u 24 = byte_of v 8)
       /\ pixels (io_kern w2) c i = v.
Proof.
  intros Hab Hcb Ha Hb Hc Hw Hh Hla Hlb Hlc Hbytes. destruct w as [m d k]. cbn in Ha, Hb, Hc.
  assert (Ew : (width =? 0) || (height =? 0) = false) by (apply orb_false_iff; split; apply Z.eqb_neq; lia).
  unfold performPixelFormatConversion. rewrite Ew. cbn [negb].
  destruct (performs pixel_BGRAtoRGBA width height m d k a b xb xa Hab Ha Hb Hw Hh Hla Hlb) as (f & E1 & H1).
  change ((if FORMAT_BGRA32 =? FORMAT_RGBA32 then _ else _) (mk_iow m d k)) with (convert_pixels pixel_BGRAtoRGBA a b (u32 (width * height)) (mk_iow m d k)).
  rewrite E1. unfold drawn.
  change ((if FORMAT_RGBA32 =? FORMAT_BGRA32 then _ else _) ?w) with (convert_pixels pixel_RGBAtoBGRA b c (u32 (width * height)) w).
  set (k1 := with_buffer b (set_bytes f xb) k).
  assert (Hb1 : kn_buffers k1 !! b = Some (set_bytes f xb)) by apply lookup_insert_eq.
  assert (Hc1 : kn_buffers k1 !! c = Some xc) by (unfold k1; cbn; by rewrite lookup_insert_ne).
  destruct (performs pixel_RGBAtoBGRA width height m d k1 b c xc (set_bytes f xb) ltac:(done) Hb1 Hc1 Hw Hh Hlb Hlc) as (g & E2 & H2).
  rewrite E2. split_and!; try done. intros i Hi. cbv zeta.
  assert (Eu : pixels k1 b i = pixel_BGRAtoRGBA (peek32 (bf_bytes xa) (4 * i))).
  { unfold pixels. rewrite Hb1. cbn [set_bytes bf_bytes]. rewrite H1 by done. apply u32_small, swap_bytes. }
  assert (Ev : pixels k a i = peek32 (bf_bytes xa) (4 * i)) by (unfold pixels; by rewrite Ha).
  cbn [io_kern]. rewrite Eu, Ev. split; [destruct (swap_bytes (peek32 (bf_bytes xa) (4 * i))) as (? & ? & ? & ? & _); by split_and!|].
  unfold pixels at 1. rewrite drawn_buffer. cbn [set_bytes bf_bytes]. rewrite H2 by done.
  unfold pixels in Eu. rewrite Hb1 in Eu. rewrite Eu, swap_swap by (by apply peek32_range). by apply u32_small, peek32_range.
Qed.
Lemma conversion_round_trip_witness :
  let k := set_kn_buffers (<[1 := mk_buffer 64 (fun a => a mod 256) 1]> (<[2 := mk_buffer 64 (fun _ => 0) 1]> ∅)) (io_kern demo_start) in
  let w := mk_iow blank_manager initial_discovery k in
  let '(r1, w1) := performPixelFormatConversion 1 FORMAT_BGRA32 2 FORMAT_RGBA32 4 4 w in
  let '(r2, w2) := performPixelFormatConversion 2 FORMAT_RGBA32 1 FORMAT_BGRA32 4 4 w1 in
  r1 = kIOReturnSuccess /\ r2 = kIOReturnSuccess /\ pixels (io_kern w1) 2 3 = 0x0D0E0F0C
  /\ pixels (io_kern w2) 1 3 = 0x0F0E0D0C.
Proof.
  intros k w. pose proof (conversion_round_trip w 1 2 1 4 4 _ _ _ ltac:(lia) ltac:(lia) (lookup_insert_eq _ 1 _)
    ltac:(vm_compute; reflexivity) (lookup_insert_eq _ 1 _) ltac:(lia) ltac:(lia) ltac:(cbn; lia) ltac:(cbn; lia) ltac:(cbn; lia)
    ltac:(intros i; apply Z.mod_pos_bound; lia)) as H.
  assert (E1 : pixels (io_kern (performPixelFormatConversion 1 FORMAT_BGRA32 2 FORMAT_RGBA32 4 4 w).2) 2 3 = 0x0D0E0F0C) by (vm_compute; reflexivity).
  assert (E0 : pixels (io_kern w) 1 3 = 0x0F0E0D0C) by (vm_compute; reflexivity).
  destruct (performPixelFormatConversion 1 FORMAT_BGRA32 2 FORMAT_RGBA32 4 4 w) as [r1 w1].
  destruct (performPixelFormatConversion 2 FORMAT_RGBA32 1 FORMAT_BGRA32 4 4 w1) as [r2 w2].
  destruct H as (H1 & H2 & _ & H3). destruct (H3 3 ltac:(lia)) as [_ H4]. split_and!; [exact H1|exact H2|exact E1|]. by rewrite <- E0.
Defined.
