(* ===== verification/IOSurfaceUpkeep.v ===== *)
(** The surface manager's upkeep: the ordering of its cache, the compaction and
    the eviction of surfaces, the statistics; on top of [IOSurfaceSpec.v]. *)
From S2P Require Import Prelude IOSurfaces IOSurfaceOps IOSurfaceLife IOSurfaceSafe IOSurfaceSpec.
From Stdlib Require Import Sorted.

(** * The bubble sort sorts *)
Section by_key.
Context {A : Type} (key : A -> Z).
Definition at_least (a b : A) : Prop := key b <= key a.
Lemma bubble_app k l1 l2 : length l1 = Datatypes.S k -> bubble key k (l1 ++ l2) = bubble key k l1 ++ l2.
Proof.
  revert l1. induction k as [|k IH]; intros [|a [|b l1]] Hl; try done. cbn [app bubble].
  destruct (_ <? _); cbn [app]; f_equal.
  - apply (IH (a :: l1)). cbn in *. lia.
  - apply (IH (b :: l1)). cbn in *. lia.
Qed.
(** One pass leaves the least used entry last. *)
Lemma bubble_min k l : length l = Datatypes.S k ->
  exists l' e, bubble key k l = l' ++ [e] /\ length l' = k /\ Forall (fun a => at_least a e) l'.
Proof.
  revert l. induction k as [|k IH]; intros [|a [|b l]] Hl; try done.
  - exists [], a. by split_and!.
  - cbn [bubble]. destruct (Z.ltb_spec (key a) (key b)).
    + destruct (IH (a :: l)) as (l' & e & E & Hl' & Hf); [cbn in *; lia|]. exists (b :: l'), e. rewrite E.
      split; [done|]. split; [cbn; lia|]. constructor; [|done].
      assert (Ha : a ∈ l' ++ [e]) by (rewrite <- E, (bubble_perm key k (a :: l)); left).
      apply elem_of_app in Ha as [Ha|Ha].
      * rewrite Forall_forall in Hf. specialize (Hf _ Ha). unfold at_least in *. lia.
      * apply list_elem_of_singleton in Ha as ->. unfold at_least. lia.
    + destruct (IH (b :: l)) as (l' & e & E & Hl' & Hf); [cbn in *; lia|]. exists (a :: l'), e. rewrite E.
      split; [done|]. split; [cbn; lia|]. constructor; [|done].
      assert (Hb : b ∈ l' ++ [e]) by (rewrite <- E, (bubble_perm key k (b :: l)); left).
      apply elem_of_app in Hb as [Hb|Hb].
      * rewrite Forall_forall in Hf. specialize (Hf _ Hb). unfold at_least in *. lia.
      * apply list_elem_of_singleton in Hb as ->. unfold at_least. lia.
Qed.
Lemma bubble_sort_app k l1 l2 : length l1 = Datatypes.S k -> bubble_sort key k (l1 ++ l2) = bubble_sort key k l1 ++ l2.
Proof.
  revert l1 l2. induction k as [|k IH]; intros l1 l2 Hl; [done|]. cbn [bubble_sort].
  rewrite bubble_app by done. destruct (bubble_min (Datatypes.S k) l1 Hl) as (l' & e & E & Hl' & _). rewrite E.
  rewrite <- app_assoc, !IH by done. by rewrite <- app_assoc.
Qed.
Lemma sorted_snoc l e : StronglySorted at_least l -> Forall (fun a => at_least a e) l -> StronglySorted at_least (l ++ [e]).
Proof.
  induction 1 as [|a l Hs IH Ha]; intros Hf; cbn; [repeat constructor|]. apply Forall_cons in Hf as [H1 H2].
  constructor; [by apply IH|]. apply Forall_app. split; [done|by repeat constructor].
Qed.
Lemma bubble_sort_sorted k l : length l = Datatypes.S k -> StronglySorted at_least (bubble_sort key k l).
Proof.
  revert l. induction k as [|k IH]; intros l Hl.
  - destruct l as [|a [|b l]]; try done. repeat constructor.
  - cbn [bubble_sort]. destruct (bubble_min (Datatypes.S k) l Hl) as (l' & e & E & Hl' & Hf). rewrite E, bubble_sort_app by done.
    apply sorted_snoc; [by apply IH|]. by rewrite (bubble_sort_perm key k l').
Qed.
End by_key.

(** An entry, its priority apart. *)
Definition unranked (e : cache_entry) : cache_entry := set_ce_is_high_priority false e.
Lemma sorted_same f l : (forall e, ce_access_count (f e) = ce_access_count e) -> forall l',
  StronglySorted (at_least ce_access_count) (l ++ l') -> StronglySorted (at_least ce_access_count) ((f <$> l) ++ l').
Proof.
  intros Hf l'. induction l as [|a l IH]; cbn; [done|]. intros H. apply StronglySorted_inv in H as [H1 H2]. constructor; [by apply IH|].
  apply Forall_app in H2 as [H2 H3]. apply Forall_app. unfold at_least in *. rewrite Hf. split; [|done].
  apply Forall_fmap. eapply Forall_impl; [exact H2|]. intros b. cbn. by rewrite Hf.
Qed.

(** [optimizeDiscoveryCache] sorts: whatever the cache holds, afterwards it holds the same
    entries, their priority flags apart, ordered by falling access count; the first quarter is
    of high priority, the others' flags are kept, and nothing but the cache changes. *)
Theorem optimizeDiscoveryCache_sorts m d k :
  exists cache sorted,
  optimizeDiscoveryCache (mk_iow m d k) = (kIOReturnSuccess, mk_iow m (set_dc_cache cache d) k)
  /\ StronglySorted (at_least ce_access_count) cache /\ sorted ≡ₚ dc_cache d /\ (unranked <$> cache) = (unranked <$> sorted)
  /\ Forall (fun e => ce_is_high_priority e = true) (take (length cache / 4) cache)
  /\ drop (length cache / 4) cache = drop (length cache / 4) sorted.
Proof.
  unfold optimizeDiscoveryCache, bind at 1, get_disc, gets. cbn [io_disc].
  destruct (Nat.eqb_spec (length (dc_cache d)) 0) as [H0|Hn].
  - apply nil_length_inv in H0. exists [], []. rewrite H0. split; [by destruct d; cbn in *; subst|]. split_and!; try done; constructor.
  - set (n := length (dc_cache d)) in *. set (srt := bubble_sort ce_access_count (n - 1) (dc_cache d)).
    assert (Hp : srt ≡ₚ dc_cache d) by apply bubble_sort_perm. assert (Hl : length srt = n) by by rewrite Hp.
    assert (Hs : StronglySorted (at_least ce_access_count) srt) by (apply bubble_sort_sorted; unfold n in *; lia).
    assert (Hq : (n / 4 <= n)%nat) by (apply Nat.Div0.div_le_upper_bound; lia).
    set (cache := (set_ce_is_high_priority true <$> take (n / 4) srt) ++ drop (n / 4) srt).
    assert (Hc : length cache = n) by (unfold cache; by rewrite length_app, length_fmap, <- length_app, take_drop).
    assert (Ht : length (set_ce_is_high_priority true <$> take (n / 4) srt) = (n / 4)%nat) by (rewrite length_fmap, length_take; lia).
    exists cache, srt. rewrite Hc. split_and!; [done| |done| | |].
    + apply sorted_same; [done|]. by rewrite take_drop.
    + unfold cache. rewrite fmap_app, <- list_fmap_compose. etrans; [|rewrite <- (take_drop (n / 4) srt) at 1; by rewrite fmap_app]. done.
    + unfold cache. rewrite take_app_length' by done. apply Forall_fmap, Forall_true. done.
    + unfold cache. by rewrite drop_app_length' by done.
Qed.

(** * Compaction *)
Definition hung (w : iow) : Prop := sm_surface_lock (io_mgr w) = Deadlocked.
Definition hangs {A} (prog : M iow A) : Prop := preserves hung prog.
Lemma hangs_mgr {A} (prog : M iow A) : keeps io_mgr prog -> hangs prog.
Proof. intros H. by apply (keeps_preserves io_mgr (fun m => sm_surface_lock m = Deadlocked)). Qed.
Lemma hangs_upd f : (forall m, sm_surface_lock m = Deadlocked -> sm_surface_lock (f m) = Deadlocked) -> hangs (upd_mgr f).
Proof. intros H [m d k]. apply H. Qed.
Lemma object_at_mgr p : keeps io_mgr (object_at p).
Proof. unfold object_at, get_kern, fault, upd_kern. by keeps_tac; apply keeps_modify. Qed.
Lemma now_mgr : keeps io_mgr now.
Proof. by intros v w. Qed.
Lemma ask_mgr : keeps io_mgr ask.
Proof. by intros v w. Qed.
Lemma upd_kern_mgr f : keeps io_mgr (upd_kern f).
Proof. by intros v w. Qed.
#[local] Hint Resolve object_at_mgr now_mgr ask_mgr upd_kern_mgr findSurface_mgr : keeps.
Lemma surface_at_mgr p : keeps io_mgr (surface_at p).
Proof. unfold surface_at, fault. keeps_tac. Qed.
Lemma upd_buffer_mgr b f : keeps io_mgr (upd_buffer b f).
Proof. unfold upd_buffer, buffer_at, get_kern, fault. keeps_tac. Qed.
Lemma release_buffer_mgr b : keeps io_mgr (release_buffer b).
Proof. unfold release_buffer, buffer_at, get_kern, fault. keeps_tac. Qed.
Lemma release_mgr p : keeps io_mgr (release p).
Proof. unfold release, put_object. keeps_tac. Qed.
Lemma put_surface_mgr p s : keeps io_mgr (put_surface p s).
Proof. unfold put_surface. keeps_tac. Qed.
#[local] Hint Resolve surface_at_mgr upd_buffer_mgr release_buffer_mgr release_mgr put_surface_mgr : keeps.
Ltac hang :=
  repeat first
    [ apply hangs_mgr; solve [auto with keeps] | apply preserves_ret | apply preserves_gets
    | apply hangs_upd; let m := fresh "m" in let H := fresh "H" in intros m H; cbn; rewrite ?H; reflexivity | apply preserves_bind; [|intros ?] | goal_case ].
Lemma destroySurface_hangs id : hangs (destroySurface id).
Proof.
  unfold destroySurface, with_surface, status, lock, unlock, complete, map_remove, surfaces_remove, dict_remove, array_remove, uncount_surface, bump, releaseSurfaceId, get_mgr.
  hang.
Qed.
Lemma compact_hangs n : hangs (compact_from n).
Proof.
  induction n as [|n IH]; cbn [compact_from]; [apply preserves_ret|].
  unfold get_mgr, shouldEvictSurface. repeat first [apply IH | apply destroySurface_hangs | progress hang].
Qed.

Lemma destroySurface_hung id m d k : sm_surface_lock m = Locked -> id <> 0 -> hung (destroySurface id (mk_iow m d k)).2.
Proof.
  intros E Hid. assert (destroySurface id (mk_iow m d k) = destroySurface id (mk_iow (set_sm_surface_lock Deadlocked m) d k)) as ->.
  { unfold destroySurface. destruct (Z.eqb_spec id 0); [done|]. unfold bind at 1, lock at 1, upd_mgr, modify. cbn. by rewrite E. }
  by apply destroySurface_hangs.
Qed.

(** ** The clock: from [c] on, to [e] at most *)
Fixpoint to_come (ticks : list Z) : Z := match ticks with [] => 0 | t :: rest => Z.max 0 t + to_come rest end.
Lemma to_come_nonneg l : 0 <= to_come l.
Proof. induction l; cbn; lia. Qed.
Definition ticking (c e : Z) (w : iow) : Prop :=
  c <= kn_clock (io_kern w) /\ kn_clock (io_kern w) + to_come (kn_ticks (io_kern w)) <= e.
Lemma now_ticking c e w : ticking c e w -> e < 2 ^ 64 -> 0 <= c ->
  ticking c e (now w).2 /\ c <= (now w).1 < 2 ^ 64.
Proof.
  intros [H1 H2] He Hc. unfold ticking, now. cbn. destruct (kn_ticks (io_kern w)) as [|t l]; cbn in *.
  - rewrite Z.max_id, Z.add_0_r in *. rewrite u64_small by lia. lia.
  - pose proof (to_come_nonneg l). rewrite u64_small by lia. lia.
Qed.
Lemma ticking_now c e : preserves (ticking c e) now.
Proof.
  intros w [H1 H2]. unfold ticking, now. cbn. destruct (kn_ticks (io_kern w)) as [|t l]; cbn in *; lia.
Qed.
Lemma ticking_findSurface c e id : preserves (ticking c e) (findSurface id).
Proof.
  unfold findSurface, prefetch, map_object, report, object_at, get_disc, get_mgr, get_kern, upd_disc, upd_kern, fault.
  repeat first [ apply ticking_now | apply preserves_ret | apply preserves_gets | apply preserves_modify; done
    | apply preserves_bind; [|intros ?] | goal_case ].
Qed.

(** A surface idle for more than ten seconds, in ticks of a nanosecond, at time [c]. *)
Definition idle (c : Z) (s : io_surface) : Prop :=
  is_lock_count s = 0 /\ 0 <= is_last_access_time s /\ 10000000000 < c - is_last_access_time s.
Definition same_memory (k k' : iokern) : Prop := kn_objects k' = kn_objects k /\ kn_buffers k' = kn_buffers k.

Section compaction.
Context (m : manager) (k0 : iokern) (c e : Z).
Context (He : 0 <= c <= e) (He2 : e < 2 ^ 64).
(** Nothing has happened, from index [i] down. *)
Definition spared (i : nat) (w : iow) : Prop :=
  exists d k, w = mk_iow m d k /\ minv Locked i m k /\ dinv i [] m k d /\ same_memory k0 k /\ ticking c e w.
Definition no_idle (i : nat) : Prop :=
  forall j p s, (j < i)%nat -> sm_surfaces m !! j = Some p -> kn_objects k0 !! p = Some (2, SurfaceData s) -> ~ idle c s.

(** [shouldEvictSurface] of a listed surface: its answer, and the clock moved. *)
Lemma shouldEvict_run i d k p id s :
  spared (Datatypes.S i) (mk_iow m d k) -> sm_surface_map m !! id = Some p -> kn_objects k !! p = Some (2, SurfaceData s) ->
  exists b d' k', shouldEvictSurface id (mk_iow m d k) = (b, mk_iow m d' k') /\ spared i (mk_iow m d' k')
    /\ (b = true -> is_lock_count s = 0) /\ (b = false -> ~ idle c s).
Proof using He He2.
  intros (d1 & k1 & [= <- <-] & Hm & Hd & Hk & Ht) Hp Hs.
  destruct (mi_obj _ _ _ _ Hm _ _ Hp) as (s' & Hs' & Hok). assert (s' = s) as -> by congruence.
  destruct (findSurface_run _ _ _ _ _ _ id Hm Hd ltac:(set_solver)) as (d' & k' & E & Hc & Hd').
  pose proof (ticking_findSurface c e id _ Ht) as Ht'. rewrite E in Ht'. cbn [snd] in Ht'. rewrite Hp in E.
  assert (Hm' : minv Locked i m k') by (apply (minv_clock _ _ _ k); [done|eapply minv_less; [|done]; lia]).
  assert (Ek : same_memory k k') by (destruct Hc as (? & ? & ->); done).
  assert (Hk' : same_memory k0 k') by (destruct Hk, Ek; split; congruence).
  assert (Hs2 : kn_objects k' !! p = Some (2, SurfaceData s)) by (destruct Ek as [-> _]; done).
  assert (Hend : spared i (mk_iow m d' k')) by by exists d', k'.
  unfold shouldEvictSurface. rewrite (bind_run _ _ _ _ _ E). rewrite (bind_run _ _ _ _ _ (surface_at_run _ _ _ _ _ _ Hs2)).
  destruct (so_lock _ _ _ Hok) as [El Hl]. rewrite El, orb_diag. destruct (Z.ltb_spec 0 (is_lock_count s)).
  { exists false, d', k'. split_and!; [done|done|done|]. intros _ [? _]. lia. }
  rewrite (so_ref _ _ _ Hok). change (1 <? 1) with false. cbv match.
  destruct (now_run m d' k') as (t & k2 & E2 & Hc2). rewrite (bind_run _ _ _ _ _ E2).
  destruct (now_ticking c e _ Ht' ltac:(lia) ltac:(lia)) as [Ht2 Hct]. rewrite E2 in Ht2, Hct. cbn [fst snd] in Ht2, Hct.
  eexists _, d', k2. split; [done|]. split; [|split; [lia|]].
  - exists d', k2. split; [done|]. split; [by apply (minv_clock _ _ _ k')|]. split; [by apply (dinv_clock _ _ _ k')|]. split; [|done].
    destruct Hc2 as (? & ? & ->). done.
  - intros Hb (_ & Hi1 & Hi2). apply Z.ltb_ge in Hb. rewrite u64_small in Hb by lia. lia.
Qed.

Lemma compact_run i w : (i <= length (sm_surfaces m))%nat -> spared i w ->
  hung (compact_from i w).2 \/ spared 0 (compact_from i w).2 /\ no_idle i.
Proof using He He2.
  revert w. induction i as [|i IH]; intros w Hi Hw; [right; split; [done|intros j p s Hj; lia]|].
  pose proof Hw as (d & k & -> & Hm & Hd & Hk & Ht).
  destruct (lookup_lt_is_Some_2 (sm_surfaces m) i ltac:(lia)) as [p Hp].
  assert (exists id, sm_surface_map m !! id = Some p) as [id Hid] by (apply (mi_map _ _ _ _ Hm); by eapply list_elem_of_lookup_2).
  destruct (mi_obj _ _ _ _ Hm _ _ Hid) as (s & Hs & Hok).
  destruct (shouldEvict_run i d k p id s Hw Hid Hs) as (b & d' & k' & E & Hw' & Hb1 & Hb2).
  pose proof Hw' as (d2 & k2 & [= <- <-] & Hm' & _ & [Ho' _] & _).
  assert (Hs' : kn_objects k' !! p = Some (2, SurfaceData s)) by (destruct Hk as [Ho _]; congruence).
  assert (compact_from (Datatypes.S i) (mk_iow m d k)
    = ((if b then destroySurface id ;;; ret tt else ret tt) ;;; compact_from i) (mk_iow m d' k')) as ->.
  { cbn [compact_from]. unfold bind at 1, get_mgr, gets. cbn [io_mgr]. rewrite Hp. unfold bind at 1.
    rewrite (bind_run _ _ _ _ _ (surface_at_run _ _ _ _ _ _ Hs)), (so_id _ _ _ Hok), (bind_run _ _ _ _ _ E).
    destruct b; [|done]. rewrite (bind_run _ _ _ _ _ (surface_at_run _ _ _ _ _ _ Hs')).
    by rewrite (Hb1 eq_refl), (so_ref _ _ _ Hok), (so_id _ _ _ Hok). }
  destruct b.
  - left. pose proof (mi_ids _ _ _ _ Hm id (ex_intro _ _ Hid)) as Hr.
    pose proof (destroySurface_hung id m d' k' (mi_lock _ _ _ _ Hm') ltac:(lia)) as Hh. unfold bind.
    destruct (destroySurface id _) as [r w2]. by apply (compact_hangs i).
  - destruct (IH _ ltac:(lia) Hw') as [H|[H1 H2]]; [left; exact H|]. right. split; [exact H1|].
    intros j q s' Hj Hq Hs2 Hidle. destruct (decide (j = i)) as [->|]; [|by apply (H2 j q s'); [lia|..]].
    assert (q = p) as -> by congruence. assert (s' = s) as -> by (destruct Hk as [Ho _]; congruence). by apply (Hb2 eq_refl).
Qed.
End compaction.

(** [compactSurfaceMemory] frees nothing. After any session with no id destroyed since the
    last flush of the cache, either it hangs on its own lock, which [destroySurface] takes a
    second time, or it answers success and has changed neither tables nor memory, and no
    surface was idle; so it hangs as soon as one unlocked surface has been idle for more
    than 10^10 ticks. *)
Theorem compactSurfaceMemory_frees_nothing device ops (w : iow) :
  clean_start w -> Z.of_nat (length ops) < 2 ^ 28 -> tame [] ops -> stale_end [] ops = [] ->
  let '(ok, w1) := life device ops w in
  ok = true ->
  Z.of_nat (length (sm_surfaces (io_mgr w1))) <= 2 ^ 28 ->
  0 <= kn_clock (io_kern w1) -> kn_clock (io_kern w1) + to_come (kn_ticks (io_kern w1)) < 2 ^ 64 ->
  let '(r, w2) := compactSurfaceMemory w1 in
  hung w2
  \/ r = kIOReturnSuccess /\ io_mgr w2 = io_mgr w1 /\ same_memory (io_kern w1) (io_kern w2) /\ kn_fault (io_kern w2) = false
     /\ forall p s, p ∈ sm_surfaces (io_mgr w1) -> kn_objects (io_kern w1) !! p = Some (2, SurfaceData s) ->
          ~ idle (kn_clock (io_kern w1)) s.
Proof.
  intros Hw Hn Ht Hst. assert (H : forall n, Z.of_nat (3 * length ops + n) < 2 ^ 30 ->
    let '(ok, w') := life device ops w in ok = true -> good Unlocked n (stale_end [] ops) w') by (intros; by apply life_good).
  rewrite Hst in H. destruct (life device ops w) as [ok [m d k]]. intros -> Hlen Hc0 Hc1. cbn [io_mgr io_kern] in *.
  destruct (H (length (sm_surfaces m)) ltac:(lia) eq_refl) as [Hm Hd]. cbn in Hm, Hd. clear H.
  unfold compactSurfaceMemory. rewrite (bind_run _ _ _ _ _ (lock_run _ _ _ (mi_lock _ _ _ _ Hm))).
  set (mL := set_sm_surface_lock Locked m). unfold bind at 1, get_mgr, gets. cbn [io_mgr].
  change (sm_surfaces mL) with (sm_surfaces m).
  assert (Hsp : spared mL k (kn_clock k) (kn_clock k + to_come (kn_ticks k)) (length (sm_surfaces m)) (mk_iow mL d k)).
  { exists d, k. split; [done|]. split; [by eapply minv_set_lock|]. split; [by apply (dinv_same _ _ m _ k k)|]. split; [done|]. split; cbn; lia. }
  pose proof (to_come_nonneg (kn_ticks k)) as Hpos.
  destruct (compact_run mL k (kn_clock k) (kn_clock k + to_come (kn_ticks k)) ltac:(lia) Hc1 _ _ (le_n _) Hsp) as [Hh|[(d2 & k2 & E & Hm2 & _ & Hk2 & _) Hi]]; unfold bind.
  - destruct (compact_from _ _) as [[] w2]. left. unfold unlock, upd_mgr, modify, ret, hung in *. cbn in *. by rewrite Hh.
  - destruct (compact_from _ _) as [[] w2]. cbn in E. subst w2. rewrite (unlock_run _ _ _ (mi_lock _ _ _ _ Hm2)). right.
    cbn [io_mgr io_kern ret]. split; [done|]. split; [|split; [done|split; [apply Hm2|]]].
    + pose proof (mi_lock _ _ _ _ Hm) as El. unfold mL. destruct m. cbn in El. by subst.
    + intros p s Hp Hs. apply list_elem_of_lookup in Hp as [j Hj].
      apply (Hi j p s); [by apply lookup_lt_Some in Hj|done|done].
Qed.
Lemma compactSurfaceMemory_frees_nothing_witness :
  let ops := [OpCreate (demo_desc 4 4 FORMAT_BGRA32); OpRegister 7 1] in
  let '(ok, w1) := life true ops (mk_iow blank_manager initial_discovery
    (mk_iokern ∅ ∅ 1 [] 0 [5; 20000000000] (fun _ _ => 0) 0 false)) in
  ok = true /\ hung (compactSurfaceMemory w1).2.
Proof.
  intros ops. set (w := mk_iow _ _ _).
  pose proof (compactSurfaceMemory_frees_nothing true ops w ltac:(by split_and!) ltac:(cbn; lia)
    ltac:(cbn; split_and!; try done; apply demo_desc_ok; [set_solver|lia|lia]) eq_refl) as H.
  destruct (life true ops w) as [ok w1] eqn:E.
  assert (E1 : ok = true) by (change ok with (ok, w1).1; rewrite <- E; vm_compute; reflexivity).
  assert (E2 : sm_surfaces (io_mgr w1) = [2] /\ kn_clock (io_kern w1) = 20000000005 /\ kn_ticks (io_kern w1) = []).
  { change w1 with (ok, w1).2. rewrite <- E. split_and!; vm_compute; reflexivity. }
  assert (E3 : match kn_objects (io_kern w1) !! 2 with
    | Some (2, SurfaceData s) => is_lock_count s = 0 /\ is_last_access_time s = 5 | _ => False end).
  { change w1 with (ok, w1).2. rewrite <- E. vm_compute. by split. }
  clear E. clearbody w. destruct E2 as (E4 & E5 & E6).
  specialize (H E1 ltac:(rewrite E4; cbn; lia) ltac:(rewrite E5; lia) ltac:(rewrite E5, E6; cbn; lia)).
  destruct (compactSurfaceMemory w1) as [r w2]. split; [exact E1|]. destruct H as [H|(_ & _ & _ & _ & H)]; [exact H|].
  destruct (kn_objects (io_kern w1) !! 2) as [[[|[|[]|]|] [s|]]|] eqn:Es; try done.
  destruct (H 2 s ltac:(rewrite E4; left) Es). unfold idle. rewrite E5. lia.
Defined.
