(* ===== verification/IOSurfaceProps.v ===== *)
(** The descriptors of surfaces: [getSurfaceDescriptor] and the cache of 128
    descriptors it keeps beside the one of [findSurface]
    (FB/VMIOSurfaceManager.cpp). Like that one it is a C static; the methods
    take no lock. *)
From S2P Require Import Prelude IOSurfaces IOSurfaceOps IOSurfaceLife IOSurfaceSafe IOSurfaceSpec IOSurfaceUpkeep.
From Stdlib Require Import Sorted.

(** * Data *)
(** [VMSurfacePropertyCache] *)
Record prop_entry := mk_prop {
  pe_surface_id : Z;
  pe_descriptor : surface_desc;
  pe_last_access_time : Z;
  pe_access_count : Z;
  pe_is_validated : bool;
  pe_needs_refresh : bool;
  pe_property_hash : Z;
  pe_compatibility_flags : Z
}.
Definition PROPERTY_CACHE_SIZE : nat := 128.
(** [VMSurfacePropertyStats] without the time, which is only reported. *)
Record prop_stats := mk_pstats {
  ps_property_lookups : Z; ps_cache_hits : Z; ps_cache_misses : Z; ps_format_conversions : Z;
  ps_resolution_adaptations : Z; ps_validation_failures : Z; ps_compatibility_checks : Z
}.
(** The statics, beside the manager. *)
Record props := mk_props { pr_cache : list prop_entry; pr_stats : prop_stats }.
Definition no_stats : prop_stats := mk_pstats 0 0 0 0 0 0 0.
Definition initial_props : props := mk_props [] no_stats.
Record piow := mk_piow { pw_props : props; pw_iow : iow }.

Definition on_iow {A} (prog : M iow A) : M piow A :=
  fun w => let '(a, w') := prog (pw_iow w) in (a, mk_piow (pw_props w) w').
Definition get_cache {A} (f : list prop_entry -> A) : M piow A := gets (fun w => f (pr_cache (pw_props w))).
Definition upd_cache (f : list prop_entry -> list prop_entry) : M piow unit :=
  modify (fun w => mk_piow (mk_props (f (pr_cache (pw_props w))) (pr_stats (pw_props w))) (pw_iow w)).
Definition get_stats {A} (f : prop_stats -> A) : M piow A := gets (fun w => f (pr_stats (pw_props w))).
(** [statistic += n] of the statistics named. *)
Definition count_stats (lookups hits misses conversions adaptations failures checks : Z) : M piow unit :=
  modify (fun w => let s := pr_stats (pw_props w) in
    mk_piow (mk_props (pr_cache (pw_props w)) (mk_pstats
      (u32 (ps_property_lookups s + lookups)) (u32 (ps_cache_hits s + hits)) (u32 (ps_cache_misses s + misses))
      (u32 (ps_format_conversions s + conversions)) (u32 (ps_resolution_adaptations s + adaptations))
      (u32 (ps_validation_failures s + failures)) (u32 (ps_compatibility_checks s + checks)))) (pw_iow w)).

(** * The analysis of a surface *)
(** [g_standard_resolutions]; the formats are all [FORMAT_BGRA32]. *)
Definition standard_resolutions : list (Z * Z) :=
  [(640, 480); (800, 600); (1024, 768); (1280, 720); (1366, 768); (1600, 900); (1920, 1080); (2560, 1440);
   (3840, 2160); (5120, 2880)].
Definition is_standard (s : io_surface) : bool := bool_decide ((is_width s, is_height s) ∈ standard_resolutions).
(** [g_format_compatibility_matrix]: its rows from the fourth on are zero. *)
Definition compatibility_matrix : list (list bool) :=
  [[true; true; true]; [true; true; true; true]; [true; true; true; true; true]].
Definition checkFormatCompatibility (source_format dest_format : Z) : bool :=
  if (16 <=? source_format) || (16 <=? dest_format) then false
  else default false (default [] (compatibility_matrix !! Z.to_nat source_format) !! Z.to_nat dest_format).
Definition zero_plane : plane_info := mk_plane 0 0 0 0 0 0 0 0.
Definition chosen_format (yuv : bool) (s : io_surface) : Z :=
  let f := sd_pixel_format (is_descriptor s) in
  if f =? 0 then FORMAT_BGRA32
  else if is_success (validatePixelFormat yuv f) then f else FORMAT_BGRA32.
(** How often a format was replaced: for a standard resolution, for an invalid one. *)
Definition replaced_formats (yuv : bool) (s : io_surface) : Z :=
  let f := sd_pixel_format (is_descriptor s) in
  if f =? 0 then (if is_standard s then 1 else 0)
  else if is_success (validatePixelFormat yuv f) then 0 else 1.
Definition analysed (yuv : bool) (s : io_surface) : surface_desc :=
  let width := if 0 <? sd_width (is_descriptor s) then sd_width (is_descriptor s) else 1920 in
  let height := if 0 <? sd_height (is_descriptor s) then sd_height (is_descriptor s) else 1080 in
  let format := chosen_format yuv s in
  let bytes_per_row := u32 (width * getBytesPerPixel format) in
  let zero := repeat zero_plane 4 in
  let blank := mk_desc width height format bytes_per_row 0 0 0 0 zero 0 0 0 0 0 0 0 in
  let alloc_size := calculateSurfaceSize blank in
  let '(plane_count, planes) :=
    if 1 <? getPlaneCount format then
      let '(plane_setup, count, planes) := setupPlaneInfo format width height zero in
      ((if is_success plane_setup then count else 1), planes)
    else (getPlaneCount format, zero) in
  mk_desc width height format bytes_per_row 0 0 0 plane_count planes alloc_size
    (sd_usage_flags (is_descriptor s)) 0 0 0 0 0.
Definition property_hash (d : surface_desc) : Z :=
  Z.lor (Z.lor (u32 (Z.shiftl (sd_width d) 16)) (sd_height d)) (Z.shiftr (sd_pixel_format d) 16).
Definition compatibility_flags (d : surface_desc) : Z :=
  let format_index := if sd_pixel_format d <? 16 then sd_pixel_format d else 0 in
  let metal := checkFormatCompatibility format_index 1
               || bool_decide (sd_pixel_format d ∈ [FORMAT_BGRA32; FORMAT_RGBA32]) in
  let opengl := checkFormatCompatibility format_index 2
                || bool_decide (sd_pixel_format d ∈ [FORMAT_BGRA32; FORMAT_ARGB32]) in
  Z.lor (if metal then 1 else 0) (if opengl then 2 else 0).

(** * The cache *)
Definition prop_hit (id : Z) (e : prop_entry) : bool := (pe_surface_id e =? id) && pe_is_validated e.
Definition touched (t : Z) (e : prop_entry) : prop_entry :=
  mk_prop (pe_surface_id e) (pe_descriptor e) t (u32 (pe_access_count e + 1)) (pe_is_validated e) (pe_needs_refresh e)
    (pe_property_hash e) (pe_compatibility_flags e).
Definition set_flags (validated refresh : bool) (e : prop_entry) : prop_entry :=
  mk_prop (pe_surface_id e) (pe_descriptor e) (pe_last_access_time e) (pe_access_count e) validated refresh
    (pe_property_hash e) (pe_compatibility_flags e).
Definition prop_enter (e : prop_entry) (cache : list prop_entry) : list prop_entry :=
  if (length cache <? PROPERTY_CACHE_SIZE)%nat then cache ++ [e]
  else <[lru_index pe_last_access_time cache := e]> cache.
(** The report, every 50 lookups, divides by their number. *)
Definition prop_report : M piow unit :=
  let! n := get_stats ps_property_lookups in
  if n =? 0 then on_iow fault else ret tt.

(** The fast lookup; an entry that needs a refresh is not answered. *)
Definition cached_descriptor (surface_id t : Z) : M piow (option surface_desc) :=
  let! cache := get_cache (fun l => l) in
  match index_of (prop_hit surface_id) cache with
  | Some i =>
      match cache !! i with
      | Some e =>
          if pe_needs_refresh e then upd_cache (alter (set_flags (pe_is_validated e) false) i) ;;; ret None
          else
            upd_cache (alter (touched t) i) ;;;
            count_stats 0 1 0 0 0 0 0 ;;;
            ret (Some (pe_descriptor e))
      | None => ret None
      end
  | None => ret None
  end.
(** A miss: the analysis, the new entry, the report. *)
Definition analyse_surface (id p t : Z) : M piow (IOReturn * option surface_desc) :=
  count_stats 0 0 1 0 0 0 0 ;;;
  let! surface := on_iow (surface_at p) in
  match surface with
  | None => count_stats 0 0 0 0 0 1 0 ;;; ret (kIOReturnInternalError, None)
  | Some s =>
      let! yuv := on_iow (get_mgr sm_supports_yuv) in
      let d := analysed yuv s in
      count_stats 0 0 0 (replaced_formats yuv s) 0 0 1 ;;;
      upd_cache (prop_enter (mk_prop id d t 1 true false (property_hash d) (compatibility_flags d))) ;;;
      let! property_end_time := on_iow now in
      (if is_standard s then ret tt else count_stats 0 0 0 0 1 0 0) ;;;
      prop_report ;;;
      ret (kIOReturnSuccess, Some d)
  end.
Definition getSurfaceDescriptor (surface_id : Z) (descriptor : bool) : M piow (IOReturn * option surface_desc) :=
  let! property_start_time := on_iow now in
  let failed r := count_stats 1 0 0 0 0 1 0 ;;; ret (r, None) in
  if negb descriptor then failed kIOReturnBadArgument
  else if surface_id =? 0 then failed kIOReturnBadArgument
  else
    let! surface_obj := on_iow (findSurface surface_id) in
    match surface_obj with
    | None => failed kIOReturnNotFound
    | Some p =>
        let! surface_data := on_iow (object_at p) in
        match surface_data with
        | None => failed kIOReturnInternalError
        | Some _ =>
            count_stats 1 0 0 0 0 0 0 ;;;
            let! cached := cached_descriptor surface_id property_start_time in
            match cached with
            | Some d => ret (kIOReturnSuccess, Some d)
            | None => analyse_surface surface_id p property_start_time
            end
        end
    end.

(** ** Managing it *)
Definition getPropertyStatistics (stats : bool) : M piow (IOReturn * option prop_stats) :=
  if negb stats then ret (kIOReturnBadArgument, None)
  else let! s := get_stats (fun s => s) in ret (kIOReturnSuccess, Some s).
Definition resetPropertyStatistics : M piow IOReturn :=
  modify (fun w => mk_piow (mk_props (pr_cache (pw_props w)) no_stats) (pw_iow w)) ;;; ret kIOReturnSuccess.
Definition flushPropertyCache : M piow IOReturn := upd_cache (fun _ => []) ;;; ret kIOReturnSuccess.
Definition invalidatePropertyCache (surface_id : Z) : M piow IOReturn :=
  upd_cache (fun l => match index_of (fun e => pe_surface_id e =? surface_id) l with
                      | Some i => alter (set_flags false true) i l
                      | None => l
                      end) ;;;
  ret kIOReturnSuccess.
Fixpoint prewarm_props (ids : list Z) : M piow unit :=
  match ids with
  | [] => ret tt
  | id :: ids' =>
      let! n := get_cache (@length prop_entry) in
      if (n <? PROPERTY_CACHE_SIZE)%nat then
        (if id =? 0 then ret tt else let! r := getSurfaceDescriptor id true in ret tt) ;;;
        prewarm_props ids'
      else ret tt
  end.
Definition prewarmPropertyCache (surface_ids : option (list Z)) : M piow IOReturn :=
  match surface_ids with
  | None | Some [] => ret kIOReturnBadArgument
  | Some ids => prewarm_props ids ;;; ret kIOReturnSuccess
  end.
Definition optimizePropertyCache : M piow IOReturn :=
  let! cache := get_cache (fun l => l) in
  if (length cache =? 0)%nat then ret kIOReturnSuccess
  else upd_cache (fun l => bubble_sort pe_access_count (length l - 1) l) ;;; ret kIOReturnSuccess.

(** * The invariant *)
(** Every entry that is answered holds what the analysis gives now, and an
    entry to be refreshed is not answered. *)
Definition entry_current (m : manager) (k : iokern) (e : prop_entry) : Prop :=
  (pe_needs_refresh e = true -> pe_is_validated e = false)
  /\ (pe_is_validated e = true -> forall p rc s,
        sm_surface_map m !! pe_surface_id e = Some p -> kn_objects k !! p = Some (rc, SurfaceData s) ->
        pe_descriptor e = analysed (sm_supports_yuv m) s).
Record current (n : nat) (m : manager) (k : iokern) (pr : props) : Prop := {
  cu_entries : Forall (entry_current m k) (pr_cache pr);
  cu_length : (length (pr_cache pr) <= PROPERTY_CACHE_SIZE)%nat;
  cu_lookups : 0 <= ps_property_lookups (pr_stats pr) /\ ps_property_lookups (pr_stats pr) + Z.of_nat n < 2 ^ 32
}.
Lemma entry_current_same m k k' e : kn_objects k' = kn_objects k -> entry_current m k e -> entry_current m k' e.
Proof. intros E [H1 H2]. split; [done|]. by rewrite E. Qed.
Lemma current_same n n' m k k' pr : (n' <= n)%nat -> kn_objects k' = kn_objects k -> current n m k pr -> current n' m k' pr.
Proof.
  intros Hn E [H1 H2 H3]. constructor; [|done|lia]. eapply Forall_impl; [exact H1|]. intros e. by apply entry_current_same.
Qed.
Lemma current_cache n m k l l' st : current n m k (mk_props l st) -> Forall (entry_current m k) l' ->
  (length l' <= PROPERTY_CACHE_SIZE)%nat -> current n m k (mk_props l' st).
Proof. by intros [_ _ H] H1 H2. Qed.
Lemma Forall_alter {A} (P : A -> Prop) f i l : Forall P l -> (forall x, P x -> P (f x)) -> Forall P (alter f i l).
Proof.
  intros H Hf. revert i. induction H as [|x l Hx Hl IH]; intros [|i]; cbn; constructor; try done; auto; apply IH.
Qed.
Lemma current_alter n m k l st f i : current n m k (mk_props l st) ->
  (forall e, entry_current m k e -> entry_current m k (f e)) -> current n m k (mk_props (alter f i l) st).
Proof. intros H Hf. apply (current_cache _ _ _ l); [done|by apply Forall_alter, Hf; apply H|rewrite length_alter; apply H]. Qed.
Lemma current_enter n m k l st e : current n m k (mk_props l st) -> entry_current m k e ->
  current n m k (mk_props (prop_enter e l) st).
Proof.
  intros Hc He. pose proof (cu_entries _ _ _ _ Hc) as H1. pose proof (cu_length _ _ _ _ Hc) as H2. cbn [pr_cache] in H1, H2.
  unfold prop_enter. destruct (Nat.ltb_spec (length l) PROPERTY_CACHE_SIZE); apply (current_cache _ _ _ l); try done.
  - apply Forall_app. by split; [|constructor].
  - rewrite length_app. cbn [length]. lia.
  - by apply Forall_insert.
  - by rewrite length_insert.
Qed.
Lemma current_count n m k l st a h mi c ad f ch : current (Datatypes.S n) m k (mk_props l st) -> a = 0 \/ a = 1 ->
  current n m k (mk_props l (mk_pstats (u32 (ps_property_lookups st + a)) h mi c ad f ch))
  /\ (a = 1 -> u32 (ps_property_lookups st + a) <> 0).
Proof.
  intros [H1 H2 H3] Ha. cbn in *. rewrite u32_small by lia. split; [|lia]. constructor; cbn; [done|done|lia].
Qed.

(** * Every operation keeps it *)
(** What [getSurfaceDescriptor] is to answer. *)
Definition described (id : Z) (m : manager) (k : iokern) : IOReturn * option surface_desc :=
  if id =? 0 then (kIOReturnBadArgument, None)
  else match sm_surface_map m !! id with
       | Some p => match kn_objects k !! p with
                   | Some (_, SurfaceData s) => (kIOReturnSuccess, Some (analysed (sm_supports_yuv m) s))
                   | _ => (kIOReturnInternalError, None)
                   end
       | None => (kIOReturnNotFound, None)
       end.
Lemma on_iow_run {A} (prog : M iow A) pr w a w' : prog w = (a, w') -> on_iow prog (mk_piow pr w) = (a, mk_piow pr w').
Proof. intros E. unfold on_iow. cbn. by rewrite E. Qed.
Lemma bind_run' {S A B} (f : M S A) (g : A -> M S B) w a w' : f w = (a, w') -> bind f g w = g a w'.
Proof. intros E. unfold bind. by rewrite E. Qed.

(** The world of a description: the manager stays, the kernel but for its clock. *)
Definition steady (n : nat) (sl : list Z) (m : manager) (k0 : iokern) (w : piow) : Prop :=
  exists pr d k, w = mk_piow pr (mk_iow m d k) /\ on_clock k0 k
    /\ minv Unlocked n m k /\ dinv n sl m k d /\ current n m k pr.
Lemma on_clock_objects k k' : on_clock k k' -> kn_objects k' = kn_objects k.
Proof. by intros (? & ? & ->). Qed.

Lemma cached_run n m k l st id t w :
  current n m k (mk_props l st) ->
  exists r l' st', cached_descriptor id t (mk_piow (mk_props l st) w) = (r, mk_piow (mk_props l' st') w)
    /\ current n m k (mk_props l' st') /\ ps_property_lookups st' = u32 (ps_property_lookups st)
    /\ forall x, r = Some x -> exists e, e ∈ l /\ pe_surface_id e = id /\ pe_is_validated e = true /\ pe_descriptor e = x.
Proof.
  intros Hc. pose proof (cu_lookups _ _ _ _ Hc) as Hl. cbn in Hl. assert (Eu : u32 (ps_property_lookups st) = ps_property_lookups st) by (apply u32_small; lia).
  unfold cached_descriptor, bind at 1, get_cache, gets. cbn [pw_props pr_cache].
  destruct (index_of (prop_hit id) l) as [i|] eqn:Hi; [|by exists None, l, st; split_and!; [..|by rewrite Eu|done]].
  apply index_of_Some in Hi as (e & He & Hh & _). rewrite He. unfold prop_hit in Hh. apply andb_true_iff in Hh as [H1 H2]. apply Z.eqb_eq in H1.
  assert (Hin : e ∈ l) by by eapply list_elem_of_lookup_2.
  pose proof (cu_entries _ _ _ _ Hc) as Hall. cbn in Hall. rewrite Forall_forall in Hall. destruct (Hall _ Hin) as [Hr _].
  destruct (pe_needs_refresh e) eqn:Er; [rewrite (Hr eq_refl) in H2; done|].
  eexists (Some (pe_descriptor e)), (alter (touched t) i l), _. split; [reflexivity|]. cbn [ps_property_lookups pr_stats pw_props pr_cache]. rewrite Z.add_0_r, Eu. split; [|split; [done|]].
  - assert (Ha : current n m k (mk_props (alter (touched t) i l) st)) by by apply current_alter.
    destruct Ha as [A1 A2 A3]. constructor; [done|done|]. cbn [pr_stats ps_property_lookups] in *. by rewrite ?Z.add_0_r, ?Eu.
  - intros x [= <-]. by exists e.
Qed.
Lemma steady_intro n sl m k0 pr d k : on_clock k0 k -> minv Unlocked n m k -> dinv n sl m k d -> current n m k pr ->
  steady n sl m k0 (mk_piow pr (mk_iow m d k)).
Proof. intros. by exists pr, d, k. Qed.
Lemma steady_clock n m k k' pr : on_clock k k' -> current n m k pr -> current n m k' pr.
Proof. intros Hk. apply current_same; [done|by apply on_clock_objects]. Qed.
Lemma count_run a h mi c ad f ch l st w :
  count_stats a h mi c ad f ch (mk_piow (mk_props l st) w)
  = (tt, mk_piow (mk_props l (mk_pstats (u32 (ps_property_lookups st + a)) (u32 (ps_cache_hits st + h)) (u32 (ps_cache_misses st + mi))
      (u32 (ps_format_conversions st + c)) (u32 (ps_resolution_adaptations st + ad))
      (u32 (ps_validation_failures st + f)) (u32 (ps_compatibility_checks st + ch)))) w).
Proof. done. Qed.
Lemma count_current a h mi c ad f ch n m k l st w :
  current (Datatypes.S n) m k (mk_props l st) -> a = 0 \/ a = 1 ->
  exists st', count_stats a h mi c ad f ch (mk_piow (mk_props l st) w) = (tt, mk_piow (mk_props l st') w)
    /\ current n m k (mk_props l st') /\ (0 < a + ps_property_lookups st -> 0 < ps_property_lookups st').
Proof.
  intros Hc Ha. pose proof (cu_lookups _ _ _ _ Hc) as Hl. cbn in Hl. eexists. rewrite count_run. split; [done|].
  split; [by apply current_count|]. cbn. rewrite u32_small; lia.
Qed.
Lemma recount_current h mi c ad f ch n m k l st w :
  current n m k (mk_props l st) ->
  exists st', count_stats 0 h mi c ad f ch (mk_piow (mk_props l st) w) = (tt, mk_piow (mk_props l st') w)
    /\ current n m k (mk_props l st') /\ ps_property_lookups st' = ps_property_lookups st.
Proof.
  intros Hc. pose proof (cu_lookups _ _ _ _ Hc) as Hl. cbn in Hl. eexists. rewrite count_run. split; [done|]. cbn.
  rewrite Z.add_0_r, u32_small by lia. split; [|done]. destruct Hc. constructor; done.
Qed.

Lemma analyse_run n sl m k0 d k l st id p rc s t :
  on_clock k0 k -> minv Unlocked n m k -> dinv n sl m k d -> current n m k (mk_props l st) -> 0 < ps_property_lookups st ->
  sm_surface_map m !! id = Some p -> kn_objects k !! p = Some (rc, SurfaceData s) ->
  exists w', analyse_surface id p t (mk_piow (mk_props l st) (mk_iow m d k))
      = ((kIOReturnSuccess, Some (analysed (sm_supports_yuv m) s)), w') /\ steady n sl m k0 w'.
Proof.
  intros Hk Hm Hd Hc Hpos Hp Hs. unfold analyse_surface.
  destruct (recount_current 0 1 0 0 0 0 n m k l st (mk_iow m d k) Hc) as (st1 & E1 & Hc1 & L1). rewrite (bind_run' _ _ _ _ _ E1).
  rewrite (bind_run' _ _ _ _ _ (on_iow_run _ _ _ _ _ (surface_at_run _ _ _ _ _ _ Hs))).
  unfold bind at 1. change (on_iow (get_mgr sm_supports_yuv) (mk_piow (mk_props l st1) (mk_iow m d k)))
    with (sm_supports_yuv m, mk_piow (mk_props l st1) (mk_iow m d k)). cbv beta iota zeta.
  set (a := analysed (sm_supports_yuv m) s).
  destruct (recount_current 0 0 (replaced_formats (sm_supports_yuv m) s) 0 0 1 n m k l st1 (mk_iow m d k) Hc1) as (st2 & E2 & Hc2 & L2).
  rewrite (bind_run' _ _ _ _ _ E2). set (e := mk_prop _ _ _ _ _ _ _ _).
  unfold bind at 1. change (upd_cache (prop_enter e) (mk_piow (mk_props l st2) (mk_iow m d k)))
    with (tt, mk_piow (mk_props (prop_enter e l) st2) (mk_iow m d k)). cbv beta iota.
  assert (Hc3 : current n m k (mk_props (prop_enter e l) st2)).
  { apply current_enter; [done|]. split; [done|]. cbn. intros _ p' rc' s' Hp' Hs'. rewrite Hp in Hp'. injection Hp' as <-.
    rewrite Hs in Hs'. injection Hs' as _ <-. done. }
  destruct (now_run m d k) as (t2 & k2 & E3 & Hk2). rewrite (bind_run' _ _ _ _ _ (on_iow_run _ _ _ _ _ E3)).
  apply (steady_clock _ _ _ _ _ Hk2) in Hc3. apply (minv_clock _ _ _ _ _ Hk2) in Hm. apply (dinv_clock _ _ _ _ _ _ Hk2) in Hd.
  assert (Hk3 : on_clock k0 k2) by by eapply on_clock_trans.
  assert (exists st3, (if is_standard s then ret tt else count_stats 0 0 0 0 1 0 0) (mk_piow (mk_props (prop_enter e l) st2) (mk_iow m d k2))
    = (tt, mk_piow (mk_props (prop_enter e l) st3) (mk_iow m d k2)) /\ current n m k2 (mk_props (prop_enter e l) st3)
    /\ ps_property_lookups st3 = ps_property_lookups st2) as (st3 & E4 & Hc4 & L4).
  { destruct (is_standard s); [by exists st2|]. by apply recount_current. }
  rewrite (bind_run' _ _ _ _ _ E4). eexists. split; [|by apply steady_intro].
  unfold prop_report, bind, get_stats, gets. cbn [pw_props pr_stats]. destruct (Z.eqb_spec (ps_property_lookups st3) 0); [lia|done].
Qed.
Lemma getSurfaceDescriptor_run n sl m k0 w id :
  id ∉ sl -> steady (Datatypes.S n) sl m k0 w ->
  exists w', getSurfaceDescriptor id true w = (described id m k0, w') /\ steady n sl m k0 w'.
Proof.
  intros Hid ([l st] & d & k & -> & Hk & Hm & Hd & Hc). unfold getSurfaceDescriptor, described.
  destruct (now_run m d k) as (t & k1 & E1 & Hk1). rewrite (bind_run' _ _ _ _ _ (on_iow_run _ _ _ _ _ E1)).
  apply (steady_clock _ _ _ _ _ Hk1) in Hc. apply (minv_clock _ _ _ _ _ Hk1) in Hm. apply (dinv_clock _ _ _ _ _ _ Hk1) in Hd.
  assert (Hk2 : on_clock k0 k1) by by eapply on_clock_trans. clear Hk Hk1 E1 k. cbn [negb].
  assert (Hm' : minv Unlocked n m k1) by (eapply minv_less; [|done]; lia).
  destruct (Z.eqb_spec id 0) as [->|Hnz].
  { destruct (count_current 1 0 0 0 0 1 0 n m k1 l st (mk_iow m d k1) Hc ltac:(by right)) as (st1 & E2 & Hc1 & _).
    rewrite (bind_run' _ _ _ _ _ E2). eexists. split; [done|]. apply steady_intro; [done|done| |done]. eapply dinv_less; [|done]; lia. }
  destruct (findSurface_run _ _ _ _ _ _ _ Hm Hd Hid) as (d2 & k2 & E2 & Hk3 & Hd2).
  rewrite (bind_run' _ _ _ _ _ (on_iow_run _ _ _ _ _ E2)).
  apply (steady_clock _ _ _ _ _ Hk3) in Hc. apply (minv_clock _ _ _ _ _ Hk3) in Hm'.
  assert (Hk4 : on_clock k0 k2) by by eapply on_clock_trans. destruct (sm_surface_map m !! id) as [p|] eqn:Hp.
  - destruct (mi_obj _ _ _ _ Hm' _ _ Hp) as (s & Hs & _). rewrite <- (on_clock_objects _ _ Hk4), Hs.
    rewrite (bind_run' _ _ _ _ _ (on_iow_run _ _ _ _ _ (object_at_run _ _ _ _ _ Hs))).
    destruct (count_current 1 0 0 0 0 0 0 n m k2 l st (mk_iow m d2 k2) Hc ltac:(by right)) as (st1 & E3 & Hc1 & L1).
    rewrite (bind_run' _ _ _ _ _ E3). pose proof (cu_lookups _ _ _ _ Hc) as Hl0. pose proof (cu_lookups _ _ _ _ Hc1) as Hl1. cbn in Hl0, Hl1.
    destruct (cached_run n m k2 l st1 id t (mk_iow m d2 k2) Hc1) as (r & l2 & st2 & E4 & Hc2 & L2 & Hr).
    rewrite (bind_run' _ _ _ _ _ E4). destruct r as [x|].
    + destruct (Hr x eq_refl) as (e & He & Hei & Hev & Hed). pose proof (cu_entries _ _ _ _ Hc1) as Hall. cbn in Hall. rewrite Forall_forall in Hall.
      destruct (Hall _ He) as [_ Hcur]. rewrite Hei in Hcur. rewrite <- Hed, (Hcur Hev p 2 s Hp Hs). eexists. split; [done|]. by apply steady_intro.
    + apply (analyse_run n sl m k0 d2 k2 l2 st2 id p 2 s t); try done. rewrite L2, u32_small; lia.
  - destruct (count_current 1 0 0 0 0 1 0 n m k2 l st (mk_iow m d2 k2) Hc ltac:(by right)) as (st1 & E3 & Hc1 & _).
    rewrite (bind_run' _ _ _ _ _ E3). eexists. split; [done|]. by apply steady_intro.
Qed.

(** * Sessions *)
Inductive prop_op :=
| PropDescribe (id : Z) | PropInvalidate (id : Z) | PropPrewarm (ids : list Z)
| PropFlush | PropOptimize | PropReset | PropStatistics.
Definition forget {A} (prog : M piow A) : M piow unit := prog ;;; ret tt.
Definition perform_prop (o : prop_op) : M piow unit :=
  match o with
  | PropDescribe id => forget (getSurfaceDescriptor id true)
  | PropInvalidate id => forget (invalidatePropertyCache id)
  | PropPrewarm ids => forget (prewarmPropertyCache (Some ids))
  | PropFlush => forget flushPropertyCache
  | PropOptimize => forget optimizePropertyCache
  | PropReset => forget resetPropertyStatistics
  | PropStatistics => forget (getPropertyStatistics true)
  end.
Fixpoint prop_session (ops : list prop_op) : M piow unit :=
  match ops with [] => ret tt | o :: rest => perform_prop o ;;; prop_session rest end.
Definition prop_ids (o : prop_op) : list Z :=
  match o with PropDescribe id => [id] | PropPrewarm ids => ids | _ => [] end.
(** How many surfaces a session looks up. *)
Definition lookups (ops : list prop_op) : nat := length (ops ≫= prop_ids).

Lemma steady_less n n' sl m k0 w : (n' <= n)%nat -> steady n sl m k0 w -> steady n' sl m k0 w.
Proof.
  intros Hn (pr & d & k & -> & Hk & Hm & Hd & Hc). apply steady_intro; [done|by eapply minv_less|by eapply dinv_less|].
  by apply (current_same n n' m k k).
Qed.
Definition steadily {A} (n n' : nat) (sl : list Z) (m : manager) (k0 : iokern) (prog : M piow A) : Prop :=
  hoare (steady n sl m k0) prog (fun _ => steady n' sl m k0).
Lemma steadily_forget {A} n n' sl m k0 (prog : M piow A) : steadily n n' sl m k0 prog -> steadily n n' sl m k0 (forget prog).
Proof. intros H. eapply hoare_bind; [exact H|]. by intros a w Hw. Qed.
Lemma steadily_describe n sl m k0 id : id ∉ sl -> steadily (Datatypes.S n) n sl m k0 (getSurfaceDescriptor id true).
Proof. intros Hid w Hw. by destruct (getSurfaceDescriptor_run _ _ _ _ _ id Hid Hw) as (w' & -> & H). Qed.
Lemma steadily_upd n sl m k0 f :
  (forall k l, Forall (entry_current m k) l -> (length l <= PROPERTY_CACHE_SIZE)%nat ->
     Forall (entry_current m k) (f l) /\ (length (f l) <= PROPERTY_CACHE_SIZE)%nat) ->
  steadily n n sl m k0 (upd_cache f ;;; ret kIOReturnSuccess).
Proof.
  intros Hf w ([l st] & d & k & -> & Hk & Hm & Hd & Hc). apply (steady_intro n sl m k0 (mk_props (f l) st)); try done.
  destruct (Hf k l) as [H1 H2]; [apply Hc|apply Hc|]. by eapply current_cache.
Qed.
Lemma steadily_prewarm n sl m k0 ids : Forall (fun id => id ∉ sl) ids -> steadily (length ids + n) n sl m k0 (prewarm_props ids).
Proof.
  intros Hf. induction Hf as [|id ids Hid _ IH]; [by intros w Hw|]. cbn [prewarm_props length].
  assert (H : steadily (Datatypes.S (length ids + n)) n sl m k0
    ((if id =? 0 then ret tt else let! r := getSurfaceDescriptor id true in ret tt) ;;; prewarm_props ids)).
  { eapply hoare_bind; [|exact (fun _ => IH)]. destruct (id =? 0).
    - intros w Hw. apply (steady_less (Datatypes.S (length ids + n))); [lia|done].
    - apply (steadily_forget (Datatypes.S (length ids + n))), steadily_describe, Hid. }
  intros w Hw. unfold bind at 1, get_cache, gets. destruct (_ <? _)%nat; [exact (H w Hw)|].
  apply (steady_less (Datatypes.S (length ids + n))); [lia|done].
Qed.
Lemma steadily_op n sl m k0 o : Forall (fun id => id ∉ sl) (prop_ids o) ->
  steadily (length (prop_ids o) + n) n sl m k0 (perform_prop o).
Proof.
  intros Hf. destruct o as [id|id|ids| | | |]; cbn [perform_prop prop_ids] in *; apply steadily_forget; cbn [length Nat.add].
  - apply steadily_describe. by apply Forall_cons in Hf as [? _].
  - apply steadily_upd. intros k l H1 H2. destruct (index_of _ l); [|done]. rewrite length_alter. split; [|done].
    apply Forall_alter; [done|]. intros e [_ _]. by split.
  - unfold prewarmPropertyCache. destruct ids as [|id ids]; [by intros w Hw|].
    eapply hoare_bind; [by apply steadily_prewarm|]. by intros a w Hw.
  - apply steadily_upd. intros k l _ _. split; [constructor|cbn; lia].
  - intros w Hw. unfold optimizePropertyCache, bind at 1, get_cache, gets. destruct (_ =? _)%nat; [done|].
    refine (steadily_upd n sl m k0 (fun l => bubble_sort pe_access_count (length l - 1) l) _ w Hw).
    intros k l H1 H2. by rewrite bubble_sort_perm.
  - intros w ([l st] & d & k & -> & Hk & Hm & Hd & Hc). apply (steady_intro n sl m k0 (mk_props l no_stats)); try done.
    pose proof (cu_lookups _ _ _ _ Hc). destruct Hc as [A1 A2 A3]. constructor; cbn in *; [done|done|lia].
  - by intros w Hw.
Qed.
Lemma steadily_session ops n sl m k0 : Forall (fun id => id ∉ sl) (ops ≫= prop_ids) ->
  steadily (lookups ops + n) n sl m k0 (prop_session ops).
Proof.
  revert n. induction ops as [|o ops IH]; intros n Hf; [by intros w Hw|]. unfold lookups in *. cbn [mbind list_bind] in Hf |- *.
  apply Forall_app in Hf as [H1 H2]. rewrite length_app, <- Nat.add_assoc. cbn [prop_session].
  eapply hoare_bind; [by apply steadily_op|]. intros []. by apply IH.
Qed.

(** * The theorems *)
(** C15: the cache of descriptors is transparent. After any session of [surfaces_sound], through
    fewer than 2^27 lookups by descriptions, invalidations, warm-ups, flushes and sorts of an
    empty cache, as long as no surface is changed and none of the ids asked for was destroyed
    since the last flush of the manager's lookup cache (for those the code reads freed memory,
    [destroyed_id_dangles]), [getSurfaceDescriptor] answers what the analysis of the surface
    gives now (or that there is none), and neither tables, objects nor buffers change. *)
Theorem property_cache_transparent device ops (w : iow) props_ops id :
  clean_start w -> Z.of_nat (length ops) < 2 ^ 28 -> tame [] ops ->
  Z.of_nat (lookups props_ops) < 2 ^ 27 -> Forall (fun id => id ∉ stale_end [] ops) (id :: (props_ops ≫= prop_ids)) ->
  let '(ok, w1) := life device ops w in
  ok = true ->
  let w2 := (prop_session props_ops (mk_piow initial_props w1)).2 in
  let '(r, w3) := getSurfaceDescriptor id true w2 in
  r = described id (io_mgr w1) (io_kern w1)
  /\ io_mgr (pw_iow w3) = io_mgr w1 /\ same_memory (io_kern w1) (io_kern (pw_iow w3)) /\ kn_fault (io_kern (pw_iow w3)) = false.
Proof.
  intros Hw Hn Ht Hl Hf. apply Forall_cons in Hf as [Hid Hf].
  pose proof (life_good device ops w (lookups props_ops + 1) Hw ltac:(lia) Ht) as H.
  destruct (life device ops w) as [ok [m d k]]. intros Hok. destruct (H Hok) as [Hm Hd]. cbn in Hm, Hd. cbv zeta. cbn [io_mgr io_kern].
  assert (Hs : steady (lookups props_ops + 1) (stale_end [] ops) m k (mk_piow initial_props (mk_iow m d k))).
  { apply steady_intro; [apply on_clock_refl|done|done|]. constructor; cbn; [constructor|lia|lia]. }
  pose proof (steadily_session props_ops 1 _ _ _ Hf _ Hs) as H2. destruct (prop_session props_ops _) as [u w2]. cbn [snd] in *.
  destruct (getSurfaceDescriptor_run _ _ _ _ _ id Hid H2) as (w3 & -> & (pr & d3 & k3 & -> & Hk & Hm3 & _)). cbn.
  split; [done|]. split; [done|]. split; [by destruct Hk as (? & ? & ->)|apply Hm3].
Qed.
Lemma property_cache_transparent_witness :
  let '(ok, w1) := life true demo_ops demo_start in
  let w2 := (prop_session [PropDescribe 1; PropInvalidate 1; PropPrewarm [2; 9]; PropOptimize] (mk_piow initial_props w1)).2 in
  let '(r, w3) := getSurfaceDescriptor 2 true w2 in
  ok = true /\ r = described 2 (io_mgr w1) (io_kern w1) /\ r.1 = kIOReturnSuccess.
Proof.
  pose proof (property_cache_transparent true demo_ops demo_start [PropDescribe 1; PropInvalidate 1; PropPrewarm [2; 9]; PropOptimize] 2
    demo_clean ltac:(cbn; lia) demo_tame ltac:(cbn; lia) ltac:(cbn; repeat (constructor; [set_solver|]); constructor)) as H.
  assert (E : (life true demo_ops demo_start).1 = true) by (vm_compute; reflexivity).
  assert (E2 : (getSurfaceDescriptor 2 true (prop_session [PropDescribe 1; PropInvalidate 1; PropPrewarm [2; 9]; PropOptimize]
    (mk_piow initial_props (life true demo_ops demo_start).2)).2).1.1 = kIOReturnSuccess) by (vm_compute; reflexivity).
  destruct (life true demo_ops demo_start) as [ok w1]. cbn [fst snd] in E, E2. specialize (H E). cbv zeta in H |- *.
  destruct (getSurfaceDescriptor 2 true _) as [r w3]. split; [exact E|]. split; [apply H|exact E2].
Defined.

(** What the descriptor says of the memory. [getSurfaceDescriptor] takes the size from a
    descriptor whose planes are still zero: for the formats of several planes the size it
    reports is 0, whatever the surface holds; for the 32-bit ones it is the size of rows
    without padding, so smaller than the buffer when the caller chose a longer row. *)
Theorem analysed_alloc_size s :
  let d := analysed true s in
  (sd_pixel_format (is_descriptor s) ∈ [FORMAT_YUV420; FORMAT_NV12; FORMAT_P010] -> sd_alloc_size d = 0)
  /\ (sd_pixel_format (is_descriptor s) ∈ formats32 -> 0 < sd_width (is_descriptor s) <= 16384 -> 0 < sd_height (is_descriptor s) <= 16384 ->
      sd_alloc_size d = page_align (4 * sd_width (is_descriptor s) * sd_height (is_descriptor s))
      /\ sd_bytes_per_row d = 4 * sd_width (is_descriptor s)).
Proof.
  cbv zeta. split.
  - intros Hf. unfold analysed, chosen_format.
    apply elem_of_cons in Hf as [->|Hf]; [|apply elem_of_cons in Hf as [->|Hf]; [|apply list_elem_of_singleton in Hf as ->]]; reflexivity.
  - intros Hf Hw Hh. destruct (formats32_facts _ Hf) as (E1 & E2 & E3). unfold analysed, chosen_format.
    rewrite E3. change (is_success kIOReturnSuccess) with true.
    assert (Hnz : sd_pixel_format (is_descriptor s) <> 0) by (intros E; rewrite E in E1; done).
    destruct (Z.eqb_spec (sd_pixel_format (is_descriptor s)) 0); [done|]. cbv iota. rewrite E1, E2. change (1 <? 1) with false.
    cbn [sd_alloc_size sd_bytes_per_row]. destruct (Z.ltb_spec 0 (sd_width (is_descriptor s))); [|lia].
    destruct (Z.ltb_spec 0 (sd_height (is_descriptor s))); [|lia]. unfold calculateSurfaceSize.
    cbn [sd_pixel_format sd_bytes_per_row sd_height sd_width]. rewrite E1, E2. cbn [Z.eqb Pos.eqb].
    rewrite (u32_small (sd_width (is_descriptor s) * 4)) by lia.
    destruct (Z.ltb_spec 0 (sd_width (is_descriptor s) * 4)); [|lia]. rewrite u32_small by nia. split; [f_equal; ring|ring].
Qed.
Lemma analysed_alloc_size_witness :
  let s f := fresh_surface (demo_desc 640 480 f) 1 4096 2 5 [] in
  sd_alloc_size (analysed true (s FORMAT_NV12)) = 0 /\ sd_alloc_size (analysed true (s FORMAT_BGRA32)) = 1228800.
Proof.
  intros s. split; [apply (analysed_alloc_size (s FORMAT_NV12)); cbn; set_solver|].
  etrans; [apply (analysed_alloc_size (s FORMAT_BGRA32)); cbn; [set_solver|lia|lia]|]. reflexivity.
Defined.
(** A conversion leaves the cached descriptor as it was: the new format is not answered. *)
Example converted_descriptor_stale :
  let w0 := mk_piow initial_props (life true [OpCreate (demo_desc 4 2 FORMAT_BGRA32); OpCreate (demo_desc 4 2 FORMAT_BGRA32)] demo_start).2 in
  let '(r1, w1) := getSurfaceDescriptor 2 true w0 in
  let '(r2, w2) := on_iow (convertSurfaceFormat 1 2 FORMAT_RGBA32) w1 in
  let '(r3, w3) := getSurfaceDescriptor 2 true w2 in
  r2 = kIOReturnSuccess /\ r3 = r1 /\ sd_pixel_format <$> r3.2 = Some FORMAT_BGRA32
  /\ sd_pixel_format <$> (described 2 (io_mgr (pw_iow w3)) (io_kern (pw_iow w3))).2 = Some FORMAT_RGBA32.
Proof. vm_compute. by split_and!. Qed.
