(* ===== verification/IOSurfaceGpu.v ===== *)
(** The GPU and video side of [VMIOSurfaceManager] (FB/VMIOSurfaceManager.cpp): the
    records of bindings and textures it keeps of surfaces, and the video surfaces
    with their decoders. The arrays are made on first use; their entries are
    [OSData] copies of structs, owned by the array alone, so an array is a list of
    structs here. The structs [IOMalloc]ed to be copied count in [kn_heap], as in
    [IOSurfaces.v]; whether an allocation succeeds is the next of [kn_answers]. *)
From S2P Require Import Prelude IOSurfaces IOSurfaceOps IOSurfaceLife IOSurfaceSafe IOSurfaceSpec IOSurfaceUpkeep.
From Stdlib Require Import Sorted.

(** * Data *)
(** The [TextureBinding] of [bindSurfaceToTexture]: of type 0 for a texture, of
    type 1 for a buffer. *)
Record texture_binding := mk_binding {
  tb_surface_id : Z; tb_texture_id : Z; tb_binding_type : Z; tb_binding_time : Z; tb_active : bool
}.
(** [GPUTexture], [GPUResource] *)
Record gpu_texture := mk_texture {
  gt_texture_id : Z; gt_surface_id : Z; gt_width : Z; gt_height : Z; gt_pixel_format : Z;
  gt_creation_time : Z; gt_active : bool
}.
Record gpu_resource := mk_resource {
  gr_resource_id : Z; gr_surface_id : Z; gr_resource_type : Z; gr_width : Z; gr_height : Z; gr_pixel_format : Z;
  gr_creation_time : Z; gr_last_sync_time : Z; gr_active : bool; gr_coherent : bool
}.
(** [VideoSurface] without the frames, which are never counted, and
    [VideoDecoder] without what stays zero. *)
Record video_surface := mk_video {
  vs_surface_id : Z; vs_codec_type : Z; vs_color_space : Z; vs_decoder_id : Z; vs_creation_time : Z;
  vs_decoder_attached : bool; vs_active : bool
}.
Record video_decoder := mk_decoder {
  vd_decoder_id : Z; vd_surface_id : Z; vd_attachment_time : Z; vd_active : bool
}.
Definition SIZEOF_TEXTURE_BINDING : Z := 32.
Definition SIZEOF_GPU_TEXTURE : Z := 40.
Definition SIZEOF_VIDEO_SURFACE : Z := 56.
Definition SIZEOF_VIDEO_DECODER : Z := 40.

(** The members of the manager they are kept in, and the static of
    [createTextureFromSurface]. *)
Record gpu_state := mk_gpu {
  gs_resources : option (list gpu_resource);
  gs_textures : option (list gpu_texture);
  gs_bindings : option (list texture_binding);
  gs_videos : option (list video_surface);
  gs_decoders : option (list video_decoder);
  gs_syncs : Z;
  gs_updates : Z;
  gs_videos_created : Z;
  gs_attachments : Z;
  gs_supports_video : bool;
  gs_next_texture_id : Z
}.
Definition set_gs_resources (v : option (list gpu_resource)) (g : gpu_state) : gpu_state :=
  mk_gpu v (gs_textures g) (gs_bindings g) (gs_videos g) (gs_decoders g) (gs_syncs g) (gs_updates g) (gs_videos_created g) (gs_attachments g) (gs_supports_video g) (gs_next_texture_id g).
Definition set_gs_textures (v : option (list gpu_texture)) (g : gpu_state) : gpu_state :=
  mk_gpu (gs_resources g) v (gs_bindings g) (gs_videos g) (gs_decoders g) (gs_syncs g) (gs_updates g) (gs_videos_created g) (gs_attachments g) (gs_supports_video g) (gs_next_texture_id g).
Definition set_gs_bindings (v : option (list texture_binding)) (g : gpu_state) : gpu_state :=
  mk_gpu (gs_resources g) (gs_textures g) v (gs_videos g) (gs_decoders g) (gs_syncs g) (gs_updates g) (gs_videos_created g) (gs_attachments g) (gs_supports_video g) (gs_next_texture_id g).
Definition set_gs_videos (v : option (list video_surface)) (g : gpu_state) : gpu_state :=
  mk_gpu (gs_resources g) (gs_textures g) (gs_bindings g) v (gs_decoders g) (gs_syncs g) (gs_updates g) (gs_videos_created g) (gs_attachments g) (gs_supports_video g) (gs_next_texture_id g).
Definition set_gs_decoders (v : option (list video_decoder)) (g : gpu_state) : gpu_state :=
  mk_gpu (gs_resources g) (gs_textures g) (gs_bindings g) (gs_videos g) v (gs_syncs g) (gs_updates g) (gs_videos_created g) (gs_attachments g) (gs_supports_video g) (gs_next_texture_id g).
Definition set_gs_syncs (v : Z) (g : gpu_state) : gpu_state :=
  mk_gpu (gs_resources g) (gs_textures g) (gs_bindings g) (gs_videos g) (gs_decoders g) v (gs_updates g) (gs_videos_created g) (gs_attachments g) (gs_supports_video g) (gs_next_texture_id g).
Definition set_gs_updates (v : Z) (g : gpu_state) : gpu_state :=
  mk_gpu (gs_resources g) (gs_textures g) (gs_bindings g) (gs_videos g) (gs_decoders g) (gs_syncs g) v (gs_videos_created g) (gs_attachments g) (gs_supports_video g) (gs_next_texture_id g).
Definition set_gs_videos_created (v : Z) (g : gpu_state) : gpu_state :=
  mk_gpu (gs_resources g) (gs_textures g) (gs_bindings g) (gs_videos g) (gs_decoders g) (gs_syncs g) (gs_updates g) v (gs_attachments g) (gs_supports_video g) (gs_next_texture_id g).
Definition set_gs_attachments (v : Z) (g : gpu_state) : gpu_state :=
  mk_gpu (gs_resources g) (gs_textures g) (gs_bindings g) (gs_videos g) (gs_decoders g) (gs_syncs g) (gs_updates g) (gs_videos_created g) v (gs_supports_video g) (gs_next_texture_id g).
Definition set_gs_supports_video (v : bool) (g : gpu_state) : gpu_state :=
  mk_gpu (gs_resources g) (gs_textures g) (gs_bindings g) (gs_videos g) (gs_decoders g) (gs_syncs g) (gs_updates g) (gs_videos_created g) (gs_attachments g) v (gs_next_texture_id g).
Definition set_gs_next_texture_id (v : Z) (g : gpu_state) : gpu_state :=
  mk_gpu (gs_resources g) (gs_textures g) (gs_bindings g) (gs_videos g) (gs_decoders g) (gs_syncs g) (gs_updates g) (gs_videos_created g) (gs_attachments g) (gs_supports_video g) v.
Definition initial_gpu : gpu_state := mk_gpu None None None None None 0 0 0 0 false 1.
Record gworld := mk_gworld { gw_gpu : gpu_state; gw_iow : iow }.

Definition on_mgr {A} (prog : M iow A) : M gworld A :=
  fun w => let '(a, w') := prog (gw_iow w) in (a, mk_gworld (gw_gpu w) w').
Definition get_gpu {A} (f : gpu_state -> A) : M gworld A := gets (fun w => f (gw_gpu w)).
Definition upd_gpu (f : gpu_state -> gpu_state) : M gworld unit :=
  modify (fun w => mk_gworld (f (gw_gpu w)) (gw_iow w)).
Definition locked : M gworld unit := on_mgr lock.
(** [IOLockUnlock], then the status. *)
Definition leave {A} (r : A) : M gworld A := on_mgr unlock ;;; ret r.

(** ** An array made on first use *)
Section array.
Context {E : Type} (get_a : gpu_state -> option (list E)) (set_a : option (list E) -> gpu_state -> gpu_state).
Definition entries (g : gpu_state) : list E := default [] (get_a g).
Definition array_made : M gworld bool :=
  let! array := get_gpu get_a in
  if is_some array then ret true
  else
    let! ok := on_mgr ask in
    if ok then upd_gpu (set_a (Some [])) ;;; ret true else ret false.
(** [IOMalloc] of a struct of [size] bytes, filled in at the time [now] gives,
    [OSData::withBytes], [setObject], and whether the struct itself is freed. *)
Definition keep_entry (size : Z) (freed : bool) (entry : Z -> E) : M gworld bool :=
  let! memory := on_mgr (IOMalloc size) in
  if negb memory then ret false
  else
    let! t := on_mgr now in
    let! data := on_mgr ask in
    if negb data then on_mgr (IOFree size) ;;; ret false
    else
      upd_gpu (fun g => set_a (Some (entries g ++ [entry t])) g) ;;;
      (if freed then on_mgr (IOFree size) else ret tt) ;;;
      ret true.
End array.

(** The surface, looked up with the lock held, which a failure gives back. *)
Definition surface_of (surface_id : Z) : M gworld (IOReturn + Z * io_surface) :=
  on_mgr (with_surface inl surface_id (fun p s => ret (inr (p, s)))).
Definition hardware : M gworld bool :=
  on_mgr (get_mgr (fun m => sm_supports_hardware m && sm_gpu_device m)).

(** * Bindings and textures *)
(** [bindSurfaceToTexture] and [bindSurfaceToBuffer], which differ in the type. *)
Definition bind_surface (binding_type surface_id target_id : Z) : M gworld IOReturn :=
  if (surface_id =? 0) || (target_id =? 0) then ret kIOReturnBadArgument
  else
    let! hw := hardware in
    if negb hw then ret kIOReturnUnsupported
    else
      locked ;;;
      let! surface := surface_of surface_id in
      match surface with
      | inl r => ret r
      | inr (p, s) =>
          let! array := array_made gs_bindings set_gs_bindings in
          if negb array then leave kIOReturnNoMemory
          else
            let! kept := keep_entry gs_bindings set_gs_bindings SIZEOF_TEXTURE_BINDING false
                           (fun t => mk_binding surface_id target_id binding_type t true) in
            if negb kept then leave kIOReturnNoMemory
            else on_mgr (touch p) ;;; leave kIOReturnSuccess
      end.
Definition bindSurfaceToTexture : Z -> Z -> M gworld IOReturn := bind_surface 0.
Definition bindSurfaceToBuffer : Z -> Z -> M gworld IOReturn := bind_surface 1.

(** The status, and the id if it has been written. *)
Definition createTextureFromSurface (surface_id : Z) (texture_id : bool) : M gworld (IOReturn * option Z) :=
  if (surface_id =? 0) || negb texture_id then ret (kIOReturnBadArgument, None)
  else
    let! hw := hardware in
    if negb hw then ret (kIOReturnUnsupported, None)
    else
      locked ;;;
      let! surface := surface_of surface_id in
      match surface with
      | inl r => ret (r, None)
      | inr (p, s) =>
          if negb (is_some (is_memory s)) then leave (kIOReturnNotReady, None)
          else
            let! id := get_gpu gs_next_texture_id in
            upd_gpu (set_gs_next_texture_id (u32 (id + 1))) ;;;
            let! array := array_made gs_textures set_gs_textures in
            if negb array then leave (kIOReturnNoMemory, Some id)
            else
              let! kept := keep_entry gs_textures set_gs_textures SIZEOF_GPU_TEXTURE false
                (fun t => mk_texture id surface_id (is_width s) (is_height s) (sd_pixel_format (is_descriptor s)) t true) in
              if negb kept then leave (kIOReturnNoMemory, Some id)
              else on_mgr (touch p) ;;; leave (kIOReturnSuccess, Some id)
      end.

Definition texture_named (texture_id : Z) (t : gpu_texture) : bool := gt_active t && (gt_texture_id t =? texture_id).
Definition texture_matches (s : io_surface) (t : gpu_texture) : bool :=
  (gt_width t =? is_width s) && (gt_height t =? is_height s)
  && (gt_pixel_format t =? sd_pixel_format (is_descriptor s)).
Definition find_texture (texture_id : Z) (l : list gpu_texture) : option gpu_texture :=
  List.find (texture_named texture_id) l.
(** The transfer itself is not there. *)
Definition updateSurfaceFromTexture (surface_id texture_id : Z) : M gworld IOReturn :=
  if (surface_id =? 0) || (texture_id =? 0) then ret kIOReturnBadArgument
  else
    let! hw := hardware in
    if negb hw then ret kIOReturnUnsupported
    else
      locked ;;;
      let! surface := surface_of surface_id in
      match surface with
      | inl r => ret r
      | inr (p, s) =>
          if negb (is_some (is_memory s) && is_some (is_base_address s)) then leave kIOReturnNotReady
          else
            let! textures := get_gpu (entries gs_textures) in
            match find_texture texture_id textures with
            | None => leave kIOReturnNotFound
            | Some t =>
                if negb (texture_matches s t) then leave kIOReturnBadArgument
                else
                  on_mgr (touch p) ;;;
                  upd_gpu (fun g => set_gs_updates (u64 (gs_updates g + 1)) g) ;;;
                  leave kIOReturnSuccess
            end
      end.

(** Every active resource of the surface, each with the time of its turn. *)
Definition resource_of (surface_id : Z) (r : gpu_resource) : bool := gr_active r && (gr_surface_id r =? surface_id).
Definition synced_at (t : Z) (r : gpu_resource) : gpu_resource :=
  mk_resource (gr_resource_id r) (gr_surface_id r) (gr_resource_type r) (gr_width r) (gr_height r) (gr_pixel_format r)
    (gr_creation_time r) t (gr_active r) (gr_coherent r).
Fixpoint sync_resources (surface_id : Z) (l : list gpu_resource) : M gworld (list gpu_resource) :=
  match l with
  | [] => ret []
  | r :: rest =>
      let! r' := (if resource_of surface_id r then let! t := on_mgr now in ret (synced_at t r) else ret r) in
      let! rest' := sync_resources surface_id rest in
      ret (r' :: rest')
  end.
Definition syncGPUResource (surface_id : Z) : M gworld IOReturn :=
  if surface_id =? 0 then ret kIOReturnBadArgument
  else
    let! hw := hardware in
    if negb hw then ret kIOReturnUnsupported
    else
      locked ;;;
      let! resources := get_gpu gs_resources in
      let l := default [] resources in
      let! l' := sync_resources surface_id l in
      upd_gpu (set_gs_resources (if is_some resources then Some l' else None)) ;;;
      if negb (existsb (resource_of surface_id) l) then leave kIOReturnNotFound
      else upd_gpu (fun g => set_gs_syncs (u64 (gs_syncs g + 1)) g) ;;; leave kIOReturnSuccess.

(** * Video surfaces *)
Definition validateVideoPixelFormat (supports_yuv : bool) (format codec_type : Z) : IOReturn :=
  if bool_decide (format ∈ [0x79757634; 0x79757632; 0x79757620; FORMAT_BGRA32; FORMAT_RGBA32]) then kIOReturnSuccess
  else if bool_decide (format ∈ [0x61766331; 0x48323634]) then
    if Z.land codec_type 0xFFFF =? 0x264 then kIOReturnSuccess else kIOReturnBadArgument
  else if bool_decide (format ∈ [0x68766331; 0x48323635]) then
    if Z.land codec_type 0xFFFF =? 0x265 then kIOReturnSuccess else kIOReturnBadArgument
  else validatePixelFormat supports_yuv format.

Definition USAGE_VIDEO_DECODER : Z := 0x20.
Definition USAGE_VIDEO_ENCODER : Z := 0x40.
Definition video_usage (codec_type : Z) (d : surface_desc) : surface_desc :=
  let usage := Z.lor (sd_usage_flags d) USAGE_VIDEO_DECODER in
  let usage := if negb (Z.land codec_type 0x80000000 =? 0) then Z.lor usage USAGE_VIDEO_ENCODER else usage in
  mk_desc (sd_width d) (sd_height d) (sd_pixel_format d) (sd_bytes_per_row d) (sd_bytes_per_element d)
    (sd_element_width d) (sd_element_height d) (sd_plane_count d) (sd_planes d) (sd_alloc_size d) usage
    (sd_cache_mode d) (sd_depth d) (sd_format d) (sd_usage d) (sd_flags d).
(** [createSurface] and [destroySurface] take the lock that is held here. *)
Definition createVideoSurface (descriptor : option surface_desc) (codec_type : Z) (surface_id : bool)
  : M gworld (IOReturn * option Z) :=
  match descriptor with
  | None => ret (kIOReturnBadArgument, None)
  | Some d =>
      if negb surface_id then ret (kIOReturnBadArgument, None)
      else
        let! video := get_gpu gs_supports_video in
        if negb video then ret (kIOReturnUnsupported, None)
        else
          locked ;;;
          let! yuv := on_mgr (get_mgr sm_supports_yuv) in
          let format_result := validateVideoPixelFormat yuv (sd_pixel_format d) codec_type in
          if negb (is_success format_result) then leave (format_result, None)
          else
            let! created := on_mgr (createSurface (Some (video_usage codec_type d)) true) in
            let '(result, written) := created in
            if negb (is_success result) then leave (result, written)
            else
              let id := default 0 written in
              let undo := on_mgr (destroySurface id) ;;; leave (kIOReturnNoMemory, written) in
              let! array := array_made gs_videos set_gs_videos in
              if negb array then undo
              else
                let! kept := keep_entry gs_videos set_gs_videos SIZEOF_VIDEO_SURFACE true
                               (fun t => mk_video id codec_type 1 0 t false true) in
                if negb kept then undo
                else
                  upd_gpu (fun g => set_gs_videos_created (u64 (gs_videos_created g + 1)) g) ;;;
                  leave (kIOReturnSuccess, written)
  end.

(** The first active video surface of an id, for the methods below. *)
Definition video_named (surface_id : Z) (v : video_surface) : bool := vs_active v && (vs_surface_id v =? surface_id).
Definition find_video (surface_id : Z) : M gworld (option (nat * video_surface)) :=
  get_gpu (fun g => let l := entries gs_videos g in
    match index_of (video_named surface_id) l with
    | Some i => match l !! i with Some v => Some (i, v) | None => None end
    | None => None
    end).
Definition put_video (i : nat) (v : video_surface) : M gworld unit :=
  upd_gpu (fun g => set_gs_videos (Some (<[i := v]> (entries gs_videos g))) g).
Definition set_color_space (c : Z) (v : video_surface) : video_surface :=
  mk_video (vs_surface_id v) (vs_codec_type v) c (vs_decoder_id v) (vs_creation_time v) (vs_decoder_attached v) (vs_active v).
Definition set_decoder (id : Z) (attached : bool) (v : video_surface) : video_surface :=
  mk_video (vs_surface_id v) (vs_codec_type v) (vs_color_space v) id (vs_creation_time v) attached (vs_active v).
Definition setVideoSurfaceColorSpace (surface_id color_space : Z) : M gworld IOReturn :=
  if surface_id =? 0 then ret kIOReturnBadArgument
  else
    locked ;;;
    let! found := find_video surface_id in
    match found with
    | None => leave kIOReturnNotFound
    | Some (i, v) => put_video i (set_color_space color_space v) ;;; leave kIOReturnSuccess
    end.
Definition getVideoSurfaceColorSpace (surface_id : Z) (color_space : bool) : M gworld (IOReturn * option Z) :=
  if (surface_id =? 0) || negb color_space then ret (kIOReturnBadArgument, None)
  else
    locked ;;;
    let! found := find_video surface_id in
    match found with
    | None => leave (kIOReturnNotFound, None)
    | Some (i, v) => leave (kIOReturnSuccess, Some (vs_color_space v))
    end.
Definition attachVideoDecoder (surface_id decoder_id : Z) : M gworld IOReturn :=
  if (surface_id =? 0) || (decoder_id =? 0) then ret kIOReturnBadArgument
  else
    locked ;;;
    let! found := find_video surface_id in
    match found with
    | None => leave kIOReturnNotFound
    | Some (i, v) =>
        if vs_decoder_attached v && negb (vs_decoder_id v =? decoder_id) then leave kIOReturnBusy
        else
          put_video i (set_decoder decoder_id true v) ;;;
          let! array := array_made gs_decoders set_gs_decoders in
          if negb array then leave kIOReturnNoMemory
          else
            let! kept := keep_entry gs_decoders set_gs_decoders SIZEOF_VIDEO_DECODER true
                           (fun t => mk_decoder decoder_id surface_id t true) in
            if negb kept then leave kIOReturnNoMemory
            else
              upd_gpu (fun g => set_gs_attachments (u64 (gs_attachments g + 1)) g) ;;;
              leave kIOReturnSuccess
    end.
(** The association is looked for from the last entry down. *)
Definition decodes (decoder_id surface_id : Z) (d : video_decoder) : bool :=
  vd_active d && (vd_decoder_id d =? decoder_id) && (vd_surface_id d =? surface_id).
Fixpoint remove_first {E} (f : E -> bool) (l : list E) : list E :=
  match l with
  | [] => []
  | x :: rest => if f x then rest else x :: remove_first f rest
  end.
Definition remove_last {E} (f : E -> bool) (l : list E) : list E := reverse (remove_first f (reverse l)).
Definition detachVideoDecoder (surface_id : Z) : M gworld IOReturn :=
  if surface_id =? 0 then ret kIOReturnBadArgument
  else
    locked ;;;
    let! found := find_video surface_id in
    match found with
    | None => leave kIOReturnNotFound
    | Some (i, v) =>
        if negb (vs_decoder_attached v) then leave kIOReturnNotOpen
        else
          put_video i (set_decoder 0 false v) ;;;
          upd_gpu (fun g => if is_some (gs_decoders g) && negb (vs_decoder_id v =? 0)
                            then set_gs_decoders (remove_last (decodes (vs_decoder_id v) surface_id) <$> gs_decoders g) g
                            else g) ;;;
          leave kIOReturnSuccess
    end.
(** [setupIOSurfaceSupport], with its flag for video. *)
Definition setup_video : M gworld IOReturn :=
  upd_gpu (set_gs_supports_video true) ;;; on_mgr setupIOSurfaceSupport.

(** * Runs *)
(** Every method but those on video surfaces leaves the tables as they are, and
    of the structs touches only the times. *)
Definition shape_at (k : iokern) (p : Z) : option (Z * Z * Z) :=
  match kn_objects k !! p with
  | Some (_, SurfaceData s) => Some (is_width s, is_height s, sd_pixel_format (is_descriptor s))
  | _ => None
  end.
Definition same_shapes (k k' : iokern) : Prop := forall p, shape_at k' p = shape_at k p.
(** The records made from [g] to [g'], and the heap they keep. *)
Record recorded (n : Z) (g g' : gpu_state) (heap : Z) : Prop := {
  rc_textures : exists new, entries gs_textures g' = entries gs_textures g ++ new
    /\ StronglySorted Z.lt (gt_texture_id <$> new)
    /\ Forall (fun t => gt_active t = true /\ gs_next_texture_id g <= gt_texture_id t < gs_next_texture_id g') new;
  rc_bindings : exists new, entries gs_bindings g' = entries gs_bindings g ++ new;
  rc_heap : heap = SIZEOF_TEXTURE_BINDING * (Z.of_nat (length (entries gs_bindings g')) - Z.of_nat (length (entries gs_bindings g)))
                 + SIZEOF_GPU_TEXTURE * (Z.of_nat (length (entries gs_textures g')) - Z.of_nat (length (entries gs_textures g)));
  rc_next : gs_next_texture_id g <= gs_next_texture_id g' <= gs_next_texture_id g + n;
  rc_other : gs_resources g' = gs_resources g /\ gs_videos g' = gs_videos g /\ gs_decoders g' = gs_decoders g
             /\ gs_supports_video g' = gs_supports_video g
}.
Lemma recorded_refl g : recorded 0 g g 0.
Proof. constructor; [exists []; by rewrite app_nil_r; split_and!; [|constructor|]|exists []; by rewrite app_nil_r|lia|lia|done]. Qed.
Lemma sorted_app l1 l2 a : StronglySorted Z.lt l1 -> StronglySorted Z.lt l2 -> Forall (fun x => x < a) l1 -> Forall (fun x => a <= x) l2 ->
  StronglySorted Z.lt (l1 ++ l2).
Proof.
  intros H1 H2 Hl Hr. induction H1 as [|x l H1 IH Hx]; cbn; [done|]. apply Forall_cons in Hl as [Ha Hl]. constructor; [by apply IH|].
  apply Forall_app. split; [done|]. eapply Forall_impl; [exact Hr|]. intros y. cbn. lia.
Qed.
Lemma recorded_trans n1 n2 g1 g2 g3 h1 h2 : recorded n1 g1 g2 h1 -> recorded n2 g2 g3 h2 -> recorded (n1 + n2) g1 g3 (h1 + h2).
Proof.
  intros [(t1 & T1 & S1 & F1) (b1 & B1) H1 N1 O1] [(t2 & T2 & S2 & F2) (b2 & B2) H2 N2 O2]. constructor.
  - exists (t1 ++ t2). rewrite T2, T1, app_assoc. split; [done|]. split.
    + rewrite fmap_app. apply (sorted_app _ _ (gs_next_texture_id g2)); [done|done| |]; apply Forall_fmap.
      * eapply Forall_impl; [exact F1|]. intros t. cbn. lia.
      * eapply Forall_impl; [exact F2|]. intros t. cbn. lia.
    + apply Forall_app. split; [eapply Forall_impl; [exact F1|]|eapply Forall_impl; [exact F2|]]; intros t; cbn; intros [? ?]; (split; [done|lia]).
  - exists (b1 ++ b2). by rewrite B2, B1, app_assoc.
  - lia.
  - lia.
  - destruct O1 as (-> & -> & -> & ->) in O2. done.
Qed.
Lemma recorded_more n n' g g' h : n <= n' -> recorded n g g' h -> recorded n' g g' h.
Proof. intros Hn []. constructor; [done|done|done|lia|done]. Qed.

Lemma on_mgr_run {A} (prog : M iow A) g w a w' : prog w = (a, w') -> on_mgr prog (mk_gworld g w) = (a, mk_gworld g w').
Proof. intros E. unfold on_mgr. cbn. by rewrite E. Qed.
Lemma bind_gpu {A B} (f : M gworld A) (h : A -> M gworld B) w a w' : f w = (a, w') -> bind f h w = h a w'.
Proof. intros E. unfold bind. by rewrite E. Qed.

Section array_runs.
Context {E : Type} (get_a : gpu_state -> option (list E)) (set_a : option (list E) -> gpu_state -> gpu_state).
Context (set_get : forall g, set_a (get_a g) g = g).
Lemma array_made_run g m d k : exists b v k',
  array_made get_a set_a (mk_gworld g (mk_iow m d k)) = (b, mk_gworld (set_a v g) (mk_iow m d k'))
  /\ on_side k k' /\ kn_heap k' = kn_heap k /\ default [] v = entries get_a g.
Proof using set_get.
  unfold array_made, bind at 1, get_gpu, gets, entries. cbn [gw_gpu]. destruct (get_a g) as [l|] eqn:Hg; cbn [is_some].
  - exists true, (get_a g), k. rewrite set_get, Hg. split; [done|]. split; [apply on_side_refl|done].
  - destruct (ask_run m d k) as (b & k' & Ea & Hk & Hh). rewrite (bind_gpu _ _ _ _ _ (on_mgr_run _ _ _ _ _ Ea)).
    destruct b; [by exists true, (Some []), k'|]. exists false, (get_a g), k'. by rewrite set_get, Hg.
Qed.
Lemma keep_entry_run size freed entry g m d k : exists b v k',
  keep_entry get_a set_a size freed entry (mk_gworld g (mk_iow m d k)) = (b, mk_gworld (set_a v g) (mk_iow m d k'))
  /\ on_side k k'
  /\ if b then kn_heap k' = kn_heap k + (if freed then 0 else size) /\ exists t, default [] v = entries get_a g ++ [entry t]
     else kn_heap k' = kn_heap k /\ default [] v = entries get_a g.
Proof using set_get.
  unfold keep_entry. destruct (IOMalloc_run m d size k) as (b1 & k1 & E1 & Hk1 & Hh1).
  rewrite (bind_gpu _ _ _ _ _ (on_mgr_run _ _ _ _ _ E1)). destruct b1; cbn [negb].
  2: { exists false, (get_a g), k1. rewrite set_get. split; [done|]. split; [done|]. split; [lia|done]. }
  destruct (now_run m d k1) as (t & k2 & E2 & Hk2). rewrite (bind_gpu _ _ _ _ _ (on_mgr_run _ _ _ _ _ E2)).
  destruct (ask_run m d k2) as (b3 & k3 & E3 & Hk3 & Hh3). rewrite (bind_gpu _ _ _ _ _ (on_mgr_run _ _ _ _ _ E3)).
  assert (Hh2 : kn_heap k2 = kn_heap k1) by (by destruct Hk2 as (? & ? & ->)). apply on_clock_side in Hk2.
  assert (Hk : on_side k k3) by (by eapply on_side_trans, on_side_trans).
  destruct b3; cbn [negb].
  - exists true, (Some (entries get_a g ++ [entry t])). destruct freed.
    + eexists. split; [done|]. split; [exact Hk|]. cbn. split; [lia|by exists t].
    + exists k3. split; [done|]. split; [done|]. split; [lia|by exists t].
  - exists false, (get_a g). eexists. rewrite set_get. split; [done|]. split; [exact Hk|]. cbn. split; [lia|done].
Qed.
End array_runs.

Lemma minv_struct l n m k p rc s : minv l n m k -> kn_objects k !! p = Some (rc, SurfaceData s) -> exists id, surf_ok k id s.
Proof.
  intros Hm Ho. destruct (proj1 (mi_map _ _ _ _ Hm p) (mi_live _ _ _ _ Hm _ _ _ Ho)) as [id Hid].
  destruct (mi_obj _ _ _ _ Hm _ _ Hid) as (s' & Hs & Hok). exists id. congruence.
Qed.
Section runs.
Context (sl : list Z) (m0 : manager) (k0 : iokern) (g0 : gpu_state).
Context (Hfree : sm_surface_lock m0 = Unlocked).
Abbreviation mL := (set_sm_surface_lock Locked m0).

(** With the lock held, after [g0] and [k0], and [n] operations to come. *)
Record inside (n : nat) (g : gpu_state) (d : discovery) (k : iokern) : Prop := {
  in_minv : minv Locked n mL k;
  in_dinv : dinv n sl mL k d;
  in_shapes : same_shapes k0 k;
  in_records : recorded 1 g0 g (kn_heap k - kn_heap k0)
}.
(** A program ends with the lock free, and a result and records in [Q]. *)
Definition ends {A} (n : nat) (Q : A -> gpu_state -> Prop) (prog : M gworld A) (w : gworld) : Prop :=
  exists a g d k, prog w = (a, mk_gworld g (mk_iow m0 d k)) /\ minv Unlocked n m0 k /\ dinv n sl m0 k d
    /\ same_shapes k0 k /\ recorded 1 g0 g (kn_heap k - kn_heap k0) /\ Q a g.

Lemma ends_ret {A} n (Q : A -> gpu_state -> Prop) r d : minv Unlocked n m0 k0 -> dinv n sl m0 k0 d -> Q r g0 ->
  ends n Q (ret r) (mk_gworld g0 (mk_iow m0 d k0)).
Proof using Type.
  intros Hm Hd HQ. exists r, g0, d, k0. split_and!; try done. rewrite Z.sub_diag. apply (recorded_more 0); [lia|]. apply recorded_refl.
Qed.
Lemma relock m : sm_surface_lock m = Unlocked -> set_sm_surface_lock Unlocked (set_sm_surface_lock Locked m) = m.
Proof using Type. by destruct m; cbn; intros ->. Qed.
Lemma ends_leave {A} n n' (Q : A -> gpu_state -> Prop) r g d k : (n <= n')%nat -> inside n' g d k -> Q r g ->
  ends n Q (leave r) (mk_gworld g (mk_iow mL d k)).
Proof using Hfree.
  intros Hn [Hm Hd Hs Hr] HQ. exists r, g, d, k. split.
  { unfold leave. rewrite (bind_gpu _ _ _ _ _ (on_mgr_run _ _ _ _ _ (unlock_run mL d k eq_refl))). by rewrite relock. }
  split_and!; try done.
  - rewrite <- (relock m0 Hfree). eapply minv_set_lock, minv_less; [|done]. done.
  - apply (dinv_less n'); [done|]. by apply (dinv_same _ _ mL _ k k).
Qed.
Lemma ends_touch {A} n n' (Q : A -> gpu_state -> Prop) (K : M gworld A) g d k p s :
  inside (S n') g d k -> kn_objects k !! p = Some (2, SurfaceData s) ->
  (forall k', inside n' g d k' -> ends n Q K (mk_gworld g (mk_iow mL d k'))) ->
  ends n Q (on_mgr (touch p) ;;; K) (mk_gworld g (mk_iow mL d k)).
Proof using Type.
  intros [Hm Hd Hs Hr] Ho HK. destruct (touch_run mL d p 2 s k Ho) as (t & k' & E & Hk).
  unfold ends. rewrite (bind_gpu _ _ _ _ _ (on_mgr_run _ _ _ _ _ E)). apply HK.
  destruct (minv_struct _ _ _ _ _ _ _ Hm Ho) as [id Hok].
  apply (minv_clock _ _ _ _ _ Hk) in Hm. apply (dinv_clock _ _ _ _ _ _ Hk) in Hd.
  destruct Hk as (c & ts & ->). constructor; cbn.
  - apply (minv_put _ _ _ _ _ s); [done|done|]. destruct (so_lock _ _ _ Hok). unfold kept_surface. cbn. split_and!; first [done|lia].
  - apply dinv_put. by eapply dinv_less; [apply Nat.le_succ_diag_r|].
  - intros q. rewrite <- Hs. unfold shape_at. cbn. destruct (decide (q = p)) as [->|Hne].
    + by rewrite lookup_alter_eq, Ho.
    + by rewrite lookup_alter_ne.
  - done.
Qed.
(** The opening of the methods on a surface. *)
Lemma ends_open {A} n n' (Q : A -> gpu_state -> Prop) (fr : IOReturn -> A) (G : Z -> io_surface -> M gworld A) d id :
  (n <= n')%nat -> minv Unlocked (S n') m0 k0 -> dinv (S n') sl m0 k0 d -> id ∉ sl ->
  (sm_surface_map m0 !! id = None -> Q (fr kIOReturnNotFound) g0) ->
  (forall p s d' k', sm_surface_map m0 !! id = Some p -> kn_objects k' !! p = Some (2, SurfaceData s) -> surf_ok k' id s ->
     inside n' g0 d' k' -> ends n Q (G p s) (mk_gworld g0 (mk_iow mL d' k'))) ->
  ends n Q (locked ;;; let! surface := surface_of id in match surface with inl r => ret (fr r) | inr (p, s) => G p s end)
    (mk_gworld g0 (mk_iow m0 d k0)).
Proof using Hfree.
  intros Hn Hm Hd Hid H0 H1. unfold ends, locked.
  rewrite (bind_gpu _ _ _ _ _ (on_mgr_run _ _ _ _ _ (lock_run m0 d k0 Hfree))).
  apply (minv_set_lock _ Locked) in Hm. assert (HdL : dinv (S n') sl mL k0 d) by by apply (dinv_same _ _ m0 _ k0 k0).
  destruct (with_surface_run _ _ _ _ _ _ _ Hm HdL Hid (inl (B := Z * io_surface)) (fun p s => ret (inr (p, s)))) as (d' & k' & Hk & Hm' & Hd' & Hr).
  change (sm_surface_map mL) with (sm_surface_map m0) in Hr.
  assert (Hsh : same_shapes k0 k') by (destruct Hk as (c & t & ->); done).
  assert (Hin : inside n' g0 d' k').
  { constructor; [done|done|done|]. destruct Hk as (c & t & ->). cbn. rewrite Z.sub_diag. apply (recorded_more 0); [lia|]. apply recorded_refl. }
  unfold surface_of. destruct (sm_surface_map m0 !! id) as [p|] eqn:Hp.
  - destruct Hr as (s & Ho & Hok & E). rewrite (bind_gpu _ _ _ _ _ (on_mgr_run _ _ _ _ _ E)). by apply (H1 p s).
  - rewrite (bind_run _ _ _ _ _ (unlock_run mL d' k' eq_refl)) in Hr. unfold ret in Hr at 2. rewrite (bind_gpu _ _ _ _ _ (on_mgr_run _ _ _ _ _ Hr)), relock by done.
    destruct (ends_leave n n' Q (fr kIOReturnNotFound) g0 d' k' Hn Hin (H0 eq_refl)) as (a & g & d2 & k2 & E & H).
    unfold leave in E. rewrite (bind_gpu _ _ _ _ _ (on_mgr_run _ _ _ _ _ (unlock_run mL d' k' eq_refl))), relock in E by done.
    by exists a, g, d2, k2.
Qed.
Lemma inside_side n g g' d k k' : inside n g d k -> on_side k k' -> recorded 1 g0 g' (kn_heap k' - kn_heap k0) -> inside n g' d k'.
Proof using Type.
  intros [Hm Hd Hs Hr] Hk Hr'. constructor; [by eapply minv_side|by eapply dinv_side| |done].
  intros p. rewrite <- Hs. unfold shape_at. by destruct Hk as [-> _].
Qed.
Lemma ends_bind {A B} n (Q : B -> gpu_state -> Prop) (f : M gworld A) (h : A -> M gworld B) w a w' :
  f w = (a, w') -> ends n Q (h a) w' -> ends n Q (bind f h) w.
Proof using Type. intros E H. unfold ends. by rewrite (bind_gpu _ _ _ _ _ E). Qed.

(** ** The methods *)
Lemma recorded_bind v new h : default [] v = entries gs_bindings g0 ++ new -> h = SIZEOF_TEXTURE_BINDING * Z.of_nat (length new) ->
  recorded 1 g0 (set_gs_bindings v g0) h.
Proof using Type.
  intros Hv ->. set (g := set_gs_bindings v g0).
  assert (E1 : entries gs_bindings g = entries gs_bindings g0 ++ new) by done.
  assert (E2 : entries gs_textures g = entries gs_textures g0) by done. constructor.
  - exists []. rewrite app_nil_r. split; [done|]. split; constructor.
  - by exists new.
  - rewrite E1, E2, length_app. lia.
  - cbn. lia.
  - done.
Qed.
Lemma recorded_texture v new h : 0 <= gs_next_texture_id g0 -> gs_next_texture_id g0 + 1 < 2 ^ 32 ->
  default [] v = entries gs_textures g0 ++ new -> h = SIZEOF_GPU_TEXTURE * Z.of_nat (length new) ->
  new = [] \/ (exists x, new = [x] /\ gt_active x = true /\ gt_texture_id x = gs_next_texture_id g0) ->
  recorded 1 g0 (set_gs_textures v (set_gs_next_texture_id (u32 (gs_next_texture_id g0 + 1)) g0)) h.
Proof using Type.
  intros H0 H1 Hv -> Hnew. rewrite u32_small by lia. set (g := set_gs_textures v _).
  assert (E1 : entries gs_bindings g = entries gs_bindings g0) by done.
  assert (E2 : entries gs_textures g = entries gs_textures g0 ++ new) by done.
  assert (E3 : gs_next_texture_id g = gs_next_texture_id g0 + 1) by done. constructor.
  - exists new. split; [done|]. destruct Hnew as [->|(x & -> & Ha & Hi)].
    + split; constructor.
    + split; [constructor; constructor|]. constructor; [|constructor]. split; [done|]. lia.
  - exists []. by rewrite app_nil_r.
  - rewrite E1, E2, length_app. lia.
  - lia.
  - done.
Qed.
(** An array made, an entry kept: what has been recorded by then. *)
Lemma bind_ends bt n d id target : minv Unlocked (S (S n)) m0 k0 -> dinv (S (S n)) sl m0 k0 d -> id ∉ sl ->
  ends n (fun r g => r = kIOReturnSuccess ->
            exists t, entries gs_bindings g = entries gs_bindings g0 ++ [mk_binding id target bt t true])
    (bind_surface bt id target) (mk_gworld g0 (mk_iow m0 d k0)).
Proof using Hfree.
  intros Hm Hd Hid. unfold bind_surface.
  assert (Hm' : minv Unlocked n m0 k0) by (eapply minv_less; [|exact Hm]; lia).
  assert (Hd' : dinv n sl m0 k0 d) by (eapply dinv_less; [|exact Hd]; lia).
  destruct (_ || _); [by apply ends_ret|].
  eapply ends_bind; [reflexivity|]. destruct (negb _); [by apply ends_ret|].
  apply (ends_open n (S n) _ status); try done; [lia|]. intros p s d1 k1 Hp Ho Hok Hin.
  destruct (array_made_run gs_bindings set_gs_bindings ltac:(by intros []) g0 mL d1 k1) as (b & v & k2 & E & Hk & Hh & Hv).
  eapply ends_bind; [exact E|]. assert (Hr : recorded 1 g0 (set_gs_bindings v g0) (kn_heap k2 - kn_heap k0)).
  { rewrite Hh. pose proof (rc_heap _ _ _ _ (in_records _ _ _ _ Hin)). apply (recorded_bind _ []); [by rewrite app_nil_r|]. cbn. lia. }
  assert (Hin2 : inside (S n) (set_gs_bindings v g0) d1 k2) by by eapply inside_side.
  destruct b; cbn [negb]; [|by apply (ends_leave n (S n)); [lia| |]].
  destruct (keep_entry_run gs_bindings set_gs_bindings ltac:(by intros []) SIZEOF_TEXTURE_BINDING false
    (fun t => mk_binding id target bt t true) (set_gs_bindings v g0) mL d1 k2) as (b & v' & k3 & E' & Hk' & Hb).
  eapply ends_bind; [exact E'|]. change (set_gs_bindings v' (set_gs_bindings v g0)) with (set_gs_bindings v' g0).
  unfold entries in Hb. cbn in Hb. pose proof (rc_heap _ _ _ _ (in_records _ _ _ _ Hin)).
  destruct b; cbn [negb].
  - destruct Hb as (Hh' & t & Hv'). rewrite Hv in Hv'.
    assert (Hin3 : inside (S n) (set_gs_bindings v' g0) d1 k3).
    { eapply inside_side; [done|done|]. eapply recorded_bind; [exact Hv'|]. cbn. lia. }
    apply (ends_touch n n _ _ _ _ _ p s); [done|by destruct Hk' as [-> _], Hk as [-> _]|].
    intros k4 Hin4. apply (ends_leave n n); [done|done|]. intros _. by exists t.
  - destruct Hb as (Hh' & Hv'). rewrite Hv in Hv'. apply (ends_leave n (S n)); [lia| |done].
    eapply inside_side; [done|done|]. eapply (recorded_bind _ []); [by rewrite app_nil_r|]. cbn. lia.
Qed.

Lemma shape_struct k p s : kn_objects k !! p = Some (2, SurfaceData s) ->
  shape_at k p = Some (is_width s, is_height s, sd_pixel_format (is_descriptor s)).
Proof using Type. unfold shape_at. by intros ->. Qed.
Lemma texture_ends n d id : minv Unlocked (S (S n)) m0 k0 -> dinv (S (S n)) sl m0 k0 d -> id ∉ sl ->
  0 <= gs_next_texture_id g0 -> gs_next_texture_id g0 + 1 < 2 ^ 32 ->
  ends n (fun r g => r.1 = kIOReturnSuccess -> r.2 = Some (gs_next_texture_id g0) /\
            exists p width height format t, sm_surface_map m0 !! id = Some p /\ shape_at k0 p = Some (width, height, format) /\
              entries gs_textures g = entries gs_textures g0 ++ [mk_texture (gs_next_texture_id g0) id width height format t true])
    (createTextureFromSurface id true) (mk_gworld g0 (mk_iow m0 d k0)).
Proof using Hfree.
  intros Hm Hd Hid Hn0 Hn1. unfold createTextureFromSurface.
  assert (Hm' : minv Unlocked n m0 k0) by (eapply minv_less; [|exact Hm]; lia).
  assert (Hd' : dinv n sl m0 k0 d) by (eapply dinv_less; [|exact Hd]; lia).
  destruct (_ || _); [by apply ends_ret|].
  eapply ends_bind; [reflexivity|]. destruct (negb (_ && _)); [by apply ends_ret|].
  apply (ends_open n (S n) _ (fun r => (r, None))); try done; [lia|]. intros p s d1 k1 Hp Ho Hok Hin.
  destruct (so_buffer _ _ _ Hok) as (buf & x & -> & _). cbn [is_some negb].
  pose proof (rc_heap _ _ _ _ (in_records _ _ _ _ Hin)) as Hheap.
  eapply ends_bind; [reflexivity|]. eapply ends_bind; [reflexivity|]. cbn [gw_gpu gw_iow].
  set (id' := gs_next_texture_id g0) in *. set (g1 := set_gs_next_texture_id (u32 (id' + 1)) g0).
  destruct (array_made_run gs_textures set_gs_textures ltac:(by intros []) g1 mL d1 k1) as (b & v & k2 & E & Hk & Hh & Hv).
  eapply ends_bind; [exact E|]. assert (Hr : recorded 1 g0 (set_gs_textures v g1) (kn_heap k2 - kn_heap k0)).
  { apply (recorded_texture _ []); [done|done|by rewrite app_nil_r|cbn; lia|by left]. }
  assert (Hin2 : inside (S n) (set_gs_textures v g1) d1 k2) by by eapply inside_side.
  destruct b; cbn [negb]; [|by apply (ends_leave n (S n)); [lia| |]].
  destruct (keep_entry_run gs_textures set_gs_textures ltac:(by intros []) SIZEOF_GPU_TEXTURE false
    (fun t => mk_texture id' id (is_width s) (is_height s) (sd_pixel_format (is_descriptor s)) t true)
    (set_gs_textures v g1) mL d1 k2) as (b & v' & k3 & E' & Hk' & Hb).
  eapply ends_bind; [exact E'|]. change (set_gs_textures v' (set_gs_textures v g1)) with (set_gs_textures v' g1).
  unfold entries in Hb. cbn in Hb. destruct b; cbn [negb].
  - destruct Hb as (Hh' & t & Hv'). rewrite Hv in Hv'.
    assert (Hin3 : inside (S n) (set_gs_textures v' g1) d1 k3).
    { eapply inside_side; [done|done|]. eapply recorded_texture; [done|done|exact Hv'|cbn; lia|right; by eexists]. }
    apply (ends_touch n n _ _ _ _ _ p s); [done|by destruct Hk' as [-> _], Hk as [-> _]|].
    intros k4 Hin4. apply (ends_leave n n); [done|done|]. intros _. split; [done|].
    exists p, (is_width s), (is_height s), (sd_pixel_format (is_descriptor s)), t. split; [done|]. split; [|done].
    rewrite <- (in_shapes _ _ _ _ Hin). by apply shape_struct.
  - destruct Hb as (Hh' & Hv'). rewrite Hv in Hv'. apply (ends_leave n (S n)); [lia| |done].
    eapply inside_side; [done|done|]. eapply (recorded_texture _ []); [done|done|by rewrite app_nil_r|cbn; lia|by left].
Qed.

(** What [updateSurfaceFromTexture] answers. *)
Definition update_answer (m : manager) (k : iokern) (g : gpu_state) (surface_id texture_id : Z) : IOReturn :=
  if (surface_id =? 0) || (texture_id =? 0) then kIOReturnBadArgument
  else if negb (sm_supports_hardware m && sm_gpu_device m) then kIOReturnUnsupported
  else match sm_surface_map m !! surface_id with
       | None => kIOReturnNotFound
       | Some p =>
           match find_texture texture_id (entries gs_textures g) with
           | None => kIOReturnNotFound
           | Some t => if bool_decide (shape_at k p = Some (gt_width t, gt_height t, gt_pixel_format t))
                       then kIOReturnSuccess else kIOReturnBadArgument
           end
       end.
Lemma texture_matches_shape s t : texture_matches s t =
  bool_decide (Some (is_width s, is_height s, sd_pixel_format (is_descriptor s)) = Some (gt_width t, gt_height t, gt_pixel_format t)).
Proof using Type.
  unfold texture_matches. destruct (bool_decide_reflect (Some (is_width s, is_height s, sd_pixel_format (is_descriptor s)) = Some (gt_width t, gt_height t, gt_pixel_format t))) as [[= -> -> ->]|H].
  - by rewrite !Z.eqb_refl.
  - apply not_true_iff_false. intros E. apply andb_true_iff in E as [E E3]. apply andb_true_iff in E as [E1 E2].
    apply Z.eqb_eq in E1, E2, E3. apply H. congruence.
Qed.
Lemma update_ends n d id texture : minv Unlocked (S (S n)) m0 k0 -> dinv (S (S n)) sl m0 k0 d -> id ∉ sl ->
  ends n (fun r g => r = update_answer m0 k0 g0 id texture /\ gs_textures g = gs_textures g0)
    (updateSurfaceFromTexture id texture) (mk_gworld g0 (mk_iow m0 d k0)).
Proof using Hfree.
  intros Hm Hd Hid. unfold updateSurfaceFromTexture, update_answer.
  assert (Hm' : minv Unlocked n m0 k0) by (eapply minv_less; [|exact Hm]; lia).
  assert (Hd' : dinv n sl m0 k0 d) by (eapply dinv_less; [|exact Hd]; lia).
  destruct (_ || _); [by apply ends_ret|].
  eapply ends_bind; [reflexivity|]. cbn [gw_iow io_mgr]. destruct (negb (_ && _)); [by apply ends_ret|].
  apply (ends_open n (S n) _ status); try done; [lia|by intros ->|]. intros p s d1 k1 Hp Ho Hok Hin. rewrite Hp.
  destruct (so_buffer _ _ _ Hok) as (buf & x & -> & -> & _). cbn [is_some negb andb].
  eapply ends_bind; [reflexivity|]. cbn [gw_gpu]. destruct (find_texture _ _) as [t|]; [|by apply (ends_leave n (S n)); [lia| |]].
  rewrite texture_matches_shape, <- (shape_struct _ _ _ Ho), (in_shapes _ _ _ _ Hin p).
  destruct (bool_decide _); cbn [negb]; [|by apply (ends_leave n (S n)); [lia| |]].
  apply (ends_touch n n _ _ _ _ _ p s); [done|done|]. intros k4 Hin4. eapply ends_bind; [reflexivity|]. cbn [gw_gpu gw_iow].
  apply (ends_leave n n); [done| |done]. destruct Hin4 as [? ? ? []]. by constructor.
Qed.

Lemma sync_ends n d id : minv Unlocked (S (S n)) m0 k0 -> dinv (S (S n)) sl m0 k0 d -> gs_resources g0 = None ->
  ends n (fun r g => r <> kIOReturnSuccess /\ g = g0) (syncGPUResource id) (mk_gworld g0 (mk_iow m0 d k0)).
Proof using Hfree.
  intros Hm Hd Hg. unfold syncGPUResource.
  assert (Hm' : minv Unlocked n m0 k0) by (eapply minv_less; [|exact Hm]; lia).
  assert (Hd' : dinv n sl m0 k0 d) by (eapply dinv_less; [|exact Hd]; lia).
  destruct (_ =? _); [by apply ends_ret|].
  eapply ends_bind; [reflexivity|]. destruct (negb (_ && _)); [by apply ends_ret|].
  eapply ends_bind; [apply on_mgr_run, lock_run, Hfree|]. eapply ends_bind; [reflexivity|]. cbn [gw_gpu]. rewrite Hg. cbn [default sync_resources].
  eapply ends_bind; [reflexivity|]. eapply ends_bind; [reflexivity|]. cbn [is_some existsb negb gw_gpu gw_iow].
  replace (set_gs_resources None g0) with g0 by (destruct g0; cbn in *; by subst).
  apply (ends_leave n n); [done| |done]. constructor; [by eapply minv_set_lock|by apply (dinv_same _ _ m0 _ k0 k0)|done|].
  rewrite Z.sub_diag. apply (recorded_more 0); [lia|]. apply recorded_refl.
Qed.
End runs.

(** * Sessions *)
Inductive gpu_op :=
| GpuBindTexture (id texture : Z) | GpuBindBuffer (id buffer : Z)
| GpuTexture (id : Z) | GpuUpdate (id texture : Z) | GpuSync (id : Z)
| VideoColor (id c : Z) | VideoColorOf (id : Z) | VideoAttach (id decoder : Z) | VideoDetach (id : Z).
Definition drop_gpu {A} (prog : M gworld A) : M gworld unit := prog ;;; ret tt.
Definition gpu_perform (o : gpu_op) : M gworld unit :=
  match o with
  | GpuBindTexture id t => drop_gpu (bindSurfaceToTexture id t)
  | GpuBindBuffer id b => drop_gpu (bindSurfaceToBuffer id b)
  | GpuTexture id => drop_gpu (createTextureFromSurface id true)
  | GpuUpdate id t => drop_gpu (updateSurfaceFromTexture id t)
  | GpuSync id => drop_gpu (syncGPUResource id)
  | VideoColor id c => drop_gpu (setVideoSurfaceColorSpace id c)
  | VideoColorOf id => drop_gpu (getVideoSurfaceColorSpace id true)
  | VideoAttach id dec => drop_gpu (attachVideoDecoder id dec)
  | VideoDetach id => drop_gpu (detachVideoDecoder id)
  end.
Fixpoint gpu_session (ops : list gpu_op) : M gworld unit :=
  match ops with [] => ret tt | o :: rest => gpu_perform o ;;; gpu_session rest end.
Definition gpu_looks_up (o : gpu_op) : list Z :=
  match o with GpuBindTexture id _ | GpuBindBuffer id _ | GpuTexture id | GpuUpdate id _ => [id] | _ => [] end.

(** Nothing adds resources or video surfaces; ids do not wrap round. *)
Record gpu_plain (n : nat) (g : gpu_state) : Prop := {
  gp_none : gs_resources g = None /\ gs_videos g = None /\ gs_decoders g = None;
  gp_next : 0 < gs_next_texture_id g /\ gs_next_texture_id g + Z.of_nat n < 2 ^ 32
}.
Lemma plain_less n n' g : (n' <= n)%nat -> gpu_plain n g -> gpu_plain n' g.
Proof. intros Hn [H1 H2]. constructor; [done|lia]. Qed.
Lemma plain_recorded n i g g' h : recorded (Z.of_nat i) g g' h -> gpu_plain (i + n) g -> gpu_plain n g'.
Proof. intros [_ _ _ Hn (E1 & E2 & E3 & _)] [H1 H2]. constructor; [by rewrite E1, E2, E3|lia]. Qed.

Section session.
Context (sl : list Z) (m0 : manager).
Lemma ends_drop {A} n k0 g0 Q (prog : M gworld A) w :
  ends sl m0 k0 g0 n Q prog w -> ends sl m0 k0 g0 n (fun _ _ => True) (drop_gpu prog) w.
Proof using Type.
  intros (a & g & d & k & E & H1 & H2 & H3 & H4 & _). exists tt, g, d, k. split; [|done].
  unfold drop_gpu. by rewrite (bind_gpu _ _ _ _ _ E).
Qed.
(** A method on a video surface, when there is none. *)
Lemma ends_video {A} n k0 g0 d id (r : A) (F : nat * video_surface -> M gworld A) :
  sm_surface_lock m0 = Unlocked -> minv Unlocked (S n) m0 k0 -> dinv (S n) sl m0 k0 d -> gs_videos g0 = None ->
  ends sl m0 k0 g0 n (fun _ _ => True)
    (locked ;;; let! found := find_video id in match found with None => leave r | Some iv => F iv end) (mk_gworld g0 (mk_iow m0 d k0)).
Proof using Type.
  intros Hf Hm Hd Hg. eapply ends_bind; [apply on_mgr_run, lock_run, Hf|]. eapply ends_bind; [reflexivity|].
  unfold entries. cbn [gw_gpu]. rewrite Hg. cbn [default index_of]. apply (ends_leave sl m0 k0 g0 Hf n (S n)); [lia| |done].
  constructor; [by eapply minv_set_lock|by apply (dinv_same _ _ m0 _ k0 k0)|done|].
  rewrite Z.sub_diag. apply (recorded_more 0); [lia|]. apply recorded_refl.
Qed.
Lemma perform_ends n k0 g0 d o : minv Unlocked (S (S n)) m0 k0 -> dinv (S (S n)) sl m0 k0 d -> gpu_plain 1 g0 ->
  Forall (fun id => id ∉ sl) (gpu_looks_up o) ->
  ends sl m0 k0 g0 n (fun _ _ => True) (gpu_perform o) (mk_gworld g0 (mk_iow m0 d k0)).
Proof using Type.
  intros Hm Hd [(R1 & R2 & R3) [N1 N2]] Hf. pose proof (mi_lock _ _ _ _ Hm) as Hfree.
  assert (Hm' : minv Unlocked (S n) m0 k0) by (eapply minv_less; [|exact Hm]; lia).
  assert (Hd' : dinv (S n) sl m0 k0 d) by (eapply dinv_less; [|exact Hd]; lia).
  assert (Hm2 : minv Unlocked n m0 k0) by (eapply minv_less; [|exact Hm]; lia).
  assert (Hd2 : dinv n sl m0 k0 d) by (eapply dinv_less; [|exact Hd]; lia).
  destruct o; cbn [gpu_perform gpu_looks_up] in *; try apply Forall_cons in Hf as [Hid _].
  - eapply ends_drop, bind_ends; try done. - eapply ends_drop, bind_ends; try done.
  - eapply ends_drop, texture_ends; try done; lia. - eapply ends_drop, update_ends; try done.
  - eapply ends_drop, sync_ends; try done.
  - apply (ends_drop _ _ _ (fun _ _ => True)). unfold setVideoSurfaceColorSpace. destruct (_ =? _); [by apply ends_ret|].
    apply (ends_video n k0 g0 d id kIOReturnNotFound (fun iv => let '(i, v) := iv in _)); done.
  - apply (ends_drop _ _ _ (fun _ _ => True)). unfold getVideoSurfaceColorSpace. destruct (_ || _); [by apply ends_ret|].
    apply (ends_video n k0 g0 d id (kIOReturnNotFound, None) (fun iv => let '(i, v) := iv in _)); done.
  - apply (ends_drop _ _ _ (fun _ _ => True)). unfold attachVideoDecoder. destruct (_ || _); [by apply ends_ret|].
    apply (ends_video n k0 g0 d id kIOReturnNotFound (fun iv => let '(i, v) := iv in _)); done.
  - apply (ends_drop _ _ _ (fun _ _ => True)). unfold detachVideoDecoder. destruct (_ =? _); [by apply ends_ret|].
    apply (ends_video n k0 g0 d id kIOReturnNotFound (fun iv => let '(i, v) := iv in _)); done.
Qed.
Lemma gpu_session_run ops n k0 g0 d : minv Unlocked (2 * length ops + n) m0 k0 -> dinv (2 * length ops + n) sl m0 k0 d ->
  gpu_plain (length ops) g0 -> Forall (fun id => id ∉ sl) (ops ≫= gpu_looks_up) ->
  exists g d' k, gpu_session ops (mk_gworld g0 (mk_iow m0 d k0)) = (tt, mk_gworld g (mk_iow m0 d' k))
    /\ minv Unlocked n m0 k /\ dinv n sl m0 k d' /\ same_shapes k0 k
    /\ recorded (Z.of_nat (length ops)) g0 g (kn_heap k - kn_heap k0).
Proof using Type.
  revert n k0 g0 d. induction ops as [|o ops IH]; intros n k0 g0 d Hm Hd Hg Hf.
  { exists g0, d, k0. split_and!; try done. rewrite Z.sub_diag. apply recorded_refl. }
  cbn [mbind list_bind] in Hf. apply Forall_app in Hf as [Hf1 Hf2]. cbn [length] in *.
  replace (2 * S (length ops) + n)%nat with (S (S (2 * length ops + n))) in Hm, Hd by lia.
  destruct (perform_ends _ _ g0 _ o Hm Hd ltac:(eapply plain_less; [|exact Hg]; lia) Hf1) as ([] & g1 & d1 & k1 & E & Hm1 & Hd1 & Hs1 & Hr1 & _).
  destruct (IH n k1 g1 d1 Hm1 Hd1 ltac:(eapply (plain_recorded _ 1); [exact Hr1|exact Hg]) Hf2) as (g2 & d2 & k2 & E2 & Hm2 & Hd2 & Hs2 & Hr2).
  exists g2, d2, k2. cbn [gpu_session]. rewrite (bind_gpu _ _ _ _ _ E). split_and!; try done.
  - intros p. by rewrite Hs2.
  - replace (Z.of_nat (S (length ops))) with (1 + Z.of_nat (length ops)) by lia.
    replace (kn_heap k2 - kn_heap k0) with ((kn_heap k1 - kn_heap k0) + (kn_heap k2 - kn_heap k1)) by lia. by eapply recorded_trans.
Qed.
End session.

(** ** Mixed with the other methods, from the start *)
Definition mixed_op : Type := surface_op + gpu_op.
Definition mixed_perform (o : mixed_op) : M gworld unit :=
  match o with inl o => on_mgr (perform o) | inr o => gpu_perform o end.
Fixpoint mixed_session (ops : list mixed_op) : M gworld unit :=
  match ops with [] => ret tt | o :: rest => mixed_perform o ;;; mixed_session rest end.
Definition mixed_after (stale : list Z) (o : mixed_op) : list Z :=
  match o with inl o => stale_after stale o | inr _ => stale end.
Definition mixed_end (stale : list Z) (ops : list mixed_op) : list Z := foldl mixed_after stale ops.
Fixpoint mixed_tame (stale : list Z) (ops : list mixed_op) : Prop :=
  match ops with
  | [] => True
  | o :: rest =>
      match o with
      | inl o => Forall (fun id => id ∉ stale) (looks_up o) /\ in_bounds o
      | inr o => Forall (fun id => id ∉ stale) (gpu_looks_up o)
      end /\ mixed_tame (mixed_after stale o) rest
  end.
Definition gpu_life (device : bool) (ops : list mixed_op) : M gworld bool :=
  let! ok := on_mgr (initWithAccelerator (Some device)) in
  if ok then setup_video ;;; mixed_session ops ;;; ret true else ret false.
Definition gpu_start : gpu_state := set_gs_supports_video true initial_gpu.
(** The records since the start. *)
Definition mixed_good (n i : nat) (sl : list Z) (w : gworld) : Prop :=
  good Unlocked n sl (gw_iow w) /\ exists h, recorded (Z.of_nat i) gpu_start (gw_gpu w) h.
Lemma mixed_plain n i sl w : mixed_good n i sl w -> Z.of_nat (i + n) < 2 ^ 31 -> gpu_plain n (gw_gpu w).
Proof.
  intros [_ [h Hr]] Hn. eapply plain_recorded; [exact Hr|]. constructor; [done|]. change (gs_next_texture_id gpu_start) with 1. lia.
Qed.
Lemma mixed_good_session ops n i sl w : Z.of_nat (i + 4 * length ops + n) < 2 ^ 31 -> mixed_tame sl ops ->
  mixed_good (3 * length ops + n) i sl w -> mixed_good n (i + length ops) (mixed_end sl ops) (mixed_session ops w).2.
Proof.
  revert i sl w. induction ops as [|o ops IH]; intros i sl w Hb Ht Hw.
  { cbn [length] in *. by rewrite Nat.add_0_r. }
  cbn [length] in *. destruct Ht as [H1 H2]. cbn [mixed_session mixed_end foldl].
  replace (i + S (length ops))%nat with (S i + length ops)%nat by lia.
  assert (Hstep : mixed_good (3 * length ops + n) (S i) (mixed_after sl o) (mixed_perform o w).2).
  { pose proof Hw as [Hg [h Hr]]. destruct w as [g v]. cbn [gw_gpu gw_iow] in *. destruct o as [o|o]; cbn [mixed_perform mixed_after].
    - destruct H1 as [Hf Hi].
      pose proof (perform_good sl (3 * length ops + n) o) as Hp. specialize (Hp Hf Hi v).
      replace (3 + (3 * length ops + n))%nat with (3 * S (length ops) + n)%nat in Hp by lia. specialize (Hp Hg).
      unfold on_mgr. cbn [gw_iow gw_gpu]. destruct (perform o v) as [u v']. split; [exact Hp|]. exists h. cbn. eapply recorded_more; [|exact Hr]. lia.
    - destruct v as [m d k]. destruct Hg as [Hm Hd]. cbn in Hm, Hd.
      pose proof (mixed_plain _ _ _ _ Hw ltac:(cbn; lia)) as Hpl. cbn [gw_gpu] in Hpl.
      destruct (perform_ends sl m (3 * length ops + n) k g d o) as (u & g1 & d1 & k1 & -> & Hm1 & Hd1 & _ & Hr1 & _); try done.
      { eapply minv_less; [|done]; lia. } { eapply dinv_less; [|done]; lia. } { eapply plain_less; [|done]; lia. }
      split; [by split|]. eexists. replace (Z.of_nat (S i)) with (Z.of_nat i + 1) by lia. eapply recorded_trans; [exact Hr|exact Hr1]. }
  unfold bind. destruct (mixed_perform o w) as [u w1]. cbn [snd] in Hstep. apply IH; [lia|done|done].
Qed.
Lemma gpu_life_good device ops w n :
  clean_start (gw_iow w) -> gw_gpu w = initial_gpu -> Z.of_nat (4 * length ops + n) < 2 ^ 30 -> mixed_tame [] ops ->
  let '(ok, w') := gpu_life device ops w in ok = true -> mixed_good n (length ops) (mixed_end [] ops) w'.
Proof.
  intros Hw Hg Hn Ht. destruct w as [g v]. cbn in Hw, Hg. subst g. unfold gpu_life, bind at 1, on_mgr at 1. cbn [gw_iow gw_gpu].
  pose proof (init_good device (3 * length ops + n) v Hw ltac:(lia)) as Hi.
  destruct (initWithAccelerator (Some device) v) as [ok v1]. destruct ok; [|done]. specialize (Hi eq_refl).
  unfold setup_video. unfold bind at 1, bind at 1, upd_gpu, modify, on_mgr at 1. cbn [gw_iow gw_gpu].
  pose proof (setup_good _ _ _ _ Hi) as Hs. destruct (setupIOSurfaceSupport v1) as [r v2]. cbn [snd] in Hs.
  pose proof (mixed_good_session ops n 0 [] (mk_gworld gpu_start v2) ltac:(lia) Ht) as H.
  unfold bind. change (set_gs_supports_video true initial_gpu) with gpu_start. destruct (mixed_session ops _) as [u w3]. intros _. apply H.
  split; [exact Hs|]. exists 0. apply recorded_refl.
Qed.

(** * The theorems *)
(** Through any session that mixes the methods of the manager and those on bindings,
    textures, resources and video surfaces, from [initWithAccelerator] and
    [setupIOSurfaceSupport] on: the lock is free, nothing has faulted, the tables of surfaces
    are sound; the textures recorded have rising ids below the next one; and no resource, video
    surface or decoder is ever recorded. *)
Theorem gpu_records_sound device ops (w : gworld) :
  clean_start (gw_iow w) -> gw_gpu w = initial_gpu -> Z.of_nat (length ops) < 2 ^ 27 -> mixed_tame [] ops ->
  let '(ok, w1) := gpu_life device ops w in
  ok = true ->
  let m := io_mgr (gw_iow w1) in let k := io_kern (gw_iow w1) in let g := gw_gpu w1 in
  sm_surface_lock m = Unlocked /\ kn_fault k = false /\ tables_ok m k
  /\ StronglySorted Z.lt (gt_texture_id <$> entries gs_textures g)
  /\ Forall (fun t => gt_active t = true /\ 1 <= gt_texture_id t < gs_next_texture_id g) (entries gs_textures g)
  /\ gs_resources g = None /\ gs_videos g = None /\ gs_decoders g = None.
Proof.
  intros Hw Hg Hn Ht. pose proof (gpu_life_good device ops w 0 Hw Hg ltac:(lia) Ht) as H.
  destruct (gpu_life device ops w) as [ok w1]. intros Hok. destruct (H Hok) as [[Hm Hd] [h [(new & E & Hs & Hf) _ _ _ (E1 & E2 & E3 & _)]]].
  cbv zeta. rewrite E. split; [apply Hm|]. split; [apply Hm|]. split; [by eapply minv_tables|]. by split_and!.
Qed.
Definition demo_gpu : gworld := mk_gworld initial_gpu demo_start.
Definition demo_mixed : list mixed_op :=
  [inl (OpCreate (demo_desc 4 2 FORMAT_BGRA32)); inl (OpCreate (demo_desc 4 2 FORMAT_RGBA32)); inr (GpuTexture 1); inr (GpuTexture 2);
   inl (OpLock 1 0); inr (GpuBindTexture 1 1); inr (GpuUpdate 1 2); inr (GpuSync 1); inr (VideoAttach 1 7)].
Lemma demo_mixed_tame : mixed_tame [] demo_mixed.
Proof.
  cbn. split_and!; first
    [ done | apply Forall_nil_2 | apply Forall_singleton; set_solver | apply demo_desc_ok; [set_solver|lia|lia] ].
Qed.
Lemma gpu_records_sound_witness :
  let '(ok, w1) := gpu_life true demo_mixed demo_gpu in
  ok = true /\ (gt_texture_id <$> entries gs_textures (gw_gpu w1)) = [1; 2]
  /\ sm_surface_lock (io_mgr (gw_iow w1)) = Unlocked /\ gs_decoders (gw_gpu w1) = None.
Proof.
  pose proof (gpu_records_sound true demo_mixed demo_gpu demo_clean eq_refl ltac:(cbn; lia) demo_mixed_tame) as H.
  assert (E : (gpu_life true demo_mixed demo_gpu).1 = true) by (vm_compute; reflexivity).
  assert (E2 : (gt_texture_id <$> entries gs_textures (gw_gpu (gpu_life true demo_mixed demo_gpu).2)) = [1; 2]) by (vm_compute; reflexivity).
  destruct (gpu_life true demo_mixed demo_gpu) as [ok w1]. cbn [fst snd] in E, E2. specialize (H E). cbv zeta in H.
  split; [exact E|]. split; [exact E2|]. split; apply H.
Defined.

Lemma find_texture_made l x new : Forall (fun t => gt_texture_id t < gt_texture_id x) l -> gt_active x = true ->
  find_texture (gt_texture_id x) ((l ++ [x]) ++ new) = Some x.
Proof.
  intros Hl Ha. induction Hl as [|t l Ht Hl IH]; cbn; unfold texture_named; [by rewrite Ha, Z.eqb_refl|].
  destruct (Z.eqb_spec (gt_texture_id t) (gt_texture_id x)); [lia|]. by rewrite andb_false_r.
Qed.
(** C18: A texture made from a surface serves it, and every surface of its shape, from then on. After
    any such session, when [createTextureFromSurface] answers success for [id], the texture id it
    writes is fresh; and after any further bindings, textures, updates and syncs,
    [updateSurfaceFromTexture] with that texture answers success for exactly the surfaces of
    the width, height and format of [id], and bad argument for the others. *)
Theorem texture_round_trip device ops (w : gworld) id gpu_ops id2 p p2 :
  clean_start (gw_iow w) -> gw_gpu w = initial_gpu -> Z.of_nat (length ops + length gpu_ops) < 2 ^ 27 -> mixed_tame [] ops ->
  Forall (fun id => id ∉ mixed_end [] ops) (id :: id2 :: (gpu_ops ≫= gpu_looks_up)) ->
  let '(ok, w1) := gpu_life device ops w in
  let '(r, w2) := createTextureFromSurface id true w1 in
  let m := io_mgr (gw_iow w1) in let k := io_kern (gw_iow w1) in
  ok = true -> r.1 = kIOReturnSuccess -> sm_surface_map m !! id = Some p -> id2 <> 0 -> sm_surface_map m !! id2 = Some p2 ->
  exists texture, r.2 = Some texture /\ (texture ∉ (gt_texture_id <$> entries gs_textures (gw_gpu w1)))
  /\ (updateSurfaceFromTexture id2 texture (gpu_session gpu_ops w2).2).1
     = (if bool_decide (shape_at k p2 = shape_at k p) then kIOReturnSuccess else kIOReturnBadArgument).
Proof.
  intros Hw Hg Hn Ht Hf. apply Forall_cons in Hf as [Hid Hf]. apply Forall_cons in Hf as [Hid2 Hf].
  pose proof (gpu_life_good device ops w (6 + (2 * length gpu_ops)) Hw Hg ltac:(lia) Ht) as H.
  destruct (gpu_life device ops w) as [ok [g1 [m d k]]]. destruct (createTextureFromSurface id true _) as [r w2] eqn:E2. cbv zeta. cbn [gw_iow gw_gpu io_mgr io_kern].
  intros Hok Hr Hp Hnz Hp2. specialize (H Hok). pose proof (mixed_plain _ _ _ _ H ltac:(cbn; lia)) as Hpl. destruct H as [[Hm Hd] [h Hrec]]. cbn [gw_iow gw_gpu io_mgr io_kern io_disc] in *.
  destruct (gp_next _ _ Hpl) as [N1 N2].
  destruct (texture_ends (mixed_end [] ops) m k g1 (mi_lock _ _ _ _ Hm) (4 + 2 * length gpu_ops) d id Hm Hd Hid ltac:(lia) ltac:(lia))
    as (r' & g2 & d2 & k2 & E2' & Hm2 & Hd2 & Hs2 & Hr2 & HQ). rewrite E2 in E2'. injection E2' as -> ->.
  destruct (HQ Hr) as (Er & q & wd & ht & f & t & Hq & Hsh & Et). assert (q = p) as -> by congruence.
  assert (Hpl2 : gpu_plain (length gpu_ops) g2).
  { eapply (plain_recorded _ 1); [exact Hr2|]. eapply plain_less; [|exact Hpl]. lia. }
  destruct (gpu_session_run (mixed_end [] ops) m gpu_ops 4 k2 g2 d2) as (g3 & d3 & k3 & -> & Hm3 & Hd3 & Hs3 & Hr3); try done.
  { eapply minv_less; [|exact Hm2]. lia. } { eapply dinv_less; [|exact Hd2]. lia. }
  cbn [snd]. set (texture := gs_next_texture_id g1) in *. exists texture. split; [done|].
  assert (Hlow : Forall (fun t => gt_texture_id t < texture) (entries gs_textures g1)).
  { destruct Hrec as [(new & En & _ & Hnew) _ _ _ _]. rewrite En. eapply Forall_impl; [exact Hnew|]. intros x. cbn. lia. }
  split.
  { intros Hin. apply list_elem_of_fmap in Hin as (x & Ex & Hx). rewrite Forall_forall in Hlow. specialize (Hlow x Hx). cbn in Hlow. lia. }
  destruct (update_ends (mixed_end [] ops) m k3 g3 (mi_lock _ _ _ _ Hm) 2 d3 id2 texture Hm3 Hd3 Hid2) as (r3 & g4 & d4 & k4 & -> & _ & _ & _ & _ & -> & _).
  cbn [fst]. unfold update_answer. destruct (Z.eqb_spec id2 0); [done|]. destruct (Z.eqb_spec texture 0); [lia|]. cbn [orb].
  assert (Hhw : sm_supports_hardware m && sm_gpu_device m = true).
  { revert E2 Hr. unfold createTextureFromSurface. destruct (_ || _); [by intros E; apply (f_equal fst) in E; cbn in E; rewrite <- E|].
    unfold bind at 1, hardware, on_mgr, get_mgr, gets. cbn [gw_iow io_mgr]. destruct (_ && _); [done|]. by intros E; apply (f_equal fst) in E; cbn in E; rewrite <- E. }
  rewrite Hhw, Hp2. cbn [negb]. destruct Hr3 as [(new & En & _) _ _ _ _]. rewrite En, Et.
  set (x := mk_texture texture id wd ht f t true). pose proof (find_texture_made (entries gs_textures g1) x new Hlow eq_refl) as Hx. change (gt_texture_id x) with texture in Hx. rewrite Hx.
  cbn [gt_width gt_height gt_pixel_format x]. by rewrite Hs3, Hs2, Hsh.
Qed.
Definition demo_gpu_ops : list gpu_op := [GpuTexture 2; GpuBindBuffer 2 5; GpuSync 1].
Lemma texture_round_trip_witness :
  let '(ok, w1) := gpu_life true demo_mixed demo_gpu in
  let '(r, w2) := createTextureFromSurface 1 true w1 in
  let w3 := (gpu_session demo_gpu_ops w2).2 in
  ok = true /\ r = (kIOReturnSuccess, Some 3)
  /\ (updateSurfaceFromTexture 1 3 w3).1 = kIOReturnSuccess /\ (updateSurfaceFromTexture 2 3 w3).1 = kIOReturnBadArgument.
Proof.
  assert (Hf : forall i, Forall (fun id => id ∉ mixed_end [] demo_mixed) (1 :: i :: (demo_gpu_ops ≫= gpu_looks_up))).
  { intros i. rewrite Forall_forall. intros j _ H. by apply elem_of_nil in H. }
  pose proof (texture_round_trip true demo_mixed demo_gpu 1 demo_gpu_ops 1 2 2 demo_clean eq_refl ltac:(cbn; lia) demo_mixed_tame (Hf 1)) as H1.
  pose proof (texture_round_trip true demo_mixed demo_gpu 1 demo_gpu_ops 2 2 4 demo_clean eq_refl ltac:(cbn; lia) demo_mixed_tame (Hf 2)) as H2.
  assert (E : let '(ok, w1) := gpu_life true demo_mixed demo_gpu in
    let m := io_mgr (gw_iow w1) in let k := io_kern (gw_iow w1) in
    ok = true /\ (createTextureFromSurface 1 true w1).1 = (kIOReturnSuccess, Some 3)
    /\ sm_surface_map m !! 1 = Some 2 /\ sm_surface_map m !! 2 = Some 4
    /\ bool_decide (shape_at k 4 = shape_at k 2) = false) by (vm_compute; by split_and!).
  destruct (gpu_life true demo_mixed demo_gpu) as [ok w1]. destruct (createTextureFromSurface 1 true w1) as [r w2].
  cbv zeta in *. cbn [fst] in E. destruct E as (E & -> & Q1 & Q2 & S2).
  destruct (H1 E eq_refl Q1 ltac:(done) Q1) as (t1 & [= <-] & _ & ->). destruct (H2 E eq_refl Q1 ltac:(done) Q2) as (t2 & [= <-] & _ & ->).
  split; [done|]. split; [done|]. rewrite bool_decide_true by done. split; [done|]. by rewrite S2.
Defined.

(** The structs behind the records leak. Over any bindings, textures, updates and syncs after
    any such session, on the way leaving every surface as it was, the kernel's heap grows by
    exactly 32 bytes for each binding and 40 for each texture recorded, and no method gives
    them back: [OSData::withBytes] copied them, and only the copies are owned. *)
Theorem gpu_records_leak device ops (w : gworld) gpu_ops :
  clean_start (gw_iow w) -> gw_gpu w = initial_gpu -> Z.of_nat (length ops + length gpu_ops) < 2 ^ 27 -> mixed_tame [] ops ->
  Forall (fun id => id ∉ mixed_end [] ops) (gpu_ops ≫= gpu_looks_up) ->
  let '(ok, w1) := gpu_life device ops w in
  let w2 := (gpu_session gpu_ops w1).2 in
  ok = true ->
  io_mgr (gw_iow w2) = io_mgr (gw_iow w1)
  /\ (forall p, shape_at (io_kern (gw_iow w2)) p = shape_at (io_kern (gw_iow w1)) p)
  /\ exists bindings textures,
     entries gs_bindings (gw_gpu w2) = entries gs_bindings (gw_gpu w1) ++ bindings
     /\ entries gs_textures (gw_gpu w2) = entries gs_textures (gw_gpu w1) ++ textures
     /\ kn_heap (io_kern (gw_iow w2)) = kn_heap (io_kern (gw_iow w1))
        + SIZEOF_TEXTURE_BINDING * Z.of_nat (length bindings) + SIZEOF_GPU_TEXTURE * Z.of_nat (length textures).
Proof.
  intros Hw Hg Hn Ht Hf. pose proof (gpu_life_good device ops w (2 * length gpu_ops) Hw Hg ltac:(lia) Ht) as H.
  destruct (gpu_life device ops w) as [ok [g1 [m d k]]]. cbv zeta. intros Hok. specialize (H Hok).
  pose proof (mixed_plain _ _ _ _ H ltac:(cbn; lia)) as Hpl. destruct H as [[Hm Hd] _]. cbn [gw_iow gw_gpu io_mgr io_kern io_disc] in *.
  destruct (gpu_session_run (mixed_end [] ops) m gpu_ops 0 k g1 d) as (g3 & d3 & k3 & -> & _ & _ & Hs & Hr); try done.
  { by rewrite Nat.add_0_r. } { by rewrite Nat.add_0_r. } { eapply plain_less; [|exact Hpl]. lia. }
  cbn [snd gw_iow gw_gpu io_mgr io_kern]. split; [done|]. split; [done|].
  destruct Hr as [(new & E & _) (new' & E') Hh _ _]. exists new', new. split; [done|]. split; [done|].
  rewrite E, E', !length_app in Hh. lia.
Qed.
Lemma gpu_records_leak_witness :
  let '(ok, w1) := gpu_life true demo_mixed demo_gpu in
  let w2 := (gpu_session [GpuTexture 1; GpuBindTexture 1 3; GpuBindBuffer 2 4] w1).2 in
  ok = true /\ io_mgr (gw_iow w2) = io_mgr (gw_iow w1)
  /\ kn_heap (io_kern (gw_iow w2)) = kn_heap (io_kern (gw_iow w1)) + 104.
Proof.
  assert (Hf : Forall (fun id => id ∉ mixed_end [] demo_mixed) ([GpuTexture 1; GpuBindTexture 1 3; GpuBindBuffer 2 4] ≫= gpu_looks_up)).
  { rewrite Forall_forall. intros j _ H. by apply elem_of_nil in H. }
  pose proof (gpu_records_leak true demo_mixed demo_gpu [GpuTexture 1; GpuBindTexture 1 3; GpuBindBuffer 2 4] demo_clean eq_refl ltac:(cbn; lia) demo_mixed_tame Hf) as H.
  assert (E : let '(ok, w1) := gpu_life true demo_mixed demo_gpu in
    let w2 := (gpu_session [GpuTexture 1; GpuBindTexture 1 3; GpuBindBuffer 2 4] w1).2 in
    ok = true /\ (length (entries gs_bindings (gw_gpu w2)) = length (entries gs_bindings (gw_gpu w1)) + 2)%nat
    /\ (length (entries gs_textures (gw_gpu w2)) = length (entries gs_textures (gw_gpu w1)) + 1)%nat) by (vm_compute; by split_and!).
  destruct (gpu_life true demo_mixed demo_gpu) as [ok w1]. cbv zeta in *. destruct E as (E & B & T).
  destruct (H E) as (Em & _ & bs & ts & Eb & Et & Eh). rewrite Eb, length_app in B. rewrite Et, length_app in T.
  split; [done|]. split; [done|]. rewrite Eh. unfold SIZEOF_TEXTURE_BINDING, SIZEOF_GPU_TEXTURE. lia.
Defined.

(** ** Video surfaces *)
Definition stuck (w : gworld) : Prop := hung (gw_iow w).
Lemma stuck_on_mgr {A} (prog : M iow A) : hangs prog -> preserves stuck (on_mgr prog).
Proof. intros H [g v] Hw. unfold on_mgr. cbn. specialize (H v Hw). by destruct (prog v). Qed.
Lemma stuck_upd_gpu f : preserves stuck (upd_gpu f).
Proof. by intros w Hw. Qed.
#[local] Hint Resolve object_at_mgr now_mgr ask_mgr upd_kern_mgr surface_at_mgr upd_buffer_mgr release_buffer_mgr release_mgr put_surface_mgr : keeps.
Lemma createSurface_hangs d ptr : hangs (createSurface d ptr).
Proof.
  unfold createSurface, new_surface, allocateSurfaceId, allocateSurfaceMemory, releaseSurfaceId, lock, unlock, IOMalloc, IOFree, prepare,
    complete, withCapacity, withBytes, fresh_pointer, bytes_of, surfaces_add, map_set, array_add, dict_set, retain, put_object, count_surface, bump, get_mgr, get_kern.
  hang.
  apply hangs_upd. intros m Hm. destruct (sm_peak_surface_count m <? sm_surface_count m); exact Hm.
Qed.
(** With the lock held, a creation is refused before it takes the lock, or hangs on it. *)
Lemma createSurface_locked d w : sm_surface_lock (io_mgr w) = Locked ->
  (exists r id, createSurface (Some d) true w = ((r, id), w) /\ is_success r = false) \/ hung (createSurface (Some d) true w).2.
Proof.
  destruct w as [m dc k]. cbn [io_mgr]. intros E.
  destruct (is_success (validatePixelFormat (sm_supports_yuv m) (sd_pixel_format d))) eqn:Hs.
  2: { left. exists (validatePixelFormat (sm_supports_yuv m) (sd_pixel_format d)), None. split; [|exact Hs]. unfold createSurface. cbn [negb]. unfold bind at 1, get_mgr at 1, gets. cbn [io_mgr]. cbv zeta. by rewrite Hs. }
  destruct ((sd_width d =? 0) || (sd_height d =? 0) || (16384 <? sd_width d) || (16384 <? sd_height d)) eqn:Ho.
  { left. exists kIOReturnBadArgument, None. split; [|done]. unfold createSurface. cbn [negb]. unfold bind at 1, get_mgr at 1, gets. cbn [io_mgr].
    cbv zeta. by rewrite Hs, Ho. }
  right. assert (createSurface (Some d) true (mk_iow m dc k) = createSurface (Some d) true (mk_iow (set_sm_surface_lock Deadlocked m) dc k)) as ->.
  { unfold createSurface. cbn [negb]. set (K := fun yuv => _). unfold bind, get_mgr, gets. cbn [io_mgr].
    change (sm_supports_yuv (set_sm_surface_lock Deadlocked m)) with (sm_supports_yuv m). unfold K. cbv zeta. rewrite Hs, Ho. cbn [negb].
    unfold bind at 1, lock at 1, upd_mgr at 1, modify. cbn [io_mgr io_disc io_kern]. rewrite E. done. }
  by apply createSurface_hangs.
Qed.
Lemma stuck_keep {E} get_a (set_a : option (list E) -> gpu_state -> gpu_state) size freed entry :
  preserves stuck (keep_entry get_a set_a size freed entry).
Proof.
  unfold keep_entry, IOMalloc, IOFree.
  repeat first [ apply preserves_ret | apply stuck_upd_gpu | apply stuck_on_mgr; solve [hang] | apply preserves_bind; [|intros ?] | goal_case ].
Qed.
Lemma stuck_made {E} get_a (set_a : option (list E) -> gpu_state -> gpu_state) : preserves stuck (array_made get_a set_a).
Proof.
  unfold array_made.
  repeat first [ apply preserves_ret | apply preserves_gets | apply stuck_upd_gpu | apply stuck_on_mgr; solve [hang] | apply preserves_bind; [|intros ?] | goal_case ].
Qed.
Lemma stuck_leave {A} (r : A) : preserves stuck (leave r).
Proof. apply preserves_bind; [|intros _; apply preserves_ret]. apply stuck_on_mgr, hangs_upd. intros m H. cbn. by rewrite H. Qed.

(** [createVideoSurface] never makes a video surface. With the manager's lock free, whatever the
    state, the descriptor and the codec, it answers an error with everything as it was, or it
    hangs on the lock it holds when [createSurface] takes it again. *)
Theorem createVideoSurface_never_succeeds descriptor codec_type surface_id (w : gworld) :
  sm_surface_lock (io_mgr (gw_iow w)) = Unlocked ->
  let '(r, w') := createVideoSurface descriptor codec_type surface_id w in
  is_success r.1 = false /\ w' = w \/ sm_surface_lock (io_mgr (gw_iow w')) = Deadlocked.
Proof.
  destruct w as [g [m dc k]]. cbn [gw_iow io_mgr]. intros Hf. unfold createVideoSurface.
  destruct descriptor as [d|]; [|by left]. destruct surface_id; [|by left]. cbn [negb].
  unfold bind at 1, get_gpu at 1, gets. cbn [gw_gpu]. destruct (gs_supports_video g); cbn [negb]; [|by left].
  rewrite (bind_gpu _ _ _ _ _ (on_mgr_run _ _ _ _ _ (lock_run m dc k Hf))). set (mL := set_sm_surface_lock Locked m).
  assert (Hout : forall (r : IOReturn * option Z), is_success r.1 = false -> let '(r', w') := leave r (mk_gworld g (mk_iow mL dc k)) in
    is_success r'.1 = false /\ w' = mk_gworld g (mk_iow m dc k) \/ sm_surface_lock (io_mgr (gw_iow w')) = Deadlocked).
  { intros r Hr. unfold leave. rewrite (bind_gpu _ _ _ _ _ (on_mgr_run _ _ _ _ _ (unlock_run mL dc k eq_refl))). left. split; [done|].
    unfold mL. by rewrite relock. }
  unfold bind at 1, on_mgr at 1, get_mgr at 1, gets. cbn [gw_iow gw_gpu io_mgr].
  destruct (is_success (validateVideoPixelFormat _ _ _)) eqn:Hv; cbn [negb]; [|by apply Hout].
  destruct (createSurface_locked (video_usage codec_type d) (mk_iow mL dc k) eq_refl) as [(r & id & E & Hr)|Hh].
  - rewrite (bind_gpu _ _ _ _ _ (on_mgr_run _ _ _ _ _ E)). rewrite Hr. cbn [negb]. by apply Hout.
  - unfold bind at 1, on_mgr at 1. cbn [gw_iow gw_gpu]. destruct (createSurface _ true _) as [[r id] w1]. cbn [snd] in Hh.
    set (G := mk_gworld g w1). assert (HG : stuck G) by exact Hh. clearbody G.
    match goal with |- let '(r, w') := ?P G in _ => assert (Hp : preserves stuck P) end.
    { destruct (is_success r); cbn [negb]; [|apply stuck_leave].
      repeat first [ apply stuck_leave | apply stuck_made | apply stuck_keep | apply stuck_upd_gpu | apply stuck_on_mgr, destroySurface_hangs
        | apply preserves_bind; [|intros ?] | goal_case ]. }
    specialize (Hp G HG). match goal with |- let '(r, w') := ?x in _ => destruct x as [r' w'] end. by right.
Qed.
Lemma createVideoSurface_never_succeeds_witness :
  let d := demo_desc 4 2 FORMAT_BGRA32 in
  let '(r, w') := createVideoSurface (Some d) 0x264 true (mk_gworld gpu_start demo_start) in
  sm_surface_lock (io_mgr (gw_iow w')) = Deadlocked.
Proof.
  pose proof (createVideoSurface_never_succeeds (Some (demo_desc 4 2 FORMAT_BGRA32)) 0x264 true (mk_gworld gpu_start demo_start) eq_refl) as H.
  assert (E : sm_surface_lock (io_mgr (gw_iow (createVideoSurface (Some (demo_desc 4 2 FORMAT_BGRA32)) 0x264 true (mk_gworld gpu_start demo_start)).2)) = Deadlocked)
    by (vm_compute; reflexivity).
  cbv zeta. destruct (createVideoSurface _ _ _ _) as [r w']. destruct H as [[_ ->]|H]; [discriminate E|exact H].
Defined.

(** *** Decoders *)
Lemma remove_last_app {E} (f : E -> bool) l x : f x = true -> remove_last f (l ++ [x]) = l.
Proof. intros H. unfold remove_last. rewrite reverse_app, reverse_singleton. cbn [app remove_first]. by rewrite H, reverse_involutive. Qed.
Lemma find_video_run id i v g m d k : index_of (video_named id) (entries gs_videos g) = Some i -> entries gs_videos g !! i = Some v ->
  find_video id (mk_gworld g (mk_iow m d k)) = (Some (i, v), mk_gworld g (mk_iow m d k)).
Proof. intros H1 H2. unfold find_video, get_gpu, gets. cbn [gw_gpu]. cbv zeta. by rewrite H1, H2. Qed.
Lemma leave_run {A} (r : A) g m d k : sm_surface_lock m = Unlocked ->
  leave r (mk_gworld g (mk_iow (set_sm_surface_lock Locked m) d k)) = (r, mk_gworld g (mk_iow m d k)).
Proof. intros Hf. unfold leave. rewrite (bind_gpu _ _ _ _ _ (on_mgr_run _ _ _ _ _ (unlock_run (set_sm_surface_lock Locked m) d k eq_refl))). by rewrite relock. Qed.
Lemma index_of_insert_same {A} (f : A -> bool) l i x y : index_of f l = Some i -> l !! i = Some x -> f y = true ->
  index_of f (<[i := y]> l) = Some i.
Proof.
  revert i. induction l as [|a l IH]; intros i; cbn; [done|]. destruct (f a) eqn:Ha.
  - intros [= <-] _ Hy. cbn. by rewrite Hy.
  - destruct (index_of f l) as [j|] eqn:E; [|done]. intros [= <-] Hx Hy. cbn in *. rewrite Ha. change (S <$> index_of f (<[j:=y]> l) = Some (S j)). by rewrite (IH j).
Qed.
(** Attaching a decoder and detaching it again. For a video surface with none, in any state with
    the lock free: if the attachment succeeds, so does the detachment, and afterwards the video
    surfaces and the associations are those of before; an attachment that fails for want of
    memory is none the less entered in the video surface, without an association. *)
Theorem decoder_round_trip id decoder_id i v g m d k :
  sm_surface_lock m = Unlocked -> id <> 0 -> decoder_id <> 0 ->
  index_of (video_named id) (entries gs_videos g) = Some i -> entries gs_videos g !! i = Some v ->
  vs_decoder_attached v = false -> vs_decoder_id v = 0 ->
  let '(r1, w1) := attachVideoDecoder id decoder_id (mk_gworld g (mk_iow m d k)) in
  entries gs_videos (gw_gpu w1) !! i = Some (set_decoder decoder_id true v)
  /\ if is_success r1 then
       let '(r2, w2) := detachVideoDecoder id w1 in
       r2 = kIOReturnSuccess /\ entries gs_videos (gw_gpu w2) = entries gs_videos g
       /\ entries gs_decoders (gw_gpu w2) = entries gs_decoders g
     else entries gs_decoders (gw_gpu w1) = entries gs_decoders g.
Proof.
  intros Hf Hid Hdec Hi Hv Ha H0. unfold attachVideoDecoder. destruct (Z.eqb_spec id 0); [done|]. destruct (Z.eqb_spec decoder_id 0); [done|].
  cbn [orb]. unfold locked. rewrite (bind_gpu _ _ _ _ _ (on_mgr_run _ _ _ _ _ (lock_run m d k Hf))).
  rewrite (bind_gpu _ _ _ _ _ (find_video_run _ _ _ _ _ _ _ Hi Hv)), Ha. cbn [andb].
  assert (Hl : (i < length (entries gs_videos g))%nat) by by eapply lookup_lt_Some.
  set (v1 := set_decoder decoder_id true v). set (l1 := <[i := v1]> (entries gs_videos g)). set (g1 := set_gs_videos (Some l1) g).
  assert (Hl1 : l1 !! i = Some v1) by by apply list_lookup_insert_eq.
  rewrite (bind_gpu _ _ _ _ _ (eq_refl : put_video i v1 (mk_gworld g (mk_iow _ d k)) = (tt, mk_gworld g1 (mk_iow _ d k)))).
  destruct (array_made_run gs_decoders set_gs_decoders ltac:(by intros []) g1 (set_sm_surface_lock Locked m) d k) as (b & dv & k1 & E & _ & _ & Hdv).
  rewrite (bind_gpu _ _ _ _ _ E). destruct b; cbn [negb]; [|by rewrite leave_run].
  match goal with |- context [keep_entry _ _ ?z ?fr ?en] =>
    destruct (keep_entry_run gs_decoders set_gs_decoders ltac:(by intros []) z fr en (set_gs_decoders dv g1) (set_sm_surface_lock Locked m) d k1) as (b & dv' & k2 & E' & _ & Hb) end.
  rewrite (bind_gpu _ _ _ _ _ E'). change (entries gs_decoders (set_gs_decoders dv g1)) with (default [] dv) in Hb.
  destruct b; cbn [negb].
  2: { rewrite leave_run by done. split; [done|]. destruct Hb as [_ Hb]. by transitivity (default [] dv). }
  destruct Hb as (_ & t & Hb). rewrite Hdv in Hb. change (entries gs_decoders g1) with (entries gs_decoders g) in Hb.
  set (g2 := set_gs_attachments (u64 (gs_attachments g + 1)) (set_gs_decoders dv' (set_gs_decoders dv g1))).
  unfold bind at 1, upd_gpu at 1, modify. cbn [gw_gpu gw_iow]. change (set_gs_attachments _ _) with g2.
  rewrite leave_run by done. change (is_success kIOReturnSuccess) with true. cbv iota. split; [done|].
  unfold detachVideoDecoder. destruct (Z.eqb_spec id 0); [done|]. unfold locked.
  rewrite (bind_gpu _ _ _ _ _ (on_mgr_run _ _ _ _ _ (lock_run m d k2 Hf))).
  assert (Hi2 : index_of (video_named id) l1 = Some i).
  { eapply index_of_insert_same; [done|done|]. destruct (index_of_Some _ _ _ Hi) as (v' & Hv' & Hn & _). assert (v' = v) as -> by congruence. exact Hn. }
  rewrite (bind_gpu _ _ _ _ _ (find_video_run id i v1 g2 _ d k2 Hi2 Hl1)). cbn [vs_decoder_attached v1 set_decoder negb vs_decoder_id].
  destruct dv' as [ds|]; [|by destruct (entries gs_decoders g)]. cbn in Hb.
  unfold bind at 1, put_video, bind at 1, upd_gpu, modify. cbn [gw_gpu gw_iow set_gs_videos gs_decoders is_some g2 set_gs_attachments set_gs_decoders andb negb].
  destruct (Z.eqb_spec decoder_id 0); [done|]. cbn [negb]. rewrite leave_run by done. split; [done|]. cbn [gw_gpu]. split.
  - change (<[i := set_decoder 0 false v1]> l1 = entries gs_videos g). unfold l1. rewrite list_insert_insert_eq. apply list_insert_id. rewrite Hv. f_equal.
    destruct v as []. cbn in *. by subst.
  - change (remove_last (decodes decoder_id id) ds = entries gs_decoders g). rewrite Hb. apply remove_last_app. unfold decodes. cbn. by rewrite !Z.eqb_refl.
Qed.
Definition demo_video : gpu_state := set_gs_videos (Some [mk_video 3 0x264 1 0 5 false true]) gpu_start.
Lemma decoder_round_trip_witness :
  let '(r1, w1) := attachVideoDecoder 3 7 (mk_gworld demo_video demo_start) in
  let '(r2, w2) := detachVideoDecoder 3 w1 in
  r1 = kIOReturnSuccess /\ r2 = kIOReturnSuccess /\ entries gs_videos (gw_gpu w2) = [mk_video 3 0x264 1 0 5 false true].
Proof.
  pose proof (decoder_round_trip 3 7 0 (mk_video 3 0x264 1 0 5 false true) demo_video (io_mgr demo_start) (io_disc demo_start) (io_kern demo_start)
    eq_refl ltac:(done) ltac:(done) eq_refl eq_refl eq_refl eq_refl) as H.
  change (mk_iow (io_mgr demo_start) (io_disc demo_start) (io_kern demo_start)) with demo_start in H.
  assert (E : (attachVideoDecoder 3 7 (mk_gworld demo_video demo_start)).1 = kIOReturnSuccess) by (vm_compute; reflexivity).
  destruct (attachVideoDecoder 3 7 _) as [r1 w1]. cbn [fst] in E. subst r1. destruct H as [_ H]. change (is_success kIOReturnSuccess) with true in H. cbv iota in H.
  destruct (detachVideoDecoder 3 w1) as [r2 w2]. split; [done|]. split; apply H.
Defined.
(** Attached twice, a decoder has two associations; one stays after it is detached. *)
Example reattached_decoder_stays :
  let '(r1, w1) := attachVideoDecoder 3 7 (mk_gworld demo_video demo_start) in
  let '(r2, w2) := attachVideoDecoder 3 7 w1 in
  let '(r3, w3) := detachVideoDecoder 3 w2 in
  r2 = kIOReturnSuccess /\ r3 = kIOReturnSuccess
  /\ (vd_decoder_id <$> entries gs_decoders (gw_gpu w3)) = [7]
  /\ (vs_decoder_attached <$> entries gs_videos (gw_gpu w3)) = [false].
Proof. vm_compute. by split_and!. Qed.
